(* ===== verification/_CoqProject ===== *)
-Q . S2P
Prelude.v
PyStr.v
PySort.v
PyPath.v
GcovStream.v
CovGraph.v
Gcno.v
Gcda.v
CoverageReport.v
Sancov.v
ElfStructs.v
ElfParser.v
ElfSpec.v
ElfQueries.v
ElfSample.v
ElfReloc.v
Vtable.v
Archive.v
ArParser.v
ListUtils.v
FilterUtils.v
PyVal.v
Signals.v
Records.v
BaseTest.v
RunTests.v
Mirror.v
Instrumentation.v
CoverageUtils.v
BinaryTest.v
Corpus.v
CorpusSession.v
Shell.v
CpuScaling.v
HalServices.v
DeviceChecks.v
VtsSpec.v
BootImages.v
Config.v
TestRunner.v
Channel.v
TcpClient.v
TcpSpec.v
CallbackServer.v
ResourceMirror.v
FmqMirror.v
MemoryMirror.v
HandleMirror.v
FmqSpec.v
MirrorTracker.v
TrackerSpec.v
NativeMirror.v
HalMirror.v
WebReport.v
SancovUtils.v
GenePool.v
Profiling.v
PathTree.v
ReportFiles.v
LogUploading.v
Adb.v
DeviceOps.v
AndroidDevice.v
UserParams.v
Timeouts.v
HostCommands.v
ClassSetup.v
CoverageFeature.v
MsgqDriver.v
MsgqTests.v
Logger.v
MemoryTests.v
HandleTests.v
BinaryRun.v
ParamTest.v
HalGtest.v
HalReplay.v
FirmwareTests.v
LlvmFuzzer.v
MoblyTest.v
