(* ===== verification/Prelude.v ===== *)
(** * The host side of the Vendor Test Suite: a model and its theorems

    The program (Python 2, under [src/]) runs on a host computer next to an
    Android device.  A configuration names test classes; [runners/host] executes
    their tests and files the results; the templates in [testcases/template] turn
    binaries into tests; [utils/python] holds what tests need: coverage
    processing, the parsing of ELF files and archives, the conversion of values
    for HAL calls, filters, fuzzing corpora, timing.  This development models the
    parts whose behaviour is a computation on the host, leaving devices, networks
    and file systems as arguments.

    ** How Python is modelled

    A byte string (Python 2 [str]) is [PyStr.pystr], a list of bytes, with the
    built-in operations the code uses (negative slices, [strip], [split], [find],
    [int()]); sorting is stable ([PySort]), paths are [posixpath] ([PyPath]).
    Integers are [Z]; fields of a fixed width are encoded and decoded at that
    width.  A call that can raise returns [pyres] (this file), a parser that moves
    through a file is a state monad on top of it ([stM]), a generator yields a
    list and a result ([genM]).  The runner's exceptions carry data and are a type
    of their own ([Signals.exn], monad [xres]).  Objects that several places hold
    and change live in a store with references to it: filter lists ([FilterUtils]),
    records ([Records], [BaseTest]), timing events ([Instrumentation]), GCNO
    parsers ([CoverageUtils]); a graph of arcs and blocks is indexed
    ([CovGraph]).  Dictionaries are [gmap]s, or association lists where their
    order shows; an order that Python does not fix is a parameter.  Logging is
    left out except where the text is the product.

    ** The files, and what they model

    - PyStr, PySort, PyPath, PyVal: the Python built-ins above.
    - GcovStream ([coverage/parser.py]), CovGraph ([arc_summary.py],
      [block_summary.py], [function_summary.py], [file_summary.py]), Gcno
      ([gcno_parser.py]), Gcda ([gcda_parser.py]), CoverageReport
      ([coverage_report.py]), Sancov ([sancov_parser.py]): the coverage formats
      under [utils/python/coverage].
    - CoverageUtils ([coverage_utils.py]): composes the five above with Archive.
      CoverageFeature (the same file): what the feature does with devices, counters
      and reports before and after; devices and files are an instance of the class
      [CoverageFeature.CoverageHost].
    - ElfStructs ([library/elf/]), ElfParser
      ([library/elf_parser.py]) with its theorems in ElfSpec, ElfQueries and
      ElfReloc and a concrete file in ElfSample; Vtable
      ([library/vtable/vtable_dumper.py]); Archive ([archive/archive_parser.py]);
      ArParser ([library/ar_parser.py]), which runs ElfParser on the members of an
      archive.
    - ListUtils and FilterUtils ([common/list_utils.py], [filter_utils.py]).
    - Signals ([runners/host/signals.py], [asserts.py]), Records ([records.py]),
      BaseTest and RunTests ([base_test.py]): [execOneTest] and the loops around
      it, with FilterUtils for the filters.
    - Config ([config_parser.py]) and TestRunner ([test_runner.py]): what a run is
      given, the controllers it registers, its classes and the sum of their
      results, which are Records.
    - Shell ([common/cmd_result.py]): results of commands, and computations that
      change a device and may raise.  On it: CpuScaling
      ([cpu/cpu_frequency_scaling.py]), whose device is any instance of the class
      [CpuScaling.Sysfs]; DeviceChecks ([file/target_file_utils.py],
      [precondition/precondition_utils.py]); HalServices
      ([hal/hal_service_name_utils.py]); BootImages and FirmwareTests
      ([testcases/host/verify_boot_header], [verify_dtbo], [verify_acpio]): the
      formats of images, and the tests that find, pull and unpack them.
    - VtsSpec ([common/vts_spec_utils.py]): the HALs that a HAL imports.
    - BinaryTest, BinaryRun ([testcases/template/binary_test/],
      [gtest_binary_test/]): the cases that binaries become; pushing, running (one by
      one or in batches) and cleaning up, against a shell that is an instance of
      the class [BinaryRun.CleaningShell].
    - ParamTest ([testcases/template/param_test/], [hal_hidl_host_test/]): the tests
      of RunTests once for each parameter, with the combinations of HalServices as
      parameters.  HalGtest ([hal_hidl_gtest/]): gtests of HALs with the
      preconditions of DeviceChecks and the scaling of CpuScaling.  HalReplay
      ([hal_hidl_replay_test/]): traces on a device of the class
      [HalReplay.TraceDevice].  LlvmFuzzer ([llvmfuzzer_test/],
      [host_binary_test/]): fuzzers and their crashes.  MoblyTest ([mobly/]): the
      results of another runner as Records.
    - Channel, TcpClient ([runners/host/tcp_client/vts_tcp_client.py]): the
      connection to a driver as bytes sent and bytes still to come, the frames on
      it, and every command.  An agent is an instance of the class [TcpSpec.Agent]:
      what it answers to a frame; TcpSpec holds the theorems.  CallbackServer
      ([tcp_server/callback_server.py]): the table of callbacks and the handler of
      their requests.
    - ResourceMirror (ranges of regions; the class [Sends]: a client that sends
      requests), FmqMirror, MemoryMirror, HandleMirror
      ([mirror/resource_mirror.py]): message queues, memory and handles that live
      in a driver.  FmqSpec: a driver of queues is an instance of [QueueDriver].
      MsgqTests ([testcases/host/fmq_hidl_test/VtsHalTestsMsgqV1_0HostTest.py]): the
      tests of a message queue as a client of these mirrors; MsgqDriver holds the
      rings that it is compared with.  MemoryTests and HandleTests
      ([testcases/codelab/hidl_memory_test/], [hidl_handle_test/]): the same for
      memory and for handles.
    - MirrorTracker ([mirror/mirror_tracker.py], [shell_mirror.py]) with its
      theorems in TrackerSpec: names, clients and mirrors, and shells through a
      driver or through adb.  NativeMirror ([native_entity_mirror.py]), HalMirror
      ([hal_mirror.py], [lib_mirror.py], [mirror_object.py]): calls of functions of
      the target, their results, callback interfaces.
    - Mirror ([mirror/py2pb.py], [pb2py.py]), Instrumentation
      ([instrumentation/]), Corpus ([fuzzer/corpus_manager.py],
      [gcs/gcs_api_utils.py]); the storage service is the class [Corpus.Bucket]
      with laws [BucketLaws], and the theorems are proved against the laws alone.
      GenePool ([fuzzer/GenePool.py], [FuzzerUtils.py]): pools of inputs, with a
      stream of random numbers.
    - WebReport ([web/feature_utils.py], [web_utils.py]): parameters of a
      feature, and the message that reports a module.  On it:
      SancovUtils ([coverage/sancov_utils.py]), line counts from sanitizer
      coverage, which call the parser of Sancov; Profiling
      ([profiling/profiling_utils.py]), whose lists of latencies are shared and
      live in a store.
    - PathTree (paths below a directory), ReportFiles
      ([reporting/report_file_utils.py]): files are copied to a directory or a
      bucket, on a host that is an instance of the class [ReportFiles.Host].
      LogUploading ([reporting/log_uploading_utils.py], the end of a class in
      [base_test.py]) composes it with WebReport.
    - Adb ([controllers/adb.py]): commands, forwarding, ports.  AndroidDevice
      ([controllers/android_device.py], with what it uses of [fastboot.py] and of
      [runners/host/utils.py]): a device is a record, and the devices of a run are
      references into a list; its mirrors are those of MirrorTracker.  DeviceOps is
      what a test class needs of devices: the classes [DeviceOps] and [DeviceLaws],
      which AndroidDevice implements.
    - UserParams, ClassSetup ([base_test.py]): the parameters of a class and its
      filter, as in FilterUtils; setting up, healing and dumping logs, proved
      against [DeviceLaws].  Timeouts ([common/timeout_utils.py], the timers of
      [base_test.py]): programs that take time under one alarm.  HostCommands
      ([common/cmd_utils.py], [runners/host/utils.py]): processes with time limits,
      names of models, pools of calls.

    - Logger ([runners/host/logger.py]): the stamps of log lines and
      their order; the handlers of the root logger, and where a record goes.

    ** What the theorems show

    - Formats: a file written by a reference encoder is read back (GCNO with any
      number of functions, GCDA counters, sancov, archives, signed LEB128, the
      packed relocations APS2 and RELR, commented text, gtest listings), and a
      parsed graph is well formed; malformed input raises the documented
      exception, except where a theorem shows another.
    - Counts: the flow through a function that [Resolve] computes is the one flow
      that agrees with the measured arcs; lines get the counts of their blocks,
      whatever the order of the functions; [coverage_end_to_end] composes archive,
      GCNO, GCDA and report, and [counters_reach_report] adds the way of the
      counters from the device.
    - Execution: [execOneTest] files every test exactly once under the verdict of
      its outcome and hands on only aborts; a run reports every test that was
      asked for; a retry runs just the tests that did not pass; the result lists
      partition the executed records in every reachable state.  From the host every
      combination of instances is tested with every test
      ([every_combination_is_tested]).  A runner executes
      its classes up to the first that raises, and destroys every controller that
      it created; it is given just the configurations that pass the checks.
    - Devices: the governors of the CPUs are restored, throttling is found when
      frequencies have equal digits, a HAL test may run exactly when its services
      and files are there, images are accepted exactly when their layout is good.
      Cleaning up after binaries removes what was pushed, leaves no empty directory
      and touches nothing else ([clean_up_removes_what_was_pushed]).  A HAL class
      gives the governors back, whatever its tests do ([class_restores_governors]);
      every trace is replayed for every combination of instances, and removed
      ([every_trace_is_replayed], [traces_are_removed]); a fuzzer passes just when it
      ends well and the device still answers.
    - State machines: reachable states of the timing events and of the corpora
      satisfy their invariants; the manager's operations refine the steps of the
      corpora; the lock of a session is exclusive against waiting machines.
    - Connection: the responses pair with the calls in order, whatever the agent
      ([calls_are_fifo]); whether it returns or raises, an operation keeps the
      number of responses that are still to come; as many lost attempts as there
      are retries are recovered.
      A request runs the function registered for its identifier and no other, an
      unknown one none, and the identifiers of a callback interface are those of
      its functions.
    - Mirrors: against a driver of queues that meets its laws, the operations of a
      queue are those of a bounded list of values, and every test of message queues
      passes ([msgq_class_passes]), as does every test of shared memory and of
      handles, in any order and for any random data; the names of a tracker stay
      distinct and its resources valid; a remote call sends the specification with
      the arguments filled in and wraps the resources that it returns.
    - Reports: every test of a module is in its message with its verdict, and what
      was asked for and not run is there as a failure; a profiling point is
      reported once.  Lines with sanitizer coverage count what addr2line gave for
      them; the totals that are uploaded are those of CoverageReport.  The
      latencies of all traces of a module reach its report, per function and in
      order.  The size of a gene pool is bounded over all generations.
    - Files and logs: every file of a directory that the filter lets through is
      stored under the URL that is returned, no two under one, and the URLs that a
      report announces are those of stored logs.
    - Logs: after any history a set-up leaves its own three files open, and a record
      is written once to the terminal and once to each file of its level or a lower
      one ([records_reach_their_files]); stamps of one year are ordered like time.
    - Control of devices: a command reaches the shell of the device as it was
      written, when it has no character that the shell of the host expands.
      Waiting for a boot ends; services start on all devices or on none; after a
      reboot the log and the agent run if they ran before; after healing, the
      services of every device that was away run again.
    - Time: a command with a limit returns, tearing a class down stays within its
      limits, and timers stop a process at most once.
    - Parameters: a parameter is what its names lead to, and the filter of a class
      runs just the tests that its include list names.
    - Values: a value that fits its specification survives the round trip through
      a message, and the errors of every other shape are listed.

    ** Fuel and bounds

    [Resolve] runs one round for each arc, [Convert] two for each level of the
    specification's nesting, the loops of the GCNO, GCDA, archive and relocation
    readers at most one for each byte left, [fetch_loop] one for each seed,
    [follow] one for each HAL that is reached and one more; theorems show that
    this much is enough ([Resolve_terminates], [Convert_terminates], [fetch_ends],
    [IndirectImportedHals_spec], and the round trips, whose fuel is given).  A loop
    that waits runs at most once for each second of its limit and once more
    ([boot_wait_ends]: time goes on by a second in each sleep); the search for a
    port runs until the first draw that is available ([port_is_found]).
    [Archive_Parse_diverges] shows an input for which no fuel is enough.  Path
    lengths are bounded by [output_file_path_bounds].

    ** Parameters

    Regular expressions, XML trees, the rounding of floats, random choices, clock
    readings, the iteration order of dictionaries and what a test script does are
    arguments; so is the encoding of protocol buffers, of which parsing is the
    inverse.  Laws are assumed only of the storage service ([BucketLaws]), of
    the files of the kernel ([Sysfs]), of a driver of queues ([QueueDriver],
    [MsgqDevice]), of memory and handles ([MemoryDevice], [HandleDevice]), of the
    host that keeps reports ([HostLaws]), of the files of a device with coverage
    ([CoverageLaws]), of a shell that removes files ([CleaningShell]), of a device that
    keeps traces ([TraceDevice]) and of devices under test ([DeviceLaws]), each with an instance in memory; a theorem
    that asks a shell to answer, or a dictionary to give its items, says so in a
    hypothesis, which its witness fills with a concrete function.

    ** Not modelled

    Threads and sockets themselves, systrace, rest and cloud clients, and the
    concrete tests that drive a device: they consist of I/O around the parts
    above.  Of [base_test.py] thread pools of generated tests are left out, of
    [test_runner.py] the import of test modules and the main function, of
    [android_device.py] the finalizer, reports of several devices at once and timing events, of
    [runners/host/utils.py] the settings of phones and random strings.  [proto/]
    is generated, and [script/] holds generators of projects and of build files.
    What is left consists of calls of a device, a shell or a service whose answers
    are only printed or compared with a constant. *)

From Stdlib Require Export ZArith Lia.
From Stdlib Require Import Strings.Byte.
From stdpp Require Export base gmap strings list fin_maps sorting.

#[export] Set Default Goal Selector "!".

(** ** Exceptions and fallible computations

    A Python call either returns a value or raises; [pyexc] lists the exception
    classes the modelled code raises or lets escape. *)
Inductive pyexc :=
  | FileFormatError
  | ElfError
  | ArError
  | VtableError
  | StructError
  | IndexError
  | KeyError
  | ValueError
  | TypeError
  | AttributeError
  | ZeroDivisionError
  | UnboundLocalError
  | NameError
  | OverflowError
  | IOError
  | RegexError
  | RuntimeError.

#[export] Instance pyexc_eq_dec : EqDecision pyexc.
Proof. solve_decision. Defined.

Inductive pyres (A : Type) :=
  | Ok (a : A)
  | Raise (e : pyexc).
Arguments Ok {_} _.
Arguments Raise {_} _.

#[export] Instance pyres_eq_dec {A} `{EqDecision A} : EqDecision (pyres A).
Proof. solve_decision. Defined.

#[export] Instance pyres_ret : MRet pyres := fun A a => Ok a.
#[export] Instance pyres_bind : MBind pyres := fun A B f m =>
  match m with Ok a => f a | Raise e => Raise e end.

#[export] Instance pyres_fmap : FMap pyres := fun A B f m =>
  match m with Ok a => Ok (f a) | Raise e => Raise e end.

(** [assert_or b e]: go on when [b] holds, raise [e] otherwise. *)
Definition assert_or (b : bool) (e : pyexc) : pyres unit :=
  if b then Ok tt else Raise e.

Definition from_opt {A} (e : pyexc) (o : option A) : pyres A :=
  match o with Some a => Ok a | None => Raise e end.

Lemma pyres_bind_Ok {A B} (m : pyres A) (f : A -> pyres B) b :
  (m ≫= f) = Ok b <-> exists a, m = Ok a /\ f a = Ok b.
Proof.
  destruct m as [a|e]; simpl; [|split; [done|by intros (?&[=]&?)]].
  split; [by exists a|by intros (?&[= <-]&?)].
Qed.

Lemma pyres_bind_Raise {A B} (m : pyres A) (f : A -> pyres B) e :
  (m ≫= f) = Raise e <-> m = Raise e \/ exists a, m = Ok a /\ f a = Raise e.
Proof.
  destruct m as [a|e']; simpl.
  - split; [right; by exists a|by intros [[=]|(?&[= <-]&?)]].
  - split; [intros [= ->]; by left|intros [[= ->]|(?&[=]&?)]; done].
Qed.

(** Left to right traversal that stops at the first exception. *)
Fixpoint mapM_py {A B} (f : A -> pyres B) (l : list A) : pyres (list B) :=
  match l with
  | [] => Ok []
  | a :: l => b ← f a; bs ← mapM_py f l; Ok (b :: bs)
  end.

Lemma mapM_py_Ok {A B} (f : A -> pyres B) l k :
  mapM_py f l = Ok k <-> Forall2 (fun a b => f a = Ok b) l k.
Proof.
  revert k. induction l as [|a l IH]; intros k; simpl.
  - split; [intros [= <-]; constructor | by intros ->%Forall2_nil_inv_l].
  - rewrite pyres_bind_Ok. setoid_rewrite pyres_bind_Ok. setoid_rewrite IH. split.
    + intros (b & Hb & bs & Hbs & [= <-]). by constructor.
    + intros (b & bs & Hb & Hbs & ->)%Forall2_cons_inv_l. eauto.
Qed.

Lemma mapM_py_map {A B} (f : A -> pyres B) (g : A -> B) l :
  (forall a, a ∈ l -> f a = Ok (g a)) -> mapM_py f l = Ok (g <$> l).
Proof.
  intros H. apply mapM_py_Ok, Forall2_fmap_r, Forall_Forall2_diag, Forall_forall; auto.
Qed.

(** [for a in l] around a statement that updates a local and may raise. *)
Fixpoint foldlM_py {A B} (f : B -> A -> pyres B) (b : B) (l : list A) : pyres B :=
  match l with
  | [] => Ok b
  | a :: l => b' ← f b a; foldlM_py f b' l
  end.

Lemma foldlM_py_app {A B} (f : B -> A -> pyres B) b l k :
  foldlM_py f b (l ++ k) = (b' ← foldlM_py f b l; foldlM_py f b' k).
Proof.
  revert b. induction l as [|a l IH]; intros b; simpl; [done|].
  destruct (f b a) as [b'|e]; simpl; [apply IH|done].
Qed.

Lemma foldlM_py_inv {A B} (P : B -> Prop) (f : B -> A -> pyres B) b l b' :
  (forall b a b', P b -> f b a = Ok b' -> P b') -> P b -> foldlM_py f b l = Ok b' -> P b'.
Proof.
  intros Hf. revert b. induction l as [|a l IH]; intros b Hb; simpl; [by intros [= <-]|].
  intros (b1 & H1 & H2)%pyres_bind_Ok. eapply IH; [by eapply Hf|done].
Qed.

(** Stateful fallible computations: an object's methods read and update its
    state [S].  An exception discards the state: no modelled caller goes on
    using an object after one of its methods raised. *)
Definition stM (S A : Type) : Type := S -> pyres (A * S).

#[export] Instance stM_ret {S} : MRet (stM S) := fun A a s => Ok (a, s).
#[export] Instance stM_bind {S} : MBind (stM S) := fun A B f m s =>
  match m s with Ok (a, s') => f a s' | Raise e => Raise e end.

Definition st_lift {S A} (m : pyres A) : stM S A := fun s =>
  match m with Ok a => Ok (a, s) | Raise e => Raise e end.

(** The current state: an attribute read. *)
Definition st_get {S} : stM S S := fun s => Ok (s, s).

Lemma stM_bind_Ok {S A B} (m : stM S A) (f : A -> stM S B) s r :
  (m ≫= f) s = Ok r <-> exists a s', m s = Ok (a, s') /\ f a s' = Ok r.
Proof.
  unfold mbind, stM_bind. destruct (m s) as [[a s']|e].
  - split; [by exists a, s'|by intros (?&?&[= <- <-]&?)].
  - split; [done|by intros (?&?&[=]&?)].
Qed.

(** The common step of a forward computation: the first action succeeded. *)
Lemma stM_bind_run {S A B} (m : stM S A) (f : A -> stM S B) s a s' :
  m s = Ok (a, s') -> (m ≫= f) s = f a s'.
Proof. unfold mbind, stM_bind. by intros ->. Qed.

Lemma st_lift_Ok {S A} (m : pyres A) (s : S) r :
  st_lift m s = Ok r <-> exists a, m = Ok a /\ r = (a, s).
Proof. unfold st_lift. destruct m; naive_solver. Qed.

(** Generators: what a body yields before it returns or raises. *)
Definition genM (Y S A : Type) : Type := S -> list Y * pyres (A * S).

#[export] Instance genM_ret {Y S} : MRet (genM Y S) := fun A a s => ([], Ok (a, s)).
#[export] Instance genM_bind {Y S} : MBind (genM Y S) := fun A B f m s =>
  match m s with
  | (l, Ok (a, s')) => let '(l', r) := f a s' in (l ++ l', r)
  | (l, Raise e) => (l, Raise e)
  end.

Definition gen_yield {Y S} (y : Y) : genM Y S unit := fun s => ([y], Ok (tt, s)).
Definition gen_lift {Y S A} (m : stM S A) : genM Y S A := fun s => ([], m s).

Lemma genM_bind_run {Y S A B} (m : genM Y S A) (f : A -> genM Y S B) s l a s' :
  m s = (l, Ok (a, s')) -> (m ≫= f) s = (l ++ (f a s').1, (f a s').2).
Proof. unfold mbind, genM_bind. intros ->. by destruct (f a s'). Qed.

Lemma gen_lift_bind_run {Y S A B} (m : stM S A) (f : A -> genM Y S B) s a s' :
  m s = Ok (a, s') -> (gen_lift m ≫= f) s = f a s'.
Proof.
  intros Hm. rewrite (genM_bind_run _ _ _ [] a s') by (unfold gen_lift; by rewrite Hm).
  by destruct (f a s').
Qed.

(** A finished generator: its items and how it ended. *)
Definition gen (Y : Type) : Type := list Y * pyres unit.

(** [for y in g] around a statement that updates a local and may raise: an
    exception of the body comes before one of the generator. *)
Definition gen_fold {Y B} (f : B -> Y -> pyres B) (b : B) (g : gen Y) : pyres B :=
  b' ← foldlM_py f b g.1; _ ← g.2; Ok b'.

(** The generator expression [(f(a) for a in l)]. *)
Fixpoint gen_map {A B} (f : A -> pyres B) (l : list A) : gen B :=
  match l with
  | [] => ([], Ok tt)
  | a :: l =>
      match f a with
      | Ok b => let '(bs, r) := gen_map f l in (b :: bs, r)
      | Raise e => ([], Raise e)
      end
  end.

Lemma gen_map_Ok {A B} (f : A -> pyres B) (g : A -> B) l :
  (forall a, a ∈ l -> f a = Ok (g a)) -> gen_map f l = (g <$> l, Ok tt).
Proof.
  induction l as [|a l IH]; intros Hf; simpl; [done|]. rewrite Hf by left.
  by rewrite IH by (intros; apply Hf; by right).
Qed.

(** [next(a for a in l if f(a))], [None] when there is none. *)
Fixpoint find_py {A} (f : A -> pyres bool) (l : list A) : pyres (option A) :=
  match l with
  | [] => Ok None
  | a :: l => b ← f a; if b : bool then Ok (Some a) else find_py f l
  end.

Lemma find_py_first {A} (f : A -> pyres bool) pre a post :
  (forall x, x ∈ pre -> f x = Ok false) -> f a = Ok true ->
  find_py f (pre ++ a :: post) = Ok (Some a).
Proof.
  intros Hpre Ha. induction pre as [|x pre IH]; simpl; [by rewrite Ha|].
  rewrite Hpre by left. apply IH. intros. apply Hpre. by right.
Qed.

Lemma find_py_none {A} (f : A -> pyres bool) l :
  (forall x, x ∈ l -> f x = Ok false) -> find_py f l = Ok None.
Proof.
  intros Hl. induction l as [|x l IH]; simpl; [done|].
  rewrite Hl by left. apply IH. intros. apply Hl. by right.
Qed.

(** [for i in range(n)] around an action that yields a value. *)
Fixpoint for_range {S A} (n : nat) (m : nat -> stM S A) (i : nat) : stM S (list A) :=
  match n with
  | 0 => mret []
  | Datatypes.S n => a ← m i; l ← for_range n m (Datatypes.S i); mret (a :: l)
  end.

(** [for _ in range(n)] around an action that updates a local. *)
Fixpoint for_fold {S A} (n : nat) (m : A -> stM S A) (a : A) : stM S A :=
  match n with
  | 0 => mret a
  | Datatypes.S n => a' ← m a; for_fold n m a'
  end.

Lemma for_fold_inv {S A} (P : A -> Prop) (m : A -> stM S A) n a s r :
  (forall a s r, P a -> m a s = Ok r -> P r.1) -> P a -> for_fold n m a s = Ok r -> P r.1.
Proof.
  intros Hm. revert a s. induction n as [|n IH]; intros a s Ha; simpl; [by intros [= <-]|].
  intros (a' & s' & H1 & H2)%stM_bind_Ok. eapply IH; [|done]. by apply (Hm _ _ _ Ha) in H1.
Qed.

(** ** Bytes and byte strings

    A Python 2 [str] is a sequence of bytes: [list byte], whatever the text. *)
#[export] Instance byte_eq_dec : EqDecision Byte.byte := Byte.byte_eq_dec.
#[export] Program Instance byte_countable : Countable Byte.byte :=
  inj_countable Byte.to_N Byte.of_N _.
Next Obligation. intros. apply Byte.of_to_N. Qed.

Abbreviation pystr := (list Byte.byte).

(** Text literals of the source. *)
Definition bs (s : string) : pystr := String.list_byte_of_string s.

Definition byteZ (b : Byte.byte) : Z := Z.of_N (Byte.to_N b).
Definition Zbyte (z : Z) : Byte.byte := default Byte.x00 (Byte.of_N (Z.to_N (z mod 256))).

Lemma byteZ_range b : (0 <= byteZ b < 256)%Z.
Proof. unfold byteZ. pose proof (Byte.to_N_bounded b). lia. Qed.

Lemma Zbyte_byteZ b : Zbyte (byteZ b) = b.
Proof.
  unfold Zbyte. rewrite Z.mod_small by apply byteZ_range.
  unfold byteZ. by rewrite N2Z.id, Byte.of_to_N.
Qed.

Lemma byteZ_Zbyte z : byteZ (Zbyte z) = (z mod 256)%Z.
Proof.
  unfold Zbyte, byteZ. pose proof (Z.mod_pos_bound z 256 ltac:(lia)) as Hz.
  destruct (Byte.of_N (Z.to_N (z mod 256))) as [b|] eqn:Hb; simpl.
  - apply Byte.to_of_N in Hb. rewrite Hb. lia.
  - apply Byte.of_N_None_iff in Hb. lia.
Qed.

Lemma byteZ_inj b c : byteZ b = byteZ c -> b = c.
Proof. intros H. by rewrite <- (Zbyte_byteZ b), <- (Zbyte_byteZ c), H. Qed.

(** *** Unsigned integers of a fixed number of bytes *)
Inductive endian := Little | Big.

#[export] Instance endian_eq_dec : EqDecision endian.
Proof. solve_decision. Defined.

Fixpoint le_decode (l : pystr) : Z :=
  match l with
  | [] => 0
  | b :: l => byteZ b + 256 * le_decode l
  end%Z.

Fixpoint le_encode (n : nat) (z : Z) : pystr :=
  match n with
  | 0 => []
  | S n => Zbyte z :: le_encode n (z / 256)
  end.

Definition int_decode (en : endian) (l : pystr) : Z :=
  match en with Little => le_decode l | Big => le_decode (reverse l) end.
Definition int_encode (en : endian) (n : nat) (z : Z) : pystr :=
  match en with Little => le_encode n z | Big => reverse (le_encode n z) end.

Lemma length_le_encode n z : length (le_encode n z) = n.
Proof. revert z. induction n; intros z; simpl; auto. Qed.

Lemma length_int_encode en n z : length (int_encode en n z) = n.
Proof. destruct en; simpl; rewrite ?length_reverse; apply length_le_encode. Qed.

Lemma le_decode_range l : (0 <= le_decode l < 256 ^ Z.of_nat (length l))%Z.
Proof.
  induction l as [|b l IH]; simpl length; [simpl; lia|].
  rewrite Nat2Z.inj_succ, Z.pow_succ_r by lia. simpl le_decode.
  pose proof (byteZ_range b). nia.
Qed.

Lemma int_decode_range en l : (0 <= int_decode en l < 256 ^ Z.of_nat (length l))%Z.
Proof. destruct en; simpl; [|rewrite <- length_reverse]; apply le_decode_range. Qed.

Lemma le_decode_encode n z : (0 <= z < 256 ^ Z.of_nat n)%Z -> le_decode (le_encode n z) = z.
Proof.
  revert z. induction n as [|n IH]; intros z; [simpl; lia|].
  rewrite Nat2Z.inj_succ, Z.pow_succ_r by lia. intros Hz. simpl.
  rewrite byteZ_Zbyte, IH; [pose proof (Z.div_mod z 256); lia|].
  split; [apply Z.div_pos; lia | apply Z.div_lt_upper_bound; lia].
Qed.

Lemma int_decode_encode en n z :
  (0 <= z < 256 ^ Z.of_nat n)%Z -> int_decode en (int_encode en n z) = z.
Proof. destruct en; simpl; rewrite ?reverse_involutive; apply le_decode_encode. Qed.

Lemma le_encode_decode l : le_encode (length l) (le_decode l) = l.
Proof.
  induction l as [|b l IH]; simpl; [done|].
  pose proof (byteZ_range b).
  rewrite (Z.mul_comm 256), Z.div_add, (Z.div_small (byteZ b)) by lia.
  rewrite Z.add_0_l, IH. f_equal.
  apply byteZ_inj. rewrite byteZ_Zbyte, Z.mod_add by lia. by apply Z.mod_small.
Qed.

Lemma int_encode_decode en l : int_encode en (length l) (int_decode en l) = l.
Proof.
  destruct en; simpl; [apply le_encode_decode|].
  rewrite <- (length_reverse l), le_encode_decode. apply reverse_involutive.
Qed.

(** [struct.unpack] of one unsigned integer of [n] bytes: the buffer must have
    exactly that size. *)
Definition unpack_uint (en : endian) (n : nat) (l : pystr) : pyres Z :=
  if decide (length l = n) then Ok (int_decode en l) else Raise StructError.

Lemma unpack_uint_encode en n z :
  (0 <= z < 256 ^ Z.of_nat n)%Z -> unpack_uint en n (int_encode en n z) = Ok z.
Proof.
  intros Hz. unfold unpack_uint. rewrite decide_True by apply length_int_encode.
  by rewrite int_decode_encode.
Qed.

(** *** Disjoint bits *)
Lemma lor_shiftl_add v x s :
  (0 <= s)%Z -> (0 <= v < 2 ^ s)%Z -> Z.lor v (Z.shiftl x s) = (v + x * 2 ^ s)%Z.
Proof.
  intros Hs Hv. assert (Z.land v (Z.shiftl x s) = 0)%Z as Hl.
  { apply Z.bits_inj'. intros n Hn. rewrite Z.land_spec, Z.bits_0.
    destruct (Z.lt_ge_cases n s); [by rewrite Z.shiftl_spec_low, andb_false_r|].
    assert (Z.testbit v n = false) as ->; [|done].
    destruct (Z.eq_dec v 0%Z) as [->|]; [apply Z.bits_0|]. apply Z.bits_above_log2; [lia|].
    apply Z.lt_le_trans with s; [|done]. apply Z.log2_lt_pow2; lia. }
  by rewrite <- Z.lxor_lor, <- Z.add_nocarry_lxor, Z.shiftl_mul_pow2 by done.
Qed.

Lemma filter_all_id {A} (P : A -> Prop) `{!forall x, Decision (P x)} l :
  Forall P l -> filter P l = l.
Proof. induction 1; [done|]. rewrite filter_cons_True by done. by f_equal. Qed.

Lemma filter_none {A} (P : A -> Prop) `{!forall x, Decision (P x)} l :
  (forall x, x ∈ l -> ~ P x) -> filter P l = [].
Proof.
  induction l as [|a l IH]; intros Hn; [done|].
  rewrite filter_cons_False by (apply Hn; by left). apply IH. intros. apply Hn. by right.
Qed.

Lemma filter_ext_elem {A} (P Q : A -> Prop) `{!forall x, Decision (P x)} `{!forall x, Decision (Q x)} (l : list A) :
  (forall a, a ∈ l -> P a <-> Q a) -> filter P l = filter Q l.
Proof.
  induction l as [|a l IH]; intros HPQ; [done|]. rewrite !filter_cons.
  rewrite IH by (intros b Hb; apply HPQ; by right).
  destruct (HPQ a ltac:(left)) as [H1 H2]. do 2 case_decide; naive_solver.
Qed.

Lemma filter_fmap {A B} (f : A -> B) (P : B -> Prop) `{!forall b, Decision (P b)} (l : list A) :
  filter P (f <$> l) = f <$> filter (fun a => P (f a)) l.
Proof.
  induction l as [|a l IH]; [done|]. csimpl. rewrite !filter_cons, IH. by case_decide.
Qed.

(** ** Sums of integers: Python's [sum] *)
Fixpoint zsum (l : list Z) : Z :=
  match l with [] => 0 | z :: l => z + zsum l end%Z.

Lemma zsum_app l k : zsum (l ++ k) = (zsum l + zsum k)%Z.
Proof. induction l; simpl; lia. Qed.

#[export] Instance zsum_perm : Proper (Permutation ==> eq) zsum.
Proof. induction 1; simpl; lia. Qed.

Lemma zsum_ext {A} (f g : A -> Z) l :
  (forall a, a ∈ l -> f a = g a) -> zsum (f <$> l) = zsum (g <$> l).
Proof.
  induction l as [|a l IH]; intros H; simpl; [done|].
  rewrite (H a) by left. f_equal. apply IH. intros b Hb. apply H. by right.
Qed.

Lemma zsum_nonneg l : Forall (fun z => 0 <= z)%Z l -> (0 <= zsum l)%Z.
Proof. induction 1; simpl; lia. Qed.

(** Splitting one occurrence off a duplicate-free list. *)
Lemma zsum_filter_ne `{EqDecision A} (f : A -> Z) l a :
  NoDup l -> a ∈ l -> zsum (f <$> l) = (f a + zsum (f <$> filter (fun b => b <> a) l))%Z.
Proof.
  intros Hnd. induction Hnd as [|b l Hb Hnd IH]; intros Ha; [by apply not_elem_of_nil in Ha|].
  rewrite filter_cons. destruct (decide (b <> a)) as [Hne|Heq].
  - apply elem_of_cons in Ha as [->|Ha]; [done|]. csimpl. rewrite (IH Ha). lia.
  - apply dec_stable in Heq as ->. csimpl.
    rewrite filter_all_id; [done|]. apply Forall_forall. by intros c Hc ->.
Qed.

(** ** Python's [list.remove]: drop the first occurrence *)
Fixpoint remove_first `{EqDecision A} (a : A) (l : list A) : list A :=
  match l with
  | [] => []
  | b :: l => if decide (b = a) then l else b :: remove_first a l
  end.

Lemma elem_of_remove_first `{EqDecision A} (a b : A) l :
  b ∈ remove_first a l -> b ∈ l.
Proof.
  induction l as [|c l IH]; simpl; [done|].
  case_decide; [by right|]. rewrite !elem_of_cons. naive_solver.
Qed.

Lemma elem_of_remove_first_ne `{EqDecision A} (a b : A) l :
  b <> a -> b ∈ l -> b ∈ remove_first a l.
Proof.
  intros Hne. induction l as [|c l IH]; simpl; [done|].
  rewrite elem_of_cons. case_decide; [naive_solver|]. rewrite elem_of_cons. naive_solver.
Qed.

Lemma NoDup_remove_first `{EqDecision A} (a : A) l : NoDup l -> NoDup (remove_first a l).
Proof.
  induction 1 as [|b l Hb Hl IH]; simpl; [constructor|].
  case_decide; [done|]. constructor; [|done]. by intros ?%elem_of_remove_first.
Qed.

Lemma not_elem_of_remove_first `{EqDecision A} (a : A) l : NoDup l -> a ∉ remove_first a l.
Proof.
  induction 1 as [|b l Hb Hl IH]; simpl; [by intros ?%not_elem_of_nil|].
  case_decide; [congruence|]. rewrite not_elem_of_cons. naive_solver.
Qed.

Lemma length_remove_first `{EqDecision A} (a : A) l :
  a ∈ l -> length l = S (length (remove_first a l)).
Proof.
  induction l as [|b l IH]; [by intros ?%not_elem_of_nil|].
  rewrite elem_of_cons. simpl. case_decide; [done|]. simpl. intros [->|?]; [done|]. auto.
Qed.

Lemma remove_first_snoc `{EqDecision A} (a : A) l : a ∉ l -> remove_first a (l ++ [a]) = l.
Proof.
  induction l as [|b l IH]; simpl; intros H; [by rewrite decide_True|].
  apply not_elem_of_cons in H as [? ?]. rewrite decide_False by congruence. by rewrite IH.
Qed.

Lemma filter_remove_first `{EqDecision A} (P : A -> Prop) `{!forall x, Decision (P x)} a l :
  ~ P a -> filter P (remove_first a l) = filter P l.
Proof.
  intros Ha. induction l as [|b l IH]; simpl; [done|]. rewrite filter_cons.
  case_decide as Hba; [subst; by rewrite decide_False|].
  rewrite filter_cons. case_decide; by rewrite IH.
Qed.
