(* ===== verification/PyStr.v ===== *)
(** * Python 2 string and sequence operations

    Slicing and indexing with negative positions, [strip], [find], [split],
    [startswith], [endswith], [int()] and [str()] of an integer: what the
    modelled files use of Python's built-in sequence types. *)

From Stdlib Require Import Strings.Byte.
From S2P Require Import Prelude.

(** ** Indexing and slicing *)
Section seq.
Context {A : Type}.
Implicit Types l : list A.

(** [l[i]]: negative positions count from the end; out of range raises. *)
Definition py_get (l : list A) (i : Z) : pyres A :=
  let j := if (i <? 0)%Z then (i + Z.of_nat (length l))%Z else i in
  if (j <? 0)%Z then Raise IndexError else from_opt IndexError (l !! Z.to_nat j).

Definition py_clamp (n i : Z) : Z := if (i <? 0)%Z then Z.max 0 (i + n) else Z.min i n.

(** [l[i:j]]: bounds are clamped, never out of range. *)
Definition py_slice (l : list A) (i j : Z) : list A :=
  let n := Z.of_nat (length l) in
  let a := py_clamp n i in
  let b := py_clamp n j in
  take (Z.to_nat (b - a)) (drop (Z.to_nat a) l).

(** [l[i] = x] *)
Definition py_set (l : list A) (i : Z) (x : A) : pyres (list A) :=
  let j := if (i <? 0)%Z then (i + Z.of_nat (length l))%Z else i in
  if ((j <? 0) || (Z.of_nat (length l) <=? j))%Z then Raise IndexError
  else Ok (<[Z.to_nat j := x]> l).

Lemma py_set_nat l (i : nat) x :
  (i < length l)%nat -> py_set l (Z.of_nat i) x = Ok (<[i := x]> l).
Proof.
  intros Hi. unfold py_set. rewrite (proj2 (Z.ltb_ge (Z.of_nat i) 0)) by lia.
  rewrite (proj2 (Z.ltb_ge (Z.of_nat i) 0)) by lia.
  rewrite (proj2 (Z.leb_gt _ (Z.of_nat i))) by lia. by rewrite Nat2Z.id.
Qed.

Lemma py_get_nat l (i : nat) : py_get l (Z.of_nat i) = from_opt IndexError (l !! i).
Proof.
  unfold py_get. rewrite (proj2 (Z.ltb_ge (Z.of_nat i) 0)) by lia.
  rewrite (proj2 (Z.ltb_ge (Z.of_nat i) 0)) by lia. by rewrite Nat2Z.id.
Qed.

Lemma py_get_Ok l i x :
  py_get l i = Ok x -> exists j, l !! j = Some x /\ (j < length l)%nat.
Proof.
  unfold py_get. case_match; [done|].
  destruct (l !! _) as [y|] eqn:Hy; simpl; [intros [= ->]|done].
  eauto using lookup_lt_Some.
Qed.

Lemma py_slice_nat l (i j : nat) :
  (i <= j)%nat -> (j <= length l)%nat ->
  py_slice l (Z.of_nat i) (Z.of_nat j) = take (j - i) (drop i l).
Proof.
  intros. unfold py_slice, py_clamp.
  rewrite (proj2 (Z.ltb_ge (Z.of_nat i) 0)), (proj2 (Z.ltb_ge (Z.of_nat j) 0)) by lia.
  f_equal; [lia|]. f_equal. lia.
Qed.

Lemma py_slice_app l1 l2 l3 :
  py_slice (l1 ++ l2 ++ l3) (Z.of_nat (length l1)) (Z.of_nat (length l1 + length l2)) = l2.
Proof.
  rewrite py_slice_nat by (rewrite ?length_app; lia).
  rewrite drop_app_length. rewrite take_app_le by lia.
  replace (length l1 + length l2 - length l1)%nat with (length l2) by lia. apply take_ge. lia.
Qed.
End seq.

(** ** Prefixes, suffixes and stripping *)
Fixpoint startswith (p l : pystr) : bool :=
  match p, l with
  | [], _ => true
  | _, [] => false
  | a :: p, b :: l => bool_decide (a = b) && startswith p l
  end.

Definition endswith (p l : pystr) : bool := startswith (reverse p) (reverse l).

Lemma startswith_spec p l : startswith p l = true <-> exists k, l = p ++ k.
Proof.
  revert l. induction p as [|a p IH]; intros l; simpl; [naive_solver|].
  destruct l as [|b l]; [naive_solver|].
  rewrite andb_true_iff, bool_decide_eq_true, IH. naive_solver.
Qed.

Lemma startswith_app p l : startswith p (p ++ l) = true.
Proof. apply startswith_spec. eauto. Qed.

Lemma endswith_spec p l : endswith p l = true <-> exists k, l = k ++ p.
Proof.
  unfold endswith. rewrite startswith_spec. split; intros [k H].
  - exists (reverse k). by rewrite <- (reverse_involutive l), H, reverse_app, reverse_involutive.
  - exists (reverse k). by rewrite H, reverse_app.
Qed.

Lemma endswith_app p l : endswith p (l ++ p) = true.
Proof. apply endswith_spec. eauto. Qed.

Fixpoint lstrip_by (f : Byte.byte -> bool) (l : pystr) : pystr :=
  match l with
  | b :: l' => if f b then lstrip_by f l' else l
  | [] => []
  end.
Definition rstrip_by (f : Byte.byte -> bool) (l : pystr) : pystr :=
  reverse (lstrip_by f (reverse l)).
Definition strip_by (f : Byte.byte -> bool) (l : pystr) : pystr :=
  rstrip_by f (lstrip_by f l).

(** The characters [str.strip()] removes. *)
Definition is_space (b : Byte.byte) : bool :=
  let z := byteZ b in ((z =? 32) || ((9 <=? z) && (z <=? 13)))%Z.

Definition is_byte (c b : Byte.byte) : bool := bool_decide (b = c).
Definition strip : pystr -> pystr := strip_by is_space.

Lemma lstrip_by_all f k l :
  forallb f k = true -> lstrip_by f (k ++ l) = lstrip_by f l.
Proof. induction k as [|b k IH]; simpl; [done|]. intros [-> ?]%andb_true_iff. auto. Qed.

Lemma lstrip_by_id f b l : f b = false -> lstrip_by f (b :: l) = b :: l.
Proof. simpl. by intros ->. Qed.

Lemma forallb_reverse {A} (f : A -> bool) l : forallb f (reverse l) = forallb f l.
Proof.
  apply eq_true_iff_eq. rewrite !forallb_forall. by setoid_rewrite <- list_elem_of_In;
    setoid_rewrite elem_of_reverse.
Qed.

Lemma rstrip_by_all f k l :
  forallb f k = true -> rstrip_by f (l ++ k) = rstrip_by f l.
Proof.
  intros Hk. unfold rstrip_by. rewrite reverse_app, lstrip_by_all; [done|].
  by rewrite forallb_reverse.
Qed.

Lemma rstrip_by_snoc f b l : f b = false -> rstrip_by f (l ++ [b]) = l ++ [b].
Proof.
  intros Hb. unfold rstrip_by. rewrite reverse_app. simpl. rewrite Hb.
  by rewrite reverse_cons, reverse_involutive.
Qed.

Lemma rstrip_by_none f l : forallb (fun b => negb (f b)) l = true -> rstrip_by f l = l.
Proof.
  destruct l as [|b l _] using rev_ind; [done|].
  rewrite forallb_app. simpl. intros [_ Hb]%andb_true_iff.
  rewrite andb_true_r, negb_true_iff in Hb. by apply rstrip_by_snoc.
Qed.

Lemma lstrip_by_none f l : forallb (fun b => negb (f b)) l = true -> lstrip_by f l = l.
Proof.
  destruct l as [|b l]; [done|]. simpl. intros [Hb _]%andb_true_iff.
  rewrite negb_true_iff in Hb. by rewrite Hb.
Qed.

(** ** Substrings: [p in l] *)
Fixpoint contains (p l : pystr) : bool :=
  startswith p l || match l with [] => false | _ :: l => contains p l end.

Lemma contains_spec p l : contains p l = true <-> exists a b, l = a ++ p ++ b.
Proof.
  induction l as [|c l IH]; simpl.
  - rewrite orb_false_r, startswith_spec. split; [intros [k H]; by exists [], k|].
    intros (a & b & H). symmetry in H. apply app_nil in H as [-> H]. eauto.
  - rewrite orb_true_iff, startswith_spec, IH. split.
    + intros [[k H]|(a & b & H)]; [by exists [], k|exists (c :: a), b; simpl; congruence].
    + intros ([|c' a] & b & H); [left; eauto|right]. injection H as -> H. eauto.
Qed.

(** [l.find(p)]: the first position of [p]; Python's -1 is [None]. *)
Fixpoint find_sub (p l : pystr) : option nat :=
  if startswith p l then Some 0
  else match l with [] => None | _ :: l => S <$> find_sub p l end.

Lemma find_sub_byte_app c l k :
  forallb (fun b => negb (is_byte c b)) l = true ->
  find_sub [c] (l ++ k) = (fun i => length l + i)%nat <$> find_sub [c] k.
Proof.
  induction l as [|b l IH]; simpl; [by destruct (find_sub [c] k)|].
  intros [Hb Hl]%andb_true_iff. unfold is_byte in Hb.
  rewrite bool_decide_eq_false_2, IH by (done || by intros ->; rewrite bool_decide_eq_true_2 in Hb).
  simpl. by destruct (find_sub [c] k).
Qed.

Lemma find_sub_byte_here c l : find_sub [c] (c :: l) = Some 0.
Proof. simpl. by rewrite bool_decide_eq_true_2. Qed.

Lemma find_sub_byte_None c l :
  find_sub [c] l = None <-> forallb (fun b => negb (is_byte c b)) l = true.
Proof.
  unfold is_byte. induction l as [|b l IH]; simpl; [done|].
  repeat case_bool_decide; simplify_eq; simpl; [done|]. by rewrite fmap_None, IH.
Qed.

Lemma find_sub_byte_split c l i :
  find_sub [c] l = Some i ->
  exists k, l = take i l ++ c :: k /\
    forallb (fun b => negb (is_byte c b)) (take i l) = true /\ (i < length l)%nat.
Proof.
  unfold is_byte. revert i. induction l as [|b l IH]; intros i; simpl; [done|].
  case_bool_decide as Hb; simpl; [intros [= <-]; subst; exists l; split_and!; [done..|lia]|].
  intros (j & Hj & ->)%fmap_Some. destruct (IH j Hj) as (k & Hk & Hno & Hi). exists k. simpl.
  split_and!; [by f_equal| |lia]. by rewrite bool_decide_eq_false_2 by congruence.
Qed.

(** [range(a, b, step)] *)
Definition py_range (a b step : Z) : pyres (list Z) :=
  if (step =? 0)%Z then Raise ValueError
  else
    let n := if (0 <? step)%Z then ((b - a + step - 1) / step)%Z
             else ((a - b - step - 1) / - step)%Z in
    Ok ((fun i => a + Z.of_nat i * step)%Z <$> seq 0 (Z.to_nat n)).

(** [s.lower()] of a byte string. *)
Definition lower_byte (b : Byte.byte) : Byte.byte :=
  if ((65 <=? byteZ b) && (byteZ b <=? 90))%Z then Zbyte (byteZ b + 32) else b.
Definition lower (s : pystr) : pystr := lower_byte <$> s.

(** ** [l.split(sep)] *)
Fixpoint split_from (sep l acc : pystr) (skip : nat) : list pystr :=
  match l with
  | [] => [acc]
  | b :: l' =>
      match skip with
      | S skip => split_from sep l' acc skip
      | O =>
          if startswith sep l then acc :: split_from sep l' [] (length sep - 1)
          else split_from sep l' (acc ++ [b]) 0
      end
  end.
Definition split (sep l : pystr) : list pystr := split_from sep l [] 0.

(** A separator of two characters, whose last does not occur in the piece. *)
Lemma split_from_piece a c name rest acc :
  a <> c -> forallb (fun b => negb (is_byte c b)) name = true ->
  split_from [a; c] (name ++ a :: c :: rest) acc 0 = (acc ++ name) :: split_from [a; c] rest [] 0.
Proof.
  intros Hac. revert acc. induction name as [|b name IH]; intros acc Hn.
  - cbn [app split_from]. rewrite (startswith_app [a; c] rest : startswith [a; c] (a :: c :: rest) = true).
    by rewrite app_nil_r.
  - cbn [forallb] in Hn. apply andb_true_iff in Hn as [Hb Hn]. cbn [app split_from].
    assert (startswith [a; c] (b :: name ++ a :: c :: rest) = false) as ->.
    { apply not_true_is_false. rewrite startswith_spec. intros [k [= -> Hk]].
      destruct name as [|d name]; [by injection Hk|]. injection Hk as -> _.
      cbn [forallb] in Hn. unfold is_byte in Hn. by rewrite bool_decide_eq_true_2 in Hn. }
    rewrite IH by done. by rewrite <- app_assoc.
Qed.

(** ** Decimal integers: [int(l)] and [str(n)] *)
Definition is_digit (b : Byte.byte) : bool := ((48 <=? byteZ b) && (byteZ b <=? 57))%Z.

Definition digits_value (l : pystr) : Z :=
  foldl (fun acc b => acc * 10 + (byteZ b - 48))%Z 0%Z l.

Definition unsigned_int (l : pystr) : pyres Z :=
  match l with
  | [] => Raise ValueError
  | _ => if forallb is_digit l then Ok (digits_value l) else Raise ValueError
  end.

(** White space around the digits and one sign are allowed. *)
Definition py_int (l : pystr) : pyres Z :=
  match strip l with
  | Byte.x2d :: l => Z.opp <$> unsigned_int l
  | Byte.x2b :: l => unsigned_int l
  | l => unsigned_int l
  end.

Definition digit (n : Z) : Byte.byte := Zbyte (48 + n).
Fixpoint dec_digits (fuel : nat) (n : Z) : pystr :=
  match fuel with
  | O => [digit n]
  | S fuel => if (n <? 10)%Z then [digit n] else dec_digits fuel (n / 10) ++ [digit (n mod 10)]
  end.
(** [str(n)] of an integer that is not negative. *)
Definition str_nat (n : Z) : pystr := dec_digits (Z.to_nat (Z.log2 n)) n.

Lemma byteZ_digit n : (0 <= n < 10)%Z -> byteZ (digit n) = (48 + n)%Z.
Proof. intros Hn. unfold digit. rewrite byteZ_Zbyte. apply Z.mod_small. lia. Qed.

Lemma is_digit_digit n : (0 <= n < 10)%Z -> is_digit (digit n) = true.
Proof.
  intros Hn. unfold is_digit. rewrite byteZ_digit by done.
  rewrite andb_true_iff, !Z.leb_le. lia.
Qed.

Lemma dec_digits_spec fuel n :
  (0 <= n < 10 * 2 ^ Z.of_nat fuel)%Z ->
  forallb is_digit (dec_digits fuel n) = true /\ digits_value (dec_digits fuel n) = n /\
  dec_digits fuel n <> [].
Proof.
  revert n. induction fuel as [|fuel IH]; intros n Hn; cbn [dec_digits].
  - change (2 ^ Z.of_nat 0)%Z with 1%Z in Hn. unfold digits_value. simpl.
    rewrite is_digit_digit, byteZ_digit by lia. split_and!; [done|lia|done].
  - rewrite Nat2Z.inj_succ, Z.pow_succ_r in Hn by lia. destruct (Z.ltb_spec n 10).
    + unfold digits_value. simpl. rewrite is_digit_digit, byteZ_digit by lia.
      split_and!; [done|lia|done].
    + pose proof (Z.mod_pos_bound n 10 ltac:(lia)).
      destruct (IH (n / 10)%Z) as (Hd & Hv & Hne).
      { split; [apply Z.div_pos; lia|]. apply Z.div_lt_upper_bound; lia. }
      split_and!; [| |by intros [_ ?]%app_nil].
      * rewrite forallb_app, Hd. simpl. by rewrite is_digit_digit by lia.
      * unfold digits_value in *. rewrite foldl_app, Hv. simpl.
        rewrite byteZ_digit by lia. pose proof (Z.div_mod n 10 ltac:(lia)). lia.
Qed.

Lemma str_nat_spec n :
  (0 <= n)%Z ->
  forallb is_digit (str_nat n) = true /\ digits_value (str_nat n) = n /\ str_nat n <> [].
Proof.
  intros Hn. apply dec_digits_spec. split; [done|].
  rewrite Z2Nat.id by apply Z.log2_nonneg. destruct (Z.eq_dec n 0%Z) as [->|]; [simpl; lia|].
  pose proof (Z.log2_spec n ltac:(lia)) as [_ Hl]. rewrite Z.pow_succ_r in Hl by apply Z.log2_nonneg.
  lia.
Qed.

Lemma digit_not_space b : is_digit b = true -> is_space b = false.
Proof.
  unfold is_digit, is_space. rewrite andb_true_iff, !Z.leb_le. intros Hb.
  rewrite orb_false_iff, andb_false_iff, Z.eqb_neq, !Z.leb_gt. lia.
Qed.

Lemma strip_spaces_around f l k1 k2 :
  forallb f k1 = true -> forallb f k2 = true -> forallb (fun b => negb (f b)) l = true ->
  strip_by f (k1 ++ l ++ k2) = l.
Proof.
  intros H1 H2 Hl. unfold strip_by. rewrite lstrip_by_all by done.
  destruct l as [|b l]; [simpl|].
  - rewrite <- (app_nil_r k2), lstrip_by_all by done. done.
  - cbn [forallb] in Hl. pose proof Hl as [Hb _]%andb_true_iff. apply negb_true_iff in Hb.
    cbn [app]. rewrite lstrip_by_id by done. change (b :: l ++ k2) with ((b :: l) ++ k2).
    rewrite rstrip_by_all by done. by apply rstrip_by_none.
Qed.

(** [int] reads back a padded decimal. *)
Lemma py_int_padded n k1 k2 :
  (0 <= n)%Z -> forallb is_space k1 = true -> forallb is_space k2 = true ->
  py_int (k1 ++ str_nat n ++ k2) = Ok n.
Proof.
  intros Hn H1 H2. destruct (str_nat_spec n Hn) as (Hd & Hv & Hne). unfold py_int, strip.
  rewrite strip_spaces_around; [|done..|].
  - destruct (str_nat n) as [|b l]; [done|].
    assert (unsigned_int (b :: l) = Ok n) as Hu by (unfold unsigned_int; by rewrite Hd, Hv).
    cbn [forallb] in Hd. apply andb_true_iff in Hd as [Hb _]. by destruct b.
  - apply forallb_forall. intros b Hb. rewrite forallb_forall in Hd.
    by rewrite digit_not_space by auto.
Qed.

(** A field of fixed width, padded with spaces. *)
Definition pad (n : nat) (l : pystr) : pystr := l ++ replicate (n - length l) Byte.x20.

Lemma length_pad n l : (length l <= n)%nat -> length (pad n l) = n.
Proof. intros Hl. unfold pad. rewrite length_app, length_replicate. lia. Qed.

Lemma spaces_are_space n : forallb is_space (replicate n Byte.x20) = true.
Proof. induction n; simpl; auto. Qed.

Lemma py_int_pad n k : (0 <= n)%Z -> py_int (pad k (str_nat n)) = Ok n.
Proof. intros Hn. apply (py_int_padded n [] _ Hn eq_refl), spaces_are_space. Qed.
