(* ===== verification/PySort.v ===== *)
(** * Sorting and binary search

    Python's stable [list.sort], [sorted(set(l))] and [bisect.bisect]. *)

From Stdlib Require Import Strings.Byte.
From S2P Require Import Prelude PyStr.

(** ** Stable sort *)
Section sort.
Context {A : Type} (leb : A -> A -> bool).

(** [x] goes before its equals: it came before them. *)
Fixpoint insert_sorted (x : A) (l : list A) : list A :=
  match l with
  | [] => [x]
  | y :: l' => if leb x y then x :: l else y :: insert_sorted x l'
  end.
Definition py_sort (l : list A) : list A := foldr insert_sorted [] l.

Lemma insert_sorted_perm x l : insert_sorted x l ≡ₚ x :: l.
Proof.
  induction l as [|y l IH]; simpl; [done|]. destruct (leb x y); [done|].
  rewrite IH. apply Permutation_swap.
Qed.

Lemma py_sort_perm l : py_sort l ≡ₚ l.
Proof. induction l as [|x l IH]; simpl; [done|]. by rewrite insert_sorted_perm, IH. Qed.

Definition sorted (l : list A) : Prop := StronglySorted (fun a b => leb a b = true) l.

Context (leb_total : forall a b, leb a b = true \/ leb b a = true).
Context (leb_trans : forall a b c, leb a b = true -> leb b c = true -> leb a c = true).

Lemma insert_sorted_sorted x l : sorted l -> sorted (insert_sorted x l).
Proof using leb_total leb_trans.
  intros Hl. induction Hl as [|y l Hl IH Hy]; simpl; [repeat constructor|].
  destruct (leb x y) eqn:Hxy.
  - constructor; [by constructor|]. constructor; [done|].
    eapply Forall_impl; [exact Hy|]. intros z Hz. by eapply leb_trans.
  - constructor; [exact IH|]. rewrite insert_sorted_perm. constructor; [|done].
    destruct (leb_total x y); [congruence|done].
Qed.

Lemma py_sort_sorted l : sorted (py_sort l).
Proof using leb_total leb_trans.
  induction l as [|x l IH]; simpl; [constructor|]. by apply insert_sorted_sorted.
Qed.
End sort.

Lemma StronglySorted_weaken {A} (R S : A -> A -> Prop) l :
  (forall a b, R a b -> S a b) -> StronglySorted R l -> StronglySorted S l.
Proof.
  intros HRS. induction 1 as [|a l Hl IH Ha]; constructor; [done|].
  eapply Forall_impl; [exact Ha|]. auto.
Qed.

Lemma StronglySorted_pair {A} (R : A -> A -> Prop) l i j a b :
  StronglySorted R l -> l !! i = Some a -> l !! j = Some b -> i < j -> R a b.
Proof.
  intros Hs. revert i j. induction Hs as [|c l Hl IH Hc]; intros i j Hi Hj Hij; [done|].
  destruct j as [|j]; [lia|]. destruct i as [|i]; simpl in *; [|eapply IH; eauto; lia].
  simplify_eq. rewrite Forall_forall in Hc. apply Hc. by eapply list_elem_of_lookup_2.
Qed.

(** Sortedness by a key only depends on the keys. *)
Lemma sorted_keys {A B} (f : A -> Z) (g : B -> Z) l k :
  f <$> l = g <$> k -> StronglySorted (fun a b => (g a <= g b)%Z) k ->
  StronglySorted (fun a b => (f a <= f b)%Z) l.
Proof.
  intros Heq Hs. revert l Heq. induction Hs as [|b k Hk IH Hb]; intros [|a l] Heq; try done;
    [constructor|]. csimpl in Heq. injection Heq as Ha Hl. constructor; [by apply IH|].
  assert (Forall (fun z => (f a <= z)%Z) (f <$> l)) as Hf
    by (rewrite Hl, Ha; by apply Forall_fmap).
  rewrite Forall_fmap in Hf. exact Hf.
Qed.

(** *** Sorting by an integer key *)
Section key.
Context {A : Type} (key : A -> Z).
Definition key_leb (a b : A) : bool := (key a <=? key b)%Z.
Definition sort_by : list A -> list A := py_sort key_leb.

Lemma sort_by_perm l : sort_by l ≡ₚ l.
Proof. apply py_sort_perm. Qed.

Lemma sort_by_sorted l : StronglySorted (fun a b => (key a <= key b)%Z) (sort_by l).
Proof.
  eapply StronglySorted_weaken; [|apply (py_sort_sorted key_leb)].
  - intros a b. apply Z.leb_le.
  - intros a b. unfold key_leb. rewrite !Z.leb_le. lia.
  - intros a b c. unfold key_leb. rewrite !Z.leb_le. lia.
Qed.

(** ** [bisect.bisect(l, x)] *)
Fixpoint bisect_loop (fuel : nat) (l : list A) (x : Z) (lo hi : nat) : nat :=
  match fuel with
  | 0 => lo
  | S fuel =>
      if lo <? hi then
        let mid := (lo + hi) / 2 in
        match l !! mid with
        | None => lo
        | Some a => if (x <? key a)%Z then bisect_loop fuel l x lo mid
                    else bisect_loop fuel l x (S mid) hi
        end
      else lo
  end.
Definition bisect (l : list A) (x : Z) : nat := bisect_loop (length l) l x 0 (length l).

Lemma bisect_loop_spec fuel l x lo hi :
  StronglySorted (fun a b => (key a <= key b)%Z) l ->
  lo <= hi -> hi <= length l -> hi - lo <= fuel ->
  (forall i a, l !! i = Some a -> i < lo -> (key a <= x)%Z) ->
  (forall i a, l !! i = Some a -> hi <= i -> (x < key a)%Z) ->
  let r := bisect_loop fuel l x lo hi in
  r <= length l /\
  (forall i a, l !! i = Some a -> i < r -> (key a <= x)%Z) /\
  (forall i a, l !! i = Some a -> r <= i -> (x < key a)%Z).
Proof.
  intros Hs. revert lo hi. induction fuel as [|fuel IH]; intros lo hi Hlh Hhl Hf Hlo Hhi.
  { simpl. assert (lo = hi) as -> by lia. by split_and!. }
  cbn [bisect_loop]. destruct (Nat.ltb_spec lo hi) as [Hlt|Hge].
  2: { assert (lo = hi) as -> by lia. by split_and!. }
  set (mid := (lo + hi) / 2).
  assert (Hmid : lo <= mid /\ mid < hi).
  { unfold mid. split; [apply Nat.div_le_lower_bound; lia|apply Nat.Div0.div_lt_upper_bound; lia]. }
  destruct (lookup_lt_is_Some_2 l mid) as [m Hm]; [lia|]. rewrite Hm.
  assert (Hord : forall i j a b, l !! i = Some a -> l !! j = Some b -> i < j -> (key a <= key b)%Z).
  { intros i j a b. apply (StronglySorted_pair _ _ i j a b Hs). }
  destruct (Z.ltb_spec x (key m)).
  - apply IH; [lia..|done|]. intros i a Hi Hge.
    destruct (decide (i = mid)) as [->|]; [by simplify_eq|].
    assert (mid < i) by lia. pose proof (Hord mid i m a Hm Hi ltac:(lia)). lia.
  - apply IH; [lia..| |done]. intros i a Hi Hlti.
    destruct (decide (i = mid)) as [->|]; [by simplify_eq|].
    pose proof (Hord i mid a m Hi Hm ltac:(lia)). lia.
Qed.

(** The insertion point after the last key that is not above [x]. *)
Lemma bisect_spec l x :
  StronglySorted (fun a b => (key a <= key b)%Z) l ->
  bisect l x <= length l /\
  (forall i a, l !! i = Some a -> i < bisect l x <-> (key a <= x)%Z).
Proof.
  intros Hs. destruct (bisect_loop_spec (length l) l x 0 (length l) Hs) as (Hr & Hlo & Hhi);
    [lia..| |].
  - intros i a Hi%lookup_lt_Some ?. lia.
  - split; [done|]. intros i a Hi. fold (bisect l x) in *. split; [by apply Hlo|].
    intros Hk. destruct (Nat.lt_ge_cases i (bisect l x)); [done|].
    pose proof (Hhi i a Hi ltac:(done)). lia.
Qed.
End key.

(** ** Byte strings in order: [sorted(set(l))] *)
Fixpoint bytes_leb (a b : pystr) : bool :=
  match a, b with
  | [], _ => true
  | _, [] => false
  | x :: a, y :: b =>
      if (byteZ x =? byteZ y)%Z then bytes_leb a b else (byteZ x <? byteZ y)%Z
  end.

Lemma bytes_leb_total a b : bytes_leb a b = true \/ bytes_leb b a = true.
Proof.
  revert b. induction a as [|x a IH]; intros [|y b]; simpl; auto.
  rewrite (Z.eqb_sym (byteZ y)). destruct (Z.eqb_spec (byteZ x) (byteZ y)); [apply IH|].
  rewrite !Z.ltb_lt. lia.
Qed.

Lemma bytes_leb_trans a b c : bytes_leb a b = true -> bytes_leb b c = true -> bytes_leb a c = true.
Proof.
  revert b c. induction a as [|x a IH]; intros [|y b] [|z c]; simpl; auto; try done.
  repeat match goal with |- context [(?a =? ?b)%Z] => destruct (Z.eqb_spec a b) end;
    rewrite ?Z.ltb_lt; try lia; try congruence. apply IH.
Qed.

Definition sorted_set (l : list pystr) : list pystr := py_sort bytes_leb (remove_dups l).

Lemma sorted_set_spec l :
  sorted bytes_leb (sorted_set l) /\ NoDup (sorted_set l) /\
  forall s, s ∈ sorted_set l <-> s ∈ l.
Proof.
  unfold sorted_set. split; [apply py_sort_sorted; [apply bytes_leb_total|apply bytes_leb_trans]|].
  rewrite py_sort_perm. split; [apply NoDup_remove_dups|]. intros s.
  rewrite py_sort_perm. apply elem_of_remove_dups.
Qed.
