(* ===== verification/PyPath.v ===== *)
(** * Paths

    The functions of Python's [posixpath] that the program applies to host and
    target paths.  The working directory is an argument. *)

From Stdlib Require Import Strings.Byte.
From S2P Require Import Prelude PyStr.

Definition slash : Byte.byte := Byte.x2f.
Definition sep : pystr := [slash].

(** What follows the last [c]; the whole string when there is none. *)
Fixpoint after_last (c : Byte.byte) (s : pystr) : pystr :=
  match s with
  | [] => []
  | b :: s' => if bool_decide (c ∈ s') then after_last c s' else if decide (b = c) then s' else s
  end.
(** [s.rsplit(c, 1)[0]] *)
Definition rsplit_head (c : Byte.byte) (s : pystr) : pystr :=
  if bool_decide (c ∈ s) then take (length s - length (after_last c s) - 1) s else s.

Definition basename : pystr -> pystr := after_last slash.

Definition path_join2 (path b : pystr) : pystr :=
  if startswith sep b then b
  else if bool_decide (path = []) || endswith sep path then path ++ b
  else path ++ sep ++ b.
Definition path_join (path : pystr) (l : list pystr) : pystr := foldl path_join2 path l.

Fixpoint sep_join (l : list pystr) : pystr :=
  match l with [] => [] | [x] => x | x :: l => x ++ sep ++ sep_join l end.

(** The components that [normpath] keeps; [abs]: the path starts with a slash. *)
Definition dot : pystr := bs ".".
Definition dotdot : pystr := bs "..".
Definition norm_step (abs : bool) (new : list pystr) (comp : pystr) : list pystr :=
  if bool_decide (comp = [] \/ comp = dot) then new
  else if bool_decide (comp <> dotdot) || (negb abs && bool_decide (new = []))
          || bool_decide (last new = Some dotdot)
       then new ++ [comp]
       else take (length new - 1) new.
Definition initial_slashes (path : pystr) : nat :=
  if startswith sep path then
    if startswith (sep ++ sep) path && negb (startswith (sep ++ sep ++ sep) path) then 2 else 1
  else 0.
Definition normpath (path : pystr) : pystr :=
  match path with
  | [] => dot
  | _ =>
      let n := initial_slashes path in
      let comps := foldl (norm_step (bool_decide (n <> 0))) [] (split sep path) in
      match replicate n slash ++ sep_join comps with [] => dot | p => p end
  end.

Definition abspath (cwd path : pystr) : pystr :=
  normpath (if startswith sep path then path else path_join2 cwd path).

Fixpoint common_prefix (l k : list pystr) : nat :=
  match l, k with
  | x :: l, y :: k => if decide (x = y) then S (common_prefix l k) else 0
  | _, _ => 0
  end.
Definition components (path : pystr) : list pystr := filter (fun c => c <> []) (split sep path).
Definition relpath (cwd path start : pystr) : pyres pystr :=
  match path with
  | [] => Raise ValueError
  | _ =>
      let start_list := components (abspath cwd start) in
      let path_list := components (abspath cwd path) in
      let i := common_prefix start_list path_list in
      match replicate (length start_list - i) dotdot ++ drop i path_list with
      | [] => Ok dot
      | rel => Ok (path_join [] rel)
      end
  end.

(** ** The last component *)
Lemma after_last_none c s : c ∉ s -> after_last c s = s.
Proof.
  induction s as [|b s IH]; [done|]. intros [H1 H2]%not_elem_of_cons. cbn.
  rewrite bool_decide_eq_false_2 by done. by rewrite decide_False by congruence.
Qed.

Lemma after_last_app c s t : c ∉ t -> after_last c (s ++ c :: t) = t.
Proof.
  intros Ht. induction s as [|b s IH]; cbn.
  - rewrite bool_decide_eq_false_2 by done. by rewrite decide_True.
  - by rewrite bool_decide_eq_true_2 by set_solver.
Qed.

Lemma after_last_app_deep c s t : after_last c (s ++ c :: t) = after_last c t.
Proof.
  induction s as [|b s IH]; cbn; [|by rewrite bool_decide_eq_true_2 by set_solver].
  case_bool_decide as Hc; [done|]. by rewrite decide_True, after_last_none.
Qed.

Lemma after_last_fresh c s : c ∉ after_last c s.
Proof.
  induction s as [|b s IH]; cbn; [by intros ?%not_elem_of_nil|].
  case_bool_decide; [done|]. case_decide; [done|].
  intros [?|?]%elem_of_cons; congruence.
Qed.

(** ** Joins *)
Lemma path_join2_sep a b :
  a <> [] -> endswith sep a = false -> startswith sep b = false -> path_join2 a b = a ++ sep ++ b.
Proof. intros Ha Ea Eb. unfold path_join2. rewrite Eb, Ea. by rewrite bool_decide_eq_false_2. Qed.

Lemma endswith_sep_app a b : b <> [] -> slash ∉ b -> endswith sep (a ++ b) = false.
Proof.
  intros Hne Hb. apply not_true_is_false. rewrite endswith_spec. intros [k Hk].
  destruct b as [|x b _] using rev_ind; [done|]. rewrite app_assoc in Hk.
  apply app_inj_tail in Hk as [_ ->]. apply Hb. set_solver.
Qed.

Lemma startswith_sep_no b : slash ∉ b -> startswith sep b = false.
Proof.
  intros Hb. apply not_true_is_false. rewrite startswith_spec. intros [k ->]. apply Hb. by left.
Qed.

Lemma basename_join2 a b : slash ∉ b -> basename (path_join2 a b) = b.
Proof.
  intros Hb. unfold path_join2, basename. rewrite startswith_sep_no by done.
  destruct (bool_decide (a = []) || endswith sep a) eqn:E; [|by apply after_last_app].
  apply orb_true_iff in E as [->%bool_decide_eq_true|[k ->]%endswith_spec].
  - by apply after_last_none.
  - rewrite <- app_assoc. by apply after_last_app.
Qed.

Example paths :
  basename (bs "/data/misc/a.gcda") = bs "a.gcda" /\ basename (bs "a/") = [] /\
  rsplit_head Byte.x2e (bs "a.b.c") = bs "a.b" /\ rsplit_head Byte.x2e (bs "ab") = bs "ab" /\
  path_join (bs "a/") [bs "b"; bs "c"] = bs "a/b/c" /\ path_join2 (bs "a") (bs "/b") = bs "/b" /\
  normpath (bs "//a/./b/../c//") = bs "//a/c" /\ normpath (bs "../a/..") = bs ".." /\
  relpath (bs "/w") (bs "a/b/c.cpp") (bs "a") = Ok (bs "b/c.cpp") /\
  relpath (bs "/w") (bs "a/b") (bs "a/c/d") = Ok (bs "../../b").
Proof. vm_compute. repeat split. Qed.
