(* ===== verification/GcovStream.v ===== *)
(** * The gcov word stream

    utils/python/coverage/parser.py: [GcovStreamParserUtil], the reader of
    32-bit and 64-bit words and padded strings that the GCNO and GCDA parsers
    extend.  The file object is the bytes not yet read. *)

From Stdlib Require Import Strings.Byte.
From S2P Require Import Prelude PyStr.

Record gstream := mk_gstream {
  gs_stream : pystr;      (* what [self.stream.read] has not returned yet *)
  gs_format : endian;     (* self.format *)
  gs_version : pystr;     (* self.version *)
  gs_checksum : Z;        (* self.checksum *)
}.

Abbreviation gread := (stM gstream).

Definition set_stream (l : pystr) (s : gstream) : gstream :=
  mk_gstream l (gs_format s) (gs_version s) (gs_checksum s).
Definition set_format (en : endian) (s : gstream) : gstream :=
  mk_gstream (gs_stream s) en (gs_version s) (gs_checksum s).
Definition set_version (v : pystr) (s : gstream) : gstream :=
  mk_gstream (gs_stream s) (gs_format s) v (gs_checksum s).
Definition set_checksum (c : Z) (s : gstream) : gstream :=
  mk_gstream (gs_stream s) (gs_format s) (gs_version s) c.

(** [self.stream.read(n)]: at most [n] bytes. *)
Definition stream_read (n : nat) : gread pystr := fun s =>
  Ok (take n (gs_stream s), set_stream (drop n (gs_stream s)) s).

(** [ReadInt] turns the [struct.error] of a short read into a [FileFormatError]. *)
Definition ReadInt : gread Z := fun s =>
  match stream_read 4 s with
  | Ok (buf, s') =>
      match unpack_uint (gs_format s) 4 buf with
      | Ok z => Ok (z, s')
      | Raise _ => Raise FileFormatError
      end
  | Raise e => Raise e
  end.

Definition ReadInt64 : gread Z :=
  lo ← ReadInt;
  hi ← ReadInt;
  mret (Z.lor (Z.shiftl hi 32) lo).

(** The body of the [try] of [ReadString]: [length_] characters, stripped of
    the trailing NULs. *)
Definition ReadChars (length_ : nat) : gread pystr := fun s =>
  match stream_read length_ s with
  | Ok (buf, s') =>
      if decide (length buf = length_)
      then Ok (rstrip_by (is_byte Byte.x00) buf, s')
      else Raise FileFormatError
  | Raise e => Raise e
  end.

Definition ReadString : gread pystr :=
  n ← ReadInt;
  let length_ := Z.shiftl n 2 in
  if (0 <? length_)%Z then ReadChars (Z.to_nat length_) else mret [].

(** [struct.unpack('>I', struct.pack('<I', tag))[0]] *)
Definition byteswap32 (tag : Z) : Z := int_decode Big (int_encode Little 4 tag).

(** The version bytes are unpacked outside any [try]: a short read lets the
    [struct.error] escape. *)
Definition ReadVersion : gread pystr := fun s =>
  match stream_read 4 s with
  | Ok (buf, s') => if decide (length buf = 4) then Ok (buf, s') else Raise StructError
  | Raise e => Raise e
  end.

(** [GcovStreamParserUtil.__init__(stream, magic)] *)
Definition gcov_init (magic : Z) (stream : pystr) : pyres gstream :=
  '(tag, s) ← ReadInt (mk_gstream stream Little [] 0%Z);
  '(v, s) ← ReadVersion s;
  '(ck, s) ← ReadInt s;
  let s := set_checksum ck (set_version v s) in
  if (tag =? magic)%Z then Ok s
  else if (byteswap32 tag =? magic)%Z then Ok (set_format Big s)
  else Raise FileFormatError.

(** ** Writing the format: the specification the readers are checked against *)
Definition word (en : endian) (z : Z) : pystr := int_encode en 4 z.
Definition words (en : endian) (l : list Z) : pystr := mjoin (word en <$> l).

Definition is_word (z : Z) : Prop := (0 <= z < 2 ^ 32)%Z.

(** A string field: its length in words, then the text padded with 1 to 4 NULs
    (gcc always writes a terminator). *)
Definition str_words (t : pystr) : nat := S (length t / 4).
Definition gstring (en : endian) (t : pystr) : pystr :=
  word en (Z.of_nat (str_words t)) ++ t ++ replicate (str_words t * 4 - length t) Byte.x00.

Definition no_nul (t : pystr) : Prop := forallb (fun b => negb (is_byte Byte.x00 b)) t = true.
Definition is_text (t : pystr) : Prop := no_nul t /\ (Z.of_nat (length t) < 2 ^ 32)%Z.

Definition header (magic : Z) (en : endian) (version : pystr) (checksum : Z) : pystr :=
  word en magic ++ version ++ word en checksum.

(** ** The readers invert the writers *)
Lemma words_app en l k : words en (l ++ k) = words en l ++ words en k.
Proof. unfold words. by rewrite fmap_app, join_app. Qed.

Lemma length_word en z : length (word en z) = 4.
Proof. apply length_int_encode. Qed.

Lemma stream_read_app l k s :
  gs_stream s = l ++ k -> stream_read (length l) s = Ok (l, set_stream k s).
Proof.
  intros Hs. unfold stream_read. by rewrite Hs, take_app_length, drop_app_length.
Qed.

Lemma ReadInt_word s z k :
  is_word z -> gs_stream s = word (gs_format s) z ++ k -> ReadInt s = Ok (z, set_stream k s).
Proof.
  intros Hz Hs. unfold ReadInt. rewrite <- (length_word (gs_format s) z) at 1.
  rewrite (stream_read_app _ _ _ Hs). unfold word. by rewrite unpack_uint_encode.
Qed.

Lemma ReadInt_bind {B} (f : Z -> gread B) s z k :
  is_word z -> gs_stream s = word (gs_format s) z ++ k ->
  (ReadInt ≫= f) s = f z (set_stream k s).
Proof. intros Hz Hs. by apply stM_bind_run, ReadInt_word. Qed.

Lemma ReadInt_eof s : (length (gs_stream s) < 4)%nat -> ReadInt s = Raise FileFormatError.
Proof.
  intros Hs. unfold ReadInt, stream_read, unpack_uint.
  rewrite decide_False; [done|]. rewrite length_take. lia.
Qed.

(** A word is read exactly when four bytes are left. *)
Lemma ReadInt_Ok s z s' :
  ReadInt s = Ok (z, s') ->
  is_word z /\ (length (gs_stream s) = 4 + length (gs_stream s'))%nat /\
  gs_format s' = gs_format s /\ gs_version s' = gs_version s /\
  s' = set_stream (drop 4 (gs_stream s)) s.
Proof.
  unfold ReadInt, stream_read, unpack_uint.
  destruct (decide _) as [Hl|]; [|done]. intros [= <- <-].
  pose proof (int_decode_range (gs_format s) (take 4 (gs_stream s))) as Hr.
  rewrite Hl in Hr. split_and!; [done| |done|done|done].
  simpl. rewrite length_drop. rewrite length_take in Hl. lia.
Qed.

Lemma rstrip_nul_pad t n :
  no_nul t -> rstrip_by (is_byte Byte.x00) (t ++ replicate n Byte.x00) = t.
Proof.
  intros Ht. rewrite rstrip_by_all; [by apply rstrip_by_none|].
  apply forallb_forall. intros b Hb. apply list_elem_of_In, elem_of_replicate in Hb as [-> _].
  done.
Qed.

Lemma ReadChars_pad s t n k :
  no_nul t -> gs_stream s = t ++ replicate n Byte.x00 ++ k ->
  ReadChars (length t + n) s = Ok (t, set_stream k s).
Proof.
  intros Ht Hs. unfold ReadChars.
  replace (length t + n)%nat with (length (t ++ replicate n Byte.x00))
    by (by rewrite length_app, length_replicate).
  rewrite app_assoc in Hs. rewrite (stream_read_app _ _ _ Hs).
  by rewrite decide_True, rstrip_nul_pad.
Qed.

Lemma str_words_bounds t :
  (length t < str_words t * 4)%nat /\ (str_words t * 4 <= length t + 4)%nat.
Proof.
  unfold str_words. pose proof (Nat.div_mod_eq (length t) 4).
  pose proof (Nat.mod_upper_bound (length t) 4). lia.
Qed.

Lemma ReadString_gstring s t k :
  is_text t -> gs_stream s = gstring (gs_format s) t ++ k ->
  ReadString s = Ok (t, set_stream k s).
Proof.
  intros [Ht Hlen] Hs. unfold gstring in Hs. rewrite <- !app_assoc in Hs.
  pose proof (str_words_bounds t) as [Hw1 Hw2].
  assert (Hw : is_word (Z.of_nat (str_words t))) by (unfold is_word; lia).
  unfold ReadString. rewrite (stM_bind_run _ _ _ _ _ (ReadInt_word _ _ _ Hw Hs)).
  rewrite Z.shiftl_mul_pow2, (proj2 (Z.ltb_lt _ _)) by lia.
  replace (Z.to_nat _) with (length t + (str_words t * 4 - length t))%nat by lia.
  by erewrite ReadChars_pad.
Qed.

Lemma ReadString_bind {B} (f : pystr -> gread B) s t k :
  is_text t -> gs_stream s = gstring (gs_format s) t ++ k ->
  (ReadString ≫= f) s = f t (set_stream k s).
Proof. intros Ht Hs. by apply stM_bind_run, ReadString_gstring. Qed.

Lemma ReadVersion_4 s v k :
  length v = 4 -> gs_stream s = v ++ k -> ReadVersion s = Ok (v, set_stream k s).
Proof.
  intros Hv Hs. unfold ReadVersion. rewrite <- Hv at 1. rewrite (stream_read_app _ _ _ Hs).
  by rewrite decide_True.
Qed.

Lemma byteswap32_word magic : is_word magic -> byteswap32 (int_decode Little (word Big magic)) = magic.
Proof.
  intros Hm. unfold byteswap32.
  rewrite <- (length_word Big magic) at 1. rewrite int_encode_decode.
  unfold word. by rewrite int_decode_encode.
Qed.

(** The constructor recognises the byte order from the magic number.  The
    checksum is read before the order is known, so it is always decoded as a
    little-endian word. *)
Lemma gcov_init_header magic en v ck k :
  is_word magic -> is_word ck -> length v = 4 ->
  (en = Big -> int_decode Little (word Big magic) <> magic) ->
  gcov_init magic (header magic en v ck ++ k)
  = Ok (mk_gstream k en v (int_decode Little (word en ck))).
Proof.
  intros Hm Hc Hv Hsw. unfold gcov_init, header. rewrite <- !app_assoc.
  assert (Hdec : forall z l st, is_word z ->
    ReadInt (set_stream (word en z ++ l) (mk_gstream st Little [] 0%Z))
    = Ok (int_decode Little (word en z), set_stream l (mk_gstream st Little [] 0%Z))).
  { intros z l st Hz. unfold ReadInt. rewrite <- (length_word en z) at 1.
    rewrite (stream_read_app (word en z) l) by done. unfold unpack_uint.
    by rewrite decide_True by (rewrite length_word; done). }
  pose proof (Hdec magic (v ++ word en ck ++ k) [] Hm) as H1.
  change (set_stream ?l (mk_gstream [] Little [] 0%Z)) with (mk_gstream l Little [] 0%Z) in H1.
  rewrite H1. remember (int_decode Little (word en magic)) as tag eqn:Htag.
  remember (int_decode Little (word en ck)) as ck' eqn:Hck.
  cbn [mbind pyres_bind]. erewrite ReadVersion_4 by done. cbn [mbind pyres_bind].
  pose proof (Hdec ck k [] Hc) as H2.
  change (set_stream ?l (mk_gstream [] Little [] 0%Z)) with (mk_gstream l Little [] 0%Z) in H2.
  change (set_stream ?l (mk_gstream ?st Little [] 0%Z)) with (mk_gstream l Little [] 0%Z).
  rewrite H2. cbn [mbind pyres_bind]. rewrite <- Hck. destruct en.
  - assert (tag = magic) as -> by (subst tag; by apply int_decode_encode).
    by rewrite Z.eqb_refl.
  - rewrite Htag, (proj2 (Z.eqb_neq _ _) (Hsw eq_refl)), byteswap32_word, Z.eqb_refl by done.
    done.
Qed.

(** ** Readers only consume

    A reader never gives bytes back and never changes the format. *)
Definition consumes {A} (m : gread A) : Prop := forall s a s',
  m s = Ok (a, s') ->
  (length (gs_stream s') <= length (gs_stream s))%nat /\
  gs_format s' = gs_format s /\ gs_version s' = gs_version s.

Create HintDb gcov.

Lemma consumes_ret {A} (a : A) : consumes (mret a).
Proof. by intros s b s' [= -> ->]. Qed.

Lemma consumes_lift {A} (m : pyres A) : consumes (st_lift m).
Proof. intros s a s' (a' & _ & [= -> ->])%st_lift_Ok. done. Qed.

Lemma consumes_bind {A B} (m : gread A) (f : A -> gread B) :
  consumes m -> (forall a, consumes (f a)) -> consumes (m ≫= f).
Proof.
  intros Hm Hf s b s' (a & s1 & H1 & H2)%stM_bind_Ok.
  apply Hm in H1 as (? & Hf1 & Hv1). apply Hf in H2 as (? & Hf2 & Hv2).
  split_and!; [lia|congruence..].
Qed.

Lemma consumes_ReadInt : consumes ReadInt.
Proof. intros s a s' (_ & Hl & Hf & Hv & _)%ReadInt_Ok. split_and!; [lia|done..]. Qed.

Lemma consumes_ReadChars n : consumes (ReadChars n).
Proof.
  intros s a s'. unfold ReadChars, stream_read. case_decide; [|done].
  intros [= <- <-]. simpl. rewrite length_drop. split_and!; [lia|done..].
Qed.

Lemma consumes_for_range {A} n (m : nat -> gread A) i :
  (forall j, consumes (m j)) -> consumes (for_range n m i).
Proof.
  intros Hm. revert i. induction n; intros i; simpl; [apply consumes_ret|].
  apply consumes_bind; [done|]. intros a. apply consumes_bind; [done|].
  intros l. apply consumes_ret.
Qed.

Lemma consumes_for_fold {A} n (m : A -> gread A) a :
  (forall a, consumes (m a)) -> consumes (for_fold n m a).
Proof.
  intros Hm. revert a. induction n; intros a; simpl; [apply consumes_ret|].
  apply consumes_bind; [done|]. auto.
Qed.

#[export] Hint Resolve consumes_ret consumes_lift consumes_ReadInt consumes_ReadChars : gcov.
#[export] Hint Resolve consumes_for_range consumes_for_fold : gcov.

Ltac consume :=
  repeat (cbv zeta;
    first [ solve [auto with gcov] | apply consumes_bind; [|intros ?]
          | apply consumes_for_range; intros ? | apply consumes_for_fold; intros ?
          | case_match ]).

Lemma consumes_ReadString : consumes ReadString.
Proof. unfold ReadString. consume. Qed.
#[export] Hint Resolve consumes_ReadString : gcov.

Lemma consumes_ReadInt64 : consumes ReadInt64.
Proof. unfold ReadInt64. consume. Qed.
#[export] Hint Resolve consumes_ReadInt64 : gcov.
