(* ===== verification/CovGraph.v ===== *)
(** * Basic blocks, arcs and the resolution of arc counts

    utils/python/coverage: [ArcSummary], [BlockSummary], [FunctionSummary] and
    [FileSummary].  The Python objects form a cyclic graph (an arc points to its
    two blocks, a block lists its entry and exit arcs); here a function owns a
    store of arcs, an arc is its position in that store and a block its
    position in [func.blocks], so [is]/[==] on the objects (no class defines
    [__eq__]) is equality of positions. *)

From S2P Require Import Prelude PyStr.

(** ** Data *)
Record ArcSummary := mk_arc {
  src_block : nat;
  dst_block : nat;
  on_tree : bool;
  fake : bool;
  fallthrough : bool;
  resolved : bool;
  arc_count : Z;
}.

Record BlockSummary := mk_block {
  blk_index : Z;
  blk_flag : Z;
  entry_arcs : list nat;
  exit_arcs : list nat;
  blk_count : Z;
  blk_lines : list Z;
}.

Record FunctionSummary := mk_fn {
  fn_blocks : list BlockSummary;
  fn_arcs : list ArcSummary;      (* the store: every arc object created so far *)
  fn_ident : Z;
  fn_name : pystr;
  src_file_name : pystr;
  first_line_number : Z;
}.

(** [FileSummary.functions]: ident to function. *)
Abbreviation FileSummary := (gmap Z FunctionSummary).

Definition GCOV_ARC_ON_TREE : Z := 1.
Definition GCOV_ARC_FAKE : Z := Z.shiftl 1 1.
Definition GCOV_ARC_FALLTHROUGH : Z := Z.shiftl 1 2.

Definition flag_set (flag mask : Z) : bool := negb (Z.land flag mask =? 0)%Z.

(** [ArcSummary.__init__] *)
Definition new_arc (src dst : nat) (flag : Z) : ArcSummary :=
  mk_arc src dst (flag_set flag GCOV_ARC_ON_TREE) (flag_set flag GCOV_ARC_FAKE)
    (flag_set flag GCOV_ARC_FALLTHROUGH) false 0.

(** [BlockSummary.__init__] *)
Definition new_block (index flag : Z) : BlockSummary := mk_block index flag [] [] 0 [].

(** [FunctionSummary.__init__] *)
Definition new_function (ident : Z) (name src : pystr) (line : Z) : FunctionSummary :=
  mk_fn [] [] ident name src line.

Definition set_blocks (bl : list BlockSummary) (f : FunctionSummary) : FunctionSummary :=
  mk_fn bl (fn_arcs f) (fn_ident f) (fn_name f) (src_file_name f) (first_line_number f).
Definition set_arcs (al : list ArcSummary) (f : FunctionSummary) : FunctionSummary :=
  mk_fn (fn_blocks f) al (fn_ident f) (fn_name f) (src_file_name f) (first_line_number f).
Definition set_exit_arcs (l : list nat) (b : BlockSummary) : BlockSummary :=
  mk_block (blk_index b) (blk_flag b) (entry_arcs b) l (blk_count b) (blk_lines b).
Definition set_entry_arcs (l : list nat) (b : BlockSummary) : BlockSummary :=
  mk_block (blk_index b) (blk_flag b) l (exit_arcs b) (blk_count b) (blk_lines b).
Definition set_blk_count (c : Z) (b : BlockSummary) : BlockSummary :=
  mk_block (blk_index b) (blk_flag b) (entry_arcs b) (exit_arcs b) c (blk_lines b).
Definition set_blk_lines (l : list Z) (b : BlockSummary) : BlockSummary :=
  mk_block (blk_index b) (blk_flag b) (entry_arcs b) (exit_arcs b) (blk_count b) l.

(** [arc.count = c; arc.resolved = True] *)
Definition resolve_to (c : Z) (a : ArcSummary) : ArcSummary :=
  mk_arc (src_block a) (dst_block a) (on_tree a) (fake a) (fallthrough a) true c.

(** Attribute reads through the references. *)
Definition entries_of (f : FunctionSummary) (b : nat) : list nat :=
  from_option entry_arcs [] (fn_blocks f !! b).
Definition exits_of (f : FunctionSummary) (b : nat) : list nat :=
  from_option exit_arcs [] (fn_blocks f !! b).
Definition is_resolved (f : FunctionSummary) (a : nat) : bool :=
  from_option resolved false (fn_arcs f !! a).
Definition count_of (f : FunctionSummary) (a : nat) : Z :=
  from_option arc_count 0%Z (fn_arcs f !! a).

Definition others (self : nat) (l : list nat) : list nat := filter (fun a => a <> self) l.

(** The guard of the two flow rules: the near side is complete and [self] is
    the only unknown of the far side. *)
Definition solvable (f : FunctionSummary) (near far : list nat) (self : nat) : bool :=
  (0 <? length near) && forallb (is_resolved f) near
  && forallb (is_resolved f) (others self far).

Definition flow_diff (f : FunctionSummary) (near far : list nat) (self : nat) : Z :=
  zsum (count_of f <$> near) - zsum (count_of f <$> others self far).

(** [ArcSummary.Resolve] *)
Definition ArcResolve (self : nat) (f : FunctionSummary) : bool * FunctionSummary :=
  match fn_arcs f !! self with
  | None => (false, f)
  | Some arc =>
      let src := src_block arc in
      let dst := dst_block arc in
      if fake arc && negb (fallthrough arc) then
        (true, set_blocks
           (alter (fun b => set_exit_arcs (remove_first self (exit_arcs b)) b) src (fn_blocks f)) f)
      else if solvable f (entries_of f src) (exits_of f src) self then
        (true, set_arcs (alter (resolve_to
           (flow_diff f (entries_of f src) (exits_of f src) self)) self (fn_arcs f)) f)
      else if solvable f (exits_of f dst) (entries_of f dst) self then
        (true, set_arcs (alter (resolve_to
           (flow_diff f (exits_of f dst) (entries_of f dst) self)) self (fn_arcs f)) f)
      else (false, f)
  end.

(** The worklist of [FunctionSummary.Resolve]. *)
Definition initial_unresolved (f : FunctionSummary) : list nat :=
  filter (fun a => is_resolved f a = false) (mjoin (exit_arcs <$> fn_blocks f)).

(** The [while] loop; [None] only when the fuel is spent. *)
Fixpoint resolve_loop (fuel : nat) (unresolved : list nat) (index prev : nat)
    (f : FunctionSummary) : option (bool * FunctionSummary) :=
  match fuel with
  | 0 => None
  | S fuel =>
      match unresolved with
      | [] => Some (true, f)
      | _ :: _ =>
          let len := length unresolved in
          let index := index `mod` len in
          if (index =? 0) && (len =? prev) then Some (false, f)
          else
            match unresolved !! index with
            | None => Some (false, f)
            | Some arc =>
                let '(ok, f) := ArcResolve arc f in
                if ok then resolve_loop fuel (remove_first arc unresolved) index len f
                else resolve_loop fuel unresolved (S index) len f
            end
      end
  end.

(** The block counts, from the arc counts. *)
Definition block_total (f : FunctionSummary) (b : BlockSummary) : Z :=
  if decide (entry_arcs b = []) then zsum (count_of f <$> exit_arcs b)
  else zsum (count_of f <$> entry_arcs b).
Definition resolve_blocks (f : FunctionSummary) : FunctionSummary :=
  set_blocks ((fun b => set_blk_count (block_total f b) b) <$> fn_blocks f) f.

Definition resolve_fuel (n : nat) : nat := (n + 2) * (n + 2).

(** [FunctionSummary.Resolve] *)
Definition Resolve (f : FunctionSummary) : bool * FunctionSummary :=
  let unresolved := initial_unresolved f in
  let n := length unresolved in
  match resolve_loop (resolve_fuel n) unresolved 0 (n + 1) f with
  | Some (true, f') => (true, resolve_blocks f')
  | Some (false, f') => (false, f')
  | None => (false, f)
  end.

(** ** Termination of the worklist loop *)

(** One iteration, with the list known to be non-empty. *)
Lemma resolve_loop_step fuel unresolved index prev f :
  unresolved <> [] ->
  let len := length unresolved in
  let i := index `mod` len in
  exists arc, unresolved !! i = Some arc /\
  resolve_loop (S fuel) unresolved index prev f =
    (if (i =? 0) && (len =? prev) then Some (false, f)
     else if (ArcResolve arc f).1
          then resolve_loop fuel (remove_first arc unresolved) i len (ArcResolve arc f).2
          else resolve_loop fuel unresolved (S i) len (ArcResolve arc f).2).
Proof.
  intros Hne len i.
  assert (Hi : i < length unresolved).
  { apply Nat.mod_upper_bound. by destruct unresolved. }
  destruct (lookup_lt_is_Some_2 unresolved i Hi) as [arc Harc]. exists arc. split; [done|].
  destruct unresolved as [|u us]; [done|]. cbn [resolve_loop].
  fold len i. destruct (_ && _); [done|]. rewrite Harc. by destruct (ArcResolve arc f) as [[] ?].
Qed.

Lemma resolve_loop_total fuel unresolved index prev f :
  let len := length unresolved in
  (prev = len -> 1 <= index <= len) ->
  (if decide (prev = len) then len - index + 1 else len + 2) + len * (len + 2) <= fuel ->
  exists r, resolve_loop fuel unresolved index prev f = Some r.
Proof.
  revert unresolved index prev f.
  induction fuel as [|fuel IH]; intros unresolved index prev f len Hprev Hfuel.
  { exfalso. case_decide; lia. }
  destruct (decide (unresolved = [])) as [->|Hne]; [simpl; eauto|].
  assert (Hlen : 0 < len) by (unfold len; destruct unresolved; simpl; [done|lia]).
  destruct (resolve_loop_step fuel unresolved index prev f Hne) as (a & Ha & ->).
  fold len in Ha |- *. set (i := index `mod` len) in *.
  assert (Hi : i < len) by (apply Nat.mod_upper_bound; lia).
  destruct ((i =? 0) && (len =? prev)) eqn:Hstop; [eauto|].
  destruct (ArcResolve a f) as [[] f']; simpl.
  - pose proof (list_elem_of_lookup_2 _ _ _ Ha) as Hin.
    apply length_remove_first in Hin. fold len in Hin.
    apply IH; [lia|]. rewrite decide_False by lia.
    case_decide; nia.
  - apply IH; [lia|]. fold len. rewrite decide_True by done.
    destruct (decide (prev = len)) as [Heq|Hne']; [|lia].
    assert (i = index) as ->; [|lia]. unfold i. apply Nat.mod_small.
    specialize (Hprev Heq). destruct (decide (index = len)) as [->|]; [|lia].
    exfalso. unfold i in Hstop. rewrite Nat.Div0.mod_same in Hstop. simpl in Hstop.
    apply Nat.eqb_neq in Hstop. lia.
Qed.

(** ** Well-formed graphs

    Each arc sits at most once in the exit list of its source and the entry
    list of its destination. *)
Definition listed (f : FunctionSummary) (sel : BlockSummary -> list nat)
    (endpoint : ArcSummary -> nat) : Prop :=
  forall b blk, fn_blocks f !! b = Some blk ->
    NoDup (sel blk) /\
    forall a, a ∈ sel blk -> exists arc, fn_arcs f !! a = Some arc /\ endpoint arc = b.

Definition wf_graph (f : FunctionSummary) : Prop :=
  listed f exit_arcs src_block /\ listed f entry_arcs dst_block.

(** Arcs [Resolve] drops instead of solving. *)
Definition removable (f : FunctionSummary) (a : nat) : bool :=
  from_option (fun arc => fake arc && negb (fallthrough arc)) false (fn_arcs f !! a).
Definition live (f : FunctionSummary) (l : list nat) : list nat :=
  filter (fun a => removable f a = false) l.

Section flow.
(** A true execution count for each arc. *)
Context (flow : nat -> Z).

(** Kirchhoff's law at every block that has both entries and real exits. *)
Definition conserves (f : FunctionSummary) : Prop :=
  forall b blk, fn_blocks f !! b = Some blk ->
    entry_arcs blk <> [] -> live f (exit_arcs blk) <> [] ->
    zsum (flow <$> entry_arcs blk) = zsum (flow <$> live f (exit_arcs blk)).

(** What is already resolved carries its true count; dropped arcs stay at 0. *)
Definition agrees (f : FunctionSummary) : Prop :=
  forall a arc, fn_arcs f !! a = Some arc ->
    (resolved arc = true -> arc_count arc = flow a /\ removable f a = false) /\
    (resolved arc = false -> arc_count arc = 0%Z).

Definition flow_inv (f : FunctionSummary) : Prop := wf_graph f /\ conserves f /\ agrees f.

Lemma resolved_count f a :
  agrees f -> is_resolved f a = true -> count_of f a = flow a /\ removable f a = false.
Proof.
  unfold is_resolved, count_of. destruct (fn_arcs f !! a) as [arc|] eqn:Ha; simpl; [|done].
  intros Hag Hr. by apply (Hag a arc Ha).
Qed.

Lemma sum_resolved f l :
  agrees f -> forallb (is_resolved f) l = true ->
  zsum (count_of f <$> l) = zsum (flow <$> l) /\ live f l = l.
Proof.
  intros Hag Hl. rewrite forallb_forall in Hl.
  assert (Hin : forall a, a ∈ l -> is_resolved f a = true).
  { intros a Ha. apply Hl. by apply list_elem_of_In. }
  split.
  - apply zsum_ext. intros a Ha. by apply resolved_count, Hin.
  - apply filter_all_id, Forall_forall. intros a Ha. by apply resolved_count, Hin.
Qed.

(** *** The two updates [ArcResolve] performs *)
Definition drop_exit (self src : nat) (f : FunctionSummary) : FunctionSummary :=
  set_blocks
    (alter (fun b => set_exit_arcs (remove_first self (exit_arcs b)) b) src (fn_blocks f)) f.
Definition settle (self : nat) (c : Z) (f : FunctionSummary) : FunctionSummary :=
  set_arcs (alter (resolve_to c) self (fn_arcs f)) f.

Lemma drop_exit_block self src f b blk' :
  fn_blocks (drop_exit self src f) !! b = Some blk' ->
  exists blk, fn_blocks f !! b = Some blk /\ entry_arcs blk' = entry_arcs blk /\
    exit_arcs blk' = if decide (b = src) then remove_first self (exit_arcs blk)
                     else exit_arcs blk.
Proof.
  unfold drop_exit. simpl. rewrite list_lookup_alter. case_decide as Hb; subst.
  - intros (blk & -> & ->)%fmap_Some. exists blk. by rewrite decide_True.
  - intros ->. exists blk'. by rewrite decide_False.
Qed.

Lemma settle_arc self c f a arc' :
  fn_arcs (settle self c f) !! a = Some arc' ->
  exists arc, fn_arcs f !! a = Some arc /\ src_block arc' = src_block arc /\
    dst_block arc' = dst_block arc /\ arc' = if decide (a = self) then resolve_to c arc else arc.
Proof.
  unfold settle. simpl. rewrite list_lookup_alter. case_decide as Ha; subst.
  - intros (arc & -> & ->)%fmap_Some. exists arc. by rewrite decide_True.
  - intros ->. exists arc'. by rewrite decide_False.
Qed.

Lemma removable_settle self c f a : removable (settle self c f) a = removable f a.
Proof.
  unfold removable, settle. simpl. rewrite list_lookup_alter.
  case_decide as Ha; [|done]. rewrite Ha. by destruct (fn_arcs f !! a).
Qed.

Lemma live_settle self c f l : live (settle self c f) l = live f l.
Proof. apply list_filter_iff. intros a. by rewrite removable_settle. Qed.

Lemma drop_exit_inv self src f :
  removable f self = true -> flow_inv f -> flow_inv (drop_exit self src f).
Proof.
  intros Hrem ([Hex Hen] & Hc & Hag). split_and!.
  - split; intros b blk' (blk & Hb & Hent & Hexit)%drop_exit_block.
    + destruct (Hex b blk Hb) as [Hnd Hall]. rewrite Hexit. case_decide; [|by split].
      split; [by apply NoDup_remove_first|]. intros a Ha%elem_of_remove_first. auto.
    + rewrite Hent. apply (Hen b blk Hb).
  - intros b blk' (blk & Hb & Hent & Hexit)%drop_exit_block.
    change (live (drop_exit self src f)) with (live f). rewrite Hent.
    assert (live f (exit_arcs blk') = live f (exit_arcs blk)) as ->; [|by apply (Hc b blk)].
    rewrite Hexit. case_decide; [|done]. apply filter_remove_first. by rewrite Hrem.
  - exact Hag.
Qed.

Lemma settle_inv self c f :
  removable f self = false -> c = flow self -> flow_inv f -> flow_inv (settle self c f).
Proof.
  intros Hrem -> ([Hex Hen] & Hc & Hag). split_and!.
  - split; intros b blk Hb.
    + destruct (Hex b blk Hb) as [Hnd Hall]. split; [done|]. intros a Ha.
      destruct (Hall a Ha) as (arc & Harc & Hsrc). unfold settle. simpl.
      rewrite list_lookup_alter. case_decide as Hsa; [rewrite Hsa|]; rewrite Harc;
        (eexists; split; [reflexivity|exact Hsrc]).
    + destruct (Hen b blk Hb) as [Hnd Hall]. split; [done|]. intros a Ha.
      destruct (Hall a Ha) as (arc & Harc & Hdst). unfold settle. simpl.
      rewrite list_lookup_alter. case_decide as Hsa; [rewrite Hsa|]; rewrite Harc;
        (eexists; split; [reflexivity|exact Hdst]).
  - intros b blk Hb. rewrite live_settle. by apply (Hc b blk).
  - intros a arc' (arc & Harc & _ & _ & ->)%settle_arc. rewrite removable_settle.
    case_decide as Ha; [|by apply (Hag a arc)]. simpl. rewrite Ha. split; [by split|done].
Qed.

(** *** One arc *)
Definition linked (f : FunctionSummary) (a : nat) : Prop :=
  exists arc, fn_arcs f !! a = Some arc /\ a ∈ exits_of f (src_block arc) /\
    a ∈ entries_of f (dst_block arc).

Lemma others_sum l self :
  NoDup l -> self ∈ l ->
  zsum (flow <$> l) = (flow self + zsum (flow <$> others self l))%Z.
Proof. apply zsum_filter_ne. Qed.

Lemma live_all_but_one f l self :
  agrees f -> removable f self = false ->
  forallb (is_resolved f) (others self l) = true -> live f l = l.
Proof.
  intros Hag Hself Ho. apply filter_all_id, Forall_forall. intros a Ha.
  destruct (decide (a = self)) as [->|Hne]; [done|].
  rewrite forallb_forall in Ho. apply (resolved_count f a Hag), Ho.
  apply list_elem_of_In. by apply list_elem_of_filter.
Qed.

(** Solving the one unknown of a conserving block gives its true count. *)
Lemma flow_diff_src f self src :
  flow_inv f -> self ∈ exits_of f src -> removable f self = false ->
  solvable f (entries_of f src) (exits_of f src) self = true ->
  flow_diff f (entries_of f src) (exits_of f src) self = flow self.
Proof.
  intros ([Hex Hen] & Hc & Hag) Hin Hrem. unfold solvable, flow_diff.
  unfold exits_of, entries_of in *. destruct (fn_blocks f !! src) as [blk|] eqn:Hb; simpl in *;
    [|by apply not_elem_of_nil in Hin].
  intros [[Hne Hnear]%andb_true_iff Hfar]%andb_true_iff. apply Nat.ltb_lt in Hne.
  destruct (sum_resolved f _ Hag Hnear) as [-> _].
  destruct (sum_resolved f _ Hag Hfar) as [-> _].
  pose proof (live_all_but_one f _ self Hag Hrem Hfar) as Hlive.
  pose proof (Hc src blk Hb) as Hk. rewrite Hlive in Hk.
  rewrite (others_sum _ self (proj1 (Hex src blk Hb)) Hin) in Hk.
  rewrite Hk; [lia|by intros He; rewrite He in Hne; simpl in Hne; lia|].
  intros He. rewrite He in Hin. by apply not_elem_of_nil in Hin.
Qed.

Lemma flow_diff_dst f self dst :
  flow_inv f -> self ∈ entries_of f dst ->
  solvable f (exits_of f dst) (entries_of f dst) self = true ->
  flow_diff f (exits_of f dst) (entries_of f dst) self = flow self.
Proof.
  intros ([Hex Hen] & Hc & Hag) Hin. unfold solvable, flow_diff.
  unfold exits_of, entries_of in *. destruct (fn_blocks f !! dst) as [blk|] eqn:Hb; simpl in *;
    [|by apply not_elem_of_nil in Hin].
  intros [[Hne Hnear]%andb_true_iff Hfar]%andb_true_iff. apply Nat.ltb_lt in Hne.
  destruct (sum_resolved f _ Hag Hnear) as [-> Hlive].
  destruct (sum_resolved f _ Hag Hfar) as [-> _].
  pose proof (Hc dst blk Hb) as Hk. rewrite Hlive in Hk.
  rewrite (others_sum _ self (proj1 (Hen dst blk Hb)) Hin) in Hk.
  rewrite <- Hk; [lia| |by intros He; rewrite He in Hne; simpl in Hne; lia].
  intros He. rewrite He in Hin. by apply not_elem_of_nil in Hin.
Qed.

(** What one call leaves alone. *)
Record frame (self : nat) (f f' : FunctionSummary) : Prop := {
  fr_removable : forall a, removable f' a = removable f a;
  fr_entries : forall b, entries_of f' b = entries_of f b;
  fr_exits : forall b a, removable f a = false -> a ∈ exits_of f' b <-> a ∈ exits_of f b;
  fr_src : forall a arc', fn_arcs f' !! a = Some arc' -> exists arc,
    fn_arcs f !! a = Some arc /\ src_block arc' = src_block arc /\ dst_block arc' = dst_block arc;
  fr_resolved : forall a, a <> self -> is_resolved f' a = is_resolved f a;
  fr_length : length (fn_arcs f') = length (fn_arcs f);
}.

Lemma frame_refl self f : frame self f f.
Proof. split; try done. intros a arc Ha. eauto. Qed.

Lemma drop_exit_frame self src f : removable f self = true -> frame self f (drop_exit self src f).
Proof.
  intros Hrem. split; try done.
  - intros b. unfold entries_of, drop_exit. simpl. rewrite list_lookup_alter.
    case_decide as Hb; [rewrite Hb|]; by destruct (fn_blocks f !! b).
  - intros b a Ha. unfold exits_of, drop_exit. simpl. rewrite list_lookup_alter.
    case_decide as Hb; [rewrite Hb|done]. destruct (fn_blocks f !! b) as [blk|]; simpl; [|done].
    split; [apply elem_of_remove_first|]. apply elem_of_remove_first_ne. congruence.
  - intros a arc Ha. eauto.
Qed.

Lemma settle_frame self c f : frame self f (settle self c f).
Proof.
  split; try done.
  - apply removable_settle.
  - intros a arc' (arc & Harc & Hs & Hd & _)%settle_arc. eauto.
  - intros a Ha. unfold is_resolved, settle. simpl. by rewrite list_lookup_alter_ne.
  - apply length_alter.
Qed.

Lemma settle_resolved self c f arc :
  fn_arcs f !! self = Some arc -> is_resolved (settle self c f) self = true.
Proof.
  intros Ha. unfold is_resolved, settle. simpl. by rewrite list_lookup_alter_eq, Ha.
Qed.

(** A call that answers [True] either dropped the arc or found its true count. *)
Lemma ArcResolve_step f self :
  flow_inv f -> (removable f self = false -> linked f self) ->
  flow_inv (ArcResolve self f).2 /\ frame self f (ArcResolve self f).2 /\
  ((ArcResolve self f).1 = true ->
     removable f self = true \/ is_resolved (ArcResolve self f).2 self = true).
Proof.
  intros Hinv Hlink. unfold ArcResolve.
  destruct (fn_arcs f !! self) as [arc|] eqn:Harc;
    [|by split_and!; [|apply frame_refl|]].
  assert (Hrem : removable f self = fake arc && negb (fallthrough arc))
    by (unfold removable; by rewrite Harc).
  destruct (fake arc && negb (fallthrough arc)) eqn:Hf.
  { split_and!; [by apply drop_exit_inv|by apply drop_exit_frame|by left]. }
  destruct (Hlink Hrem) as (arc' & Harc' & Hsrc & Hdst). simplify_eq.
  destruct (solvable f (entries_of f _) (exits_of f _) self) eqn:H1.
  { pose proof (flow_diff_src f self _ Hinv Hsrc Hrem H1) as Hd.
    split_and!; [by apply settle_inv|by apply settle_frame|].
    intros _. right. by eapply settle_resolved. }
  destruct (solvable f (exits_of f _) (entries_of f _) self) eqn:H2.
  { pose proof (flow_diff_dst f self _ Hinv Hdst H2) as Hd.
    split_and!; [by apply settle_inv|by apply settle_frame|].
    intros _. right. by eapply settle_resolved. }
  by split_and!; [|apply frame_refl|].
Qed.

Lemma frame_linked self f f' a :
  frame self f f' -> removable f a = false -> linked f a -> linked f' a.
Proof.
  intros Hfr Hrem (arc & Harc & Hs & Hd).
  assert (a < length (fn_arcs f')) as [arc' Harc']%lookup_lt_is_Some_2.
  { rewrite (fr_length _ _ _ Hfr). by eapply lookup_lt_Some. }
  destruct (fr_src _ _ _ Hfr a arc' Harc') as (arc2 & Harc2 & Hs2 & Hd2).
  rewrite Harc in Harc2. injection Harc2 as <-.
  exists arc'. split; [done|]. rewrite Hs2, Hd2, (fr_entries _ _ _ Hfr).
  split; [|done]. by apply (fr_exits _ _ _ Hfr).
Qed.

Lemma settle_linked self c f a : linked f a -> linked (settle self c f) a.
Proof.
  intros (arc & Harc & Hs & Hd). unfold settle.
  destruct (decide (a = self)) as [->|Hne].
  - exists (resolve_to c arc). simpl. by rewrite list_lookup_alter_eq, Harc.
  - exists arc. simpl. by rewrite list_lookup_alter_ne.
Qed.

(** *** The worklist loop *)
Definition loop_inv (unresolved : list nat) (f : FunctionSummary) : Prop :=
  flow_inv f /\
  (forall a, a ∈ unresolved -> removable f a = false -> linked f a) /\
  (forall b a, a ∈ exits_of f b -> removable f a = false -> is_resolved f a = false ->
     a ∈ unresolved).

Lemma loop_inv_step unresolved f a :
  NoDup unresolved -> a ∈ unresolved -> loop_inv unresolved f ->
  loop_inv (if (ArcResolve a f).1 then remove_first a unresolved else unresolved)
    (ArcResolve a f).2.
Proof.
  intros Hnd Ha (Hinv & Hlink & Hall).
  destruct (ArcResolve_step f a Hinv (Hlink a Ha)) as (Hinv' & Hfr & Hok).
  destruct (ArcResolve a f) as [ok f']; simpl in *. split_and!; [done| |].
  - intros c Hc Hrem. rewrite (fr_removable _ _ _ Hfr) in Hrem.
    apply (frame_linked a f); [done..|]. apply Hlink; [|done].
    destruct ok; [by eapply elem_of_remove_first|done].
  - intros b c Hc Hrem Hres. rewrite (fr_removable _ _ _ Hfr) in Hrem.
    apply (fr_exits _ _ _ Hfr) in Hc; [|done].
    destruct (decide (c = a)) as [->|Hne].
    + destruct ok; [|done]. destruct (Hok eq_refl); congruence.
    + rewrite (fr_resolved _ _ _ Hfr) in Hres by done.
      destruct ok; [apply elem_of_remove_first_ne; [done|]|]; by apply (Hall b).
Qed.

Lemma resolve_loop_inv fuel unresolved index prev f ok f' :
  NoDup unresolved -> loop_inv unresolved f ->
  resolve_loop fuel unresolved index prev f = Some (ok, f') ->
  exists rest, loop_inv rest f' /\ (ok = true -> rest = []) /\
    (forall b, entries_of f' b = entries_of f b) /\
    (forall a, removable f' a = removable f a) /\
    (forall b a, removable f a = false -> a ∈ exits_of f b -> a ∈ exits_of f' b).
Proof.
  revert unresolved index prev f.
  induction fuel as [|fuel IH]; intros unresolved index prev f Hnd Hinv; [done|].
  destruct (decide (unresolved = [])) as [->|Hne];
    [simpl; intros [= <- <-]; exists []; by split_and!|].
  destruct (resolve_loop_step fuel unresolved index prev f Hne) as (a & Ha & ->).
  apply list_elem_of_lookup_2 in Ha. destruct (_ && _); [intros [= <- <-]; exists unresolved; by split_and!|].
  pose proof (loop_inv_step _ _ _ Hnd Ha Hinv) as Hstep.
  destruct Hinv as (Hinv & Hlink & Hall).
  destruct (ArcResolve_step f a Hinv (Hlink a Ha)) as (_ & Hfr & _).
  intros Hrun.
  assert (exists u i p, NoDup u /\ loop_inv u (ArcResolve a f).2 /\
    resolve_loop fuel u i p (ArcResolve a f).2 = Some (ok, f')) as (u & i & p & Hu & Hi & Hr).
  { destruct (ArcResolve a f) as [[] f2]; simpl in *; do 3 eexists;
      (split; [|split; [exact Hstep|exact Hrun]]); [by apply NoDup_remove_first|done]. }
  destruct (IH _ _ _ _ Hu Hi Hr) as (rest & Hrest & Hok & Hent & Hrem & Hexit).
  exists rest. split; [done|]. split; [done|]. split_and!.
  - intros b. by rewrite Hent, (fr_entries _ _ _ Hfr).
  - intros c. by rewrite Hrem, (fr_removable _ _ _ Hfr).
  - intros b c Hc Hin. apply Hexit; [by rewrite (fr_removable _ _ _ Hfr)|].
    by apply (fr_exits _ _ _ Hfr).
Qed.

(** *** The whole function *)

(** Every arc is listed by both its blocks, as [ReadArcs] leaves them. *)
Definition fully_linked (f : FunctionSummary) : Prop :=
  forall a b, a ∈ exits_of f b \/ a ∈ entries_of f b -> linked f a.

Lemma NoDup_join_exits (bl : list BlockSummary) (P : nat -> nat -> Prop) k :
  (forall b blk, bl !! b = Some blk -> NoDup (exit_arcs blk) /\
     forall a, a ∈ exit_arcs blk -> P (k + b) a) ->
  (forall b c a, P b a -> P c a -> b = c) ->
  NoDup (mjoin (exit_arcs <$> bl)) /\
  forall a, a ∈ mjoin (exit_arcs <$> bl) -> exists b, k <= b /\ P b a.
Proof.
  revert k. induction bl as [|blk bl IH]; intros k Hbl HP; simpl.
  { split; [constructor|]. by intros a ?%not_elem_of_nil. }
  destruct (IH (S k)) as [Hnd Hall]; [|done|].
  { intros b blk' Hb. rewrite Nat.add_succ_comm. by apply (Hbl (S b)). }
  destruct (Hbl 0 blk eq_refl) as [Hnd0 Hall0]. rewrite Nat.add_0_r in Hall0. split.
  - apply NoDup_app. split; [done|]. split; [|done]. intros a Ha Ha'.
    destruct (Hall a Ha') as (b & Hb & HPb). pose proof (HP _ _ _ HPb (Hall0 a Ha)). lia.
  - intros a [Ha|Ha]%elem_of_app; [eauto|].
    destruct (Hall a Ha) as (b & Hb & HPb). exists b. split; [lia|done].
Qed.

Lemma elem_of_all_exits f a :
  a ∈ mjoin (exit_arcs <$> fn_blocks f) <-> exists b, a ∈ exits_of f b.
Proof.
  rewrite list_elem_of_join. split.
  - intros (l & Ha & (blk & -> & [b Hb]%list_elem_of_lookup)%list_elem_of_fmap).
    exists b. unfold exits_of. by rewrite Hb.
  - intros (b & Ha). unfold exits_of in Ha.
    destruct (fn_blocks f !! b) as [blk|] eqn:Hb; simpl in Ha; [|by apply not_elem_of_nil in Ha].
    exists (exit_arcs blk). split; [done|]. apply list_elem_of_fmap. exists blk.
    split; [done|]. by eapply list_elem_of_lookup_2.
Qed.

Lemma initial_unresolved_spec f :
  wf_graph f -> NoDup (initial_unresolved f) /\
  forall a, a ∈ initial_unresolved f <-> is_resolved f a = false /\ exists b, a ∈ exits_of f b.
Proof.
  intros [Hex _]. split.
  - apply NoDup_filter.
    destruct (NoDup_join_exits (fn_blocks f)
      (fun b a => exists arc, fn_arcs f !! a = Some arc /\ src_block arc = b) 0) as [Hnd _];
      [done| |done].
    intros b c a (? & ? & <-) (? & ? & <-). by simplify_eq.
  - intros a. unfold initial_unresolved. by rewrite list_elem_of_filter, elem_of_all_exits.
Qed.

Lemma sum_live f l :
  agrees f -> (forall a, a ∈ l -> removable f a = false -> is_resolved f a = true) ->
  zsum (count_of f <$> l) = zsum (flow <$> live f l).
Proof.
  intros Hag. induction l as [|a l IH]; intros Hl; [done|].
  unfold live in *. rewrite filter_cons. csimpl. rewrite IH by (intros; apply Hl; [by right|done]).
  destruct (removable f a) eqn:Hrem; simpl.
  - unfold count_of. unfold removable in Hrem.
    destruct (fn_arcs f !! a) as [arc|] eqn:Ha; simpl; [|done].
    destruct (resolved arc) eqn:Hr.
    + destruct (Hag a arc Ha) as [H _]. destruct (H Hr) as [_ H2].
      unfold removable in H2. rewrite Ha in H2. simpl in *. congruence.
    + destruct (Hag a arc Ha) as [_ H]. by rewrite H.
  - destruct (resolved_count f a Hag) as [-> _]; [|done]. apply Hl; [by left|done].
Qed.

Lemma resolve_blocks_lookup f b blk' :
  fn_blocks (resolve_blocks f) !! b = Some blk' ->
  exists blk, fn_blocks f !! b = Some blk /\ entry_arcs blk' = entry_arcs blk /\
    exit_arcs blk' = exit_arcs blk /\ blk_count blk' = block_total f blk.
Proof.
  unfold resolve_blocks. simpl. rewrite list_lookup_fmap.
  intros (blk & -> & ->)%fmap_Some. by exists blk.
Qed.

(** Everything the loop leaves behind when it ends with an empty worklist. *)
Lemma loop_done_resolved f0 f :
  loop_inv [] f -> fully_linked f0 ->
  (forall b, entries_of f b = entries_of f0 b) ->
  (forall a, removable f a = removable f0 a) ->
  (forall b a, removable f0 a = false -> a ∈ exits_of f0 b -> a ∈ exits_of f b) ->
  forall a b, a ∈ exits_of f b \/ a ∈ entries_of f b -> removable f a = false ->
    is_resolved f a = true.
Proof.
  intros (Hinv & _ & Hall) Hlk Hent Hrem Hex a b Hin Ha.
  assert (exists c, a ∈ exits_of f c) as [c Hc].
  { destruct Hin as [?|Hin]; [eauto|]. rewrite Hent in Hin.
    destruct (Hlk a b (or_intror Hin)) as (arc & _ & Hs & _).
    exists (src_block arc). apply Hex; [congruence|done]. }
  destruct (is_resolved f a) eqn:Hr; [done|].
  by apply Hall, not_elem_of_nil in Hc.
Qed.

Lemma loop_inv_initial f :
  flow_inv f -> fully_linked f -> loop_inv (initial_unresolved f) f.
Proof.
  intros Hinv Hlk. destruct (initial_unresolved_spec f) as [_ Hin]; [by destruct Hinv|].
  split_and!; [apply Hinv..| |].
  - intros a [_ [b Hb]]%Hin _. by apply (Hlk a b); left.
  - intros b a Hb _ Hr. apply Hin. eauto.
Qed.
End flow.

Lemma Resolve_true_counts (flow : nat -> Z) f f' :
  flow_inv flow f -> fully_linked f -> Resolve f = (true, f') ->
  forall b blk, fn_blocks f' !! b = Some blk ->
    (forall a, a ∈ exit_arcs blk -> removable f' a = false ->
       is_resolved f' a = true /\ count_of f' a = flow a) /\
    blk_count blk = zsum (flow <$> live f'
      (if decide (entry_arcs blk = []) then exit_arcs blk else entry_arcs blk)).
Proof.
  intros Hinv Hlk. unfold Resolve.
  destruct (resolve_loop _ _ _ _ f) as [[[] g]|] eqn:Hrun; [|done..].
  intros [= <-] b blk' (blk & Hb & -> & -> & ->)%resolve_blocks_lookup.
  destruct (initial_unresolved_spec f) as [Hnd _]; [by destruct Hinv|].
  destruct (resolve_loop_inv flow _ _ _ _ _ _ _ Hnd (loop_inv_initial _ _ Hinv Hlk) Hrun)
    as (rest & Hdone & Hrest & Hent & Hrem & Hex).
  rewrite (Hrest eq_refl) in Hdone. clear Hrest rest.
  pose proof (loop_done_resolved flow f g Hdone Hlk Hent Hrem Hex) as Hres.
  destruct Hdone as ((_ & _ & Hag) & _).
  change (live (resolve_blocks g)) with (live g).
  assert (Hexits : exits_of g b = exit_arcs blk) by (unfold exits_of; by rewrite Hb).
  assert (Hentries : entries_of g b = entry_arcs blk) by (unfold entries_of; by rewrite Hb).
  split.
  - intros a Ha Hlive. change (is_resolved (resolve_blocks g)) with (is_resolved g).
    change (count_of (resolve_blocks g)) with (count_of g).
    assert (is_resolved g a = true) as Hra.
    { apply (Hres a b); [left; by rewrite Hexits|done]. }
    split; [done|]. by apply (resolved_count flow g a Hag).
  - unfold block_total. case_decide; apply (sum_live flow g _ Hag); intros a Ha Hlive;
      apply (Hres a b); rewrite ?Hexits, ?Hentries; auto.
Qed.

(** C7: If the measured arcs of a well-formed function carry true counts of some
    flow that obeys Kirchhoff's law at the inner blocks, then a [Resolve] that
    answers [True] has given every arc it keeps, and every block, its true
    count. *)
Theorem Resolve_sound (flow : nat -> Z) f f' :
  flow_inv flow f -> fully_linked f -> Resolve f = (true, f') ->
  forall b blk, fn_blocks f' !! b = Some blk ->
    (forall a, a ∈ exit_arcs blk -> removable f' a = false ->
       is_resolved f' a = true /\ count_of f' a = flow a) /\
    blk_count blk = zsum (flow <$> live f'
      (if decide (entry_arcs blk = []) then exit_arcs blk else entry_arcs blk)).
Proof. apply Resolve_true_counts. Qed.

(** The [while] loop of [Resolve] always ends, whatever the graph. *)
Theorem Resolve_terminates f :
  exists ok f', resolve_loop (resolve_fuel (length (initial_unresolved f)))
    (initial_unresolved f) 0 (length (initial_unresolved f) + 1) f = Some (ok, f').
Proof.
  destruct (resolve_loop_total (resolve_fuel (length (initial_unresolved f)))
    (initial_unresolved f) 0 (length (initial_unresolved f) + 1) f) as [[ok f'] H].
  - lia.
  - unfold resolve_fuel. rewrite decide_False; lia.
  - eauto.
Qed.

(** ** Concrete graphs *)

(** Decide a statement about every block or arc of a concrete function. *)
Ltac concrete_graph :=
  repeat match goal with
  | |- _ /\ _ => split
  | |- forall _, _ => intro
  | H : [] !! _ = Some _ |- _ => rewrite lookup_nil in H; discriminate H
  | H : (_ :: _) !! ?b = Some _ |- _ => destruct b; simpl in H; simplify_eq/=
  end.

Definition tree_arc (s d : nat) : ArcSummary := new_arc s d GCOV_ARC_ON_TREE.
Definition measured_arc (s d : nat) (c : Z) : ArcSummary := resolve_to c (new_arc s d 0).
Definition blk (ent ex : list nat) : BlockSummary := mk_block 0 0 ent ex 0 [].

(** An [if] without [else]: the two exits of block 1 are measured. *)
Definition branch_fn : FunctionSummary :=
  mk_fn [blk [] [0]; blk [0] [1; 2]; blk [1] [3]; blk [2; 3] [4]; blk [4] []]
    [tree_arc 0 1; measured_arc 1 2 3; measured_arc 1 3 4; tree_arc 2 3; tree_arc 3 4]
    1 [] [] 1.
Definition branch_flow (a : nat) : Z := nth a [7; 3; 4; 3; 7]%Z 0%Z.

(** A path X -> Y -> Z -> W -> V whose blocks come in the order Y, Z, X, W, V and
    whose last arc is measured. *)
Definition chain_fn : FunctionSummary :=
  mk_fn [blk [2] [0]; blk [0] [1]; blk [] [2]; blk [1] [3]; blk [3] []]
    [tree_arc 0 1; tree_arc 1 3; tree_arc 2 0; measured_arc 3 4 5] 1 [] [] 1.
Definition chain_flow (a : nat) : Z := 5.

Lemma linked_concrete f :
  forallb (fun a => match fn_arcs f !! a with
    | Some arc => bool_decide (a ∈ exits_of f (src_block arc))
                  && bool_decide (a ∈ entries_of f (dst_block arc))
    | None => false end)
    (mjoin (exit_arcs <$> fn_blocks f) ++ mjoin (entry_arcs <$> fn_blocks f)) = true ->
  fully_linked f.
Proof.
  rewrite forallb_forall. intros H a b Hin.
  assert (In a (mjoin (exit_arcs <$> fn_blocks f) ++ mjoin (entry_arcs <$> fn_blocks f)))
    as Ha%H.
  { apply list_elem_of_In, elem_of_app. unfold exits_of, entries_of in Hin.
    destruct (fn_blocks f !! b) as [k|] eqn:Hb; simpl in Hin;
      [|destruct Hin as [Hin|Hin]; by apply not_elem_of_nil in Hin].
    apply list_elem_of_lookup_2 in Hb.
    destruct Hin as [Hin|Hin]; [left|right]; apply list_elem_of_join; eexists;
      (split; [exact Hin|]); apply list_elem_of_fmap; eauto. }
  unfold linked. destruct (fn_arcs f !! a) as [arc|]; [|done].
  apply andb_true_iff in Ha as [H1%bool_decide_eq_true H2%bool_decide_eq_true]. eauto.
Qed.

Lemma listed_concrete f sel endpoint :
  forallb (fun '(b, k) => bool_decide (NoDup (sel k)) &&
    forallb (fun a => match fn_arcs f !! a with
      | Some arc => bool_decide (endpoint arc = b) | None => false end) (sel k))
    (imap pair (fn_blocks f)) = true ->
  listed f sel endpoint.
Proof.
  rewrite forallb_forall. intros H b k Hb.
  assert (In (b, k) (imap pair (fn_blocks f))) as Hk%H.
  { apply list_elem_of_In, list_elem_of_lookup. exists b. by rewrite list_lookup_imap, Hb. }
  apply andb_true_iff in Hk as [Hnd%bool_decide_eq_true Hk]. split; [done|].
  rewrite forallb_forall in Hk. intros a Ha%list_elem_of_In%Hk.
  destruct (fn_arcs f !! a) as [arc|]; [|done]. apply bool_decide_eq_true in Ha. eauto.
Qed.

Lemma conserves_concrete flow f :
  forallb (fun k => bool_decide (entry_arcs k = []) || bool_decide (live f (exit_arcs k) = [])
    || (zsum (flow <$> entry_arcs k) =? zsum (flow <$> live f (exit_arcs k)))%Z)
    (fn_blocks f) = true ->
  conserves flow f.
Proof.
  rewrite forallb_forall. intros H b k Hb He Hx.
  apply list_elem_of_lookup_2, list_elem_of_In, H in Hb.
  rewrite !orb_true_iff, !bool_decide_eq_true, Z.eqb_eq in Hb. naive_solver.
Qed.

Lemma branch_inv : flow_inv branch_flow branch_fn.
Proof.
  split; [split; by apply listed_concrete|split].
  - by apply conserves_concrete.
  - unfold agrees. cbn [branch_fn fn_arcs]. by concrete_graph.
Qed.

Lemma chain_inv : flow_inv chain_flow chain_fn.
Proof.
  split; [split; by apply listed_concrete|split].
  - by apply conserves_concrete.
  - unfold agrees. cbn [chain_fn fn_arcs]. by concrete_graph.
Qed.

Lemma Resolve_sound_witness :
  (Resolve branch_fn).1 = true /\
  forall b k, fn_blocks (Resolve branch_fn).2 !! b = Some k ->
    blk_count k = zsum (branch_flow <$> live (Resolve branch_fn).2
      (if decide (entry_arcs k = []) then exit_arcs k else entry_arcs k)).
Proof.
  split; [vm_compute; reflexivity|]. intros b k Hb.
  apply (Resolve_sound branch_flow branch_fn (Resolve branch_fn).2 branch_inv
    (linked_concrete branch_fn ltac:(vm_compute; reflexivity)) ltac:(vm_compute; reflexivity) b k Hb).
Defined.

(** [Resolve] may answer [False] on a function it could solve: it stops when
    the index wraps after a failure even though an arc solved earlier in the
    same pass has unblocked the first ones.  A second call succeeds. *)
Theorem Resolve_gives_up_early :
  exists f f1, flow_inv chain_flow f /\ fully_linked f /\
    Resolve f = (false, f1) /\ (Resolve f1).1 = true.
Proof.
  exists chain_fn, (Resolve chain_fn).2.
  split; [apply chain_inv|]. split; [by apply linked_concrete|].
  split; vm_compute; reflexivity.
Qed.
