(* ===== verification/Gcno.v ===== *)
(** * The GCNO parser

    utils/python/coverage/gcno_parser.py: [GCNOParser] reads the control flow
    graph gcc wrote for each function of a translation unit. *)

From Stdlib Require Import Strings.Byte.
From S2P Require Import Prelude PyStr GcovStream CovGraph.

Definition GCNO_MAGIC : Z := 0x67636e6f.
Definition TAG_FUNCTION : Z := 0x01000000.
Definition TAG_BLOCKS : Z := 0x01410000.
Definition TAG_ARCS : Z := 0x01430000.
Definition TAG_LINES : Z := 0x01450000.
Definition BYTES_IN_WORD : Z := 4.
Definition HEADER_LENGTH : Z := 3.

(** [int(self.version[1]) > 4]: [int] of a character that is no digit raises. *)
Definition version_gt_4 (version : pystr) : pyres bool :=
  c ← py_get version 1;
  if ((48 <=? byteZ c) && (byteZ c <=? 57))%Z then Ok (4 <? byteZ c - 48)%Z
  else Raise ValueError.

(** [GCNOParser.ReadFunction] *)
Definition ReadFunction : gread FunctionSummary :=
  ident ← ReadInt;
  _ ← ReadInt;
  newer ← (fun s => st_lift (version_gt_4 (gs_version s)) s);
  _ ← (if newer : bool then ReadInt else mret 0%Z);
  name ← ReadString;
  source_file_name ← ReadString;
  first_line_number ← ReadInt;
  mret (new_function ident name source_file_name first_line_number).

(** [GCNOParser.ReadBlocks]: [func] is [None] before the first function; the
    attribute access on it comes after the words are read. *)
Definition ReadBlocks (length_ : Z) (func : option FunctionSummary) : gread FunctionSummary :=
  blocks ← for_range (Z.to_nat length_)
    (fun i => block_flag ← ReadInt; mret (new_block (Z.of_nat i) block_flag)) 0;
  f ← st_lift (from_opt AttributeError func);
  mret (set_blocks (fn_blocks f ++ blocks) f).

(** A fresh arc, appended to the exits of [src] and then to the entries of [dst]. *)
Definition add_arc (src dst : nat) (flag : Z) (f : FunctionSummary) : FunctionSummary :=
  let a := length (fn_arcs f) in
  set_arcs (fn_arcs f ++ [new_arc src dst flag])
    (set_blocks
       (alter (fun b => set_entry_arcs (entry_arcs b ++ [a]) b) dst
          (alter (fun b => set_exit_arcs (exit_arcs b ++ [a]) b) src (fn_blocks f))) f).

(** [func.blocks[i]] for an unsigned word [i]. *)
Definition block_at (f : FunctionSummary) (i : Z) : pyres nat :=
  if ((0 <=? i) && (i <? Z.of_nat (length (fn_blocks f))))%Z
  then Ok (Z.to_nat i) else Raise IndexError.

(** The loop body of [ReadArcs]. *)
Definition ReadArc (src : nat) (f : FunctionSummary) : gread FunctionSummary :=
  dst_block_index ← ReadInt;
  dst ← st_lift (block_at f dst_block_index);
  flag ← ReadInt;
  mret (add_arc src dst flag f).

(** [GCNOParser.ReadArcs]; the division is Python 2's, towards minus infinity. *)
Definition ReadArcs (length_ : Z) (func : option FunctionSummary) : gread FunctionSummary :=
  src_block_index ← ReadInt;
  f ← st_lift (from_opt AttributeError func);
  src ← st_lift (block_at f src_block_index);
  for_fold (Z.to_nat ((length_ - 1) / 2)) (ReadArc src) f.

(** [int(math.ceil(len(src) * 1.0 / BYTES_IN_WORD)) + 1] *)
Definition src_words (src : pystr) : Z :=
  ((Z.of_nat (length src) + (BYTES_IN_WORD - 1)) / BYTES_IN_WORD + 1)%Z.

(** [GCNOParser.ReadLines] *)
Definition ReadLines (length_ : Z) (func : option FunctionSummary) : gread FunctionSummary :=
  block_number ← ReadInt;
  _ ← ReadInt;
  src ← ReadString;
  read ← for_range (Z.to_nat (length_ - src_words src - HEADER_LENGTH)) (fun _ => ReadInt) 0;
  let lines := filter (fun line => line <> 0%Z) read in
  f ← st_lift (from_opt AttributeError func);
  b ← st_lift (block_at f block_number);
  mret (set_blocks (alter (set_blk_lines lines) b (fn_blocks f)) f).

Definition is_gcno_tag (tag : Z) : bool :=
  ((tag =? TAG_FUNCTION) || (tag =? TAG_BLOCKS) || (tag =? TAG_ARCS) || (tag =? TAG_LINES))%Z.

(** [self.file_summary.functions[func.ident] = func] *)
Definition store (func : option FunctionSummary) (fs : FileSummary) : FileSummary :=
  match func with Some f => <[fn_ident f := f]> fs | None => fs end.

(** One section: what the body of the outer loop does with a tag and a length. *)
Definition ReadSection (tag length_ : Z) (func : option FunctionSummary) (fs : FileSummary)
    : gread (option FunctionSummary * FileSummary) :=
  if (tag =? TAG_FUNCTION)%Z then
    f ← ReadFunction; mret (Some f, store func fs)
  else if (tag =? TAG_BLOCKS)%Z then
    f ← ReadBlocks length_ func; mret (Some f, fs)
  else if (tag =? TAG_ARCS)%Z then
    f ← ReadArcs length_ func; mret (Some f, fs)
  else if (tag =? TAG_LINES)%Z then
    f ← ReadLines length_ func; mret (Some f, fs)
  else mret (func, fs).

(** The [except] branch: end of file. *)
Definition finish (func : option FunctionSummary) (fs : FileSummary) : pyres FileSummary :=
  match func with
  | None => Raise FileFormatError
  | Some _ => Ok (store func fs)
  end.

(** The two nested [while True] loops of [Parse]: a word that is no tag is
    skipped.  [None] only when the fuel is spent. *)
Fixpoint gcno_loop (fuel : nat) (func : option FunctionSummary) (fs : FileSummary) (s : gstream)
    : option (pyres FileSummary) :=
  match fuel with
  | 0 => None
  | S fuel =>
      match ReadInt s with
      | Raise _ => Some (finish func fs)
      | Ok (tag, s) =>
          if is_gcno_tag tag then
            match ReadInt s with
            | Raise _ => Some (finish func fs)
            | Ok (length_, s) =>
                match ReadSection tag length_ func fs s with
                | Ok ((func, fs), s) => gcno_loop fuel func fs s
                | Raise e => Some (Raise e)
                end
            end
          else gcno_loop fuel func fs s
      end
  end.

(** The parser object. *)
Record GCNOParser := mk_gcno {
  gp_stream : gstream;
  gp_summary : FileSummary;
  gp_parsed : bool;
}.

(** [GCNOParser.__init__] *)
Definition new_GCNOParser (content : pystr) : pyres GCNOParser :=
  s ← gcov_init GCNO_MAGIC content;
  Ok (mk_gcno s ∅ false).

(** [GCNOParser.Parse]: the loop leaves the stream at its end.  The fuel is one
    more than the bytes left, and every turn of the loop reads a word. *)
Definition gcno_Parse (p : GCNOParser) : pyres (FileSummary * GCNOParser) :=
  if gp_parsed p then Ok (gp_summary p, p)
  else
    fs ← default (Raise FileFormatError)
           (gcno_loop (S (length (gs_stream (gp_stream p)))) None (gp_summary p) (gp_stream p));
    Ok (fs, mk_gcno (set_stream [] (gp_stream p)) fs true).

(** [ParseGcnoFile], given the contents of the file. *)
Definition ParseGcnoFile (content : pystr) : pyres FileSummary :=
  p ← new_GCNOParser content;
  '(fs, _) ← gcno_Parse p;
  Ok fs.

(** ** Termination *)
Lemma consumes_version : consumes (fun s => st_lift (version_gt_4 (gs_version s)) s).
Proof. intros s a s' (? & _ & [= -> ->])%st_lift_Ok. done. Qed.
#[export] Hint Resolve consumes_version : gcov.

Lemma consumes_ReadArc src f : consumes (ReadArc src f).
Proof. unfold ReadArc. consume. Qed.
#[export] Hint Resolve consumes_ReadArc : gcov.

Lemma consumes_ReadSection tag length_ func fs : consumes (ReadSection tag length_ func fs).
Proof.
  unfold ReadSection, ReadFunction, ReadBlocks, ReadArcs, ReadLines.
  repeat case_match; consume.
Qed.

Lemma gcno_loop_total fuel func fs s :
  (length (gs_stream s) < fuel)%nat -> exists r, gcno_loop fuel func fs s = Some r.
Proof.
  revert func fs s. induction fuel as [|fuel IH]; intros func fs s Hs; [lia|]. simpl.
  destruct (ReadInt s) as [[tag s1]|e] eqn:H1; [|eauto].
  apply ReadInt_Ok in H1 as (_ & Hl1 & _).
  destruct (is_gcno_tag tag); [|apply IH; lia].
  destruct (ReadInt s1) as [[len s2]|e] eqn:H2; [|eauto].
  apply ReadInt_Ok in H2 as (_ & Hl2 & _).
  destruct (ReadSection tag len func fs s2) as [[[func' fs'] s3]|e] eqn:H3; [|eauto].
  apply consumes_ReadSection in H3 as (Hl3 & _). apply IH. lia.
Qed.

(** ** What the parser builds is a well-formed, unresolved graph *)
Definition unresolved_fn (f : FunctionSummary) : Prop :=
  forall a arc, fn_arcs f !! a = Some arc -> resolved arc = false /\ arc_count arc = 0%Z.

Definition graph_ok (f : FunctionSummary) : Prop :=
  wf_graph f /\ fully_linked f /\ unresolved_fn f.

Lemma add_arc_block src dst flag f b blk' :
  fn_blocks (add_arc src dst flag f) !! b = Some blk' ->
  exists blk, fn_blocks f !! b = Some blk /\
    exit_arcs blk' = exit_arcs blk ++ (if decide (b = src) then [length (fn_arcs f)] else []) /\
    entry_arcs blk' = entry_arcs blk ++ (if decide (b = dst) then [length (fn_arcs f)] else []).
Proof.
  unfold add_arc. simpl. rewrite !list_lookup_alter.
  destruct (fn_blocks f !! b) as [blk|] eqn:Hb.
  - repeat case_decide; simplify_eq; try congruence; rewrite ?Hb; simpl; intros [= <-];
      exists blk; simpl; rewrite ?app_nil_r; done.
  - repeat case_decide; simplify_eq; rewrite ?Hb; done.
Qed.

Lemma add_arc_exits src dst flag f b :
  src < length (fn_blocks f) ->
  exits_of (add_arc src dst flag f) b
  = exits_of f b ++ (if decide (b = src) then [length (fn_arcs f)] else []).
Proof.
  intros Hsrc. unfold exits_of.
  destruct (fn_blocks (add_arc src dst flag f) !! b) as [blk'|] eqn:Hb.
  - destruct (add_arc_block _ _ _ _ _ _ Hb) as (blk & -> & Hex & _). by simpl.
  - assert (fn_blocks f !! b = None) as Hnone.
    { apply lookup_ge_None in Hb. apply lookup_ge_None. unfold add_arc in Hb. simpl in Hb.
      by rewrite !length_alter in Hb. }
    rewrite Hnone. simpl. rewrite decide_False; [done|].
    apply lookup_ge_None in Hnone. lia.
Qed.

Lemma add_arc_entries src dst flag f b :
  dst < length (fn_blocks f) ->
  entries_of (add_arc src dst flag f) b
  = entries_of f b ++ (if decide (b = dst) then [length (fn_arcs f)] else []).
Proof.
  intros Hdst. unfold entries_of.
  destruct (fn_blocks (add_arc src dst flag f) !! b) as [blk'|] eqn:Hb.
  - destruct (add_arc_block _ _ _ _ _ _ Hb) as (blk & -> & _ & Hen). by simpl.
  - assert (fn_blocks f !! b = None) as Hnone.
    { apply lookup_ge_None in Hb. apply lookup_ge_None. unfold add_arc in Hb. simpl in Hb.
      by rewrite !length_alter in Hb. }
    rewrite Hnone. simpl. rewrite decide_False; [done|].
    apply lookup_ge_None in Hnone. lia.
Qed.

Lemma listed_fresh f sel endpoint b blk a :
  listed f sel endpoint -> fn_blocks f !! b = Some blk -> a ∈ sel blk -> a < length (fn_arcs f).
Proof.
  intros Hl Hb Ha. destruct (Hl b blk Hb) as [_ Hin].
  destruct (Hin a Ha) as (arc & Harc & _). by eapply lookup_lt_Some.
Qed.

Lemma listed_snoc f f' sel endpoint new at_ :
  fn_arcs f' = fn_arcs f ++ [new] -> endpoint new = at_ ->
  (forall b blk', fn_blocks f' !! b = Some blk' -> exists blk, fn_blocks f !! b = Some blk /\
     sel blk' = sel blk ++ (if decide (b = at_) then [length (fn_arcs f)] else [])) ->
  listed f sel endpoint -> listed f' sel endpoint.
Proof.
  intros Harcs Hnew Hblk Hl b blk' Hb'. destruct (Hblk b blk' Hb') as (blk & Hb & Hsel).
  destruct (Hl b blk Hb) as [Hnd Hin]. rewrite Hsel, Harcs. split.
  - apply NoDup_app. split; [done|]. split; [|case_decide; [apply NoDup_singleton|constructor]].
    intros a Ha Hc. pose proof (listed_fresh _ _ _ _ _ _ Hl Hb Ha).
    case_decide; [|by apply not_elem_of_nil in Hc]. apply list_elem_of_singleton in Hc. lia.
  - intros a [Ha|Ha]%elem_of_app.
    + destruct (Hin a Ha) as (arc & Harc & He). exists arc. split; [|done].
      by apply lookup_app_l_Some.
    + case_decide as Hat; [|by apply not_elem_of_nil in Ha].
      apply list_elem_of_singleton in Ha as ->. exists new.
      split; [|congruence]. by rewrite list_lookup_middle.
Qed.

Lemma add_arc_ok src dst flag f :
  src < length (fn_blocks f) -> dst < length (fn_blocks f) -> graph_ok f ->
  graph_ok (add_arc src dst flag f).
Proof.
  intros Hsrc Hdst ([Hex Hen] & Hlk & Hun). split_and!.
  - split; (eapply (listed_snoc f); [done|done| |done]);
      intros b blk' (blk & Hb & H1 & H2)%add_arc_block; eauto.
  - intros a b Hin. unfold linked. cbn [fn_arcs add_arc set_arcs].
    rewrite add_arc_exits, add_arc_entries in Hin by done.
    assert ((a ∈ exits_of f b \/ a ∈ entries_of f b) \/ a = length (fn_arcs f)) as [Hold| ->].
    { rewrite !elem_of_app in Hin.
      assert (forall P `{!Decision P}, a ∈ (if decide P then [length (fn_arcs f)] else []) ->
        a = length (fn_arcs f)) as Hif.
      { intros P ? HP. case_decide; [by apply list_elem_of_singleton|by apply not_elem_of_nil in HP]. }
      naive_solver. }
    + destruct (Hlk a b Hold) as (arc & Harc & Hs & Hd). exists arc.
      split; [by apply lookup_app_l_Some|].
      rewrite add_arc_exits, add_arc_entries, !elem_of_app by done. auto.
    + exists (new_arc src dst flag). split; [by rewrite list_lookup_middle|]. simpl.
      rewrite add_arc_exits, add_arc_entries, !elem_of_app, !decide_True by done.
      by split; right; apply list_elem_of_singleton.
  - intros a arc. cbn [fn_arcs add_arc set_arcs].
    intros [Ha|[_ Ha]]%lookup_app_Some; [by apply (Hun a)|].
    apply list_lookup_singleton_Some in Ha as [_ <-]. done.
Qed.

(** The invariant only reads the arcs and the lists of the blocks. *)
Lemma listed_ext f f' sel endpoint :
  fn_arcs f' = fn_arcs f ->
  (forall b, from_option sel [] (fn_blocks f' !! b) = from_option sel [] (fn_blocks f !! b)) ->
  listed f sel endpoint -> listed f' sel endpoint.
Proof.
  intros Ha Hsel Hl b blk' Hb. specialize (Hsel b). rewrite Hb in Hsel. simpl in Hsel.
  rewrite Hsel, Ha. destruct (fn_blocks f !! b) as [blk|] eqn:Hb'; simpl; [by apply (Hl b blk)|].
  split; [constructor|by intros a ?%not_elem_of_nil].
Qed.

Lemma graph_ok_ext f f' :
  fn_arcs f' = fn_arcs f ->
  (forall b, exits_of f' b = exits_of f b) -> (forall b, entries_of f' b = entries_of f b) ->
  graph_ok f -> graph_ok f'.
Proof.
  intros Ha Hex Hen ([H1 H2] & Hlk & Hun). split_and!.
  - split; by apply (listed_ext f).
  - intros a b Hin. rewrite Hex, Hen in Hin. destruct (Hlk a b Hin) as (arc & Harc & Hs & Hd).
    exists arc. by rewrite Ha, Hex, Hen.
  - intros a arc. rewrite Ha. apply Hun.
Qed.

Lemma new_function_ok ident name src line : graph_ok (new_function ident name src line).
Proof.
  split_and!; [split; by intros b blk Hb| |by intros a arc Hb].
  intros a b [Hin|Hin]; by apply not_elem_of_nil in Hin.
Qed.

Lemma append_blocks_ok f blocks :
  Forall (fun b => entry_arcs b = [] /\ exit_arcs b = []) blocks ->
  graph_ok f -> graph_ok (set_blocks (fn_blocks f ++ blocks) f).
Proof.
  intros Hnew. rewrite Forall_lookup in Hnew.
  apply graph_ok_ext; [done|..]; intros b; unfold exits_of, entries_of; simpl;
    (destruct (decide (b < length (fn_blocks f)));
      [by rewrite lookup_app_l|rewrite lookup_app_r by lia]);
    rewrite (lookup_ge_None_2 (fn_blocks f)) by lia;
    (destruct (blocks !! _) as [nb|] eqn:Hb; simpl; [|done]); by destruct (Hnew _ _ Hb).
Qed.

Lemma set_lines_ok f lines b :
  graph_ok f -> graph_ok (set_blocks (alter (set_blk_lines lines) b (fn_blocks f)) f).
Proof.
  apply graph_ok_ext; [done|..]; intros c; unfold exits_of, entries_of; simpl;
    rewrite list_lookup_alter; (case_decide as Hc; [rewrite Hc|done]);
    by destruct (fn_blocks f !! c).
Qed.

Lemma for_range_Forall {A} (P : A -> Prop) (m : nat -> gread A) n i s l s' :
  (forall j s a s', m j s = Ok (a, s') -> P a) ->
  for_range n m i s = Ok (l, s') -> Forall P l.
Proof.
  intros Hm. revert i s l s'. induction n as [|n IH]; intros i s l s'; simpl.
  { intros [= <- _]. constructor. }
  intros (a & s1 & H1 & (l' & s2 & H2 & [= <- _])%stM_bind_Ok)%stM_bind_Ok. eauto.
Qed.

Lemma block_at_Ok f i b s r :
  st_lift (block_at f i) s = Ok (b, r) -> b < length (fn_blocks f) /\ r = (s : gstream).
Proof.
  intros (c & Hb & [= <- <-])%st_lift_Ok. unfold block_at in Hb.
  destruct (_ && _) eqn:Hi; [|done]. injection Hb as <-. split; [lia|done].
Qed.

Lemma ReadArc_ok src f s r :
  (src < length (fn_blocks f)) /\ graph_ok f -> ReadArc src f s = Ok r ->
  src < length (fn_blocks r.1) /\ graph_ok r.1.
Proof.
  intros [Hsrc Hok]. unfold ReadArc.
  intros (? & s1 & _ & (dst & s2 & [Hdst ->]%block_at_Ok &
    (flag & s3 & _ & [= <-])%stM_bind_Ok)%stM_bind_Ok)%stM_bind_Ok.
  simpl. rewrite !length_alter. split; [done|]. by apply add_arc_ok.
Qed.

Definition opt_ok (func : option FunctionSummary) : Prop :=
  forall f, func = Some f -> graph_ok f.
Definition summary_ok (fs : FileSummary) : Prop :=
  forall ident f, fs !! ident = Some f -> fn_ident f = ident /\ graph_ok f.

Lemma store_ok func fs : opt_ok func -> summary_ok fs -> summary_ok (store func fs).
Proof.
  intros Hf Hfs. destruct func as [f|]; [|done]. simpl. intros ident g.
  rewrite lookup_insert_Some. intros [[<- <-]|[_ Hg]]; [|by apply Hfs]. split; [done|]. by apply Hf.
Qed.

Lemma lift_func_ok func f s r :
  opt_ok func -> st_lift (from_opt AttributeError func) s = Ok (f, r) ->
  graph_ok f /\ r = (s : gstream).
Proof.
  intros Hok (f' & Hf & [= <- <-])%st_lift_Ok. destruct func; simpl in Hf; [|done].
  injection Hf as <-. split; [by apply Hok|done].
Qed.

Lemma ReadFunction_ok s f s' : ReadFunction s = Ok (f, s') -> graph_ok f.
Proof.
  unfold ReadFunction. rewrite !stM_bind_Ok.
  intros (? & ? & _ & (? & ? & _ & (? & ? & _ & (? & ? & _ & (? & ? & _ &
    (? & ? & _ & (? & ? & _ & [= <- _])%stM_bind_Ok)%stM_bind_Ok)%stM_bind_Ok)%stM_bind_Ok
    )%stM_bind_Ok)%stM_bind_Ok).
  apply new_function_ok.
Qed.

Lemma ReadBlocks_ok n func s f s' :
  opt_ok func -> ReadBlocks n func s = Ok (f, s') -> graph_ok f.
Proof.
  intros Hok. unfold ReadBlocks.
  intros (blocks & s1 & Hb & (g & s2 & [Hg _]%(lift_func_ok func) & [= <- _])%stM_bind_Ok)%stM_bind_Ok;
    [|done]. apply append_blocks_ok; [|done]. eapply for_range_Forall; [|exact Hb].
  intros j st b st' (flag & ? & _ & [= <- _])%stM_bind_Ok. done.
Qed.

Lemma ReadArcs_ok n func s f s' :
  opt_ok func -> ReadArcs n func s = Ok (f, s') -> graph_ok f.
Proof.
  intros Hok. unfold ReadArcs.
  intros (? & s1 & _ & (g & s2 & [Hg _]%(lift_func_ok func) &
    (src & s3 & [Hsrc _]%block_at_Ok & Hrun)%stM_bind_Ok)%stM_bind_Ok)%stM_bind_Ok; [|done].
  eapply (for_fold_inv (fun f => src < length (fn_blocks f) /\ graph_ok f)) in Hrun; [|
    intros; by eapply ReadArc_ok | done]. by destruct Hrun.
Qed.

Lemma ReadLines_ok n func s f s' :
  opt_ok func -> ReadLines n func s = Ok (f, s') -> graph_ok f.
Proof.
  intros Hok. unfold ReadLines.
  intros (? & ? & _ & (? & ? & _ & (src & ? & _ & (rd & ? & _ &
    (g & ? & [Hg _]%(lift_func_ok func) & (b & ? & _ & [= <- _])%stM_bind_Ok
    )%stM_bind_Ok)%stM_bind_Ok)%stM_bind_Ok)%stM_bind_Ok)%stM_bind_Ok; [|done].
  by apply set_lines_ok.
Qed.

Lemma ReadSection_ok tag n func fs s func' fs' s' :
  opt_ok func -> summary_ok fs -> ReadSection tag n func fs s = Ok ((func', fs'), s') ->
  opt_ok func' /\ summary_ok fs'.
Proof.
  intros Hf Hfs. unfold ReadSection. repeat case_match.
  - intros (f & ? & Hrun%ReadFunction_ok & [= <- <- _])%stM_bind_Ok.
    split; [by intros ? [= <-]|by apply store_ok].
  - intros (f & ? & Hrun%ReadBlocks_ok & [= <- <- _])%stM_bind_Ok; [|done].
    split; [by intros ? [= <-]|done].
  - intros (f & ? & Hrun%ReadArcs_ok & [= <- <- _])%stM_bind_Ok; [|done].
    split; [by intros ? [= <-]|done].
  - intros (f & ? & Hrun%ReadLines_ok & [= <- <- _])%stM_bind_Ok; [|done].
    split; [by intros ? [= <-]|done].
  - by intros [= <- <- _].
Qed.

Lemma gcno_loop_ok fuel func fs s fs' :
  opt_ok func -> summary_ok fs -> gcno_loop fuel func fs s = Some (Ok fs') -> summary_ok fs'.
Proof.
  revert func fs s. induction fuel as [|fuel IH]; intros func fs s Hf Hfs; [done|]. simpl.
  assert (finish func fs = Ok fs' -> summary_ok fs') as Hfin.
  { destruct func as [f|]; [|done]. intros [= <-]. by apply (store_ok (Some f)). }
  destruct (ReadInt s) as [[tag s1]|]; [|intros [= H]; auto].
  destruct (is_gcno_tag tag); [|by apply IH].
  destruct (ReadInt s1) as [[n s2]|]; [|intros [= H]; auto].
  destruct (ReadSection tag n func fs s2) as [[[func' fs''] s3]|] eqn:Hs; [|done].
  destruct (ReadSection_ok _ _ _ _ _ _ _ _ Hf Hfs Hs). by apply IH.
Qed.

(** ** The file format, as a specification

    A GCNO file is a header and a sequence of sections.  [encode_section] is how
    gcc lays a section out; [apply_section] is what it means for the function
    under construction and the summary. *)
Inductive section :=
  | SecFunction (ident lineno_ck cfg_ck : Z) (name src : pystr) (line : Z)
  | SecBlocks (flags : list Z)
  | SecArcs (src : nat) (outs : list (nat * Z))
  | SecLines (b : nat) (src : pystr) (lines : list Z).

Definition encode_body (newer : bool) (en : endian) (sec : section) : pystr :=
  match sec with
  | SecFunction ident ck cfg name src line =>
      words en (ident :: ck :: if newer then [cfg] else []) ++
      gstring en name ++ gstring en src ++ word en line
  | SecBlocks flags => words en flags
  | SecArcs src outs =>
      word en (Z.of_nat src) ++
      mjoin ((fun '(dst, flag) => word en (Z.of_nat dst) ++ word en flag) <$> outs)
  | SecLines b src lines =>
      words en [Z.of_nat b; 0%Z] ++ gstring en src ++ words en lines ++ words en [0; 0]%Z
  end.

Definition section_tag (sec : section) : Z :=
  match sec with
  | SecFunction _ _ _ _ _ _ => TAG_FUNCTION
  | SecBlocks _ => TAG_BLOCKS
  | SecArcs _ _ => TAG_ARCS
  | SecLines _ _ _ => TAG_LINES
  end.

(** The length word counts the words of the body. *)
Definition section_words (newer : bool) (sec : section) : nat :=
  match sec with
  | SecFunction _ _ _ name src _ =>
      (if newer then 3 else 2) + S (str_words name) + S (str_words src) + 1
  | SecBlocks flags => length flags
  | SecArcs _ outs => 1 + 2 * length outs
  | SecLines _ src lines => 2 + S (str_words src) + length lines + 2
  end.

Definition encode_section (newer : bool) (en : endian) (sec : section) : pystr :=
  word en (section_tag sec) ++ word en (Z.of_nat (section_words newer sec)) ++
  encode_body newer en sec.

Definition apply_section (sec : section) (st : option FunctionSummary * FileSummary)
    : option FunctionSummary * FileSummary :=
  let '(func, fs) := st in
  match sec, func with
  | SecFunction ident _ _ name src line, _ =>
      (Some (new_function ident name src line), store func fs)
  | SecBlocks flags, Some f =>
      (Some (set_blocks (fn_blocks f ++ imap (fun i flag => new_block (Z.of_nat i) flag) flags) f), fs)
  | SecArcs src outs, Some f =>
      (Some (foldl (fun f '(dst, flag) => add_arc src dst flag f) f outs), fs)
  | SecLines b _ lines, Some f =>
      (Some (set_blocks (alter (set_blk_lines lines) b (fn_blocks f)) f), fs)
  | _, None => (None, fs)
  end.

(** Block numbers refer to blocks already declared, every field fits its word. *)
Definition valid_section (nblocks : option nat) (sec : section) : Prop :=
  (forall newer, is_word (Z.of_nat (section_words newer sec))) /\
  match sec with
  | SecFunction ident ck cfg name src line =>
      Forall is_word [ident; ck; cfg; line] /\ is_text name /\ is_text src
  | SecBlocks flags => nblocks <> None /\ Forall is_word flags
  | SecArcs src outs => exists n, nblocks = Some n /\ src < n /\ is_word (Z.of_nat n) /\
      Forall (fun '(dst, flag) => dst < n /\ is_word flag) outs
  | SecLines b src lines => exists n, nblocks = Some n /\ b < n /\ is_word (Z.of_nat n) /\
      is_text src /\ Forall (fun l => is_word l /\ l <> 0%Z) lines
  end.

Definition count_blocks (func : option FunctionSummary) : option nat :=
  (fun f => length (fn_blocks f)) <$> func.

Fixpoint valid_sections (st : option FunctionSummary * FileSummary) (secs : list section) : Prop :=
  match secs with
  | [] => True
  | sec :: secs =>
      valid_section (count_blocks st.1) sec /\ valid_sections (apply_section sec st) secs
  end.

(** *** Reading one section *)
Lemma set_stream_id s : set_stream (gs_stream s) s = s.
Proof. by destruct s. Qed.

Lemma for_range_words l i s k :
  Forall is_word l -> gs_stream s = words (gs_format s) l ++ k ->
  for_range (length l) (fun _ => ReadInt) i s = Ok (l, set_stream k s).
Proof.
  revert i s. induction l as [|z l IH]; intros i s Hl Hs; simpl.
  { unfold words in Hs. simpl in Hs. subst k. by rewrite set_stream_id. }
  apply Forall_cons in Hl as [Hz Hl].
  unfold words in Hs. csimpl in Hs. rewrite <- app_assoc in Hs.
  rewrite (stM_bind_run _ _ _ _ _ (ReadInt_word _ _ _ Hz Hs)).
  by rewrite (stM_bind_run _ _ _ _ _ (IH _ (set_stream (words (gs_format s) l ++ k) s) Hl eq_refl)).
Qed.

Lemma read_blocks_run l i s k :
  Forall is_word l -> gs_stream s = words (gs_format s) l ++ k ->
  for_range (length l) (fun j => block_flag ← ReadInt; mret (new_block (Z.of_nat j) block_flag)) i s
  = Ok (imap (fun j flag => new_block (Z.of_nat (i + j)) flag) l, set_stream k s).
Proof.
  revert i s. induction l as [|z l IH]; intros i s Hl Hs.
  { unfold words in Hs. simpl in Hs. subst k. simpl. by rewrite set_stream_id. }
  apply Forall_cons in Hl as [Hz Hl]. cbn [length for_range].
  unfold words in Hs. csimpl in Hs. rewrite <- app_assoc in Hs.
  erewrite stM_bind_run; [|by rewrite (stM_bind_run _ _ _ _ _ (ReadInt_word _ _ _ Hz Hs))].
  rewrite (stM_bind_run _ _ _ _ _ (IH (S i) (set_stream (words (gs_format s) l ++ k) s) Hl eq_refl)).
  rewrite imap_cons, Nat.add_0_r.
  assert (imap ((fun j flag => new_block (Z.of_nat (i + j)) flag) ∘ S) l
    = imap (fun j flag => new_block (Z.of_nat (S i + j)) flag) l) as ->; [|done].
  apply imap_ext. intros j x _. simpl. by rewrite <- Nat.add_succ_comm.
Qed.

Lemma lift_block_at f b s :
  b < length (fn_blocks f) ->
  st_lift (block_at f (Z.of_nat b)) s = Ok (b, (s : gstream)).
Proof.
  intros Hb. unfold block_at. rewrite (proj2 (andb_true_iff _ _)) by lia. simpl.
  by rewrite Nat2Z.id.
Qed.

Lemma read_arcs_run src f outs s k n :
  length (fn_blocks f) = n -> is_word (Z.of_nat n) ->
  Forall (fun '(dst, flag) => dst < n /\ is_word flag) outs ->
  gs_stream s = mjoin ((fun '(dst, flag) =>
    word (gs_format s) (Z.of_nat dst) ++ word (gs_format s) flag) <$> outs) ++ k ->
  for_fold (length outs) (ReadArc src) f s
  = Ok (foldl (fun f '(dst, flag) => add_arc src dst flag f) f outs, set_stream k s).
Proof.
  intros Hn Hw. revert f s Hn. induction outs as [|[dst flag] outs IH]; intros f s Hn Ho Hs.
  { simpl in *. subst k. by rewrite set_stream_id. }
  apply Forall_cons in Ho as [[Hdst Hflag] Ho].
  csimpl in Hs. rewrite <- !app_assoc in Hs. cbn [length for_fold foldl].
  assert (Hd : is_word (Z.of_nat dst)) by (unfold is_word in *; lia).
  assert (Hrun : ReadArc src f s = Ok (add_arc src dst flag f, set_stream
    (mjoin ((fun '(dst, flag) => word (gs_format s) (Z.of_nat dst) ++ word (gs_format s) flag)
      <$> outs) ++ k) s)).
  { unfold ReadArc. erewrite (ReadInt_bind _ s (Z.of_nat dst)) by done.
    erewrite stM_bind_run by (apply lift_block_at; lia).
    by erewrite (ReadInt_bind _ _ flag) by done. }
  rewrite (stM_bind_run _ _ _ _ _ Hrun). rewrite IH; [done| |done|done].
  unfold add_arc. simpl. by rewrite !length_alter.
Qed.

(** [ReadLines] stops one word early unless the source name fills its words:
    a zero word is then left, which the tag loop skips. *)
Definition leftover (en : endian) (sec : section) : pystr :=
  match sec with
  | SecLines _ src _ => if decide (length src `mod` 4 = 0) then [] else word en 0
  | _ => []
  end.

Section run.
Context (newer : bool) (func : option FunctionSummary) (fs : FileSummary) (s : gstream).
Context (k : pystr).
Context (Hver : version_gt_4 (gs_version s) = Ok newer).

Let good (sec : section) : Prop :=
  valid_section (count_blocks func) sec ->
  gs_stream s = encode_body newer (gs_format s) sec ++ k ->
  ReadSection (section_tag sec) (Z.of_nat (section_words newer sec)) func fs s
  = Ok (apply_section sec (func, fs), set_stream (leftover (gs_format s) sec ++ k) s).

Lemma run_function ident ck cfg name src line : good (SecFunction ident ck cfg name src line).
Proof using Hver.
  intros (_ & Hw & Hname & Hsrc). rewrite !Forall_cons in Hw.
  destruct Hw as (Hi & Hck & Hcfg & Hline & _). cbn [encode_body].
  intros Hs. unfold words in Hs. csimpl in Hs. rewrite <- !app_assoc in Hs.
  change (ReadSection (section_tag _) _ func fs s) with
    (((f ← ReadFunction; mret (Some f, store func fs))
      : gread (option FunctionSummary * FileSummary)) s).
  cbn [leftover app]. erewrite stM_bind_run; [reflexivity|]. unfold ReadFunction.
  erewrite (ReadInt_bind _ s ident) by done. erewrite (ReadInt_bind _ _ ck) by done.
  erewrite stM_bind_run by (unfold st_lift; cbn [gs_version set_stream]; by rewrite Hver).
  assert (forall (g : Z -> gread FunctionSummary) st,
    gs_stream st = mjoin (word (gs_format st) <$> (if newer then [cfg] else [])) ++
      gs_stream (set_stream (gstring (gs_format s) name ++ gstring (gs_format s) src ++
        word (gs_format s) line ++ k) s) ->
    exists z, ((if newer then ReadInt else mret 0%Z) ≫= g) st = g z
      (set_stream (gstring (gs_format s) name ++ gstring (gs_format s) src ++
        word (gs_format s) line ++ k) st)) as Hcfgrun.
  { intros g st Hst. destruct newer; csimpl in Hst.
    - exists cfg. rewrite app_nil_r in Hst. by apply ReadInt_bind.
    - exists 0%Z. rewrite <- Hst, set_stream_id. done. }
  edestruct Hcfgrun as [z ->]; [cbn [gs_stream set_stream gs_format]|].
  { destruct newer; csimpl; by rewrite ?app_nil_r. }
  erewrite (ReadString_bind _ _ name) by done. erewrite (ReadString_bind _ _ src) by done.
  by erewrite (ReadInt_bind _ _ line) by done.
Qed.

Lemma run_blocks flags : good (SecBlocks flags).
Proof.
  intros (_ & Hf & Hw) Hs. destruct func as [f|]; [|done].
  change (ReadSection (section_tag _) ?n (Some f) fs s) with
    (((f ← ReadBlocks n (Some f); mret (Some f, fs))
      : gread (option FunctionSummary * FileSummary)) s).
  erewrite stM_bind_run; [reflexivity|]. unfold ReadBlocks. cbn [section_words].
  rewrite Nat2Z.id. by rewrite (stM_bind_run _ _ _ _ _ (read_blocks_run flags 0 s k Hw Hs)).
Qed.

Lemma run_arcs src outs : good (SecArcs src outs).
Proof.
  intros (_ & n & Hn & Hsrc & Hw & Ho) Hs. destruct func as [f|]; [|done].
  injection Hn as Hn. cbn [encode_body] in Hs. rewrite <- app_assoc in Hs.
  change (ReadSection (section_tag _) ?len (Some f) fs s) with
    (((f ← ReadArcs len (Some f); mret (Some f, fs))
      : gread (option FunctionSummary * FileSummary)) s).
  erewrite stM_bind_run; [reflexivity|]. unfold ReadArcs.
  erewrite (ReadInt_bind _ s (Z.of_nat src)) by (done || (unfold is_word in *; lia)).
  erewrite stM_bind_run by done. erewrite stM_bind_run by (apply lift_block_at; lia).
  replace (Z.to_nat _) with (length outs).
  2: { cbn [section_words].
    replace (Z.of_nat (1 + 2 * length outs) - 1)%Z with (Z.of_nat (length outs) * 2)%Z by lia.
    rewrite Z.div_mul by lia. lia. }
  by erewrite read_arcs_run by done.
Qed.

Lemma src_words_str src :
  Z.of_nat (str_words src)
  = (src_words src - (if decide (length src `mod` 4 = 0)%nat then 0 else 1))%Z.
Proof.
  unfold src_words, str_words, BYTES_IN_WORD.
  pose proof (Nat.div_mod_eq (length src) 4). pose proof (Nat.mod_upper_bound (length src) 4).
  case_decide; Z.to_euclidean_division_equations; lia.
Qed.

Lemma filter_lines lines n :
  Forall (fun l => is_word l /\ l <> 0%Z) lines ->
  filter (fun l => l <> 0%Z) (lines ++ replicate n 0%Z) = lines.
Proof.
  intros Hl. rewrite filter_app.
  rewrite filter_all_id by (eapply Forall_impl; [exact Hl|by intros ? []]).
  assert (filter (fun l => l <> 0%Z) (replicate n 0%Z) = []) as ->; [|by rewrite app_nil_r].
  induction n; [done|]. simpl. by rewrite filter_cons_False by naive_solver.
Qed.

Lemma run_lines b src lines : good (SecLines b src lines).
Proof.
  intros (_ & n & Hn & Hb & Hw & Hsrc & Hl). destruct func as [f|]; [|done].
  injection Hn as Hn. cbn [encode_body]. intros Hs.
  unfold words at 1 in Hs. csimpl in Hs. rewrite <- !app_assoc in Hs.
  change (ReadSection (section_tag _) ?len (Some f) fs s) with
    (((f ← ReadLines len (Some f); mret (Some f, fs))
      : gread (option FunctionSummary * FileSummary)) s).
  erewrite stM_bind_run; [reflexivity|]. unfold ReadLines.
  erewrite (ReadInt_bind _ s (Z.of_nat b)) by (done || (unfold is_word in *; lia)).
  erewrite (ReadInt_bind _ _ 0%Z) by done. erewrite (ReadString_bind _ _ src) by done.
  set (z := if decide (length src `mod` 4 = 0) then 2 else 1).
  assert (Hlen : Z.to_nat (Z.of_nat (section_words newer (SecLines b src lines))
    - src_words src - HEADER_LENGTH) = length (lines ++ replicate z 0%Z)).
  { rewrite length_app, length_replicate. pose proof (src_words_str src) as Hsw.
    unfold HEADER_LENGTH. cbn [section_words]. unfold z. case_decide; lia. }
  rewrite Hlen. erewrite stM_bind_run.
  2: { apply (for_range_words _ _ _ (leftover (gs_format s) (SecLines b src lines) ++ k)).
    - apply Forall_app. split; [eapply Forall_impl; [exact Hl|by intros ? []]|].
      by apply Forall_replicate.
    - cbn [gs_stream set_stream gs_format leftover].
      rewrite words_app, <- !app_assoc. f_equal. unfold z, words.
      case_decide; csimpl; by rewrite ?app_nil_r, <- ?app_assoc. }
  erewrite stM_bind_run by done. erewrite stM_bind_run by (apply lift_block_at; lia).
  by rewrite filter_lines.
Qed.

Lemma run_section sec : good sec.
Proof using Hver.
  destruct sec; [apply run_function|apply run_blocks|apply run_arcs|apply run_lines].
Qed.
End run.

(** *** Reading a whole file *)
Definition apply_sections (st : option FunctionSummary * FileSummary) (secs : list section)
    : option FunctionSummary * FileSummary :=
  foldl (fun st sec => apply_section sec st) st secs.

Lemma is_gcno_tag_section sec : is_gcno_tag (section_tag sec) = true.
Proof. by destruct sec. Qed.

Lemma section_tag_word sec : is_word (section_tag sec).
Proof. by destruct sec. Qed.

(** One turn of the loop on an encoded section. *)
Lemma loop_section newer sec func fs s k fuel :
  version_gt_4 (gs_version s) = Ok newer -> valid_section (count_blocks func) sec ->
  gs_stream s = encode_section newer (gs_format s) sec ++ k ->
  gcno_loop (S fuel) func fs s =
    gcno_loop fuel (apply_section sec (func, fs)).1 (apply_section sec (func, fs)).2
      (set_stream (leftover (gs_format s) sec ++ k) s).
Proof.
  intros Hv Hval Hs. unfold encode_section in Hs. rewrite <- !app_assoc in Hs. cbn [gcno_loop].
  rewrite (ReadInt_word s (section_tag sec) _ (section_tag_word sec) Hs).
  rewrite is_gcno_tag_section.
  erewrite (ReadInt_word _ (Z.of_nat (section_words newer sec)));
    [|apply Hval|reflexivity].
  erewrite (run_section newer func fs _ k) by done. cbn [gs_format set_stream gs_stream gs_version].
  by destruct (apply_section sec (func, fs)).
Qed.

Lemma length_encode_section newer en sec : (8 <= length (encode_section newer en sec))%nat.
Proof. unfold encode_section. rewrite !length_app, !length_word. lia. Qed.

Lemma leftover_cases en sec : leftover en sec = [] \/ leftover en sec = word en 0.
Proof. destruct sec; unfold leftover; [auto..|]. case_decide; auto. Qed.

(** A leftover zero word costs one more turn. *)
Lemma loop_leftover sec func fs s k fuel :
  gs_stream s = leftover (gs_format s) sec ++ k -> (length (gs_stream s) < fuel)%nat ->
  exists fuel', (length k < fuel')%nat /\
    gcno_loop fuel func fs s = gcno_loop fuel' func fs (set_stream k s).
Proof.
  intros Hs Hfuel.
  destruct (leftover_cases (gs_format s) sec) as [Hl|Hl]; rewrite Hl in Hs.
  - simpl in Hs. exists fuel. rewrite <- Hs. by rewrite set_stream_id.
  - destruct fuel as [|fuel]; [lia|]. exists fuel. split.
    { rewrite Hs, length_app, length_word in Hfuel. lia. }
    cbn [gcno_loop]. by rewrite (ReadInt_word s 0 k) by done.
Qed.

Lemma loop_sections newer secs func fs s k fuel :
  version_gt_4 (gs_version s) = Ok newer -> valid_sections (func, fs) secs ->
  gs_stream s = mjoin (encode_section newer (gs_format s) <$> secs) ++ k ->
  (length (gs_stream s) < fuel)%nat ->
  exists fuel', (length k < fuel')%nat /\ gcno_loop fuel func fs s =
    gcno_loop fuel' (apply_sections (func, fs) secs).1 (apply_sections (func, fs) secs).2
      (set_stream k s).
Proof.
  intros Hv. revert func fs s fuel Hv.
  induction secs as [|sec secs IH]; intros func fs s fuel Hv Hval Hs Hfuel.
  { simpl in Hs. exists fuel. rewrite <- Hs. by rewrite set_stream_id. }
  destruct Hval as [Hsec Hrest]. csimpl in Hs. rewrite <- app_assoc in Hs.
  destruct fuel as [|fuel]; [lia|].
  rewrite (loop_section newer sec func fs s _ fuel Hv Hsec Hs).
  destruct (loop_leftover sec (apply_section sec (func, fs)).1 (apply_section sec (func, fs)).2
    (set_stream (leftover (gs_format s) sec ++
      mjoin (encode_section newer (gs_format s) <$> secs) ++ k) s)
    (mjoin (encode_section newer (gs_format s) <$> secs) ++ k) fuel) as (fuel' & Hf & ->); [done| |].
  { cbn [gs_stream set_stream]. rewrite Hs in Hfuel.
    rewrite !length_app in Hfuel. rewrite !length_app.
    pose proof (length_encode_section newer (gs_format s) sec).
    assert (length (leftover (gs_format s) sec) <= 4)%nat; [|lia].
    destruct (leftover_cases (gs_format s) sec) as [-> | ->]; [simpl; lia|by rewrite length_word]. }
  destruct (apply_section sec (func, fs)) as [func1 fs1] eqn:Happ. cbn [fst snd].
  destruct (IH func1 fs1
    (set_stream (mjoin (encode_section newer (gs_format s) <$> secs) ++ k) s) fuel' Hv Hrest
    eq_refl Hf) as (fuel2 & Hf2 & Hrun).
  exists fuel2. split; [done|]. etrans; [exact Hrun|].
  unfold apply_sections. cbn [foldl]. by rewrite Happ.
Qed.

Lemma ParseGcnoFile_sections en v newer ck secs f fs :
  length v = 4 -> version_gt_4 v = Ok newer -> is_word ck ->
  valid_sections (None, ∅) secs ->
  apply_sections (None, ∅) secs = (Some f, fs) ->
  ParseGcnoFile (header GCNO_MAGIC en v ck ++ mjoin (encode_section newer en <$> secs))
  = Ok (<[fn_ident f := f]> fs).
Proof.
  intros Hlen Hv Hck Hval Happ. unfold ParseGcnoFile, new_GCNOParser.
  rewrite gcov_init_header by (done || by intros _; vm_compute).
  cbn [mbind pyres_bind]. unfold gcno_Parse. cbn [gp_parsed gp_stream gp_summary].
  set (s := mk_gstream _ _ _ _).
  destruct (loop_sections newer secs None ∅ s [] (S (length (gs_stream s)))) as (fuel & Hf & ->);
    [done|done|by rewrite app_nil_r|lia|].
  rewrite Happ. destruct fuel as [|fuel]; [lia|]. cbn [gcno_loop fst snd].
  by rewrite ReadInt_eof by (simpl; lia).
Qed.

(** C10: Reading a GCNO file gives back exactly what was written, for both byte
    orders and every version: the parser inverts the format. *)
Theorem ParseGcnoFile_roundtrip en v newer ck secs f fs :
  length v = 4 -> version_gt_4 v = Ok newer -> is_word ck ->
  valid_sections (None, ∅) secs ->
  apply_sections (None, ∅) secs = (Some f, fs) ->
  ParseGcnoFile (header GCNO_MAGIC en v ck ++ mjoin (encode_section newer en <$> secs))
  = Ok (<[fn_ident f := f]> fs).
Proof. apply ParseGcnoFile_sections. Qed.

(** [Parse] always ends: every turn of its loops consumes a word. *)
Theorem gcno_Parse_terminates func fs s :
  exists r, gcno_loop (S (length (gs_stream s))) func fs s = Some r.
Proof. apply gcno_loop_total. lia. Qed.

(** C12: Every function the parser returns, from any bytes at all, is stored under
    its own identifier and is a well-formed graph: each arc is listed exactly
    once by its source and once by its destination, and nothing is resolved. *)
Theorem ParseGcnoFile_wellformed content fs :
  ParseGcnoFile content = Ok fs ->
  forall ident f, fs !! ident = Some f ->
    fn_ident f = ident /\ wf_graph f /\ fully_linked f /\ unresolved_fn f.
Proof.
  unfold ParseGcnoFile.
  intros (p & Hp & ([fs' p'] & Hrun & [= <-])%pyres_bind_Ok)%pyres_bind_Ok.
  unfold new_GCNOParser in Hp. apply pyres_bind_Ok in Hp as (s & _ & [= <-]).
  unfold gcno_Parse in Hrun. cbn [gp_parsed gp_stream gp_summary] in Hrun.
  apply pyres_bind_Ok in Hrun as (fs2 & Hloop & [= <- _]).
  destruct (gcno_loop _ None ∅ s) as [r|] eqn:Hl; [|done]. simpl in Hloop. subst r.
  by eapply gcno_loop_ok in Hl; [|intros ? [=]|intros ident f; rewrite lookup_empty].
Qed.

(** ** A concrete file *)
Definition sample_sections : list section :=
  [SecFunction 1 2 3 (bs "f") (bs "a.cc") 10; SecBlocks [0; 0; 0; 0; 0]%Z;
   SecArcs 0 [(1, 1%Z)]; SecArcs 1 [(2, 0%Z); (3, 0%Z)]; SecArcs 2 [(3, 1%Z)];
   SecArcs 3 [(4, 1%Z)]; SecLines 1 (bs "a.cc") [10; 11]%Z; SecLines 2 (bs "a.cc") [12]%Z;
   SecLines 3 (bs "b.h") [14]%Z].
Definition sample_version : pystr := bs "*804".
Definition sample_file (en : endian) : pystr :=
  header GCNO_MAGIC en sample_version 7 ++ mjoin (encode_section true en <$> sample_sections).
Definition sample_fn : FunctionSummary :=
  default (new_function 0 [] [] 0) (apply_sections (None, ∅) sample_sections).1.

Ltac small_words := unfold is_word, is_text, no_nul; simpl; repeat constructor; simpl; try lia.

Lemma sample_valid : valid_sections (None, ∅) sample_sections.
Proof.
  cbn [sample_sections valid_sections].
  repeat (split; [split; [intros []; small_words|]|]);
    try (eexists; split; [reflexivity|]); small_words; try done.
Qed.

Lemma ParseGcnoFile_roundtrip_witness :
  valid_sections (None, ∅) sample_sections /\
  ParseGcnoFile (sample_file Big) = Ok (<[1%Z := sample_fn]> ∅).
Proof.
  split; [exact sample_valid|].
  apply (ParseGcnoFile_roundtrip Big sample_version true 7 sample_sections sample_fn ∅);
    [reflexivity|vm_compute; reflexivity|unfold is_word; lia|exact sample_valid
    |vm_compute; reflexivity].
Defined.

Lemma ParseGcnoFile_wellformed_witness :
  exists fs, ParseGcnoFile (sample_file Little) = Ok fs /\ fs !! 1%Z = Some sample_fn /\
    fn_ident sample_fn = 1%Z /\ wf_graph sample_fn /\ fully_linked sample_fn /\
    unresolved_fn sample_fn.
Proof.
  exists (<[1%Z := sample_fn]> ∅).
  assert (ParseGcnoFile (sample_file Little) = Ok (<[1%Z := sample_fn]> ∅)) as Hp
    by (vm_compute; reflexivity).
  split; [exact Hp|]. split; [vm_compute; reflexivity|].
  apply (ParseGcnoFile_wellformed (sample_file Little) _ Hp 1%Z sample_fn).
  vm_compute. reflexivity.
Defined.
