(* ===== verification/Gcda.v ===== *)
(** * The GCDA parser

    utils/python/coverage/gcda_parser.py: [GCDAParser] reads the counters of a
    run into the functions of a GCNO summary and resolves their counts.  The
    local [func] of [Parse] is a reference into [file_summary.functions]; here it
    is the key of that entry, so that updating the function updates the
    summary. *)

From S2P Require Import Prelude PyStr GcovStream CovGraph Gcno.

Definition GCDA_MAGIC : Z := 0x67636461.
Definition TAG_COUNTER : Z := 0x01a10000.
Definition TAG_OBJECT : Z := 0xa1000000.
Definition TAG_PROGRAM : Z := 0xa3000000.

Definition is_gcda_tag (tag : Z) : bool :=
  ((tag =? TAG_FUNCTION) || (tag =? TAG_COUNTER) || (tag =? TAG_OBJECT)
   || (tag =? TAG_PROGRAM))%Z.

(** [for x in l] around an action that updates a local. *)
Fixpoint for_each {S A B} (l : list A) (m : A -> B -> stM S B) (b : B) : stM S B :=
  match l with
  | [] => mret b
  | a :: l => b' ← m a b; for_each l m b'
  end.

(** [GCDAParser.ReadFunction]: the key of the function the counters belong to. *)
Definition gcda_ReadFunction (fs : FileSummary) (length_ : Z) : gread Z :=
  ident ← ReadInt;
  _ ← st_lift (from_opt KeyError (fs !! ident));
  _ ← ReadInt;
  newer ← (fun s => st_lift (version_gt_4 (gs_version s)) s);
  _ ← (if newer : bool then ReadInt else mret 0%Z);
  _ ← (if ((if newer : bool then 4 else 3) <? length_)%Z then ReadString else mret []);
  mret ident.

(** The arcs gcc instruments: neither fake nor on the spanning tree. *)
Definition instrumented (f : FunctionSummary) (a : nat) : bool :=
  from_option (fun arc => negb (fake arc) && negb (on_tree arc)) false (fn_arcs f !! a).

(** The loop body of [ReadCounts]. *)
Definition ReadCount (a : nat) (f : FunctionSummary) : gread FunctionSummary :=
  if instrumented f a then
    count ← ReadInt64;
    mret (set_arcs (alter (resolve_to count) a (fn_arcs f)) f)
  else mret f.

(** [GCDAParser.ReadCounts]: the exit arcs of every block in order. *)
Definition ReadCounts (f : FunctionSummary) : gread FunctionSummary :=
  for_each (mjoin (exit_arcs <$> fn_blocks f)) ReadCount f.

(** The branches of the outer loop.  [func] is [None] until a function record
    was read; using it then is an [AttributeError]. *)
Definition gcda_ReadSection (tag length_ : Z) (func : option Z) (fs : FileSummary)
    : gread (option Z * FileSummary) :=
  if (tag =? TAG_FUNCTION)%Z then
    ident ← gcda_ReadFunction fs length_; mret (Some ident, fs)
  else if (tag =? TAG_COUNTER)%Z then
    ident ← st_lift (from_opt AttributeError func);
    f ← st_lift (from_opt KeyError (fs !! ident));
    f ← ReadCounts f;
    _ ← st_lift (assert_or (Resolve f).1 FileFormatError);
    mret (func, <[ident := (Resolve f).2]> fs)
  else if (tag =? TAG_OBJECT)%Z then mret (func, fs)
  else if (tag =? TAG_PROGRAM)%Z then
    _ ← ReadInt;
    _ ← for_range (Z.to_nat (length_ - 1)) (fun _ => ReadInt) 0;
    mret (func, fs)
  else mret (func, fs).

(** The nested loops of [Parse]; the end of the file is the normal exit. *)
Fixpoint gcda_loop (fuel : nat) (func : option Z) (fs : FileSummary) (s : gstream)
    : option (pyres FileSummary) :=
  match fuel with
  | 0 => None
  | S fuel =>
      match ReadInt s with
      | Raise _ => Some (Ok fs)
      | Ok (tag, s) =>
          if is_gcda_tag tag then
            match ReadInt s with
            | Raise _ => Some (Ok fs)
            | Ok (length_, s) =>
                match gcda_ReadSection tag length_ func fs s with
                | Ok ((func, fs), s) => gcda_loop fuel func fs s
                | Raise e => Some (Raise e)
                end
            end
          else gcda_loop fuel func fs s
      end
  end.

(** [GCDAParser.Parse(file_summary)] *)
Definition gcda_Parse (fs : FileSummary) (s : gstream) : pyres FileSummary :=
  default (Raise FileFormatError) (gcda_loop (S (length (gs_stream s))) None fs s).

(** [ParseGcdaFile(file_name, file_summary)], given the contents of the file. *)
Definition ParseGcdaFile (content : pystr) (fs : FileSummary) : pyres FileSummary :=
  s ← gcov_init GCDA_MAGIC content;
  gcda_Parse fs s.

(** ** Termination *)
Lemma consumes_for_each {A B} (l : list A) (m : A -> B -> gread B) b :
  (forall a b, consumes (m a b)) -> consumes (for_each l m b).
Proof.
  intros Hm. revert b. induction l as [|a l IH]; intros b; simpl; [apply consumes_ret|].
  apply consumes_bind; [done|]. auto.
Qed.

Lemma consumes_gcda_ReadSection tag n func fs : consumes (gcda_ReadSection tag n func fs).
Proof.
  unfold gcda_ReadSection, gcda_ReadFunction, ReadCounts.
  repeat case_match; consume. apply consumes_for_each. intros. unfold ReadCount. consume.
Qed.

Lemma gcda_loop_total fuel func fs s :
  (length (gs_stream s) < fuel)%nat -> exists r, gcda_loop fuel func fs s = Some r.
Proof.
  revert func fs s. induction fuel as [|fuel IH]; intros func fs s Hs; [lia|]. simpl.
  destruct (ReadInt s) as [[tag s1]|e] eqn:H1; [|eauto].
  apply ReadInt_Ok in H1 as (_ & Hl1 & _).
  destruct (is_gcda_tag tag); [|apply IH; lia].
  destruct (ReadInt s1) as [[len s2]|e] eqn:H2; [|eauto].
  apply ReadInt_Ok in H2 as (_ & Hl2 & _).
  destruct (gcda_ReadSection tag len func fs s2) as [[[func' fs'] s3]|e] eqn:H3; [|eauto].
  apply consumes_gcda_ReadSection in H3 as (Hl3 & _). apply IH. lia.
Qed.

(** ** Reading the counters of a flow *)
Definition is_dword (z : Z) : Prop := (0 <= z < 2 ^ 64)%Z.
Definition dword (en : endian) (z : Z) : pystr :=
  word en (z mod 2 ^ 32) ++ word en (z / 2 ^ 32).

Lemma lor_halves z : (0 <= z)%Z -> Z.lor (Z.shiftl (z / 2 ^ 32) 32) (z mod 2 ^ 32) = z.
Proof.
  intros Hz. rewrite <- Z.shiftr_div_pow2, <- Z.land_ones by lia.
  apply Z.bits_inj'. intros n Hn. rewrite Z.lor_spec, Z.land_spec.
  destruct (Z.lt_ge_cases n 32).
  - rewrite Z.shiftl_spec_low, Z.ones_spec_low, andb_true_r by lia. done.
  - rewrite Z.shiftl_spec_high, Z.shiftr_spec, Z.ones_spec_high, andb_false_r, orb_false_r by lia.
    f_equal. lia.
Qed.

Lemma ReadInt64_dword s z k :
  is_dword z -> gs_stream s = dword (gs_format s) z ++ k ->
  ReadInt64 s = Ok (z, set_stream k s).
Proof.
  intros Hz Hs. unfold dword in Hs. rewrite <- app_assoc in Hs. unfold is_dword in Hz.
  assert (is_word (z mod 2 ^ 32)) by (apply Z.mod_pos_bound; lia).
  assert (is_word (z / 2 ^ 32)).
  { split; [apply Z.div_pos; lia|]. apply Z.div_lt_upper_bound; lia. }
  unfold ReadInt64. erewrite (ReadInt_bind _ s (z mod 2 ^ 32)%Z) by done.
  erewrite (ReadInt_bind _ _ (z / 2 ^ 32)%Z) by done. by rewrite lor_halves by lia.
Qed.

Definition counted (f : FunctionSummary) (l : list nat) : list nat :=
  filter (fun a => instrumented f a = true) l.

Definition encode_counts (en : endian) (flow : nat -> Z) (l : list nat) : pystr :=
  mjoin ((fun a => dword en (flow a)) <$> l).

Section counts.
Context (flow : nat -> Z).

Lemma instrumented_not_removable f a : instrumented f a = true -> removable f a = false.
Proof.
  unfold instrumented, removable. destruct (fn_arcs f !! a) as [arc|]; simpl; [|done].
  by destruct (fake arc).
Qed.

Lemma instrumented_settle f c b a : instrumented (settle b c f) a = instrumented f a.
Proof.
  unfold instrumented, settle. simpl. rewrite list_lookup_alter.
  case_decide as Ha; [|done]. rewrite Ha. by destruct (fn_arcs f !! a).
Qed.

(** The function with the counters of the flow stored in its instrumented arcs. *)
Definition loaded (l : list nat) (f : FunctionSummary) : FunctionSummary :=
  foldl (fun f a => if instrumented f a then settle a (flow a) f else f) f l.

Lemma ReadCounts_run l f s k :
  (forall a, a ∈ counted f l -> is_dword (flow a)) ->
  flow_inv flow f -> fully_linked f ->
  gs_stream s = encode_counts (gs_format s) flow (counted f l) ++ k ->
  for_each l ReadCount f s = Ok (loaded l f, set_stream k s) /\
    flow_inv flow (loaded l f) /\ fully_linked (loaded l f).
Proof.
  revert f s. induction l as [|a l IH]; intros f s Hw Hinv Hlk Hs.
  { simpl in *. subst k. by rewrite set_stream_id. }
  cbn [for_each]. unfold loaded. cbn [foldl]. unfold counted in Hs, Hw. rewrite filter_cons in Hs, Hw.
  destruct (instrumented f a) eqn:Ha; cbn [decide] in *.
  - rewrite decide_True in Hs, Hw by done. unfold encode_counts in Hs. csimpl in Hs.
    rewrite <- app_assoc in Hs.
    assert (Hd : is_dword (flow a)) by (apply Hw; by left).
    destruct (IH (settle a (flow a) f)
      (set_stream (encode_counts (gs_format s) flow (counted f l) ++ k) s))
      as (Hrun & Hinv' & Hlk').
    + intros b Hb. apply Hw. right. revert Hb. unfold counted. rewrite !list_elem_of_filter.
      by rewrite instrumented_settle.
    + apply settle_inv; [by apply instrumented_not_removable|done|done].
    + intros b c Hb. apply settle_linked. by apply (Hlk b c).
    + cbn [gs_stream set_stream gs_format]. do 2 f_equal. apply list_filter_iff.
      intros b. by rewrite instrumented_settle.
    + split; [|done]. unfold loaded in Hrun.
      erewrite stM_bind_run; [exact Hrun|].
      unfold ReadCount. rewrite Ha. erewrite stM_bind_run by (by eapply ReadInt64_dword). done.
  - rewrite decide_False in Hs, Hw by done.
    rewrite (stM_bind_run _ _ s f s) by (unfold ReadCount; by rewrite Ha). by apply IH.
Qed.
End counts.

(** ** A run: for each function its counters *)
Record entry := mk_entry {
  e_ident : Z;
  e_lineno_checksum : Z;
  e_cfg_checksum : Z;      (* only from version 4.7 on *)
  e_flow : nat -> Z;
}.

Definition all_exits (f : FunctionSummary) : list nat := mjoin (exit_arcs <$> fn_blocks f).

Definition encode_entry (newer : bool) (en : endian) (fs : FileSummary) (e : entry) : pystr :=
  let l := from_option (fun f => counted f (all_exits f)) [] (fs !! e_ident e) in
  words en ([TAG_FUNCTION; if newer then 3 else 2; e_ident e; e_lineno_checksum e]
            ++ if newer then [e_cfg_checksum e] else [])%Z
  ++ words en [TAG_COUNTER; 2 * Z.of_nat (length l)]%Z
  ++ encode_counts en (e_flow e) l.

(** The entry describes a run of a function of the summary. *)
Definition valid_entry (fs : FileSummary) (e : entry) : Prop :=
  Forall is_word [e_ident e; e_lineno_checksum e; e_cfg_checksum e] /\
  exists f, fs !! e_ident e = Some f /\ graph_ok f /\ conserves (e_flow e) f /\
    is_word (2 * Z.of_nat (length (counted f (all_exits f)))) /\
    forall a, a ∈ counted f (all_exits f) -> is_dword (e_flow e a).

(** Every block of the function carries the number of its executions. *)
Definition true_counts (flow : nat -> Z) (f : FunctionSummary) : Prop :=
  forall b blk, fn_blocks f !! b = Some blk ->
    blk_count blk = zsum (flow <$> live f
      (if decide (entry_arcs blk = []) then exit_arcs blk else entry_arcs blk)).

Lemma graph_ok_flow_inv flow f : graph_ok f -> conserves flow f -> flow_inv flow f.
Proof.
  intros (Hwf & _ & Hun) Hc. split_and!; [done..|].
  intros a arc Ha. destruct (Hun a arc Ha) as [Hr Hz]. by rewrite Hr.
Qed.

(** The counters of the entry determine the flow, as far as [Resolve] finds out. *)
Definition entry_resolves (fs : FileSummary) (e : entry) : Prop :=
  exists f, fs !! e_ident e = Some f /\ (Resolve (loaded (e_flow e) (all_exits f) f)).1 = true.
#[export] Instance entry_resolves_dec fs e : Decision (entry_resolves fs e).
Proof.
  refine (match fs !! e_ident e as o return fs !! e_ident e = o -> _ with
          | Some f => fun E => cast_if (decide ((Resolve (loaded (e_flow e) (all_exits f) f)).1 = true))
          | None => fun E => right _
          end eq_refl); unfold entry_resolves; rewrite E; [by eexists|..]; by intros (? & [= <-] & ?).
Defined.

(** *** One entry *)
Section entry.
Context (newer : bool) (fs : FileSummary) (e : entry) (s : gstream) (k : pystr).
Context (Hver : version_gt_4 (gs_version s) = Ok newer) (Hval : valid_entry fs e).

Lemma run_function_record :
  gs_stream s = words (gs_format s)
    ([e_ident e; e_lineno_checksum e] ++ if newer then [e_cfg_checksum e] else []) ++ k ->
  gcda_ReadFunction fs (if newer then 3 else 2) s = Ok (e_ident e, set_stream k s).
Proof using Hver Hval.
  destruct Hval as (Hw & f & Hf & _). rewrite !Forall_cons in Hw.
  destruct Hw as (Hi & Hl & Hc & _). intros Hs.
  unfold gcda_ReadFunction. unfold words in Hs. csimpl in Hs. rewrite <- !app_assoc in Hs.
  erewrite (ReadInt_bind _ s (e_ident e)) by done. rewrite Hf. cbn [from_opt].
  erewrite stM_bind_run by done. erewrite (ReadInt_bind _ _ (e_lineno_checksum e)) by done.
  erewrite stM_bind_run by (unfold st_lift; cbn [gs_version set_stream]; by rewrite Hver).
  destruct newer; csimpl in *.
  - rewrite app_nil_r in Hs |- *. by erewrite (ReadInt_bind _ _ (e_cfg_checksum e)) by done.
  - done.
Qed.

Lemma run_counter_record (n : Z) f :
  fs !! e_ident e = Some f ->
  gs_stream s = encode_counts (gs_format s) (e_flow e) (counted f (all_exits f)) ++ k ->
  match gcda_ReadSection TAG_COUNTER n (Some (e_ident e)) fs s with
  | Ok ((func, fs'), s') => func = Some (e_ident e) /\ s' = set_stream k s /\ entry_resolves fs e /\
      exists f', fs' = <[e_ident e := f']> fs /\ true_counts (e_flow e) f'
  | Raise x => x = FileFormatError /\ ~ entry_resolves fs e
  end.
Proof using Hval.
  intros Hf Hs. destruct Hval as (_ & f0 & Hf0 & Hok & Hc & _ & Hd).
  rewrite Hf in Hf0. injection Hf0 as <-.
  destruct (ReadCounts_run (e_flow e) (all_exits f) f s k Hd (graph_ok_flow_inv _ _ Hok Hc)
    (proj1 (proj2 Hok)) Hs) as (Hrun & Hinv & Hlk).
  set (f1 := loaded (e_flow e) (all_exits f) f) in *.
  change (gcda_ReadSection TAG_COUNTER n (Some (e_ident e)) fs s) with
    (((f ← st_lift (from_opt KeyError (fs !! e_ident e));
       f ← ReadCounts f;
       _ ← st_lift (assert_or (Resolve f).1 FileFormatError);
       mret (Some (e_ident e), <[e_ident e := (Resolve f).2]> fs))
      : gread (option Z * FileSummary)) s).
  rewrite Hf. erewrite stM_bind_run by done. erewrite stM_bind_run by exact Hrun.
  destruct (Resolve f1) as [[] f2] eqn:Hr.
  2:{ split; [done|]. intros (g & Hg & Hs'). rewrite Hf in Hg. injection Hg as <-. fold f1 in Hs'. by rewrite Hr in Hs'. }
  split; [done|]. split; [done|]. split; [exists f; split; [done|]; fold f1; by rewrite Hr|]. exists f2. split; [done|].
  intros b blk Hb. by apply (Resolve_true_counts (e_flow e) f1 f2 Hinv Hlk Hr b blk Hb).
Qed.
End entry.

(** *** The loop over the entries *)
Lemma encode_entry_eq newer en fs e f :
  fs !! e_ident e = Some f ->
  encode_entry newer en fs e =
    word en TAG_FUNCTION ++ word en (if newer then 3 else 2) ++
    words en ([e_ident e; e_lineno_checksum e] ++ if newer then [e_cfg_checksum e] else []) ++
    word en TAG_COUNTER ++ word en (2 * Z.of_nat (length (counted f (all_exits f)))) ++
    encode_counts en (e_flow e) (counted f (all_exits f)).
Proof.
  intros Hf. unfold encode_entry. rewrite Hf. unfold words. csimpl.
  by rewrite <- ?app_assoc, ?app_nil_r.
Qed.

Lemma loop_entry newer e func fs s k fuel :
  version_gt_4 (gs_version s) = Ok newer -> valid_entry fs e ->
  gs_stream s = encode_entry newer (gs_format s) fs e ++ k ->
  (entry_resolves fs e /\ exists f', true_counts (e_flow e) f' /\
     gcda_loop (S (S fuel)) func fs s
     = gcda_loop fuel (Some (e_ident e)) (<[e_ident e := f']> fs) (set_stream k s)) \/
  (~ entry_resolves fs e /\ gcda_loop (S (S fuel)) func fs s = Some (Raise FileFormatError)).
Proof.
  intros Hv Hval Hs. pose proof Hval as (_ & f & Hf & _ & _ & Hn & _).
  rewrite (encode_entry_eq _ _ _ _ f Hf), <- !app_assoc in Hs.
  assert (Hw : is_word (if newer then 3 else 2)) by (by destruct newer).
  set (fuel' := S fuel). cbn [gcda_loop].
  rewrite (ReadInt_word s TAG_FUNCTION _ ltac:(done) Hs).
  erewrite (ReadInt_word _ (if newer then 3 else 2)%Z) by done.
  cbn [is_gcda_tag TAG_FUNCTION Z.eqb Pos.eqb orb].
  match goal with |- context [gcda_ReadSection ?t ?n ?fu ?fs ?st] =>
    assert (gcda_ReadSection t n fu fs st =
      Ok ((Some (e_ident e), fs), set_stream (word (gs_format s) TAG_COUNTER ++
        word (gs_format s) (2 * Z.of_nat (length (counted f (all_exits f)))) ++
        encode_counts (gs_format s) (e_flow e) (counted f (all_exits f)) ++ k) s)) as ->
  end.
  { change (gcda_ReadSection _ ?n func fs) with
      ((ident ← gcda_ReadFunction fs n; mret (Some ident, fs))
        : gread (option Z * FileSummary)).
    erewrite stM_bind_run by (by eapply run_function_record). done. }
  unfold fuel'. cbn [gcda_loop].
  erewrite (ReadInt_word _ TAG_COUNTER) by done.
  change (is_gcda_tag TAG_COUNTER) with true. cbv iota.
  erewrite (ReadInt_word _ _ _ Hn) by done.
  match goal with |- context [gcda_ReadSection ?t ?n ?fu ?fs ?st] =>
    pose proof (run_counter_record fs e st k Hval n f Hf eq_refl) as Hrun;
    destruct (gcda_ReadSection t n fu fs st) as [[[func' fs'] s']|x]
  end.
  - destruct Hrun as (-> & -> & Hres & f' & -> & Ht). left. eauto.
  - right. destruct Hrun as [-> Hres]. done.
Qed.

Lemma valid_entry_insert fs e i f' :
  e_ident e <> i -> valid_entry fs e -> valid_entry (<[i := f']> fs) e.
Proof.
  intros Hne (Hw & f & Hf & Hrest). split; [done|]. exists f.
  by rewrite lookup_insert_ne.
Qed.

Lemma encode_entry_insert newer en fs (es : list entry) i f' :
  i ∉ (e_ident <$> es) ->
  encode_entry newer en (<[i := f']> fs) <$> es = encode_entry newer en fs <$> es.
Proof.
  intros Hi. apply list_fmap_ext. intros j e He. unfold encode_entry.
  rewrite lookup_insert_ne; [done|]. intros ->. apply Hi, list_elem_of_fmap.
  exists e. split; [done|]. by eapply list_elem_of_lookup_2.
Qed.

(** What the entries leave behind, when every function can be resolved. *)
Definition entries_applied (es : list entry) (fs fs' : FileSummary) : Prop :=
  (forall e, e ∈ es -> exists f', fs' !! e_ident e = Some f' /\ true_counts (e_flow e) f') /\
  (forall i, i ∉ (e_ident <$> es) -> fs' !! i = fs !! i).

Lemma loop_entries newer (es : list entry) func fs s fuel :
  version_gt_4 (gs_version s) = Ok newer -> NoDup (e_ident <$> es) ->
  Forall (valid_entry fs) es ->
  gs_stream s = mjoin (encode_entry newer (gs_format s) fs <$> es) ->
  (2 * length es < fuel)%nat ->
  match gcda_loop fuel func fs s with
  | Some (Ok fs') => Forall (entry_resolves fs) es /\ entries_applied es fs fs'
  | Some (Raise x) => x = FileFormatError /\ Exists (fun e => ~ entry_resolves fs e) es
  | None => False
  end.
Proof.
  intros Hv. revert func fs s fuel Hv.
  induction es as [|e es IH]; intros func fs s fuel Hv Hnd Hval Hs Hfuel.
  - destruct fuel as [|fuel]; [simpl in Hfuel; lia|]. cbn [gcda_loop].
    rewrite ReadInt_eof by (rewrite Hs; simpl; lia). split; [done|]. split; [|done].
    by intros e ?%not_elem_of_nil.
  - csimpl in *. apply NoDup_cons in Hnd as [Hni Hnd]. apply Forall_cons in Hval as [He Hval].
    destruct fuel as [|[|fuel]]; [lia..|].
    destruct (loop_entry newer e func fs s _ fuel Hv He Hs) as [(Hres & f' & Ht & ->)|[Hres ->]]; [|split; [done|by left]].
    ospecialize* (IH (Some (e_ident e)) (<[e_ident e := f']> fs)
      (set_stream (mjoin (encode_entry newer (gs_format s) fs <$> es)) s) fuel Hv Hnd).
    { apply Forall_forall. intros e' He'. rewrite Forall_forall in Hval.
      apply valid_entry_insert; [|by apply Hval]. intros Heq. apply Hni. rewrite <- Heq.
      apply list_elem_of_fmap. eauto. }
    { cbn [gs_stream set_stream gs_format]. by rewrite encode_entry_insert. }
    { lia. }
    assert (forall e', e' ∈ es -> entry_resolves (<[e_ident e := f']> fs) e' <-> entry_resolves fs e') as Hsame.
    { intros e' He'. unfold entry_resolves. rewrite lookup_insert_ne; [done|]. intros Heq. apply Hni.
      rewrite Heq. by apply list_elem_of_fmap_2. }
    destruct (gcda_loop fuel _ _ _) as [[fs'|x]|];
      [|destruct IH as [-> (e' & He' & Hn)%Exists_exists]; split; [done|]|done].
    2:{ apply Exists_exists. exists e'. split; [by right|]. by rewrite <- Hsame. }
    destruct IH as [IH0 [IH1 IH2]]. split.
    { constructor; [done|]. rewrite Forall_forall in IH0 |- *. intros e' He'. by apply Hsame, IH0. }
    split.
    + intros e' [->|He']%elem_of_cons; [|auto].
      exists f'. split; [|done]. rewrite IH2 by done. by rewrite lookup_insert_eq.
    + intros i [Hne Hi]%not_elem_of_cons. rewrite IH2 by done. by rewrite lookup_insert_ne.
Qed.

Lemma entries_length newer en fs (es : list entry) :
  (2 * length es <= length (mjoin (encode_entry newer en fs <$> es)))%nat.
Proof.
  induction es as [|e es IH]; [simpl; lia|]. csimpl. rewrite length_app.
  enough (2 <= length (encode_entry newer en fs e))%nat by lia.
  unfold encode_entry, words. csimpl. rewrite !length_app, !length_word. lia.
Qed.

Lemma ParseGcdaFile_entries en v newer ck fs (es : list entry) :
  length v = 4 -> version_gt_4 v = Ok newer -> is_word ck ->
  NoDup (e_ident <$> es) -> Forall (valid_entry fs) es ->
  match ParseGcdaFile
    (header GCDA_MAGIC en v ck ++ mjoin (encode_entry newer en fs <$> es)) fs with
  | Ok fs' => Forall (entry_resolves fs) es /\ entries_applied es fs fs'
  | Raise x => x = FileFormatError /\ Exists (fun e => ~ entry_resolves fs e) es
  end.
Proof.
  intros Hlen Hv Hck Hnd Hval. unfold ParseGcdaFile.
  rewrite gcov_init_header by (done || by intros _; vm_compute).
  cbn [mbind pyres_bind]. unfold gcda_Parse. set (s := mk_gstream _ _ _ _).
  pose proof (loop_entries newer es None fs s (S (length (gs_stream s))) Hv Hnd Hval eq_refl)
    as Hrun.
  destruct (gcda_loop _ None fs s) as [[fs'|x]|]; [apply Hrun..|exfalso; apply Hrun];
    pose proof (entries_length newer en fs es); simpl; lia.
Qed.


(** [Parse] always ends, on any stream: every turn consumes a word. *)
Theorem gcda_Parse_terminates func fs s :
  exists r, gcda_loop (S (length (gs_stream s))) func fs s = Some r.
Proof. apply gcda_loop_total. lia. Qed.

(** ** A concrete run *)
Definition sample_summary : FileSummary := <[1%Z := sample_fn]> ∅.
Definition sample_entry : entry := mk_entry 1 2 3 branch_flow.
Definition sample_gcda (en : endian) : pystr :=
  header GCDA_MAGIC en sample_version 7
  ++ mjoin (encode_entry true en sample_summary <$> [sample_entry]).

Lemma sample_fn_ok : graph_ok sample_fn.
Proof.
  split; [split; by apply listed_concrete|]. split.
  - apply linked_concrete. vm_compute. reflexivity.
  - assert (forallb (fun arc => negb (resolved arc) && (arc_count arc =? 0)%Z) (fn_arcs sample_fn)
      = true) as Hall by (vm_compute; reflexivity).
    rewrite forallb_forall in Hall. intros a arc Ha%list_elem_of_lookup_2%list_elem_of_In%Hall.
    apply andb_true_iff in Ha as [Hr%negb_true_iff Hc%Z.eqb_eq]. done.
Qed.

Lemma sample_entry_valid : valid_entry sample_summary sample_entry.
Proof.
  split; [small_words|]. exists sample_fn.
  split; [vm_compute; reflexivity|]. split; [exact sample_fn_ok|]. split; [|split].
  - apply conserves_concrete. vm_compute. reflexivity.
  - vm_compute. by split.
  - intros a Ha. assert (a ∈ [1; 2]) as Ha' by (revert Ha; vm_compute; done).
    revert Ha'. clear. intros [-> |[-> |[]%not_elem_of_nil]%elem_of_cons]%elem_of_cons; by split.
Qed.


(** The sample resolves, and its blocks ran 7, 7, 3, 7 and 7 times. *)
Example sample_gcda_counts :
  (fs' ← ParseGcdaFile (sample_gcda Little) sample_summary;
   f ← from_opt KeyError (fs' !! 1%Z); Ok (blk_count <$> fn_blocks f))
  = Ok [7; 7; 3; 7; 7]%Z.
Proof. vm_compute. reflexivity. Qed.
