(* ===== verification/CoverageReport.v ===== *)
(** * Line coverage

    utils/python/coverage/coverage_report.py: block counts become a vector of
    line counts for each source file.  Python iterates over a dict in an order
    of its own: [GenerateLineCoverageVector] takes the functions in the order of
    that iteration, and its result does not depend on it. *)

From S2P Require Import Prelude PyStr CovGraph.

Definition GEN_TAG : pystr := bs "/gen/".

(** The body of the innermost loop: one line of one block. *)
Definition cover_line (counts : list Z) (line count : Z) : pyres (list Z) :=
  let counts :=
    if (Z.of_nat (length counts) <? line)%Z
    then counts ++ replicate (Z.to_nat (line - Z.of_nat (length counts))) (-1)%Z else counts in
  v ← py_get counts (line - 1);
  counts ← (if (v <? 0)%Z then py_set counts (line - 1) 0%Z else Ok counts);
  v ← py_get counts (line - 1);
  py_set counts (line - 1) (v + count)%Z.

Definition cover_block (counts : list Z) (b : BlockSummary) : pyres (list Z) :=
  foldlM_py (fun counts line => cover_line counts line (blk_count b)) counts (blk_lines b).

Definition is_skipped (exclude_paths : list pystr) (file_name : pystr) : bool :=
  contains GEN_TAG file_name || existsb (fun path => startswith path file_name) exclude_paths.

(** The body of the outer loop. *)
Definition cover_function (exclude_paths : list pystr) (coverage_dict : gmap pystr (list Z))
    (func : FunctionSummary) : pyres (gmap pystr (list Z)) :=
  let file_name := src_file_name func in
  if is_skipped exclude_paths file_name then Ok coverage_dict
  else
    counts ← foldlM_py cover_block (default [] (coverage_dict !! file_name)) (fn_blocks func);
    Ok (<[file_name := counts]> coverage_dict).

Definition GenerateLineCoverageVector (functions : list FunctionSummary)
    (exclude_paths : list pystr) (coverage_dict : gmap pystr (list Z))
    : pyres (gmap pystr (list Z)) :=
  foldlM_py (cover_function exclude_paths) coverage_dict functions.

(** The loop of [GetCoverageStats]. *)
Definition GetCoverageStats (src_lines_counts : list Z) : Z * Z :=
  foldl (fun '(total, covered) line =>
    if (line <? 0)%Z then (total, covered)
    else (total + 1, if 0 <? line then covered + 1 else covered)%Z) (0, 0)%Z src_lines_counts.

(** ** Specification *)

(** A hit: a line and how often its block ran. *)
Definition hits_of_block (b : BlockSummary) : list (Z * Z) :=
  (fun line => (line, blk_count b)) <$> blk_lines b.
Definition hits_of_function (f : FunctionSummary) : list (Z * Z) :=
  mjoin (hits_of_block <$> fn_blocks f).

(** Position [i] stands for line [i + 1]; past the end a line is not executable. *)
Definition cell (counts : list Z) (i : nat) : Z := default (-1)%Z (counts !! i).

Definition at_line (i : nat) (hits : list (Z * Z)) : list Z :=
  snd <$> filter (fun h => h.1 = Z.of_nat i + 1)%Z hits.

Definition add_hits (v : Z) (counts : list Z) : Z :=
  match counts with [] => v | _ => (Z.max 0 v + zsum counts)%Z end.

Definition last_line (hits : list (Z * Z)) : nat :=
  foldr Nat.max 0 ((fun h => Z.to_nat h.1) <$> hits).

(** [new] is [old] with the hits added, in no particular order. *)
Definition covers (old : list Z) (hits : list (Z * Z)) (new : list Z) : Prop :=
  length new = Nat.max (length old) (last_line hits) /\
  forall i, cell new i = add_hits (cell old i) (at_line i hits).

Definition valid_hits (hits : list (Z * Z)) : Prop :=
  Forall (fun h => 1 <= h.1 /\ 0 <= h.2)%Z hits.

(** What [ReadLines] and a successful resolution leave in a function. *)
Definition countable_fn (f : FunctionSummary) : Prop :=
  Forall (fun b => 0 <= blk_count b /\ Forall (fun l => 1 <= l) (blk_lines b))%Z (fn_blocks f).

(** ** One line *)
Lemma cover_line_spec counts line count :
  (1 <= line)%Z -> (0 <= count)%Z ->
  exists new, cover_line counts line count = Ok new /\ covers counts [(line, count)] new.
Proof.
  intros Hl Hc. unfold cover_line.
  set (ext := if (Z.of_nat (length counts) <? line)%Z then _ else counts).
  assert (Hext : length ext = Nat.max (length counts) (Z.to_nat line) /\
    forall i, cell ext i = cell counts i).
  { unfold ext. destruct (Z.ltb_spec (Z.of_nat (length counts)) line); [|split; [lia|done]].
    rewrite length_app, length_replicate. split; [lia|]. intros i. unfold cell.
    destruct (decide (i < length counts)) as [Hi|Hi]; [by rewrite lookup_app_l|].
    rewrite (lookup_ge_None_2 counts) by lia. rewrite lookup_app_r by lia.
    by destruct (replicate _ _ !! _) as [v|] eqn:Hv; [apply lookup_replicate in Hv as [-> _]|]. }
  destruct Hext as [Hlen Hcell].
  replace (line - 1)%Z with (Z.of_nat (Z.to_nat (line - 1))) by lia.
  set (j := Z.to_nat (line - 1)).
  destruct (lookup_lt_is_Some_2 ext j) as [v Hv]; [unfold j; lia|].
  rewrite py_get_nat, Hv. cbn [from_opt mbind pyres_bind].
  assert (Hj : j < length ext) by (by eapply lookup_lt_Some).
  assert (exists new, (counts0 ← (if (v <? 0)%Z then py_set ext (Z.of_nat j) 0%Z else Ok ext);
      v0 ← py_get counts0 (Z.of_nat j); py_set counts0 (Z.of_nat j) (v0 + count)%Z) = Ok new /\
      new = <[j := (Z.max 0 v + count)%Z]> ext) as (new & -> & ->).
  { destruct (Z.ltb_spec v 0).
    - rewrite py_set_nat by done. cbn [mbind pyres_bind].
      rewrite py_get_nat, list_lookup_insert_eq by done. cbn [from_opt mbind pyres_bind].
      rewrite py_set_nat by (by rewrite length_insert). eexists. split; [done|].
      rewrite list_insert_insert_eq. f_equal. lia.
    - cbn [mbind pyres_bind]. rewrite py_get_nat, Hv. cbn [from_opt mbind pyres_bind].
      rewrite py_set_nat by done. eexists. split; [done|]. f_equal. lia. }
  eexists. split; [done|]. split; [rewrite length_insert; unfold last_line; cbn; lia|].
  intros i. unfold cell at 1. destruct (decide (i = j)) as [->|Hne].
  - rewrite list_lookup_insert_eq by done. unfold at_line.
    rewrite filter_cons_True by (cbn [fst]; unfold j; lia). cbn [fmap list_fmap snd add_hits filter list_filter zsum].
    rewrite <- Hcell. unfold cell. rewrite Hv. simpl. lia.
  - rewrite list_lookup_insert_ne by done. unfold at_line.
    rewrite filter_cons_False by (cbn [fst]; unfold j in Hne; lia). by rewrite <- Hcell.
Qed.

(** ** Composition *)
Lemma covers_nil counts : covers counts [] counts.
Proof. split; [unfold last_line; simpl; lia|]. by intros i. Qed.

Lemma last_line_app h1 h2 : last_line (h1 ++ h2) = Nat.max (last_line h1) (last_line h2).
Proof. unfold last_line. induction h1 as [|h h1 IH]; csimpl in *; [done|]. rewrite IH. lia. Qed.

Lemma add_hits_app v c1 c2 :
  Forall (fun c => 0 <= c)%Z c1 -> add_hits (add_hits v c1) c2 = add_hits v (c1 ++ c2).
Proof.
  intros H1. pose proof (zsum_nonneg _ H1) as Hs. destruct c1 as [|x c1]; [done|].
  destruct c2 as [|y c2]; [by rewrite app_nil_r|]. cbn [app add_hits].
  change (x :: c1 ++ y :: c2) with ((x :: c1) ++ y :: c2). rewrite zsum_app. lia.
Qed.

Lemma at_line_app i h1 h2 : at_line i (h1 ++ h2) = at_line i h1 ++ at_line i h2.
Proof. unfold at_line. by rewrite filter_app, fmap_app. Qed.

Lemma at_line_nonneg i hits : valid_hits hits -> Forall (fun c => 0 <= c)%Z (at_line i hits).
Proof.
  unfold valid_hits. rewrite Forall_forall. intros Hv.
  apply Forall_fmap, Forall_forall. intros h [_ Hh]%list_elem_of_filter. by apply Hv.
Qed.

Lemma covers_app old h1 mid h2 new :
  valid_hits h1 -> covers old h1 mid -> covers mid h2 new -> covers old (h1 ++ h2) new.
Proof.
  intros Hv [Hl1 Hc1] [Hl2 Hc2]. split; [rewrite last_line_app; lia|].
  intros i. rewrite Hc2, Hc1, at_line_app. by apply add_hits_app, at_line_nonneg.
Qed.

#[export] Instance last_line_perm : Proper (Permutation ==> eq) last_line.
Proof. unfold last_line. induction 1; csimpl in *; lia. Qed.

#[export] Instance add_hits_perm v : Proper (Permutation ==> eq) (add_hits v).
Proof.
  intros c1 c2 Hp. destruct c1 as [|x c1]; [by apply Permutation_nil in Hp as ->|].
  destruct c2 as [|y c2]; [by symmetry in Hp; apply Permutation_nil in Hp|].
  unfold add_hits. by rewrite Hp.
Qed.

#[export] Instance at_line_perm i : Proper (Permutation ==> Permutation) (at_line i).
Proof. intros h1 h2 Hp. unfold at_line. by rewrite Hp. Qed.

(** The vector is determined by the hits as a multiset. *)
Lemma covers_unique old h1 h2 n1 n2 :
  h1 ≡ₚ h2 -> covers old h1 n1 -> covers old h2 n2 -> n1 = n2.
Proof.
  intros Hp [Hl1 Hc1] [Hl2 Hc2]. rewrite <- Hp in Hl2.
  apply list_eq_same_length with (n := length n1); [congruence|done|].
  intros i x y Hi Hx Hy. specialize (Hc1 i). specialize (Hc2 i).
  rewrite <- Hp, <- Hc1 in Hc2. unfold cell in Hc2. rewrite Hx, Hy in Hc2. by simpl in Hc2.
Qed.

Section fold.
Context {A : Type} (step : list Z -> A -> pyres (list Z)) (hits : A -> list (Z * Z)).

Lemma foldlM_covers l counts :
  (forall a counts, a ∈ l -> valid_hits (hits a) /\
     exists new, step counts a = Ok new /\ covers counts (hits a) new) ->
  exists new, foldlM_py step counts l = Ok new /\ covers counts (mjoin (hits <$> l)) new /\
    valid_hits (mjoin (hits <$> l)).
Proof using Type.
  revert counts. induction l as [|a l IH]; intros counts Hstep; simpl.
  { exists counts. split; [done|]. split; [apply covers_nil|constructor]. }
  destruct (Hstep a counts) as (Hv & mid & -> & Hmid); [by left|]. cbn [mbind pyres_bind].
  destruct (IH mid) as (new & -> & Hnew & Hvn); [intros; apply Hstep; by right|].
  exists new. split; [done|]. split; [by eapply covers_app|]. by apply Forall_app.
Qed.
End fold.

Lemma cover_block_spec counts b :
  (0 <= blk_count b)%Z -> Forall (fun l => 1 <= l)%Z (blk_lines b) ->
  valid_hits (hits_of_block b) /\
  exists new, cover_block counts b = Ok new /\ covers counts (hits_of_block b) new.
Proof.
  intros Hc Hl. split.
  { apply Forall_fmap. eapply Forall_impl; [exact Hl|]. done. }
  destruct (foldlM_covers (fun counts line => cover_line counts line (blk_count b))
    (fun line => [(line, blk_count b)]) (blk_lines b) counts) as (new & Hrun & Hcov & _).
  - intros line c Hin. rewrite Forall_forall in Hl. specialize (Hl line Hin).
    split; [by repeat constructor|]. by apply cover_line_spec.
  - exists new. split; [done|]. replace (hits_of_block b) with
      (mjoin ((fun line => [(line, blk_count b)]) <$> blk_lines b)); [done|].
    unfold hits_of_block. clear. induction (blk_lines b); simpl; [done|]. by f_equal.
Qed.

Lemma cover_blocks_spec counts f :
  countable_fn f ->
  exists new, foldlM_py cover_block counts (fn_blocks f) = Ok new /\
    covers counts (hits_of_function f) new /\ valid_hits (hits_of_function f).
Proof.
  intros Hf. apply foldlM_covers. intros b c Hb. unfold countable_fn in Hf. rewrite Forall_forall in Hf.
  destruct (Hf b Hb). by apply cover_block_spec.
Qed.

(** ** The whole report *)
Section report.
Context (exclude_paths : list pystr).

Definition counted_in (name : pystr) (f : FunctionSummary) : bool :=
  negb (is_skipped exclude_paths (src_file_name f)) && bool_decide (src_file_name f = name).

Definition functions_of (name : pystr) (functions : list FunctionSummary)
    : list FunctionSummary := filter (fun f => counted_in name f = true) functions.

(** Each file that has a counted function gets the hits of all of them; the
    entries of other files stay. *)
Definition report_of (functions : list FunctionSummary)
    (old new : gmap pystr (list Z)) : Prop :=
  forall name,
    (functions_of name functions = [] -> new !! name = old !! name) /\
    (functions_of name functions <> [] -> exists counts, new !! name = Some counts /\
       covers (default [] (old !! name))
         (mjoin (hits_of_function <$> functions_of name functions)) counts).

Lemma functions_of_snoc name functions f :
  functions_of name (functions ++ [f])
  = functions_of name functions ++ if counted_in name f then [f] else [].
Proof using Type.
  unfold functions_of. rewrite filter_app. f_equal. rewrite filter_cons.
  by destruct (counted_in name f).
Qed.

Lemma valid_function_hits name functions :
  Forall countable_fn functions ->
  valid_hits (mjoin (hits_of_function <$> functions_of name functions)).
Proof using Type.
  rewrite Forall_forall. intros Hf. apply Forall_forall. intros h Hh.
  apply list_elem_of_join in Hh as (l & Hh & (f & -> & Hin)%list_elem_of_fmap).
  apply list_elem_of_filter in Hin as [_ Hin%Hf].
  destruct (cover_blocks_spec [] f Hin) as (_ & _ & _ & Hv).
  unfold valid_hits in Hv. rewrite Forall_forall in Hv. auto.
Qed.

Lemma report_step functions f old mid :
  Forall countable_fn functions -> countable_fn f -> report_of functions old mid ->
  exists new, cover_function exclude_paths mid f = Ok new /\
    report_of (functions ++ [f]) old new.
Proof using Type.
  intros Hfs Hf Hmid. unfold cover_function.
  destruct (is_skipped exclude_paths (src_file_name f)) eqn:Hskip.
  { exists mid. split; [done|]. intros name. rewrite functions_of_snoc.
    unfold counted_in. rewrite Hskip, app_nil_r. apply Hmid. }
  set (file_name := src_file_name f) in *.
  destruct (cover_blocks_spec (default [] (mid !! file_name)) f Hf) as (counts & -> & Hc & _).
  eexists. split; [done|]. intros name. rewrite functions_of_snoc.
  destruct (Hmid name) as [H0 H1]. unfold counted_in. fold file_name. rewrite Hskip. simpl.
  case_bool_decide as Hname; [rewrite <- Hname in *|].
  - split; [by intros [_ ?]%app_nil|]. intros _. exists counts.
    split; [by rewrite lookup_insert_eq|]. rewrite fmap_app, join_app. csimpl. rewrite app_nil_r.
    destruct (decide (functions_of file_name functions = [])) as [He|Hne].
    + rewrite He. simpl. by rewrite (H0 He) in Hc.
    + destruct (H1 Hne) as (c & Hl & Hcov). rewrite Hl in Hc. simpl in Hc.
      eapply covers_app; [by apply valid_function_hits|done|done].
  - rewrite app_nil_r, lookup_insert_ne by done. by split.
Qed.

Lemma report_of_exists functions old :
  Forall countable_fn functions ->
  exists new, GenerateLineCoverageVector functions exclude_paths old = Ok new /\
    report_of functions old new.
Proof using Type.
  unfold GenerateLineCoverageVector. induction functions as [|f functions IH] using rev_ind.
  { intros _. exists old. split; [done|]. by intros name. }
  intros [Hfs [Hf _]%Forall_cons]%Forall_app.
  destruct (IH Hfs) as (mid & Hrun & Hmid).
  destruct (report_step functions f old mid Hfs Hf Hmid) as (new & Hnew & Hrep).
  exists new. split; [|done]. rewrite foldlM_py_app, Hrun. simpl. by rewrite Hnew.
Qed.

Lemma report_of_perm functions functions' old n1 n2 :
  functions ≡ₚ functions' -> report_of functions old n1 -> report_of functions' old n2 ->
  n1 = n2.
Proof using Type.
  intros Hp H1 H2. apply map_eq. intros name.
  assert (Hfp : functions_of name functions ≡ₚ functions_of name functions')
    by (unfold functions_of; by rewrite Hp).
  destruct (H1 name) as [H10 H11], (H2 name) as [H20 H21].
  destruct (decide (functions_of name functions = [])) as [He|Hne].
  - rewrite H10 by done. rewrite He in Hfp. apply Permutation_nil in Hfp. by rewrite H20.
  - destruct (H11 Hne) as (c1 & -> & Hc1). destruct H21 as (c2 & -> & Hc2).
    { intros He. rewrite He in Hfp. by symmetry in Hfp; apply Permutation_nil in Hfp. }
    f_equal. eapply covers_unique; [|done|done]. by rewrite Hfp.
Qed.
End report.

(** The report is right: no file raises, each source file with a counted
    function maps to a vector long enough for its last line, where a line that
    no block names is -1 (or what it was) and every other line is the sum of the
    counts of the blocks that name it; generated and excluded files, and
    entries of other files, are left alone. *)
Theorem GenerateLineCoverageVector_spec functions exclude_paths coverage_dict :
  Forall countable_fn functions ->
  exists new, GenerateLineCoverageVector functions exclude_paths coverage_dict = Ok new /\
    report_of exclude_paths functions coverage_dict new.
Proof. apply report_of_exists. Qed.

(** The report does not depend on the order in which the dictionary of
    functions is iterated. *)
Theorem GenerateLineCoverageVector_order functions functions' exclude_paths coverage_dict :
  Forall countable_fn functions -> functions ≡ₚ functions' ->
  GenerateLineCoverageVector functions exclude_paths coverage_dict
  = GenerateLineCoverageVector functions' exclude_paths coverage_dict.
Proof.
  intros Hf Hp. assert (Hf' : Forall countable_fn functions') by (by rewrite <- Hp).
  destruct (report_of_exists exclude_paths functions coverage_dict Hf) as (n1 & -> & H1).
  destruct (report_of_exists exclude_paths functions' coverage_dict Hf') as (n2 & -> & H2).
  f_equal. by eapply report_of_perm.
Qed.

Lemma GetCoverageStats_fold counts t c :
  foldl (fun '(total, covered) line =>
    if (line <? 0)%Z then (total, covered)
    else (total + 1, if 0 <? line then covered + 1 else covered)%Z) (t, c) counts
  = (t + Z.of_nat (length (filter (fun l => (0 <= l)%Z) counts)),
     c + Z.of_nat (length (filter (fun l => (0 < l)%Z) counts)))%Z.
Proof.
  revert t c. induction counts as [|l counts IH]; intros t c; [simpl; f_equal; lia|].
  cbn [foldl]. destruct (Z.ltb_spec l 0); [|destruct (Z.ltb_spec 0 l)]; rewrite IH, !filter_cons;
    repeat case_decide; try lia; cbn [length]; f_equal; lia.
Qed.

(** The statistics count the executable and the executed lines, so that
    0 <= covered <= total <= number of lines. *)
Theorem GetCoverageStats_spec counts :
  GetCoverageStats counts =
    (Z.of_nat (length (filter (fun l => (0 <= l)%Z) counts)),
     Z.of_nat (length (filter (fun l => (0 < l)%Z) counts))) /\
  (0 <= (GetCoverageStats counts).2 <= (GetCoverageStats counts).1)%Z /\
  ((GetCoverageStats counts).1 <= Z.of_nat (length counts))%Z.
Proof.
  unfold GetCoverageStats. rewrite GetCoverageStats_fold. cbn [fst snd].
  split; [done|]. pose proof (length_filter (fun l => (0 <= l)%Z) counts).
  enough (length (filter (fun l => (0 < l)%Z) counts)
    <= length (filter (fun l => (0 <= l)%Z) counts)) by lia.
  clear. induction counts as [|l counts IH]; [done|]. rewrite !filter_cons.
  repeat case_decide; simpl; lia.
Qed.

(** ** A concrete report *)
Definition line_block (lines : list Z) (c : Z) : BlockSummary := mk_block 0 0 [] [] c lines.
Definition report_fn (file : string) (blocks : list BlockSummary) : FunctionSummary :=
  mk_fn blocks [] 0 [] (bs file) 1.
Definition report_sample : list FunctionSummary :=
  [report_fn "a.cc" [line_block [2; 3] 5; line_block [3] 0];
   report_fn "out/gen/b.cc" [line_block [1] 9]; report_fn "a.cc" [line_block [5; 2] 1]]%Z.

Lemma report_sample_ok : Forall countable_fn report_sample.
Proof. repeat constructor; simpl; lia. Qed.

Lemma GenerateLineCoverageVector_spec_witness :
  Forall countable_fn report_sample /\
  exists new, GenerateLineCoverageVector report_sample [] ∅ = Ok new /\
    report_of [] report_sample ∅ new.
Proof.
  split; [exact report_sample_ok|].
  exact (GenerateLineCoverageVector_spec report_sample [] ∅ report_sample_ok).
Defined.

Lemma GenerateLineCoverageVector_order_witness :
  GenerateLineCoverageVector report_sample [] ∅
  = GenerateLineCoverageVector (reverse report_sample) [] ∅.
Proof.
  apply (GenerateLineCoverageVector_order report_sample (reverse report_sample) [] ∅
    report_sample_ok). symmetry. apply reverse_Permutation.
Defined.
