(* ===== verification/Sancov.v ===== *)
(** * The sancov parser

    utils/python/coverage/sancov_parser.py: [SancovParser] decodes the offsets of
    an LLVM sanitizer coverage file.  [struct] runs in native mode: the model
    fixes the host to a 64-bit little-endian one, where ['L'] is 8 bytes. *)

From Stdlib Require Import Strings.Byte.
From S2P Require Import Prelude PyStr.

Definition MAGIC32 : Z := 0xC0BFFFFFFFFFFF32.
Definition MAGIC64 : Z := 0xC0BFFFFFFFFFFF64.

(** [_entry_type] is the size of the [struct] code it names. *)
Record SancovParser := mk_sancov {
  sc_file : pystr;
  sc_pos : nat;
  sc_bitness : Z;
  sc_entry_type : nat;
  sc_size : Z;
}.

Definition new_SancovParser (sancov_file : pystr) : SancovParser :=
  mk_sancov sancov_file 0 (-1) 0 0.

(** [self._sancov_file.read(n)]: a negative [n] reads the rest. *)
Definition sancov_read (n : Z) : stM SancovParser pystr := fun p =>
  let rest := drop (sc_pos p) (sc_file p) in
  let buf := if (n <? 0)%Z then rest else take (Z.to_nat n) rest in
  Ok (buf, mk_sancov (sc_file p) (sc_pos p + length buf) (sc_bitness p) (sc_entry_type p)
             (sc_size p)).

(** The entry type and the bitness the magic number selects. *)
Definition set_bitness (magic : Z) : stM SancovParser Z := fun p =>
  if (magic =? MAGIC64)%Z then
    Ok (64%Z, mk_sancov (sc_file p) (sc_pos p) 64 8 (sc_size p))
  else if (magic =? MAGIC32)%Z then
    Ok (32%Z, mk_sancov (sc_file p) (sc_pos p) 32 4 (sc_size p))
  else Raise FileFormatError.

Definition read_magic : stM SancovParser Z :=
  buf ← sancov_read 8;
  magic ← st_lift (unpack_uint Little 8 buf);
  set_bitness magic.

Definition GetBitness : stM SancovParser Z := fun p =>
  if (0 <? sc_bitness p)%Z then Ok (sc_bitness p, p)
  else
    let size := (Z.of_nat (length (sc_file p)) - 8)%Z in
    if (size <? 0)%Z then Raise FileFormatError
    else read_magic (mk_sancov (sc_file p) 0 (sc_bitness p) (sc_entry_type p) size).

(** [struct.unpack_from(code * n, buf)]: the buffer may be longer. *)
Fixpoint unpack_from (w n : nat) (buf : pystr) : pyres (list Z) :=
  match n with
  | 0 => Ok []
  | S n =>
      z ← unpack_uint Little w (take w buf);
      l ← unpack_from w n (drop w buf);
      Ok (z :: l)
  end.

Definition sancov_Parse : stM SancovParser (list Z) :=
  _ ← GetBitness;
  p ← st_get;
  buf ← sancov_read (sc_size p);
  st_lift (unpack_from (sc_entry_type p) (Z.to_nat (sc_size p * 8 / sc_bitness p)) buf).

Definition ParseSancovFile (content : pystr) : pyres (Z * list Z) :=
  '(offsets, p) ← sancov_Parse (new_SancovParser content);
  Ok (sc_bitness p, offsets).

(** ** Writing the format *)
Inductive bitness := B32 | B64.
Definition entry_bytes (b : bitness) : nat := match b with B32 => 4 | B64 => 8 end.
Definition bits (b : bitness) : Z := match b with B32 => 32 | B64 => 64 end.
Definition magic_of (b : bitness) : Z := match b with B32 => MAGIC32 | B64 => MAGIC64 end.

Definition encode_offsets (b : bitness) (offsets : list Z) : pystr :=
  mjoin (le_encode (entry_bytes b) <$> offsets).
Definition encode_sancov (b : bitness) (offsets : list Z) : pystr :=
  le_encode 8 (magic_of b) ++ encode_offsets b offsets.

Definition is_offset (b : bitness) (z : Z) : Prop := (0 <= z < 2 ^ bits b)%Z.

Lemma length_encode_offsets b offsets :
  length (encode_offsets b offsets) = (entry_bytes b * length offsets)%nat.
Proof.
  unfold encode_offsets. induction offsets as [|z l IH]; csimpl; [lia|].
  rewrite length_app, IH, length_le_encode. lia.
Qed.

Lemma unpack_from_encode b offsets k :
  Forall (is_offset b) offsets ->
  unpack_from (entry_bytes b) (length offsets) (encode_offsets b offsets ++ k) = Ok offsets.
Proof.
  unfold encode_offsets. induction 1 as [|z l Hz Hl IH]; csimpl; [done|].
  rewrite <- app_assoc.
  rewrite take_app_length', drop_app_length' by (by rewrite length_le_encode).
  pose proof (unpack_uint_encode Little (entry_bytes b) z) as Hu. unfold int_encode in Hu.
  rewrite Hu by (destruct b; exact Hz). simpl. by rewrite IH.
Qed.

(** Too short a file and an unknown magic number are format errors, and no other
    exception escapes. *)
Lemma GetBitness_new content :
  GetBitness (new_SancovParser content) =
    if (length content <? 8)%nat then Raise FileFormatError
    else
      let size := (Z.of_nat (length content) - 8)%Z in
      let magic := le_decode (take 8 content) in
      if (magic =? MAGIC64)%Z then Ok (64%Z, mk_sancov content 8 64 8 size)
      else if (magic =? MAGIC32)%Z then Ok (32%Z, mk_sancov content 8 32 4 size)
      else Raise FileFormatError.
Proof.
  unfold GetBitness, new_SancovParser. cbn [sc_bitness sc_file].
  destruct (Nat.ltb_spec (length content) 8).
  { by rewrite (proj2 (Z.ltb_lt (Z.of_nat (length content) - 8) 0)) by lia. }
  change (0 <? -1)%Z with false. cbv iota zeta.
  rewrite (proj2 (Z.ltb_ge (Z.of_nat (length content) - 8) 0)) by lia.
  assert (length (take 8 content) = 8) as Hl by (rewrite length_take; lia).
  unfold read_magic. erewrite stM_bind_run by done. cbn [sc_pos sc_file].
  rewrite drop_0. change (8 <? 0)%Z with false. change (Z.to_nat 8) with 8%nat. cbv iota.
  rewrite Hl. erewrite stM_bind_run by (unfold unpack_uint; by rewrite decide_True). done.
Qed.

(** What [Parse] returns on a new parser, for every file. *)
Lemma Parse_new content b :
  (8 <= length content)%nat -> le_decode (take 8 content) = magic_of b ->
  sancov_Parse (new_SancovParser content) =
    (offs ← unpack_from (entry_bytes b) ((length content - 8) / entry_bytes b) (drop 8 content);
     Ok (offs, mk_sancov content (length content) (bits b) (entry_bytes b)
                 (Z.of_nat (length content) - 8))).
Proof.
  intros Hl Hm. unfold sancov_Parse. pose proof (GetBitness_new content) as Hb.
  rewrite (proj2 (Nat.ltb_ge _ _)) in Hb by done. rewrite Hm in Hb. cbv zeta in Hb.
  assert (GetBitness (new_SancovParser content) = Ok (bits b,
    mk_sancov content 8 (bits b) (entry_bytes b) (Z.of_nat (length content) - 8))) as Hg
    by (rewrite Hb; by destruct b).
  erewrite stM_bind_run by exact Hg.
  erewrite stM_bind_run by done. erewrite stM_bind_run by done. cbn [sc_pos sc_file sc_size sc_bitness sc_entry_type].
  rewrite (proj2 (Z.ltb_ge _ _)) by lia.
  rewrite take_ge by (rewrite length_drop; lia). rewrite length_drop.
  replace (8 + (length content - 8))%nat with (length content) by lia.
  replace (Z.to_nat _) with ((length content - 8) / entry_bytes b)%nat.
  { unfold st_lift. by destruct (unpack_from _ _ _). }
  replace (Z.of_nat (length content) - 8)%Z with (Z.of_nat (length content - 8)) by lia.
  apply Nat2Z.inj. rewrite Z2Nat.id by (destruct b; simpl; apply Z.div_pos; lia).
  rewrite Nat2Z.inj_div. destruct b; simpl; [|change 64%Z with (8 * 8)%Z|..];
    [change 32%Z with (4 * 8)%Z|]; by rewrite Z.div_mul_cancel_r.
Qed.

(** Reading a sancov file gives the bitness and the offsets that were
    written, for both widths; a partial entry at the end is ignored. *)
Theorem ParseSancovFile_roundtrip b offsets partial :
  Forall (is_offset b) offsets -> (length partial < entry_bytes b)%nat ->
  ParseSancovFile (encode_sancov b offsets ++ partial) = Ok (bits b, offsets).
Proof.
  intros Ho Hp. unfold ParseSancovFile, encode_sancov. rewrite <- app_assoc.
  rewrite (Parse_new _ b).
  - rewrite drop_app_length' by (by rewrite length_le_encode).
    rewrite !length_app, length_le_encode, length_encode_offsets.
    replace ((8 + _ - 8) / entry_bytes b)%nat with (length offsets).
    + rewrite unpack_from_encode by done. by destruct b.
    + replace (8 + (entry_bytes b * length offsets + length partial) - 8)%nat
        with (length offsets * entry_bytes b + length partial)%nat by lia.
      rewrite Nat.div_add_l, (Nat.div_small (length partial)) by (destruct b; simpl in *; lia). lia.
  - rewrite length_app, length_le_encode. lia.
  - rewrite take_app_length' by (by rewrite length_le_encode). apply le_decode_encode. by destruct b.
Qed.

(** Any byte string is either parsed or refused with a [FileFormatError]:
    no [struct.error] escapes [ParseSancovFile]. *)
Theorem ParseSancovFile_total content :
  (exists b offsets, ParseSancovFile content = Ok (bits b, offsets)) \/
  ParseSancovFile content = Raise FileFormatError.
Proof.
  assert (Hun : forall b n buf, (n * entry_bytes b <= length buf)%nat ->
    exists l, unpack_from (entry_bytes b) n buf = Ok l).
  { intros b n. induction n as [|n IH]; intros buf Hl; simpl; [eauto|].
    unfold unpack_uint. rewrite decide_True by (rewrite length_take; lia).
    destruct (IH (drop (entry_bytes b) buf)) as [l Hr]; [rewrite length_drop; lia|].
    simpl. rewrite Hr. simpl. eauto. }
  assert (Hcase : forall b, (8 <= length content)%nat ->
    le_decode (take 8 content) = magic_of b ->
    exists offsets, ParseSancovFile content = Ok (bits b, offsets)).
  { intros b Hl Hm. unfold ParseSancovFile. rewrite (Parse_new _ b) by done.
    destruct (Hun b ((length content - 8) / entry_bytes b) (drop 8 content)) as [l ->].
    { rewrite length_drop, Nat.mul_comm. apply Nat.Div0.mul_div_le. }
    exists l. by destruct b. }
  destruct (Nat.lt_ge_cases (length content) 8) as [Hs|Hs].
  { right. unfold ParseSancovFile, sancov_Parse, mbind, stM_bind.
    rewrite GetBitness_new. by rewrite (proj2 (Nat.ltb_lt _ _)). }
  destruct (decide (le_decode (take 8 content) = MAGIC64)) as [H64|H64];
    [left; exists B64; auto|].
  destruct (decide (le_decode (take 8 content) = MAGIC32)) as [H32|H32];
    [left; exists B32; auto|].
  right. unfold ParseSancovFile, sancov_Parse, mbind, stM_bind.
  rewrite GetBitness_new, (proj2 (Nat.ltb_ge _ _)) by done. cbv zeta.
  by rewrite (proj2 (Z.eqb_neq _ _) H64), (proj2 (Z.eqb_neq _ _) H32).
Qed.

Lemma ParseSancovFile_roundtrip_witness :
  Forall (is_offset B32) [4096; 77]%Z /\
  ParseSancovFile (encode_sancov B32 [4096; 77]%Z ++ [Byte.x01]) = Ok (32%Z, [4096; 77]%Z).
Proof.
  split; [repeat constructor; simpl; lia|].
  apply (ParseSancovFile_roundtrip B32 [4096; 77]%Z [Byte.x01]);
    [repeat constructor; simpl; lia|simpl; lia].
Defined.
