(* ===== verification/ElfStructs.v ===== *)
(** * ELF structures, constants and signed LEB128 ([src/utils/python/library/elf/])

    [structs.py] declares the ELF structures with [ctypes]: a class lists its fields,
    [ctypes] lays them out like a C compiler (natural alignment, size padded to the
    largest alignment) and decodes them little-endian.  Here a class is its list of
    fields and the layout is computed from it; a record per structure holds the decoded
    fields.  After them the constants of [consts.py] and [DecodeSLEB128] of [utils.py]. *)

From Stdlib Require Import Strings.Byte.
From S2P Require Import Prelude PyStr.

(** ** [ctypes] *)
Inductive ctype :=
  | c_uint8
  | c_uint16
  | c_uint32
  | c_uint64
  | c_int32
  | c_int64
  | c_uint8_array (n : nat).

#[export] Instance ctype_eq_dec : EqDecision ctype.
Proof. solve_decision. Defined.

Definition csize (t : ctype) : nat :=
  match t with
  | c_uint8 => 1
  | c_uint16 => 2
  | c_uint32 | c_int32 => 4
  | c_uint64 | c_int64 => 8
  | c_uint8_array n => n
  end.

Definition calign (t : ctype) : nat :=
  match t with c_uint8_array _ => 1 | _ => csize t end.

Definition is_signed (t : ctype) : bool :=
  match t with c_int32 | c_int64 => true | _ => false end.

(** Two's complement at [n] bytes. *)
Definition to_signed (n : nat) (z : Z) : Z :=
  if (z <? 2 ^ (8 * Z.of_nat n - 1))%Z then z else (z - 2 ^ (8 * Z.of_nat n))%Z.

Definition c_decode (t : ctype) (l : pystr) : Z :=
  if is_signed t then to_signed (csize t) (le_decode l) else le_decode l.
Definition c_encode (t : ctype) (z : Z) : pystr := le_encode (csize t) z.

(** Assigning an integer to a field keeps its low bits. *)
Definition c_wrap (t : ctype) (z : Z) : Z := c_decode t (c_encode t z).

Definition c_range (t : ctype) (z : Z) : Prop :=
  if is_signed t then
    (- 2 ^ (8 * Z.of_nat (csize t) - 1) <= z < 2 ^ (8 * Z.of_nat (csize t) - 1))%Z
  else (0 <= z < 2 ^ (8 * Z.of_nat (csize t)))%Z.

(** ** Layout *)
Abbreviation fields := (list (string * ctype)).

Definition align_up (off a : nat) : nat := (off + a - 1) / a * a.

Fixpoint layout (off : nat) (fs : fields) : list (string * (nat * ctype)) :=
  match fs with
  | [] => []
  | (name, t) :: fs =>
      let o := align_up off (calign t) in (name, (o, t)) :: layout (o + csize t) fs
  end.

Fixpoint end_offset (off : nat) (fs : fields) : nat :=
  match fs with
  | [] => off
  | (_, t) :: fs => end_offset (align_up off (calign t) + csize t) fs
  end.

Definition struct_align (fs : fields) : nat := foldr Nat.max 1 ((fun f => calign f.2) <$> fs).

(** [ctypes.sizeof] *)
Definition sizeof (fs : fields) : nat := align_up (end_offset 0 fs) (struct_align fs).

Fixpoint assoc {A} (name : string) (l : list (string * A)) : option A :=
  match l with
  | [] => None
  | (n, a) :: l => if String.eqb n name then Some a else assoc name l
  end.

(** The bytes and the value of a field of an object whose memory is [raw]. *)
Definition field_bytes (fs : fields) (raw : pystr) (name : string) : pystr :=
  match assoc name (layout 0 fs) with
  | Some (o, t) => take (csize t) (drop o raw)
  | None => []
  end.

Definition field (fs : fields) (raw : pystr) (name : string) : Z :=
  match assoc name (layout 0 fs) with
  | Some (o, t) => c_decode t (take (csize t) (drop o raw))
  | None => 0
  end.

(** The memory of an object with given field values, padding zeroed. *)
Fixpoint encode_from (off : nat) (fs : fields) (get : string -> Z) : pystr :=
  match fs with
  | [] => []
  | (name, t) :: fs =>
      let o := align_up off (calign t) in
      replicate (o - off) Byte.x00 ++ c_encode t (get name) ++ encode_from (o + csize t) fs get
  end.

Definition struct_bytes (fs : fields) (get : string -> Z) : pystr :=
  encode_from 0 fs get ++ replicate (sizeof fs - end_offset 0 fs) Byte.x00.

(** ** Decoding inverts encoding *)
Lemma c_decode_encode t z : c_range t z -> c_decode t (c_encode t z) = z.
Proof.
  unfold c_range, c_decode, c_encode. intros Hz.
  assert (Hpow : (2 ^ (8 * Z.of_nat (csize t)) = 256 ^ Z.of_nat (csize t))%Z)
    by (rewrite (Z.pow_mul_r 2 8) by lia; done).
  destruct (is_signed t) eqn:Hs; [|apply le_decode_encode; by rewrite <- Hpow].
  assert (Hhalf : (2 ^ (8 * Z.of_nat (csize t)) = 2 * 2 ^ (8 * Z.of_nat (csize t) - 1))%Z).
  { rewrite <- Z.pow_succ_r by (destruct t; simpl in *; done || lia). f_equal. lia. }
  assert (le_decode (le_encode (csize t) z) = z mod 2 ^ (8 * Z.of_nat (csize t)))%Z as ->.
  { rewrite Hpow. clear. revert z. induction (csize t) as [|n IH]; intros z.
    - simpl. by rewrite Z.mod_1_r.
    - simpl le_encode. simpl le_decode. rewrite byteZ_Zbyte, IH, Nat2Z.inj_succ, Z.pow_succ_r by lia.
      assert (0 < 256 ^ Z.of_nat n)%Z by (apply Z.pow_pos_nonneg; lia).
      by rewrite Z.rem_mul_r by lia. }
  unfold to_signed. rewrite Hhalf. set (h := (2 ^ (8 * Z.of_nat (csize t) - 1))%Z) in *.
  destruct (Z.lt_ge_cases z 0).
  - assert (z mod (2 * h) = z + 2 * h)%Z as ->.
    { rewrite <- (Z.mod_add z 1) by lia. rewrite Z.mod_small; lia. }
    destruct (Z.ltb_spec (z + 2 * h) h); lia.
  - rewrite Z.mod_small by lia. destruct (Z.ltb_spec z h); lia.
Qed.

Lemma align_up_ge off a : (0 < a)%nat -> (off <= align_up off a)%nat.
Proof.
  intros Ha. unfold align_up. pose proof (Nat.div_mod_eq (off + a - 1) a).
  pose proof (Nat.mod_upper_bound (off + a - 1) a). nia.
Qed.

Lemma calign_pos t : t <> c_uint8_array 0 -> (0 < calign t)%nat.
Proof. destruct t; simpl; lia. Qed.

Lemma calign_pos' t : (0 < calign t)%nat.
Proof. destruct t; simpl; lia. Qed.

Lemma length_encode_from off fs get :
  length (encode_from off fs get) = (end_offset off fs - off)%nat /\ (off <= end_offset off fs)%nat.
Proof.
  revert off. induction fs as [|[name t] fs IH]; intros off; simpl; [lia|].
  pose proof (align_up_ge off (calign t) (calign_pos' t)) as Ha.
  destruct (IH (align_up off (calign t) + csize t)) as [Hl Hle].
  rewrite !length_app, length_replicate, Hl. unfold c_encode. rewrite length_le_encode. lia.
Qed.

Lemma length_struct_bytes fs get : length (struct_bytes fs get) = sizeof fs.
Proof.
  unfold struct_bytes. rewrite length_app, length_replicate.
  destruct (length_encode_from 0 fs get) as [-> _].
  enough (end_offset 0 fs <= sizeof fs)%nat by lia. unfold sizeof. apply align_up_ge.
  unfold struct_align. clear. induction fs; csimpl; lia.
Qed.

Lemma layout_slice name fs off get o t pre rest :
  length pre = off -> assoc name (layout off fs) = Some (o, t) ->
  take (csize t) (drop o (pre ++ encode_from off fs get ++ rest)) = c_encode t (get name).
Proof.
  revert off pre. induction fs as [|[n t'] fs IH]; intros off pre Hpre; [done|]. simpl.
  pose proof (align_up_ge off (calign t') (calign_pos' t')) as Ha.
  destruct (String.eqb_spec n name) as [->|Hne].
  - intros [= <- <-]. rewrite <- !app_assoc.
    rewrite (app_assoc pre), drop_app_length'.
    2: { rewrite length_app, length_replicate. lia. }
    apply take_app_length'. unfold c_encode. by rewrite length_le_encode.
  - intros Hin. rewrite <- !app_assoc, (app_assoc pre), (app_assoc (pre ++ _)).
    apply IH; [|done]. unfold c_encode.
    rewrite !length_app, length_replicate, length_le_encode. lia.
Qed.

Lemma field_struct_bytes fs get name o t rest :
  assoc name (layout 0 fs) = Some (o, t) -> c_range t (get name) ->
  field fs (struct_bytes fs get ++ rest) name = get name.
Proof.
  intros Hin Hr. unfold field. rewrite Hin. unfold struct_bytes. rewrite <- app_assoc.
  match goal with |- context [encode_from 0 fs get ++ ?r] =>
    pose proof (layout_slice name fs 0 get o t [] r eq_refl Hin) as Hs end.
  simpl in Hs. rewrite Hs. by apply c_decode_encode.
Qed.

(** ** The structures *)
Definition Elf32_Addr := c_uint32.
Definition Elf32_Off := c_uint32.
Definition Elf32_Half := c_uint16.
Definition Elf32_Word := c_uint32.
Definition Elf32_Sword := c_int32.
Definition Elf64_Addr := c_uint64.
Definition Elf64_Off := c_uint64.
Definition Elf64_Half := c_uint16.
Definition Elf64_Word := c_uint32.
Definition Elf64_Sword := c_int32.
Definition Elf64_Xword := c_uint64.
Definition Elf64_Sxword := c_int64.

(** The class of the file: [self.bitness]. *)
Inductive elf_class := Class32 | Class64.

Definition bitness_of (c : elf_class) : Z := match c with Class32 => 32 | Class64 => 64 end.
Definition Elf_Addr (c : elf_class) : ctype :=
  match c with Class32 => Elf32_Addr | Class64 => Elf64_Addr end.

Local Open Scope string_scope.

Definition EI_NIDENT : nat := 16.

(** The two views of the union [d_un] have the same type. *)
Definition Elf32_Ehdr : fields :=
  [("e_ident", c_uint8_array EI_NIDENT); ("e_type", Elf32_Half); ("e_machine", Elf32_Half);
   ("e_version", Elf32_Word); ("e_entry", Elf32_Addr); ("e_phoff", Elf32_Off);
   ("e_shoff", Elf32_Off); ("e_flags", Elf32_Word); ("e_ehsize", Elf32_Half);
   ("e_phentsize", Elf32_Half); ("e_phnum", Elf32_Half); ("e_shentsize", Elf32_Half);
   ("e_shnum", Elf32_Half); ("e_shstrndx", Elf32_Half)].
Definition Elf64_Ehdr : fields :=
  [("e_ident", c_uint8_array EI_NIDENT); ("e_type", Elf64_Half); ("e_machine", Elf64_Half);
   ("e_version", Elf64_Word); ("e_entry", Elf64_Addr); ("e_phoff", Elf64_Off);
   ("e_shoff", Elf64_Off); ("e_flags", Elf64_Word); ("e_ehsize", Elf64_Half);
   ("e_phentsize", Elf64_Half); ("e_phnum", Elf64_Half); ("e_shentsize", Elf64_Half);
   ("e_shnum", Elf64_Half); ("e_shstrndx", Elf64_Half)].
Definition Elf32_Shdr : fields :=
  [("sh_name", Elf32_Word); ("sh_type", Elf32_Word); ("sh_flags", Elf32_Word);
   ("sh_addr", Elf32_Addr); ("sh_offset", Elf32_Off); ("sh_size", Elf32_Word);
   ("sh_link", Elf32_Word); ("sh_info", Elf32_Word); ("sh_addralign", Elf32_Word);
   ("sh_entsize", Elf32_Word)].
Definition Elf64_Shdr : fields :=
  [("sh_name", Elf64_Word); ("sh_type", Elf64_Word); ("sh_flags", Elf64_Xword);
   ("sh_addr", Elf64_Addr); ("sh_offset", Elf64_Off); ("sh_size", Elf64_Xword);
   ("sh_link", Elf64_Word); ("sh_info", Elf64_Word); ("sh_addralign", Elf64_Xword);
   ("sh_entsize", Elf64_Xword)].
Definition Elf32_Dyn : fields :=
  [("d_tag", Elf32_Sword); ("d_un", Elf32_Word)].
Definition Elf64_Dyn : fields :=
  [("d_tag", Elf64_Sxword); ("d_un", Elf64_Xword)].
Definition Elf32_Sym : fields :=
  [("st_name", Elf32_Word); ("st_value", Elf32_Addr); ("st_size", Elf32_Word);
   ("st_info", c_uint8); ("st_other", c_uint8); ("st_shndx", Elf32_Half)].
Definition Elf64_Sym : fields :=
  [("st_name", Elf64_Word); ("st_info", c_uint8); ("st_other", c_uint8);
   ("st_shndx", Elf64_Half); ("st_value", Elf64_Addr); ("st_size", Elf64_Xword)].
Definition Elf32_Rel : fields :=
  [("r_offset", Elf32_Addr); ("r_info", Elf32_Word)].
Definition Elf32_Rela : fields :=
  [("r_offset", Elf32_Addr); ("r_info", Elf32_Word); ("r_addend", Elf32_Sword)].
Definition Elf64_Rel : fields :=
  [("r_offset", Elf64_Addr); ("r_info", Elf64_Xword)].
Definition Elf64_Rela : fields :=
  [("r_offset", Elf64_Addr); ("r_info", Elf64_Xword); ("r_addend", Elf64_Sxword)].
Definition Elf32_Phdr : fields :=
  [("p_type", Elf32_Word); ("p_offset", Elf32_Off); ("p_vaddr", Elf32_Addr);
   ("p_paddr", Elf32_Addr); ("p_filesz", Elf32_Word); ("p_memsz", Elf32_Word);
   ("p_flags", Elf32_Word); ("p_align", Elf32_Word)].
Definition Elf64_Phdr : fields :=
  [("p_type", Elf64_Word); ("p_flags", Elf64_Word); ("p_offset", Elf64_Off);
   ("p_vaddr", Elf64_Addr); ("p_paddr", Elf64_Addr); ("p_filesz", Elf64_Xword);
   ("p_memsz", Elf64_Xword); ("p_align", Elf64_Xword)].
Definition Elf32_Nhdr : fields :=
  [("n_namesz", Elf32_Word); ("n_descsz", Elf32_Word); ("n_type", Elf32_Word)].
Definition Elf64_Nhdr : fields :=
  [("n_namesz", Elf64_Word); ("n_descsz", Elf64_Word); ("n_type", Elf64_Word)].

(** ** Objects

    An instance of a structure class is a block of memory; reading and assigning
    an attribute goes through the layout. *)
Record cobject := mk_obj { o_class : fields; o_raw : pystr }.

Definition attr (o : cobject) (name : string) : Z := field (o_class o) (o_raw o) name.

Definition field_set (fs : fields) (raw : pystr) (name : string) (v : Z) : pystr :=
  match assoc name (layout 0 fs) with
  | Some (o, t) => take o raw ++ c_encode t v ++ drop (o + csize t) raw
  | None => raw
  end.
Definition set_attr (name : string) (v : Z) (o : cobject) : cobject :=
  mk_obj (o_class o) (field_set (o_class o) (o_raw o) name v).

(** [cls(name=value, ...)]: fields that are not named are zero. *)
Definition new_object (cls : fields) (init : list (string * Z)) : cobject :=
  mk_obj cls (struct_bytes cls (fun name => default 0%Z (assoc name init))).

(** [cls.from_buffer_copy(raw)] *)
Definition from_buffer_copy (cls : fields) (raw : pystr) : pyres cobject :=
  if (length raw <? sizeof cls)%nat then Raise ValueError
  else Ok (mk_obj cls (take (sizeof cls) raw)).

Definition Elf_Ehdr (c : elf_class) := match c with Class32 => Elf32_Ehdr | Class64 => Elf64_Ehdr end.
Definition Elf_Shdr (c : elf_class) := match c with Class32 => Elf32_Shdr | Class64 => Elf64_Shdr end.
Definition Elf_Dyn (c : elf_class) := match c with Class32 => Elf32_Dyn | Class64 => Elf64_Dyn end.
Definition Elf_Sym (c : elf_class) := match c with Class32 => Elf32_Sym | Class64 => Elf64_Sym end.
Definition Elf_Rel (c : elf_class) := match c with Class32 => Elf32_Rel | Class64 => Elf64_Rel end.
Definition Elf_Rela (c : elf_class) := match c with Class32 => Elf32_Rela | Class64 => Elf64_Rela end.
Definition Elf_Phdr (c : elf_class) := match c with Class32 => Elf32_Phdr | Class64 => Elf64_Phdr end.
Definition Elf_Nhdr (c : elf_class) := match c with Class32 => Elf32_Nhdr | Class64 => Elf64_Nhdr end.

(** *** [_Sym] *)
Definition GetBinding (sym : cobject) : Z := Z.shiftr (attr sym "st_info") 4.
Definition Sym_GetType (sym : cobject) : Z := Z.land (attr sym "st_info") 0xf.
Definition SetBindingAndType (binding type_ : Z) (sym : cobject) : cobject :=
  set_attr "st_info" (Z.lor (Z.shiftl binding 4) (Z.land type_ 0xf)) sym.

(** *** [_32_Rel] and [_64_Rel]: the width of the type differs. *)
Definition type_bits (c : elf_class) : Z := match c with Class32 => 8 | Class64 => 32 end.
Definition type_mask (c : elf_class) : Z :=
  match c with Class32 => 0xff | Class64 => 0xffffffff end.

Definition GetSymbol_idx (c : elf_class) (rel : cobject) : Z :=
  Z.shiftr (attr rel "r_info") (type_bits c).
Definition Rel_GetType (c : elf_class) (rel : cobject) : Z :=
  Z.land (attr rel "r_info") (type_mask c).
Definition SetSymbolAndType (c : elf_class) (symndx type_ : Z) (rel : cobject) : cobject :=
  set_attr "r_info" (Z.lor (Z.shiftl symndx (type_bits c)) (Z.land type_ (type_mask c))) rel.
Definition SetSymbol (c : elf_class) (symndx : Z) (rel : cobject) : cobject :=
  SetSymbolAndType c symndx (Rel_GetType c rel) rel.
Definition Rel_SetType (c : elf_class) (type_ : Z) (rel : cobject) : cobject :=
  SetSymbolAndType c (GetSymbol_idx c rel) type_ rel.

(** ** Attributes are independent *)
Lemma layout_ge name fs off o t : assoc name (layout off fs) = Some (o, t) -> (off <= o)%nat.
Proof.
  revert off. induction fs as [|[n t'] fs IH]; intros off; [done|]. simpl.
  pose proof (align_up_ge off (calign t') (calign_pos' t')).
  destruct (String.eqb n name); [by intros [= <- <-]|]. intros Hin%IH. lia.
Qed.

Lemma layout_end name fs off o t :
  assoc name (layout off fs) = Some (o, t) -> (o + csize t <= end_offset off fs)%nat.
Proof.
  revert off. induction fs as [|[n t'] fs IH]; intros off; [done|]. simpl.
  destruct (String.eqb n name); [|apply IH]. intros [= <- <-].
  apply (length_encode_from _ fs (fun _ => 0%Z)).
Qed.

Lemma layout_disjoint n1 n2 fs off o1 t1 o2 t2 :
  n1 <> n2 -> assoc n1 (layout off fs) = Some (o1, t1) -> assoc n2 (layout off fs) = Some (o2, t2) ->
  (o1 + csize t1 <= o2 \/ o2 + csize t2 <= o1)%nat.
Proof.
  intros Hne. revert off. induction fs as [|[n t] fs IH]; intros off; [done|]. simpl.
  destruct (String.eqb_spec n n1) as [H1|H1], (String.eqb_spec n n2) as [H2|H2];
    [congruence| | |apply IH].
  - intros [= <- <-] H%layout_ge. by left.
  - intros H%layout_ge [= <- <-]. by right.
Qed.

Definition well_sized (o : cobject) : Prop := (end_offset 0 (o_class o) <= length (o_raw o))%nat.

Lemma attr_set_eq name v o off t :
  well_sized o -> assoc name (layout 0 (o_class o)) = Some (off, t) ->
  attr (set_attr name v o) name = c_wrap t v.
Proof.
  unfold attr, set_attr, field, field_set. simpl. intros Hw Hin. rewrite Hin.
  apply layout_end in Hin. unfold well_sized in Hw.
  rewrite drop_app_length' by (rewrite length_take; lia).
  by rewrite take_app_length' by (unfold c_encode; by rewrite length_le_encode).
Qed.

Lemma take_drop_update (o1 o2 n2 : nat) (raw new : pystr) (m : nat) :
  (o2 + m <= length raw)%nat -> length new = m ->
  (o1 + n2 <= o2 \/ o2 + m <= o1)%nat ->
  take n2 (drop o1 (take o2 raw ++ new ++ drop (o2 + m) raw)) = take n2 (drop o1 raw).
Proof.
  intros Hlen Hnew [Hlt|Hge].
  - rewrite drop_app_le by (rewrite length_take; lia).
    rewrite take_app_le by (rewrite length_drop, length_take; lia).
    rewrite <- (take_drop o2 raw) at 2. rewrite drop_app_le by (rewrite length_take; lia).
    by rewrite take_app_le by (rewrite length_drop, length_take; lia).
  - rewrite app_assoc, drop_app_ge by (rewrite length_app, length_take; lia).
    rewrite drop_drop. do 2 f_equal. rewrite length_app, length_take. lia.
Qed.

Lemma attr_set_ne name name' v o :
  well_sized o -> name <> name' -> attr (set_attr name v o) name' = attr o name'.
Proof.
  unfold attr, set_attr, field, field_set. simpl. intros Hw Hne.
  destruct (assoc name (layout 0 (o_class o))) as [[o1 t1]|] eqn:H1; [|done].
  destruct (assoc name' (layout 0 (o_class o))) as [[o2 t2]|] eqn:H2; [|done].
  f_equal. pose proof (layout_disjoint _ _ _ _ _ _ _ _ Hne H1 H2).
  apply layout_end in H1, H2. unfold well_sized in Hw.
  apply take_drop_update; [lia|unfold c_encode; by rewrite length_le_encode|lia].
Qed.

Lemma new_object_attr cls init name off t :
  assoc name (layout 0 cls) = Some (off, t) -> c_range t (default 0%Z (assoc name init)) ->
  attr (new_object cls init) name = default 0%Z (assoc name init).
Proof.
  intros Hin Hr. unfold attr, new_object. simpl.
  rewrite <- (app_nil_r (struct_bytes cls _)).
  exact (field_struct_bytes cls (fun n => default 0%Z (assoc n init)) name off t [] Hin Hr).
Qed.

Lemma c_wrap_range t z : c_range t z -> c_wrap t z = z.
Proof. apply c_decode_encode. Qed.

(** ** Packed fields *)
Lemma packed_range k b x m :
  (0 <= k)%Z -> (0 <= x < 2 ^ m)%Z -> (0 <= b < 2 ^ k)%Z ->
  (0 <= Z.lor (Z.shiftl x k) b < 2 ^ (m + k))%Z.
Proof.
  intros Hk Hx Hb.
  rewrite Z.lor_comm, lor_shiftl_add by done.
  assert (0 <= m)%Z by (destruct (Z.le_gt_cases 0 m); [done|]; rewrite Z.pow_neg_r in Hx; lia).
  rewrite Z.pow_add_r by lia. nia.
Qed.

Lemma unpack_high k b x :
  (0 <= k)%Z -> (0 <= b < 2 ^ k)%Z -> Z.shiftr (Z.lor (Z.shiftl x k) b) k = x.
Proof.
  intros Hk Hb. rewrite Z.shiftr_lor, Z.shiftr_shiftl_l, Z.sub_diag, Z.shiftl_0_r by done.
  rewrite (Z.shiftr_div_pow2 b), Z.div_small by done. apply Z.lor_0_r.
Qed.

Lemma unpack_low k b x :
  (0 <= k)%Z -> (0 <= b < 2 ^ k)%Z -> Z.land (Z.lor (Z.shiftl x k) b) (Z.ones k) = b.
Proof.
  intros Hk Hb. rewrite Z.land_lor_distr_l, !Z.land_ones by done.
  rewrite Z.shiftl_mul_pow2, Z.mod_mul, Z.lor_0_l by lia. by apply Z.mod_small.
Qed.

Lemma land_ones_range z k : (0 <= k)%Z -> (0 <= Z.land z (Z.ones k) < 2 ^ k)%Z.
Proof. intros Hk. rewrite Z.land_ones by done. apply Z.mod_pos_bound, Z.pow_pos_nonneg; lia. Qed.

Lemma type_mask_ones c : type_mask c = Z.ones (type_bits c).
Proof. by destruct c. Qed.

(** Every structure has the size the ELF specification gives it, and none
    has padding. *)
Theorem elf_struct_sizes :
  (sizeof <$> [Elf32_Ehdr; Elf32_Shdr; Elf32_Dyn; Elf32_Sym; Elf32_Rel; Elf32_Rela; Elf32_Phdr;
     Elf32_Nhdr] = [52; 40; 8; 16; 8; 12; 32; 12]) /\
  (sizeof <$> [Elf64_Ehdr; Elf64_Shdr; Elf64_Dyn; Elf64_Sym; Elf64_Rel; Elf64_Rela; Elf64_Phdr;
     Elf64_Nhdr] = [64; 64; 16; 24; 16; 24; 56; 12]) /\
  (forall cls, cls ∈ [Elf32_Ehdr; Elf32_Shdr; Elf32_Dyn; Elf32_Sym; Elf32_Rel; Elf32_Rela;
     Elf32_Phdr; Elf32_Nhdr; Elf64_Ehdr; Elf64_Shdr; Elf64_Dyn; Elf64_Sym; Elf64_Rel; Elf64_Rela;
     Elf64_Phdr; Elf64_Nhdr] ->
   sizeof cls = foldr Nat.add 0 ((fun f => csize f.2) <$> cls)).
Proof.
  split; [vm_compute; reflexivity|]. split; [vm_compute; reflexivity|].
  intros cls Hin. repeat (apply elem_of_cons in Hin as [->|Hin]; [vm_compute; reflexivity|]).
  by apply not_elem_of_nil in Hin.
Qed.

(** Reading a structure from memory that holds it, whatever follows, gives
    every field its value. *)
Theorem from_buffer_copy_fields cls get rest name off t :
  assoc name (layout 0 cls) = Some (off, t) -> c_range t (get name) ->
  exists o, from_buffer_copy cls (struct_bytes cls get ++ rest) = Ok o /\
    attr o name = get name.
Proof.
  intros Hin Hr. unfold from_buffer_copy.
  rewrite (proj2 (Nat.ltb_ge _ _)) by (rewrite length_app, length_struct_bytes; lia).
  eexists. split; [done|].
  rewrite take_app_length' by (by rewrite length_struct_bytes). unfold attr. simpl.
  rewrite <- (app_nil_r (struct_bytes cls get)). by eapply field_struct_bytes.
Qed.

(** [SetSymbolAndType] packs the two parts of [r_info] so that the getters
    give them back (the type cut to its width), and touches no other field. *)
Theorem SetSymbolAndType_spec c rel symndx type_ :
  o_class rel = Elf_Rel c \/ o_class rel = Elf_Rela c -> well_sized rel ->
  (0 <= symndx < match c with Class32 => 2 ^ 24 | Class64 => 2 ^ 32 end)%Z ->
  let rel' := SetSymbolAndType c symndx type_ rel in
  GetSymbol_idx c rel' = symndx /\ Rel_GetType c rel' = Z.land type_ (type_mask c) /\
  forall name, name <> "r_info" -> attr rel' name = attr rel name.
Proof.
  intros Hcls Hw Hsym rel'.
  pose proof (land_ones_range type_ (type_bits c) ltac:(by destruct c)) as Hty.
  rewrite <- type_mask_ones in Hty.
  assert (attr rel' "r_info" = Z.lor (Z.shiftl symndx (type_bits c)) (Z.land type_ (type_mask c)))
    as Hinfo.
  { assert (exists off, assoc "r_info" (layout 0 (o_class rel)) = Some (off, Elf_Addr c))
      as [off Hoff] by (destruct Hcls as [-> | ->]; destruct c; by eexists).
    unfold rel', SetSymbolAndType. erewrite attr_set_eq by done. apply c_wrap_range.
    pose proof (packed_range (type_bits c) _ _ (match c with Class32 => 24 | Class64 => 32 end)
      ltac:(by destruct c) ltac:(destruct c; exact Hsym) Hty) as Hr.
    by destruct c. }
  unfold GetSymbol_idx, Rel_GetType. rewrite Hinfo. split_and!.
  - apply unpack_high; [by destruct c|done].
  - rewrite (type_mask_ones c) at 2. apply unpack_low; [by destruct c|done].
  - intros name Hne. by apply attr_set_ne.
Qed.

(** [SetBindingAndType] packs [st_info] so that the getters give the binding
    and the type back, and touches no other field. *)
Theorem SetBindingAndType_spec c sym binding type_ :
  o_class sym = Elf_Sym c -> well_sized sym -> (0 <= binding < 2 ^ 4)%Z ->
  let sym' := SetBindingAndType binding type_ sym in
  GetBinding sym' = binding /\ Sym_GetType sym' = Z.land type_ 0xf /\
  forall name, name <> "st_info" -> attr sym' name = attr sym name.
Proof.
  intros Hcls Hw Hb sym'. pose proof (land_ones_range type_ 4 ltac:(lia)) as Hty.
  change (Z.ones 4) with 0xf%Z in Hty.
  assert (attr sym' "st_info" = Z.lor (Z.shiftl binding 4) (Z.land type_ 0xf)) as Hinfo.
  { assert (exists off, assoc "st_info" (layout 0 (o_class sym)) = Some (off, c_uint8))
      as [off Hoff] by (rewrite Hcls; destruct c; by eexists).
    unfold sym', SetBindingAndType. erewrite attr_set_eq by done. apply c_wrap_range.
    by apply (packed_range 4 _ _ 4). }
  unfold GetBinding, Sym_GetType. rewrite Hinfo. split_and!.
  - by apply unpack_high.
  - by apply (unpack_low 4).
  - intros name Hne. by apply attr_set_ne.
Qed.

(** ** Concrete objects *)
Definition sample_rela : cobject :=
  new_object Elf64_Rela [("r_offset", 4096); ("r_info", 1); ("r_addend", -8)]%Z.
Definition sample_symbol : cobject :=
  new_object Elf64_Sym [("st_name", 5); ("st_info", 0x12); ("st_shndx", 3); ("st_value", 4096)]%Z.

Lemma from_buffer_copy_fields_witness :
  c_range c_int64 (-8) /\
  exists o, from_buffer_copy Elf64_Rela
      (struct_bytes Elf64_Rela (fun n => if String.eqb n "r_addend" then -8 else 7)%Z ++ [Byte.x01])
      = Ok o /\ attr o "r_addend" = (-8)%Z.
Proof.
  split; [split; simpl; lia|].
  apply (from_buffer_copy_fields Elf64_Rela
    (fun n => if String.eqb n "r_addend" then -8 else 7)%Z [Byte.x01] "r_addend" 16 c_int64);
    [reflexivity|split; simpl; lia].
Defined.

Lemma SetSymbolAndType_spec_witness :
  GetSymbol_idx Class64 (SetSymbolAndType Class64 9 0x101 sample_rela) = 9%Z /\
  Rel_GetType Class64 (SetSymbolAndType Class64 9 0x101 sample_rela) = 0x101%Z /\
  forall name, name <> "r_info" ->
    attr (SetSymbolAndType Class64 9 0x101 sample_rela) name = attr sample_rela name.
Proof.
  apply (SetSymbolAndType_spec Class64 sample_rela 9 0x101);
    [right; reflexivity|vm_compute; lia|lia].
Defined.

Lemma SetBindingAndType_spec_witness :
  GetBinding (SetBindingAndType 2 1 sample_symbol) = 2%Z /\
  Sym_GetType (SetBindingAndType 2 1 sample_symbol) = 1%Z /\
  forall name, name <> "st_info" ->
    attr (SetBindingAndType 2 1 sample_symbol) name = attr sample_symbol name.
Proof.
  apply (SetBindingAndType_spec Class64 sample_symbol 2 1); [reflexivity|vm_compute; lia|lia].
Defined.

(** ** Constants ([consts.py]) *)
Definition ELF_MAGIC_NUMBER : pystr := Byte.x7f :: bs "ELF".
Definition SYMTAB : pystr := bs ".symtab".
Definition STRTAB : pystr := bs ".strtab".
Definition DYNSYM : pystr := bs ".dynsym".
Definition DYNSTR : pystr := bs ".dynstr".

Definition EI_CLASS : Z := 4.
Definition EI_DATA : Z := 5.
Definition ELFCLASS32 : Z := 1.
Definition ELFCLASS64 : Z := 2.
Definition ELFDATA2LSB : Z := 1.
Definition ET_EXEC : Z := 2.
Definition ET_DYN : Z := 3.
Definition EM_386 : Z := 3.
Definition EM_X86_64 : Z := 62.
Definition EM_MIPS : Z := 8.
Definition EM_ARM : Z := 40.
Definition EM_AARCH64 : Z := 183.
Definition R_ARM_ABS32 : Z := 0x02.
Definition R_ARM_RELATIVE : Z := 0x17.
Definition R_AARCH64_ABS64 : Z := 0x101.
Definition R_AARCH64_RELATIVE : Z := 0x403.
Definition R_386_32 : Z := 1.
Definition R_386_RELATIVE : Z := 8.
Definition R_X86_64_64 : Z := 1.
Definition R_X86_64_RELATIVE : Z := 8.
Definition SHT_RELA : Z := 4.
Definition SHT_DYNAMIC : Z := 6.
Definition SHT_NOBITS : Z := 8.
Definition SHT_REL : Z := 9.
Definition SHT_RELR : Z := 19.
Definition SHT_LOOS : Z := 0x60000000.
Definition SHT_ANDROID_REL : Z := SHT_LOOS + 1.
Definition SHT_ANDROID_RELA : Z := SHT_LOOS + 2.
Definition SHT_ANDROID_RELR : Z := SHT_LOOS + 0xfffff00.
Definition RELOCATION_GROUPED_BY_INFO_FLAG : Z := 1.
Definition RELOCATION_GROUPED_BY_OFFSET_DELTA_FLAG : Z := 2.
Definition RELOCATION_GROUPED_BY_ADDEND_FLAG : Z := 4.
Definition RELOCATION_GROUP_HAS_ADDEND_FLAG : Z := 8.
Definition SHN_UNDEF : Z := 0.
Definition STB_GLOBAL : Z := 1.
Definition STB_WEAK : Z := 2.
Definition STT_NOTYPE : Z := 0.
Definition STT_OBJECT : Z := 1.
Definition STT_FUNC : Z := 2.
Definition PT_INTERP : Z := 3.
Definition DT_NULL : Z := 0.
Definition DT_NEEDED : Z := 1.
Definition DT_STRTAB : Z := 5.

(** ** Signed LEB128 ([utils.py]) *)
Close Scope string_scope.
Local Open Scope Z_scope.

(** The loop: the value so far, its width, the last byte and the position after
    it.  Every turn moves [cur] one to the right, so twice the length is enough
    even from a negative position. *)
Fixpoint sleb_loop (fuel : nat) (data : pystr) (cur value shift : Z)
    : pyres (Z * Z * Z * Z) :=
  match fuel with
  | O => Raise IndexError
  | S fuel =>
      c ← py_get data cur;
      let byte := byteZ c in
      let cur := cur + 1 in
      let value := Z.lor value (Z.shiftl (Z.land byte 0x7F) shift) in
      let shift := shift + 7 in
      if Z.land byte 0x80 =? 0 then Ok (value, shift, byte, cur)
      else sleb_loop fuel data cur value shift
  end.

Definition DecodeSLEB128 (data : pystr) (begin_offset : Z) : pyres (Z * Z) :=
  '(value, shift, byte, cur) ← sleb_loop (S (2 * length data)) data begin_offset 0 0;
  let value := if Z.land byte 0x40 =? 0 then value else Z.lor value (Z.shiftl (-1) shift) in
  Ok (value, cur - begin_offset).

(** ** The format

    Seven bits a byte, least significant first; the top bit of a byte says that
    more follow, bit 6 of the last one is the sign.  Padded encodings are
    allowed. *)
Inductive sleb128_of : Z -> pystr -> Prop :=
  | sleb_last z : - 64 <= z < 64 -> sleb128_of z [Zbyte (z mod 128)]
  | sleb_more z l : sleb128_of (z / 128) l -> sleb128_of z (Zbyte (128 + z mod 128) :: l).

(** The shortest encoding. *)
Fixpoint sleb_bytes (fuel : nat) (z : Z) : pystr :=
  match fuel with
  | O => [Zbyte (z mod 128)]
  | S fuel =>
      if (-64 <=? z) && (z <? 64) then [Zbyte (z mod 128)]
      else Zbyte (128 + z mod 128) :: sleb_bytes fuel (z / 128)
  end.
Definition EncodeSLEB128 (z : Z) : pystr := sleb_bytes (S (Z.to_nat (Z.log2 (Z.abs z)))) z.

Lemma sleb_bytes_of fuel z :
  - 64 * 128 ^ Z.of_nat fuel <= z < 64 * 128 ^ Z.of_nat fuel -> sleb128_of z (sleb_bytes fuel z).
Proof.
  revert z. induction fuel as [|fuel IH]; intros z Hz; simpl.
  - apply sleb_last. change (128 ^ Z.of_nat 0) with 1 in Hz. lia.
  - rewrite Nat2Z.inj_succ, Z.pow_succ_r in Hz by lia.
    assert (Hmore : sleb128_of z (Zbyte (128 + z mod 128) :: sleb_bytes fuel (z / 128))).
    { apply sleb_more, IH. split; [apply Z.div_le_lower_bound|apply Z.div_lt_upper_bound]; lia. }
    destruct (Z.leb_spec (-64) z), (Z.ltb_spec z 64); simpl; [apply sleb_last; lia|done..].
Qed.

Lemma EncodeSLEB128_of z : sleb128_of z (EncodeSLEB128 z).
Proof.
  apply sleb_bytes_of. rewrite Nat2Z.inj_succ, Z2Nat.id by apply Z.log2_nonneg.
  pose proof (Z.log2_nonneg (Z.abs z)) as Hn. set (k := Z.log2 (Z.abs z)) in *.
  assert (Z.abs z < 2 ^ Z.succ k) as Hlt.
  { destruct (Z.eq_dec z 0) as [->|]; [apply Z.pow_pos_nonneg; lia|].
    apply Z.log2_spec. lia. }
  assert (2 ^ Z.succ k <= 128 ^ Z.succ k) by (apply Z.pow_le_mono_l; lia). lia.
Qed.

(** ** Decoding *)
Lemma sleb_byte b m : 0 <= b < 256 -> b mod 128 = m ->
  Z.land b 0x7F = m /\ (Z.land b 0x80 =? 0) = (b <? 128).
Proof.
  intros Hb <-. split; [by change 0x7F with (Z.ones 7); rewrite Z.land_ones|].
  assert (Hall : forallb (fun n => Bool.eqb (Z.land (Z.of_nat n) 0x80 =? 0) (Z.of_nat n <? 128))
    (seq 0 256) = true) by (vm_compute; reflexivity).
  rewrite forallb_forall in Hall. specialize (Hall (Z.to_nat b)).
  rewrite Z2Nat.id in Hall by lia. apply eqb_prop, Hall, in_seq. lia.
Qed.

Lemma sign_bit b : 0 <= b < 128 -> (Z.land b 0x40 =? 0) = (b <? 64).
Proof.
  intros Hb.
  assert (Hall : forallb (fun n => Bool.eqb (Z.land (Z.of_nat n) 0x40 =? 0) (Z.of_nat n <? 64))
    (seq 0 128) = true) by (vm_compute; reflexivity).
  rewrite forallb_forall in Hall. specialize (Hall (Z.to_nat b)).
  rewrite Z2Nat.id in Hall by lia. apply eqb_prop, Hall, in_seq. lia.
Qed.

(** The sign extension [DecodeSLEB128] applies at the end. *)
Definition sign_extend (value shift byte : Z) : Z :=
  if Z.land byte 0x40 =? 0 then value else Z.lor value (Z.shiftl (-1) shift).

Lemma sleb_loop_of z l pre rest fuel value shift :
  sleb128_of z l -> (length l <= fuel)%nat -> 0 <= shift -> 0 <= value < 2 ^ shift ->
  exists v s b, sleb_loop fuel (pre ++ l ++ rest) (Z.of_nat (length pre)) value shift
      = Ok (v, s, b, Z.of_nat (length pre + length l)) /\
    sign_extend v s b = value + z * 2 ^ shift.
Proof.
  intros Hl. revert pre fuel value shift.
  induction Hl as [z Hz|z l Hl IH]; intros pre fuel value shift Hf Hs Hv;
    (destruct fuel as [|fuel]; [simpl in Hf; lia|]); cbn [sleb_loop];
    cbn [app]; rewrite py_get_nat, list_lookup_middle by done; cbn [from_opt mbind pyres_bind];
    rewrite byteZ_Zbyte; pose proof (Z.mod_pos_bound z 128 ltac:(lia)) as Hm.
  - rewrite (Z.mod_small (z mod 128)) by lia.
    destruct (sleb_byte (z mod 128) (z mod 128)) as [-> ->]; [lia|by rewrite Z.mod_mod|].
    rewrite (proj2 (Z.ltb_lt _ _)) by lia. do 3 eexists. split; [do 2 f_equal; simpl; lia|].
    unfold sign_extend. rewrite lor_shiftl_add, sign_bit by lia.
    assert (Hpow : 2 ^ (shift + 7) = 2 ^ shift * 128) by (rewrite Z.pow_add_r; lia).
    destruct (Z.ltb_spec (z mod 128) 64).
    + f_equal. f_equal. Z.to_euclidean_division_equations; lia.
    + rewrite lor_shiftl_add, Hpow; [|lia|nia].
      assert (z mod 128 = z + 128) as -> by (Z.to_euclidean_division_equations; lia). lia.
  - rewrite (Z.mod_small (128 + z mod 128)) by lia.
    destruct (sleb_byte (128 + z mod 128) (z mod 128)) as [-> ->]; [lia| |].
    { rewrite <- (Z.mod_add _ (-1)) by lia.
      replace (128 + z mod 128 + -1 * 128) with (z mod 128) by lia. by rewrite Z.mod_mod. }
    rewrite (proj2 (Z.ltb_ge _ _)) by lia.
    assert (Hpow : 2 ^ (shift + 7) = 2 ^ shift * 128) by (rewrite Z.pow_add_r; lia).
    destruct (IH (pre ++ [Zbyte (128 + z mod 128)]) fuel
      (Z.lor value (Z.shiftl (z mod 128) shift)) (shift + 7)) as (v & s & b & Hrun & Hsign).
    { simpl in Hf. lia. }
    { lia. }
    { rewrite lor_shiftl_add, Hpow by lia. nia. }
    exists v, s, b. rewrite <- app_assoc, length_app in Hrun. simpl in Hrun.
    replace (Z.of_nat (length pre) + 1) with (Z.of_nat (length pre + 1)) by lia.
    simpl. rewrite Hrun. split; [do 3 f_equal; lia|].
    rewrite Hsign, lor_shiftl_add, Hpow by lia.
    pose proof (Z.div_mod z 128 ltac:(lia)). nia.
Qed.

Lemma DecodeSLEB128_of z l pre rest :
  sleb128_of z l ->
  DecodeSLEB128 (pre ++ l ++ rest) (Z.of_nat (length pre)) = Ok (z, Z.of_nat (length l)).
Proof.
  intros Hl. unfold DecodeSLEB128.
  destruct (sleb_loop_of z l pre rest (S (2 * length (pre ++ l ++ rest))) 0 0 Hl)
    as (v & s & b & -> & Hsign); [rewrite !length_app; lia|lia|lia|].
  cbn [mbind pyres_bind]. unfold sign_extend in Hsign. rewrite Hsign.
  do 2 f_equal; [lia|]. rewrite Nat2Z.inj_add. lia.
Qed.

(** [DecodeSLEB128] inverts every SLEB128 encoding (the shortest and the
    padded ones) of every integer, wherever it stands in the data, and tells
    how many bytes it took. *)
Theorem DecodeSLEB128_roundtrip z l pre rest :
  sleb128_of z l ->
  DecodeSLEB128 (pre ++ l ++ rest) (Z.of_nat (length pre)) = Ok (z, Z.of_nat (length l)).
Proof. apply DecodeSLEB128_of. Qed.

Lemma DecodeSLEB128_roundtrip_witness :
  EncodeSLEB128 (-12345) = [Byte.xc7; Byte.x9f; Byte.x7f] /\
  DecodeSLEB128 ([Byte.x01] ++ EncodeSLEB128 (-12345) ++ [Byte.x80]) 1 = Ok (-12345, 3).
Proof.
  split; [vm_compute; reflexivity|].
  apply (DecodeSLEB128_roundtrip (-12345) (EncodeSLEB128 (-12345)) [Byte.x01] [Byte.x80]).
  apply EncodeSLEB128_of.
Defined.
