(* ===== verification/ElfParser.v ===== *)
(** * The ELF parser

    utils/python/library/elf_parser.py: [ElfParser].  The file object is the
    contents of the file; the parser never writes, so its methods are functions
    of the parser object.  A read past the end returns what is left, a position
    below zero is an [IOError] and one past 2^63 an [OverflowError], as in
    Python 2 on Linux. *)

From Stdlib Require Import Strings.Byte.
From S2P Require Import Prelude PyStr ElfStructs.

Local Open Scope Z_scope.

(** ** Reading the file *)
Record elf_file := mk_file {
  ef_content : pystr;
  ef_begin : Z;        (* self._begin_offset *)
}.

Definition file_size (f : elf_file) : Z := Z.of_nat (length (ef_content f)).

(** [self._file.seek(pos)]: what the next reads see. *)
Definition file_seek (content : pystr) (pos : Z) : pyres pystr :=
  if pos <? 0 then Raise IOError
  else if 2 ^ 63 <=? pos then Raise OverflowError
  else Ok (drop (Z.to_nat (Z.min pos (Z.of_nat (length content)))) content).

(** The size check does not take [_begin_offset] into account. *)
Definition SeekRead (f : elf_file) (offset read_size : Z) : pyres pystr :=
  if file_size f <? offset + read_size then Raise ElfError
  else match file_seek (ef_content f) (ef_begin f + offset) with
       | Ok rest => Ok (take (Z.to_nat read_size) rest)
       | Raise IOError => Raise ElfError
       | Raise e => Raise e
       end.

Definition SeekReadUint (n : nat) (f : elf_file) (offset : Z) : pyres Z :=
  raw ← SeekRead f offset (Z.of_nat n); unpack_uint Little n raw.
Definition SeekRead8 := SeekReadUint 1.
Definition SeekRead16 := SeekReadUint 2.
Definition SeekRead32 := SeekReadUint 4.
Definition SeekRead64 := SeekReadUint 8.

(** The loop of [_SeekReadString]: [rest] is the file from its position on. *)
Fixpoint read_string_loop (fuel : nat) (rest ret : pystr) : pyres pystr :=
  match fuel with
  | O => Raise ElfError
  | S fuel =>
      let buf := take 16 rest in
      match find_sub [Byte.x00] buf with
      | Some end_index => Ok (ret ++ take end_index buf)
      | None =>
          if (length buf =? 16)%nat then read_string_loop fuel (drop 16 rest) (ret ++ buf)
          else Raise ElfError
      end
  end.

Definition SeekReadString (f : elf_file) (offset : Z) : pyres pystr :=
  rest ← file_seek (ef_content f) (ef_begin f + offset);
  read_string_loop (S (length rest)) rest [].

Definition SeekReadStruct (f : elf_file) (offset : Z) (cls : fields) : pyres cobject :=
  raw_bytes ← SeekRead f offset (Z.of_nat (sizeof cls));
  match from_buffer_copy cls raw_bytes with
  | Raise ValueError => Raise ElfError
  | r => r
  end.

(** ** The parser object *)
Record ElfParser := mk_elf {
  ep_file : elf_file;
  ep_class : elf_class;       (* self.bitness and the self.Elf_* classes *)
  ep_Ehdr : cobject;
  ep_Shdr : list cobject;
}.

Definition check_ident (e_ident : pystr) : pyres elf_class :=
  _ ← assert_or (bool_decide (take 4 e_ident = ELF_MAGIC_NUMBER)) ElfError;
  cls ← py_get e_ident EI_CLASS;
  _ ← assert_or ((byteZ cls =? ELFCLASS32) || (byteZ cls =? ELFCLASS64)) ElfError;
  data ← py_get e_ident EI_DATA;
  _ ← assert_or (byteZ data =? ELFDATA2LSB) ElfError;
  Ok (if byteZ cls =? ELFCLASS32 then Class32 else Class64).

Definition new_ElfParser (content : pystr) (begin_offset : Z) : pyres ElfParser :=
  let f := mk_file content begin_offset in
  e_ident ← SeekRead f 0 (Z.of_nat EI_NIDENT);
  c ← check_ident e_ident;
  ehdr ← SeekReadStruct f 0 (Elf_Ehdr c);
  shdr ← mapM_py (fun i => SeekReadStruct f
                     (attr ehdr "e_shoff" + Z.of_nat i * attr ehdr "e_shentsize") (Elf_Shdr c))
           (seq 0 (Z.to_nat (attr ehdr "e_shnum")));
  Ok (mk_elf f c ehdr shdr).

(** [num = int(sh_size // sh_entsize)] *)
Definition table_len (sh : cobject) : pyres nat :=
  if attr sh "sh_entsize" =? 0 then Raise ZeroDivisionError
  else Ok (Z.to_nat (attr sh "sh_size" / attr sh "sh_entsize")).

Section methods.
Context (self : ElfParser).
Let f := ep_file self.
Let c := ep_class self.

Definition GetString (strtab : cobject) (offset : Z) : pyres pystr :=
  SeekReadString f (attr strtab "sh_offset" + offset).

Definition GetSectionName (sh : cobject) : pyres pystr :=
  strtab ← py_get (ep_Shdr self) (attr (ep_Ehdr self) "e_shstrndx");
  GetString strtab (attr sh "sh_name").

Definition has_name (name : pystr) (sh : cobject) : pyres bool :=
  n ← GetSectionName sh; Ok (bool_decide (name = n)).

Definition GetSectionByName (name : pystr) : pyres (option cobject) :=
  find_py (has_name name) (ep_Shdr self).

(** The body of the generator [GetDynamic], from its [n]-th turn. *)
Fixpoint dynamic_loop (n : nat) (off entsize : Z) : gen cobject :=
  match n with
  | O => ([], Ok tt)
  | S n =>
      match SeekReadStruct f off (Elf_Dyn c) with
      | Raise e => ([], Raise e)
      | Ok dyn =>
          if attr dyn "d_tag" =? DT_NULL then ([dyn], Ok tt)
          else let '(l, r) := dynamic_loop n (off + entsize) entsize in (dyn :: l, r)
      end
  end.

Definition GetDynamic (dynamic : cobject) : gen cobject :=
  match table_len dynamic with
  | Raise e => ([], Raise e)
  | Ok num => dynamic_loop num (attr dynamic "sh_offset") (attr dynamic "sh_entsize")
  end.

Definition GetSymbol (symtab : cobject) (idx : Z) : pyres cobject :=
  SeekReadStruct f (attr symtab "sh_offset" + idx * attr symtab "sh_entsize") (Elf_Sym c).

(** The division is done when the generator is made, the reads when it runs. *)
Definition GetSymbols (symtab : cobject) : pyres (gen cobject) :=
  num ← table_len symtab;
  Ok (gen_map (fun i => GetSymbol symtab (Z.of_nat i)) (seq 0 num)).

Definition GetRelocationSymbol (symtab rel : cobject) : pyres cobject :=
  GetSymbol symtab (GetSymbol_idx c rel).

Definition CreateElfRel (offset info : Z) : cobject :=
  new_object (Elf_Rel c) [("r_offset"%string, offset); ("r_info"%string, info)].

Definition addr_size : Z := match c with Class32 => 4 | Class64 => 8 end.

Definition seek_read_entry : Z -> pyres Z :=
  match c with Class32 => SeekRead32 f | Class64 => SeekRead64 f end.

(** The [for bit_idx] loop over the bits from [bit_idx] on: the addresses of the
    set bits and the offset at the end. *)
Fixpoint relr_bits (n : nat) (bit_idx entry rel_offset : Z) : list Z * Z :=
  match n with
  | O => ([], rel_offset)
  | S n =>
      let '(l, o) := relr_bits n (bit_idx + 1) entry (rel_offset + addr_size) in
      if Z.land (Z.shiftr entry bit_idx) 1 =? 0 then (l, o) else (rel_offset :: l, o)
  end.

Definition relr_entry (entsize rel_offset entry : Z) : list Z * Z :=
  if Z.land entry 1 =? 0 then ([entry], entry + addr_size)
  else relr_bits (Z.to_nat (entsize * 8 - 1)) 1 entry rel_offset.

Fixpoint relr_loop (offsets : list Z) (entsize rel_offset : Z) : gen cobject :=
  match offsets with
  | [] => ([], Ok tt)
  | ent_offset :: offsets =>
      match seek_read_entry ent_offset with
      | Raise e => ([], Raise e)
      | Ok entry =>
          let '(l, o) := relr_entry entsize rel_offset entry in
          let '(rest, r) := relr_loop offsets entsize o in
          (((fun a => CreateElfRel a 0) <$> l) ++ rest, r)
      end
  end.

Definition DecodeAndroidRelr (rel : cobject) : gen cobject :=
  match py_range (attr rel "sh_offset") (attr rel "sh_offset" + attr rel "sh_size")
          (attr rel "sh_entsize") with
  | Raise e => ([], Raise e)
  | Ok offsets => relr_loop offsets (attr rel "sh_entsize") 0
  end.

Definition GetRelocation (rel : cobject) (idx : Z) : pyres cobject :=
  SeekReadStruct f (attr rel "sh_offset" + idx * attr rel "sh_entsize")
    (if attr rel "sh_type" =? SHT_RELA then Elf_Rela c else Elf_Rel c).

(** *** [_UnpackAndroidRela]

    The state is the position [cur] of the generator of words. *)
Definition PopWord (data : pystr) : stM Z Z := fun cur =>
  if cur <? Z.of_nat (length data) then
    match DecodeSLEB128 data cur with
    | Ok (value, num) => Ok (value, cur + num)
    | Raise IndexError => Raise ElfError
    | Raise e => Raise e
    end
  else Raise ElfError.

Definition has_flag (flags mask : Z) : bool := negb (Z.land flags mask =? 0).

(** What the loops update: the local variables [offset], [info] and [addend]. *)
Record rela_state := mk_rela { r_offset : Z; r_info : Z; r_addend : Z }.

Definition CreateElfRela (st : rela_state) : cobject :=
  new_object (Elf_Rela c) [("r_offset"%string, r_offset st); ("r_info"%string, r_info st);
                           ("r_addend"%string, r_addend st)].

(** [if b: _PopWord()] *)
Definition pop_if (b : bool) (data : pystr) (otherwise : Z) : stM Z Z :=
  if b then PopWord data else mret otherwise.

Definition read_entry (data : pystr) (flags delta : Z) (st : rela_state) : stM Z rela_state :=
  d ← pop_if (negb (has_flag flags RELOCATION_GROUPED_BY_OFFSET_DELTA_FLAG)) data delta;
  info ← pop_if (negb (has_flag flags RELOCATION_GROUPED_BY_INFO_FLAG)) data (r_info st);
  a ← pop_if (has_flag flags RELOCATION_GROUP_HAS_ADDEND_FLAG
              && negb (has_flag flags RELOCATION_GROUPED_BY_ADDEND_FLAG)) data 0;
  mret (mk_rela (r_offset st + d) info (r_addend st + a)).

Fixpoint group_loop (n : nat) (data : pystr) (flags delta : Z) (st : rela_state)
    : genM cobject Z rela_state :=
  match n with
  | O => mret st
  | S n =>
      st ← gen_lift (read_entry data flags delta st);
      _ ← gen_yield (CreateElfRela st);
      group_loop n data flags delta st
  end.

(** The header of a group: its size, its flags, the delta of its offsets and the
    state it starts from. *)
Definition read_group_header (data : pystr) (st : rela_state) : stM Z (Z * Z * Z * rela_state) :=
  group_size ← PopWord data;
  flags ← PopWord data;
  delta ← pop_if (has_flag flags RELOCATION_GROUPED_BY_OFFSET_DELTA_FLAG) data 0;
  info ← pop_if (has_flag flags RELOCATION_GROUPED_BY_INFO_FLAG) data (r_info st);
  a ← pop_if (has_flag flags RELOCATION_GROUP_HAS_ADDEND_FLAG
              && has_flag flags RELOCATION_GROUPED_BY_ADDEND_FLAG) data 0;
  let addend := if has_flag flags RELOCATION_GROUP_HAS_ADDEND_FLAG then r_addend st + a else 0 in
  mret (group_size, flags, delta, mk_rela (r_offset st) info addend).

(** The outer loop; every turn pops words, so the length of the data is fuel
    enough. *)
Fixpoint groups_loop (fuel : nat) (data : pystr) (total_count current_count : Z) (st : rela_state)
    : genM cobject Z unit :=
  match fuel with
  | O => gen_lift (st_lift (Raise ElfError))
  | S fuel =>
      if current_count <? total_count then
        '(group_size, flags, delta, st) ← gen_lift (read_group_header data st);
        st ← group_loop (Z.to_nat group_size) data flags delta st;
        groups_loop fuel data total_count (current_count + group_size) st
      else mret tt
  end.

Definition unpack_words (data : pystr) : genM cobject Z unit :=
  total_count ← gen_lift (PopWord data);
  offset ← gen_lift (PopWord data);
  groups_loop (S (length data)) data total_count 0 (mk_rela offset 0 0).

Definition UnpackAndroidRela (android_rela : cobject) : gen cobject :=
  match SeekRead f (attr android_rela "sh_offset") (attr android_rela "sh_size") with
  | Raise e => ([], Raise e)
  | Ok data =>
      if (length data <? 4)%nat || negb (bool_decide (take 4 data = bs "APS2"))
      then ([], Raise ElfError)
      else
        match unpack_words data 4 with
        | (l, Ok _) => (l, Ok tt)
        | (l, Raise e) => (l, Raise e)
        end
  end.

(** [Elf_Rel(r_offset=rela.r_offset, r_info=rela.r_info)] *)
Definition rel_of_rela (rela : cobject) : cobject :=
  CreateElfRel (attr rela "r_offset") (attr rela "r_info").

Definition GetRelocations (rel : cobject) : pyres (gen cobject) :=
  let sh_type := attr rel "sh_type" in
  if (sh_type =? SHT_ANDROID_REL) || (sh_type =? SHT_ANDROID_RELA) then
    let '(l, r) := UnpackAndroidRela rel in
    Ok (if sh_type =? SHT_ANDROID_REL then (rel_of_rela <$> l, r) else (l, r))
  else if (sh_type =? SHT_RELR) || (sh_type =? SHT_ANDROID_RELR) then
    Ok (DecodeAndroidRelr rel)
  else
    num ← table_len rel;
    Ok (gen_map (fun i => GetRelocation rel (Z.of_nat i)) (seq 0 num)).

(** *** Dependencies *)

(** The loop over the dynamic array: the address of the string table and the
    offsets of the names. *)
Definition dt_step (acc : option Z * list Z) (dyn : cobject) : pyres (option Z * list Z) :=
  let '(strtab_addr, name_offsets) := acc in
  if attr dyn "d_tag" =? DT_NEEDED then Ok (strtab_addr, name_offsets ++ [attr dyn "d_un"])
  else if attr dyn "d_tag" =? DT_STRTAB then Ok (Some (attr dyn "d_un"), name_offsets)
  else Ok (strtab_addr, name_offsets).

Definition LoadDtNeeded (dynamic : cobject) : pyres (list pystr) :=
  '(strtab_addr, name_offsets) ← gen_fold dt_step (None, []) (GetDynamic dynamic);
  addr ← from_opt ElfError strtab_addr;
  strtab ← from_opt ElfError
    (snd <$> list_find (fun sh => attr sh "sh_addr" = addr) (ep_Shdr self));
  mapM_py (GetString strtab) name_offsets.

Definition ListDependencies : pyres (list pystr) :=
  foldlM_py (fun deps sh =>
    if attr sh "sh_type" =? SHT_DYNAMIC then names ← LoadDtNeeded sh; Ok (deps ++ names)
    else Ok deps) [] (ep_Shdr self).

(** *** Queries *)
Definition IsExecutable : bool := attr (ep_Ehdr self) "e_type" =? ET_EXEC.
Definition IsSharedObject : bool := attr (ep_Ehdr self) "e_type" =? ET_DYN.

(** The body of the loop of [HasAndroidIdent]. *)
Definition is_android_ident (sh : cobject) : pyres bool :=
  b ← has_name (bs ".note.android.ident") sh;
  if b : bool then
    nh ← SeekReadStruct f (attr sh "sh_offset") (Elf_Nhdr c);
    name ← SeekRead f (attr sh "sh_offset" + Z.of_nat (sizeof (Elf_Nhdr c))) (attr nh "n_namesz");
    Ok (bool_decide (name = bs "Android" ++ [Byte.x00]))
  else Ok false.

Definition HasAndroidIdent : pyres bool :=
  r ← find_py is_android_ident (ep_Shdr self);
  Ok (bool_decide (is_Some r)).

Definition abi_machines : list (pystr * Z) :=
  [(bs "arm64", EM_AARCH64); (bs "arm", EM_ARM); (bs "mips64", EM_MIPS); (bs "mips", EM_MIPS);
   (bs "x86_64", EM_X86_64); (bs "x86", EM_386)].

Definition MatchCpuAbi (abi : pystr) : bool :=
  match list_find (fun '(abi_prefix, _) => startswith abi_prefix abi = true) abi_machines with
  | Some (_, (_, machine)) => attr (ep_Ehdr self) "e_machine" =? machine
  | None => false
  end.

(** *** Symbols *)
Definition include_bindings (include_weak : bool) : list Z :=
  STB_GLOBAL :: if include_weak then [STB_WEAK] else [].

(** The three [continue]s of the loop. *)
Definition is_global_def (include_weak : bool) (sym : cobject) : bool :=
  negb (Sym_GetType sym =? STT_NOTYPE)
  && bool_decide (GetBinding sym ∈ include_bindings include_weak)
  && negb (attr sym "st_shndx" =? SHN_UNDEF).

Definition ListGlobalSymbols (include_weak : bool) (symtab_name strtab_name : pystr)
    : pyres (list pystr) :=
  symtab ← GetSectionByName symtab_name;
  strtab ← GetSectionByName strtab_name;
  match symtab, strtab with
  | Some symtab, Some strtab =>
      if attr symtab "sh_size" =? 0 then Raise ElfError
      else
        syms ← GetSymbols symtab;
        gen_fold (fun sym_names sym =>
          if is_global_def include_weak sym then
            name ← GetString strtab (attr sym "st_name"); Ok (sym_names ++ [name])
          else Ok sym_names) [] syms
  | _, _ => Raise ElfError
  end.

Definition ListGlobalDynamicSymbols (include_weak : bool) : pyres (list pystr) :=
  ListGlobalSymbols include_weak DYNSYM DYNSTR.

(** *** The program interpreter *)
Definition ph_at (ph_index : nat) : pyres cobject :=
  SeekReadStruct f (attr (ep_Ehdr self) "e_phoff"
    + Z.of_nat ph_index * attr (ep_Ehdr self) "e_phentsize") (Elf_Phdr c).

Fixpoint interp_loop (indices : list nat) : pyres (option pystr) :=
  match indices with
  | [] => Ok None
  | i :: indices =>
      ph ← ph_at i;
      if attr ph "p_type" =? PT_INTERP then Some <$> SeekReadString f (attr ph "p_offset")
      else interp_loop indices
  end.

Definition GetProgramInterpreter : pyres (option pystr) :=
  interp_loop (seq 0 (Z.to_nat (attr (ep_Ehdr self) "e_phnum"))).
End methods.
