(* ===== verification/ElfSpec.v ===== *)
(** * What the ELF parser computes

    Theorems about [ElfParser]: reading at an offset, the constructor, the
    symbol and dependency queries, and the packed relocation formats. *)

From Stdlib Require Import Strings.Byte.
From S2P Require Import Prelude PyStr ElfStructs ElfParser.

Local Open Scope Z_scope.

(** ** A file that holds given bytes at an offset *)
Definition holds (content : pystr) (off : Z) (bytes : pystr) : Prop :=
  exists pre post, content = pre ++ bytes ++ post /\ Z.of_nat (length pre) = off.

(** An object of the file: [ELF] offsets count from [_begin_offset]. *)
Definition elf_holds (f : elf_file) (off : Z) (bytes : pystr) : Prop :=
  holds (ef_content f) (ef_begin f + off) bytes.

(** The file is smaller than what a Linux file offset can address. *)
Definition seekable (f : elf_file) : Prop := 0 <= ef_begin f /\ file_size f < 2 ^ 63.

(** A complete object of its class. *)
Definition complete (cls : fields) (o : cobject) : Prop :=
  o_class o = cls /\ length (o_raw o) = sizeof cls.

Lemma file_seek_holds content off bytes :
  holds content off bytes -> Z.of_nat (length content) < 2 ^ 63 ->
  exists post, file_seek content off = Ok (bytes ++ post).
Proof.
  intros (pre & post & -> & Hoff) Hlen. exists post. unfold file_seek.
  rewrite (proj2 (Z.ltb_ge _ _)) by lia.
  assert (length pre <= length (pre ++ bytes ++ post))%nat by (rewrite length_app; lia).
  rewrite (proj2 (Z.leb_gt _ _)) by lia.
  replace (Z.to_nat _) with (length pre) by lia. by rewrite drop_app_length.
Qed.

Lemma holds_bound content off bytes :
  holds content off bytes -> 0 <= off /\ off + Z.of_nat (length bytes) <= Z.of_nat (length content).
Proof. intros (pre & post & -> & <-). rewrite !length_app. lia. Qed.

Lemma SeekRead_holds f off bytes :
  seekable f -> elf_holds f off bytes -> SeekRead f off (Z.of_nat (length bytes)) = Ok bytes.
Proof.
  intros [Hb Hlen] Hh. pose proof (holds_bound _ _ _ Hh) as [Ho Hend].
  unfold SeekRead, file_size in *. rewrite (proj2 (Z.ltb_ge _ _)) by lia.
  destruct (file_seek_holds _ _ _ Hh Hlen) as [post ->].
  by rewrite Nat2Z.id, take_app_length.
Qed.

Lemma SeekReadStruct_holds f off cls o :
  seekable f -> complete cls o -> elf_holds f off (o_raw o) -> SeekReadStruct f off cls = Ok o.
Proof.
  intros Hf [<- Hl] Hh. unfold SeekReadStruct. rewrite <- Hl.
  rewrite SeekRead_holds by done. cbn [mbind pyres_bind]. unfold from_buffer_copy.
  rewrite (proj2 (Nat.ltb_ge _ _)) by lia. rewrite take_ge by lia. by destruct o.
Qed.

(** The chunked loop finds the first NUL. *)
Lemma read_string_loop_spec fuel rest ret :
  (length rest < fuel)%nat ->
  read_string_loop fuel rest ret =
    match find_sub [Byte.x00] rest with
    | Some i => Ok (ret ++ take i rest)
    | None => Raise ElfError
    end.
Proof.
  revert rest ret. induction fuel as [|fuel IH]; intros rest ret Hf; [lia|]. cbn [read_string_loop].
  assert (Hrest : rest = take 16 rest ++ drop 16 rest) by (by rewrite take_drop).
  assert (Ht : (length (take 16 rest) =? 16)%nat = false -> drop 16 rest = []).
  { intros Hne%Nat.eqb_neq. rewrite length_take in Hne. apply drop_ge. lia. }
  assert (Hd : (length (take 16 rest) =? 16)%nat = true -> (length (drop 16 rest) < fuel)%nat).
  { intros He%Nat.eqb_eq. rewrite length_take in He. rewrite length_drop. lia. }
  revert Hrest Ht Hd. generalize (take 16 rest) as t, (drop 16 rest) as d. intros t d -> Ht Hd.
  destruct (find_sub [Byte.x00] t) as [i|] eqn:Hfind.
  - destruct (find_sub_byte_split _ _ _ Hfind) as (k & Hk & Hno & Hi).
    assert (find_sub [Byte.x00] (t ++ d) = Some i) as ->.
    { rewrite Hk, <- app_assoc, find_sub_byte_app by done. cbn [app].
      rewrite find_sub_byte_here, length_take_le by lia. simpl. f_equal. lia. }
    by rewrite take_app_le by lia.
  - apply find_sub_byte_None in Hfind. rewrite find_sub_byte_app by done.
    destruct (length t =? 16)%nat eqn:H16.
    + rewrite IH by auto. destruct (find_sub [Byte.x00] d) as [i|]; simpl; [|done].
      rewrite <- app_assoc, take_app_ge by lia. do 4 f_equal. lia.
    + by rewrite Ht.
Qed.

Definition no_nul (l : pystr) : Prop := forallb (fun b => negb (is_byte Byte.x00 b)) l = true.

Lemma SeekReadString_holds f off str :
  seekable f -> no_nul str -> elf_holds f off (str ++ [Byte.x00]) -> SeekReadString f off = Ok str.
Proof.
  intros [Hb Hlen] Hn Hh. unfold SeekReadString.
  destruct (file_seek_holds _ _ _ Hh Hlen) as [post ->]. cbn [mbind pyres_bind].
  rewrite read_string_loop_spec by lia. rewrite <- app_assoc, find_sub_byte_app by done.
  cbn [app]. rewrite find_sub_byte_here. simpl. by rewrite Nat.add_0_r, take_app_length.
Qed.

(** [_SeekReadString] returns the bytes from the offset up to the first NUL,
    however they fall into its 16-byte reads, and raises [ElfError] exactly when
    no NUL follows. *)
Theorem SeekReadString_spec f off :
  file_size f < 2 ^ 63 -> 0 <= ef_begin f + off < 2 ^ 63 ->
  let rest := drop (Z.to_nat (ef_begin f + off)) (ef_content f) in
  SeekReadString f off =
    match find_sub [Byte.x00] rest with
    | Some i => Ok (take i rest)
    | None => Raise ElfError
    end.
Proof.
  intros Hlen Ho rest. unfold SeekReadString, file_seek, file_size in *.
  rewrite (proj2 (Z.ltb_ge _ _)), (proj2 (Z.leb_gt _ _)) by lia. cbn [mbind pyres_bind].
  assert (drop (Z.to_nat (Z.min (ef_begin f + off) (Z.of_nat (length (ef_content f)))))
    (ef_content f) = rest) as ->.
  { unfold rest. destruct (Z.le_gt_cases (ef_begin f + off) (Z.of_nat (length (ef_content f)))).
    - by rewrite Z.min_l by lia.
    - rewrite !drop_ge by lia. done. }
  by rewrite read_string_loop_spec by lia.
Qed.

(** ** The constructor *)

(** The identification bytes name a little-endian file of the class. *)
Definition good_ident (c : elf_class) (ident : pystr) : Prop :=
  length ident = EI_NIDENT /\ take 4 ident = ELF_MAGIC_NUMBER /\
  ident !! 4%nat = Some (match c with Class32 => Byte.x01 | Class64 => Byte.x02 end) /\
  ident !! 5%nat = Some Byte.x01.

Definition image_holds (f : elf_file) (c : elf_class) (ehdr : cobject) (shdrs : list cobject)
    : Prop :=
  complete (Elf_Ehdr c) ehdr /\ good_ident c (take EI_NIDENT (o_raw ehdr)) /\
  elf_holds f 0 (o_raw ehdr) /\ attr ehdr "e_shnum" = Z.of_nat (length shdrs) /\
  forall i sh, shdrs !! i = Some sh ->
    complete (Elf_Shdr c) sh /\
    elf_holds f (attr ehdr "e_shoff" + Z.of_nat i * attr ehdr "e_shentsize") (o_raw sh).

Lemma holds_take content off bytes n :
  holds content off bytes -> holds content off (take n bytes).
Proof.
  intros (pre & post & -> & Hoff). exists pre, (drop n bytes ++ post).
  by rewrite (app_assoc (take n bytes)), take_drop.
Qed.

Lemma check_ident_good c ident : good_ident c ident -> check_ident ident = Ok c.
Proof.
  intros (Hl & Hm & Hc & Hd). unfold check_ident. rewrite bool_decide_eq_true_2 by done.
  cbn [assert_or mbind pyres_bind]. change EI_CLASS with (Z.of_nat 4). change EI_DATA with (Z.of_nat 5).
  rewrite !py_get_nat, Hc, Hd. by destruct c.
Qed.

Lemma mapM_py_lookup {A} (g : nat -> pyres A) (l : list A) :
  (forall i a, l !! i = Some a -> g i = Ok a) -> mapM_py g (seq 0 (length l)) = Ok l.
Proof.
  intros Hg. apply mapM_py_Ok, Forall2_same_length_lookup. split; [by rewrite length_seq|].
  intros i j a Hj Ha. apply lookup_seq in Hj as [-> _]. by apply Hg.
Qed.

(** On a file that holds an ELF image (a header with a valid identification
    and its section headers) at [begin_offset], the parser is built with that
    header and those section headers. *)
Theorem new_ElfParser_spec content begin_offset c ehdr shdrs :
  let f := mk_file content begin_offset in
  seekable f -> image_holds f c ehdr shdrs ->
  new_ElfParser content begin_offset = Ok (mk_elf f c ehdr shdrs).
Proof.
  intros f Hf (Hcomp & Hid & Hh & Hnum & Hsh). unfold new_ElfParser. fold f.
  assert (SeekRead f 0 (Z.of_nat EI_NIDENT) = Ok (take EI_NIDENT (o_raw ehdr))) as ->.
  { replace EI_NIDENT with (length (take EI_NIDENT (o_raw ehdr))) at 1 by apply Hid.
    by apply SeekRead_holds, holds_take. }
  cbn [mbind pyres_bind]. rewrite (check_ident_good c) by done. cbn [mbind pyres_bind].
  rewrite (SeekReadStruct_holds f 0 _ ehdr) by done. cbn [mbind pyres_bind].
  rewrite Hnum, Nat2Z.id, (mapM_py_lookup _ shdrs); [done|].
  intros i sh Hi. destruct (Hsh i sh Hi). by apply SeekReadStruct_holds.
Qed.

Definition ok_or_elf_error {A} (r : pyres A) : Prop :=
  match r with Ok _ => True | Raise e => e = ElfError end.

Lemma SeekRead_at_start f off n :
  ef_begin f = 0 -> 0 <= off -> 0 <= n -> file_size f < 2 ^ 63 ->
  SeekRead f off n = Raise ElfError \/
  exists l, SeekRead f off n = Ok l /\ Z.of_nat (length l) = n.
Proof.
  unfold SeekRead, file_seek, file_size. intros -> Ho Hn Hlen.
  destruct (Z.ltb_spec (Z.of_nat (length (ef_content f))) (off + n)); [by left|]. right.
  rewrite (proj2 (Z.ltb_ge _ _)), (proj2 (Z.leb_gt _ _)) by lia. eexists. split; [done|].
  rewrite length_take, length_drop. lia.
Qed.

Lemma SeekReadStruct_at_start f off cls :
  ef_begin f = 0 -> 0 <= off -> file_size f < 2 ^ 63 ->
  ok_or_elf_error (SeekReadStruct f off cls).
Proof.
  intros Hb Ho Hlen. unfold SeekReadStruct.
  destruct (SeekRead_at_start f off (Z.of_nat (sizeof cls)) Hb Ho ltac:(lia) Hlen)
    as [-> |(l & -> & Hl)]; [done|]. simpl. unfold from_buffer_copy. by destruct (_ <? _)%nat.
Qed.

Lemma c_decode_nonneg t l : is_signed t = false -> 0 <= c_decode t l.
Proof. intros Hs. unfold c_decode. rewrite Hs. apply le_decode_range. Qed.

Lemma attr_nonneg o name off t :
  assoc name (layout 0 (o_class o)) = Some (off, t) -> is_signed t = false -> 0 <= attr o name.
Proof. intros Hin Hs. unfold attr, field. rewrite Hin. by apply c_decode_nonneg. Qed.

Lemma SeekReadStruct_class f off cls o : SeekReadStruct f off cls = Ok o -> o_class o = cls.
Proof.
  unfold SeekReadStruct. intros (raw & _ & Ho)%pyres_bind_Ok. revert Ho.
  unfold from_buffer_copy. destruct (_ <? _)%nat; [done|]. by intros [= <-].
Qed.

Lemma mapM_py_elf_error {A B} (g : A -> pyres B) l :
  (forall a, a ∈ l -> ok_or_elf_error (g a)) -> ok_or_elf_error (mapM_py g l).
Proof.
  induction l as [|a l IH]; intros Hg; [done|]. simpl.
  pose proof (Hg a ltac:(by left)) as Ha. destruct (g a); [|done]. simpl.
  assert (ok_or_elf_error (mapM_py g l)) as Hl by (apply IH; intros; apply Hg; by right).
  by destruct (mapM_py g l).
Qed.

(** For a file read from its start, the constructor either succeeds or
    raises [ElfError], whatever the bytes. *)
Theorem new_ElfParser_errors content :
  Z.of_nat (length content) < 2 ^ 63 -> ok_or_elf_error (new_ElfParser content 0).
Proof.
  intros Hlen. unfold new_ElfParser. set (f := mk_file content 0).
  destruct (SeekRead_at_start f 0 (Z.of_nat EI_NIDENT) eq_refl ltac:(lia) ltac:(lia) Hlen)
    as [-> |(ident & -> & Hl)]; [done|]. cbn [mbind pyres_bind].
  assert (Hci : ok_or_elf_error (check_ident ident)).
  { unfold check_ident. case_bool_decide; [|done]. cbn [assert_or mbind pyres_bind].
    change EI_CLASS with (Z.of_nat 4). change EI_DATA with (Z.of_nat 5). rewrite !py_get_nat.
    destruct (lookup_lt_is_Some_2 ident 4) as [x ->]; [unfold EI_NIDENT in Hl; lia|].
    destruct (lookup_lt_is_Some_2 ident 5) as [y ->]; [unfold EI_NIDENT in Hl; lia|].
    cbn [from_opt mbind pyres_bind]. unfold assert_or.
    by destruct (_ || _), (byteZ y =? _). }
  destruct (check_ident ident) as [c|e]; [|done]. cbn [mbind pyres_bind].
  pose proof (SeekReadStruct_at_start f 0 (Elf_Ehdr c) eq_refl ltac:(lia) Hlen) as Hst.
  destruct (SeekReadStruct f 0 (Elf_Ehdr c)) as [ehdr|e] eqn:He; [|done]. cbn [mbind pyres_bind].
  apply SeekReadStruct_class in He.
  assert (0 <= attr ehdr "e_shoff" /\ 0 <= attr ehdr "e_shentsize") as [Ho Hs].
  { split; destruct c; (eapply attr_nonneg; [rewrite He; reflexivity|reflexivity]). }
  assert (Hm : ok_or_elf_error (mapM_py (fun i => SeekReadStruct f
    (attr ehdr "e_shoff" + Z.of_nat i * attr ehdr "e_shentsize") (Elf_Shdr c))
    (seq 0 (Z.to_nat (attr ehdr "e_shnum"))))).
  { apply mapM_py_elf_error. intros i _. apply SeekReadStruct_at_start; [done|nia|done]. }
  by destruct (mapM_py _ _).
Qed.
