(* ===== verification/ElfQueries.v ===== *)
(** * Symbols, dependencies and machine of an ELF file

    The queries of [ElfParser] against the contents of the file: the tables are
    objects the file holds, the names are strings it holds. *)

From Stdlib Require Import Strings.Byte.
From S2P Require Import Prelude PyStr ElfStructs ElfParser ElfSpec.

Local Open Scope Z_scope.

(** ** Shared lemmas *)
Lemma table_len_exact sh n :
  0 < attr sh "sh_entsize" -> attr sh "sh_size" = Z.of_nat n * attr sh "sh_entsize" ->
  table_len sh = Ok n.
Proof.
  intros He Hs. unfold table_len. rewrite (proj2 (Z.eqb_neq _ _)) by lia.
  by rewrite Hs, Z.div_mul, Nat2Z.id by lia.
Qed.

Lemma gen_map_lookup {A} (g : nat -> pyres A) (l : list A) :
  (forall i a, l !! i = Some a -> g i = Ok a) -> gen_map g (seq 0 (length l)) = (l, Ok tt).
Proof.
  intros Hg. destruct l as [|d l0] eqn:Hl; [done|]. rewrite <- Hl in *. clear Hl l0.
  rewrite (gen_map_Ok _ (fun i => default d (l !! i))).
  - f_equal. apply list_eq_same_length with (n := length l);
      [done|by rewrite length_fmap, length_seq|].
    intros i x y Hi Hx Hy. rewrite list_lookup_fmap, lookup_seq_lt in Hx by done.
    simpl in Hx. rewrite Hy in Hx. by simplify_eq/=.
  - intros i Hi. apply elem_of_seq in Hi.
    destruct (lookup_lt_is_Some_2 l i) as [a Ha]; [lia|]. rewrite (Hg i a Ha). by rewrite Ha.
Qed.

(** A filtering loop that appends what a fallible function returns. *)
Lemma foldlM_py_filter {A B} (p : A -> bool) (g : A -> pyres B) (h : A -> B) l acc :
  (forall a, a ∈ l -> p a = true -> g a = Ok (h a)) ->
  foldlM_py (fun acc a => if p a then b ← g a; Ok (acc ++ [b]) else Ok acc) acc l
  = Ok (acc ++ (h <$> filter (fun a => p a = true) l)).
Proof.
  revert acc. induction l as [|a l IH]; intros acc Hg; simpl; [by rewrite app_nil_r|].
  rewrite filter_cons. destruct (p a) eqn:Hp; simpl.
  - rewrite (Hg a) by (done || by left). cbn [mbind pyres_bind].
    rewrite IH by (intros; apply Hg; [by right|done]). by rewrite <- app_assoc.
  - apply IH. intros. apply Hg; [by right|done].
Qed.

Section queries.
Context (p : ElfParser) (Hf : seekable (ep_file p)).

(** The entries of a table are objects of the file. *)
Definition table_holds (cls : fields) (sh : cobject) (entries : list cobject) : Prop :=
  0 < attr sh "sh_entsize" /\
  forall i o, entries !! i = Some o -> complete cls o /\
    elf_holds (ep_file p) (attr sh "sh_offset" + Z.of_nat i * attr sh "sh_entsize") (o_raw o).

(** A string of a string table. *)
Definition string_holds (strtab : cobject) (off : Z) (name : pystr) : Prop :=
  no_nul name /\ elf_holds (ep_file p) (attr strtab "sh_offset" + off) (name ++ [Byte.x00]).

Lemma GetString_holds strtab off name :
  string_holds strtab off name -> GetString p strtab off = Ok name.
Proof using Hf. intros [Hn Hh]. by apply SeekReadString_holds. Qed.

(** *** Section names *)
Definition shstrtab : option cobject :=
  match py_get (ep_Shdr p) (attr (ep_Ehdr p) "e_shstrndx") with Ok sh => Some sh | _ => None end.

Definition section_named (sh : cobject) (name : pystr) : Prop :=
  exists strtab, shstrtab = Some strtab /\ string_holds strtab (attr sh "sh_name") name.

Lemma has_name_holds sh n name :
  section_named sh n -> has_name p name sh = Ok (bool_decide (name = n)).
Proof using Hf.
  intros (strtab & Hst & Hn). unfold has_name, GetSectionName. unfold shstrtab in Hst.
  destruct (py_get _ _) as [s|]; [|done]. injection Hst as ->. cbn [mbind pyres_bind].
  by rewrite (GetString_holds _ _ n).
Qed.

(** [sh] is the first section of that name. *)
Definition first_section (name : pystr) (sh : cobject) : Prop :=
  section_named sh name /\ exists pre post, ep_Shdr p = pre ++ sh :: post /\
    forall sh', sh' ∈ pre -> exists n, section_named sh' n /\ n <> name.

Lemma GetSectionByName_first name sh :
  first_section name sh -> GetSectionByName p name = Ok (Some sh).
Proof using Hf.
  intros (Hsh & pre & post & Hs & Hpre). unfold GetSectionByName. rewrite Hs.
  apply find_py_first.
  - intros sh' (n & Hn & Hne)%Hpre. rewrite (has_name_holds _ n) by done.
    by rewrite bool_decide_eq_false_2.
  - rewrite (has_name_holds _ name) by done. by rewrite bool_decide_eq_true_2.
Qed.

(** *** Symbols *)
Lemma GetSymbols_holds symtab syms :
  table_holds (Elf_Sym (ep_class p)) symtab syms ->
  attr symtab "sh_size" = Z.of_nat (length syms) * attr symtab "sh_entsize" ->
  GetSymbols p symtab = Ok (syms, Ok tt).
Proof using Hf.
  intros [He Hh] Hs. unfold GetSymbols. rewrite (table_len_exact _ (length syms)) by done.
  cbn [mbind pyres_bind]. rewrite (gen_map_lookup _ syms); [done|].
  intros i o Hi. destruct (Hh i o Hi). by apply SeekReadStruct_holds.
Qed.

Lemma ListGlobalSymbols_holds include_weak symtab_name strtab_name symtab strtab syms name_of :
  first_section symtab_name symtab -> first_section strtab_name strtab ->
  table_holds (Elf_Sym (ep_class p)) symtab syms -> syms <> [] ->
  attr symtab "sh_size" = Z.of_nat (length syms) * attr symtab "sh_entsize" ->
  (forall sym, sym ∈ syms -> is_global_def include_weak sym = true ->
     string_holds strtab (attr sym "st_name") (name_of sym)) ->
  ListGlobalSymbols p include_weak symtab_name strtab_name
  = Ok (name_of <$> filter (fun sym => is_global_def include_weak sym = true) syms).
Proof using Hf.
  intros Hsym Hstr Htab Hne Hsize Hnames. unfold ListGlobalSymbols.
  rewrite (GetSectionByName_first _ _ Hsym), (GetSectionByName_first _ _ Hstr).
  cbn [mbind pyres_bind]. pose proof Htab as [He _].
  assert (0 < length syms)%nat by (destruct syms; simpl; [done|lia]).
  rewrite (proj2 (Z.eqb_neq _ _)) by nia.
  rewrite (GetSymbols_holds symtab syms) by done. cbn [mbind pyres_bind]. unfold gen_fold.
  cbn [fst snd]. rewrite (foldlM_py_filter _ _ name_of); [done|].
  intros sym Hin Hg. by apply GetString_holds, Hnames.
Qed.

(** *** The dynamic array *)
Lemma dynamic_loop_run entries tail n off entsize :
  (forall i o, entries !! i = Some o -> complete (Elf_Dyn (ep_class p)) o /\
     elf_holds (ep_file p) (off + Z.of_nat i * entsize) (o_raw o)) ->
  Forall (fun d => attr d "d_tag" <> DT_NULL) entries ->
  (tail = [] /\ n = length entries \/
   exists null, tail = [null] /\ (length entries < n)%nat /\ attr null "d_tag" = DT_NULL /\
     complete (Elf_Dyn (ep_class p)) null /\
     elf_holds (ep_file p) (off + Z.of_nat (length entries) * entsize) (o_raw null)) ->
  dynamic_loop p n off entsize = (entries ++ tail, Ok tt).
Proof using Hf.
  revert n off. induction entries as [|d entries IH]; intros n off Hh Hnn Htail.
  - destruct Htail as [[-> ->]|(null & -> & Hn & Htag & Hc & Hnull)]; [done|].
    destruct n as [|n]; [simpl in Hn; lia|]. cbn [dynamic_loop].
    rewrite (SeekReadStruct_holds _ _ _ null) by (done || by rewrite Z.add_0_r in Hnull).
    by rewrite Htag.
  - apply Forall_cons in Hnn as [Hd Hnn]. destruct (Hh 0%nat d eq_refl) as [Hc Hd0].
    rewrite Z.mul_0_l, Z.add_0_r in Hd0.
    destruct n as [|n]; [destruct Htail as [[_ ?]|(? & _ & ? & _)]; simpl in *; lia|].
    cbn [dynamic_loop]. rewrite (SeekReadStruct_holds _ _ _ d) by done.
    rewrite (proj2 (Z.eqb_neq _ _)) by done. rewrite IH; [done| |done|].
    + intros i o Hi. destruct (Hh (S i) o Hi) as [? Hho]. split; [done|].
      by replace (off + entsize + Z.of_nat i * entsize) with (off + Z.of_nat (S i) * entsize) by lia.
    + destruct Htail as [[-> Hn]|(null & -> & Hn & Htag & Hcn & Hnull)]; simpl in *.
      * left. split; [done|lia].
      * right. exists null. split; [done|]. split; [lia|]. split; [done|]. split; [done|].
        by replace (off + entsize + Z.of_nat (length entries) * entsize)
          with (off + Z.of_nat (S (length entries)) * entsize) by lia.
Qed.

Definition needed (d : cobject) : bool := attr d "d_tag" =? DT_NEEDED.
Definition is_strtab (d : cobject) : bool := attr d "d_tag" =? DT_STRTAB.

Lemma dt_fold l s names :
  foldlM_py dt_step (s, names) l =
    Ok (match last (filter (fun d => is_strtab d = true) l) with
        | Some d => Some (attr d "d_un") | None => s end,
        names ++ ((fun d => attr d "d_un") <$> filter (fun d => needed d = true) l)).
Proof using Type.
  revert s names. induction l as [|d l IH]; intros s names; simpl; [by rewrite app_nil_r|].
  unfold dt_step at 1. rewrite !filter_cons. unfold needed, is_strtab in *.
  destruct (attr d "d_tag" =? DT_NEEDED) eqn:Hn.
  - apply Z.eqb_eq in Hn. rewrite Hn. cbn [DT_NEEDED DT_STRTAB Z.eqb Pos.eqb mbind pyres_bind].
    rewrite IH. simpl. by rewrite <- app_assoc.
  - destruct (attr d "d_tag" =? DT_STRTAB) eqn:Hs; cbn [mbind pyres_bind]; rewrite IH; simpl; [|done].
    rewrite last_cons. by destruct (last _).
Qed.

(** The dynamic section [sh] needs the libraries [names]: its array holds
    [entries] up to the first DT_NULL or to its end, the last DT_STRTAB names
    the address of [strtab], and the DT_NEEDED entries are offsets of strings. *)
Definition dynamic_needs (sh : cobject) (names : list pystr) : Prop :=
  exists entries tail num d strtab pre post name_of,
    table_holds (Elf_Dyn (ep_class p)) sh (entries ++ tail) /\
    attr sh "sh_size" = Z.of_nat num * attr sh "sh_entsize" /\
    Forall (fun d => attr d "d_tag" <> DT_NULL) entries /\
    (tail = [] /\ num = length entries \/
     exists null, tail = [null] /\ (length entries < num)%nat /\ attr null "d_tag" = DT_NULL) /\
    last (filter (fun d => is_strtab d = true) entries) = Some d /\
    ep_Shdr p = pre ++ strtab :: post /\ attr strtab "sh_addr" = attr d "d_un" /\
    Forall (fun sh => attr sh "sh_addr" <> attr d "d_un") pre /\
    (forall e, e ∈ entries -> needed e = true -> string_holds strtab (attr e "d_un") (name_of e)) /\
    names = name_of <$> filter (fun e => needed e = true) entries.

Lemma filter_tail (q : cobject -> bool) entries tail :
  (forall d, d ∈ tail -> q d = false) ->
  filter (fun d => q d = true) (entries ++ tail) = filter (fun d => q d = true) entries.
Proof using Type.
  intros Ht. rewrite filter_app. assert (filter (fun d => q d = true) tail = []) as ->; [|apply app_nil_r].
  apply filter_none. intros d Hd. by rewrite Ht.
Qed.

Lemma list_find_first pre strtab post addr :
  attr strtab "sh_addr" = addr -> Forall (fun sh => attr sh "sh_addr" <> addr) pre ->
  snd <$> list_find (fun sh => attr sh "sh_addr" = addr) (pre ++ strtab :: post) = Some strtab.
Proof using Type.
  intros Ha. induction 1 as [|sh pre Hsh Hpre IH]; simpl; [by rewrite decide_True|].
  rewrite decide_False by done. revert IH. by destruct (list_find _ _) as [[? ?]|].
Qed.

Lemma LoadDtNeeded_holds sh names :
  dynamic_needs sh names -> LoadDtNeeded p sh = Ok names.
Proof using Hf.
  intros (entries & tail & num & d & strtab & pre & post & name_of & [He Hh] & Hsize & Hnn &
    Htail & Hlast & Hshdr & Haddr & Hpre & Hnames & ->).
  assert (GetDynamic p sh = (entries ++ tail, Ok tt)) as Hdyn.
  { unfold GetDynamic. rewrite (table_len_exact _ num) by done. apply dynamic_loop_run; [|done|].
    - intros i o Hi. apply Hh. by apply lookup_app_l_Some.
    - destruct Htail as [[-> ->]|(null & -> & Hn & Htag)]; [by left|right]. exists null.
      split; [done|]. split; [done|]. split; [done|]. apply Hh. by apply list_lookup_middle. }
  assert (Hquiet : forall x, x ∈ tail -> needed x = false /\ is_strtab x = false).
  { intros x Hx. destruct Htail as [[-> _]|(null & -> & _ & Htag)];
      [by apply not_elem_of_nil in Hx|]. apply list_elem_of_singleton in Hx as ->.
    unfold needed, is_strtab. by rewrite Htag. }
  unfold LoadDtNeeded, gen_fold. rewrite Hdyn. cbn [fst snd]. rewrite dt_fold.
  rewrite !filter_tail by (intros; by apply Hquiet). rewrite Hlast. cbn [mbind pyres_bind from_opt].
  rewrite Hshdr, (list_find_first pre strtab post) by done. cbn [mbind pyres_bind from_opt app].
  assert (forall l, (forall e, e ∈ l -> string_holds strtab (attr e "d_un") (name_of e)) ->
    mapM_py (GetString p strtab) ((fun e => attr e "d_un") <$> l) = Ok (name_of <$> l)) as ->; [|done|].
  { induction l as [|e l IH]; intros Hl; [done|]. csimpl.
    rewrite (GetString_holds _ _ (name_of e)) by (apply Hl; by left). cbn [mbind pyres_bind].
    by rewrite IH by (intros; apply Hl; by right). }
  intros e [Hn Hin]%list_elem_of_filter. auto.
Qed.

Definition is_dynamic (sh : cobject) : bool := attr sh "sh_type" =? SHT_DYNAMIC.

Lemma ListDependencies_holds deps :
  (forall sh, sh ∈ ep_Shdr p -> is_dynamic sh = true -> dynamic_needs sh (deps sh)) ->
  ListDependencies p = Ok (mjoin (deps <$> filter (fun sh => is_dynamic sh = true) (ep_Shdr p))).
Proof using Hf.
  unfold ListDependencies. intros Hd.
  assert (forall l acc, (forall sh, sh ∈ l -> is_dynamic sh = true -> dynamic_needs sh (deps sh)) ->
    foldlM_py (fun deps sh => if attr sh "sh_type" =? SHT_DYNAMIC
      then names ← LoadDtNeeded p sh; Ok (deps ++ names) else Ok deps) acc l
    = Ok (acc ++ mjoin (deps <$> filter (fun sh => is_dynamic sh = true) l))) as Hrun.
  { induction l as [|sh l IH]; intros acc Hl; simpl; [by rewrite app_nil_r|].
    rewrite filter_cons. fold (is_dynamic sh). destruct (is_dynamic sh) eqn:Hsh; simpl.
    - rewrite (LoadDtNeeded_holds sh (deps sh)) by (apply Hl; [by left|done]).
      cbn [mbind pyres_bind]. rewrite IH by (intros; apply Hl; [by right|done]).
      by rewrite <- app_assoc.
    - apply IH. intros. apply Hl; [by right|done]. }
  by rewrite Hrun.
Qed.
End queries.

(** The symbols that a library gives to others: typed, global (or weak, when
    asked) and defined. *)
Definition exported (include_weak : bool) (sym : cobject) : Prop :=
  Sym_GetType sym <> STT_NOTYPE /\
  (GetBinding sym = STB_GLOBAL \/ include_weak = true /\ GetBinding sym = STB_WEAK) /\
  attr sym "st_shndx" <> SHN_UNDEF.

#[export] Instance exported_dec include_weak sym : Decision (exported include_weak sym).
Proof. unfold exported. apply _. Defined.

Lemma is_global_def_spec include_weak sym : is_global_def include_weak sym = true <-> exported include_weak sym.
Proof.
  unfold is_global_def, exported. rewrite !andb_true_iff, !negb_true_iff, bool_decide_eq_true, !Z.eqb_neq.
  assert (GetBinding sym ∈ include_bindings include_weak <->
            GetBinding sym = STB_GLOBAL \/ include_weak = true /\ GetBinding sym = STB_WEAK) as ->; [|tauto].
  unfold include_bindings. destruct include_weak; set_solver.
Qed.

(** [ListGlobalSymbols] returns the names of exactly the symbols of the
    table that are defined, typed and global (or weak, when asked), in the order
    of the table. *)
Theorem ListGlobalSymbols_spec p include_weak symtab_name strtab_name symtab strtab syms name_of :
  seekable (ep_file p) ->
  first_section p symtab_name symtab -> first_section p strtab_name strtab ->
  table_holds p (Elf_Sym (ep_class p)) symtab syms -> syms <> [] ->
  attr symtab "sh_size" = Z.of_nat (length syms) * attr symtab "sh_entsize" ->
  (forall sym, sym ∈ syms -> exported include_weak sym ->
     string_holds p strtab (attr sym "st_name") (name_of sym)) ->
  ListGlobalSymbols p include_weak symtab_name strtab_name
  = Ok (name_of <$> filter (exported include_weak) syms).
Proof.
  intros Hf Hs1 Hs2 Ht Hne Hsz Hn.
  rewrite (list_filter_iff (exported include_weak) (fun sym => is_global_def include_weak sym = true))
    by (intros; symmetry; apply is_global_def_spec).
  eapply ListGlobalSymbols_holds; [done..|]. intros sym Hin Hg%is_global_def_spec. by apply Hn.
Qed.

(** [ListDependencies] returns the names that the DT_NEEDED entries of every
    dynamic section stand for, section by section and in the order of the
    array, reading an array only up to its DT_NULL. *)
Theorem ListDependencies_spec p deps :
  seekable (ep_file p) ->
  (forall sh, sh ∈ ep_Shdr p -> is_dynamic sh = true -> dynamic_needs p sh (deps sh)) ->
  ListDependencies p = Ok (mjoin (deps <$> filter (fun sh => is_dynamic sh = true) (ep_Shdr p))).
Proof. intros Hf. by apply ListDependencies_holds. Qed.

(** [MatchCpuAbi] compares the machine with the one of the ABI's family: a
    64-bit name is never taken for its 32-bit prefix, and a name outside the
    families never matches. *)
Theorem MatchCpuAbi_spec p s :
  let machine := attr (ep_Ehdr p) "e_machine" in
  MatchCpuAbi p (bs "arm64" ++ s) = (machine =? EM_AARCH64) /\
  MatchCpuAbi p (bs "x86_64" ++ s) = (machine =? EM_X86_64) /\
  MatchCpuAbi p (bs "mips" ++ s) = (machine =? EM_MIPS) /\
  (startswith (bs "64") s = false -> MatchCpuAbi p (bs "arm" ++ s) = (machine =? EM_ARM)) /\
  (startswith (bs "_64") s = false -> MatchCpuAbi p (bs "x86" ++ s) = (machine =? EM_386)) /\
  (forallb (fun family => negb (startswith family s)) [bs "arm"; bs "mips"; bs "x86"] = true ->
     MatchCpuAbi p s = false).
Proof.
  intros machine. unfold MatchCpuAbi, abi_machines. cbn [list_find].
  split_and!.
  - by rewrite decide_True by reflexivity.
  - do 4 rewrite decide_False by done. by rewrite decide_True by reflexivity.
  - do 2 rewrite decide_False by done. case_decide; [done|].
    by rewrite decide_True by reflexivity.
  - intros Hs. rewrite decide_False by (change (startswith (bs "64") s <> true); congruence).
    by rewrite decide_True by reflexivity.
  - intros Hs. do 4 rewrite decide_False by done.
    rewrite decide_False by (change (startswith (bs "_64") s <> true); congruence).
    by rewrite decide_True by reflexivity.
  - cbn [forallb]. rewrite !andb_true_iff, !negb_true_iff. intros (Ha & Hm & Hx & _).
    assert (Hsub : forall q r, startswith q s = false -> startswith (q ++ r) s <> true).
    { intros q r Hq [k ->]%startswith_spec. by rewrite <- app_assoc, startswith_app in Hq. }
    rewrite (decide_False (P := startswith (bs "arm64") s = true)) by (by apply (Hsub (bs "arm"))).
    rewrite decide_False by congruence.
    rewrite (decide_False (P := startswith (bs "mips64") s = true)) by (by apply (Hsub (bs "mips"))).
    rewrite decide_False by congruence.
    rewrite (decide_False (P := startswith (bs "x86_64") s = true)) by (by apply (Hsub (bs "x86"))).
    by rewrite decide_False by congruence.
Qed.
