(* ===== verification/ElfSample.v ===== *)
(** * A concrete ELF file

    A 32-bit shared object with a string table, a symbol table and a dynamic
    section, built from the structures, and the instances of the parser's
    theorems on it. *)

From Stdlib Require Import Strings.Byte.
From S2P Require Import Prelude PyStr ElfStructs ElfParser ElfSpec ElfQueries.

Local Open Scope Z_scope.

(** ** Checking that a file holds given objects *)
Definition holds_b (content : pystr) (off : Z) (bytes : pystr) : bool :=
  (0 <=? off) && (off <=? Z.of_nat (length content))
  && bool_decide (take (length bytes) (drop (Z.to_nat off) content) = bytes).

Lemma holds_b_holds content off bytes : holds_b content off bytes = true -> holds content off bytes.
Proof.
  unfold holds_b. rewrite !andb_true_iff, !Z.leb_le, bool_decide_eq_true. intros [[Ho Hl] Hb].
  exists (take (Z.to_nat off) content), (drop (length bytes) (drop (Z.to_nat off) content)). split.
  - rewrite <- Hb at 1. by rewrite !take_drop.
  - rewrite length_take. lia.
Qed.

Definition entry_b (f : elf_file) (cls : fields) (off : Z) (o : cobject) : bool :=
  bool_decide (o_class o = cls) && (length (o_raw o) =? sizeof cls)%nat
  && holds_b (ef_content f) (ef_begin f + off) (o_raw o).

Lemma entry_b_ok f cls off o :
  entry_b f cls off o = true -> complete cls o /\ elf_holds f off (o_raw o).
Proof.
  unfold entry_b. rewrite !andb_true_iff, bool_decide_eq_true, Nat.eqb_eq.
  intros [[Hc Hl] Hh]. split; [by split|by apply holds_b_holds].
Qed.

Lemma entries_b_ok f cls (off : nat -> Z) entries :
  forallb (fun '(i, o) => entry_b f cls (off i) o) (imap pair entries) = true ->
  forall i o, entries !! i = Some o -> complete cls o /\ elf_holds f (off i) (o_raw o).
Proof.
  rewrite forallb_forall. intros H i o Hi.
  assert (In (i, o) (imap pair entries)) as Hin%H.
  { apply list_elem_of_In, list_elem_of_lookup. exists i. by rewrite list_lookup_imap, Hi. }
  by apply entry_b_ok.
Qed.

(** ** The file *)
Definition cstr (s : string) : pystr := bs s ++ [Byte.x00].

Definition strings : pystr :=
  [Byte.x00] ++ cstr ".symtab" ++ cstr ".strtab" ++ cstr ".dynamic" ++ cstr "foo" ++ cstr "bar"
  ++ cstr "libc.so".

Local Open Scope string_scope.

Definition sample_syms : list cobject :=
  [new_object Elf32_Sym [];
   new_object Elf32_Sym [("st_name", 26); ("st_value", 0x100); ("st_info", 0x12); ("st_shndx", 1)];
   new_object Elf32_Sym [("st_name", 30); ("st_value", 0x200); ("st_info", 0x21); ("st_shndx", 1)]].

Definition sample_dyns : list cobject :=
  [new_object Elf32_Dyn [("d_tag", DT_NEEDED); ("d_un", 34)];
   new_object Elf32_Dyn [("d_tag", DT_STRTAB); ("d_un", 0x34)]].
Definition sample_null : cobject := new_object Elf32_Dyn [].

Definition raws (l : list cobject) : pystr := mjoin (o_raw <$> l).

(** Offsets: header 0, strings 52, symbols 94, dynamic 142, section headers 166. *)
Definition sample_shdrs : list cobject :=
  [new_object Elf32_Shdr [("sh_name", 9); ("sh_type", 3); ("sh_addr", 52); ("sh_offset", 52);
                          ("sh_size", 42)];
   new_object Elf32_Shdr [("sh_name", 1); ("sh_type", 2); ("sh_addr", 94); ("sh_offset", 94);
                          ("sh_size", 48); ("sh_entsize", 16)];
   new_object Elf32_Shdr [("sh_name", 17); ("sh_type", SHT_DYNAMIC); ("sh_addr", 142);
                          ("sh_offset", 142); ("sh_size", 24); ("sh_entsize", 8)]].

Definition sample_ident : pystr :=
  ELF_MAGIC_NUMBER ++ [Byte.x01; Byte.x01; Byte.x01] ++ replicate 9 Byte.x00.

Definition sample_ehdr : cobject :=
  let o := new_object Elf32_Ehdr
    [("e_type", ET_DYN); ("e_machine", EM_ARM); ("e_shoff", 166); ("e_shentsize", 40);
     ("e_shnum", 3); ("e_shstrndx", 0)] in
  mk_obj (o_class o) (sample_ident ++ drop 16 (o_raw o)).

Definition sample_content : pystr :=
  o_raw sample_ehdr ++ strings ++ raws sample_syms ++ raws (sample_dyns ++ [sample_null])
  ++ raws sample_shdrs.

Definition sample_elf : ElfParser :=
  mk_elf (mk_file sample_content 0) Class32 sample_ehdr sample_shdrs.

Example sample_elf_parsed : new_ElfParser sample_content 0 = Ok sample_elf.
Proof. vm_compute. reflexivity. Qed.

Example sample_queries :
  ListGlobalSymbols sample_elf false SYMTAB STRTAB = Ok [bs "foo"] /\
  ListGlobalSymbols sample_elf true SYMTAB STRTAB = Ok [bs "foo"; bs "bar"] /\
  ListDependencies sample_elf = Ok [bs "libc.so"] /\
  ListGlobalDynamicSymbols sample_elf false = Raise ElfError.
Proof. vm_compute. split_and!; reflexivity. Qed.

(** ** The hypotheses of the theorems hold of it *)
Lemma sample_seekable : seekable (ep_file sample_elf).
Proof. split; [done|vm_compute; reflexivity]. Qed.

Lemma sample_image : image_holds (mk_file sample_content 0) Class32 sample_ehdr sample_shdrs.
Proof.
  split; [split; vm_compute; reflexivity|]. split; [split_and!; vm_compute; reflexivity|].
  split; [apply holds_b_holds; vm_compute; reflexivity|]. split; [vm_compute; reflexivity|].
  apply (entries_b_ok (mk_file sample_content 0) (Elf_Shdr Class32)
    (fun i => attr sample_ehdr "e_shoff" + Z.of_nat i * attr sample_ehdr "e_shentsize")).
  vm_compute. reflexivity.
Qed.

Lemma sample_string strtab off name :
  no_nul name ->
  holds_b sample_content (attr strtab "sh_offset" + off) (name ++ [Byte.x00]) = true ->
  string_holds sample_elf strtab off name.
Proof. intros Hn Hh. split; [done|by apply holds_b_holds]. Qed.

Definition nth_sh (i : nat) : cobject := nth i sample_shdrs sample_ehdr.

Lemma sample_names :
  section_named sample_elf (nth_sh 0) (bs ".strtab") /\
  section_named sample_elf (nth_sh 1) (bs ".symtab").
Proof.
  split; exists (nth_sh 0); (split; [vm_compute; reflexivity|]);
    apply sample_string; vm_compute; reflexivity.
Qed.

Lemma sample_first :
  first_section sample_elf SYMTAB (nth_sh 1) /\ first_section sample_elf STRTAB (nth_sh 0).
Proof.
  destruct sample_names as [H0 H1]. split; (split; [done|]).
  - exists [nth_sh 0], [nth_sh 2]. split; [reflexivity|].
    intros sh Hsh. apply list_elem_of_singleton in Hsh as ->. exists (bs ".strtab"). done.
  - exists [], [nth_sh 1; nth_sh 2]. split; [reflexivity|]. by intros sh ?%not_elem_of_nil.
Qed.

Definition sample_name_of (o : cobject) : pystr :=
  if decide (attr o "st_name" = 26) then bs "foo" else bs "bar".

Lemma sample_table : table_holds sample_elf (Elf_Sym Class32) (nth_sh 1) sample_syms.
Proof.
  split; [vm_compute; reflexivity|].
  apply (entries_b_ok (ep_file sample_elf) (Elf_Sym Class32)
    (fun i => attr (nth_sh 1) "sh_offset" + Z.of_nat i * attr (nth_sh 1) "sh_entsize")).
  vm_compute. reflexivity.
Qed.

Lemma sample_sym_names sym :
  sym ∈ sample_syms -> exported true sym ->
  string_holds sample_elf (nth_sh 0) (attr sym "st_name") (sample_name_of sym).
Proof.
  rewrite <- is_global_def_spec. unfold sample_syms. rewrite !elem_of_cons.
  intros [-> |[-> |[-> |Hn%not_elem_of_nil]]] Hg; [|..|done];
    [by vm_compute in Hg|apply sample_string; vm_compute; reflexivity..].
Qed.

Lemma sample_needs : dynamic_needs sample_elf (nth_sh 2) [bs "libc.so"].
Proof.
  exists sample_dyns, [sample_null], 3%nat, (nth 1 sample_dyns sample_null), (nth_sh 0), [],
    [nth_sh 1; nth_sh 2], (fun _ => bs "libc.so"). split_and!.
  - split; [vm_compute; reflexivity|].
    apply (entries_b_ok (ep_file sample_elf) (Elf_Dyn Class32)
      (fun i => attr (nth_sh 2) "sh_offset" + Z.of_nat i * attr (nth_sh 2) "sh_entsize")).
    vm_compute. reflexivity.
  - vm_compute. reflexivity.
  - repeat constructor; by vm_compute.
  - right. exists sample_null. split_and!; [done|simpl; lia|vm_compute; reflexivity].
  - vm_compute. reflexivity.
  - reflexivity.
  - vm_compute. reflexivity.
  - constructor.
  - intros e. unfold sample_dyns. rewrite !elem_of_cons.
    intros [-> |[-> |Hn%not_elem_of_nil]] Hg; [|by vm_compute in Hg|done].
    apply sample_string; vm_compute; reflexivity.
  - vm_compute. reflexivity.
Qed.

(** ** The instances *)
Lemma SeekReadString_spec_witness :
  SeekReadString (ep_file sample_elf) 78 = Ok (bs "foo").
Proof.
  rewrite (SeekReadString_spec (ep_file sample_elf) 78);
    [vm_compute; reflexivity|vm_compute; reflexivity|split; [vm_compute; discriminate|reflexivity]].
Defined.

Lemma new_ElfParser_spec_witness :
  image_holds (mk_file sample_content 0) Class32 sample_ehdr sample_shdrs /\
  new_ElfParser sample_content 0 = Ok sample_elf.
Proof.
  split; [exact sample_image|].
  apply (new_ElfParser_spec sample_content 0 Class32 sample_ehdr sample_shdrs);
    [exact sample_seekable|exact sample_image].
Defined.

Lemma new_ElfParser_errors_witness :
  new_ElfParser (take 100 sample_content) 0 = Raise ElfError /\
  ok_or_elf_error (new_ElfParser (take 100 sample_content) 0).
Proof.
  split; [vm_compute; reflexivity|].
  apply (new_ElfParser_errors (take 100 sample_content)). vm_compute. reflexivity.
Defined.

Lemma ListGlobalSymbols_spec_witness :
  ListGlobalSymbols sample_elf true SYMTAB STRTAB = Ok [bs "foo"; bs "bar"].
Proof.
  rewrite (ListGlobalSymbols_spec sample_elf true SYMTAB STRTAB (nth_sh 1) (nth_sh 0) sample_syms
    sample_name_of sample_seekable (proj1 sample_first) (proj2 sample_first) sample_table);
    [vm_compute; reflexivity|discriminate|vm_compute; reflexivity|exact sample_sym_names].
Defined.

Lemma ListDependencies_spec_witness :
  ListDependencies sample_elf = Ok [bs "libc.so"].
Proof.
  rewrite (ListDependencies_spec sample_elf (fun _ => [bs "libc.so"]) sample_seekable);
    [vm_compute; reflexivity|].
  intros sh Hin Hd. change (ep_Shdr sample_elf) with [nth_sh 0; nth_sh 1; nth_sh 2] in Hin.
  rewrite !elem_of_cons in Hin. destruct Hin as [-> |[-> |[-> |Hn%not_elem_of_nil]]];
    [by vm_compute in Hd|by vm_compute in Hd|exact sample_needs|done].
Defined.

Lemma MatchCpuAbi_spec_witness :
  MatchCpuAbi sample_elf (bs "armeabi-v7a") = true /\
  MatchCpuAbi sample_elf (bs "arm64-v8a") = false.
Proof.
  pose proof (MatchCpuAbi_spec sample_elf (bs "eabi-v7a")) as (_ & _ & _ & H & _).
  pose proof (MatchCpuAbi_spec sample_elf (bs "-v8a")) as (H64 & _).
  split; [exact (H eq_refl)|exact H64].
Defined.
