(* ===== verification/ElfReloc.v ===== *)
(** * Packed relocations

    The two packed relocation formats of [ElfParser], against encoders: Android's
    APS2 (groups of SLEB128 words) and RELR (addresses and bitmaps). *)

From Stdlib Require Import Strings.Byte.
From S2P Require Import Prelude PyStr ElfStructs ElfParser ElfSpec ElfSample.

Local Open Scope Z_scope.

(** ** Streams of SLEB128 words *)
Fixpoint encodes (ws : list Z) (l : pystr) : Prop :=
  match ws with
  | [] => l = []
  | w :: ws => exists a b, sleb128_of w a /\ l = a ++ b /\ encodes ws b
  end.

Lemma encodes_map ws : encodes ws (mjoin (EncodeSLEB128 <$> ws)).
Proof.
  induction ws as [|w ws IH]; [done|]. csimpl. do 2 eexists.
  split; [apply EncodeSLEB128_of|]. by split.
Qed.

Lemma sleb128_of_length z l : sleb128_of z l -> (1 <= length l)%nat.
Proof. destruct 1; simpl; lia. Qed.

Lemma encodes_length ws l : encodes ws l -> (length ws <= length l)%nat.
Proof.
  revert l. induction ws as [|w ws IH]; intros l; [intros ->; done|]. simpl.
  intros (a & b & Ha%sleb128_of_length & -> & Hb%IH). rewrite length_app. lia.
Qed.

(** At position [cur] of the data come the words [ws], then the bytes [k]. *)
Definition reads (data : pystr) (cur : Z) (ws : list Z) (k : pystr) : Prop :=
  exists pre l, data = pre ++ l ++ k /\ Z.of_nat (length pre) = cur /\ encodes ws l.

Lemma PopWord_reads data cur w ws k :
  reads data cur (w :: ws) k ->
  exists cur', PopWord data cur = Ok (w, cur') /\ reads data cur' ws k.
Proof.
  intros (pre & l & -> & <- & a & b & Ha & -> & Hb). rewrite <- (app_assoc a).
  exists (Z.of_nat (length (pre ++ a))). split.
  - unfold PopWord. pose proof (sleb128_of_length _ _ Ha).
    rewrite (proj2 (Z.ltb_lt _ _)) by (rewrite !length_app; lia).
    rewrite (DecodeSLEB128_of w a pre) by done. do 2 f_equal. rewrite length_app. lia.
  - exists (pre ++ a), b. by rewrite <- app_assoc.
Qed.

Lemma pop_if_reads (b : bool) data cur w ws k o :
  reads data cur ((if b then [w] else []) ++ ws) k ->
  exists cur', pop_if b data o cur = Ok (if b then w else o, cur') /\ reads data cur' ws k.
Proof. destruct b; [apply PopWord_reads|]. intros Hr. by exists cur. Qed.

(** ** APS2 *)
Section flags.
Context (flags : Z).
Definition by_info := has_flag flags RELOCATION_GROUPED_BY_INFO_FLAG.
Definition by_delta := has_flag flags RELOCATION_GROUPED_BY_OFFSET_DELTA_FLAG.
Definition by_addend := has_flag flags RELOCATION_GROUPED_BY_ADDEND_FLAG.
Definition has_addend := has_flag flags RELOCATION_GROUP_HAS_ADDEND_FLAG.

Definition when (b : bool) (w : Z) : list Z := if b then [w] else [].

(** The entries of a group, as differences to the one before. *)
Fixpoint entry_words (st : rela_state) (es : list rela_state) : list Z :=
  match es with
  | [] => []
  | e :: es =>
      when (negb by_delta) (r_offset e - r_offset st) ++ when (negb by_info) (r_info e)
      ++ when (has_addend && negb by_addend) (r_addend e - r_addend st) ++ entry_words e es
  end.

(** What the flags of a group promise about its entries. *)
Fixpoint regular (delta : Z) (st : rela_state) (es : list rela_state) : Prop :=
  match es with
  | [] => True
  | e :: es =>
      (by_delta = true -> r_offset e = r_offset st + delta) /\
      (by_info = true -> r_info e = r_info st) /\
      (has_addend && negb by_addend = false -> r_addend e = r_addend st) /\
      regular delta e es
  end.
End flags.

Record rela_group := mk_group {
  g_flags : Z;
  g_delta : Z;      (* the common offset delta, if any *)
  g_info : Z;       (* the common info, if any *)
  g_addend : Z;     (* the common addend, if any *)
  g_entries : list rela_state;
}.

(** The state a group starts from, after its header. *)
Definition group_start (st : rela_state) (g : rela_group) : rela_state :=
  mk_rela (r_offset st) (if by_info (g_flags g) then g_info g else r_info st)
    (if has_addend (g_flags g) then
       if by_addend (g_flags g) then g_addend g else r_addend st
     else 0).

Definition group_words (st : rela_state) (g : rela_group) : list Z :=
  [Z.of_nat (length (g_entries g)); g_flags g]
  ++ when (by_delta (g_flags g)) (g_delta g) ++ when (by_info (g_flags g)) (g_info g)
  ++ when (has_addend (g_flags g) && by_addend (g_flags g)) (g_addend g - r_addend st)
  ++ entry_words (g_flags g) (group_start st g) (g_entries g).

Definition group_end (st : rela_state) (g : rela_group) : rela_state :=
  default (group_start st g) (last (g_entries g)).

Fixpoint groups_words (st : rela_state) (gs : list rela_group) : list Z :=
  match gs with
  | [] => []
  | g :: gs => group_words st g ++ groups_words (group_end st g) gs
  end.

Fixpoint valid_groups (st : rela_state) (gs : list rela_group) : Prop :=
  match gs with
  | [] => True
  | g :: gs =>
      g_entries g <> [] /\ regular (g_flags g) (g_delta g) (group_start st g) (g_entries g) /\
      valid_groups (group_end st g) gs
  end.

Definition relocations (gs : list rela_group) : list rela_state := mjoin (g_entries <$> gs).

(** The whole stream: the number of relocations and the first offset lead. *)
Definition aps2_words (offset : Z) (gs : list rela_group) : list Z :=
  [Z.of_nat (length (relocations gs)); offset] ++ groups_words (mk_rela offset 0 0) gs.

(** *** Decoding the stream *)
Section decode.
Context (self : ElfParser) (data : pystr) (k : pystr).

Lemma read_entry_reads flags delta st e es ws cur :
  reads data cur (entry_words flags st (e :: es) ++ ws) k ->
  regular flags delta st (e :: es) ->
  exists cur', read_entry data flags delta st cur = Ok (e, cur') /\
    reads data cur' (entry_words flags e es ++ ws) k.
Proof using Type.
  cbn [entry_words regular]. unfold when. rewrite <- !app_assoc.
  intros Hr (Hd & Hi & Ha & _). unfold read_entry, by_delta, by_info, by_addend, has_addend in *.
  destruct (pop_if_reads _ _ _ _ _ _ delta Hr) as (c1 & H1 & Hr1).
  destruct (pop_if_reads _ _ _ _ _ _ (r_info st) Hr1) as (c2 & H2 & Hr2).
  destruct (pop_if_reads _ _ _ _ _ _ 0 Hr2) as (c3 & H3 & Hr3).
  exists c3. split; [|done].
  rewrite (stM_bind_run _ _ _ _ _ H1), (stM_bind_run _ _ _ _ _ H2), (stM_bind_run _ _ _ _ _ H3).
  assert (forall o i a, o = r_offset e -> i = r_info e -> a = r_addend e -> mk_rela o i a = e)
    as Heq by (intros ? ? ? -> -> ->; by destruct e).
  unfold mret, stM_ret. rewrite Heq; [done|..].
  - destruct (has_flag flags RELOCATION_GROUPED_BY_OFFSET_DELTA_FLAG); simpl;
      [by rewrite Hd|lia].
  - destruct (has_flag flags RELOCATION_GROUPED_BY_INFO_FLAG); simpl; [by rewrite Hi|done].
  - destruct (has_flag flags RELOCATION_GROUP_HAS_ADDEND_FLAG && _); [lia|rewrite Ha by done; lia].
Qed.

Lemma group_loop_reads flags delta st es ws cur :
  reads data cur (entry_words flags st es ++ ws) k -> regular flags delta st es ->
  exists cur', group_loop self (length es) data flags delta st cur
      = (CreateElfRela self <$> es, Ok (default st (last es), cur')) /\ reads data cur' ws k.
Proof using Type.
  revert st cur. induction es as [|e es IH]; intros st cur Hr Hreg; [by exists cur|].
  destruct (read_entry_reads flags delta st e es ws cur Hr Hreg) as (c1 & H1 & Hr1).
  destruct Hreg as (_ & _ & _ & Hreg). destruct (IH e c1 Hr1 Hreg) as (c2 & H2 & Hr2).
  exists c2. split; [|done]. cbn [length group_loop].
  rewrite (gen_lift_bind_run _ _ _ _ _ H1).
  rewrite (genM_bind_run _ _ c1 [CreateElfRela self e] tt c1) by done. rewrite H2, last_cons. by destruct (last es).
Qed.

Lemma read_group_header_reads g st ws cur :
  reads data cur (group_words st g ++ ws) k ->
  exists cur', read_group_header data st cur
      = Ok ((Z.of_nat (length (g_entries g)), g_flags g,
             if by_delta (g_flags g) then g_delta g else 0, group_start st g), cur') /\
    reads data cur' (entry_words (g_flags g) (group_start st g) (g_entries g) ++ ws) k.
Proof using Type.
  unfold group_words, when. cbn [app]. rewrite <- !app_assoc. intros Hr.
  destruct (PopWord_reads _ _ _ _ _ Hr) as (c1 & H1 & Hr1).
  destruct (PopWord_reads _ _ _ _ _ Hr1) as (c2 & H2 & Hr2).
  destruct (pop_if_reads _ _ _ _ _ _ 0 Hr2) as (c3 & H3 & Hr3).
  destruct (pop_if_reads _ _ _ _ _ _ (r_info st) Hr3) as (c4 & H4 & Hr4).
  destruct (pop_if_reads _ _ _ _ _ _ 0 Hr4) as (c5 & H5 & Hr5).
  exists c5. split; [|done]. unfold read_group_header.
  rewrite (stM_bind_run _ _ _ _ _ H1), (stM_bind_run _ _ _ _ _ H2), (stM_bind_run _ _ _ _ _ H3),
    (stM_bind_run _ _ _ _ _ H4), (stM_bind_run _ _ _ _ _ H5).
  unfold group_start, mret, stM_ret, by_info, by_addend, has_addend.
  do 4 f_equal. repeat case_match; simplify_eq/=; lia || done.
Qed.
Lemma groups_loop_reads gs st total current fuel cur :
  reads data cur (groups_words st gs) k -> valid_groups st gs -> (length gs < fuel)%nat ->
  total = current + Z.of_nat (length (relocations gs)) ->
  exists cur', groups_loop self fuel data total current st cur
    = (CreateElfRela self <$> relocations gs, Ok (tt, cur')).
Proof using Type.
  revert st total current fuel cur.
  induction gs as [|g gs IH]; intros st total current fuel cur Hr Hv Hf Ht;
    (destruct fuel as [|fuel]; [simpl in Hf; lia|]); cbn [groups_loop].
  - simpl in Ht. exists cur. by rewrite (proj2 (Z.ltb_ge _ _)) by lia.
  - destruct Hv as (Hne & Hreg & Hv). unfold relocations in *. csimpl in Ht.
    rewrite length_app in Ht.
    assert (0 < length (g_entries g))%nat by (destruct (g_entries g); [done|simpl; lia]).
    rewrite (proj2 (Z.ltb_lt _ _)) by lia.
    destruct (read_group_header_reads g st _ cur Hr) as (c1 & H1 & Hr1).
    rewrite (gen_lift_bind_run _ _ _ _ _ H1). rewrite Nat2Z.id.
    destruct (group_loop_reads (g_flags g) (if by_delta (g_flags g) then g_delta g else 0)
      _ _ _ _ Hr1) as (c2 & H2 & Hr2).
    { revert Hreg. generalize (group_start st g). generalize (g_entries g). clear.
      intros es. induction es as [|e es IH]; intros st; [done|]. cbn [regular].
      intros (Hd & Hi & Ha & Hreg). split_and!; auto. intros Hb. rewrite Hb. auto. }
    rewrite (genM_bind_run _ _ _ _ _ _ H2).
    destruct (IH (group_end st g) total (current + Z.of_nat (length (g_entries g))) fuel c2 Hr2 Hv)
      as (c3 & H3); [simpl in Hf; lia|lia|].
    exists c3. unfold group_end in H3. rewrite H3. csimpl. by rewrite fmap_app.
Qed.
End decode.

Lemma groups_words_length st gs : (2 * length gs <= length (groups_words st gs))%nat.
Proof.
  revert st. induction gs as [|g gs IH]; intros st; simpl; [lia|].
  rewrite length_app. specialize (IH (group_end st g)). simpl. lia.
Qed.

(** C22: Unpacking a packed section of relocations gives back the relocations that were
    packed, all of them and in order. The section is the four letters APS2, the words of
    the stream and any padding, at the place and with the size that its header says, in a
    file that can be sought; the words are the number of relocations, the first offset and
    the groups, each in any of its SLEB128 encodings; a group is not empty and its flags
    may factor out the offset delta, the info and the addend when its entries have them in
    common. *)
Theorem UnpackAndroidRela_roundtrip self sh offset gs stream padding :
  seekable (ep_file self) ->
  encodes (aps2_words offset gs) stream -> valid_groups (mk_rela offset 0 0) gs ->
  attr sh "sh_size" = Z.of_nat (length (bs "APS2" ++ stream ++ padding)) ->
  elf_holds (ep_file self) (attr sh "sh_offset") (bs "APS2" ++ stream ++ padding) ->
  UnpackAndroidRela self sh = (CreateElfRela self <$> relocations gs, Ok tt).
Proof.
  intros Hf Henc Hv Hsize Hh. unfold UnpackAndroidRela. rewrite Hsize, SeekRead_holds by done.
  set (data := bs "APS2" ++ stream ++ padding).
  rewrite (proj2 (Nat.ltb_ge _ _)) by (unfold data; rewrite length_app; simpl; lia).
  rewrite bool_decide_eq_true_2 by (unfold data; by rewrite take_app_length'). cbn [orb negb].
  assert (Hr : reads data 4 (aps2_words offset gs) padding) 
    by (exists (bs "APS2"), stream; by split_and!).
  unfold aps2_words in Hr. cbn [app] in Hr. unfold unpack_words.
  destruct (PopWord_reads _ _ _ _ _ Hr) as (c1 & H1 & Hr1).
  destruct (PopWord_reads _ _ _ _ _ Hr1) as (c2 & H2 & Hr2).
  rewrite (gen_lift_bind_run _ _ _ _ _ H1), (gen_lift_bind_run _ _ _ _ _ H2).
  destruct (groups_loop_reads self data padding gs (mk_rela offset 0 0)
    (Z.of_nat (length (relocations gs))) 0 (S (length data)) c2) as (c3 & ->); try done.
  unfold data. rewrite !length_app. apply encodes_length in Henc.
  unfold aps2_words in Henc. rewrite length_app in Henc.
  pose proof (groups_words_length (mk_rela offset 0 0) gs). lia.
Qed.

(** *** The loop over the groups ends *)
Lemma sleb_loop_moves fuel data cur z1 z2 v s b c :
  sleb_loop fuel data cur z1 z2 = Ok (v, s, b, c) -> cur < c.
Proof.
  revert cur z1 z2. induction fuel as [|fuel IH]; intros cur z1 z2; cbn [sleb_loop]; [done|].
  destruct (py_get data cur) as [x|]; cbn [mbind pyres_bind]; [|done].
  case_match; [intros [= _ _ _ <-]; lia|]. intros Hl%IH. lia.
Qed.

Lemma PopWord_moves data cur w cur' : PopWord data cur = Ok (w, cur') -> cur < cur'.
Proof.
  unfold PopWord, DecodeSLEB128. destruct (_ <? _); [|done].
  destruct (sleb_loop _ _ _ _ _) as [[[[v s] b] c]|e] eqn:Hl; simpl; [|by destruct e].
  apply sleb_loop_moves in Hl. intros [= _ <-]. lia.
Qed.

Lemma PopWord_end data cur : Z.of_nat (length data) <= cur -> PopWord data cur = Raise ElfError.
Proof. intros Hc. unfold PopWord. by rewrite (proj2 (Z.ltb_ge _ _)). Qed.

Definition advances {A} (m : stM Z A) : Prop := forall cur a cur', m cur = Ok (a, cur') -> cur <= cur'.

Lemma advances_bind {A B} (m : stM Z A) (f : A -> stM Z B) :
  advances m -> (forall a, advances (f a)) -> advances (m ≫= f).
Proof.
  intros Hm Hf cur b cur' (a & c & H1%Hm & H2%Hf)%stM_bind_Ok. lia.
Qed.

Lemma advances_ret {A} (a : A) : advances (mret a).
Proof. intros cur b cur' [= _ ->]. lia. Qed.

Lemma advances_pop data : advances (PopWord data).
Proof. intros cur w cur' Hp%PopWord_moves. lia. Qed.

Lemma advances_pop_if b data o : advances (pop_if b data o).
Proof. destruct b; [apply advances_pop|apply advances_ret]. Qed.

Create HintDb elf.
#[export] Hint Resolve advances_ret advances_pop advances_pop_if : elf.
Ltac advance := repeat (cbv zeta; first [solve [auto with elf] | apply advances_bind; [|intros ?]]).

Lemma advances_read_entry data flags delta st : advances (read_entry data flags delta st).
Proof. unfold read_entry. advance. Qed.

Lemma read_group_header_moves data st cur r cur' :
  read_group_header data st cur = Ok (r, cur') -> cur < cur'.
Proof.
  unfold read_group_header. intros (n & c & H1%PopWord_moves & H2)%stM_bind_Ok.
  match type of H2 with ?m c = _ => assert (advances m) as Ha by advance end.
  apply Ha in H2. lia.
Qed.

Lemma group_loop_advances self n data flags delta st cur l st' cur' :
  group_loop self n data flags delta st cur = (l, Ok (st', cur')) -> cur <= cur'.
Proof.
  revert st cur l. induction n as [|n IH]; intros st cur l; [intros [= _ _ ->]; lia|].
  cbn [group_loop]. unfold gen_lift, mbind, genM_bind.
  destruct (read_entry data flags delta st cur) as [[e c]|x] eqn:He; [|done].
  apply advances_read_entry in He. cbn [gen_yield].
  destruct (group_loop self n data flags delta e c) as [l2 r] eqn:Hg.
  intros [= _ ->]. apply IH in Hg. lia.
Qed.

Lemma groups_loop_fuel self data total fuel1 fuel2 current st cur :
  Z.of_nat (length data) - cur < Z.of_nat fuel1 -> Z.of_nat (length data) - cur < Z.of_nat fuel2 ->
  (0 < fuel1)%nat -> (0 < fuel2)%nat ->
  groups_loop self fuel1 data total current st cur = groups_loop self fuel2 data total current st cur.
Proof.
  revert fuel2 current st cur.
  induction fuel1 as [|fuel1 IH]; intros [|fuel2] current st cur H1 H2 Hp1 Hp2; try lia.
  cbn [groups_loop]. destruct (current <? total); [|done].
  unfold gen_lift, mbind, genM_bind.
  destruct (read_group_header data st cur) as [[[[[n flags] delta] st1] c1]|x] eqn:Hh; [|done].
  destruct (Z.le_gt_cases (Z.of_nat (length data)) cur) as [Hend|Hin].
  { unfold read_group_header in Hh. apply stM_bind_Ok in Hh as (? & ? & Hp & _).
    by rewrite PopWord_end in Hp. }
  apply read_group_header_moves in Hh.
  destruct (group_loop self (Z.to_nat n) data flags delta st1 c1) as [l [[st2 c2]|x]] eqn:Hg; [|done].
  apply group_loop_advances in Hg.
  by rewrite (IH fuel2) by lia.
Qed.

(** Unpacking always ends, on any bytes: the loop over the groups gives the
    same result with any fuel above the length of the data, since every turn
    consumes a word. *)
Theorem groups_loop_terminates self data total st cur extra :
  0 <= cur ->
  groups_loop self (S (length data) + extra) data total 0 st cur
  = groups_loop self (S (length data)) data total 0 st cur.
Proof. intros Hc. apply groups_loop_fuel; lia. Qed.

(** ** RELR

    A run starts at an address; each bitmap after it covers the words that
    follow, one bit a word. *)
Record relr_run := mk_run { run_start : Z; run_bitmaps : list (list bool) }.

(** Bit 0 marks a bitmap. *)
Fixpoint bitmap_word (bits : list bool) : Z :=
  match bits with
  | [] => 0
  | b :: bits => 2 * bitmap_word bits + Z.b2z b
  end.
Definition bitmap_entry (bits : list bool) : Z := 2 * bitmap_word bits + 1.

Definition run_entries (r : relr_run) : list Z := run_start r :: (bitmap_entry <$> run_bitmaps r).

Lemma bitmap_entry_odd bits : Z.land (bitmap_entry bits) 1 = 1.
Proof.
  unfold bitmap_entry. change 1 with (Z.ones 1) at 2. rewrite Z.land_ones by lia.
  change (2 ^ 1) with 2. by rewrite Z.add_comm, Z.mul_comm, Z.mod_add by lia.
Qed.

Lemma bitmap_word_bound bits : 0 <= bitmap_word bits < 2 ^ Z.of_nat (length bits).
Proof.
  induction bits as [|b bits IH]; [simpl; lia|]. cbn [length bitmap_word].
  rewrite Nat2Z.inj_succ, Z.pow_succ_r by lia. destruct b; simpl Z.b2z; lia.
Qed.

Section relr.
Context (self : ElfParser).
Let size := addr_size self.

(** The addresses of the set bits, the first bit standing for [base]. *)
Fixpoint bits_addresses (base : Z) (bits : list bool) : list Z :=
  match bits with
  | [] => []
  | b :: bits => (if b then [base] else []) ++ bits_addresses (base + size) bits
  end.

Definition run_addresses (r : relr_run) : list Z :=
  run_start r :: bits_addresses (run_start r + size) (mjoin (run_bitmaps r)).

(** Addresses are even and fill a word, bitmaps have all bits but the marker. *)
Definition valid_run (r : relr_run) : Prop :=
  Z.even (run_start r) = true /\ 0 <= run_start r < 2 ^ (8 * size) /\
  Forall (fun bits => Z.of_nat (length bits) = 8 * size - 1) (run_bitmaps r).

Definition relr_word (z : Z) : pystr := le_encode (Z.to_nat size) z.

Lemma size_pos : 4 <= size.
Proof. unfold size, addr_size. by destruct (ep_class self). Qed.

Lemma relr_bits_spec bits bit_idx entry base :
  0 <= bit_idx -> Z.shiftr entry bit_idx = bitmap_word bits ->
  relr_bits self (length bits) bit_idx entry base
  = (bits_addresses base bits, base + Z.of_nat (length bits) * size).
Proof.
  revert bit_idx base. induction bits as [|b bits IH]; intros bit_idx base Hb He.
  - simpl. f_equal. lia.
  - cbn [length relr_bits bitmap_word bits_addresses]. fold size.
    assert (Hnext : Z.shiftr entry (bit_idx + 1) = bitmap_word bits).
    { rewrite <- Z.shiftr_shiftr, He by lia.
      cbn [bitmap_word]. rewrite Z.shiftr_div_pow2 by lia. change (2 ^ 1) with 2.
      rewrite Z.mul_comm, Z.div_add_l by lia.
      rewrite (Z.div_small (Z.b2z b)) by (destruct b; simpl; lia). lia. }
    rewrite (IH (bit_idx + 1) (base + size)) by (done || lia).
    assert (Z.land (Z.shiftr entry bit_idx) 1 = Z.b2z b) as ->.
    { rewrite He. cbn [bitmap_word]. change 1 with (Z.ones 1). rewrite Z.land_ones by lia.
      change (2 ^ 1) with 2. rewrite Z.add_comm, Z.mul_comm, Z.mod_add by lia. by destruct b. }
    destruct b; simpl; f_equal; lia.
Qed.

Lemma bits_addresses_app base b1 b2 :
  bits_addresses base (b1 ++ b2)
  = bits_addresses base b1 ++ bits_addresses (base + Z.of_nat (length b1) * size) b2.
Proof.
  revert base. induction b1 as [|b b1 IH]; intros base; simpl.
  - f_equal. lia.
  - rewrite IH, <- app_assoc. do 3 f_equal. lia.
Qed.

Lemma relr_entry_bitmap base bits :
  Z.of_nat (length bits) = 8 * size - 1 ->
  relr_entry self size base (bitmap_entry bits)
  = (bits_addresses base bits, base + Z.of_nat (length bits) * size).
Proof.
  intros Hl. unfold relr_entry. rewrite bitmap_entry_odd. cbn [Z.eqb].
  replace (Z.to_nat (size * 8 - 1)) with (length bits) by lia.
  apply relr_bits_spec; [lia|]. unfold bitmap_entry. rewrite Z.shiftr_div_pow2 by lia.
  change (2 ^ 1) with 2. by rewrite Z.mul_comm, Z.div_add_l, Z.add_0_r by lia.
Qed.

Lemma relr_entry_address base a :
  Z.even a = true -> relr_entry self size base a = ([a], a + size).
Proof.
  intros He. unfold relr_entry. change 1 with (Z.ones 1). rewrite Z.land_ones by lia.
  change (2 ^ 1) with 2. rewrite Zmod_even, He. done.
Qed.

(** *** A table of entries in the file *)
Definition entries_at (off : Z) (ws : list Z) : Prop :=
  forall i w, ws !! i = Some w -> 0 <= w < 2 ^ (8 * size) /\
    elf_holds (ep_file self) (off + Z.of_nat i * size) (relr_word w).

Context (Hf : seekable (ep_file self)).

Lemma seek_read_entry_holds off w :
  0 <= w < 2 ^ (8 * size) -> elf_holds (ep_file self) off (relr_word w) ->
  seek_read_entry self off = Ok w.
Proof.
  unfold seek_read_entry, relr_word, size, addr_size.
  assert (Hread : forall n : nat, 0 <= w < 2 ^ (8 * Z.of_nat n) ->
    elf_holds (ep_file self) off (le_encode n w) -> SeekReadUint n (ep_file self) off = Ok w).
  { intros n Hw Hh. unfold SeekReadUint. rewrite <- (length_le_encode n w) at 1.
    rewrite SeekRead_holds by done. cbn [mbind pyres_bind].
    apply (unpack_uint_encode Little). rewrite (Z.pow_mul_r 2 8) in Hw by lia. exact Hw. }
  destruct (ep_class self); intros Hw Hh; [apply (Hread 4%nat)|apply (Hread 8%nat)]; done.
Qed.

(** The loop over the values of the entries, without the file. *)
Fixpoint relr_items (base : Z) (ws : list Z) : list Z :=
  match ws with
  | [] => []
  | w :: ws => (relr_entry self size base w).1 ++ relr_items (relr_entry self size base w).2 ws
  end.

Lemma relr_loop_items offs ws base :
  Forall2 (fun o w => seek_read_entry self o = Ok w) offs ws ->
  relr_loop self offs size base = ((fun a => CreateElfRel self a 0) <$> relr_items base ws, Ok tt).
Proof.
  intros Hall. revert base. induction Hall as [|o w offs ws Ho Hall IH]; intros base; [done|].
  cbn [relr_loop relr_items]. rewrite Ho. destruct (relr_entry self size base w) as [l o'].
  rewrite IH. simpl. by rewrite fmap_app.
Qed.

Lemma relr_items_bitmaps bitmaps rest base :
  Forall (fun bits => Z.of_nat (length bits) = 8 * size - 1) bitmaps ->
  relr_items base ((bitmap_entry <$> bitmaps) ++ rest)
  = bits_addresses base (mjoin bitmaps)
    ++ relr_items (base + Z.of_nat (length (mjoin bitmaps)) * size) rest.
Proof.
  intros Hall. revert base. induction Hall as [|bits bitmaps Hb Hall IH]; intros base; simpl.
  - f_equal. lia.
  - rewrite relr_entry_bitmap by done. cbn [fst snd]. rewrite IH.
    rewrite bits_addresses_app, length_app, <- app_assoc. do 3 f_equal. lia.
Qed.

Lemma relr_items_runs runs base :
  Forall valid_run runs -> relr_items base (mjoin (run_entries <$> runs)) = mjoin (run_addresses <$> runs).
Proof.
  intros Hall. revert base. induction Hall as [|r runs (He & _ & Hb) Hall IH]; intros base; [done|].
  csimpl. unfold run_entries at 1. cbn [app relr_items].
  rewrite relr_entry_address by done. cbn [fst snd app].
  rewrite relr_items_bitmaps by done. by rewrite IH.
Qed.

Lemma run_entries_word runs w :
  Forall valid_run runs -> w ∈ mjoin (run_entries <$> runs) -> 0 <= w < 2 ^ (8 * size).
Proof.
  rewrite Forall_forall. intros Hv (l & Hw & (r & -> & Hr)%list_elem_of_fmap)%list_elem_of_join.
  destruct (Hv r Hr) as (_ & Hs & Hb). apply elem_of_cons in Hw as [->|Hw]; [done|].
  apply list_elem_of_fmap in Hw as (bits & -> & Hbits). rewrite Forall_forall in Hb.
  pose proof (bitmap_word_bound bits) as Hw. rewrite (Hb bits Hbits) in Hw. unfold bitmap_entry.
  replace (8 * size) with (Z.succ (8 * size - 1)) by lia. rewrite Z.pow_succ_r; [lia|].
  pose proof size_pos. lia.
Qed.

Lemma py_range_table off n :
  py_range off (off + Z.of_nat n * size) size = Ok ((fun i => off + Z.of_nat i * size) <$> seq 0 n).
Proof.
  pose proof size_pos. unfold py_range. rewrite (proj2 (Z.eqb_neq _ _)), (proj2 (Z.ltb_lt _ _)) by lia.
  replace (off + Z.of_nat n * size - off + size - 1) with (Z.of_nat n * size + (size - 1)) by lia.
  by rewrite Z.div_add_l, (Z.div_small (size - 1)), Z.add_0_r, Nat2Z.id by lia.
Qed.

Lemma DecodeAndroidRelr_runs sh runs :
  Forall valid_run runs ->
  attr sh "sh_entsize" = size ->
  attr sh "sh_size" = Z.of_nat (length (mjoin (run_entries <$> runs))) * size ->
  (forall i w, mjoin (run_entries <$> runs) !! i = Some w ->
     elf_holds (ep_file self) (attr sh "sh_offset" + Z.of_nat i * size) (relr_word w)) ->
  DecodeAndroidRelr self sh
  = ((fun a => CreateElfRel self a 0) <$> mjoin (run_addresses <$> runs), Ok tt).
Proof.
  intros Hv He Hs Hh. unfold DecodeAndroidRelr. rewrite He, Hs, py_range_table.
  rewrite (relr_loop_items _ (mjoin (run_entries <$> runs))); [by rewrite relr_items_runs|].
  apply Forall2_same_length_lookup. split; [by rewrite length_fmap, length_seq|].
  intros i o w Ho Hw. rewrite list_lookup_fmap in Ho.
  apply fmap_Some in Ho as (j & [-> _]%lookup_seq & ->). apply seek_read_entry_holds; [|by apply Hh].
  eapply run_entries_word; [done|]. by eapply list_elem_of_lookup_2.
Qed.
End relr.

(** Decoding a RELR section gives back, in order, the start of each run and
    one relocation for every set bit of its bitmaps, at the address of the word
    the bit stands for, for both word sizes. *)
Theorem DecodeAndroidRelr_roundtrip self sh runs :
  seekable (ep_file self) -> Forall (valid_run self) runs ->
  attr sh "sh_entsize" = addr_size self ->
  attr sh "sh_size" = Z.of_nat (length (mjoin (run_entries <$> runs))) * addr_size self ->
  (forall i w, mjoin (run_entries <$> runs) !! i = Some w ->
     elf_holds (ep_file self) (attr sh "sh_offset" + Z.of_nat i * addr_size self)
       (relr_word self w)) ->
  DecodeAndroidRelr self sh
  = ((fun a => CreateElfRel self a 0) <$> mjoin (run_addresses self <$> runs), Ok tt).
Proof. intros Hf. by apply DecodeAndroidRelr_runs. Qed.

(** ** Concrete sections *)
Definition file_elf (content : pystr) : ElfParser :=
  mk_elf (mk_file content 0) Class32 sample_ehdr [].

Definition sample_groups : list rela_group :=
  [mk_group 3 4 0x17 0 [mk_rela 0x1004 0x17 0; mk_rela 0x1008 0x17 0; mk_rela 0x100c 0x17 0];
   mk_group 8 0 0 0 [mk_rela 0x2000 0x102 16; mk_rela 0x2010 0x202 (-4)]].
Definition sample_stream : pystr := mjoin (EncodeSLEB128 <$> aps2_words 0x1000 sample_groups).
Definition aps2_file : ElfParser := file_elf (bs "APS2" ++ sample_stream ++ [Byte.x00]).
Definition aps2_section : cobject :=
  new_object Elf32_Shdr [("sh_type"%string, SHT_ANDROID_RELA);
    ("sh_size"%string, Z.of_nat (5 + length sample_stream))].

Lemma UnpackAndroidRela_roundtrip_witness :
  UnpackAndroidRela aps2_file aps2_section
  = (CreateElfRela aps2_file <$> relocations sample_groups, Ok tt).
Proof.
  apply (UnpackAndroidRela_roundtrip aps2_file aps2_section 0x1000 sample_groups sample_stream
    [Byte.x00]).
  - split; [done|vm_compute; reflexivity].
  - apply encodes_map.
  - repeat split; try discriminate; intros; simpl in *; done.
  - vm_compute. reflexivity.
  - apply holds_b_holds. vm_compute. reflexivity.
Defined.

Lemma groups_loop_terminates_witness :
  groups_loop aps2_file 3 [Byte.x01; Byte.x80] 5 0 (mk_rela 0 0 0) 0
  = groups_loop aps2_file 10 [Byte.x01; Byte.x80] 5 0 (mk_rela 0 0 0) 0.
Proof.
  symmetry.
  apply (groups_loop_terminates aps2_file [Byte.x01; Byte.x80] 5 (mk_rela 0 0 0) 0 7). lia.
Defined.

Definition sample_runs : list relr_run :=
  [mk_run 0x1000 [replicate 30 false ++ [true]]; mk_run 0x3000 [true :: replicate 30 false]].
Definition relr_file : ElfParser :=
  file_elf (mjoin (le_encode 4 <$> mjoin (run_entries <$> sample_runs))).
Definition relr_section : cobject :=
  new_object Elf32_Shdr [("sh_type"%string, SHT_RELR); ("sh_size"%string, 16);
    ("sh_entsize"%string, 4)].

Lemma DecodeAndroidRelr_roundtrip_witness :
  DecodeAndroidRelr relr_file relr_section
  = ((fun a => CreateElfRel relr_file a 0) <$> [0x1000; 0x107c; 0x3000; 0x3004], Ok tt).
Proof.
  rewrite (DecodeAndroidRelr_roundtrip relr_file relr_section sample_runs).
  - vm_compute. reflexivity.
  - split; [done|vm_compute; reflexivity].
  - repeat constructor; vm_compute; reflexivity || discriminate.
  - vm_compute. reflexivity.
  - vm_compute. reflexivity.
  - intros i w Hw. apply holds_b_holds.
    assert (forallb (fun '(i, w) => holds_b (ef_content (ep_file relr_file))
      (ef_begin (ep_file relr_file) + (attr relr_section "sh_offset"
        + Z.of_nat i * addr_size relr_file)) (relr_word relr_file w))
      (imap pair (mjoin (run_entries <$> sample_runs))) = true) as Hall by (vm_compute; reflexivity).
    rewrite forallb_forall in Hall. apply (Hall (i, w)), list_elem_of_In, list_elem_of_lookup.
    exists i. by rewrite list_lookup_imap, Hw.
Defined.
