(* ===== verification/Vtable.v ===== *)
(** * The vtable dumper

    utils/python/library/vtable/vtable_dumper.py: [VtableDumper] finds the
    vtables among the symbols of an ELF file and fills them from the
    relocations that target them. *)

From Stdlib Require Import Strings.Byte.
From S2P Require Import Prelude PyStr PySort ElfStructs ElfParser.

Local Open Scope Z_scope.

Record VtableEntry := mk_entry {
  ve_offset : Z;
  ve_names : list pystr;
  ve_value : Z;
  ve_undefined : bool;
}.

Record Vtable := mk_vtable {
  vt_name : pystr;
  begin_addr : Z;
  end_addr : Z;
  vt_entries : list VtableEntry;
}.

Definition set_entries (l : list VtableEntry) (v : Vtable) : Vtable :=
  mk_vtable (vt_name v) (begin_addr v) (end_addr v) l.

(** [_LocateVtable]: the position in the list of the vtable it returns. *)
Definition LocateVtable (vtables : list Vtable) (offset : Z) : option nat :=
  let idx := bisect begin_addr vtables offset in
  match idx with
  | O => None
  | S i =>
      v ← vtables !! i;
      if (begin_addr v <=? offset) && (offset <? end_addr v) then Some i else None
  end.

Definition symtab_names : list pystr := [SYMTAB; DYNSYM].

Definition sh_rel_types : list Z :=
  [SHT_REL; SHT_RELA; SHT_RELR; SHT_ANDROID_REL; SHT_ANDROID_RELA; SHT_ANDROID_RELR].

(** The dictionary [rel_type]: absolute and relative types of a machine. *)
Definition rel_type (machine : Z) : option (Z * Z) :=
  if machine =? EM_ARM then Some (R_ARM_ABS32, R_ARM_RELATIVE)
  else if machine =? EM_AARCH64 then Some (R_AARCH64_ABS64, R_AARCH64_RELATIVE)
  else if machine =? EM_386 then Some (R_386_32, R_386_RELATIVE)
  else if machine =? EM_X86_64 then Some (R_X86_64_64, R_X86_64_RELATIVE)
  else None.

Section dumper.
Context (self : ElfParser).
Let f := ep_file self.
Let c := ep_class self.

(** The loop over the symbols of both symbol tables. *)
Definition fold_symbols {A} (step : cobject -> A -> cobject -> pyres A) (a : A) : pyres A :=
  foldlM_py (fun a symtab_name =>
    symtab ← GetSectionByName self symtab_name;
    match symtab with
    | None => Ok a
    | Some symtab =>
        strtab ← py_get (ep_Shdr self) (attr symtab "sh_link");
        syms ← GetSymbols self symtab;
        gen_fold (step strtab) a syms
    end) a symtab_names.

Definition vtable_step (strtab : cobject) (acc : list Vtable * gset pystr) (sym : cobject)
    : pyres (list Vtable * gset pystr) :=
  let '(vtables, vtable_names) := acc in
  if attr sym "st_shndx" =? SHN_UNDEF then Ok acc
  else
    sym_name ← GetString self strtab (attr sym "st_name");
    if startswith (bs "_ZTV") sym_name && negb (bool_decide (sym_name ∈ vtable_names)) then
      let vtable_begin := attr sym "st_value" in
      let vtable_end := attr sym "st_value" + attr sym "st_size" in
      Ok (vtables ++ [mk_vtable sym_name vtable_begin vtable_end []], {[sym_name]} ∪ vtable_names)
    else Ok acc.

Definition PrepareVtables : pyres (list Vtable) :=
  '(vtables, _) ← fold_symbols vtable_step ([], ∅);
  Ok (sort_by begin_addr vtables).

Definition is_function_def (sym : cobject) : bool :=
  ((Sym_GetType sym =? STT_OBJECT) || (Sym_GetType sym =? STT_FUNC))
  && negb (attr sym "st_shndx" =? SHN_UNDEF).

Definition inverse_step (strtab : cobject) (inv_table : gmap Z (list pystr)) (sym : cobject)
    : pyres (gmap Z (list pystr)) :=
  if is_function_def sym then
    sym_name ← GetString self strtab (attr sym "st_name");
    let value := attr sym "st_value" in
    Ok (match inv_table !! value with
        | Some names => <[value := names ++ [sym_name]]> inv_table
        | None => <[value := [sym_name]]> inv_table
        end)
  else Ok inv_table.

(** The last loop of [_FunctionSymbolInverseTable]. *)
Definition sort_names (inv_table : gmap Z (list pystr)) : gmap Z (list pystr) :=
  sorted_set <$> inv_table.

Definition FunctionSymbolInverseTable : pyres (gmap Z (list pystr)) :=
  inv_table ← fold_symbols inverse_step ∅;
  Ok (sort_names inv_table).

(** [_SeekReadStruct(offset, self.Elf_Addr).value] *)
Definition read_addr (offset : Z) : pyres Z :=
  raw ← SeekRead f offset (Z.of_nat (csize (Elf_Addr c)));
  if (length raw <? csize (Elf_Addr c))%nat then Raise ElfError
  else Ok (c_decode (Elf_Addr c) (take (csize (Elf_Addr c)) raw)).

Fixpoint addend_loop (sections : list cobject) (r_offset : Z) : pyres Z :=
  match sections with
  | [] => Raise VtableError
  | sh :: sections =>
      let sh_begin := attr sh "sh_addr" in
      let sh_end := attr sh "sh_addr" + attr sh "sh_size" in
      if (sh_begin <=? r_offset) && (r_offset <? sh_end) then
        if attr sh "sh_type" =? SHT_NOBITS then Ok 0
        else read_addr (r_offset - attr sh "sh_addr" + attr sh "sh_offset")
      else addend_loop sections r_offset
  end.
Definition ReadRelocationAddend (reloc : cobject) : pyres Z :=
  addend_loop (ep_Shdr self) (attr reloc "r_offset").

Definition RelocationSections : list cobject :=
  filter (fun sh => attr sh "sh_type" ∈ sh_rel_types) (ep_Shdr self).

(** The value of an entry, its names and whether its symbol is undefined. *)
Definition entry_of (inv_table : gmap Z (list pystr)) (symtab strtab : cobject)
    (is_absolute_type : bool) (reloc : cobject) (addend : Z)
    : pyres (Z * list pystr * bool) :=
  if is_absolute_type then
    sym ← GetRelocationSymbol self symtab reloc;
    let reloc_value := attr sym "st_value" + addend in
    let sym_is_undefined := attr sym "st_shndx" =? SHN_UNDEF in
    match inv_table !! reloc_value with
    | Some names => Ok (reloc_value, names, sym_is_undefined)
    | None =>
        sym_name ← GetString self strtab (attr sym "st_name");
        Ok (reloc_value, [sym_name], sym_is_undefined)
    end
  else Ok (addend, default [] (inv_table !! addend), false).

Definition is_rela_section (rel_sh : cobject) : bool :=
  (attr rel_sh "sh_type" =? SHT_RELA) || (attr rel_sh "sh_type" =? SHT_ANDROID_RELA).
Definition is_relr_section (rel_sh : cobject) : bool :=
  (attr rel_sh "sh_type" =? SHT_RELR) || (attr rel_sh "sh_type" =? SHT_ANDROID_RELR).

(** The body of the loop over the relocations of a section. *)
Definition reloc_step (types : Z * Z) (inv_table : gmap Z (list pystr)) (rel_sh symtab strtab : cobject)
    (vtables : list Vtable) (reloc : cobject) : pyres (list Vtable) :=
  let is_relr := is_relr_section rel_sh in
  let is_absolute_type := negb is_relr && (Rel_GetType c reloc =? types.1) in
  let is_relative_type := is_relr || (Rel_GetType c reloc =? types.2) in
  if negb is_absolute_type && negb is_relative_type then Ok vtables
  else
    match LocateVtable vtables (attr reloc "r_offset") with
    | None => Ok vtables
    | Some i =>
        addend ← (if is_rela_section rel_sh then Ok (attr reloc "r_addend")
                  else ReadRelocationAddend reloc);
        '(reloc_value, entry_names, sym_is_undefined) ←
          entry_of inv_table symtab strtab is_absolute_type reloc addend;
        Ok (alter (fun v => set_entries (vt_entries v ++
              [mk_entry (attr reloc "r_offset" - begin_addr v) entry_names reloc_value
                 sym_is_undefined]) v) i vtables)
    end.

Definition section_step (types : Z * Z) (inv_table : gmap Z (list pystr))
    (vtables : list Vtable) (rel_sh : cobject) : pyres (list Vtable) :=
  symtab ← py_get (ep_Shdr self) (attr rel_sh "sh_link");
  strtab ← py_get (ep_Shdr self) (attr symtab "sh_link");
  relocs ← GetRelocations self rel_sh;
  gen_fold (reloc_step types inv_table rel_sh symtab strtab) vtables relocs.

(** [vtable.entries.sort()] *)
Definition sort_entries (v : Vtable) : Vtable := set_entries (sort_by ve_offset (vt_entries v)) v.

Definition sort_all (vtables : list Vtable) : list Vtable := sort_entries <$> vtables.

Definition DumpVtables : pyres (list Vtable) :=
  types ← from_opt VtableError (rel_type (attr (ep_Ehdr self) "e_machine"));
  vtables ← PrepareVtables;
  inv_table ← FunctionSymbolInverseTable;
  vtables ← foldlM_py (section_step types inv_table) vtables RelocationSections;
  Ok (sort_all vtables).
End dumper.

(** ** Locating *)
Definition in_vtable (v : Vtable) (offset : Z) : Prop := begin_addr v <= offset < end_addr v.

Definition vtables_sorted (vtables : list Vtable) : Prop :=
  StronglySorted (fun a b => begin_addr a <= begin_addr b) vtables.

(** Ranges of different vtables share no address. *)
Definition vtables_disjoint (vtables : list Vtable) : Prop :=
  forall i j a b, vtables !! i = Some a -> vtables !! j = Some b -> (i < j)%nat ->
    end_addr a <= begin_addr b.

Lemma LocateVtable_in vtables offset i :
  LocateVtable vtables offset = Some i -> exists v, vtables !! i = Some v /\ in_vtable v offset.
Proof.
  unfold LocateVtable. destruct (bisect _ _ _) as [|j]; [done|].
  destruct (vtables !! j) as [v|] eqn:Hv; simpl; [|done].
  destruct (Z.leb_spec (begin_addr v) offset), (Z.ltb_spec offset (end_addr v)); simpl; try done.
  intros [= <-]. by exists v.
Qed.

(** The binary search finds exactly the vtable whose range contains the
    offset, when the vtables are sorted and do not overlap. *)
Theorem LocateVtable_spec vtables offset i :
  vtables_sorted vtables -> vtables_disjoint vtables ->
  LocateVtable vtables offset = Some i <-> exists v, vtables !! i = Some v /\ in_vtable v offset.
Proof.
  intros Hs Hd. split; [apply LocateVtable_in|]. intros (v & Hv & Hin).
  destruct (bisect_spec begin_addr vtables offset Hs) as [Hle Hb].
  pose proof (proj2 (Hb i v Hv) ltac:(apply Hin)) as Hi.
  unfold LocateVtable. destruct (bisect begin_addr vtables offset) as [|j] eqn:Hj; [lia|].
  assert (i = j) as ->.
  { destruct (Nat.lt_ge_cases i j) as [Hlt|]; [|lia].
    destruct (lookup_lt_is_Some_2 vtables j) as [w Hw]; [lia|].
    pose proof (Hd i j v w Hv Hw Hlt). pose proof (proj1 (Hb j w Hw) ltac:(lia)).
    unfold in_vtable in Hin. lia. }
  rewrite Hv. simpl. destruct Hin. by rewrite (proj2 (Z.leb_le _ _)), (proj2 (Z.ltb_lt _ _)).
Qed.

(** ** Preparing *)
Lemma gen_fold_inv {Y B} (P : B -> Prop) (g : B -> Y -> pyres B) b y b' :
  (forall b y b', P b -> g b y = Ok b' -> P b') -> P b -> gen_fold g b y = Ok b' -> P b'.
Proof.
  intros Hg Hb. unfold gen_fold. intros (b1 & H1 & (? & _ & [= <-])%pyres_bind_Ok)%pyres_bind_Ok.
  by eapply foldlM_py_inv.
Qed.

Lemma fold_symbols_inv {A} self (P : A -> Prop) step (a a' : A) :
  (forall strtab a sym a', P a -> step strtab a sym = Ok a' -> P a') -> P a ->
  fold_symbols self step a = Ok a' -> P a'.
Proof.
  intros Hstep. apply foldlM_py_inv. intros b name b' Hb (o & _ & Ho)%pyres_bind_Ok.
  destruct o as [symtab|]; [|by injection Ho as <-].
  apply pyres_bind_Ok in Ho as (strtab & _ & (syms & _ & Ho)%pyres_bind_Ok).
  eapply gen_fold_inv; [|exact Hb|exact Ho]. intros. by eapply Hstep.
Qed.

Definition prepared (acc : list Vtable * gset pystr) : Prop :=
  NoDup (vt_name <$> acc.1) /\ (forall v, v ∈ acc.1 -> vt_name v ∈ acc.2) /\
  Forall (fun v => startswith (bs "_ZTV") (vt_name v) = true /\ vt_entries v = []) acc.1.

Lemma vtable_step_prepared self strtab acc sym acc' :
  prepared acc -> vtable_step self strtab acc sym = Ok acc' -> prepared acc'.
Proof.
  destruct acc as [vts names]. intros (Hnd & Hin & Hall). unfold vtable_step.
  destruct (_ =? SHN_UNDEF); [by intros [= <-]|].
  intros (name & _ & Hs)%pyres_bind_Ok. destruct (startswith _ name) eqn:Hz; simpl in Hs;
    [|by injection Hs as <-].
  case_bool_decide as Hname; simpl in Hs; [by injection Hs as <-|]. injection Hs as <-.
  split_and!; simpl in *.
  - rewrite fmap_app. apply NoDup_app. split; [done|]. split; [|apply NoDup_singleton].
    intros n (v & -> & Hv)%list_elem_of_fmap Hn. apply list_elem_of_singleton in Hn.
    simpl in Hn. rewrite <- Hn in Hname. by apply Hname, Hin.
  - intros v [Hv|Hv]%elem_of_app; [set_solver|]. apply list_elem_of_singleton in Hv as ->.
    simpl. set_solver.
  - apply Forall_app. split; [done|]. repeat constructor; done.
Qed.

Lemma PrepareVtables_prepared self vtables :
  PrepareVtables self = Ok vtables ->
  vtables_sorted vtables /\ NoDup (vt_name <$> vtables) /\
  Forall (fun v => startswith (bs "_ZTV") (vt_name v) = true /\ vt_entries v = []) vtables.
Proof.
  unfold PrepareVtables. intros ([vts names] & Hf & [= <-])%pyres_bind_Ok.
  apply (fold_symbols_inv self prepared) in Hf as (Hnd & _ & Hall).
  - split; [apply sort_by_sorted|]. by rewrite !sort_by_perm.
  - intros. by eapply vtable_step_prepared.
  - split_and!; simpl; [constructor| |constructor]. by intros v ?%not_elem_of_nil.
Qed.

(** ** Dumping *)
Definition same_ranges (l1 l2 : list Vtable) : Prop :=
  (fun v => (vt_name v, begin_addr v, end_addr v)) <$> l1
  = (fun v => (vt_name v, begin_addr v, end_addr v)) <$> l2.

Definition entries_inside (v : Vtable) : Prop :=
  Forall (fun e => 0 <= ve_offset e < end_addr v - begin_addr v) (vt_entries v).

Definition filled (start vtables : list Vtable) : Prop :=
  same_ranges vtables start /\ Forall entries_inside vtables.

Lemma reloc_step_filled self types inv rel_sh symtab strtab start vtables reloc vtables' :
  filled start vtables ->
  reloc_step self types inv rel_sh symtab strtab vtables reloc = Ok vtables' ->
  filled start vtables'.
Proof.
  intros [Hr Hall]. unfold reloc_step. cbv zeta. destruct (_ && _); [by intros [= <-]|].
  destruct (LocateVtable vtables _) as [i|] eqn:Hl; [|by intros [= <-]].
  apply LocateVtable_in in Hl as (v & Hv & Hin).
  intros (addend & _ & ([[value names] undef] & _ & [= <-])%pyres_bind_Ok)%pyres_bind_Ok. split.
  - unfold same_ranges in *. rewrite <- Hr. apply list_eq. intros j.
    rewrite !list_lookup_fmap, list_lookup_alter. case_decide as Hij; [rewrite Hij|done].
    by destruct (vtables !! j).
  - apply Forall_lookup. intros j w. rewrite list_lookup_alter. rewrite Forall_lookup in Hall.
    case_decide as Hij; [|apply Hall]. rewrite Hv. intros [= <-].
    unfold entries_inside. simpl. apply Forall_app. split; [by apply (Hall i v)|].
    constructor; [|constructor]. simpl. unfold in_vtable in Hin. lia.
Qed.

(** What [DumpVtables] returns: the vtables of the symbol tables, sorted by
    address and with distinct names that start with "_ZTV"; each entry lies
    inside its vtable, and the entries of each are in the order of their
    offsets. *)
Theorem DumpVtables_sound self vtables :
  DumpVtables self = Ok vtables ->
  vtables_sorted vtables /\ NoDup (vt_name <$> vtables) /\
  Forall (fun v => startswith (bs "_ZTV") (vt_name v) = true /\ entries_inside v /\
    StronglySorted (fun a b => ve_offset a <= ve_offset b) (vt_entries v)) vtables.
Proof.
  unfold DumpVtables. intros (types & _ & Hrest)%pyres_bind_Ok.
  apply pyres_bind_Ok in Hrest as (start & Hprep & (inv & _ & (vts & Hfold & [= <-])%pyres_bind_Ok)%pyres_bind_Ok).
  apply PrepareVtables_prepared in Hprep as (Hs & Hnd & Hz).
  assert (filled start vts) as [Hr Hin].
  { eapply (foldlM_py_inv (filled start)); [| |exact Hfold].
    - intros a sh b Ha (symtab & _ & (strtab & _ & (relocs & _ & Hb)%pyres_bind_Ok)%pyres_bind_Ok)%pyres_bind_Ok.
      eapply gen_fold_inv; [|exact Ha|exact Hb]. intros. by eapply reloc_step_filled.
    - split; [done|]. eapply Forall_impl; [exact Hz|]. intros v [_ Hv]. unfold entries_inside.
      rewrite Hv. constructor. }
  clear Hfold. unfold sort_all. assert (Hrange : forall i v, vts !! i = Some v -> exists w, start !! i = Some w /\
    vt_name v = vt_name w /\ begin_addr v = begin_addr w).
  { intros i v Hv. apply (f_equal (fun l => l !! i)) in Hr. rewrite !list_lookup_fmap, Hv in Hr.
    destruct (start !! i) as [w|]; [|done]. simpl in Hr. injection Hr as ? ? ?. by exists w. }
  split_and!.
  - assert (begin_addr <$> (sort_entries <$> vts) = begin_addr <$> start) as Hb.
    { apply list_eq. intros i. rewrite !list_lookup_fmap. destruct (vts !! i) as [v|] eqn:Hv; simpl.
      - destruct (Hrange i v Hv) as (w & -> & _ & ->). done.
      - apply (f_equal (fun l => l !! i)) in Hr. rewrite !list_lookup_fmap, Hv in Hr.
        by destruct (start !! i). }
    by eapply sorted_keys.
  - assert (vt_name <$> (sort_entries <$> vts) = vt_name <$> start) as ->; [|done].
    apply list_eq. intros i. rewrite !list_lookup_fmap. destruct (vts !! i) as [v|] eqn:Hv; simpl.
    + destruct (Hrange i v Hv) as (w & -> & -> & _). done.
    + apply (f_equal (fun l => l !! i)) in Hr. rewrite !list_lookup_fmap, Hv in Hr.
      by destruct (start !! i).
  - apply Forall_fmap, Forall_lookup. intros i v Hv. destruct (Hrange i v Hv) as (w & Hw & Hn & _).
    rewrite Forall_lookup in Hz, Hin. simpl. rewrite Hn. split; [by apply (Hz i w)|]. split.
    + unfold entries_inside. simpl. rewrite sort_by_perm. by apply (Hin i v).
    + apply sort_by_sorted.
Qed.

(** ** A concrete object with a vtable *)
Definition vt_strings : pystr :=
  [Byte.x00] ++ bs ".symtab" ++ [Byte.x00] ++ bs "_ZTV1A" ++ [Byte.x00] ++ bs "foo" ++ [Byte.x00].

Local Open Scope string_scope.

Definition vt_symbols : list cobject :=
  [new_object Elf32_Sym [];
   new_object Elf32_Sym [("st_name", 9); ("st_value", 0x1000); ("st_size", 16); ("st_info", 0x11);
                         ("st_shndx", 1)];
   new_object Elf32_Sym [("st_name", 16); ("st_value", 0x100); ("st_info", 0x12); ("st_shndx", 1)]].
Definition vt_relocs : list cobject :=
  [new_object Elf32_Rela [("r_offset", 0x1008); ("r_info", R_ARM_RELATIVE); ("r_addend", 0x100)];
   new_object Elf32_Rela [("r_offset", 0x1004); ("r_info", 0x202)];
   new_object Elf32_Rela [("r_offset", 0x2000); ("r_info", 0x202)]].
Definition vt_sections : list cobject :=
  [new_object Elf32_Shdr [("sh_type", 3); ("sh_size", 20)];
   new_object Elf32_Shdr [("sh_name", 1); ("sh_type", 2); ("sh_offset", 20); ("sh_size", 48);
                          ("sh_entsize", 16)];
   new_object Elf32_Shdr [("sh_type", SHT_RELA); ("sh_offset", 68); ("sh_size", 36);
                          ("sh_entsize", 12); ("sh_link", 1)]].
Definition vt_elf : ElfParser :=
  mk_elf (mk_file (vt_strings ++ mjoin (o_raw <$> vt_symbols) ++ mjoin (o_raw <$> vt_relocs)) 0)
    Class32 (new_object Elf32_Ehdr [("e_machine", EM_ARM)]) vt_sections.

Definition vt_dump : list Vtable :=
  [mk_vtable (bs "_ZTV1A") 0x1000 0x1010
     [mk_entry 4 [bs "foo"] 0x100 false; mk_entry 8 [bs "foo"] 0x100 false]].

Lemma DumpVtables_sound_witness :
  DumpVtables vt_elf = Ok vt_dump /\
  vtables_sorted vt_dump /\ NoDup (vt_name <$> vt_dump) /\
  Forall (fun v => startswith (bs "_ZTV") (vt_name v) = true /\ entries_inside v /\
    StronglySorted (fun a b => ve_offset a <= ve_offset b) (vt_entries v)) vt_dump.
Proof.
  assert (DumpVtables vt_elf = Ok vt_dump) as Hd by (vm_compute; reflexivity).
  split; [exact Hd|]. exact (DumpVtables_sound vt_elf vt_dump Hd).
Defined.

Lemma LocateVtable_spec_witness :
  LocateVtable vt_dump 0x100f = Some 0%nat <->
  exists v, vt_dump !! 0%nat = Some v /\ in_vtable v 0x100f.
Proof.
  apply (LocateVtable_spec vt_dump 0x100f 0).
  - repeat constructor.
  - intros [|[|i]] [|[|j]] a b Ha Hb Hij; done || lia.
Defined.
