(* ===== verification/Archive.v ===== *)
(** * Unix archives

    utils/python/archive/archive_parser.py: [Archive] splits the contents of an
    archive into its files. *)

From Stdlib Require Import Strings.Byte.
From S2P Require Import Prelude PyStr.

Local Open Scope Z_scope.

Definition GLOBAL_SIG : pystr := bs "!<arch>" ++ [Byte.x0a].
Definition STRING_TABLE_ID : pystr := bs "//".
Definition STRING_TABLE_TERMINATOR : pystr := [Byte.x2f; Byte.x0a].
Definition SYM_TABLE_ID : pystr := bs "__.SYMDEF".
Definition FILE_ID_LENGTH : Z := 16.
Definition FILE_ID_TERMINATOR : pystr := bs "/".
Definition FILE_TIMESTAMP_LENGTH : Z := 12.
Definition OWNER_ID_LENGTH : Z := 6.
Definition GROUP_ID_LENGTH : Z := 6.
Definition FILE_MODE_LENGTH : Z := 8.
Definition CONTENT_SIZE_LENGTH : Z := 10.
Definition END_TAG : pystr := [Byte.x60; Byte.x0a].

Record Archive := mk_archive {
  files : gmap pystr pystr;
  a_content : pystr;
  a_cursor : Z;
  string_table : gmap Z pystr;
}.

Definition new_Archive (file_content : pystr) : Archive := mk_archive ∅ file_content 0 ∅.

Definition set_cursor (z : Z) (a : Archive) : Archive :=
  mk_archive (files a) (a_content a) z (string_table a).
Definition set_files (fs : gmap pystr pystr) (a : Archive) : Archive :=
  mk_archive fs (a_content a) (a_cursor a) (string_table a).
Definition set_table (t : gmap Z pystr) (a : Archive) : Archive :=
  mk_archive (files a) (a_content a) (a_cursor a) t.

Definition ReadBytes (n : Z) : stM Archive pystr := fun a =>
  if Z.of_nat (length (a_content a)) <? a_cursor a + n then Raise ValueError
  else Ok (py_slice (a_content a) (a_cursor a) (a_cursor a + n), set_cursor (a_cursor a + n) a).

(** The loop over the names of the string table. *)
Definition add_names (names : list pystr) (acc : Z) (t : gmap Z pystr) : gmap Z pystr :=
  (foldl (fun '(acc, t) s =>
     (acc + Z.of_nat (length s) + Z.of_nat (length STRING_TABLE_TERMINATOR), <[acc := s]> t))
     (acc, t) names).2.

(** [name[:-1]] or the entry of the string table that the name refers to. *)
Definition resolve_name (name : pystr) (a : Archive) : pyres pystr :=
  if endswith FILE_ID_TERMINATOR name then
    Ok (py_slice name 0 (- Z.of_nat (length FILE_ID_TERMINATOR)))
  else if startswith FILE_ID_TERMINATOR name then
    offset ← py_int (drop (length FILE_ID_TERMINATOR) name);
    from_opt ValueError (string_table a !! offset)
  else Ok name.

(** What [ReadFile] does with a member. *)
Definition store_member (name content : pystr) : stM Archive unit := fun a =>
  if decide (name = STRING_TABLE_ID) then
    Ok (tt, set_table (add_names (split STRING_TABLE_TERMINATOR content) 0 (string_table a)) a)
  else if decide (name = SYM_TABLE_ID) then Ok (tt, a)
  else n ← resolve_name name a; Ok (tt, set_files (<[n := content]> (files a)) a).

Definition ReadFile : stM Archive unit :=
  field ← ReadBytes FILE_ID_LENGTH;
  _ ← ReadBytes FILE_TIMESTAMP_LENGTH;
  _ ← ReadBytes OWNER_ID_LENGTH;
  _ ← ReadBytes GROUP_ID_LENGTH;
  _ ← ReadBytes FILE_MODE_LENGTH;
  size ← ReadBytes CONTENT_SIZE_LENGTH;
  content_size ← st_lift (py_int size);
  tag ← ReadBytes (Z.of_nat (length END_TAG));
  _ ← st_lift (assert_or (bool_decide (tag = END_TAG)) ValueError);
  content ← ReadBytes content_size;
  store_member (strip field) content.

(** The [while] loop; [None] when the fuel is spent. *)
Fixpoint files_loop (fuel : nat) (a : Archive) : option (pyres Archive) :=
  match fuel with
  | O => None
  | S fuel =>
      if a_cursor a <? Z.of_nat (length (a_content a)) then
        match ReadFile a with
        | Ok (_, a) => files_loop fuel a
        | Raise e => Some (Raise e)
        end
      else Some (Ok a)
  end.

Definition archive_Parse (fuel : nat) (a : Archive) : option (pyres Archive) :=
  match ReadBytes (Z.of_nat (length GLOBAL_SIG)) a with
  | Raise e => Some (Raise e)
  | Ok (sig, a) => if decide (sig = GLOBAL_SIG) then files_loop fuel a else Some (Raise ValueError)
  end.

(** ** Writing archives *)

(** A header: the name field, 32 bytes of metadata, the size. *)
Definition header (field meta : pystr) (size : Z) : pystr :=
  pad 16 field ++ meta ++ pad 10 (str_nat size) ++ END_TAG.

Inductive member_name :=
  | Short (name : pystr)
  | Long (i : nat).      (* the [i]-th name of the string table *)

Record member := mk_member { m_name : member_name; m_meta : pystr; m_content : pystr }.

Definition table_content (names : list pystr) : pystr :=
  mjoin ((fun n => n ++ STRING_TABLE_TERMINATOR) <$> names).
Definition offset_of (names : list pystr) (i : nat) : Z :=
  Z.of_nat (length (table_content (take i names))).

Definition name_field (names : list pystr) (n : member_name) : pystr :=
  match n with
  | Short name => name ++ FILE_ID_TERMINATOR
  | Long i => FILE_ID_TERMINATOR ++ str_nat (offset_of names i)
  end.

Definition encode_member (names : list pystr) (m : member) : pystr :=
  header (name_field names (m_name m)) (m_meta m) (Z.of_nat (length (m_content m))) ++ m_content m.

(** The format aligns headers to even offsets with a newline, which the size in the
    header of a member does not count, and that in the header of the string table does. *)
Definition pad_even (l : pystr) : pystr := if Nat.odd (length l) then l ++ [Byte.x0a] else l.

(** The string table comes first, where there are long names. *)
Definition encode_table (meta : pystr) (names : list pystr) : pystr :=
  match names with
  | [] => []
  | _ =>
      let content := pad_even (table_content names) in
      header STRING_TABLE_ID meta (Z.of_nat (length content)) ++ content
  end.

Definition encode_archive (meta : pystr) (names : list pystr) (ms : list member) : pystr :=
  GLOBAL_SIG ++ encode_table meta names ++ mjoin (pad_even ∘ encode_member names <$> ms).

(** Nothing is padded after the member. *)
Definition unpadded (m : member) : bool := Nat.even (length (m_content m)).

Definition size_fits (content : pystr) : Prop :=
  (length (str_nat (Z.of_nat (length content))) <= 10)%nat.

Definition valid_member (names : list pystr) (m : member) : Prop :=
  length (m_meta m) = 32%nat /\ size_fits (m_content m) /\
  (length (name_field names (m_name m)) <= 16)%nat /\
  match m_name m with
  | Short name => name <> [] /\ name <> bs "/" /\ forallb (fun b => negb (is_space b)) name = true
  | Long i => (i < length names)%nat
  end.

Definition real_name (names : list pystr) (n : member_name) : pystr :=
  match n with Short name => name | Long i => nth i names [] end.

(** Later members overwrite earlier ones of the same name. *)
Definition contents_of (names : list pystr) (ms : list member) : gmap pystr pystr :=
  foldl (fun fs m => <[real_name names (m_name m) := m_content m]> fs) ∅ ms.

(** ** Reading what was written *)

(** [rest] is what the cursor has not passed. *)
Definition ahead (a : Archive) (rest : pystr) : Prop :=
  exists pre, a_content a = pre ++ rest /\ a_cursor a = Z.of_nat (length pre).

Definition advance (n : nat) (a : Archive) : Archive := set_cursor (a_cursor a + Z.of_nat n) a.

Lemma ReadBytes_run a l rest n :
  ahead a (l ++ rest) -> n = Z.of_nat (length l) ->
  ReadBytes n a = Ok (l, advance (length l) a) /\ ahead (advance (length l) a) rest.
Proof.
  intros (pre & Hc & Hp) ->. unfold ReadBytes. rewrite Hc, Hp.
  rewrite (proj2 (Z.ltb_ge _ _)) by (rewrite !length_app; lia). split.
  - assert (py_slice (pre ++ l ++ rest) (Z.of_nat (length pre))
      (Z.of_nat (length pre) + Z.of_nat (length l)) = l) as ->
      by (rewrite <- Nat2Z.inj_add; apply py_slice_app).
    unfold advance. by rewrite Hp.
  - exists (pre ++ l). unfold advance. simpl. rewrite Hc, Hp, <- app_assoc, length_app. split; [done|lia].
Qed.

Lemma ReadBytes_bind {B} (f : pystr -> stM Archive B) a l rest n :
  ahead a (l ++ rest) -> n = Z.of_nat (length l) ->
  (ReadBytes n ≫= f) a = f l (advance (length l) a).
Proof. intros Ha Hn. apply stM_bind_run. by eapply ReadBytes_run. Qed.

Lemma split_meta (meta : pystr) :
  length meta = 32%nat -> exists t o g m, meta = t ++ o ++ g ++ m /\
    length t = 12%nat /\ length o = 6%nat /\ length g = 6%nat /\ length m = 8%nat.
Proof.
  intros Hl. exists (take 12 meta), (take 6 (drop 12 meta)), (take 6 (drop 6 (drop 12 meta))),
    (drop 6 (drop 6 (drop 12 meta))).
  rewrite !take_drop, !length_take, !length_drop. split_and!; [done|lia..].
Qed.

Lemma advance_advance n m a : advance m (advance n a) = advance (n + m) a.
Proof. unfold advance, set_cursor. simpl. f_equal. lia. Qed.

Lemma length_header field meta size :
  (length field <= 16)%nat -> length meta = 32%nat -> (length (str_nat size) <= 10)%nat ->
  length (header field meta size) = 60%nat.
Proof.
  intros Hf Hm Hs. unfold header. rewrite !length_app, !length_pad by done. simpl. lia.
Qed.

(** One [ReadBytes] of a known field of length [n]. *)
Ltac read_field Ha Hlen n :=
  rewrite (ReadBytes_bind _ _ _ _ _ Ha) by (by rewrite Hlen);
  apply (ReadBytes_run _ _ _ n) in Ha as [_ Ha]; [|by rewrite Hlen].

(** One member: the cursor passes it and its contents are stored. *)
Lemma ReadFile_run a field meta content rest :
  (length field <= 16)%nat -> length meta = 32%nat -> size_fits content ->
  ahead a (header field meta (Z.of_nat (length content)) ++ content ++ rest) ->
  let a' := advance (60 + length content) a in
  ahead a' rest /\ ReadFile a = store_member (strip (pad 16 field)) content a'.
Proof.
  intros Hf Hm Hs Ha a'. pose proof (length_header field meta _ Hf Hm Hs) as Hlen. split.
  { destruct Ha as (pre & Hc & Hp).
    exists (pre ++ header field meta (Z.of_nat (length content)) ++ content).
    unfold a', advance. simpl. rewrite Hc, Hp, <- !app_assoc, !length_app, Hlen. split; [done|lia]. }
  destruct (split_meta meta Hm) as (t & o & g & m & -> & Ht & Ho & Hg & Hmm).
  unfold header in Ha. rewrite <- !app_assoc in Ha. unfold ReadFile.
  pose proof (length_pad 16 field Hf) as H16.
  pose proof (length_pad 10 (str_nat (Z.of_nat (length content))) Hs) as H10.
  read_field Ha H16 FILE_ID_LENGTH. read_field Ha Ht FILE_TIMESTAMP_LENGTH.
  read_field Ha Ho OWNER_ID_LENGTH. read_field Ha Hg GROUP_ID_LENGTH.
  read_field Ha Hmm FILE_MODE_LENGTH. read_field Ha H10 CONTENT_SIZE_LENGTH.
  rewrite py_int_pad by lia. erewrite stM_bind_run by done.
  rewrite (ReadBytes_bind _ _ _ _ _ Ha) by done.
  apply (ReadBytes_run _ _ _ (Z.of_nat (length END_TAG))) in Ha as [_ Ha]; [|done].
  rewrite bool_decide_eq_true_2 by done. erewrite stM_bind_run by done.
  rewrite (ReadBytes_bind _ _ _ _ _ Ha) by done. f_equal.
  rewrite !advance_advance. unfold a'. f_equal. rewrite H16, H10, Ht, Ho, Hg, Hmm. simpl. lia.
Qed.

(** *** Names *)
Lemma strip_pad n l :
  forallb (fun b => negb (is_space b)) l = true -> strip (pad n l) = l.
Proof. intros Hl. unfold strip, pad. apply (strip_spaces_around is_space l []); [done| |done]. apply spaces_are_space. Qed.

Lemma digits_no_space n :
  0 <= n -> forallb (fun b => negb (is_space b)) (str_nat n) = true.
Proof.
  intros Hn. destruct (str_nat_spec n Hn) as (Hd & _). apply forallb_forall. intros b Hb.
  rewrite forallb_forall in Hd. by rewrite digit_not_space by auto.
Qed.

Lemma resolve_short name a : resolve_name (name ++ FILE_ID_TERMINATOR) a = Ok name.
Proof.
  unfold resolve_name. rewrite endswith_app. f_equal. unfold py_slice, py_clamp.
  rewrite length_app. change (0 <? 0) with false.
  change (- Z.of_nat (length FILE_ID_TERMINATOR) <? 0) with true. cbv iota zeta.
  change (length FILE_ID_TERMINATOR) with 1%nat.
  rewrite Z.min_l, drop_0 by lia. apply take_app_length'. lia.
Qed.

Lemma resolve_long offset name a :
  0 <= offset -> string_table a !! offset = Some name ->
  resolve_name (FILE_ID_TERMINATOR ++ str_nat offset) a = Ok name.
Proof.
  intros Ho Ht. destruct (str_nat_spec offset Ho) as (Hd & _ & Hne). unfold resolve_name.
  assert (endswith FILE_ID_TERMINATOR (FILE_ID_TERMINATOR ++ str_nat offset) = false) as ->.
  { apply not_true_is_false. rewrite endswith_spec. intros [k Hk].
    destruct (str_nat offset) as [|b l _] using rev_ind; [done|].
    rewrite app_assoc in Hk. apply app_inj_2 in Hk as [_ [= ->]]; [|done].
    rewrite forallb_app in Hd. by apply andb_true_iff in Hd as [_ ?]. }
  rewrite startswith_app.
  change (drop (length FILE_ID_TERMINATOR) (FILE_ID_TERMINATOR ++ str_nat offset)) with (str_nat offset).
  pose proof (py_int_padded offset [] [] Ho eq_refl eq_refl) as Hi. rewrite app_nil_r in Hi.
  simpl in Hi. rewrite Hi. cbn [mbind pyres_bind]. by rewrite Ht.
Qed.

(** *** The string table *)
Definition no_newline (l : pystr) : Prop := forallb (fun b => negb (is_byte Byte.x0a b)) l = true.

Lemma split_table names tail :
  Forall no_newline names ->
  split STRING_TABLE_TERMINATOR (table_content names ++ tail)
  = names ++ split STRING_TABLE_TERMINATOR tail.
Proof.
  unfold split. induction 1 as [|n names Hn Hns IH]; [done|]. unfold table_content. csimpl.
  rewrite <- !app_assoc. unfold STRING_TABLE_TERMINATOR at 1 2. cbn [app].
  rewrite split_from_piece by done. cbn [app]. f_equal. exact IH.
Qed.
Lemma pad_even_tail l : exists tail, pad_even l = l ++ tail.
Proof. unfold pad_even. destruct (Nat.odd _); [by eexists|exists []; by rewrite app_nil_r]. Qed.

Lemma offset_of_cons n names i :
  offset_of (n :: names) (S i)
  = Z.of_nat (length n) + Z.of_nat (length STRING_TABLE_TERMINATOR) + offset_of names i.
Proof.
  unfold offset_of. change (table_content (take (S i) (n :: names))) with
    ((n ++ STRING_TABLE_TERMINATOR) ++ table_content (take i names)).
  rewrite !length_app. lia.
Qed.

Lemma add_names_lookup names tail acc t i :
  (i < length names)%nat -> add_names (names ++ tail) acc t !! (acc + offset_of names i) = names !! i.
Proof.
  assert (Hbelow : forall l acc t z, z < acc -> add_names l acc t !! z = t !! z).
  { induction l as [|s l IH]; intros acc' t' z Hz; [done|].
    change (add_names (s :: l) acc' t') with
      (add_names l (acc' + Z.of_nat (length s) + Z.of_nat (length STRING_TABLE_TERMINATOR))
         (<[acc' := s]> t')). rewrite IH by lia. by rewrite lookup_insert_ne by lia. }
  revert acc t i. induction names as [|s names IH]; intros acc t i Hi; simpl in Hi; [lia|].
  change (add_names ((s :: names) ++ tail) acc t) with
    (add_names (names ++ tail) (acc + Z.of_nat (length s) + Z.of_nat (length STRING_TABLE_TERMINATOR))
       (<[acc := s]> t)).
  destruct i as [|i].
  - unfold offset_of, table_content. simpl. rewrite Z.add_0_r, Hbelow by (simpl; lia).
    apply lookup_insert_eq.
  - rewrite offset_of_cons. simpl lookup. rewrite <- (IH (acc + Z.of_nat (length s)
      + Z.of_nat (length STRING_TABLE_TERMINATOR)) (<[acc := s]> t) i) by lia.
    by rewrite !Z.add_assoc.
Qed.

Lemma offset_nonneg names i : 0 <= offset_of names i.
Proof. unfold offset_of. lia. Qed.

Definition table_loaded (names : list pystr) (a : Archive) : Prop :=
  forall i, (i < length names)%nat -> string_table a !! offset_of names i = names !! i.

(** *** The members *)
Lemma store_encoded names m a :
  valid_member names m -> table_loaded names a ->
  store_member (strip (pad 16 (name_field names (m_name m)))) (m_content m) a
  = Ok (tt, set_files (<[real_name names (m_name m) := m_content m]> (files a)) a).
Proof.
  intros (_ & _ & _ & Hv) Ht. unfold store_member.
  destruct (m_name m) as [name|i]; cbn [name_field real_name].
  - destruct Hv as (Hne & Hslash & Hsp).
    rewrite strip_pad by (rewrite forallb_app; by rewrite Hsp).
    rewrite decide_False.
    2: { change STRING_TABLE_ID with (bs "/" ++ FILE_ID_TERMINATOR).
         by intros [? _]%app_inj_2. }
    rewrite decide_False.
    2: { change SYM_TABLE_ID with (bs "__.SYMDE" ++ bs "F"). by intros [_ ?]%app_inj_2. }
    by rewrite resolve_short.
  - pose proof (offset_nonneg names i) as Ho. destruct (str_nat_spec _ Ho) as (Hd & _ & Hnil).
    rewrite strip_pad by (cbn [app FILE_ID_TERMINATOR]; exact (digits_no_space _ Ho)).
    rewrite decide_False.
    2: { destruct (str_nat (offset_of names i)) as [|b l]; [done|]. intros [= -> _].
         by vm_compute in Hd. }
    rewrite decide_False by done.
    destruct (lookup_lt_is_Some_2 names i Hv) as [n Hn].
    rewrite (resolve_long _ n) by (done || by rewrite (Ht i Hv)).
    by rewrite (nth_lookup_Some _ _ _ _ Hn).
Qed.

Lemma ahead_set_files fs a rest : ahead a rest -> ahead (set_files fs a) rest.
Proof. done. Qed.

Lemma encode_member_length names m :
  valid_member names m -> (60 <= length (encode_member names m))%nat.
Proof.
  intros (Hm & Hs & Hf & _). unfold encode_member. rewrite length_app, length_header by done. lia.
Qed.

(** *** Padding *)

(** A header whose end is not where it is looked for is refused. *)
Lemma ReadBytes_or_ValueError {B} (f : pystr -> stM Archive B) n a :
  f (py_slice (a_content a) (a_cursor a) (a_cursor a + n)) (set_cursor (a_cursor a + n) a)
    = Raise ValueError ->
  (ReadBytes n ≫= f) a = Raise ValueError.
Proof. intros Hf. unfold mbind, stM_bind, ReadBytes. by destruct (_ <? _). Qed.

Lemma py_int_or_ValueError {B} (f : Z -> stM Archive B) l a :
  (forall z, f z a = Raise ValueError) -> (st_lift (py_int l) ≫= f) a = Raise ValueError.
Proof.
  intros Hf. unfold mbind, stM_bind, st_lift.
  assert (py_int l = Raise ValueError \/ exists z, py_int l = Ok z) as [-> | [z ->]]; [|done|apply Hf].
  assert (forall l, unsigned_int l = Raise ValueError \/ exists z, unsigned_int l = Ok z) as Hu.
  { intros l'. unfold unsigned_int. destruct l'; [by left|]. destruct (forallb _ _); eauto. }
  unfold py_int. destruct (strip l) as [|b l']; [by left|].
  destruct b; try apply Hu. destruct (Hu l') as [-> |[z ->]]; [by left|right; by eexists].
Qed.

Lemma ReadFile_untagged a :
  py_slice (a_content a) (a_cursor a + 58) (a_cursor a + 60) <> END_TAG ->
  ReadFile a = Raise ValueError.
Proof.
  intros Ht. unfold ReadFile. do 6 apply ReadBytes_or_ValueError.
  apply py_int_or_ValueError. intros z. apply ReadBytes_or_ValueError.
  cbn [a_content a_cursor set_cursor].
  replace (a_cursor a + FILE_ID_LENGTH + FILE_TIMESTAMP_LENGTH + OWNER_ID_LENGTH + GROUP_ID_LENGTH
    + FILE_MODE_LENGTH + CONTENT_SIZE_LENGTH) with (a_cursor a + 58)
    by (unfold FILE_ID_LENGTH, FILE_TIMESTAMP_LENGTH, OWNER_ID_LENGTH, GROUP_ID_LENGTH, FILE_MODE_LENGTH,
      CONTENT_SIZE_LENGTH; lia).
  replace (a_cursor a + 58 + Z.of_nat (length END_TAG)) with (a_cursor a + 60) by (simpl; lia).
  by rewrite bool_decide_eq_false_2.
Qed.

Lemma ReadFile_at_end a : ahead a [Byte.x0a] -> ReadFile a = Raise ValueError.
Proof.
  intros (pre & Hc & Hp). unfold ReadFile, mbind, stM_bind. unfold ReadBytes at 1.
  by rewrite (proj2 (Z.ltb_lt _ _)) by (rewrite Hc, Hp, length_app; unfold FILE_ID_LENGTH; simpl; lia).
Qed.

Lemma ReadFile_misaligned a field meta size rest :
  (length field <= 16)%nat -> length meta = 32%nat -> (length (str_nat size) <= 10)%nat ->
  ahead a ([Byte.x0a] ++ header field meta size ++ rest) -> ReadFile a = Raise ValueError.
Proof.
  intros Hf Hm Hs (pre & Hc & Hp). apply ReadFile_untagged. rewrite Hc, Hp. unfold header.
  assert (exists sz x, pad 10 (str_nat size) = sz ++ [x] /\ length sz = 9%nat) as (sz & x & -> & Hl).
  { pose proof (length_pad 10 (str_nat size) Hs) as Hl.
    destruct (pad 10 (str_nat size)) as [|x l _] using rev_ind; [done|].
    rewrite length_app in Hl. simpl in Hl. exists l, x. split; [done|lia]. }
  set (front := pre ++ [Byte.x0a] ++ pad 16 field ++ meta ++ sz).
  assert (Z.of_nat (length front) = Z.of_nat (length pre) + 58) as Hfront.
  { unfold front. rewrite !length_app, length_pad, Hm, Hl by done. simpl. lia. }
  replace (pre ++ [Byte.x0a] ++ (pad 16 field ++ meta ++ (sz ++ [x]) ++ END_TAG) ++ rest)
    with (front ++ [x; Byte.x60] ++ [Byte.x0a] ++ rest)
    by (unfold front, END_TAG; by rewrite <- !app_assoc).
  rewrite <- Hfront. replace (Z.of_nat (length pre) + 60)
    with (Z.of_nat (length front) + Z.of_nat (length [x; Byte.x60])) by (simpl; lia).
  rewrite <- Nat2Z.inj_add, py_slice_app. by intros [=].
Qed.

Lemma odd_encode_member names m :
  valid_member names m -> Nat.odd (length (encode_member names m)) = negb (unpadded m).
Proof.
  intros (Hm & Hs & Hf & _). unfold encode_member, unpadded.
  rewrite length_app, length_header, Nat.odd_add, Nat.negb_even by done.
  change (Nat.odd 60) with false. by destruct (Nat.odd _).
Qed.

Lemma ahead_not_at_end a b rest : ahead a (b :: rest) -> a_cursor a <? Z.of_nat (length (a_content a)) = true.
Proof. intros (pre & Hc & Hp). apply Z.ltb_lt. rewrite Hc, Hp, length_app. simpl. lia. Qed.

(** The newline after a padded member is taken for the start of a header. *)
Lemma files_loop_padded names ms a fuel :
  Forall (valid_member names) ms -> ahead a ([Byte.x0a] ++ mjoin (pad_even ∘ encode_member names <$> ms)) ->
  files_loop (S fuel) a = Some (Raise ValueError).
Proof.
  intros Hv Ha. cbn [files_loop]. rewrite (ahead_not_at_end _ _ _ Ha).
  destruct Hv as [|m ms (Hmeta & Hsize & Hfield & _) Hms]; [by rewrite ReadFile_at_end|].
  csimpl in Ha. destruct (pad_even_tail (encode_member names m)) as [tail Ht].
  unfold compose in Ha. rewrite Ht in Ha. unfold encode_member in Ha. rewrite <- !app_assoc in Ha.
  by rewrite (ReadFile_misaligned a _ _ _ _ Hfield Hmeta Hsize Ha).
Qed.

Definition loaded_files (names : list pystr) (fs : gmap pystr pystr) (ms : list member) : gmap pystr pystr :=
  foldl (fun fs m => <[real_name names (m_name m) := m_content m]> fs) fs ms.

Lemma files_loop_run names ms a fuel :
  Forall (valid_member names) ms -> table_loaded names a ->
  ahead a (mjoin (pad_even ∘ encode_member names <$> ms)) -> (length ms < fuel)%nat ->
  if forallb unpadded ms
  then exists a', files_loop fuel a = Some (Ok a') /\ files a' = loaded_files names (files a) ms
  else files_loop fuel a = Some (Raise ValueError).
Proof.
  intros Hv. revert a fuel. induction Hv as [|m ms Hm Hms IH]; intros a fuel Ht Ha Hf;
    (destruct fuel as [|fuel]; [simpl in Hf; lia|]); cbn [forallb].
  { cbn [files_loop]. exists a. destruct Ha as (pre & Hc & Hp). split; [|done].
    rewrite (proj2 (Z.ltb_ge _ _)); [done|]. rewrite Hc, Hp, length_app. simpl. lia. }
  pose proof Hm as (Hmeta & Hsize & Hfield & _). csimpl in Ha.
  assert (exists tail, pad_even (encode_member names m) = encode_member names m ++ tail /\
    tail = if unpadded m then [] else [Byte.x0a]) as (tail & Hpad & Htail).
  { unfold pad_even. rewrite (odd_encode_member names m Hm).
    destruct (unpadded m); [exists []; by rewrite app_nil_r|by eexists]. }
  unfold compose in Ha at 1. rewrite Hpad in Ha. unfold encode_member at 1 in Ha. rewrite <- !app_assoc in Ha.
  destruct (ReadFile_run a _ _ _ _ Hfield Hmeta Hsize Ha) as [Ha' Hread].
  assert (a_cursor a <? Z.of_nat (length (a_content a)) = true) as Hmore.
  { destruct Ha as (pre & Hc & Hp). apply Z.ltb_lt. rewrite Hc, Hp, !length_app, length_header by done. lia. }
  cbn [files_loop]. rewrite Hmore, Hread, (store_encoded names m) by done.
  set (b := advance (60 + length (m_content m)) a) in *. rewrite Htail in Ha'.
  apply (ahead_set_files (<[real_name names (m_name m) := m_content m]> (files b))) in Ha'.
  destruct (unpadded m); cbn [andb].
  - apply IH; [done|exact Ha'|simpl in Hf; lia].
  - destruct fuel; [destruct ms; simpl in Hf; lia|]. by apply (files_loop_padded names ms).
Qed.

Lemma read_table meta names ms a fuel :
  length meta = 32%nat -> Forall no_newline names -> size_fits (pad_even (table_content names)) ->
  names <> [] ->
  ahead a (encode_table meta names ++ mjoin (pad_even ∘ encode_member names <$> ms)) ->
  exists a', files_loop (S fuel) a = files_loop fuel a' /\ table_loaded names a' /\ files a' = files a /\
    ahead a' (mjoin (pad_even ∘ encode_member names <$> ms)).
Proof.
  intros Hmeta Hn Hsize Hne Ha.
  replace (encode_table meta names) with (header STRING_TABLE_ID meta
    (Z.of_nat (length (pad_even (table_content names)))) ++ pad_even (table_content names)) in Ha
    by by destruct names.
  rewrite <- !app_assoc in Ha. cbn [files_loop].
  assert (a_cursor a <? Z.of_nat (length (a_content a)) = true) as ->.
  { destruct Ha as (pre & Hc & Hp). apply Z.ltb_lt.
    rewrite Hc, Hp, !length_app, length_header by (done || (simpl; lia)). lia. }
  destruct (ReadFile_run a STRING_TABLE_ID meta _ _ ltac:(simpl; lia) Hmeta Hsize Ha) as [Ha2 ->].
  destruct (pad_even_tail (table_content names)) as [tail Htail].
  unfold store_member. rewrite strip_pad, decide_True by done. rewrite Htail in Ha2 |- *. rewrite split_table by done. eexists. split_and!; [done| |done|exact Ha2].
  intros i Hi. cbn [string_table set_table]. by apply (add_names_lookup names _ 0).
Qed.


(** ** Where the parser departs from the format *)
Definition blank_meta : pystr := replicate 32 Byte.x20.

Definition odd_members : list member :=
  [mk_member (Short (bs "a")) blank_meta (bs "x"); mk_member (Short (bs "b")) blank_meta (bs "yz")].

(** The padding byte that the archive format puts after a member of odd size
    is not skipped: a standard archive of two files is rejected. *)
Theorem Archive_Parse_rejects_padding :
  Forall (valid_member []) odd_members /\
  archive_Parse 10 (new_Archive (encode_archive blank_meta [] odd_members)) = Some (Raise ValueError).
Proof.
  split; [|vm_compute; reflexivity].
  repeat constructor; (done || (vm_compute; lia)).
Qed.

(** A header whose size field is "-60", the length of a header. *)
Definition negative_archive : pystr :=
  GLOBAL_SIG ++ pad 16 (bs "a/") ++ blank_meta ++ pad 10 (bs "-60") ++ END_TAG.

(** [Parse] does not terminate on every input: a negative size moves the
    cursor back to the header it came from. *)
Theorem Archive_Parse_diverges fuel : archive_Parse fuel (new_Archive negative_archive) = None.
Proof.
  set (b := mk_archive {[bs "a" := []]} negative_archive 8 ∅).
  assert (Hfirst : forall a, a = mk_archive ∅ negative_archive 8 ∅ \/ a = b ->
    ReadFile a = Ok (tt, b)) by (intros a [-> | ->]; vm_compute; reflexivity).
  assert (Hloop : forall n a, a = mk_archive ∅ negative_archive 8 ∅ \/ a = b ->
    files_loop n a = None).
  { induction n as [|n IH]; intros a Ha; [done|]. cbn [files_loop].
    rewrite (Hfirst a Ha). rewrite IH by auto. by destruct Ha as [-> | ->]. }
  assert (ReadBytes (Z.of_nat (length GLOBAL_SIG)) (new_Archive negative_archive)
    = Ok (GLOBAL_SIG, mk_archive ∅ negative_archive 8 ∅)) as Hsig by (vm_compute; reflexivity).
  unfold archive_Parse. rewrite Hsig, decide_True by done. apply Hloop. by left.
Qed.

(** ** A concrete archive *)
Definition long_name : pystr := bs "a_rather_long_file_name.o".
Definition sample_members (content : pystr) : list member :=
  [mk_member (Short (bs "a.o")) blank_meta content; mk_member (Long 0) blank_meta (bs "second")].

