(* ===== verification/ArParser.v ===== *)
(** * ELF objects in an archive

    utils/python/library/ar_parser.py: the offsets of the members of an archive
    and the symbols of all its objects. *)

From Stdlib Require Import Strings.Byte.
From S2P Require Import Prelude PyStr ElfStructs ElfParser ElfSample Archive.

Local Open Scope Z_scope.

(** [obj_name] of the special members: symbol and string tables. *)
Definition table_names : list pystr := [bs "/"; bs "//"; bs "/SYM64/"].

(** [s.rstrip(' ')] *)
Definition rstrip_space (s : pystr) : pystr := rstrip_by (is_byte Byte.x20) s.

(** The [while] loop of [_IterateArchive] from file position [pos]: the offsets
    it yields and how it ends; [None] when the fuel is spent. *)
Fixpoint iterate_loop (fuel : nat) (content : pystr) (pos : Z) : option (gen Z) :=
  match fuel with
  | O => None
  | S fuel =>
      match file_seek content pos with
      | Raise IOError => Some ([], Raise ArError)
      | Raise e => Some ([], Raise e)
      | Ok rest =>
          let hdr := take 60 rest in
          if negb (length hdr =? 60)%nat then Some ([], Ok tt)
          else
            let obj_name := rstrip_space (take 16 hdr) in
            match py_int (rstrip_space (take 10 (drop 48 hdr))) with
            | Raise e => Some ([], Raise e)
            | Ok obj_size =>
                let obj_offset := pos + 60 in
                let next := obj_offset + obj_size in
                '(l, r) ← iterate_loop fuel content (next + next mod 2);
                Some (if decide (obj_name ∈ table_names) then (l, r) else (obj_offset :: l, r))
            end
      end
  end.

Definition IterateArchive (fuel : nat) (content : pystr) : option (gen Z) :=
  if decide (take 8 content = GLOBAL_SIG) then iterate_loop fuel content 8
  else Some ([], Raise ArError).

(** [ListGlobalSymbols(archive_path)] on the contents of the archive. *)
Definition ar_ListGlobalSymbols (fuel : nat) (content : pystr) : option (pyres (list pystr)) :=
  g ← IterateArchive fuel content;
  Some (gen_fold (fun symbols offset =>
    parser ← new_ElfParser content offset;
    syms ← ListGlobalSymbols parser false SYMTAB STRTAB;
    Ok (symbols ++ syms)) [] g).

(** ** Standard archives *)

(** A member: its name field, its metadata and its contents. *)
Record ar_member := mk_ar { ar_field : pystr; ar_meta : pystr; ar_body : pystr }.

Definition ar_bytes (m : ar_member) : pystr :=
  pad_even (header (ar_field m) (ar_meta m) (Z.of_nat (length (ar_body m))) ++ ar_body m).
Definition ar_file (ms : list ar_member) : pystr := GLOBAL_SIG ++ mjoin (ar_bytes <$> ms).

Definition valid_ar (m : ar_member) : Prop :=
  (length (ar_field m) <= 16)%nat /\ length (ar_meta m) = 32%nat /\ size_fits (ar_body m) /\
  forallb (fun b => negb (is_byte Byte.x20 b)) (ar_field m) = true.

Definition is_table (m : ar_member) : bool := bool_decide (ar_field m ∈ table_names).

(** Where the bodies of the objects start. *)
Fixpoint body_offsets (pos : Z) (ms : list ar_member) : list (Z * ar_member) :=
  match ms with
  | [] => []
  | m :: ms => (pos + 60, m) :: body_offsets (pos + Z.of_nat (length (ar_bytes m))) ms
  end.
Definition object_offsets (ms : list ar_member) : list Z :=
  fst <$> filter (fun p => is_table p.2 = false) (body_offsets 8 ms).

Lemma spaces_are_byte n : forallb (is_byte Byte.x20) (replicate n Byte.x20) = true.
Proof. induction n; simpl; auto. Qed.

Lemma rstrip_space_pad n l :
  forallb (fun b => negb (is_byte Byte.x20 b)) l = true -> rstrip_space (pad n l) = l.
Proof.
  intros Hl. unfold rstrip_space, pad.
  rewrite rstrip_by_all by apply spaces_are_byte. by apply rstrip_by_none.
Qed.

Lemma digit_no_byte_space n :
  0 <= n -> forallb (fun b => negb (is_byte Byte.x20 b)) (str_nat n) = true.
Proof.
  intros Hn. destruct (str_nat_spec n Hn) as (Hd & _). apply forallb_forall. intros b Hb.
  rewrite forallb_forall in Hd. specialize (Hd b Hb). unfold is_byte.
  rewrite bool_decide_eq_false_2; [done|]. by intros ->.
Qed.

Lemma parity_of_nat n :
  Z.odd (Z.of_nat n) = Nat.odd n /\ Z.even (Z.of_nat n) = Nat.even n.
Proof.
  induction n as [|n [IHo IHe]]; [done|].
  by rewrite Nat2Z.inj_succ, Z.odd_succ, Z.even_succ, Nat.odd_succ, Nat.even_succ.
Qed.

Lemma length_ar_bytes m :
  valid_ar m ->
  Z.of_nat (length (ar_bytes m)) =
    (60 + Z.of_nat (length (ar_body m))) + (60 + Z.of_nat (length (ar_body m))) mod 2.
Proof.
  intros (Hf & Hm & Hs & _). unfold ar_bytes, pad_even.
  pose proof (length_header _ _ _ Hf Hm Hs) as Hh.
  rewrite Zmod_odd. rewrite length_app, Hh.
  assert (Nat.odd (60 + length (ar_body m)) = Z.odd (60 + Z.of_nat (length (ar_body m)))) as Hodd.
  { rewrite <- (Nat2Z.inj_add 60). symmetry. apply parity_of_nat. }
  rewrite Hodd. destruct (Z.odd _); rewrite ?length_app, Hh; simpl length; lia.
Qed.

Lemma header_name field meta size :
  (length field <= 16)%nat -> take 16 (header field meta size) = pad 16 field.
Proof. intros Hf. unfold header. apply take_app_length'. by rewrite length_pad. Qed.

Lemma header_size field meta size :
  (length field <= 16)%nat -> length meta = 32%nat -> (length (str_nat size) <= 10)%nat ->
  take 10 (drop 48 (header field meta size)) = pad 10 (str_nat size).
Proof.
  intros Hf Hm Hs. unfold header. rewrite app_assoc, drop_app_length'.
  - apply take_app_length'. by rewrite length_pad.
  - rewrite length_app, length_pad by done. lia.
Qed.

(** ** Iterating *)
Lemma file_seek_run pre rest :
  Z.of_nat (length (pre ++ rest)) < 2 ^ 63 ->
  file_seek (pre ++ rest) (Z.of_nat (length pre)) = Ok rest.
Proof.
  rewrite length_app. intros Hl. unfold file_seek. rewrite length_app.
  rewrite (proj2 (Z.ltb_ge _ _)), (proj2 (Z.leb_gt _ _)) by lia.
  replace (Z.to_nat _) with (length pre) by lia. by rewrite drop_app_length.
Qed.

Lemma iterate_loop_run pre ms fuel :
  Forall valid_ar ms -> Z.of_nat (length (pre ++ mjoin (ar_bytes <$> ms))) < 2 ^ 63 ->
  Z.even (Z.of_nat (length pre)) = true -> (length ms < fuel)%nat ->
  iterate_loop fuel (pre ++ mjoin (ar_bytes <$> ms)) (Z.of_nat (length pre))
  = Some (fst <$> filter (fun p => is_table p.2 = false) (body_offsets (Z.of_nat (length pre)) ms),
          Ok tt).
Proof.
  intros Hv. revert pre fuel. induction Hv as [|m ms Hm Hms IH]; intros pre fuel Hl Hpar Hf;
    (destruct fuel as [|fuel]; [simpl in Hf; lia|]); cbn [iterate_loop];
    rewrite file_seek_run by done; [done|].
  csimpl in Hl. csimpl. pose proof (length_ar_bytes m Hm) as Hlen.
  pose proof Hm as (Hfield & Hmeta & Hsize & Hsp).
  pose proof (length_header _ _ _ Hfield Hmeta Hsize) as H60.
  pose proof (length_pad 16 _ Hfield) as H16. pose proof (length_pad 10 _ Hsize) as H10.
  assert (exists k, ar_bytes m ++ mjoin (ar_bytes <$> ms)
    = header (ar_field m) (ar_meta m) (Z.of_nat (length (ar_body m))) ++ k) as [k Hk].
  { unfold ar_bytes, pad_even. destruct (Nat.odd _); rewrite <- !app_assoc; by eexists. }
  assert (take 60 (ar_bytes m ++ mjoin (ar_bytes <$> ms))
    = header (ar_field m) (ar_meta m) (Z.of_nat (length (ar_body m)))) as ->
    by (rewrite Hk; by apply take_app_length').
  rewrite H60. cbn [Nat.eqb negb].
  rewrite header_name, header_size, !rstrip_space_pad by (done || apply digit_no_byte_space; lia).
  pose proof (py_int_padded (Z.of_nat (length (ar_body m))) [] [] ltac:(lia) eq_refl eq_refl) as Hi.
  rewrite app_nil_r in Hi. cbn [app] in Hi. rewrite Hi.
  assert (Hnext : Z.of_nat (length pre) + 60 + Z.of_nat (length (ar_body m))
    + (Z.of_nat (length pre) + 60 + Z.of_nat (length (ar_body m))) mod 2
    = Z.of_nat (length (pre ++ ar_bytes m))).
  { rewrite length_app, Nat2Z.inj_add, Hlen. rewrite <- !Z.add_assoc.
    rewrite !Zmod_odd. rewrite (Z.odd_add (Z.of_nat (length pre))), <- Z.negb_even, Hpar.
    done. }
  rewrite Hnext. rewrite (app_assoc pre) in Hl |- *. rewrite IH.
  - rewrite length_app, Nat2Z.inj_add. cbn [body_offsets mbind option_bind].
    rewrite filter_cons. cbn [snd fst]. destruct (is_table m) eqn:Ht; unfold is_table in Ht.
    + apply bool_decide_eq_true in Ht. by rewrite decide_True, decide_False by done.
    + apply bool_decide_eq_false in Ht. by rewrite decide_False, decide_True by done.
  - exact Hl.
  - rewrite length_app, Nat2Z.inj_add, Hlen, Z.even_add, Hpar. rewrite Zmod_odd, Z.even_add.
    rewrite <- Z.negb_even. by destruct (Z.even (60 + _)).
  - simpl in Hf. lia.
Qed.

Lemma IterateArchive_run ms :
  Forall valid_ar ms -> Z.of_nat (length (ar_file ms)) < 2 ^ 63 ->
  IterateArchive (S (length ms)) (ar_file ms) = Some (object_offsets ms, Ok tt).
Proof.
  intros Hv Hl. unfold IterateArchive, ar_file. rewrite decide_True by done.
  change 8 with (Z.of_nat (length GLOBAL_SIG)). by apply iterate_loop_run; [| |done|lia].
Qed.

(** [_IterateArchive] yields where the contents of each object start, in
    order, for a standard archive (members aligned to even offsets), leaving
    out the symbol and string tables. *)
Theorem IterateArchive_spec ms :
  Forall valid_ar ms -> Z.of_nat (length (ar_file ms)) < 2 ^ 63 ->
  IterateArchive (S (length ms)) (ar_file ms) = Some (object_offsets ms, Ok tt).
Proof. apply IterateArchive_run. Qed.

(** [ListGlobalSymbols] of an archive concatenates the symbols of its
    objects, in the order of the archive. *)
Theorem ar_ListGlobalSymbols_spec ms (parsers : Z -> ElfParser) (syms : Z -> list pystr) :
  Forall valid_ar ms -> Z.of_nat (length (ar_file ms)) < 2 ^ 63 ->
  (forall off, off ∈ object_offsets ms ->
     new_ElfParser (ar_file ms) off = Ok (parsers off) /\
     ListGlobalSymbols (parsers off) false SYMTAB STRTAB = Ok (syms off)) ->
  ar_ListGlobalSymbols (S (length ms)) (ar_file ms)
  = Some (Ok (mjoin (syms <$> object_offsets ms))).
Proof.
  intros Hv Hl Hobj. unfold ar_ListGlobalSymbols. rewrite IterateArchive_run by done.
  cbn [mbind option_bind]. unfold gen_fold. cbn [fst snd].
  assert (forall l acc, (forall off, off ∈ l -> off ∈ object_offsets ms) ->
    foldlM_py (fun symbols offset =>
      parser ← new_ElfParser (ar_file ms) offset;
      syms ← ListGlobalSymbols parser false SYMTAB STRTAB; Ok (symbols ++ syms)) acc l
    = Ok (acc ++ mjoin (syms <$> l))) as Hrun.
  { induction l as [|off l IH]; intros acc Hin; [simpl; by rewrite app_nil_r|].
    destruct (Hobj off) as [Hp Hs]; [apply Hin; by left|]. csimpl. rewrite Hp.
    cbn [mbind pyres_bind]. rewrite Hs. cbn [mbind pyres_bind].
    rewrite IH by (intros; apply Hin; by right). by rewrite <- app_assoc. }
  by rewrite Hrun.
Qed.

(** A member that holds nothing but the ELF magic number. *)
Definition cut_archive : pystr :=
  ar_file [mk_ar (bs "a/") blank_meta ELF_MAGIC_NUMBER].

(** A member cut short after its magic number lets an [IndexError] out of
    [ListGlobalSymbols], which documents only [ArError] and [ElfError]: the size
    check of [_SeekRead] does not take the offset of the member into account. *)
Theorem ar_ListGlobalSymbols_IndexError :
  valid_ar (mk_ar (bs "a/") blank_meta ELF_MAGIC_NUMBER) /\
  ar_ListGlobalSymbols 2 cut_archive = Some (Raise IndexError).
Proof.
  split; [|vm_compute; reflexivity].
  split; [vm_compute; lia|]. split; [reflexivity|]. split; [vm_compute; lia|reflexivity].
Qed.

(** ** A concrete archive *)
Definition sample_ar : list ar_member :=
  [mk_ar (bs "/") blank_meta (bs "index"); mk_ar (bs "a.o/") blank_meta sample_content;
   mk_ar (bs "b.o/") blank_meta sample_content].

Lemma sample_ar_valid : Forall valid_ar sample_ar.
Proof.
  repeat constructor; (done || (vm_compute; lia)).
Qed.

Lemma IterateArchive_spec_witness :
  Forall valid_ar sample_ar /\
  IterateArchive 4 (ar_file sample_ar) = Some ([134; 480], Ok tt).
Proof.
  split; [exact sample_ar_valid|].
  change 4%nat with (S (length sample_ar)).
  rewrite (IterateArchive_spec sample_ar sample_ar_valid); [|vm_compute; reflexivity].
  vm_compute. reflexivity.
Defined.

Definition member_parser (off : Z) : ElfParser :=
  mk_elf (mk_file (ar_file sample_ar) off) Class32 sample_ehdr sample_shdrs.

Lemma ar_ListGlobalSymbols_spec_witness :
  ar_ListGlobalSymbols 4 (ar_file sample_ar) = Some (Ok [bs "foo"; bs "foo"]).
Proof.
  change 4%nat with (S (length sample_ar)).
  rewrite (ar_ListGlobalSymbols_spec sample_ar member_parser (fun _ => [bs "foo"]) sample_ar_valid).
  - vm_compute. reflexivity.
  - vm_compute. reflexivity.
  - intros off Hoff. assert (off ∈ [134; 480]) as Hin by (revert Hoff; vm_compute; done).
    clear Hoff. rewrite !elem_of_cons in Hin. destruct Hin as [-> |[-> |Hn%not_elem_of_nil]];
      [split; vm_compute; reflexivity..|done].
Defined.
