(* ===== verification/ListUtils.v ===== *)
(** * List helpers ([src/utils/python/common/list_utils.py])

    Splitting list items at a delimiter, removing duplicates in order, and
    reading commented text files.  The items are Python 2 byte strings, so
    [str(x)] of an item is the item. *)

From Stdlib Require Import Strings.Byte.
From S2P Require Import Prelude PyStr.

(** [l.splitlines(keepends)] of a byte string: the line boundaries are LF, CR
    and CR LF; no empty line is added after a final boundary. *)
Fixpoint splitlines_from (keepends : bool) (l acc : pystr) : list pystr :=
  match l with
  | [] => match acc with [] => [] | _ => [acc] end
  | Byte.x0d :: Byte.x0a :: l =>
      (acc ++ if keepends then [Byte.x0d; Byte.x0a] else []) :: splitlines_from keepends l []
  | Byte.x0d :: l => (acc ++ if keepends then [Byte.x0d] else []) :: splitlines_from keepends l []
  | Byte.x0a :: l => (acc ++ if keepends then [Byte.x0a] else []) :: splitlines_from keepends l []
  | b :: l => splitlines_from keepends l (acc ++ [b])
  end.
Definition splitlines (keepends : bool) (l : pystr) : list pystr := splitlines_from keepends l [].

Definition is_eol (b : Byte.byte) : bool := is_byte Byte.x0a b || is_byte Byte.x0d b.
Definition no_eol (l : pystr) : bool := forallb (fun b => negb (is_eol b)) l.

Definition DEFAULT_COMMENT_CHAR : pystr := bs "#".

(** [str(x)] of a byte string. *)
Definition py_str (s : pystr) : pystr := s.

(** ** Conversion and splitting of items *)
Definition ItemsToStr {A} (to_str : A -> pystr) (input_list : option (list A))
    : option (list pystr) :=
  match input_list with
  | None => None
  | Some [] => Some []
  | Some l => Some (to_str <$> l)
  end.

(** The generator splits items as the comprehension asks for them: an empty
    delimiter raises at the first item, and not at all when there is none. *)
Definition split_item (delimiter item : pystr) : pyres (list pystr) :=
  match delimiter with [] => Raise ValueError | _ => Ok (split delimiter item) end.

Definition ExpandItemDelimiters (input_list : option (list pystr)) (delimiter : pystr)
    (do_strip to_str remove_empty : bool) : pyres (option (list pystr)) :=
  match input_list with
  | None => Ok None
  | Some items =>
      pieces ← mapM_py (split_item delimiter) items;
      let result : list pystr :=
        (fun s => let s := if to_str then py_str s else s in if do_strip then strip s else s)
          <$> (mjoin (pieces : list (list pystr)) : list pystr) in
      Ok (Some (if remove_empty then filter (fun s => py_str s <> []) result else result))
  end.

(** ** Duplicates *)
Section unique.
Context {A : Type} `{Countable A}.

(** The comprehension [x for x in l if not (x in seen or seen.add(x))]: [seen]
    holds the items already let through. *)
Fixpoint unique_loop (seen : gset A) (l : list A) : list A :=
  match l with
  | [] => []
  | x :: l =>
      if decide (x ∈ seen) then unique_loop seen l
      else x :: unique_loop ({[x]} ∪ seen) l
  end.

Definition MergeUniqueKeepOrder (lists : list (list A)) : list A := unique_loop ∅ (mjoin lists).
Definition DeduplicateKeepOrder (input : list A) : list A := MergeUniqueKeepOrder [input].

(** Reference: an item is kept where it occurs first. *)
Fixpoint first_occurrences (l : list A) : list A :=
  match l with
  | [] => []
  | x :: l => x :: filter (fun y => y <> x) (first_occurrences l)
  end.
End unique.

(** ** Commented text *)
Definition RemoveComment (comment_char line : pystr) : pystr :=
  match find_sub comment_char line with
  | None => line
  | Some idx => take idx line
  end.

Definition LoadListFromCommentedText (to_str to_strip exclude_empty_line exclude_comment_line
    exclude_trailing_comment remove_duplicates remove_line_breaks : bool)
    (comment_char text : pystr) : list pystr :=
  let lines := splitlines (negb remove_line_breaks) text in
  let lines := if to_str then py_str <$> lines else lines in
  let lines :=
    if exclude_trailing_comment then RemoveComment comment_char <$> lines else lines in
  let lines := if to_strip then strip <$> lines else lines in
  let lines :=
    if exclude_comment_line
    then filter (fun line => startswith comment_char (strip line) = false) lines else lines in
  let lines := if exclude_empty_line then filter (fun line => line <> []) lines else lines in
  if remove_duplicates then DeduplicateKeepOrder lines else lines.

(** The file system as a finite map from paths to contents.  A path that is not
    a file reaches [logging.error], a name the module never imports.  The call
    at the end passes the default comment character, whatever the argument. *)
Definition LoadListFromCommentedTextFile (files : gmap pystr pystr) (to_str to_strip exclude_empty_line
    exclude_comment_line exclude_trailing_comment remove_duplicates remove_line_breaks : bool)
    (comment_char file_path : pystr) : pyres (option (list pystr)) :=
  match files !! file_path with
  | None => Raise NameError
  | Some content =>
      Ok (Some (LoadListFromCommentedText to_str to_strip exclude_empty_line exclude_comment_line
        exclude_trailing_comment remove_duplicates remove_line_breaks DEFAULT_COMMENT_CHAR content))
  end.

(** ** Lemmas: duplicates *)
Section unique_lemmas.
Context {A : Type} `{Countable A}.
Implicit Types l : list A.

Lemma unique_loop_first (seen : gset A) l :
  unique_loop seen l = filter (fun y => y ∉ seen) (first_occurrences l).
Proof.
  revert seen. induction l as [|x l IH]; intros seen; simpl; [done|]. case_decide as Hx.
  - rewrite filter_cons_False by (intros ?; contradiction). rewrite IH, list_filter_filter.
    apply list_filter_iff. intros y. set_solver.
  - rewrite filter_cons_True by done. f_equal. rewrite IH, list_filter_filter.
    apply list_filter_iff. intros y. set_solver.
Qed.

Lemma dedup_first l : DeduplicateKeepOrder l = first_occurrences l.
Proof.
  unfold DeduplicateKeepOrder, MergeUniqueKeepOrder. rewrite unique_loop_first. simpl.
  rewrite app_nil_r. apply filter_all_id, Forall_forall. set_solver.
Qed.

Lemma elem_of_first_occurrences x l : x ∈ first_occurrences l <-> x ∈ l.
Proof.
  induction l as [|y l IH]; simpl; [done|].
  rewrite !elem_of_cons, list_elem_of_filter, IH. destruct (decide (x = y)); naive_solver.
Qed.

Lemma NoDup_first_occurrences l : NoDup (first_occurrences l).
Proof.
  induction l as [|x l IH]; simpl; constructor; [|by apply NoDup_filter].
  rewrite list_elem_of_filter. naive_solver.
Qed.

Lemma first_occurrences_NoDup l : NoDup l -> first_occurrences l = l.
Proof.
  induction 1 as [|x l Hx Hl IH]; simpl; [done|]. rewrite IH. f_equal.
  apply filter_all_id, Forall_forall. set_solver.
Qed.

Lemma first_occurrences_sublist l : sublist (first_occurrences l) l.
Proof.
  induction l as [|x l IH]; simpl; [done|]. apply sublist_skip.
  etrans; [apply sublist_filter|done].
Qed.
End unique_lemmas.

(** ** Lemmas: lines, comments and white space *)
Lemma splitlines_from_step keep b l acc :
  is_eol b = false -> splitlines_from keep (b :: l) acc = splitlines_from keep l (acc ++ [b]).
Proof. by destruct b. Qed.

Lemma splitlines_from_line keep l rest acc :
  no_eol l = true ->
  splitlines_from keep (l ++ Byte.x0a :: rest) acc =
    (acc ++ l ++ if keep then [Byte.x0a] else []) :: splitlines_from keep rest [].
Proof.
  revert acc. induction l as [|b l IH]; intros acc; [done|].
  cbn [no_eol forallb]. intros [Hb Hl]%andb_true_iff. cbn [app].
  rewrite splitlines_from_step by by apply negb_true_iff. rewrite IH by done.
  by rewrite <- app_assoc.
Qed.

Lemma splitlines_lines ls :
  Forall (fun l => no_eol l = true) ls ->
  splitlines false (mjoin ((fun l => l ++ [Byte.x0a]) <$> ls)) = ls.
Proof.
  unfold splitlines. induction 1 as [|l ls Hl Hls IH]; [done|]. csimpl.
  rewrite <- app_assoc. simpl. rewrite splitlines_from_line by done.
  by rewrite IH, app_nil_r.
Qed.

Definition no_byte (c : Byte.byte) (l : pystr) : bool := forallb (fun b => negb (is_byte c b)) l.

Lemma RemoveComment_none c l : no_byte c l = true -> RemoveComment [c] l = l.
Proof. intros Hl. unfold RemoveComment. by rewrite (proj2 (find_sub_byte_None c l) Hl). Qed.

Lemma RemoveComment_trailing c l k : no_byte c l = true -> RemoveComment [c] (l ++ c :: k) = l.
Proof.
  intros Hl. unfold RemoveComment. rewrite find_sub_byte_app by done.
  rewrite find_sub_byte_here. csimpl. by rewrite Nat.add_0_r, take_app_length.
Qed.

Lemma RemoveComment_no_byte c l : no_byte c (RemoveComment [c] l) = true.
Proof.
  unfold RemoveComment. destruct (find_sub [c] l) as [i|] eqn:Hi.
  - by apply find_sub_byte_split in Hi as (k & _ & Hno & _).
  - by apply find_sub_byte_None.
Qed.

Lemma lstrip_by_app f l k :
  lstrip_by f (l ++ k) = if forallb f l then lstrip_by f k else lstrip_by f l ++ k.
Proof. induction l as [|b l IH]; simpl; [done|]. by destruct (f b). Qed.

Lemma lstrip_by_nil f l : forallb f l = true -> lstrip_by f l = [].
Proof. intros Hl. rewrite <- (app_nil_r l). by rewrite lstrip_by_all. Qed.

Lemma strip_by_around f l k1 k2 :
  forallb f k1 = true -> forallb f k2 = true -> strip_by f (k1 ++ l ++ k2) = strip_by f l.
Proof.
  intros H1 H2. unfold strip_by. rewrite lstrip_by_all, lstrip_by_app by done.
  destruct (forallb f l) eqn:Hl; [by rewrite !lstrip_by_nil|]. by rewrite rstrip_by_all.
Qed.

Lemma strip_by_spaces f l : forallb f l = true -> strip_by f l = [].
Proof. intros Hl. unfold strip_by. by rewrite lstrip_by_nil. Qed.

Lemma forallb_sublist {A} (f : A -> bool) l k :
  sublist l k -> forallb f k = true -> forallb f l = true.
Proof.
  intros Hs. rewrite !forallb_forall. intros Hk x Hx. apply Hk.
  apply list_elem_of_In. apply list_elem_of_In in Hx. by eapply sublist_subseteq.
Qed.

Lemma lstrip_by_suffix f l : lstrip_by f l `suffix_of` l.
Proof.
  induction l as [|b l IH]; simpl; [done|]. destruct (f b); [|done]. by apply suffix_cons_r.
Qed.

Lemma strip_by_sublist f l : sublist (strip_by f l) l.
Proof.
  destruct (lstrip_by_suffix f l) as [a Ha].
  destruct (lstrip_by_suffix f (reverse (lstrip_by f l))) as [b Hb].
  apply (f_equal reverse) in Hb. rewrite reverse_involutive, reverse_app in Hb.
  rewrite Ha at 2. apply sublist_inserts_l. rewrite Hb. by apply sublist_inserts_r.
Qed.

Lemma startswith_byte_no c l : no_byte c l = true -> startswith [c] l = false.
Proof.
  destruct l as [|b l]; [done|]. cbn. unfold is_byte. intros [Hb _]%andb_true_iff.
  rewrite andb_true_r. apply bool_decide_eq_false_2. intros ->. by rewrite bool_decide_true in Hb.
Qed.

(** Once trailing comments are cut, no line starts with the comment character. *)
Lemma comment_filter_dead c ls :
  Forall (fun l => no_byte c l = true) ls ->
  filter (fun line => startswith [c] (strip line) = false) ls = ls.
Proof.
  intros Hls. apply filter_all_id. eapply Forall_impl; [done|]. intros l Hl.
  apply startswith_byte_no. eapply forallb_sublist; [apply strip_by_sublist|done].
Qed.

(** ** Commented text as an author writes it *)
Record text_line := mk_text_line {
  tl_pre : pystr;
  tl_body : pystr;
  tl_post : pystr;
  tl_comment : option pystr;
}.

Definition render_line (c : Byte.byte) (tl : text_line) : pystr :=
  tl_pre tl ++ tl_body tl ++ tl_post tl ++
    match tl_comment tl with None => [] | Some k => c :: k end.
Definition render_text (c : Byte.byte) (tls : list text_line) : pystr :=
  mjoin ((fun tl => render_line c tl ++ [Byte.x0a]) <$> tls).

(** Blanks around a trimmed body that holds no comment character; everything on
    one line. *)
Definition blank (l : pystr) : bool := forallb is_space l && no_eol l.
Definition text_line_ok (c : Byte.byte) (tl : text_line) : bool :=
  blank (tl_pre tl) && blank (tl_post tl) &&
  bool_decide (strip (tl_body tl) = tl_body tl) && no_eol (tl_body tl) &&
  no_byte c (tl_pre tl ++ tl_body tl ++ tl_post tl) &&
  match tl_comment tl with None => true | Some k => no_eol k end.

Lemma no_eol_app l k : no_eol (l ++ k) = no_eol l && no_eol k.
Proof. apply forallb_app. Qed.

Lemma RemoveComment_render c tl :
  text_line_ok c tl = true ->
  RemoveComment [c] (render_line c tl) = tl_pre tl ++ tl_body tl ++ tl_post tl.
Proof.
  unfold text_line_ok. rewrite !andb_true_iff. intros (((_ & _) & Hno) & _).
  unfold render_line. destruct (tl_comment tl) as [k|].
  - replace (tl_pre tl ++ tl_body tl ++ tl_post tl ++ c :: k)
      with ((tl_pre tl ++ tl_body tl ++ tl_post tl) ++ c :: k) by (by rewrite <- !app_assoc).
    by apply RemoveComment_trailing.
  - rewrite app_nil_r. by apply RemoveComment_none.
Qed.

Lemma render_line_no_eol c tl :
  is_eol c = false -> text_line_ok c tl = true -> no_eol (render_line c tl) = true.
Proof.
  intros Hc. unfold text_line_ok, blank. rewrite !andb_true_iff.
  intros (((((Hpre & Hpost) & _) & Hb) & _) & Hk). unfold render_line.
  rewrite !no_eol_app, (proj2 Hpre), (proj2 Hpost), Hb. simpl.
  destruct (tl_comment tl); [|done]. cbn. by rewrite Hc.
Qed.

Lemma strip_render c tl :
  text_line_ok c tl = true -> strip (tl_pre tl ++ tl_body tl ++ tl_post tl) = tl_body tl.
Proof.
  unfold text_line_ok, blank. rewrite !andb_true_iff, bool_decide_eq_true.
  intros (((((Hpre & Hpost) & Hb) & _) & _) & _). rewrite <- Hb at 2.
  apply strip_by_around; tauto.
Qed.

Lemma to_str_id (to_str : bool) (ls : list pystr) : (if to_str then py_str <$> ls else ls) = ls.
Proof. destruct to_str; [|done]. apply list_fmap_id. Qed.

Lemma splitlines_render c tls :
  is_eol c = false -> Forall (fun tl => text_line_ok c tl = true) tls ->
  splitlines false (render_text c tls) = render_line c <$> tls.
Proof.
  intros Hc Hok. rewrite <- (splitlines_lines (render_line c <$> tls)).
  - unfold render_text. by rewrite <- list_fmap_compose.
  - apply Forall_fmap. eapply Forall_impl; [done|]. intros tl. by apply (render_line_no_eol c).
Qed.

Lemma uncomment_render c tls :
  Forall (fun tl => text_line_ok c tl = true) tls ->
  strip <$> (RemoveComment [c] <$> (render_line c <$> tls)) = tl_body <$> tls.
Proof.
  intros Hok. rewrite <- !list_fmap_compose. apply list_fmap_ext. intros i tl Htl. simpl.
  pose proof (Forall_lookup_1 _ _ _ _ Hok Htl) as Htl'. simpl in Htl'.
  by rewrite RemoveComment_render, (strip_render c).
Qed.

Lemma bodies_no_byte c tls :
  Forall (fun tl => text_line_ok c tl = true) tls ->
  Forall (fun l => no_byte c l = true) (tl_body <$> tls).
Proof.
  intros Hok. apply Forall_fmap. eapply Forall_impl; [done|]. intros tl.
  unfold text_line_ok. simpl. rewrite !andb_true_iff. intros ((_ & Hno) & _).
  unfold no_byte in *. rewrite !forallb_app, !andb_true_iff in Hno. tauto.
Qed.

(** Reading back a commented text with the default flags gives the bodies
    of its lines that are not empty, in order: comments, the blanks around a
    body, and lines that hold nothing else are dropped.  Asking for no
    duplicates keeps each body where it occurs first. *)
Theorem LoadListFromCommentedText_render c tls to_str exclude_comment_line remove_duplicates :
  is_eol c = false -> Forall (fun tl => text_line_ok c tl = true) tls ->
  LoadListFromCommentedText to_str true true exclude_comment_line true remove_duplicates true
      [c] (render_text c tls) =
    let bodies := filter (fun l => l <> []) (tl_body <$> tls) in
    if remove_duplicates : bool then first_occurrences bodies else bodies.
Proof.
  intros Hc Hok. unfold LoadListFromCommentedText. cbn [negb].
  rewrite to_str_id, splitlines_render, uncomment_render by done.
  rewrite (comment_filter_dead c (tl_body <$> tls)) by by apply bodies_no_byte.
  rewrite dedup_first. by destruct exclude_comment_line.
Qed.

Definition sample_text : list text_line :=
  [mk_text_line [] (bs "arm64") (bs " ") (Some (bs " 64-bit"));
   mk_text_line (bs "  ") [] [] (Some (bs " only a comment"));
   mk_text_line [] [] [] None;
   mk_text_line (bs "  ") (bs "x86 64") [] None;
   mk_text_line [] (bs "arm64") [] None].

Lemma LoadListFromCommentedText_render_witness :
  LoadListFromCommentedText true true true true true true true (bs "#")
    (render_text Byte.x23 sample_text) = [bs "arm64"; bs "x86 64"].
Proof.
  etransitivity;
    [apply (LoadListFromCommentedText_render Byte.x23 sample_text true true true);
      [reflexivity|repeat constructor]
    |vm_compute; reflexivity].
Defined.

(** A line of blanks and a comment is kept when lines are not stripped:
    its comment is cut first, so it no longer counts as a comment line, and
    the blanks left are not an empty line. *)
Theorem LoadListFromCommentedText_keeps_comment_line c k comment to_str exclude_comment_line
    remove_duplicates :
  k <> [] -> blank k = true -> no_byte c k = true -> is_eol c = false -> no_eol comment = true ->
  LoadListFromCommentedText to_str false true exclude_comment_line true remove_duplicates true
    [c] (k ++ c :: comment ++ [Byte.x0a]) = [k].
Proof.
  intros Hne [Hk Heol]%andb_true_iff Hno Hc Hcm. unfold LoadListFromCommentedText. cbn [negb].
  unfold splitlines.
  rewrite app_comm_cons, app_assoc, to_str_id, splitlines_from_line.
  2:{ rewrite no_eol_app, Heol. cbn. by rewrite Hc. }
  cbn [app splitlines_from]. rewrite app_nil_r, list_fmap_singleton.
  rewrite RemoveComment_trailing by done.
  rewrite (comment_filter_dead c [k]) by (by constructor).
  assert (forall b : bool, (if b then [k] else [k]) = [k]) as -> by (by intros []).
  rewrite filter_cons_True by done. simpl. rewrite dedup_first. by destruct remove_duplicates.
Qed.

Lemma LoadListFromCommentedText_keeps_comment_line_witness :
  LoadListFromCommentedText true false true true true false true (bs "#")
    (bs "  # note" ++ [Byte.x0a]) = [bs "  "].
Proof.
  apply (LoadListFromCommentedText_keeps_comment_line Byte.x23 (bs "  ") (bs " note"));
    reflexivity || discriminate.
Defined.

(** [DeduplicateKeepOrder] keeps each item exactly where it occurs first:
    the result has no duplicates, has the items of the input, is a sublist of
    it, and doing it again changes nothing. *)
Theorem DeduplicateKeepOrder_spec {A} `{Countable A} (l : list A) :
  DeduplicateKeepOrder l = first_occurrences l /\ NoDup (DeduplicateKeepOrder l) /\
  (forall x, x ∈ DeduplicateKeepOrder l <-> x ∈ l) /\ sublist (DeduplicateKeepOrder l) l /\
  DeduplicateKeepOrder (DeduplicateKeepOrder l) = DeduplicateKeepOrder l.
Proof.
  rewrite !dedup_first. split; [done|]. split; [apply NoDup_first_occurrences|].
  split; [intros x; apply elem_of_first_occurrences|].
  split; [apply first_occurrences_sublist|].
  apply first_occurrences_NoDup, NoDup_first_occurrences.
Qed.

(** Reading a path that is not a file does not return [None], as its doc says:
    the log call raises. *)
Lemma LoadListFromCommentedTextFile_missing files to_str to_strip exclude_empty_line
    exclude_comment_line exclude_trailing_comment remove_duplicates remove_line_breaks c path :
  files !! path = None ->
  LoadListFromCommentedTextFile files to_str to_strip exclude_empty_line exclude_comment_line
    exclude_trailing_comment remove_duplicates remove_line_breaks c path = Raise NameError.
Proof. unfold LoadListFromCommentedTextFile. by intros ->. Qed.
