(* ===== verification/FilterUtils.v ===== *)
(** * Test filters ([src/utils/python/common/filter_utils.py])

    The include and exclude rules that select test names.  The input lists are
    mutable Python lists that a filter shares with its caller, and with other
    filters when they come from a default argument: they live in a heap and
    the object holds their locations.  The lists derived from them by
    [refresh_filter] are only ever replaced, so they are values.

    Regular expressions are those of Python's [re]: compiling a pattern is a
    parameter that gives no matcher when the pattern is malformed; a matcher
    gives the end of the match at the start of a string. *)

From Stdlib Require Import Strings.Byte.
From S2P Require Import Prelude PyStr ListUtils.

Definition SUFFIX_32BIT : pystr := bs "32bit".
Definition SUFFIX_64BIT : pystr := bs "64bit".

Definition REGEX_PREFIX : pystr := bs "r(".
Definition REGEX_SUFFIX : pystr := bs ")".
Definition REGEX_PREFIX_ESCAPE : pystr := bs "\r(".
Definition NEGATIVE_PATTERN_PREFIX : pystr := bs "-".
Definition DEFAULT_EXCLUDE_OVER_INCLUDE : bool := false.
Definition module_name_pattern (module test : pystr) : pystr := module ++ bs "." ++ test.

(** ** Bitness suffixes *)
Definition has_bitness (item : pystr) : bool :=
  endswith SUFFIX_32BIT item || endswith SUFFIX_64BIT item.

Definition expand_item (item : pystr) : list pystr :=
  py_str item ::
    (if negb (has_bitness item)
     then [item ++ bs "_" ++ SUFFIX_32BIT; item ++ bs "_" ++ SUFFIX_64BIT] else []).

Definition ExpandBitness (input_list : list pystr) : list pystr :=
  DeduplicateKeepOrder (mjoin (expand_item <$> input_list)).

(** ** Patterns *)
Definition IsRegexFilter (item : pystr) : bool :=
  startswith REGEX_PREFIX item && endswith REGEX_SUFFIX item.

Definition negative_item (item : pystr) : bool := startswith NEGATIVE_PATTERN_PREFIX item.

Definition split_negative_step (acc : list pystr * list pystr) (item : pystr)
    : list pystr * list pystr :=
  let '(positive, negative) := acc in
  if negative_item item
  then (positive, negative ++ [drop (length NEGATIVE_PATTERN_PREFIX) item])
  else (positive ++ [item], negative).

Definition SplitNegativePattern (input_list : list pystr) : list pystr * list pystr :=
  foldl split_negative_step ([], []) input_list.

(** [item[len(REGEX_PREFIX):-len(REGEX_SUFFIX)]] *)
Definition regex_body (item : pystr) : pystr := py_slice item 2 (-1).

Definition is_escaped (item : pystr) : bool :=
  startswith REGEX_PREFIX_ESCAPE item && endswith REGEX_SUFFIX item.
Definition exact_name (item : pystr) : pystr :=
  if is_escaped item then REGEX_PREFIX ++ drop (length REGEX_PREFIX_ESCAPE) item else item.

(** Locations of list objects; the two default arguments of the constructor are
    evaluated once, when the class is defined. *)
Definition loc := nat.
Definition heap := gmap loc (list pystr).
Definition DEFAULT_INCLUDE : loc := 0.
Definition DEFAULT_EXCLUDE : loc := 1.
Definition initial_heap : heap := {[DEFAULT_INCLUDE := []; DEFAULT_EXCLUDE := []]}.

Record Filter := mk_Filter {
  enable_regex : bool;
  expand_bitness : bool;
  enable_negative_pattern : bool;
  exclude_over_include : bool;
  enable_module_name_prefix_matching : bool;
  module_name : option pystr;
  include_loc : option loc;  (* _include_filter, once it is set *)
  exclude_loc : option loc;
  include_filter_exact : list pystr;
  include_filter_regex : list pystr;
  exclude_filter_exact : list pystr;
  exclude_filter_regex : list pystr;
}.

(** The argument of the [add_to_] methods: a string or a list. *)
Inductive pattern_arg := PStr (s : pystr) | PList (l : list pystr).
Definition pattern_list (p : pattern_arg) : list pystr :=
  match p with PStr s => [s] | PList l => l end.

(** [getattr(self, _INCLUDE_FILTER, [])] *)
Definition list_at (h : heap) (l : option loc) : list pystr :=
  match l with Some l => default [] (h !! l) | None => [] end.
Definition include_filter (h : heap) (self : Filter) : list pystr := list_at h (include_loc self).
Definition exclude_filter (h : heap) (self : Filter) : list pystr := list_at h (exclude_loc self).

Section regex.
(** [re.compile], then [match(item).end()]. *)
Context (re_compile : pystr -> option (pystr -> option nat)).

Definition expand_appendix_item (appendix_list : list pystr) (filter_pattern item : pystr)
    : pyres (list pystr) :=
  skip ← (if IsRegexFilter item then Ok true else
          match re_compile filter_pattern with
          | None => Raise RegexError
          | Some m => Ok (bool_decide (is_Some (m item)))
          end);
  if skip : bool then Ok [item] else
  let pos := Z.of_nat (length item) in
  pos ← (if has_bitness item then
           let pos := (Z.of_nat (length item) - Z.of_nat (length SUFFIX_32BIT))%Z in
           c ← py_get item (pos - 1);
           Ok (if decide (c = Byte.x5f) then (pos - 1)%Z else pos)
         else Ok pos);
  Ok ((fun appendix => py_slice item 0 pos ++ appendix ++ py_slice item pos (Z.of_nat (length item)))
        <$> appendix_list).

Definition ExpandAppendix (input_list appendix_list : list pystr) (filter_pattern : pystr)
    : pyres (list pystr) :=
  foldlM_py (fun result item =>
    r ← expand_appendix_item appendix_list filter_pattern item; Ok (result ++ r)) [] input_list.

Definition split_filter_step (acc : list pystr * list pystr) (item : pystr)
    : list pystr * list pystr :=
  let '(exact, regex) := acc in
  if IsRegexFilter item then
    match re_compile (regex_body item) with
    | Some _ => (exact, regex ++ [regex_body item])
    | None => (exact, regex)
    end
  else (exact ++ [exact_name item], regex).

Definition SplitFilterList (input_list : list pystr) : list pystr * list pystr :=
  foldl split_filter_step ([], []) input_list.

Fixpoint InRegexList (item : pystr) (regex_list : list pystr) : pyres bool :=
  match regex_list with
  | [] => Ok false
  | regex :: regex_list =>
      match re_compile regex with
      | None => Raise RegexError
      | Some m =>
          if decide (m item = Some (length item)) then Ok true else InRegexList item regex_list
      end
  end.

(** ** The class *)
Definition with_exact (inc exc : list pystr) (self : Filter) : Filter :=
  mk_Filter (enable_regex self) (expand_bitness self) (enable_negative_pattern self)
    (exclude_over_include self) (enable_module_name_prefix_matching self) (module_name self)
    (include_loc self) (exclude_loc self) inc (include_filter_regex self) exc
    (exclude_filter_regex self).
Definition with_regex (inc exc : list pystr) (self : Filter) : Filter :=
  mk_Filter (enable_regex self) (expand_bitness self) (enable_negative_pattern self)
    (exclude_over_include self) (enable_module_name_prefix_matching self) (module_name self)
    (include_loc self) (exclude_loc self) (include_filter_exact self) inc
    (exclude_filter_exact self) exc.
Definition with_locs (inc exc : option loc) (self : Filter) : Filter :=
  mk_Filter (enable_regex self) (expand_bitness self) (enable_negative_pattern self)
    (exclude_over_include self) (enable_module_name_prefix_matching self) (module_name self)
    inc exc (include_filter_exact self) (include_filter_regex self) (exclude_filter_exact self)
    (exclude_filter_regex self).
Definition with_bitness (b : bool) (self : Filter) : Filter :=
  mk_Filter (enable_regex self) b (enable_negative_pattern self)
    (exclude_over_include self) (enable_module_name_prefix_matching self) (module_name self)
    (include_loc self) (exclude_loc self) (include_filter_exact self) (include_filter_regex self)
    (exclude_filter_exact self) (exclude_filter_regex self).

Definition refresh_filter (h : heap) (self : Filter) : Filter :=
  let inc := include_filter h self in
  let exc := exclude_filter h self in
  let '(inc, exc) :=
    if enable_negative_pattern self then
      let '(inc, negative) := SplitNegativePattern inc in (inc, exc ++ negative)
    else (inc, exc) in
  let self :=
    if enable_regex self then
      let '(inc_exact, inc_regex) := SplitFilterList inc in
      let '(exc_exact, exc_regex) := SplitFilterList exc in
      with_exact inc_exact exc_exact (with_regex inc_regex exc_regex self)
    else with_exact inc exc self in
  if expand_bitness self then
    with_exact (ExpandBitness (include_filter_exact self))
      (ExpandBitness (exclude_filter_exact self)) self
  else self.

Definition set_include_filter (h : heap) (l : loc) (self : Filter) : Filter :=
  refresh_filter h (with_locs (Some l) (exclude_loc self) self).
Definition set_exclude_filter (h : heap) (l : loc) (self : Filter) : Filter :=
  refresh_filter h (with_locs (include_loc self) (Some l) self).

Definition with_policy (over prefix : bool) (module : option pystr) (self : Filter) : Filter :=
  mk_Filter (enable_regex self) (expand_bitness self) (enable_negative_pattern self) over prefix
    module (include_loc self) (exclude_loc self) (include_filter_exact self)
    (include_filter_regex self) (exclude_filter_exact self) (exclude_filter_regex self).

(** [Filter(...)]: the derived lists start as the empty lists of the class;
    each of the first two assignments of a filter list refreshes the object. *)
Definition new_Filter (h : heap) (include exclude : loc) (regex : bool)
    (over : option bool) (negative prefix : bool) (module : option pystr) (bitness : bool)
    : Filter :=
  let self := mk_Filter regex bitness negative false false None None None [] [] [] [] in
  let self := set_include_filter h include self in
  let self := set_exclude_filter h exclude self in
  with_policy (default DEFAULT_EXCLUDE_OVER_INCLUDE over) prefix module self.

(** [Filter()] *)
Definition default_Filter (h : heap) : Filter :=
  new_Filter h DEFAULT_INCLUDE DEFAULT_EXCLUDE true None true false None false.

Definition Filter_ExpandBitness (self : Filter) : Filter :=
  with_bitness true
    (with_exact (ExpandBitness (include_filter_exact self))
       (ExpandBitness (exclude_filter_exact self)) self).

Definition IsIncludeFilterEmpty (self : Filter) : bool :=
  bool_decide (include_filter_exact self = []) && bool_decide (include_filter_regex self = []).

(** The two expanded lists are new objects. *)
Definition Filter_ExpandAppendix (appendix_list : list pystr) (filter_pattern : pystr)
    (h : heap) (self : Filter) : pyres (heap * Filter) :=
  inc ← ExpandAppendix (include_filter h self) appendix_list filter_pattern;
  let l := fresh (dom h) in
  let h := <[l := inc]> h in
  let self := set_include_filter h l self in
  exc ← ExpandAppendix (exclude_filter h self) appendix_list filter_pattern;
  let l := fresh (dom h) in
  let h := <[l := exc]> h in
  Ok (h, set_exclude_filter h l self).

(** [l.extend(pattern)] on the list object itself. *)
Definition extend_at (h : heap) (l : option loc) (pattern : list pystr) : heap :=
  match l with Some l => alter (fun old => old ++ pattern) l h | None => h end.

Definition add_to_include_filter (pattern : pattern_arg) (auto_refresh : bool)
    (h : heap) (self : Filter) : heap * Filter :=
  let h := extend_at h (include_loc self) (pattern_list pattern) in
  (h, if auto_refresh then refresh_filter h self else self).
Definition add_to_exclude_filter (pattern : pattern_arg) (auto_refresh : bool)
    (h : heap) (self : Filter) : heap * Filter :=
  let h := extend_at h (exclude_loc self) (pattern_list pattern) in
  (h, if auto_refresh then refresh_filter h self else self).

(** *** The decision *)
Definition IsInIncludeFilter_ (self : Filter) (item : pystr) : pyres bool :=
  if decide (item ∈ include_filter_exact self) then Ok true
  else InRegexList item (include_filter_regex self).
Definition IsInExcludeFilter_ (self : Filter) (item : pystr) : pyres bool :=
  if decide (item ∈ exclude_filter_exact self) then Ok true
  else InRegexList item (exclude_filter_regex self).

Definition ModuleNamePrefixMatchingCheck (self : Filter) (item : pystr)
    (check_function : pystr -> pyres bool) : pyres bool :=
  res ← check_function item;
  match module_name self with
  | Some ((_ :: _) as module) =>
      if negb res && enable_module_name_prefix_matching self
      then check_function (module_name_pattern module item)
      else Ok res
  | _ => Ok res
  end.

Definition IsInIncludeFilter (self : Filter) (item : pystr) : pyres bool :=
  ModuleNamePrefixMatchingCheck self item (IsInIncludeFilter_ self).
Definition IsInExcludeFilter (self : Filter) (item : pystr) : pyres bool :=
  ModuleNamePrefixMatchingCheck self item (IsInExcludeFilter_ self).

Definition Filter_Filter (self : Filter) (item : pystr) : pyres bool :=
  if exclude_over_include self then
    excluded ← IsInExcludeFilter self item;
    if excluded : bool then Ok false
    else if negb (IsIncludeFilterEmpty self) then IsInIncludeFilter self item
    else Ok true
  else
    if negb (IsIncludeFilterEmpty self) then IsInIncludeFilter self item
    else negb <$> IsInExcludeFilter self item.

(** ** What the rules mean, from the input lists alone *)
Definition plain_matches (expand : bool) (name item : pystr) : bool :=
  bool_decide (item ∈ if expand then expand_item name else [name]).

Definition pattern_matches (rx expand : bool) (p item : pystr) : bool :=
  if rx && IsRegexFilter p then
    match re_compile (regex_body p) with
    | Some m => bool_decide (m item = Some (length item))
    | None => false
    end
  else plain_matches expand (if rx then exact_name p else p) item.

(** A malformed regular expression is no rule at all. *)
Definition pattern_counts (rx : bool) (p : pystr) : bool :=
  negb (rx && IsRegexFilter p) || bool_decide (is_Some (re_compile (regex_body p))).

Definition include_rules (h : heap) (self : Filter) : list pystr :=
  if enable_negative_pattern self
  then filter (fun p => negative_item p = false) (include_filter h self)
  else include_filter h self.
Definition exclude_rules (h : heap) (self : Filter) : list pystr :=
  exclude_filter h self ++
    (if enable_negative_pattern self
     then drop 1 <$> filter (fun p => negative_item p = true) (include_filter h self) else []).

Definition rules_match (self : Filter) (rules : list pystr) (item : pystr) : bool :=
  existsb (fun p => pattern_matches (enable_regex self) (expand_bitness self) p item) rules.

(** Also under the name with the module in front, when that is asked for. *)
Definition rules_list (self : Filter) (rules : list pystr) (item : pystr) : bool :=
  rules_match self rules item ||
  match module_name self with
  | Some ((_ :: _) as module) =>
      enable_module_name_prefix_matching self &&
      rules_match self rules (module_name_pattern module item)
  | _ => false
  end.

Definition filter_decision (h : heap) (self : Filter) (item : pystr) : bool :=
  if existsb (pattern_counts (enable_regex self)) (include_rules h self)
  then rules_list self (include_rules h self) item &&
       negb (exclude_over_include self && rules_list self (exclude_rules h self) item)
  else negb (rules_list self (exclude_rules h self) item).

(** The derived lists are those of the input lists. *)
Definition filter_ok (h : heap) (self : Filter) : Prop :=
  refresh_filter h self = self /\
  (enable_regex self = false -> include_filter_regex self = [] /\ exclude_filter_regex self = []).

Definition derived_exact (rx expand : bool) (rules : list pystr) : list pystr :=
  let exact :=
    if rx then exact_name <$> filter (fun p => IsRegexFilter p = false) rules else rules in
  if expand then ExpandBitness exact else exact.
Definition derived_regex (rx : bool) (rules : list pystr) : list pystr :=
  if rx then regex_body <$>
    filter (fun p => IsRegexFilter p = true /\ is_Some (re_compile (regex_body p))) rules
  else [].

(** ** Lemmas *)
Lemma SplitNegativePattern_filter l :
  SplitNegativePattern l =
    (filter (fun p => negative_item p = false) l,
     drop 1 <$> filter (fun p => negative_item p = true) l).
Proof.
  unfold SplitNegativePattern.
  enough (forall acc, foldl split_negative_step acc l =
    (acc.1 ++ filter (fun p => negative_item p = false) l,
     acc.2 ++ (drop 1 <$> filter (fun p => negative_item p = true) l))) as -> by done.
  induction l as [|p l IH]; intros [pos neg]; simpl; [by rewrite !app_nil_r|].
  rewrite IH, !filter_cons. destruct (negative_item p); csimpl; by rewrite <- app_assoc.
Qed.

Lemma SplitFilterList_filter l :
  SplitFilterList l = (derived_exact true false l, derived_regex true l).
Proof.
  unfold SplitFilterList, derived_exact, derived_regex.
  enough (forall acc, foldl split_filter_step acc l =
    (acc.1 ++ (exact_name <$> filter (fun p => IsRegexFilter p = false) l),
     acc.2 ++ (regex_body <$>
       filter (fun p => IsRegexFilter p = true /\ is_Some (re_compile (regex_body p))) l)))
    as -> by done.
  induction l as [|p l IH]; intros [e r]; simpl; [by rewrite !app_nil_r|].
  rewrite IH, !filter_cons.
  destruct (decide (IsRegexFilter p = false)) as [Hp|Hp].
  - rewrite decide_False by by rewrite Hp; intros []. rewrite Hp. csimpl. by rewrite <- app_assoc.
  - apply not_false_is_true in Hp. rewrite Hp.
    destruct (re_compile (regex_body p)) as [m|] eqn:Hc.
    + rewrite decide_True by eauto. csimpl. by rewrite <- app_assoc.
    + rewrite decide_False; [done|]. by intros [_ [? ?]].
Qed.

Lemma InRegexList_existsb item l :
  Forall (fun r => is_Some (re_compile r)) l ->
  InRegexList item l = Ok (existsb (fun r =>
    match re_compile r with Some m => bool_decide (m item = Some (length item)) | None => false end) l).
Proof.
  induction 1 as [|r l [m Hm] Hl IH]; simpl; [done|]. rewrite Hm, IH.
  by destruct (decide _) as [Hd|Hd]; [rewrite bool_decide_true|rewrite bool_decide_false].
Qed.

Lemma derived_regex_valid rx l : Forall (fun r => is_Some (re_compile r)) (derived_regex rx l).
Proof.
  unfold derived_regex. destruct rx; [|constructor]. apply Forall_fmap, Forall_forall.
  intros p [[_ Hp] _]%list_elem_of_filter. done.
Qed.

Lemma elem_of_ExpandBitness item l :
  item ∈ ExpandBitness l <-> exists p, p ∈ l /\ item ∈ expand_item p.
Proof.
  unfold ExpandBitness. rewrite dedup_first, elem_of_first_occurrences, list_elem_of_join.
  setoid_rewrite list_elem_of_fmap. naive_solver.
Qed.

Lemma elem_of_derived_exact rx expand rules item :
  item ∈ derived_exact rx expand rules <->
  exists p, p ∈ rules /\ (rx && IsRegexFilter p) = false /\
    plain_matches expand (if rx then exact_name p else p) item = true.
Proof.
  unfold derived_exact, plain_matches. setoid_rewrite bool_decide_eq_true.
  assert (item ∈ (let exact := if rx then exact_name <$> filter (fun p => IsRegexFilter p = false) rules
      else rules in if expand then ExpandBitness exact else exact) <->
    exists q, q ∈ (if rx then exact_name <$> filter (fun p => IsRegexFilter p = false) rules
      else rules) /\ item ∈ (if expand then expand_item q else [q])) as ->.
  { destruct expand; [apply elem_of_ExpandBitness|]. setoid_rewrite list_elem_of_singleton.
    naive_solver. }
  destruct rx; simpl; [|naive_solver].
  setoid_rewrite list_elem_of_fmap. setoid_rewrite list_elem_of_filter. naive_solver.
Qed.

Lemma check_rules rx expand rules item :
  (if decide (item ∈ derived_exact rx expand rules) then Ok true
   else InRegexList item (derived_regex rx rules)) =
  Ok (existsb (fun p => pattern_matches rx expand p item) rules).
Proof.
  rewrite InRegexList_existsb by apply derived_regex_valid.
  assert (forall b, (if decide (item ∈ derived_exact rx expand rules) then Ok true else Ok b) =
    Ok (bool_decide (item ∈ derived_exact rx expand rules) || b)) as ->.
  { intros b. case_decide; [by rewrite bool_decide_true|by rewrite bool_decide_false]. }
  f_equal. apply eq_true_iff_eq.
  rewrite orb_true_iff, bool_decide_eq_true, elem_of_derived_exact, !existsb_exists.
  setoid_rewrite <- list_elem_of_In. unfold pattern_matches, derived_regex. split.
  - intros [(p & Hp & Hrx & Hm)|(r & Hr & Hm)].
    + exists p. by rewrite Hrx.
    + destruct rx; [|by apply elem_of_nil in Hr].
      apply list_elem_of_fmap in Hr as (p & -> & [[Hrx _] Hp]%list_elem_of_filter).
      exists p. by rewrite Hrx.
  - intros (p & Hp & Hm). destruct (rx && IsRegexFilter p) eqn:Hrx; [right|left; eauto].
    apply andb_true_iff in Hrx as [-> Hrx]. exists (regex_body p). split; [|done].
    apply list_elem_of_fmap. exists p. split; [done|]. apply list_elem_of_filter.
    by destruct (re_compile (regex_body p)) eqn:Hc.
Qed.

Lemma nonempty_elem {A} (l : list A) : l <> [] <-> exists x, x ∈ l.
Proof.
  split; [destruct l as [|x l]; [done|]; exists x; by left|]. by intros [x Hx] ->; inv Hx.
Qed.

Lemma derived_empty rx expand rules :
  bool_decide (derived_exact rx expand rules = []) && bool_decide (derived_regex rx rules = []) =
  negb (existsb (pattern_counts rx) rules).
Proof.
  rewrite <- (negb_involutive (_ && _)). f_equal. apply eq_true_iff_eq.
  rewrite negb_true_iff, andb_false_iff, !bool_decide_eq_false, existsb_exists, !nonempty_elem.
  setoid_rewrite elem_of_derived_exact. setoid_rewrite <- list_elem_of_In.
  unfold pattern_counts. setoid_rewrite orb_true_iff. setoid_rewrite negb_true_iff.
  setoid_rewrite bool_decide_eq_true. unfold derived_regex. split.
  - intros [(item & p & Hp & Hrx & _)|[r Hr]]; [eauto|].
    destruct rx; [|by apply elem_of_nil in Hr].
    apply list_elem_of_fmap in Hr as (p & -> & [[Hrx Hc] Hp]%list_elem_of_filter). eauto.
  - intros (p & Hp & Hcount). destruct (rx && IsRegexFilter p) eqn:Hrx.
    + right. apply andb_true_iff in Hrx as [-> Hrx]. exists (regex_body p).
      apply list_elem_of_fmap. exists p. split; [done|]. apply list_elem_of_filter.
      by destruct Hcount.
    + left. exists (if rx then exact_name p else p), p. split_and!; [done..|].
      destruct expand; left.
Qed.

Lemma refresh_eq h self :
  refresh_filter h self =
    with_exact
      (derived_exact (enable_regex self) (expand_bitness self) (include_rules h self))
      (derived_exact (enable_regex self) (expand_bitness self) (exclude_rules h self))
      (with_regex
        (if enable_regex self then derived_regex true (include_rules h self)
         else include_filter_regex self)
        (if enable_regex self then derived_regex true (exclude_rules h self)
         else exclude_filter_regex self) self).
Proof.
  unfold refresh_filter, include_rules, exclude_rules. rewrite SplitNegativePattern_filter.
  destruct (enable_negative_pattern self), (enable_regex self) eqn:Hrx; rewrite ?app_nil_r;
    rewrite ?SplitFilterList_filter; simpl; destruct (expand_bitness self) eqn:Hex; simpl;
    rewrite ?Hex; by destruct self.
Qed.

(** The derived lists of a refreshed object. *)
Lemma filter_ok_fields h self :
  filter_ok h self ->
  include_filter_exact self =
    derived_exact (enable_regex self) (expand_bitness self) (include_rules h self) /\
  include_filter_regex self = derived_regex (enable_regex self) (include_rules h self) /\
  exclude_filter_exact self =
    derived_exact (enable_regex self) (expand_bitness self) (exclude_rules h self) /\
  exclude_filter_regex self = derived_regex (enable_regex self) (exclude_rules h self).
Proof.
  unfold filter_ok. rewrite refresh_eq. intros [Hr He].
  split_and!; [by rewrite <- Hr at 1| |by rewrite <- Hr at 1|];
    (destruct (enable_regex self) eqn:Hrx; [by rewrite <- Hr at 1|by apply He]).
Qed.

Lemma IsInIncludeFilter_rules h self item :
  filter_ok h self -> IsInIncludeFilter_ self item = Ok (rules_match self (include_rules h self) item).
Proof.
  intros (H1 & H2 & _)%filter_ok_fields. unfold IsInIncludeFilter_. rewrite H2.
  etrans; [|apply check_rules]. by rewrite <- H1.
Qed.

Lemma IsInExcludeFilter_rules h self item :
  filter_ok h self -> IsInExcludeFilter_ self item = Ok (rules_match self (exclude_rules h self) item).
Proof.
  intros (_ & _ & H1 & H2)%filter_ok_fields. unfold IsInExcludeFilter_. rewrite H2.
  etrans; [|apply check_rules]. by rewrite <- H1.
Qed.

Lemma prefix_check self rules item check :
  (forall item, check item = Ok (rules_match self rules item)) ->
  ModuleNamePrefixMatchingCheck self item check = Ok (rules_list self rules item).
Proof.
  intros Hc. unfold ModuleNamePrefixMatchingCheck, rules_list. rewrite Hc. simpl.
  destruct (module_name self) as [[|c m]|]; rewrite ?orb_false_r; [done| |done].
  destruct (rules_match self rules item), (enable_module_name_prefix_matching self); simpl; done.
Qed.

Lemma IsIncludeFilterEmpty_rules h self :
  filter_ok h self ->
  IsIncludeFilterEmpty self =
    negb (existsb (pattern_counts (enable_regex self)) (include_rules h self)).
Proof.
  intros (H1 & H2 & _)%filter_ok_fields. unfold IsIncludeFilterEmpty. rewrite H2.
  etrans; [|apply derived_empty]. by rewrite <- H1.
Qed.

(** A refreshed filter decides every test name by its rules alone. *)
Lemma filter_decides h self item :
  filter_ok h self -> Filter_Filter self item = Ok (filter_decision h self item).
Proof.
  intros Hok. unfold Filter_Filter, filter_decision, IsInIncludeFilter, IsInExcludeFilter.
  rewrite (prefix_check self (exclude_rules h self) item (IsInExcludeFilter_ self)) 
    by (intros; by apply IsInExcludeFilter_rules).
  rewrite (prefix_check self (include_rules h self) item (IsInIncludeFilter_ self)) 
    by (intros; by apply IsInIncludeFilter_rules).
  rewrite (IsIncludeFilterEmpty_rules h) by done. rewrite negb_involutive. simpl.
  destruct (exclude_over_include self), (existsb _ _); simpl; rewrite ?andb_true_r; try done.
  - destruct (rules_list self (exclude_rules h self) item); simpl; by rewrite ?andb_false_r, ?andb_true_r.
  - by destruct (rules_list self (exclude_rules h self) item).
Qed.

(** ** The methods keep the derived lists up to date *)
Lemma has_bitness_32 p : has_bitness (p ++ bs "_" ++ SUFFIX_32BIT) = true.
Proof. unfold has_bitness. by rewrite app_assoc, endswith_app. Qed.

Lemma has_bitness_64 p : has_bitness (p ++ bs "_" ++ SUFFIX_64BIT) = true.
Proof. unfold has_bitness. by rewrite app_assoc, endswith_app, orb_true_r. Qed.

Lemma expand_item_tail p q : q ∈ tail (expand_item p) -> has_bitness q = true.
Proof.
  unfold expand_item. destruct (has_bitness p); simpl; [by intros []%elem_of_nil|].
  intros [->|[->|[]%elem_of_nil]%elem_of_cons]%elem_of_cons;
    [apply has_bitness_32|apply has_bitness_64].
Qed.

Lemma expand_item_bitness q : has_bitness q = true -> expand_item q = [q].
Proof. unfold expand_item. by intros ->. Qed.

Lemma expand_item_closed p q : q ∈ expand_item p -> expand_item q ⊆ expand_item p.
Proof.
  intros Hq. assert (q = p \/ q ∈ tail (expand_item p)) as [->|Ht]; [|done|].
  - by apply elem_of_cons in Hq.
  - rewrite expand_item_bitness by by eapply expand_item_tail. set_solver.
Qed.

Lemma unique_loop_app (seen : gset pystr) l k :
  unique_loop seen (l ++ k) = unique_loop seen l ++ unique_loop (seen ∪ list_to_set l) k.
Proof.
  revert seen. induction l as [|x l IH]; intros seen; simpl.
  - f_equal. set_solver.
  - case_decide; simpl; rewrite IH; [|f_equal]; do 2 f_equal; set_solver.
Qed.

Lemma unique_loop_elem (seen : gset pystr) l x :
  x ∈ unique_loop seen l <-> x ∈ l /\ x ∉ seen.
Proof. rewrite unique_loop_first, list_elem_of_filter, elem_of_first_occurrences. naive_solver. Qed.

Lemma unique_loop_seen (seen : gset pystr) l :
  (forall x, x ∈ l -> x ∈ seen) -> unique_loop seen l = [].
Proof. intros Hl. rewrite unique_loop_first. apply filter_none. intros x Hx. 
  apply elem_of_first_occurrences, Hl in Hx. auto. Qed.

Lemma unique_loop_again (seen : gset pystr) l :
  unique_loop seen (unique_loop seen l) = unique_loop seen l.
Proof.
  rewrite (unique_loop_first seen (unique_loop seen l)), first_occurrences_NoDup.
  - apply filter_all_id, Forall_forall. by intros x [_ Hx]%unique_loop_elem.
  - rewrite unique_loop_first. apply NoDup_filter, NoDup_first_occurrences.
Qed.

Lemma expand_cons q l :
  mjoin (expand_item <$> (q :: l)) = expand_item q ++ mjoin (expand_item <$> l).
Proof. done. Qed.

(** Items with the bitness in their name expand to themselves. *)
Lemma expand_with_bitness l :
  (forall q, q ∈ l -> has_bitness q = true) -> mjoin (expand_item <$> l) = l.
Proof.
  induction l as [|q l IH]; intros Hl; [done|]. rewrite expand_cons.
  rewrite IH by (intros; apply Hl; by right). by rewrite expand_item_bitness by (apply Hl; by left).
Qed.

(** What the expansion of an item adds is stable under expanding again. *)
Lemma expand_step (seen : gset pystr) p :
  unique_loop seen (mjoin (expand_item <$> unique_loop seen (expand_item p))) =
    unique_loop seen (expand_item p).
Proof.
  pose proof (expand_item_tail p) as Ht. assert (expand_item p = p :: tail (expand_item p)) as He by done.
  revert Ht He. generalize (tail (expand_item p)). intros t Ht He. rewrite He. simpl. case_decide as Hp.
  - rewrite expand_with_bitness; [apply unique_loop_again|]. intros q [Hq _]%unique_loop_elem. auto.
  - rewrite expand_cons, He, expand_with_bitness by (intros q [Hq _]%unique_loop_elem; auto).
    simpl. rewrite decide_False by done. f_equal. rewrite unique_loop_app.
    rewrite (unique_loop_seen _ (unique_loop _ _)), app_nil_r; [done|].
    intros x [Hx _]%unique_loop_elem. set_solver.
Qed.

Lemma expand_step_seen (seen : gset pystr) p :
  seen ∪ list_to_set (mjoin (expand_item <$> unique_loop seen (expand_item p))) =
    seen ∪ list_to_set (expand_item p).
Proof.
  apply leibniz_equiv. intros q. rewrite !elem_of_union, !elem_of_list_to_set, list_elem_of_join.
  setoid_rewrite list_elem_of_fmap. split.
  - intros [Hq|(k & Hqk & (r & -> & [Hr _]%unique_loop_elem))]; [by left|].
    right. by eapply expand_item_closed.
  - intros [Hq|Hq]; [by left|]. destruct (decide (q ∈ seen)); [by left|]. right.
    exists (expand_item q). split; [by left|]. exists q. split; [done|]. by apply unique_loop_elem.
Qed.

Lemma ExpandBitness_again l : ExpandBitness (ExpandBitness l) = ExpandBitness l.
Proof.
  unfold ExpandBitness, DeduplicateKeepOrder, MergeUniqueKeepOrder. simpl. rewrite !app_nil_r.
  generalize (∅ : gset pystr). induction l as [|p l IH]; intros seen; [done|]. rewrite expand_cons.
  rewrite unique_loop_app, fmap_app, join_app, unique_loop_app, expand_step, expand_step_seen.
  by rewrite IH.
Qed.

(** [ExpandBitness] lists an item and, unless the item already has a
    bitness, its two names with one; nothing twice, and expanding again changes
    nothing ("safe if called multiple times"). *)
Theorem ExpandBitness_spec l :
  (forall item, item ∈ ExpandBitness l <->
    exists p, p ∈ l /\
      (item = p \/ has_bitness p = false /\ (item = p ++ bs "_32bit" \/ item = p ++ bs "_64bit"))) /\
  NoDup (ExpandBitness l) /\ ExpandBitness (ExpandBitness l) = ExpandBitness l.
Proof.
  split_and!.
  - intros item. rewrite elem_of_ExpandBitness. unfold expand_item, py_str.
    setoid_rewrite elem_of_cons. split; intros (p & Hp & Hi); exists p; (split; [done|]);
      destruct (has_bitness p) eqn:Hb; simpl in *;
      rewrite ?elem_of_cons, ?elem_of_nil in *; naive_solver.
  - unfold ExpandBitness. rewrite dedup_first. apply NoDup_first_occurrences.
  - apply ExpandBitness_again.
Qed.

Definition regex_off_ok (self : Filter) : Prop :=
  enable_regex self = false -> include_filter_regex self = [] /\ exclude_filter_regex self = [].

Lemma refresh_ok h self : regex_off_ok self -> filter_ok h (refresh_filter h self).
Proof.
  intros Hoff. split.
  - rewrite !refresh_eq. destruct self as [[] ? ? ? ? ? ? ? ? ? ? ?]; reflexivity.
  - rewrite refresh_eq. simpl. destruct (enable_regex self) eqn:Hrx; [done|]. auto.
Qed.

Lemma refresh_with_policy h over prefix module self :
  refresh_filter h (with_policy over prefix module self) =
    with_policy over prefix module (refresh_filter h self).
Proof. by rewrite !refresh_eq. Qed.

Lemma set_include_off h l self :
  regex_off_ok self -> regex_off_ok (set_include_filter h l self).
Proof. unfold regex_off_ok, set_include_filter. rewrite refresh_eq. destruct self as [[] ? ? ? ? ? ? ? ? ? ? ?];
  simpl; intros Hoff Hrx; [done|auto]. Qed.

Lemma new_Filter_ok h include exclude regex over negative prefix module bitness :
  filter_ok h (new_Filter h include exclude regex over negative prefix module bitness).
Proof.
  unfold new_Filter, set_exclude_filter. cbv zeta.
  match goal with |- context [set_include_filter h include ?f] =>
    assert (regex_off_ok (set_include_filter h include f)) as Hoff by by apply set_include_off end.
  match goal with |- context [with_policy _ _ _ (refresh_filter h ?g)] =>
    destruct (refresh_ok h g Hoff) as [H1 H2] end.
  split; [|done]. rewrite refresh_with_policy. f_equal. exact H1.
Qed.

Lemma Filter_ExpandBitness_ok h self : filter_ok h self -> filter_ok h (Filter_ExpandBitness self).
Proof.
  intros Hok. pose proof (filter_ok_fields h self Hok) as (H1 & H2 & H3 & H4).
  destruct Hok as [Hr Hoff]. split; [|done]. rewrite refresh_eq.
  unfold Filter_ExpandBitness. rewrite H1, H3.
  assert (forall rules, ExpandBitness (derived_exact (enable_regex self) (expand_bitness self) rules) =
    derived_exact (enable_regex self) true rules) as He.
  { intros rules. unfold derived_exact. destruct (expand_bitness self); [|done].
    apply ExpandBitness_again. }
  rewrite !He. unfold with_bitness, with_exact, with_regex; simpl. f_equal.
  - destruct (enable_regex self) eqn:Hrx; [|done]. by rewrite H2.
  - destruct (enable_regex self) eqn:Hrx; [|done]. by rewrite H4.
Qed.

(** The public calls that change a filter, at their defaults. *)
Inductive filter_step : heap * Filter -> heap * Filter -> Prop :=
  | step_refresh h self : filter_step (h, self) (h, refresh_filter h self)
  | step_set_include h self l : filter_step (h, self) (h, set_include_filter h l self)
  | step_set_exclude h self l : filter_step (h, self) (h, set_exclude_filter h l self)
  | step_add_include h self p : filter_step (h, self) (add_to_include_filter p true h self)
  | step_add_exclude h self p : filter_step (h, self) (add_to_exclude_filter p true h self)
  | step_ExpandBitness h self : filter_step (h, self) (h, Filter_ExpandBitness self)
  | step_ExpandAppendix h self appendix pat s :
      Filter_ExpandAppendix appendix pat h self = Ok s -> filter_step (h, self) s.

Lemma filter_step_ok s s' : filter_step s s' -> filter_ok s.1 s.2 -> filter_ok s'.1 s'.2.
Proof.
  destruct 1 as [h self|h self l|h self l|h self p|h self p|h self|h self appendix pat s Hs];
    simpl; intros Hok; pose proof Hok as [_ Hoff].
  1,2,3,4,5: by apply refresh_ok. 1: by apply Filter_ExpandBitness_ok.
  unfold Filter_ExpandAppendix in Hs.
  apply pyres_bind_Ok in Hs as (inc & _ & Hs). apply pyres_bind_Ok in Hs as (exc & _ & [= <-]).
  apply refresh_ok. by apply (set_include_off (<[_ := inc]> h) _ self).
Qed.

Lemma filter_steps_ok s s' : rtc filter_step s s' -> filter_ok s.1 s.2 -> filter_ok s'.1 s'.2.
Proof. induction 1; eauto using filter_step_ok. Qed.

(** However a filter was built and changed through its methods, it is up
    to date with its two rule lists, and it decides every name by them without
    raising: with some well-formed include rule the name must match an include
    rule (and no exclude rule, when exclusion comes first), without one it must
    match no exclude rule; negative include patterns count as exclude rules,
    malformed regular expressions as none. *)
Theorem Filter_methods_decide h include exclude regex over negative prefix module bitness h' self item :
  rtc filter_step (h, new_Filter h include exclude regex over negative prefix module bitness)
    (h', self) ->
  refresh_filter h' self = self /\ Filter_Filter self item = Ok (filter_decision h' self item).
Proof.
  intros Hs. assert (filter_ok h' self) as Hok.
  { apply (filter_steps_ok _ _ Hs), new_Filter_ok. }
  split; [apply Hok|by apply filter_decides].
Qed.

(** ** The default arguments *)
Definition plain_pattern (p : pystr) : Prop :=
  IsRegexFilter p = false /\ is_escaped p = false /\ negative_item p = false.

(** The attributes that a refresh does not touch. *)
Lemma new_Filter_fields h include exclude regex over negative prefix module bitness :
  let f := new_Filter h include exclude regex over negative prefix module bitness in
  include_filter h f = default [] (h !! include) /\
  exclude_filter h f = default [] (h !! exclude) /\
  enable_regex f = regex /\ expand_bitness f = bitness /\ enable_negative_pattern f = negative /\
  exclude_over_include f = default DEFAULT_EXCLUDE_OVER_INCLUDE over /\
  enable_module_name_prefix_matching f = prefix /\ module_name f = module.
Proof.
  unfold new_Filter, set_exclude_filter, set_include_filter.
  by rewrite !refresh_eq.
Qed.

(** A filter of plain names only, all other arguments at their defaults. *)
Lemma plain_Filter_decides h include names item :
  h !! include = Some names -> names <> [] -> Forall plain_pattern names ->
  Filter_Filter (new_Filter h include DEFAULT_EXCLUDE true None true false None false) item =
    Ok (bool_decide (item ∈ names)).
Proof.
  intros Hh Hne Hpl. rewrite (filter_decides h) by apply new_Filter_ok. f_equal.
  set (f := new_Filter _ _ _ _ _ _ _ _ _).
  destruct (new_Filter_fields h include DEFAULT_EXCLUDE true None true false None false) as
    (Hi & _ & Hrx & Hex & Hneg & Hov & _ & Hm). fold f in Hi, Hrx, Hex, Hneg, Hov, Hm.
  unfold filter_decision, include_rules, rules_list, rules_match.
  rewrite Hi, Hrx, Hneg, Hov, Hex, Hm, Hh. cbn [default id andb negb orb].
  assert (filter (fun p => negative_item p = false) names = names) as ->.
  { apply filter_all_id. eapply Forall_impl; [exact Hpl|]. by intros p (_ & _ & ?). }
  assert (existsb (pattern_counts true) names = true) as ->.
  { destruct Hpl as [|p names (Hp & _) _]; [done|]. cbn [existsb]. unfold pattern_counts.
    by rewrite Hp. }
  rewrite orb_false_r, andb_true_r. apply eq_true_iff_eq.
  rewrite existsb_exists, bool_decide_eq_true. rewrite Forall_forall in Hpl.
  setoid_rewrite <- list_elem_of_In. unfold pattern_matches, plain_matches, exact_name. split.
  - intros (p & Hp & Hm'). destruct (Hpl p Hp) as (H1 & H2 & _). rewrite H1, H2 in Hm'. simpl in Hm'.
    by apply bool_decide_eq_true, list_elem_of_singleton in Hm' as ->.
  - intros Hin. exists item. destruct (Hpl item Hin) as (H1 & H2 & _). rewrite H1, H2. simpl.
    split; [done|]. by apply bool_decide_eq_true, list_elem_of_singleton.
Qed.

Lemma default_Filter_initial item :
  Filter_Filter (default_Filter initial_heap) item = Ok true.
Proof. done. Qed.

(** [Filter()] does not always give an empty filter: its two default
    lists are the same objects at every call, and [add_to_include_filter] extends
    the list in place.  After a plain name was added to one default filter, every
    default filter built later lets only that name through. *)
Theorem default_Filter_shared p item :
  plain_pattern p ->
  let first := default_Filter initial_heap in
  let '(h, _) := add_to_include_filter (PStr p) true initial_heap first in
  include_filter h (default_Filter h) = [p] /\
  Filter_Filter first item = Ok true /\
  Filter_Filter (default_Filter h) item = Ok (bool_decide (item = p)).
Proof.
  intros (Hr & He & Hn). cbn [add_to_include_filter]. cbv zeta.
  set (h := extend_at _ _ _).
  assert (h !! DEFAULT_INCLUDE = Some [p] /\ h !! DEFAULT_EXCLUDE = Some []) as [H0 H1] by done.
  destruct (new_Filter_fields h DEFAULT_INCLUDE DEFAULT_EXCLUDE true None true false None false)
    as (Hi & _). rewrite H0 in Hi.
  split; [done|]. split; [apply default_Filter_initial|].
  unfold default_Filter. rewrite (plain_Filter_decides h _ [p]) by (done || by repeat constructor).
  f_equal. apply bool_decide_ext, list_elem_of_singleton.
Qed.

(** ** Appendices *)
Definition bitness_suffix (item : pystr) : pystr :=
  if endswith (bs "_32bit") item then bs "_32bit"
  else if endswith (bs "_64bit") item then bs "_64bit"
  else if endswith (bs "32bit") item then bs "32bit"
  else if endswith (bs "64bit") item then bs "64bit" else [].
Definition bitness_base (item : pystr) : pystr :=
  take (length item - length (bitness_suffix item)) item.

Definition appended (appendix_list : list pystr) (item : pystr) : list pystr :=
  (fun appendix => bitness_base item ++ appendix ++ bitness_suffix item) <$> appendix_list.

Lemma slice_split (item : pystr) (n : nat) :
  (n <= length item)%nat ->
  py_slice item 0 (Z.of_nat n) = take n item /\
  py_slice item (Z.of_nat n) (Z.of_nat (length item)) = drop n item.
Proof.
  intros Hn. split.
  - change 0%Z with (Z.of_nat 0). rewrite py_slice_nat by lia. by rewrite Nat.sub_0_r.
  - rewrite py_slice_nat by lia. apply take_ge. rewrite length_drop. lia.
Qed.

(** The base and the suffix of an item, where the code cuts it. *)
Lemma cut_item (k s : pystr) (n : nat) (appendix_list : list pystr) :
  n = length k ->
  (fun a => py_slice (k ++ s) 0 (Z.of_nat n) ++ a ++
     py_slice (k ++ s) (Z.of_nat n) (Z.of_nat (length (k ++ s)))) <$> appendix_list =
  (fun a => k ++ a ++ s) <$> appendix_list.
Proof.
  intros ->. destruct (slice_split (k ++ s) (length k)) as [-> ->]; [rewrite length_app; lia|].
  by rewrite take_app_length, drop_app_length.
Qed.

Lemma appended_cut k s appendix_list :
  bitness_suffix (k ++ s) = s ->
  appended appendix_list (k ++ s) = (fun a => k ++ a ++ s) <$> appendix_list.
Proof.
  intros Hs. unfold appended, bitness_base. rewrite Hs, length_app, Nat.add_sub.
  by rewrite take_app_length.
Qed.

Lemma bitness_suffix_none item : has_bitness item = false -> bitness_suffix item = [].
Proof.
  unfold has_bitness, bitness_suffix. rewrite orb_false_iff. intros [H32 H64].
  assert (forall p, endswith p item = false -> endswith (bs "_" ++ p) item = false) as Hp.
  { intros p Hp. apply not_true_is_false. rewrite endswith_spec. intros [k Hk].
    rewrite app_assoc in Hk. by rewrite Hk, endswith_app in Hp. }
  rewrite (Hp _ H32 : endswith (bs "_32bit") item = false).
  rewrite (Hp _ H64 : endswith (bs "_64bit") item = false).
  by rewrite (H32 : endswith (bs "32bit") item = false), (H64 : endswith (bs "64bit") item = false).
Qed.

Lemma has_bitness_cut item :
  has_bitness item = true ->
  exists k s, item = k ++ s /\ (s = SUFFIX_32BIT \/ s = SUFFIX_64BIT).
Proof.
  unfold has_bitness. rewrite orb_true_iff, !endswith_spec. intros [[k ->]|[k ->]]; eauto.
Qed.

Lemma expand_appendix_item_spec appendix_list filter_pattern item m :
  re_compile filter_pattern = Some m ->
  expand_appendix_item appendix_list filter_pattern item =
    Ok (if IsRegexFilter item || bool_decide (is_Some (m item)) then [item]
        else appended appendix_list item).
Proof.
  intros Hm. unfold expand_appendix_item. rewrite Hm.
  destruct (IsRegexFilter item); [done|]. cbn [mbind pyres_bind orb].
  destruct (bool_decide _); [done|].
  destruct (has_bitness item) eqn:Hb.
  - apply has_bitness_cut in Hb as (k & s & -> & Hs).
    assert (Z.of_nat (length (k ++ s)) - 5 = Z.of_nat (length k))%Z as Hpos.
    { rewrite length_app. destruct Hs as [-> | ->]; cbn; lia. }
    change (Z.of_nat (length SUFFIX_32BIT)) with 5%Z. rewrite Hpos.
    destruct k as [|c k _] using rev_ind.
    + destruct Hs as [-> | ->].
      * exact (f_equal Ok (cut_item [] SUFFIX_32BIT 0 appendix_list eq_refl)).
      * exact (f_equal Ok (cut_item [] SUFFIX_64BIT 0 appendix_list eq_refl)).
    + rewrite (length_app k). cbn [length].
      replace (Z.of_nat (length k + 1) - 1)%Z with (Z.of_nat (length k)) by lia.
      rewrite py_get_nat, <- app_assoc. cbn [app]. rewrite list_lookup_middle by done. cbn [from_opt mbind pyres_bind app].
      destruct (decide (c = Byte.x5f)) as [-> |Hc].
      * rewrite (cut_item k) by done. rewrite appended_cut; [done|].
        unfold bitness_suffix, endswith. rewrite reverse_app. by destruct Hs as [-> | ->].
      * change (c :: s) with ([c] ++ s). rewrite app_assoc, (cut_item (k ++ [c])) by by rewrite length_app.
        rewrite appended_cut; [done|].
        assert (bool_decide (Byte.x5f = c) = false) as Hc' by by apply bool_decide_eq_false_2.
        unfold bitness_suffix, endswith. rewrite !reverse_app.
        destruct Hs as [-> | ->]; cbn; by rewrite Hc'.
  - pose proof (cut_item item [] (length item) appendix_list eq_refl) as Hcut.
    pose proof (appended_cut item [] appendix_list) as Happ. rewrite app_nil_r in Hcut, Happ.
    cbn [mbind pyres_bind]. rewrite Hcut, Happ; [done|]. by apply bitness_suffix_none.
Qed.

(** [ExpandAppendix] replaces every item by its expansions in order, each
    with the appendix before the bitness (and the underscore) at its end; a
    regular expression or an item matched by the pattern stays as it is.  It never
    raises when the pattern is well-formed. *)
Theorem ExpandAppendix_spec input_list appendix_list filter_pattern m :
  re_compile filter_pattern = Some m ->
  ExpandAppendix input_list appendix_list filter_pattern =
    Ok (mjoin ((fun item =>
      if IsRegexFilter item || bool_decide (is_Some (m item)) then [item]
      else appended appendix_list item) <$> input_list)) /\
  forall item, item = bitness_base item ++ bitness_suffix item.
Proof.
  intros Hm. split.
  - unfold ExpandAppendix.
    match goal with |- foldlM_py ?f [] input_list = Ok ?r =>
      enough (forall acc, foldlM_py f acc input_list = Ok (acc ++ r)) as -> by done end.
    induction input_list as [|item l IH]; intros acc; [by rewrite app_nil_r|]. cbn [foldlM_py].
    rewrite (expand_appendix_item_spec _ _ _ m) by done. cbn [mbind pyres_bind].
    rewrite IH, fmap_cons, <- app_assoc. done.
  - intros item. unfold bitness_base.
    assert (exists k, item = k ++ bitness_suffix item) as [k Hk].
    { unfold bitness_suffix. repeat case_match; by apply endswith_spec. }
    revert Hk. generalize (bitness_suffix item). intros s ->.
    by rewrite length_app, Nat.add_sub, take_app_length.
Qed.
End regex.

(** ** A small regular expression engine, to run the definitions: literals,
    [.] and a starred character; a pattern must not start with [*]. *)
Fixpoint sample_match (fuel : nat) (p s : pystr) : option nat :=
  match fuel with
  | O => None
  | S fuel =>
      match p with
      | [] => Some 0
      | c :: Byte.x2a :: p' =>
          match s with
          | x :: s' =>
              if bool_decide (c = x) || bool_decide (c = Byte.x2e) then
                match sample_match fuel p s' with
                | Some n => Some (S n)
                | None => sample_match fuel p' s
                end
              else sample_match fuel p' s
          | [] => sample_match fuel p' s
          end
      | c :: p' =>
          match s with
          | x :: s' =>
              if bool_decide (c = x) || bool_decide (c = Byte.x2e)
              then S <$> sample_match fuel p' s' else None
          | [] => None
          end
      end
  end.

Definition sample_compile (p : pystr) : option (pystr -> option nat) :=
  if startswith (bs "*") p then None
  else Some (fun s => sample_match (S (length p + length s)) p s).

Definition sample_heap : heap := <[2 := [bs "a_64bit"; bs "-r(b.*)"]]> initial_heap.
Definition sample_filter : Filter :=
  new_Filter sample_compile sample_heap 2 DEFAULT_EXCLUDE true (Some true) true true
    (Some (bs "M")) true.

Lemma Filter_methods_decide_witness :
  let s := add_to_include_filter sample_compile (PStr (bs "r(c*d)")) true sample_heap sample_filter in
  refresh_filter sample_compile s.1 s.2 = s.2 /\
  Filter_Filter sample_compile s.2 (bs "ccd") =
    Ok (filter_decision sample_compile s.1 s.2 (bs "ccd")) /\
  (filter_decision sample_compile s.1 s.2 <$> [bs "ccd"; bs "a_64bit"; bs "a"; bs "bcd"]) =
    [true; true; false; false].
Proof.
  intros s. apply (and_assoc _ _ _), conj; [|vm_compute; reflexivity].
  apply (Filter_methods_decide sample_compile sample_heap 2 DEFAULT_EXCLUDE true (Some true) true true
    (Some (bs "M")) true s.1 s.2).
  apply rtc_once. apply step_add_include.
Defined.

Lemma default_Filter_shared_witness :
  let '(h, _) := add_to_include_filter sample_compile (PStr (bs "a")) true initial_heap
    (default_Filter sample_compile initial_heap) in
  Filter_Filter sample_compile (default_Filter sample_compile h) (bs "b") = Ok false.
Proof.
  destruct (default_Filter_shared sample_compile (bs "a") (bs "b")) as (_ & _ & H);
    [by repeat split|exact H].
Defined.

Lemma ExpandAppendix_spec_witness :
  ExpandAppendix sample_compile [bs "a"; bs "b_32bit"; bs "r(c)"; bs "x.y"]
    [bs "_default"; bs "_test"] (bs "x") =
  Ok [bs "a_default"; bs "a_test"; bs "b_default_32bit"; bs "b_test_32bit"; bs "r(c)"; bs "x.y"].
Proof.
  etransitivity; [apply (ExpandAppendix_spec sample_compile _ _ (bs "x") _ eq_refl)|].
  vm_compute. reflexivity.
Defined.
