(* ===== verification/PyVal.v ===== *)
(** * Dynamically typed Python values

    The values a test hands to the runner: what a signal carries as extra
    information, the rows of a table, the fields of a report.  A dictionary is
    its list of items in iteration order; [PObject] is an instance of any other
    class, of which only its text is known. *)

From Stdlib Require Import Strings.Byte.
From S2P Require Import Prelude PyStr.

Local Unset Elimination Schemes.
Inductive pyval :=
  | PNone
  | PBool (b : bool)
  | PInt (z : Z)
  | PStr (s : pystr)
  | PList (l : list pyval)
  | PDict (d : list (pystr * pyval))
  | PObject (text : pystr).
Local Set Elimination Schemes.

(** [json.dumps] raises [TypeError] for an instance of another class, at any
    depth. *)
Fixpoint json_serializable (v : pyval) : bool :=
  match v with
  | PObject _ => false
  | PList l => forallb json_serializable l
  | PDict d => forallb (fun kv => json_serializable kv.2) d
  | _ => true
  end.

(** [bool(v)] *)
Definition truthy (v : pyval) : bool :=
  match v with
  | PNone => false
  | PBool b => b
  | PInt z => negb (z =? 0)%Z
  | PStr s => negb (bool_decide (s = []))
  | PList l => match l with [] => false | _ => true end
  | PDict d => match d with [] => false | _ => true end
  | PObject _ => true
  end.

Definition str_int (z : Z) : pystr := if (z <? 0)%Z then bs "-" ++ str_nat (- z) else str_nat z.

(** [repr(s)] of a byte string: in single quotes, unless it holds a single
    quote and no double one. *)
Definition hex_digit (z : Z) : Byte.byte := Zbyte (if z <? 10 then 48 + z else 87 + z)%Z.
Definition repr_byte (quote b : Byte.byte) : pystr :=
  if decide (b = quote \/ b = Byte.x5c) then [Byte.x5c; b]
  else if decide (b = Byte.x09) then bs "\t"
  else if decide (b = Byte.x0a) then bs "\n"
  else if decide (b = Byte.x0d) then bs "\r"
  else if ((byteZ b <? 32) || (127 <=? byteZ b))%Z
  then bs "\x" ++ [hex_digit (byteZ b / 16); hex_digit (byteZ b mod 16)]
  else [b].
Definition repr_str (s : pystr) : pystr :=
  let quote :=
    if bool_decide (Byte.x27 ∈ s) && negb (bool_decide (Byte.x22 ∈ s)) then Byte.x22
    else Byte.x27 in
  quote :: mjoin (repr_byte quote <$> s) ++ [quote].

(** [sep.join(l)] *)
Fixpoint join_with (sep : pystr) (l : list pystr) : pystr :=
  match l with
  | [] => []
  | [s] => s
  | s :: l => s ++ sep ++ join_with sep l
  end.

Fixpoint py_repr (v : pyval) : pystr :=
  match v with
  | PNone => bs "None"
  | PBool b => if b then bs "True" else bs "False"
  | PInt z => str_int z
  | PStr s => repr_str s
  | PList l => bs "[" ++ join_with (bs ", ") (map py_repr l) ++ bs "]"
  | PDict d =>
      bs "{" ++ join_with (bs ", ") (map (fun kv => repr_str kv.1 ++ bs ": " ++ py_repr kv.2) d)
        ++ bs "}"
  | PObject text => text
  end.

(** [str(v)] *)
Definition str_val (v : pyval) : pystr :=
  match v with PStr s => s | v => py_repr v end.

Example repr_sample :
  py_repr (PList [PStr (bs "it's"); PInt (-12); PDict [(bs "k", PNone)]]) =
    bs "[" ++ [Byte.x22] ++ bs "it's" ++ [Byte.x22] ++ bs ", -12, {'k': None}]".
Proof. vm_compute. reflexivity. Qed.
