(* ===== verification/Signals.v ===== *)
(** * Signals and assertions ([src/runners/host/signals.py] and [asserts.py])

    A test ends by raising a signal that carries its details, or any other
    exception.  The assertions raise signals; [assertRaises] is a context
    manager whose exit decides what becomes of the exception of its body. *)

From Stdlib Require Import Strings.Byte.
From S2P Require Import Prelude PyStr PyVal.

(** ** Exception classes *)
Inductive signal_class :=
  TestFailure | TestPass | TestSkip | TestSilent | TestAbortClass | TestAbortAll.

(** The classes the runner tells apart; [UserException n] is the n-th class of
    the other subclasses of [Exception]. *)
Inductive exc_class :=
  | BaseException
  | KeyboardInterrupt
  | SystemExit
  | Exception_
  | AssertionError
  | NameError_
  | TimeoutError
  | AdbError
  | TestSignalError
  | ControllerError
  | UserException (n : nat)
  | TestSignal
  | SignalClass (c : signal_class).

(** Python's own exceptions, and those of the runner ([errors.py]). *)
Definition Python_ValueError : exc_class := UserException 10.
Definition Python_KeyError : exc_class := UserException 11.
Definition Python_AttributeError : exc_class := UserException 12.
Definition Python_IndexError : exc_class := UserException 13.
Definition Python_IOError : exc_class := UserException 14.
Definition Python_OSError : exc_class := UserException 15.
Definition Python_TypeError : exc_class := UserException 16.
Definition BaseTestError : exc_class := UserException 21.

#[export] Instance signal_class_eq_dec : EqDecision signal_class.
Proof. solve_decision. Defined.
#[export] Instance exc_class_eq_dec : EqDecision exc_class.
Proof. solve_decision. Defined.

(** The class statements: every class with its base classes, nearest first. *)
Definition bases (c : exc_class) : list exc_class :=
  match c with
  | BaseException => []
  | KeyboardInterrupt | SystemExit | Exception_ => [BaseException]
  | SignalClass _ => [TestSignal; Exception_; BaseException]
  | _ => [Exception_; BaseException]
  end.
Definition issubclass (c d : exc_class) : bool := bool_decide (c = d \/ d ∈ bases c).

(** An exception object: a signal with its details and extras, or an instance
    of another class with its text. *)
Inductive exn :=
  | ESignal (c : signal_class) (details : pystr) (extras : pyval)
  | EOther (c : exc_class) (text : pystr).

Definition exc_type (e : exn) : exc_class :=
  match e with ESignal c _ _ => SignalClass c | EOther c _ => c end.
Definition isinstance (e : exn) (c : exc_class) : bool := issubclass (exc_type e) c.

(** [str(e)] *)
Definition str_exn (e : exn) : pystr :=
  match e with
  | ESignal _ details extras => bs "Details=" ++ details ++ bs ", Extras=" ++ str_val extras
  | EOther _ text => text
  end.

(** [TestSignal.__init__]: extras that [json] cannot encode raise another
    exception instead. *)
Definition new_signal (c : signal_class) (details : pyval) (extras : pyval) : exn :=
  if json_serializable extras then ESignal c (str_val details) extras
  else EOther TestSignalError
         (bs "Extras must be json serializable. " ++ str_val extras ++ bs " is not.").

(** ** Computations that may raise *)
Inductive xres (A : Type) := Ret (a : A) | Exc (e : exn).
Arguments Ret {_} _.
Arguments Exc {_} _.

#[export] Instance xres_ret : MRet xres := fun A a => Ret a.
#[export] Instance xres_bind : MBind xres := fun A B f m =>
  match m with Ret a => f a | Exc e => Exc e end.

(** The decorator of a function that only starts generated tests. *)
Definition GeneratedTest (name : pystr) (func : xres unit) : xres unit :=
  _ ← func;
  Exc (new_signal TestSilent (PStr (bs "Result reporting for " ++ name ++ bs " is suppressed")) PNone).

(** ** Assertions *)
Definition fail (msg extras : pyval) : xres unit := Exc (new_signal TestFailure msg extras).
Definition explicitPass (msg extras : pyval) : xres unit := Exc (new_signal TestPass msg extras).
Definition skip (reason extras : pyval) : xres unit := Exc (new_signal TestSkip reason extras).
Definition abortClass (reason extras : pyval) : xres unit :=
  Exc (new_signal TestAbortClass reason extras).
Definition abortAll (reason extras : pyval) : xres unit :=
  Exc (new_signal TestAbortAll reason extras).

Definition assertTrue (expr : bool) (msg extras : pyval) : xres unit :=
  if negb expr then fail msg extras else Ret tt.
Definition assertFalse (expr : bool) (msg extras : pyval) : xres unit :=
  if expr then fail msg extras else Ret tt.
Definition skipIf (expr : bool) (reason extras : pyval) : xres unit :=
  if expr then skip reason extras else Ret tt.
Definition abortClassIf (expr : bool) (reason extras : pyval) : xres unit :=
  if expr then abortClass reason extras else Ret tt.
Definition abortAllIf (expr : bool) (reason extras : pyval) : xres unit :=
  if expr then abortAll reason extras else Ret tt.

(** The handler that [assertEqual], [assertNotEqual] and [assertLess] share:
    [failure] is the message of the [unittest] assertion, when it failed. *)
Definition fail_with (failure : option pystr) (msg extras : pyval) : xres unit :=
  match failure with
  | None => Ret tt
  | Some e =>
      let my_msg := if truthy msg then e ++ bs " " ++ str_val msg else e in
      fail (PStr my_msg) extras
  end.

(** [unittest]'s comparisons on integers; its messages for other types add
    differences that depend on the type. *)
Definition assertEqual (first second : Z) (msg extras : pyval) : xres unit :=
  fail_with (if (first =? second)%Z then None
             else Some (str_int first ++ bs " != " ++ str_int second)) msg extras.
Definition assertNotEqual (first second : Z) (msg extras : pyval) : xres unit :=
  fail_with (if negb (first =? second)%Z then None
             else Some (str_int first ++ bs " == " ++ str_int second)) msg extras.
Definition assertLess (first second : Z) (msg extras : pyval) : xres unit :=
  fail_with (if (first <? second)%Z then None
             else Some (str_int first ++ bs " not less than " ++ str_int second)) msg extras.

(** *** [_AssertRaisesContext] *)
Record AssertRaisesContext := mk_ctx {
  expected : list exc_class;             (* a class, or a tuple of classes *)
  expected_regexp : option pystr;
  ctx_extras : pyval;
}.

Definition assertRaises (expected : list exc_class) (extras : pyval) : AssertRaisesContext :=
  mk_ctx expected None extras.
Definition assertRaisesRegex (expected : list exc_class) (regex : pystr) (extras : pyval)
    : AssertRaisesContext :=
  mk_ctx expected (Some regex) extras.

Section context.
(** The name of the expected class (or the text of the tuple), and
    [re.compile(p)] with its [search]: no searcher when [p] is malformed. *)
Context (exc_name : list exc_class -> pystr).
Context (re_search : pystr -> option (pystr -> bool)).

(** [__exit__]: true swallows the exception of the body. *)
Definition ctx_exit (self : AssertRaisesContext) (exc_value : option exn) : xres bool :=
  match exc_value with
  | None => Exc (new_signal TestFailure (PStr (exc_name (expected self) ++ bs " not raised"))
                   (ctx_extras self))
  | Some e =>
      if negb (existsb (issubclass (exc_type e)) (expected self)) then Ret false
      else match expected_regexp self with
      | None => Ret true
      | Some p =>
          match re_search p with
          | None => Exc (EOther (UserException 0) (bs "malformed regular expression"))
          | Some search =>
              if negb (search (str_exn e)) then
                Exc (new_signal TestFailure
                  (PStr ([Byte.x22] ++ p ++ [Byte.x22] ++ bs " does not match " ++ [Byte.x22]
                         ++ str_exn e ++ [Byte.x22])) (ctx_extras self))
              else Ret true
          end
      end
  end.

(** [with context: body] *)
Definition with_context (self : AssertRaisesContext) (body : xres unit) : xres unit :=
  match body with
  | Ret _ => _ ← ctx_exit self None; Ret tt
  | Exc e => swallow ← ctx_exit self (Some e); if swallow : bool then Ret tt else Exc e
  end.

(** A block under [assertRaisesRegex] ends without an exception exactly when
    its body raised an instance of an expected class whose text the expression
    finds; an instance of another class goes through unchanged, and any other
    end of the body is a [TestFailure] with the extras given. *)
Theorem with_assertRaisesRegex_spec expected regex search extras body :
  re_search regex = Some search -> json_serializable extras = true ->
  match with_context (assertRaisesRegex expected regex extras) body with
  | Ret _ => exists e, body = Exc e /\ existsb (isinstance e) expected = true /\
               search (str_exn e) = true
  | Exc e' =>
      (body = Exc e' /\ existsb (isinstance e') expected = false) \/
      ((body = Ret tt \/
        exists e, body = Exc e /\ existsb (isinstance e) expected = true /\
          search (str_exn e) = false) /\
       exists details, e' = ESignal TestFailure details extras)
  end.
Proof.
  intros Hre Hx. unfold with_context, ctx_exit, assertRaisesRegex. simpl.
  destruct body as [[]|e]; simpl.
  - unfold new_signal. rewrite Hx. right. eauto.
  - destruct (existsb (issubclass (exc_type e)) expected) eqn:He; simpl; [|by left].
    rewrite Hre. destruct (search (str_exn e)) eqn:Hs; simpl; [by exists e|].
    unfold new_signal. rewrite Hx. right. split; [right; by exists e|eauto].
Qed.
End context.

Definition sample_search (p : pystr) : option (pystr -> bool) := Some (contains p).
Definition sample_body : xres unit := Exc (EOther AdbError (bs "device is dead")).

Lemma with_assertRaisesRegex_spec_witness :
  exists e, sample_body = Exc e /\ existsb (isinstance e) [AdbError] = true /\
    contains (bs "dead") (str_exn e) = true.
Proof.
  exact (with_assertRaisesRegex_spec (fun _ => bs "AdbError") sample_search
    [AdbError] (bs "dead") (contains (bs "dead")) PNone sample_body eq_refl eq_refl).
Defined.

(** Catching by class: the subclass relation of the signals. *)
Lemma signal_is_Exception c details extras :
  isinstance (ESignal c details extras) Exception_ = true /\
  isinstance (ESignal c details extras) TestSignal = true /\
  isinstance (ESignal c details extras) AssertionError = false.
Proof. by destruct c. Qed.
