(* ===== verification/Records.v ===== *)
(** * Test records and results ([src/runners/host/records.py])

    Records are mutable objects that the lists of a [TestResult] share: they
    live in a store and the lists hold their identities.  The clock is an
    argument, one reading per call of [get_current_epoch_time]. *)

From Stdlib Require Import Strings.Byte.
From S2P Require Import Prelude PyStr PySort ListUtils PyVal Signals.

Definition RECORD_NAME : pystr := bs "Test Name".
Definition RECORD_CLASS : pystr := bs "Test Class".
Definition RECORD_BEGIN_TIME : pystr := bs "Begin Time".
Definition RECORD_END_TIME : pystr := bs "End Time".
Definition RECORD_RESULT : pystr := bs "Result".
Definition RECORD_UID : pystr := bs "UID".
Definition RECORD_EXTRAS : pystr := bs "Extras".
Definition RECORD_EXTRA_ERRORS : pystr := bs "Extra Errors".
Definition RECORD_DETAILS : pystr := bs "Details".
Definition RECORD_TABLES : pystr := bs "Tables".

(** TEST_RESULT_PASS, TEST_RESULT_FAIL, TEST_RESULT_SKIP and TEST_RESULT_ERROR. *)
Inductive test_result := PASS | FAIL | SKIP | ERROR.
Definition result_str (r : test_result) : pystr :=
  match r with
  | PASS => bs "PASS" | FAIL => bs "FAIL" | SKIP => bs "SKIP" | ERROR => bs "ERROR"
  end.

#[export] Instance test_result_eq_dec : EqDecision test_result.
Proof. solve_decision. Defined.

(** ** One record *)
Record TestResultRecord := mk_record {
  test_name : pystr;
  test_class : option pystr;
  begin_time : option Z;
  end_time : option Z;
  uid : option pystr;
  result : option test_result;
  extras : pyval;
  details : option pystr;
  extra_errors : gmap pystr pystr;
  tables : gmap pystr pyval;
}.

Definition new_record (t_name : pystr) (t_class : option pystr) : TestResultRecord :=
  mk_record t_name t_class None None None None PNone None ∅ ∅.

(** [%s] of a value that may be [None]. *)
Definition opt_text (s : option pystr) : pystr := default (bs "None") s.

Definition fullname (self : TestResultRecord) : pystr :=
  opt_text (test_class self) ++ bs "." ++ test_name self.

Definition isSameTestCase (self record : TestResultRecord) : bool :=
  bool_decide (fullname self = fullname record).

Definition testBegin (now : Z) (self : TestResultRecord) : TestResultRecord :=
  mk_record (test_name self) (test_class self) (Some now) (end_time self) (uid self)
    (result self) (extras self) (details self) (extra_errors self) (tables self).

(** What a test passes to [_testEnd]: nothing, an exception, or a message. *)
Inductive end_arg := ENone | EExn (e : exn) | EText (s : pystr).

Definition testEnd (now : Z) (r : test_result) (e : end_arg) (self : TestResultRecord)
    : TestResultRecord :=
  let '(details, extras) :=
    match e with
    | EExn (ESignal _ details extras) => (Some details, extras)
    | EExn e => (Some (str_exn e), extras self)
    | EText [] | ENone => (details self, extras self)
    | EText s => (Some s, extras self)
    end in
  mk_record (test_name self) (test_class self) (begin_time self) (Some now) (uid self)
    (Some r) extras details (extra_errors self) (tables self).

Definition testPass (now : Z) (e : end_arg) := testEnd now PASS e.
Definition testFail (now : Z) (e : end_arg) := testEnd now FAIL e.
Definition testSkip (now : Z) (e : end_arg) := testEnd now SKIP e.
Definition testError (now : Z) (e : end_arg) := testEnd now ERROR e.

Definition addError (tag : pystr) (e : exn) (self : TestResultRecord) : TestResultRecord :=
  mk_record (test_name self) (test_class self) (begin_time self) (end_time self) (uid self)
    (Some ERROR) (extras self) (details self) (<[tag := str_exn e]> (extra_errors self))
    (tables self).

Definition addTable (name : pystr) (rows : pyval) (self : TestResultRecord) : TestResultRecord :=
  mk_record (test_name self) (test_class self) (begin_time self) (end_time self) (uid self)
    (result self) (extras self) (details self) (extra_errors self) (<[name := rows]> (tables self)).

Definition opt_val {A} (f : A -> pyval) (o : option A) : pyval :=
  match o with Some a => f a | None => PNone end.

Definition getDict (self : TestResultRecord) : gmap pystr pyval :=
  {[ RECORD_NAME := PStr (test_name self);
     RECORD_CLASS := opt_val PStr (test_class self);
     RECORD_BEGIN_TIME := opt_val PInt (begin_time self);
     RECORD_END_TIME := opt_val PInt (end_time self);
     RECORD_RESULT := opt_val (fun r => PStr (result_str r)) (result self);
     RECORD_UID := opt_val PStr (uid self);
     RECORD_EXTRAS := extras self;
     RECORD_DETAILS := opt_val PStr (details self);
     RECORD_EXTRA_ERRORS := PDict ((fun kv => (kv.1, PStr kv.2)) <$> map_to_list (extra_errors self));
     RECORD_TABLES := PDict (map_to_list (tables self)) ]}.

(** ** The store and the results *)
Definition rid := nat.
Abbreviation store := (gmap rid TestResultRecord).

#[export] Instance record_inhabited : Inhabited TestResultRecord := populate (new_record [] None).
Definition rec (h : store) (r : rid) : TestResultRecord := default inhabitant (h !! r).
Definition same (h : store) (a b : rid) : bool := isSameTestCase (rec h a) (rec h b).

Record TestResult := mk_result {
  requested : list rid;
  failed : list rid;
  executed : list rid;
  passed : list rid;
  skipped : list rid;
  error : list rid;
  test_module_name : option pystr;
  test_module_timestamp : option Z;
  class_errors : list pystr;
}.

Definition new_result : TestResult := mk_result [] [] [] [] [] [] None None [].

(** A list cut down by index, last index first. *)
Definition delete_all (l : list rid) (indexToRemove : list nat) : list rid :=
  foldl (fun l idx => delete idx l) l (reverse indexToRemove).

Definition remove_from (h : store) (record : rid) (l : list rid) : list rid :=
  delete_all l
    (filter (fun idx => match l !! idx with Some r => same h r record | None => false end = true)
       (seq 0 (length l))).

(** The flag does not appear in the body of the method. *)
Definition removeRecord (h : store) (record : rid) (remove_requested : bool) (self : TestResult)
    : TestResult :=
  mk_result (remove_from h record (requested self)) (remove_from h record (failed self))
    (remove_from h record (executed self)) (remove_from h record (passed self))
    (remove_from h record (skipped self)) (remove_from h record (error self))
    (test_module_name self) (test_module_timestamp self) (class_errors self).

Definition with_lists (e f p s er : list rid) (self : TestResult) : TestResult :=
  mk_result (requested self) f e p s er (test_module_name self) (test_module_timestamp self)
    (class_errors self).

Definition addRecord (h : store) (record : rid) (self : TestResult) : TestResult :=
  let self := removeRecord h record false self in
  let executed := executed self ++ [record] in
  match result (rec h record) with
  | Some FAIL => with_lists executed (failed self ++ [record]) (passed self) (skipped self) (error self) self
  | Some SKIP => with_lists executed (failed self) (passed self) (skipped self ++ [record]) (error self) self
  | Some PASS => with_lists executed (failed self) (passed self ++ [record]) (skipped self) (error self) self
  | _ => with_lists executed (failed self) (passed self) (skipped self) (error self ++ [record]) self
  end.

Definition getNonExecutedRecords (h : store) (self : TestResult) : list rid :=
  filter (fun r => existsb (same h r) (executed self) = false) (requested self).

Definition getNonPassingRecords (h : store) (self : TestResult)
    (non_executed failed_ skipped_ error_ : bool) : list rid :=
  (if non_executed then getNonExecutedRecords h self else []) ++
  (if failed_ then failed self else []) ++
  (if skipped_ then skipped self else []) ++
  (if error_ then error self else []).

Definition NOT_EXECUTED : pystr := bs "Unknown error: test case requested but not executed.".

(** One record reported: the clock is read at its begin and at its end. *)
Definition report_step (clock : nat -> Z) (acc : nat * store * list rid) (r : rid)
    : nat * store * list rid :=
  let '(t, h, error) := acc in
  (S (S t), <[r := testError (clock (S t)) (EText NOT_EXECUTED) (testBegin (clock t) (rec h r))]> h,
   error ++ [r]).

Definition reportNonExecutedRecord (clock : nat -> Z) (h : store) (self : TestResult)
    : store * TestResult :=
  let '(_, h', error') :=
    foldl (report_step clock) (0, h, error self) (getNonExecutedRecords h self) in
  (h', with_lists (executed self) (failed self) (passed self) (skipped self) error' self).

(** The merge of a module attribute that is not [None] on both sides. *)
Definition merge_name (l r : option pystr) : pyres (option pystr) :=
  match l, r with
  | None, r => Ok r
  | l, None => Ok l
  | Some l, Some r => if decide (l <> r) then Raise TypeError else Ok (Some l)
  end.
Definition merge_timestamp (l r : option Z) : option Z :=
  match l, r with
  | None, r => r
  | l, None => l
  | Some l, Some r => if (l <? r)%Z then Some l else Some r
  end.

(** [self + r]: reports the missing tests of [r], which is changed, even when
    the sum then raises. *)
Definition result_add (clock : nat -> Z) (h : store) (self r : TestResult)
    : store * TestResult * pyres TestResult :=
  let '(h, r) := reportNonExecutedRecord clock h r in
  (h, r,
   name ← merge_name (test_module_name self) (test_module_name r);
   Ok (mk_result (requested self ++ requested r) (failed self ++ failed r)
         (executed self ++ executed r) (passed self ++ passed r) (skipped self ++ skipped r)
         (error self ++ error r) name
         (merge_timestamp (test_module_timestamp self) (test_module_timestamp r))
         (class_errors self ++ class_errors r))).

Definition setTestModuleKeys (name : option pystr) (start_timestamp : option Z) (self : TestResult)
    : TestResult :=
  mk_result (requested self) (failed self) (executed self) (passed self) (skipped self)
    (error self) name start_timestamp (class_errors self).

Definition failClass (class_name : pystr) (e : option exn) (self : TestResult) : TestResult :=
  mk_result (requested self) (failed self) (executed self) (passed self) (skipped self)
    (error self) (test_module_name self) (test_module_timestamp self)
    (class_errors self ++
       [class_name ++ bs ": " ++ match e with Some e => str_exn e | None => bs "None" end]).

(** The new record gets an identity of its own. *)
Definition passClass (clock : nat -> Z) (class_name : pystr) (e : end_arg) (h : store)
    (self : TestResult) : store * TestResult :=
  let r := fresh (dom h) in
  let record := testPass (clock 1) e (testBegin (clock 0) (new_record (bs "setup_class") (Some class_name))) in
  (<[r := record]> h,
   with_lists (executed self ++ [r]) (failed self) (passed self ++ [r]) (skipped self) (error self) self).

Definition skipClass (clock : nat -> Z) (class_name reason : pystr) (h : store)
    (self : TestResult) : store * TestResult :=
  let r := fresh (dom h) in
  let record := testSkip (clock 1) (EExn (new_signal TestSkip (PStr reason) PNone))
                  (testBegin (clock 0) (new_record (bs "skip_class") (Some class_name))) in
  (<[r := record]> h,
   with_lists (executed self ++ [r]) (failed self) (passed self) (skipped self ++ [r]) (error self) self).

(** *** Reports *)
Definition summaryDict (self : TestResult) : list (pystr * nat) :=
  [(bs "Requested", length (requested self)); (bs "Executed", length (executed self));
   (bs "Passed", length (passed self)); (bs "Failed", length (failed self));
   (bs "Skipped", length (skipped self)); (bs "Error", length (error self))].

Definition summary (self : TestResult) : pystr :=
  join_with (bs ", ")
    (py_sort bytes_leb ((fun kv => kv.1 ++ bs " " ++ str_nat (Z.of_nat kv.2)) <$> summaryDict self)).

Definition progressStr (self : TestResult) : pystr :=
  str_nat (Z.of_nat (length (executed self) + length (skipped self) + 1)) ++ bs "/" ++
  str_nat (Z.of_nat (length (requested self))).

(** What [jsonString] hands to [json.dumps]; records are merged by identity. *)
Definition json_records (self : TestResult) : list rid :=
  MergeUniqueKeepOrder [executed self; failed self; passed self; skipped self; error self].
Definition jsonDict (h : store) (self : TestResult) : list (pystr * pyval) :=
  [(bs "Results",
    PList ((fun r => PDict (map_to_list (getDict (rec h r)))) <$> json_records self));
   (bs "Summary", PDict ((fun kv => (kv.1, PInt (Z.of_nat kv.2))) <$> summaryDict self));
   (bs "TestModule", PDict [(bs "Name", opt_val PStr (test_module_name self));
                            (bs "Timestamp", opt_val PInt (test_module_timestamp self))]);
   (bs "Class Errors",
    match class_errors self with [] => PNone | l => PStr (join_with [Byte.x0a] l) end)].

(** ** Lemmas: removing by index *)
Lemma foldl_reverse {A B} (f : B -> A -> B) b l :
  foldl f b (reverse l) = foldr (fun a b => f b a) b l.
Proof.
  induction l as [|a l IH]; [done|]. by rewrite reverse_cons, foldl_app, IH.
Qed.

Lemma foldr_delete_shift (x : rid) l js :
  foldr (fun i l => delete i l) (x :: l) (S <$> js) = x :: foldr (fun i l => delete i l) l js.
Proof. induction js as [|j js IH]; [done|]. csimpl. by rewrite IH. Qed.

Lemma remove_from_filter h record l :
  remove_from h record l = filter (fun r => same h r record = false) l.
Proof.
  unfold remove_from, delete_all. rewrite foldl_reverse.
  induction l as [|x l IH]; [done|]. cbn [length]. rewrite <- cons_seq, <- fmap_S_seq.
  rewrite filter_cons, (filter_cons _ x), filter_fmap. cbn [lookup list_lookup].
  match goal with |- context [S <$> filter ?P (seq 0 (length l))] =>
    rewrite (list_filter_iff P (fun idx =>
      match l !! idx with Some r => same h r record | None => false end = true)) by done end.
  destruct (same h x record).
  - rewrite decide_True, decide_False by done. cbn [foldr]. by rewrite foldr_delete_shift, <- IH.
  - rewrite decide_False, decide_True by done. by rewrite foldr_delete_shift, IH.
Qed.

Lemma same_refl h r : same h r r = true.
Proof. by apply bool_decide_eq_true_2. Qed.

(** ** Executed records *)
Definition result_class (r : option test_result) : test_result :=
  match r with Some PASS => PASS | Some FAIL => FAIL | Some SKIP => SKIP | _ => ERROR end.
Definition in_class (h : store) (c : test_result) (r : rid) : Prop :=
  result_class (result (rec h r)) = c.

(** Marked as requested and not executed. *)
Definition marked (h : store) (r : rid) : Prop :=
  result (rec h r) = Some ERROR /\ details (rec h r) = Some NOT_EXECUTED.

(** The lists by result partition the executed records, which are allocated; the list of
    errors has the executed ones, [er], and those that were [missing]: requested, not
    executed, and marked so. *)
Record result_inv (h : store) (er missing : list rid) (self : TestResult) : Prop := {
  ok_error_split : error self ≡ₚ er ++ missing;
  ok_partition : executed self ≡ₚ passed self ++ failed self ++ skipped self ++ er;
  ok_passed : Forall (in_class h PASS) (passed self);
  ok_failed : Forall (in_class h FAIL) (failed self);
  ok_skipped : Forall (in_class h SKIP) (skipped self);
  ok_error : Forall (in_class h ERROR) er;
  ok_missing : Forall (fun r => marked h r /\ r ∈ requested self) missing;
  ok_alloc : Forall (fun r => r ∈ dom h) (executed self ++ missing);
}.
Definition result_ok (h : store) (self : TestResult) : Prop := exists er missing, result_inv h er missing self.

Lemma addRecord_lists h record self :
  let keep := filter (fun r => same h r record = false) in
  let c := result_class (result (rec h record)) in
  let put d l := if decide (d = c) then keep l ++ [record] else keep l in
  addRecord h record self =
    mk_result (keep (requested self)) (put FAIL (failed self)) (keep (executed self) ++ [record])
      (put PASS (passed self)) (put SKIP (skipped self)) (put ERROR (error self))
      (test_module_name self) (test_module_timestamp self) (class_errors self).
Proof.
  unfold addRecord, removeRecord. rewrite !remove_from_filter.
  by destruct (result (rec h record)) as [[]|].
Qed.

Lemma Forall_filtered (P Q : rid -> Prop) `{!forall x, Decision (Q x)} (l : list rid) :
  Forall P l -> Forall P (filter Q l).
Proof. rewrite !Forall_forall. intros Hl x [_ Hx]%list_elem_of_filter. auto. Qed.

Lemma removeRecord_inv h record b er missing self :
  let keep := filter (fun r => same h r record = false) in
  result_inv h er missing self -> result_inv h (keep er) (keep missing) (removeRecord h record b self).
Proof.
  intros keep [He Hp H1 H2 H3 H4 Hm Ha]. unfold removeRecord.
  split; simpl; rewrite ?remove_from_filter; subst keep; [by rewrite He, filter_app|by rewrite Hp, !filter_app|by apply Forall_filtered..| |].
  - apply Forall_forall. intros x [Hx Hin]%list_elem_of_filter. rewrite Forall_forall in Hm.
    destruct (Hm x Hin) as [? ?]. split; [done|]. by apply list_elem_of_filter.
  - rewrite <- filter_app. by apply Forall_filtered.
Qed.
Lemma removeRecord_ok h record b self : result_ok h self -> result_ok h (removeRecord h record b self).
Proof. intros (er & missing & H). eexists _, _. by apply removeRecord_inv. Qed.

(** A record joins the executed ones and the list of its result. *)
Lemma append_ok h self r c e f p s er :
  result_ok h self -> r ∈ dom h -> in_class h c r ->
  e = executed self ++ [r] ->
  (p, f, s, er) = match c with
    | PASS => (passed self ++ [r], failed self, skipped self, error self)
    | FAIL => (passed self, failed self ++ [r], skipped self, error self)
    | SKIP => (passed self, failed self, skipped self ++ [r], error self)
    | ERROR => (passed self, failed self, skipped self, error self ++ [r])
    end -> result_ok h (with_lists e f p s er self).
Proof.
  intros (er0 & missing & [He Hp H1 H2 H3 H4 Hm Ha]) Hr Hc -> Heq.
  exists (if decide (c = ERROR) then er0 ++ [r] else er0), missing.
  apply Forall_app in Ha as [Ha Ha'].
  destruct c; simplify_eq; cbn [decide decide_rel];
    (split; simpl; [first [exact He|rewrite He; solve_Permutation]|rewrite Hp; solve_Permutation|..];
     rewrite ?Forall_app, ?Forall_singleton; split_and?; done).
Qed.

Lemma addRecord_ok h record self :
  record ∈ dom h -> result_ok h self -> result_ok h (addRecord h record self).
Proof.
  intros Hr Hok. apply (removeRecord_ok h record false) in Hok.
  unfold addRecord. destruct (result (rec h record)) as [[]|] eqn:Hc;
    (eapply (append_ok h _ record (result_class (result (rec h record)))); [exact Hok|done|done|reflexivity|by rewrite Hc]).
Qed.

(** ** What can happen to the results of a run and their records *)

(** What a class does with its result object. *)
Inductive own_step : store * TestResult -> store * TestResult -> Prop :=
  | step_request h self r : own_step (h, self)
      (h, mk_result (requested self ++ [r]) (failed self) (executed self) (passed self)
            (skipped self) (error self) (test_module_name self) (test_module_timestamp self)
            (class_errors self))
  | step_add h self r : r ∈ dom h -> own_step (h, self) (h, addRecord h r self)
  | step_remove h self r b : own_step (h, self) (h, removeRecord h r b self)
  | step_pass h self clock name e : own_step (h, self) (passClass clock name e h self)
  | step_skip h self clock name reason : own_step (h, self) (skipClass clock name reason h self)
  | step_fail h self name e : own_step (h, self) (h, failClass name e self)
  | step_keys h self name t : own_step (h, self) (h, setTestModuleKeys name t self).

(** Records that only stand for a request: no result of the run has executed them. *)
Definition only_requested (h : store) (l : list TestResult) (self : TestResult) : Prop :=
  forall r, r ∈ getNonExecutedRecords h self -> r ∈ dom h /\ Forall (fun o => r ∉ executed o) l.

(** The results of a run, one for each class and one for their sum.  Records are changed
    until they are executed or in error; a sum reports what the second operand has not
    executed. *)
Inductive result_step : store * list TestResult -> store * list TestResult -> Prop :=
  | step_result h l : result_step (h, l) (h, l ++ [new_result])
  | step_new h l r record : r ∉ dom h -> result_step (h, l) (<[r := record]> h, l)
  | step_change h l r record : Forall (fun self => r ∉ executed self ++ error self) l ->
      result_step (h, l) (<[r := record]> h, l)
  | step_own h l i self h' self' : l !! i = Some self -> own_step (h, self) (h', self') ->
      result_step (h, l) (h', <[i := self']> l)
  | step_report h l i self clock h' self' : l !! i = Some self -> only_requested h l self ->
      reportNonExecutedRecord clock h self = (h', self') ->
      result_step (h, l) (h', <[i := self']> l)
  | step_sum h l i j a b clock h' b' s : i <> j -> l !! i = Some a -> l !! j = Some b -> only_requested h l b ->
      result_add clock h a b = (h', b', Ok s) ->
      result_step (h, l) (h', <[i := s]> (<[j := b']> l)).

(** A change of the store that the invariant does not see: records may be new, and
    those in error may be marked as missing. *)
Definition store_keeps (h h' : store) (self : TestResult) : Prop :=
  dom h ⊆ dom h' /\ (forall r, r ∈ executed self -> h' !! r = h !! r) /\
  (forall r, r ∈ error self -> h' !! r = h !! r \/ marked h' r).

Lemma inv_store h h' er missing self :
  store_keeps h h' self -> result_inv h er missing self -> result_inv h' er missing self.
Proof.
  intros (Hd & Hx & He) [H0 Hp H1 H2 H3 H4 Hm Ha].
  assert (forall c l, (forall r, r ∈ l -> r ∈ executed self) -> Forall (in_class h c) l -> Forall (in_class h' c) l) as Hcl.
  { intros c l Hl. rewrite !Forall_forall. intros Hc r Hr. unfold in_class, rec. rewrite Hx by auto. by apply Hc. }
  assert (forall r l, r ∈ l -> l ⊆ passed self ++ failed self ++ skipped self ++ er -> r ∈ executed self) as Hin.
  { intros r l Hr Hl. rewrite Hp. by apply Hl. }
  split; try done.
  1-4: apply Hcl; [|done]; intros r Hr; eapply Hin; [exact Hr|]; intros x; rewrite !elem_of_app; tauto.
  - rewrite Forall_forall in Hm |- *. intros r Hr. destruct (Hm r Hr) as [Hmark Hreq]. split; [|done].
    destruct (He r) as [Heq|?]; [rewrite H0; apply elem_of_app; by right| |done].
    unfold marked, rec in *. by rewrite Heq.
  - eapply Forall_impl; [exact Ha|]. intros r. apply Hd.
Qed.
Lemma ok_store h h' self : store_keeps h h' self -> result_ok h self -> result_ok h' self.
Proof. intros Hs (er & missing & H). exists er, missing. by apply (inv_store h). Qed.

Lemma result_ok_alloc h self r : result_ok h self -> r ∈ executed self ++ error self -> r ∈ dom h.
Proof.
  intros (er & missing & [H0 Hp _ _ _ _ _ Ha]). rewrite Forall_forall in Ha. intros [Hr|Hr]%elem_of_app; apply Ha, elem_of_app; [by left|].
  rewrite H0 in Hr. apply elem_of_app in Hr as [Hr|Hr]; [left|by right]. rewrite Hp, !elem_of_app. tauto.
Qed.

(** A record that is in none of the lists that matter is new or changes. *)
Lemma insert_keeps h r record self : r ∉ executed self ++ error self -> store_keeps h (<[r := record]> h) self.
Proof.
  intros [H1 H2]%not_elem_of_app. split_and!; [rewrite dom_insert; set_solver|..].
  - intros x Hx. apply lookup_insert_ne. congruence.
  - intros x Hx. left. apply lookup_insert_ne. congruence.
Qed.
Lemma fresh_keeps h r record self : result_ok h self -> r ∉ dom h -> store_keeps h (<[r := record]> h) self.
Proof. intros Hok Hr. apply insert_keeps. intros Hx. by eapply Hr, result_ok_alloc. Qed.

Lemma testEnd_result now r e self : result (testEnd now r e self) = Some r.
Proof. unfold testEnd. by destruct e as [|[]|[]]. Qed.

Lemma testEnd_fullname now r e self : fullname (testEnd now r e self) = fullname self.
Proof. unfold testEnd. by destruct e as [|[]|[]]. Qed.

Lemma new_class_ok h self record c e f p s er :
  let r := fresh (dom h) in
  result_ok h self -> result_class (result record) = c ->
  e = executed self ++ [r] ->
  (p, f, s, er) = match c with
    | PASS => (passed self ++ [r], failed self, skipped self, error self)
    | FAIL => (passed self, failed self ++ [r], skipped self, error self)
    | SKIP => (passed self, failed self, skipped self ++ [r], error self)
    | ERROR => (passed self, failed self, skipped self, error self ++ [r])
    end -> result_ok (<[r := record]> h) (with_lists e f p s er self).
Proof.
  intros r Hok Hc He Heq. pose proof (is_fresh (dom h)) as Hf.
  apply (append_ok _ _ r c); try done.
  - by apply (ok_store h); [apply fresh_keeps|].
  - rewrite dom_insert. set_solver.
  - unfold in_class, rec. by rewrite lookup_insert_eq.
Qed.

(** More requests and other texts do not matter. *)
Lemma request_ok h self r name t errors :
  result_ok h self -> result_ok h (mk_result (requested self ++ r) (failed self) (executed self) (passed self)
    (skipped self) (error self) name t errors).
Proof.
  intros (er & missing & [H0 Hp H1 H2 H3 H4 Hm Ha]). exists er, missing. split; try done. cbn.
  eapply Forall_impl; [exact Hm|]. intros x [? ?]. split; [done|]. apply elem_of_app. by left.
Qed.
Lemma text_ok h self name t errors :
  result_ok h self -> result_ok h (mk_result (requested self) (failed self) (executed self) (passed self)
    (skipped self) (error self) name t errors).
Proof. intros H. rewrite <- (app_nil_r (requested self)). by apply request_ok. Qed.

Lemma own_step_ok s s' : own_step s s' -> result_ok s.1 s.2 -> result_ok s'.1 s'.2.
Proof.
  destruct 1; simpl; intros Hok.
  - by apply request_ok.
  - by apply addRecord_ok.
  - by apply removeRecord_ok.
  - apply (new_class_ok h self _ PASS); try done. unfold testPass. by rewrite testEnd_result.
  - by apply (new_class_ok h self _ SKIP).
  - by apply text_ok.
  - by apply text_ok.
Qed.
(** The other results of the run are not touched by it. *)
Lemma own_step_keeps s s' o : own_step s s' -> result_ok s.1 o -> store_keeps s.1 s'.1 o.
Proof.
  intros Hs Ho. assert (forall h : store, store_keeps h h o) as Hid by (intros h; split_and!; [done|done|by left]).
  destruct Hs; cbn in *; try apply Hid; apply fresh_keeps; try done; apply is_fresh.
Qed.

(** *** Reports of what was not executed *)
Definition reported (h' h : store) (r : rid) : Prop :=
  result (rec h' r) = Some ERROR /\ details (rec h' r) = Some NOT_EXECUTED /\
  fullname (rec h' r) = fullname (rec h r).

Lemma report_fold clock l t h error :
  let '(_, h', error') := foldl (report_step clock) (t, h, error) l in
  error' = error ++ l /\ (forall r, r ∈ l -> reported h' h r) /\
  (forall r, r ∉ l -> h' !! r = h !! r) /\ dom h ⊆ dom h'.
Proof.
  revert t h error. induction l as [|r l IH]; intros t h error; cbn [foldl].
  { rewrite app_nil_r. split_and!; [done|by intros r []%elem_of_nil|done|done]. }
  cbn [report_step]. set (h1 := <[r := _]> h). specialize (IH (S (S t)) h1 (error ++ [r])).
  destruct (foldl _ _ l) as [[t' h'] error']. destruct IH as (-> & H1 & H2 & H3).
  rewrite <- app_assoc. split; [done|].
  assert (forall x, x = r \/ h1 !! x = h !! x) as Hh1.
  { intros x. destruct (decide (x = r)); [by left|right]. by apply lookup_insert_ne. }
  assert (reported h1 h r) as Hr.
  { unfold reported, rec at 1 2 3, h1. rewrite !lookup_insert_eq. cbn [default id].
    unfold testError. rewrite testEnd_result, testEnd_fullname. done. }
  split_and!.
  - intros x Hx. destruct (decide (x ∈ l)) as [Hl|Hl].
    + destruct (H1 x Hl) as (Ha & Hb & Hc). split_and!; [done..|]. rewrite Hc.
      destruct (Hh1 x) as [-> |Heq]; [apply Hr|]. unfold rec. by rewrite Heq.
    + apply elem_of_cons in Hx as [-> |Hx]; [|done]. unfold reported, rec in *.
      by rewrite (H2 r Hl).
  - intros x [Hx Hl]%not_elem_of_cons. rewrite (H2 x Hl). by destruct (Hh1 x).
  - etrans; [|exact H3]. unfold h1. rewrite dom_insert. set_solver.
Qed.

Lemma report_spec clock h self :
  let missing := getNonExecutedRecords h self in
  let '(h', self') := reportNonExecutedRecord clock h self in
  self' = with_lists (executed self) (failed self) (passed self) (skipped self) (error self ++ missing) self /\
  (forall r, r ∈ missing -> reported h' h r) /\ (forall r, r ∉ missing -> h' !! r = h !! r) /\ dom h ⊆ dom h'.
Proof.
  intros missing. unfold reportNonExecutedRecord. pose proof (report_fold clock missing 0 h (error self)) as Hf.
  fold missing. destruct (foldl _ _ _) as [[t h'] error']. destruct Hf as (-> & H1 & H2 & H3). done.
Qed.

Lemma report_ok clock h l self :
  only_requested h l self -> Forall (result_ok h) l -> self ∈ l ->
  let '(h', self') := reportNonExecutedRecord clock h self in
  Forall (result_ok h') l /\ result_ok h' self'.
Proof.
  intros Hreq Hl Hself. pose proof (report_spec clock h self) as Hs. cbv zeta in Hs.
  destruct (reportNonExecutedRecord clock h self) as [h' self']. destruct Hs as (-> & Hin & Hout & Hdom).
  assert (Forall (result_ok h') l) as Hl'.
  { rewrite Forall_forall in Hl |- *. intros o Ho. apply (ok_store h); [|by apply Hl]. split_and!; [done|..].
    - intros r Hr. apply Hout. intros Hm. destruct (Hreq r Hm) as [_ Hx]. rewrite Forall_forall in Hx. by apply (Hx o Ho).
    - intros r _. destruct (decide (r ∈ getNonExecutedRecords h self)) as [Hm|Hm]; [right|left; by apply Hout].
      by destruct (Hin r Hm) as (? & ? & _). }
  split; [done|]. rewrite Forall_forall in Hl'. destruct (Hl' self Hself) as (er & missing & [H0 Hp H1 H2 H3 H4 Hm Ha]).
  exists er, (missing ++ getNonExecutedRecords h self). split; cbn; try done.
  - by rewrite H0, app_assoc.
  - apply Forall_app. split; [done|]. apply Forall_forall. intros r Hr. split; [by destruct (Hin r Hr) as (? & ? & _)|].
    by apply list_elem_of_filter in Hr as [_ Hr].
  - rewrite app_assoc. apply Forall_app. split; [done|]. apply Forall_forall. intros r Hr. by apply Hdom, Hreq.
Qed.

Lemma sum_ok h a b name t :
  result_ok h a -> result_ok h b ->
  result_ok h (mk_result (requested a ++ requested b) (failed a ++ failed b) (executed a ++ executed b)
    (passed a ++ passed b) (skipped a ++ skipped b) (error a ++ error b) name t (class_errors a ++ class_errors b)).
Proof.
  intros (er & missing & [H0 Hp H1 H2 H3 H4 Hm Ha]) (er' & missing' & [H0' Hp' H1' H2' H3' H4' Hm' Ha']).
  exists (er ++ er'), (missing ++ missing'). rewrite !Forall_app in Ha, Ha'.
  split; cbn; rewrite ?Forall_app; try done.
  - rewrite H0, H0'. solve_Permutation.
  - rewrite Hp, Hp'. solve_Permutation.
  - split; (eapply Forall_impl; [eassumption|]; intros x [? ?]; split; [done|]; apply elem_of_app; tauto).
  - tauto.
Qed.

Lemma result_step_ok s s' : result_step s s' -> Forall (result_ok s.1) s.2 -> Forall (result_ok s'.1) s'.2.
Proof.
  destruct 1 as [h l|h l r record Hr|h l r record Hr|h l i self h' self' Hi Hs|h l i self clock h' self' Hi Hreq Hrep|
                 h l i j a b clock h' b' s Hij Hi Hj Hreq Hadd]; cbn; intros Hl.
  - apply Forall_app. split; [done|]. repeat constructor. exists [], []. by repeat constructor.
  - eapply Forall_impl; [exact Hl|]. intros o Ho. apply (ok_store h); [by apply fresh_keeps|done].
  - rewrite Forall_forall in Hl, Hr |- *. intros o Ho. apply (ok_store h); [by apply insert_keeps, Hr|by apply Hl].
  - apply Forall_insert.
    + rewrite Forall_forall in Hl |- *. intros o Ho. apply (ok_store h); [by apply (own_step_keeps _ _ o Hs), Hl|by apply Hl].
    + apply (own_step_ok _ _ Hs). by eapply Forall_lookup_1.
  - pose proof (report_ok clock h l self Hreq Hl (list_elem_of_lookup_2 _ _ _ Hi)) as H.
    rewrite Hrep in H. destruct H. by apply Forall_insert.
  - unfold result_add in Hadd. pose proof (report_ok clock h l b Hreq Hl (list_elem_of_lookup_2 _ _ _ Hj)) as H.
    destruct (reportNonExecutedRecord clock h b) as [h1 b1]. destruct H as [Hl' Hb].
    destruct (merge_name _ _) as [n|]; [|done]. injection Hadd as <- <- <-.
    apply Forall_insert; [by apply Forall_insert|]. apply sum_ok; [|done]. by eapply Forall_lookup_1.
Qed.

(** C15: Whatever a run does with its results (records created, changed until they are
    executed or in error, added, removed; classes passed, skipped, failed; tests that
    were requested and not executed reported; the results of the classes added up), in
    each of them the executed tests are exactly the passed, failed, skipped and erroneous
    ones but for the [missing] ones, each in the list its result says; the missing ones
    were requested, and are marked as not executed; and the summary adds up.  (The records
    of requests are not those of executions.) *)
Theorem results_partition h l self :
  rtc result_step (∅, []) (h, l) -> self ∈ l ->
  exists er missing, result_inv h er missing self /\
    length (executed self) + length missing =
      length (passed self) + length (failed self) + length (skipped self) + length (error self).
Proof.
  intros Hs Hself. assert (Forall (result_ok h) l) as Hok.
  { enough (forall s s', rtc result_step s s' -> Forall (result_ok s.1) s.2 -> Forall (result_ok s'.1) s'.2) as H.
    - by apply (H _ _ Hs).
    - clear. induction 1; eauto using result_step_ok. }
  rewrite Forall_forall in Hok. destruct (Hok self Hself) as (er & missing & H). exists er, missing. split; [done|].
  rewrite (ok_partition _ _ _ _ H), (ok_error_split _ _ _ _ H), !length_app. lia.
Qed.

(** ** Adding a record *)
(** Adding a record leaves no other entry with its name in any list: the
    record is executed, it is in the list of its result, and every other entry
    stays where it was, in order.  No test of that name remains requested,
    although [addRecord] asks [removeRecord] not to remove it. *)
Theorem addRecord_spec h record self :
  let res := addRecord h record self in
  let keep (l : list rid) := filter (fun r => same h r record = false) l in
  executed res = keep (executed self) ++ [record] /\
  passed res = keep (passed self) ++
    (if decide (result_class (result (rec h record)) = PASS) then [record] else []) /\
  failed res = keep (failed self) ++
    (if decide (result_class (result (rec h record)) = FAIL) then [record] else []) /\
  skipped res = keep (skipped self) ++
    (if decide (result_class (result (rec h record)) = SKIP) then [record] else []) /\
  error res = keep (error self) ++
    (if decide (result_class (result (rec h record)) = ERROR) then [record] else []) /\
  requested res = keep (requested self) /\
  (forall b, requested (removeRecord h record b self) = keep (requested self)).
Proof.
  cbv zeta. rewrite addRecord_lists. simpl.
  destruct (result_class (result (rec h record))); simpl; rewrite ?app_nil_r;
    split_and!; try done; intros b; apply remove_from_filter.
Qed.

(** The state of a run after its first tests were executed and added. *)
Definition run_added (h : store) (self : TestResult) (rs : list rid) : TestResult :=
  foldl (fun self r => addRecord h r self) self rs.
Definition requested_result (rs : list rid) : TestResult :=
  mk_result rs [] [] [] [] [] None None [].

Lemma same_eq h a b : same h a b = true <-> fullname (rec h a) = fullname (rec h b).
Proof. apply bool_decide_eq_true. Qed.
Lemma same_ne h a b : same h a b = false <-> fullname (rec h a) <> fullname (rec h b).
Proof. apply bool_decide_eq_false. Qed.

Lemma run_added_spec h (rs es rest : list rid) :
  NoDup ((fun r => fullname (rec h r)) <$> rs ++ rest) ->
  Forall2 (fun r e => fullname (rec h r) = fullname (rec h e)) rs es ->
  let self := run_added h (requested_result (rs ++ rest)) es in
  requested self = rest /\ executed self = es /\
  skipped self = filter (fun e => result_class (result (rec h e)) = SKIP) es.
Proof.
  intros Hnd Hes.
  assert (forall done_ self, requested self = rs ++ rest -> executed self = done_ ->
    skipped self = filter (fun e => result_class (result (rec h e)) = SKIP) done_ ->
    (forall d e, d ∈ done_ -> e ∈ es -> same h d e = false) ->
    requested (run_added h self es) = rest /\ executed (run_added h self es) = done_ ++ es /\
    skipped (run_added h self es) =
      filter (fun e => result_class (result (rec h e)) = SKIP) (done_ ++ es)) as H.
  { induction Hes as [|r e rs es Hre Hes IH]; intros done_ self Hr He Hs Hd.
    { by rewrite app_nil_r. }
    cbn [run_added foldl]. fold (run_added h (addRecord h e self) es).
    apply NoDup_cons in Hnd as [Hr1 Hnd].
    assert (forall x, x ∈ rs ++ rest -> same h x e = false) as Hne.
    { intros x Hx. apply same_ne. rewrite <- Hre. intros Heq. apply Hr1.
      apply list_elem_of_fmap. by exists x. }
    replace (done_ ++ e :: es) with ((done_ ++ [e]) ++ es) by (by rewrite <- app_assoc).
    apply IH; [done|..].
    - rewrite addRecord_lists. simpl. rewrite Hr. simpl.
      rewrite filter_cons_False by (rewrite (proj2 (same_eq h r e)); done).
      by apply filter_all_id, Forall_forall.
    - rewrite addRecord_lists. simpl. rewrite He. f_equal. apply filter_all_id, Forall_forall.
      intros x Hx. apply Hd; [done|by left].
    - rewrite addRecord_lists. simpl. rewrite Hs, filter_app, filter_cons, filter_nil.
      rewrite (filter_all_id (fun x => same h x e = false)).
      { destruct (result_class (result (rec h e))); simpl; by rewrite ?app_nil_r. }
      apply Forall_forall. intros x [_ Hx]%list_elem_of_filter. apply Hd; [done|by left].
    - intros d x [Hd'| ->%list_elem_of_singleton]%elem_of_app Hx; [apply Hd; [done|by right]|].
      apply same_ne. apply list_elem_of_lookup in Hx as [i Hi].
      destruct (Forall2_lookup_r _ _ _ _ _ Hes Hi) as (y & Hy & Heq). rewrite <- Heq, <- Hre.
      intros Hx. apply Hr1. rewrite Hx. apply list_elem_of_fmap. exists y. split; [done|].
      apply elem_of_app. left. by eapply list_elem_of_lookup_2. }
  apply (H []); done || by intros d x Hd%elem_of_nil.
Qed.

(** The progress shown during a run of tests with distinct names does not
    count up to the number of requested tests: after k of n tests, s of them
    skipped, it reads (k + s + 1)/(n - k), since adding a record takes its test
    off the requested list and skipped tests are executed tests too. *)
Theorem progressStr_run h (rs es rest : list rid) :
  NoDup ((fun r => fullname (rec h r)) <$> rs ++ rest) ->
  Forall2 (fun r e => fullname (rec h r) = fullname (rec h e)) rs es ->
  let s := length (filter (fun e => result_class (result (rec h e)) = SKIP) es) in
  progressStr (run_added h (requested_result (rs ++ rest)) es) =
    str_nat (Z.of_nat (length es + s + 1)) ++ bs "/" ++
    str_nat (Z.of_nat (length (rs ++ rest) - length es)).
Proof.
  intros Hnd Hes. destruct (run_added_spec h rs es rest Hnd Hes) as (Hr & He & Hs).
  unfold progressStr. rewrite Hr, He, Hs. cbv zeta.
  rewrite length_app, (Forall2_length _ _ _ Hes).
  by replace (length es + length rest - length es) with (length rest) by lia.
Qed.

(** A run of three tests: one skipped, one passed, one still to come. *)
Definition sample_store : store :=
  {[ 0 := new_record (bs "testA") (Some (bs "M"));
     1 := new_record (bs "testB") (Some (bs "M"));
     2 := new_record (bs "testC") (Some (bs "M"));
     3 := testSkip 2%Z ENone (testBegin 1%Z (new_record (bs "testA") (Some (bs "M"))));
     4 := testPass 4%Z ENone (testBegin 3%Z (new_record (bs "testB") (Some (bs "M")))) ]}.

(** One test is executed, another one only requested; the run ends with the sum. *)
Lemma results_partition_witness :
  let h := {[0 := new_record (bs "testA") None]} in
  let h2 := <[1 := new_record (bs "testB") None]> h in
  let self := mk_result [1] [] [0] [] [] [0] None None [] in
  let r := result_add Z.of_nat h2 new_result self in
  exists s er missing, r.2 = Ok s /\ result_inv r.1.1 er missing s /\ length missing = 1.
Proof.
  intros h h2 self r. destruct r.2 as [s|] eqn:Es; [|discriminate]. exists s.
  destruct (results_partition r.1.1 (<[0 := s]> [new_result; r.1.2]) s) as (er & missing & H & Hlen).
  - eapply rtc_l; [apply step_result|]. eapply rtc_l; [apply step_result|].
    eapply rtc_l; [apply (step_new ∅ _ 0 (new_record (bs "testA") None)); set_solver|].
    eapply rtc_l; [eapply (step_own _ _ 1); [done|]; apply (step_add _ _ 0); set_solver|].
    eapply rtc_l; [apply (step_new _ _ 1 (new_record (bs "testB") None)); vm_compute; set_solver|].
    eapply rtc_l; [eapply (step_own _ _ 1); [done|]; apply (step_request _ _ 1)|].
    apply rtc_once. replace ([new_result; r.1.2]) with (<[1 := r.1.2]> [new_result; self]) by reflexivity.
    eapply (step_sum _ _ 0 1 _ _ Z.of_nat); [done|done|done| |].
    + intros x Hx. assert (x = 1) as ->.
      { change (x ∈ getNonExecutedRecords h2 self) in Hx.
        assert (getNonExecutedRecords h2 self = [1]) as E by (vm_compute; reflexivity).
        rewrite E in Hx. by apply list_elem_of_singleton in Hx. }
      split; apply (bool_decide_unpack _); by vm_compute.
    + assert (forall x : store * TestResult * pyres TestResult, x.2 = Ok s -> x = (x.1.1, x.1.2, Ok s)) as E
        by (intros [[? ?] ?]; cbn; by intros ->).
      exact (E r Es).
  - by left.
  - exists er, missing. split; [done|]. split; [done|]. revert Hlen. vm_compute in Es. injection Es as <-. cbn. lia.
Defined.

Lemma progressStr_run_witness :
  progressStr (run_added sample_store (requested_result [0; 1; 2]) [3; 4]) = bs "4/1".
Proof.
  etransitivity; [apply (progressStr_run sample_store [0; 1] [3; 4] [2])|].
  - vm_compute. by repeat (constructor; [set_solver|]); constructor.
  - repeat constructor.
  - vm_compute. reflexivity.
Defined.

(** ** Tests that did not run, and sums *)
Lemma getNonExecuted_ext h h' self :
  (forall r, fullname (rec h' r) = fullname (rec h r)) ->
  getNonExecutedRecords h' self = getNonExecutedRecords h self.
Proof.
  intros Hn. unfold getNonExecutedRecords. apply list_filter_iff. intros r.
  assert (existsb (same h' r) (executed self) = existsb (same h r) (executed self)) as ->; [|done].
  induction (executed self) as [|x l IH]; [done|]. cbn [existsb]. rewrite IH. f_equal.
  apply bool_decide_ext. by rewrite !Hn.
Qed.

(** [a + b] concatenates the lists of its operands, and first reports the
    tests of [b] (not those of [a]) that were requested and never executed: they
    become errors of [b] itself, with their records marked; nothing else of the
    store changes.  Adding [b] again reports the same tests again. *)
Theorem result_add_spec clock h a b :
  let missing := getNonExecutedRecords h b in
  let '(h', b', res) := result_add clock h a b in
  b' = with_lists (executed b) (failed b) (passed b) (skipped b) (error b ++ missing) b /\
  (forall r, r ∈ missing -> reported h' h r) /\ (forall r, r ∉ missing -> h' !! r = h !! r) /\
  getNonExecutedRecords h' b' = missing /\
  match res with
  | Ok s =>
      requested s = requested a ++ requested b /\ executed s = executed a ++ executed b /\
      passed s = passed a ++ passed b /\ failed s = failed a ++ failed b /\
      skipped s = skipped a ++ skipped b /\ error s = error a ++ error b ++ missing
  | Raise e =>
      e = TypeError /\ exists n m, test_module_name a = Some n /\ test_module_name b = Some m /\ n <> m
  end.
Proof.
  cbv zeta. unfold result_add. pose proof (report_spec clock h b) as Hf. cbv zeta in Hf.
  destruct (reportNonExecutedRecord clock h b) as [h' b']. destruct Hf as (-> & Hr & Hk & _).
  split; [done|]. split; [done|]. split; [done|]. split.
  - etrans; [apply (getNonExecuted_ext h)|done]. intros r.
    destruct (decide (r ∈ getNonExecutedRecords h b)) as [Hin|Hout]; [by apply Hr|].
    unfold rec. by rewrite Hk.
  - simpl. unfold merge_name. destruct (test_module_name a) as [n|], (test_module_name b) as [m|];
      simpl; try case_decide; simpl; split_and?; eauto.
Qed.
