(* ===== verification/BaseTest.v ===== *)
(** * Executing tests ([src/runners/host/base_test.py])

    The part of [BaseTestClass] that runs one test case and files its result:
    the filters, [setUp] and [tearDown], the handlers of every way a test can
    end, the procedure functions, and the final bookkeeping.

    What a test script and the device do is data: a [script] says how each of
    the script's functions ends.  Reports to the web, systrace, logging, timing
    events and the shells of the devices are left out: they do not reach the
    result object. *)

From Stdlib Require Import Strings.Byte.
From S2P Require Import Prelude PyStr ListUtils FilterUtils PyVal Signals Records.

(** ** The state of the runner *)
Record world := mk_world {
  w_store : store;
  results : TestResult;
  current_record : option rid;
  is_final_run : bool;
  test_filter_retry : option Filter;
  reason_to_skip_all_tests : option pystr;
  w_heap : heap;
  w_time : nat;
}.

(** Statements see and change the state even when they raise. *)
Definition M (A : Type) : Type := world -> xres A * world.
#[export] Instance M_ret : MRet M := fun A a w => (Ret a, w).
#[export] Instance M_bind : MBind M := fun A B f m w =>
  match m w with
  | (Ret a, w) => f a w
  | (Exc e, w) => (Exc e, w)
  end.

Definition lift {A} (m : xres A) : M A := fun w => (m, w).
Definition get_world : M world := fun w => (Ret w, w).
(** [try: m; except: ...] with the outcome as a value. *)
Definition attempt {A} (m : M A) : M (xres A) := fun w => let '(r, w) := m w in (Ret r, w).
(** [try: m; finally: f]: an exception of [f] takes the place of the outcome. *)
Definition finally {A} (m : M A) (f : M unit) : M A := fun w =>
  let '(r, w) := m w in
  match f w with
  | (Ret _, w) => (r, w)
  | (Exc e, w) => (Exc e, w)
  end.

Definition set_results (res : TestResult) (w : world) : world :=
  mk_world (w_store w) res (current_record w) (is_final_run w) (test_filter_retry w)
    (reason_to_skip_all_tests w) (w_heap w) (w_time w).
Definition set_store (h : store) (w : world) : world :=
  mk_world h (results w) (current_record w) (is_final_run w) (test_filter_retry w)
    (reason_to_skip_all_tests w) (w_heap w) (w_time w).
Definition set_current (r : option rid) (w : world) : world :=
  mk_world (w_store w) (results w) r (is_final_run w) (test_filter_retry w)
    (reason_to_skip_all_tests w) (w_heap w) (w_time w).
Definition set_final (b : bool) (w : world) : world :=
  mk_world (w_store w) (results w) (current_record w) b (test_filter_retry w)
    (reason_to_skip_all_tests w) (w_heap w) (w_time w).
Definition set_retry (f : Filter) (h : heap) (w : world) : world :=
  mk_world (w_store w) (results w) (current_record w) (is_final_run w) (Some f)
    (reason_to_skip_all_tests w) h (w_time w).
Definition set_reason (msg : pystr) (w : world) : world :=
  mk_world (w_store w) (results w) (current_record w) (is_final_run w) (test_filter_retry w)
    (Some msg) (w_heap w) (w_time w).
Definition tick (w : world) : world :=
  mk_world (w_store w) (results w) (current_record w) (is_final_run w) (test_filter_retry w)
    (reason_to_skip_all_tests w) (w_heap w) (S (w_time w)).

Definition modify (f : world -> world) : M unit := fun w => (Ret tt, f w).
Definition update_record (r : rid) (f : TestResultRecord -> TestResultRecord) : M unit :=
  modify (fun w => set_store (<[r := f (rec (w_store w) r)]> (w_store w)) w).

(** ** What the test script and the device do *)
Inductive procedure := onFail | onPass | onSkip | onSilent | onException.
#[export] Instance procedure_eq_dec : EqDecision procedure.
Proof. solve_decision. Defined.

(** The [__name__] of the proxy functions. *)
Definition procedure_name (p : procedure) : pystr :=
  match p with
  | onFail => bs "_onFail" | onPass => bs "_onPass" | onSkip => bs "_onSkip"
  | onSilent => bs "_onSilent" | onException => bs "_onException"
  end.

Record script := mk_script {
  heal_passive : bool;                 (* Heal(passive=True) before the test *)
  heal_after : bool;                   (* Heal() after an adb error *)
  user_setUp : xres pyval;
  user_test : xres pyval;
  user_tearDown : xres unit;
  user_procedure : procedure -> xres unit;
  dump_bug_report : xres unit;
  dump_logcat : xres unit;
}.

Record config := mk_config {
  cfg_module_name : pystr;
  test_filter : Filter;
  abi_bitness : option pystr;
  skip_on_32bit_abi : bool;
  skip_on_64bit_abi : bool;
  run_32bit_on_64bit_abi : bool;
  collect_tests_only : bool;
  bug_report_on_failure : bool;
  logcat_on_failure : bool;
  max_retry_count : nat;
}.

Section base_test.
Context (re_compile : pystr -> option (pystr -> option nat)).
Context (clock : nat -> Z).
Context (cfg : config).

Definition now : M Z := fun w => (Ret (clock (w_time w)), tick w).

(** ** Filters *)
Definition apply_filter (f : Filter) (name : pystr) : xres bool :=
  match Filter_Filter re_compile f name with
  | Ok b => Ret b
  | Raise _ => Exc (EOther (UserException 0) (bs "malformed regular expression"))
  end.
Definition run_filter (f : Filter) (name : pystr) : M bool := lift (apply_filter f name).

Definition skipAllTests (msg : pystr) : M unit :=
  modify (set_reason (match msg with [] => bs "No reason provided." | _ => msg end)).
Definition skipAllTestsIf (condition : bool) (msg : pystr) : M unit :=
  if condition then skipAllTests msg else mret tt.
Definition isSkipAllTests (w : world) : bool :=
  bool_decide (is_Some (reason_to_skip_all_tests w)).

Definition filterOneTestThroughTestFilter (name : pystr) : M unit :=
  pass ← run_filter (test_filter cfg) name;
  if negb pass then lift (Exc (new_signal TestSilent (PStr (bs "Test case '%s' did not pass filters.")) PNone))
  else
    w ← get_world;
    match reason_to_skip_all_tests w with
    | Some reason => lift (Exc (new_signal TestSkip (PStr reason) PNone))
    | None => mret tt
    end.

(** [and] binds tighter than [or]: the first conjunct guards only the first of
    the four cases. *)
Definition bitness_is (b : pystr) : bool := bool_decide (abi_bitness cfg = Some b).
Definition abi_truthy : bool :=
  match abi_bitness cfg with None => false | Some s => negb (bool_decide (s = [])) end.
Definition excluded_by_bitness (name : pystr) : bool :=
  abi_truthy && (skip_on_32bit_abi cfg && bitness_is (bs "32")) ||
  skip_on_64bit_abi cfg && bitness_is (bs "64") ||
  endswith SUFFIX_32BIT (lower name) && negb (bitness_is (bs "32")) ||
  endswith SUFFIX_64BIT (lower name) && negb (bitness_is (bs "64")) &&
    negb (run_32bit_on_64bit_abi cfg).

Definition filterOneTestThroughAbiBitness (name : pystr) : M unit :=
  lift (skipIf (excluded_by_bitness name)
    (PStr (bs "Test case '" ++ name ++ bs "' excluded as ABI bitness is " ++
           opt_text (abi_bitness cfg) ++ bs ".")) PNone).

Definition excluded_by_retry (name : pystr) : M bool :=
  w ← get_world;
  match test_filter_retry w with
  | None => mret false
  | Some f => pass ← run_filter f name; mret (negb pass)
  end.

Definition filterOneTest (name : pystr) : M unit :=
  excluded ← excluded_by_retry name;
  if excluded : bool then
    lift (Exc (new_signal TestSkip (PStr (bs "Skipping completed tests in retry run attempt.")) PNone))
  else
    _ ← filterOneTestThroughTestFilter name;
    filterOneTestThroughAbiBitness name.

(** ** Set up, tear down and procedure functions *)
(** The result of the script's [setUp] is not returned. *)
Definition setUp_ (name : pystr) (s : script) : M unit :=
  _ ← lift (if negb (heal_passive s) then
              fail (PStr (bs "Framework self diagnose didn't pass for " ++ name ++
                          bs ". Marking test as fail.")) PNone
            else Ret tt);
  _ ← lift (user_setUp s);
  mret tt.

(** [_exec_func]: only [TestAbortAll] goes through. *)
Definition exec_func {A} (m : xres A) : xres (option A) :=
  match m with
  | Ret a => Ret (Some a)
  | Exc e => if isinstance e (SignalClass TestAbortAll) then Exc e else Ret None
  end.
Definition tearDown_ (s : script) : M unit := lift (_ ← exec_func (user_tearDown s); Ret tt).

(** The proxies call the function of the script, then collect logs of the
    device after a failure.  [_onException] misspells the name of its record. *)
Definition proxy (p : procedure) (s : script) : xres unit :=
  _ ← user_procedure s p;
  match p with
  | onFail =>
      _ ← (if bug_report_on_failure cfg then dump_bug_report s else Ret tt);
      if logcat_on_failure cfg then dump_logcat s else Ret tt
  | onException =>
      _ ← (if bug_report_on_failure cfg
           then Exc (EOther NameError_ (bs "global name 'ecord' is not defined")) else Ret tt);
      if logcat_on_failure cfg then dump_logcat s else Ret tt
  | _ => Ret tt
  end.

Definition exec_procedure_func (p : procedure) (s : script) : M unit :=
  w ← get_world;
  if negb (bool_decide (p = onPass \/ p = onSilent \/ p = onSkip)) && negb (is_final_run w)
  then mret tt
  else match current_record w with
  | None => mret tt
  | Some r =>
      match proxy p s with
      | Ret _ => mret tt
      | Exc e =>
          if isinstance e (SignalClass TestAbortAll) then lift (Exc e)
          else if isinstance e Exception_ then update_record r (addError (procedure_name p) e)
          else lift (Exc e)
      end
  end.

(** ** [execOneTest] *)
Definition end_record (r : rid) (res : test_result) (e : end_arg) : M unit :=
  t ← now;
  update_record r (testEnd t res e).

(** The statements of the [try] block. *)
Definition test_body (name : pystr) (s : script) (r : rid) : M pyval :=
  _ ← modify (set_current (Some r));
  _ ← filterOneTest name;
  _ ← (if collect_tests_only cfg then lift (explicitPass (PStr (bs "Collect tests only.")) PNone)
       else mret tt);
  finally (_ ← setUp_ name s; lift (user_test s)) (tearDown_ s).

Definition is_ret {A} (m : xres A) : bool := match m with Ret _ => true | Exc _ => false end.

(** How a handler ends: its outcome, and the flags [finished] and [is_silenced]. *)
Definition handled : Type := xres unit * bool * bool.

(** Procedure functions first, then [finished = True]. *)
Definition then_finished (silenced : bool) (m : M unit) : M handled :=
  o ← attempt m;
  mret (o, is_ret o, silenced).

(** A signal that is passed along: the test failed, nothing is retried. *)
Definition pass_along (r : rid) (e raised : exn) : M handled :=
  _ ← end_record r FAIL (EExn e);
  _ ← modify (set_final true);
  mret (Exc raised, true, false).

Definition abort_all_of (e : exn) : exn :=
  if isinstance e (SignalClass TestAbortAll) then e
  else new_signal TestAbortAll (PStr (str_exn e)) PNone.

Definition handle_exception (r : rid) (s : script) (e : exn) : M handled :=
  if isinstance e (SignalClass TestFailure) || isinstance e AssertionError then
    _ ← end_record r FAIL (EExn e);
    then_finished false (exec_procedure_func onFail s)
  else if isinstance e (SignalClass TestSkip) then
    _ ← end_record r SKIP (EExn e);
    then_finished false (exec_procedure_func onSkip s)
  else if isinstance e (SignalClass TestAbortClass) then pass_along r e e
  else if isinstance e (SignalClass TestAbortAll) then pass_along r e e
  else if isinstance e TimeoutError then pass_along r e (abort_all_of e)
  else if isinstance e KeyboardInterrupt then pass_along r e e
  else if isinstance e AdbError then
    if negb (heal_after s) then pass_along r e (abort_all_of e)
    else
      _ ← end_record r FAIL (EExn e);
      then_finished false (exec_procedure_func onFail s)
  else if isinstance e (SignalClass TestPass) then
    _ ← end_record r PASS (EExn e);
    then_finished false (exec_procedure_func onPass s)
  else if isinstance e (SignalClass TestSilent) then
    then_finished true
      (_ ← exec_procedure_func onSilent s;
       modify (fun w => set_results (removeRecord (w_store w) r true (results w)) w))
  else if isinstance e Exception_ then
    _ ← end_record r ERROR (EExn e);
    then_finished false (_ ← exec_procedure_func onException s; exec_procedure_func onFail s)
  else mret (Exc e, false, false).

(** The [else] block: the test function returned, and [finished] is set. *)
Definition handle_verdict (r : rid) (s : script) (verdict : pyval) : M handled :=
  o ← attempt
    (if truthy verdict || match verdict with PNone => true | _ => false end then
       _ ← end_record r PASS ENone;
       exec_procedure_func onPass s
     else
       _ ← end_record r FAIL ENone;
       exec_procedure_func onFail s);
  mret (o, true, false).

(** The [finally] block. *)
Definition finish (r : rid) (s : script) (finished silenced : bool) : M unit :=
  _ ← (if negb finished then
         _ ← end_record r ERROR ENone;
         _ ← exec_procedure_func onException s;
         exec_procedure_func onFail s
       else mret tt);
  _ ← (if negb silenced
       then modify (fun w => set_results (addRecord (w_store w) r (results w)) w) else mret tt);
  modify (set_current None).

Definition new_record_in (name : pystr) : M rid := fun w =>
  let r := fresh (dom (w_store w)) in
  (Ret r, set_store (<[r := new_record name (Some (cfg_module_name cfg))]> (w_store w)) w).

Definition execOneTest (name : pystr) (s : script) : M unit :=
  excluded ← excluded_by_retry name;
  if excluded : bool then mret tt
  else
    r ← new_record_in name;
    t ← now;
    _ ← update_record r (testBegin t);
    b ← attempt (test_body name s r);
    h ← match b with
        | Exc e => handle_exception r s e
        | Ret verdict => handle_verdict r s verdict
        end;
    let '(out, finished, silenced) := (h : handled) in
    _ ← finish r s finished silenced;
    lift out.

(** ** How a test that ended is filed *)
Definition verdict_of (b : xres pyval) : option test_result :=
  match b with
  | Ret v => Some (if truthy v || match v with PNone => true | _ => false end then PASS else FAIL)
  | Exc e =>
      match exc_type e with
      | SignalClass TestSilent => None
      | SignalClass TestPass => Some PASS
      | SignalClass TestSkip => Some SKIP
      | SignalClass TestFailure | SignalClass TestAbortClass | SignalClass TestAbortAll
      | AssertionError | TimeoutError | KeyboardInterrupt | AdbError => Some FAIL
      | _ => Some ERROR
      end
  end.

(** What the runner lets through: the signals to abort, an interrupt, a
    time-out or an unrecoverable device (both as [TestAbortAll]), and what is not
    an [Exception]. *)
Definition passed_along (s : script) (b : xres pyval) : option exn :=
  match b with
  | Ret _ => None
  | Exc e =>
      match exc_type e with
      | SignalClass TestAbortClass | SignalClass TestAbortAll | KeyboardInterrupt
      | SystemExit | BaseException => Some e
      | TimeoutError => Some (abort_all_of e)
      | AdbError => if heal_after s then None else Some (abort_all_of e)
      | _ => None
      end
  end.

(** The procedure functions for an outcome, before retries are considered. *)
Definition procedures_for (s : script) (b : xres pyval) : list procedure :=
  match verdict_of b with
  | None => [onSilent]
  | Some PASS => [onPass]
  | Some SKIP => [onSkip]
  | Some ERROR => [onException; onFail]
  | Some FAIL => match passed_along s b with Some _ => [] | None => [onFail] end
  end.

Definition proc_runs (final : bool) (p : procedure) : bool :=
  bool_decide (p = onPass \/ p = onSilent \/ p = onSkip) || final.
Definition proc_fails (final : bool) (s : script) (p : procedure) : bool :=
  proc_runs final p && negb (is_ret (proxy p s)).

(** The procedure functions of the script raise nothing but ordinary exceptions. *)
Definition well_behaved (s : script) : Prop :=
  forall p e, proxy p s = Exc e ->
    isinstance e Exception_ = true /\ isinstance e (SignalClass TestAbortAll) = false.

(** A step changed nothing but the record and the clock. *)
Record frame (r : rid) (w w' : world) : Prop := {
  frame_results : results w' = results w;
  frame_current : current_record w' = current_record w;
  frame_store : forall x, x <> r -> w_store w' !! x = w_store w !! x;
  frame_name : fullname (rec (w_store w') r) = fullname (rec (w_store w) r);
  frame_alloc : r ∈ dom (w_store w) -> r ∈ dom (w_store w');
  frame_retry : test_filter_retry w' = test_filter_retry w;
  frame_reason : reason_to_skip_all_tests w' = reason_to_skip_all_tests w;
  frame_final : is_final_run w = true -> is_final_run w' = true;
}.

Lemma frame_trans r w1 w2 w3 : frame r w1 w2 -> frame r w2 w3 -> frame r w1 w3.
Proof.
  intros [H1 H2 H3 H4 H5 H6 H7 H8] [K1 K2 K3 K4 K5 K6 K7 K8].
  split; [congruence|congruence| |congruence|auto|congruence|congruence|auto].
  intros x Hx. by rewrite K3, H3.
Qed.

Lemma frame_update r f w :
  fullname (f (rec (w_store w) r)) = fullname (rec (w_store w) r) ->
  frame r w (set_store (<[r := f (rec (w_store w) r)]> (w_store w)) w).
Proof.
  intros Hf. split; simpl; try done.
  - intros x Hx. by apply lookup_insert_ne.
  - unfold rec at 1. by rewrite lookup_insert_eq.
  - rewrite dom_insert. set_solver.
Qed.

Lemma end_record_spec r res e w :
  exists w', end_record r res e w = (Ret tt, w') /\ frame r w w' /\
    is_final_run w' = is_final_run w /\ result (rec (w_store w') r) = Some res.
Proof.
  eexists. split; [reflexivity|]. split; [|split; [done|]].
  - destruct (frame_update r (testEnd (clock (w_time w)) res e) (tick w)) as [H1 H2 H3 H4 H5 H6 H7 H8];
      [apply testEnd_fullname|by split].
  - simpl. unfold rec at 1. rewrite lookup_insert_eq. apply testEnd_result.
Qed.

Lemma exec_procedure_spec p s r w :
  well_behaved s -> current_record w = Some r ->
  exists w', exec_procedure_func p s w = (Ret tt, w') /\ frame r w w' /\
    is_final_run w' = is_final_run w /\
    result (rec (w_store w') r) =
      (if proc_fails (is_final_run w) s p then Some ERROR else result (rec (w_store w) r)).
Proof.
  intros Hs Hr. unfold exec_procedure_func, proc_fails, proc_runs, mbind, M_bind, get_world.
  destruct (bool_decide _); destruct (is_final_run w) eqn:Hf; simpl; try (by exists w);
    rewrite Hr; (destruct (proxy p s) as [[]|e] eqn:Hp; simpl; [by exists w|]);
    destruct (Hs p e Hp) as [-> ->]; eexists; (split; [reflexivity|]);
    (split; [by apply (frame_update r (addError (procedure_name p) e))|]); (split; [done|]);
    simpl; unfold rec at 1; by rewrite lookup_insert_eq.
Qed.

(** One handler: the record gets a result and then the procedure functions run. *)
Definition filed (r : rid) (s : script) (w : world) (ps : list procedure) (c : test_result)
    (w' : world) : Prop :=
  frame r w w' /\
  result (rec (w_store w') r) =
    Some (if existsb (proc_fails (is_final_run w) s) ps then ERROR else c).

Lemma end_then_procedure r s res e p w silenced :
  well_behaved s -> current_record w = Some r ->
  exists w', (_ ← end_record r res e; then_finished silenced (exec_procedure_func p s)) w =
      (Ret (Ret tt, true, silenced), w') /\ filed r s w [p] res w'.
Proof.
  intros Hs Hr. destruct (end_record_spec r res e w) as (w1 & E1 & F1 & N1 & R1).
  destruct (exec_procedure_spec p s r w1) as (w2 & E2 & F2 & N2 & R2); [done| |].
  { by rewrite (frame_current _ _ _ F1). }
  exists w2. unfold then_finished, attempt, mbind, M_bind. rewrite E1, E2. split; [done|].
  split; [by eapply frame_trans|]. rewrite R2, R1, N1. cbn [existsb]. rewrite orb_false_r. by destruct (proc_fails (is_final_run w) s p).
Qed.

Lemma end_then_both r s e w :
  well_behaved s -> current_record w = Some r ->
  exists w', (_ ← end_record r ERROR e;
      then_finished false (_ ← exec_procedure_func onException s; exec_procedure_func onFail s)) w =
      (Ret (Ret tt, true, false), w') /\ filed r s w [onException; onFail] ERROR w'.
Proof.
  intros Hs Hr. destruct (end_record_spec r ERROR e w) as (w1 & E1 & F1 & N1 & R1).
  destruct (exec_procedure_spec onException s r w1) as (w2 & E2 & F2 & N2 & R2); [done| |].
  { by rewrite (frame_current _ _ _ F1). }
  destruct (exec_procedure_spec onFail s r w2) as (w3 & E3 & F3 & N3 & R3); [done| |].
  { by rewrite (frame_current _ _ _ F2), (frame_current _ _ _ F1). }
  exists w3. unfold then_finished, attempt, mbind, M_bind. rewrite E1, E2, E3. split; [done|].
  split; [eauto using frame_trans|]. rewrite R3, R2, R1, N2, N1. cbn [existsb].
  by destruct (proc_fails (is_final_run w) s onException), (proc_fails (is_final_run w) s onFail).
Qed.

Lemma pass_along_spec r s e x w :
  exists w', pass_along r e x w = (Ret (Exc x, true, false), w') /\ filed r s w [] FAIL w'.
Proof.
  destruct (end_record_spec r FAIL (EExn e) w) as (w1 & E1 & [H1 H2 H3 H4 H5 H6 H7 H8] & N1 & R1).
  exists (set_final true w1). unfold pass_along, mbind, M_bind. rewrite E1. split; [done|].
  split; [by split|done].
Qed.

(** Every handler files the result of the table, and finishes, except the
    exceptions that no handler catches. *)
Lemma handle_exception_spec r s e w c :
  well_behaved s -> current_record w = Some r -> verdict_of (Exc e) = Some c ->
  issubclass (exc_type e) Exception_ || bool_decide (exc_type e = KeyboardInterrupt) = true ->
  exists w', handle_exception r s e w =
      (Ret (match passed_along s (Exc e) with Some x => Exc x | None => Ret tt end, true, false), w') /\
    filed r s w (procedures_for s (Exc e)) c w'.
Proof.
  intros Hs Hr Hc Hx. unfold handle_exception, procedures_for. rewrite Hc.
  unfold isinstance, verdict_of, passed_along in *.
  destruct (exc_type e) as [| | | | | | | | | |n| |[]] eqn:He; simplify_eq; simpl;
    try discriminate; unfold isinstance in *; rewrite ?He; simpl;
    try (by apply end_then_procedure); try (by apply end_then_both); try (by apply pass_along_spec).
  destruct (heal_after s); simpl; [by apply end_then_procedure|apply pass_along_spec].
Qed.

(** How a test ends: what the filters let through is set up, run and torn down. *)
Definition test_outcome (reason : option pystr) (name : pystr) (s : script) : xres pyval :=
  pass ← apply_filter (test_filter cfg) name;
  if negb pass
  then Exc (new_signal TestSilent (PStr (bs "Test case '%s' did not pass filters.")) PNone)
  else match reason with
  | Some reason => Exc (new_signal TestSkip (PStr reason) PNone)
  | None =>
      if excluded_by_bitness name then
        Exc (new_signal TestSkip (PStr (bs "Test case '" ++ name ++ bs "' excluded as ABI bitness is "
          ++ opt_text (abi_bitness cfg) ++ bs ".")) PNone)
      else if collect_tests_only cfg then
        Exc (new_signal TestPass (PStr (bs "Collect tests only.")) PNone)
      else
        let run :=
          if heal_passive s then _ ← user_setUp s; user_test s
          else Exc (new_signal TestFailure (PStr (bs "Framework self diagnose didn't pass for "
                 ++ name ++ bs ". Marking test as fail.")) PNone) in
        _ ← exec_func (user_tearDown s); run
  end.

Lemma test_body_run name s r w :
  excluded_by_retry name (set_current (Some r) w) = (Ret false, set_current (Some r) w) ->
  test_body name s r w =
    (test_outcome (reason_to_skip_all_tests w) name s, set_current (Some r) w).
Proof.
  intros Hx. unfold test_body, filterOneTest, filterOneTestThroughTestFilter,
    filterOneTestThroughAbiBitness, test_outcome, run_filter, modify, mbind, M_bind. rewrite Hx.
  unfold lift, get_world, finally, setUp_, tearDown_, mbind, M_bind, lift, skipIf, skip, fail,
    explicitPass, xres_bind.
  destruct (apply_filter (test_filter cfg) name) as [[]|]; simpl; try done.
  destruct (reason_to_skip_all_tests w); simpl; [done|].
  destruct (excluded_by_bitness name); simpl; [done|].
  destruct (collect_tests_only cfg); simpl; [done|].
  destruct (heal_passive s), (user_setUp s), (exec_func (user_tearDown s)); simpl;
    try done; by destruct (user_test s).
Qed.

Lemma excluded_by_retry_same name w w' :
  test_filter_retry w' = test_filter_retry w ->
  excluded_by_retry name w = (Ret false, w) -> excluded_by_retry name w' = (Ret false, w').
Proof.
  unfold excluded_by_retry, run_filter, mbind, M_bind, get_world, lift. simpl. intros ->.
  destruct (test_filter_retry w); [|done]. destruct (apply_filter f name) as [[]|]; simpl; naive_solver.
Qed.

Lemma handle_verdict_spec r s v w :
  well_behaved s -> current_record w = Some r ->
  exists c w', verdict_of (Ret v) = Some c /\
    handle_verdict r s v w = (Ret (Ret tt, true, false), w') /\
    filed r s w (procedures_for s (Ret v)) c w'.
Proof.
  intros Hs Hr. unfold handle_verdict, procedures_for. simpl.
  destruct (truthy v || _).
  - destruct (end_then_procedure r s PASS ENone onPass w false Hs Hr) as (w' & E & F).
    exists PASS, w'. split; [done|]. split; [|done].
    unfold then_finished, attempt, mbind, M_bind in *.
    destruct (end_record r PASS ENone w) as [[]]; [|done]. simpl in *.
    destruct (exec_procedure_func onPass s _) as [[]]; by simplify_eq.
  - destruct (end_then_procedure r s FAIL ENone onFail w false Hs Hr) as (w' & E & F).
    exists FAIL, w'. split; [done|]. split; [|done].
    unfold then_finished, attempt, mbind, M_bind in *.
    destruct (end_record r FAIL ENone w) as [[]]; [|done]. simpl in *.
    destruct (exec_procedure_func onFail s _) as [[]]; by simplify_eq.
Qed.

(** The bookkeeping after a handler that finished. *)
Lemma finish_run r s w silenced :
  finish r s true silenced w =
    (Ret tt, set_current None
       (if silenced : bool then w else set_results (addRecord (w_store w) r (results w)) w)).
Proof. by destruct silenced. Qed.

Lemma uncaught_spec r s w :
  well_behaved s -> current_record w = Some r ->
  exists w1, finish r s false false w =
    (Ret tt, set_current None (set_results (addRecord (w_store w1) r (results w1)) w1)) /\
    filed r s w [onException; onFail] ERROR w1.
Proof.
  intros Hs Hr. destruct (end_then_both r s ENone w Hs Hr) as (w1 & E & F).
  exists w1. split; [|done]. unfold finish, then_finished, attempt, mbind, M_bind in *.
  cbn [negb].
  destruct (end_record r ERROR ENone w) as [[[]|] wa]; [|done].
  destruct (exec_procedure_func onException s wa) as [[[]|] wb]; [|by simplify_eq].
  destruct (exec_procedure_func onFail s wb) as [[[]|] wc]; unfold mret, M_ret in E; by simplify_eq.
Qed.

(** The handlers and the bookkeeping together, on a world whose current record
    is the one of the test. *)
Definition conclude (r : rid) (s : script) (b : xres pyval) : M unit :=
  h ← match b with
      | Exc e => handle_exception r s e
      | Ret verdict => handle_verdict r s verdict
      end;
  let '(out, finished, silenced) := (h : handled) in
  _ ← finish r s finished silenced;
  lift out.

(** A test is filed: its record has the result, and the result object holds it
    (or nothing of that name, for a silent one). *)
Definition test_filed (r : rid) (s : script) (b : xres pyval) (w w' : world) : Prop :=
  current_record w' = None /\
  (forall x, x <> r -> w_store w' !! x = w_store w !! x) /\
  fullname (rec (w_store w') r) = fullname (rec (w_store w) r) /\
  (r ∈ dom (w_store w) -> r ∈ dom (w_store w')) /\
  test_filter_retry w' = test_filter_retry w /\
  reason_to_skip_all_tests w' = reason_to_skip_all_tests w /\
  (is_final_run w = true -> is_final_run w' = true) /\
  match verdict_of b with
  | Some c =>
      results w' = addRecord (w_store w') r (results w) /\
      result (rec (w_store w') r) =
        Some (if existsb (proc_fails (is_final_run w) s) (procedures_for s b) then ERROR else c)
  | None => results w' = removeRecord (w_store w') r true (results w)
  end.

Definition out_of (s : script) (b : xres pyval) : xres unit :=
  match passed_along s b with Some e => Exc e | None => Ret tt end.

Lemma filed_test r s b w c w1 :
  verdict_of b = Some c -> filed r s w (procedures_for s b) c w1 ->
  test_filed r s b w (set_current None (set_results (addRecord (w_store w1) r (results w1)) w1)).
Proof.
  intros Hc [[H1 H2 H3 H4 H5 H6 H7 H8] Hr]. unfold test_filed. rewrite Hc. simpl. by rewrite H1.
Qed.

Lemma conclude_silent r s e w :
  well_behaved s -> current_record w = Some r -> exc_type e = SignalClass TestSilent ->
  exists w', conclude r s (Exc e) w = (Ret tt, w') /\ test_filed r s (Exc e) w w'.
Proof.
  intros Hs Hr He.
  assert (handle_exception r s e = then_finished true (_ ← exec_procedure_func onSilent s;
    modify (fun w => set_results (removeRecord (w_store w) r true (results w)) w))) as Hh.
  { unfold handle_exception, isinstance. by rewrite He. }
  destruct (exec_procedure_spec onSilent s r w Hs Hr) as (w1 & E & [H1 H2 H3 H4 H5 H6 H7 H8] & _ & _).
  unfold conclude. rewrite Hh. unfold then_finished, attempt, mbind, M_bind. rewrite E.
  eexists. split; [reflexivity|].
  unfold test_filed, verdict_of. rewrite He. simpl. by rewrite H1.
Qed.

Lemma conclude_uncaught r s e w :
  well_behaved s -> current_record w = Some r ->
  exc_type e = SystemExit \/ exc_type e = BaseException ->
  exists w', conclude r s (Exc e) w = (Exc e, w') /\ test_filed r s (Exc e) w w'.
Proof.
  intros Hs Hr He. destruct (uncaught_spec r s w Hs Hr) as (w1 & E & F).
  exists (set_current None (set_results (addRecord (w_store w1) r (results w1)) w1)). split.
  - assert (handle_exception r s e = mret (Exc e, false, false)) as Hh.
    { unfold handle_exception, isinstance. by destruct He as [-> | ->]. }
    unfold conclude. rewrite Hh. unfold mret, M_ret, mbind, M_bind. by rewrite E.
  - assert (verdict_of (Exc e) = Some ERROR) as Hv by (simpl; by destruct He as [-> | ->]).
    apply (filed_test r s (Exc e) w ERROR); [done|]. unfold procedures_for. by rewrite Hv.
Qed.

Lemma conclude_spec r s b w :
  well_behaved s -> current_record w = Some r ->
  exists w', conclude r s b w = (out_of s b, w') /\ test_filed r s b w w'.
Proof.
  intros Hs Hr. destruct b as [v|e].
  - destruct (handle_verdict_spec r s v w Hs Hr) as (c & w1 & Hc & E & F).
    exists (set_current None (set_results (addRecord (w_store w1) r (results w1)) w1)).
    split; [unfold conclude, mbind, M_bind; by rewrite E|by apply (filed_test r s (Ret v) w c)].
  - destruct (decide (exc_type e = SignalClass TestSilent)) as [Hx|Hx].
    { replace (out_of s (Exc e)) with (Ret tt : xres unit); [by apply conclude_silent|].
      unfold out_of. simpl. by rewrite Hx. }
    destruct (decide (exc_type e = SystemExit \/ exc_type e = BaseException)) as [Hy|Hy].
    { replace (out_of s (Exc e)) with (Exc e : xres unit); [by apply conclude_uncaught|].
      unfold out_of. simpl. by destruct Hy as [-> | ->]. }
    assert (exists c, verdict_of (Exc e) = Some c) as [c Hc].
    { simpl. destruct (exc_type e) as [| | | | | | | | | | | |[]]; naive_solver. }
    destruct (handle_exception_spec r s e w c Hs Hr Hc) as (w1 & E & F).
    { destruct (exc_type e) as [| | | | | | | | | | | |[]]; done || tauto. }
    exists (set_current None (set_results (addRecord (w_store w1) r (results w1)) w1)).
    split; [|by apply (filed_test r s (Exc e) w c)].
    unfold conclude, mbind, M_bind. rewrite E. done.
Qed.

Lemma execOneTest_run name s w :
  well_behaved s -> excluded_by_retry name w = (Ret false, w) ->
  let b := test_outcome (reason_to_skip_all_tests w) name s in
  let r := fresh (dom (w_store w)) in
  exists w1 w', execOneTest name s w = (out_of s b, w') /\ test_filed r s b w1 w' /\
    results w1 = results w /\ is_final_run w1 = is_final_run w /\
    test_filter_retry w1 = test_filter_retry w /\
    reason_to_skip_all_tests w1 = reason_to_skip_all_tests w /\
    (forall x, x <> r -> w_store w1 !! x = w_store w !! x) /\ r ∈ dom (w_store w1) /\
    fullname (rec (w_store w1) r) = cfg_module_name cfg ++ bs "." ++ name.
Proof.
  intros Hs Hx b r. unfold execOneTest. unfold mbind at 1, M_bind at 1. rewrite Hx.
  set (r0 := new_record name (Some (cfg_module_name cfg))).
  set (h1 := <[r := r0]> (w_store w)).
  set (h2 := <[r := testBegin (clock (w_time w)) (rec h1 r)]> h1).
  set (w2 := set_current (Some r) (set_store h2 (tick (set_store h1 w)))).
  destruct (conclude_spec r s b w2 Hs eq_refl) as (w' & E & Hf).
  exists w2, w'. split.
  - etransitivity; [|exact E]. unfold new_record_in, now, update_record, modify, mbind, M_bind.
    cbn -[test_body]. unfold attempt, mbind, M_bind. rewrite (test_body_run name s r); [done|].
    by apply (excluded_by_retry_same name w).
  - split; [done|]. do 4 (split; [done|]). simpl. split; [|split].
    + intros x Hxr. unfold h2, h1. by rewrite !lookup_insert_ne.
    + unfold h2. rewrite dom_insert. set_solver.
    + unfold h2, rec at 1. rewrite lookup_insert_eq. unfold h1, rec. by rewrite lookup_insert_eq.
Qed.

(** C5: For a script whose procedure functions (onPass and the like) raise nothing but
    ordinary exceptions, TestAbortAll not among them ([well_behaved]; [onFail_abort_loses_record]
    shows a record that is lost where one does), a test case that is not left out by the retry filter
    is executed under a new record of its name, and the record is filed once: with the result that
    the table [verdict_of] gives its end, or ERROR when a procedure function of the
    script failed; a silent test is not filed, and entries of its name are
    removed.  No other record changes, no test is current afterwards, and exactly
    the exceptions of [passed_along] go through. *)
Theorem execOneTest_files name s w :
  well_behaved s -> excluded_by_retry name w = (Ret false, w) ->
  let b := test_outcome (reason_to_skip_all_tests w) name s in
  let r := fresh (dom (w_store w)) in
  exists w', execOneTest name s w = (out_of s b, w') /\
    current_record w' = None /\
    (forall x, x <> r -> w_store w' !! x = w_store w !! x) /\
    fullname (rec (w_store w') r) = cfg_module_name cfg ++ bs "." ++ name /\
    match verdict_of b with
    | Some c =>
        results w' = addRecord (w_store w') r (results w) /\
        result (rec (w_store w') r) =
          Some (if existsb (proc_fails (is_final_run w) s) (procedures_for s b) then ERROR else c)
    | None => results w' = removeRecord (w_store w') r true (results w)
    end.
Proof.
  intros Hs Hx b r.
  destruct (execOneTest_run name s w Hs Hx) as (w1 & w' & E & Hf & Hres & Hfin & _ & _ & Hst & _ & Hn).
  destruct Hf as (Hc & Hst' & Hn' & _ & _ & _ & _ & Hv). exists w'. fold b r in E, Hst', Hn', Hv.
  rewrite Hres, Hfin in Hv. split; [done|]. split; [done|]. split; [|split; [|done]].
  - intros x Hxr. rewrite Hst' by done. by apply Hst.
  - by rewrite Hn', <- Hn.
Qed.

(** A test that failed is not filed at all when its [onFail] aborts the
    run: the abort leaves the handler before [finished] is set, so the [finally]
    block takes the test for a time-out, calls [onFail] again, and its second
    abort skips the line that adds the record. *)
Theorem onFail_abort_loses_record name s w f e :
  is_final_run w = true -> excluded_by_retry name w = (Ret false, w) ->
  test_outcome (reason_to_skip_all_tests w) name s = Exc f ->
  exc_type f = SignalClass TestFailure ->
  proxy onFail s = Exc e -> exc_type e = SignalClass TestAbortAll ->
  proxy onException s = Ret tt ->
  exists w', execOneTest name s w = (Exc e, w') /\ results w' = results w /\
    current_record w' = Some (fresh (dom (w_store w))).
Proof.
  intros Hfin Hx Hout Hf Hp He Hq. unfold execOneTest. unfold mbind at 1, M_bind at 1. rewrite Hx.
  set (r := fresh (dom (w_store w))).
  assert (forall w1, current_record w1 = Some r -> is_final_run w1 = true ->
    exec_procedure_func onFail s w1 = (Exc e, w1) /\
    exec_procedure_func onException s w1 = (Ret tt, w1)) as Hproc.
  { intros w1 Hr Hw. unfold exec_procedure_func, mbind, M_bind, get_world. simpl.
    rewrite Hw, Hr, Hp, Hq. unfold isinstance. by rewrite He. }
  assert (forall w1, current_record w1 = Some r -> is_final_run w1 = true ->
    exists w', conclude r s (Exc f) w1 = (Exc e, w') /\ results w' = results w1 /\
      current_record w' = Some r) as Hc.
  { intros w1 Hr Hw.
    assert (handle_exception r s f = (_ ← end_record r FAIL (EExn f);
      then_finished false (exec_procedure_func onFail s))) as Hh.
    { unfold handle_exception, isinstance. by rewrite Hf. }
    unfold conclude. rewrite Hh.
    destruct (end_record_spec r FAIL (EExn f) w1) as (w2 & E2 & F2 & N2 & _).
    destruct (end_record_spec r ERROR ENone w2) as (w3 & E3 & F3 & N3 & _).
    destruct (Hproc w2) as [P2 _]; [by rewrite (frame_current _ _ _ F2)|congruence|].
    assert (current_record w3 = Some r) as Hr3
      by by rewrite (frame_current _ _ _ F3), (frame_current _ _ _ F2).
    destruct (Hproc w3) as [P3 Q3]; [done|congruence|]. exists w3.
    unfold then_finished, finish, attempt, mret, M_ret, mbind, M_bind.
    rewrite E2, P2. cbn [is_ret negb]. rewrite E3, Q3, P3. split; [done|]. split; [|done].
    by rewrite (frame_results _ _ _ F3), (frame_results _ _ _ F2). }
  set (r0 := new_record name (Some (cfg_module_name cfg))).
  set (h1 := <[r := r0]> (w_store w)).
  set (h2 := <[r := testBegin (clock (w_time w)) (rec h1 r)]> h1).
  set (w2 := set_current (Some r) (set_store h2 (tick (set_store h1 w)))).
  destruct (Hc w2) as (w' & E & Hres & Hcur); [done|done|]. exists w'. split; [|done].
  assert (test_body name s r (set_store h2 (tick (set_store h1 w))) = (Exc f, w2)) as Hb.
  { rewrite test_body_run by by apply (excluded_by_retry_same name w). exact (f_equal (., w2) Hout). }
  etransitivity; [|exact E]. unfold new_record_in, now, update_record, modify, mbind, M_bind.
  cbn -[test_body]. unfold attempt, mbind, M_bind.
  match goal with |- context [test_body name s ?R ?W] =>
    change (test_body name s R W) with (test_body name s r (set_store h2 (tick (set_store h1 w)))) end.
  by rewrite Hb.
Qed.
End base_test.
