(* ===== verification/RunTests.v ===== *)
(** * Running a test class ([src/runners/host/base_test.py])

    The loops around [execOneTest]: generated tests, the set up of the class
    with its retries, the run over all tests, the automatic retry of the tests
    that did not pass, and [run].  A test may behave differently at every
    attempt: its script is a function of the attempt. *)

From Stdlib Require Import Strings.Byte.
From S2P Require Import Prelude PyStr ListUtils FilterUtils PyVal Signals Records BaseTest.

Definition STR_TEST : pystr := bs "test".
Definition STR_GENERATE : pystr := bs "generate".
Definition SETUP_RETRY_NUMBER : nat := 5.

(** A function of the class: a test, or a trigger that runs generated tests
    and then ends in its own way. *)
Inductive test_item :=
  | ITest (name : pystr) (s : nat -> script)
  | IGenerate (name : pystr) (settings : list (pystr * (nat -> script))) (ends : nat -> xres unit).

Definition item_name (i : test_item) : pystr :=
  match i with ITest name _ | IGenerate name _ _ => name end.

(** The functions of the class and the device, by attempt (and, for the set
    up, by try). *)
Record class_script := mk_class {
  user_setUpClass : nat -> nat -> xres pyval;
  skip_reason : nat -> nat -> option pystr;  (* setUpClass calls skipAllTests *)
  user_tearDownClass : nat -> xres unit;
  heal_before : nat -> bool;
  run_as_vts_self_test : bool;
}.

Section run.
Context (re_compile : pystr -> option (pystr -> option nat)).
Context (clock : nat -> Z).
Context (cfg : config).
Context (cls : class_script).

Abbreviation exec := (execOneTest re_compile clock cfg).

Definition modify_results (f : TestResult -> TestResult) : M unit :=
  modify (fun w => set_results (f (results w)) w).

Definition request (name : pystr) : M unit :=
  r ← new_record_in cfg name;
  modify_results (fun res =>
    mk_result (requested res ++ [r]) (failed res) (executed res) (passed res) (skipped res)
      (error res) (test_module_name res) (test_module_timestamp res) (class_errors res)).

Fixpoint forM_ {A} (l : list A) (f : A -> M unit) : M unit :=
  match l with
  | [] => mret tt
  | a :: l => _ ← f a; forM_ l f
  end.

(** The names of the settings are those [GenerateTestName] gives. *)
Fixpoint run_settings (settings : list (pystr * script)) : M (list pystr) :=
  match settings with
  | [] => mret []
  | (name, s) :: settings =>
      w ← get_world;
      let previous_success_cnt := length (passed (results w)) in
      _ ← exec name s;
      w ← get_world;
      failed_settings ← run_settings settings;
      mret (if decide (length (passed (results w)) = S previous_success_cnt)
            then failed_settings else name :: failed_settings)
  end.
Definition runGeneratedTests (settings : list (pystr * script)) : M (list pystr) :=
  _ ← forM_ settings (fun st => request st.1);
  run_settings settings.

(** ** One attempt *)
Definition setUpClass_ (attempt try : nat) : M pyval :=
  _ ← (match skip_reason cls attempt try with Some msg => skipAllTests msg | None => mret tt end);
  lift (user_setUpClass cls attempt try).

Definition tearDownClass_ (attempt : nat) : M unit :=
  lift (_ ← exec_func (user_tearDownClass cls attempt); Ret tt).

Definition is_False (v : pyval) : bool := match v with PBool false => true | _ => false end.

(** True when the class is set up; otherwise the attempt is over. *)
Fixpoint setup_loop (n att try : nat) : M bool :=
  match n with
  | O => mret false
  | S n =>
      o ← attempt
        (ret ← setUpClass_ att try;
         if is_False ret then
           lift (Exc (new_signal TestFailure
             (PStr (bs "Failed to setup " ++ cfg_module_name cfg ++ bs ".")) PNone))
         else mret tt);
      match o with
      | Ret _ => mret true
      | Exc e =>
          let caught_exception := if isinstance e Exception_ then Some e else None in
          if negb (bool_decide (is_Some caught_exception)) ||
             bool_decide (S try = SETUP_RETRY_NUMBER) then
            _ ← modify_results (failClass (cfg_module_name cfg) caught_exception);
            _ ← tearDownClass_ att;
            _ ← modify (set_final true);
            mret false
          else setup_loop n att (S try)
      end
  end.

Definition run_item (att : nat) (i : test_item) : M unit :=
  match i with
  | ITest name s => exec name (s att)
  | IGenerate name settings ends =>
      _ ← runGeneratedTests ((fun st => (st.1, st.2 att)) <$> settings);
      lift (ends att)
  end.

Definition run_items (att : nat) (tests : list test_item) : M unit :=
  _ ← forM_ tests (run_item att);
  w ← get_world;
  if isSkipAllTests w && bool_decide (executed (results w) = []) then
    let '(h, res) :=
      skipClass (fun i => clock (w_time w + i)) (cfg_module_name cfg)
        (bs "All test cases skipped; unable to find any test case.") (w_store w) (results w) in
    modify (fun w => tick (tick (set_store h (set_results res w))))
  else mret tt.

Definition pass_self_test : M unit :=
  w ← get_world;
  let '(h, res) := passClass (fun i => clock (w_time w + i)) (cfg_module_name cfg) ENone (w_store w) (results w) in
  modify (fun w => tick (tick (set_store h (set_results res w)))).

(** What the handlers make of an exception: the class error, and what is raised
    again. *)
Definition class_handler (o : xres unit) : M (option exn * xres unit) :=
  match o with
  | Ret _ => mret (None, Ret tt)
  | Exc e =>
      if isinstance e (SignalClass TestAbortClass) then
        _ ← modify (set_final true); mret (Some e, Ret tt)
      else if isinstance e (SignalClass TestAbortAll) || isinstance e KeyboardInterrupt then
        _ ← modify (set_final true); mret (Some e, Exc e)
      else if isinstance e Exception_ then mret (Some e, Exc e)
      else mret (None, Exc e)
  end.

Definition class_finally (att : nat) (class_error : option exn) : M unit :=
  w ← get_world;
  _ ← (if bool_decide (getNonPassingRecords (w_store w) (results w) true true false true = [])
       then modify (set_final true) else mret tt);
  w ← get_world;
  _ ← (match class_error with
       | Some e =>
           if is_final_run w
           then modify_results (failClass (cfg_module_name cfg) (Some e)) else mret tt
       | None => mret tt
       end);
  tearDownClass_ att.

Definition runTests (att : nat) (tests : list test_item) : M unit :=
  ready ← setup_loop SETUP_RETRY_NUMBER att 0;
  if negb ready then mret tt
  else
    o ← attempt (if run_as_vts_self_test cls then pass_self_test else run_items att tests);
    h ← class_handler o;
    let '(class_error, out) := (h : option exn * xres unit) in
    _ ← class_finally att class_error;
    lift out.

(** ** Retries *)
(** [Filter(include_filter=names)]: the exclude filter is the default argument. *)
Definition retry_filter (h : heap) (names : list pystr) : heap * Filter :=
  let l := fresh (dom h) in
  let h := <[l := names]> h in
  (h, new_Filter re_compile h l DEFAULT_EXCLUDE true None true false None false).

Definition non_passing_names (w : world) : list pystr :=
  (fun r => test_name (rec (w_store w) r)) <$>
    getNonPassingRecords (w_store w) (results w) true true false true.

Definition prepare_retry : M unit :=
  w ← get_world;
  let '(h, f) := retry_filter (w_heap w) (non_passing_names w) in
  modify (set_retry f h).

(** [n] attempts are left; [count] is the number of the next one. *)
Fixpoint retry_loop (n count : nat) (tests : list test_item) : M unit :=
  match n with
  | O => mret tt
  | S n =>
      if bool_decide (count <> 0) && negb (heal_before cls count) then mret tt
      else
        _ ← (if bool_decide (count <> 0) then prepare_retry else mret tt);
        _ ← modify (set_final (bool_decide (count = max_retry_count cfg)));
        o ← attempt (runTests count tests);
        w ← get_world;
        match o with
        | Exc e =>
            if negb (isinstance e Exception_) || is_final_run w then lift (Exc e)
            else retry_loop n (S count) tests
        | Ret _ => if is_final_run w then mret tt else retry_loop n (S count) tests
        end
  end.
Definition runTestsWithRetry (tests : list test_item) : M unit :=
  retry_loop (S (max_retry_count cfg)) 0 tests.

Definition run (tests : list test_item) : M unit :=
  _ ← (if run_as_vts_self_test cls then mret tt
       else
         _ ← modify_results (fun res =>
           mk_result [] (failed res) (executed res) (passed res) (skipped res) (error res)
             (test_module_name res) (test_module_timestamp res) (class_errors res));
         forM_ (filter (fun i => startswith STR_TEST (item_name i) = true) tests)
           (fun i => request (item_name i)));
  runTestsWithRetry tests.

(** ** One attempt over well-behaved tests *)
(** The result a test should end with; none when it is silent. *)
Definition test_result_of (name : pystr) (s : script) : option test_result :=
  let b := test_outcome re_compile cfg None name s in
  match verdict_of b with
  | None => None
  | Some c => Some (if existsb (proc_fails cfg true s) (procedures_for s b) then ERROR else c)
  end.

Definition full (name : pystr) : pystr := cfg_module_name cfg ++ bs "." ++ name.

(** A test that neither aborts the run nor has procedure functions that do. *)
Definition plain_test (name : pystr) (s : script) : Prop :=
  well_behaved cfg s /\ passed_along s (test_outcome re_compile cfg None name s) = None.

Abbreviation test := (pystr * script)%type.

Definition records_test (w : world) (t : test) (r : rid) : Prop :=
  r ∈ dom (w_store w) /\ fullname (rec (w_store w) r) = full t.1 /\
  result (rec (w_store w) r) = test_result_of t.1 t.2.
Definition reported_tests (ts : list test) : list test :=
  filter (fun t => is_Some (test_result_of t.1 t.2)) ts.

(** The state of a run after the tests [before], when [after] remain. *)
Record run_inv (w : world) (before after : list test) : Prop := {
  inv_executed : Forall2 (records_test w) (reported_tests before) (executed (results w));
  inv_requested : forall r, r ∈ requested (results w) ->
    r ∈ dom (w_store w) /\ exists t, t ∈ after /\ fullname (rec (w_store w) r) = full t.1;
  inv_errors : class_errors (results w) = [];
  inv_retry : test_filter_retry w = None;
  inv_reason : reason_to_skip_all_tests w = None;
  inv_final : is_final_run w = true;
}.

Lemma full_inj a b : full a = full b -> a = b.
Proof. unfold full. intros H. by do 2 apply app_inv_head in H. Qed.

(** The entries that stay when a test of another name is filed. *)
Lemma keep_others h r before l :
  Forall2 (fun (t : test) x => fullname (rec h x) = full t.1) before l ->
  (forall t, t ∈ before -> full t.1 <> fullname (rec h r)) ->
  filter (fun x => same h x r = false) l = l.
Proof.
  intros Hl Hne. apply filter_all_id, Forall_forall. intros x Hx. apply same_ne.
  apply list_elem_of_lookup in Hx as [i Hi].
  destruct (Forall2_lookup_r _ _ _ _ _ Hl Hi) as (t & Ht & ->). apply Hne.
  by eapply list_elem_of_lookup_2.
Qed.

(** What a filed test does to the lists of the results. *)
Lemma filed_lists r s b w1 w' :
  test_filed cfg r s b w1 w' ->
  let keep (l : list rid) := filter (fun x => same (w_store w') x r = false) l in
  executed (results w') = keep (executed (results w1)) ++
    (match verdict_of b with Some _ => [r] | None => [] end) /\
  requested (results w') = keep (requested (results w1)) /\
  class_errors (results w') = class_errors (results w1) /\
  result (rec (w_store w') r) =
    match verdict_of b with
    | Some c => Some (if existsb (proc_fails cfg (is_final_run w1) s) (procedures_for s b)
                      then ERROR else c)
    | None => result (rec (w_store w') r)
    end.
Proof.
  intros (_ & _ & _ & _ & _ & _ & _ & Hv). destruct (verdict_of b) as [c|].
  - destruct Hv as [-> Hr]. by rewrite addRecord_lists.
  - rewrite Hv. unfold removeRecord. simpl. by rewrite !remove_from_filter, app_nil_r.
Qed.

Lemma reported_snoc before t :
  reported_tests (before ++ [t]) =
    reported_tests before ++
      match verdict_of (test_outcome re_compile cfg None t.1 t.2) with Some _ => [t] | None => [] end.
Proof.
  unfold reported_tests. rewrite filter_app, filter_cons, filter_nil. f_equal.
  unfold test_result_of. destruct (verdict_of _); [by rewrite decide_True by eauto|].
  rewrite decide_False; [done|]. by intros [? ?].
Qed.

(** The records of other tests are as before. *)
Lemma records_test_stable w w' t x r :
  (forall y, y <> r -> w_store w' !! y = w_store w !! y) -> r ∉ dom (w_store w) ->
  records_test w t x -> records_test w' t x /\ x <> r.
Proof.
  intros Hst Hr (Hd & Hn & Hres). assert (x <> r) as Hxr by congruence. split; [|done].
  assert (w_store w' !! x = w_store w !! x) as Hx by by apply Hst.
  unfold records_test, rec in *. rewrite Hx. split; [|done].
  apply elem_of_dom. rewrite Hx. by apply elem_of_dom.
Qed.

Lemma run_inv_step w before t after :
  NoDup ((before ++ t :: after).*1) -> plain_test t.1 t.2 -> run_inv w before (t :: after) ->
  exists w', exec t.1 t.2 w = (Ret tt, w') /\ run_inv w' (before ++ [t]) after.
Proof.
  intros Hnd [Hs Hp] [Hex Hreq Herr Hretry Hreason Hfinal].
  assert (excluded_by_retry re_compile t.1 w = (Ret false, w)) as Hx.
  { unfold excluded_by_retry, mbind, M_bind, get_world. by rewrite Hretry. }
  destruct (execOneTest_run re_compile clock cfg t.1 t.2 w Hs Hx) as
    (w1 & w' & E & Hf & Hr1 & Hf1 & Ht1 & Hre1 & Hst1 & Hd1 & Hn1).
  set (r := fresh (dom (w_store w))) in *. rewrite Hreason in E, Hf. unfold out_of in E.
  rewrite Hp in E. exists w'. split; [done|].
  destruct (filed_lists _ _ _ _ _ Hf) as (Le & Lr & Lc & Lv).
  destruct Hf as (_ & Hst & Hn & Hal & Hrt & Hrs & Hfi & _).
  assert (forall y, y <> r -> w_store w' !! y = w_store w !! y) as Hsame.
  { intros y Hy. by rewrite Hst, Hst1. }
  assert (r ∉ dom (w_store w)) as Hfr by apply is_fresh.
  assert (fullname (rec (w_store w') r) = full t.1) as Hname by (by rewrite Hn, Hn1).
  rewrite Hr1 in Le, Lr, Lc. rewrite Hf1, Hfinal in Lv.
  rewrite fmap_app, fmap_cons in Hnd. apply NoDup_app in Hnd as (_ & Hb & Hnd).
  apply NoDup_cons in Hnd as [Hta _].
  assert (Forall2 (records_test w') (reported_tests before) (executed (results w))) as Hex'.
  { eapply Forall2_impl; [exact Hex|]. intros t' x Htx.
    by apply (records_test_stable w w' t' x r). }
  assert (forall t', t' ∈ before -> full t'.1 <> full t.1) as Hne.
  { intros t' Ht' Heq%full_inj. apply (Hb t'.1); [by apply list_elem_of_fmap_2|].
    rewrite Heq. by left. }
  split; [|..|congruence|congruence|congruence|by apply Hfi; rewrite Hf1].
  - rewrite Le, reported_snoc. apply Forall2_app.
    + rewrite (keep_others _ _ (reported_tests before)); [done| |].
      * eapply Forall2_impl; [exact Hex'|]. by intros t' x (_ & ? & _).
      * intros t' [_ Ht']%list_elem_of_filter. rewrite Hname. by apply Hne.
    + destruct (verdict_of _) as [c|] eqn:Hc; constructor; [|constructor].
      split; [by apply Hal|]. split; [done|]. rewrite Lv. unfold test_result_of. by rewrite Hc.
  - intros y. rewrite Lr. intros [Hk Hy]%list_elem_of_filter.
    destruct (Hreq y Hy) as (Hyd & t' & Ht' & Hyn). assert (y <> r) as Hyr by congruence.
    assert (w_store w' !! y = w_store w !! y) as Hyl by by apply Hsame.
    assert (rec (w_store w') y = rec (w_store w) y) as Hyrec by (unfold rec; by rewrite Hyl).
    split; [apply elem_of_dom; rewrite Hyl; by apply elem_of_dom|]. exists t'.
    rewrite Hyrec. split; [|done]. apply elem_of_cons in Ht' as [-> |]; [|done].
    apply same_ne in Hk. congruence.
Qed.

Lemma run_inv_all w before after :
  NoDup ((before ++ after).*1) -> Forall (fun t => plain_test t.1 t.2) after ->
  run_inv w before after ->
  exists w', forM_ after (fun t => exec t.1 t.2) w = (Ret tt, w') /\ run_inv w' (before ++ after) [].
Proof.
  intros Hnd Hpl. revert w before Hnd. induction Hpl as [|t after Ht Hpl IH]; intros w before Hnd Hinv.
  { exists w. by rewrite app_nil_r. }
  destruct (run_inv_step w before t after Hnd Ht Hinv) as (w1 & E1 & Hinv1).
  destruct (IH w1 (before ++ [t])) as (w2 & E2 & Hinv2); [by rewrite <- app_assoc|done|].
  exists w2. split; [|by rewrite <- app_assoc in Hinv2].
  cbn [forM_]. unfold mbind, M_bind. by rewrite E1.
Qed.

(** *** From the request of the tests to the end of the run *)
Lemma request_step name before ts w :
  run_inv (set_final true w) before ts -> (exists t, t ∈ ts /\ t.1 = name) ->
  exists w', request name w = (Ret tt, w') /\ run_inv (set_final true w') before ts.
Proof.
  intros [Hex Hreq Herr Hretry Hreason Hfinal] (t & Ht & <-). simpl in *.
  eexists. split; [reflexivity|].
  assert (forall x, x ∈ dom (w_store w) -> x <> fresh (dom (w_store w))) as Hfr.
  { intros x Hx ->. by apply (is_fresh (dom (w_store w))). }
  split; simpl; try done.
  { eapply Forall2_impl; [exact Hex|]. intros t' x Htx.
    apply (records_test_stable (set_final true w) _ t' x (fresh (dom (w_store w)))); [|by apply is_fresh|done].
    intros y Hy. simpl. by rewrite lookup_insert_ne. }
  intros r Hr.
  apply elem_of_app in Hr as [Hr| ->%list_elem_of_singleton]; rewrite dom_insert.
  - destruct (Hreq r Hr) as (Hd & t' & Ht' & Hn). split; [set_solver|]. exists t'.
    unfold rec in *. rewrite lookup_insert_ne by (apply not_eq_sym; by apply Hfr). done.
  - split; [set_solver|]. exists t. unfold rec. by rewrite lookup_insert_eq.
Qed.

Lemma request_all names before ts w :
  run_inv (set_final true w) before ts -> (forall n, n ∈ names -> exists t, t ∈ ts /\ t.1 = n) ->
  exists w', forM_ names (request) w = (Ret tt, w') /\ run_inv (set_final true w') before ts.
Proof.
  intros Hinv Hn. revert w Hinv. induction names as [|n names IH]; intros w Hinv; [by exists w|].
  destruct (request_step n before ts w Hinv) as (w1 & E1 & H1); [apply Hn; by left|].
  destruct (IH (fun m Hm => Hn m (list_elem_of_further _ _ _ Hm)) w1 H1) as (w2 & E2 & H2).
  exists w2. split; [|done]. cbn [forM_]. unfold mbind, M_bind. by rewrite E1.
Qed.

(** The class sets up at the first try, and its tear down does not abort. *)
Record class_ok : Prop := {
  ok_self : run_as_vts_self_test cls = false;
  ok_skip : skip_reason cls 0 0 = None;
  ok_setup : exists v, user_setUpClass cls 0 0 = Ret v /\ is_False v = false;
  ok_teardown : is_ret (exec_func (user_tearDownClass cls 0)) = true;
}.

Lemma forM_map {A B} (f : A -> B) (g : B -> M unit) l w :
  forM_ (f <$> l) g w = forM_ l (fun a => g (f a)) w.
Proof.
  revert w. induction l as [|a l IH]; intros w; [done|]. csimpl. unfold mbind, M_bind.
  destruct (g (f a) w) as [[]]; [apply IH|done].
Qed.

Definition items (ts : list (pystr * (nat -> script))) : list test_item :=
  (fun t => ITest t.1 t.2) <$> ts.
Definition first_scripts (ts : list (pystr * (nat -> script))) : list test :=
  (fun t => (t.1, t.2 0)) <$> ts.

Lemma tearDownClass_run w :
  class_ok -> tearDownClass_ 0 w = (Ret tt, w).
Proof.
  intros [_ _ _ Ht]. unfold tearDownClass_, lift. by destruct (exec_func _).
Qed.

Lemma runTests_run before ts w :
  class_ok -> NoDup ((before ++ first_scripts ts).*1) -> Forall (fun t => plain_test t.1 t.2) (first_scripts ts) ->
  run_inv w before (first_scripts ts) ->
  exists w', runTests 0 (items ts) w = (Ret tt, w') /\
    run_inv w' (before ++ first_scripts ts) [].
Proof.
  intros Hok Hnd Hpl Hinv. pose proof Hok as [Hself Hskip (v & Hv & Hf) _].
  destruct (run_inv_all w before (first_scripts ts)) as (w1 & E1 & H1); [done..|].
  exists (if bool_decide (getNonPassingRecords (w_store w1) (results w1) true true false true = [])
          then set_final true w1 else w1).
  assert (setup_loop SETUP_RETRY_NUMBER 0 0 w = (Ret true, w)) as Hsetup.
  { unfold SETUP_RETRY_NUMBER, setup_loop, attempt, setUpClass_, mbind, M_bind. rewrite Hskip.
    unfold mret, M_ret, lift. by rewrite Hv, Hf. }
  assert (run_items 0 (items ts) w = (Ret tt, w1)) as Hitems.
  { unfold first_scripts in E1. rewrite forM_map in E1. unfold run_items, items, mbind, M_bind.
    rewrite forM_map.
    rewrite (E1 : forM_ ts (fun t => run_item 0 (ITest t.1 t.2)) w = (Ret tt, w1)).
    unfold get_world, isSkipAllTests. by rewrite (inv_reason _ _ _ H1). }
  split.
  - unfold runTests, class_handler, class_finally, attempt, get_world, modify, lift.
    rewrite Hself. unfold mbind, M_bind, mret, M_ret. rewrite Hsetup. cbn [negb]. rewrite Hitems.
    case_bool_decide; by rewrite tearDownClass_run.
  - case_bool_decide; [|done]. by destruct H1.
Qed.

(** Without retries the runner is one attempt. *)
Lemma runTestsWithRetry_run before ts w :
  max_retry_count cfg = 0 -> class_ok -> NoDup ((before ++ first_scripts ts).*1) ->
  Forall (fun t => plain_test t.1 t.2) (first_scripts ts) -> run_inv (set_final true w) before (first_scripts ts) ->
  exists w', runTestsWithRetry (items ts) w = (Ret tt, w') /\ run_inv w' (before ++ first_scripts ts) [].
Proof.
  intros Hmax Hok Hnd Hpl H1. unfold runTestsWithRetry. rewrite Hmax.
  destruct (runTests_run before ts (set_final true w) Hok Hnd Hpl H1) as (w' & E & H').
  exists w'. split; [|done].
  cbn [retry_loop]. rewrite Hmax. unfold attempt, get_world, modify, mbind, M_bind, mret, M_ret.
  cbn -[runTests].
  rewrite (bool_decide_false (0 <> 0)), (bool_decide_true (0 = 0)) by (done || by intros []).
  cbn -[runTests set_final]. rewrite E. cbn. by rewrite (inv_final _ _ _ H').
Qed.


(** A retry runs exactly the tests that did not pass: after the filter of
    the retry is set, a test whose name is not among the non-passing ones is left
    alone, its earlier result untouched, and one among them is not excluded. *)
Theorem retry_runs_non_passing w :
  non_passing_names w <> [] -> Forall plain_pattern (non_passing_names w) ->
  exists w', prepare_retry w = (Ret tt, w') /\ results w' = results w /\ w_store w' = w_store w /\
    forall name s,
      if decide (name ∈ non_passing_names w)
      then excluded_by_retry re_compile name w' = (Ret false, w')
      else exec name s w' = (Ret tt, w').
Proof.
  intros Hne Hpl. eexists. split; [reflexivity|]. split; [done|]. split; [done|]. intros name s.
  set (f := new_Filter _ _ _ _ _ _ _ _ _ _).
  match goal with |- context [set_retry f ?h w] => set (w' := set_retry f h w) end.
  assert (excluded_by_retry re_compile name w' =
    (Ret (negb (bool_decide (name ∈ non_passing_names w))), w')) as Hx.
  { unfold excluded_by_retry, run_filter, apply_filter, mbind, M_bind, get_world, lift. simpl.
    unfold f. by rewrite (plain_Filter_decides re_compile _ _ (non_passing_names w))
      by (done || apply lookup_insert_eq). }
  case_decide as Hin.
  - rewrite Hx. by rewrite bool_decide_true.
  - unfold execOneTest, mbind at 1, M_bind at 1. rewrite Hx. by rewrite bool_decide_false.
Qed.
End run.

(** ** A class of two tests, one of which fails *)
Definition quiet (test : xres pyval) : script :=
  mk_script true true (Ret PNone) test (Ret tt) (fun _ => Ret tt) (Ret tt) (Ret tt).
Definition sample_config : config :=
  mk_config (bs "M") (default_Filter sample_compile initial_heap) (Some (bs "64")) false false false
    false false true 0.
Definition sample_class : class_script :=
  mk_class (fun _ _ => Ret PNone) (fun _ _ => None) (fun _ => Ret tt) (fun _ => true) false.
Definition sample_tests : list (pystr * (nat -> script)) :=
  [(bs "testA", fun _ => quiet (Ret PNone));
   (bs "testB", fun _ => quiet (Exc (ESignal TestFailure (bs "no") PNone)))].
Definition sample_world : world :=
  mk_world ∅ new_result None false None None initial_heap 0.

Lemma quiet_well_behaved cfg test : well_behaved cfg (quiet test).
Proof.
  intros p e. unfold proxy. destruct p; simpl; try done;
    destruct (bug_report_on_failure cfg), (logcat_on_failure cfg); simpl; try done;
    intros [= <-]; done.
Qed.

Lemma execOneTest_files_witness :
  exists w', execOneTest sample_compile Z.of_nat sample_config (bs "testB_32bit")
      (quiet (Ret PNone)) sample_world = (Ret tt, w') /\
    result (rec (w_store w') (fresh (dom (w_store sample_world)))) = Some SKIP.
Proof.
  destruct (execOneTest_files sample_compile Z.of_nat sample_config (bs "testB_32bit")
    (quiet (Ret PNone)) sample_world (quiet_well_behaved _ _) eq_refl) as (w' & E & _ & _ & _ & _ & H).
  exists w'. split; [exact E|exact H].
Defined.

Lemma onFail_abort_loses_record_witness :
  let abort := ESignal TestAbortAll (bs "stop") PNone in
  let s := mk_script true true (Ret PNone) (Exc (ESignal TestFailure (bs "no") PNone)) (Ret tt)
             (fun p => if decide (p = onFail) then Exc abort else Ret tt) (Ret tt) (Ret tt) in
  exists w', execOneTest sample_compile Z.of_nat sample_config (bs "testB") s
      (set_final true sample_world) = (Exc abort, w') /\ results w' = new_result.
Proof.
  intros abort s.
  destruct (onFail_abort_loses_record sample_compile Z.of_nat sample_config (bs "testB") s
    (set_final true sample_world) (ESignal TestFailure (bs "no") PNone) abort
    eq_refl eq_refl eq_refl eq_refl eq_refl eq_refl eq_refl) as (w' & E & H & _).
  exists w'. split; [exact E|exact H].
Defined.


Definition sample_retry_world : world :=
  mk_world {[0 := new_record (bs "testA") (Some (bs "M"))]} (requested_result [0]) None false None
    None initial_heap 0.

Lemma retry_runs_non_passing_witness :
  exists w', prepare_retry sample_compile sample_retry_world = (Ret tt, w') /\
    execOneTest sample_compile Z.of_nat sample_config (bs "testB") (quiet (Ret PNone)) w' = (Ret tt, w').
Proof.
  destruct (retry_runs_non_passing sample_compile Z.of_nat sample_config sample_retry_world)
    as (w' & E & _ & _ & H); [discriminate|by repeat constructor|].
  exists w'. split; [exact E|]. exact (H (bs "testB") (quiet (Ret PNone))).
Defined.
