(* ===== verification/Mirror.v ===== *)
(** * Values of HAL calls ([src/utils/python/mirror/py2pb.py] and [pb2py.py])

    [py2pb] turns a Python value into a VariableSpecificationMessage, guided by
    the specification of the target, and [pb2py] turns a message back into a
    Python value.  A message is the record of the fields the two files use;
    a submessage that [add()] creates is filled before the parent is looked at
    again, so it is returned and appended.  A floating point number is its bits;
    what a field of type [float] or [double] stores of a number is the parameter
    [float_bits] (a [float] field rounds). *)

From Stdlib Require Import Strings.Byte.
From S2P Require Import Prelude PyStr.

(** ** Messages *)
Inductive VariableType :=
  | UNKNOWN_VARIABLE_TYPE | TYPE_PREDEFINED | TYPE_SCALAR | TYPE_STRING | TYPE_ENUM
  | TYPE_ARRAY | TYPE_VECTOR | TYPE_STRUCT | TYPE_UNION | TYPE_MASK
  | TYPE_OTHER (n : nat).

#[export] Instance VariableType_eq_dec : EqDecision VariableType.
Proof. solve_decision. Defined.

(** The value of a scalar field. *)
Inductive scalar := SBool (b : bool) | SInt (z : Z) | SFloat (bits : Z).

(** The fields that only the mirrors of HALs read: whether a specification is a
    constant, the names and values of an enumeration, and the identifiers of a
    resource that a call returned ([fmq_value] is the type, the scalar type, the
    predefined type and the identifier of the first value). *)
Record other_fields := mk_other {
  is_const : bool;
  enumerators : list (pystr * list (pystr * scalar));
  hidl_interface_id : Z;
  fmq_value : option (VariableType * pystr * pystr * Z);
  value_mem_id : Z;
  value_handle_id : Z;
}.
Definition no_other_fields : other_fields := mk_other false [] 0 None (-1) (-1).

Local Unset Elimination Schemes.
Inductive vsm := mk_vsm {
  name : pystr;
  type : VariableType;
  scalar_value : list (pystr * scalar);    (* the fields that are set *)
  scalar_type : pystr;
  enum_scalar_type : pystr;                (* enum_value.scalar_type *)
  string_value : pystr * Z;                (* message and length *)
  vector_value : list vsm;
  vector_size : Z;
  struct_value : list vsm;
  sub_struct : list vsm;
  union_value : list vsm;
  sub_union : list vsm;
  predefined_type : pystr;
  other : other_fields;
}.

(** Python values; [VMsg] is a message that a test built itself. *)
Inductive value :=
  | VNone
  | VBool (b : bool)
  | VInt (z : Z)
  | VFloat (bits : Z)
  | VStr (s : pystr)
  | VList (l : list value)
  | VDict (d : list (pystr * value))
  | VMsg (m : vsm).
Local Set Elimination Schemes.

Definition empty_vsm : vsm :=
  mk_vsm [] UNKNOWN_VARIABLE_TYPE [] [] [] ([], 0%Z) [] 0 [] [] [] [] [] no_other_fields.

Definition set_name (x : pystr) (m : vsm) : vsm :=
  mk_vsm x (type m) (scalar_value m) (scalar_type m) (enum_scalar_type m) (string_value m)
    (vector_value m) (vector_size m) (struct_value m) (sub_struct m) (union_value m) (sub_union m)
    (predefined_type m) (other m).
Definition set_type (x : VariableType) (m : vsm) : vsm :=
  mk_vsm (name m) x (scalar_value m) (scalar_type m) (enum_scalar_type m) (string_value m)
    (vector_value m) (vector_size m) (struct_value m) (sub_struct m) (union_value m) (sub_union m)
    (predefined_type m) (other m).
Definition set_scalar_value (x : list (pystr * scalar)) (m : vsm) : vsm :=
  mk_vsm (name m) (type m) x (scalar_type m) (enum_scalar_type m) (string_value m)
    (vector_value m) (vector_size m) (struct_value m) (sub_struct m) (union_value m) (sub_union m)
    (predefined_type m) (other m).
Definition set_scalar_type (x : pystr) (m : vsm) : vsm :=
  mk_vsm (name m) (type m) (scalar_value m) x (enum_scalar_type m) (string_value m)
    (vector_value m) (vector_size m) (struct_value m) (sub_struct m) (union_value m) (sub_union m)
    (predefined_type m) (other m).
Definition set_string_value (x : pystr * Z) (m : vsm) : vsm :=
  mk_vsm (name m) (type m) (scalar_value m) (scalar_type m) (enum_scalar_type m) x
    (vector_value m) (vector_size m) (struct_value m) (sub_struct m) (union_value m) (sub_union m)
    (predefined_type m) (other m).
Definition set_vector (x : list vsm) (n : Z) (m : vsm) : vsm :=
  mk_vsm (name m) (type m) (scalar_value m) (scalar_type m) (enum_scalar_type m) (string_value m)
    x n (struct_value m) (sub_struct m) (union_value m) (sub_union m) (predefined_type m) (other m).
Definition add_struct_value (x : vsm) (m : vsm) : vsm :=
  mk_vsm (name m) (type m) (scalar_value m) (scalar_type m) (enum_scalar_type m) (string_value m)
    (vector_value m) (vector_size m) (struct_value m ++ [x]) (sub_struct m) (union_value m)
    (sub_union m) (predefined_type m) (other m).
Definition add_union_value (x : vsm) (m : vsm) : vsm :=
  mk_vsm (name m) (type m) (scalar_value m) (scalar_type m) (enum_scalar_type m) (string_value m)
    (vector_value m) (vector_size m) (struct_value m) (sub_struct m) (union_value m ++ [x])
    (sub_union m) (predefined_type m) (other m).

(** *** Scalar fields: their protobuf types, and the checks of [setattr] *)
Inductive scalar_kind := KBool | KInt (lo hi : Z) | KFloat (double : bool).
Definition int32_kind : scalar_kind := KInt (- 2 ^ 31) (2 ^ 31 - 1).
Definition uint32_kind : scalar_kind := KInt 0 (2 ^ 32 - 1).

Definition scalar_fields : list (pystr * scalar_kind) :=
  [(bs "bool_t", KBool);
   (bs "int8_t", int32_kind); (bs "uint8_t", uint32_kind);
   (bs "char", int32_kind); (bs "uchar", uint32_kind);
   (bs "int16_t", int32_kind); (bs "uint16_t", uint32_kind);
   (bs "int32_t", int32_kind); (bs "uint32_t", uint32_kind);
   (bs "int64_t", KInt (- 2 ^ 63) (2 ^ 63 - 1)); (bs "uint64_t", KInt 0 (2 ^ 64 - 1));
   (bs "float_t", KFloat false); (bs "double_t", KFloat true);
   (bs "pointer", uint32_kind); (bs "opaque", uint32_kind); (bs "void_pointer", uint32_kind);
   (bs "char_pointer", uint32_kind); (bs "uchar_pointer", uint32_kind);
   (bs "pointer_pointer", uint32_kind)].

Fixpoint assoc {A} (k : pystr) (l : list (pystr * A)) : option A :=
  match l with
  | [] => None
  | (k', a) :: l => if decide (k = k') then Some a else assoc k l
  end.

Definition int_of (v : value) : option Z :=
  match v with VInt z => Some z | VBool b => Some (if b then 1 else 0)%Z | _ => None end.

Definition scalar_default (k : scalar_kind) : scalar :=
  match k with KBool => SBool false | KInt _ _ => SInt 0 | KFloat _ => SFloat 0 end.
Definition of_scalar (x : scalar) : value :=
  match x with SBool b => VBool b | SInt z => VInt z | SFloat bits => VFloat bits end.

(** [getattr(var.scalar_value, var.scalar_type)] *)
Definition get_scalar (m : vsm) : pyres value :=
  k ← from_opt AttributeError (assoc (scalar_type m) scalar_fields);
  Ok (of_scalar (default (scalar_default k) (assoc (scalar_type m) (scalar_value m)))).

Section py2pb.
(** The bits that a [double] ([true]) or [float] field keeps of a number. *)
Context (float_bits : bool -> scalar -> Z).

Definition check_scalar (k : scalar_kind) (v : value) : pyres scalar :=
  match k, v with
  | KFloat double, VFloat bits => Ok (SFloat (float_bits double (SFloat bits)))
  | KFloat double, v =>
      z ← from_opt TypeError (int_of v); Ok (SFloat (float_bits double (SInt z)))
  | KBool, v => z ← from_opt TypeError (int_of v); Ok (SBool (negb (z =? 0)%Z))
  | KInt lo hi, v =>
      z ← from_opt TypeError (int_of v);
      if ((lo <=? z) && (z <=? hi))%Z then Ok (SInt z) else Raise ValueError
  end.

(** [setattr(message.scalar_value, field, py_value)] *)
Definition set_scalar (field : pystr) (v : value) (m : vsm) : pyres vsm :=
  k ← from_opt AttributeError (assoc field scalar_fields);
  x ← check_scalar k v;
  Ok (set_scalar_value ((field, x) :: scalar_value m) m).

(** ** From Python values to messages *)
Definition take_name (pb_spec m : vsm) : vsm :=
  match name pb_spec with [] => m | n => set_name n m end.

Definition PyValue2PbEnum (m pb_spec : vsm) (v : value) : pyres vsm :=
  let m := set_type TYPE_ENUM (take_name pb_spec m) in
  match enum_scalar_type pb_spec with
  | [] => set_scalar (bs "int32_t") v m
  | scalar_type => set_scalar scalar_type v m
  end.

Definition PyValue2PbScalar (m pb_spec : vsm) (v : value) : pyres vsm :=
  set_scalar (scalar_type pb_spec) v
    (set_scalar_type (scalar_type pb_spec) (set_type TYPE_SCALAR (take_name pb_spec m))).

Definition PyString2PbString (m pb_spec : vsm) (v : value) : pyres vsm :=
  match v with
  | VStr s =>
      Ok (set_string_value (s, Z.of_nat (length s)) (set_type TYPE_STRING (take_name pb_spec m)))
  | _ => Raise TypeError
  end.

Definition FindSubStructType (pb_spec : vsm) (sub_struct_name : pystr) : option vsm :=
  List.find (fun s => bool_decide (name s = sub_struct_name)) (sub_struct pb_spec).
Definition FindSubUnionType (pb_spec : vsm) (sub_union_name : pystr) : option vsm :=
  List.find (fun s => bool_decide (name s = sub_union_name)) (sub_union pb_spec).

(** What [len] and iteration see of a value. *)
Definition py_items (v : value) : pyres (list value) :=
  match v with
  | VList l => Ok l
  | VStr s => Ok ((fun b => VStr [b]) <$> s)
  | VDict d => Ok (VStr <$> d.*1)
  | _ => Raise TypeError
  end.

(** [set.remove] *)
Definition set_remove (k : pystr) (s : gset pystr) : pyres (gset pystr) :=
  if decide (k ∈ s) then Ok (s ∖ {[k]}) else Raise KeyError.

(** The struct and the union converter give the message they filled, and whether
    they returned it ([true]) or [None] after an error they only logged. *)
Definition converted : Type := vsm * bool.

Section convert.
(** [Convert], the struct and the union converter, one level down. *)
Context (Convert : vsm -> value -> pyres (option vsm)).
Context (PyDict2PbStruct PyDict2PbUnion : vsm -> vsm -> value -> pyres converted).

Definition vector_items (vector_spec : vsm) : list value -> pyres (list vsm) :=
  mapM_py (fun curr_value =>
    r ← Convert vector_spec curr_value;
    from_opt TypeError r).

Definition PyList2PbVector (m pb_spec : vsm) (v : value) : pyres vsm :=
  let m := set_type TYPE_VECTOR (take_name pb_spec m) in
  items ← py_items v;
  match items with
  | [] => Ok m
  | _ =>
      vector_spec ← py_get (vector_value pb_spec) 0;
      l ← vector_items vector_spec items;
      Ok (set_vector (vector_value m ++ l) (Z.of_nat (length items)) m)
  end.

(** One attribute that the dictionary gives; [find] is where nested types are
    looked up. *)
Definition convert_attr (find : pystr -> option vsm) (attr : vsm) (curr_value : value)
    : pyres converted :=
  match type attr with
  | TYPE_ENUM => m ← PyValue2PbEnum empty_vsm attr curr_value; Ok (m, true)
  | TYPE_SCALAR => m ← PyValue2PbScalar empty_vsm attr curr_value; Ok (m, true)
  | TYPE_STRING => m ← PyString2PbString empty_vsm attr curr_value; Ok (m, true)
  | TYPE_VECTOR => m ← PyList2PbVector empty_vsm attr curr_value; Ok (m, true)
  | TYPE_STRUCT =>
      match find (predefined_type attr) with
      | Some sub_attr => r ← PyDict2PbStruct empty_vsm sub_attr curr_value; Ok (r.1, true)
      | None => Ok (empty_vsm, false)
      end
  | TYPE_UNION =>
      match find (predefined_type attr) with
      | Some sub_attr => r ← PyDict2PbUnion empty_vsm sub_attr curr_value; Ok (r.1, true)
      | None => Ok (empty_vsm, false)
      end
  | _ => Ok (empty_vsm, false)
  end.

Fixpoint struct_loop (find : pystr -> option vsm) (d : list (pystr * value)) (attrs : list vsm)
    (provided_attrs : gset pystr) (m : vsm) : pyres converted :=
  match attrs with
  | [] => Ok (m, bool_decide (provided_attrs = ∅))
  | attr :: attrs =>
      match assoc (name attr) d with
      | None => Ok (m, false)
      | Some curr_value =>
          provided_attrs ← set_remove (name attr) provided_attrs;
          r ← convert_attr find attr curr_value;
          let m := add_struct_value r.1 m in
          if r.2 : bool then struct_loop find d attrs provided_attrs m else Ok (m, false)
      end
  end.

Fixpoint union_loop (find : pystr -> option vsm) (d : list (pystr * value)) (attrs : list vsm)
    (provided_attrs : gset pystr) (m : vsm) : pyres converted :=
  match attrs with
  | [] => Ok (m, bool_decide (provided_attrs = ∅))
  | attr :: attrs =>
      match assoc (name attr) d with
      | None => union_loop find d attrs provided_attrs (add_union_value empty_vsm m)
      | Some curr_value =>
          provided_attrs ← set_remove (name attr) provided_attrs;
          r ← convert_attr find attr curr_value;
          let m := add_union_value r.1 m in
          if r.2 : bool then union_loop find d attrs provided_attrs m else Ok (m, false)
      end
  end.
End convert.

Definition dict_items (v : value) : pyres (list (pystr * value)) :=
  match v with VDict d => Ok d | _ => Raise AttributeError end.

(** [len(py_value)] *)
Definition py_len (v : value) : pyres nat := length <$> py_items v.

(** The converters take the fuel of their recursion; [RuntimeError] marks its
    end, which [Convert_terminates] rules out. *)
Fixpoint Convert_fuel (fuel : nat) (pb_spec : vsm) (v : value) : pyres (option vsm) :=
  match fuel with
  | O => Raise RuntimeError
  | S fuel =>
      let m := set_name (name pb_spec) empty_vsm in
      match v with
      | VMsg py_value => Ok (Some py_value)
      | v =>
          match type pb_spec with
          | TYPE_STRUCT => r ← Struct_fuel fuel m pb_spec v; Ok (Some r.1)
          | TYPE_UNION => r ← Union_fuel fuel m pb_spec v; Ok (Some r.1)
          | TYPE_ENUM => m ← PyValue2PbEnum m pb_spec v; Ok (Some m)
          | TYPE_SCALAR => m ← PyValue2PbScalar m pb_spec v; Ok (Some m)
          | TYPE_STRING => m ← PyString2PbString m pb_spec v; Ok (Some m)
          | TYPE_VECTOR => m ← PyList2PbVector (Convert_fuel fuel) m pb_spec v; Ok (Some m)
          | _ => Ok None
          end
      end
  end
with Struct_fuel (fuel : nat) (m pb_spec : vsm) (v : value) : pyres converted :=
  match fuel with
  | O => Raise RuntimeError
  | S fuel =>
      let m := set_type TYPE_STRUCT (take_name pb_spec m) in
      d ← dict_items v;
      struct_loop (Convert_fuel fuel) (Struct_fuel fuel) (Union_fuel fuel)
        (FindSubStructType pb_spec) d (struct_value pb_spec) (list_to_set d.*1) m
  end
with Union_fuel (fuel : nat) (m pb_spec : vsm) (v : value) : pyres converted :=
  match fuel with
  | O => Raise RuntimeError
  | S fuel =>
      n ← py_len v;
      if decide (1 < n) then Ok (m, false)
      else
        let m := set_type TYPE_UNION (take_name pb_spec m) in
        d ← dict_items v;
        union_loop (Convert_fuel fuel) (Struct_fuel fuel) (Union_fuel fuel)
          (FindSubUnionType pb_spec) d (union_value pb_spec) (list_to_set d.*1) m
  end.

(** Nesting of a specification. *)
Fixpoint vsm_depth (m : vsm) : nat :=
  S (list_max (map vsm_depth (vector_value m)) `max`
     (list_max (map vsm_depth (struct_value m)) `max` list_max (map vsm_depth (sub_struct m))) `max`
     (list_max (map vsm_depth (union_value m)) `max` list_max (map vsm_depth (sub_union m)))).

Definition Convert (pb_spec : option vsm) (v : value) : pyres (option vsm) :=
  match pb_spec with
  | None => Ok None
  | Some pb_spec => Convert_fuel (2 * vsm_depth pb_spec + 1) pb_spec v
  end.
End py2pb.

(** ** From messages to Python values *)
Module Pb2py.

Definition PbEnum2PyValue (var : vsm) : pyres value := get_scalar var.
Definition PbMask2PyValue (var : vsm) : pyres value := get_scalar var.
Definition PbScalar2PyValue (var : vsm) : pyres value := get_scalar var.
Definition PbString2PyString (var : vsm) : pyres value := Ok (VStr (string_value var).1).
Definition PbPredefined2PyValue (var : vsm) : pyres value := Ok (VStr (predefined_type var)).

(** [result[key] = v] *)
Fixpoint dict_set {A} (key : pystr) (v : A) (d : list (pystr * A)) : list (pystr * A) :=
  match d with
  | [] => [(key, v)]
  | (k, x) :: d => if decide (k = key) then (k, v) :: d else (k, x) :: dict_set key v d
  end.

Section loops.
Context (PbVector2PyList PbStruct2PyDict : vsm -> pyres value).

(** [None] is the early return after an unsupported element. *)
Fixpoint vector_loop (l : list vsm) (result : list value) : pyres value :=
  match l with
  | [] => Ok (VList result)
  | curr_value :: l =>
      match type curr_value with
      | TYPE_SCALAR => v ← PbScalar2PyValue curr_value; vector_loop l (result ++ [v])
      | TYPE_STRUCT => v ← PbStruct2PyDict curr_value; vector_loop l (result ++ [v])
      | _ => Ok VNone
      end
  end.

(** The comparison with [CompSpecMsg.TYPE_Array], a name the generated module
    does not have, is reached by every other type. *)
Fixpoint struct_attrs (l : list vsm) (result : list (pystr * value)) : pyres value :=
  match l with
  | [] => Ok (VDict result)
  | attr :: l =>
      match type attr with
      | TYPE_ENUM => v ← PbEnum2PyValue attr; struct_attrs l (dict_set (name attr) v result)
      | TYPE_SCALAR => v ← PbScalar2PyValue attr; struct_attrs l (dict_set (name attr) v result)
      | TYPE_STRING => v ← PbString2PyString attr; struct_attrs l (dict_set (name attr) v result)
      | TYPE_VECTOR => v ← PbVector2PyList attr; struct_attrs l (dict_set (name attr) v result)
      | TYPE_STRUCT => v ← PbStruct2PyDict attr; struct_attrs l (dict_set (name attr) v result)
      | _ => Raise AttributeError
      end
  end.
End loops.

Fixpoint PbStruct2PyDict (var : vsm) : pyres value :=
  struct_attrs (fun attr => vector_loop PbStruct2PyDict (vector_value attr) []) PbStruct2PyDict
    (struct_value var) [].
Definition PbVector2PyList (var : vsm) : pyres value := vector_loop PbStruct2PyDict (vector_value var) [].

Definition PbArray2PyList (var : vsm) : pyres value :=
  vector_loop PbStruct2PyDict (vector_value var) [].

Definition Convert (var : vsm) : pyres value :=
  match type var with
  | TYPE_PREDEFINED => PbPredefined2PyValue var
  | TYPE_SCALAR => PbScalar2PyValue var
  | TYPE_VECTOR => PbVector2PyList var
  | TYPE_STRUCT => PbStruct2PyDict var
  | TYPE_ENUM => PbEnum2PyValue var
  | TYPE_STRING => PbString2PyString var
  | TYPE_MASK => PbMask2PyValue var
  | _ => Ok VNone
  end.
End Pb2py.

(** ** The fuel is enough *)

(** Two computations that do not end for lack of fuel, and are the same. *)
Definition agree {A} (a b : pyres A) : Prop := a = b /\ a <> Raise RuntimeError.

Lemma agree_refl {A} (a : pyres A) : a <> Raise RuntimeError -> agree a a.
Proof. done. Qed.

Lemma agree_bind {A B} (a b : pyres A) (f g : A -> pyres B) :
  agree a b -> (forall x, agree (f x) (g x)) -> agree (a ≫= f) (b ≫= g).
Proof. intros [<- H1] H2. destruct a as [x | e]; cbn; [apply H2|split; congruence]. Qed.

Lemma agree_from_opt {A} e (o : option A) :
  e <> RuntimeError -> agree (from_opt e o) (from_opt e o).
Proof. intros H. split; [done|]. destruct o; cbn; congruence. Qed.

Lemma agree_mapM {A B} (f g : A -> pyres B) (l : list A) :
  (forall x, agree (f x) (g x)) -> agree (mapM_py f l) (mapM_py g l).
Proof.
  intros H. induction l as [|x l IH]; cbn [mapM_py]; [done|].
  apply agree_bind; [apply H|intros b]. by apply agree_bind.
Qed.

Lemma list_max_map {A} (f : A -> nat) (l : list A) x : x ∈ l -> f x <= list_max (map f l).
Proof. induction 1; cbn [map list_max fold_right]; unfold list_max in *; cbn; lia. Qed.

Lemma vsm_depth_eq m : vsm_depth m =
  S (list_max (map vsm_depth (vector_value m)) `max`
     (list_max (map vsm_depth (struct_value m)) `max` list_max (map vsm_depth (sub_struct m))) `max`
     (list_max (map vsm_depth (union_value m)) `max` list_max (map vsm_depth (sub_union m)))).
Proof. by destruct m. Qed.

Lemma vsm_depth_below s m :
  s ∈ vector_value m \/ s ∈ struct_value m \/ s ∈ sub_struct m \/ s ∈ union_value m
    \/ s ∈ sub_union m ->
  vsm_depth s < vsm_depth m.
Proof.
  rewrite (vsm_depth_eq m).
  intros [H|[H|[H|[H|H]]]]; apply (list_max_map vsm_depth) in H; lia.
Qed.

Lemma FindSubStructType_depth m n s : FindSubStructType m n = Some s -> vsm_depth s < vsm_depth m.
Proof.
  intros H%List.find_some. apply vsm_depth_below. rewrite !list_elem_of_In. tauto.
Qed.
Lemma FindSubUnionType_depth m n s : FindSubUnionType m n = Some s -> vsm_depth s < vsm_depth m.
Proof.
  intros H%List.find_some. apply vsm_depth_below. rewrite !list_elem_of_In. tauto.
Qed.

Section termination.
Context (float_bits : bool -> scalar -> Z).

Lemma set_scalar_ends field v m : set_scalar float_bits field v m <> Raise RuntimeError.
Proof.
  unfold set_scalar. intros [H|(k & _ & [H|(x & _ & H)]%pyres_bind_Raise)]%pyres_bind_Raise.
  - by destruct (assoc field scalar_fields).
  - destruct k, v; cbn in H; try done; by case_match.
  - done.
Qed.

Lemma PyValue2PbEnum_ends m s v : PyValue2PbEnum float_bits m s v <> Raise RuntimeError.
Proof. unfold PyValue2PbEnum. case_match; apply set_scalar_ends. Qed.
Lemma PyValue2PbScalar_ends m s v : PyValue2PbScalar float_bits m s v <> Raise RuntimeError.
Proof. apply set_scalar_ends. Qed.
Lemma PyString2PbString_ends m s v : PyString2PbString m s v <> Raise RuntimeError.
Proof. by destruct v. Qed.
Lemma py_items_ends v : py_items v <> Raise RuntimeError.
Proof. by destruct v. Qed.
Lemma dict_items_ends v : dict_items v <> Raise RuntimeError.
Proof. by destruct v. Qed.
Lemma py_len_ends v : py_len v <> Raise RuntimeError.
Proof. by destruct v. Qed.
Lemma set_remove_ends k s : set_remove k s <> Raise RuntimeError.
Proof. unfold set_remove. by case_decide. Qed.
Lemma py_get_ends {A} (l : list A) i : py_get l i <> Raise RuntimeError.
Proof. unfold py_get, from_opt. by repeat case_match. Qed.

Context (C C' : vsm -> value -> pyres (option vsm)) (St St' Un Un' : vsm -> vsm -> value -> pyres converted).
Context (n : nat).
Context (HC : forall s v, S (vsm_depth s) < n -> agree (C s v) (C' s v)).
Context (HS : forall m s v, vsm_depth s < n -> agree (St m s v) (St' m s v)).
Context (HU : forall m s v, vsm_depth s < n -> agree (Un m s v) (Un' m s v)).

Lemma agree_vector m s v :
  vsm_depth s < n -> agree (PyList2PbVector C m s v) (PyList2PbVector C' m s v).
Proof.
  intros Hd. apply agree_bind; [by apply agree_refl, py_items_ends|intros items].
  destruct items as [|x0 items]; [by apply agree_refl|].
  destruct (vector_value s) as [|vs l] eqn:Hv; [by apply agree_refl|].
  assert (Hg : forall f : vsm -> pyres vsm, (py_get (vs :: l) 0 ≫= f) = f vs) by done.
  rewrite !Hg.
  apply agree_bind; [|intros l'; by apply agree_refl]. apply agree_mapM. intros x.
  apply agree_bind; [|intros r; by apply agree_from_opt].
  apply HC. assert (vsm_depth vs < vsm_depth s); [|lia].
  apply vsm_depth_below. left. rewrite Hv. left.
Qed.

Lemma agree_convert_attr find attr v :
  vsm_depth attr < n -> (forall s, find (predefined_type attr) = Some s -> vsm_depth s < n) ->
  agree (convert_attr float_bits C St Un find attr v) (convert_attr float_bits C' St' Un' find attr v).
Proof.
  intros Ha Hf. unfold convert_attr. destruct (type attr); try done;
    try (destruct (find _) eqn:?; [|done]); (apply agree_bind; [|intros r; by apply agree_refl]);
    eauto using agree_refl, PyValue2PbEnum_ends, PyValue2PbScalar_ends, PyString2PbString_ends,
      agree_vector.
Qed.

Section loops.
Context (find : pystr -> option vsm) (Hf : forall x s, find x = Some s -> vsm_depth s < n).
Context (d : list (pystr * value)).

Lemma agree_struct_loop attrs provided m :
  (forall a, a ∈ attrs -> vsm_depth a < n) ->
  agree (struct_loop float_bits C St Un find d attrs provided m)
        (struct_loop float_bits C' St' Un' find d attrs provided m).
Proof.
  revert provided m. induction attrs as [|a attrs IH]; intros provided m Ha; [done|].
  cbn [struct_loop]. destruct (assoc _ _); [|done].
  apply agree_bind; [by apply agree_refl, set_remove_ends|intros p'].
  apply agree_bind; [apply agree_convert_attr; [apply Ha; left|eauto]|intros r].
  destruct r.2; [|done]. apply IH. intros a' H. apply Ha. by right.
Qed.

Lemma agree_union_loop attrs provided m :
  (forall a, a ∈ attrs -> vsm_depth a < n) ->
  agree (union_loop float_bits C St Un find d attrs provided m)
        (union_loop float_bits C' St' Un' find d attrs provided m).
Proof.
  revert provided m. induction attrs as [|a attrs IH]; intros provided m Ha; [done|].
  assert (Ha' : forall a, a ∈ attrs -> vsm_depth a < n) by (intros ? ?; apply Ha; by right).
  cbn [union_loop]. destruct (assoc _ _); [|auto].
  apply agree_bind; [by apply agree_refl, set_remove_ends|intros p'].
  apply agree_bind; [apply agree_convert_attr; [apply Ha; left|eauto]|intros r].
  destruct r.2; [|done]. auto.
Qed.
End loops.
End termination.

(** At fuel [f], or more, the three converters do not depend on the fuel. *)
Lemma converters_agree float_bits f :
  (forall f' s v, 2 * vsm_depth s + 1 <= f -> f <= f' ->
     agree (Convert_fuel float_bits f s v) (Convert_fuel float_bits f' s v)) /\
  (forall f' m s v, 2 * vsm_depth s <= f -> f <= f' ->
     agree (Struct_fuel float_bits f m s v) (Struct_fuel float_bits f' m s v)) /\
  (forall f' m s v, 2 * vsm_depth s <= f -> f <= f' ->
     agree (Union_fuel float_bits f m s v) (Union_fuel float_bits f' m s v)).
Proof.
  induction f as [|f (IHC & IHS & IHU)]; (split; [|split]).
  1-3: intros; exfalso; destruct s; cbn in *; lia.
  all: intros [|f']; intros; [exfalso; lia|].
  - cbn [Convert_fuel]. destruct v; try done; destruct (type s); try (by apply agree_refl);
      (apply agree_bind; [|intros r; by apply agree_refl]);
      eauto using agree_refl, PyValue2PbEnum_ends, PyValue2PbScalar_ends, PyString2PbString_ends;
      try (intros; try apply IHS; try apply IHU; done || lia);
      apply (agree_vector _ _ (S (vsm_depth s))); try lia; intros; apply IHC; lia.
  - cbn [Struct_fuel]. apply agree_bind; [by apply agree_refl, dict_items_ends|intros d].
    apply (agree_struct_loop _ _ _ _ _ _ _ (vsm_depth s)).
    all: try (intros; try apply IHC; try apply IHS; try apply IHU; lia).
    + apply FindSubStructType_depth.
    + intros a Ha. apply vsm_depth_below. tauto.
  - cbn [Union_fuel]. apply agree_bind; [by apply agree_refl, py_len_ends|intros len].
    case_decide; [done|].
    apply agree_bind; [by apply agree_refl, dict_items_ends|intros d].
    apply (agree_union_loop _ _ _ _ _ _ _ (vsm_depth s)).
    all: try (intros; try apply IHC; try apply IHS; try apply IHU; lia).
    + apply FindSubUnionType_depth.
    + intros a Ha. apply vsm_depth_below. tauto.
Qed.

(** The conversion of a value always ends: the recursion is bounded by the
    nesting of the specification, so no more fuel gives another result, and the
    errors it raises are those of the value or of the specification. *)
Theorem Convert_terminates float_bits spec v :
  (forall fuel, 2 * vsm_depth spec + 1 <= fuel ->
     Convert_fuel float_bits fuel spec v = Convert float_bits (Some spec) v)
  /\ Convert float_bits (Some spec) v <> Raise RuntimeError.
Proof.
  destruct (converters_agree float_bits (2 * vsm_depth spec + 1)) as [H _]. split.
  - intros fuel Hf. symmetry. by apply H.
  - by apply (H (2 * vsm_depth spec + 1)).
Qed.

(** ** Values that a call brings back unchanged *)
Section fits.
Context (float_bits : bool -> scalar -> Z).

(** The values that a scalar field keeps as they are. *)
Definition scalar_fits (k : scalar_kind) (v : value) : bool :=
  match k, v with
  | KBool, VBool _ => true
  | KInt lo hi, VInt z => (lo <=? z) && (z <=? hi)
  | KFloat double, VFloat bits => float_bits double (SFloat bits) =? bits
  | _, _ => false
  end%Z.

(** The attribute [attr] of [spec] and the item of the dictionary for it.  A
    nested structure must have the name of its type: see
    [Convert_renames_nested]. *)
Definition attr_fits (fits : vsm -> value -> bool) (spec attr : vsm) (item : pystr * value) : bool :=
  bool_decide (item.1 = name attr) &&
  match type attr with
  | TYPE_STRUCT =>
      bool_decide (predefined_type attr = name attr) &&
      match FindSubStructType spec (predefined_type attr) with
      | Some sub => bool_decide (type sub = TYPE_STRUCT) && fits sub item.2
      | None => false
      end
  | _ => fits attr item.2
  end.

Fixpoint forallb2 {A B} (f : A -> B -> bool) (l : list A) (k : list B) : bool :=
  match l, k with
  | [], [] => true
  | a :: l, b :: k => f a b && forallb2 f l k
  | _, _ => false
  end.

(** [v] is a value of the type [spec]: scalars in range, strings, vectors of
    scalars or structures, structures of these, a dictionary having its items in
    the order of the specification. *)
Fixpoint fits_fuel (fuel : nat) (spec : vsm) (v : value) : bool :=
  match fuel with
  | O => false
  | S fuel =>
      match type spec, v with
      | TYPE_SCALAR, v =>
          match assoc (scalar_type spec) scalar_fields with
          | Some k => scalar_fits k v
          | None => false
          end
      | TYPE_STRING, VStr _ => true
      | TYPE_VECTOR, VList [] => true
      | TYPE_VECTOR, VList l =>
          match vector_value spec with
          | vector_spec :: _ =>
              bool_decide (type vector_spec = TYPE_SCALAR \/ type vector_spec = TYPE_STRUCT)
              && forallb (fits_fuel fuel vector_spec) l
          | [] => false
          end
      | TYPE_STRUCT, VDict d =>
          bool_decide (NoDup (name <$> struct_value spec))
          && forallb2 (attr_fits (fits_fuel fuel) spec) (struct_value spec) d
      | _, _ => false
      end
  end.
Definition fits (spec : vsm) (v : value) : bool := fits_fuel (vsm_depth spec) spec v.

(** What a message [m] for the specification [spec] holds when [v] comes back. *)
Definition carries (spec : vsm) (v : value) (m : vsm) : Prop :=
  type m = type spec /\ name m = name spec /\ Pb2py.Convert m = Ok v.
End fits.

Definition returned_type (t : VariableType) : Prop :=
  t = TYPE_SCALAR \/ t = TYPE_STRING \/ t = TYPE_VECTOR \/ t = TYPE_STRUCT.

Lemma dict_set_fresh {A} k (v : A) d : k ∉ d.*1 -> Pb2py.dict_set k v d = d ++ [(k, v)].
Proof.
  induction d as [|[k' x] d IH]; cbn; [done|]. intros [H1 H2]%not_elem_of_cons.
  rewrite decide_False by done. by rewrite IH.
Qed.

Lemma vector_loop_carries ms l acc :
  Forall2 (fun v m => Pb2py.Convert m = Ok v /\ (type m = TYPE_SCALAR \/ type m = TYPE_STRUCT)) l ms ->
  Pb2py.vector_loop Pb2py.PbStruct2PyDict ms acc = Ok (VList (acc ++ l)).
Proof.
  intros H. revert acc. induction H as [|v m l ms [Hv Ht] _ IH]; intros acc.
  - by rewrite app_nil_r.
  - cbn [Pb2py.vector_loop]. unfold Pb2py.Convert in Hv.
    rewrite (app_assoc _ [v] l : acc ++ v :: l = _), <- IH.
    destruct Ht as [Ht|Ht]; rewrite Ht in *; by rewrite Hv.
Qed.

Lemma struct_attrs_carries ms items acc :
  Forall2 (fun item m => name m = item.1 /\ Pb2py.Convert m = Ok item.2 /\ returned_type (type m))
    items ms ->
  NoDup (acc.*1 ++ items.*1) ->
  Pb2py.struct_attrs Pb2py.PbVector2PyList Pb2py.PbStruct2PyDict ms acc = Ok (VDict (acc ++ items)).
Proof.
  intros H. revert acc.
  induction H as [|[k v] m items ms (Hn & Hv & Ht) _ IH]; intros acc Hd; cbn in *.
  - by rewrite app_nil_r.
  - rewrite (app_assoc _ [(k, v)] items : acc ++ (k, v) :: items = _), <- IH.
    2: { by rewrite fmap_app, <- app_assoc. }
    rewrite <- (dict_set_fresh k v), <- Hn by (apply NoDup_app in Hd; set_solver).
    unfold Pb2py.Convert in Hv.
    destruct Ht as [Ht|[Ht|[Ht|Ht]]]; rewrite Ht in *; try by rewrite Hv.
    by injection Hv as <-.
Qed.

Lemma assoc_NoDup {A} k (v : A) d : NoDup d.*1 -> (k, v) ∈ d -> assoc k d = Some v.
Proof.
  induction d as [|[k' x] d IH]; cbn; [by intros _ H%elem_of_nil|]. intros [Hn Hd]%NoDup_cons H.
  apply elem_of_cons in H as [[= -> ->]|H]; [by rewrite decide_True|].
  rewrite decide_False; [auto|]. intros ->. apply Hn. by apply (list_elem_of_fmap_2 fst) in H.
Qed.

Section roundtrip.
Context (float_bits : bool -> scalar -> Z).

(** The name of a message that a converter is handed. *)
Definition unnamed (spec m : vsm) : Prop := name m = [] \/ name m = name spec.

Lemma take_name_name spec m : unnamed spec m -> name (take_name spec m) = name spec.
Proof. unfold take_name, unnamed. intros H. destruct (name spec); [tauto|done]. Qed.

Lemma take_name_struct spec m : struct_value (take_name spec m) = struct_value m.
Proof. unfold take_name. by case_match. Qed.
Lemma take_name_vector spec m : vector_value (take_name spec m) = vector_value m.
Proof. unfold take_name. by case_match. Qed.

Lemma scalar_carries spec m v k :
  unnamed spec m -> type spec = TYPE_SCALAR ->
  assoc (scalar_type spec) scalar_fields = Some k -> scalar_fits float_bits k v = true ->
  exists m', PyValue2PbScalar float_bits m spec v = Ok m' /\ carries spec v m'.
Proof.
  intros Hm Ht Hk Hv. unfold PyValue2PbScalar, set_scalar. rewrite Hk.
  assert (exists x, check_scalar float_bits k v = Ok x /\ of_scalar x = v) as (x & Hx & <-).
  { destruct k, v; try done; cbn in *.
    - eexists. split; [done|]. by destruct b.
    - rewrite Hv. by eexists.
    - apply Z.eqb_eq in Hv. eexists. split; [done|]. cbn. by rewrite Hv. }
  cbn. rewrite Hx. cbn. eexists. split; [done|]. split; [done|]. split; [by apply take_name_name|].
  cbn -[assoc scalar_fields]. unfold Pb2py.PbScalar2PyValue, get_scalar.
  cbn -[assoc scalar_fields]. rewrite Hk. cbn. by rewrite decide_True.
Qed.

Lemma string_carries spec m s :
  unnamed spec m -> type spec = TYPE_STRING ->
  exists m', PyString2PbString m spec (VStr s) = Ok m' /\ carries spec (VStr s) m'.
Proof.
  intros Hm Ht. eexists. split; [done|]. split; [done|]. split; [by apply take_name_name|done].
Qed.

Lemma vector_carries Convert spec m l :
  unnamed spec m -> type spec = TYPE_VECTOR -> vector_value m = [] ->
  (l = [] \/ exists vs rest, vector_value spec = vs :: rest /\
     (type vs = TYPE_SCALAR \/ type vs = TYPE_STRUCT) /\
     Forall (fun v => exists m', Convert vs v = Ok (Some m') /\ carries vs v m') l) ->
  exists m', PyList2PbVector Convert m spec (VList l) = Ok m' /\ carries spec (VList l) m'.
Proof.
  intros Hm Ht Hv Hl. unfold PyList2PbVector. cbn -[py_get vector_items].
  assert (l = [] \/ l <> []) as [->|Hne] by (destruct l; auto).
  { eexists. split; [done|]. split; [done|]. split; [by apply take_name_name|].
    cbn. by rewrite take_name_vector, Hv. }
  destruct Hl as [->|(vs & rest & Hs & Hts & Hl)]; [done|].
  assert (exists ms, vector_items Convert vs l = Ok ms /\ Forall2 (carries vs) l ms) as (ms & Hms & HF).
  { clear -Hl. induction Hl as [|v l (m' & Hm' & Hc) _ (ms & Hms & HF)]; [by exists []|].
    exists (m' :: ms). split; [|by constructor]. unfold vector_items in *. cbn [mapM_py].
    rewrite Hm'. cbn. by rewrite Hms. }
  destruct l as [|v l]; [done|]. rewrite Hs.
  assert (Hg : forall f : vsm -> pyres vsm, (py_get (vs :: rest) 0 ≫= f) = f vs) by done.
  rewrite Hg, Hms. cbn. eexists. split; [done|]. split; [done|]. split; [by apply take_name_name|].
  unfold Pb2py.Convert. cbn [type set_vector]. cbn. rewrite take_name_vector, Hv.
  apply (vector_loop_carries ms (v :: l) []). eapply Forall2_impl; [exact HF|]. intros x y (H1 & H2 & H3).
  split; [done|]. by rewrite H1.
Qed.

(** The structure loop, when every attribute is given and is converted. *)
Lemma struct_loop_carries Convert St Un find d attrs items m :
  NoDup d.*1 -> items ⊆ d -> NoDup items.*1 ->
  Forall2 (fun attr item => item.1 = name attr /\ exists m',
    convert_attr float_bits Convert St Un find attr item.2 = Ok (m', true) /\
    name m' = item.1 /\ Pb2py.Convert m' = Ok item.2 /\ returned_type (type m')) attrs items ->
  exists m' ms, struct_loop float_bits Convert St Un find d attrs (list_to_set items.*1) m = Ok (m', true) /\
    struct_value m' = struct_value m ++ ms /\ type m' = type m /\ name m' = name m /\
    Forall2 (fun item m => name m = item.1 /\ Pb2py.Convert m = Ok item.2 /\ returned_type (type m))
      items ms.
Proof.
  intros Hd. revert items m. induction attrs as [|attr attrs IH]; intros items m Hsub Hnd HF.
  - inv HF. exists m, []. cbn. rewrite bool_decide_true by done. by rewrite app_nil_r.
  - apply Forall2_cons_inv_l in HF as ([k v] & rest & (Hk & m1 & Hm1 & Hc) & HF & ->). cbn in *. subst k.
    apply NoDup_cons in Hnd as [Hfresh Hnd].
    rewrite (assoc_NoDup _ v) by (done || apply Hsub; left).
    unfold set_remove. rewrite decide_True by set_solver. cbn.
    rewrite Hm1. cbn.
    replace (({[name attr]} ∪ list_to_set rest.*1) ∖ {[name attr]})
      with (list_to_set rest.*1 : gset pystr) by set_solver.
    destruct (IH rest (add_struct_value m1 m)) as (m' & ms & -> & Hv & Ht & Hn & HF'); [set_solver|done..|].
    exists m', (m1 :: ms). split; [done|]. split; [|split; [|split]].
    + rewrite Hv. cbn. by rewrite <- app_assoc.
    + by rewrite Ht.
    + by rewrite Hn.
    + by constructor.
Qed.

Lemma forallb2_Forall2 {A B} (f : A -> B -> bool) l k :
  forallb2 f l k = true -> Forall2 (fun a b => f a b = true) l k.
Proof.
  revert k. induction l as [|a l IH]; intros [|b k]; cbn; try done. intros [H1 H2]%andb_true_iff.
  constructor; auto.
Qed.

(** The structure converter on a value that fits. *)
Definition struct_ok n spec v : Prop :=
  forall f m, 2 * n <= f -> unnamed spec m -> struct_value m = [] -> type spec = TYPE_STRUCT ->
  fits_fuel float_bits n spec v = true ->
  exists m', Struct_fuel float_bits f m spec v = Ok (m', true) /\ carries spec v m'.
Definition convert_ok n spec v : Prop :=
  forall f, 2 * n + 1 <= f -> fits_fuel float_bits n spec v = true ->
  exists m', Convert_fuel float_bits f spec v = Ok (Some m') /\ carries spec v m'.

Lemma fits_vector n spec l :
  type spec = TYPE_VECTOR -> fits_fuel float_bits (S n) spec (VList l) = true ->
  l = [] \/ exists vs rest, vector_value spec = vs :: rest /\
    (type vs = TYPE_SCALAR \/ type vs = TYPE_STRUCT) /\
    Forall (fun v => fits_fuel float_bits n vs v = true) l.
Proof.
  intros Ht. cbn [fits_fuel]. rewrite Ht. destruct l as [|v l]; [by left|]. intros H. right.
  destruct (vector_value spec) as [|vs rest]; [done|].
  apply andb_true_iff in H as [H1%bool_decide_eq_true H2]. exists vs, rest. split; [done|].
  split; [done|]. apply Forall_forall.
  intros x Hx%list_elem_of_In. revert x Hx. by apply forallb_forall.
Qed.

Lemma scalar_fits_fuel n spec v :
  type spec = TYPE_SCALAR -> fits_fuel float_bits n spec v = true ->
  exists k, assoc (scalar_type spec) scalar_fields = Some k /\ scalar_fits float_bits k v = true.
Proof.
  intros Ht. destruct n; cbn -[assoc scalar_fields]; [done|]. rewrite Ht.
  destruct (assoc _ _) eqn:E; [|done]. eauto.
Qed.

(** An attribute that is no structure. *)
Lemma plain_attr_carries n f St Un find attr v :
  (forall n' spec v, n' < n -> convert_ok n' spec v) -> 2 * n <= S f ->
  type attr <> TYPE_STRUCT -> fits_fuel float_bits n attr v = true ->
  exists m', convert_attr float_bits (Convert_fuel float_bits f) St Un find attr v = Ok (m', true) /\
    carries attr v m' /\ returned_type (type m').
Proof.
  intros IH Hf Hs Hv. assert (Hu : unnamed attr empty_vsm) by by left.
  destruct n as [|n]; [done|]. unfold convert_attr.
  destruct (type attr) eqn:Ht; try done; try (cbn [fits_fuel] in Hv; by rewrite Ht in Hv).
  - destruct (scalar_fits_fuel (S n) attr v) as (k & Hk & Hkv); [done..|].
    destruct (scalar_carries attr empty_vsm v k) as (m' & -> & Hc); [done..|].
    exists m'. split; [done|]. split; [done|]. left. destruct Hc as [-> _]. done.
  - cbn [fits_fuel] in Hv. rewrite Ht in Hv. destruct v; try done.
    destruct (string_carries attr empty_vsm s) as (m' & -> & Hc); [done..|].
    exists m'. split; [done|]. split; [done|]. right; left. destruct Hc as [-> _]. done.
  - assert (exists l, v = VList l) as [l ->].
    { cbn [fits_fuel] in Hv. rewrite Ht in Hv. destruct v; try done. eauto. }
    destruct (vector_carries (Convert_fuel float_bits f) attr empty_vsm l) as (m' & -> & Hc); [done..| |].
    + apply fits_vector in Hv as [->|(vs & rest & H1 & H2 & H3)]; [by left| |done]. right.
      exists vs, rest. split; [done|]. split; [done|]. eapply Forall_impl; [exact H3|].
      intros x Hx. apply (IH n); [lia|lia|done].
    + exists m'. split; [done|]. split; [done|]. right; right; left. destruct Hc as [-> _]. done.
Qed.

Lemma convert_attr_carries n f Convert Un spec attr item :
  (forall v, type attr <> TYPE_STRUCT -> fits_fuel float_bits n attr v = true ->
     exists m', convert_attr float_bits Convert (Struct_fuel float_bits f) Un
       (FindSubStructType spec) attr v = Ok (m', true) /\ carries attr v m' /\ returned_type (type m')) ->
  (forall spec v, struct_ok n spec v) -> 2 * n <= f ->
  attr_fits (fits_fuel float_bits n) spec attr item = true ->
  item.1 = name attr /\ exists m',
    convert_attr float_bits Convert (Struct_fuel float_bits f) Un (FindSubStructType spec) attr item.2
      = Ok (m', true) /\
    name m' = item.1 /\ Pb2py.Convert m' = Ok item.2 /\ returned_type (type m').
Proof.
  intros Hplain IH Hf [Hk%bool_decide_eq_true H]%andb_true_iff. split; [done|].
  assert (type attr = TYPE_STRUCT \/ type attr <> TYPE_STRUCT) as [Ht|Ht]
    by (destruct (decide (type attr = TYPE_STRUCT)); auto).
  - rewrite Ht in H. apply andb_true_iff in H as [Hp%bool_decide_eq_true H].
    destruct (FindSubStructType spec (predefined_type attr)) as [sub|] eqn:Hsub; [|done].
    apply andb_true_iff in H as [Hts%bool_decide_eq_true H].
    destruct (IH sub item.2 f empty_vsm) as (m' & Hm' & H1 & H2 & H3); [done|by left|done..|].
    exists m'. unfold convert_attr. rewrite Ht, Hsub, Hm'. cbn. split; [done|].
    split; [|split; [done|]].
    + rewrite H2, Hk, <- Hp. apply List.find_some in Hsub as [_ Hsub].
      by apply bool_decide_eq_true in Hsub.
    + right; right; right. by rewrite H1.
  - destruct (Hplain item.2) as (m' & H1 & (H2 & H3 & H4) & H5); [done| |].
    + destruct (type attr); done.
    + exists m'. split; [done|]. split; [by rewrite H3|done].
Qed.

(** One level of nesting, given the levels below. *)
Section step.
Context (n : nat).
Context (IHS : forall n', n' < S n -> forall spec v, struct_ok n' spec v).
Context (IHC : forall n', n' < S n -> forall spec v, convert_ok n' spec v).

Lemma struct_ok_step spec v : struct_ok (S n) spec v.
Proof using IHS IHC.
  intros [|f] m Hf Hu Hsv Ht Hv; [lia|]. cbn [fits_fuel] in Hv. rewrite Ht in Hv.
  destruct v as [| | | | | |d|]; try done.
  apply andb_true_iff in Hv as [Hnd%bool_decide_eq_true Hv%forallb2_Forall2].
  assert (HF : Forall2 (fun attr item => item.1 = name attr /\ exists m',
    convert_attr float_bits (Convert_fuel float_bits f) (Struct_fuel float_bits f)
      (Union_fuel float_bits f) (FindSubStructType spec) attr item.2 = Ok (m', true) /\
    name m' = item.1 /\ Pb2py.Convert m' = Ok item.2 /\ returned_type (type m')) (struct_value spec) d).
  { eapply Forall2_impl; [exact Hv|]. intros attr item Ha.
    apply (convert_attr_carries n f); [|apply IHS; lia|lia|done].
    intros v Hts Hav. apply (plain_attr_carries n f); [|lia|done|done].
    intros n' ? ? ?. apply IHC. lia. }
  assert (Hd : d.*1 = name <$> struct_value spec).
  { clear -HF. induction HF as [|attr item ? ? [H _] _ IH]; cbn; [done|]. by rewrite H, IH. }
  rewrite <- Hd in Hnd. cbn [Struct_fuel dict_items mbind pyres_bind].
  destruct (struct_loop_carries _ _ _ _ d _ d (set_type TYPE_STRUCT (take_name spec m)) Hnd
    (reflexivity d) Hnd HF) as (m' & ms & -> & H1 & H2 & H3 & H4).
  exists m'. split; [done|]. split; [by rewrite H2, Ht|]. split; [rewrite H3; by apply take_name_name|].
  unfold Pb2py.Convert. rewrite H2. cbn. destruct m'. cbn in *. subst.
  rewrite take_name_struct, Hsv. by apply (struct_attrs_carries ms d []).
Qed.

Lemma fits_vector_converts f spec m l :
  2 * n + 1 <= f -> unnamed spec m -> type spec = TYPE_VECTOR -> vector_value m = [] ->
  fits_fuel float_bits (S n) spec (VList l) = true ->
  exists m', PyList2PbVector (Convert_fuel float_bits f) m spec (VList l) = Ok m' /\
    carries spec (VList l) m'.
Proof using IHC.
  intros Hf Hu Ht Hm Hv. apply vector_carries; [done..|].
  apply fits_vector in Hv as [->|(vs & rest & H1 & H2 & H3)]; [by left| |done]. right.
  exists vs, rest. split; [done|]. split; [done|]. eapply Forall_impl; [exact H3|].
  intros x Hx. apply (IHC n); [lia|lia|done].
Qed.

Lemma convert_ok_step spec v : convert_ok (S n) spec v.
Proof using IHS IHC.
  intros [|f] Hf Hv; [lia|]. cbn [Convert_fuel].
  assert (Hu : unnamed spec (set_name (name spec) empty_vsm)) by by right.
  destruct (type spec) eqn:Ht; try (cbn [fits_fuel] in Hv; by rewrite Ht in Hv).
  - destruct (scalar_fits_fuel (S n) spec v) as (k & Hk & Hkv); [done..|].
    destruct (scalar_carries spec _ v k Hu Ht Hk Hkv) as (m' & Hm' & Hc).
    exists m'. rewrite Hm'. destruct v; try done. by destruct k.
  - cbn [fits_fuel] in Hv. rewrite Ht in Hv. destruct v; try done.
    destruct (string_carries spec _ s Hu Ht) as (m' & -> & Hc). by exists m'.
  - assert (exists l, v = VList l) as [l ->].
    { cbn [fits_fuel] in Hv. rewrite Ht in Hv. destruct v; try done. eauto. }
    destruct (fits_vector_converts f spec _ l ltac:(lia) Hu Ht eq_refl Hv) as (m' & -> & Hc).
    by exists m'.
  - assert (exists d, v = VDict d) as [d ->].
    { cbn [fits_fuel] in Hv. rewrite Ht in Hv. destruct v; try done. eauto. }
    destruct (struct_ok_step spec (VDict d) f _ ltac:(lia) Hu eq_refl Ht Hv) as (m' & -> & Hc).
    by exists m'.
Qed.
End step.

Lemma fits_converts n : (forall spec v, struct_ok n spec v) /\ (forall spec v, convert_ok n spec v).
Proof.
  induction n as [[|n] IH] using lt_wf_ind; [by split|].
  assert (IHS : forall n', n' < S n -> forall spec v, struct_ok n' spec v) by (intros; by apply IH).
  assert (IHC : forall n', n' < S n -> forall spec v, convert_ok n' spec v) by (intros; by apply IH).
  split; intros; [by apply struct_ok_step|by apply convert_ok_step].
Qed.
End roundtrip.

(** C28: a value of the specified type comes back unchanged: the message that
    [py2pb.Convert] builds for a scalar in range, a string, a vector of scalars
    or structures or a structure of these carries the name and the type of the
    specification, and [pb2py.Convert] gives the value again. *)
Theorem Convert_roundtrip float_bits spec v :
  fits float_bits spec v = true ->
  exists m, Convert float_bits (Some spec) v = Ok (Some m) /\ carries spec v m.
Proof. intros H. by apply (fits_converts float_bits (vsm_depth spec)). Qed.

(** A structure with a number, a string, a vector and a nested structure. *)
Module Sample.
Definition scalar_spec (n ty : pystr) : vsm :=
  set_scalar_type ty (set_type TYPE_SCALAR (set_name n empty_vsm)).
Definition string_spec (n : pystr) : vsm := set_type TYPE_STRING (set_name n empty_vsm).
Definition vector_spec (n : pystr) (elt : vsm) : vsm :=
  set_vector [elt] 0 (set_type TYPE_VECTOR (set_name n empty_vsm)).
Definition struct_spec (n predefined : pystr) (attrs subs : list vsm) : vsm :=
  mk_vsm n TYPE_STRUCT [] [] [] ([], 0%Z) [] 0 attrs subs [] [] predefined no_other_fields.

Definition inner : vsm := struct_spec (bs "Inner") [] [scalar_spec (bs "ok") (bs "bool_t")] [].
Definition spec (field : pystr) : vsm :=
  struct_spec (bs "Config") []
    [scalar_spec (bs "id") (bs "int32_t"); string_spec (bs "tag");
     vector_spec (bs "levels") (scalar_spec [] (bs "float_t"));
     struct_spec field (bs "Inner") [] []] [inner].
Definition config (field : pystr) : value :=
  VDict [(bs "id", VInt (-7)); (bs "tag", VStr (bs "hal"));
         (bs "levels", VList [VFloat 0; VFloat 1065353216]);
         (field, VDict [(bs "ok", VBool true)])].
(** Numbers that a [float] field represents. *)
Definition float_bits (double : bool) (x : scalar) : Z :=
  match x with SFloat bits => bits | SInt z => z | SBool b => Z.b2z b end.
End Sample.

Lemma Convert_roundtrip_witness :
  exists m, Convert Sample.float_bits (Some (Sample.spec (bs "Inner"))) (Sample.config (bs "Inner"))
      = Ok (Some m)
    /\ carries (Sample.spec (bs "Inner")) (Sample.config (bs "Inner")) m.
Proof. apply (Convert_roundtrip Sample.float_bits). vm_compute. reflexivity. Defined.

(** A nested structure that is not named after its type comes back under the
    name of the type: [PyDict2PbStruct] names the message of the attribute after
    the specification of the type. *)
Example Convert_renames_nested :
  (m ← Convert Sample.float_bits (Some (Sample.spec (bs "nested"))) (Sample.config (bs "nested"));
   from_opt TypeError m) ≫= Pb2py.Convert
  = Ok (Sample.config (bs "Inner")).
Proof. vm_compute. reflexivity. Qed.

(** An attribute of type array ends the conversion of a structure. *)
Example PbStruct2PyDict_array :
  Pb2py.Convert (Sample.struct_spec [] [] [set_type TYPE_ARRAY empty_vsm] []) = Raise AttributeError.
Proof. reflexivity. Qed.

(** ** Errors *)
Definition supported (t : VariableType) : bool :=
  match t with
  | TYPE_STRUCT | TYPE_UNION | TYPE_ENUM | TYPE_SCALAR | TYPE_STRING | TYPE_VECTOR => true
  | _ => false
  end.
Definition is_message (v : value) : bool := match v with VMsg _ => true | _ => false end.

Lemma PyValue2PbEnum_result float_bits m spec v m' :
  PyValue2PbEnum float_bits m spec v = Ok m' ->
  type m' = TYPE_ENUM /\ scalar_type m' = scalar_type m.
Proof.
  assert (forall f m1, set_scalar float_bits f v m1 = Ok m' ->
    type m' = type m1 /\ scalar_type m' = scalar_type m1) as H.
  { intros f m1 (k & _ & (x & _ & [= <-])%pyres_bind_Ok)%pyres_bind_Ok. done. }
  unfold PyValue2PbEnum, take_name. intros Hm.
  destruct (enum_scalar_type spec); apply H in Hm as [-> ->]; by case_match.
Qed.

(** [py2pb.Convert] returns [None] exactly for a type that it does not know:
    an error that the structure or the union converter reported by returning
    [None] (an attribute that is missing, unknown or of an unsupported type) is
    dropped, and the message filled so far is returned.  And the message of an
    enum, whose scalar type is never set, makes [pb2py.Convert] raise
    [AttributeError]. *)
Theorem Convert_errors float_bits spec v :
  (Convert float_bits (Some spec) v = Ok None <-> supported (type spec) = false /\ is_message v = false)
  /\ (type spec = TYPE_ENUM -> is_message v = false ->
      forall m, Convert float_bits (Some spec) v = Ok (Some m) -> Pb2py.Convert m = Raise AttributeError).
Proof.
  unfold Convert. replace (2 * vsm_depth spec + 1) with (S (2 * vsm_depth spec)) by lia.
  set (f := 2 * vsm_depth spec). cbn [Convert_fuel]. split.
  - destruct (type spec); destruct v; (split; [|intros [? ?]; try done]); try (by intros _);
      try (intros (r & _ & H)%pyres_bind_Ok; done); done.
  - intros -> Hv m H. destruct v; try done; apply pyres_bind_Ok in H as (m' & H & [= <-]);
      apply PyValue2PbEnum_result in H as [Ht Hs]; unfold Pb2py.Convert; rewrite Ht;
      unfold Pb2py.PbEnum2PyValue, get_scalar; by rewrite Hs.
Qed.
