(* ===== verification/Instrumentation.v ===== *)
(** * Timing of the framework's own steps
    ([src/utils/python/instrumentation/test_framework_instrumentation.py] and
    [test_framework_instrumentation_event.py])

    Events are objects that the module-level lists [event_stack] (begun, not
    ended) and [event_data] (ended) refer to: the state holds the store of the
    objects and the two lists of references.  A reading of the CPU or of the wall
    clock is an integer number of ticks, an argument of the operation that makes
    it. *)

From Stdlib Require Import Strings.Byte.
From S2P Require Import Prelude PyStr PySort.

(** ** Names *)
Definition LOGGING_PREFIX : pystr := bs "[Instrumentation]".
Definition ILLEGAL_CHARS : pystr := [Byte.x3a; Byte.x09; Byte.x0d; Byte.x0a].
Definition DEFAULT_CATEGORY : pystr := bs "Misc".

(** [re.sub] of any of the illegal characters by ['_']. *)
Definition sub_illegal (s : pystr) : pystr :=
  (fun b => if decide (b ∈ ILLEGAL_CHARS) then Byte.x5f else b) <$> s.

Definition NormalizeNameCategory (name category : pystr) : pystr * pystr :=
  if existsb (fun b => bool_decide (b ∈ ILLEGAL_CHARS)) (category ++ name) then
    let category := sub_illegal category in
    let name := sub_illegal name in
    (name, category)
  else (name, category).

(** ** Events *)
Record event := mk_event {
  name : pystr;
  category : pystr;
  status : Z;                     (* 0 not started, 1 started, 2 ended, 3 removed *)
  error : option pystr;
  enable_logging : option bool;
  disable_subevent_logging : bool;
  timestamp_begin_cpu : Z;
  timestamp_begin_wall : Z;
  timestamp_end_cpu : Z;
  timestamp_end_wall : Z;
}.

Definition set_error (x : pystr) (e : event) : event :=
  mk_event (name e) (category e) (status e) (Some x) (enable_logging e) (disable_subevent_logging e)
    (timestamp_begin_cpu e) (timestamp_begin_wall e) (timestamp_end_cpu e) (timestamp_end_wall e).
Definition set_status (x : Z) (e : event) : event :=
  mk_event (name e) (category e) x (error e) (enable_logging e) (disable_subevent_logging e)
    (timestamp_begin_cpu e) (timestamp_begin_wall e) (timestamp_end_cpu e) (timestamp_end_wall e).
Definition set_logging (x : option bool) (y : bool) (e : event) : event :=
  mk_event (name e) (category e) (status e) (error e) x y
    (timestamp_begin_cpu e) (timestamp_begin_wall e) (timestamp_end_cpu e) (timestamp_end_wall e).
Definition set_begin (cpu wall : Z) (e : event) : event :=
  mk_event (name e) (category e) (status e) (error e) (enable_logging e) (disable_subevent_logging e)
    cpu wall (timestamp_end_cpu e) (timestamp_end_wall e).
Definition set_end (cpu wall : Z) (e : event) : event :=
  mk_event (name e) (category e) (status e) (error e) (enable_logging e) (disable_subevent_logging e)
    (timestamp_begin_cpu e) (timestamp_begin_wall e) cpu wall.

Definition Match (e : event) (n c : pystr) : bool :=
  bool_decide (c = category e) && bool_decide (n = name e).

(** ** The module's state: a reference is an index in [events] *)
Inductive log_line :=
  | LogDebug (text : pystr)
  | LogWarn (text : pystr)
  | LogError (text : pystr) (event : option nat).

Record state := mk_state {
  events : list event;
  event_stack : list nat;
  event_data : list nat;
  log : list log_line;
}.
Definition initial : state := mk_state [] [] [] [].

Definition put (i : nat) (e : event) (st : state) : state :=
  mk_state (<[i := e]> (events st)) (event_stack st) (event_data st) (log st).

(** [_Log] *)
Definition log_with (e : event) (line : log_line) (st : state) : state :=
  match enable_logging e with
  | Some false => st
  | _ => mk_state (events st) (event_stack st) (event_data st) (log st ++ [line])
  end.
Definition status_line (e : event) (what : pystr) : pystr :=
  LOGGING_PREFIX ++ bs " " ++ category e ++ bs ": " ++ name e ++ bs " " ++ what.

(** The constructor.  Logging is off for a new event, so the warning about an
    illegal character is never written. *)
Definition new_event (n c : pystr) : event :=
  let '(n, c) := NormalizeNameCategory n c in
  mk_event n c 0 None (Some false) false (-1) (-1) (-1) (-1).
Definition init_event (n c : pystr) (st : state) : nat * state :=
  let e := new_event n c in
  let st := mk_state (events st ++ [e]) (event_stack st) (event_data st) (log st) in
  (length (events st) - 1,
   if decide ((n, c) = (name e, category e)) then st
   else log_with e (LogWarn (bs "TestFrameworkInstrumentation: illegal character detected")) st).

(** The end of a method: normally, or with an exception; the changes made
    before stay. *)
Definition outcome : Type := state * option pyexc.

(** An operation that the status of the event does not allow. *)
Definition refuse (i : nat) (message err : pystr) (st : state) : outcome :=
  match events st !! i with
  | Some e => (put i (set_error err e) (log_with e (LogError message (Some i)) st), None)
  | None => (st, None)
  end.

Module Event.

(** The logging flags that [Begin] sets, before it looks at the status. *)
Definition begin_flags (enable : option bool) (disable_subevent : bool) (st : state) (e : event) : event :=
  let quiet :=
    match last (event_stack st) ≫= fun top => events st !! top with
    | Some top => disable_subevent_logging top
    | None => false
    end in
  if quiet then set_logging (Some false) true e
  else set_logging (match enable with Some b => Some b | None => enable_logging e end)
         disable_subevent e.

Definition Begin (i : nat) (enable : option bool) (disable_subevent : bool) (cpu wall : Z)
    (st : state) : outcome :=
  match events st !! i with
  | None => (st, None)
  | Some e =>
      let e := begin_flags enable disable_subevent st e in
      let st := put i e st in
      if (status e =? 1)%Z then
        refuse i (bs "TestFrameworkInstrumentation: event %s has already began. Skipping Begin.")
          (bs "Tried to Begin but already began") st
      else if (status e =? 2)%Z then
        refuse i (bs "TestFrameworkInstrumentation: event %s has already ended. Skipping Begin.")
          (bs "Tried to Begin but already ended") st
      else if (status e =? 3)%Z then
        refuse i (bs "TestFrameworkInstrumentation: event %s has already been removed. Skipping Begin.")
          (bs "Tried to Begin but already been removed") st
      else
        let st := log_with e (LogDebug (status_line e (bs "BEGIN"))) st in
        let st := put i (set_begin cpu wall (set_status 1 e)) st in
        (mk_state (events st) (event_stack st ++ [i]) (event_data st) (log st), None)
  end.

(** [l.remove(x)] *)
Definition list_remove (i : nat) (l : list nat) : pyres (list nat) :=
  if decide (i ∈ l) then Ok (remove_first i l) else Raise ValueError.

(** [event_stack.remove(self)] *)
Definition unstack (i : nat) (st : state) : outcome :=
  match list_remove i (event_stack st) with
  | Ok l => (mk_state (events st) l (event_data st) (log st), None)
  | Raise e => (st, Some e)
  end.

Definition End (i : nat) (cpu wall : Z) (st : state) : outcome :=
  match events st !! i with
  | None => (st, None)
  | Some e =>
      if (status e =? 0)%Z then
        refuse i (bs "TestFrameworkInstrumentation: event %s has not yet began. Skipping End.")
          (bs "Tried to End but have not began") st
      else if (status e =? 2)%Z then
        refuse i (bs "TestFrameworkInstrumentation: event %s has already ended. Skipping End.")
          (bs "Tried to End but already ended") st
      else if (status e =? 3)%Z then
        refuse i (bs "TestFrameworkInstrumentation: event %s has already been removed. Skipping End.")
          (bs "Tried to End but already been removed") st
      else
        let st := log_with e (LogDebug (status_line e (bs "END"))) st in
        let st := put i (set_end cpu wall (set_status 2 e)) st in
        unstack i (mk_state (events st) (event_stack st) (event_data st ++ [i]) (log st))
  end.

Definition Remove (i : nat) (remove_reason : pystr) (st : state) : outcome :=
  match events st !! i with
  | None => (st, None)
  | Some e =>
      if (status e =? 3)%Z then (st, None)
      else
        let st := log_with e
          (LogDebug (status_line e (bs "REMOVE") ++ bs " | Reason: " ++ remove_reason)) st in
        unstack i (put i (set_status 3 (set_error remove_reason e)) st)
  end.

Definition CheckEnded (i : nat) (remove_reason : pystr) (st : state) : outcome :=
  match events st !! i with
  | None => (st, None)
  | Some e => if (status e <? 2)%Z then Remove i remove_reason st else (st, None)
  end.
End Event.

(** ** The functions of the module *)
Definition Begin (n c : pystr) (enable : option bool) (disable_subevent : bool) (cpu wall : Z)
    (st : state) : nat * outcome :=
  let '(i, st) := init_event n c st in
  (i, Event.Begin i enable disable_subevent cpu wall st).

Definition FindEvent (n c : pystr) (st : state) : option nat :=
  List.find (fun i => match events st !! i with Some e => Match e n c | None => false end)
    (reverse (event_stack st)).

Definition End (n c : pystr) (cpu wall : Z) (st : state) : option nat * outcome :=
  match FindEvent n c st with
  | None => (None, (mk_state (events st) (event_stack st) (event_data st)
      (log st ++ [LogError (bs "Event with category " ++ n ++ bs " and name " ++ c ++
         bs " either does not exists or has already ended. Skipping...") None]), None))
  | Some i => (Some i, Event.End i cpu wall st)
  end.

Definition counts_map : Type := list ((pystr * pystr) * list Z).
Fixpoint add_count (key : pystr * pystr) (now : Z) (counts : counts_map) : counts_map :=
  match counts with
  | [] => [(key, [now])]
  | (k, times) :: counts =>
      if decide (k = key) then (k, times ++ [now]) :: counts else (k, times) :: add_count key now counts
  end.
Definition Count (n c : pystr) (now : Z) (counts : counts_map) : counts_map :=
  add_count (NormalizeNameCategory n c) now counts.

(** ** The report *)
Record EventItem := mk_item {
  item_name : pystr;
  item_category : pystr;
  time_cpu : Z;
  time_wall : Z;
  is_begin : bool;
  duration : Z;
}.
Definition begin_item (e : event) : EventItem :=
  mk_item (name e) (category e) (timestamp_begin_cpu e) (timestamp_begin_wall e) true (-1).
Definition end_item (e : event) : EventItem :=
  mk_item (name e) (category e) (timestamp_end_cpu e) (timestamp_end_wall e) false
    (timestamp_end_wall e - timestamp_begin_wall e).

Definition ended_events (st : state) : list event :=
  omap (fun i => events st !! i) (event_data st).
Definition report_items (l : list event) : list EventItem :=
  sort_by time_cpu ((begin_item <$> l) ++ (end_item <$> l)).

Definition indent (level : Z) : pystr := mjoin (replicate (Z.to_nat level) (bs "    ")).
Definition newline : pystr := [Byte.x0a].

Section report.
(** How a wall clock reading and a duration are printed. *)
Context (fmt_wall fmt_duration : Z -> pystr).

(** The text of an item at [level], and the level after it. *)
Definition item_text (level : Z) (e : EventItem) : pystr * Z :=
  if is_begin e then
    (indent level ++ bs "Begin [" ++ item_name e ++ bs " @ " ++ item_category e ++ bs "] " ++
       fmt_wall (time_wall e) ++ newline, level + 1)%Z
  else
    let s := bs "End   [" ++ item_name e ++ bs " @ " ++ item_category e ++ bs "] " ++
             fmt_wall (time_wall e) in
    let level := (level - 1)%Z in
    (indent level ++ s ++ newline ++ indent level ++ fmt_duration (duration e) ++ newline, level).

Fixpoint items_text (level : Z) (l : list EventItem) : pystr :=
  match l with
  | [] => []
  | e :: l => let '(s, level) := item_text level e in s ++ items_text level l
  end.
Definition GenerateTextReport (st : state) : pystr :=
  items_text 0 (report_items (ended_events st)).
End report.

(** ** The names events carry *)
Definition legal (s : pystr) : Prop := forall b, b ∈ s -> b ∉ ILLEGAL_CHARS.

Lemma sub_illegal_legal s : legal (sub_illegal s).
Proof.
  intros b (c & -> & _)%list_elem_of_fmap. case_decide; [|done].
  apply (bool_decide_unpack _). vm_compute. exact I.
Qed.

Lemma sub_illegal_id s : legal s -> sub_illegal s = s.
Proof.
  intros H. unfold sub_illegal. rewrite <- (list_fmap_id s) at 2. apply list_fmap_ext.
  intros i b Hb. rewrite decide_False; [done|]. by apply H, (list_elem_of_lookup_2 _ i).
Qed.

Lemma NormalizeNameCategory_spec n c :
  NormalizeNameCategory n c = (sub_illegal n, sub_illegal c).
Proof.
  unfold NormalizeNameCategory. destruct (existsb _ _) eqn:E; [done|].
  assert (H : forall b, b ∈ c ++ n -> b ∉ ILLEGAL_CHARS).
  { intros b Hb Hi. apply not_true_iff_false in E. apply E, existsb_exists. exists b.
    split; [by apply list_elem_of_In|by apply bool_decide_eq_true]. }
  rewrite !sub_illegal_id; [done|intros b Hb; apply H, elem_of_app; auto..].
Qed.

(** ** Reachable states *)

(** What the framework does with the events: any method of any event that
    exists, in any order, on a CPU clock that does not go back; the last
    argument is the time of the step. *)
Inductive step : state -> Z -> state -> Prop :=
  | step_new n c st now : step st now (init_event n c st).2
  | step_begin i enable sub wall st now : step st now (Event.Begin i enable sub now wall st).1
  | step_end i wall st now : step st now (Event.End i now wall st).1
  | step_check i reason st now : step st now (Event.CheckEnded i reason st).1
  | step_remove i reason st now : step st now (Event.Remove i reason st).1.

Inductive reachable : state -> Z -> Prop :=
  | reachable_initial now : reachable initial now
  | reachable_step st st' now now' :
      reachable st now -> (now <= now')%Z -> step st now' st' -> reachable st' now'.

(** [event_stack] lists exactly the started events, once each; the ended events
    are in [event_data]; an event there has ended, even when it was removed later,
    and did not end before it began. *)
Record inv (st : state) (now : Z) : Prop := {
  inv_stack : NoDup (event_stack st);
  inv_data : NoDup (event_data st);
  inv_started : forall i, i ∈ event_stack st <-> exists e, events st !! i = Some e /\ status e = 1%Z;
  inv_ended : forall i e, events st !! i = Some e -> status e = 2%Z -> i ∈ event_data st;
  inv_times : forall i, i ∈ event_data st -> exists e, events st !! i = Some e /\
    (status e = 2 \/ status e = 3)%Z /\
    (timestamp_begin_cpu e <= timestamp_end_cpu e <= now)%Z;
  inv_begun : forall i e, events st !! i = Some e -> status e = 1%Z ->
    (timestamp_begin_cpu e <= now)%Z;
  inv_status : forall i e, events st !! i = Some e -> (0 <= status e <= 3)%Z;
  inv_legal : forall i e, events st !! i = Some e -> legal (name e) /\ legal (category e);
}.

Lemma inv_ext st st' now :
  events st' = events st -> event_stack st' = event_stack st -> event_data st' = event_data st ->
  inv st now -> inv st' now.
Proof. intros E1 E2 E3 []. constructor; rewrite ?E1, ?E2, ?E3; auto. Qed.

Lemma inv_log e line st now : inv st now -> inv (log_with e line st) now.
Proof. apply inv_ext; unfold log_with; by repeat case_match. Qed.

Lemma inv_later st now now' : (now <= now')%Z -> inv st now -> inv st now'.
Proof.
  intros Hle []. constructor; try done.
  - intros i Hi. destruct (inv_times0 i Hi) as (e & ? & ? & ?). exists e. split_and!; try done; lia.
  - intros i e H1 H2. specialize (inv_begun0 i e H1 H2). lia.
Qed.

Lemma lookup_put i e st j :
  is_Some (events st !! i) ->
  events (put i e st) !! j = if decide (i = j) then Some e else events st !! j.
Proof.
  intros Hi%lookup_lt_is_Some. cbn. case_decide as Hij; subst.
  - by apply list_lookup_insert_eq.
  - by apply list_lookup_insert_ne.
Qed.

(** One event changes, and its place in the two lists. *)
Lemma inv_update i e e' stack data logs st now :
  inv st now -> events st !! i = Some e ->
  name e' = name e -> category e' = category e -> (0 <= status e' <= 3)%Z ->
  NoDup stack -> (forall j, j <> i -> j ∈ stack <-> j ∈ event_stack st) ->
  (i ∈ stack <-> status e' = 1%Z) ->
  NoDup data -> (forall j, j <> i -> j ∈ data <-> j ∈ event_data st) ->
  (status e' = 2%Z -> i ∈ data) ->
  (i ∈ data -> (status e' = 2 \/ status e' = 3)%Z /\
     (timestamp_begin_cpu e' <= timestamp_end_cpu e' <= now)%Z) ->
  (status e' = 1 -> timestamp_begin_cpu e' <= now)%Z ->
  inv (mk_state (<[i := e']> (events st)) stack data logs) now.
Proof.
  intros [] He Hn Hc Hs Hst Hst1 Hst2 Hd Hd1 Hd2 Hd3 Hb.
  assert (Hl : forall j, <[i := e']> (events st) !! j = if decide (i = j) then Some e' else events st !! j).
  { intros j. apply (lookup_put i e' st j). eauto. }
  constructor; cbn; try done.
  - intros j. rewrite Hl. case_decide as Hij; [subst j|rewrite Hst1 by done; apply inv_started0].
    rewrite Hst2. split; [eauto|]. by intros (? & [= <-] & ?).
  - intros j e1. rewrite Hl. case_decide as Hij; [intros [= <-]; subst j; exact Hd2|].
    rewrite Hd1 by done. apply inv_ended0.
  - intros j Hj. rewrite Hl. case_decide as Hij; [subst j; eauto|]. apply inv_times0. by apply Hd1 in Hj.
  - intros j e1. rewrite Hl. case_decide; [by intros [= <-]|by apply inv_begun0].
  - intros j e1. rewrite Hl. case_decide; [by intros [= <-]|by apply inv_status0].
  - intros j e1. rewrite Hl. case_decide; [intros [= <-]|by apply inv_legal0].
    rewrite Hn, Hc. by apply (inv_legal0 i).
Qed.

(** Changes that leave the status, the times and the names alone. *)
Lemma inv_put i e e' st now :
  events st !! i = Some e -> status e' = status e -> name e' = name e -> category e' = category e ->
  timestamp_begin_cpu e' = timestamp_begin_cpu e -> timestamp_end_cpu e' = timestamp_end_cpu e ->
  inv st now -> inv (put i e' st) now.
Proof.
  intros He Hs Hn Hc Hb Ht H. pose proof H as [].
  apply (inv_update i e); rewrite ?Hs, ?Hb, ?Ht; try done; eauto.
  - rewrite inv_started0. split; [by intros (? & ? & ?); simplify_eq|eauto].
  - intros Hi. destruct (inv_times0 i Hi) as (? & ? & ? & ?). by simplify_eq.
Qed.

Lemma inv_refuse i m err st now : inv st now -> inv (refuse i m err st).1 now.
Proof.
  intros H. unfold refuse. destruct (events st !! i) as [e|] eqn:He; [|done].
  apply (inv_put i e); try done; [|by apply inv_log].
  unfold log_with. by repeat case_match.
Qed.

Lemma events_log e line st : events (log_with e line st) = events st.
Proof. unfold log_with. by repeat case_match. Qed.
Lemma stack_log e line st : event_stack (log_with e line st) = event_stack st.
Proof. unfold log_with. by repeat case_match. Qed.
Lemma data_log e line st : event_data (log_with e line st) = event_data st.
Proof. unfold log_with. by repeat case_match. Qed.

Lemma inv_new n c st now : inv st now -> inv (init_event n c st).2 now.
Proof.
  intros H. unfold init_event. cbn [snd].
  set (e := new_event n c).
  assert (He : status e = 0%Z /\ legal (name e) /\ legal (category e)).
  { unfold e, new_event. rewrite NormalizeNameCategory_spec. cbn.
    split; [done|]. split; apply sub_illegal_legal. }
  clearbody e. destruct He as (He & Hl1 & Hl2).
  assert (inv (mk_state (events st ++ [e]) (event_stack st) (event_data st) (log st)) now).
  { assert (Hl : forall i e1, (events st ++ [e]) !! i = Some e1 <->
        events st !! i = Some e1 \/ (i = length (events st) /\ e1 = e)).
    { intros i e1. rewrite lookup_snoc_Some. split.
      - intros [[_ ?]|[? ->]]; auto.
      - intros [H1|[-> ->]]; [left|by right]. split; [|done]. by apply lookup_lt_Some in H1. }
    destruct H. constructor; cbn; try done; intros i.
    - rewrite inv_started0. split; intros (e1 & H1 & H2).
      + exists e1. rewrite Hl. auto.
      + apply Hl in H1 as [H1|[_ ->]]; [eauto|congruence].
    - intros e1 [H1|[_ ->]]%Hl; [by apply inv_ended0|congruence].
    - intros Hi. destruct (inv_times0 i Hi) as (e1 & H1 & H2). exists e1. rewrite Hl. auto.
    - intros e1 [H1|[_ ->]]%Hl; [by apply (inv_begun0 i)|congruence].
    - intros e1 [H1|[_ ->]]%Hl; [by apply (inv_status0 i)|lia].
    - intros e1 [H1|[_ ->]]%Hl; [by apply (inv_legal0 i)|done]. }
  case_decide; [done|]. by apply inv_log.
Qed.

Lemma inv_begin i enable sub wall st now : inv st now -> inv (Event.Begin i enable sub now wall st).1 now.
Proof.
  intros H. unfold Event.Begin. destruct (events st !! i) as [e|] eqn:He; [|done].
  set (e1 := Event.begin_flags enable sub st e).
  assert (He1 : status e1 = status e /\ name e1 = name e /\ category e1 = category e /\
    timestamp_begin_cpu e1 = timestamp_begin_cpu e /\ timestamp_end_cpu e1 = timestamp_end_cpu e).
  { unfold e1, Event.begin_flags. by case_match. }
  clearbody e1. destruct He1 as (H1 & H2 & H3 & H4 & H5).
  assert (Hp : inv (put i e1 st) now) by (by apply (inv_put i e)).
  assert (Hi : events (put i e1 st) !! i = Some e1).
  { rewrite lookup_put by eauto. by rewrite decide_True. }
  destruct (Z.eqb_spec (status e1) 1); [by apply inv_refuse|].
  destruct (Z.eqb_spec (status e1) 2); [by apply inv_refuse|].
  destruct (Z.eqb_spec (status e1) 3); [by apply inv_refuse|].
  cbn [fst]. set (st' := log_with _ _ (put i e1 st)).
  assert (Hst' : inv st' now) by by apply inv_log.
  assert (Hi' : events st' !! i = Some e1) by (unfold st'; by rewrite events_log).
  assert (Hn : i ∉ event_stack st').
  { rewrite (inv_started st' now Hst'). intros (? & ? & ?). congruence. }
  assert (Hd : i ∉ event_data st').
  { intros Hd. destruct (inv_times st' now Hst' i Hd) as (? & ? & [?|?] & _); congruence. }
  clearbody st'. pose proof Hst' as [].
  apply (inv_update i e1); cbn; try done; try lia.
  - apply NoDup_app. split; [done|]. split; [|apply NoDup_singleton].
    intros j Hj ->%list_elem_of_singleton. done.
  - set_solver.
  - set_solver.
Qed.

(** A begun event leaves the stack, with a status other than 1. *)
Lemma inv_leave i e e' data logs st now :
  inv st now -> events st !! i = Some e -> status e' <> 1%Z -> (0 <= status e' <= 3)%Z ->
  name e' = name e -> category e' = category e ->
  NoDup data -> (forall j, j <> i -> j ∈ data <-> j ∈ event_data st) ->
  (status e' = 2%Z -> i ∈ data) ->
  (i ∈ data -> (status e' = 2 \/ status e' = 3)%Z /\
     (timestamp_begin_cpu e' <= timestamp_end_cpu e' <= now)%Z) ->
  inv (Event.unstack i (mk_state (<[i := e']> (events st)) (event_stack st) data logs)).1 now.
Proof.
  intros H He H1 Hs Hn Hc Hd Hd1 Hd2 Hd3. unfold Event.unstack, Event.list_remove. cbn.
  pose proof (inv_stack _ _ H) as Hnd. case_decide as Hi; cbn.
  - apply (inv_update i e); try done.
    + by apply NoDup_remove_first.
    + intros j Hj. split; [apply elem_of_remove_first|by apply elem_of_remove_first_ne].
    + split; [|done]. by intros ?%(not_elem_of_remove_first i (event_stack st) Hnd).
  - by apply (inv_update i e).
Qed.

Lemma inv_end i wall st now : inv st now -> inv (Event.End i now wall st).1 now.
Proof.
  intros H. unfold Event.End. destruct (events st !! i) as [e|] eqn:He; [|done].
  destruct (Z.eqb_spec (status e) 0); [by apply inv_refuse|].
  destruct (Z.eqb_spec (status e) 2); [by apply inv_refuse|].
  destruct (Z.eqb_spec (status e) 3); [by apply inv_refuse|].
  assert (Hs : status e = 1%Z) by (pose proof (inv_status _ _ H _ _ He); lia).
  cbn. rewrite events_log, stack_log, data_log.
  assert (Hd : i ∉ event_data st).
  { intros Hd. destruct (inv_times st now H i Hd) as (? & ? & [?|?] & _); congruence. }
  apply (inv_leave i e); cbn; try done; try lia.
  - apply NoDup_app. split; [apply H|]. split; [|apply NoDup_singleton].
    intros j Hj ->%list_elem_of_singleton. done.
  - set_solver.
  - set_solver.
  - intros _. split; [auto|]. pose proof (inv_begun _ _ H _ _ He Hs). lia.
Qed.

Lemma inv_remove i reason st now : inv st now -> inv (Event.Remove i reason st).1 now.
Proof.
  intros H. unfold Event.Remove. destruct (events st !! i) as [e|] eqn:He; [|done].
  destruct (Z.eqb_spec (status e) 3); [done|]. unfold put. rewrite events_log, stack_log, data_log.
  apply (inv_leave i e); cbn; try done; try lia.
  - apply H.
  - intros Hd. destruct (inv_times st now H i Hd) as (? & ? & ? & ?). simplify_eq. auto.
Qed.

Lemma inv_Begin n c enable sub wall st now :
  inv st now -> inv (Begin n c enable sub now wall st).2.1 now.
Proof.
  intros H%(inv_new n c). unfold Begin. destruct (init_event n c st). by apply inv_begin.
Qed.

Lemma inv_step st now st' : step st now st' -> inv st now -> inv st' now.
Proof.
  destruct 1; auto using inv_new, inv_begin, inv_end, inv_remove.
  intros H. unfold Event.CheckEnded. destruct (events st !! i); [|done].
  case_match; [by apply inv_remove|done].
Qed.

Lemma reachable_inv st now : reachable st now -> inv st now.
Proof.
  induction 1 as [now|st st' now now' _ IH Hle Hs].
  - constructor; cbn; try done; try apply NoDup_nil_2.
    + intros i. split; [by intros ?%elem_of_nil|by intros (? & ? & ?)].
    + by intros i ?%elem_of_nil.
  - eapply inv_step; [exact Hs|]. by eapply inv_later.
Qed.

(** ** The levels of the report *)

(** The level at which the loop is after the items [l], from [level]. *)
Definition level_after (fmt_wall fmt_duration : Z -> pystr) (l : list EventItem) (level : Z) : Z :=
  foldl (fun level e => (item_text fmt_wall fmt_duration level e).2) level l.

Definition count {A} (p : A -> bool) (l : list A) : nat := length (List.filter p l).

Lemma count_app {A} (p : A -> bool) l k : count p (l ++ k) = count p l + count p k.
Proof. unfold count. by rewrite List.filter_app, length_app. Qed.

Lemma count_mono {A} (p q : A -> bool) l :
  (forall a, a ∈ l -> p a = true -> q a = true) -> count p l <= count q l.
Proof.
  unfold count. induction l as [|a l IH]; intros H; cbn; [done|].
  pose proof (H a ltac:(left)) as Ha. specialize (IH (fun b Hb => H b (list_elem_of_further _ _ _ Hb))).
  destruct (p a); [rewrite Ha by done; cbn; lia|]. destruct (q a); cbn; lia.
Qed.

Lemma count_perm {A} (p : A -> bool) l k : l ≡ₚ k -> count p l = count p k.
Proof.
  unfold count. induction 1; cbn; repeat (case_match; cbn); congruence.
Qed.

Lemma count_fmap {A B} (f : A -> B) (p : B -> bool) l : count p (f <$> l) = count (fun a => p (f a)) l.
Proof.
  unfold count. induction l as [|a l IH]; cbn; [done|]. destruct (p (f a)); cbn; congruence.
Qed.

Lemma count_none {A} (p : A -> bool) l : (forall a, a ∈ l -> p a = false) -> count p l = 0.
Proof.
  unfold count. induction l as [|a l IH]; intros H; cbn; [done|].
  rewrite (H a) by left. apply IH. intros b Hb. apply H. by right.
Qed.

Lemma level_after_count fw fd l level :
  (level_after fw fd l level + Z.of_nat (count (fun e => negb (is_begin e)) l)
   = level + Z.of_nat (count is_begin l))%Z.
Proof.
  unfold count. revert level. induction l as [|e l IH]; intros level; cbn -[item_text]; [done|].
  specialize (IH (item_text fw fd level e).2). unfold level_after in IH.
  unfold item_text in *. destruct (is_begin e); cbn in *; lia.
Qed.

(** Items in the order of the report: at the same time, the begins come first. *)
Definition item_before (a b : EventItem) : Prop :=
  (time_cpu a < time_cpu b)%Z \/
  (time_cpu a = time_cpu b /\ (is_begin a = true \/ is_begin b = false)).

Lemma insert_item_before x l :
  (is_begin x = true \/ Forall (fun y => is_begin y = false) l) ->
  StronglySorted item_before l -> StronglySorted item_before (insert_sorted (key_leb time_cpu) x l).
Proof.
  intros Hx Hs. induction Hs as [|y l Hs IH Hy]; cbn; [repeat constructor|].
  unfold key_leb at 1. destruct (Z.leb_spec (time_cpu x) (time_cpu y)) as [Hle|Hlt].
  - assert (forall z, z ∈ y :: l -> is_begin x = true \/ is_begin z = false) as Hxz.
    { intros z Hz. destruct Hx as [?|Hx]; [by left|right]. rewrite Forall_forall in Hx. auto. }
    constructor; [by constructor|]. apply Forall_forall. intros z Hz.
    specialize (Hxz z Hz). unfold item_before. apply elem_of_cons in Hz as [->|Hz].
    + destruct (Z.eq_dec (time_cpu x) (time_cpu y)); [auto|lia].
    + rewrite Forall_forall in Hy. destruct (Hy z Hz) as [?|[? _]]; [lia|].
      destruct (Z.eq_dec (time_cpu x) (time_cpu z)); [auto|lia].
  - constructor.
    + apply IH. destruct Hx as [?|Hx]; [by left|right]. by inv Hx.
    + rewrite insert_sorted_perm. constructor; [left; lia|done].
Qed.

Lemma report_items_before l : StronglySorted item_before (report_items l).
Proof.
  unfold report_items, sort_by, py_sort. rewrite foldr_app.
  assert (He : forall k, StronglySorted item_before (foldr (insert_sorted (key_leb time_cpu)) []
      (end_item <$> k)) /\
    Forall (fun y => is_begin y = false) (foldr (insert_sorted (key_leb time_cpu)) [] (end_item <$> k))).
  { intros k. induction k as [|e k [IH1 IH2]]; cbn; [split; constructor|]. split.
    - apply insert_item_before; auto.
    - rewrite insert_sorted_perm. by constructor. }
  destruct (He l) as [Hs _]. revert Hs. generalize (foldr (insert_sorted (key_leb time_cpu)) [] (end_item <$> l)).
  intros k Hk. clear He. induction l as [|e l IH]; cbn; [done|]. apply insert_item_before; auto.
Qed.

Lemma report_items_perm l : report_items l ≡ₚ (begin_item <$> l) ++ (end_item <$> l).
Proof. apply sort_by_perm. Qed.

(** [y] is printed before an end at the time of [x] would be. *)
Definition below (x y : EventItem) : bool :=
  if is_begin x then (time_cpu y <? time_cpu x)%Z else (time_cpu y <=? time_cpu x)%Z.

(** Around an item [x] of the report. *)
Lemma report_cut l pre x suf :
  report_items l = (pre ++ [x]) ++ suf ->
  (forall y, y ∈ pre ++ [x] -> is_begin y = false -> below x y = true) /\
  (forall y, y ∈ suf -> is_begin y = true -> below x y = false).
Proof.
  intros Hr. pose proof (report_items_before l) as Hs. rewrite Hr, <- app_assoc in Hs.
  apply StronglySorted_app in Hs as (Hpre & _ & Hs). apply StronglySorted_inv in Hs as [_ Hsuf].
  rewrite Forall_forall in Hsuf. unfold below. split; intros y Hy Hb.
  - apply elem_of_app in Hy as [Hy|Hy%list_elem_of_singleton].
    + destruct (Hpre y x Hy ltac:(by left)) as [?|[? [?| ->]]]; [|congruence|apply Z.leb_le; lia].
      destruct (is_begin x); [apply Z.ltb_lt|apply Z.leb_le]; lia.
    + subst y. rewrite Hb. apply Z.leb_le. lia.
  - destruct (Hsuf y Hy) as [?|[? [->|?]]]; [|apply Z.ltb_ge; lia|congruence].
    destruct (is_begin x); [apply Z.ltb_ge|apply Z.leb_gt]; lia.
Qed.

(** A prefix of the report has no more ends than begins. *)
Lemma report_prefix_count l pre suf :
  (forall e, e ∈ l -> timestamp_begin_cpu e <= timestamp_end_cpu e)%Z ->
  report_items l = pre ++ suf ->
  count (fun e => negb (is_begin e)) pre <= count is_begin pre.
Proof.
  intros Hl Hr. destruct pre as [|x pre _] using rev_ind; [done|].
  pose proof (report_cut _ _ _ _ Hr) as [Hpre Hsuf].
  pose proof (report_items_perm l) as Hp. rewrite Hr in Hp.
  transitivity (count (fun e => negb (is_begin e) && below x e) ((pre ++ [x]) ++ suf)).
  { rewrite (count_app _ (pre ++ [x]) suf).
    transitivity (count (fun e => negb (is_begin e) && below x e) (pre ++ [x])); [|lia].
    apply count_mono. intros y Hy Hn%negb_true_iff. by rewrite Hn, Hpre. }
  transitivity (count (fun e => is_begin e && below x e) ((pre ++ [x]) ++ suf)).
  { rewrite !(count_perm _ _ _ Hp), !count_app, !count_fmap. cbn.
    rewrite !(count_none (fun _ : event => false)) by done.
    rewrite Nat.add_0_r. cbn. apply count_mono. intros e He. unfold below. specialize (Hl e He).
    destruct (is_begin x); rewrite ?Z.ltb_lt, ?Z.leb_le; cbn; lia. }
  rewrite (count_app _ (pre ++ [x]) suf), (count_none _ suf), Nat.add_0_r.
  - apply count_mono. intros y _ [? _]%andb_true_iff. done.
  - intros y Hy. destruct (is_begin y) eqn:Hb; [by apply Hsuf|done].
Qed.

Lemma ended_events_times st now e :
  inv st now -> e ∈ ended_events st -> (timestamp_begin_cpu e <= timestamp_end_cpu e)%Z.
Proof.
  intros H (i & Hi & He)%list_elem_of_omap. destruct (inv_times _ _ H i Hi) as (e' & He' & _ & ?).
  simplify_eq. lia.
Qed.

(** ** Properties *)

(** C17: whatever the framework does with its events, the stack holds exactly the
    events that have begun and not ended, once each, the data every event that
    ended, once, with an end that is not before its begin, and no event carries
    a character that the log format reserves. *)
Theorem events_invariant st now : reachable st now -> inv st now.
Proof. apply reachable_inv. Qed.

(** The indentation of the report of any reachable state never goes below
    zero, is the number of events that are begun and not ended at that place of
    the report, and is back to zero at its end: each ended event is printed once
    as a begin and once as an end. *)
Theorem GenerateTextReport_levels fw fd st now pre suf :
  reachable st now -> report_items (ended_events st) = pre ++ suf ->
  (0 <= level_after fw fd pre 0)%Z
  /\ level_after fw fd pre 0 = (Z.of_nat (count is_begin pre) - Z.of_nat (count (fun e => negb (is_begin e)) pre))%Z
  /\ (suf = [] -> level_after fw fd pre 0 = 0%Z).
Proof.
  intros Hst%reachable_inv Hr. pose proof (level_after_count fw fd pre 0) as Hc.
  pose proof (report_prefix_count (ended_events st) pre suf) as Hp.
  split; [|split; [lia|intros ->]].
  - specialize (Hp (fun e He => ended_events_times st now e Hst He) Hr). lia.
  - rewrite app_nil_r in Hr. subst pre. rewrite !(count_perm _ _ _ (report_items_perm _)) in Hc.
    rewrite !count_app, !count_fmap in Hc. unfold count in Hc. cbn in Hc.
    assert (forall l : list event, List.filter (fun _ => false) l = []) as E1 by (by induction l).
    assert (forall l : list event, List.filter (fun _ => true) l = l) as E2
      by (induction l; cbn; congruence).
    rewrite E1, E2 in Hc. cbn in Hc. lia.
Qed.

Lemma unstack_fails i st : i ∉ event_stack st -> Event.unstack i st = (st, Some ValueError).
Proof. intros H. unfold Event.unstack, Event.list_remove. by rewrite decide_False. Qed.

Lemma not_started st now i e :
  inv st now -> events st !! i = Some e -> status e <> 1%Z -> i ∉ event_stack st.
Proof. intros H He Hs. rewrite (inv_started _ _ H). intros (? & ? & ?). congruence. Qed.

Lemma Remove_started st now i e reason :
  inv st now -> events st !! i = Some e -> status e = 1%Z ->
  exists st', Event.Remove i reason st = (st', None) /\
    events st' = <[i := set_status 3 (set_error reason e)]> (events st) /\
    event_stack st' = remove_first i (event_stack st) /\ event_data st' = event_data st.
Proof.
  intros H He Hs. unfold Event.Remove. rewrite He, Hs. cbn.
  unfold Event.unstack, Event.list_remove. cbn. rewrite stack_log, events_log, data_log.
  assert (i ∈ event_stack st) by (apply (inv_started _ _ H); eauto).
  rewrite decide_True by done. by eexists.
Qed.

Lemma Remove_not_started st now i e reason :
  inv st now -> events st !! i = Some e -> status e <> 1%Z -> status e <> 3%Z ->
  exists st', Event.Remove i reason st = (st', Some ValueError) /\
    events st' = <[i := set_status 3 (set_error reason e)]> (events st) /\
    event_stack st' = event_stack st /\ event_data st' = event_data st.
Proof.
  intros H He H1 H3. unfold Event.Remove. rewrite He. destruct (Z.eqb_spec (status e) 3); [done|].
  pose proof (not_started _ _ _ _ H He H1). cbv zeta.
  rewrite unstack_fails; cbn; rewrite ?stack_log; [|done].
  eexists. split; [done|]. cbn. by rewrite events_log, stack_log, data_log.
Qed.

(** [Remove] takes a started event off the stack and marks it, and does
    nothing to an event that was removed before.  An event that has not begun or
    has ended is marked as removed too, but the call raises [ValueError], and what
    has ended stays in the data that the reports print; [CheckEnded] so raises
    for an event that was never begun. *)
Theorem Remove_spec st now i e reason :
  reachable st now -> events st !! i = Some e ->
  (status e = 3%Z /\ Event.Remove i reason st = (st, None)
     /\ Event.CheckEnded i reason st = (st, None)) \/
  (exists st', Event.Remove i reason st = (st', if (status e =? 1)%Z then None else Some ValueError)
     /\ events st' = <[i := set_status 3 (set_error reason e)]> (events st)
     /\ i ∉ event_stack st' /\ event_data st' = event_data st
     /\ Event.CheckEnded i reason st =
          if (status e =? 2)%Z then (st, None) else Event.Remove i reason st).
Proof.
  intros H%reachable_inv He. pose proof (inv_status _ _ H _ _ He) as Hs.
  assert (Hc : Event.CheckEnded i reason st =
    if (status e <? 2)%Z then Event.Remove i reason st else (st, None)).
  { unfold Event.CheckEnded. by rewrite He. }
  assert (Hnd := inv_stack _ _ H).
  destruct (Z.eq_dec (status e) 3%Z) as [E|E]; [left|right].
  - split; [done|]. rewrite Hc, E. unfold Event.Remove. by rewrite He, E.
  - destruct (Z.eqb_spec (status e) 1) as [E1|E1].
    + destruct (Remove_started _ _ _ _ reason H He E1) as (st' & Hr & H1 & H2 & H3).
      exists st'. rewrite Hc, E1, H2. split_and!; try done. by apply not_elem_of_remove_first.
    + destruct (Remove_not_started _ _ _ _ reason H He E1 E) as (st' & Hr & H1 & H2 & H3).
      exists st'. rewrite Hc, H2. split_and!; try done; [by eapply not_started|].
      destruct (Z.ltb_spec (status e) 2), (Z.eqb_spec (status e) 2); done || lia.
Qed.

Lemma FindEvent_names st now n c i :
  inv st now -> FindEvent n c st = Some i -> legal n /\ legal c.
Proof.
  intros H [_ Hf]%List.find_some. destruct (events st !! i) as [e|] eqn:He; [|done].
  apply andb_true_iff in Hf as [->%bool_decide_eq_true ->%bool_decide_eq_true].
  by apply (inv_legal _ _ H i).
Qed.

(** A new event that begins goes on top of the stack. *)
Lemma Begin_run n c enable sub cpu wall st :
  exists e st', Begin n c enable sub cpu wall st = (length (events st), (st', None)) /\
    events st' = events st ++ [e] /\ event_stack st' = event_stack st ++ [length (events st)] /\
    event_data st' = event_data st /\ status e = 1%Z /\
    (name e, category e) = NormalizeNameCategory n c /\ timestamp_begin_cpu e = cpu.
Proof.
  unfold Begin, init_event. set (e0 := new_event n c).
  set (st1 := mk_state (events st ++ [e0]) (event_stack st) (event_data st) (log st)).
  set (st2 := if decide _ then st1 else _).
  assert (E : events st2 = events st ++ [e0] /\ event_stack st2 = event_stack st /\
    event_data st2 = event_data st).
  { unfold st2. case_decide; [done|]. by rewrite events_log, stack_log, data_log. }
  clearbody st2. destruct E as (E1 & E2 & E3). cbn [events st1].
  assert (Hlen : length (events st ++ [e0]) - 1 = length (events st)) by (rewrite length_app; cbn; lia).
  rewrite Hlen. unfold Event.Begin. rewrite E1.
  rewrite (proj2 (lookup_snoc_Some e0 (events st) (length (events st)) e0)) by auto.
  set (e1 := Event.begin_flags enable sub st2 e0).
  assert (He1 : status e1 = 0%Z /\ (name e1, category e1) = NormalizeNameCategory n c).
  { unfold e1, Event.begin_flags, e0, new_event. destruct (NormalizeNameCategory n c).
    by case_match. }
  clearbody e1. destruct He1 as [Hs Hn]. rewrite Hs. cbn.
  rewrite events_log, stack_log, data_log. cbn. rewrite E1, E2, E3.
  eexists (set_begin cpu wall (set_status 1 e1)), _. split; [done|]. cbn.
  split; [|by rewrite Hn].
  rewrite !insert_app_r_alt by lia. rewrite Nat.sub_diag. done.
Qed.

Lemma FindEvent_top n c st e :
  last (event_stack st) = Some (length (events st) - 1) ->
  events st !! (length (events st) - 1) = Some e -> (name e, category e) = (n, c) ->
  FindEvent n c st = Some (length (events st) - 1).
Proof.
  intros Hl He [= <- <-]. unfold FindEvent.
  apply last_Some in Hl as [l ->]. rewrite reverse_snoc. cbn. rewrite He.
  unfold Match. by rewrite !bool_decide_true.
Qed.

(** An event that begins can be ended by its name and category: the last one
    of that name is found, and moves from the stack to the data.  When the name or
    the category holds an illegal character the event is never found, since it
    was begun under another name: [End] only logs an error, and the event stays
    on the stack. *)
Theorem Begin_End_by_name n c enable sub cpu wall cpu' wall' st now :
  reachable st now -> (now <= cpu)%Z ->
  exists st1 found st2,
    Begin n c enable sub cpu wall st = (length (events st), (st1, None)) /\
    event_stack st1 = event_stack st ++ [length (events st)] /\
    End n c cpu' wall' st1 = (found, (st2, None)) /\
    (legal n /\ legal c -> found = Some (length (events st)) /\
       event_stack st2 = event_stack st /\ event_data st2 = event_data st ++ [length (events st)]) /\
    (~ (legal n /\ legal c) -> found = None /\
       event_stack st2 = event_stack st1 /\ events st2 = events st1).
Proof.
  intros H%reachable_inv Hle. destruct (Begin_run n c enable sub cpu wall st)
    as (e & st1 & Hb & E1 & E2 & E3 & Hs & Hn & _). exists st1.
  assert (H1 : inv st1 cpu) by (apply (inv_later _ _ cpu Hle), (inv_Begin n c enable sub wall) in H; by rewrite Hb in H).
  assert (Hlen : length (events st1) - 1 = length (events st)) by (rewrite E1, length_app; cbn; lia).
  assert (Hi : events st1 !! length (events st) = Some e) by (rewrite E1; apply lookup_snoc_Some; auto).
  rewrite Hb. unfold End. destruct (FindEvent n c st1) as [i|] eqn:Hf.
  - destruct (FindEvent_names _ _ _ _ _ H1 Hf) as [Hl1 Hl2].
    rewrite NormalizeNameCategory_spec, !sub_illegal_id in Hn by done.
    rewrite (FindEvent_top n c st1 e), Hlen in Hf by (rewrite ?Hlen, ?E2, ?last_snoc; done).
    injection Hf as <-. unfold Event.End. rewrite Hi, Hs. cbn.
    rewrite events_log, stack_log, data_log. unfold Event.unstack, Event.list_remove. cbn.
    assert (Hin : length (events st) ∈ event_stack st1) by (rewrite E2; set_solver).
    rewrite decide_True by done.
    do 2 eexists. split; [done|]. split; [done|]. split; [done|]. cbn. split; [intros _|by intros []].
    rewrite E2, E3. split; [done|]. split; [|done]. apply remove_first_snoc.
    rewrite E2 in *. pose proof (inv_stack _ _ H1) as Hnd. rewrite E2 in Hnd.
    apply NoDup_app in Hnd as (_ & Hnd & _). intros Hin2. apply (Hnd _ Hin2). by left.
  - do 2 eexists. split; [done|]. split; [done|]. split; [done|]. split; [|done].
    intros [Hl1 Hl2]. rewrite NormalizeNameCategory_spec, !sub_illegal_id in Hn by done.
    rewrite (FindEvent_top n c st1 e) in Hf by (rewrite ?Hlen, ?E2, ?last_snoc; done). done.
Qed.

(** A run with two nested events, the second ended by name, and an event whose
    name holds a colon. *)
Module Sample.
Definition run : state :=
  let st := (Begin (bs "outer") (bs "Test") (Some true) false 1 10 initial).2.1 in
  let st := (Begin (bs "inner") DEFAULT_CATEGORY None false 2 20 st).2.1 in
  let st := (Event.End 1 3 30 st).1 in
  let st := (Event.End 0 4 40 st).1 in
  (Begin (bs "a:b") DEFAULT_CATEGORY None false 5 50 st).2.1.
Definition fmt (z : Z) : pystr := if (z <? 0)%Z then bs "-" else str_nat z.

Lemma run_reachable : reachable run 5.
Proof.
  eapply (reachable_step _ _ 5 5); [|lia|apply step_begin].
  eapply (reachable_step _ _ 4 5); [|lia|apply step_new].
  eapply (reachable_step _ _ 3 4); [|lia|apply step_end].
  eapply (reachable_step _ _ 2 3); [|lia|apply step_end].
  eapply (reachable_step _ _ 2 2); [|lia|apply step_begin].
  eapply (reachable_step _ _ 1 2); [|lia|apply step_new].
  eapply (reachable_step _ _ 1 1); [|lia|apply step_begin].
  eapply (reachable_step _ _ 0 1); [|lia|apply step_new]. apply reachable_initial.
Qed.
End Sample.

Example run_report :
  GenerateTextReport Sample.fmt Sample.fmt Sample.run =
  bs "Begin [outer @ Test] 10" ++ newline ++ bs "    Begin [inner @ Misc] 20" ++ newline ++
  bs "    End   [inner @ Misc] 30" ++ newline ++ bs "    10" ++ newline ++
  bs "End   [outer @ Test] 40" ++ newline ++ bs "30" ++ newline.
Proof. vm_compute. reflexivity. Qed.

Lemma events_invariant_witness : inv Sample.run 5 /\ event_stack Sample.run = [2] /\ event_data Sample.run = [1; 0].
Proof.
  split; [apply events_invariant, Sample.run_reachable|]. split; vm_compute; reflexivity.
Defined.

Lemma GenerateTextReport_levels_witness :
  level_after Sample.fmt Sample.fmt (take 3 (report_items (ended_events Sample.run))) 0 = 1%Z /\
  (0 <= level_after Sample.fmt Sample.fmt (take 3 (report_items (ended_events Sample.run))) 0)%Z.
Proof.
  split; [vm_compute; reflexivity|].
  eapply (GenerateTextReport_levels _ _ Sample.run 5 _ (drop 3 (report_items (ended_events Sample.run)))).
  - apply Sample.run_reachable.
  - symmetry. apply take_drop.
Defined.

Lemma Remove_spec_witness :
  (Event.Remove 0 [] Sample.run).2 = Some ValueError /\
  exists e, events Sample.run !! 0 = Some e /\ status e = 2%Z /\
  ((status e = 3%Z /\ Event.Remove 0 [] Sample.run = (Sample.run, None)
     /\ Event.CheckEnded 0 [] Sample.run = (Sample.run, None)) \/
   (exists st', Event.Remove 0 [] Sample.run = (st', if (status e =? 1)%Z then None else Some ValueError)
     /\ events st' = <[0 := set_status 3 (set_error [] e)]> (events Sample.run)
     /\ 0 ∉ event_stack st' /\ event_data st' = event_data Sample.run
     /\ Event.CheckEnded 0 [] Sample.run =
          if (status e =? 2)%Z then (Sample.run, None) else Event.Remove 0 [] Sample.run)).
Proof.
  split; [vm_compute; reflexivity|]. eexists. split; [vm_compute; reflexivity|].
  split; [vm_compute; reflexivity|]. apply (Remove_spec Sample.run 5 0).
  - apply Sample.run_reachable.
  - vm_compute. reflexivity.
Defined.

Lemma Begin_End_by_name_witness :
  exists st1 found st2,
    Begin (bs "x") (bs "y") None false 6 60 Sample.run = (length (events Sample.run), (st1, None)) /\
    event_stack st1 = event_stack Sample.run ++ [length (events Sample.run)] /\
    End (bs "x") (bs "y") 7 70 st1 = (found, (st2, None)) /\
    (legal (bs "x") /\ legal (bs "y") -> found = Some (length (events Sample.run)) /\
       event_stack st2 = event_stack Sample.run /\
       event_data st2 = event_data Sample.run ++ [length (events Sample.run)]) /\
    (~ (legal (bs "x") /\ legal (bs "y")) -> found = None /\
       event_stack st2 = event_stack st1 /\ events st2 = events st1).
Proof. apply (Begin_End_by_name _ _ _ _ _ _ _ _ Sample.run 5); [apply Sample.run_reachable|lia]. Defined.
