(* ===== verification/CoverageUtils.v ===== *)
(** * Coverage of a whole build

    utils/python/coverage/coverage_utils.py: [_AutoProcess] matches the counters
    that a device wrote (.gcda) with the notes of the build (.gcno, in archives in
    a zip), and reports the line counts of every source file.  The GCNO parsers
    are objects that the dictionary of checksums, [_FindGcnoSummary] and
    [GCDAParser.Parse] share and change: they live in a store, and the dictionary
    holds references into it.  The iteration orders of Python's dictionaries, and
    what is left of an object whose [Parse] raised, are parameters. *)

From Stdlib Require Import Strings.Byte.
From S2P Require Import Prelude PyStr PyPath GcovStream CovGraph Gcno Gcda CoverageReport Archive.

Definition COVERAGE_SUFFIX : pystr := bs ".gcnodir".
Definition DEFAULT_EXCLUDE_PATHS : list pystr :=
  [bs "bionic"; bs "external/libcxx"; bs "system/core"; bs "system/libhidl"; bs "system/libfmq"].

(** The store of the parsers and the dictionary from checksum to parsers. *)
Abbreviation parsers := (list GCNOParser).
Abbreviation checksum_dict := (gmap Z (list nat)).
Definition checksum (p : GCNOParser) : Z := gs_checksum (gp_stream p).

Section coverage.
Context (archive_items : gmap pystr pystr -> list (pystr * pystr)).
Context (function_items : FileSummary -> list (Z * FunctionSummary)).
Context (coverage_items : gmap pystr (list Z) -> list (pystr * list Z)).
Context (parser_after_error : GCNOParser -> GCNOParser).
Context (summary_after_error : FileSummary -> pystr -> FileSummary).

(** ** The parsers of a build *)
Definition add_parser (st : parsers * checksum_dict) (p : GCNOParser) : parsers * checksum_dict :=
  (st.1 ++ [p], <[checksum p := default [] (st.2 !! checksum p) ++ [length st.1]]> st.2).

Definition add_gcno (st : parsers * checksum_dict) (file : pystr * pystr)
    : pyres (parsers * checksum_dict) :=
  gcno_file_parser ← new_GCNOParser file.2;
  Ok (add_parser st gcno_file_parser).

(** One gcnodir.  The handler of a malformed archive prints [name], which is not
    defined there. *)
Definition add_module (fuel : nat) (st : parsers * checksum_dict) (instrumented_module : pystr * pystr)
    : pyres (parsers * checksum_dict) :=
  match archive_Parse fuel (new_Archive instrumented_module.2) with
  | None => Raise RuntimeError
  | Some (Raise ValueError) => Raise NameError
  | Some (Raise e) => Raise e
  | Some (Ok archive) => foldlM_py add_gcno st (archive_items (files archive))
  end.

Definition instrumented_modules (cov_zip : list (pystr * pystr)) : list (pystr * pystr) :=
  filter (fun m => endswith COVERAGE_SUFFIX m.1 = true) cov_zip.

(** [cov_zip]: the names and the contents of the members. *)
Definition GetChecksumGcnoDict (fuel : nat) (cov_zip : list (pystr * pystr))
    : pyres (parsers * checksum_dict) :=
  foldlM_py (add_module fuel) ([], ∅) (instrumented_modules cov_zip).

(** ** The notes for a counters file *)
Definition SOONG : pystr := bs "soong/.intermediates".

Definition function_matches (gcda_file_path : pystr) (func : FunctionSummary) : bool :=
  let legacy_build := negb (contains SOONG gcda_file_path) in
  let src_file_name := rsplit_head Byte.x2e (src_file_name func) in
  if legacy_build then endswith (basename src_file_name) gcda_file_path
  else endswith src_file_name gcda_file_path.

(** The loop over the parsers; [last] is the parser whose summary [gcno_summary]
    is at present. *)
Fixpoint FindGcnoSummary (gcda_file_path : pystr) (refs : list nat) (last : option nat)
    (store : parsers) : pyres (option nat * parsers) :=
  match refs with
  | [] => Ok (last, store)
  | r :: refs =>
      p ← from_opt KeyError (store !! r);
      match gcno_Parse p with
      | Raise FileFormatError => Ok (last, <[r := parser_after_error p]> store)
      | Raise e => Raise e
      | Ok (summary, p) =>
          let store := <[r := p]> store in
          if existsb (function_matches gcda_file_path) (function_items summary).*2
          then Ok (Some r, store)
          else FindGcnoSummary gcda_file_path refs (Some r) store
      end
  end.

Definition set_summary (fs : FileSummary) (p : GCNOParser) : GCNOParser :=
  mk_gcno (gp_stream p) fs (gp_parsed p).

(** ** One counters file *)
Definition process_gcda (exclude_paths : list pystr) (dict : checksum_dict)
    (st : parsers * gmap pystr (list Z)) (gcda : pystr * pystr)
    : pyres (parsers * gmap pystr (list Z)) :=
  let '(store, coverage_dict) := st in
  let '(gcda_name, content) := gcda in
  if contains GEN_TAG gcda_name then Ok st
  else
    gcda_file_parser ← gcov_init GCDA_MAGIC content;
    match dict !! gs_checksum gcda_file_parser with
    | None => Ok st
    | Some gcno_file_parsers =>
        '(gcno_summary, store) ← FindGcnoSummary (rsplit_head Byte.x2e gcda_name) gcno_file_parsers None store;
        match gcno_summary with
        | None => Ok (store, coverage_dict)
        | Some r =>
            p ← from_opt KeyError (store !! r);
            match gcda_Parse (gp_summary p) gcda_file_parser with
            | Raise FileFormatError =>
                Ok (<[r := set_summary (summary_after_error (gp_summary p) content) p]> store, coverage_dict)
            | Raise e => Raise e
            | Ok fs =>
                coverage_dict ← GenerateLineCoverageVector (function_items fs).*2 exclude_paths coverage_dict;
                Ok (<[r := set_summary fs p]> store, coverage_dict)
            end
        end
    end.

(** ** The paths to leave out: a directory gets a final slash *)
Definition exclude_entry (path : pystr) : pystr :=
  let base_name := basename path in
  if negb (bool_decide (base_name = [])) && negb (contains (bs ".") base_name)
  then if endswith sep path then path else path ++ sep
  else path.
Definition exclude_paths_of (exclude_coverage_path : list pystr) : list pystr :=
  (exclude_entry <$> exclude_coverage_path) ++ DEFAULT_EXCLUDE_PATHS.

(** ** The project of a source file *)

(** [s.split(os.sep, 1)[-1]], when there is a separator. *)
Fixpoint after_first_sep (s : pystr) : option pystr :=
  match s with
  | [] => None
  | b :: s => if decide (b = slash) then Some s else after_first_sep s
  end.

(** The first match, as the name and the path of the project and its revision. *)
Fixpoint find_project (src_file_path : pystr) (revision_dict : list (pystr * pystr))
    : option (pystr * pystr * pystr) :=
  match revision_dict with
  | [] => None
  | (project_name, revision) :: revision_dict =>
      if startswith project_name src_file_path then Some (project_name, project_name, revision)
      else
        match after_first_sep (normpath project_name) with
        | Some part =>
            if startswith part src_file_path then Some (project_name, part, revision)
            else find_project src_file_path revision_dict
        | None => find_project src_file_path revision_dict
        end
  end.

Record coverage_message := mk_coverage {
  total_line_count : Z;
  covered_line_count : Z;
  line_coverage_vector : list Z;
  file_path : pystr;
  c_revision : pystr;
  project_name : pystr;
}.

Definition report_source (cwd : pystr) (revision_dict : list (pystr * pystr))
    (messages : list coverage_message) (source : pystr * list Z) : pyres (list coverage_message) :=
  let '(src_file_path, coverage_vec) := source in
  match find_project src_file_path revision_dict with
  | None => Ok messages
  | Some (git_project_name, git_project_path, revision) =>
      if decide (revision = []) then Ok messages
      else
        let '(total_count, covered_count) := GetCoverageStats coverage_vec in
        rel ← relpath cwd src_file_path git_project_path;
        Ok (messages ++ [mk_coverage total_count covered_count coverage_vec rel revision git_project_name])
  end.

(** ** [_AutoProcess]: the messages it adds to the report *)
Definition coverage_of (fuel : nat) (cov_zip gcda_dict : list (pystr * pystr))
    (exclude_coverage_path : list pystr) : pyres (gmap pystr (list Z)) :=
  '(store, dict) ← GetChecksumGcnoDict fuel cov_zip;
  '(_, coverage_dict) ← foldlM_py (process_gcda (exclude_paths_of exclude_coverage_path) dict)
                          (store, ∅) gcda_dict;
  Ok coverage_dict.

Definition AutoProcess (fuel : nat) (cwd : pystr) (cov_zip gcda_dict revision_dict : list (pystr * pystr))
    (exclude_coverage_path : list pystr) : pyres (list coverage_message) :=
  coverage_dict ← coverage_of fuel cov_zip gcda_dict exclude_coverage_path;
  foldlM_py (report_source cwd revision_dict) [] (coverage_items coverage_dict).
End coverage.

(** ** The dictionary of checksums *)

(** The parsers of checksum [c], in the order of the build. *)
Definition with_checksum (c : Z) (store : parsers) : list nat :=
  filter (fun r => checksum <$> store !! r = Some c) (seq 0 (length store)).

Definition indexes (store : parsers) (dict : checksum_dict) : Prop :=
  forall c, dict !! c = match with_checksum c store with [] => None | l => Some l end.

Lemma with_checksum_snoc c store p :
  with_checksum c (store ++ [p]) =
  with_checksum c store ++ if decide (checksum p = c) then [length store] else [].
Proof.
  unfold with_checksum. rewrite length_app, seq_app, filter_app. cbn [length seq Nat.add]. f_equal.
  - apply filter_ext_elem. intros r Hr%elem_of_seq.
    by rewrite lookup_app_l by lia.
  - rewrite filter_cons, filter_nil. rewrite (proj2 (lookup_snoc_Some p store (length store) p)) by auto.
    cbn. case_decide as H1; case_decide as H2; congruence.
Qed.

Lemma add_parser_indexes store dict p :
  indexes store dict -> indexes (store ++ [p]) (add_parser (store, dict) p).2.
Proof.
  intros H c. cbn. rewrite with_checksum_snoc. case_decide as Hc.
  - subst c. rewrite lookup_insert_eq, H. by destruct (with_checksum _ store) eqn:E.
  - by rewrite lookup_insert_ne, app_nil_r by done.
Qed.

Lemma add_gcnos contents store new dict :
  indexes store dict -> mapM_py new_GCNOParser contents.*2 = Ok new ->
  exists dict', foldlM_py add_gcno (store, dict) contents = Ok (store ++ new, dict') /\
    indexes (store ++ new) dict'.
Proof.
  revert store new dict. induction contents as [|[n c] contents IH]; intros store new dict Hi; cbn [fmap list_fmap mapM_py snd].
  - intros [= <-]. exists dict. by rewrite app_nil_r.
  - intros (p & Hp & (ps & Hps & [= <-])%pyres_bind_Ok)%pyres_bind_Ok.
    assert (add_gcno (store, dict) (n, c) = Ok (add_parser (store, dict) p)) as Hadd.
    { unfold add_gcno. cbn [snd] in *. by rewrite Hp. }
    cbn [foldlM_py]. rewrite Hadd. cbn [mbind pyres_bind].
    destruct (IH (store ++ [p]) ps (add_parser (store, dict) p).2) as (dict' & E & Hi');
      [by apply add_parser_indexes|done|].
    exists dict'. rewrite <- app_assoc in E, Hi'. done.
Qed.

Lemma mapM_py_app {A B} (f : A -> pyres B) l k r :
  mapM_py f (l ++ k) = Ok r ->
  exists r1 r2, mapM_py f l = Ok r1 /\ mapM_py f k = Ok r2 /\ r = r1 ++ r2.
Proof.
  intros (r1 & r2 & H1 & H2 & ->)%mapM_py_Ok%Forall2_app_inv_l.
  exists r1, r2. by rewrite !mapM_py_Ok.
Qed.

(** The notes of the archives, in the order in which they are read. *)
Definition gcno_contents (archive_items : gmap pystr pystr -> list (pystr * pystr))
    (archives : list Archive) : list pystr :=
  mjoin ((fun a => (archive_items (files a)).*2) <$> archives).

Lemma add_builds archive_items fuel cov_zip archives store :
  Forall2 (fun m a => archive_Parse fuel (new_Archive m.2) = Some (Ok a))
    (instrumented_modules cov_zip) archives ->
  mapM_py new_GCNOParser (gcno_contents archive_items archives) = Ok store ->
  exists dict, GetChecksumGcnoDict archive_items fuel cov_zip = Ok (store, dict) /\ indexes store dict.
Proof.
  unfold GetChecksumGcnoDict. intros HF.
  enough (H : forall st0 dict0, indexes st0 dict0 ->
    mapM_py new_GCNOParser (gcno_contents archive_items archives) = Ok store ->
    exists dict, foldlM_py (add_module archive_items fuel) (st0, dict0) (instrumented_modules cov_zip)
      = Ok (st0 ++ store, dict) /\ indexes (st0 ++ store) dict).
  { by apply (H [] ∅). }
  revert store. induction HF as [|m a ms archives Ha _ IH]; intros store st0 dict0 Hi.
  - intros [= <-]. exists dict0. by rewrite app_nil_r.
  - intros (s1 & s2 & H1 & H2 & ->)%mapM_py_app.
    destruct (add_gcnos _ _ _ _ Hi H1) as (dict1 & Hd1 & Hi1).
    assert (add_module archive_items fuel (st0, dict0) m = Ok (st0 ++ s1, dict1)) as Hm.
    { unfold add_module. by rewrite Ha. }
    cbn [foldlM_py]. rewrite Hm. cbn [mbind pyres_bind].
    destruct (IH s2 _ _ Hi1 H2) as (dict & Hd & Hi2). exists dict. by rewrite app_assoc.
Qed.

(** When the archives of the zip are well-formed and hold notes with a valid
    header, the dictionary gives for each checksum the parsers of all the notes
    with that checksum, in the order of the build, and nothing else. *)
Theorem GetChecksumGcnoDict_spec archive_items fuel cov_zip archives store :
  Forall2 (fun m a => archive_Parse fuel (new_Archive m.2) = Some (Ok a))
    (instrumented_modules cov_zip) archives ->
  mapM_py new_GCNOParser (gcno_contents archive_items archives) = Ok store ->
  exists dict, GetChecksumGcnoDict archive_items fuel cov_zip = Ok (store, dict) /\ indexes store dict.
Proof. apply add_builds. Qed.

(** ** The objects that the counters files share *)
Section pipeline.
Context (function_items : FileSummary -> list (Z * FunctionSummary)).
Context (parser_after_error : GCNOParser -> GCNOParser).
Context (summary_after_error : FileSummary -> pystr -> FileSummary).

Local Abbreviation find := (FindGcnoSummary function_items parser_after_error).
Local Abbreviation process := (process_gcda function_items parser_after_error summary_after_error).

(** What one counters file says on its own, with the notes as they were read: the
    functions with their counts, none when the file is skipped. *)
Definition unit_functions (store : parsers) (dict : checksum_dict) (gcda : pystr * pystr)
    : pyres (list FunctionSummary) :=
  if contains GEN_TAG gcda.1 then Ok []
  else
    s ← gcov_init GCDA_MAGIC gcda.2;
    match dict !! gs_checksum s with
    | None => Ok []
    | Some refs =>
        r ← find (rsplit_head Byte.x2e gcda.1) refs None store;
        match r.1 with
        | None => Ok []
        | Some i =>
            p ← from_opt KeyError (r.2 !! i);
            match gcda_Parse (gp_summary p) s with
            | Raise FileFormatError => Ok []
            | Raise e => Raise e
            | Ok fs => Ok (function_items fs).*2
            end
        end
    end.

Definition same_on (refs : list nat) (store store' : parsers) : Prop :=
  forall r, r ∈ refs -> store !! r = store' !! r.

Definition same_outside (refs : list nat) (store store' : parsers) : Prop :=
  forall r, r ∉ refs -> store' !! r = store !! r.

(** [_FindGcnoSummary] only looks at its own parsers, and only changes them. *)
Lemma find_frame path all refs last store store' o τ :
  refs ⊆ all -> (forall i, last = Some i -> i ∈ all) ->
  same_on all store store' -> find path refs last store = Ok (o, τ) ->
  (forall i, o = Some i -> i ∈ all) /\
  exists τ', find path refs last store' = Ok (o, τ') /\ same_on all τ τ' /\
    forall r, r ∉ all -> τ' !! r = store' !! r.
Proof.
  revert last store store'. induction refs as [|r refs IH]; intros last store store' Hsub Hlast Hsame;
    cbn [FindGcnoSummary].
  { intros [= <- <-]. split; [done|]. by exists store'. }
  assert (Hr : r ∈ all) by set_solver.
  assert (Hsub' : refs ⊆ all) by set_solver.
  rewrite <- (Hsame r Hr). destruct (store !! r) as [p|] eqn:Hp; [|done]. cbn [from_opt mbind pyres_bind].
  assert (Hput : forall p', same_on all (<[r := p']> store) (<[r := p']> store') /\
    forall i, i ∉ all -> <[r := p']> store' !! i = store' !! i).
  { intros p'. pose proof (Hsame r Hr) as Hr'. rewrite Hp in Hr'. symmetry in Hr'.
    apply lookup_lt_Some in Hp, Hr'. split.
    - intros i Hi. destruct (decide (i = r)) as [->|]; [by rewrite !list_lookup_insert_eq|].
      rewrite !list_lookup_insert_ne by done. by apply Hsame.
    - intros i Hi. apply list_lookup_insert_ne. set_solver. }
  destruct (gcno_Parse p) as [[fs p']|e].
  - destruct (existsb _ _).
    + intros [= <- <-]. split; [by intros i [= <-]|]. eexists. split; [done|]. apply Hput.
    + intros Hrun. destruct (IH (Some r) (<[r := p']> store) (<[r := p']> store') Hsub')
        as (Ho & τ' & Hτ & Hs & Hout); [by intros i [= <-]|apply Hput|exact Hrun|].
      split; [done|]. exists τ'. split; [done|]. split; [done|]. intros i Hi.
      rewrite Hout by done. by apply Hput.
  - destruct e; try done. intros [= <- <-]. split; [done|]. eexists. split; [done|]. apply Hput.
Qed.

Definition gcda_checksum (gcda : pystr * pystr) : option Z :=
  match gcov_init GCDA_MAGIC gcda.2 with Ok s => Some (gs_checksum s) | Raise _ => None end.
(** The parsers that a counters file may look at. *)
Definition refs_of (dict : checksum_dict) (gcda : pystr * pystr) : list nat :=
  default [] (gcda_checksum gcda ≫= fun c => dict !! c).

Lemma refs_of_checksum store dict gcda r :
  indexes store dict -> r ∈ refs_of dict gcda ->
  exists c, gcda_checksum gcda = Some c /\ checksum <$> store !! r = Some c.
Proof.
  intros Hi. unfold refs_of. destruct (gcda_checksum gcda) as [c|]; cbn; [|by intros ?%not_elem_of_nil].
  rewrite Hi. intros Hr. exists c. split; [done|].
  destruct (with_checksum c store) as [|x l] eqn:E; cbn in Hr; [by apply not_elem_of_nil in Hr|].
  rewrite <- E in Hr. by apply list_elem_of_filter in Hr as [? _].
Qed.

Lemma refs_disjoint store dict g gs g' r :
  indexes store dict -> NoDup (omap gcda_checksum (g :: gs)) -> g' ∈ gs -> r ∈ refs_of dict g' ->
  r ∉ refs_of dict g.
Proof.
  intros Hi Hnd Hg' (c' & Hc' & E')%(refs_of_checksum _ _ _ _ Hi) (c & Hc & E)%(refs_of_checksum _ _ _ _ Hi).
  cbn [omap list_omap] in Hnd. rewrite Hc in Hnd. apply NoDup_cons in Hnd as [Hn _].
  apply Hn, list_elem_of_omap. exists g'. split; [done|]. congruence.
Qed.

(** One turn of the loop, when the parsers of this file are as they were read. *)
Lemma process_step exclude_paths dict store0 store coverage_dict gcda fns :
  unit_functions store0 dict gcda = Ok fns -> same_on (refs_of dict gcda) store0 store ->
  exists store', same_outside (refs_of dict gcda) store store' /\
    process exclude_paths dict (store, coverage_dict) gcda =
      (d ← GenerateLineCoverageVector fns exclude_paths coverage_dict; Ok (store', d)).
Proof.
  destruct gcda as [name content]. unfold unit_functions, process_gcda, refs_of, gcda_checksum.
  cbn [fst snd]. destruct (contains GEN_TAG name).
  { intros [= <-] _. by exists store. }
  destruct (gcov_init GCDA_MAGIC content) as [s|e]; [|done]. cbn [mbind pyres_bind option_bind].
  destruct (dict !! gs_checksum s) as [refs|]; cbn [default];
    [|intros [= <-] _; by exists store].
  intros ([o τ] & Hf & Hu)%pyres_bind_Ok Hsame.
  destruct (find_frame (rsplit_head Byte.x2e name) refs refs None store0 store o τ) as (Ho & τ' & Hf' & Hs & Hout); [done..|].
  rewrite Hf'. cbn [mbind pyres_bind fst snd] in *.
  destruct o as [i|]; [|injection Hu as <-; by exists τ'].
  rewrite <- (Hs i) by auto. destruct (τ !! i) as [p|] eqn:Hp; [|done]. cbn [from_opt mbind pyres_bind] in *.
  assert (Hput : forall p', same_outside refs store (<[i := p']> τ')).
  { intros p' r Hr. rewrite list_lookup_insert_ne by (intros ->; auto). by apply Hout. }
  destruct (gcda_Parse (gp_summary p) s) as [fs|[]]; try done; injection Hu as <-; eauto.
Qed.

Lemma coverage_of_units archive_items fuel cov_zip gcda_dict exclude store dict units :
  GetChecksumGcnoDict archive_items fuel cov_zip = Ok (store, dict) -> indexes store dict ->
  NoDup (omap gcda_checksum gcda_dict) ->
  mapM_py (unit_functions store dict) gcda_dict = Ok units ->
  coverage_of archive_items function_items parser_after_error summary_after_error
    fuel cov_zip gcda_dict exclude
  = GenerateLineCoverageVector (mjoin units) (exclude_paths_of exclude) ∅.
Proof.
  intros Hg Hi Hnd Hu. unfold coverage_of. rewrite Hg. cbn [mbind pyres_bind].
  set (ex := exclude_paths_of exclude).
  enough (H : forall st cov, (forall g, g ∈ gcda_dict -> same_on (refs_of dict g) store st) ->
    (r ← foldlM_py (process ex dict) (st, cov) gcda_dict; Ok r.2)
    = GenerateLineCoverageVector (mjoin units) ex cov).
  { rewrite <- (H store ∅) by done. by destruct (foldlM_py _ _ _) as [[]|]. }
  apply mapM_py_Ok in Hu. induction Hu as [|g fns gs units Hg1 Hu IH]; intros st cov Hsame; [done|].
  cbn [foldlM_py]. destruct (process_step ex dict store st cov g fns Hg1) as (st1 & Hout & ->);
    [apply Hsame; left|].
  unfold GenerateLineCoverageVector. cbn [mjoin list_join]. rewrite foldlM_py_app.
  destruct (foldlM_py _ cov fns) as [cov1|e]; [|done]. cbn [mbind pyres_bind].
  apply IH.
  - cbn [omap list_omap] in Hnd. destruct (gcda_checksum g); [by apply NoDup_cons in Hnd as [_ ?]|done].
  - intros g' Hg' r Hr. rewrite (Hsame g' ltac:(by right) r Hr). symmetry. apply Hout.
    by eapply refs_disjoint.
Qed.
End pipeline.

(** The loop over the counters files is the plain pipeline: when no two files
    have the same checksum, every file is matched with the notes as the build
    holds them, and the result is the line counts of the functions of all files
    together; files of generated code, without notes or with unreadable notes or
    counters are left out.  The sharing of the parsers between the dictionary and
    the turns of the loop does not show. *)
Theorem coverage_of_pipeline function_items parser_after_error summary_after_error archive_items fuel cov_zip gcda_dict exclude store dict units :
  GetChecksumGcnoDict archive_items fuel cov_zip = Ok (store, dict) -> indexes store dict ->
  NoDup (omap gcda_checksum gcda_dict) ->
  mapM_py (unit_functions function_items parser_after_error store dict) gcda_dict = Ok units ->
  coverage_of archive_items function_items parser_after_error summary_after_error
    fuel cov_zip gcda_dict exclude
  = GenerateLineCoverageVector (mjoin units) (exclude_paths_of exclude) ∅.
Proof. apply coverage_of_units. Qed.

(** ** From the counters of a run to the lines *)

(** The notes of a unit, and the counters of a run of it. *)
Definition gcno_of (en : endian) (v : pystr) (newer : bool) (ck : Z) (secs : list section) : pystr :=
  GcovStream.header GCNO_MAGIC en v ck ++ mjoin (encode_section newer en <$> secs).
Definition gcda_of (en : endian) (v : pystr) (newer : bool) (ck : Z) (fs : FileSummary) (es : list entry)
    : pystr :=
  GcovStream.header GCDA_MAGIC en v ck ++ mjoin (encode_entry newer en fs <$> es).

Lemma gcno_Parse_summary p fs p' : gcno_Parse p = Ok (fs, p') -> gp_summary p' = fs.
Proof.
  unfold gcno_Parse. destruct (gp_parsed p); [by intros [= <- <-]|].
  by intros (? & _ & [= <- <-])%pyres_bind_Ok.
Qed.

(** One parser: whatever the path, it is the one. *)
Lemma find_single items pe path r p fs p' store :
  store !! r = Some p -> gcno_Parse p = Ok (fs, p') ->
  FindGcnoSummary items pe path [r] None store = Ok (Some r, <[r := p']> store).
Proof. intros Hp Hr. cbn. rewrite Hp. cbn. rewrite Hr. by destruct (existsb _ _). Qed.

Lemma if_decide_true {P : Prop} `{Decision P} (A B : Prop) : (if decide P then A else B) -> P -> A.
Proof. by destruct (decide P). Qed.


(** ** A concrete build *)
Lemma Ok_pair_2 {A B} (a a' : A) (b b' : B) : Ok (a, b) = Ok (a', b') -> b = b'.
Proof. by intros [=]. Qed.

Module Sample.
Definition gcnodir : pystr :=
  encode_archive blank_meta [] [mk_member (Short (bs "a.gcno")) blank_meta (sample_file Little)].
Definition cov_zip : list (pystr * pystr) := [(bs "readme.txt", []); (bs "lib.gcnodir", gcnodir)].
Definition archive : Archive :=
  match archive_Parse 10 (new_Archive gcnodir) with
  | Some (Ok a) => a
  | _ => new_Archive []
  end.
Definition store : parsers :=
  match mapM_py new_GCNOParser (gcno_contents map_to_list [archive]) with Ok l => l | Raise _ => [] end.
(** Another run of the sample function: the branch was always taken. *)
Definition other_entry : entry := mk_entry 1 2 3 (fun a => nth a [2; 2; 0; 2; 2] 0)%Z.
Definition gcda (e : entry) : pystr := gcda_of Little sample_version true 7 sample_summary [e].
Definition path : pystr := bs "/data/misc/trace/1/a.gcda".
Definition coverage (gcda_dict : list (pystr * pystr)) : pyres (gmap pystr (list Z)) :=
  coverage_of map_to_list map_to_list id (fun fs _ => fs) 10 cov_zip gcda_dict [].

Lemma archives_parse : Forall2 (fun m a => archive_Parse 10 (new_Archive m.2) = Some (Ok a))
  (instrumented_modules cov_zip) [archive].
Proof.
  assert (instrumented_modules cov_zip = [(bs "lib.gcnodir", gcnodir)]) as -> by (vm_compute; reflexivity).
  constructor; [vm_compute; reflexivity|constructor].
Qed.
Lemma store_parse : mapM_py new_GCNOParser (gcno_contents map_to_list [archive]) = Ok store.
Proof. vm_compute. reflexivity. Qed.

Definition dict : checksum_dict := {[7%Z := [0]]}.
Lemma dict_built : GetChecksumGcnoDict map_to_list 10 cov_zip = Ok (store, dict).
Proof. vm_compute. reflexivity. Qed.
Lemma dict_indexes : indexes store dict.
Proof.
  destruct (add_builds map_to_list 10 cov_zip [archive] store archives_parse store_parse)
    as (d & Hg & Hi).
  rewrite dict_built in Hg. apply Ok_pair_2 in Hg. rewrite Hg. exact Hi.
Qed.
Definition units : list (list FunctionSummary) :=
  match mapM_py (unit_functions map_to_list id store dict) [(path, gcda sample_entry)] with
  | Ok l => l
  | Raise _ => []
  end.
Lemma units_parse : mapM_py (unit_functions map_to_list id store dict) [(path, gcda sample_entry)] = Ok units.
Proof. vm_compute. reflexivity. Qed.

(** The counts of lines 10, 11, 12 and 14. *)
Definition lines (d : pyres (gmap pystr (list Z))) : pyres (list Z) :=
  d ← d; v ← from_opt KeyError (d !! bs "a.cc"); mapM_py (fun i => py_get v i) [9; 10; 11; 13]%Z.
End Sample.

(** Two processes that load the same object leave two counters files of one
    checksum.  The runs by themselves give 7, 7, 3, 7 and 2, 2, 2, 2; together they
    do not give the sums 9, 9, 5, 9: the arcs that the first file resolved keep
    their counts when the second is read, and the result depends on the order. *)
Example coverage_of_two_processes :
  Sample.lines (Sample.coverage [(bs "1/a.gcda", Sample.gcda sample_entry)]) = Ok [7; 7; 3; 7]%Z /\
  Sample.lines (Sample.coverage [(bs "2/a.gcda", Sample.gcda Sample.other_entry)]) = Ok [2; 2; 2; 2]%Z /\
  Sample.lines (Sample.coverage [(bs "1/a.gcda", Sample.gcda sample_entry);
    (bs "2/a.gcda", Sample.gcda Sample.other_entry)]) = Ok [14; 14; 5; 10]%Z /\
  Sample.lines (Sample.coverage [(bs "2/a.gcda", Sample.gcda Sample.other_entry);
    (bs "1/a.gcda", Sample.gcda sample_entry)]) = Ok [4; 4; 5; 8]%Z.
Proof. vm_compute. repeat split. Qed.

(** A malformed archive ends the processing of the whole build: the handler
    names a variable that does not exist. *)
Example GetChecksumGcnoDict_malformed :
  GetChecksumGcnoDict map_to_list 10 [(bs "a.gcnodir", bs "no archive")] = Raise NameError.
Proof. vm_compute. reflexivity. Qed.

Lemma GetChecksumGcnoDict_spec_witness :
  exists dict, GetChecksumGcnoDict map_to_list 10 Sample.cov_zip = Ok (Sample.store, dict)
    /\ indexes Sample.store dict.
Proof.
  apply (GetChecksumGcnoDict_spec map_to_list 10 Sample.cov_zip [Sample.archive]);
    [exact Sample.archives_parse|exact Sample.store_parse].
Defined.

Lemma coverage_of_pipeline_witness :
  Sample.coverage [(Sample.path, Sample.gcda sample_entry)]
  = GenerateLineCoverageVector (mjoin Sample.units) (exclude_paths_of []) ∅.
Proof.
  apply (coverage_of_pipeline map_to_list id (fun fs _ => fs) map_to_list 10 Sample.cov_zip
    [(Sample.path, Sample.gcda sample_entry)] [] Sample.store Sample.dict Sample.units).
  - exact Sample.dict_built.
  - exact Sample.dict_indexes.
  - vm_compute. repeat constructor. by intros ?%not_elem_of_nil.
  - exact Sample.units_parse.
Defined.


(** ** The messages of the report *)

(** The project of a source file is the first whose name, or whose path without
    its first component, the file name starts with. *)
Definition in_project (src : pystr) (project : pystr) (path : pystr) : Prop :=
  (path = project \/ after_first_sep (normpath project) = Some path) /\ exists rest, src = path ++ rest.

Lemma find_project_spec src revisions :
  match find_project src revisions with
  | Some (name, path, revision) =>
      exists pre post, revisions = pre ++ (name, revision) :: post /\ in_project src name path /\
        forall q rev p, (q, rev) ∈ pre -> ~ in_project src q p
  | None => forall q rev p, (q, rev) ∈ revisions -> ~ in_project src q p
  end.
Proof.
  induction revisions as [|[name rev] revisions IH]; cbn [find_project];
    [by intros q r p ?%not_elem_of_nil|].
  destruct (startswith name src) eqn:E1.
  { exists [], revisions. split; [done|]. split; [|by intros q r p ?%not_elem_of_nil].
    split; [by left|by apply startswith_spec]. }
  destruct (after_first_sep (normpath name)) as [part|] eqn:E2;
    [destruct (startswith part src) eqn:E3|].
  { exists [], revisions. split; [done|]. split; [|by intros q r p ?%not_elem_of_nil].
    split; [by right|by apply startswith_spec]. }
  all: assert (Hn : forall p, ~ in_project src name p) by
    (intros p [[->|Hp] Hs%startswith_spec]; [congruence|]; rewrite E2 in Hp; congruence).
  all: destruct (find_project src revisions) as [[[n p] r]|];
    [destruct IH as (pre & post & -> & Hi & Hpre); exists ((name, rev) :: pre), post;
     split; [done|]; split; [done|]; intros q r' p' [[= -> ->]|?]%elem_of_cons; eauto
    |intros q r' p' [[= -> ->]|?]%elem_of_cons; eauto].
Qed.

Definition message_of (cwd : pystr) (revisions : list (pystr * pystr)) (source : pystr * list Z)
    (m : coverage_message) : Prop :=
  exists path, find_project source.1 revisions = Some (project_name m, path, c_revision m) /\
    in_project source.1 (project_name m) path /\ (project_name m, c_revision m) ∈ revisions /\
    c_revision m <> [] /\
    line_coverage_vector m = source.2 /\
    relpath cwd source.1 path = Ok (file_path m) /\
    total_line_count m = Z.of_nat (length (filter (fun l => 0 <= l)%Z source.2)) /\
    covered_line_count m = Z.of_nat (length (filter (fun l => 0 < l)%Z source.2)) /\
    (0 <= covered_line_count m <= total_line_count m)%Z.

Definition has_revision (revisions : list (pystr * pystr)) (source : pystr * list Z) : bool :=
  match find_project source.1 revisions with
  | Some (_, _, revision) => bool_decide (revision <> [])
  | None => false
  end.

Lemma report_source_message cwd revisions ms source ms' :
  report_source cwd revisions ms source = Ok ms' ->
  exists new, ms' = ms ++ new /\
    Forall2 (message_of cwd revisions) (if has_revision revisions source then [source] else []) new.
Proof.
  destruct source as [src vec]. unfold report_source, has_revision. cbn [fst].
  pose proof (find_project_spec src revisions) as Hf.
  destruct (find_project src revisions) as [[[name path] revision]|] eqn:E;
    [|intros [= <-]; exists []; by rewrite app_nil_r].
  destruct Hf as (pre & post & Hl & Hi & _). case_decide as Hr.
  { intros [= <-]. exists []. rewrite app_nil_r. by rewrite bool_decide_eq_false_2 by tauto. }
  pose proof (GetCoverageStats_spec vec) as (Hs & Hb & _).
  destruct (GetCoverageStats vec) as [total covered]. injection Hs as Ht Hc.
  intros (rel & Hrel & [= <-])%pyres_bind_Ok. eexists. split; [done|].
  rewrite bool_decide_eq_true_2 by done. constructor; [|constructor].
  exists path. cbn in *. split_and!; try done; try lia. rewrite Hl. set_solver.
Qed.

(** The report has one message for each source file of the coverage that
    belongs to a project with a revision, in order: the first project whose name
    (or its path without the first component) the file name starts with.  It
    carries that project and revision, the path relative to the project, the line
    counts, and the numbers of executable and of executed lines. *)
Theorem AutoProcess_messages ai fi ci pe se fuel cwd cov_zip gcda_dict revisions exclude ms :
  AutoProcess ai fi ci pe se fuel cwd cov_zip gcda_dict revisions exclude = Ok ms ->
  exists d, coverage_of ai fi pe se fuel cov_zip gcda_dict exclude = Ok d /\
    Forall2 (message_of cwd revisions) (filter (fun s => has_revision revisions s = true) (ci d)) ms.
Proof.
  intros (d & Hd & Hf)%pyres_bind_Ok. exists d. split; [done|]. revert Hf.
  enough (H : forall l ms0, foldlM_py (report_source cwd revisions) ms0 l = Ok ms ->
    exists new, ms = ms0 ++ new /\
      Forall2 (message_of cwd revisions) (filter (fun s => has_revision revisions s = true) l) new).
  { intros (new & -> & Hnew)%H. done. }
  induction l as [|s l IH]; intros ms0; cbn [foldlM_py].
  { intros [= <-]. exists []. by rewrite app_nil_r. }
  intros (ms1 & (new1 & -> & H1)%report_source_message & (new2 & -> & H2)%IH)%pyres_bind_Ok.
  exists (new1 ++ new2). split; [by rewrite app_assoc|]. rewrite filter_cons.
  destruct (has_revision revisions s); cbn; [|by inv H1].
  apply Forall2_cons_inv_l in H1 as (m & rest & Hm & ->%Forall2_nil_inv_l & ->). by constructor.
Qed.

Lemma AutoProcess_messages_witness :
  exists d, Sample.coverage [(Sample.path, Sample.gcda sample_entry)] = Ok d /\
    Forall2 (message_of (bs "/w") [(bs "x", bs "r0"); (bs "vendor/a", bs "r1")])
      (filter (fun s => has_revision [(bs "x", bs "r0"); (bs "vendor/a", bs "r1")] s = true) (map_to_list d))
      [mk_coverage 4 4 (replicate 9 (-1) ++ [7; 7; 3; -1; 7])%Z
         (bs "../a.cc") (bs "r1") (bs "vendor/a")].
Proof.
  apply (AutoProcess_messages map_to_list map_to_list map_to_list id (fun fs _ => fs) 10 (bs "/w")
    Sample.cov_zip [(Sample.path, Sample.gcda sample_entry)] [(bs "x", bs "r0"); (bs "vendor/a", bs "r1")] []).
  vm_compute. reflexivity.
Defined.

(** ** [_ManualProcess]: the modules that the configuration names *)
Definition GCDA_SUFFIX : pystr := bs ".gcda".
Record module_config := mk_module {
  MODULE_NAME : option pystr;
  GIT_PROJECT : option (option pystr * option pystr);    (* NAME and PATH *)
}.

(** One note: the counters are looked up by base name, and the source by
    [self._ExtractSourceName], a method that does not exist. *)
Definition manual_gcno (gcda_dict : list (pystr * pystr)) (file : pystr * pystr) : pyres unit :=
  let file_name := basename (rsplit_head Byte.x2e file.1) in
  match ParseGcnoFile file.2 with
  | Raise FileFormatError => Ok tt
  | Raise e => Raise e
  | Ok gcno_summary =>
      if bool_decide (file_name ++ GCDA_SUFFIX ∈ gcda_dict.*1) then Raise AttributeError else Ok tt
  end.

Definition manual_module (archive_items : gmap pystr pystr -> list (pystr * pystr)) (fuel : nat)
    (cov_zip revision_dict gcda_dict : list (pystr * pystr)) (m : module_config) : pyres unit :=
  match MODULE_NAME m, GIT_PROJECT m with
  | Some module_name, Some (Some git_project, Some _) =>
      let name := module_name ++ COVERAGE_SUFFIX in
      match List.find (fun z => bool_decide (z.1 = name)) cov_zip with
      | None => Ok tt
      | Some (_, content) =>
          if bool_decide (git_project ∈ revision_dict.*1) then
            match archive_Parse fuel (new_Archive content) with
            | None => Raise RuntimeError
            | Some (Raise ValueError) => Ok tt
            | Some (Raise e) => Raise e
            | Some (Ok archive) =>
                foldlM_py (fun _ file => manual_gcno gcda_dict file) tt (archive_items (files archive))
            end
          else Ok tt
      end
  | _, _ => Ok tt
  end.

Definition ManualProcess (archive_items : gmap pystr pystr -> list (pystr * pystr)) (fuel : nat)
    (cov_zip revision_dict gcda_dict : list (pystr * pystr)) (modules : list module_config) : pyres unit :=
  foldlM_py (fun _ m => manual_module archive_items fuel cov_zip revision_dict gcda_dict m) tt modules.

(** A note whose counters are found ends the processing; one whose counters are
    keyed by their full path, as [_GetGcdaDict] does, is skipped. *)
Example ManualProcess_sample :
  let modules := [mk_module (Some (bs "lib")) (Some (Some (bs "a"), Some (bs "a")))] in
  ManualProcess map_to_list 10 Sample.cov_zip [(bs "a", bs "r1")] [(bs "a.gcda", [])] modules
    = Raise AttributeError /\
  ManualProcess map_to_list 10 Sample.cov_zip [(bs "a", bs "r1")] [(Sample.path, [])] modules = Ok tt.
Proof. vm_compute. by split. Qed.
