(* ===== verification/BinaryTest.v ===== *)
(** * Tests that are binaries on the device
    ([src/testcases/template/binary_test/] and [gtest_binary_test/])

    The class [BinaryTest] turns the sources of a configuration into files to push
    and test cases, each with the settings of its tag; [GtestBinaryTest] lists the
    cases of a gtest binary and judges its XML reports.  The device's shell, the
    host's file system and the XML parser are arguments: the text a command
    printed, the test for a path, the parsed tree. *)

From Stdlib Require Import Strings.Byte.
From S2P Require Import Prelude PyStr PyPath ListUtils PyVal Signals.

Definition TAG_DELIMITER : pystr := bs "::".
Definition PUSH_DELIMITER : pystr := bs "->".
Definition DEVICE_TMP_DIR : pystr := bs "/data/local/tmp".
Definition SUFFIX_32BIT : pystr := bs "32bit".
Definition SUFFIX_64BIT : pystr := bs "64bit".
Definition DEFAULT_TAG_32 : pystr := bs "_" ++ SUFFIX_32BIT.
Definition DEFAULT_TAG_64 : pystr := bs "_" ++ SUFFIX_64BIT.
Definition DATA_NATIVETEST : pystr := bs "data/nativetest".
Definition DATA_NATIVETEST64 : pystr := DATA_NATIVETEST ++ bs "64".
Definition DEFAULT_LD_LIBRARY_PATH_32 : pystr := bs "/data/local/tmp/32/".
Definition DEFAULT_LD_LIBRARY_PATH_64 : pystr := bs "/data/local/tmp/64/".
Definition COVERAGE_TEST_ENV : pystr := bs "GCOV_PREFIX_OVERRIDE=true GCOV_PREFIX=/data/misc/trace/self".

(** ** The settings of the tags ([setUpClass]) *)
Abbreviation tag_map := (gmap pystr pystr).

(** [tag, path = token.split(delimiter)], when the delimiter occurs. *)
Definition split_pair (delimiter token : pystr) : pyres (pystr * pystr) :=
  match split delimiter token with [tag; path] => Ok (tag, path) | _ => Raise ValueError end.
Definition tag_and_path (token : pystr) : pyres (pystr * pystr) :=
  if contains TAG_DELIMITER token then split_pair TAG_DELIMITER token else Ok ([], token).
(** The same by [find]: only the first delimiter counts. *)
Definition tag_and_rest (token : pystr) : pystr * pystr :=
  match find_sub TAG_DELIMITER token with
  | Some i => (take i token, drop (i + length TAG_DELIMITER) token)
  | None => ([], token)
  end.

Definition set_working_directory (tokens : list pystr) : pyres tag_map :=
  foldlM_py (fun d token => '(tag, path) ← tag_and_path token; Ok (<[tag := path]> d)) ∅ tokens.

(** [envp] and [args]: the settings of one tag add up. *)
Definition add_setting (d : tag_map) (token : pystr) : tag_map :=
  let '(tag, path) := tag_and_rest token in
  <[tag := match d !! tag with Some old => old ++ bs " " ++ path | None => path end]> d.
Definition set_envp (tokens : list pystr) : tag_map := foldl add_setting ∅ tokens.

Definition set_file_path_prefix (tokens : list pystr) : pyres (gmap pystr (list pystr)) :=
  let add tag path (d : gmap pystr (list pystr)) := <[tag := default [] (d !! tag) ++ [path]]> d in
  foldlM_py (fun d token =>
    '(tag, path) ← tag_and_path token;
    Ok (if decide (tag = []) then add DEFAULT_TAG_64 path (add DEFAULT_TAG_32 path d)
        else if decide (is_Some (d !! tag)) then add tag path d else d))
    (<[DEFAULT_TAG_32 := []]> (<[DEFAULT_TAG_64 := []]> ∅)) tokens.

Definition set_ld_library_path (tokens : list pystr) : pyres tag_map :=
  foldlM_py (fun d token =>
    '(tag, path) ← tag_and_path token;
    Ok (<[tag := match d !! tag with Some old => path ++ bs ":" ++ old | None => path end]> d))
    (<[DEFAULT_TAG_32 := DEFAULT_LD_LIBRARY_PATH_32]> (<[DEFAULT_TAG_64 := DEFAULT_LD_LIBRARY_PATH_64]> ∅))
    tokens.

Definition set_profiling_library_path (tokens : list pystr) : pyres tag_map :=
  foldlM_py (fun d token => '(tag, path) ← tag_and_path token; Ok (<[tag := path]> d))
    (<[DEFAULT_TAG_32 := DEFAULT_LD_LIBRARY_PATH_32]> (<[DEFAULT_TAG_64 := DEFAULT_LD_LIBRARY_PATH_64]> ∅))
    tokens.

(** The environment under coverage.  The string is written with [%s] and formatted
    with [str.format], which leaves it as it is. *)
Definition add_coverage_env (envp : tag_map) : tag_map :=
  foldl (fun d tag => <[tag := match d !! tag with Some _ => bs "%s %s" | None => COVERAGE_TEST_ENV end]> d)
    envp [DEFAULT_TAG_32; DEFAULT_TAG_64].

Record settings := mk_settings {
  working_directory : tag_map;
  envp : tag_map;
  args : tag_map;
  ld_library_path : tag_map;
  profiling_library_path : tag_map;
}.

(** ** Sources *)

(** (host path, device path, tag); no tag: the file is only pushed. *)
Definition source : Type := pystr * pystr * option pystr.

Section sources.
Context (cfg : settings) (data_file_path class_name : pystr) (exists_ : pystr -> bool).

Definition GetDefaultBinaryPushDstPath (src tag : pystr) : pystr :=
  let src_lower := lower src in
  let parent_path :=
    if contains DATA_NATIVETEST64 src_lower then sep ++ DATA_NATIVETEST64
    else if contains DATA_NATIVETEST src_lower then sep ++ DATA_NATIVETEST
    else DEVICE_TMP_DIR in
  path_join parent_path [bs "vts_binary_test_" ++ class_name; tag].

Definition ParseTestSource (token : pystr) : pyres (option source) :=
  '(tag, path) ← tag_and_path token;
  '(src, dst) ← (if contains PUSH_DELIMITER path
                 then '(src, dst) ← split_pair PUSH_DELIMITER path; Ok (src, Some dst)
                 else Ok (path, None));
  let absolute := path_join data_file_path [src] in
  if negb (bool_decide (src = [])) && negb (exists_ absolute) then Ok None
  else
    let src := if decide (src = []) then [] else absolute in
    let push_only := bool_decide (dst = Some []) in
    let dst :=
      match dst with
      | Some ((_ :: _) as dst) => dst
      | _ =>
          let parent := default (GetDefaultBinaryPushDstPath src tag) (working_directory cfg !! tag) in
          path_join parent [basename src]
      end in
    Ok (Some (src, dst, if push_only then None else Some tag)).

(** The bitness of the run, as the configuration gives it, if it does. *)
Definition isValidSource (abi_bitness : option pystr) (s : option source) : bool :=
  match s with
  | None => false
  | Some (_, _, None) => true
  | Some (_, _, Some tag) =>
      negb ((endswith SUFFIX_32BIT tag && bool_decide (abi_bitness = Some (bs "64")))
         || (endswith SUFFIX_64BIT tag && bool_decide (abi_bitness = Some (bs "32"))))
  end.
End sources.

(** ** Test cases ([binary_test_case.py]) *)
Record BinaryTestCase := mk_case {
  test_suite : pystr;
  test_name : pystr;
  case_path : pystr;
  tag : pystr;
  case_working_directory : option pystr;
  case_ld_library_path : option pystr;
  case_profiling_library_path : option pystr;
  case_cmd : pystr;
  case_envp : pystr;
  case_args : pystr;
  name_appendix : pystr;
}.

(** The constructor: the setters strip what they are given. *)
Definition new_BinaryTestCase (suite name path tag : pystr) (wd ld profiling : option pystr)
    (cmd envp args appendix : pystr) : BinaryTestCase :=
  mk_case (strip suite) (strip name) (strip path) (strip tag) (strip <$> wd) (strip <$> ld) profiling
    (strip cmd) (strip envp) (strip args) appendix.

Definition PutTag (name tag : pystr) : pystr := name ++ tag.
Definition full_name (c : BinaryTestCase) : pystr :=
  match test_suite c with [] => test_name c | s => s ++ bs "." ++ test_name c end.
Definition display_name (c : BinaryTestCase) : pystr := PutTag (full_name c ++ name_appendix c) (tag c).

(** [prefix % value], nothing when the value is empty or [None]. *)
Definition when (prefix value suffix : pystr) : pystr :=
  match value with [] => [] | _ => prefix ++ value ++ suffix end.

Definition GetRunCommand (c : BinaryTestCase) : pystr :=
  let working_directory := when (bs "cd ") (default [] (case_working_directory c)) (bs " && ") in
  let envp := when (bs "env ") (case_envp c) (bs " ") in
  let ld_library_path := when (bs "LD_LIBRARY_PATH=") (default [] (case_ld_library_path c)) (bs " ") in
  let envp :=
    match ld_library_path with
    | [] => envp
    | _ => match envp with [] => bs "env " ++ ld_library_path ++ bs " " | _ => envp ++ ld_library_path end
    end in
  let cmd := match case_cmd c with [] => case_path c | cmd => cmd end in
  working_directory ++ envp ++ cmd ++ when (bs " ") (case_args c) [].

(** The settings of a tag, and the case of a plain binary. *)
Definition CreateTestCase (cfg : settings) (path tag : pystr) : BinaryTestCase :=
  new_BinaryTestCase [] (basename path) path tag (working_directory cfg !! tag)
    (ld_library_path cfg !! tag) (profiling_library_path cfg !! tag) []
    (default [] (envp cfg !! tag)) (default [] (args cfg !! tag)) [].

(** The files to push, and then the cases of the tagged sources.  [create] is
    the method [CreateTestCase] of the class. *)
Section create.
Context (create : pystr -> pystr -> xres (list BinaryTestCase)).

Definition create_from (cases : list BinaryTestCase) (s : source) : xres (list BinaryTestCase) :=
  match s.2 with
  | None => Ret cases
  | Some tag => new ← create s.1.2 tag; Ret (cases ++ new)
  end.
Definition CreateTestCases_from (sources : list source) : xres (list BinaryTestCase) :=
  foldl (fun acc s => cases ← acc; create_from cases s) (Ret []) sources.
End create.

(** [CreateTestCases]: what is pushed (host path, device path), the tags that
    occur, and the cases; a source that does not parse ends it before. *)
Definition valid_sources (cfg : settings) (data_file_path class_name : pystr) (exists_ : pystr -> bool)
    (abi_bitness : option pystr) (tokens : list pystr) : pyres (list source) :=
  sources ← mapM_py (ParseTestSource cfg data_file_path class_name exists_) tokens;
  Ok (omap id (filter (fun s => isValidSource abi_bitness s = true) (sources : list (option source)))).
Definition pushes (isdir : pystr -> bool) (sources : list source) : list (pystr * pystr) :=
  omap (fun s : source =>
    let '(src, dst, _) := s in
    match src with [] => None | _ => Some (if isdir src then path_join src [bs "."] else src, dst) end)
    sources.
Definition tags_of (sources : list source) : gset pystr := list_to_set (omap snd sources).

(** The names that a filter item stands for; the tags in the order in which the
    set is iterated. *)
Definition expand_item (tags : list pystr) (item : pystr) : pyres (list pystr) :=
  tagged ← (if contains TAG_DELIMITER item
            then '(tag, name) ← split_pair TAG_DELIMITER item; Ok [PutTag name tag]
            else Ok []);
  Ok (tagged ++ (PutTag item <$> tags)).
Definition ExpandListItemTags (tags input_list : list pystr) : pyres (list pystr) :=
  l ← mapM_py (expand_item tags) input_list; Ok (mjoin (l : list (list pystr))).

(** ** Gtest cases ([gtest_test_case.py], [gtest_binary_test.py]) *)
Definition MAX_FILENAME_LEN : nat := 255.
Definition MAX_PATH_LEN : nat := N.to_nat 4096.

(** [posixpath.dirname] *)
Definition dirname (p : pystr) : pystr :=
  let head := take (length p - length (basename p)) p in
  if forallb (is_byte slash) head then head else rstrip_by (is_byte slash) head.

(** [re.sub(r'\W+', '_', s)]: each run of other characters is one underscore. *)
Definition is_word_char (b : Byte.byte) : bool :=
  (((48 <=? byteZ b) && (byteZ b <=? 57)) || ((65 <=? byteZ b) && (byteZ b <=? 90))
   || ((97 <=? byteZ b) && (byteZ b <=? 122)) || (byteZ b =? 95))%Z.
Fixpoint sub_nonword (in_run : bool) (s : pystr) : pystr :=
  match s with
  | [] => []
  | b :: s =>
      if is_word_char b then b :: sub_nonword false s
      else if in_run then sub_nonword true s else Byte.x5f :: sub_nonword true s
  end.

(** The setter of [output_file_path]; [uuid] is the random name it would take. *)
Definition set_output_file_path (uuid path : pystr) : pystr :=
  let output_file_path := normpath (strip path) in
  let output_base_name := basename output_file_path in
  let output_dir_name := dirname output_file_path in
  let '(output_file_path, output_base_name) :=
    if MAX_FILENAME_LEN <? length output_base_name then
      let output_base_name := uuid ++ bs ".xml" in
      (path_join output_dir_name [output_base_name], output_base_name)
    else (output_file_path, output_base_name) in
  if MAX_PATH_LEN <? length output_file_path then output_base_name else output_file_path.

Definition default_output_file_path (uuid : pystr) (c : BinaryTestCase) : pystr :=
  set_output_file_path uuid
    (dirname (case_path c) ++ bs "/gtest_output_" ++ sub_nonword false (display_name c) ++ bs ".xml").

(** [GtestTestCase.GetRunCommand]: run the case, then print its report.  Without
    a path this is the first call, which sets the default one. *)
Definition GtestRunCommand (c : BinaryTestCase) (uuid : pystr) (output_file_path test_name : option pystr)
    : list pystr :=
  let output := match output_file_path with
                | Some ((_ :: _) as p) => set_output_file_path uuid p
                | _ => default_output_file_path uuid c
                end in
  let test := match test_name with Some ((_ :: _) as n) => n | _ => full_name c end in
  [GetRunCommand c ++ bs " --gtest_filter=" ++ test ++ bs " --gtest_output=xml:" ++ output;
   bs "cat " ++ output ++ bs " && rm -rf " ++ output].

(** *** The list of tests that a gtest binary prints *)
Definition newline : pystr := [Byte.x0a].
Fixpoint list_lines (test_suite : pystr) (lines : list pystr) : list (pystr * pystr) :=
  match lines with
  | [] => []
  | line :: lines =>
      if bool_decide (strip line = []) then list_lines test_suite lines
      else if startswith (bs " ") line then
        let test_name := strip (default [] (head (split (bs "#") line))) in
        (test_suite, test_name) :: list_lines test_suite lines
      else
        let test_suite := strip line in
        list_lines (if endswith (bs ".") test_suite then take (length test_suite - 1) test_suite
                    else test_suite) lines
  end.
Definition listed_tests (stdout : pystr) : list (pystr * pystr) := list_lines [] (split newline stdout).

(** The command that lists the cases of a binary. *)
Definition list_command (cfg : settings) (path tag : pystr) : list pystr :=
  let c := new_BinaryTestCase (bs "gtest_list_tests") path path tag (working_directory cfg !! tag)
    (ld_library_path cfg !! tag) (profiling_library_path cfg !! tag) []
    (default [] (envp cfg !! tag)) (default [] (args cfg !! tag) ++ bs " --gtest_list_tests") [] in
  [bs "chmod 755 " ++ path; GetRunCommand c].

(** [CreateTestCase]: [exit_codes] and [stdout] are the results of the two
    commands. *)
Definition GtestCreateTestCase (cfg : settings) (exit_codes : list Z) (stdout : pystr) (path tag : pystr)
    : xres (list BinaryTestCase) :=
  _ ← assertFalse (existsb (fun c => negb (c =? 0)%Z) exit_codes)
        (PStr (bs "Failed to list test cases from " ++ path)) PNone;
  Ret ((fun '(suite, name) =>
    new_BinaryTestCase suite name path tag (working_directory cfg !! tag) (ld_library_path cfg !! tag)
      (profiling_library_path cfg !! tag) [] (default [] (envp cfg !! tag)) (default [] (args cfg !! tag)) [])
    <$> listed_tests stdout).

(** *** The verdict of a report *)

(** The root of the report: its attributes and the messages of its failures. *)
Record xml_root := mk_root { attribs : list (pystr * pystr); failures : list (option pystr) }.
Definition attrib (root : xml_root) (k : pystr) : option pystr :=
  snd <$> List.find (fun kv => bool_decide (kv.1 = k)) (attribs root).

(** [repr] of an attribute. *)
Definition str_opt (o : option pystr) : pystr := py_repr (match o with Some s => PStr s | None => PNone end).

(** The results of the two commands of a case. *)
Record command_results := mk_results {
  STDOUT : list (option pystr);
  STDERR : list (option pystr);
  EXIT_CODE : list Z;
}.

(** [fromstring] is [ElementTree.fromstring]: nothing when it raises. *)
Definition ParseResultXmlString {X} (fromstring : pystr -> option X) (xml_str : option pystr) : xres X :=
  match xml_str with
  | None => _ ← fail (PStr (bs "Test command result not received.")) PNone; Exc (EOther AssertionError [])
  | Some s =>
      let s := strip s in
      _ ← assertTrue (negb (bool_decide (s = []))) (PStr (bs "Test command result is empty.")) PNone;
      match fromstring s with
      | Some root => Ret root
      | None => _ ← fail (PStr (bs "Result xml content is corrupted.")) PNone; Exc (EOther AssertionError [])
      end
  end.

Section verify.
Context (fromstring : pystr -> option xml_root).

(** The message of [assertEqual] on strings is left to [unittest]. *)
Definition assert_length (n : nat) {A} (l : list A) (msg : pystr) : xres unit :=
  assertEqual (Z.of_nat (length l)) (Z.of_nat n) (PStr msg) PNone.

Definition messages_of (root : xml_root) : pystr :=
  join_with newline (omap (fun m => match m with Some ((_ :: _) as s) => Some s | _ => None end) (failures root)).

(** [VerifyTestResult] outside the batch mode, after the check that the response
    has its three lists. *)
Definition VerifyTestResult (r : command_results) : xres unit :=
  _ ← assert_length 2 (STDOUT r) (bs "Abnormal command result length");
  _ ← assert_length 2 (STDERR r) (bs "Abnormal command result length");
  _ ← assert_length 2 (EXIT_CODE r) (bs "Abnormal command result length");
  _ ← assertFalse (negb (nth 1 (EXIT_CODE r) 0 =? 0)%Z) (PStr (bs "Failed to show Gtest XML output")) PNone;
  root ← ParseResultXmlString fromstring (nth 1 (STDOUT r) None);
  _ ← fail_with (if decide (attrib root (bs "tests") = Some (bs "1")) then None
                 else Some (str_opt (attrib root (bs "tests")) ++ bs " != '1'"))
        (PStr (bs "No tests available")) PNone;
  _ ← (if decide (attrib root (bs "errors") = Some (bs "0") /\ attrib root (bs "failures") = Some (bs "0"))
       then Ret tt else fail (PStr (messages_of root)) PNone);
  skipIf (bool_decide (attrib root (bs "disabled") = Some (bs "1")))
    (PStr (bs "Gtest test case disabled")) PNone.
End verify.

(** ** Reading the list of tests *)

(** What [--gtest_list_tests] prints: each suite with its tests, a test with the
    value of its parameter as a comment. *)
Definition render_test (t : pystr * option pystr) : pystr :=
  bs "  " ++ t.1 ++ match t.2 with Some c => bs "  # " ++ c | None => [] end.
Definition render_suite (s : pystr * list (pystr * option pystr)) : list pystr :=
  (s.1 ++ bs ".") :: (render_test <$> s.2).
Definition render_list (l : list (pystr * list (pystr * option pystr))) : pystr :=
  mjoin ((fun line => line ++ newline) <$> mjoin (render_suite <$> l)).

Definition no_space (s : pystr) : bool := forallb (fun b => negb (is_space b)) s.
Definition valid_suite (s : pystr * list (pystr * option pystr)) : bool :=
  no_space s.1 &&
  forallb (fun t => negb (bool_decide (t.1 = [])) && no_space t.1 && no_byte Byte.x23 t.1 &&
                    match t.2 with Some c => no_byte Byte.x0a c | None => true end) s.2.

Lemma split_from_byte c name rest acc :
  no_byte c name = true -> split_from [c] (name ++ c :: rest) acc 0 = (acc ++ name) :: split_from [c] rest [] 0.
Proof.
  revert acc. induction name as [|b name IH]; intros acc Hn.
  - cbn [app split_from]. rewrite (startswith_app [c] rest : startswith [c] (c :: rest) = true).
    by rewrite app_nil_r.
  - cbn [no_byte forallb] in Hn. apply andb_true_iff in Hn as [Hb Hn]. cbn [app split_from].
    assert (startswith [c] (b :: name ++ c :: rest) = false) as ->.
    { apply not_true_is_false. rewrite startswith_spec. intros [k [= -> Hk]].
      unfold is_byte in Hb. by rewrite bool_decide_eq_true_2 in Hb. }
    rewrite IH by done. by rewrite <- app_assoc.
Qed.

Lemma split_from_no_byte c name acc : no_byte c name = true -> split_from [c] name acc 0 = [acc ++ name].
Proof.
  revert acc. induction name as [|b name IH]; intros acc Hn; cbn [split_from]; [by rewrite app_nil_r|].
  cbn [no_byte forallb] in Hn. apply andb_true_iff in Hn as [Hb Hn].
  assert (startswith [c] (b :: name) = false) as ->.
  { apply not_true_is_false. rewrite startswith_spec. intros [k [= -> Hk]].
    unfold is_byte in Hb. by rewrite bool_decide_eq_true_2 in Hb. }
  rewrite IH by done. by rewrite <- app_assoc.
Qed.

Lemma split_lines (ls : list pystr) :
  forallb (no_byte Byte.x0a) ls = true ->
  split newline (mjoin ((fun l => l ++ newline) <$> ls)) = ls ++ [[]].
Proof.
  unfold split. induction ls as [|l ls IH]; [done|]. intros [Hl Hls]%andb_true_iff.
  csimpl. unfold newline in *. rewrite <- app_assoc. cbn [app].
  rewrite split_from_byte by done. cbn [app]. f_equal. by apply IH.
Qed.

Lemma strip_no_space s k1 k2 :
  no_space s = true -> forallb is_space k1 = true -> forallb is_space k2 = true ->
  strip (k1 ++ s ++ k2) = s.
Proof.
  intros Hs H1 H2. unfold strip. rewrite strip_by_around by done.
  unfold strip_by. by rewrite lstrip_by_none, rstrip_by_none.
Qed.

Lemma no_byte_app c l k : no_byte c (l ++ k) = no_byte c l && no_byte c k.
Proof. apply forallb_app. Qed.

Lemma rstrip_by_head f b l : f b = false -> b ∈ rstrip_by f (b :: l).
Proof.
  intros Hb. unfold rstrip_by. rewrite elem_of_reverse, reverse_cons, lstrip_by_app.
  destruct (forallb f (reverse l)); [rewrite lstrip_by_id by done; by left|].
  apply elem_of_app. right. by left.
Qed.

Lemma list_lines_suite suite s rest :
  no_space s = true -> list_lines suite ((s ++ bs ".") :: rest) = list_lines s rest.
Proof.
  intros Hs.
  assert (Hn : no_space (s ++ bs ".") = true) by (unfold no_space in *; by rewrite forallb_app, Hs).
  assert (strip (s ++ bs ".") = s ++ bs ".") as E.
  { pose proof (strip_no_space _ [] [] Hn eq_refl eq_refl) as E. by rewrite app_nil_r in E. }
  cbn [list_lines]. rewrite E. rewrite bool_decide_eq_false_2 by by destruct s.
  assert (startswith (bs " ") (s ++ bs ".") = false) as ->.
  { apply not_true_is_false. rewrite startswith_spec. intros [k Hk]. rewrite Hk in Hn. by cbn in Hn. }
  rewrite endswith_app. rewrite length_app. cbn [length].
  rewrite Nat.add_sub. by rewrite take_app_length.
Qed.

Lemma list_lines_test suite t rest :
  t.1 <> [] -> no_space t.1 = true -> no_byte Byte.x23 t.1 = true ->
  list_lines suite (render_test t :: rest) = (suite, t.1) :: list_lines suite rest.
Proof.
  intros Hne Hs Hb. destruct t as [name comment]. cbn [fst snd] in *.
  assert (Hhead : strip (default [] (head (split (bs "#") (render_test (name, comment))))) = name).
  { unfold render_test, split. cbn [fst snd]. change (bs "#") with [Byte.x23]. destruct comment as [c|].
    - change (bs "  " ++ name ++ bs "  # " ++ c) with (bs "  " ++ name ++ bs "  " ++ Byte.x23 :: bs " " ++ c).
      rewrite (app_assoc (bs "  ")), (app_assoc _ (bs "  ")), split_from_byte; [|by rewrite !no_byte_app, Hb].
      cbn [head default]. rewrite <- app_assoc. by apply (strip_no_space name (bs "  ") (bs "  ")).
    - rewrite app_nil_r, split_from_no_byte by (by rewrite no_byte_app, Hb).
      cbn [head default]. rewrite <- (app_nil_r name) at 1. by apply (strip_no_space name (bs "  ") []). }
  cbn [list_lines]. rewrite Hhead. rewrite bool_decide_eq_false_2; [done|].
  intros Hall. destruct name as [|b name]; [done|].
  assert (Hsb : is_space b = false) by (cbn in Hs; apply andb_true_iff in Hs as [? _]; by apply negb_true_iff).
  assert (b ∈ strip (render_test (b :: name, comment))) as Hin; [|by rewrite Hall in Hin; apply not_elem_of_nil in Hin].
  unfold render_test, strip, strip_by. cbn [fst snd].
  rewrite (lstrip_by_all is_space (bs "  ") ((b :: name) ++ _)) by done.
  cbn [app]. rewrite lstrip_by_id by done. by apply rstrip_by_head.
Qed.

Lemma no_space_no_newline s : no_space s = true -> no_byte Byte.x0a s = true.
Proof.
  unfold no_space, no_byte. rewrite !forallb_forall. intros H b Hb. apply H, negb_true_iff in Hb.
  apply negb_true_iff. unfold is_byte. apply bool_decide_eq_false. by intros ->.
Qed.

Lemma render_suite_lines s line :
  valid_suite s = true -> line ∈ render_suite s -> no_byte Byte.x0a line = true.
Proof.
  intros [Hs Ht]%andb_true_iff [->|Hl]%elem_of_cons.
  { by rewrite no_byte_app, no_space_no_newline. }
  apply list_elem_of_fmap in Hl as ([name c] & -> & Hin%list_elem_of_In).
  rewrite forallb_forall in Ht. apply Ht in Hin. cbn [fst snd] in Hin.
  apply andb_true_iff in Hin as [[[_ Hsp]%andb_true_iff _]%andb_true_iff Hc].
  unfold render_test. cbn [fst snd]. rewrite !no_byte_app, (no_space_no_newline name) by done.
  destruct c; [|done]. by rewrite no_byte_app, Hc.
Qed.

Lemma list_lines_render suite s rest :
  valid_suite s = true ->
  list_lines suite (render_suite s ++ rest) = ((fun t => (s.1, t.1)) <$> s.2) ++ list_lines s.1 rest.
Proof.
  intros [Hs Ht]%andb_true_iff. unfold render_suite. cbn [app].
  rewrite list_lines_suite by done. destruct s as [s tests]. cbn [fst snd] in *.
  induction tests as [|t tests IH]; [done|].
  cbn [forallb] in Ht. apply andb_true_iff in Ht as [Ht Htests].
  apply andb_true_iff in Ht as [[[Hne%negb_true_iff Hsp]%andb_true_iff Hb]%andb_true_iff _].
  cbn [fmap list_fmap app]. rewrite list_lines_test by (done || by apply bool_decide_eq_false in Hne).
  f_equal. by apply IH.
Qed.

(** The cases of a gtest binary are those it lists: each test of each suite,
    in order, without the comment on its parameter. *)
Theorem listed_tests_render l :
  forallb valid_suite l = true ->
  listed_tests (render_list l) = mjoin ((fun s => (fun t => (s.1, t.1)) <$> s.2) <$> l).
Proof.
  intros Hl. unfold listed_tests, render_list. rewrite split_lines.
  2: { apply forallb_forall. intros line (ls & Hls & Hline)%list_elem_of_In%list_elem_of_join.
       apply list_elem_of_fmap in Hline as (s & -> & Hs).
       rewrite forallb_forall in Hl. apply list_elem_of_In, Hl in Hs.
       by apply (render_suite_lines s). }
  generalize (@nil Byte.byte) at 1 as suite.
  induction l as [|s l IH]; intros suite; [done|].
  cbn [forallb] in Hl. apply andb_true_iff in Hl as [Hs Hl].
  change (mjoin (render_suite <$> s :: l)) with (render_suite s ++ mjoin (render_suite <$> l)).
  rewrite <- app_assoc, list_lines_render by done. rewrite IH by done. done.
Qed.

(** ** The length of the output path *)
(** The path of a gtest report respects the limits of the device: whatever
    path is asked for, the file name is at most [MAX_FILENAME_LEN] long and the
    path at most [MAX_PATH_LEN], a random name taking the place of a name that is
    too long, and a relative path that of a path that is too long. *)
Theorem output_file_path_bounds uuid path :
  length uuid = 36 -> slash ∉ uuid ->
  length (basename (set_output_file_path uuid path)) <= MAX_FILENAME_LEN /\
  length (set_output_file_path uuid path) <= MAX_PATH_LEN /\
  (length (basename (normpath (strip path))) <= MAX_FILENAME_LEN ->
   length (normpath (strip path)) <= MAX_PATH_LEN ->
   set_output_file_path uuid path = normpath (strip path)).
Proof.
  intros Hu Hs. unfold set_output_file_path. set (p := normpath (strip path)).
  assert (Hx : slash ∉ uuid ++ bs ".xml").
  { rewrite not_elem_of_app. split; [done|]. apply (bool_decide_unpack _). vm_compute. exact I. }
  assert (Hl : length (uuid ++ bs ".xml") = 40) by (rewrite length_app, Hu; done).
  assert (Hb : basename (path_join (dirname p) [uuid ++ bs ".xml"]) = uuid ++ bs ".xml").
  { by apply basename_join2. }
  assert (Hbb : forall q, basename (basename q) = basename q).
  { intros q. apply after_last_none, after_last_fresh. }
  assert (HM : MAX_FILENAME_LEN <= MAX_PATH_LEN) by (unfold MAX_FILENAME_LEN, MAX_PATH_LEN; lia).
  assert (HF : 40 <= MAX_FILENAME_LEN) by (unfold MAX_FILENAME_LEN; lia).
  destruct (Nat.ltb_spec MAX_FILENAME_LEN (length (basename p)));
    case_match eqn:E; apply Nat.ltb_lt in E || apply Nat.ltb_ge in E;
    rewrite ?Hb, ?Hbb, ?Hl; repeat split; try lia; try done.
  unfold basename at 1. rewrite after_last_none by done. lia.
Qed.

(** ** The verdict *)
Definition passing (fromstring : pystr -> option xml_root) (r : command_results) : Prop :=
  length (STDOUT r) = 2 /\ length (STDERR r) = 2 /\ length (EXIT_CODE r) = 2 /\
  nth 1 (EXIT_CODE r) 0%Z = 0%Z /\
  exists s root, nth 1 (STDOUT r) None = Some s /\ strip s <> [] /\ fromstring (strip s) = Some root /\
    attrib root (bs "tests") = Some (bs "1") /\ attrib root (bs "errors") = Some (bs "0") /\
    attrib root (bs "failures") = Some (bs "0") /\ attrib root (bs "disabled") <> Some (bs "1").

(** One guard of [VerifyTestResult]: it lets the rest run when [ok], and is a
    failure otherwise. *)
Definition guards (m : xres unit) (ok : Prop) : Prop :=
  (m = Ret tt /\ ok) \/ ((exists e, m = Exc e /\ exc_type e = SignalClass TestFailure) /\ ~ ok).

Lemma guards_length n {A} (l : list A) msg : guards (assert_length n l msg) (length l = n).
Proof.
  unfold guards, assert_length, assertEqual. destruct (Z.eqb_spec (Z.of_nat (length l)) (Z.of_nat n)).
  - left. split; [done|lia].
  - right. split; [|lia]. by eexists.
Qed.

Lemma guards_fail (ok : Prop) `{!Decision ok} msg : guards (if decide ok then Ret tt else fail msg PNone) ok.
Proof. unfold guards. case_decide; [by left|]. right. split; [|done]. by eexists. Qed.

(** A computation that ends well when [P], and otherwise with a failure, or with
    a skip when [S]. *)
Definition verdict (m : xres unit) (P S : Prop) : Prop :=
  (m = Ret tt <-> P) /\
  forall e, m = Exc e -> exc_type e = SignalClass TestFailure \/ (exc_type e = SignalClass TestSkip /\ S).

Lemma verdict_failure m P S e :
  m = Exc e -> exc_type e = SignalClass TestFailure -> ~ P -> verdict m P S.
Proof. intros -> He HP. split; [done|]. intros ? [= <-]. by left. Qed.

Lemma verdict_guard m k ok P S : guards m ok -> verdict k P S -> verdict (_ ← m; k) (ok /\ P) S.
Proof.
  intros [[-> Hok]|[(e & -> & He) Hn]] [H1 H2]; [split; [cbn; tauto|done]|].
  apply (verdict_failure _ _ _ e); [done|done|tauto].
Qed.

Lemma verdict_guard_in m k ok P S :
  guards m ok -> (ok -> verdict k P S) -> verdict (_ ← m; k) (ok /\ P) S.
Proof.
  intros [[-> Hok]|[(e & -> & He) Hn]] H; [destruct (H Hok); split; [cbn; tauto|done]|].
  apply (verdict_failure _ _ _ e); [done|done|tauto].
Qed.

Lemma ParseResultXmlString_spec {X} (fromstring : pystr -> option X) xml :
  (exists s root, xml = Some s /\ strip s <> [] /\ fromstring (strip s) = Some root /\
     ParseResultXmlString fromstring xml = Ret root) \/
  ((forall s root, xml = Some s -> strip s <> [] -> fromstring (strip s) = Some root -> False) /\
   exists e, ParseResultXmlString fromstring xml = Exc e /\ exc_type e = SignalClass TestFailure).
Proof.
  destruct xml as [s|]; [|right; split; [done|by eexists]]. cbn.
  destruct (bool_decide_reflect (strip s = [])) as [E|E]; cbn.
  { right. split; [naive_solver|by eexists]. }
  destruct (fromstring (strip s)) as [root|] eqn:F; [left; by exists s, root|].
  right. split; [|by eexists]. intros ? ? [= <-] _. by rewrite F.
Qed.

Lemma verdict_root root :
  verdict (_ ← fail_with (if decide (attrib root (bs "tests") = Some (bs "1")) then None
                 else Some (str_opt (attrib root (bs "tests")) ++ bs " != '1'"))
             (PStr (bs "No tests available")) PNone;
           _ ← (if decide (attrib root (bs "errors") = Some (bs "0") /\
                           attrib root (bs "failures") = Some (bs "0"))
                then Ret tt else fail (PStr (messages_of root)) PNone);
           skipIf (bool_decide (attrib root (bs "disabled") = Some (bs "1")))
             (PStr (bs "Gtest test case disabled")) PNone)
    (attrib root (bs "tests") = Some (bs "1") /\
     (attrib root (bs "errors") = Some (bs "0") /\ attrib root (bs "failures") = Some (bs "0")) /\
     attrib root (bs "disabled") <> Some (bs "1"))
    (attrib root (bs "disabled") = Some (bs "1") /\ attrib root (bs "failures") = Some (bs "0")).
Proof.
  apply verdict_guard.
  { unfold guards. case_decide; [by left|]. right. split; [|done]. by eexists. }
  apply verdict_guard_in; [apply guards_fail|]. intros [_ Hf].
  unfold skipIf. case_bool_decide; (split; [done|]); [|done].
  intros e [= <-]. by right.
Qed.

(** Outside the batch mode a gtest case passes exactly when both commands
    answered, the report was printed and parsed, and it shows one test, no error,
    no failure and not a disabled test.  Any other end is a [TestFailure], or a
    [TestSkip] for a report without failures of a disabled test. *)
Theorem VerifyTestResult_verdict fromstring r :
  (VerifyTestResult fromstring r = Ret tt <-> passing fromstring r) /\
  (forall e, VerifyTestResult fromstring r = Exc e ->
     exc_type e = SignalClass TestFailure \/
     (exc_type e = SignalClass TestSkip /\
      exists s root, nth 1 (STDOUT r) None = Some s /\ fromstring (strip s) = Some root /\
        attrib root (bs "disabled") = Some (bs "1") /\ attrib root (bs "failures") = Some (bs "0"))).
Proof.
  set (S := exists s root, nth 1 (STDOUT r) None = Some s /\ fromstring (strip s) = Some root /\
    attrib root (bs "disabled") = Some (bs "1") /\ attrib root (bs "failures") = Some (bs "0")).
  change (verdict (VerifyTestResult fromstring r) (passing fromstring r) S).
  unfold VerifyTestResult, passing.
  do 3 (apply verdict_guard; [apply guards_length|]).
  apply verdict_guard.
  { unfold guards. destruct (Z.eqb_spec (nth 1 (EXIT_CODE r) 0%Z) 0); [by left|].
    right. split; [|done]. by eexists. }
  destruct (ParseResultXmlString_spec fromstring (nth 1 (STDOUT r) None))
    as [(s & root & Hs & Hne & Hroot & ->)|(Hn & e & -> & He)].
  - cbn [mbind xres_bind]. destruct (verdict_root root) as [H1 H2]. split.
    + rewrite H1. split; [|intros (s' & root' & ? & _ & ? & ?); simplify_eq; tauto].
      intros (? & (? & ?) & ?). exists s, root. tauto.
    + intros e He. destruct (H2 e He) as [?|[? [? ?]]]; [by left|right]. split; [done|]. by exists s, root.
  - apply (verdict_failure _ _ _ e); [done|done|].
    intros (s & root & Hs & Hne & Hroot & _). by eapply Hn.
Qed.

(** ** Examples *)
Definition sample_list : list (pystr * list (pystr * option pystr)) :=
  [(bs "FooTest", [(bs "Works", None); (bs "Fails", None)]);
   (bs "All/BarTest", [(bs "Takes/0", Some (bs "GetParam() = 5"))])].

Lemma listed_tests_render_witness :
  listed_tests (render_list sample_list) =
  [(bs "FooTest", bs "Works"); (bs "FooTest", bs "Fails"); (bs "All/BarTest", bs "Takes/0")].
Proof. apply (listed_tests_render sample_list). vm_compute. reflexivity. Defined.

Definition sample_uuid : pystr := bs "6fa459ea-ee8a-3ca4-894e-db77e160355e".
Definition long_path : pystr := bs "/data/local/tmp/" ++ replicate 300 Byte.x61.

Lemma output_file_path_bounds_witness :
  set_output_file_path sample_uuid long_path = bs "/data/local/tmp/" ++ sample_uuid ++ bs ".xml" /\
  length (basename (set_output_file_path sample_uuid long_path)) <= MAX_FILENAME_LEN /\
  length (set_output_file_path sample_uuid long_path) <= MAX_PATH_LEN.
Proof.
  split; [vm_compute; reflexivity|].
  destruct (output_file_path_bounds sample_uuid long_path) as (H1 & H2 & _); [reflexivity| |by split].
  apply (bool_decide_unpack _). vm_compute. exact I.
Defined.

(** A report of one test that failed. *)
Example VerifyTestResult_failure :
  let root := mk_root [(bs "tests", bs "1"); (bs "failures", bs "1"); (bs "errors", bs "0")] [Some (bs "boom")] in
  VerifyTestResult (fun _ => Some root) (mk_results [Some []; Some (bs "<xml/>")] [None; None] [1; 0]%Z)
  = Exc (ESignal TestFailure (bs "boom") PNone).
Proof. vm_compute. reflexivity. Qed.

(** A filter item with a tag stands for its own test, and also for names that no
    test has: the item with each tag appended. *)
Example ExpandListItemTags_tagged :
  ExpandListItemTags [DEFAULT_TAG_32; DEFAULT_TAG_64] [bs "_32bit::Foo.Bar"; bs "Foo.Baz"] =
  Ok [bs "Foo.Bar_32bit"; bs "_32bit::Foo.Bar_32bit"; bs "_32bit::Foo.Bar_64bit";
      bs "Foo.Baz_32bit"; bs "Foo.Baz_64bit"].
Proof. vm_compute. reflexivity. Qed.

(** Under coverage a tag that had an environment gets a format string instead. *)
Example add_coverage_env_loses :
  add_coverage_env (set_envp [bs "_32bit::A=1"; bs "B=2"]) !! DEFAULT_TAG_32 = Some (bs "%s %s") /\
  add_coverage_env (set_envp [bs "_32bit::A=1"; bs "B=2"]) !! DEFAULT_TAG_64 = Some COVERAGE_TEST_ENV.
Proof. vm_compute. by split. Qed.

Example run_command :
  GetRunCommand (CreateTestCase (mk_settings {[bs "t" := bs "/w"]} {[bs "t" := bs "A=1"]} {[bs "t" := bs "-v"]}
    {[bs "t" := bs "/lib"]} ∅) (bs "/data/x") (bs "t"))
  = bs "cd /w && env A=1 LD_LIBRARY_PATH=/lib /data/x -v".
Proof. vm_compute. reflexivity. Qed.

Example parse_sources :
  let cfg := mk_settings {[bs "w" := bs "/work"]} ∅ ∅ ∅ ∅ in
  let parse := ParseTestSource cfg (bs "/host") (bs "T") (fun p => negb (bool_decide (p = bs "/host/gone"))) in
  parse (bs "_32bit::DATA/nativetest/x/x32") =
    Ok (Some (bs "/host/DATA/nativetest/x/x32", bs "/data/nativetest/vts_binary_test_T/_32bit/x32", Some (bs "_32bit"))) /\
  parse (bs "w::bin/b->") = Ok (Some (bs "/host/bin/b", bs "/work/b", None)) /\
  parse (bs "b->/data/c") = Ok (Some (bs "/host/b", bs "/data/c", Some [])) /\
  parse (bs "gone") = Ok None /\ parse (bs "a::b::c") = Raise ValueError /\
  parse [] = Ok (Some ([], bs "/data/local/tmp/vts_binary_test_T/", Some [])).
Proof. vm_compute. repeat split. Qed.

Example gtest_run_command :
  GtestRunCommand (new_BinaryTestCase (bs "S") (bs "t") (bs "/data/x") (bs "_32bit") None None None [] [] [] [])
    sample_uuid None None =
  [bs "/data/x --gtest_filter=S.t --gtest_output=xml:/data/gtest_output_S_t_32bit.xml";
   bs "cat /data/gtest_output_S_t_32bit.xml && rm -rf /data/gtest_output_S_t_32bit.xml"].
Proof. vm_compute. reflexivity. Qed.

(** No case is made for a source of the other bitness. *)
Lemma isValidSource_bitness abi src dst tag :
  isValidSource (Some abi) (Some (src, dst, Some tag)) = true ->
  (abi = bs "64" -> endswith SUFFIX_32BIT tag = false) /\ (abi = bs "32" -> endswith SUFFIX_64BIT tag = false).
Proof.
  unfold isValidSource. intros H%negb_true_iff%orb_false_iff.
  destruct H as [H1 H2]. split; intros ->; [clear H2|clear H1];
    rewrite bool_decide_eq_true_2 in * by done; by rewrite andb_true_r in *.
Qed.
