(* ===== verification/Corpus.v ===== *)
(** * Fuzzing corpora in a bucket
    ([src/utils/python/fuzzer/corpus_manager.py], [src/utils/python/gcs/gcs_api_utils.py])

    The manager moves corpus files between directories of a Google Cloud Storage
    bucket, one directory for each state of a corpus.  The storage service is an
    interface: operations on a bucket, and the laws that its documentation gives
    them.  Local files, random choices and the success of a download are
    arguments. *)

From Stdlib Require Import Strings.Byte.
From S2P Require Import Prelude PyStr PyPath.

(** ** The storage service *)
Class Bucket (B : Type) := {
  blobs : B -> gmap pystr pystr;                       (* name to contents *)
  list_blobs : B -> pystr -> list pystr;               (* the names with a prefix *)
  rename_blob : B -> pystr -> pystr -> option B;       (* [None]: NotFound *)
  delete_blob : B -> pystr -> option B;
  upload : B -> pystr -> pystr -> B;                   (* name, contents *)
}.

Class BucketLaws (B : Type) `{!Bucket B} : Prop := {
  list_blobs_NoDup b p : NoDup (list_blobs b p);
  elem_of_list_blobs b p n : n ∈ list_blobs b p <-> is_Some (blobs b !! n) /\ startswith p n = true;
  rename_blob_Some b src dst c :
    blobs b !! src = Some c -> src <> dst ->
    exists b', rename_blob b src dst = Some b' /\ blobs b' = <[dst := c]> (delete src (blobs b));
  rename_blob_None b src dst : blobs b !! src = None -> rename_blob b src dst = None;
  delete_blob_Some b n c :
    blobs b !! n = Some c -> exists b', delete_blob b n = Some b' /\ blobs b' = delete n (blobs b);
  delete_blob_None b n : blobs b !! n = None -> delete_blob b n = None;
  blobs_upload b n c : blobs (upload b n c) = <[n := c]> (blobs b);
}.

(** ** [GcsApiUtils]; [en] is its attribute [_enabled] *)
Section gcs.
Context {B : Type} `{!Bucket B} (en : bool).

Definition ListFilesWithPrefix (dir_path : pystr) (strict : bool) (b : B) : list pystr :=
  if en then
    list_blobs b (if strict && negb (endswith sep dir_path) then dir_path ++ sep else dir_path)
  else [].
Definition CountFiles (dir_path : pystr) (b : B) : nat :=
  if en then length (ListFilesWithPrefix dir_path true b) else 0.
Definition PrefixExists (dir_path : pystr) (b : B) : bool :=
  if en then negb (bool_decide (CountFiles dir_path b = 0)) else false.
Definition FileExists (file_path : pystr) (b : B) : bool :=
  if en then bool_decide (is_Some (blobs b !! file_path)) else false.
Definition UploadFile (content dest_file_path : pystr) (b : B) : B :=
  if en then upload b dest_file_path content else b.
Definition MoveFile (src_file_path dest_file_path : pystr) (b : B) : bool * B :=
  if en then
    match rename_blob b src_file_path dest_file_path with Some b' => (true, b') | None => (false, b) end
  else (false, b).
Definition DeleteFile (file_path : pystr) (b : B) : bool * B :=
  if en then match delete_blob b file_path with Some b' => (true, b') | None => (false, b) end
  else (false, b).

(** [UploadDir]: the files below the local directory, as (path below it,
    contents), in the order of [os.walk]; [None] when it does not exist. *)
Definition UploadDir (src_basedir dest_dir : pystr) (files : option (list (pystr * pystr))) (b : B)
    : bool * B :=
  if en then
    match files with
    | Some files =>
        (true, foldl (fun b f => UploadFile f.2 (path_join2 dest_dir (src_basedir ++ sep ++ f.1)) b) b files)
    | None => (false, b)
    end
  else (false, b).
End gcs.

(** ** Directories and files *)
Definition CORPUS_STATES : list pystr :=
  [bs "corpus_seed_high"; bs "corpus_seed"; bs "corpus_seed_low"; bs "corpus_inuse";
   bs "corpus_complete"; bs "corpus_crash"; bs "corpus_error"; bs "corpus_trigger"].
Definition CORPUS_PRIORITIES : list pystr :=
  [bs "corpus_seed_high"; bs "corpus_seed"; bs "corpus_seed_low"].
Definition FETCH_ONE_AND_FEED : Z := 1.
Definition FETCH_CRASH_AND_FEED : Z := 2.
Definition FETCH_ALL_AND_REPEAT : Z := 3.
Definition REPEAT_TIMES : nat := 5.

(** [re.match('corpus_seed_[0-9][0-9]$', s)]: the end may be before a newline. *)
Definition is_numbered_seed (s : pystr) : bool :=
  startswith (bs "corpus_seed_") s &&
  match drop 12 s with
  | [a; b] => is_digit a && is_digit b
  | [a; b; c] => is_digit a && is_digit b && is_byte Byte.x0a c
  | _ => false
  end.
(** ['corpus_seed_%02d' % i] for [i] below ten. *)
Definition numbered (dir : pystr) (i : nat) : pystr := dir ++ bs "_0" ++ str_nat (Z.of_nat i).

Section manager.
Context (gcs_path device_serial : pystr).

(** A directory in the bucket of a test. *)
Definition state_dir (dir_type test_name : pystr) : pystr :=
  path_join gcs_path [test_name; test_name ++ bs "_" ++ dir_type].

Definition GetDirPaths (dir_type test_name local_temp_dir : pystr) : pystr :=
  if bool_decide (dir_type ∈ CORPUS_STATES) then state_dir dir_type test_name
  else if is_numbered_seed dir_type then state_dir dir_type test_name
  else if bool_decide (dir_type = bs "corpus_measure") then state_dir dir_type test_name
  else if bool_decide (dir_type = bs "corpus_lock") then state_dir dir_type test_name
  else if bool_decide (dir_type = bs "incoming_parent") then
    path_join gcs_path [test_name; bs "incoming"; basename local_temp_dir]
  else if bool_decide (dir_type = bs "incoming_child") then
    path_join gcs_path [test_name; bs "incoming"; basename local_temp_dir; test_name ++ bs "_corpus_out"]
  else if bool_decide (dir_type = bs "local_corpus_out") then
    path_join local_temp_dir [test_name ++ bs "_corpus_out"]
  else if bool_decide (dir_type = bs "local_corpus_trigger") then
    path_join local_temp_dir [test_name ++ bs "_corpus_trigger"]
  else [].

Definition GetFilePaths (file_type test_name seed : pystr) : pystr :=
  if bool_decide (file_type ∈ CORPUS_STATES) then
    path_join (GetDirPaths file_type test_name []) [basename seed]
  else if is_numbered_seed file_type then
    path_join (GetDirPaths file_type test_name []) [basename seed]
  else if bool_decide (file_type = bs "corpus_lock") then
    path_join (GetDirPaths file_type test_name []) [device_serial]
  else [].

(** ** The manager *)
Context {B : Type} `{!Bucket B} (enabled : bool).

(** [_FetchCorpusSeedFromPriority]: a listed seed is chosen at random (the [k]-th
    choice among [n] is [choose k n]), moved to the seeds in use and downloaded.
    [env k] is what other machines do to the bucket between the listing and the
    move.  Only a failed move counts as a try; [None] is the end of the fuel. *)
Fixpoint fetch_loop (choose : nat -> nat -> nat) (env : nat -> B -> B) (download : pystr -> bool)
    (fuel k num_try : nat) (test_name CORPUS_PRIORITY : pystr) (b : B) : option (option pystr * B) :=
  match fuel with
  | O => None
  | S fuel =>
      if num_try <? 10 then
        let seed_list := ListFilesWithPrefix enabled (GetDirPaths CORPUS_PRIORITY test_name []) true b in
        match seed_list with
        | [] => Some (None, b)
        | _ =>
            let target_seed := nth (choose k (length seed_list)) seed_list [] in
            let inuse_seed := GetFilePaths (bs "corpus_inuse") test_name target_seed in
            let '(move_successful, b) := MoveFile enabled target_seed inuse_seed (env k b) in
            if move_successful : bool then
              if download inuse_seed then Some (Some inuse_seed, b)
              else fetch_loop choose env download fuel (S k) num_try test_name CORPUS_PRIORITY b
            else fetch_loop choose env download fuel (S k) (S num_try) test_name CORPUS_PRIORITY b
        end
      else Some (None, b)
  end.

(** [_FetchCorpusSeedDirectory]: the directory that was downloaded. *)
Definition FetchCorpusSeedDirectory (test_name : pystr) (b : B) : option pystr * list pystr :=
  let corpus_seed_dir := GetDirPaths (bs "corpus_seed") test_name [] in
  if decide (CountFiles enabled corpus_seed_dir b = 0) then (None, [])
  else (Some corpus_seed_dir, ListFilesWithPrefix enabled corpus_seed_dir true b).

Definition add_lock (test_name : pystr) (b : B) : B :=
  if enabled then UploadFile enabled [] (GetFilePaths (bs "corpus_lock") test_name []) b else b.
Definition remove_lock (test_name : pystr) (b : B) : B :=
  if enabled then (DeleteFile enabled (GetFilePaths (bs "corpus_lock") test_name []) b).2 else b.

(** [FetchCorpusSeed] *)
Definition FetchCorpusSeed (algorithm : Z) choose env download (fuel : nat) (test_name : pystr) (b : B)
    : option (option pystr * B) :=
  let fetch priority b := fetch_loop choose env download fuel 0 0 test_name priority b in
  if negb enabled then Some (None, b)
  else if (algorithm =? FETCH_ONE_AND_FEED)%Z then fetch (bs "corpus_seed") b
  else if (algorithm =? FETCH_CRASH_AND_FEED)%Z then
    (fix go (l : list pystr) (b : B) :=
       match l with
       | [] => Some (None, b)
       | priority :: l =>
           match fetch priority b with
           | Some (None, b) => go l b
           | r => r
           end
       end) CORPUS_PRIORITIES b
  else if (algorithm =? FETCH_ALL_AND_REPEAT)%Z then
    if PrefixExists enabled (GetDirPaths (bs "corpus_lock") test_name []) b then Some (Some (bs "locked"), b)
    else Some (Some (bs "directory"), add_lock test_name b)
  else Some (None, b).

(** [InuseToDest] *)
Definition InuseToDest (test_name inuse_seed destination : pystr) (b : B) : bool * B :=
  if negb enabled then (false, b)
  else if FileExists enabled inuse_seed b then
    if bool_decide (destination ∈ CORPUS_STATES) then
      MoveFile enabled inuse_seed (GetFilePaths destination test_name inuse_seed) b
    else (false, b)
  else (false, b).

Definition CorpusIsDuplicate (test_name incoming_seed : pystr) (b : B) : bool :=
  existsb (fun file_type => FileExists enabled (GetFilePaths file_type test_name incoming_seed) b) CORPUS_STATES.

(** One incoming seed, and all: the number of corpora that were not known. *)
Definition classify_one (test_name destination : pystr) (acc : nat * B) (incoming_seed : pystr) : nat * B :=
  let '(num_unique_corpus, b) := acc in
  if CorpusIsDuplicate test_name incoming_seed b then
    (num_unique_corpus, (DeleteFile enabled incoming_seed b).2)
  else
    (S num_unique_corpus,
     (MoveFile enabled incoming_seed (GetFilePaths destination test_name incoming_seed) b).2).
Definition classify_all (test_name local_temp_dir destination : pystr) (b : B) : nat * B :=
  foldl (classify_one test_name destination) (0, b)
    (ListFilesWithPrefix enabled (GetDirPaths (bs "incoming_child") test_name local_temp_dir) true b).

(** [_UploadTriggeredCorpus]; [triggered]: the contents of the crash report, when
    there is one. *)
Definition UploadTriggeredCorpus (uuid test_name local_temp_dir : pystr) (triggered : option pystr) (b : B) : B :=
  match triggered with
  | Some content =>
      let triggered_corpus :=
        path_join (GetDirPaths (bs "local_corpus_trigger") test_name local_temp_dir) [bs "crash_report"] in
      UploadFile enabled content (GetFilePaths (bs "corpus_trigger") test_name triggered_corpus ++ uuid) b
  | None => b
  end.

Definition ClassifyPriority1 (test_name local_temp_dir : pystr) (b : B) : nat * B :=
  classify_all test_name local_temp_dir (bs "corpus_seed") b.
Definition ClassifyPriority2 (uuid test_name local_temp_dir : pystr) (triggered : option pystr) (b : B) : nat * B :=
  let high_priority := bool_decide (is_Some triggered) in
  let '(n, b) := classify_all test_name local_temp_dir
                   (if high_priority then bs "corpus_seed_high" else bs "corpus_seed") b in
  (n, UploadTriggeredCorpus uuid test_name local_temp_dir triggered b).

(** [_MoveCorpusDirectory] *)
Definition MoveCorpusDirectory (test_name local_temp_dir src_dir dest_dir : pystr) (strict : bool) (b : B)
    : nat * B :=
  foldl (fun '(n, b) src_corpus =>
      (S n, (MoveFile enabled src_corpus (GetFilePaths dest_dir test_name src_corpus) b).2)) (0, b)
    (ListFilesWithPrefix enabled (GetDirPaths src_dir test_name local_temp_dir) strict b).

(** The [for] of [_ClassifyPriority3]: the first number without a directory, the
    last number when all have one. *)
Fixpoint session_index (test_name : pystr) (b : B) (n i : nat) : nat :=
  match n with
  | O => i
  | S n =>
      if PrefixExists enabled (numbered (GetDirPaths (bs "corpus_seed") test_name []) i) b
      then match n with O => i | _ => session_index test_name b n (S i) end
      else i
  end.

Definition ClassifyPriority3 (uuid test_name local_temp_dir : pystr) (triggered : option pystr) (b : B) : nat * B :=
  let i := session_index test_name b (REPEAT_TIMES - 1) 1 in
  let '(num_unique_corpus, b) :=
    if i <? REPEAT_TIMES - 1 then
      let b := (MoveCorpusDirectory test_name local_temp_dir (bs "corpus_seed")
                  (numbered (bs "corpus_seed") i) true b).2 in
      MoveCorpusDirectory test_name local_temp_dir (bs "incoming_child") (bs "corpus_seed") true b
    else
      let b := (MoveCorpusDirectory test_name local_temp_dir (bs "corpus_seed")
                  (bs "corpus_complete") false b).2 in
      MoveCorpusDirectory test_name local_temp_dir (bs "incoming_child") (bs "corpus_complete") true b in
  (num_unique_corpus, UploadTriggeredCorpus uuid test_name local_temp_dir triggered b).

Definition ClassifyPriority (algorithm : Z) (uuid test_name local_temp_dir : pystr)
    (triggered : option pystr) (b : B) : nat * B :=
  if (algorithm =? FETCH_ONE_AND_FEED)%Z then ClassifyPriority1 test_name local_temp_dir b
  else if (algorithm =? FETCH_CRASH_AND_FEED)%Z then
    ClassifyPriority2 uuid test_name local_temp_dir triggered b
  else if (algorithm =? FETCH_ALL_AND_REPEAT)%Z then
    let '(n, b) := ClassifyPriority3 uuid test_name local_temp_dir triggered b in
    (n, remove_lock test_name b)
  else (0, b).

(** [UploadCorpusOutDir]; the measure is the name of its file. *)
Definition UploadCorpusOutDir (algorithm : Z) (uuid measure test_name local_temp_dir : pystr)
    (files : option (list (pystr * pystr))) (triggered : option pystr) (b : B) : bool * B :=
  if negb enabled then (false, b)
  else
    let '(ok, b) := UploadDir enabled (basename (GetDirPaths (bs "local_corpus_out") test_name local_temp_dir))
                      (GetDirPaths (bs "incoming_parent") test_name local_temp_dir) files b in
    if ok : bool then
      let '(n, b) := ClassifyPriority algorithm uuid test_name local_temp_dir triggered b in
      (true, UploadFile enabled (str_nat (Z.of_nat n))
               (path_join2 (GetDirPaths (bs "corpus_measure") test_name []) measure) b)
    else (false, b).
End manager.

(** ** Names *)
Definition CORPUS_SEED : pystr := bs "corpus_seed".
Definition INUSE : pystr := bs "corpus_inuse".

(** Equal paths have equal first components. *)
Lemma first_component a b x y : slash ∉ a -> slash ∉ b -> a ++ slash :: x = b ++ slash :: y -> a = b.
Proof.
  revert b. induction a as [|c a IH]; intros [|d b]; cbn; [done| | |].
  - intros _ Hb [= <- _]. exfalso. apply Hb. by left.
  - intros Ha _ [= -> _]. exfalso. apply Ha. by left.
  - intros Ha Hb [= -> H]. f_equal. apply IH; set_solver.
Qed.

(** The names that the manager is set up with. *)
Record named (gcs_path test_name : pystr) : Prop := {
  gcs_nonempty : gcs_path <> [];
  gcs_no_sep : endswith sep gcs_path = false;
  test_nonempty : test_name <> [];
  test_no_sep : slash ∉ test_name;
}.

Lemma corpus_state_no_sep s : s ∈ CORPUS_STATES -> slash ∉ s /\ s <> [].
Proof.
  intros Hs. assert (forallb (fun s => bool_decide (slash ∉ s /\ s <> [])) CORPUS_STATES = true) as H
    by (vm_compute; reflexivity).
  rewrite forallb_forall in H. by apply list_elem_of_In, H, bool_decide_eq_true in Hs.
Qed.

Section names.
Context (gcs_path device_serial test_name : pystr) (Hn : named gcs_path test_name).

Local Abbreviation dir s := (state_dir gcs_path s test_name).
Local Abbreviation file := (GetFilePaths gcs_path device_serial).

(** The directory of a test, with its separator. *)
Definition test_dir : pystr := gcs_path ++ sep ++ test_name ++ sep.

Lemma state_dir_eq s : slash ∉ s -> dir s = test_dir ++ test_name ++ bs "_" ++ s.
Proof using Hn.
  intros Hs. unfold state_dir, path_join. cbn [foldl]. destruct Hn.
  rewrite (path_join2_sep gcs_path) by (done || by apply startswith_sep_no).
  rewrite path_join2_sep.
  - unfold test_dir. by rewrite <- !app_assoc.
  - by destruct gcs_path.
  - rewrite app_assoc. by apply endswith_sep_app.
  - apply startswith_sep_no. rewrite !not_elem_of_app. split; [done|]. split; [|done].
    apply (bool_decide_unpack _). vm_compute. exact I.
Qed.

Lemma file_eq s seed :
  s ∈ CORPUS_STATES -> basename seed <> [] -> file s test_name seed = dir s ++ sep ++ basename seed.
Proof using Hn.
  intros Hs Hb. destruct (corpus_state_no_sep s Hs) as [Hsep Hne].
  unfold GetFilePaths, GetDirPaths. rewrite !bool_decide_eq_true_2 by done.
  unfold path_join. cbn [foldl]. apply path_join2_sep.
  - rewrite state_dir_eq by done. destruct Hn. unfold test_dir. by destruct gcs_path.
  - rewrite state_dir_eq, !app_assoc by done. by apply endswith_sep_app.
  - apply startswith_sep_no, after_last_fresh.
Qed.

Lemma dir_inj s1 s2 x1 x2 :
  s1 ∈ CORPUS_STATES -> s2 ∈ CORPUS_STATES -> slash ∉ x1 -> slash ∉ x2 ->
  dir s1 ++ sep ++ x1 = dir s2 ++ sep ++ x2 -> s1 = s2 /\ x1 = x2.
Proof using Hn.
  intros H1 H2 Hx1 Hx2 H. destruct (corpus_state_no_sep s1 H1), (corpus_state_no_sep s2 H2).
  assert (x1 = x2) as ->.
  { apply (f_equal basename) in H. unfold basename in H. cbn [app sep] in H.
    by rewrite !after_last_app in H. }
  split; [|done]. apply app_inj_2 in H as [H _]; [|done].
  rewrite !state_dir_eq in H by done. by apply app_inv_head, app_inv_head, app_inv_head in H.
Qed.
End names.

(** ** Where a blob is *)
Section states.
Context (gcs_path device_serial test_name : pystr) (Hn : named gcs_path test_name).
Context {B : Type} `{!Bucket B, !BucketLaws B}.

Local Abbreviation dir s := (state_dir gcs_path s test_name).
Local Abbreviation file := (GetFilePaths gcs_path device_serial).

(** The corpus [x] is in the state [s]. *)
Definition holds (b : B) (s x : pystr) : Prop := is_Some (blobs b !! (dir s ++ sep ++ x)).

(** A corpus lies directly in the directory of a state, and in one only. *)
Record wf (b : B) : Prop := {
  wf_flat s x : s ∈ CORPUS_STATES -> holds b s x -> slash ∉ x /\ x <> [];
  wf_one s1 s2 x : s1 ∈ CORPUS_STATES -> s2 ∈ CORPUS_STATES -> holds b s1 x -> holds b s2 x -> s1 = s2;
}.

Lemma basename_dir s x : slash ∉ x -> basename (dir s ++ sep ++ x) = x.
Proof. intros Hx. unfold basename. cbn [app sep]. by apply after_last_app. Qed.

Lemma file_dir s n :
  s ∈ CORPUS_STATES -> basename n <> [] -> file s test_name n = dir s ++ sep ++ basename n.
Proof using Hn. intros. by apply file_eq. Qed.

Lemma dir_inj_free s1 s2 x1 x2 :
  slash ∉ s1 -> slash ∉ s2 -> dir s1 ++ sep ++ x1 = dir s2 ++ sep ++ x2 -> s1 = s2 /\ x1 = x2.
Proof using Hn.
  intros H1 H2 H.
  rewrite !(state_dir_eq _ _ Hn), <- !app_assoc in H by done.
  apply app_inv_head, app_inv_head, app_inv_head in H.
  pose proof (first_component _ _ _ _ H1 H2 H) as ->. split; [done|].
  apply app_inv_head in H. by injection H.
Qed.
Lemma dir_inj_deep s1 s2 x1 x2 :
  s1 ∈ CORPUS_STATES -> s2 ∈ CORPUS_STATES ->
  dir s1 ++ sep ++ x1 = dir s2 ++ sep ++ x2 -> s1 = s2 /\ x1 = x2.
Proof using Hn. intros [H1 _]%corpus_state_no_sep [H2 _]%corpus_state_no_sep. by apply dir_inj_free. Qed.

(** A bucket that only lost blobs. *)
Lemma wf_subseteq b b' : wf b -> blobs b' ⊆ blobs b -> wf b'.
Proof.
  intros [Hf Ho] Hs. assert (forall s x, holds b' s x -> holds b s x) as H.
  { intros s x [c Hc]. exists c. by apply (lookup_weaken _ _ _ _ Hc). }
  split; [intros s x Hs' ?%H; eauto|]. intros s1 s2 x H1 H2 ?%H ?%H. eauto.
Qed.

(** A bucket that gained a blob outside the directories of the states. *)
Lemma wf_insert_outside b b' n c :
  wf b -> (forall s x, s ∈ CORPUS_STATES -> n <> dir s ++ sep ++ x) ->
  blobs b' = <[n := c]> (blobs b) -> wf b'.
Proof.
  intros [Hf Ho] Hout Hb. assert (forall s x, s ∈ CORPUS_STATES -> holds b' s x -> holds b s x) as H.
  { intros s x Hs. unfold holds. rewrite Hb, lookup_insert_ne; [done|]. by apply Hout. }
  split; [intros s x Hs ?%H; eauto|]. intros s1 s2 x H1 H2 ?%H ?%H; eauto.
Qed.

(** A blob moved to the directory of a state: fine when no other blob there had
    its base name. *)
Lemma wf_move b b' src s c :
  wf b -> s ∈ CORPUS_STATES -> basename src <> [] ->
  (forall s', s' ∈ CORPUS_STATES -> holds b s' (basename src) -> src = dir s' ++ sep ++ basename src) ->
  blobs b' = <[dir s ++ sep ++ basename src := c]> (delete src (blobs b)) -> wf b'.
Proof using Hn.
  intros [Hf Ho] Hs Hne Hfree Hb.
  assert (forall s' x, s' ∈ CORPUS_STATES -> holds b' s' x ->
            s' = s /\ x = basename src \/ holds b s' x /\ x <> basename src) as H.
  { intros s' x Hs' H. unfold holds in H. rewrite Hb, lookup_insert_is_Some in H.
    destruct H as [H|[H1 H2]]; [left; by apply dir_inj_deep in H as [-> ->]|].
    rewrite lookup_delete_is_Some in H2. destruct H2 as [H2 H3].
    right. split; [exact H3|]. intros ->. by apply H2, Hfree. }
  split.
  - intros s' x Hs' [[-> ->]|[H1 _]]%H; [|by apply (Hf s')|done]. split; [apply after_last_fresh|done].
  - intros s1 s2 x Hs1 Hs2 [[-> ?]|[H1 ?]]%H [[-> ?]|[H2 ?]]%H; try done. by apply (Ho _ _ x).
Qed.

Lemma MoveFile_cases b src dst :
  src <> dst ->
  (exists c b', MoveFile true src dst b = (true, b') /\ blobs b !! src = Some c /\
     blobs b' = <[dst := c]> (delete src (blobs b))) \/
  (MoveFile true src dst b = (false, b) /\ blobs b !! src = None).
Proof using BucketLaws0.
  intros Hne. unfold MoveFile. destruct (blobs b !! src) as [c|] eqn:E.
  - left. destruct (rename_blob_Some b src dst c E Hne) as (b' & -> & Hb). eauto.
  - right. by rewrite rename_blob_None.
Qed.

Lemma DeleteFile_subseteq b n : blobs (DeleteFile true n b).2 ⊆ blobs b.
Proof using BucketLaws0.
  unfold DeleteFile. destruct (blobs b !! n) as [c|] eqn:E.
  - destruct (delete_blob_Some b n c E) as (b' & -> & Hb). cbn [snd]. rewrite Hb. apply delete_subseteq.
  - by rewrite delete_blob_None.
Qed.

(** ** The operations of the manager *)
Lemma MoveFile_wf b x s1 s2 :
  wf b -> s1 ∈ CORPUS_STATES -> s2 ∈ CORPUS_STATES -> s1 <> s2 -> slash ∉ x -> x <> [] ->
  wf (MoveFile true (dir s1 ++ sep ++ x) (dir s2 ++ sep ++ x) b).2.
Proof using Hn BucketLaws0.
  intros Hw H1 H2 Hne Hx Hx0.
  destruct (MoveFile_cases b (dir s1 ++ sep ++ x) (dir s2 ++ sep ++ x)) as [(c & b' & -> & Hc & Hb)|[-> _]];
    [intros E; by apply dir_inj_deep in E as []| |done].
  apply (wf_move b b' (dir s1 ++ sep ++ x) s2 c); try done; rewrite ?basename_dir by done; [done| |done].
  intros s' Hs' Hh. f_equal. f_equal. apply (wf_one _ Hw s1 s' x); [done..|by exists c|done].
Qed.

Lemma CorpusIsDuplicate_false b n :
  basename n <> [] ->
  CorpusIsDuplicate gcs_path device_serial true test_name n b = false ->
  forall s, s ∈ CORPUS_STATES -> ~ holds b s (basename n).
Proof using Hn.
  intros Hne Hd s Hs Hh. apply not_true_iff_false in Hd. apply Hd, existsb_exists.
  exists s. split; [by apply list_elem_of_In|]. unfold FileExists. apply bool_decide_eq_true.
  rewrite file_dir by done. exact Hh.
Qed.

Lemma classify_one_wf b k s n :
  wf b -> s ∈ CORPUS_STATES -> basename n <> [] ->
  (forall s x, s ∈ CORPUS_STATES -> n <> dir s ++ sep ++ x) ->
  wf (classify_one gcs_path device_serial true test_name s (k, b) n).2.
Proof using Hn BucketLaws0.
  intros Hw Hs Hne Hout. unfold classify_one.
  destruct (CorpusIsDuplicate _ _ _ _ _ _) eqn:Hd; cbn [snd].
  - eapply wf_subseteq; [done|]. apply DeleteFile_subseteq.
  - rewrite file_dir by done.
    destruct (MoveFile_cases b n (dir s ++ sep ++ basename n)) as [(c & b' & -> & Hc & Hb)|[-> _]];
      [by apply Hout| |done].
    eapply wf_move; try done. intros s' Hs' Hh. by eapply CorpusIsDuplicate_false in Hh.
Qed.

(** Blobs below the incoming directory are in no state. *)
Lemma incoming_outside_free p x s y :
  startswith (gcs_path ++ sep ++ test_name ++ sep ++ bs "incoming" ++ sep) p = true ->
  slash ∉ s -> p ++ x <> dir s ++ sep ++ y.
Proof using Hn.
  intros [k ->]%startswith_spec H1 H.
  rewrite (state_dir_eq _ _ Hn), <- !app_assoc in H by done. unfold test_dir in H.
  rewrite <- !app_assoc in H. do 4 apply app_inv_head in H.
  assert (bs "incoming" = test_name ++ bs "_" ++ s) as E.
  { rewrite !(app_assoc test_name), !(app_assoc (test_name ++ _)) in H.
    eapply first_component in H; [by rewrite <- app_assoc in H| |].
    - apply (bool_decide_unpack _). vm_compute. exact I.
    - destruct Hn. rewrite !not_elem_of_app. repeat split; [done| |done].
      apply (bool_decide_unpack _). vm_compute. exact I. }
  assert (Byte.x5f ∈ bs "incoming") as E'
    by (rewrite E, elem_of_app; right; rewrite elem_of_app; left; by left).
  revert E'. apply (bool_decide_unpack _). vm_compute. exact I.
Qed.

Lemma incoming_outside p x s y :
  startswith (gcs_path ++ sep ++ test_name ++ sep ++ bs "incoming" ++ sep) p = true ->
  s ∈ CORPUS_STATES -> p ++ x <> dir s ++ sep ++ y.
Proof using Hn. intros Hp [H1 _]%corpus_state_no_sep. by apply incoming_outside_free. Qed.

(** ** The steps of the machines of a lab *)
Definition incoming_prefix : pystr := gcs_path ++ sep ++ test_name ++ sep ++ bs "incoming" ++ sep.

(** One change of the bucket by a machine that runs stage 1 or 2 of the manager:
    the upload of an output file, the move of a seed that is going to be used
    (listed some time ago), its way to a destination, the classification of an
    incoming seed and the upload of a crash report. *)
Inductive corpus_step : B -> B -> Prop :=
  | step_incoming b n content :
      startswith incoming_prefix n = true -> basename n <> [] ->
      corpus_step b (UploadFile true content n b)
  | step_fetch b priority x :
      priority ∈ CORPUS_PRIORITIES ->
      corpus_step b (MoveFile true (dir priority ++ sep ++ x) (file INUSE test_name (dir priority ++ sep ++ x)) b).2
  | step_dest b x destination :
      destination <> INUSE ->
      corpus_step b (InuseToDest gcs_path device_serial true test_name (dir INUSE ++ sep ++ x) destination b).2
  | step_classify b k n destination :
      destination ∈ CORPUS_PRIORITIES -> startswith incoming_prefix n = true -> basename n <> [] ->
      corpus_step b (classify_one gcs_path device_serial true test_name destination (k, b) n).2
  | step_trigger b uuid local_temp_dir content :
      slash ∉ uuid -> (forall s, s ∈ CORPUS_STATES -> ~ holds b s (bs "crash_report" ++ uuid)) ->
      corpus_step b (UploadTriggeredCorpus gcs_path device_serial true uuid test_name local_temp_dir
                       (Some content) b).

Lemma priorities_states s : s ∈ CORPUS_PRIORITIES -> s ∈ CORPUS_STATES /\ s <> INUSE.
Proof.
  intros Hs. assert (forallb (fun s => bool_decide (s ∈ CORPUS_STATES /\ s <> INUSE)) CORPUS_PRIORITIES = true) as H
    by (vm_compute; reflexivity).
  rewrite forallb_forall in H. by apply list_elem_of_In, H, bool_decide_eq_true in Hs.
Qed.

Lemma INUSE_state : INUSE ∈ CORPUS_STATES.
Proof. apply (bool_decide_unpack _). vm_compute. exact I. Qed.
Lemma trigger_state : bs "corpus_trigger" ∈ CORPUS_STATES.
Proof. apply (bool_decide_unpack _). vm_compute. exact I. Qed.

(** Moving out of one state and into another, when the source may be gone. *)
Lemma move_state_wf b s1 s2 x :
  wf b -> s1 ∈ CORPUS_STATES -> s2 ∈ CORPUS_STATES -> s1 <> s2 ->
  wf (MoveFile true (dir s1 ++ sep ++ x) (file s2 test_name (dir s1 ++ sep ++ x)) b).2.
Proof using Hn BucketLaws0.
  intros Hw H1 H2 Hne. destruct (blobs b !! (dir s1 ++ sep ++ x)) as [c|] eqn:E.
  - destruct (wf_flat _ Hw s1 x H1) as [Hx Hx0]; [by exists c|].
    rewrite file_dir by (done || by rewrite basename_dir). rewrite basename_dir by done.
    by apply MoveFile_wf.
  - unfold MoveFile. by rewrite rename_blob_None.
Qed.

Lemma UploadTriggeredCorpus_dest uuid local_temp_dir :
  file (bs "corpus_trigger") test_name
    (path_join (GetDirPaths gcs_path (bs "local_corpus_trigger") test_name local_temp_dir) [bs "crash_report"]) ++ uuid
  = dir (bs "corpus_trigger") ++ sep ++ bs "crash_report" ++ uuid.
Proof using Hn.
  assert (basename (path_join (GetDirPaths gcs_path (bs "local_corpus_trigger") test_name local_temp_dir)
            [bs "crash_report"]) = bs "crash_report") as E.
  { apply basename_join2. apply (bool_decide_unpack _). vm_compute. exact I. }
  rewrite file_dir by (apply trigger_state || by rewrite E). by rewrite E, <- !app_assoc.
Qed.

Lemma wf_upload b b' s x c :
  wf b -> s ∈ CORPUS_STATES -> slash ∉ x -> x <> [] -> (forall s, s ∈ CORPUS_STATES -> ~ holds b s x) ->
  blobs b' = <[dir s ++ sep ++ x := c]> (blobs b) -> wf b'.
Proof using Hn.
  intros [Hf Ho] Hs Hx Hx0 Hfree Hb.
  assert (forall s' y, s' ∈ CORPUS_STATES -> holds b' s' y -> s' = s /\ y = x \/ holds b s' y /\ y <> x) as H.
  { intros s' y Hs' H. unfold holds in H. rewrite Hb, lookup_insert_is_Some in H.
    destruct H as [H|[_ H]]; [left; by apply dir_inj_deep in H as [-> ->]|].
    right. split; [done|]. intros ->. by apply (Hfree s'). }
  split; [by intros s' y Hs' [[-> ->]|[H1 _]]%H; [|by apply (Hf s')|]|].
  intros s1 s2 y H1 H2 [[-> ?]|[H3 ?]]%H [[-> ?]|[H4 ?]]%H; try done. by apply (Ho _ _ y).
Qed.

Lemma corpus_step_wf b b' : wf b -> corpus_step b b' -> wf b'.
Proof using Hn BucketLaws0.
  intros Hw Hs. destruct Hs as [b n content Hn' _|b p x [Hp Hne]%priorities_states|b x d Hd
    |b k n d [Hd _]%priorities_states Hn' Hne|b uuid l content Hu Hfree].
  - eapply wf_insert_outside; [done| |apply blobs_upload]. intros s x Hs.
    rewrite <- (app_nil_r n). by apply incoming_outside.
  - apply move_state_wf; [done..|apply INUSE_state|done].
  - unfold InuseToDest. destruct (FileExists _ _ _); [|done]. case_bool_decide; [|done].
    apply move_state_wf; [done|apply INUSE_state|done..].
  - apply classify_one_wf; [done..|]. intros s x Hs. rewrite <- (app_nil_r n). by apply incoming_outside.
  - unfold UploadTriggeredCorpus, UploadFile. rewrite UploadTriggeredCorpus_dest.
    eapply (wf_upload b _ (bs "corpus_trigger") (bs "crash_report" ++ uuid)); [done|apply trigger_state|..|done|apply blobs_upload].
    + rewrite not_elem_of_app. split; [|done]. apply (bool_decide_unpack _). vm_compute. exact I.
    + done.
Qed.

Lemma corpus_steps_wf b b' : rtc corpus_step b b' -> wf b -> wf b'.
Proof using Hn BucketLaws0. induction 1; eauto using corpus_step_wf. Qed.

Lemma wf_empty b : blobs b = ∅ -> wf b.
Proof.
  intros Hb. split; intros s *; unfold holds; rewrite Hb, ?lookup_empty; [by intros _ []|].
  by intros _ _ [].
Qed.

(** ** The manager's operations are steps *)
Lemma list_state_dir b s n :
  slash ∉ s -> s <> [] ->
  n ∈ ListFilesWithPrefix true (dir s) true b <-> exists x, n = dir s ++ sep ++ x /\ holds b s x.
Proof using Hn BucketLaws0.
  intros H1 H2. unfold ListFilesWithPrefix.
  assert (endswith sep (dir s) = false) as ->.
  { rewrite (state_dir_eq _ _ Hn), !app_assoc by done. by apply endswith_sep_app. }
  cbn [andb negb]. rewrite elem_of_list_blobs, startswith_spec. unfold holds. split.
  - intros [H [x ->]]. exists x. rewrite <- app_assoc in H |- *. done.
  - intros (x & -> & H). split; [exact H|]. exists x. by rewrite app_assoc.
Qed.

Lemma GetDirPaths_state s : s ∈ CORPUS_STATES -> GetDirPaths gcs_path s test_name [] = dir s.
Proof. intros Hs. unfold GetDirPaths. by rewrite bool_decide_eq_true_2. Qed.

Lemma list_dir b s n :
  s ∈ CORPUS_STATES ->
  n ∈ ListFilesWithPrefix true (GetDirPaths gcs_path s test_name []) true b <->
  exists x, n = dir s ++ sep ++ x /\ holds b s x.
Proof using Hn BucketLaws0.
  intros Hs. rewrite GetDirPaths_state by done. by apply list_state_dir; apply corpus_state_no_sep.
Qed.

Lemma list_dir_NoDup b s : NoDup (ListFilesWithPrefix true (GetDirPaths gcs_path s test_name []) true b).
Proof using BucketLaws0. apply list_blobs_NoDup. Qed.

(** [random.randint(0, n - 1)] *)
Definition in_range (choose : nat -> nat -> nat) : Prop := forall k n, 0 < n -> choose k n < n.

Lemma chosen_listed choose k b s :
  in_range choose -> s ∈ CORPUS_STATES ->
  let l := ListFilesWithPrefix true (GetDirPaths gcs_path s test_name []) true b in
  l <> [] -> exists x, nth (choose k (length l)) l [] = dir s ++ sep ++ x /\ holds b s x.
Proof using Hn BucketLaws0.
  intros Hc Hs l Hl. apply list_dir; [done|]. apply list_elem_of_In, nth_In, Hc.
  fold l. clearbody l. destruct l; [done|cbn; lia].
Qed.

Lemma fetch_loop_steps choose env download fuel k t priority b r b' :
  in_range choose -> (forall k b, rtc corpus_step b (env k b)) -> priority ∈ CORPUS_PRIORITIES ->
  fetch_loop gcs_path device_serial true choose env download fuel k t test_name priority b = Some (r, b') ->
  rtc corpus_step b b'.
Proof using Hn BucketLaws0.
  intros Hc He Hp. revert k t b. induction fuel as [|fuel IH]; [done|]. intros k t b. cbn [fetch_loop].
  destruct (t <? 10); [|by intros [= <- <-]].
  destruct (ListFilesWithPrefix _ _ _ _) as [|n l] eqn:El; [by intros [= <- <-]|].
  rewrite <- El. destruct (chosen_listed choose k b priority Hc (proj1 (priorities_states _ Hp))) as (x & -> & _);
    [by rewrite El|].
  pose proof (step_fetch (env k b) priority x Hp) as Hs. revert Hs. unfold INUSE.
  destruct (MoveFile _ _ _ _) as [[] b1]; cbn [snd]; intros Hs H;
    (etransitivity; [apply He|]; eapply rtc_l; [exact Hs|]); [|by eapply IH].
  destruct (download _); [by injection H as <- <-|by eapply IH].
Qed.

Lemma startswith_incoming_child local_temp_dir n :
  startswith (GetDirPaths gcs_path (bs "incoming_child") test_name local_temp_dir) n = true ->
  startswith incoming_prefix n = true.
Proof using Hn.
  change (GetDirPaths gcs_path (bs "incoming_child") test_name local_temp_dir) with
    (path_join gcs_path [test_name; bs "incoming"; basename local_temp_dir; test_name ++ bs "_corpus_out"]).
  unfold path_join. cbn [foldl]. destruct Hn.
  rewrite (path_join2_sep gcs_path) by (done || by apply startswith_sep_no).
  assert (forall a b, startswith sep b = false -> exists c, path_join2 a b = a ++ c) as J.
  { intros a b Hb. unfold path_join2. rewrite Hb. destruct (_ || _); eauto. }
  rewrite (path_join2_sep (gcs_path ++ _));
    [|by destruct gcs_path|by rewrite app_assoc; apply endswith_sep_app|reflexivity].
  set (p := (gcs_path ++ sep ++ test_name) ++ sep ++ bs "incoming").
  assert (path_join2 p (basename local_temp_dir) = p ++ sep ++ basename local_temp_dir) as ->.
  { apply path_join2_sep; [by subst p; destruct gcs_path| |apply startswith_sep_no, after_last_fresh].
    subst p. rewrite app_assoc. apply endswith_sep_app; [done|].
    apply (bool_decide_unpack _). vm_compute. exact I. }
  destruct (J (p ++ sep ++ basename local_temp_dir) (test_name ++ bs "_corpus_out")) as [c ->].
  { by destruct test_name as [|a ?]; [|apply startswith_sep_no; rewrite not_elem_of_app; split;
      [|apply (bool_decide_unpack _); vm_compute; exact I]]. }
  intros [y ->]%startswith_spec. apply startswith_spec. subst p. unfold incoming_prefix.
  exists (basename local_temp_dir ++ c ++ y). by rewrite <- !app_assoc.
Qed.

(** The names below the incoming directory end in a file's name. *)
Definition incoming_ok (b : B) : Prop :=
  forall n, startswith incoming_prefix n = true -> is_Some (blobs b !! n) -> basename n <> [].

Lemma classify_all_steps local_temp_dir destination b :
  incoming_ok b -> destination ∈ CORPUS_PRIORITIES ->
  rtc corpus_step b (classify_all gcs_path device_serial true test_name local_temp_dir destination b).2.
Proof using Hn BucketLaws0.
  intros Hok Hd. unfold classify_all, ListFilesWithPrefix.
  set (l := list_blobs _ _).
  assert (Forall (fun n => startswith incoming_prefix n = true /\ basename n <> []) l) as Hl.
  { apply Forall_forall. intros n [Hs Hp]%elem_of_list_blobs.
    assert (startswith incoming_prefix n = true); [|by split; [|apply Hok]].
    eapply startswith_incoming_child. apply startswith_spec in Hp as [y ->]. apply startswith_spec.
    destruct (_ && _); [|by eauto]. rewrite <- app_assoc. eauto. }
  clearbody l. clear Hok. generalize 0. revert b. induction Hl as [|n l [Hn1 Hn2] _ IH]; intros b k; cbn [foldl].
  - apply rtc_refl.
  - pose proof (step_classify b k n destination Hd Hn1 Hn2) as Hs.
    destruct (classify_one _ _ _ _ _ _ _) as [k' b']. eapply rtc_l; [exact Hs|apply IH].
Qed.

Lemma local_corpus_out_base local_temp_dir :
  basename (GetDirPaths gcs_path (bs "local_corpus_out") test_name local_temp_dir) = test_name ++ bs "_corpus_out".
Proof using Hn.
  change (GetDirPaths gcs_path (bs "local_corpus_out") test_name local_temp_dir) with
    (path_join2 local_temp_dir (test_name ++ bs "_corpus_out")).
  apply basename_join2. destruct Hn. rewrite not_elem_of_app. split; [done|].
  apply (bool_decide_unpack _). vm_compute. exact I.
Qed.

Lemma incoming_parent_eq local_temp_dir :
  GetDirPaths gcs_path (bs "incoming_parent") test_name local_temp_dir = incoming_prefix ++ basename local_temp_dir.
Proof using Hn.
  change (GetDirPaths gcs_path (bs "incoming_parent") test_name local_temp_dir) with
    (path_join gcs_path [test_name; bs "incoming"; basename local_temp_dir]).
  unfold path_join. cbn [foldl]. destruct Hn.
  rewrite (path_join2_sep gcs_path) by (done || by apply startswith_sep_no).
  rewrite (path_join2_sep (gcs_path ++ _));
    [|by destruct gcs_path|by rewrite app_assoc; apply endswith_sep_app|reflexivity].
  rewrite path_join2_sep; [unfold incoming_prefix; by rewrite <- !app_assoc|by destruct gcs_path| |].
  - rewrite app_assoc. apply endswith_sep_app; [done|]. apply (bool_decide_unpack _). vm_compute. exact I.
  - apply startswith_sep_no, after_last_fresh.
Qed.

Lemma upload_name local_temp_dir f :
  f <> [] ->
  let n := path_join2 (GetDirPaths gcs_path (bs "incoming_parent") test_name local_temp_dir)
             (basename (GetDirPaths gcs_path (bs "local_corpus_out") test_name local_temp_dir) ++ sep ++ f) in
  startswith incoming_prefix n = true /\ basename n = basename f.
Proof using Hn.
  clear BucketLaws0 Bucket0 B. intros Hf n. subst n. rewrite local_corpus_out_base, incoming_parent_eq.
  unfold path_join2. destruct (startswith sep _) eqn:E.
  { apply startswith_spec in E as [k E]. destruct Hn as [_ _ ? Hs]. destruct test_name as [|a t]; [done|].
    injection E as -> _. set_solver. }
  destruct (_ || _); (split; [apply startswith_spec; rewrite <- app_assoc; eauto|]); unfold basename.
  - rewrite !app_assoc, <- !app_assoc, !app_assoc. rewrite <- app_assoc. apply after_last_app_deep.
  - rewrite !app_assoc. rewrite <- app_assoc. apply after_last_app_deep.
Qed.

Lemma UploadDir_steps local_temp_dir files b :
  Forall (fun f => basename f.1 <> []) files ->
  rtc corpus_step b (UploadDir true (basename (GetDirPaths gcs_path (bs "local_corpus_out") test_name local_temp_dir))
      (GetDirPaths gcs_path (bs "incoming_parent") test_name local_temp_dir) (Some files) b).2.
Proof using Hn.
  intros Hf. unfold UploadDir. cbn [snd]. revert b. induction Hf as [|[f c] l Hf _ IH]; intros b; cbn [foldl].
  - apply rtc_refl.
  - destruct (upload_name local_temp_dir f) as [H1 H2]; [by intros ->|]. cbn [fst] in Hf.
    eapply rtc_l; [|apply IH]. apply step_incoming; [done|]. cbn [fst]. by rewrite H2.
Qed.

Lemma join_state s x : slash ∉ s -> s <> [] -> slash ∉ x -> path_join2 (dir s) x = dir s ++ sep ++ x.
Proof using Hn.
  intros Hs Hs0 Hx. apply path_join2_sep; [| |by apply startswith_sep_no].
  - rewrite (state_dir_eq _ _ Hn) by done. destruct Hn. unfold test_dir. by destruct gcs_path.
  - rewrite (state_dir_eq _ _ Hn), !app_assoc by done. by apply endswith_sep_app.
Qed.

(** Steps keep the names below the incoming directory well formed. *)
Lemma MoveFile_incoming b src dst :
  src <> dst -> (startswith incoming_prefix dst = true -> basename dst <> []) -> incoming_ok b ->
  incoming_ok (MoveFile true src dst b).2.
Proof using BucketLaws0.
  intros Hne Hd Hok. destruct (MoveFile_cases b src dst Hne) as [(c & b' & -> & _ & Hb)|[-> _]]; [|done].
  intros n Hn' Hin. cbn [snd] in Hin. rewrite Hb, lookup_insert_is_Some, lookup_delete_is_Some in Hin.
  destruct Hin as [<-|(_ & _ & Hin)]; [by apply Hd|by apply Hok].
Qed.

Lemma state_not_incoming s x : s ∈ CORPUS_STATES -> startswith incoming_prefix (dir s ++ sep ++ x) = false.
Proof using Hn.
  intros Hs. apply not_true_iff_false. intros H.
  apply (incoming_outside (dir s ++ sep ++ x) [] s x H Hs). apply app_nil_r.
Qed.

Lemma file_state s n : s ∈ CORPUS_STATES -> exists x, file s test_name n = dir s ++ x /\ (x = sep ++ basename n).
Proof using Hn.
  intros Hs. destruct (corpus_state_no_sep s Hs). exists (sep ++ basename n). split; [|done].
  unfold GetFilePaths. rewrite bool_decide_eq_true_2 by done. rewrite GetDirPaths_state by done.
  unfold path_join. cbn [foldl]. apply join_state; [done..|apply after_last_fresh].
Qed.

Lemma corpus_step_incoming b b' : corpus_step b b' -> incoming_ok b -> incoming_ok b'.
Proof using Hn BucketLaws0.
  assert (forall b s1 s2 x, s1 ∈ CORPUS_STATES -> s2 ∈ CORPUS_STATES -> s1 <> s2 -> incoming_ok b ->
            incoming_ok (MoveFile true (dir s1 ++ sep ++ x) (file s2 test_name (dir s1 ++ sep ++ x)) b).2) as Hm.
  { intros b0 s1 s2 x H1 H2 Hne Hok. destruct (file_state s2 (dir s1 ++ sep ++ x) H2) as (y & -> & ->).
    apply MoveFile_incoming; [intros E; by apply dir_inj_deep in E as []| |done].
    by rewrite state_not_incoming. }
  intros [b0 n content Hn' Hne|b0 p x [Hp Hne]%priorities_states|b0 x d Hd
    |b0 k n d [Hd _]%priorities_states Hn' Hne|b0 uuid l content Hu Hfree] Hok.
  - intros m Hm' Hin. unfold UploadFile in Hin. rewrite blobs_upload, lookup_insert_is_Some in Hin.
    destruct Hin as [<-|[_ Hin]]; [done|by apply Hok].
  - apply Hm; [done|apply INUSE_state|done..].
  - unfold InuseToDest. destruct (FileExists _ _ _); [|done]. case_bool_decide; [|done].
    apply Hm; [apply INUSE_state|done|by apply not_eq_sym|done].
  - unfold classify_one. destruct (CorpusIsDuplicate _ _ _ _ _ _); cbn [snd].
    + intros m Hm' [c Hin]. apply Hok; [done|]. exists c. eapply lookup_weaken; [exact Hin|apply DeleteFile_subseteq].
    + destruct (file_state d n Hd) as (y & -> & ->). apply MoveFile_incoming; [| |done].
      * intros E. by rewrite E, state_not_incoming in Hn'.
      * by rewrite state_not_incoming.
  - unfold UploadTriggeredCorpus, UploadFile. rewrite UploadTriggeredCorpus_dest.
    intros m Hm' Hin. rewrite blobs_upload, lookup_insert_is_Some in Hin. destruct Hin as [<-|[_ Hin]].
    + by rewrite state_not_incoming in Hm' by apply trigger_state.
    + by apply Hok.
Qed.

(** ** The fetch loop ends *)
Lemma list_dir_shrinks b b' s n :
  s ∈ CORPUS_STATES ->
  let l b := ListFilesWithPrefix true (GetDirPaths gcs_path s test_name []) true b in
  n ∈ l b -> n ∉ l b' -> (forall m, m ∈ l b' -> m ∈ l b) -> length (l b') < length (l b).
Proof using Hn BucketLaws0.
  intros Hs l H1 H2 H3. assert (NoDup (n :: l b')) as Hd by (constructor; [done|apply list_dir_NoDup]).
  change (length (n :: l b') <= length (l b)). apply submseteq_length, NoDup_submseteq; [done|].
  intros m [->|Hm]%elem_of_cons; auto.
Qed.

(** A seed that is there moves to the seeds in use. *)
Lemma take_seed b s x :
  wf b -> s ∈ CORPUS_STATES -> s <> INUSE -> holds b s x ->
  exists b', MoveFile true (dir s ++ sep ++ x) (file INUSE test_name (dir s ++ sep ++ x)) b = (true, b') /\
    file INUSE test_name (dir s ++ sep ++ x) = dir INUSE ++ sep ++ x /\
    wf b' /\ holds b' INUSE x /\ ~ holds b' s x /\
    (forall y, holds b' s y -> holds b s y) /\
    (forall y, y <> x -> holds b' s y <-> holds b s y) /\ (forall y, holds b INUSE y -> holds b' INUSE y).
Proof using Hn BucketLaws0.
  intros Hw Hs Hne Hh. pose proof (move_state_wf b s INUSE x Hw Hs INUSE_state Hne) as Hw'.
  destruct (wf_flat _ Hw s x Hs Hh) as [Hx Hx0].
  assert (file INUSE test_name (dir s ++ sep ++ x) = dir INUSE ++ sep ++ x) as E.
  { rewrite file_dir by (apply INUSE_state || by rewrite basename_dir). by rewrite basename_dir. }
  rewrite E in *. pose proof INUSE_state as Hi.
  assert (forall y z, dir s ++ sep ++ y <> dir INUSE ++ sep ++ z) as Hdd
    by (intros y z H; by apply dir_inj_deep in H as []).
  destruct (MoveFile_cases b (dir s ++ sep ++ x) (dir INUSE ++ sep ++ x)) as [(c & b' & Em & Hc & Hb)|[_ H]];
    [apply Hdd| |by destruct Hh as [? Hh]; unfold holds in Hh; rewrite H in Hh].
  rewrite Em in Hw'. cbn [snd] in Hw'. exists b'. split; [exact Em|]. unfold holds. rewrite Hb.
  assert (forall y, dir s ++ sep ++ x = dir s ++ sep ++ y -> x = y) as Hinj
    by (intros y H; by apply dir_inj_deep in H as []).
  split_and!; [done|done| |intros ?|intros y|intros y Hy|intros y].
  - rewrite lookup_insert_eq. eauto.
  - rewrite lookup_insert_ne, lookup_delete_eq in H by (apply not_eq_sym, Hdd). by destruct H.
  - rewrite lookup_insert_ne by (apply not_eq_sym, Hdd). rewrite lookup_delete_is_Some. tauto.
  - rewrite lookup_insert_ne by (apply not_eq_sym, Hdd). rewrite lookup_delete_ne; [done|].
    intros H. by apply Hy, eq_sym, Hinj.
  - rewrite lookup_insert_is_Some, lookup_delete_is_Some. intros H.
    destruct (decide (dir INUSE ++ sep ++ x = dir INUSE ++ sep ++ y)); [by left|right].
    split; [done|]. split; [apply Hdd|done].
Qed.

Lemma fetch_loop_result choose download fuel k t priority b :
  wf b -> in_range choose -> priority ∈ CORPUS_PRIORITIES -> t < 10 ->
  length (ListFilesWithPrefix true (GetDirPaths gcs_path priority test_name []) true b) < fuel ->
  exists r b', fetch_loop gcs_path device_serial true choose (fun _ b => b) download fuel k t
                 test_name priority b = Some (r, b') /\
    match r with
    | Some f => exists x, f = dir INUSE ++ sep ++ x /\ download f = true /\
                  holds b priority x /\ holds b' INUSE x /\ ~ holds b' priority x
    | None => (forall x, ~ holds b' priority x) /\
              (forall x, holds b priority x -> download (dir INUSE ++ sep ++ x) = false /\ holds b' INUSE x) /\
              (forall x, holds b INUSE x -> holds b' INUSE x)
    end.
Proof using Hn BucketLaws0.
  intros Hw Hc Hp Ht. destruct (priorities_states _ Hp) as [Hs Hi].
  revert k b Hw. induction fuel as [|fuel IH]; [lia|]. intros k b Hw Hf. cbn [fetch_loop].
  apply Nat.ltb_lt in Ht as Ht'. rewrite Ht'. clear Ht'.
  destruct (ListFilesWithPrefix _ _ _ _) as [|n l] eqn:El.
  { exists None, b. split; [done|]. assert (forall x, ~ holds b priority x) as H.
    { intros x Hx. assert (dir priority ++ sep ++ x ∈ ([] : list pystr)) as []%elem_of_nil.
      rewrite <- El. apply list_dir; eauto. }
    split; [done|]. split; [|done]. by intros x ?%H. }
  rewrite <- El in *. destruct (chosen_listed choose k b priority Hc Hs) as (x & -> & Hx); [by rewrite El|].
  destruct (take_seed b priority x Hw Hs Hi Hx) as (b1 & Em & Ef & Hw1 & H1 & H2 & H3 & H4 & H5).
  change (bs "corpus_inuse") with INUSE. rewrite Em, Ef.
  destruct (download _) eqn:Ed; [by exists (Some (dir INUSE ++ sep ++ x)), b1; eauto 10|].
  destruct (IH (S k) b1 Hw1) as (r & b' & -> & Hr).
  { eapply Nat.lt_le_trans; [eapply (list_dir_shrinks b b1 priority); [done|apply list_dir; eauto|..]|].
    - intros (y & Hy & Hh)%list_dir; [|done]. apply dir_inj_deep in Hy as [_ ->]; [by apply H2|done..].
    - intros m (y & -> & Hy)%list_dir; [|done]. apply list_dir; [done|]. eauto.
    - lia. }
  exists r, b'. split; [done|]. destruct r as [f|].
  - destruct Hr as (y & ? & ? & ? & ? & ?). exists y. eauto 10.
  - destruct Hr as (Hr1 & Hr2 & Hr3). split_and!; [done| |by eauto].
    intros y Hy. destruct (decide (y = x)) as [->|Hne]; [by eauto|]. by apply Hr2, H4.
Qed.

(** ** The lock of a session *)
Definition LOCK : pystr := bs "corpus_lock".

Lemma lock_no_sep s : s = LOCK \/ s = bs "corpus_measure" -> slash ∉ s.
Proof. intros [-> | ->]; apply (bool_decide_unpack _); vm_compute; exact I. Qed.

(** Some machine has a lock file. *)
Definition locked (b : B) : Prop := exists x, holds b LOCK x.

Lemma locked_exists b :
  PrefixExists true (GetDirPaths gcs_path LOCK test_name []) b = true <-> locked b.
Proof using Hn BucketLaws0.
  change (GetDirPaths gcs_path LOCK test_name []) with (dir LOCK).
  unfold PrefixExists, CountFiles. rewrite negb_true_iff, bool_decide_eq_false.
  rewrite length_zero_iff_nil.
  pose proof (list_state_dir b LOCK) as H. destruct (ListFilesWithPrefix _ _ _ _) as [|n l].
  - split; [done|]. intros [x Hx]. assert (dir LOCK ++ sep ++ x ∈ ([] : list pystr)) as []%elem_of_nil.
    apply H; [apply lock_no_sep; by left|done|eauto].
  - split; [|done]. intros _. destruct (H n) as [H' _]; [apply lock_no_sep; by left|done|].
    destruct H' as (x & _ & Hx); [by left|]. by exists x.
Qed.

Lemma lock_file : slash ∉ device_serial -> file LOCK test_name [] = dir LOCK ++ sep ++ device_serial.
Proof using Hn.
  intros Hd. change (file LOCK test_name []) with (path_join2 (dir LOCK) device_serial).
  apply join_state; [apply lock_no_sep; by left|done..].
Qed.

Lemma remove_lock_none b : blobs (remove_lock gcs_path device_serial true test_name b) !! file LOCK test_name [] = None.
Proof using BucketLaws0.
  unfold remove_lock, DeleteFile. fold LOCK. destruct (blobs b !! file LOCK test_name []) as [c|] eqn:E.
  - destruct (delete_blob_Some b _ c E) as (b' & -> & Hb). cbn [snd]. rewrite Hb. apply lookup_delete_eq.
  - by rewrite delete_blob_None.
Qed.

Lemma lock_measure x y :
  slash ∉ x -> slash ∉ y -> path_join2 (dir (bs "corpus_measure")) y <> dir LOCK ++ sep ++ x.
Proof using Hn.
  intros Hx Hy. rewrite join_state by (done || (apply lock_no_sep; by right)).
  rewrite !(state_dir_eq _ _ Hn) by (apply lock_no_sep; by (left + right)). rewrite <- !app_assoc.
  intros H%app_inv_head%app_inv_head%app_inv_head.
  apply first_component in H; [done|apply lock_no_sep; by (left + right)..].
Qed.

Lemma unlock_after_upload uuid measure local_temp_dir files triggered b :
  slash ∉ device_serial -> slash ∉ measure ->
  exists b', UploadCorpusOutDir gcs_path device_serial true FETCH_ALL_AND_REPEAT uuid measure test_name
               local_temp_dir (Some files) triggered b = (true, b') /\
    blobs b' !! (dir LOCK ++ sep ++ device_serial) = None.
Proof using Hn BucketLaws0.
  intros Hd Hm. unfold UploadCorpusOutDir. cbn [negb UploadDir].
  unfold ClassifyPriority. change (FETCH_ALL_AND_REPEAT =? FETCH_ONE_AND_FEED)%Z with false.
  change (FETCH_ALL_AND_REPEAT =? FETCH_CRASH_AND_FEED)%Z with false.
  change (FETCH_ALL_AND_REPEAT =? FETCH_ALL_AND_REPEAT)%Z with true. cbn iota.
  destruct (ClassifyPriority3 _ _ _ _ _ _ _ _) as [n b2]. eexists. split; [reflexivity|].
  unfold UploadFile. rewrite blobs_upload.
  change (GetDirPaths gcs_path (bs "corpus_measure") test_name []) with (dir (bs "corpus_measure")).
  rewrite lookup_insert_ne by (by apply lock_measure). rewrite <- lock_file by done. apply remove_lock_none.
Qed.
End states.

(** ** A bucket in memory: the laws can hold *)
#[export] Instance memory_bucket : Bucket (gmap pystr pystr) := {
  blobs b := b;
  list_blobs b p := filter (fun n => startswith p n = true) (map_to_list b).*1;
  rename_blob b src dst := c ← b !! src; Some (<[dst := c]> (delete src b));
  delete_blob b n := _ ← b !! n; Some (delete n b);
  upload b n c := <[n := c]> b;
}.

#[export] Instance memory_bucket_laws : BucketLaws (gmap pystr pystr).
Proof.
  split; cbn.
  - intros b p. apply NoDup_filter, NoDup_fst_map_to_list.
  - intros b p n. rewrite list_elem_of_filter, list_elem_of_fmap. split.
    + intros [Hp ([m c] & -> & H%elem_of_map_to_list)]. split; [by exists c|done].
    + intros [[c Hc] Hp]. split; [done|]. exists (n, c). split; [done|]. by apply elem_of_map_to_list.
  - intros b src dst c -> _. cbn. eauto.
  - by intros b src dst ->.
  - intros b n c ->. cbn. eauto.
  - by intros b n ->.
  - done.
Qed.

(** ** Theorems *)

(** Under the scheduling of the first two stages, with the check for a duplicate and the move
    after it taken as one step: whatever steps the machines of a lab take on a bucket that starts empty,
    and in whatever order, a corpus is in the directory of one state at most and
    directly in it. *)
Theorem corpus_states_exclusive {B : Type} `{!Bucket B, !BucketLaws B} gcs_path device_serial test_name b0 b :
  named gcs_path test_name -> blobs b0 = ∅ ->
  rtc (corpus_step gcs_path device_serial test_name) b0 b ->
  forall s1 s2 x, s1 ∈ CORPUS_STATES -> s2 ∈ CORPUS_STATES ->
  holds gcs_path test_name b s1 x -> holds gcs_path test_name b s2 x ->
  s1 = s2 /\ slash ∉ x /\ x <> [].
Proof.
  intros Hn H0 Hr s1 s2 x H1 H2 Hx1 Hx2.
  assert (wf gcs_path test_name b) as Hw by (eapply corpus_steps_wf; eauto using wf_empty).
  split; [by eapply wf_one|by eapply wf_flat].
Qed.

(** The manager's operations are made of those steps: the upload of an output
    directory, the classifications of the first two stages, the fetch of a seed
    with other machines stepping before each move, and the way to a destination. *)
Theorem manager_steps {B : Type} `{!Bucket B, !BucketLaws B} gcs_path device_serial test_name :
  named gcs_path test_name ->
  let step := corpus_step (B := B) gcs_path device_serial test_name in
  (forall local_temp_dir files b, Forall (fun f => basename f.1 <> []) files ->
     rtc step b (UploadDir true (basename (GetDirPaths gcs_path (bs "local_corpus_out") test_name local_temp_dir))
                   (GetDirPaths gcs_path (bs "incoming_parent") test_name local_temp_dir) (Some files) b).2) /\
  (forall local_temp_dir (triggered : option pystr) b, incoming_ok gcs_path test_name b ->
     rtc step b (ClassifyPriority1 gcs_path device_serial true test_name local_temp_dir b).2 /\
     rtc step b (classify_all gcs_path device_serial true test_name local_temp_dir
                   (if bool_decide (is_Some triggered) then bs "corpus_seed_high" else bs "corpus_seed") b).2 /\
     forall uuid n b', ClassifyPriority2 gcs_path device_serial true uuid test_name local_temp_dir None b = (n, b') ->
       rtc step b b') /\
  (forall choose env download fuel k t priority b r b',
     in_range choose -> (forall k b, rtc step b (env k b)) -> priority ∈ CORPUS_PRIORITIES ->
     fetch_loop gcs_path device_serial true choose env download fuel k t test_name priority b = Some (r, b') ->
     rtc step b b') /\
  (forall b b', step b b' -> incoming_ok gcs_path test_name b -> incoming_ok gcs_path test_name b') /\
  (forall b x destination, destination <> INUSE ->
     step b (InuseToDest gcs_path device_serial true test_name (state_dir gcs_path INUSE test_name ++ sep ++ x) destination b).2).
Proof.
  intros Hn step. split_and!.
  - intros. by apply UploadDir_steps.
  - intros l tr b Hok.
    assert (forall d, d = bs "corpus_seed" \/ d = bs "corpus_seed_high" ->
              rtc step b (classify_all gcs_path device_serial true test_name l d b).2) as Hc.
    { intros d Hd. apply classify_all_steps; [done..|].
      destruct Hd as [-> | ->]; apply (bool_decide_unpack _); vm_compute; exact I. }
    split; [by apply Hc; left|]. split; [apply Hc; case_bool_decide; auto|].
    intros uuid n b'. unfold ClassifyPriority2, UploadTriggeredCorpus.
    rewrite bool_decide_eq_false_2 by (by intros []).
    specialize (Hc (bs "corpus_seed")). destruct (classify_all _ _ _ _ _ _ _).
    intros [= <- <-]. apply Hc. by left.
  - intros. by eapply fetch_loop_steps.
  - intros b b' Hs Hok. by eapply corpus_step_incoming.
  - intros. by apply step_dest.
Qed.

(** With no other machine at work the fetch of a seed ends, whatever the
    random choices and however many downloads fail: the fuel of one round for each
    seed is enough.  It gives a seed that it moved to the seeds in use and
    downloaded, or nothing, when every seed of that priority ended up among the
    seeds in use without being downloaded. *)
Theorem fetch_ends {B : Type} `{!Bucket B, !BucketLaws B} gcs_path device_serial test_name choose download priority (b : B) :
  named gcs_path test_name -> wf gcs_path test_name b -> in_range choose -> priority ∈ CORPUS_PRIORITIES ->
  let fuel := S (length (ListFilesWithPrefix true (GetDirPaths gcs_path priority test_name []) true b)) in
  exists r b', fetch_loop gcs_path device_serial true choose (fun _ b => b) download fuel 0 0
                 test_name priority b = Some (r, b') /\
    match r with
    | Some f => exists x, f = state_dir gcs_path INUSE test_name ++ sep ++ x /\ download f = true /\
                  holds gcs_path test_name b priority x /\
                  holds gcs_path test_name b' INUSE x /\ ~ holds gcs_path test_name b' priority x
    | None => (forall x, ~ holds gcs_path test_name b' priority x) /\
              (forall x, holds gcs_path test_name b priority x ->
                 download (state_dir gcs_path INUSE test_name ++ sep ++ x) = false /\
                 holds gcs_path test_name b' INUSE x) /\
              (forall x, holds gcs_path test_name b INUSE x -> holds gcs_path test_name b' INUSE x)
    end.
Proof. intros Hn Hw Hc Hp fuel. apply fetch_loop_result; try done; subst fuel; lia. Qed.

(** The lock of a session (stage 3).  A machine that finds no lock takes it;
    while anyone has it every fetch answers that the test is locked and changes
    nothing; the upload of the output gives the lock back, but when there is no
    output directory it fails and the lock stays. *)
Theorem session_lock {B : Type} `{!Bucket B, !BucketLaws B} gcs_path device_serial test_name choose env download fuel :
  named gcs_path test_name -> slash ∉ device_serial ->
  let fetch (b : B) := FetchCorpusSeed gcs_path device_serial true FETCH_ALL_AND_REPEAT choose env download fuel
                         test_name b in
  (forall b, ~ locked gcs_path test_name b ->
     exists b', fetch b = Some (Some (bs "directory"), b') /\ locked gcs_path test_name b' /\
       blobs b' = <[state_dir gcs_path LOCK test_name ++ sep ++ device_serial := []]> (blobs b)) /\
  (forall b, locked gcs_path test_name b -> fetch b = Some (Some (bs "locked"), b)) /\
  (forall uuid measure local_temp_dir files triggered b, slash ∉ measure ->
     exists b', UploadCorpusOutDir gcs_path device_serial true FETCH_ALL_AND_REPEAT uuid measure test_name
                  local_temp_dir (Some files) triggered b = (true, b') /\
       blobs b' !! (state_dir gcs_path LOCK test_name ++ sep ++ device_serial) = None) /\
  (forall uuid measure local_temp_dir triggered b,
     UploadCorpusOutDir gcs_path device_serial true FETCH_ALL_AND_REPEAT uuid measure test_name
       local_temp_dir None triggered b = (false, b)).
Proof.
  intros Hn Hd fetch. subst fetch.
  assert (forall b, FetchCorpusSeed gcs_path device_serial true FETCH_ALL_AND_REPEAT choose env download fuel
            test_name b =
          if PrefixExists true (GetDirPaths gcs_path LOCK test_name []) b then Some (Some (bs "locked"), b)
          else Some (Some (bs "directory"), add_lock gcs_path device_serial true test_name b)) as E by reflexivity.
  split_and!.
  - intros b Hl. rewrite E. destruct (PrefixExists _ _ _) eqn:El; [by apply locked_exists in El|].
    unfold add_lock, UploadFile. fold LOCK. rewrite lock_file by done.
    eexists. split; [reflexivity|]. split; [|apply blobs_upload]. exists device_serial.
    unfold holds. rewrite blobs_upload, lookup_insert_eq. eauto.
  - intros b Hl. rewrite E. apply locked_exists in Hl; [|done..]. by rewrite Hl.
  - intros. by apply unlock_after_upload.
  - done.
Qed.

(** ** A test of one device *)
Definition PPR1 : pystr := bs "corpus/PPR1/walleye".
Definition SERIAL : pystr := bs "HT7BF1A01613".
Definition ILIGHT : pystr := bs "ILight".

Lemma ILight_named : named PPR1 ILIGHT.
Proof. split; [done|reflexivity|done|]. apply (bool_decide_unpack _). vm_compute. exact I. Qed.

(** An output file, classified: it becomes a seed. *)
Definition incoming_20f5 : pystr := bs "corpus/PPR1/walleye/ILight/incoming/tmpV1/ILight_corpus_out/20f5".
Definition one_seed : gmap pystr pystr := {[ state_dir PPR1 (bs "corpus_seed") ILIGHT ++ sep ++ bs "20f5" := bs "x" ]}.

Lemma one_seed_reached : rtc (corpus_step PPR1 SERIAL ILIGHT) (∅ : gmap pystr pystr) one_seed.
Proof.
  eapply rtc_l; [apply (step_incoming PPR1 SERIAL ILIGHT ∅ incoming_20f5 (bs "x")); [reflexivity|done]|].
  eapply rtc_l; [|apply rtc_refl].
  replace one_seed with
    (classify_one PPR1 SERIAL true ILIGHT (bs "corpus_seed")
       (0, UploadFile true (bs "x") incoming_20f5 (∅ : gmap pystr pystr)) incoming_20f5).2
    by (apply (bool_decide_unpack _); vm_compute; exact I).
  apply step_classify; [|reflexivity|done]. apply (bool_decide_unpack _). vm_compute. exact I.
Qed.

Lemma one_seed_wf : wf PPR1 ILIGHT one_seed.
Proof. eapply (corpus_steps_wf PPR1 SERIAL ILIGHT ILight_named (B := gmap pystr pystr)); [apply one_seed_reached|by apply wf_empty]. Qed.

Lemma corpus_states_exclusive_witness :
  holds PPR1 ILIGHT one_seed (bs "corpus_seed") (bs "20f5") /\
  forall s1 s2 x, s1 ∈ CORPUS_STATES -> s2 ∈ CORPUS_STATES ->
  holds PPR1 ILIGHT one_seed s1 x -> holds PPR1 ILIGHT one_seed s2 x -> s1 = s2 /\ slash ∉ x /\ x <> [].
Proof.
  split; [exists (bs "x"); vm_compute; reflexivity|].
  apply (corpus_states_exclusive (B := gmap pystr pystr) PPR1 SERIAL ILIGHT ∅ one_seed);
    [apply ILight_named|reflexivity|apply one_seed_reached].
Defined.

Lemma manager_steps_witness :
  rtc (corpus_step PPR1 SERIAL ILIGHT) one_seed
    (UploadDir true (basename (GetDirPaths PPR1 (bs "local_corpus_out") ILIGHT (bs "/tmp/tmpV1")))
       (GetDirPaths PPR1 (bs "incoming_parent") ILIGHT (bs "/tmp/tmpV1")) (Some [(bs "21", bs "y")]) one_seed).2.
Proof.
  destruct (manager_steps (B := gmap pystr pystr) PPR1 SERIAL ILIGHT ILight_named) as [H _].
  apply H. repeat constructor. discriminate.
Defined.

(** The only download fails: the seed stays among those in use and nothing is
    fetched. *)
Lemma fetch_ends_witness :
  exists r b', fetch_loop PPR1 SERIAL true (fun _ _ => 0) (fun _ b => b) (fun _ => false) 2 0 0
                 ILIGHT (bs "corpus_seed") one_seed = Some (r, b') /\
    r = None /\ holds PPR1 ILIGHT b' INUSE (bs "20f5").
Proof.
  destruct (fetch_ends (B := gmap pystr pystr) PPR1 SERIAL ILIGHT (fun _ _ => 0) (fun _ => false) (bs "corpus_seed") one_seed)
    as (r & b' & H & Hr).
  - apply ILight_named.
  - apply one_seed_wf.
  - intros k n Hn. exact Hn.
  - apply (bool_decide_unpack _). vm_compute. exact I.
  - exists r, b'. split; [exact H|]. destruct r as [f|]; [by destruct Hr as (x & _ & [=] & _)|].
    destruct Hr as (_ & Hr & _). split; [done|]. apply (Hr (bs "20f5")). exists (bs "x"). vm_compute. reflexivity.
Defined.

Lemma session_lock_witness :
  FetchCorpusSeed PPR1 SERIAL true FETCH_ALL_AND_REPEAT (fun _ _ => 0) (fun _ b => b) (fun _ => true) 0 ILIGHT
    (<[state_dir PPR1 LOCK ILIGHT ++ sep ++ bs "other" := []]> one_seed)
  = Some (Some (bs "locked"), <[state_dir PPR1 LOCK ILIGHT ++ sep ++ bs "other" := []]> one_seed).
Proof.
  apply (session_lock (B := gmap pystr pystr) PPR1 SERIAL ILIGHT (fun _ _ => 0) (fun _ b => b) (fun _ => true) 0 ILight_named).
  - apply (bool_decide_unpack _). vm_compute. exact I.
  - exists (bs "other"). exists []. vm_compute. reflexivity.
Defined.

(** Stage 3 moves the incoming corpora over what is there: two runs that give the
    same file keep it in two directories of the session. *)
Example session_keeps_duplicates :
  let b := <[incoming_20f5 := bs "x"]> one_seed in
  map_to_list (ClassifyPriority3 PPR1 SERIAL true (bs "u") ILIGHT (bs "/tmp/tmpV1") None b).2
  = map_to_list (<[state_dir PPR1 (bs "corpus_seed_01") ILIGHT ++ sep ++ bs "20f5" := bs "x"]> one_seed).
Proof. vm_compute. reflexivity. Qed.
