(* ===== verification/CorpusSession.v ===== *)
(** * Sessions of fuzzing
    ([src/utils/python/fuzzer/corpus_manager.py], SCHEDULING_ALGORITHM = FETCH_ALL_AND_REPEAT)

    The scheduling that is configured: what a run of a test produced is the seed of the
    next run, and after five runs everything goes to the completed corpora.  The
    bucket is related to an abstract session, a list of outputs. *)

From Stdlib Require Import Strings.Byte.
From S2P Require Import Prelude PyStr PyPath Corpus.

Definition COMPLETE : pystr := bs "corpus_complete".

(** ** Moving many blobs *)
Section moving.
Context {B : Type} `{!Bucket B, !BucketLaws B}.
Implicit Types (m : gmap pystr pystr) (l : list pystr).

(** The blobs [l] were moved to the directory [d]; of several with one base name one is
    there. *)
Record moved l (d : pystr) m m' : Prop := {
  moved_gone n : n ∈ l -> m' !! n = None;
  moved_there x : (exists n, n ∈ l /\ basename n = x) ->
    exists n, n ∈ l /\ basename n = x /\ m' !! (d ++ sep ++ x) = m !! n;
  moved_kept x : (forall n, n ∈ l -> basename n <> x) -> m' !! (d ++ sep ++ x) = m !! (d ++ sep ++ x);
  moved_else q : q ∉ l -> (forall x, q <> d ++ sep ++ x) -> m' !! q = m !! q;
}.

Lemma move_all_run l d b k :
  NoDup l -> (forall n, n ∈ l -> is_Some (blobs b !! n) /\ forall x, n <> d ++ sep ++ x) ->
  let r := foldl (fun '(k, b) n => (S k, (MoveFile true n (d ++ sep ++ basename n) b).2)) (k, b) l in
  r.1 = k + length l /\ moved l d (blobs b) (blobs r.2).
Proof using BucketLaws0.
  induction l as [|n l IH] using rev_ind; intros Hnd Hl.
  { split; [cbn; lia|]. split; cbn; [by intros ? ?%elem_of_nil|by intros x (? & ?%elem_of_nil & _)|done..]. }
  apply NoDup_app in Hnd as (Hnd & Hfresh & _).
  assert (n ∉ l) as Hn by (intros Hin; by eapply (Hfresh n); [|left]).
  destruct IH as [Hk [Hgone Hthere Hkept Helse]]; [done|intros; apply Hl, elem_of_app; by left|].
  destruct (Hl n) as [[c Hc] Hne]; [apply elem_of_app; right; by left|].
  cbv zeta. rewrite foldl_app. destruct (foldl _ (k, b) l) as [k' b'] eqn:E. cbn [foldl fst snd] in *.
  assert (blobs b' !! n = Some c) as Hc' by (by rewrite Helse).
  destruct (MoveFile_cases b' n (d ++ sep ++ basename n)) as [(c' & b2 & -> & Hc2 & Hb)|[_ ?]]; [by apply Hne| |congruence].
  assert (c' = c) as -> by congruence. cbn [snd]. split; [rewrite Hk, length_app; cbn; lia|]. rewrite Hb. split.
  - intros n' [Hin|Hin%list_elem_of_singleton]%elem_of_app.
    + destruct (Hl n') as [_ Hne']; [apply elem_of_app; by left|]. rewrite lookup_insert_ne by done.
      rewrite lookup_delete_None. right. by apply Hgone.
    + subst n'. rewrite lookup_insert_ne by (intros ?; by eapply Hne). apply lookup_delete_eq.
  - intros x (n' & Hin & Hx). destruct (decide (basename n = x)) as [<-|Hnx].
    + exists n. split; [apply elem_of_app; right; by left|]. split; [done|]. by rewrite lookup_insert_eq.
    + apply elem_of_app in Hin as [Hin|Hin%list_elem_of_singleton]; [|congruence].
      destruct (Hthere x) as (n2 & H1 & H2 & H3); [by exists n'|]. exists n2. split; [apply elem_of_app; by left|].
      split; [done|]. rewrite lookup_insert_ne, lookup_delete_ne; [done|by apply Hne|].
      intros He%app_inv_head. by injection He.
  - intros x Hx. assert (basename n <> x) as Hnx by (apply Hx, elem_of_app; right; by left).
    rewrite lookup_insert_ne, lookup_delete_ne; [|by apply Hne|intros He%app_inv_head; by injection He].
    apply Hkept. intros n' Hin. apply Hx, elem_of_app. by left.
  - intros q Hq Hqd. rewrite not_elem_of_app, list_elem_of_singleton in Hq. destruct Hq as [Hq1 Hq2].
    rewrite lookup_insert_ne, lookup_delete_ne by (done || by apply not_eq_sym). by apply Helse.
Qed.
End moving.

(** ** Directories *)
Section layouts.
Context (gcs_path device_serial test_name : pystr) (Hn : named gcs_path test_name).
Context {B : Type} `{!Bucket B, !BucketLaws B}.

Local Abbreviation dir s := (state_dir gcs_path s test_name).
Local Abbreviation file := (GetFilePaths gcs_path device_serial).
Local Abbreviation incoming := (incoming_prefix gcs_path test_name).
Local Notation "d // x" := (d ++ sep ++ x) (at level 60, only parsing).

Definition seed_number (i : nat) : pystr := numbered CORPUS_SEED i.
(** The directories of seeds that the scheduling uses. *)
Definition seeds_of_session (s : pystr) : Prop := s = CORPUS_SEED \/ exists i, 1 <= i <= 4 /\ s = seed_number i.

Lemma seed_number_cases (P : pystr -> Prop) i :
  1 <= i <= 4 -> P (bs "corpus_seed_01") -> P (bs "corpus_seed_02") -> P (bs "corpus_seed_03") -> P (bs "corpus_seed_04") ->
  P (seed_number i).
Proof. intros Hi. assert (i = 1 \/ i = 2 \/ i = 3 \/ i = 4) as [-> | [-> | [-> | ->]]] by lia; done. Qed.

Lemma seed_number_inj i j : 1 <= i <= 4 -> 1 <= j <= 4 -> seed_number i = seed_number j -> i = j.
Proof.
  intros Hi Hj. assert (i = 1 \/ i = 2 \/ i = 3 \/ i = 4) as [-> | [-> | [-> | ->]]] by lia;
    assert (j = 1 \/ j = 2 \/ j = 3 \/ j = 4) as [-> | [-> | [-> | ->]]] by lia; (done || (intros E; vm_compute in E; congruence)).
Qed.

(** Directories that files can be given a path in. *)
Definition known_dir (s : pystr) : Prop := slash ∉ s /\ s <> [] /\ (s ∈ CORPUS_STATES \/ is_numbered_seed s = true).
Definition known_dirb (s : pystr) : bool :=
  bool_decide (slash ∉ s) && bool_decide (s <> []) && (bool_decide (s ∈ CORPUS_STATES) || is_numbered_seed s).
Lemma known_dirb_spec s : known_dirb s = true -> known_dir s.
Proof.
  unfold known_dirb. intros [[H1 H2]%andb_true_iff H3]%andb_true_iff. apply bool_decide_eq_true in H1, H2.
  split_and!; [done..|]. apply orb_true_iff in H3 as [H3|H3]; [left; by apply bool_decide_eq_true in H3|by right].
Qed.

Lemma known_CORPUS_SEED : known_dir CORPUS_SEED.
Proof. by apply known_dirb_spec. Qed.
Lemma known_COMPLETE : known_dir COMPLETE.
Proof. by apply known_dirb_spec. Qed.
Lemma known_number i : 1 <= i <= 4 -> known_dir (seed_number i).
Proof. intros Hi. apply seed_number_cases; [done|by apply known_dirb_spec..]. Qed.
Lemma known_session s : seeds_of_session s -> known_dir s.
Proof. intros [-> | (i & Hi & ->)]; [apply known_CORPUS_SEED|by apply known_number]. Qed.

Lemma GetDirPaths_known s : known_dir s -> GetDirPaths gcs_path s test_name [] = dir s.
Proof.
  intros (_ & _ & [Hs|Hs]); unfold GetDirPaths; [by rewrite bool_decide_eq_true_2|].
  case_bool_decide; [done|]. by rewrite Hs.
Qed.

Lemma GetFilePaths_known s n : known_dir s -> file s test_name n = dir s // basename n.
Proof using Hn.
  intros Hk. pose proof (GetDirPaths_known s Hk) as Hd. destruct Hk as (H1 & H2 & Hs).
  assert (file s test_name n = path_join (GetDirPaths gcs_path s test_name []) [basename n]) as ->.
  { unfold GetFilePaths. destruct Hs as [Hs|Hs]; [by rewrite bool_decide_eq_true_2|].
    case_bool_decide; [done|]. by rewrite Hs. }
  rewrite Hd. unfold path_join. cbn [foldl]. apply join_state; [done..|apply after_last_fresh].
Qed.

(** Names that start as the directory of seeds. *)
Definition seed_area (q : pystr) : Prop := startswith (dir CORPUS_SEED) q = true.
Lemma seed_area_dir s x : slash ∉ s -> seed_area (dir s // x) <-> startswith CORPUS_SEED (s // x) = true.
Proof using Hn.
  intros Hs. unfold seed_area. rewrite !(state_dir_eq _ _ Hn) by (done || by destruct known_CORPUS_SEED).
  rewrite !startswith_spec. split; intros [k E]; exists k.
  - rewrite <- !app_assoc in E. by do 3 apply app_inv_head in E.
  - rewrite <- !app_assoc. by rewrite E.
Qed.
Lemma seed_area_session s x : seeds_of_session s -> seed_area (dir s // x).
Proof using Hn.
  intros Hs. apply seed_area_dir; [by destruct (known_session s Hs)|].
  destruct Hs as [-> | (i & Hi & ->)]; [done|]. by apply (seed_number_cases (fun s => startswith CORPUS_SEED (s // x) = true)).
Qed.
Lemma not_seed_COMPLETE x : ~ seed_area (dir COMPLETE // x).
Proof using Hn. rewrite seed_area_dir by (by destruct known_COMPLETE). done. Qed.

Lemma incoming_not_dir q s x : startswith incoming q = true -> slash ∉ s -> q <> dir s // x.
Proof using Hn. intros Hq Hs. rewrite <- (app_nil_r q). by apply incoming_outside_free. Qed.
Lemma incoming_not_seed q : startswith incoming q = true -> ~ seed_area q.
Proof using Hn.
  clear BucketLaws0 Bucket0 B. intros Hq [k ->]%startswith_spec. revert Hq. rewrite startswith_spec. intros [y Hy].
  unfold incoming_prefix in Hy. rewrite (state_dir_eq _ _ Hn) in Hy by (by destruct known_CORPUS_SEED).
  unfold test_dir in Hy. rewrite <- !app_assoc in Hy. do 4 apply app_inv_head in Hy.
  (* the underscore of the test's directory *)
  assert (forall a b c d : pystr, Byte.x5f ∉ a -> slash ∉ b -> a ++ sep ++ c <> b ++ bs "_" ++ d) as Hno.
  { intros a. induction a as [|z a IH]; intros b c d Ha Hb E.
    - destruct b as [|z b]; [done|]. injection E as <- _. set_solver.
    - destruct b as [|z' b]; [|injection E as -> E; by apply (IH b c d); set_solver].
      injection E as -> _. set_solver. }
  symmetry in Hy. apply (Hno (bs "incoming") test_name y (CORPUS_SEED ++ k)); [|apply Hn|exact Hy].
  apply (bool_decide_unpack _). vm_compute. exact I.
Qed.

(** ** What is where *)
Definition filled (b : B) (d : pystr) (o : gmap pystr pystr) : Prop := forall x, blobs b !! (d // x) = o !! x.
(** Outputs are files directly in a directory. *)
Definition flat (o : gmap pystr pystr) : Prop := forall x, is_Some (o !! x) -> slash ∉ x.

(** The corpora of a test: the seeds, the seeds of earlier runs by number, the completed ones and what came
    in, below the directory [child]. *)
Record layout (seeds : gmap pystr pystr) (num : nat -> gmap pystr pystr) (fin : gmap pystr pystr) (child : pystr)
    (inc : gmap pystr pystr) (b : B) : Prop := {
  l_seeds : filled b (dir CORPUS_SEED) seeds;
  l_num i : 1 <= i <= 4 -> filled b (dir (seed_number i)) (num i);
  l_only q : seed_area q -> is_Some (blobs b !! q) -> exists s x, seeds_of_session s /\ q = dir s // x;
  l_fin : filled b (dir COMPLETE) fin;
  l_inc : filled b child inc;
  l_inc_only q : startswith incoming q = true -> is_Some (blobs b !! q) -> exists x, q = child // x;
}.
Definition child_ok (child : pystr) : Prop := forall x, startswith incoming (child // x) = true.

(** What the layout depends on. *)
Definition relevant (q : pystr) : Prop :=
  seed_area q \/ (exists x, q = dir COMPLETE // x) \/ startswith incoming q = true.
Lemma layout_frame seeds num fin child inc b b' :
  child_ok child -> (forall q, relevant q -> blobs b' !! q = blobs b !! q) ->
  layout seeds num fin child inc b -> layout seeds num fin child inc b'.
Proof using Hn.
  intros Hch Hq [H1 H2 H3 H4 H5 H6]. split.
  - intros x. rewrite Hq; [done|]. left. apply seed_area_session. by left.
  - intros i Hi x. rewrite Hq; [by apply H2|]. left. apply seed_area_session. right. eauto.
  - intros q Hs. rewrite Hq by (by left). by apply H3.
  - intros x. rewrite Hq; [done|]. right. left. eauto.
  - intros x. rewrite Hq; [done|]. right. by right.
  - intros q Hs. rewrite Hq by (right; by right). by apply H6.
Qed.
(** A blob of another directory. *)
Lemma irrelevant s x : slash ∉ s -> startswith CORPUS_SEED (s // x) = false -> s <> COMPLETE -> ~ relevant (dir s // x).
Proof using Hn.
  intros Hs Hno Hne [Hsa|[[y Hy]|Hi]].
  - apply seed_area_dir in Hsa; [congruence|done].
  - apply (dir_inj_free _ _ Hn) in Hy as [? _]; [done|done|by destruct known_COMPLETE].
  - by apply (incoming_not_dir _ s x Hi Hs).
Qed.

(** *** The contents of a directory *)
Lemma under_spec d q : {x | q = d // x} + {forall x, q <> d // x}.
Proof.
  destruct (startswith (d ++ sep) q) eqn:E.
  - left. exists (drop (length (d ++ sep)) q). apply startswith_spec in E as [k ->]. by rewrite drop_app_length, <- app_assoc.
  - right. intros x ->. rewrite app_assoc, startswith_app in E. done.
Qed.
Definition contents (b : B) (d : pystr) : gmap pystr pystr :=
  list_to_map (omap (fun p : pystr * pystr =>
    if startswith (d ++ sep) p.1 then Some (drop (length (d ++ sep)) p.1, p.2) else None) (map_to_list (blobs b))).
Lemma contents_filled b d : filled b d (contents b d).
Proof.
  intros x. unfold contents. set (l := omap _ (map_to_list (blobs b))).
  assert (forall y c, (y, c) ∈ l <-> blobs b !! (d // y) = Some c) as Hl.
  { intros y c. unfold l. rewrite list_elem_of_omap. split.
    - intros ([q c'] & Hq & E). cbn in E. destruct (startswith _ q) eqn:Es; [|done]. injection E as <- ->.
      apply startswith_spec in Es as [k ->]. rewrite drop_app_length. apply elem_of_map_to_list in Hq. by rewrite app_assoc.
    - intros H. exists (d // y, c). rewrite elem_of_map_to_list. split; [done|]. cbn [fst snd]. rewrite app_assoc, startswith_app.
      by rewrite drop_app_length. }
  assert (NoDup l.*1) as Hnd.
  { apply NoDup_fmap_fst.
    - intros y c c' H1%Hl H2%Hl. congruence.
    - unfold l. pose proof (NoDup_map_to_list (blobs b)) as Hk. revert Hk. generalize (map_to_list (blobs b)). intros k Hk.
      induction Hk as [|[q c] k Hq _ IH]; cbn; [apply NoDup_nil_2|]. destruct (startswith (d ++ sep) q) eqn:Es; [|done].
      apply NoDup_cons. split; [|done]. rewrite list_elem_of_omap. intros ([q' c'] & Hq' & E). cbn in E.
      destruct (startswith (d ++ sep) q') eqn:Es'; [|done]. apply startswith_spec in Es as [u ->], Es' as [u' ->].
      rewrite !drop_app_length in E. injection E as -> ->. done. }
  apply option_eq. intros c. rewrite <- Hl. exact (elem_of_list_to_map l x c Hnd).
Qed.

(** *** Moves *)
Lemma move_dir_run src dst strict tmp b :
  known_dir dst ->
  let l := ListFilesWithPrefix true (GetDirPaths gcs_path src test_name tmp) strict b in
  (forall n, n ∈ l -> forall x, n <> dir dst // x) ->
  let r := MoveCorpusDirectory gcs_path device_serial true test_name tmp src dst strict b in
  r.1 = length l /\ moved l (dir dst) (blobs b) (blobs r.2).
Proof using Hn BucketLaws0.
  intros Hk l Hl. unfold MoveCorpusDirectory. fold l.
  assert (forall l r, foldl (fun '(n, b) src_corpus =>
      (S n, (MoveFile true src_corpus (file dst test_name src_corpus) b).2)) r l =
    foldl (fun '(n, b) q => (S n, (MoveFile true q (dir dst // basename q) b).2)) r l) as ->.
  { induction l0 as [|q l0 IH]; intros [n b0]; [done|]. cbn [foldl]. rewrite (GetFilePaths_known dst q Hk). apply IH. }
  apply (move_all_run l (dir dst) b 0); [apply list_blobs_NoDup|]. intros n Hin. split; [|by apply Hl].
  unfold l, ListFilesWithPrefix in Hin. by apply elem_of_list_blobs in Hin as [? _].
Qed.

Lemma base_of d x : slash ∉ x -> basename (d // x) = x.
Proof. intros Hx. unfold basename. cbn [app sep]. by apply after_last_app. Qed.

Lemma session_dirs_apart s1 s2 x y : seeds_of_session s1 \/ s1 = COMPLETE -> seeds_of_session s2 \/ s2 = COMPLETE ->
  s1 <> s2 -> dir s1 // x <> dir s2 // y.
Proof using Hn.
  assert (forall s, seeds_of_session s \/ s = COMPLETE -> slash ∉ s) as Hs.
  { intros s [H| ->]; [by destruct (known_session s H)|by destruct known_COMPLETE]. }
  intros H1 H2 Hne E. apply (dir_inj_free _ _ Hn) in E as [E _]; auto.
Qed.

Lemma number_not_seed i : 1 <= i <= 4 -> CORPUS_SEED <> seed_number i.
Proof. intros Hi. by apply (seed_number_cases (fun s => CORPUS_SEED <> s)). Qed.
Lemma number_not_complete i : 1 <= i <= 4 -> seed_number i <> COMPLETE.
Proof. intros Hi. by apply (seed_number_cases (fun s => s <> COMPLETE)). Qed.

(** Where the output of a run comes in. *)
Definition child_dir (tmp : pystr) : pystr := GetDirPaths gcs_path (bs "incoming_child") test_name tmp.
Lemma child_dir_eq tmp :
  basename tmp <> [] -> child_dir tmp = incoming ++ basename tmp ++ sep ++ test_name ++ bs "_corpus_out".
Proof using Hn.
  intros Hb. change (child_dir tmp) with
    (path_join2 (GetDirPaths gcs_path (bs "incoming_parent") test_name tmp) (test_name ++ bs "_corpus_out")).
  rewrite (incoming_parent_eq _ _ Hn). rewrite path_join2_sep; [by rewrite <- !app_assoc| | |].
  - destruct Hn. unfold incoming_prefix. by destruct gcs_path.
  - apply endswith_sep_app; [done|apply after_last_fresh].
  - destruct Hn. destruct test_name as [|a t]; [done|]. apply startswith_sep_no.
    rewrite not_elem_of_app. split; [done|]. apply (bool_decide_unpack _). vm_compute. exact I.
Qed.
Lemma child_dir_ok tmp : basename tmp <> [] -> child_ok (child_dir tmp) /\ endswith sep (child_dir tmp) = false.
Proof using Hn.
  intros Hb. rewrite child_dir_eq by done. split.
  - intros x. apply startswith_spec. exists ((basename tmp ++ sep ++ test_name ++ bs "_corpus_out") // x). by rewrite <- !app_assoc.
  - rewrite !app_assoc. apply endswith_sep_app; [done|]. apply (bool_decide_unpack _). vm_compute. exact I.
Qed.

Lemma elem_incoming tmp b n :
  basename tmp <> [] ->
  n ∈ ListFilesWithPrefix true (child_dir tmp) true b <-> exists x, n = child_dir tmp // x /\ is_Some (blobs b !! n).
Proof using Hn BucketLaws0.
  intros Hb. destruct (child_dir_ok tmp Hb) as [_ He]. unfold ListFilesWithPrefix. rewrite He. cbn [andb negb].
  rewrite elem_of_list_blobs, startswith_spec. split.
  - intros [Hin [k ->]]. exists k. rewrite <- app_assoc in Hin |- *. done.
  - intros (x & -> & Hin). split; [done|]. exists x. by rewrite <- app_assoc.
Qed.

(** What is moved is not where it goes. *)
Definition apart (src dst : pystr) (strict : bool) (tmp : pystr) (b : B) : Prop :=
  forall n, n ∈ ListFilesWithPrefix true (GetDirPaths gcs_path src test_name tmp) strict b -> forall x, n <> dir dst // x.
Lemma apart_shift tmp b i : 1 <= i <= 4 -> apart CORPUS_SEED (seed_number i) true tmp b.
Proof using Hn BucketLaws0.
  intros Hi n Hin x ->. apply (list_dir _ _ Hn) in Hin as (y & E & _); [|by apply (bool_decide_unpack _)].
  revert E. apply session_dirs_apart; [left; right; eauto|left; by left|]. by apply not_eq_sym, number_not_seed.
Qed.
Lemma elem_all_seeds tmp b q :
  q ∈ ListFilesWithPrefix true (GetDirPaths gcs_path CORPUS_SEED test_name tmp) false b <-> seed_area q /\ is_Some (blobs b !! q).
Proof using BucketLaws0.
  change (GetDirPaths gcs_path CORPUS_SEED test_name tmp) with (dir CORPUS_SEED).
  unfold ListFilesWithPrefix. cbn [andb]. rewrite elem_of_list_blobs. unfold seed_area. tauto.
Qed.
Lemma apart_complete tmp b : apart CORPUS_SEED COMPLETE false tmp b.
Proof using Hn BucketLaws0. intros n [Hq _]%elem_all_seeds x ->. by apply not_seed_COMPLETE in Hq. Qed.
Lemma apart_incoming tmp b dst : basename tmp <> [] -> slash ∉ dst -> apart (bs "incoming_child") dst true tmp b.
Proof using Hn BucketLaws0.
  intros Hb Hd n (x & -> & _)%elem_incoming y; [|done]. apply incoming_not_dir; [by apply child_dir_ok|done].
Qed.

(** The seeds get a number. *)
Lemma shift_seeds seeds num fin child inc tmp b i :
  child_ok child -> flat seeds -> 1 <= i <= 4 -> layout seeds num fin child inc b ->
  layout ∅ (fun j => if decide (j = i) then seeds ∪ num i else num j) fin child inc
    (MoveCorpusDirectory gcs_path device_serial true test_name tmp CORPUS_SEED (seed_number i) true b).2.
Proof using Hn BucketLaws0.
  intros Hch Hflat Hi [H1 H2 H3 H4 H5 H6].
  destruct (move_dir_run CORPUS_SEED (seed_number i) true tmp b (known_number i Hi)) as [_ [Hgone Hthere Hkept Helse]].
  { by apply apart_shift. }
  set (b' := (MoveCorpusDirectory _ _ _ _ _ _ _ _ _).2) in *. set (l := ListFilesWithPrefix _ _ _ _) in *.
  assert (forall q, q ∈ l <-> exists x, q = dir CORPUS_SEED // x /\ is_Some (seeds !! x)) as Hl.
  { intros q. unfold l. change (GetDirPaths gcs_path CORPUS_SEED test_name tmp) with (GetDirPaths gcs_path CORPUS_SEED test_name []).
    rewrite (list_dir _ _ Hn) by (by apply (bool_decide_unpack _)). unfold holds. by setoid_rewrite H1. }
  assert (forall q, (forall x, q <> dir CORPUS_SEED // x) -> (forall x, q <> dir (seed_number i) // x) -> blobs b' !! q = blobs b !! q) as Hother.
  { intros q Hq Hq'. apply Helse; [|done]. rewrite Hl. intros (x & -> & _). by eapply Hq. }
  split.
  - intros x. rewrite lookup_empty. destruct (seeds !! x) as [c|] eqn:Hx; [apply Hgone, Hl; eauto|].
    rewrite Helse; [by rewrite H1| |intros y; apply session_dirs_apart; [left; by left|left; right; eauto|by apply number_not_seed]].
    rewrite Hl. intros (y & ->%app_inv_head%app_inv_head & [c Hc]). congruence.
  - intros j Hj x. case_decide as Hji.
    + subst j. rewrite lookup_union. destruct (seeds !! x) as [c|] eqn:Hx.
      * rewrite union_Some_l. destruct (Hthere x) as (n & (y & -> & Hy)%Hl & Hxy & E).
        { exists (dir CORPUS_SEED // x). split; [apply Hl; eauto|]. apply base_of, Hflat. by rewrite Hx. }
        rewrite base_of in Hxy by (by apply Hflat). subst y. by rewrite E, H1, Hx.
      * rewrite (left_id_L None (∪)), <- H2 by done. apply Hkept. intros n (y & -> & Hy)%Hl.
        rewrite base_of by (by apply Hflat). intros ->. destruct Hy as [c Hc]. congruence.
    + rewrite <- H2 by done. apply Hother; intros y; (apply session_dirs_apart; [left; right; eauto|left|]).
      * by left.
      * by apply not_eq_sym, number_not_seed.
      * right. eauto.
      * intros E. by apply Hji, seed_number_inj.
  - intros q Hq Hin. destruct (decide (q ∈ l)) as [Hql|Hql]; [destruct Hin as [c Hc]; rewrite Hgone in Hc; done|].
    destruct (under_spec (dir (seed_number i)) q) as [[x ->]|Hno]; [exists (seed_number i), x; split; [right; eauto|done]|].
    rewrite Helse in Hin; [by apply H3|done..].
  - intros x. rewrite Hother; [apply H4| |]; intros y; (apply session_dirs_apart; [by right|left|]).
    + by left.
    + done.
    + right; eauto.
    + by apply not_eq_sym, number_not_complete.
  - intros x. rewrite Hother; [apply H5| |]; intros y; (apply incoming_not_dir; [apply Hch|]).
    + by destruct known_CORPUS_SEED.
    + by destruct (known_number i Hi).
  - intros q Hq. rewrite Hother; [by apply H6| |]; intros y; (apply incoming_not_dir; [done|]).
    + by destruct known_CORPUS_SEED.
    + by destruct (known_number i Hi).
Qed.

(** What came in becomes the seeds, or is completed. *)
Lemma move_incoming num fin inc tmp b dst seeds :
  basename tmp <> [] -> flat inc -> dst = CORPUS_SEED /\ seeds = ∅ \/ dst = COMPLETE ->
  layout seeds num fin (child_dir tmp) inc b ->
  let r := MoveCorpusDirectory gcs_path device_serial true test_name tmp (bs "incoming_child") dst true b in
  layout (if decide (dst = CORPUS_SEED) then inc else seeds) num (if decide (dst = CORPUS_SEED) then fin else inc ∪ fin)
    (child_dir tmp) ∅ r.2.
Proof using Hn BucketLaws0.
  intros Hb Hflat Hdst [H1 H2 H3 H4 H5 H6] r. destruct (child_dir_ok tmp Hb) as [Hch _].
  assert (known_dir dst) as Hk by (destruct Hdst as [[-> _]| ->]; [apply known_CORPUS_SEED|apply known_COMPLETE]).
  assert (slash ∉ dst) as Hds by (by destruct Hk). set (child := child_dir tmp) in *.
  destruct (move_dir_run (bs "incoming_child") dst true tmp b Hk) as [_ [Hgone Hthere Hkept Helse]].
  { by apply apart_incoming. }
  fold child in Hgone, Hthere, Hkept, Helse. fold r in Hgone, Hthere, Hkept, Helse. set (b' := r.2) in *.
  change (GetDirPaths gcs_path (bs "incoming_child") test_name tmp) with child in *.
  set (l := ListFilesWithPrefix _ _ _ _) in *.
  assert (forall q, q ∈ l <-> exists x, q = child // x /\ is_Some (inc !! x)) as Hl.
  { intros q. unfold l, child. rewrite elem_incoming by done. fold child. split; intros (x & -> & Hx); exists x; (split; [done|]).
    - by rewrite <- H5.
    - by rewrite H5. }
  assert (forall q, startswith incoming q = false -> q ∉ l) as Hout.
  { intros q Hq (x & -> & _)%Hl. by rewrite Hch in Hq. }
  assert (forall s x, slash ∉ s -> dir s // x ∉ l) as Hdir.
  { intros s x Hs (y & E & _)%Hl. revert E. apply not_eq_sym, incoming_not_dir; [apply Hch|done]. }
  assert (forall x, blobs b' !! (dir dst // x) = match inc !! x with Some c => Some c | None => blobs b !! (dir dst // x) end) as Hnew.
  { intros x. destruct (inc !! x) as [c|] eqn:Hx.
    - destruct (Hthere x) as (n & (y & -> & Hy)%Hl & Hxy & E).
      { exists (child // x). split; [apply Hl; eauto|]. apply base_of, Hflat. by rewrite Hx. }
      rewrite base_of in Hxy by (by apply Hflat). subst y. by rewrite E, H5, Hx.
    - apply Hkept. intros n (y & -> & Hy)%Hl. rewrite base_of by (by apply Hflat). intros ->. rewrite Hx in Hy. by destruct Hy. }
  assert (forall s x, seeds_of_session s \/ s = COMPLETE -> s <> dst -> blobs b' !! (dir s // x) = blobs b !! (dir s // x)) as Hsame.
  { intros s x Hs Hne. assert (slash ∉ s) as Hss.
    { destruct Hs as [Hs| ->]; [by destruct (known_session s Hs)|by destruct known_COMPLETE]. }
    apply Helse; [by apply Hdir|]. intros y E. by apply (dir_inj_free _ _ Hn) in E as [? _]. }
  split.
  - intros x. case_decide as E; [subst dst; rewrite Hnew, H1|rewrite Hsame; [apply H1|left; by left|by apply not_eq_sym]].
    destruct Hdst as [[_ ->]|?]; [|done]. by destruct (inc !! x).
  - intros i Hi x. rewrite Hsame; [by apply H2|left; right; eauto|].
    destruct Hdst as [[-> _]| ->]; [by apply not_eq_sym, number_not_seed|by apply number_not_complete].
  - intros q Hq Hin. destruct (under_spec (dir dst) q) as [[x ->]|Hno].
    + destruct Hdst as [[-> _]| ->]; [exists CORPUS_SEED, x; split; [by left|done]|by apply not_seed_COMPLETE in Hq].
    + rewrite Helse in Hin; [by apply H3| |done]. apply Hout. apply not_true_is_false. intros Hi. by apply (incoming_not_seed q).
  - intros x. case_decide as E; [subst dst; rewrite Hsame; [apply H4|by right|done]|].
    destruct Hdst as [[? _]| ->]; [done|]. rewrite Hnew, H4, lookup_union. by destruct (inc !! x), (fin !! x).
  - intros x. rewrite lookup_empty. destruct (inc !! x) as [c|] eqn:Hx; [apply Hgone, Hl; eauto|].
    rewrite Helse; [by rewrite H5| |intros y; apply incoming_not_dir; [apply Hch|done]].
    rewrite Hl. intros (y & ->%app_inv_head%app_inv_head & [c Hc]). congruence.
  - intros q Hq Hin. rewrite Helse in Hin; [by apply H6| |intros y; by apply incoming_not_dir].
    intros Hql. rewrite Hgone in Hin by done. by destruct Hin.
Qed.

(** All seeds are completed: of several corpora of one name, one. *)
Definition completes (os : list (gmap pystr pystr)) (fin fin' : gmap pystr pystr) : Prop :=
  forall x, (exists o, o ∈ os /\ is_Some (o !! x) /\ fin' !! x = o !! x) \/ (forall o, o ∈ os -> o !! x = None) /\ fin' !! x = fin !! x.

Lemma complete_seeds seeds num fin child inc tmp b :
  child_ok child -> flat seeds -> (forall i, 1 <= i <= 4 -> flat (num i)) -> layout seeds num fin child inc b ->
  exists fin', completes [seeds; num 1; num 2; num 3; num 4] fin fin' /\
    layout ∅ (fun _ => ∅) fin' child inc
      (MoveCorpusDirectory gcs_path device_serial true test_name tmp CORPUS_SEED COMPLETE false b).2.
Proof using Hn BucketLaws0.
  intros Hch Hflat Hfn [H1 H2 H3 H4 H5 H6].
  assert (forall q, q ∈ ListFilesWithPrefix true (GetDirPaths gcs_path CORPUS_SEED test_name tmp) false b <->
    seed_area q /\ is_Some (blobs b !! q)) as Hl0 by (intros q; apply elem_all_seeds).
  destruct (move_dir_run CORPUS_SEED COMPLETE false tmp b known_COMPLETE) as [_ [Hgone Hthere Hkept Helse]].
  { by apply apart_complete. }
  set (b' := (MoveCorpusDirectory _ _ _ _ _ _ _ _ _).2) in *. set (l := ListFilesWithPrefix _ _ _ _) in *.
  set (os := [seeds; num 1; num 2; num 3; num 4]).
  assert (forall q, q ∈ l <-> exists s o x, q = dir s // x /\ is_Some (o !! x) /\ filled b (dir s) o /\ seeds_of_session s /\ o ∈ os) as Hl.
  { intros q. rewrite Hl0. split.
    - intros [Hq Hin]. destruct (H3 q Hq Hin) as (s & x & Hs & ->).
      assert (exists o, filled b (dir s) o /\ o ∈ os) as (o & Ho & Hos).
      { destruct Hs as [-> | (i & Hi & ->)]; [exists seeds; split; [done|by left]|]. exists (num i). split; [by apply H2|].
        unfold os. assert (i = 1 \/ i = 2 \/ i = 3 \/ i = 4) as [-> | [-> | [-> | ->]]] by lia; set_solver. }
      exists s, o, x. split_and!; try done. by rewrite <- Ho.
    - intros (s & o & x & -> & Ho & Hf & Hs & _). split; [by apply seed_area_session|]. by rewrite Hf. }
  assert (forall o x, o ∈ os -> is_Some (o !! x) -> slash ∉ x /\ exists s, filled b (dir s) o /\ seeds_of_session s) as Hos.
  { intros o x Ho Hx. unfold os in Ho. rewrite !elem_of_cons, elem_of_nil in Ho.
    destruct Ho as [->|[->|[->|[->|[->|[]]]]]]; [split; [by apply Hflat|exists CORPUS_SEED; split; [done|by left]]|..].
    - split; [by apply (Hfn 1); [lia|]|]. exists (seed_number 1). split; [apply H2; lia|right; exists 1; split; [lia|done]].
    - split; [by apply (Hfn 2); [lia|]|]. exists (seed_number 2). split; [apply H2; lia|right; exists 2; split; [lia|done]].
    - split; [by apply (Hfn 3); [lia|]|]. exists (seed_number 3). split; [apply H2; lia|right; exists 3; split; [lia|done]].
    - split; [by apply (Hfn 4); [lia|]|]. exists (seed_number 4). split; [apply H2; lia|right; exists 4; split; [lia|done]]. }
  assert (forall s x, seeds_of_session s -> blobs b' !! (dir s // x) = None) as Hnone.
  { intros s x Hs. destruct (blobs b !! (dir s // x)) as [c|] eqn:Hc; [apply Hgone, Hl0; split; [by apply seed_area_session|eauto]|].
    rewrite Helse; [done| |].
    - intros [_ Hin]%Hl0. rewrite Hc in Hin. by destruct Hin.
    - intros y. apply session_dirs_apart; [by left|by right|].
      destruct Hs as [-> | (i & Hi & ->)]; [done|by apply number_not_complete]. }
  assert (forall q, ~ seed_area q -> (forall x, q <> dir COMPLETE // x) -> blobs b' !! q = blobs b !! q) as Hother.
  { intros q Hq Hq'. apply Helse; [by intros [? _]%Hl0|done]. }
  exists (contents b' (dir COMPLETE)). split.
  - intros x. rewrite <- (contents_filled b' (dir COMPLETE) x).
    destruct (decide (Exists (fun o : gmap pystr pystr => is_Some (o !! x)) os)) as [Hex|Hno].
    + left. apply Exists_exists in Hex as (o & Ho & Hx). destruct (Hos o x Ho Hx) as (Hsx & s & Hf & Hs).
      destruct (Hthere x) as (n & (s2 & o2 & x2 & -> & Hx2 & Hf2 & Hs2 & Ho2)%Hl & Hb2 & E).
      { exists (dir s // x). split; [apply Hl; exists s, o, x; by split_and!|by apply base_of]. }
      rewrite base_of in Hb2 by (by eapply Hos). subst x2. exists o2. split_and!; [done|done|]. by rewrite E, Hf2.
    + right. split.
      * intros o Ho. apply eq_None_not_Some. intros Hx. apply Hno, Exists_exists. eauto.
      * rewrite <- H4. apply Hkept. intros n (s2 & o2 & x2 & -> & Hx2 & Hf2 & Hs2 & Ho2)%Hl.
        rewrite base_of by (by eapply Hos). intros ->. apply Hno, Exists_exists. eauto.
  - split.
    + intros x. rewrite lookup_empty. apply Hnone. by left.
    + intros i Hi x. rewrite lookup_empty. apply Hnone. right. eauto.
    + intros q Hq Hin. destruct (decide (is_Some (blobs b !! q))) as [Hin'|Hno].
      * rewrite Hgone in Hin by (by apply Hl0). by destruct Hin.
      * rewrite Helse in Hin; [done|by intros [_ ?]%Hl0|]. intros x ->. by apply not_seed_COMPLETE in Hq.
    + apply contents_filled.
    + intros x. rewrite Hother; [apply H5|apply incoming_not_seed, Hch|].
      intros y. apply incoming_not_dir; [apply Hch|by destruct known_COMPLETE].
    + intros q Hq. rewrite Hother; [by apply H6|by apply incoming_not_seed|].
      intros y. apply incoming_not_dir; [done|by destruct known_COMPLETE].
Qed.

(** *** Locks *)
Lemma lock_dir x : slash ∉ LOCK /\ ~ seed_area (dir LOCK // x) /\ startswith incoming (dir LOCK // x) = false.
Proof using Hn.
  assert (slash ∉ LOCK) as Hl by (apply lock_no_sep; by left). split_and!; [done|by rewrite seed_area_dir|].
  apply not_true_is_false. intros Hi. by apply (incoming_not_dir _ LOCK x Hi).
Qed.

Lemma move_keeps_lock src dst strict tmp b x :
  src = CORPUS_SEED \/ src = bs "incoming_child" /\ basename tmp <> [] -> dst = COMPLETE \/ seeds_of_session dst ->
  apart src dst strict tmp b ->
  blobs (MoveCorpusDirectory gcs_path device_serial true test_name tmp src dst strict b).2 !! (dir LOCK // x) = blobs b !! (dir LOCK // x).
Proof using Hn BucketLaws0.
  intros Hsrc Hdst Ha. destruct (lock_dir x) as (Hl & Hs & Hi).
  assert (known_dir dst) as Hk by (destruct Hdst as [-> | ?]; [apply known_COMPLETE|by apply known_session]).
  assert (dst <> LOCK) as Hne.
  { destruct Hdst as [-> | [-> | (i & ? & ->)]]; [done|done|]. by apply (seed_number_cases (fun s => s <> LOCK)). }
  destruct (move_dir_run src dst strict tmp b Hk Ha) as [_ Hm]. apply (moved_else _ _ _ _ Hm).
  - unfold ListFilesWithPrefix. rewrite elem_of_list_blobs. intros [_ Hp]. destruct Hsrc as [-> | [-> Hb]].
    + apply Hs. unfold seed_area. apply startswith_spec in Hp as [k ->]. change (GetDirPaths gcs_path CORPUS_SEED test_name tmp) with (dir CORPUS_SEED).
      apply startswith_spec. destruct (strict && _); [rewrite <- app_assoc|]; eauto.
    + assert (startswith incoming (dir LOCK // x) = true) as E; [|congruence].
      apply startswith_spec in Hp as [k ->]. fold (child_dir tmp). rewrite child_dir_eq by done.
      apply startswith_spec. destruct (strict && _); rewrite <- !app_assoc; eauto.
  - intros y E. apply (dir_inj_free _ _ Hn) in E as [? _]; [done|done|by destruct Hk].
Qed.
End layouts.

(** ** Runs *)
Definition SCHEDULING_ALGORITHM : Z := FETCH_ALL_AND_REPEAT.

(** One run of a test on a device of the lab: its temporary directory, the files of its output with their
    contents, a crash report, and the names that are made up for it. *)
Record run := mk_run {
  r_serial : pystr; r_tmp : pystr; r_files : list (pystr * pystr); r_triggered : option pystr; r_uuid : pystr; r_measure : pystr;
}.
Definition output (r : run) : gmap pystr pystr := list_to_map (r_files r).
Record run_ok (r : run) : Prop := {
  ok_serial : slash ∉ r_serial r;
  ok_tmp : basename (r_tmp r) <> [];
  ok_files : r_files r <> [] /\ NoDup (r_files r).*1 /\ Forall (fun f => slash ∉ f.1) (r_files r);
  ok_uuid : slash ∉ r_uuid r;
  ok_measure : slash ∉ r_measure r;
}.

Section sessions.
Context (gcs_path test_name : pystr) (Hn : named gcs_path test_name).
Context {B : Type} `{!Bucket B, !BucketLaws B}.

Local Abbreviation dir s := (state_dir gcs_path s test_name).
Local Abbreviation incoming := (incoming_prefix gcs_path test_name).
Local Notation "d // x" := (d ++ sep ++ x) (at level 60, only parsing).

(** ** The abstract session: the outputs of its runs, and what was completed *)
Definition seeds_of (hist : list (gmap pystr pystr)) : gmap pystr pystr := default ∅ (last hist).
Definition number_of (hist : list (gmap pystr pystr)) (i : nat) : gmap pystr pystr :=
  if i <? length hist then default ∅ (hist !! (i - 1)) else ∅.

(** The session after another output: with the fifth it is completed. *)
Definition session_next (st : list (gmap pystr pystr) * list (gmap pystr pystr)) (o : gmap pystr pystr)
    : list (gmap pystr pystr) * list (gmap pystr pystr) :=
  let '(hist, done) := st in
  if length hist <? REPEAT_TIMES - 1 then (hist ++ [o], done) else ([], done ++ hist ++ [o]).

(** The completed corpora are those of the outputs [done]: none is lost, of several of one name one is kept. *)
Definition completed (done : list (gmap pystr pystr)) (fin : gmap pystr pystr) : Prop :=
  (forall x c, fin !! x = Some c -> exists o, o ∈ done /\ o !! x = Some c) /\
  (forall o x, o ∈ done -> is_Some (o !! x) -> is_Some (fin !! x)).

Lemma completed_more done fin os fin' : completed done fin -> completes os fin fin' -> completed (done ++ os) fin'.
Proof.
  intros [H1 H2] Hc. split.
  - intros x c Hx. destruct (Hc x) as [(o & Ho & _ & E)|[_ E]].
    + exists o. split; [apply elem_of_app; by right|congruence].
    + destruct (H1 x c) as (o & Ho & E'); [congruence|]. exists o. split; [apply elem_of_app; by left|done].
  - intros o x Ho Hx. destruct (Hc x) as [(o' & Ho' & Hx' & ->)|[Hno ->]]; [done|].
    apply elem_of_app in Ho as [Ho|Ho]; [by apply (H2 o)|]. rewrite (Hno o Ho) in Hx. by destruct Hx.
Qed.

Lemma session_after os :
  let n := 5 * (length os / 5) in foldl session_next ([], []) os = (drop n os, take n os).
Proof.
  induction os as [|o os IH] using rev_ind; [done|]. cbv zeta in *. rewrite foldl_app, IH. cbn [foldl session_next].
  rewrite length_drop, length_app. cbn [length]. set (n := 5 * (length os / 5)).
  pose proof (Nat.div_mod_eq (length os) 5) as Hd. pose proof (Nat.mod_upper_bound (length os) 5 ltac:(lia)) as Hm. fold n in Hd.
  change (REPEAT_TIMES - 1) with 4. destruct (Nat.ltb_spec (length os - n) 4) as [Hlt|Hge].
  - assert (5 * ((length os + 1) / 5) = n) as ->.
    { unfold n. f_equal. rewrite Hd at 1. fold n. symmetry. apply (Nat.div_unique _ _ _ (length os mod 5 + 1)); unfold n; lia. }
    rewrite drop_app_le, take_app_le by lia. done.
  - assert (5 * ((length os + 1) / 5) = length os + 1) as ->.
    { assert ((length os + 1) / 5 = S (length os / 5)) as ->; [|unfold n in *; lia].
      symmetry. apply (Nat.div_unique _ _ _ 0); unfold n in *; lia. }
    rewrite (drop_ge (os ++ [o])), (take_ge (os ++ [o])) by (rewrite length_app; cbn; lia). by rewrite app_assoc, take_drop.
Qed.

Record in_session (hist : list (gmap pystr pystr)) (fin : gmap pystr pystr) (b : B) : Prop := {
  se_length : length hist <= 4;
  se_outputs : Forall (fun o => o <> ∅ /\ flat o) hist;
  se_layout child : child_ok gcs_path test_name child ->
    layout gcs_path test_name (seeds_of hist) (number_of hist) fin child ∅ b;
  se_unlocked x : blobs b !! (dir LOCK // x) = None;
}.

Lemma layout_no_incoming seeds num fin child child' b :
  layout gcs_path test_name seeds num fin child ∅ b -> child_ok gcs_path test_name child' ->
  layout gcs_path test_name seeds num fin child' ∅ b.
Proof.
  intros [H1 H2 H3 H4 H5 H6] Hch.
  assert (forall q, startswith incoming q = true -> blobs b !! q = None) as Hno.
  { intros q Hq. apply eq_None_not_Some. intros Hin. destruct (H6 q Hq Hin) as [x ->]. rewrite H5, lookup_empty in Hin. by destruct Hin. }
  split; [done..| |].
  - intros x. rewrite lookup_empty. apply Hno, Hch.
  - intros q Hq. rewrite Hno by done. by intros [].
Qed.

(** The number that the next run of a session gives to the seeds. *)
Lemma session_index_run hist fin child inc b :
  length hist <= 4 -> Forall (fun o => o <> ∅ /\ flat o) hist -> layout gcs_path test_name (seeds_of hist) (number_of hist) fin child inc b ->
  session_index gcs_path true test_name b 4 1 = Nat.max 1 (length hist).
Proof using Hn BucketLaws0.
  intros Hlen Hout Hlay.
  assert (forall i, 1 <= i <= 4 -> PrefixExists true (numbered (GetDirPaths gcs_path (bs "corpus_seed") test_name []) i) b = (i <? length hist)) as Hp.
  { intros i Hi.
    assert (numbered (GetDirPaths gcs_path (bs "corpus_seed") test_name []) i = dir (seed_number i)) as ->.
    { change (GetDirPaths gcs_path (bs "corpus_seed") test_name []) with (dir CORPUS_SEED).
      rewrite !(state_dir_eq _ _ Hn) by (apply (known_number i Hi) || apply known_CORPUS_SEED). unfold seed_number, numbered. by rewrite <- !app_assoc. }
    unfold PrefixExists, CountFiles.
    assert (forall n, n ∈ ListFilesWithPrefix true (dir (seed_number i)) true b <-> exists x, n = dir (seed_number i) // x /\ is_Some (number_of hist i !! x)) as Hl.
    { intros n. destruct (known_number i Hi) as (? & ? & _). rewrite (list_state_dir _ _ Hn) by done. unfold holds.
      split; intros (x & -> & Hx); exists x; (split; [done|]); revert Hx; by rewrite (l_num _ _ _ _ _ _ _ _ Hlay). }
    unfold number_of in Hl. destruct (Nat.ltb_spec i (length hist)) as [Hlt|Hge].
    - destruct (lookup_lt_is_Some_2 hist (i - 1)) as [o Ho]; [lia|]. rewrite Ho in Hl. cbn in Hl.
      rewrite Forall_forall in Hout. destruct (Hout o) as [Hne _]; [by eapply list_elem_of_lookup_2|].
      apply map_choose in Hne as (x & c & Hx). apply negb_true_iff, bool_decide_eq_false. intros H0%length_zero_iff_nil.
      assert ((dir (seed_number i) // x) ∈ ([] : list pystr)) as []%elem_of_nil. rewrite <- H0. apply Hl. eauto.
    - apply negb_false_iff, bool_decide_eq_true, length_zero_iff_nil.
      destruct (ListFilesWithPrefix true (dir (seed_number i)) true b) as [|n l]; [done|]. exfalso.
      destruct (proj1 (Hl n)) as (x & _ & [c Hx]); [by left|]. by rewrite lookup_empty in Hx. }
  cbn [session_index]. rewrite !Hp by lia.
  assert (length hist = 0 \/ length hist = 1 \/ length hist = 2 \/ length hist = 3 \/ length hist = 4)
    as [-> | [-> | [-> | [-> | ->]]]] by lia; reflexivity.
Qed.

(** *** The upload of an output *)
Lemma upload_path tmp f :
  basename tmp <> [] -> slash ∉ f ->
  path_join2 (GetDirPaths gcs_path (bs "incoming_parent") test_name tmp)
    (basename (GetDirPaths gcs_path (bs "local_corpus_out") test_name tmp) ++ sep ++ f) = child_dir gcs_path test_name tmp // f.
Proof using Hn.
  clear BucketLaws0 Bucket0 B.
  intros Hb Hf. rewrite (local_corpus_out_base _ _ Hn), (child_dir_eq _ _ Hn), (incoming_parent_eq _ _ Hn) by done.
  rewrite path_join2_sep; [by rewrite <- !app_assoc| | |].
  - destruct Hn. unfold incoming_prefix. by destruct gcs_path.
  - apply endswith_sep_app; [done|apply after_last_fresh].
  - apply not_true_is_false. intros [k E]%startswith_spec. destruct Hn as [_ _ ? Hs]. destruct test_name as [|a t]; [done|].
    injection E as -> _. set_solver.
Qed.

Lemma upload_all_run tmp files b :
  basename tmp <> [] -> NoDup files.*1 -> Forall (fun f : pystr * pystr => slash ∉ f.1) files ->
  let child := child_dir gcs_path test_name tmp in
  exists b', UploadDir true (basename (GetDirPaths gcs_path (bs "local_corpus_out") test_name tmp))
      (GetDirPaths gcs_path (bs "incoming_parent") test_name tmp) (Some files) b = (true, b') /\
    (forall x, blobs b' !! (child // x) = match (list_to_map files : gmap pystr pystr) !! x with Some c => Some c | None => blobs b !! (child // x) end) /\
    (forall q, (forall x, q <> child // x) -> blobs b' !! q = blobs b !! q).
Proof using Hn BucketLaws0.
  intros Hb Hnd Hf child. unfold UploadDir. eexists. split; [reflexivity|]. revert b Hnd.
  induction Hf as [|[f c] files Hs Hf IH]; intros b Hnd; [done|]. cbn [foldl fst snd fmap list_fmap] in *. apply NoDup_cons in Hnd as [Hfr Hnd].
  destruct (IH (UploadFile true c (path_join2 (GetDirPaths gcs_path (bs "incoming_parent") test_name tmp)
    (basename (GetDirPaths gcs_path (bs "local_corpus_out") test_name tmp) ++ sep ++ f)) b) Hnd) as [H1 H2]. clear IH.
  unfold UploadFile in H1, H2 |- *. rewrite upload_path in H1, H2 |- * by done. fold child in H1, H2 |- *. split.
  - intros x. rewrite H1. destruct (decide (x = f)) as [->|Hne].
    + rewrite not_elem_of_list_to_map_1 by done. cbn [list_to_map foldr uncurry fst snd]. by rewrite lookup_insert_eq, blobs_upload, lookup_insert_eq.
    + cbn [list_to_map foldr uncurry fst snd]. rewrite lookup_insert_ne, blobs_upload, lookup_insert_ne; [done| |done].
      intros E%app_inv_head%app_inv_head. congruence.
  - intros q Hq. rewrite H2, blobs_upload, lookup_insert_ne; [done| |done]. by apply not_eq_sym.
Qed.

(** ** One run *)
Lemma output_flat r : run_ok r -> output r <> ∅ /\ flat (output r).
Proof.
  intros [_ _ (Hne & Hnd & Hf) _ _]. unfold output. split.
  - destruct (r_files r) as [|[f c] l]; [done|]. cbn [list_to_map foldr uncurry]. apply insert_non_empty.
  - intros x [c Hx]. apply elem_of_list_to_map in Hx; [|done]. rewrite Forall_forall in Hf. exact (Hf _ Hx).
Qed.

Lemma seeds_flat hist : Forall (fun o => o <> ∅ /\ flat o) hist -> flat (seeds_of hist) /\ forall i, flat (number_of hist i).
Proof.
  assert (flat ∅) as Hempty by (intros x; rewrite lookup_empty; by intros []).
  rewrite Forall_forall. intros Ho. split.
  - unfold seeds_of. destruct (last hist) as [o|] eqn:E; [|done]. apply Ho. by apply last_Some_elem_of.
  - intros i. unfold number_of. destruct (_ <? _); [|done]. destruct (hist !! (i - 1)) as [o|] eqn:E; [|done].
    apply Ho. by eapply list_elem_of_lookup_2.
Qed.

Lemma number_shift hist o j :
  1 <= j -> number_of (hist ++ [o]) j = if decide (j = Nat.max 1 (length hist)) then seeds_of hist ∪ number_of hist j else number_of hist j.
Proof.
  intros Hj. unfold number_of. rewrite length_app. cbn [length]. case_decide as E.
  - rewrite (proj2 (Nat.ltb_ge j (length hist))), (right_id_L ∅ (∪)) by lia. unfold seeds_of.
    destruct (decide (length hist = 0)) as [H0|H0].
    + rewrite (proj2 (Nat.ltb_ge _ _)) by lia. by apply length_zero_iff_nil in H0 as ->.
    + rewrite (proj2 (Nat.ltb_lt _ _)), lookup_app_l, last_lookup by lia. f_equal. f_equal. lia.
  - destruct (Nat.ltb_spec j (length hist)) as [Hlt|Hge].
    + rewrite (proj2 (Nat.ltb_lt _ _)), lookup_app_l by lia. done.
    + by rewrite (proj2 (Nat.ltb_ge _ _)) by lia.
Qed.

Lemma completes_session hist inc fin fin1 :
  length hist = 4 -> completes [seeds_of hist; number_of hist 1; number_of hist 2; number_of hist 3; number_of hist 4] fin fin1 ->
  completes (hist ++ [inc]) fin (inc ∪ fin1).
Proof.
  intros Hl Hc x. destruct hist as [|a [|b0 [|c [|d [|]]]]]; try done. cbn in Hc. specialize (Hc x).
  rewrite lookup_union. destruct (inc !! x) as [v|] eqn:Hi.
  { left. exists inc. rewrite Hi. split; [cbn; set_solver|]. split; [done|]. by rewrite union_Some_l. }
  rewrite (left_id_L None (∪)). destruct Hc as [(o & Ho & Hx & E)|[Hno E]].
  - left. exists o. split; [|done]. rewrite !elem_of_cons, elem_of_nil in Ho. cbn. rewrite !elem_of_cons.
    destruct Ho as [->|[->|[->|[->|[->|[]]]]]]; auto. rewrite lookup_empty in Hx. by destruct Hx.
  - right. split; [|done]. intros o Ho. cbn in Ho. rewrite !elem_of_cons, elem_of_nil in Ho.
    destruct Ho as [->|[->|[->|[->|[->|[]]]]]]; [apply Hno; set_solver..|done].
Qed.

(** The two moves of a run. *)
Lemma classify3_moves serial uuid tmp triggered hist fin inc b :
  basename tmp <> [] -> length hist <= 4 -> Forall (fun o => o <> ∅ /\ flat o) hist -> flat inc -> inc <> ∅ ->
  layout gcs_path test_name (seeds_of hist) (number_of hist) fin (child_dir gcs_path test_name tmp) inc b ->
  exists n b' fin', ClassifyPriority3 gcs_path serial true uuid test_name tmp triggered b =
      (n, UploadTriggeredCorpus gcs_path serial true uuid test_name tmp triggered b') /\
    (forall x, blobs b' !! (dir LOCK // x) = blobs b !! (dir LOCK // x)) /\
    let hist' := if length hist <? 4 then hist ++ [inc] else [] in
    layout gcs_path test_name (seeds_of hist') (number_of hist') fin' (child_dir gcs_path test_name tmp) ∅ b' /\
    if length hist <? 4 then fin' = fin else completes (hist ++ [inc]) fin fin'.
Proof using Hn BucketLaws0.
  intros Hb Hlen Hout Hinc Hne Hlay. unfold ClassifyPriority3, REPEAT_TIMES. cbn [Nat.sub].
  rewrite (session_index_run hist fin _ inc b Hlen Hout Hlay).
  destruct (seeds_flat hist Hout) as [Hfs Hfn]. destruct (child_dir_ok _ _ Hn tmp Hb) as [Hch _].
  set (child := child_dir gcs_path test_name tmp) in *. destruct (Nat.ltb_spec (length hist) 4) as [Hlt|Hge].
  - rewrite (proj2 (Nat.ltb_lt _ _)) by lia. set (i := Nat.max 1 (length hist)). assert (1 <= i <= 4) as Hi by lia.
    change (numbered (bs "corpus_seed") i) with (seed_number i).
    pose proof (shift_seeds gcs_path serial test_name Hn _ _ _ _ _ tmp b i Hch Hfs Hi Hlay) as H1.
    pose proof (fun x => move_keeps_lock gcs_path serial test_name Hn CORPUS_SEED (seed_number i) true tmp b x (or_introl eq_refl)
      (or_intror (or_intror (ex_intro _ i (conj Hi eq_refl)))) (apart_shift gcs_path test_name Hn tmp b i Hi)) as L1.
    change (bs "corpus_seed") with CORPUS_SEED. set (b1 := (MoveCorpusDirectory _ _ _ _ _ _ _ _ b).2) in *.
    pose proof (move_incoming gcs_path serial test_name Hn _ _ inc tmp b1 CORPUS_SEED ∅ Hb Hinc (or_introl (conj eq_refl eq_refl)) H1) as H2.
    pose proof (fun x => move_keeps_lock gcs_path serial test_name Hn (bs "incoming_child") CORPUS_SEED true tmp b1 x (or_intror (conj eq_refl Hb))
      (or_intror (or_introl eq_refl)) (apart_incoming gcs_path test_name Hn tmp b1 CORPUS_SEED Hb (proj1 known_CORPUS_SEED))) as L2.
    cbv zeta in H2. rewrite !decide_True in H2 by done.
    destruct (MoveCorpusDirectory gcs_path serial true test_name tmp (bs "incoming_child") CORPUS_SEED true b1) as [n b2]. cbn [snd] in H2, L2.
    exists n, b2, fin. split; [done|]. split; [intros x; by rewrite L2, L1|]. split; [|done]. cbv zeta.
    destruct H2 as [G1 G2 G3 G4 G5 G6]. split; [|intros j Hj x|done..].
    + unfold seeds_of. by rewrite last_snoc.
    + rewrite (G2 j Hj x), number_shift by lia. fold i. case_decide as E; [by rewrite E|done].
  - assert (length hist = 4) as Hl4 by lia. replace (Nat.max 1 (length hist)) with 4 by lia. rewrite (proj2 (Nat.ltb_ge _ _)) by lia.
    destruct (complete_seeds gcs_path serial test_name Hn _ _ _ child inc tmp b Hch Hfs (fun i _ => Hfn i) Hlay) as (fin1 & Hc & H1).
    pose proof (fun x => move_keeps_lock gcs_path serial test_name Hn CORPUS_SEED COMPLETE false tmp b x (or_introl eq_refl)
      (or_introl eq_refl) (apart_complete gcs_path test_name Hn tmp b)) as L1.
    change (bs "corpus_seed") with CORPUS_SEED. change (bs "corpus_complete") with COMPLETE.
    set (b1 := (MoveCorpusDirectory _ _ _ _ _ _ _ _ b).2) in *.
    pose proof (move_incoming gcs_path serial test_name Hn _ _ inc tmp b1 COMPLETE ∅ Hb Hinc (or_intror eq_refl) H1) as H2.
    pose proof (fun x => move_keeps_lock gcs_path serial test_name Hn (bs "incoming_child") COMPLETE true tmp b1 x (or_intror (conj eq_refl Hb))
      (or_introl eq_refl) (apart_incoming gcs_path test_name Hn tmp b1 COMPLETE Hb (proj1 known_COMPLETE))) as L2.
    cbv zeta in H2. rewrite !decide_False in H2 by done.
    destruct (MoveCorpusDirectory gcs_path serial true test_name tmp (bs "incoming_child") COMPLETE true b1) as [n b2]. cbn [snd] in H2, L2.
    exists n, b2, (inc ∪ fin1). split; [done|]. split; [intros x; by rewrite L2, L1|]. split; [exact H2|].
    by apply completes_session.
Qed.
End sessions.

Section runs.
Context (gcs_path test_name : pystr) (Hn : named gcs_path test_name).
Context {B : Type} `{!Bucket B, !BucketLaws B}.
Context (choose : nat -> nat -> nat) (env : nat -> B -> B) (download : pystr -> bool) (fuel : nat).
Local Abbreviation dir s := (state_dir gcs_path s test_name).
Local Notation "d // x" := (d ++ sep ++ x) (at level 60, only parsing).

(** The fetch, and the upload at the end. *)
Definition do_run (r : run) (b : B) : option (option pystr * bool * B) :=
  '(fetched, b) ← FetchCorpusSeed gcs_path (r_serial r) true SCHEDULING_ALGORITHM choose env download fuel test_name b;
  let '(ok, b) := UploadCorpusOutDir gcs_path (r_serial r) true SCHEDULING_ALGORITHM (r_uuid r) (r_measure r) test_name
                    (r_tmp r) (Some (r_files r)) (r_triggered r) b in
  Some (fetched, ok, b).
(** Runs one after the other, each of which gets the seeds and uploads its output. *)
Fixpoint do_runs (rs : list run) (b : B) : option B :=
  match rs with
  | [] => Some b
  | r :: rs =>
      match do_run r b with
      | Some (Some d, true, b) => if decide (d = bs "directory") then do_runs rs b else None
      | _ => None
      end
  end.

Lemma not_relevant s x : slash ∉ s -> startswith CORPUS_SEED (s // x) = false -> s <> COMPLETE -> ~ relevant gcs_path test_name (dir s // x).
Proof using Hn. intros. by apply irrelevant. Qed.

(** What is left of a run after the moves: a crash report, the lock and the measure. *)
Lemma end_of_run r c b :
  run_ok r ->
  let b' := UploadFile true c (path_join2 (GetDirPaths gcs_path (bs "corpus_measure") test_name []) (r_measure r))
              (remove_lock gcs_path (r_serial r) true test_name
                (UploadTriggeredCorpus gcs_path (r_serial r) true (r_uuid r) test_name (r_tmp r) (r_triggered r) b)) in
  (forall q, relevant gcs_path test_name q -> blobs b' !! q = blobs b !! q) /\
  blobs b' !! (dir LOCK // r_serial r) = None /\ forall x, x <> r_serial r -> blobs b' !! (dir LOCK // x) = blobs b !! (dir LOCK // x).
Proof using Hn BucketLaws0.
  intros [Hser _ _ Huuid Hmeas] b'. unfold b'. clear b'.
  change (GetDirPaths gcs_path (bs "corpus_measure") test_name []) with (dir (bs "corpus_measure")).
  assert (slash ∉ LOCK) as Hls by (apply lock_no_sep; by left).
  assert (slash ∉ bs "corpus_measure") as Hms by (apply lock_no_sep; by right).
  assert (slash ∉ bs "corpus_trigger") as Hts by (apply corpus_state_no_sep, trigger_state).
  rewrite (join_state _ _ Hn) by done. set (b1 := UploadTriggeredCorpus _ _ _ _ _ _ _ _).
  assert (forall q, (forall x, q <> dir (bs "corpus_trigger") // x) -> blobs b1 !! q = blobs b !! q) as H1.
  { intros q Hq. unfold b1, UploadTriggeredCorpus, UploadFile. destruct (r_triggered r); [|done].
    rewrite (UploadTriggeredCorpus_dest _ _ _ Hn), blobs_upload, lookup_insert_ne; [done|]. apply not_eq_sym, Hq. }
  assert (blobs (remove_lock gcs_path (r_serial r) true test_name b1) = delete (dir LOCK // r_serial r) (blobs b1)) as H2.
  { unfold remove_lock, DeleteFile. change (bs "corpus_lock") with LOCK. rewrite (lock_file _ _ _ Hn) by done.
    destruct (blobs b1 !! (dir LOCK // r_serial r)) as [c'|] eqn:E.
    - destruct (delete_blob_Some b1 _ c' E) as (b2 & -> & Hb2). exact Hb2.
    - rewrite (delete_blob_None b1 _ E). symmetry. by apply delete_id. }
  unfold UploadFile. rewrite blobs_upload, H2.
  assert (forall s1 s2 x y, slash ∉ s1 -> slash ∉ s2 -> s1 <> s2 -> dir s1 // x <> dir s2 // y) as Hdirs.
  { intros s1 s2 x y ? ? Hne E. by apply (dir_inj_free _ _ Hn) in E as [? _]. }
  split_and!.
  - intros q Hq.
    assert (forall s x, slash ∉ s -> startswith CORPUS_SEED (s // x) = false -> s <> COMPLETE -> q <> dir s // x) as Hno.
    { intros s x ? ? ? ->. by apply (not_relevant s x). }
    rewrite lookup_insert_ne by (by apply not_eq_sym, Hno). rewrite lookup_delete_ne by (by apply not_eq_sym, Hno).
    apply H1. intros x. by apply Hno.
  - rewrite lookup_insert_ne by (by apply Hdirs). apply lookup_delete_eq.
  - intros x Hx. rewrite lookup_insert_ne, lookup_delete_ne, H1; [done|intros y; by apply Hdirs| |by apply Hdirs].
    intros E%app_inv_head%app_inv_head. congruence.
Qed.

Lemma run_step r hist fin b :
  in_session gcs_path test_name hist fin b -> run_ok r ->
  exists b' fin', do_run r b = Some (Some (bs "directory"), true, b') /\
    in_session gcs_path test_name (if length hist <? 4 then hist ++ [output r] else []) fin' b' /\
    if length hist <? 4 then fin' = fin else completes (hist ++ [output r]) fin fin'.
Proof using Hn BucketLaws0.
  intros [Hlen Hout Hlay Hlock] Hr. pose proof (end_of_run r) as Hend. specialize (fun c b => Hend c b Hr). destruct (output_flat r Hr) as [Hne Hflat]. destruct Hr as [Hser Htmp (_ & Hnd & Hff) Huuid Hmeas].
  destruct (child_dir_ok _ _ Hn _ Htmp) as [Hch _]. set (child := child_dir gcs_path test_name (r_tmp r)) in *.
  (* the fetch *)
  unfold do_run, FetchCorpusSeed. cbn [negb]. change (SCHEDULING_ALGORITHM =? FETCH_ONE_AND_FEED)%Z with false.
  change (SCHEDULING_ALGORITHM =? FETCH_CRASH_AND_FEED)%Z with false. change (SCHEDULING_ALGORITHM =? FETCH_ALL_AND_REPEAT)%Z with true.
  cbn iota. change (bs "corpus_lock") with LOCK.
  assert (PrefixExists true (GetDirPaths gcs_path LOCK test_name []) b = false) as ->.
  { apply not_true_is_false. intros [x Hx]%(locked_exists _ _ Hn). unfold holds in Hx. rewrite Hlock in Hx. by destruct Hx. }
  cbn [mbind option_bind]. unfold add_lock, UploadFile. change (bs "corpus_lock") with LOCK. rewrite (lock_file _ _ _ Hn) by done.
  set (b1 := upload b _ _). assert (blobs b1 = <[dir LOCK // r_serial r := []]> (blobs b)) as E1 by apply blobs_upload.
  (* the upload *)
  unfold UploadCorpusOutDir. cbn [negb].
  destruct (upload_all_run _ _ Hn (r_tmp r) (r_files r) b1 Htmp Hnd Hff) as (b2 & -> & Hup & Helse). fold child in Hup, Helse. fold (output r) in Hup.
  assert (slash ∉ LOCK) as Hls by (apply lock_no_sep; by left).
  assert (forall q, (forall x, q <> child // x) -> relevant gcs_path test_name q -> blobs b2 !! q = blobs b !! q) as Hrel.
  { intros q Hq Hrel. rewrite Helse by done. rewrite E1. apply lookup_insert_ne. intros <-. by eapply not_relevant; [|..|exact Hrel]. }
  assert (layout gcs_path test_name (seeds_of hist) (number_of hist) fin child (output r) b2) as L2.
  { destruct (Hlay child Hch) as [H1 H2 H3 H4 H5 H6]. split.
    - intros x. rewrite Hrel; [apply H1| |left; apply seed_area_session; [done|by left]].
      intros y. apply not_eq_sym, incoming_not_dir; [done|apply Hch|by destruct known_CORPUS_SEED].
    - intros i Hi x. rewrite Hrel; [by apply H2| |left; apply seed_area_session; [done|right; eauto]].
      intros y. apply not_eq_sym, incoming_not_dir; [done|apply Hch|by destruct (known_number i Hi)].
    - intros q Hq. rewrite Hrel; [by apply H3| |by left]. intros y ->. by apply (incoming_not_seed _ _ Hn _ (Hch y)).
    - intros x. rewrite Hrel; [apply H4| |right; left; eauto].
      intros y. apply not_eq_sym, incoming_not_dir; [done|apply Hch|by destruct known_COMPLETE].
    - intros x. rewrite Hup. destruct (output r !! x) eqn:E; [done|]. rewrite E1, lookup_insert_ne, H5; [done|].
      apply not_eq_sym, incoming_not_dir; [done|apply Hch|done].
    - intros q Hq Hin. destruct (under_spec child q) as [[x ->]|Hno]; [eauto|]. rewrite Hrel in Hin; [by apply H6|done|right; by right]. }
  (* the classification *)
  unfold ClassifyPriority. change (SCHEDULING_ALGORITHM =? FETCH_ONE_AND_FEED)%Z with false.
  change (SCHEDULING_ALGORITHM =? FETCH_CRASH_AND_FEED)%Z with false. change (SCHEDULING_ALGORITHM =? FETCH_ALL_AND_REPEAT)%Z with true.
  cbn iota.
  destruct (classify3_moves _ _ Hn (r_serial r) (r_uuid r) (r_tmp r) (r_triggered r) hist fin (output r) b2 Htmp Hlen Hout Hflat Hne L2)
    as (n & b3 & fin' & -> & Hl3 & L3 & Hfin). cbv zeta in L3. fold child in L3.
  set (hist' := if length hist <? 4 then hist ++ [output r] else []) in *.
  eexists _, fin'. split; [reflexivity|]. split; [|done]. split.
  - unfold hist'. destruct (Nat.ltb_spec (length hist) 4); [rewrite length_app; cbn; lia|cbn; lia].
  - unfold hist'. destruct (_ <? _); [|done]. apply Forall_app. split; [done|by repeat constructor].
  - intros child' Hch'. apply (layout_no_incoming _ _ _ _ _ child); [|done].
    apply (layout_frame _ _ Hn _ _ _ _ _ b3); [done|apply Hend|exact L3].
  - intros x. destruct (decide (x = r_serial r)) as [->|Hx]; [apply Hend|].
    rewrite (proj2 (proj2 (Hend _ _))) by done. rewrite Hl3, Helse.
    + rewrite E1, lookup_insert_ne; [apply Hlock|]. intros E%app_inv_head%app_inv_head. congruence.
    + intros y. apply not_eq_sym, incoming_not_dir; [done|apply Hch|done].
Qed.

Lemma runs_run rs : forall hist done fin b,
  in_session gcs_path test_name hist fin b -> completed done fin -> Forall run_ok rs ->
  exists b' fin', do_runs rs b = Some b' /\ let st := foldl session_next (hist, done) (output <$> rs) in
    in_session gcs_path test_name st.1 fin' b' /\ completed st.2 fin'.
Proof using Hn BucketLaws0.
  induction rs as [|r rs IH]; intros hist done fin b Hs Hd Hok; [by exists b, fin|]. inv Hok as [|? ? Hr Hrs].
  destruct (run_step r hist fin b Hs Hr) as (b1 & fin1 & E1 & Hs1 & Hf1).
  cbn [do_runs fmap list_fmap foldl]. rewrite E1, decide_True by reflexivity.
  change (session_next (hist, done) (output r)) with
    (if length hist <? 4 then (hist ++ [output r], done) else ([], done ++ hist ++ [output r])).
  destruct (length hist <? 4).
  - subst fin1. by apply (IH _ _ fin).
  - apply (IH [] (done ++ hist ++ [output r]) fin1 b1 Hs1); [by eapply completed_more|done].
Qed.

Lemma in_session_empty b : blobs b = ∅ -> in_session gcs_path test_name [] ∅ b.
Proof.
  intros Hb. assert (forall q, blobs b !! q = None) as E by (intros q; by rewrite Hb, lookup_empty).
  split; [cbn; lia|done| |intros x; apply E]. intros child _.
  split; try (intros *; unfold number_of; cbn; by rewrite ?E, ?lookup_empty); intros; unfold filled; intros; rewrite E; cbn; try done.
  all: match goal with H : is_Some _ |- _ => rewrite E in H; by destruct H | _ => by rewrite lookup_empty end.
Qed.

Lemma fetched_seeds hist fin b q :
  in_session gcs_path test_name hist fin b ->
  q ∈ (FetchCorpusSeedDirectory gcs_path true test_name b).2 <-> exists x, q = dir CORPUS_SEED // x /\ is_Some (seeds_of hist !! x).
Proof using Hn BucketLaws0.
  intros [_ _ Hlay _].
  assert (forall x, blobs b !! (dir CORPUS_SEED // x) = seeds_of hist !! x) as Hf.
  { apply (l_seeds _ _ _ _ _ _ _ _ (Hlay (child_dir gcs_path test_name (bs "t")) (proj1 (child_dir_ok _ _ Hn (bs "t") ltac:(done))))). }
  assert (forall q, q ∈ ListFilesWithPrefix true (GetDirPaths gcs_path CORPUS_SEED test_name []) true b <->
    exists x, q = dir CORPUS_SEED // x /\ is_Some (seeds_of hist !! x)) as Hl.
  { intros q'. rewrite (list_dir _ _ Hn) by (by apply (bool_decide_unpack _)). unfold holds. by setoid_rewrite Hf. }
  rewrite <- Hl. unfold FetchCorpusSeedDirectory. change (bs "corpus_seed") with CORPUS_SEED.
  case_decide as H0; [|done]. unfold CountFiles in H0. by apply length_zero_iff_nil in H0 as ->.
Qed.
End runs.

(** C8: Under the configured scheduling, any number of runs of a test, one after the other and each with an
    output of at least one file, starting from an empty bucket: every run gets the seeds and
    uploads its output. After them, of the outputs since the last multiple of five, the last one is the seeds, which
    are what the next run fetches, the earlier ones have the directories corpus_seed_01, _02, _03 in
    their order, and nothing else is among the seeds; all outputs before are completed: every
    corpus of them is in corpus_complete with the contents of one of these outputs, and nothing
    else is; nothing is left incoming and the test is not locked. Files of
    one output have different names, these and the names of devices and measures have no slash, and no two runs
    overlap; the commands for the bucket do what they are for. *)
Theorem sessions_complete {B : Type} `{!Bucket B, !BucketLaws B} gcs_path test_name choose env download fuel rs (b0 : B) :
  named gcs_path test_name -> blobs b0 = ∅ -> Forall run_ok rs ->
  let outputs := output <$> rs in
  let n := 5 * (length rs / 5) in
  exists b fin, do_runs gcs_path test_name choose env download fuel rs b0 = Some b /\
    in_session gcs_path test_name (drop n outputs) fin b /\ completed (take n outputs) fin /\
    forall q, q ∈ (FetchCorpusSeedDirectory gcs_path true test_name b).2 <->
      exists x, q = state_dir gcs_path CORPUS_SEED test_name ++ sep ++ x /\ is_Some (seeds_of (drop n outputs) !! x).
Proof.
  intros Hn H0 Hok outputs n.
  destruct (runs_run gcs_path test_name Hn choose env download fuel rs [] [] ∅ b0) as (b & fin & E & Hs); [by apply in_session_empty| |done|].
  { split; [intros x c; by rewrite lookup_empty|by intros ? ? ?%elem_of_nil]. }
  cbv zeta in Hs. fold outputs in Hs. rewrite session_after in Hs.
  assert (length outputs = length rs) as El by apply length_fmap. rewrite El in Hs. fold n in Hs.
  exists b, fin. destruct Hs as [H1 H2]. split_and!; [done|done|done|]. intros q. by apply (fetched_seeds gcs_path test_name Hn _ fin).
Qed.

(** ** Six runs of a test of one device *)
Definition sample_run (f : pystr) : run :=
  mk_run SERIAL (bs "/tmp/tmpV1oPTp") [(f, bs "corpus")] (Some (bs "crash")) (bs "a1b2") (bs "measure.txt").
Definition six_runs : list run := sample_run <$> [bs "0a"; bs "1b"; bs "2c"; bs "3d"; bs "4e"; bs "5f"].
Lemma six_runs_ok : Forall run_ok six_runs.
Proof.
  assert (forall f, slash ∉ f -> run_ok (sample_run f)) as H.
  { intros f Hf. split; [apply (bool_decide_unpack _); vm_compute; exact I|apply (bool_decide_unpack _); vm_compute; exact I| |
      apply (bool_decide_unpack _); vm_compute; exact I|apply (bool_decide_unpack _); vm_compute; exact I].
    split; [done|]. split; [apply NoDup_singleton|by repeat constructor]. }
  unfold six_runs. repeat (apply Forall_cons; split; [apply H, (bool_decide_unpack _); vm_compute; exact I|]). by apply Forall_nil.
Qed.

Lemma sessions_complete_witness :
  exists (b : gmap pystr pystr) fin,
    do_runs PPR1 ILIGHT (fun _ _ => 0) (fun _ b => b) (fun _ => true) 10 six_runs ∅ = Some b /\
    in_session PPR1 ILIGHT [output (sample_run (bs "5f"))] fin b /\ is_Some (fin !! bs "2c").
Proof.
  assert (blobs (∅ : gmap pystr pystr) = ∅) as E0 by reflexivity.
  destruct (sessions_complete (B := gmap pystr pystr) PPR1 ILIGHT (fun _ _ => 0) (fun _ (b : gmap pystr pystr) => b) (fun _ => true) 10 six_runs
    (∅ : gmap pystr pystr) ILight_named E0 six_runs_ok) as (b & fin & E & Hs & [_ Hc] & _).
  exists b, fin. split; [exact E|]. split; [exact Hs|]. apply (Hc (output (sample_run (bs "2c")))).
  - right. right. left.
  - exists (bs "corpus"). vm_compute. reflexivity.
Defined.
