(* ===== verification/Shell.v ===== *)
(** * Commands on a device ([src/utils/python/common/cmd_result.py])

    Tests send commands to the shell of a device and read the results.  The
    device is a state of a type of its own; what it does with commands is an
    argument of the components that talk to it.  This file has the results, the
    computations that change the device and may raise, and [str.split()]. *)

From Stdlib Require Import Strings.Byte.
From S2P Require Import Prelude PyStr ListUtils PyVal Signals BinaryTest.

(** ** Computations on a state that they change even when they raise *)
Definition xstM (S A : Type) : Type := S -> xres A * S.
#[export] Instance xstM_ret {S} : MRet (xstM S) := fun A a s => (Ret a, s).
#[export] Instance xstM_bind {S} : MBind (xstM S) := fun A B f m s =>
  match m s with
  | (Ret a, s') => f a s'
  | (Exc e, s') => (Exc e, s')
  end.

(** The exceptions of Python's own that may escape. *)
Definition of_pyres {A} (m : pyres A) : xres A :=
  match m with Ok a => Ret a | Raise _ => Exc (EOther Exception_ []) end.

Definition xlift {S A} (m : xres A) : xstM S A := fun s => (m, s).
Definition xpure {S A} (m : pyres A) : xstM S A := xlift (of_pyres m).
Definition xget {S} : xstM S S := fun s => (Ret s, s).
Definition xput {S} (s : S) : xstM S unit := fun _ => (Ret tt, s).
Definition xmodify {S} (f : S -> S) : xstM S unit := fun s => (Ret tt, f s).

(** [try: m; except: ...] with the outcome as a value, and [try: m; finally: f]: an
    exception of [f] takes the place of the outcome. *)
Definition xattempt {S A} (m : xstM S A) : xstM S (xres A) := fun s => let '(r, s) := m s in (Ret r, s).
Definition xfinally {S A} (m : xstM S A) (f : xstM S unit) : xstM S A := fun s =>
  let '(r, s) := m s in
  match f s with
  | (Ret _, s) => (r, s)
  | (Exc e, s) => (Exc e, s)
  end.

Lemma xstM_bind_run {S A B} (m : xstM S A) (f : A -> xstM S B) s a s' :
  m s = (Ret a, s') -> (m ≫= f) s = f a s'.
Proof. unfold mbind, xstM_bind. by intros ->. Qed.

Lemma xstM_bind_exc {S A B} (m : xstM S A) (f : A -> xstM S B) s e s' :
  m s = (Exc e, s') -> (m ≫= f) s = (Exc e, s').
Proof. unfold mbind, xstM_bind. by intros ->. Qed.

Lemma xstM_bind_Ret {S A B} (m : xstM S A) (f : A -> xstM S B) s b s' :
  (m ≫= f) s = (Ret b, s') <-> exists a s1, m s = (Ret a, s1) /\ f a s1 = (Ret b, s').
Proof.
  unfold mbind, xstM_bind. destruct (m s) as [[a|e] s1].
  - split; [eauto|by intros (? & ? & [= <- <-] & ?)].
  - split; [done|by intros (? & ? & [=] & _)].
Qed.

Lemma xstM_bind_assoc {S A B C} (m : xstM S A) (f : A -> xstM S B) (g : B -> xstM S C) s :
  ((m ≫= f) ≫= g) s = (m ≫= fun a => f a ≫= g) s.
Proof. unfold mbind, xstM_bind. by destruct (m s) as [[a|e] s']. Qed.

(** [try: m; except c: h] *)
Definition xexcept {S A} (c : exc_class) (m : xstM S A) (h : xstM S A) : xstM S A :=
  r ← xattempt m;
  match r with
  | Ret a => mret a
  | Exc e => if isinstance e c then h else xlift (Exc e)
  end.

Lemma xexcept_run {S A} c (m h : xstM S A) s a s' : m s = (Ret a, s') -> xexcept c m h s = (Ret a, s').
Proof. intros Hm. unfold xexcept. erewrite xstM_bind_run; [|unfold xattempt; by rewrite Hm]. done. Qed.

Lemma xexcept_caught {S A} c (m h : xstM S A) s e s' :
  m s = (Exc e, s') -> isinstance e c = true -> xexcept c m h s = h s'.
Proof. intros Hm He. unfold xexcept. erewrite xstM_bind_run; [|unfold xattempt; by rewrite Hm]. cbn. by rewrite He. Qed.

(** What every outcome of [m] leaves in the state. *)
Definition xkeeps {S A} (P : S -> Prop) (m : xstM S A) : Prop := forall s, P s -> P (m s).2.

Lemma xkeeps_bind {S A B} (P : S -> Prop) (m : xstM S A) (f : A -> xstM S B) :
  xkeeps P m -> (forall a, xkeeps P (f a)) -> xkeeps P (m ≫= f).
Proof.
  intros Hm Hf s Hs. specialize (Hm s Hs). unfold mbind, xstM_bind.
  destruct (m s) as [[a|e] s']; [by apply Hf|done].
Qed.

Lemma xkeeps_ret {S A} (P : S -> Prop) (a : A) : xkeeps P (mret a : xstM S A).
Proof. by intros s Hs. Qed.

Lemma xkeeps_get {S} (P : S -> Prop) : xkeeps P (xget : xstM S S).
Proof. by intros s Hs. Qed.

Lemma xkeeps_lift {S A} (P : S -> Prop) (m : xres A) : xkeeps P (xlift m).
Proof. by intros s Hs. Qed.

Lemma xkeeps_attempt {S A} (P : S -> Prop) (m : xstM S A) : xkeeps P m -> xkeeps P (xattempt m).
Proof. intros Hm s Hs. specialize (Hm s Hs). unfold xattempt. by destruct (m s). Qed.

Lemma xkeeps_finally {S A} (P : S -> Prop) (m : xstM S A) (f : xstM S unit) :
  xkeeps P m -> xkeeps P f -> xkeeps P (xfinally m f).
Proof.
  intros Hm Hf s Hs. specialize (Hm s Hs). unfold xfinally. destruct (m s) as [r s1].
  specialize (Hf s1 Hm). by destruct (f s1) as [[?|?] ?].
Qed.

Lemma xkeeps_except {S A} (P : S -> Prop) c (m h : xstM S A) : xkeeps P m -> xkeeps P h -> xkeeps P (xexcept c m h).
Proof.
  intros Hm Hh. apply xkeeps_bind; [by apply xkeeps_attempt|]. intros [a|e]; [by intros s Hs|].
  destruct (isinstance e c); [done|by intros s Hs].
Qed.

Create HintDb keeps.
#[export] Hint Resolve xkeeps_ret xkeeps_get xkeeps_lift : keeps.
#[export] Hint Unfold xpure : keeps.

(** Statement by statement, choices branch by branch. *)
Ltac keeps := repeat first
  [ solve [eauto with keeps]
  | apply xkeeps_bind; [|intros]
  | apply xkeeps_attempt
  | apply xkeeps_except
  | match goal with
    | |- xkeeps _ (if ?b then _ else _) => destruct b eqn:?
    | |- xkeeps _ (match ?x with _ => _ end) => destruct x eqn:?
    end ].

(** ** [CmdResult] *)
Record CmdResult := mk_CmdResult {
  stdouts : list (option pystr);
  stderrs : list (option pystr);
  returncodes : list Z;
  cmds : list (option pystr);
  exceptions : list (option pystr);
}.

Definition AddResult (stdout stderr : option pystr) (returncode : Z) (cmd exception : option pystr)
    (self : CmdResult) : CmdResult :=
  mk_CmdResult (stdouts self ++ [stdout]) (stderrs self ++ [stderr]) (returncodes self ++ [returncode])
    (cmds self ++ [cmd]) (exceptions self ++ [exception]).
Definition new_CmdResult (stdout stderr : option pystr) (returncode : Z) (cmd exception : option pystr) : CmdResult :=
  AddResult stdout stderr returncode cmd exception (mk_CmdResult [] [] [] [] []).

Definition stdout (self : CmdResult) : pyres (option pystr) := py_get (stdouts self) (-1).
Definition stderr (self : CmdResult) : pyres (option pystr) := py_get (stderrs self) (-1).
Definition returncode (self : CmdResult) : pyres Z := py_get (returncodes self) (-1).
Definition cmd (self : CmdResult) : pyres (option pystr) := py_get (cmds self) (-1).
Definition exception (self : CmdResult) : pyres (option pystr) := py_get (exceptions self) (-1).

(** [results[key]]: one of three lists, by the names that [cmd_utils] gives them. *)
Definition CmdResult_getitem (self : CmdResult) (key : pystr) : pyres (list (option pystr) + list Z) :=
  if bool_decide (key = bs "stdouts") then Ok (inl (stdouts self))
  else if bool_decide (key = bs "stderrs") then Ok (inl (stderrs self))
  else if bool_decide (key = bs "return_codes") then Ok (inr (returncodes self))
  else Raise KeyError.

(** The three lists that the tests read. *)
Definition results_of (self : CmdResult) : command_results :=
  mk_results (stdouts self) (stderrs self) (returncodes self).

Lemma py_get_last {A} (l : list A) (a : A) : py_get (l ++ [a]) (-1) = Ok a.
Proof.
  unfold py_get. rewrite length_app. cbn [length]. rewrite (proj2 (Z.ltb_lt (-1) 0)) by lia.
  rewrite (proj2 (Z.ltb_ge _ 0)) by lia. rewrite lookup_app_r by lia.
  replace (_ - _)%nat with 0%nat by lia. done.
Qed.

(** However many results were added, the properties give the last. *)
Lemma AddResult_last o e c k x self :
  let r := AddResult o e c k x self in
  stdout r = Ok o /\ stderr r = Ok e /\ returncode r = Ok c /\ cmd r = Ok k /\ exception r = Ok x /\
  length (stdouts r) = S (length (stdouts self)).
Proof.
  cbn. unfold stdout, stderr, returncode, cmd, exception. cbn. rewrite !py_get_last, length_app. cbn.
  split_and!; try done. lia.
Qed.

(** ** [s.split()] *)
Fixpoint split_ws_from (l acc : pystr) : list pystr :=
  match l with
  | [] => match acc with [] => [] | _ => [acc] end
  | b :: l =>
      if is_space b then match acc with [] => split_ws_from l [] | _ => acc :: split_ws_from l [] end
      else split_ws_from l (acc ++ [b])
  end.
Definition split_ws (l : pystr) : list pystr := split_ws_from l [].

Lemma split_ws_piece s b l acc :
  no_space s = true -> acc ++ s <> [] -> is_space b = true ->
  split_ws_from (s ++ b :: l) acc = (acc ++ s) :: split_ws_from l [].
Proof.
  revert acc. induction s as [|x s IH]; intros acc Hs Hne Hb; cbn [app split_ws_from].
  - rewrite Hb. rewrite app_nil_r in *. by destruct acc.
  - cbn [no_space forallb] in Hs. apply andb_true_iff in Hs as [Hx Hs]. apply negb_true_iff in Hx. rewrite Hx.
    rewrite IH; [by rewrite <- app_assoc|done| |done]. by intros [[_ [=]]%app_nil _]%app_nil.
Qed.

Lemma split_ws_spaces k l : forallb is_space k = true -> split_ws_from (k ++ l) [] = split_ws_from l [].
Proof.
  induction k as [|b k IH]; [done|]. cbn [forallb app split_ws_from]. intros [Hb Hk]%andb_true_iff.
  rewrite Hb. by apply IH.
Qed.

(** Words with one blank after each, then more white space. *)
Lemma split_ws_words ws k :
  forallb (fun w => no_space w && negb (bool_decide (w = []))) ws = true -> forallb is_space k = true ->
  split_ws (mjoin ((fun w => w ++ bs " ") <$> ws) ++ k) = ws.
Proof.
  intros Hws Hk. unfold split_ws. induction ws as [|w ws IH].
  - cbn [fmap list_fmap mjoin list_join app]. rewrite <- (app_nil_r k). by rewrite split_ws_spaces.
  - cbn [forallb] in Hws. apply andb_true_iff in Hws as [[Hw Hne]%andb_true_iff Hws].
    rewrite fmap_cons. cbn [mjoin list_join]. rewrite <- !app_assoc.
    change (bs " " ++ mjoin ((fun w => w ++ bs " ") <$> ws) ++ k)
      with (Byte.x20 :: mjoin ((fun w => w ++ bs " ") <$> ws) ++ k).
    rewrite split_ws_piece; [by rewrite IH|done| |done].
    apply negb_true_iff, bool_decide_eq_false in Hne. done.
Qed.

Lemma digits_no_byte c k : is_digit c = false -> (0 <= k)%Z -> no_byte c (str_nat k) = true.
Proof.
  intros Hc Hk. destruct (str_nat_spec k Hk) as (Hd & _). apply forallb_forall. intros b Hb.
  rewrite forallb_forall in Hd. specialize (Hd b Hb). apply negb_true_iff, bool_decide_eq_false.
  intros ->. congruence.
Qed.

Lemma py_int_str k : (0 <= k)%Z -> py_int (str_nat k) = Ok k.
Proof. intros Hk. rewrite <- (app_nil_r (str_nat k)). by apply (py_int_padded k [] []). Qed.
