(* ===== verification/CpuScaling.v ===== *)
(** * CPU frequency scaling ([src/utils/python/cpu/cpu_frequency_scaling.py])

    The controller switches the governors of all CPUs to [performance] for the
    tests and back, and recognises a device that slows down because it is hot.
    The device is a state that commands read and write. *)

From Stdlib Require Import Strings.Byte.
From S2P Require Import Prelude PyStr PySort ListUtils PyVal Signals BinaryTest Shell.

(** The attributes that [Init] sets; [None] before it. *)
Record cpu_config := mk_cpu {
  min_cpu_number : Z;
  max_cpu_number : Z;
  theoretical_max_frequency : gmap Z Z;
  perf_override : bool;
  saved_governors : option (list pystr);
}.
Abbreviation controller := (option cpu_config).

Definition set_cache (m : gmap Z Z) (s : cpu_config) : cpu_config :=
  mk_cpu (min_cpu_number s) (max_cpu_number s) m (perf_override s) (saved_governors s).
Definition set_override (b : bool) (s : cpu_config) : cpu_config :=
  mk_cpu (min_cpu_number s) (max_cpu_number s) (theoretical_max_frequency s) b (saved_governors s).
Definition set_saved (l : list pystr) (s : cpu_config) : cpu_config :=
  mk_cpu (min_cpu_number s) (max_cpu_number s) (theoretical_max_frequency s) (perf_override s) (Some l).

(** [range(a, b)] *)
Definition range (a b : Z) : list Z := seqZ a (b - a).

(** The files under [/sys/devices/system/cpu/]. *)
Definition cat_present : pystr := bs "cat /sys/devices/system/cpu/present".
Definition cpufreq (cpu_no : Z) (file : string) : pystr :=
  bs "/sys/devices/system/cpu/cpu" ++ str_int cpu_no ++ bs "/cpufreq/" ++ bs file.
Definition cat (cpu_no : Z) (file : string) : pystr := bs "cat " ++ cpufreq cpu_no file.
Definition cat_governor (cpu_no : Z) : pystr := cat cpu_no "scaling_governor".
Definition echo_governor (mode : pystr) (cpu_no : Z) : pystr :=
  bs "echo " ++ mode ++ bs " > " ++ cpufreq cpu_no "scaling_governor".

(** [results[key][i]] used as a string. *)
Definition text_at (l : list (option pystr)) (i : Z) : pyres pystr := py_get l i ≫= from_opt AttributeError.
Definition any_code (r : command_results) : bool := existsb (fun c => negb (c =? 0)%Z) (EXIT_CODE r).

(** [max(l)] *)
Definition py_max (l : list Z) : pyres Z :=
  match l with [] => Raise ValueError | x :: l => Ok (foldl Z.max x l) end.

Section controller.
Context {D : Type} (execute : list pystr -> D -> command_results * D) (sleep : Z -> D -> D).
Abbreviation cpuM := (xstM (controller * D)).

Definition Execute (cmds : list pystr) : cpuM command_results := fun s =>
  let '(r, d) := execute cmds s.2 in (Ret r, (s.1, d)).
(** Attributes that [Init] has not set raise [AttributeError]. *)
Definition self : cpuM cpu_config := fun s =>
  match s.1 with Some c => (Ret c, s) | None => (of_pyres (Raise AttributeError), s) end.
Definition update (f : cpu_config -> cpu_config) : cpuM unit := fun s => (Ret tt, (f <$> s.1, s.2)).
Definition check (first second : Z) : cpuM unit := xlift (assertEqual first second PNone PNone).

Definition LoadMinAndMaxCpuNo : cpuM (Z * Z) :=
  results ← Execute [cat_present];
  _ ← check (Z.of_nat (length (STDOUT results))) 1;
  stdout ← xpure (text_at (STDOUT results) 0);
  stdout_line ← xpure (py_get (split newline stdout) 0);
  let stdout_split := split (bs "-") stdout_line in
  _ ← xlift (assertLess (Z.of_nat (length stdout_split)) 3 PNone PNone);
  low ← xpure (py_get stdout_split 0);
  high ← xpure (if (Z.of_nat (length stdout_split) =? 2)%Z then py_get stdout_split 1 else Ok low);
  low ← xpure (py_int low);
  high ← xpure (py_int high);
  mret (low, (high + 1)%Z).

Definition Init : cpuM unit := fun s =>
  match s.1 with
  | Some _ => (Ret tt, s)
  | None =>
      (r ← LoadMinAndMaxCpuNo;
       (fun s => (Ret tt, (Some (mk_cpu r.1 r.2 ∅ false None), s.2))) : cpuM unit) s
  end.

Definition GetMinAndMaxCpuNo : cpuM (Z * Z) := c ← self; mret (min_cpu_number c, max_cpu_number c).

Definition GetTheoreticalMaxFrequency (cpu_no : Z) : cpuM (option Z) :=
  c ← self;
  match theoretical_max_frequency c !! cpu_no with
  | Some freq => mret (Some freq)
  | None =>
      results ← Execute [cat cpu_no "scaling_available_frequencies"];
      _ ← check 1 (Z.of_nat (length (EXIT_CODE results)));
      code ← xpure (py_get (EXIT_CODE results) 0);
      if (code =? 0)%Z then
        stdout ← xpure (text_at (STDOUT results) 0);
        freq ← xpure (mapM_py py_int (split_ws stdout));
        highest ← xpure (py_max freq);
        _ ← update (fun c => set_cache (<[cpu_no := highest]> (theoretical_max_frequency c)) c);
        mret (Some highest)
      else mret None
  end.

Definition ChangeCpuGovernor (modes : list pystr) : cpuM (option (list pystr)) :=
  _ ← Init;
  c ← self;
  let cpus := range (min_cpu_number c) (max_cpu_number c) in
  let number := (max_cpu_number c - min_cpu_number c)%Z in
  _ ← check number (Z.of_nat (length modes));
  results ← Execute (cat_governor <$> cpus);
  _ ← check number (Z.of_nat (length (STDOUT results)));
  if any_code results then mret None
  else
    prev_govs ← xpure (mapM_py (fun cpu_no => rstrip_by is_space <$> text_at (STDOUT results) cpu_no) cpus);
    target_cmd ← xpure (mapM_py (fun cpu_no => mode ← py_get modes cpu_no; Ok (echo_governor mode cpu_no)) cpus);
    results ← Execute target_cmd;
    _ ← check number (Z.of_nat (length (STDOUT results)));
    if any_code results then mret None else mret (Some prev_govs).

Definition DisableCpuScaling : cpuM unit :=
  _ ← Init;
  c ← self;
  if perf_override c then mret tt
  else
    prev_govs ← ChangeCpuGovernor ((fun _ => bs "performance") <$> range (min_cpu_number c) (max_cpu_number c));
    match prev_govs with
    | Some prev_govs => update (fun c => set_override true (set_saved prev_govs c))
    | None => mret tt
    end.

Definition EnableCpuScaling : cpuM unit :=
  _ ← Init;
  c ← self;
  if negb (perf_override c) then mret tt
  else
    match saved_governors c with
    | None => mret tt
    | Some governors => _ ← ChangeCpuGovernor governors; update (set_override false)
    end.

(** One turn of the loop: [None] goes on. *)
Definition cpu_throttled (cpu_no : Z) : cpuM (option bool) :=
  results ← Execute [cat cpu_no "scaling_max_freq"; cat cpu_no "scaling_cur_freq"];
  _ ← check 2 (Z.of_nat (length (STDOUT results)));
  if any_code results then
    _ ← xpure (py_get (STDERR results) 0);
    _ ← xpure (py_get (STDERR results) 1);
    mret (Some false)
  else
    configurable_max_frequency ← xpure (strip <$> text_at (STDOUT results) 0);
    current_frequency ← xpure (strip <$> text_at (STDOUT results) 1);
    if negb (bytes_leb configurable_max_frequency current_frequency) then mret (Some true)
    else
      theoretical_max ← GetTheoreticalMaxFrequency cpu_no;
      match theoretical_max with
      | None => mret None
      | Some highest =>
          current ← xpure (py_int current_frequency);
          mret (if (current <? highest)%Z then Some true else None)
      end.
Fixpoint any_throttled (cpus : list Z) : cpuM bool :=
  match cpus with
  | [] => mret false
  | cpu_no :: cpus =>
      r ← cpu_throttled cpu_no;
      match r with Some b => mret b | None => any_throttled cpus end
  end.
Definition IsUnderThermalThrottling : cpuM bool :=
  _ ← Init; c ← self; any_throttled (range (min_cpu_number c) (max_cpu_number c)).

Definition SkipIfThermalThrottling (retry_delay_secs : Z) : cpuM unit :=
  throttling ← IsUnderThermalThrottling;
  throttling ← (if throttling && (0 <? retry_delay_secs)%Z then
                  _ ← ((fun s => (Ret tt, (s.1, sleep retry_delay_secs s.2))) : cpuM unit);
                  IsUnderThermalThrottling
                else mret throttling);
  xlift (skipIf throttling (PStr (bs "Thermal throttling")) PNone).
End controller.

(** ** A device *)
(** What the kernel promises of its files: those of the CPUs [0] to [n - 1] that are
    online give their governors, and what is written to them becomes the governors; those
    of a CPU that is not can neither be read nor written, and the commands fail. *)
Definition present_text (n : nat) : pystr :=
  (if decide (n = 1) then bs "0" else bs "0-" ++ str_nat (Z.of_nat n - 1)) ++ newline.
Definition all_fine (r : command_results) : Prop := any_code r = false.

Class Sysfs {D : Type} (execute : list pystr -> D -> command_results * D) (n : nat) := {
  governor : D -> Z -> pystr;
  online : D -> Z -> bool;
  sysfs_present d : exists errs,
    execute [cat_present] d = (mk_results [Some (present_text n)] errs [0%Z], d);
  sysfs_read d : exists errs codes,
    execute (cat_governor <$> seqZ 0 (Z.of_nat n)) d =
      (mk_results ((fun c => if online d c then Some (governor d c ++ newline) else None) <$> seqZ 0 (Z.of_nat n)) errs codes, d) /\
    forallb (Z.eqb 0) codes = forallb (online d) (seqZ 0 (Z.of_nat n));
  sysfs_write d modes : length modes = n ->
    exists outs errs codes d',
      execute (zip_with echo_governor modes (seqZ 0 (Z.of_nat n))) d = (mk_results outs errs codes, d') /\
      length outs = n /\ forallb (Z.eqb 0) codes = forallb (online d) (seqZ 0 (Z.of_nat n)) /\
      forall i mode, modes !! i = Some mode ->
        governor d' (Z.of_nat i) = if online d (Z.of_nat i) then mode else governor d (Z.of_nat i);
}.
Definition all_online {D} {execute : list pystr -> D -> command_results * D} {n} `{!Sysfs execute n} (d : D) : bool :=
  forallb (online d) (seqZ 0 (Z.of_nat n)).

Lemma codes_fine outs errs codes : forallb (Z.eqb 0) codes = true -> any_code (mk_results outs errs codes) = false.
Proof.
  unfold any_code. cbn [EXIT_CODE]. induction codes as [|c l IH]; [done|].
  cbn [forallb existsb]. intros [Hc%Z.eqb_eq Hl]%andb_true_iff. subst c. by apply IH.
Qed.

Lemma codes_not_fine outs errs codes : forallb (Z.eqb 0) codes = false -> any_code (mk_results outs errs codes) = true.
Proof.
  unfold any_code. cbn [EXIT_CODE]. induction codes as [|c l IH]; [done|].
  cbn [forallb existsb]. intros [Hc%Z.eqb_neq|Hl]%andb_false_iff; apply orb_true_iff; [left|right; by apply IH].
  apply negb_true_iff, Z.eqb_neq. congruence.
Qed.

Lemma assertEqual_refl a msg extras : assertEqual a a msg extras = Ret tt.
Proof. unfold assertEqual. by rewrite Z.eqb_refl. Qed.

Lemma assertEqual_Ret a b msg extras : assertEqual a b msg extras = Ret tt -> a = b.
Proof. unfold assertEqual, fail_with. by destruct (Z.eqb_spec a b). Qed.

Lemma Execute_keeps {D} (execute : list pystr -> D -> command_results * D) cmds s r s' :
  Execute execute cmds s = (Ret r, s') -> s'.1 = s.1.
Proof. unfold Execute. destruct (execute cmds s.2) as [r' d']. by intros [= <- <-]. Qed.

Lemma check_refl {D} a (s : controller * D) : check a a s = (Ret tt, s).
Proof. unfold check, xlift. by rewrite assertEqual_refl. Qed.

Lemma mapM_seqZ {A B} (l : list A) (f : Z -> pyres B) (g : A -> Z -> B) n :
  length l = n -> (forall i a, l !! i = Some a -> f (Z.of_nat i) = Ok (g a (Z.of_nat i))) ->
  mapM_py f (seqZ 0 (Z.of_nat n)) = Ok (zip_with g l (seqZ 0 (Z.of_nat n))).
Proof.
  intros Hn Hf. apply mapM_py_Ok, Forall2_same_length_lookup. split.
  { rewrite length_zip_with, length_seqZ. lia. }
  intros i z b [-> Hi]%lookup_seqZ Hb. rewrite lookup_zip_with in Hb.
  destruct (l !! i) as [a|] eqn:Ha; [|done]. cbn in Hb.
  rewrite (proj2 (lookup_seqZ 0 (Z.of_nat n) i (Z.of_nat i))) in Hb by lia.
  cbn in Hb. injection Hb as <-. by rewrite Z.add_0_l, (Hf i a).
Qed.

Lemma mapM_seqZ_map {B} (f : Z -> pyres B) (g : Z -> B) n :
  (forall i, (0 <= i < Z.of_nat n)%Z -> f i = Ok (g i)) -> mapM_py f (seqZ 0 (Z.of_nat n)) = Ok (g <$> seqZ 0 (Z.of_nat n)).
Proof. intros Hf. apply mapM_py_map. intros i Hi%elem_of_seqZ. apply Hf. lia. Qed.

Section sysfs.
Context {D : Type} (execute : list pystr -> D -> command_results * D) (n : nat) `{!Sysfs execute n}.
Context (n_pos : 0 < n).

Definition at_rest : cpu_config := mk_cpu 0 (Z.of_nat n) ∅ false None.

Lemma Execute_run (r : command_results) cmds (c : controller) d d' :
  execute cmds d = (r, d') -> Execute execute cmds (c, d) = (Ret r, (c, d')).
Proof. unfold Execute. cbn [snd fst]. by intros ->. Qed.

Lemma split_present :
  split newline (present_text n) = [if decide (n = 1) then bs "0" else bs "0-" ++ str_nat (Z.of_nat n - 1); []].
Proof using n_pos.
  unfold present_text, split. change newline with [Byte.x0a]. rewrite split_from_byte; [done|].
  destruct (decide (n = 1)); [done|]. rewrite no_byte_app, digits_no_byte by (done || lia). done.
Qed.

Lemma LoadMinAndMaxCpuNo_run (c : controller) d :
  LoadMinAndMaxCpuNo execute (c, d) = (Ret (0%Z, Z.of_nat n), (c, d)).
Proof using n_pos Sysfs0.
  destruct (sysfs_present d) as (errs & Hp). unfold LoadMinAndMaxCpuNo.
  erewrite xstM_bind_run by (apply (Execute_run _ _ _ _ _ Hp)). cbn [STDOUT length].
  erewrite xstM_bind_run by apply check_refl.
  erewrite xstM_bind_run by reflexivity.
  erewrite xstM_bind_run by (unfold xpure, xlift; rewrite split_present; reflexivity).
  destruct (decide (n = 1)) as [->|Hn]; [reflexivity|].
  assert (split (bs "-") (bs "0-" ++ str_nat (Z.of_nat n - 1)) = [bs "0"; str_nat (Z.of_nat n - 1)]) as ->.
  { unfold split. change (bs "0-" ++ str_nat (Z.of_nat n - 1)) with (bs "0" ++ Byte.x2d :: str_nat (Z.of_nat n - 1)).
    change (bs "-") with [Byte.x2d]. rewrite split_from_byte, split_from_no_byte; [done| |done].
    apply digits_no_byte; [done|lia]. }
  erewrite xstM_bind_run by reflexivity. erewrite xstM_bind_run by reflexivity.
  erewrite xstM_bind_run by reflexivity. erewrite xstM_bind_run by reflexivity.
  erewrite xstM_bind_run.
  2:{ unfold xpure, xlift. rewrite py_int_str by lia. reflexivity. }
  unfold mret, xstM_ret. by rewrite Z.sub_add.
Qed.

Lemma Init_run d : Init execute (None, d) = (Ret tt, (Some at_rest, d)).
Proof using n_pos Sysfs0.
  unfold Init. cbn [fst]. by rewrite (xstM_bind_run _ _ _ _ _ (LoadMinAndMaxCpuNo_run None d)).
Qed.

Lemma online_at d i : all_online d = true -> (0 <= i < Z.of_nat n)%Z -> online d i = true.
Proof.
  unfold all_online. rewrite forallb_forall. intros H Hi. apply H, list_elem_of_In, elem_of_seqZ. lia.
Qed.

(** With a CPU offline the governors cannot be read, and nothing is written. *)
Lemma ChangeCpuGovernor_offline c d modes :
  min_cpu_number c = 0%Z -> max_cpu_number c = Z.of_nat n -> length modes = n -> all_online d = false ->
  ChangeCpuGovernor execute modes (Some c, d) = (Ret None, (Some c, d)).
Proof using Sysfs0.
  intros Hmin Hmax Hlen Hoff. destruct (sysfs_read d) as (errs & codes & Hr & Hc).
  unfold ChangeCpuGovernor, range. erewrite xstM_bind_run by reflexivity. erewrite xstM_bind_run by reflexivity.
  rewrite Hmin, Hmax, Z.sub_0_r, Hlen. erewrite xstM_bind_run by apply check_refl.
  erewrite xstM_bind_run by (apply (Execute_run _ _ _ _ _ Hr)). cbn [STDOUT].
  rewrite length_fmap, length_seqZ, Nat2Z.id. erewrite xstM_bind_run by apply check_refl.
  by rewrite codes_not_fine by (by rewrite Hc).
Qed.

(** The CPUs start at 0, as many as the modes, and are online: the governors are read,
    then the modes are written. *)
Lemma ChangeCpuGovernor_run c d modes :
  min_cpu_number c = 0%Z -> max_cpu_number c = Z.of_nat n -> length modes = n -> all_online d = true ->
  exists d', ChangeCpuGovernor execute modes (Some c, d) =
      (Ret (Some ((fun i => rstrip_by is_space (governor d i ++ newline)) <$> seqZ 0 (Z.of_nat n))), (Some c, d')) /\
    forall i mode, modes !! i = Some mode -> governor d' (Z.of_nat i) = mode.
Proof using Sysfs0 n_pos.
  intros Hmin Hmax Hlen Hon. destruct (sysfs_read d) as (errs & codes & Hr & Hc).
  assert (forall i, (0 <= i < Z.of_nat n)%Z -> online d i = true) as Hi0 by (intros; by apply online_at).
  fold (all_online d) in Hc. rewrite Hon in Hc.
  destruct (sysfs_write d modes Hlen) as (outs & errs' & codes' & d' & Hw & Ho & Hc' & Hg).
  fold (all_online d) in Hc'. rewrite Hon in Hc'.
  exists d'. split.
  2:{ intros i mode Hm. rewrite (Hg i mode Hm), Hi0; [done|]. apply lookup_lt_Some in Hm. lia. }
  unfold ChangeCpuGovernor, range.
  erewrite xstM_bind_run by reflexivity. erewrite xstM_bind_run by reflexivity.
  rewrite Hmin, Hmax, Z.sub_0_r, Hlen. erewrite xstM_bind_run by apply check_refl.
  erewrite xstM_bind_run by (apply (Execute_run _ _ _ _ _ Hr)). cbn [STDOUT].
  rewrite length_fmap, length_seqZ, Nat2Z.id. erewrite xstM_bind_run by apply check_refl.
  rewrite codes_fine by done. erewrite xstM_bind_run.
  2:{ unfold xpure, xlift. rewrite (mapM_seqZ_map _ (fun i => rstrip_by is_space (governor d i ++ newline)));
        [reflexivity|].
      intros i Hi. unfold text_at. rewrite <- (Z2Nat.id i) at 1 by lia.
      rewrite py_get_nat, list_lookup_fmap.
      rewrite (proj2 (lookup_seqZ 0 (Z.of_nat n) (Z.to_nat i) i)) by lia. cbn. by rewrite Hi0 by lia. }
  erewrite xstM_bind_run.
  2:{ unfold xpure, xlift. rewrite (mapM_seqZ modes _ echo_governor); [reflexivity|done|].
      intros i a Ha. rewrite py_get_nat, Ha. done. }
  erewrite xstM_bind_run by (apply (Execute_run _ _ _ _ _ Hw)). cbn [STDOUT]. rewrite Ho.
  erewrite xstM_bind_run by apply check_refl. by rewrite codes_fine.
Qed.

Definition tidy_governors (d : D) : Prop := forall i, rstrip_by is_space (governor d i ++ newline) = governor d i.
Definition governors_of (d : D) : list pystr := governor d <$> seqZ 0 (Z.of_nat n).
Definition cpu_modes {A} (f : Z -> A) : list A := f <$> seqZ 0 (Z.of_nat n).
Lemma length_cpu_modes {A} (f : Z -> A) : length (cpu_modes f) = n.
Proof. unfold cpu_modes. rewrite length_fmap, length_seqZ. lia. Qed.
Lemma lookup_cpu_modes {A} (f : Z -> A) i : i < n -> cpu_modes f !! i = Some (f (Z.of_nat i)).
Proof. intros Hi. unfold cpu_modes. rewrite list_lookup_fmap. by rewrite (proj2 (lookup_seqZ 0 (Z.of_nat n) i (Z.of_nat i))) by lia. Qed.

(** The controller that has switched the scaling off. *)
Record armed (saved : list pystr) (c : cpu_config) : Prop := {
  armed_min : min_cpu_number c = 0%Z;
  armed_max : max_cpu_number c = Z.of_nat n;
  armed_override : perf_override c = true;
  armed_saved : saved_governors c = Some saved;
}.

Lemma Disable_run d : tidy_governors d -> all_online d = true ->
  exists c d1, DisableCpuScaling execute (None, d) = (Ret tt, (Some c, d1)) /\ armed (governors_of d) c /\
    forall i, i < n -> governor d1 (Z.of_nat i) = bs "performance".
Proof using n_pos Sysfs0.
  intros Htidy Hon. destruct (ChangeCpuGovernor_run at_rest d (cpu_modes (fun _ => bs "performance")) eq_refl eq_refl (length_cpu_modes _) Hon) as (d1 & Hrun1 & Hg1).
  exists (mk_cpu 0 (Z.of_nat n) ∅ true (Some (governors_of d))), d1. split_and!.
  - unfold DisableCpuScaling. erewrite xstM_bind_run by apply Init_run. erewrite xstM_bind_run by reflexivity.
    cbn [at_rest perf_override]. unfold range. cbn [at_rest min_cpu_number max_cpu_number]. rewrite Z.sub_0_r.
    erewrite xstM_bind_run by exact Hrun1. unfold update. cbn [fst snd]. do 3 f_equal.
    unfold set_override, set_saved, at_rest. cbn. do 2 f_equal. unfold governors_of. f_equal. apply list_fmap_ext. intros ? i _. apply Htidy.
  - done.
  - intros i Hi. apply (Hg1 i). by apply lookup_cpu_modes.
Qed.

Lemma Enable_run c d d2 : armed (governors_of d) c -> all_online d2 = true ->
  exists c' d3, EnableCpuScaling execute (Some c, d2) = (Ret tt, (Some c', d3)) /\ perf_override c' = false /\
    forall i, i < n -> governor d3 (Z.of_nat i) = governor d (Z.of_nat i).
Proof using n_pos Sysfs0.
  intros [Hmin Hmax Ho Hs] Hon. destruct (ChangeCpuGovernor_run c d2 (governors_of d) Hmin Hmax (length_cpu_modes _) Hon) as (d3 & Hrun3 & Hg3).
  eexists _, d3. split_and!.
  - unfold EnableCpuScaling. erewrite xstM_bind_run by reflexivity. erewrite xstM_bind_run by reflexivity.
    rewrite Ho, Hs. cbn [negb]. erewrite xstM_bind_run by exact Hrun3. reflexivity.
  - done.
  - intros i Hi. apply (Hg3 i). by apply lookup_cpu_modes.
Qed.

(** With a CPU offline no CPU gets its governor back, and the controller takes the
    scaling for switched on. *)
Lemma Enable_offline c saved d2 : armed saved c -> length saved = n -> all_online d2 = false ->
  exists c', EnableCpuScaling execute (Some c, d2) = (Ret tt, (Some c', d2)) /\ perf_override c' = false.
Proof using Sysfs0 n_pos.
  intros [Hmin Hmax Ho Hs] Hlen Hoff. eexists. split; [|shelve].
  unfold EnableCpuScaling. erewrite xstM_bind_run by reflexivity. erewrite xstM_bind_run by reflexivity.
  rewrite Ho, Hs. cbn [negb]. erewrite xstM_bind_run by by apply ChangeCpuGovernor_offline. reflexivity.
  Unshelve. done.
Qed.

(** On a device whose CPUs start at 0 and are all online, switching the scaling off
    gives every CPU the performance governor, and switching it on again gives every CPU
    the governor it had at first, whatever the tests did to the device in between. *)
Theorem scaling_restored d :
  (forall i, rstrip_by is_space (governor d i ++ newline) = governor d i) -> all_online d = true ->
  exists c d1, DisableCpuScaling execute (None, d) = (Ret tt, (Some c, d1)) /\
    perf_override c = true /\
    (forall i, i < n -> governor d1 (Z.of_nat i) = bs "performance") /\
    forall d2, all_online d2 = true -> exists c' d3, EnableCpuScaling execute (Some c, d2) = (Ret tt, (Some c', d3)) /\
      perf_override c' = false /\
      forall i, i < n -> governor d3 (Z.of_nat i) = governor d (Z.of_nat i).
Proof using n_pos Sysfs0.
  intros Htidy Hon. destruct (Disable_run d Htidy Hon) as (c & d1 & E & Ha & Hp). exists c, d1. split_and!; [done|apply Ha|done|].
  intros d2 Hon2. by apply Enable_run.
Qed.
End sysfs.

(** A device of two CPUs in memory. *)
Module TwoCpus.
Definition state : Type := pystr * pystr.
Definition governor (d : state) (c : Z) : pystr := if (c =? 0)%Z then d.1 else d.2.
(** The mode that an [echo] command for the CPU writes. *)
Definition written (c : Z) (cmd : pystr) : pystr :=
  take (length cmd - 5 - length (bs " > " ++ cpufreq c "scaling_governor")) (drop 5 cmd).
Definition execute (cmds : list pystr) (d : state) : command_results * state :=
  if bool_decide (cmds = [cat_present]) then (mk_results [Some (present_text 2)] [None] [0%Z], d)
  else if bool_decide (cmds = cat_governor <$> seqZ 0 2) then
    (mk_results ((fun c => Some (governor d c ++ newline)) <$> seqZ 0 2) [None; None] [0; 0]%Z, d)
  else match cmds with
       | [a; b] => (mk_results [Some []; Some []] [None; None] [0; 0]%Z, (written 0 a, written 1 b))
       | _ => (mk_results [None] [None] [1%Z], d)
       end.

Lemma written_echo mode c : written c (echo_governor mode c) = mode.
Proof.
  unfold written, echo_governor. change 5 with (length (bs "echo ")). rewrite drop_app_length, length_app.
  rewrite length_app. replace (_ - _ - _) with (length mode) by lia. apply take_app_length.
Qed.

#[global] Instance two_cpus : Sysfs execute 2.
Proof.
  refine {| CpuScaling.governor := governor; online := fun _ _ => true |}.
  - intros d. by exists [None].
  - intros d. exists [None; None], [0; 0]%Z. split; [|done]. unfold execute.
    by rewrite bool_decide_eq_false_2, bool_decide_eq_true_2 by done.
  - intros d modes Hm. destruct modes as [|a [|b [|? ?]]]; try done.
    exists [Some []; Some []], [None; None], [0; 0]%Z, (a, b).
    change (zip_with echo_governor [a; b] (seqZ 0 (Z.of_nat 2))) with [echo_governor a 0; echo_governor b 1].
    split_and!; [|done|done|].
    + unfold execute. rewrite !bool_decide_eq_false_2 by done. by rewrite !written_echo.
    + intros [|[|i]] mode; by intros [= <-].
Defined.
End TwoCpus.

Example scaling_restored_witness :
  exists c d1, DisableCpuScaling TwoCpus.execute (None, (bs "schedutil", bs "ondemand")) = (Ret tt, (Some c, d1)) /\
    TwoCpus.governor d1 0 = bs "performance" /\
    exists c' d3, EnableCpuScaling TwoCpus.execute (Some c, d1) = (Ret tt, (Some c', d3)) /\
      TwoCpus.governor d3 1 = bs "ondemand".
Proof.
  destruct (scaling_restored TwoCpus.execute 2 ltac:(lia) (bs "schedutil", bs "ondemand")) as (c & d1 & H1 & _ & Hp & H2).
  { intros i. cbn. unfold TwoCpus.governor. cbn. destruct (i =? 0)%Z; reflexivity. }
  { reflexivity. }
  exists c, d1. split; [exact H1|]. split; [exact (Hp 0 ltac:(lia))|].
  destruct (H2 d1 eq_refl) as (c' & d3 & H3 & _ & Hg). exists c', d3. split; [exact H3|exact (Hg 1 ltac:(lia))].
Defined.

(** ** The state of the controller *)
Inductive cpu_op :=
  | OpDisable | OpEnable | OpChange (modes : list pystr) | OpThrottling | OpSkip (delay : Z).

Section invariant.
Context {D : Type} (execute : list pystr -> D -> command_results * D) (sleep : Z -> D -> D).

Definition run_op (o : cpu_op) (s : controller * D) : controller * D :=
  match o with
  | OpDisable => (DisableCpuScaling execute s).2
  | OpEnable => (EnableCpuScaling execute s).2
  | OpChange modes => (ChangeCpuGovernor execute modes s).2
  | OpThrottling => (IsUnderThermalThrottling execute s).2
  | OpSkip delay => (SkipIfThermalThrottling execute sleep delay s).2
  end.

(** When the scaling is off, a governor was saved for every CPU. *)
Definition valid (s : controller * D) : Prop :=
  forall c, s.1 = Some c -> perf_override c = true ->
    exists l, saved_governors c = Some l /\ Z.of_nat (length l) = (max_cpu_number c - min_cpu_number c)%Z.

Lemma keeps_Execute P cmds :
  (forall c d d', P (c, d) -> P (c, d')) -> xkeeps P (Execute execute cmds).
Proof.
  intros HP [c d] Hs. unfold Execute. cbn [snd fst]. destruct (execute cmds d) as [r d']. by eapply HP.
Qed.
Lemma valid_device c d d' : valid (c, d) -> valid (c, d').
Proof. done. Qed.

Lemma keeps_valid_Execute cmds : xkeeps valid (Execute execute cmds).
Proof. apply keeps_Execute, valid_device. Qed.
Lemma keeps_valid_self : xkeeps valid self.
Proof. intros [[c|] d] Hs; exact Hs. Qed.
Lemma keeps_valid_pure {A} (m : pyres A) : xkeeps (S := controller * D) valid (xpure m).
Proof. apply xkeeps_lift. Qed.
Lemma keeps_valid_check a b : xkeeps (S := controller * D) valid (check a b).
Proof. apply xkeeps_lift. Qed.
End invariant.
#[export] Hint Resolve keeps_valid_Execute keeps_valid_self keeps_valid_pure keeps_valid_check : keeps.

Section preserved.
Context {D : Type} (execute : list pystr -> D -> command_results * D) (sleep : Z -> D -> D).
Abbreviation valid := (valid (D := D)).

Lemma keeps_valid_Load : xkeeps valid (LoadMinAndMaxCpuNo execute).
Proof. unfold LoadMinAndMaxCpuNo. keeps. Qed.

Lemma keeps_valid_Init : xkeeps valid (Init execute).
Proof.
  intros [[c|] d] Hs; [exact Hs|]. unfold Init. cbn [fst].
  apply (xkeeps_bind valid (LoadMinAndMaxCpuNo execute)); [apply keeps_valid_Load| |done].
  intros [low high] s _ c [= <-]. done.
Qed.

Lemma keeps_valid_ChangeCpuGovernor modes : xkeeps valid (ChangeCpuGovernor execute modes).
Proof. unfold ChangeCpuGovernor. apply xkeeps_bind; [apply keeps_valid_Init|intros]. keeps. Qed.

Lemma keeps_valid_Theoretical cpu_no : xkeeps valid (GetTheoreticalMaxFrequency execute cpu_no).
Proof.
  unfold GetTheoreticalMaxFrequency. keeps.
  intros [[c1|] d] Hs c2 [= <-]. exact (Hs c1 eq_refl).
Qed.
#[local] Hint Resolve keeps_valid_Init keeps_valid_Theoretical : keeps.

Lemma keeps_valid_throttled cpus : xkeeps valid (any_throttled execute cpus).
Proof.
  induction cpus as [|cpu_no cpus IH]; cbn [any_throttled]; [keeps|].
  apply xkeeps_bind; [unfold cpu_throttled; keeps|]. intros [b|]; [keeps|exact IH].
Qed.

Lemma keeps_valid_IsUnderThermalThrottling : xkeeps valid (IsUnderThermalThrottling execute).
Proof. unfold IsUnderThermalThrottling. keeps. apply keeps_valid_throttled. Qed.

(** The modes that were in force: one for each CPU. *)
Lemma ChangeCpuGovernor_length modes s l s' :
  ChangeCpuGovernor execute modes s = (Ret (Some l), s') ->
  exists c, s'.1 = Some c /\ Z.of_nat (length l) = (max_cpu_number c - min_cpu_number c)%Z.
Proof.
  unfold ChangeCpuGovernor. intros (_ & s1 & _ & (c & s2 & Hself & H)%xstM_bind_Ret)%xstM_bind_Ret.
  assert (s2.1 = Some c) as Hc by (unfold self in Hself; destruct (s1.1) eqn:E; [by injection Hself as <- <-|done]).
  apply xstM_bind_Ret in H as ([] & s3 & Hcheck & H). injection Hcheck as Hcheck ->.
  apply assertEqual_Ret in Hcheck.
  apply xstM_bind_Ret in H as (r1 & s4 & Hr1 & H). apply Execute_keeps in Hr1.
  apply xstM_bind_Ret in H as (_ & s5 & [= _ ->] & H).
  destruct (any_code r1); [done|].
  apply xstM_bind_Ret in H as (govs & s6 & [= Hgovs ->] & H).
  apply xstM_bind_Ret in H as (target & s7 & [= _ ->] & H).
  apply xstM_bind_Ret in H as (r2 & s8 & Hr2 & H). apply Execute_keeps in Hr2.
  apply xstM_bind_Ret in H as (_ & s9 & [= _ ->] & H).
  destruct (any_code r2); [done|]. injection H as -> ->. exists c. split; [congruence|].
  destruct (mapM_py _ _) as [k|] eqn:Hm; [|done]. injection Hgovs as ->.
  apply mapM_py_Ok, Forall2_length in Hm. unfold range in Hm. rewrite length_seqZ in Hm. lia.
Qed.

Lemma keeps_valid_Disable : xkeeps valid (DisableCpuScaling execute).
Proof.
  unfold DisableCpuScaling. apply xkeeps_bind; [apply keeps_valid_Init|]. intros _.
  apply xkeeps_bind; [apply keeps_valid_self|]. intros c. destruct (perf_override c); [apply xkeeps_ret|].
  intros s Hs. unfold mbind, xstM_bind.
  pose proof (keeps_valid_ChangeCpuGovernor ((fun _ => bs "performance") <$> range (min_cpu_number c) (max_cpu_number c)) s Hs) as Hv.
  destruct (ChangeCpuGovernor execute _ s) as [[[l|]|e] s'] eqn:E; [|exact Hv|exact Hv].
  apply ChangeCpuGovernor_length in E as (c' & Hc' & Hl). unfold update. rewrite Hc'. intros c2 [= <-] _.
  by exists l.
Qed.

Lemma keeps_valid_Enable : xkeeps valid (EnableCpuScaling execute).
Proof.
  unfold EnableCpuScaling. pose proof keeps_valid_ChangeCpuGovernor. keeps.
  intros [[c1|] d] Hs c2 [= <-]. done.
Qed.

(** Looking for throttling leaves all of the controller but its cache. *)
Lemma keeps_armed_Skip n saved delay :
  xkeeps (fun s : controller * D => exists c, s.1 = Some c /\ armed n saved c) (SkipIfThermalThrottling execute sleep delay).
Proof.
  set (P := fun s : controller * D => exists c, s.1 = Some c /\ armed n saved c).
  assert (forall cmds, xkeeps P (Execute execute cmds)) as HE by (intros cmds; apply keeps_Execute; intros c d d' H; exact H).
  assert (xkeeps P self) as Hs by (intros [[c|] d] H; exact H).
  assert (forall A (m : pyres A), xkeeps P (xpure m)) as Hp by (intros; apply xkeeps_lift).
  assert (forall a b, xkeeps P (check a b)) as Hc by (intros; apply xkeeps_lift).
  assert (xkeeps P (Init execute)) as Hi by (intros [[c|] d] H; [exact H|by destruct H as (c & [=] & _)]).
  assert (forall cpu_no, xkeeps P (GetTheoreticalMaxFrequency execute cpu_no)) as Ht.
  { intros cpu_no. unfold GetTheoreticalMaxFrequency. keeps. intros [[c1|] d] (c & [= <-] & Ha); eexists; (split; [reflexivity|by destruct Ha]). }
  assert (forall cpus, xkeeps P (any_throttled execute cpus)) as Hany.
  { induction cpus as [|cpu_no cpus IH]; cbn [any_throttled]; [keeps|]. apply xkeeps_bind; [unfold cpu_throttled; keeps|]. intros [b|]; [keeps|exact IH]. }
  assert (xkeeps P (IsUnderThermalThrottling execute)) as HT by (unfold IsUnderThermalThrottling; keeps).
  unfold SkipIfThermalThrottling. keeps.
Qed.

Lemma keeps_valid_Skip delay : xkeeps valid (SkipIfThermalThrottling execute sleep delay).
Proof.
  unfold SkipIfThermalThrottling. pose proof keeps_valid_IsUnderThermalThrottling. keeps.
Qed.

(** Whatever the device answers, in every state that the operations of a new
    controller reach, a controller that has switched the scaling off has saved a
    governor for each CPU: the list that it will be asked to write back always has
    the length that [ChangeCpuGovernor] demands. *)
Theorem controller_keeps_governors ops d c :
  (foldl (fun s o => run_op execute sleep o s) (None, d) ops).1 = Some c -> perf_override c = true ->
  exists l, saved_governors c = Some l /\ Z.of_nat (length l) = (max_cpu_number c - min_cpu_number c)%Z.
Proof.
  revert c. change (valid (foldl (fun s o => run_op execute sleep o s) (None, d) ops)).
  assert (valid (None, d)) as Hs by done. revert Hs. generalize (None : controller, d). clear d.
  induction ops as [|o ops IH]; intros s Hs; [exact Hs|]. cbn [foldl]. apply IH. destruct o; cbn [run_op].
  - by apply keeps_valid_Disable.
  - by apply keeps_valid_Enable.
  - by apply keeps_valid_ChangeCpuGovernor.
  - by apply keeps_valid_IsUnderThermalThrottling.
  - by apply keeps_valid_Skip.
Qed.
End preserved.

Example controller_keeps_governors_witness :
  let s := foldl (fun s o => run_op TwoCpus.execute (fun _ d => d) o s) (None, (bs "a", bs "b")) [OpThrottling; OpDisable] in
  exists c l, s.1 = Some c /\ saved_governors c = Some l /\ length l = 2.
Proof.
  intros s. assert (exists c, s.1 = Some c /\ perf_override c = true) as (c & Hc & Hp).
  { eexists. split; [vm_compute; reflexivity|reflexivity]. }
  destruct (controller_keeps_governors _ _ _ _ c Hc Hp) as (l & Hl & Hlen).
  exists c, l. split; [exact Hc|]. split; [exact Hl|].
  vm_compute in Hc. injection Hc as <-. cbn [max_cpu_number min_cpu_number] in Hlen. lia.
Defined.

(** CPUs that are not numbered from 0: the results of the commands are indexed
    by the number of the CPU, past their end; the governors stay as they are. *)
Example offset_cpus :
  let execute (cmds : list pystr) (d : pystr) :=
    if bool_decide (cmds = [cat_present]) then (mk_results [Some (bs "4-5" ++ newline)] [None] [0%Z], d)
    else if bool_decide (cmds = cat_governor <$> [4; 5]%Z) then
      (mk_results [Some (d ++ newline); Some (d ++ newline)] [None; None] [0; 0]%Z, d)
    else (mk_results [Some []; Some []] [None; None] [0; 0]%Z, bs "performance") in
  DisableCpuScaling execute (None, bs "schedutil") =
    (Exc (EOther Exception_ []), (Some (mk_cpu 4 6 ∅ false None), bs "schedutil")).
Proof. vm_compute. reflexivity. Qed.

(** A device that refuses to be set back: the controller believes that the
    scaling is on again. *)
Example Enable_fails :
  let execute (cmds : list pystr) (d : pystr) := (mk_results [None] [None] [1%Z], d) in
  let c := mk_cpu 0 1 ∅ true (Some [bs "schedutil"]) in
  EnableCpuScaling execute (Some c, bs "performance") = (Ret tt, (Some (set_override false c), bs "performance")).
Proof. vm_compute. reflexivity. Qed.

(** ** Throttling *)
Lemma digits_fold l x :
  foldl (fun acc b => acc * 10 + (byteZ b - 48))%Z x l = (x * 10 ^ Z.of_nat (length l) + digits_value l)%Z.
Proof.
  unfold digits_value. revert x. induction l as [|b l IH]; intros x; cbn [foldl length]; [lia|].
  rewrite (IH (_ + _)%Z), (IH (0 * 10 + _)%Z), Nat2Z.inj_succ, Z.pow_succ_r by lia. ring.
Qed.

Lemma digits_bounds l : forallb is_digit l = true -> (0 <= digits_value l < 10 ^ Z.of_nat (length l))%Z.
Proof.
  induction l as [|b l IH]; [done|]. cbn [forallb length]. intros [Hb Hl]%andb_true_iff.
  unfold digits_value. cbn [foldl]. rewrite digits_fold, Nat2Z.inj_succ, Z.pow_succ_r by lia.
  specialize (IH Hl). unfold is_digit in Hb. apply andb_true_iff in Hb as [H1%Z.leb_le H2%Z.leb_le]. nia.
Qed.

(** Decimals of the same length are in the order of their numbers. *)
Lemma digits_leb a b :
  forallb is_digit a = true -> forallb is_digit b = true -> length a = length b ->
  bytes_leb a b = (digits_value a <=? digits_value b)%Z.
Proof.
  revert b. induction a as [|x a IH]; intros [|y b]; try done. cbn [forallb length bytes_leb].
  intros [Hx Ha]%andb_true_iff [Hy Hb]%andb_true_iff [= Hl].
  pose proof (digits_bounds a Ha). pose proof (digits_bounds b Hb).
  unfold digits_value at 1 2. cbn [foldl]. rewrite !digits_fold, Hl in *.
  destruct (Z.eqb_spec (byteZ x) (byteZ y)) as [E|E].
  - rewrite E, IH by done. apply eq_true_iff_eq. rewrite !Z.leb_le. lia.
  - apply eq_true_iff_eq. rewrite Z.ltb_lt, Z.leb_le. nia.
Qed.

Lemma str_nat_leb a b :
  (0 <= a)%Z -> (0 <= b)%Z -> length (str_nat a) = length (str_nat b) ->
  bytes_leb (str_nat a) (str_nat b) = (a <=? b)%Z.
Proof.
  intros Ha Hb Hl. destruct (str_nat_spec a Ha) as (H1 & H2 & _). destruct (str_nat_spec b Hb) as (H3 & H4 & _).
  by rewrite digits_leb, H2, H4.
Qed.

(** The highest of a list of frequencies. *)
Definition highest (l : list Z) : Z := foldr Z.max 0%Z l.

Lemma py_max_highest l : l <> [] -> Forall (fun x => 0 <= x)%Z l -> py_max l = Ok (highest l).
Proof.
  destruct l as [|x l]; [done|]. intros _ Hl. unfold py_max. f_equal.
  cut (forall y, (0 <= y)%Z -> foldl Z.max y l = Z.max y (highest l)).
  { intros H. inversion Hl. by rewrite H. }
  inversion Hl as [|?? _ Hl']; subst. clear Hl. induction Hl' as [|z l Hz Hl IH]; intros y Hy; cbn [foldl highest foldr].
  - lia.
  - rewrite IH by lia. unfold highest. lia.
Qed.

Section throttling.
Context {D : Type} (execute : list pystr -> D -> command_results * D) (d : D).
Context (max_freq cur_freq : Z -> Z) (available : Z -> list Z).

(** The device gives its frequencies, as many digits for the current one as for
    the highest configurable one. *)
Definition readable (i : Z) : Prop :=
  (exists errs codes, execute [cat i "scaling_max_freq"; cat i "scaling_cur_freq"] d =
    (mk_results [Some (str_nat (max_freq i) ++ newline); Some (str_nat (cur_freq i) ++ newline)] errs codes, d) /\
    forallb (Z.eqb 0) codes = true) /\
  (exists errs, execute [cat i "scaling_available_frequencies"] d =
    (mk_results [Some (mjoin ((fun w => w ++ bs " ") <$> (str_nat <$> available i)) ++ newline)] errs [0%Z], d)) /\
  (0 <= max_freq i)%Z /\ (0 <= cur_freq i)%Z /\ length (str_nat (max_freq i)) = length (str_nat (cur_freq i)) /\
  available i <> [] /\ Forall (fun x => 0 <= x)%Z (available i).

(** What was read before is still true. *)
Definition cache_true (c : cpu_config) : Prop :=
  forall i f, theoretical_max_frequency c !! i = Some f -> f = highest (available i).

Lemma str_nat_words (l : list Z) :
  Forall (fun x => 0 <= x)%Z l ->
  forallb (fun w => no_space w && negb (bool_decide (w = []))) (str_nat <$> l) = true /\
  mapM_py py_int (str_nat <$> l) = Ok l.
Proof.
  induction 1 as [|x l Hx Hl [IH1 IH2]]; [done|]. rewrite fmap_cons. cbn [forallb mapM_py].
  rewrite IH1, IH2, py_int_str by done. split; [|done].
  destruct (str_nat_spec x Hx) as (Hd & _ & Hne). rewrite bool_decide_eq_false_2 by done.
  rewrite !andb_true_r. unfold no_space. rewrite forallb_forall in *. intros b Hb.
  by rewrite digit_not_space by auto.
Qed.

Lemma Theoretical_run c i :
  readable i -> cache_true c ->
  exists c', GetTheoreticalMaxFrequency execute i (Some c, d) = (Ret (Some (highest (available i))), (Some c', d)) /\
    cache_true c'.
Proof.
  intros (_ & (errs & He) & _ & _ & _ & Hne & Hav) Hc. unfold GetTheoreticalMaxFrequency.
  destruct (theoretical_max_frequency c !! i) as [f|] eqn:Ef.
  - exists c. erewrite xstM_bind_run by reflexivity. rewrite Ef. split; [|done]. by rewrite (Hc i f Ef).
  - exists (set_cache (<[i := highest (available i)]> (theoretical_max_frequency c)) c). split.
    + erewrite xstM_bind_run by reflexivity. rewrite Ef.
      erewrite xstM_bind_run by (apply (Execute_run _ _ _ _ _ _ He)).
      erewrite xstM_bind_run by apply check_refl. erewrite xstM_bind_run by reflexivity.
      rewrite Z.eqb_refl. erewrite xstM_bind_run by reflexivity.
      destruct (str_nat_words (available i) Hav) as [Hw Hm].
      erewrite xstM_bind_run by (unfold xpure, xlift; rewrite split_ws_words, Hm by done; reflexivity).
      by erewrite xstM_bind_run by (unfold xpure, xlift; rewrite py_max_highest by done; reflexivity).
    + intros j f. cbn. rewrite lookup_insert_Some. intros [[<- <-]|[_ Hj]]; [done|by apply Hc].
Qed.

Definition slow (i : Z) : bool := ((cur_freq i <? max_freq i) || (cur_freq i <? highest (available i)))%Z.

Lemma strip_line k : (0 <= k)%Z -> strip (str_nat k ++ newline) = str_nat k.
Proof.
  intros Hk. destruct (str_nat_spec k Hk) as (Hd & _ & _).
  apply (strip_spaces_around is_space (str_nat k) [] newline); [done|done|].
  rewrite forallb_forall in *. intros b Hb. by rewrite digit_not_space by auto.
Qed.

Lemma cpu_throttled_run c i :
  readable i -> cache_true c ->
  exists c', cpu_throttled execute i (Some c, d) = (Ret (if slow i then Some true else None), (Some c', d)) /\
    cache_true c'.
Proof.
  intros Hr Hc. pose proof Hr as ((errs & codes & He & Hcodes) & _ & Hmax & Hcur & Hlen & _). unfold cpu_throttled.
  erewrite xstM_bind_run by (apply (Execute_run _ _ _ _ _ _ He)). cbn [STDOUT length].
  erewrite xstM_bind_run by apply check_refl. rewrite codes_fine by done.
  erewrite xstM_bind_run by reflexivity. erewrite xstM_bind_run by reflexivity.
  rewrite !strip_line, str_nat_leb by done. unfold slow. rewrite <- Z.ltb_antisym.
  destruct (cur_freq i <? max_freq i)%Z; [by exists c|].
  destruct (Theoretical_run c i Hr Hc) as (c' & Ht & Hc'). exists c'. split; [|done].
  erewrite xstM_bind_run by exact Ht. cbn [orb].
  by erewrite xstM_bind_run by (unfold xpure, xlift; rewrite py_int_str by done; reflexivity).
Qed.

(** On a device whose frequencies have the digits of their limits, thermal
    throttling is found exactly when some CPU runs below its configurable maximum
    or below the highest frequency that it offers; what was cached stays true. *)
Theorem IsUnderThermalThrottling_spec c :
  (forall i, i ∈ range (min_cpu_number c) (max_cpu_number c) -> readable i) -> cache_true c ->
  exists c', IsUnderThermalThrottling execute (Some c, d) =
      (Ret (existsb slow (range (min_cpu_number c) (max_cpu_number c))), (Some c', d)) /\ cache_true c'.
Proof.
  unfold IsUnderThermalThrottling. intros Hr Hc.
  cut (exists c', any_throttled execute (range (min_cpu_number c) (max_cpu_number c)) (Some c, d) =
      (Ret (existsb slow (range (min_cpu_number c) (max_cpu_number c))), (Some c', d)) /\ cache_true c').
  { intros (c' & H & Hc'). exists c'. split; [|done]. erewrite xstM_bind_run by reflexivity.
    by erewrite xstM_bind_run by reflexivity. }
  revert Hr Hc. generalize (range (min_cpu_number c) (max_cpu_number c)) as l. intros l. revert c.
  induction l as [|i l IH]; intros c Hr Hc; [by exists c|]. cbn [any_throttled existsb].
  destruct (cpu_throttled_run c i (Hr i ltac:(by left)) Hc) as (c1 & H1 & Hc1).
  destruct (slow i) eqn:Es.
  - exists c1. split; [|done]. by erewrite xstM_bind_run by exact H1.
  - destruct (IH c1) as (c2 & H2 & Hc2); [by intros; apply Hr; right|done|]. exists c2. split; [|done].
    by erewrite xstM_bind_run by exact H1.
Qed.
End throttling.

(** A CPU at 1.2 GHz of 1.8. *)
Definition hot_device (freq highest : string) (cmds : list pystr) (d : unit) : command_results * unit :=
  if bool_decide (cmds = [cat 0 "scaling_available_frequencies"]) then
    (mk_results [Some (bs "1200000 " ++ bs highest ++ bs " " ++ newline)] [None] [0%Z], d)
  else (mk_results [Some (bs highest ++ newline); Some (bs freq ++ newline)] [None; None] [0; 0]%Z, d).

Example IsUnderThermalThrottling_spec_witness :
  exists c', IsUnderThermalThrottling (hot_device "1200000" "1800000") (Some (mk_cpu 0 1 ∅ false None), tt) =
    (Ret true, (Some c', tt)).
Proof.
  destruct (IsUnderThermalThrottling_spec (hot_device "1200000" "1800000") tt (fun _ => 1800000%Z) (fun _ => 1200000%Z)
    (fun _ => [1200000; 1800000]%Z) (mk_cpu 0 1 ∅ false None)) as (c' & H & _).
  - intros i Hi%elem_of_seqZ. cbn in Hi. assert (i = 0%Z) as -> by lia. unfold readable. split_and!; try lia; try done.
    + exists [None; None], [0; 0]%Z. split; reflexivity.
    + exists [None]. reflexivity.
    + repeat constructor; lia.
  - intros i f Hf. change ((∅ : gmap Z Z) !! i = Some f) in Hf. by rewrite lookup_empty in Hf.
  - exists c'. exact H.
Defined.

(** Frequencies are compared as strings: 900 MHz is not below 1 GHz, so that a
    CPU that offers no list of frequencies counts as cool; and 1 GHz is below
    900 MHz. *)
Example frequencies_as_strings :
  let no_list cmds := bool_decide (cmds = [cat 0 "scaling_available_frequencies"]) in
  let device freq highest cmds d :=
    if no_list cmds then (mk_results [None] [None] [1%Z], d) else hot_device freq highest cmds d in
  let c := Some (mk_cpu 0 1 ∅ false None) in
  (IsUnderThermalThrottling (device "900000" "1000000") (c, tt)).1 = Ret false /\
  (IsUnderThermalThrottling (device "1000000" "900000") (c, tt)).1 = Ret true.
Proof. vm_compute. done. Qed.
