(* ===== verification/HalServices.v ===== *)
(** * HAL tests for every instance of a service
    ([src/utils/python/hal/hal_service_name_utils.py],
    [src/testcases/template/hal_hidl_gtest/hal_hidl_gtest.py])

    A HAL test binary names the services it registers; the device says under which
    instance names each of them runs; the tests are repeated for the combinations
    of instances.  The shell of the device and the JSON parser are parameters, a
    set of names is the list of its elements in the order of its iteration. *)

From Stdlib Require Import Strings.Byte.
From S2P Require Import Prelude PyStr PyPath PyVal Signals Archive ListUtils BinaryTest Shell.

(** ** Instance names ([hal_service_name_utils.py]) *)
Definition VTS_TESTABILITY_CHECKER_32 : pystr := bs "/data/local/tmp/vts_testability_checker32".
Definition VTS_TESTABILITY_CHECKER_64 : pystr := bs "/data/local/tmp/vts_testability_checker64".

Definition checker_command (hal bitness : pystr) (run_as_compliance_test : bool) : pystr :=
  let binary := if bool_decide (bitness = bs "32") then VTS_TESTABILITY_CHECKER_32
                else VTS_TESTABILITY_CHECKER_64 in
  (if run_as_compliance_test then binary ++ bs " -c " else binary) ++ bs " -b " ++ bitness ++ bs " " ++ hal.

(** The two fields of the checker's answer: [str(Testable)] and the instances. *)
Record testability := mk_testability { Testable : pystr; instances : list pystr }.

Section shell.
Context (execute : pystr -> command_results) (loads : pystr -> pyres testability).

(** [GetHalServiceName]; the command that makes the checker executable has no
    answer that is used. *)
Definition GetHalServiceName (hal bitness : pystr) (run_as_compliance_test : bool) : xres (bool * list pystr) :=
  let cmd_results := execute (checker_command hal bitness run_as_compliance_test) in
  _ ← assertFalse (existsb (fun c => negb (c =? 0)%Z) (EXIT_CODE cmd_results))
        (PStr (bs "Failed to run vts_testability_checker.")) PNone;
  stdout ← of_pyres (py_get (STDOUT cmd_results) 0 ≫= from_opt TypeError);
  result ← of_pyres (loads stdout);
  Ret (if bool_decide (lower (Testable result) = bs "true") then (true, instances result) else (false, [])).
End shell.

Definition FULL_PERMUTATION : Z := 0.
Definition NAME_MATCH : Z := 1.
Definition NO_COMBINATION : Z := 2.

Abbreviation instance_map := (gmap pystr (list pystr)).

(** [service_instances[service]], nothing when there is no such key. *)
Definition names_of (service_instances : instance_map) (service : pystr) : list pystr :=
  default [] (service_instances !! service).
Definition instance_of (service name : pystr) : pystr := service ++ sep ++ name.

(** [GetServiceInstancesFullCombinations] takes the services from the end of its
    list, which it empties; here they come last first. *)
Fixpoint full_combinations (service_instances : instance_map) (services : list pystr) : list (list pystr) :=
  match services with
  | [] => []
  | service :: services =>
      let pre_instance_combs := full_combinations service_instances services in
      match names_of service_instances service with
      | [] => pre_instance_combs
      | names =>
          mjoin ((fun name =>
            match pre_instance_combs with
            | [] => [[instance_of service name]]
            | _ => (fun instance_comb => instance_of service name :: instance_comb) <$> pre_instance_combs
            end) <$> names)
      end
  end.
Definition GetServiceInstancesFullCombinations (services : list pystr) (service_instances : instance_map)
    : list (list pystr) := full_combinations service_instances (reverse services).

(** The names that [GetServiceInstancesNameMatchCombinations] finds: an empty set
    is taken for the start of the loop. *)
Fixpoint matching_names (service_instances : instance_map) (instance_names : list pystr)
    (services : list pystr) : option (list pystr) :=
  match services with
  | [] => Some instance_names
  | service :: services =>
      match names_of service_instances service with
      | [] => None
      | names =>
          matching_names service_instances
            (match instance_names with [] => names | _ => filter (fun n => n ∈ names) instance_names end)
            services
      end
  end.
Definition GetServiceInstancesNameMatchCombinations (services : list pystr) (service_instances : instance_map)
    : list (list pystr) :=
  match matching_names service_instances [] services with
  | None => []
  | Some instance_names =>
      (fun name => (fun service => instance_of service name) <$> services) <$> instance_names
  end.

Definition GetServiceInstancesCombinations (services : list pystr) (service_instances : instance_map) (mode : Z)
    : list (list pystr) :=
  if (mode =? FULL_PERMUTATION)%Z then GetServiceInstancesFullCombinations services service_instances
  else if (mode =? NAME_MATCH)%Z then GetServiceInstancesNameMatchCombinations services service_instances
  else GetServiceInstancesFullCombinations services service_instances.

(** ** The test cases ([hal_hidl_gtest.py]) *)
Definition set_args (args : pystr) (c : BinaryTestCase) : BinaryTestCase :=
  mk_case (test_suite c) (test_name c) (case_path c) (tag c) (case_working_directory c) (case_ld_library_path c)
    (case_profiling_library_path c) (case_cmd c) (case_envp c) (strip args) (name_appendix c).
Definition set_envp_of (envp : pystr) (c : BinaryTestCase) : BinaryTestCase :=
  mk_case (test_suite c) (test_name c) (case_path c) (tag c) (case_working_directory c) (case_ld_library_path c)
    (case_profiling_library_path c) (case_cmd c) (strip envp) (case_args c) (name_appendix c).
Definition set_name_appendix (appendix : pystr) (c : BinaryTestCase) : BinaryTestCase :=
  mk_case (test_suite c) (test_name c) (case_path c) (tag c) (case_working_directory c) (case_ld_library_path c)
    (case_profiling_library_path c) (case_cmd c) (case_envp c) (case_args c) appendix.

(** The command that makes a binary print its services. *)
Definition list_services_command (c : BinaryTestCase) : pystr :=
  GetRunCommand (set_args (bs " --list_registered_services") c).

Definition HAL_SERVICE : pystr := bs "hal_service: ".
Definition SERVICE_COMB_MODE : pystr := bs "service_comb_mode: ".
Definition service_line (acc : list pystr * Z) (line : pystr) : pyres (list pystr * Z) :=
  let '(registered_services, comb_mode) := acc in
  let registered_services :=
    if startswith HAL_SERVICE line then registered_services ++ [drop (length HAL_SERVICE) line]
    else registered_services in
  if startswith SERVICE_COMB_MODE line then
    comb_mode ← py_int (drop (length SERVICE_COMB_MODE) line); Ok (registered_services, comb_mode)
  else Ok (registered_services, comb_mode).
Definition registered_services (stdout : pystr) : pyres (list pystr * Z) :=
  foldlM_py service_line ([], FULL_PERMUTATION) (split newline stdout).

(** What follows the first slash; all of it when there is none. *)
Fixpoint instance_name (instance : pystr) : option pystr :=
  match instance with
  | [] => None
  | b :: instance => if decide (b = slash) then Some instance else instance_name instance
  end.

Definition appendix_of (instance_combination : list pystr) : pystr :=
  bs "(" ++ join_with (bs ",") ((fun i => default i (instance_name i)) <$> instance_combination) ++ bs ")".
Definition add_instance (c : BinaryTestCase) (instance : pystr) : BinaryTestCase :=
  set_args (case_args c ++ bs " --hal_service_instance=" ++ instance) c.
Definition with_instances (instance_combination : list pystr) (c : BinaryTestCase) : BinaryTestCase :=
  set_name_appendix (appendix_of instance_combination) (foldl add_instance c instance_combination).

(** What [CreateTestCase] gives and does: the cases, the appendices by which it
    expands the test filter, the HALs it notes, and the reason to skip all tests. *)
Record created := mk_created {
  cases : list BinaryTestCase;
  appendix_list : option (list pystr);
  target_hals : option (list pystr);
  skip_reason : option pystr;
}.

Section hal_gtest.
Context (execute : pystr -> command_results) (loads : pystr -> pyres testability).
Context (abi_bitness : pystr) (run_as_compliance_test : bool).

(** The instances of all services, or the reason to skip the tests. *)
Fixpoint find_instances (services : list pystr) (service_instances : instance_map)
    : xres (instance_map + pystr) :=
  match services with
  | [] => Ret (inl service_instances)
  | service :: services =>
      r ← GetHalServiceName execute loads service abi_bitness run_as_compliance_test;
      let '(testable, service_names) := r in
      if negb testable then Ret (inr (bs "Hal: " ++ service ++ bs " is not testable, skip all tests."))
      else
        match service_names with
        | [] => Ret (inr (bs "No service name found for: " ++ service ++ bs ", skip all tests."))
        | _ => find_instances services (<[service := service_names]> service_instances)
        end
  end.

(** [HidlHalGTest.CreateTestCase], after the gtest cases are listed. *)
Definition HidlCreateTestCase (initial_test_cases : list BinaryTestCase) : xres created :=
  match initial_test_cases with
  | [] => Ret (mk_created [] None None None)
  | first :: _ =>
      let results := execute (list_services_command first) in
      _ ← of_pyres (py_get (EXIT_CODE results) 0);
      stdout ← of_pyres (py_get (STDOUT results) 0 ≫= from_opt AttributeError);
      '(services, comb_mode) ← of_pyres (registered_services stdout);
      match services with
      | [] => Ret (mk_created initial_test_cases None None None)
      | _ =>
          found ← find_instances services ∅;
          match found with
          | inr reason => Ret (mk_created initial_test_cases None (Some services) (Some reason))
          | inl service_instances =>
              if (comb_mode =? NO_COMBINATION)%Z then Ret (mk_created initial_test_cases None (Some services) None)
              else
                let combinations := GetServiceInstancesCombinations services service_instances comb_mode in
                Ret (mk_created (mjoin ((fun comb => with_instances comb <$> initial_test_cases) <$> combinations))
                       (Some (appendix_of <$> combinations)) (Some services) None)
          end
      end
  end.
End hal_gtest.

(** [_EnablePassthroughMode]: the cases with the stub, and whether the option is
    set for a later call. *)
Definition VTS_HAL_HIDL_GET_STUB : pystr := bs "VTS_HAL_HIDL_GET_STUB".
Definition EnablePassthroughMode (testcases : list BinaryTestCase) : list BinaryTestCase * bool :=
  match testcases with
  | [] => ([], true)
  | _ => ((fun c => set_envp_of (case_envp c ++ bs " " ++ VTS_HAL_HIDL_GET_STUB ++ bs "=true") c) <$> testcases,
          false)
  end.

(** The combinations of the unit test. *)
Example combinations :
  let s1 := bs "s1" in let s2 := bs "s2" in
  let n12 := [bs "n1"; bs "n2"] in
  let m l1 l2 : instance_map := <[s1 := l1]> (<[s2 := l2]> ∅) in
  GetServiceInstancesCombinations [s1] ∅ 0 = [] /\
  GetServiceInstancesCombinations [s1; s2] {[s1 := n12]} 0 = [[bs "s1/n1"]; [bs "s1/n2"]] /\
  GetServiceInstancesCombinations [s1; s2] (m n12 [bs "n3"; bs "n4"]) 0
    = [[bs "s2/n3"; bs "s1/n1"]; [bs "s2/n3"; bs "s1/n2"]; [bs "s2/n4"; bs "s1/n1"]; [bs "s2/n4"; bs "s1/n2"]] /\
  GetServiceInstancesCombinations [s1; s2] (m [] n12) 0 = [[bs "s2/n1"]; [bs "s2/n2"]] /\
  GetServiceInstancesCombinations [s1; s2] (m n12 [bs "n3"]) 1 = [] /\
  GetServiceInstancesCombinations [s1; s2] (m n12 n12) 1 = [[bs "s1/n1"; bs "s2/n1"]; [bs "s1/n2"; bs "s2/n2"]].
Proof. vm_compute. repeat split. Qed.

(** ** Full combinations *)
Section full.
Context (m : instance_map).

(** One instance of the service. *)
Definition chosen (instance service : pystr) : Prop :=
  exists name, name ∈ names_of m service /\ instance = instance_of service name.
Definition available (service : pystr) : Prop := names_of m service <> [].
#[export] Instance available_dec service : Decision (available service).
Proof. unfold available. apply _. Defined.

Lemma full_nil l : full_combinations m l = [] <-> filter available l = [].
Proof.
  induction l as [|s l IH]; [done|]. cbn [full_combinations]. rewrite filter_cons.
  destruct (names_of m s) as [|n names] eqn:E.
  - by rewrite decide_False by (unfold available; rewrite E; auto).
  - rewrite decide_True by (unfold available; by rewrite E). split; [|done].
    destruct (full_combinations m l); by csimpl.
Qed.

Lemma full_step s l n names :
  names_of m s = n :: names ->
  full_combinations m (s :: l) =
    mjoin ((fun name => (fun c => instance_of s name :: c) <$>
      (match full_combinations m l with [] => [[]] | combs => combs end)) <$> names_of m s).
Proof.
  intros E. cbn [full_combinations]. rewrite E.
  f_equal. apply list_fmap_ext. intros _ name _. by destruct (full_combinations m l).
Qed.

Lemma full_elem l c :
  c ∈ full_combinations m l <-> c <> [] /\ Forall2 chosen c (filter available l).
Proof.
  revert c. induction l as [|s l IH]; intros c.
  - split; [by intros ?%elem_of_nil|]. intros [Hne H%Forall2_nil_inv_r]. by rewrite H in Hne.
  - destruct (names_of m s) as [|n names] eqn:E.
    + cbn [full_combinations]. rewrite E, filter_cons, decide_False by (unfold available; rewrite E; auto).
      apply IH.
    + rewrite (full_step s l n names E), filter_cons, decide_True by (unfold available; by rewrite E).
      rewrite list_elem_of_join. setoid_rewrite list_elem_of_fmap.
      assert (forall t, t ∈ match full_combinations m l with [] => [[]] | combs => combs end <->
                Forall2 chosen t (filter available l)) as IH'.
      { intros t. destruct (full_combinations m l) as [|c1 cs] eqn:Ef.
        - rewrite (proj1 (full_nil l) Ef), list_elem_of_singleton. split; [by intros ->|].
          by intros ?%Forall2_nil_inv_r.
        - rewrite IH. split; [tauto|]. intros H. split; [|done]. intros ->.
          apply Forall2_nil_inv_l in H. apply full_nil in H. by rewrite Ef in H. }
      split.
      * intros (cs & Hc & name & -> & Hn). apply list_elem_of_fmap in Hc as (t & -> & Ht%IH').
        split; [done|]. constructor; [by exists name|done].
      * intros [_ H]. apply Forall2_cons_inv_r in H as (i & t & (name & Hn & ->) & Ht & ->).
        eexists. split; [|by exists name]. apply list_elem_of_fmap. exists t. by rewrite IH'.
Qed.

Lemma full_length l :
  full_combinations m l <> [] ->
  length (full_combinations m l) = foldr Nat.mul 1 ((fun s => length (names_of m s)) <$> filter available l).
Proof.
  induction l as [|s l IH]; [done|]. intros Hne. destruct (names_of m s) as [|n names] eqn:E.
  - cbn [full_combinations] in *. rewrite E in *. rewrite filter_cons, decide_False; [by apply IH|].
    unfold available. rewrite E. auto.
  - rewrite (full_step s l n names E), filter_cons, decide_True by (unfold available; by rewrite E).
    rewrite fmap_cons. cbn [foldr].
    assert (length (match full_combinations m l with [] => [[]] | combs => combs end) =
              foldr Nat.mul 1 ((fun s => length (names_of m s)) <$> filter available l)) as <-.
    { destruct (full_combinations m l) eqn:Ef; [by rewrite (proj1 (full_nil l) Ef)|by apply IH]. }
    generalize (match full_combinations m l with [] => [[]] | combs => combs end). intros t.
    clear. induction (names_of m s) as [|x names IH]; [done|]. csimpl.
    by rewrite length_app, length_fmap, IH.
Qed.

Lemma instance_of_inj s n1 n2 : instance_of s n1 = instance_of s n2 -> n1 = n2.
Proof. intros H%app_inv_head. by injection H. Qed.

Lemma full_NoDup l : (forall s, NoDup (names_of m s)) -> NoDup (full_combinations m l).
Proof.
  intros Hnd. induction l as [|s l IH]; [constructor|]. destruct (names_of m s) as [|n names] eqn:E.
  - cbn [full_combinations]. by rewrite E.
  - rewrite (full_step s l n names E).
    assert (NoDup (match full_combinations m l with [] => [[]] | combs => combs end)) as Hp
      by (destruct (full_combinations m l); [apply NoDup_singleton|done]).
    revert Hp. generalize (match full_combinations m l with [] => [[]] | combs => combs end). intros t Hp.
    specialize (Hnd s). clear E IH. induction Hnd as [|x names' Hx Hnd IH]; [constructor|]. csimpl.
    apply NoDup_app. split_and!; [by apply NoDup_fmap_2; [intros ?? [=]|]| |done].
    intros c (c1 & -> & _)%list_elem_of_fmap (cs & Hc & Hcs)%list_elem_of_join.
    apply list_elem_of_fmap in Hcs as (name & -> & Hn). apply list_elem_of_fmap in Hc as (c2 & [= Hi _] & _).
    by apply app_inv_head in Hi as [= ->].
Qed.
End full.

(** ** Combinations of the same name *)
Lemma matching_common m n l acc :
  (forall s, s ∈ l -> n ∈ names_of m s) -> n ∈ acc ->
  exists k, matching_names m acc l = Some k /\
    forall x, x ∈ k <-> x ∈ acc /\ forall s, s ∈ l -> x ∈ names_of m s.
Proof.
  revert acc. induction l as [|s l IH]; intros acc Hl Hn.
  - exists acc. split; [done|]. intros x. split; [|tauto]. split; [done|]. by intros s ?%elem_of_nil.
  - cbn [matching_names]. assert (n ∈ names_of m s) as Hs by (apply Hl; by left).
    destruct (names_of m s) as [|y names] eqn:E; [by apply elem_of_nil in Hs|]. rewrite <- E in *.
    destruct acc as [|z acc]; [by apply elem_of_nil in Hn|].
    destruct (IH (filter (fun x => x ∈ names_of m s) (z :: acc))) as (k & -> & Hk).
    + intros s' Hs'. apply Hl. by right.
    + apply list_elem_of_filter. split; [apply Hl; by left|done].
    + exists k. split; [done|]. intros x. rewrite Hk, list_elem_of_filter.
      split.
      * intros [[H1 H2] H3]. split; [done|]. intros s' [->|Hs']%elem_of_cons; auto.
      * intros [H1 H2]. split; [split; [apply H2; by left|done]|]. intros s' Hs'. apply H2. by right.
Qed.

Lemma name_match_elem m n services c :
  services <> [] -> (forall s, s ∈ services -> n ∈ names_of m s) ->
  c ∈ GetServiceInstancesNameMatchCombinations services m <->
  exists x, (forall s, s ∈ services -> x ∈ names_of m s) /\ c = (fun s => instance_of s x) <$> services.
Proof.
  intros Hne Hn. destruct services as [|s l]; [done|].
  unfold GetServiceInstancesNameMatchCombinations. cbn [matching_names].
  assert (n ∈ names_of m s) as Hs by (apply Hn; by left).
  destruct (names_of m s) as [|y names] eqn:E; [by apply elem_of_nil in Hs|]. rewrite <- E in *.
  destruct (matching_common m n l (names_of m s)) as (k & -> & Hk); [by intros; apply Hn; right|done|].
  rewrite list_elem_of_fmap. split.
  - intros (x & -> & [H1 H2]%Hk). exists x. split; [|done]. intros s' [->|]%elem_of_cons; auto.
  - intros (x & Hx & ->). exists x. split; [done|]. apply Hk. split; [apply Hx; by left|].
    intros s' Hs'. apply Hx. by right.
Qed.

(** ** The services that a binary prints *)
Definition render_services (services : list pystr) (mode : Z) : pystr :=
  mjoin ((fun l => l ++ newline) <$>
    (((fun s => HAL_SERVICE ++ s) <$> services) ++ [SERVICE_COMB_MODE ++ str_nat mode])).

Lemma service_line_hal a m s : service_line (a, m) (HAL_SERVICE ++ s) = Ok (a ++ [s], m).
Proof.
  unfold service_line. rewrite startswith_app, drop_app_length.
  by assert (startswith SERVICE_COMB_MODE (HAL_SERVICE ++ s) = false) as -> by reflexivity.
Qed.

Lemma service_line_mode a m n :
  (0 <= n)%Z -> service_line (a, m) (SERVICE_COMB_MODE ++ str_nat n) = Ok (a, n).
Proof.
  intros Hn. unfold service_line. rewrite startswith_app, drop_app_length.
  assert (startswith HAL_SERVICE (SERVICE_COMB_MODE ++ str_nat n) = false) as -> by reflexivity.
  by rewrite py_int_str.
Qed.

Lemma service_lines services acc :
  foldlM_py service_line acc ((fun s => HAL_SERVICE ++ s) <$> services) = Ok (acc.1 ++ services, acc.2).
Proof.
  revert acc. induction services as [|s l IH]; intros [a m]; [by rewrite app_nil_r|].
  rewrite fmap_cons. cbn [foldlM_py]. rewrite service_line_hal.
  cbn [mbind pyres_bind]. rewrite IH. cbn [fst snd]. by rewrite <- app_assoc.
Qed.

Lemma registered_render services mode :
  forallb (no_byte Byte.x0a) services = true -> (0 <= mode)%Z ->
  registered_services (render_services services mode) = Ok (services, mode).
Proof.
  intros Hs Hm. unfold registered_services, render_services. rewrite split_lines.
  - rewrite <- app_assoc, foldlM_py_app, service_lines. cbn [mbind pyres_bind app fst snd foldlM_py].
    change (services ++ [] ++ []) with (services ++ []).
    rewrite service_line_mode by done.
    done.
  - rewrite forallb_app. apply andb_true_iff. split.
    + rewrite forallb_forall in *. intros l (s & -> & Hin)%list_elem_of_In%list_elem_of_fmap.
      rewrite no_byte_app. apply andb_true_iff. split; [reflexivity|]. by apply Hs, list_elem_of_In.
    + cbn [forallb]. rewrite andb_true_r, no_byte_app, digits_no_byte by done. reflexivity.
Qed.

(** ** Arguments *)
Definition tidy (args : pystr) : Prop := strip args = args.

Definition option_text (instance : pystr) : pystr := bs " --hal_service_instance=" ++ instance.

Lemma tidy_head b args : tidy (b :: args) -> is_space b = false.
Proof.
  intros Ht. destruct (is_space b) eqn:E; [|done]. exfalso.
  assert (sublist (strip (b :: args)) args) as Hs.
  { unfold strip, strip_by. cbn [lstrip_by]. rewrite E. apply (strip_by_sublist is_space args). }
  rewrite Ht in Hs. apply sublist_length in Hs. cbn in Hs. lia.
Qed.

Lemma strip_option a i :
  tidy a -> no_space i = true -> i <> [] ->
  strip (a ++ option_text i) = match a with [] => drop 1 (option_text i) | _ => a ++ option_text i end /\
  tidy (strip (a ++ option_text i)).
Proof.
  intros Ha Hi Hne.
  assert (exists i' z, i = i' ++ [z] /\ is_space z = false) as (i' & z & -> & Hz).
  { destruct i as [|z i' _] using rev_ind; [done|]. exists i', z. split; [done|].
    unfold no_space in Hi. rewrite forallb_app in Hi. apply andb_true_iff in Hi as [_ Hi].
    cbn in Hi. rewrite andb_true_r in Hi. by apply negb_true_iff in Hi. }
  assert (forall l, strip_by is_space (l ++ [z]) = lstrip_by is_space (l ++ [z])) as Hr.
  { intros l. unfold strip_by. rewrite lstrip_by_app. cbn [lstrip_by]. rewrite Hz.
    destruct (forallb is_space l); [by apply (rstrip_by_snoc is_space z [])|by apply rstrip_by_snoc]. }
  assert (strip (a ++ option_text (i' ++ [z])) =
            match a with [] => drop 1 (option_text (i' ++ [z])) | _ => a ++ option_text (i' ++ [z]) end) as E.
  { unfold strip, option_text. rewrite !(app_assoc _ i' [z]), (app_assoc a), Hr, <- (app_assoc a).
    destruct a as [|b a]; [done|]. apply tidy_head in Ha. cbn [app]. by apply lstrip_by_id. }
  split; [exact E|]. rewrite E. destruct a as [|b a].
  - change (drop 1 (option_text (i' ++ [z]))) with (bs "--hal_service_instance=" ++ i' ++ [z]).
    unfold tidy, strip. rewrite (app_assoc _ i' [z]). by rewrite Hr.
  - unfold tidy, strip, option_text. rewrite (app_assoc _ i' [z]), (app_assoc (b :: a)), Hr.
    apply tidy_head in Ha. by apply lstrip_by_id.
Qed.

Lemma with_instances_args comb c :
  tidy (case_args c) -> case_args c <> [] -> forallb (fun i => no_space i && negb (bool_decide (i = []))) comb = true ->
  case_args (with_instances comb c) = case_args c ++ mjoin (option_text <$> comb).
Proof.
  intros Ht Hne Hc. change (case_args (with_instances comb c)) with (case_args (foldl add_instance c comb)).
  revert c Ht Hne. induction comb as [|i comb IH]; intros c Ht Hne; [by rewrite app_nil_r|].
  cbn [forallb] in Hc. apply andb_true_iff in Hc as [[Hi Hi0%negb_true_iff%bool_decide_eq_false]%andb_true_iff Hc].
  cbn [foldl]. destruct (strip_option (case_args c) i Ht Hi Hi0) as [E Ht'].
  assert (case_args (add_instance c i) = case_args c ++ option_text i) as Ea.
  { change (case_args (add_instance c i)) with (strip (case_args c ++ option_text i)). rewrite E.
    by destruct (case_args c). }
  rewrite IH; [by rewrite Ea, <- app_assoc|done| |].
  - change (case_args (add_instance c i)) with (strip (case_args c ++ option_text i)). exact Ht'.
  - rewrite Ea. by destruct (case_args c).
Qed.

(** ** Theorems *)
Lemma Forall2_iff_elem {A B} (P Q : A -> B -> Prop) l k :
  (forall x y, y ∈ k -> P x y <-> Q x y) -> Forall2 P l k <-> Forall2 Q l k.
Proof.
  intros H. split; intros HF; induction HF as [|x y l k Hxy _ IH]; constructor;
    try (apply H; [by left|done]); apply IH; intros a b Hb; apply H; by right.
Qed.

Section find.
Context (execute : pystr -> command_results) (loads : pystr -> pyres testability).
Context (abi_bitness : pystr) (compliance : bool).

(** The device knows instances of every service. *)
Definition registered (services : list pystr) (names : pystr -> list pystr) : Prop :=
  forall s, s ∈ services ->
    GetHalServiceName execute loads s abi_bitness compliance = Ret (true, names s) /\ names s <> [].

Lemma find_instances_registered services names acc :
  registered services names ->
  exists m, find_instances execute loads abi_bitness compliance services acc = Ret (inl m) /\
    (forall s, s ∈ services -> m !! s = Some (names s)) /\ (forall s, s ∉ services -> m !! s = acc !! s).
Proof.
  revert acc. induction services as [|s l IH]; intros acc Hr.
  { exists acc. split; [done|]. split; [by intros s ?%elem_of_nil|done]. }
  destruct (Hr s) as [Hs Hne]; [by left|]. cbn [find_instances]. rewrite Hs. cbn [mbind xres_bind negb].
  destruct (names s) as [|n ns] eqn:E; [done|]. rewrite <- E in *.
  destruct (IH (<[s := names s]> acc)) as (m & -> & Hm & Hm'); [by intros s' ?; apply Hr; right|].
  exists m. split; [done|]. split.
  - intros s' [->|Hs']%elem_of_cons; [|by apply Hm].
    destruct (decide (s ∈ l)) as [Hin|Hin]; [by apply Hm|]. by rewrite Hm', lookup_insert_eq by done.
  - intros s' [Hne' Hni]%not_elem_of_cons. by rewrite Hm', lookup_insert_ne by done.
Qed.
End find.

(** The full combinations are the choices of one instance for every service
    that has some, written last service first; when the names of each service
    differ, no combination occurs twice, and there are as many as the product of
    the numbers of names. *)
Theorem GetServiceInstancesFullCombinations_spec services m :
  (forall c, c ∈ GetServiceInstancesFullCombinations services m <->
     c <> [] /\ Forall2 (chosen m) c (reverse (filter (available m) services))) /\
  ((forall s, NoDup (names_of m s)) -> NoDup (GetServiceInstancesFullCombinations services m)) /\
  (filter (available m) services <> [] ->
     length (GetServiceInstancesFullCombinations services m) =
       foldr Nat.mul 1 ((fun s => length (names_of m s)) <$> reverse (filter (available m) services))).
Proof.
  unfold GetServiceInstancesFullCombinations. rewrite <- filter_reverse. split_and!.
  - intros c. apply full_elem.
  - apply full_NoDup.
  - intros Hne. apply full_length. rewrite full_nil, filter_reverse. intros H.
    by apply (f_equal reverse) in H; rewrite reverse_involutive in H.
Qed.

(** A HAL binary whose services all have instances is tested with every
    combination of them: the cases are the listed cases, each with one
    [--hal_service_instance] argument for every service, and nothing else; the
    tests are not skipped, and the filter gets one appendix for each combination. *)
Theorem HidlCreateTestCase_spec execute loads abi_bitness compliance initial services names mode stderr codes :
  initial <> [] -> services <> [] -> forallb (no_byte Byte.x0a) services = true -> (0 <= mode)%Z ->
  mode <> NAME_MATCH -> mode <> NO_COMBINATION ->
  (forall first rest, initial = first :: rest ->
     execute (list_services_command first) =
       mk_results [Some (render_services services mode)] stderr (0%Z :: codes)) ->
  registered execute loads abi_bitness compliance services names ->
  exists r, HidlCreateTestCase execute loads abi_bitness compliance initial = Ret r /\
    skip_reason r = None /\ target_hals r = Some services /\
    (forall c, c ∈ cases r <-> exists t comb, t ∈ initial /\ c = with_instances comb t /\
       Forall2 (fun i s => exists n, n ∈ names s /\ i = instance_of s n) comb (reverse services)) /\
    length (cases r) = foldr Nat.mul 1 ((fun s => length (names s)) <$> reverse services) * length initial /\
    (length <$> appendix_list r) = Some (foldr Nat.mul 1 ((fun s => length (names s)) <$> reverse services)).
Proof.
  intros Hi Hs Hnl Hmode Hm1 Hm2 Hex Hreg. destruct initial as [|first rest] eqn:Ei; [done|].
  unfold HidlCreateTestCase. rewrite (Hex first rest) by done. cbn [STDOUT EXIT_CODE].
  change (py_get (0%Z :: codes) 0) with (Ok 0%Z).
  change (py_get [Some (render_services services mode)] 0) with (Ok (Some (render_services services mode))).
  unfold mbind, xres_bind, pyres_bind. cbn [of_pyres from_opt].
  rewrite registered_render by done. cbn [of_pyres]. destruct services as [|s0 l] eqn:Es; [done|]. rewrite <- Es in *.
  destruct (find_instances_registered execute loads abi_bitness compliance services names ∅ Hreg)
    as (m & -> & Hm & _).
  rewrite (proj2 (Z.eqb_neq mode NO_COMBINATION)) by done.
  assert (GetServiceInstancesCombinations services m mode = GetServiceInstancesFullCombinations services m) as ->.
  { unfold GetServiceInstancesCombinations. rewrite (proj2 (Z.eqb_neq mode NAME_MATCH)) by done.
    by destruct (mode =? FULL_PERMUTATION)%Z. }
  assert (forall s, s ∈ services -> names_of m s = names s) as Hnm by (intros s Hin; unfold names_of; by rewrite Hm).
  assert (filter (available m) services = services) as Hav.
  { apply filter_all_id, Forall_forall. intros s Hin. unfold available. rewrite Hnm by done. by apply Hreg. }
  eexists. split; [reflexivity|]. split; [done|]. split; [done|].
  assert (forall comb, comb ∈ GetServiceInstancesFullCombinations services m <->
            Forall2 (fun i s => exists n, n ∈ names s /\ i = instance_of s n) comb (reverse services)) as Hc.
  { intros comb. unfold GetServiceInstancesFullCombinations. rewrite full_elem, filter_reverse, Hav.
    assert (Forall2 (chosen m) comb (reverse services) <->
              Forall2 (fun i s => exists n, n ∈ names s /\ i = instance_of s n) comb (reverse services)) as <-.
    { apply Forall2_iff_elem. intros i s Hin. rewrite elem_of_reverse in Hin. unfold chosen. rewrite (Hnm s Hin). done. }
    split; [tauto|]. intros H. split; [|done]. intros ->. apply Forall2_nil_inv_l in H.
    apply (f_equal reverse) in H. rewrite reverse_involutive, reverse_nil in H. exact (Hs H). }
  assert (length (GetServiceInstancesFullCombinations services m) =
            foldr Nat.mul 1 ((fun s => length (names s)) <$> reverse services)) as Hlen.
  { unfold GetServiceInstancesFullCombinations. rewrite full_length, filter_reverse, Hav.
    - f_equal. apply list_fmap_ext. intros k s Hk. f_equal. apply Hnm.
      apply list_elem_of_lookup_2 in Hk. by rewrite elem_of_reverse in Hk.
    - rewrite full_nil, filter_reverse, Hav. intros H.
      apply (f_equal reverse) in H. rewrite reverse_involutive, reverse_nil in H. exact (Hs H). }
  cbn [cases appendix_list]. split_and!.
  - intros c. rewrite list_elem_of_join. setoid_rewrite list_elem_of_fmap. split.
    + intros (cs & Hin & comb & -> & Hcomb). apply list_elem_of_fmap in Hin as (t & -> & Ht).
      exists t, comb. by rewrite <- Hc.
    + intros (t & comb & Ht & -> & Hcomb%Hc). exists (with_instances comb <$> first :: rest).
      split; [apply list_elem_of_fmap; eauto|eauto].
  - rewrite <- Hlen. generalize (GetServiceInstancesFullCombinations services m). intros k.
    clear. generalize (first :: rest). intros initial.
    induction k as [|comb k IH]; [done|].
    change (length ((with_instances comb <$> initial) ++ mjoin ((fun comb => with_instances comb <$> initial) <$> k))
            = S (length k) * length initial).
    rewrite length_app, length_fmap, IH. done.
  - cbn [fmap option_fmap option_map]. by rewrite length_fmap, Hlen.
Qed.

(** The combinations of the same name, when some name is common to all
    services: one for each common name, which every service has. *)
Theorem GetServiceInstancesNameMatchCombinations_spec services m n :
  services <> [] -> (forall s, s ∈ services -> n ∈ names_of m s) ->
  forall c, c ∈ GetServiceInstancesNameMatchCombinations services m <->
  exists x, (forall s, s ∈ services -> x ∈ names_of m s) /\ c = (fun s => instance_of s x) <$> services.
Proof. intros Hne Hn c. by eapply name_match_elem. Qed.

(** Without a common name the search starts again: an instance that the first two
    services do not have. *)
Example name_match_starts_again :
  GetServiceInstancesNameMatchCombinations [bs "a"; bs "b"; bs "c"]
    (<[bs "a" := [bs "x"]]> (<[bs "b" := [bs "y"]]> (<[bs "c" := [bs "z"]]> ∅)))
  = [[bs "a/z"; bs "b/z"; bs "c/z"]].
Proof. vm_compute. reflexivity. Qed.

(** ** Witnesses *)
Definition sample_case : BinaryTestCase :=
  new_BinaryTestCase (bs "LightTest") (bs "On") (bs "/data/lt") (bs "_64bit") None None None [] [] (bs "-v") [].
Definition light : pystr := bs "android.hardware.light@2.0::ILight".
Definition sample_execute (command : pystr) : command_results :=
  if bool_decide (command = list_services_command sample_case) then mk_results [Some (render_services [light] 0)] [None] [0%Z]
  else mk_results [Some []] [None] [0%Z].
Definition sample_loads (text : pystr) : pyres testability :=
  Ok (mk_testability (bs "True") [bs "default"; bs "slot2"]).

Lemma HidlCreateTestCase_spec_witness :
  exists r, HidlCreateTestCase sample_execute sample_loads (bs "64") false [sample_case] = Ret r /\
    length (cases r) = 2.
Proof.
  destruct (HidlCreateTestCase_spec sample_execute sample_loads (bs "64") false [sample_case] [light]
    (fun _ => [bs "default"; bs "slot2"]) 0 [None] []) as (r & Hr & _ & _ & _ & Hl & _).
  - discriminate.
  - discriminate.
  - reflexivity.
  - reflexivity.
  - discriminate.
  - discriminate.
  - intros first rest [= <- _]. vm_compute. reflexivity.
  - intros s _. split; [reflexivity|discriminate].
  - exists r. split; [exact Hr|exact Hl].
Defined.

Lemma GetServiceInstancesFullCombinations_spec_witness :
  length (GetServiceInstancesFullCombinations [bs "a"; bs "b"]
    (<[bs "a" := [bs "x"; bs "y"]]> (<[bs "b" := [bs "z"]]> ∅))) = 2.
Proof.
  destruct (GetServiceInstancesFullCombinations_spec [bs "a"; bs "b"]
    (<[bs "a" := [bs "x"; bs "y"]]> (<[bs "b" := [bs "z"]]> ∅))) as (_ & _ & H).
  apply H. vm_compute. discriminate.
Defined.

Lemma GetServiceInstancesNameMatchCombinations_spec_witness :
  [bs "a/x"; bs "b/x"] ∈ GetServiceInstancesNameMatchCombinations [bs "a"; bs "b"]
    (<[bs "a" := [bs "x"; bs "y"]]> (<[bs "b" := [bs "x"]]> ∅)).
Proof.
  apply (GetServiceInstancesNameMatchCombinations_spec _ _ (bs "x")).
  - discriminate.
  - apply Forall_forall. repeat constructor; apply (bool_decide_unpack _); vm_compute; exact I.
  - exists (bs "x"). split; [|reflexivity].
    apply Forall_forall. repeat constructor; apply (bool_decide_unpack _); vm_compute; exact I.
Defined.

(** The command of a case: the instance is one more argument. *)
Example instance_command :
  let c := with_instances [instance_of light (bs "slot2")] sample_case in
  GetRunCommand c = bs "/data/lt -v --hal_service_instance=android.hardware.light@2.0::ILight/slot2" /\
  display_name c = bs "LightTest.On(slot2)_64bit".
Proof. vm_compute. by split. Qed.
