(* ===== verification/DeviceChecks.v ===== *)
(** * What a test asks of the device before it runs
    ([src/utils/python/file/target_file_utils.py],
    [src/utils/python/precondition/precondition_utils.py])

    Files and their permission bits, and the preconditions of a test: services,
    files, features, API levels and system properties.  The questions do not
    change the device: its shell is a function from commands to results. *)

From Stdlib Require Import Strings.Byte.
From S2P Require Import Prelude PyStr ListUtils PyVal Signals BinaryTest Shell HalServices.

(** ** Results with the text of the exception, which ends up in a report *)
Inductive fres (A : Type) := FOk (a : A) | FErr (e : pyexc) (text : pystr).
Arguments FOk {_} _.
Arguments FErr {_} _ _.
#[export] Instance fres_ret : MRet fres := fun A a => FOk a.
#[export] Instance fres_bind : MBind fres := fun A B f m =>
  match m with FOk a => f a | FErr e t => FErr e t end.

(** [results[key][0]]; what a result of fewer commands raises has no text here. *)
Definition first_of {A} (l : list A) : fres A := match l with a :: _ => FOk a | [] => FErr IndexError [] end.

(** ** Files ([target_file_utils.py]) *)
Definition PERMISSION_GROUPS : Z := 3.
Definition READ_PERMISSION : Z := 4.
Definition WRITE_PERMISSION : Z := 2.
Definition EXECUTE_PERMISSION : Z := 1.

(** One turn of the loop of [_HasPermission]: [false] ends it. *)
Definition group_has (permission_bits : pystr) (permission i : Z) : fres bool :=
  match py_get permission_bits i with
  | Raise e => FErr e []
  | Ok c =>
      match py_int [c] with
      | Raise e => FErr e (bs "invalid literal for int() with base 10: " ++ repr_str [c])
      | Ok perm =>
          if (7 <? perm)%Z then FErr ValueError (bs "Invalid permission bit: " ++ str_int perm)
          else FOk (negb (Z.land perm permission =? 0)%Z)
      end
  end.
Fixpoint groups_have (permission_bits : pystr) (permission : Z) (groups : list Z) : fres bool :=
  match groups with
  | [] => FOk true
  | i :: groups =>
      b ← group_has permission_bits permission i;
      if b : bool then groups_have permission_bits permission groups else FOk false
  end.

Definition HasPermission (permission_bits : pystr) (groupIndex permission : Z) : fres bool :=
  if (PERMISSION_GROUPS <=? groupIndex)%Z then FErr ValueError (bs "Invalid group: " ++ str_int groupIndex)
  else if negb (Z.of_nat (length permission_bits) =? PERMISSION_GROUPS)%Z then
    FErr ValueError (bs "Invalid permission bits: " ++ permission_bits)
  else groups_have permission_bits permission
         (if (groupIndex <? 0)%Z then [0; 1; 2]%Z else [groupIndex]).

(** [any] of a list, which is made first. *)
Definition any_group (permission_bits : pystr) (permission : Z) : fres bool :=
  a ← HasPermission permission_bits 0 permission;
  b ← HasPermission permission_bits 1 permission;
  c ← HasPermission permission_bits 2 permission;
  FOk (a || b || c).
Definition IsReadable (permission_bits : pystr) : fres bool := any_group permission_bits READ_PERMISSION.
Definition IsWritable (permission_bits : pystr) : fres bool := any_group permission_bits WRITE_PERMISSION.
Definition IsExecutable (permission_bits : pystr) : fres bool := any_group permission_bits EXECUTE_PERMISSION.

(** [a and b], [a and not b]: the second is asked only when the first holds. *)
Definition IsReadOnly (permission_bits : pystr) : fres bool :=
  r ← IsReadable permission_bits;
  if r : bool then w ← IsWritable permission_bits; FOk (negb w) else FOk false.
Definition IsWriteOnly (permission_bits : pystr) : fres bool :=
  w ← IsWritable permission_bits;
  if w : bool then r ← IsReadable permission_bits; FOk (negb r) else FOk false.
Definition IsReadWrite (permission_bits : pystr) : fres bool :=
  r ← IsReadable permission_bits; if r : bool then IsWritable permission_bits else FOk false.

Section files.
Context (execute : pystr -> command_results).

Definition Test (args : list pystr) : fres bool :=
  code ← first_of (EXIT_CODE (execute (bs "test " ++ join_with (bs " ") args))); FOk (code =? 0)%Z.
Definition Exists (filepath : pystr) : fres bool := Test [bs "-e"; filepath].
Definition IsDirectory (path : pystr) : fres bool := Test [bs "-d"; path].

(** The output of a command, or an [IOError] with its errors. *)
Definition output_of (cmd : pystr) : fres (option pystr) :=
  let results := execute cmd in
  code ← first_of (EXIT_CODE results);
  if negb (code =? 0)%Z then
    err ← first_of (STDERR results); FErr IOError (str_val (match err with Some s => PStr s | None => PNone end))
  else first_of (STDOUT results).

Definition quote : pystr := [Byte.x27].
Definition double_quote : pystr := [Byte.x22].
Definition FindFiles (path name_pattern : pystr) (options : option pystr) : fres (list pystr) :=
  if contains double_quote name_pattern || contains quote name_pattern then
    FErr IOError (bs "File name pattern contains quotes")
  else
    let cmd := bs "find " ++ path ++ bs " -name " ++ double_quote ++ name_pattern ++ double_quote in
    stdout ← output_of (match options with Some o => cmd ++ bs " " ++ o | None => cmd end);
    FOk (base.filter (fun s => s <> [])
      (split newline (strip (str_val (match stdout with Some s => PStr s | None => PNone end))))).

Definition ReadFileContent (filepath : pystr) : fres (option pystr) := output_of (bs "cat " ++ filepath).

Definition GetPermission (path : pystr) : fres pystr :=
  stdout ← output_of (bs "stat -c %a " ++ path);
  match stdout with
  | None => FErr AttributeError []
  | Some s =>
      let accessBits := strip s in
      if negb (length accessBits =? 3)%nat then
        FErr IOError (path ++ bs ": Wrong number of access bits (" ++ accessBits ++ bs ")")
      else FOk accessBits
  end.

(** [ValueError] and [IOError] become failures, a failure stays one. *)
Definition assertPermissionsAndExistence (path : pystr) (check_permission : pystr -> fres bool) : xres unit :=
  match Exists path with
  | FErr _ t => Exc (EOther Exception_ t)
  | FOk found =>
      _ ← assertTrue found (PStr (path ++ bs ": File does not exist.")) PNone;
      match permission ← GetPermission path; b ← check_permission permission; FOk (permission, b) with
      | FOk (permission, b) =>
          assertTrue b (PStr (path ++ bs ": File has invalid permissions (" ++ permission ++ bs ")")) PNone
      | FErr (ValueError | IOError) t => fail (PStr (bs "Failed to assert permissions: " ++ t)) PNone
      | FErr _ t => Exc (EOther Exception_ t)
      end
  end.
End files.

(** ** Preconditions ([precondition_utils.py]) *)
Definition of_fres {A} (m : fres A) : xres A :=
  match m with FOk a => Ret a | FErr _ t => Exc (EOther Exception_ t) end.

(** The parameters of the test; an empty string stands for none. *)
Record preconditions := mk_pre {
  bitness : pystr;
  hwbinder_service : pystr;
  file_path_prefix : option (gmap pystr (list pystr));
  lshal : pystr;
  feature : pystr;
  first_api_level_param : option pystr;
  sysprop : option pystr;
}.

(** [getprop] of a device: nothing when it fails. *)
Definition int_prop (o : option pystr) : pyres Z := from_opt TypeError o ≫= py_int.

(** [AndroidDevice.getLaunchApiLevel]: the level at the launch of the device, the
    level of its system when that is 0; 0, or a failure, when it is no number. *)
Definition getLaunchApiLevel (strict : bool) (first_api_level sdk_version : option pystr) : xres Z :=
  let read level_str error_msg (k : Z -> xres Z) :=
    match int_prop level_str with
    | Ok level => k level
    | Raise ValueError => if strict then _ ← fail (PStr error_msg) PNone; Ret 0%Z else Ret 0%Z
    | Raise _ => Exc (EOther Exception_ [])
    end in
  read first_api_level (bs "Cannot parse first_api_level: " ++ default [] first_api_level) (fun level =>
    if negb (level =? 0)%Z then Ret level
    else read sdk_version (bs "Cannot parse version.sdk: " ++ default [] sdk_version) Ret).

Section preconditions.
Context (execute : pystr -> command_results).

(** Whether the command answered and its output holds the text. *)
Definition answer_holds (cmd text : pystr) : xres bool :=
  let cmd_results := execute cmd in
  if existsb (fun c => negb (c =? 0)%Z) (EXIT_CODE cmd_results) then Ret false
  else stdout ← of_pyres (py_get (STDOUT cmd_results) 0 ≫= from_opt TypeError); Ret (contains text stdout).

(** Whether all files exist; the first that does not ends the search. *)
Fixpoint all_exist (paths : list pystr) : xres bool :=
  match paths with
  | [] => Ret true
  | path :: paths => b ← of_fres (Exists execute path); if b : bool then all_exist paths else Ret false
  end.

Definition hwbinder_runs (p : preconditions) : xres bool :=
  match hwbinder_service p with
  | [] => Ret true
  | name => if startswith (bs "android.hardware.") name then answer_holds (bs "ps -A") (name ++ bs "@") else Ret true
  end.

Definition required_files (p : preconditions) : list pystr :=
  match bitness p with
  | [] => []
  | b => default [] (default ∅ (file_path_prefix p) !! (bs "_" ++ b ++ bs "bit"))
  end.

Definition CanRunHidlHalTest (loads : pystr -> pyres testability) (p : preconditions)
    (run_as_compliance_test : bool) : xres bool :=
  runs ← hwbinder_runs p;
  if negb runs then Ret false
  else
    found ← all_exist (required_files p);
    if negb found then Ret false
    else
      match lshal p with
      | [] => Ret true
      | hal => r ← GetHalServiceName execute loads hal (bitness p) run_as_compliance_test; Ret r.1
      end.

(** The framework is started when it is not running. *)
Definition CheckFeaturePrecondition (isFrameworkRunning start : bool) (p : preconditions) : xres bool :=
  match feature p with
  | [] => Ret true
  | name =>
      if negb isFrameworkRunning && negb start then Ret false
      else answer_holds (bs "LD_LIBRARY_PATH= pm list features") name
  end.

Definition MeetFirstApiLevelPrecondition (first_api_level sdk_version : option pystr) (p : preconditions) : xres bool :=
  match first_api_level_param p with
  | None => Ret true
  | Some precond_level_attr =>
      match py_int precond_level_attr with
      | Raise _ => Ret true
      | Ok precond_level =>
          device_level ← getLaunchApiLevel false first_api_level sdk_version;
          Ret (if (device_level =? 0)%Z then true else (precond_level <=? device_level)%Z)
      end
  end.

Definition CheckSysPropPrecondition (p : preconditions) : xres bool :=
  match sysprop p with
  | None => Ret true
  | Some precond_sysprop =>
      if negb (contains (bs "=") precond_sysprop) then Ret true
      else
        '(sysprop_key, sysprop_value) ← of_pyres (split_pair (bs "=") precond_sysprop);
        let cmd_results := execute (bs "getprop " ++ sysprop_key) in
        if existsb (fun c => negb (c =? 0)%Z) (EXIT_CODE cmd_results) then Ret true
        else
          value ← of_pyres (strip <$> (py_get (STDOUT cmd_results) 0 ≫= from_opt AttributeError));
          Ret (if bool_decide (value = []) then true else bool_decide (value = sysprop_value))
  end.
End preconditions.

(** A value with an equals sign of its own ends in [ValueError]. *)
Example sysprop_with_two_signs execute :
  CheckSysPropPrecondition execute (mk_pre [] [] None [] [] None (Some (bs "ro.x=a=b"))) = Exc (EOther Exception_ []).
Proof. reflexivity. Qed.

(** ** Permission bits *)
Definition octal (o g a : Z) : pystr := [digit o; digit g; digit a].

Lemma py_int_digit n : (0 <= n < 10)%Z -> py_int [digit n] = Ok n.
Proof.
  intros Hn. assert ([digit n] = str_nat n) as ->; [|apply py_int_str; lia].
  unfold str_nat. destruct (Z.to_nat (Z.log2 n)); cbn [dec_digits]; [done|].
  by rewrite (proj2 (Z.ltb_lt n 10)) by lia.
Qed.

Lemma land_bit p k : (0 <= p < 8)%Z -> (k = 0 \/ k = 1 \/ k = 2)%Z -> negb (Z.land p (2 ^ k) =? 0)%Z = Z.testbit p k.
Proof.
  intros Hp Hk. assert (p = 0 \/ p = 1 \/ p = 2 \/ p = 3 \/ p = 4 \/ p = 5 \/ p = 6 \/ p = 7)%Z as H by lia.
  destruct Hk as [->|[->| ->]]; repeat destruct H as [->|H]; try subst p; reflexivity.
Qed.

Lemma group_has_digit bits p i k :
  py_get bits i = Ok (digit p) -> (0 <= p < 8)%Z -> (k = 0 \/ k = 1 \/ k = 2)%Z ->
  group_has bits (2 ^ k) i = FOk (Z.testbit p k).
Proof.
  intros Hb Hp Hk. unfold group_has. rewrite Hb, py_int_digit by lia.
  rewrite (proj2 (Z.ltb_ge 7 p)) by lia. by rewrite land_bit.
Qed.

Lemma HasPermission_digit bits p i k :
  length bits = 3 -> (0 <= i < 3)%Z -> py_get bits i = Ok (digit p) -> (0 <= p < 8)%Z ->
  (k = 0 \/ k = 1 \/ k = 2)%Z -> HasPermission bits i (2 ^ k) = FOk (Z.testbit p k).
Proof.
  intros Hl Hi Hb Hp Hk. unfold HasPermission, PERMISSION_GROUPS. rewrite Hl.
  rewrite (proj2 (Z.leb_gt 3 i)), (proj2 (Z.ltb_ge i 0)) by lia. cbn [groups_have].
  rewrite (group_has_digit _ p i k) by done. by destruct (Z.testbit p k).
Qed.

Lemma any_group_octal o g a k :
  (0 <= o < 8)%Z -> (0 <= g < 8)%Z -> (0 <= a < 8)%Z -> (k = 0 \/ k = 1 \/ k = 2)%Z ->
  any_group (octal o g a) (2 ^ k) = FOk (Z.testbit o k || Z.testbit g k || Z.testbit a k).
Proof.
  intros Ho Hg Ha Hk. unfold any_group.
  by rewrite (HasPermission_digit _ o 0 k), (HasPermission_digit _ g 1 k), (HasPermission_digit _ a 2 k) by done.
Qed.

Lemma py_int_byte c :
  match py_int [c] with Ok p => (0 <= p < 10)%Z /\ c = digit p | Raise e => e = ValueError end.
Proof. destruct c; vm_compute; try done; repeat split; discriminate. Qed.

(** Bits that are accepted are three octal digits; all others are a [ValueError]. *)
Lemma HasPermission_octal bits i k :
  (0 <= i < 3)%Z ->
  (exists p, length bits = 3 /\ (0 <= p < 8)%Z /\ py_get bits i = Ok (digit p)) \/
  exists t, HasPermission bits i k = FErr ValueError t.
Proof.
  intros Hi. unfold HasPermission, PERMISSION_GROUPS. rewrite (proj2 (Z.leb_gt 3 i)), (proj2 (Z.ltb_ge i 0)) by lia.
  destruct (Z.eqb_spec (Z.of_nat (length bits)) 3) as [E|E]; [|right; eexists; reflexivity].
  cbn [negb groups_have]. unfold group_has. destruct (py_get bits i) as [c|e] eqn:Eg.
  2:{ exfalso. rewrite <- (Z2Nat.id i), py_get_nat in Eg by lia.
      destruct (lookup_lt_is_Some_2 bits (Z.to_nat i)) as [c Hc]; [lia|]. by rewrite Hc in Eg. }
  pose proof (py_int_byte c) as Hc. destruct (py_int [c]) as [p|e]; [|subst e; right; eexists; reflexivity].
  destruct Hc as [Hp ->]. destruct (Z.ltb_spec 7 p); [right; eexists; reflexivity|].
  left. exists p. split; [lia|]. split; [lia|done].
Qed.

Lemma HasPermission_ok bits p i k :
  length bits = 3 -> (0 <= i < 3)%Z -> (0 <= p < 8)%Z -> py_get bits i = Ok (digit p) ->
  exists b, HasPermission bits i k = FOk b.
Proof.
  intros Hl Hi Hp Hb. unfold HasPermission, PERMISSION_GROUPS. rewrite Hl.
  rewrite (proj2 (Z.leb_gt 3 i)), (proj2 (Z.ltb_ge i 0)) by lia. cbn [groups_have].
  unfold group_has. rewrite Hb, py_int_digit, (proj2 (Z.ltb_ge 7 p)) by lia.
  destruct (Z.land p k =? 0)%Z; eexists; reflexivity.
Qed.

Lemma octal_or_error bits :
  (exists o g a, (0 <= o < 8)%Z /\ (0 <= g < 8)%Z /\ (0 <= a < 8)%Z /\ bits = octal o g a) \/
  forall k, exists t, any_group bits k = FErr ValueError t.
Proof.
  assert (forall i, (0 <= i < 3)%Z ->
    (exists p, length bits = 3 /\ (0 <= p < 8)%Z /\ py_get bits i = Ok (digit p) /\
      forall k, exists b, HasPermission bits i k = FOk b) \/
    forall k, exists t, HasPermission bits i k = FErr ValueError t) as H.
  { intros i Hi. destruct (HasPermission_octal bits i 1 Hi) as [(p & Hl & Hp & Hg)|[t Ht]].
    - left. exists p. split_and!; try done; try lia. intros k. by apply (HasPermission_ok bits p i k).
    - right. intros k. destruct (HasPermission_octal bits i k Hi) as [(p & Hl & Hp & Hg)|?]; [|done].
      exfalso. destruct (HasPermission_ok bits p i 1 Hl Hi Hp Hg) as [b Hb]. congruence. }
  unfold any_group.
  destruct (H 0%Z ltac:(lia)) as [(o & Hl & Ho & Hgo & Ko)|E0].
  2:{ right. intros k. destruct (E0 k) as [t ->]. by exists t. }
  destruct (H 1%Z ltac:(lia)) as [(g & _ & Hg & Hgg & Kg)|E1].
  2:{ right. intros k. destruct (Ko k) as [b ->], (E1 k) as [t Ht]. exists t. cbn [mbind fres_bind]. by rewrite Ht. }
  destruct (H 2%Z ltac:(lia)) as [(a & _ & Ha & Hga & Ka)|E2].
  2:{ right. intros k. destruct (Ko k) as [b ->], (Kg k) as [b' Hb], (E2 k) as [t Ht]. exists t. cbn [mbind fres_bind]. by rewrite Hb, Ht. }
  left. exists o, g, a. split_and!; try lia. destruct bits as [|x [|y [|z [|? ?]]]]; try done.
  injection Hgo as ->. injection Hgg as ->. injection Hga as ->. done.
Qed.

(** The predicates accept exactly the three octal digits that [stat] prints, and
    say of them what the bits say: some group may read (4), write (2) or execute
    (1), and the combinations of the first two; any other string is a
    [ValueError]. *)
Theorem permission_predicates bits :
  (exists o g a, (0 <= o < 8)%Z /\ (0 <= g < 8)%Z /\ (0 <= a < 8)%Z /\ bits = octal o g a /\
    let some k := Z.testbit o k || Z.testbit g k || Z.testbit a k in
    IsReadable bits = FOk (some 2%Z) /\ IsWritable bits = FOk (some 1%Z) /\ IsExecutable bits = FOk (some 0%Z) /\
    IsReadOnly bits = FOk (some 2%Z && negb (some 1%Z)) /\
    IsWriteOnly bits = FOk (some 1%Z && negb (some 2%Z)) /\
    IsReadWrite bits = FOk (some 2%Z && some 1%Z)) \/
  forall check, check ∈ [IsReadable; IsWritable; IsExecutable; IsReadOnly; IsWriteOnly; IsReadWrite] ->
    exists t, check bits = FErr ValueError t.
Proof.
  destruct (octal_or_error bits) as [(o & g & a & Ho & Hg & Ha & ->)|He].
  - left. exists o, g, a. split_and!; try done; try lia. cbv zeta.
    assert (IsReadable (octal o g a) = FOk (Z.testbit o 2 || Z.testbit g 2 || Z.testbit a 2)) as HR
      by (apply (any_group_octal o g a 2); auto).
    assert (IsWritable (octal o g a) = FOk (Z.testbit o 1 || Z.testbit g 1 || Z.testbit a 1)) as HW
      by (apply (any_group_octal o g a 1); auto).
    split; [exact HR|]. split; [exact HW|]. split; [apply (any_group_octal o g a 0); auto|].
    unfold IsReadOnly, IsWriteOnly, IsReadWrite. rewrite HR, HW.
    by destruct (Z.testbit o 2 || _ || _), (Z.testbit o 1 || _ || _).
  - right. destruct (He READ_PERMISSION) as [t1 H1], (He WRITE_PERMISSION) as [t2 H2], (He EXECUTE_PERMISSION) as [t3 H3].
    fold (IsReadable bits) in H1. fold (IsWritable bits) in H2. fold (IsExecutable bits) in H3.
    intros check. rewrite !elem_of_cons, elem_of_nil.
    unfold IsReadOnly, IsWriteOnly, IsReadWrite. intros [->|[->|[->|[->|[->|[->|[]]]]]]]; rewrite ?H1, ?H2, ?H3; eauto.
Qed.

Example permission_predicates_sample :
  IsReadOnly (bs "444") = FOk true /\ IsReadOnly (bs "644") = FOk false /\
  IsReadWrite (bs "420") = FOk true /\
  IsExecutable (bs "0755") = FErr ValueError (bs "Invalid permission bits: 0755") /\
  HasPermission (bs "0xx") (-1) READ_PERMISSION = FOk false.
Proof. vm_compute. done. Qed.

(** ** Files *)
(** Every command has a result: an exit code, errors, and output when it is 0. *)
Definition answers (execute : pystr -> command_results) : Prop :=
  forall cmd, exists out err code, execute cmd = mk_results [out] [err] [code] /\ (code = 0%Z -> is_Some out).

Lemma answers_output execute cmd :
  answers execute ->
  (exists s, output_of execute cmd = FOk (Some s)) \/ exists t, output_of execute cmd = FErr IOError t.
Proof.
  intros Ha. destruct (Ha cmd) as (out & err & code & Hr & Ho). unfold output_of. rewrite Hr. cbn.
  destruct (Z.eqb_spec code 0) as [->|Hc]; cbn; [|right; eexists; reflexivity].
  left. destruct (Ho eq_refl) as [s ->]. by exists s.
Qed.

Lemma answers_Exists execute path : answers execute -> exists b, Exists execute path = FOk b.
Proof.
  intros Ha. unfold Exists, Test. destruct (Ha (bs "test " ++ join_with (bs " ") [bs "-e"; path])) as (? & ? & ? & -> & _).
  by eexists.
Qed.

(** [assertPermissionsAndExistence] passes exactly when the path exists, has
    three permission digits and the predicate accepts them; a missing path, an
    unreadable one, more digits, malformed ones and digits that are not accepted
    are all a failure of the test, never another exception. *)
Theorem assertPermissionsAndExistence_spec execute check_permission path :
  answers execute -> (forall p e t, check_permission p = FErr e t -> e = ValueError) ->
  let ok := Exists execute path = FOk true /\
    exists permission, GetPermission execute path = FOk permission /\ check_permission permission = FOk true in
  (assertPermissionsAndExistence execute path check_permission = Ret tt /\ ok) \/
  ((exists details, assertPermissionsAndExistence execute path check_permission =
     Exc (ESignal TestFailure details PNone)) /\ ~ ok).
Proof.
  intros Ha Hc. unfold assertPermissionsAndExistence.
  destruct (answers_Exists execute path Ha) as [found ->].
  destruct found; cbn [assertTrue negb]; [|right; split; [by eexists|by intros [[=] _]]].
  assert ((exists p, GetPermission execute path = FOk p) \/ exists t, GetPermission execute path = FErr IOError t) as Hp.
  { unfold GetPermission. destruct (answers_output execute (bs "stat -c %a " ++ path) Ha) as [[s ->]|[t ->]]; cbn [mbind fres_bind].
    - destruct (negb _); [right; eexists; reflexivity|left; eexists; reflexivity].
    - right; eexists; reflexivity. }
  cbn [mbind xres_bind]. destruct Hp as [[p Hp]|[t Hp]]; rewrite Hp; cbn [mbind fres_bind].
  - destruct (check_permission p) as [b|e t] eqn:Ep; cbn [mbind fres_bind].
    + destruct b; [left; split; [done|]; split; [done|]; by exists p|].
      right. split; [by eexists|]. intros (_ & p' & [= <-] & H). congruence.
    + apply Hc in Ep as He. subst e. right. split; [by eexists|]. intros (_ & p' & [= <-] & H). congruence.
  - right. split; [by eexists|]. intros (_ & p' & [=] & _).
Qed.

Example assertPermissionsAndExistence_spec_witness :
  let execute (cmd : pystr) := mk_results [Some (bs "0644" ++ newline)] [None] [0%Z] in
  exists details, assertPermissionsAndExistence execute (bs "/x") IsReadable = Exc (ESignal TestFailure details PNone).
Proof.
  intros execute. destruct (assertPermissionsAndExistence_spec execute IsReadable (bs "/x")) as [[H _]|[H _]].
  - intros cmd. eexists _, _, _. split; [reflexivity|]. intros _. by eexists.
  - intros p e t H. destruct (octal_or_error p) as [(o & g & a & Ho & Hg & Ha & ->)|He].
    + assert (IsReadable (octal o g a) = FOk (Z.testbit o 2 || Z.testbit g 2 || Z.testbit a 2)) as E
        by (apply (any_group_octal o g a 2); auto).
      rewrite E in H. done.
    + destruct (He READ_PERMISSION) as [t' Ht]. unfold IsReadable in H. rewrite Ht in H. by injection H as <-.
  - vm_compute in H. done.
  - exact H.
Defined.

(** ** The files that a test needs *)
(** The path of a token for a bitness, if it is for it. *)
Definition path_for (tag token : pystr) : option pystr :=
  match tag_and_path token with
  | Ok (t, path) => if decide (t = [] \/ t = tag) then Some path else None
  | Raise _ => None
  end.

Lemma set_file_path_prefix_spec tokens d tag :
  set_file_path_prefix tokens = Ok d -> tag = DEFAULT_TAG_32 \/ tag = DEFAULT_TAG_64 ->
  d !! tag = Some (omap (path_for tag) tokens).
Proof.
  unfold set_file_path_prefix. intros Hd Htag.
  set (d0 := <[DEFAULT_TAG_32 := []]> (<[DEFAULT_TAG_64 := []]> (∅ : gmap pystr (list pystr)))) in *.
  assert (H32 : d0 !! DEFAULT_TAG_32 = Some []) by reflexivity.
  assert (H64 : d0 !! DEFAULT_TAG_64 = Some []) by reflexivity.
  assert (forall t, t <> DEFAULT_TAG_32 -> t <> DEFAULT_TAG_64 -> d0 !! t = None) as Hn
    by (intros t ??; unfold d0; by rewrite !lookup_insert_ne, lookup_empty by done).
  cut (forall l32 l64 (e : gmap pystr (list pystr)),
    e !! DEFAULT_TAG_32 = Some l32 -> e !! DEFAULT_TAG_64 = Some l64 ->
    (forall t, t <> DEFAULT_TAG_32 -> t <> DEFAULT_TAG_64 -> e !! t = None) ->
    foldlM_py (fun d token =>
      '(tag, path) ← tag_and_path token;
      Ok (if decide (tag = []) then
            <[DEFAULT_TAG_64 := default [] (<[DEFAULT_TAG_32 := default [] (d !! DEFAULT_TAG_32) ++ [path]]> d !! DEFAULT_TAG_64) ++ [path]]>
              (<[DEFAULT_TAG_32 := default [] (d !! DEFAULT_TAG_32) ++ [path]]> d)
          else if decide (is_Some (d !! tag)) then <[tag := default [] (d !! tag) ++ [path]]> d else d)) e tokens = Ok d ->
    d !! DEFAULT_TAG_32 = Some (l32 ++ omap (path_for DEFAULT_TAG_32) tokens) /\
    d !! DEFAULT_TAG_64 = Some (l64 ++ omap (path_for DEFAULT_TAG_64) tokens)).
  { intros H. destruct (H [] [] d0 H32 H64 Hn Hd) as [E1 E2]. by destruct Htag as [->| ->]. }
  clear Hd Hn H32 H64 Htag tag d0. induction tokens as [|token tokens IH]; intros l32 l64 e H32 H64 Hn; cbn [foldlM_py].
  { intros [= <-]. by rewrite !app_nil_r. }
  intros (e' & He & Hrest)%pyres_bind_Ok. apply pyres_bind_Ok in He as ([t path] & Ht & [= He]).
  cbn [omap list_omap].
  assert (forall tag, path_for tag token = if decide (t = [] \/ t = tag) then Some path else None) as Hpf
    by (intros; unfold path_for; by rewrite Ht).
  rewrite !Hpf. clear Hpf.
  destruct (decide (t = [])) as [->|Hte]; [|destruct (decide (t = DEFAULT_TAG_32)) as [->|Ht32];
    [|destruct (decide (t = DEFAULT_TAG_64)) as [->|Ht64]]].
  - rewrite !decide_True by (by left). rewrite H32, lookup_insert_ne, H64 in He by done. subst e'.
    apply (IH (l32 ++ [path]) (l64 ++ [path])) in Hrest as [-> ->]; [by rewrite <- !app_assoc| | |].
    + by rewrite lookup_insert_ne, lookup_insert_eq by done.
    + by rewrite lookup_insert_eq.
    + intros. by rewrite !lookup_insert_ne, Hn by done.
  - rewrite (decide_True (P := _ \/ _)) by (by right). rewrite decide_False by (by intros [?|?]).
    rewrite H32, decide_True in He by (by eexists). subst e'.
    apply (IH (l32 ++ [path]) l64) in Hrest as [-> ->]; [by rewrite <- !app_assoc| | |].
    + by rewrite lookup_insert_eq.
    + by rewrite lookup_insert_ne by done.
    + intros. by rewrite lookup_insert_ne, Hn by done.
  - rewrite decide_False by (by intros [?|?]). rewrite (decide_True (P := _ \/ _)) by (by right).
    rewrite H64, decide_True in He by (by eexists). subst e'.
    apply (IH l32 (l64 ++ [path])) in Hrest as [-> ->]; [by rewrite <- !app_assoc| | |].
    + by rewrite lookup_insert_ne by done.
    + by rewrite lookup_insert_eq.
    + intros. by rewrite lookup_insert_ne, Hn by done.
  - rewrite !decide_False by (by intros [?|?]). rewrite decide_False in He by (rewrite Hn by done; by intros [? ?]).
    subst e'. by apply (IH l32 l64 e).
Qed.

Lemma answer_holds_spec execute cmd text :
  answers execute ->
  answer_holds execute cmd text = Ret true <->
  exists out, output_of execute cmd = FOk (Some out) /\ contains text out = true.
Proof.
  intros Ha. unfold answer_holds, output_of. destruct (Ha cmd) as (out & err & code & -> & Ho). cbn.
  destruct (Z.eqb_spec code 0) as [->|Hc]; cbn.
  - destruct (Ho eq_refl) as [s ->]. cbn. split.
    + intros [= H]. exists s. split; [done|exact H].
    + intros (? & [= <-] & H). exact (f_equal Ret H).
  - split; [done|]. by intros (? & [=] & _).
Qed.

Lemma all_exist_spec execute paths :
  answers execute -> all_exist execute paths = Ret true <-> forall path, path ∈ paths -> Exists execute path = FOk true.
Proof.
  intros Ha. induction paths as [|path paths IH]; cbn [all_exist].
  - split; [by intros _ ? ?%elem_of_nil|done].
  - setoid_rewrite elem_of_cons. destruct (answers_Exists execute path Ha) as [b Hb]. rewrite Hb.
    cbn [of_fres mbind xres_bind]. destruct b.
    + rewrite IH. split; [intros H q [->|Hq]; auto|auto].
    + split; [done|]. intros H. specialize (H path (or_introl eq_refl)). congruence.
Qed.

Lemma all_exist_total execute paths : answers execute -> exists b, all_exist execute paths = Ret b.
Proof.
  intros Ha. induction paths as [|path paths IH]; cbn [all_exist]; [by eexists|].
  destruct (answers_Exists execute path Ha) as [[|] ->]; [exact IH|by eexists].
Qed.

Lemma required_files_spec p tokens d b :
  set_file_path_prefix tokens = Ok d -> file_path_prefix p = Some d ->
  b = SUFFIX_32BIT \/ b = SUFFIX_64BIT -> bitness p ++ bs "bit" = b ->
  required_files p = omap (path_for (bs "_" ++ b)) tokens.
Proof.
  intros Hd Hp Hb Hbit. unfold required_files. rewrite Hp. cbn [default].
  destruct (bitness p) as [|x l] eqn:E; [by destruct Hb as [->| ->]|].
  rewrite Hbit.
  change (default [] (d !! (bs "_" ++ b)) = omap (path_for (bs "_" ++ b)) tokens).
  rewrite (set_file_path_prefix_spec tokens d (bs "_" ++ b) Hd); [done|].
  by destruct Hb as [->| ->]; [left|right].
Qed.

(** A HAL test may run exactly when the service it names runs on the device,
    every file exists that a token of the parameter asks for at the bitness of the
    run (tokens of the other bitness do not count, those without a tag count for
    both), and the service it names to the checker is testable. *)
Theorem CanRunHidlHalTest_spec execute loads p run_as_compliance_test tokens d b :
  answers execute -> set_file_path_prefix tokens = Ok d -> file_path_prefix p = Some d ->
  b = SUFFIX_32BIT \/ b = SUFFIX_64BIT -> bitness p ++ bs "bit" = b ->
  CanRunHidlHalTest execute loads p run_as_compliance_test = Ret true <->
  (startswith (bs "android.hardware.") (hwbinder_service p) = true ->
    exists out, output_of execute (bs "ps -A") = FOk (Some out) /\
      contains (hwbinder_service p ++ bs "@") out = true) /\
  (forall token path, token ∈ tokens -> path_for (bs "_" ++ b) token = Some path -> Exists execute path = FOk true) /\
  (lshal p <> [] -> exists names,
    GetHalServiceName execute loads (lshal p) (bitness p) run_as_compliance_test = Ret (true, names)).
Proof.
  intros Ha Hd Hp Hb Hbit. unfold CanRunHidlHalTest.
  assert (hwbinder_runs execute p = Ret true <->
    (startswith (bs "android.hardware.") (hwbinder_service p) = true ->
      exists out, output_of execute (bs "ps -A") = FOk (Some out) /\
        contains (hwbinder_service p ++ bs "@") out = true)) as Hruns.
  { unfold hwbinder_runs. destruct (hwbinder_service p) as [|x l]; [by split|].
    destruct (startswith _ _); [|by split]. rewrite answer_holds_spec by done. naive_solver. }
  rewrite (required_files_spec p tokens d b) by done.
  assert ((forall token path, token ∈ tokens -> path_for (bs "_" ++ b) token = Some path -> Exists execute path = FOk true)
    <-> all_exist execute (omap (path_for (bs "_" ++ b)) tokens) = Ret true) as ->.
  { rewrite all_exist_spec by done. setoid_rewrite list_elem_of_omap. naive_solver. }
  rewrite <- Hruns. destruct (all_exist_total execute (omap (path_for (bs "_" ++ b)) tokens) Ha) as [found ->].
  destruct (hwbinder_runs execute p) as [[|]|e]; cbn [mbind xres_bind negb]; [|by split; [|intros [[=] _]]..].
  destruct found; cbn [negb]; [|by split; [|intros (_ & [=] & _)]].
  destruct (lshal p) as [|x l]; [by split|].
  destruct (GetHalServiceName _ _ _ _ _) as [[t names]|e]; cbn [mbind xres_bind fst].
  - split; [intros [= ->]; split_and!; [done|done|by exists names]|].
    intros (_ & _ & H). by destruct H as [? [= -> _]].
  - split; [done|]. intros (_ & _ & H). by destruct H as [? [=]].
Qed.

Example CanRunHidlHalTest_spec_witness :
  let tokens := [bs "/system/lib/a"; bs "_64bit::/system/lib64/b"; bs "_32bit::/system/lib/c"] in
  let execute (cmd : pystr) :=
    mk_results [Some (bs "android.hardware.foo@1.0-service")] [None]
      [if bool_decide (cmd = bs "test -e /system/lib/c") then 1%Z else 0%Z] in
  exists d, set_file_path_prefix tokens = Ok d /\
    CanRunHidlHalTest execute (fun _ => Raise ValueError)
      (mk_pre (bs "64") (bs "android.hardware.foo") (Some d) [] [] None None) false = Ret true.
Proof.
  intros tokens execute.
  assert (match set_file_path_prefix tokens with Ok _ => true | Raise _ => false end = true) as Hok
    by (vm_compute; reflexivity).
  destruct (set_file_path_prefix tokens) as [d|e] eqn:E; [|discriminate Hok].
  exists d. split; [done|].
  apply (CanRunHidlHalTest_spec execute (fun _ => Raise ValueError)
    (mk_pre (bs "64") (bs "android.hardware.foo") (Some d) [] [] None None) false tokens d SUFFIX_64BIT);
    [|exact E|done|by right|done|].
  - intros cmd. eexists _, _, _. split; [reflexivity|]. intros _. by eexists.
  - split.
    { intros _. exists (bs "android.hardware.foo@1.0-service").
      split; [reflexivity|].
      vm_compute. reflexivity. }
    split; [|done].
    intros token path [->|[->|[->|[]%elem_of_nil]%elem_of_cons]%elem_of_cons]%elem_of_cons H; vm_compute in H;
      try discriminate H; injection H as <-; vm_compute; reflexivity.
Defined.

(** The files are noted by the template of binary tests alone: a host test that
    gives the parameter runs without them. *)
Example host_test_ignores_files execute loads :
  CanRunHidlHalTest execute loads (mk_pre (bs "64") [] None [] [] None None) false = Ret true.
Proof. reflexivity. Qed.
