(* ===== verification/VtsSpec.v ===== *)
(** * HAL specifications and the HALs they import
    ([src/utils/python/common/vts_spec_utils.py])

    The [.vts] files of a HAL name the HALs it imports; the parser follows the
    imports to the HALs that are needed with it.  Directories, files and the
    parser of the message are parameters, the generated message is a type. *)

From Stdlib Require Import Strings.Byte.
From S2P Require Import Prelude PyStr PySort PyPath ListUtils BinaryTest.

(** A HAL: its name and its version. *)
Abbreviation hal := (pystr * pystr)%type.

Definition prefix : pystr := bs "android.hardware.".
Definition at_sign : Byte.byte := Byte.x40.
Definition colons : pystr := bs "::".

(** A package without the prefix is only logged: the slice is taken all the same. *)
Definition HalPackageToNameAndVersion (hal_package : pystr) : pyres hal :=
  match split [at_sign] (drop (length prefix) hal_package) with
  | [hal_name; hal_version] => Ok (hal_name, hal_version)
  | _ => Raise ValueError
  end.

(** [s.replace(a, b)] of one character by another. *)
Definition replace_byte (a b : Byte.byte) (s : pystr) : pystr :=
  (fun x => if decide (x = a) then b else x) <$> s.

Definition HalNameDir (hal_name : pystr) : pystr := replace_byte Byte.x2e slash hal_name.
Definition HalVerDir (hal_version : pystr) : pystr := bs "V" ++ replace_byte Byte.x2e Byte.x5f hal_version.

(** Tuples are ordered by their first elements that differ. *)
Definition hal_leb (a b : hal) : bool :=
  if decide (a.1 = b.1) then bytes_leb a.2 b.2 else bytes_leb a.1 b.1.
(** [sorted(set(l))] *)
Definition sorted_hals (l : list hal) : list hal := py_sort hal_leb (remove_dups l).

Section parser.
Context {Msg : Type} (getattr_import : Msg -> list pystr).
Context (listdir : pystr -> pyres (list pystr)) (read : pystr -> pyres pystr) (Merge : pystr -> pyres Msg).
Context (data_file_path : pystr).

Definition VtsSpecDir (hal_name hal_version : pystr) : pystr :=
  path_join data_file_path
    [bs "spec"; bs "hardware"; bs "interfaces"; replace_byte Byte.x2e slash hal_name; hal_version; bs "vts"].

Definition VtsSpecNames (hal_name hal_version : pystr) : pyres (list pystr) :=
  names ← listdir (VtsSpecDir hal_name hal_version);
  Ok (py_sort bytes_leb (base.filter (fun x => endswith (bs ".vts") x = true) names)).

(** [VtsSpecProto] with a file name: nothing when there is no such file. *)
Definition VtsSpecProto_named (hal_name hal_version vts_spec_name : pystr) : pyres (option Msg) :=
  names ← VtsSpecNames hal_name hal_version;
  if bool_decide (vts_spec_name ∈ names) then
    vts_spec_string ← read (path_join2 (VtsSpecDir hal_name hal_version) vts_spec_name);
    vts_spec_proto ← Merge vts_spec_string;
    Ok (Some vts_spec_proto)
  else Ok None.
(** [VtsSpecProto] without one: those of all the files. *)
Definition VtsSpecProto (hal_name hal_version : pystr) : pyres (list (option Msg)) :=
  names ← VtsSpecNames hal_name hal_version;
  mapM_py (VtsSpecProto_named hal_name hal_version) names.

(** [getattr(vts_spec, 'import', [])] *)
Definition imports (vts_spec : option Msg) : list pystr :=
  match vts_spec with Some m => getattr_import m | None => [] end.

(** One package of one message. *)
Definition import_step (imported_hals : list hal) (package : pystr) : pyres (list hal) :=
  if startswith prefix package then
    h ← HalPackageToNameAndVersion (default [] (head (split colons package)));
    Ok (h :: imported_hals)
  else Ok imported_hals.

Definition ImportedHals (this_hal : hal) : pyres (list hal) :=
  vts_spec_protos ← VtsSpecProto this_hal.1 this_hal.2;
  imported_hals ← foldlM_py import_step [] (mjoin (imports <$> vts_spec_protos));
  Ok (sorted_hals (base.filter (fun h => h <> this_hal) imported_hals)).

(** [for ... in imported_hals] around an append to the same list. *)
Definition discover (imported_hals : list hal) (discovery : hal) : list hal :=
  if decide (discovery ∈ imported_hals) then imported_hals else imported_hals ++ [discovery].
Fixpoint follow (fuel i : nat) (imported_hals : list hal) : option (pyres (list hal)) :=
  match fuel with
  | O => None
  | S fuel =>
      match imported_hals !! i with
      | None => Some (Ok imported_hals)
      | Some h =>
          match ImportedHals h with
          | Raise e => Some (Raise e)
          | Ok discoveries => follow fuel (S i) (foldl discover imported_hals discoveries)
          end
      end
  end.

Definition IndirectImportedHals (fuel : nat) (this_hal : hal) : option (pyres (list hal)) :=
  match follow fuel 0 [this_hal] with
  | None => None
  | Some r => Some (l ← r; Ok (py_sort hal_leb (remove_first this_hal l)))
  end.
End parser.

(** ** The order of the HALs *)
Lemma bytes_leb_antisym a b : bytes_leb a b = true -> bytes_leb b a = true -> a = b.
Proof.
  revert b. induction a as [|x a IH]; intros [|y b]; simpl; try done.
  rewrite (Z.eqb_sym (byteZ y)). destruct (Z.eqb_spec (byteZ x) (byteZ y)) as [E|E].
  - intros H1 H2. f_equal; [by apply byteZ_inj|by apply IH].
  - rewrite !Z.ltb_lt. lia.
Qed.

Lemma hal_leb_total a b : hal_leb a b = true \/ hal_leb b a = true.
Proof.
  unfold hal_leb. destruct (decide (a.1 = b.1)) as [E|E].
  - rewrite decide_True by done. apply bytes_leb_total.
  - rewrite decide_False by congruence. apply bytes_leb_total.
Qed.

Lemma hal_leb_trans a b c : hal_leb a b = true -> hal_leb b c = true -> hal_leb a c = true.
Proof.
  destruct a as [a1 a2], b as [b1 b2], c as [c1 c2]. unfold hal_leb. cbn [fst snd].
  repeat case_decide; subst; try done; try congruence; try apply bytes_leb_trans.
  intros H1 H2. destruct (bytes_leb_antisym b1 c1 H2 H1). done.
Qed.

Lemma sorted_hals_spec l :
  sorted hal_leb (sorted_hals l) /\ NoDup (sorted_hals l) /\ forall h, h ∈ sorted_hals l <-> h ∈ l.
Proof.
  unfold sorted_hals. split; [apply py_sort_sorted; [apply hal_leb_total|apply hal_leb_trans]|].
  rewrite py_sort_perm. split; [apply NoDup_remove_dups|]. intros h.
  rewrite py_sort_perm. apply elem_of_remove_dups.
Qed.

(** ** Packages *)
Lemma no_byte_split c l : no_byte c l = false -> exists a b, l = a ++ c :: b /\ no_byte c a = true.
Proof.
  induction l as [|x l IH]; [done|]. cbn [no_byte forallb]. destruct (is_byte c x) eqn:E.
  - intros _. unfold is_byte in E. apply bool_decide_eq_true in E as ->. by exists [], l.
  - intros (a & b & -> & Ha)%IH. exists (x :: a), b. split; [done|]. cbn [no_byte forallb]. by rewrite E.
Qed.

(** A split in two: one separator. *)
Lemma split_two c l a b :
  split [c] l = [a; b] <-> l = a ++ c :: b /\ no_byte c a = true /\ no_byte c b = true.
Proof.
  unfold split. split.
  - intros H. destruct (no_byte c l) eqn:E; [by rewrite split_from_no_byte in H|].
    destruct (no_byte_split c l E) as (a' & l' & -> & Ha). rewrite split_from_byte in H by done.
    cbn [app] in H. injection H as -> H. destruct (no_byte c l') eqn:E'.
    + rewrite split_from_no_byte in H by done. by injection H as ->.
    + destruct (no_byte_split c l' E') as (b' & l'' & -> & Hb). rewrite split_from_byte in H by done.
      cbn [app] in H. injection H as _ H. destruct (no_byte c l'') eqn:E''.
      * by rewrite split_from_no_byte in H.
      * destruct (no_byte_split c l'' E'') as (d & e & -> & Hd). by rewrite split_from_byte in H.
  - intros (-> & Ha & Hb). by rewrite split_from_byte, split_from_no_byte.
Qed.

(** [HalPackageToNameAndVersion] reads exactly the packages [name@version] with
    one at sign behind the prefix: what is printed from a name and a
    version is read back as them, anything else raises [ValueError]. *)
Theorem HalPackageToNameAndVersion_spec p :
  (forall hal_name hal_version,
    HalPackageToNameAndVersion (prefix ++ p) = Ok (hal_name, hal_version) <->
    p = hal_name ++ bs "@" ++ hal_version /\
    no_byte at_sign hal_name = true /\ no_byte at_sign hal_version = true) /\
  ((forall h, HalPackageToNameAndVersion (prefix ++ p) <> Ok h) ->
    HalPackageToNameAndVersion (prefix ++ p) = Raise ValueError).
Proof.
  unfold HalPackageToNameAndVersion. rewrite drop_app_length. split.
  - intros n v. change (bs "@" ++ v) with (at_sign :: v). rewrite <- split_two.
    destruct (split [at_sign] p) as [|x [|y [|z l]]]; split; intros H; try done.
    + by injection H as -> ->.
    + by injection H as -> ->.
  - intros H. destruct (split [at_sign] p) as [|x [|y [|z l]]]; try done. by destruct (H (x, y)).
Qed.

Example HalPackageToNameAndVersion_spec_witness :
  HalPackageToNameAndVersion (prefix ++ bs "vibrator") = Raise ValueError.
Proof. apply (HalPackageToNameAndVersion_spec (bs "vibrator")). intros h. by vm_compute. Defined.

(** ** Following the imports *)
Lemma discover_spec l ds :
  NoDup l ->
  exists k, foldl discover l ds = l ++ k /\ NoDup (l ++ k) /\
    forall x, x ∈ l ++ k <-> x ∈ l \/ x ∈ ds.
Proof.
  revert l. induction ds as [|d ds IH]; intros l Hl.
  - exists []. rewrite app_nil_r. split; [done|]. split; [done|]. intros x. rewrite elem_of_nil. tauto.
  - cbn [foldl]. unfold discover at 2. destruct (decide (d ∈ l)) as [Hd|Hd].
    + destruct (IH l Hl) as (k & -> & Hnd & Hk). exists k. split; [done|]. split; [done|]. intros x.
      rewrite Hk, elem_of_cons. naive_solver.
    + destruct (IH (l ++ [d])) as (k & -> & Hnd & Hk).
      { apply NoDup_app. split; [done|]. split; [|apply NoDup_singleton].
        by intros x Hx ->%list_elem_of_singleton. }
      exists (d :: k). rewrite <- app_assoc in *. split; [done|]. split; [done|]. intros x.
      change ([d] ++ k) with (d :: k) in Hk. rewrite Hk, elem_of_app, list_elem_of_singleton, elem_of_cons. tauto.
Qed.

Lemma rtc_closed {A} (R : relation A) (P : A -> Prop) x y :
  (forall x y, P x -> R x y -> P y) -> rtc R x y -> P x -> P y.
Proof. intros HP. induction 1; eauto. Qed.

Section imports.
Context {Msg : Type} (getattr_import : Msg -> list pystr).
Context (listdir : pystr -> pyres (list pystr)) (read : pystr -> pyres pystr) (Merge : pystr -> pyres Msg).
Context (data_file_path : pystr).
Abbreviation ImportedHals' := (ImportedHals getattr_import listdir read Merge data_file_path).

(** [h] imports [h'] directly. *)
Definition directly (h h' : hal) : Prop := exists ds, ImportedHals' h = Ok ds /\ h' ∈ ds.
(** Every HAL of the list is read, and imports none that is not in the list. *)
Definition closed_hals (U : list hal) : Prop :=
  forall h, h ∈ U -> exists ds, ImportedHals' h = Ok ds /\ ds ⊆ U.

Lemma follow_spec U this fuel i l :
  closed_hals U -> length U < fuel + i -> i <= length l ->
  NoDup l -> l ⊆ U -> (forall x, x ∈ l -> rtc directly this x) ->
  (forall x y, x ∈ take i l -> directly x y -> y ∈ l) ->
  exists k, follow getattr_import listdir read Merge data_file_path fuel i l = Some (Ok (l ++ k)) /\
    NoDup (l ++ k) /\ (forall x, x ∈ l ++ k -> rtc directly this x) /\
    (forall x y, x ∈ l ++ k -> directly x y -> y ∈ l ++ k).
Proof.
  intros HU. revert i l. induction fuel as [|fuel IH]; intros i l Hf Hi Hnd Hsub Hreach Hcl.
  { pose proof (submseteq_length _ _ (NoDup_submseteq _ _ Hnd Hsub)). lia. }
  cbn [follow]. destruct (l !! i) as [h|] eqn:Eh.
  2:{ apply lookup_ge_None in Eh. exists []. rewrite app_nil_r.
      split; [done|]. split; [done|]. split; [done|]. intros x y Hx. apply Hcl. by rewrite take_ge. }
  pose proof (list_elem_of_lookup_2 _ _ _ Eh) as Hh.
  destruct (HU h (Hsub _ Hh)) as (ds & Hds & HdsU). rewrite Hds.
  destruct (discover_spec l ds Hnd) as (k & -> & Hnd' & Hk).
  pose proof (lookup_lt_Some _ _ _ Eh) as Hlt.
  destruct (IH (S i) (l ++ k)) as (k' & Hrun & Hres); [lia|rewrite length_app; lia|done| | | |].
  - intros x [Hx|Hx]%Hk; auto.
  - intros x [Hx|Hx]%Hk; [auto|]. eapply rtc_r; [apply Hreach, Hh|by exists ds].
  - intros x y. rewrite take_app_le by lia. rewrite (take_S_r _ _ _ Eh), elem_of_app, list_elem_of_singleton.
    intros [Hx| ->] Hxy; apply Hk; [left; by eapply Hcl|]. right.
    destruct Hxy as (ds' & Hds' & Hy). rewrite Hds in Hds'. by injection Hds' as <-.
  - rewrite <- app_assoc in *. by exists (k ++ k').
Qed.

(** Following the imports ends, and gives exactly the HALs that the given one
    needs, directly or not, without itself, each once and in order: where finitely
    many HALs are reached and all are read, as many rounds of the loop over the
    growing list as there are HALs, and one, are enough. *)
Theorem IndirectImportedHals_spec U fuel this_hal :
  closed_hals U -> this_hal ∈ U -> length U < fuel ->
  exists r, IndirectImportedHals getattr_import listdir read Merge data_file_path fuel this_hal = Some (Ok r) /\
    sorted hal_leb r /\ NoDup r /\
    forall h, h ∈ r <-> h <> this_hal /\ tc directly this_hal h.
Proof.
  intros HU Hthis Hfuel.
  destruct (follow_spec U this_hal fuel 0 [this_hal]) as (k & Hrun & Hnd & Hreach & Hcl);
    [done|lia|cbn; lia|apply NoDup_singleton|by intros x ->%list_elem_of_singleton| |by intros x y ?%elem_of_nil|].
  { intros x ->%list_elem_of_singleton. constructor. }
  unfold IndirectImportedHals. rewrite Hrun. eexists. split; [done|]. cbn [app remove_first].
  rewrite decide_True by done. apply NoDup_cons in Hnd as [Hnot Hnd].
  split; [apply py_sort_sorted; [apply hal_leb_total|apply hal_leb_trans]|].
  rewrite py_sort_perm. split; [done|]. intros h. rewrite py_sort_perm. split.
  - intros Hh. split; [by intros ->|]. destruct (Hreach h) as [x|x y z Hxy Hyz]; [by right|done|].
    by eapply tc_rtc_r; [apply tc_once|].
  - intros [Hne Hh%tc_rtc]. assert (h ∈ [this_hal] ++ k) as Hin; [|by apply elem_of_cons in Hin as [->|Hin]].
    apply (rtc_closed directly (fun x => x ∈ [this_hal] ++ k) this_hal h Hcl Hh). by left.
Qed.
End imports.

(** ** One HAL's own imports *)
Lemma import_fold l acc r :
  foldlM_py import_step acc l = Ok r ->
  forall h, h ∈ r <-> h ∈ acc \/ exists package, package ∈ l /\ startswith prefix package = true /\
    HalPackageToNameAndVersion (default [] (head (split colons package))) = Ok h.
Proof.
  revert acc. induction l as [|p l IH]; intros acc; cbn [foldlM_py].
  - intros [= <-] h. split; [by left|]. by intros [?|(? & ?%elem_of_nil & _)].
  - intros (acc' & Hs & Hl)%pyres_bind_Ok h. rewrite (IH _ Hl h). clear IH Hl.
    setoid_rewrite elem_of_cons. unfold import_step in Hs. destruct (startswith prefix p) eqn:E.
    + apply pyres_bind_Ok in Hs as (h' & Hh' & [= <-]). rewrite elem_of_cons. split.
      * intros [[->|?]|(q & ? & ?)]; [right; exists p; auto|by left|right; exists q; tauto].
      * intros [?|(q & [->|?] & ? & Hq)]; [auto| |right; eauto]. rewrite Hh' in Hq. injection Hq as ->. auto.
    + injection Hs as ->. split; [intros [?|(q & ? & ?)]; [by left|right; exists q; tauto]|].
      intros [?|(q & [->|?] & ? & ?)]; [by left|congruence|right; eauto].
Qed.

(** The messages of the [.vts] files of a HAL. *)
Lemma VtsSpecProto_messages {Msg} listdir read (Merge : pystr -> pyres Msg) data_file_path n v protos :
  VtsSpecProto listdir read Merge data_file_path n v = Ok protos ->
  exists names, listdir (VtsSpecDir data_file_path n v) = Ok names /\
    forall m, Some m ∈ protos <-> exists name text,
      name ∈ names /\ endswith (bs ".vts") name = true /\
      read (path_join2 (VtsSpecDir data_file_path n v) name) = Ok text /\ Merge text = Ok m.
Proof.
  unfold VtsSpecProto. intros (files & Hn & Hp%mapM_py_Ok)%pyres_bind_Ok.
  pose proof Hn as (names & Hall & [= Hfiles])%pyres_bind_Ok. exists names. split; [done|]. intros m.
  assert (forall name, name ∈ files <-> endswith (bs ".vts") name = true /\ name ∈ names) as Hin
    by (intros name; by rewrite <- Hfiles, py_sort_perm, list_elem_of_filter). clear Hfiles.
  assert (forall name o, name ∈ files -> VtsSpecProto_named listdir read Merge data_file_path n v name = Ok o ->
    exists text m', read (path_join2 (VtsSpecDir data_file_path n v) name) = Ok text /\
      Merge text = Ok m' /\ o = Some m') as Hnamed.
  { intros name o Hname. unfold VtsSpecProto_named. rewrite Hn. cbn [mbind pyres_bind].
    rewrite bool_decide_eq_true_2 by done. intros (text & ? & (m' & ? & [= <-])%pyres_bind_Ok)%pyres_bind_Ok. eauto. }
  rewrite list_elem_of_lookup. split.
  - intros (i & Hi). destruct (Forall2_lookup_r _ _ _ _ _ Hp Hi) as (name & Hname & Ho).
    apply list_elem_of_lookup_2 in Hname.
    destruct (Hnamed _ _ Hname Ho) as (text & m' & ? & ? & [= <-]). apply Hin in Hname as [??]. eauto 8.
  - intros (name & text & ? & ? & Hread & Hm). assert (name ∈ files) as Hname by (by apply Hin).
    pose proof Hname as (i & Hi)%list_elem_of_lookup. destruct (Forall2_lookup_l _ _ _ _ _ Hp Hi) as (o & ? & Ho).
    destruct (Hnamed _ _ Hname Ho) as (text' & m' & Hr & Hm' & ->). exists i. congruence.
Qed.

(** A HAL imports the HALs that the messages of its [.vts] files name: in
    order, each once, never itself, and nothing outside the Android hardware
    packages. *)
Theorem ImportedHals_spec {Msg} (getattr_import : Msg -> list pystr) listdir read Merge data_file_path
    hal_name hal_version r :
  ImportedHals getattr_import listdir read Merge data_file_path (hal_name, hal_version) = Ok r ->
  sorted hal_leb r /\ NoDup r /\
  exists names, listdir (VtsSpecDir data_file_path hal_name hal_version) = Ok names /\
    forall h, h ∈ r <-> h <> (hal_name, hal_version) /\
      exists name text message package,
        name ∈ names /\ endswith (bs ".vts") name = true /\
        read (path_join2 (VtsSpecDir data_file_path hal_name hal_version) name) = Ok text /\
        Merge text = Ok message /\ package ∈ getattr_import message /\
        startswith prefix package = true /\
        HalPackageToNameAndVersion (default [] (head (split colons package))) = Ok h.
Proof.
  unfold ImportedHals. intros (protos & Hp & (hals & Hh & [= <-])%pyres_bind_Ok)%pyres_bind_Ok.
  cbn [fst snd] in Hp. pose proof (import_fold _ _ _ Hh) as Hin.
  destruct (sorted_hals_spec (base.filter (fun h => h <> (hal_name, hal_version)) hals)) as (H1 & H2 & H3).
  split; [done|]. split; [done|].
  destruct (VtsSpecProto_messages _ _ _ _ _ _ _ Hp) as (names & Hn & Hm). exists names. split; [done|]. intros h.
  rewrite H3, list_elem_of_filter, Hin, elem_of_nil.
  setoid_rewrite list_elem_of_join. setoid_rewrite list_elem_of_fmap. split.
  - intros (Hne & [[]|(p & (ps & Hps & (o & -> & Ho)) & Hpre & Hok)]). split; [done|].
    destruct o as [m|]; [|by apply elem_of_nil in Hps]. apply Hm in Ho as (name & text & ? & ? & ? & ?).
    exists name, text, m, p. done.
  - intros (Hne & name & text & m & p & ? & ? & ? & ? & Hpm & Hpre & Hok). split; [done|]. right.
    exists p. split; [|done]. exists (getattr_import m). split; [done|]. exists (Some m). split; [done|].
    apply Hm. eauto 8.
Qed.

(** Three HALs: [a] imports [b] and itself, [b] imports [a] and [c]. *)
Module sample.
Definition spec (data name version : string) : pystr :=
  bs data ++ bs "/spec/hardware/interfaces/" ++ bs name ++ bs "/" ++ bs version ++ bs "/vts".
Definition listdir (dir : pystr) : pyres (list pystr) := Ok [bs "types.txt"; bs "I.vts"].
Definition read (path : pystr) : pyres pystr := Ok path.
Definition Merge (text : pystr) : pyres (list pystr) :=
  Ok (if bool_decide (text = spec "/d" "a" "1.0" ++ bs "/I.vts") then
        [bs "android.hardware.b@1.0::I"; bs "android.hidl.base@1.0::IBase"; bs "android.hardware.a@1.0::types"]
      else if bool_decide (text = spec "/d" "b" "1.0" ++ bs "/I.vts") then
        [bs "android.hardware.c@1.1::I"; bs "android.hardware.a@1.0::I"]
      else []).
Definition a : hal := (bs "a", bs "1.0").
Definition b : hal := (bs "b", bs "1.0").
Definition c : hal := (bs "c", bs "1.1").
End sample.

Example ImportedHals_spec_witness :
  let r := [sample.a; sample.c] in
  ImportedHals (fun m => m) sample.listdir sample.read sample.Merge (bs "/d") sample.b = Ok r /\
  sorted hal_leb r.
Proof.
  intros r. assert (ImportedHals (fun m => m) sample.listdir sample.read sample.Merge (bs "/d") sample.b = Ok r) as H
    by (vm_compute; reflexivity).
  split; [exact H|]. exact (proj1 (ImportedHals_spec _ _ _ _ _ _ _ _ H)).
Defined.

Example IndirectImportedHals_spec_witness :
  let run := IndirectImportedHals (fun m => m) sample.listdir sample.read sample.Merge (bs "/d") 4 in
  run sample.a = Some (Ok [sample.b; sample.c]) /\ exists r, run sample.a = Some (Ok r) /\ NoDup r.
Proof.
  intros run. split; [vm_compute; reflexivity|].
  destruct (IndirectImportedHals_spec (fun m => m) sample.listdir sample.read sample.Merge (bs "/d")
    [sample.a; sample.b; sample.c] 4 sample.a) as (r & H & _ & Hnd & _).
  - intros h [->|[->|[->|[]%elem_of_nil]%elem_of_cons]%elem_of_cons]%elem_of_cons.
    + exists [sample.b]. split; [vm_compute; reflexivity|]. intros x. rewrite !elem_of_cons. tauto.
    + exists [sample.a; sample.c]. split; [vm_compute; reflexivity|]. intros x. rewrite !elem_of_cons. tauto.
    + exists []. split; [vm_compute; reflexivity|]. intros x. rewrite elem_of_nil. tauto.
  - by left.
  - cbn. lia.
  - exists r. split; [exact H|exact Hnd].
Defined.
