(* ===== verification/BootImages.v ===== *)
(** * Firmware images ([src/testcases/host/verify_boot_header/VtsFirmwareBootHeaderVerification.py],
    [src/testcases/host/verify_dtbo/VtsFirmwareDtboVerification.py])

    The checks of the header of a boot or recovery image, and the decompression
    of the entries of a device tree overlay image.  Images are bytes; pulling
    them from the device is left out, and [zlib] is a parameter. *)

From Stdlib Require Import Strings.Byte.
From S2P Require Import Prelude PyStr PyVal Signals BinaryTest Shell.

(** ** Reading a file: the state is the position *)
Section file.
Context (data : pystr).
Definition seek (p : Z) : xstM Z unit := fun _ => (Ret tt, p).
Definition tell : xstM Z Z := fun pos => (Ret pos, pos).
(** Reading past the end gives what there is. *)
Definition read (n : Z) : xstM Z pystr := fun pos =>
  let chunk := take (Z.to_nat n) (drop (Z.to_nat pos) data) in (Ret chunk, (pos + Z.of_nat (length chunk))%Z).
End file.

(** The words of [unpack("9I", buf)] and of [unpack_from(">8I", buf, 0)]. *)
Fixpoint words (en : endian) (n : nat) (buf : pystr) : list Z :=
  match n with O => [] | S n => int_decode en (take 4 buf) :: words en n (drop 4 buf) end.
Definition unpack_9I (buf : pystr) : pyres (list Z) :=
  if (length buf =? 36)%nat then Ok (words Little 9 buf) else Raise StructError.

(** ** Boot images *)
Definition BOOT_HEADER_DTBO_SIZE_OFFSET : Z := 1632.
Definition PLATFORM_API_LEVEL_P : Z := 28.

Definition get_number_of_pages (image_size page_size : Z) : pyres Z :=
  if (page_size =? 0)%Z then Raise ZeroDivisionError else Ok ((image_size + page_size - 1) / page_size)%Z.

Section boot.
(** [zlib.decompress] with a [gzip] header. *)
Context (decompress : pystr -> pyres pystr).
Context (launch_api_level : Z).

Definition checkValidRamdisk (ramdisk_image : pystr) : xres unit :=
  unzipped_ramdisk ← of_pyres (decompress ramdisk_image);
  let cpio_header_magic := take 6 unzipped_ramdisk in
  assertTrue (bool_decide (cpio_header_magic = bs "070701") || bool_decide (cpio_header_magic = bs "070702"))
    (PStr (bs "cpio archive header magic not found in ramdisk")) PNone.

Definition not_zero (n : Z) (msg : string) : xstM Z unit := xlift (assertNotEqual n 0 (PStr (bs msg)) PNone).
Definition read_I (image : pystr) : xstM Z Z := buf ← read image 4; xpure (unpack_uint Little 4 buf).

(** [CheckImageHeader] with the file open. *)
Definition check_header (image : pystr) (is_recovery : bool) : xstM Z unit :=
  _ ← read image 8;
  buf ← read image 36;
  fields ← xpure (unpack_9I buf);
  let field := fun i => nth i fields 0%Z in
  let kernel_size := field 0 in
  let ramdisk_size := field 2 in
  let page_size := field 7 in
  let host_image_header_version := field 8 in
  _ ← not_zero kernel_size "boot.img/recovery.img must contain kernel";
  _ ← (if (PLATFORM_API_LEVEL_P <? launch_api_level)%Z then
         _ ← xlift (assertTrue (2 <=? host_image_header_version)%Z
                      (PStr (bs "Device must atleast have a boot image of version 2")) PNone);
         _ ← not_zero ramdisk_size "boot.img must contain ramdisk";
         num_kernel_pages ← xpure (get_number_of_pages kernel_size page_size);
         _ ← seek (page_size * (1 + num_kernel_pages));
         ramdisk_buf ← read image ramdisk_size;
         xlift (checkValidRamdisk ramdisk_buf)
       else
         xlift (assertTrue (1 <=? host_image_header_version)%Z
                  (PStr (bs "Device must atleast have a boot image of version 1")) PNone));
  _ ← seek BOOT_HEADER_DTBO_SIZE_OFFSET;
  recovery_dtbo_size ← read_I image;
  _ ← read image 8;
  _ ← (if is_recovery then
         not_zero recovery_dtbo_size "recovery partition for non-A/B devices must contain the recovery DTBO"
       else mret tt);
  boot_header_size ← read_I image;
  _ ← (if (1 <? host_image_header_version)%Z then
         dtb_size ← read_I image;
         _ ← not_zero dtb_size "Boot/recovery image must contain DTB";
         _ ← read image 8; mret tt
       else mret tt);
  expected_header_size ← tell;
  xlift (assertEqual boot_header_size expected_header_size
    (PStr (bs "Test failure due to boot header size mismatch. Expected " ++ str_int expected_header_size
             ++ bs " Actual " ++ str_int boot_header_size)) PNone).

(** [CheckImageHeader]: no image is a file that cannot be opened. *)
Definition CheckImageHeader (boot_image : option pystr) (is_recovery : bool) : xres unit :=
  match boot_image with
  | None => fail (PStr (bs "Unable to open boot image file")) PNone
  | Some image => (check_header image is_recovery 0%Z).1
  end.
End boot.

(** ** The layout of the header *)
(** The little-endian word at an offset. *)
Definition u32 (image : pystr) (off : nat) : Z := le_decode (take 4 (drop off image)).

Lemma read_run image n pos :
  (0 <= pos)%Z -> (0 <= n)%Z -> (pos + n <= Z.of_nat (length image))%Z ->
  read image n pos = (Ret (take (Z.to_nat n) (drop (Z.to_nat pos) image)), (pos + n)%Z).
Proof. intros ???. unfold read. rewrite length_take, length_drop. do 2 f_equal. lia. Qed.

Lemma read_I_run image pos :
  (0 <= pos)%Z -> (pos + 4 <= Z.of_nat (length image))%Z ->
  read_I image pos = (Ret (u32 image (Z.to_nat pos)), (pos + 4)%Z).
Proof.
  intros Hp Hl. unfold read_I. erewrite xstM_bind_run by (apply read_run; lia).
  unfold xpure, xlift, unpack_uint. rewrite length_take, length_drop.
  change (Z.to_nat 4) with 4. by rewrite decide_True by lia.
Qed.

Lemma words_nth_gen en n buf i : i < n -> nth i (words en n buf) 0%Z = int_decode en (take 4 (drop (4 * i) buf)).
Proof.
  revert buf i. induction n as [|n IH]; intros buf i Hi; [lia|]. destruct i as [|i]; [done|].
  cbn [words nth]. rewrite IH by lia. rewrite drop_drop. do 3 f_equal. lia.
Qed.

Lemma words_nth n buf i : i < n -> nth i (words Little n buf) 0%Z = u32 buf (4 * i).
Proof. apply words_nth_gen. Qed.

Lemma u32_within image a n off : off + 4 <= n -> u32 (take n (drop a image)) off = u32 image (a + off).
Proof.
  intros H. unfold u32. replace n with (off + (n - off)) by lia.
  rewrite <- take_drop_commute, take_take, drop_drop. do 3 f_equal; lia.
Qed.

(** A guard before the rest: both must pass. *)
Lemma guard_passes {S} (m : xres unit) (k : xstM S unit) s (P : Prop) :
  (m = Ret tt <-> P) -> ((_ ← xlift m; k) s).1 = Ret tt <-> P /\ (k s).1 = Ret tt.
Proof.
  intros H. unfold mbind, xstM_bind, xlift. destruct m as [[]|e]; cbn [fst].
  - tauto.
  - split; [done|]. intros [HP _]. by apply H in HP.
Qed.

Lemma assertNotEqual_passes a b msg extras : assertNotEqual a b msg extras = Ret tt <-> a <> b.
Proof. unfold assertNotEqual, fail_with. destruct (Z.eqb_spec a b); naive_solver. Qed.
Lemma assertEqual_passes a b msg extras : assertEqual a b msg extras = Ret tt <-> a = b.
Proof. unfold assertEqual, fail_with. destruct (Z.eqb_spec a b); naive_solver. Qed.
Lemma assertTrue_passes b msg extras : assertTrue b msg extras = Ret tt <-> b = true.
Proof. unfold assertTrue, fail. destruct b; naive_solver. Qed.

Section layout.
Context (decompress : pystr -> pyres pystr) (launch_api_level : Z) (image : pystr).

Definition kernel_size : Z := u32 image 8.
Definition ramdisk_size : Z := u32 image 16.
Definition page_size : Z := u32 image 36.
Definition header_version : Z := u32 image 40.
Definition recovery_dtbo_size : Z := u32 image 1632.
Definition boot_header_size : Z := u32 image 1644.
Definition dtb_size : Z := u32 image 1648.
(** The ramdisk is behind the page of the header and those of the kernel. *)
Definition ramdisk : pystr :=
  take (Z.to_nat ramdisk_size)
    (drop (Z.to_nat (page_size * (1 + (kernel_size + page_size - 1) / page_size))) image).

(** An image that is good for the device. *)
Definition good_image (is_recovery : bool) : Prop :=
  kernel_size <> 0%Z /\
  (if decide (PLATFORM_API_LEVEL_P < launch_api_level)%Z then
     (2 <= header_version)%Z /\ ramdisk_size <> 0%Z /\ page_size <> 0%Z /\
     exists unzipped, decompress ramdisk = Ok unzipped /\
       (take 6 unzipped = bs "070701" \/ take 6 unzipped = bs "070702")
   else (1 <= header_version)%Z) /\
  (is_recovery = true -> recovery_dtbo_size <> 0%Z) /\
  (if decide (1 < header_version)%Z then dtb_size <> 0%Z /\ boot_header_size = 1660%Z
   else boot_header_size = 1648%Z).

Lemma ramdisk_passes : checkValidRamdisk decompress ramdisk = Ret tt <->
  exists unzipped, decompress ramdisk = Ok unzipped /\
    (take 6 unzipped = bs "070701" \/ take 6 unzipped = bs "070702").
Proof.
  unfold checkValidRamdisk. destruct (decompress ramdisk) as [u|e]; cbn [of_pyres mbind xres_bind].
  - rewrite assertTrue_passes, orb_true_iff, !bool_decide_eq_true. naive_solver.
  - split; [done|]. by intros (? & [=] & _).
Qed.

(** The last part: the sizes behind the fixed offset. *)
Definition rest_of_header (is_recovery : bool) : xstM Z unit :=
  _ ← seek BOOT_HEADER_DTBO_SIZE_OFFSET;
  recovery_dtbo_size ← read_I image;
  _ ← read image 8;
  _ ← (if is_recovery then
         not_zero recovery_dtbo_size "recovery partition for non-A/B devices must contain the recovery DTBO"
       else mret tt);
  boot_header_size ← read_I image;
  _ ← (if (1 <? header_version)%Z then
         dtb_size ← read_I image;
         _ ← not_zero dtb_size "Boot/recovery image must contain DTB";
         _ ← read image 8; mret tt
       else mret tt);
  expected_header_size ← tell;
  xlift (assertEqual boot_header_size expected_header_size
    (PStr (bs "Test failure due to boot header size mismatch. Expected " ++ str_int expected_header_size
             ++ bs " Actual " ++ str_int boot_header_size)) PNone).

Context (long_enough : (1660 <= length image)).

Lemma rest_of_header_passes is_recovery pos :
  (rest_of_header is_recovery pos).1 = Ret tt <->
  (is_recovery = true -> recovery_dtbo_size <> 0%Z) /\
  (if decide (1 < header_version)%Z then dtb_size <> 0%Z /\ boot_header_size = 1660%Z
   else boot_header_size = 1648%Z).
Proof using long_enough.
  clear decompress launch_api_level. unfold rest_of_header, not_zero, BOOT_HEADER_DTBO_SIZE_OFFSET. erewrite xstM_bind_run by reflexivity.
  erewrite xstM_bind_run by (apply read_I_run; lia). erewrite xstM_bind_run by (apply read_run; lia).
  transitivity ((is_recovery = true -> recovery_dtbo_size <> 0%Z) /\
    ((boot_header_size ← read_I image;
      _ ← (if (1 <? header_version)%Z then
             dtb_size ← read_I image;
             _ ← xlift (assertNotEqual dtb_size 0 (PStr (bs "Boot/recovery image must contain DTB")) PNone);
             _ ← read image 8; mret tt
           else mret tt);
      expected_header_size ← tell;
      xlift (assertEqual boot_header_size expected_header_size
        (PStr (bs "Test failure due to boot header size mismatch. Expected " ++ str_int expected_header_size
                 ++ bs " Actual " ++ str_int boot_header_size)) PNone)) 1644%Z).1 = Ret tt).
  { destruct is_recovery; [apply guard_passes|].
    - rewrite assertNotEqual_passes. unfold recovery_dtbo_size. naive_solver.
    - erewrite xstM_bind_run by reflexivity. naive_solver. }
  apply and_iff_compat_l. erewrite xstM_bind_run by (apply read_I_run; lia).
  change (1644 + 4)%Z with 1648%Z. fold boot_header_size. destruct (decide (1 < header_version)%Z) as [Hv|Hv].
  - rewrite (proj2 (Z.ltb_lt _ _) Hv). rewrite xstM_bind_assoc.
    erewrite xstM_bind_run by (apply read_I_run; lia). rewrite xstM_bind_assoc.
    rewrite (guard_passes _ _ _ (dtb_size <> 0%Z)) by apply assertNotEqual_passes.
    apply and_iff_compat_l. rewrite xstM_bind_assoc. erewrite xstM_bind_run by (apply read_run; lia).
    erewrite xstM_bind_run by reflexivity. erewrite xstM_bind_run by reflexivity. apply assertEqual_passes.
  - rewrite (proj2 (Z.ltb_ge _ _)) by lia. erewrite xstM_bind_run by reflexivity.
    erewrite xstM_bind_run by reflexivity. apply assertEqual_passes.
Qed.

(** The check of an image that holds the whole header, which reads it as a
    stream, passes exactly when the words at the offsets of the layout are good:
    a kernel; for a device launched after Android P version 2, a ramdisk that is
    a gzipped archive at the page after the kernel, and otherwise version 1; for
    a recovery image its overlay; from version 2 a device tree; and the size that
    the header gives of itself, 1648 bytes, 1660 from version 2. *)
Theorem CheckImageHeader_layout is_recovery :
  CheckImageHeader decompress launch_api_level (Some image) is_recovery = Ret tt <-> good_image is_recovery.
Proof using long_enough.
  unfold CheckImageHeader, check_header. unfold not_zero. erewrite xstM_bind_run by (apply read_run; lia).
  erewrite xstM_bind_run by (apply read_run; lia). change (Z.to_nat (0 + 8)) with 8. change (Z.to_nat 36) with 36.
  erewrite xstM_bind_run by
    (unfold xpure, xlift, unpack_9I; rewrite length_take, length_drop, (proj2 (Nat.eqb_eq _ 36)) by lia; reflexivity).
  rewrite !words_nth, !u32_within by lia.
  change (8 + 4 * 0) with 8. change (8 + 4 * 2) with 16. change (8 + 4 * 7) with 36. change (8 + 4 * 8) with 40.
  fold kernel_size ramdisk_size page_size header_version.
  pose proof (rest_of_header_passes is_recovery) as Hrest. unfold rest_of_header, not_zero in Hrest.
  unfold good_image. rewrite (guard_passes _ _ _ (kernel_size <> 0%Z)) by apply assertNotEqual_passes.
  apply and_iff_compat_l. destruct (decide (PLATFORM_API_LEVEL_P < launch_api_level)%Z) as [Hl|Hl].
  - rewrite (proj2 (Z.ltb_lt _ _) Hl). rewrite xstM_bind_assoc.
    rewrite (guard_passes _ _ _ (2 <= header_version)%Z) by (rewrite assertTrue_passes; apply Z.leb_le).
    rewrite xstM_bind_assoc, (guard_passes _ _ _ (ramdisk_size <> 0%Z)) by apply assertNotEqual_passes.
    rewrite xstM_bind_assoc. unfold get_number_of_pages. destruct (Z.eqb_spec page_size 0) as [E|E].
    { split; [by intros (_ & _ & [=])|]. by intros ((_ & _ & ? & _) & _). }
    erewrite xstM_bind_run by reflexivity. rewrite xstM_bind_assoc. erewrite xstM_bind_run by reflexivity.
    rewrite xstM_bind_assoc. erewrite xstM_bind_run by reflexivity. fold ramdisk.
    rewrite (guard_passes _ _ _ _ ramdisk_passes). rewrite Hrest. tauto.
  - rewrite (proj2 (Z.ltb_ge PLATFORM_API_LEVEL_P launch_api_level)) by lia.
    rewrite (guard_passes _ _ _ (1 <= header_version)%Z) by (rewrite assertTrue_passes; apply Z.leb_le).
    by rewrite Hrest.
Qed.
End layout.

(** A header of version 2 and no more. *)
Definition sample_image : pystr :=
  bs "ANDROID!" ++ mjoin (int_encode Little 4 <$> [1; 0; 4; 0; 0; 0; 0; 16; 2]%Z) ++ replicate 1588 Byte.x00 ++
  mjoin (int_encode Little 4 <$> [0; 0; 0; 1660; 7; 0; 0]%Z).

Example CheckImageHeader_layout_witness :
  1660 <= length sample_image /\
  CheckImageHeader (fun _ => Ok (bs "070701...")) 29 (Some sample_image) false = Ret tt.
Proof.
  assert (1660 <= length sample_image) as Hl by (apply (bool_decide_unpack _); vm_compute; exact I).
  split; [exact Hl|]. apply (CheckImageHeader_layout _ _ _ Hl). unfold good_image.
  assert (kernel_size sample_image = 1%Z) as -> by (vm_compute; reflexivity).
  assert (ramdisk_size sample_image = 4%Z) as -> by (vm_compute; reflexivity).
  assert (page_size sample_image = 16%Z) as -> by (vm_compute; reflexivity).
  assert (header_version sample_image = 2%Z) as -> by (vm_compute; reflexivity).
  assert (dtb_size sample_image = 7%Z) as -> by (vm_compute; reflexivity).
  assert (boot_header_size sample_image = 1660%Z) as -> by (vm_compute; reflexivity).
  rewrite !decide_True by (unfold PLATFORM_API_LEVEL_P; lia). split_and!; try lia; try done.
  exists (bs "070701..."). split; [reflexivity|by left].
Defined.

(** ** Overlay images ([VtsFirmwareDtboVerification]) *)
Definition DTBO_HEADER_SIZE : Z := 32.
Definition DT_HEADER_FLAGS_OFFSET : Z := 16.
Definition COMPRESSION_FLAGS_BIT_MASK : Z := 15.
Definition FDT_MAGIC : Z := 3490578157.
Definition NO_COMPRESSION : Z := 0.
Definition ZLIB_COMPRESSION : Z := 1.
Definition GZIP_COMPRESSION : Z := 2.

(** Writing at the start of a file that is not truncated. *)
Definition overwrite (old new : pystr) : pystr := new ++ drop (length new) old.

Section dtbo.
Context (decompress : pystr -> pyres pystr).
Context (image : pystr) (unpacked_dtbo_path : pystr).
(** The files of the host that the image was unpacked to. *)
Abbreviation files := (gmap pystr pystr).

Definition dt_entry_path (dt_entry_idx : Z) : pystr := unpacked_dtbo_path ++ bs "." ++ str_int dt_entry_idx.

Definition read_at (pos n : Z) : pystr := take (Z.to_nat n) (drop (Z.to_nat pos) image).

(** One entry: its flags, and the file when it is compressed.  What was written
    before an exception stays written. *)
Definition dt_entry (dt_entries_offset dt_entry_idx : Z) : xstM files unit :=
  flags ← xpure (unpack_uint Big 4 (read_at (dt_entries_offset + DT_HEADER_FLAGS_OFFSET) 4));
  let compression_format := Z.land flags COMPRESSION_FLAGS_BIT_MASK in
  if negb (bool_decide (compression_format = ZLIB_COMPRESSION \/ compression_format = GZIP_COMPRESSION)) then
    xlift (assertEqual compression_format NO_COMPRESSION
      (PStr (bs "Unknown compression format " ++ str_int compression_format)) PNone)
  else
    fs ← xget;
    old ← xpure (from_opt IOError (fs !! dt_entry_path dt_entry_idx));
    unzipped_dtbo_file ← xpure (decompress old);
    let new := overwrite old unzipped_dtbo_file in
    _ ← xput (<[dt_entry_path dt_entry_idx := new]> fs);
    fdt_magic ← xpure (unpack_uint Big 4 (take 4 new));
    xlift (assertEqual fdt_magic FDT_MAGIC (PStr (bs "Bad FDT(Flattened Device Tree) Format")) PNone).

Fixpoint dt_entries (dt_entries_offset dt_entry_size : Z) (dt_entry_idxs : list Z) : xstM files unit :=
  match dt_entry_idxs with
  | [] => mret tt
  | dt_entry_idx :: dt_entry_idxs =>
      _ ← dt_entry dt_entries_offset dt_entry_idx;
      dt_entries (dt_entries_offset + dt_entry_size) dt_entry_size dt_entry_idxs
  end.

Definition DecompressDTEntries : xstM files unit :=
  let buf := read_at 0 DTBO_HEADER_SIZE in
  fields ← xpure (if (length buf =? 32)%nat then Ok (words Big 8 buf) else Raise StructError);
  let field := fun i => nth i fields 0%Z in
  let dt_entry_size := field 3 in
  let dt_entry_count := field 4 in
  let dt_entries_offset := field 5 in
  let version := field 7 in
  if (0 <? version)%Z then dt_entries dt_entries_offset dt_entry_size (seqZ 0 dt_entry_count) else mret tt.

(** What the file of an entry becomes when the entry passes. *)
Definition entry_good (fs : files) (dt_entries_offset i : Z) (after : option pystr) : Prop :=
  exists flags, unpack_uint Big 4 (read_at (dt_entries_offset + DT_HEADER_FLAGS_OFFSET) 4) = Ok flags /\
    let compression_format := Z.land flags COMPRESSION_FLAGS_BIT_MASK in
    (compression_format = NO_COMPRESSION /\ after = fs !! dt_entry_path i) \/
    ((compression_format = ZLIB_COMPRESSION \/ compression_format = GZIP_COMPRESSION) /\
      exists old unzipped, fs !! dt_entry_path i = Some old /\ decompress old = Ok unzipped /\
        unpack_uint Big 4 (take 4 (overwrite old unzipped)) = Ok FDT_MAGIC /\
        after = Some (overwrite old unzipped)).

Lemma dt_entry_path_inj i j : (0 <= i)%Z -> (0 <= j)%Z -> dt_entry_path i = dt_entry_path j -> i = j.
Proof.
  intros Hi Hj H. unfold dt_entry_path in H. apply app_inv_head in H. apply app_inv_head in H.
  unfold str_int in H. rewrite (proj2 (Z.ltb_ge i 0)), (proj2 (Z.ltb_ge j 0)) in H by done.
  pose proof (py_int_str i Hi) as E. rewrite H, py_int_str in E by done. by injection E.
Qed.

Lemma dt_entry_spec off i fs fs' :
  dt_entry off i fs = (Ret tt, fs') <->
  entry_good fs off i (fs' !! dt_entry_path i) /\ forall p, p <> dt_entry_path i -> fs' !! p = fs !! p.
Proof.
  unfold dt_entry, entry_good. destruct (unpack_uint Big 4 _) as [flags|e] eqn:Ef.
  2:{ split; [by intros [=]|]. by intros [(? & [=] & _) _]. }
  erewrite xstM_bind_run by reflexivity. cbv zeta. set (fmt := Z.land flags COMPRESSION_FLAGS_BIT_MASK).
  assert (forall P : Z -> Prop, (exists f, Ok flags = Ok f /\ P f) <-> P flags) as Hex
    by (intros P; split; [by intros (? & [= <-] & ?)|by exists flags]).
  rewrite (Hex (fun f => (Z.land f COMPRESSION_FLAGS_BIT_MASK = NO_COMPRESSION /\ _) \/ _)). fold fmt. clear Hex.
  destruct (bool_decide_reflect (fmt = ZLIB_COMPRESSION \/ fmt = GZIP_COMPRESSION)) as [Hc|Hc]; cbn [negb].
  - assert (fmt <> NO_COMPRESSION) as Hn by (by destruct Hc as [->| ->]).
    erewrite xstM_bind_run by reflexivity. destruct (fs !! dt_entry_path i) as [old|] eqn:Eo.
    2:{ split; [by intros [=]|]. by intros [[[? _]|(_ & ? & ? & [=] & _)] _]. }
    erewrite xstM_bind_run by reflexivity. destruct (decompress old) as [z|e] eqn:Ez.
    2:{ split; [by intros [=]|]. intros [[[? _]|(_ & ? & ? & [= <-] & ? & _)] _]; congruence. }
    erewrite xstM_bind_run by reflexivity. cbv zeta. erewrite xstM_bind_run by reflexivity.
    destruct (unpack_uint Big 4 (take 4 (overwrite old z))) as [m|e] eqn:Em.
    2:{ split; [by intros [=]|]. intros [[[? _]|(_ & ? & ? & [= <-] & ? & ? & _)] _]; congruence. }
    erewrite xstM_bind_run by reflexivity. unfold xlift. split.
    + intros [= Hm <-]. apply assertEqual_passes in Hm as ->. rewrite lookup_insert_eq. split.
      * right. split; [done|]. by exists old, z.
      * intros p Hp. by rewrite lookup_insert_ne.
    + intros [[[? _]|(_ & old' & z' & [= <-] & Hz & Hm & Hfs)] Hrest]; [done|].
      assert (z' = z) as -> by congruence. rewrite (proj2 (assertEqual_passes _ _ _ _)) by congruence.
      f_equal. apply map_eq. intros p. destruct (decide (p = dt_entry_path i)) as [->|Hp].
      * by rewrite lookup_insert_eq.
      * rewrite lookup_insert_ne by done. by rewrite Hrest.
  - unfold xlift. split.
    + intros [= Hm <-]. apply assertEqual_passes in Hm. split; [|done]. left. done.
    + intros [[[Hm Hp]|[? _]] Hrest]; [|done]. rewrite (proj2 (assertEqual_passes _ _ _ _)) by done.
      f_equal. apply map_eq. intros p. destruct (decide (p = dt_entry_path i)) as [->|Hp']; [done|by rewrite Hrest].
Qed.

Lemma entry_good_file fs fs1 off i after :
  fs1 !! dt_entry_path i = fs !! dt_entry_path i -> entry_good fs off i after <-> entry_good fs1 off i after.
Proof. unfold entry_good. by intros ->. Qed.

Lemma dt_entries_spec n a off size fs fs' :
  (0 <= a)%Z ->
  dt_entries off size (seqZ a (Z.of_nat n)) fs = (Ret tt, fs') <->
  (forall i, (a <= i < a + Z.of_nat n)%Z -> entry_good fs (off + (i - a) * size) i (fs' !! dt_entry_path i)) /\
  (forall p, (forall i, (a <= i < a + Z.of_nat n)%Z -> p <> dt_entry_path i) -> fs' !! p = fs !! p).
Proof.
  revert a off fs. induction n as [|n IH]; intros a off fs Ha.
  { cbn. split.
    - intros [= <-]. split; [lia|done].
    - intros [_ H]. f_equal. apply map_eq. intros p. symmetry. apply H. lia. }
  rewrite seqZ_cons by lia. replace (Z.pred (Z.of_nat (S n))) with (Z.of_nat n) by lia. cbn [dt_entries].
  rewrite xstM_bind_Ret. split.
  - intros ([] & fs1 & [H1 H2]%dt_entry_spec & [H3 H4]%IH); [|lia].
    assert (forall i, (a < i < a + Z.of_nat (S n))%Z -> dt_entry_path i <> dt_entry_path a) as Hne
      by (intros i Hi E; apply dt_entry_path_inj in E; lia).
    split.
    + intros i Hi. destruct (decide (i = a)) as [->|Hia].
      * replace (off + (a - a) * size)%Z with off by lia. rewrite H4; [exact H1|].
        intros j Hj E. apply (Hne j); [lia|done].
      * replace (off + (i - a) * size)%Z with (off + size + (i - Z.succ a) * size)%Z by lia.
        apply (entry_good_file _ fs1); [apply H2, Hne; lia|]. apply H3. lia.
    + intros p Hp. rewrite H4, H2; [done| |]; [apply Hp; lia|]. intros i Hi. apply Hp. lia.
  - intros [H1 H2].
    assert (forall i, (a < i < a + Z.of_nat (S n))%Z -> dt_entry_path i <> dt_entry_path a) as Hne
      by (intros i Hi E; apply dt_entry_path_inj in E; lia).
    set (fs1 := partial_alter (fun _ => fs' !! dt_entry_path a) (dt_entry_path a) fs).
    assert (fs1 !! dt_entry_path a = fs' !! dt_entry_path a) as E1 by apply lookup_partial_alter_eq.
    assert (forall p, p <> dt_entry_path a -> fs1 !! p = fs !! p) as E2
      by (intros p Hp; by apply lookup_partial_alter_ne).
    exists tt, fs1. split; [apply dt_entry_spec; split; [|done]|apply IH; [lia|]; split].
    + rewrite E1. specialize (H1 a ltac:(lia)). by replace (off + (a - a) * size)%Z with off in H1 by lia.
    + intros i Hi. apply (entry_good_file fs); [apply E2, Hne; lia|].
      replace (off + size + (i - Z.succ a) * size)%Z with (off + (i - a) * size)%Z by lia. apply H1. lia.
    + intros p Hp. destruct (decide (p = dt_entry_path a)) as [->|Hpa]; [by rewrite E1|].
      rewrite E2 by done. apply H2. intros i Hi. destruct (decide (i = a)) as [->|]; [done|apply Hp; lia].
Qed.

(** The words of the header of an overlay image. *)
Definition dtbo_word (i : nat) : Z := int_decode Big (take 4 (drop (4 * i) image)).

(** Unpacked entries are decompressed exactly as the table of the image asks:
    with a header of version 1 or more the run passes if and only if every entry
    is marked as not compressed, and its file stays, or as zlib or gzip, and its
    file is replaced by what it decompresses to, a device tree; no other file is
    touched.  A header of version 0 leaves all files as they are. *)
Theorem DecompressDTEntries_spec fs fs' :
  32 <= length image ->
  DecompressDTEntries fs = (Ret tt, fs') <->
  if decide (0 < dtbo_word 7)%Z then
    (forall i, (0 <= i < dtbo_word 4)%Z ->
      entry_good fs (dtbo_word 5 + i * dtbo_word 3) i (fs' !! dt_entry_path i)) /\
    (forall p, (forall i, (0 <= i < dtbo_word 4)%Z -> p <> dt_entry_path i) -> fs' !! p = fs !! p)
  else fs' = fs.
Proof.
  intros Hl. unfold DecompressDTEntries, read_at, DTBO_HEADER_SIZE.
  change (Z.to_nat 32) with 32. change (Z.to_nat 0) with 0. rewrite drop_0.
  erewrite xstM_bind_run by
    (unfold xpure, xlift; rewrite length_take, (proj2 (Nat.eqb_eq _ 32)) by lia; reflexivity).
  assert (forall i, i < 8 -> nth i (words Big 8 (take 32 image)) 0%Z = dtbo_word i) as Hw.
  { intros i Hi. rewrite words_nth_gen by lia. unfold dtbo_word. f_equal.
    replace 32 with (4 * i + (32 - 4 * i)) by lia. rewrite <- take_drop_commute, take_take. f_equal. lia. }
  rewrite !Hw by lia. pose proof (int_decode_range Big (take 4 (drop (4 * 4) image))) as H4. fold (dtbo_word 4) in H4.
  destruct (decide (0 < dtbo_word 7)%Z) as [Hv|Hv].
  - rewrite (proj2 (Z.ltb_lt _ _) Hv). rewrite <- (Z2Nat.id (dtbo_word 4)) by lia.
    rewrite dt_entries_spec by lia. rewrite Z.add_0_l. by setoid_rewrite Z.sub_0_r.
  - rewrite (proj2 (Z.ltb_ge _ _)) by lia. split; [by intros [= <-]|by intros ->].
Qed.
End dtbo.

(** Two entries, the second one compressed. *)
Definition sample_dtbo : pystr :=
  mjoin (int_encode Big 4 <$> [0; 0; 32; 32; 2; 32; 2048; 1]%Z) ++
  mjoin (int_encode Big 4 <$> [0; 0; 0; 0; 0; 0; 0; 0]%Z) ++ mjoin (int_encode Big 4 <$> [0; 0; 0; 0; 2; 0; 0; 0]%Z).
Definition sample_files : gmap pystr pystr := <[bs "d.0" := bs "plain"]> {[bs "d.1" := bs "zip"]}.
Definition unzip (b : pystr) : pyres pystr := Ok (int_encode Big 4 FDT_MAGIC ++ b).

Example DecompressDTEntries_spec_witness :
  exists fs, DecompressDTEntries unzip sample_dtbo (bs "d") sample_files = (Ret tt, fs) /\
    exists new, fs !! bs "d.1" = Some (overwrite (bs "zip") new).
Proof.
  set (fs := <[bs "d.1" := int_encode Big 4 FDT_MAGIC ++ bs "zip"]> sample_files).
  exists fs. split; [|exists (int_encode Big 4 FDT_MAGIC ++ bs "zip"); vm_compute; reflexivity].
  apply (DecompressDTEntries_spec unzip sample_dtbo (bs "d") sample_files fs).
  - apply (bool_decide_unpack _). vm_compute. exact I.
  - assert (dtbo_word sample_dtbo 7 = 1%Z) as -> by (vm_compute; reflexivity).
    assert (dtbo_word sample_dtbo 4 = 2%Z) as -> by (vm_compute; reflexivity).
    assert (dtbo_word sample_dtbo 5 = 32%Z) as -> by (vm_compute; reflexivity).
    assert (dtbo_word sample_dtbo 3 = 32%Z) as -> by (vm_compute; reflexivity).
    rewrite decide_True by lia. split.
    + intros i Hi. assert (i = 0%Z \/ i = 1%Z) as [->| ->] by lia.
      * exists 0%Z. split; [vm_compute; reflexivity|]. left. split; vm_compute; reflexivity.
      * exists 2%Z. split; [vm_compute; reflexivity|]. right. split; [by right|].
        exists (bs "zip"), (int_encode Big 4 FDT_MAGIC ++ bs "zip").
        split; [vm_compute; reflexivity|]. split; [reflexivity|]. split; vm_compute; reflexivity.
    + intros p Hp. unfold fs. rewrite lookup_insert_ne; [done|]. intros E. apply (Hp 1%Z ltac:(lia)). by rewrite <- E.
Defined.

(** The rest of a file stays behind what is shorter than it. *)
Example overwrite_leaves_tail : overwrite (bs "compressed") (bs "tree") = bs "treeressed".
Proof. reflexivity. Qed.
