(* ===== verification/Config.v ===== *)
(** * Configurations ([src/runners/host/config_parser.py])

    The configuration of a run: the default one, the one of a file with its
    checks, the separation of its test beds, and the test specifiers of a command
    line or a file.  A JSON object is a map; reading a file, the working
    directory and the home directory are arguments. *)

From Stdlib Require Import Strings.Byte.
From S2P Require Import Prelude PyStr PyVal ListUtils BinaryTest VtsSpec.

Abbreviation config := (gmap pystr pyval).

(** ** Keys ([keys.py]) *)
Definition KEY_TESTBED : pystr := bs "test_bed".
Definition KEY_TESTBED_NAME : pystr := bs "name".
Definition KEY_LOG_PATH : pystr := bs "log_path".
Definition KEY_TEST_PATHS : pystr := bs "test_paths".
Definition RESERVED_KEYS : list pystr := [KEY_TESTBED; KEY_LOG_PATH; KEY_TEST_PATHS].

(** [utils.valid_filename_chars] *)
Definition valid_filename_char (b : Byte.byte) : bool :=
  let z := byteZ b in
  bool_decide (b = Byte.x2d \/ b = Byte.x5f \/ b = Byte.x2e) || is_digit b ||
  ((65 <=? z) && (z <=? 90))%Z || ((97 <=? z) && (z <=? 122))%Z.

(** ** The exceptions of a faulty configuration: a user error, with its text, or
    another one. *)
Inductive cres (A : Type) := COk (a : A) | USERError (text : pystr) | COther (e : pyexc).
Arguments COk {_} _.
Arguments USERError {_} _.
Arguments COther {_} _.
#[export] Instance cres_ret : MRet cres := fun A a => COk a.
#[export] Instance cres_bind : MBind cres := fun A B f m =>
  match m with COk a => f a | USERError t => USERError t | COther e => COther e end.
Definition of_py {A} (m : pyres A) : cres A := match m with Ok a => COk a | Raise e => COther e end.

(** [d[k]] of any object. *)
Definition item (v : pyval) (k : pystr) : pyres pyval :=
  match v with
  | PDict d => from_opt KeyError ((list_to_map d : config) !! k)
  | _ => Raise TypeError
  end.
(** [for x in v]: the items of a list, the keys of a dictionary, the characters of
    a string. *)
Definition iterate (v : pyval) : pyres (list pyval) :=
  match v with
  | PList l => Ok l
  | PDict d => Ok ((fun kv => PStr kv.1) <$> d)
  | PStr s => Ok ((fun b => PStr [b]) <$> s)
  | _ => Raise TypeError
  end.

(** ** Checks *)
Fixpoint validate_keys (ks : list pystr) (test_config : config) : cres unit :=
  match ks with
  | [] => COk tt
  | k :: ks =>
      match test_config !! k with
      | None => USERError (bs "Required key " ++ k ++ bs " missing in test config.")
      | Some _ => validate_keys ks test_config
      end
  end.
Definition validate_test_config : config -> cres unit := validate_keys RESERVED_KEYS.

Fixpoint validate_chars (name : pystr) : cres unit :=
  match name with
  | [] => COk tt
  | l :: name =>
      if valid_filename_char l then validate_chars name
      else USERError (bs "Char '" ++ [l] ++ bs "' is not allowed in test bed names.")
  end.
(** The text for a name of another type names the type: it is left open. *)
Definition validate_testbed_name (name : pyval) : cres pystr :=
  if negb (truthy name) then USERError (bs "Test bed names can't be empty.")
  else match name with
       | PStr s => _ ← validate_chars s; COk s
       | _ => USERError (bs "Test bed names have to be string.")
       end.

Fixpoint validate_testbeds (seen_names : list pystr) (testbed_configs : list pyval) : cres unit :=
  match testbed_configs with
  | [] => COk tt
  | bed :: testbed_configs =>
      name ← of_py (item bed KEY_TESTBED_NAME);
      name ← validate_testbed_name name;
      if bool_decide (name ∈ seen_names) then USERError (bs "Duplicate testbed name " ++ name ++ bs " found.")
      else validate_testbeds (name :: seen_names) testbed_configs
  end.
Definition validate_testbed_configs : list pyval -> cres unit := validate_testbeds [].

(** ** Loading *)
Definition DEFAULT_CONFIG_TEMPLATE : config :=
  <[KEY_TESTBED := PDict [(bs "AndroidDevice", PStr (bs "*"))]]>
  (<[KEY_LOG_PATH := PStr (bs "/tmp/logs")]>
  (<[KEY_TEST_PATHS := PList [PStr (bs "./")]]>
  {[bs "enable_web" := PBool false]})).
Definition GetDefaultConfig (test_name : pystr) : config :=
  <[KEY_TESTBED := PDict [(bs "AndroidDevice", PStr (bs "*")); (KEY_TESTBED_NAME, PStr test_name)]]>
    DEFAULT_CONFIG_TEMPLATE.

(** The beds that the filters name. *)
Fixpoint filter_beds (tb_filters : list pystr) (beds : list pyval) : pyres (list pyval) :=
  match beds with
  | [] => Ok []
  | tb :: beds =>
      name ← item tb KEY_TESTBED_NAME;
      tbs ← filter_beds tb_filters beds;
      Ok (match name with PStr s => if decide (s ∈ tb_filters) then tb :: tbs else tbs | _ => tbs end)
  end.

Section load.
(** The file, and [utils.abs_path]. *)
Context (load_config : pyres config) (abs_path : pystr -> pystr).

(** One configuration for a bed: its keys come a level up. *)
Definition unpack_bed (configs : config) (original_bed_config : pyval) : pyres config :=
  match original_bed_config with
  | PDict d => Ok ((list_to_map d : config) ∪ <[KEY_TESTBED := original_bed_config]> configs)
  | _ => Raise ValueError
  end.

(** The part inside the [try]: [None] when the number of beds is not the number of
    filters. *)
Definition read_config (tb_filters : list pystr) (baseline_config : option config)
    : cres (option (config * list pyval)) :=
  configs ← of_py load_config;
  let configs :=
    match configs !! KEY_TESTBED, baseline_config with
    | None, Some baseline => baseline ∪ configs
    | _, _ => configs
    end in
  configs ← (match tb_filters with
             | [] => COk (Some configs)
             | _ =>
                 v ← of_py (from_opt KeyError (configs !! KEY_TESTBED));
                 tbs ← of_py (iterate v ≫= filter_beds tb_filters);
                 COk (if (length tbs =? length tb_filters)%nat then Some (<[KEY_TESTBED := PList tbs]> configs)
                      else None)
             end);
  match configs with
  | None => COk None
  | Some configs =>
      _ ← validate_test_config configs;
      v ← of_py (from_opt KeyError (configs !! KEY_TESTBED));
      beds ← of_py (iterate v);
      _ ← validate_testbed_configs beds;
      log_path ← of_py (from_opt KeyError (configs !! KEY_LOG_PATH));
      match log_path with
      | PStr path => COk (Some (<[KEY_LOG_PATH := PStr (abs_path path)]> configs, beds))
      | _ => COther AttributeError
      end
  end.

(** [load_test_config_file]: nothing when the configuration is faulty. *)
Definition load_test_config_file (tb_filters : list pystr) (baseline_config : option config)
    : pyres (option (list config)) :=
  match read_config tb_filters baseline_config with
  | COk (Some (configs, beds)) =>
      l ← mapM_py (unpack_bed (delete KEY_TESTBED configs)) beds; Ok (Some l)
  | _ => Ok None
  end.
End load.

(** ** Test specifiers *)
Definition validate_test_class_name (test_cls_name : pystr) : cres unit :=
  if endswith (bs "Test") test_cls_name then COk tt
  else USERError (bs "Requested test class '" ++ test_cls_name
         ++ bs "' does not follow the test class naming convention *Test.").

Fixpoint clean_names (test_cls_name : pystr) (elems : list pystr) : cres (list pystr) :=
  match elems with
  | [] => COk []
  | elem :: elems =>
      let test_case_name := strip elem in
      if startswith (bs "test_") test_case_name then
        l ← clean_names test_cls_name elems; COk (test_case_name :: l)
      else USERError (bs "Requested test case '" ++ test_case_name ++ bs "' in test class '" ++ test_cls_name
             ++ bs "' does not follow the test case naming convention test_*.")
  end.

Definition parse_one_test_specifier (item : pystr) : cres (pystr * option (list pystr)) :=
  match split (bs ":") item with
  | [test_cls_name] => _ ← validate_test_class_name test_cls_name; COk (test_cls_name, None)
  | [test_cls_name; test_case_names] =>
      _ ← validate_test_class_name test_cls_name;
      l ← clean_names test_cls_name (split (bs ",") test_case_names);
      COk (test_cls_name, Some l)
  | _ => USERError (bs "Syntax error in test specifier " ++ item)
  end.

Fixpoint parse_test_list (test_list : list pystr) : cres (list (pystr * option (list pystr))) :=
  match test_list with
  | [] => COk []
  | elem :: test_list => x ← parse_one_test_specifier elem; l ← parse_test_list test_list; COk (x :: l)
  end.

(** [_parse_test_file]: a line after one that ends in a colon or a comma belongs to
    it.  The lines so far, the last one first. *)
Definition test_file_line (tf : list pystr) (line : pystr) : list pystr :=
  match strip line with
  | [] => tf
  | line =>
      match tf with
      | last :: tf' =>
          if endswith (bs ":") last || endswith (bs ",") last then (last ++ line) :: tf' else line :: tf
      | [] => [line]
      end
  end.
Definition parse_test_file (lines : list pystr) : list pystr := reverse (foldl test_file_line [] lines).

(** ** What is loaded *)
(** A bed with a proper name. *)
Definition bed_named (bed : pyval) (name : pystr) : Prop :=
  exists d, bed = PDict d /\ (list_to_map d : config) !! KEY_TESTBED_NAME = Some (PStr name) /\
    name <> [] /\ forallb valid_filename_char name = true.

Lemma validate_chars_ok name : validate_chars name = COk tt <-> forallb valid_filename_char name = true.
Proof. induction name as [|b l IH]; cbn [validate_chars forallb]; [done|]. by destruct (valid_filename_char b). Qed.

Lemma cres_bind_COk {A B} (m : cres A) (f : A -> cres B) b :
  (m ≫= f) = COk b <-> exists a, m = COk a /\ f a = COk b.
Proof. destruct m; cbn; naive_solver. Qed.

Lemma of_py_COk {A} (m : pyres A) a : of_py m = COk a <-> m = Ok a.
Proof. destruct m; naive_solver. Qed.

Lemma from_opt_Ok {A} e (o : option A) a : from_opt e o = Ok a <-> o = Some a.
Proof. destruct o; naive_solver. Qed.

Lemma bed_named_spec bed name :
  (v ← of_py (item bed KEY_TESTBED_NAME); validate_testbed_name v) = COk name <-> bed_named bed name.
Proof.
  unfold bed_named. rewrite cres_bind_COk. setoid_rewrite of_py_COk. split.
  - intros (v & Hv & Hn). unfold item in Hv. destruct bed as [| | | | |d|]; try done. exists d.
    apply from_opt_Ok in Hv. unfold validate_testbed_name in Hn. destruct (truthy v) eqn:Et; [|done].
    cbn [negb] in Hn. destruct v as [| | |s| | |]; try done.
    apply cres_bind_COk in Hn as ([] & Hc & [= ->]). apply validate_chars_ok in Hc. split_and!; try done.
    intros ->. by cbn in Et.
  - intros (d & -> & Hd & Hne & Hc). exists (PStr name). unfold item. rewrite Hd. split; [done|].
    unfold validate_testbed_name. cbn [truthy]. rewrite bool_decide_eq_false_2 by done. cbn [negb].
    by rewrite (proj2 (validate_chars_ok name) Hc).
Qed.

Lemma validate_testbeds_spec seen beds :
  validate_testbeds seen beds = COk tt <->
  exists names, Forall2 bed_named beds names /\ NoDup names /\ forall n, n ∈ names -> n ∉ seen.
Proof.
  revert seen. induction beds as [|bed beds IH]; intros seen; cbn [validate_testbeds].
  - split; [|done]. intros _. exists []. split; [constructor|]. split; [constructor|]. by intros n ?%elem_of_nil.
  - transitivity (exists name, bed_named bed name /\ name ∉ seen /\ validate_testbeds (name :: seen) beds = COk tt).
    + setoid_rewrite <- bed_named_spec. rewrite cres_bind_COk. setoid_rewrite cres_bind_COk.
      split.
      * intros (v & Hv & name & Hn & Hr). exists name. split; [by exists v|]. by destruct (bool_decide_reflect (name ∈ seen)).
      * intros (name & (v & Hv & Hn) & Hs & Hr). exists v. split; [done|]. exists name. split; [done|].
        by rewrite bool_decide_eq_false_2.
    + setoid_rewrite IH. split.
      * intros (name & Hb & Hs & names & Hbs & Hnd & Hd). exists (name :: names). split; [by constructor|].
        split; [constructor; [|done]; intros Hin; by apply (Hd name Hin); left|].
        intros n [->|Hn]%elem_of_cons; [done|]. intros Hns. by apply (Hd n Hn); right.
      * intros (names & Hbs & Hnd & Hd). apply Forall2_cons_inv_l in Hbs as (name & names' & Hb & Hbs & ->).
        apply NoDup_cons in Hnd as [Hnin Hnd]. exists name. split; [done|]. split; [apply Hd; by left|].
        exists names'. split; [done|]. split; [done|]. intros n Hn [->|Hns]%elem_of_cons; [done|].
        apply (Hd n); [by right|done].
Qed.

Section loaded.
Context (load_config : pyres config) (abs_path : pystr -> pystr).

(** The configuration with the baseline, when the file names no device. *)
Definition with_baseline (c : config) (baseline_config : option config) : config :=
  match c !! KEY_TESTBED, baseline_config with None, Some baseline => baseline ∪ c | _, _ => c end.

(** The beds that are run: those that the filters name, as many as filters. *)
Definition selected (tb_filters : list pystr) (all beds : list pyval) : Prop :=
  match tb_filters with
  | [] => beds = all
  | _ => filter_beds tb_filters all = Ok beds /\ length beds = length tb_filters
  end.

(** The configuration of one bed: its own values hide the general ones. *)
Definition config_of (c : config) (path : pystr) (bed : pyval) : config :=
  match bed with
  | PDict d =>
      (list_to_map d : config) ∪
        <[KEY_TESTBED := bed]> (delete KEY_TESTBED (<[KEY_LOG_PATH := PStr (abs_path path)]> c))
  | _ => ∅
  end.

(** A configuration that may be run, with its beds and its log path. *)
Definition good_config (tb_filters : list pystr) (c : config) (beds : list pyval) (path : pystr) : Prop :=
  (exists v all, c !! KEY_TESTBED = Some v /\ iterate v = Ok all /\ selected tb_filters all beds) /\
  (exists names, Forall2 bed_named beds names /\ NoDup names) /\
  is_Some (c !! KEY_TEST_PATHS) /\ c !! KEY_LOG_PATH = Some (PStr path).

Lemma validate_test_config_spec (c : config) :
  validate_test_config c = COk tt <-> is_Some (c !! KEY_TESTBED) /\ is_Some (c !! KEY_LOG_PATH) /\ is_Some (c !! KEY_TEST_PATHS).
Proof.
  unfold validate_test_config, RESERVED_KEYS. cbn [validate_keys].
  destruct (c !! KEY_TESTBED), (c !! KEY_LOG_PATH), (c !! KEY_TEST_PATHS); cbn; unfold is_Some; naive_solver.
Qed.

Lemma validate_testbed_configs_spec beds :
  validate_testbed_configs beds = COk tt <-> exists names, Forall2 bed_named beds names /\ NoDup names.
Proof.
  unfold validate_testbed_configs. rewrite validate_testbeds_spec.
  split; intros (names & H); exists names; [tauto|]. split_and!; [tauto..|]. intros n _ Hn. by apply elem_of_nil in Hn.
Qed.

(** The checks after the filters. *)
Lemma checks_spec (c : config) (r : config * list pyval) :
  (_ ← validate_test_config c;
   v ← of_py (from_opt KeyError (c !! KEY_TESTBED));
   beds ← of_py (iterate v);
   _ ← validate_testbed_configs beds;
   log_path ← of_py (from_opt KeyError (c !! KEY_LOG_PATH));
   match log_path with
   | PStr path => COk (Some (<[KEY_LOG_PATH := PStr (abs_path path)]> c, beds))
   | _ => COther AttributeError
   end) = COk (Some r) <->
  exists path, good_config [] c r.2 path /\ r.1 = <[KEY_LOG_PATH := PStr (abs_path path)]> c.
Proof.
  rewrite cres_bind_COk. split.
  - intros ([] & Hv & H). apply validate_test_config_spec in Hv as (_ & _ & Htp).
    apply cres_bind_COk in H as (v & Hv%of_py_COk%from_opt_Ok & H).
    apply cres_bind_COk in H as (beds & Hb%of_py_COk & H).
    apply cres_bind_COk in H as ([] & Hn%validate_testbed_configs_spec & H).
    apply cres_bind_COk in H as (lp & Hlp%of_py_COk%from_opt_Ok & H).
    destruct lp as [| | |path| | |]; try done. injection H as <-. exists path. split; [|done].
    split_and!; try done. exists v, beds. done.
  - intros (path & ((v & all & Hv & Hall & Hsel) & Hn & Htp & Hlp) & Hr). exists tt. split.
    { apply validate_test_config_spec. split_and!; [by exists v|by exists (PStr path)|done]. }
    cbn in Hsel. subst all. rewrite Hv. cbn [from_opt of_py mbind cres_bind]. rewrite Hall. cbn [of_py mbind cres_bind].
    apply validate_testbed_configs_spec in Hn as ->. cbn [mbind cres_bind]. rewrite Hlp. cbn [from_opt of_py mbind cres_bind].
    destruct r as [r1 r2]. cbn in *. by subst r1.
Qed.

Lemma read_config_spec tb_filters baseline_config r :
  read_config load_config abs_path tb_filters baseline_config = COk (Some r) ->
  exists c path, load_config = Ok c /\ good_config tb_filters (with_baseline c baseline_config) r.2 path /\
    delete KEY_TESTBED r.1 =
      delete KEY_TESTBED (<[KEY_LOG_PATH := PStr (abs_path path)]> (with_baseline c baseline_config)).
Proof.
  unfold read_config. intros (c & Hc%of_py_COk & H)%cres_bind_COk. fold (with_baseline c baseline_config) in H.
  exists c. set (c' := with_baseline c baseline_config) in *. destruct tb_filters as [|f fs].
  - cbn [mbind cres_bind] in H. apply checks_spec in H as (path & Hg & Hr). exists path. by rewrite Hr.
  - apply cres_bind_COk in H as (o & Ho & H).
    apply cres_bind_COk in Ho as (v & Hv%of_py_COk%from_opt_Ok & Ho).
    apply cres_bind_COk in Ho as (tbs & Ht%of_py_COk & [= <-]).
    apply pyres_bind_Ok in Ht as (all & Hall & Ht).
    match type of H with context [if ?b then _ else _] => destruct b eqn:El; [|done] end. apply Nat.eqb_eq in El.
    apply checks_spec in H as (path & ((v' & all' & Hv' & Hall' & Hsel) & Hn & Htp & Hlp) & Hr). exists path.
    rewrite lookup_insert_eq in Hv'. injection Hv' as <-. injection Hall' as <-. cbn in Hsel. rewrite Hsel in *.
    rewrite lookup_insert_ne in Htp, Hlp by done. split; [done|]. split.
    + split_and!; try done. exists v, all. split_and!; try done.
    + rewrite Hr. rewrite (insert_insert_ne _ KEY_LOG_PATH KEY_TESTBED) by done. by rewrite delete_insert_eq.
Qed.

Lemma read_config_complete tb_filters baseline_config c beds path :
  load_config = Ok c -> good_config tb_filters (with_baseline c baseline_config) beds path ->
  exists c1, read_config load_config abs_path tb_filters baseline_config = COk (Some (c1, beds)) /\
    delete KEY_TESTBED c1 =
      delete KEY_TESTBED (<[KEY_LOG_PATH := PStr (abs_path path)]> (with_baseline c baseline_config)).
Proof.
  intros Hc ((v & all & Hv & Hall & Hsel) & Hn & Htp & Hlp). unfold read_config. rewrite Hc. cbn [of_py mbind cres_bind].
  fold (with_baseline c baseline_config). set (c' := with_baseline c baseline_config) in *.
  destruct tb_filters as [|f fs].
  - cbn in Hsel. subst all. exists (<[KEY_LOG_PATH := PStr (abs_path path)]> c'). split; [|done].
    apply checks_spec. exists path. split; [|done]. split_and!; try done. by exists v, beds.
  - destruct Hsel as [Hf Hl]. exists (<[KEY_LOG_PATH := PStr (abs_path path)]> (<[KEY_TESTBED := PList beds]> c')).
    rewrite Hv. cbn [from_opt of_py mbind cres_bind]. rewrite Hall. cbn [mbind pyres_bind]. rewrite Hf.
    cbn [of_py mbind cres_bind]. rewrite (proj2 (Nat.eqb_eq _ _) Hl). split.
    + apply checks_spec. exists path. split; [|done]. split_and!; try done.
      * exists (PList beds), beds. rewrite lookup_insert_eq. done.
      * by rewrite lookup_insert_ne.
      * by rewrite lookup_insert_ne.
    + rewrite (insert_insert_ne _ KEY_LOG_PATH KEY_TESTBED) by done. by rewrite delete_insert_eq.
Qed.

(** C16: [load_test_config_file] never raises.  It gives configurations exactly when
    the file can be read, the three required keys are there (a baseline may supply
    them), the filters name as many test beds as they are, and the beds have
    distinct names of allowed characters; then it gives one configuration for each
    bed, in order, in which the values of the bed hide the general ones and the
    path of the logs is absolute. *)
Theorem load_test_config_file_spec tb_filters baseline_config :
  (exists o, load_test_config_file load_config abs_path tb_filters baseline_config = Ok o) /\
  forall l, load_test_config_file load_config abs_path tb_filters baseline_config = Ok (Some l) <->
    exists c beds path, load_config = Ok c /\
      good_config tb_filters (with_baseline c baseline_config) beds path /\
      l = config_of (with_baseline c baseline_config) path <$> beds.
Proof.
  assert (forall r, read_config load_config abs_path tb_filters baseline_config = COk (Some r) ->
    mapM_py (unpack_bed (delete KEY_TESTBED r.1)) r.2 =
      Ok ((fun bed => match bed with
             | PDict d => (list_to_map d : config) ∪ <[KEY_TESTBED := bed]> (delete KEY_TESTBED r.1)
             | _ => ∅ end) <$> r.2)) as Hunpack.
  { intros r (c & path & _ & (_ & (names & Hn & _) & _) & _)%read_config_spec. apply mapM_py_map. intros bed Hbed.
    apply list_elem_of_lookup in Hbed as (i & Hi). destruct (Forall2_lookup_l _ _ _ _ _ Hn Hi) as (name & _ & d & -> & _).
    done. }
  unfold load_test_config_file. split.
  - destruct (read_config _ _ _ _) as [[[c beds]|]|t|e] eqn:E; [|by eexists..].
    pose proof (Hunpack _ eq_refl) as Hu. cbn [fst snd] in Hu. rewrite Hu. by eexists.
  - intros l. split.
    + destruct (read_config _ _ _ _) as [[[c beds]|]|t|e] eqn:E; try done.
      pose proof (Hunpack _ eq_refl) as Hu. cbn [fst snd] in Hu. rewrite Hu. cbn [mbind pyres_bind]. intros [= <-].
      apply read_config_spec in E as (c0 & path & Hc & Hg & Hd). exists c0, beds, path.
      split; [done|]. split; [done|]. apply list_fmap_ext. intros _ bed _. cbn [fst] in Hd.
      destruct bed as [| | | | |d|]; try reflexivity. unfold config_of. by rewrite Hd.
    + intros (c & beds & path & Hc & Hg & ->).
      destruct (read_config_complete _ _ c beds path Hc Hg) as (c1 & E & Hd). rewrite E.
      pose proof (Hunpack _ E) as Hu. cbn [fst snd] in Hu. rewrite Hu. cbn [mbind pyres_bind]. do 2 f_equal. apply list_fmap_ext.
      intros _ bed _. cbn [fst]. unfold config_of. destruct bed as [| | | | |d|]; try reflexivity. by rewrite Hd.
Qed.
End loaded.

(** A file with two beds and no device information of its own, twice. *)
Example load_test_config_file_spec_witness :
  let bed (s : string) := PDict [(KEY_TESTBED_NAME, PStr (bs s)); (bs "serial", PStr (bs "x"))] in
  let c : config := <[KEY_TESTBED := PList [bed "A-1"; bed "B.2"]]> (<[KEY_LOG_PATH := PStr (bs "logs")]>
    {[KEY_TEST_PATHS := PList []]}) in
  exists l, load_test_config_file (Ok c) (fun p => bs "/home/" ++ p) [bs "B.2"] None = Ok (Some l) /\ length l = 1.
Proof.
  intros bed c. eexists. split.
  - apply (proj2 (load_test_config_file_spec (Ok c) (fun p => bs "/home/" ++ p) [bs "B.2"] None)).
    exists c, [bed "B.2"], (bs "logs"). split; [done|]. split; [|reflexivity]. split_and!.
    + exists (PList [bed "A-1"; bed "B.2"]), [bed "A-1"; bed "B.2"]. split; [reflexivity|]. split; [reflexivity|].
      split; reflexivity.
    + exists [bs "B.2"]. split; [|apply NoDup_singleton]. constructor; [|constructor].
      exists [(KEY_TESTBED_NAME, PStr (bs "B.2")); (bs "serial", PStr (bs "x"))]. split_and!; try reflexivity. discriminate.
    + by eexists.
    + reflexivity.
  - reflexivity.
Defined.

(** The baseline replaces what the file says of other keys. *)
Example baseline_hides_file :
  let c : config := {[KEY_LOG_PATH := PStr (bs "mine")]} in
  with_baseline c (Some (GetDefaultConfig (bs "FooTest"))) !! KEY_LOG_PATH = Some (PStr (bs "/tmp/logs")).
Proof. reflexivity. Qed.

(** ** Test specifiers *)
Definition render_specifier (x : pystr * option (list pystr)) : pystr :=
  match x.2 with None => x.1 | Some l => x.1 ++ bs ":" ++ join_with (bs ",") l end.

(** A class and cases whose names follow the conventions. *)
Definition proper_case (n : pystr) : bool :=
  startswith (bs "test_") n && no_byte Byte.x2c n && no_byte Byte.x3a n && no_space n.
Definition proper_specifier (x : pystr * option (list pystr)) : bool :=
  endswith (bs "Test") x.1 && no_byte Byte.x3a x.1 &&
  match x.2 with None => true | Some l => forallb proper_case l && negb (bool_decide (l = [])) end.

Lemma split_join c l :
  l <> [] -> forallb (no_byte c) l = true -> split [c] (join_with [c] l) = l.
Proof.
  intros Hne. unfold split. destruct l as [|x l]; [done|]. clear Hne. revert x. induction l as [|y l IH]; intros x.
  - cbn [forallb join_with]. rewrite andb_true_r. intros Hx. by rewrite split_from_no_byte.
  - cbn [forallb]. intros [Hx Hl]%andb_true_iff. change (join_with [c] (x :: y :: l)) with (x ++ c :: join_with [c] (y :: l)).
    rewrite split_from_byte by done. cbn [app]. f_equal. by apply IH.
Qed.

Lemma clean_names_proper cls l : forallb proper_case l = true -> clean_names cls l = COk l.
Proof.
  induction l as [|n l IH]; [done|]. cbn [forallb clean_names].
  intros [[[[Ht _]%andb_true_iff _]%andb_true_iff Hs]%andb_true_iff Hl]%andb_true_iff.
  pose proof (strip_no_space n [] [] Hs eq_refl eq_refl) as E. rewrite app_nil_r in E. cbn [app] in E.
  rewrite E, Ht, IH by done. done.
Qed.

Lemma no_byte_join c d l : c <> d -> forallb (no_byte c) l = true -> no_byte c (join_with [d] l) = true.
Proof.
  intros Hcd. induction l as [|x [|y l] IH]; [done|cbn [forallb join_with]; by rewrite andb_true_r|].
  cbn [forallb]. intros [Hx Hl]%andb_true_iff.
  change (join_with [d] (x :: y :: l)) with (x ++ [d] ++ join_with [d] (y :: l)). rewrite !no_byte_app, Hx, IH by done.
  unfold no_byte, is_byte. cbn [forallb]. by rewrite bool_decide_eq_false_2 by congruence.
Qed.

Lemma parse_one_render cls rest :
  proper_specifier (cls, rest) = true ->
  parse_one_test_specifier (render_specifier (cls, rest)) = COk (cls, rest).
Proof.
  unfold proper_specifier, parse_one_test_specifier, render_specifier. cbn [fst snd].
  intros [[Ht Hc]%andb_true_iff Hr]%andb_true_iff. destruct rest as [names|].
  - apply andb_true_iff in Hr as [Hn Hne%negb_true_iff%bool_decide_eq_false].
    assert (forall c, (forall n, proper_case n = true -> no_byte c n = true) -> forallb (no_byte c) names = true) as Hall.
    { intros c H. rewrite forallb_forall in *. auto. }
    change (cls ++ bs ":" ++ join_with (bs ",") names) with (cls ++ Byte.x3a :: join_with [Byte.x2c] names).
    unfold split at 1. change (bs ":") with [Byte.x3a]. rewrite split_from_byte, split_from_no_byte; [| |done].
    2:{ apply no_byte_join; [done|]. apply Hall. intros n [[[_ _]%andb_true_iff H]%andb_true_iff _]%andb_true_iff. exact H. }
    cbn [app]. unfold validate_test_class_name. rewrite Ht. cbn [mbind cres_bind].
    change (bs ",") with [Byte.x2c]. rewrite split_join; [|done|].
    2:{ apply Hall. intros n [[[_ H]%andb_true_iff _]%andb_true_iff _]%andb_true_iff. exact H. }
    by rewrite clean_names_proper.
  - unfold split. change (bs ":") with [Byte.x3a]. rewrite split_from_no_byte by done. cbn [app].
    unfold validate_test_class_name. by rewrite Ht.
Qed.

(** A class name that ends in [Test], alone or with cases that start with
    [test_], is read back from its specifier, and so is a list of them; a class
    name of another form is a user error. *)
Theorem parse_test_list_render l :
  (forallb proper_specifier l = true -> parse_test_list (render_specifier <$> l) = COk l) /\
  forall cls rest, no_byte Byte.x3a cls = true -> endswith (bs "Test") cls = false ->
    exists text, parse_test_list (render_specifier (cls, rest) :: (render_specifier <$> l)) = USERError text.
Proof.
  split.
  - induction l as [|[cls rest] l IH]; [done|]. cbn [forallb]. intros [Hx Hl]%andb_true_iff.
    rewrite fmap_cons. cbn [parse_test_list]. rewrite (parse_one_render cls rest Hx). cbn [mbind cres_bind].
    by rewrite IH.
  - intros cls rest Hc Ht. cbn [parse_test_list].
    assert (exists text, parse_one_test_specifier (render_specifier (cls, rest)) = USERError text) as [text ->];
      [|by exists text]. unfold parse_one_test_specifier, render_specifier. cbn [fst snd]. destruct rest as [names|].
    + change (cls ++ bs ":" ++ join_with (bs ",") names) with (cls ++ Byte.x3a :: join_with (bs ",") names).
      unfold split at 1. change (bs ":") with [Byte.x3a] at 1. rewrite split_from_byte by done. cbn [app].
      destruct (split_from [Byte.x3a] (join_with (bs ",") names) [] 0) as [|y [|z k]];
        unfold validate_test_class_name; rewrite ?Ht; by eexists.
    + unfold split at 1. change (bs ":") with [Byte.x3a]. rewrite split_from_no_byte by done. cbn [app].
      unfold validate_test_class_name. rewrite Ht. by eexists.
Qed.

Example parse_test_list_render_witness :
  parse_test_list [bs "FooTest:test_a,test_b"; bs "BarTest"] =
    COk [(bs "FooTest", Some [bs "test_a"; bs "test_b"]); (bs "BarTest", None)].
Proof.
  exact (proj1 (parse_test_list_render [(bs "FooTest", Some [bs "test_a"; bs "test_b"]); (bs "BarTest", None)])
    ltac:(vm_compute; reflexivity)).
Defined.

(** ** Test files *)
Definition continues (s : pystr) : bool := endswith (bs ":") s || endswith (bs ",") s.
(** The lines of one specifier: all but the last are blank or end in a colon or a
    comma. *)
Definition one_specifier (lines : list pystr) : Prop :=
  exists init last, lines = init ++ [last] /\
    (forall s, s ∈ init -> strip s = [] \/ continues (strip s) = true) /\
    strip last <> [] /\ continues (strip last) = false.
(** Nothing is left to be continued. *)
Definition complete (tf : list pystr) : Prop := match tf with last :: _ => continues last = false | [] => True end.

Lemma endswith_byte_app c a b : b <> [] -> endswith [c] (a ++ b) = endswith [c] b.
Proof.
  intros Hb. unfold endswith. rewrite reverse_app. destruct (reverse b) as [|x l] eqn:E; [|done].
  exfalso. apply Hb. rewrite <- (reverse_involutive b), E. done.
Qed.

Lemma continues_app a b : b <> [] -> continues (a ++ b) = continues b.
Proof. intros Hb. unfold continues. change (bs ":") with [Byte.x3a]. change (bs ",") with [Byte.x2c].
  by rewrite !endswith_byte_app by done. Qed.

Lemma test_file_line_new tf s : complete tf -> strip s <> [] -> test_file_line tf s = strip s :: tf.
Proof.
  unfold test_file_line, complete. destruct (strip s) as [|x l]; [done|]. intros Hc _.
  destruct tf as [|p tf]; [done|]. unfold continues in Hc. by rewrite Hc.
Qed.

Lemma test_file_line_more p tf s :
  continues p = true -> strip s <> [] -> test_file_line (p :: tf) s = (p ++ strip s) :: tf.
Proof. unfold test_file_line, continues. intros Hc. destruct (strip s) as [|x l]; [done|]. by rewrite Hc. Qed.

Lemma test_file_line_blank tf s : strip s = [] -> test_file_line tf s = tf.
Proof. unfold test_file_line. by intros ->. Qed.

Lemma specifier_rest p tf init last :
  continues p = true -> (forall s, s ∈ init -> strip s = [] \/ continues (strip s) = true) ->
  strip last <> [] -> foldl test_file_line (p :: tf) (init ++ [last]) = (p ++ mjoin (strip <$> (init ++ [last]))) :: tf.
Proof.
  revert p. induction init as [|s init IH]; intros p Hp Hi Hl.
  - cbn [app foldl]. rewrite test_file_line_more by done. cbn. by rewrite app_nil_r.
  - cbn [app foldl]. rewrite fmap_cons. cbn [mjoin list_join]. destruct (Hi s ltac:(by left)) as [Hs|Hs].
    + rewrite test_file_line_blank, Hs by done. apply IH; [done| |done]. intros; apply Hi; by right.
    + assert (strip s <> []) as Hne by (intros E; by rewrite E in Hs).
      rewrite test_file_line_more by done. rewrite IH; [by rewrite app_assoc| | |done].
      * by rewrite continues_app.
      * intros; apply Hi; by right.
Qed.

Lemma specifier_lines tf lines :
  complete tf -> one_specifier lines ->
  foldl test_file_line tf lines = mjoin (strip <$> lines) :: tf /\ continues (mjoin (strip <$> lines)) = false.
Proof.
  intros Hc (init & last & -> & Hi & Hl & Hlast). split.
  - induction init as [|s init IH].
    + cbn [app foldl]. rewrite test_file_line_new by done. cbn. by rewrite app_nil_r.
    + cbn [app foldl]. rewrite fmap_cons. cbn [mjoin list_join]. destruct (Hi s ltac:(by left)) as [Hs|Hs].
      * rewrite test_file_line_blank, Hs by done. apply IH. intros; apply Hi; by right.
      * assert (strip s <> []) as Hne by (intros E; by rewrite E in Hs).
        rewrite test_file_line_new by done. rewrite specifier_rest; [done|done| |done]. intros; apply Hi; by right.
  - rewrite fmap_app, join_app. cbn. rewrite app_nil_r. by rewrite continues_app.
Qed.

(** A test file gives back its specifiers, however each is broken into lines
    after colons and commas, whatever white space is around the lines and wherever
    blank lines are. *)
Theorem parse_test_file_specifiers groups :
  Forall one_specifier groups -> parse_test_file (mjoin groups) = (fun lines => mjoin (strip <$> lines)) <$> groups.
Proof.
  unfold parse_test_file. intros Hg.
  cut (forall tf, complete tf ->
    foldl test_file_line tf (mjoin groups) = reverse ((fun lines => mjoin (strip <$> lines)) <$> groups) ++ tf).
  { intros H. rewrite (H []) by done. by rewrite app_nil_r, reverse_involutive. }
  induction Hg as [|g groups Hg _ IH]; intros tf Htf; [done|].
  rewrite fmap_cons, reverse_cons, <- app_assoc. cbn [mjoin list_join app]. rewrite foldl_app.
  destruct (specifier_lines tf g Htf Hg) as [-> Hc]. by apply IH.
Qed.

Example parse_test_file_specifiers_witness :
  parse_test_file [bs "  FooTest:"; []; bs "test_a, "; bs "test_b"; bs "BarTest "] =
    [bs "FooTest:test_a,test_b"; bs "BarTest"].
Proof.
  apply (parse_test_file_specifiers [[bs "  FooTest:"; []; bs "test_a, "; bs "test_b"]; [bs "BarTest "]]).
  repeat constructor.
  - exists [bs "  FooTest:"; []; bs "test_a, "], (bs "test_b"). split; [done|]. split; [|split; [discriminate|reflexivity]].
    intros s [->|[->|[->|[]%elem_of_nil]%elem_of_cons]%elem_of_cons]%elem_of_cons; [right|left|right]; reflexivity.
  - exists [], (bs "BarTest "). split; [done|]. split; [by intros s ?%elem_of_nil|]. split; [discriminate|reflexivity].
Defined.
