(* ===== verification/TestRunner.v ===== *)
(** * The test runner ([src/runners/host/test_runner.py])

    [TestRunner]: the controllers that a run registers and destroys, the classes
    of its run list, and the sum of their results.  A test class is what it
    registers and how it ends; its results come from RunTests.  Importing test
    modules, logs and the summary file are left out. *)

From Stdlib Require Import Strings.Byte.
From S2P Require Import Prelude PyStr PyPath PyVal Signals Records BinaryTest Shell Config.

(** ** Controller modules *)
(** An attribute of a module: absent, or a value that counts as false. *)
Inductive attribute (A : Type) := Missing | Null | Has (a : A).
Arguments Missing {_}.
Arguments Null {_}.
Arguments Has {_} _.

Section runner.
Context {Obj : Type}.

Record controller_module := mk_module {
  module_name : pystr;
  create : attribute (pyval -> pyval -> xres (option (list Obj)));   (* [None]: not a list *)
  destroy : attribute (list Obj -> xres unit);
  VTS_CONTROLLER_CONFIG_NAME : attribute pystr;
}.

(** What a class does with the runner: the modules that its constructor and its
    run register, how it ends, its results, and its clean-up. *)
Record test_class := mk_class {
  ctor_modules : list (controller_module * pyval);
  run_modules : list (controller_module * pyval);
  class_run : option (list pystr) -> xres unit;
  class_results : option (list pystr) -> TestResult;
  cleanUp : xres unit;
}.

Inductive event := Created (name : pystr) (objects : list Obj) | Destroyed (name : pystr) (objects : list Obj).

Record runner := mk_runner {
  controller_registry : gmap pystr (list Obj);
  controller_destructors : gmap pystr (list Obj -> xres unit);
  running : bool;
  test_cls_instances : list TestResult;
  results : TestResult;
  events : list event;
}.
Abbreviation runM := (xstM runner).

Definition new_runner : runner := mk_runner ∅ ∅ false [] new_result [].
Definition set_running (b : bool) (s : runner) : runner :=
  mk_runner (controller_registry s) (controller_destructors s) b (test_cls_instances s) (results s) (events s).
Definition add_instance (r : TestResult) (s : runner) : runner :=
  mk_runner (controller_registry s) (controller_destructors s) (running s) (test_cls_instances s ++ [r]) (results s)
    (events s).
Definition set_run_results (r : TestResult) (s : runner) : runner :=
  mk_runner (controller_registry s) (controller_destructors s) (running s) (test_cls_instances s) r (events s).

(** The text is that of the first check that fails. *)
Definition controller_error {A} (text : pystr) : xres A := Exc (EOther ControllerError text).
Definition verify_attribute {A} (attr : string) (name : pystr) (a : attribute A) : xres A :=
  match a with
  | Missing => controller_error (bs "Module " ++ name ++ bs " missing required controller module attribute " ++ bs attr ++ bs ".")
  | Null => controller_error (bs "Controller interface " ++ bs attr ++ bs " in " ++ name ++ bs " cannot be null.")
  | Has a => Ret a
  end.
Definition verifyControllerModule (module : controller_module)
    : xres ((pyval -> pyval -> xres (option (list Obj))) * (list Obj -> xres unit) * pystr) :=
  c ← verify_attribute "create" (module_name module) (create module);
  d ← verify_attribute "destroy" (module_name module) (destroy module);
  n ← verify_attribute "VTS_CONTROLLER_CONFIG_NAME" (module_name module) (VTS_CONTROLLER_CONFIG_NAME module);
  Ret (c, d, n).

(** [config["log_severity"] = severity] in the dictionaries of a list. *)
Fixpoint dict_set (k : pystr) (v : pyval) (d : list (pystr * pyval)) : list (pystr * pyval) :=
  match d with
  | [] => [(k, v)]
  | (k', v') :: d => if decide (k' = k) then (k, v) :: d else (k', v') :: dict_set k v d
  end.
Definition add_severity (log_severity : pystr) (controller_config : pyval) : pyval :=
  match controller_config with
  | PList l =>
      PList ((fun c => match c with PDict d => PDict (dict_set (bs "log_severity") (PStr log_severity) d) | c => c end) <$> l)
  | c => c
  end.

Section run.
Context (testbed_configs : config) (log_severity : pystr).
(** The order in which a dictionary gives its items. *)
Context (items : gmap pystr (list Obj -> xres unit) -> list (pystr * (list Obj -> xres unit))).
Context (clock : nat -> Z).

Definition registerController (module : controller_module) (start_services : pyval) : runM (list Obj) :=
  checked ← xlift (verifyControllerModule module);
  let '(create, destroy_func, module_config_name) := checked in
  let module_ref_name := after_last Byte.x2e (module_name module) in
  s ← xget;
  if bool_decide (is_Some (controller_registry s !! module_ref_name)) then
    xlift (controller_error (bs "Controller module " ++ module_ref_name
      ++ bs " has already been registered. It can not be registered again."))
  else
    match testbed_configs !! module_config_name with
    | None => xlift (controller_error (bs "No corresponding config found for " ++ module_config_name))
    | Some original_config =>
        created ← xlift (create (add_severity log_severity original_config)
                          (default start_services (testbed_configs !! bs "use_vts_agent")));
        match created with
        | None => xlift (controller_error (bs "Controller module " ++ module_ref_name
                    ++ bs " did not return a list of objects, abort."))
        | Some objects =>
            _ ← xmodify (fun s =>
              mk_runner (<[module_ref_name := objects]> (controller_registry s))
                (<[module_ref_name := destroy_func]> (controller_destructors s)) (running s)
                (test_cls_instances s) (results s) (events s ++ [Created module_ref_name objects]));
            mret objects
        end
    end.

(** What is destroyed; whatever [destroy] raises is logged. *)
Definition destroyed (registry : gmap pystr (list Obj)) (l : list (pystr * (list Obj -> xres unit))) : list event :=
  omap (fun kv : pystr * (list Obj -> xres unit) => Destroyed kv.1 <$> registry !! kv.1) l.
Definition unregisterControllers : runM unit :=
  xmodify (fun s =>
    mk_runner ∅ ∅ (running s) (test_cls_instances s) (results s)
      (events s ++ destroyed (controller_registry s) (items (controller_destructors s)))).

Fixpoint register_all (l : list (controller_module * pyval)) : runM unit :=
  match l with [] => mret tt | m :: l => _ ← registerController m.1 m.2; register_all l end.
(** Inside a run the class itself handles what a registration raises. *)
Fixpoint register_each (l : list (controller_module * pyval)) : runM unit :=
  match l with [] => mret tt | m :: l => _ ← xattempt (registerController m.1 m.2); register_each l end.

(** [_exec_func(cleanUp)] lets only [TestAbortAll] through. *)
Definition exec_cleanUp (c : test_class) : xres unit :=
  match cleanUp c with
  | Exc e => if bool_decide (exc_type e = SignalClass TestAbortAll) then Exc e else Ret tt
  | Ret _ => Ret tt
  end.

Definition runTestClass (test_cls : test_class) (test_cases : option (list pystr)) : runM unit :=
  _ ← xmodify (set_running true);
  _ ← register_all (ctor_modules test_cls);
  xfinally
    (_ ← xmodify (add_instance (class_results test_cls test_cases));
     xfinally (_ ← register_each (run_modules test_cls); xlift (class_run test_cls test_cases))
       unregisterControllers)
    (xlift (exec_cleanUp test_cls)).

Fixpoint run_classes (test_classes : gmap pystr test_class) (run_list : list (pystr * option (list pystr)))
    : runM unit :=
  match run_list with
  | [] => mret tt
  | (test_cls_name, test_case_names) :: run_list =>
      s ← xget;
      if negb (running s) then mret tt
      else
        match test_classes !! test_cls_name with
        | None => xlift (Exc (EOther (UserException 0) (bs "Unable to locate class " ++ test_cls_name
                    ++ bs " in any of the test paths specified.")))
        | Some test_cls => _ ← runTestClass test_cls test_case_names; run_classes test_classes run_list
        end
  end.

(** [run]: every [Exception] ends the loop and is logged. *)
Definition run (test_classes : gmap pystr test_class) (run_list : list (pystr * option (list pystr))) : runM unit :=
  _ ← xmodify (set_running true);
  xfinally
    (r ← xattempt (run_classes test_classes run_list);
     match r with
     | Exc e => if isinstance e Exception_ then mret tt else xlift (Exc e)
     | Ret _ => mret tt
     end)
    unregisterControllers.

(** [stop]: the sum of the results of all instances, once. *)
Fixpoint sum_results (h : store) (acc : TestResult) (l : list TestResult) : store * TestResult * pyres unit :=
  match l with
  | [] => (h, acc, Ok tt)
  | r :: l =>
      let '(h, _, sum) := result_add clock h acc r in
      match sum with Ok acc => sum_results h acc l | Raise e => (h, acc, Raise e) end
  end.
Definition stop (h : store) : xstM runner store :=
  s ← xget;
  if running s then
    let '(h, sum, r) := sum_results h (results s) (test_cls_instances s) in
    _ ← xmodify (set_run_results sum);
    _ ← xpure r;
    _ ← xmodify (set_running false);
    mret h
  else mret h.
End run.
End runner.
Arguments controller_module : clear implicits.
Arguments test_class : clear implicits.
Arguments runner : clear implicits.
Arguments event : clear implicits.

(** [parseTestConfig]: what the test classes get of the configuration. *)
Definition user_params (test_configs : config) : config :=
  base.filter (fun kv : pystr * pyval => kv.1 ∉ RESERVED_KEYS) test_configs.

(** ** Controllers *)
Section controllers.
Context {Obj : Type} (testbed_configs : config) (log_severity : pystr).
Context (items : gmap pystr (list Obj -> xres unit) -> list (pystr * (list Obj -> xres unit))).
Context (items_perm : forall m, items m ≡ₚ map_to_list m).

Definition created_of (l : list (event Obj)) : list (pystr * list Obj) :=
  omap (fun e => match e with Created n o => Some (n, o) | Destroyed _ _ => None end) l.
Definition destroyed_of (l : list (event Obj)) : list (pystr * list Obj) :=
  omap (fun e => match e with Destroyed n o => Some (n, o) | Created _ _ => None end) l.

(** What was created is registered, with its destructor, or was destroyed. *)
Definition accounted (s : runner Obj) : Prop :=
  dom (controller_registry s) = dom (controller_destructors s) /\
  created_of (events s) ≡ₚ destroyed_of (events s) ++ map_to_list (controller_registry s).

Lemma created_of_app l k : created_of (l ++ k) = created_of l ++ created_of k.
Proof. apply omap_app. Qed.
Lemma destroyed_of_app l k : destroyed_of (l ++ k) = destroyed_of l ++ destroyed_of k.
Proof. apply omap_app. Qed.

Lemma created_of_destroyed registry l : created_of (destroyed registry l) = [].
Proof.
  unfold destroyed. induction l as [|[n d] l IH]; [done|]. cbn. destruct (registry !! n); cbn; exact IH.
Qed.

Lemma destroyed_of_destroyed registry l :
  destroyed_of (destroyed registry l) = omap (fun kv : pystr * (list Obj -> xres unit) => (fun o => (kv.1, o)) <$> registry !! kv.1) l.
Proof.
  unfold destroyed. induction l as [|[n d] l IH]; [done|]. cbn. destruct (registry !! n); cbn; [by f_equal|exact IH].
Qed.

Lemma registered_items (registry : gmap pystr (list Obj)) (destructors : gmap pystr (list Obj -> xres unit)) :
  dom registry = dom destructors ->
  omap (fun kv : pystr * (list Obj -> xres unit) => (fun o => (kv.1, o)) <$> registry !! kv.1) (map_to_list destructors)
    ≡ₚ map_to_list registry.
Proof.
  intros Hdom. apply NoDup_Permutation; [|apply NoDup_map_to_list|].
  - pose proof (NoDup_fst_map_to_list destructors) as Hnd. induction (map_to_list destructors) as [|[n d] l IH]; [constructor|].
    cbn in *. apply NoDup_cons in Hnd as [Hn Hnd]. destruct (registry !! n) as [o|]; cbn; [|by apply IH].
    constructor; [|by apply IH]. intros ([n' d'] & Hin & Hr)%list_elem_of_omap. cbn in Hr.
    destruct (registry !! n'); [|done]. injection Hr as -> ->. apply Hn, list_elem_of_fmap. by exists (n, d').
  - intros [n o]. rewrite list_elem_of_omap, elem_of_map_to_list. split.
    + intros ([n' d] & _ & Hr). cbn in Hr. destruct (registry !! n') eqn:E; [|done]. by injection Hr as -> ->.
    + intros Hr. assert (n ∈ dom destructors) as [d Hd]%elem_of_dom by (rewrite <- Hdom; apply elem_of_dom; by exists o).
      exists (n, d). split; [by apply elem_of_map_to_list|]. cbn. by rewrite Hr.
Qed.

Lemma keeps_unregister : xkeeps accounted (unregisterControllers items).
Proof using items_perm.
  intros s [Hd Hp]. split; [done|]. cbn [unregisterControllers xmodify snd events controller_registry].
  rewrite created_of_app, destroyed_of_app, created_of_destroyed, app_nil_r, map_to_list_empty, app_nil_r.
  rewrite destroyed_of_destroyed, items_perm, registered_items by done. exact Hp.
Qed.

Lemma keeps_register m services : xkeeps accounted (registerController testbed_configs log_severity m services).
Proof.
  unfold registerController. apply xkeeps_bind; [apply xkeeps_lift|]. intros [[c d] n] s Hs.
  unfold xget. unfold mbind at 1, xstM_bind at 1. destruct (bool_decide_reflect (is_Some (controller_registry s !! after_last Byte.x2e (module_name m)))) as [Hr|Hr];
    [exact Hs|]. destruct (testbed_configs !! n) as [v|]; [|exact Hs].
  unfold mbind, xstM_bind, xlift. destruct (c _ _) as [[objs|]|e]; [|exact Hs..]. cbn.
  apply eq_None_not_Some in Hr. destruct Hs as [Hd Hp]. split; cbn.
  - by rewrite !dom_insert_L, Hd.
  - rewrite created_of_app, destroyed_of_app, app_nil_r, Hp, map_to_list_insert by done. cbn.
    rewrite <- Permutation_cons_append. apply Permutation_middle.
Qed.

Lemma accounted_same s s' :
  controller_registry s = controller_registry s' -> controller_destructors s = controller_destructors s' ->
  events s = events s' -> accounted s -> accounted s'.
Proof. unfold accounted. by intros -> -> ->. Qed.

Lemma keeps_runTestClass c cases : xkeeps accounted (runTestClass testbed_configs log_severity items c cases).
Proof using items_perm.
  unfold runTestClass.
  assert (forall l, xkeeps accounted (register_all testbed_configs log_severity l)) as Hall.
  { induction l as [|m l IH]; cbn [register_all]; [apply xkeeps_ret|]. apply xkeeps_bind; [apply keeps_register|done]. }
  assert (forall l, xkeeps accounted (register_each testbed_configs log_severity l)) as Heach.
  { induction l as [|m l IH]; cbn [register_each]; [apply xkeeps_ret|].
    apply xkeeps_bind; [apply xkeeps_attempt, keeps_register|done]. }
  apply xkeeps_bind; [intros s; by apply accounted_same|]. intros _.
  apply xkeeps_bind; [apply Hall|]. intros _. apply xkeeps_finally; [|apply xkeeps_lift].
  apply xkeeps_bind; [intros s; by apply accounted_same|]. intros _. apply xkeeps_finally; [|apply keeps_unregister].
  apply xkeeps_bind; [apply Heach|]. intros _. apply xkeeps_lift.
Qed.

Lemma keeps_run_classes classes run_list :
  xkeeps accounted (run_classes testbed_configs log_severity items classes run_list).
Proof using items_perm.
  induction run_list as [|[n cases] l IH]; cbn [run_classes]; [apply xkeeps_ret|].
  apply xkeeps_bind; [intros s Hs; exact Hs|]. intros s. destruct (negb _); [apply xkeeps_ret|].
  destruct (classes !! n); [|apply xkeeps_lift]. apply xkeeps_bind; [apply keeps_runTestClass|done].
Qed.

Lemma keeps_run classes run_list : xkeeps accounted (run testbed_configs log_severity items classes run_list).
Proof using items_perm.
  unfold run. apply xkeeps_bind; [intros s; by apply accounted_same|]. intros _.
  apply xkeeps_finally; [|apply keeps_unregister]. apply xkeeps_bind; [apply xkeeps_attempt, keeps_run_classes|].
  intros [[]|e]; [apply xkeeps_ret|]. destruct (isinstance _ _); [apply xkeeps_ret|apply xkeeps_lift].
Qed.

Lemma run_clears classes run_list s :
  let s' := (run testbed_configs log_severity items classes run_list s).2 in
  controller_registry s' = ∅ /\ controller_destructors s' = ∅.
Proof.
  cbv zeta. unfold run. erewrite !xstM_bind_run by reflexivity. unfold xfinally.
  match goal with |- context [match ?m with pair _ _ => _ end] => destruct m as [r t] end. split; reflexivity.
Qed.

(** C6: whatever the test classes register and however they end, after any number
    of runs no controller is left: the registry is empty, and every controller
    that was created was destroyed exactly as often as it was created. *)
Theorem runs_destroy_controllers (runs : list (gmap pystr (test_class Obj) * list (pystr * option (list pystr)))) :
  let s := foldl (fun s r => (run testbed_configs log_severity items r.1 r.2 s).2) new_runner runs in
  controller_registry s = ∅ /\ controller_destructors s = ∅ /\ created_of (events s) ≡ₚ destroyed_of (events s).
Proof using items_perm.
  cut (forall s, accounted s -> controller_registry s = ∅ -> controller_destructors s = ∅ ->
    let s := foldl (fun s r => (run testbed_configs log_severity items r.1 r.2 s).2) s runs in
    controller_registry s = ∅ /\ controller_destructors s = ∅ /\ created_of (events s) ≡ₚ destroyed_of (events s)).
  { intros H. apply (H new_runner); [|done|done]. split; [done|]. cbn. by rewrite map_to_list_empty. }
  induction runs as [|r runs IH]; intros s Hs Hr Hd.
  - cbn. split; [done|]. split; [done|]. destruct Hs as [_ Hp]. by rewrite Hr, map_to_list_empty, app_nil_r in Hp.
  - cbn [foldl]. pose proof (run_clears r.1 r.2 s) as [Hr' Hd']. apply IH; [by apply keeps_run|done|done].
Qed.
End controllers.

(** ** The classes of a run *)
Section classes.
Context {Obj : Type} (testbed_configs : config) (log_severity : pystr).
Context (items : gmap pystr (list Obj -> xres unit) -> list (pystr * (list Obj -> xres unit))).

(** The constructor of the class succeeds while no controller is registered. *)
Definition constructs (c : test_class Obj) : Prop :=
  forall s, controller_registry s = ∅ ->
    exists s', register_all testbed_configs log_severity (ctor_modules c) s = (Ret tt, s') /\
      test_cls_instances s' = test_cls_instances s /\ results s' = results s /\ running s' = running s.

(** How a class ends: an abort of its clean-up takes the place of its own end. *)
Definition ends (c : test_class Obj) (cases : option (list pystr)) : xres unit :=
  match exec_cleanUp c with Exc e => Exc e | Ret _ => class_run c cases end.

(** The results of the classes up to the first that ends in an exception. *)
Fixpoint executed_classes (classes : gmap pystr (test_class Obj)) (run_list : list (pystr * option (list pystr)))
    : list TestResult * xres unit :=
  match run_list with
  | [] => ([], Ret tt)
  | (n, cases) :: run_list =>
      match classes !! n with
      | None => ([], Exc (EOther (UserException 0) []))
      | Some c =>
          match ends c cases with
          | Exc e => ([class_results c cases], Exc e)
          | Ret _ => let '(rs, o) := executed_classes classes run_list in (class_results c cases :: rs, o)
          end
      end
  end.

(** What all steps but the two that change them keep of the runner. *)
Definition same_results (s s' : runner Obj) : Prop :=
  test_cls_instances s' = test_cls_instances s /\ results s' = results s /\ running s' = running s.

Lemma register_same m services s :
  same_results s (registerController testbed_configs log_severity m services s).2.
Proof.
  unfold registerController. unfold mbind at 1, xstM_bind at 1, xlift at 1.
  destruct (verifyControllerModule m) as [[[c d] n]|e]; [|done].
  unfold xget. unfold mbind at 1, xstM_bind at 1. destruct (bool_decide _); [done|].
  destruct (testbed_configs !! n); [|done]. unfold mbind, xstM_bind, xlift.
  by destruct (c _ _) as [[objs|]|e].
Qed.

Lemma register_each_run l s :
  exists s', register_each testbed_configs log_severity l s = (Ret tt, s') /\ same_results s s'.
Proof.
  revert s. induction l as [|m l IH]; intros s; cbn [register_each]; [by exists s|].
  pose proof (register_same m.1 m.2 s) as Hs. unfold xattempt. unfold mbind, xstM_bind.
  destruct (registerController _ _ _ _ s) as [r s1]. destruct (IH s1) as (s2 & -> & H2). exists s2. split; [done|].
  destruct Hs as (H3 & H4 & H5), H2 as (H6 & H7 & H8). cbn in *. unfold same_results. split_and!; congruence.
Qed.

Lemma runTestClass_run c cases s :
  constructs c -> controller_registry s = ∅ ->
  exists s', runTestClass testbed_configs log_severity items c cases s = (ends c cases, s') /\
    controller_registry s' = ∅ /\ test_cls_instances s' = test_cls_instances s ++ [class_results c cases] /\
    results s' = results s /\ running s' = true.
Proof.
  intros Hc Hs. unfold runTestClass. erewrite xstM_bind_run by reflexivity.
  destruct (Hc (set_running true s) Hs) as (s1 & H1 & Hi1 & Hr1 & Hrun1). cbn in Hi1, Hr1, Hrun1.
  erewrite xstM_bind_run by exact H1. unfold xfinally at 1. erewrite xstM_bind_run by reflexivity.
  destruct (register_each_run (run_modules c) (add_instance (class_results c cases) s1)) as (s2 & H2 & Hi2 & Hr2 & Hrun2).
  unfold xfinally. rewrite (xstM_bind_run _ _ _ _ _ H2). unfold xlift, unregisterControllers, xmodify, ends.
  cbn in Hi2, Hr2, Hrun2.
  destruct (exec_cleanUp c) as [[]|e]; eexists; (split; [reflexivity|]); cbn; rewrite Hi2, Hr2, Hrun2; split_and!; congruence.
Qed.

Lemma run_classes_run classes run_list s :
  (forall n c, classes !! n = Some c -> constructs c) -> controller_registry s = ∅ -> running s = true ->
  exists o s', run_classes testbed_configs log_severity items classes run_list s = (o, s') /\
    test_cls_instances s' = test_cls_instances s ++ (executed_classes classes run_list).1 /\
    results s' = results s /\ running s' = true /\
    match (executed_classes classes run_list).2, o with
    | Ret _, Ret _ => True
    | Exc e, Exc e' => exc_type e = exc_type e'
    | _, _ => False
    end.
Proof.
  intros Hcon. revert s. induction run_list as [|[n cases] l IH]; intros s Hs Hrun; cbn [run_classes executed_classes].
  { exists (Ret tt), s. cbn. by rewrite app_nil_r. }
  erewrite xstM_bind_run by reflexivity. rewrite Hrun. cbn [negb].
  destruct (classes !! n) as [c|] eqn:Ec; [|eexists _, s; split; [reflexivity|]; cbn; by rewrite app_nil_r].
  destruct (runTestClass_run c cases s (Hcon n c Ec) Hs) as (s1 & H1 & Hs1 & Hi1 & Hr1 & Hrun1).
  destruct (ends c cases) as [[]|e] eqn:Ee.
  - rewrite (xstM_bind_run _ _ _ _ _ H1). destruct (IH s1 Hs1 Hrun1) as (o & s2 & H2 & Hi2 & Hr2 & Hrun2 & Ho).
    exists o, s2. split; [exact H2|]. destruct (executed_classes classes l) as [rs o']. cbn in *.
    rewrite Hi2, Hi1, Hr2, <- app_assoc. done.
  - exists (Exc e), s1. rewrite (xstM_bind_exc _ _ _ _ _ H1). split; [done|]. cbn. by rewrite Hi1, Hr1.
Qed.

(** A run executes the classes of its list in order and stops after the first
    that ends in an exception or is not found; the results of all of them, also of
    that one, are kept for the summary.  The run itself ends without an exception,
    unless one that is no [Exception] (an interrupt) went through it. *)
Theorem run_executes_classes classes run_list s :
  (forall n c, classes !! n = Some c -> constructs c) -> controller_registry s = ∅ ->
  let '(rs, o) := executed_classes classes run_list in
  exists r s', run testbed_configs log_severity items classes run_list s = (r, s') /\
    test_cls_instances s' = test_cls_instances s ++ rs /\ results s' = results s /\ running s' = true /\
    match o with
    | Exc e => if isinstance e Exception_ then r = Ret tt else exists e', r = Exc e' /\ exc_type e' = exc_type e
    | Ret _ => r = Ret tt
    end.
Proof.
  intros Hcon Hs. destruct (run_classes_run classes run_list (set_running true s) Hcon Hs eq_refl)
    as (o' & s1 & H1 & Hi & Hr & Hrun & Ho).
  destruct (executed_classes classes run_list) as [rs o]. cbn [fst snd] in *.
  unfold run. erewrite xstM_bind_run by reflexivity. unfold xfinally.
  erewrite xstM_bind_run by (unfold xattempt; rewrite H1; reflexivity).
  destruct o as [[]|e], o' as [[]|e']; try done.
  - eexists _, _. split; [reflexivity|]. cbn. by rewrite Hi, Hr, Hrun.
  - assert (isinstance e' Exception_ = isinstance e Exception_) as -> by (unfold isinstance; by rewrite Ho).
    destruct (isinstance e Exception_).
    + eexists _, _. split; [reflexivity|]. cbn. by rewrite Hi, Hr, Hrun.
    + eexists _, _. split; [reflexivity|]. cbn. rewrite Hi, Hr, Hrun. split_and!; try done. by exists e'.
Qed.
End classes.

(** ** The summary *)
(** Results of one module, or of none that is known. *)
Definition of_module (n : pystr) (r : TestResult) : Prop :=
  test_module_name r = None \/ test_module_name r = Some n.

Lemma sum_results_spec clock n l h acc :
  of_module n acc -> Forall (of_module n) l ->
  exists h' sum, sum_results clock h acc l = (h', sum, Ok tt) /\
    executed sum = executed acc ++ mjoin (executed <$> l) /\ passed sum = passed acc ++ mjoin (passed <$> l) /\
    failed sum = failed acc ++ mjoin (failed <$> l) /\ skipped sum = skipped acc ++ mjoin (skipped <$> l) /\
    requested sum = requested acc ++ mjoin (requested <$> l).
Proof.
  intros Ha Hl. revert h acc Ha. induction Hl as [|r l Hr Hl IH]; intros h acc Ha.
  { exists h, acc. cbn. by rewrite !app_nil_r. }
  cbn [sum_results]. pose proof (result_add_spec clock h acc r) as Hs. cbv zeta in Hs.
  destruct (result_add clock h acc r) as [[h1 r1] [s|e]] eqn:E.
  - destruct Hs as (_ & _ & _ & _ & H1 & H2 & H3 & H4 & H5 & _).
    assert (of_module n s) as Hn.
    { unfold result_add in E. destruct (reportNonExecutedRecord clock h r) as [h2 r2] eqn:E2.
      assert (test_module_name r2 = test_module_name r) as Hr2.
      { unfold reportNonExecutedRecord in E2. destruct (foldl _ _ _) as [[? ?] ?]. by injection E2 as _ <-. }
      injection E as _ _ Es. apply pyres_bind_Ok in Es as (m & Hm & [= <-]). unfold of_module. cbn.
      rewrite Hr2 in Hm. unfold merge_name in Hm. destruct Ha as [Ha|Ha], Hr as [Hr|Hr]; rewrite Ha, Hr in Hm.
      - injection Hm as <-. by left.
      - injection Hm as <-. by right.
      - injection Hm as <-. by right.
      - rewrite decide_False in Hm by auto. injection Hm as <-. by right. }
    destruct (IH h1 s Hn) as (h' & sum & -> & G2 & G3 & G4 & G5 & G1). exists h', sum. split; [done|].
    rewrite !fmap_cons. cbn [mjoin list_join]. rewrite G1, G2, G3, G4, G5, H1, H2, H3, H4, H5, <- !app_assoc. done.
  - destruct Hs as (_ & _ & _ & _ & _ & a & b & Ea & Eb & Hne). exfalso.
    destruct Ha as [Ha|Ha], Hr as [Hr|Hr]; congruence.
Qed.

(** Stopping a runner sums the results of its classes, all of one module, in
    the order of their execution, and a second stop changes nothing. *)
Theorem stop_sums_results {Obj} clock n h (s : runner Obj) :
  running s = true -> results s = new_result -> Forall (of_module n) (test_cls_instances s) ->
  exists h' s', stop clock h s = (Ret h', s') /\ running s' = false /\
    executed (results s') = mjoin (executed <$> test_cls_instances s) /\
    passed (results s') = mjoin (passed <$> test_cls_instances s) /\
    failed (results s') = mjoin (failed <$> test_cls_instances s) /\
    skipped (results s') = mjoin (skipped <$> test_cls_instances s) /\
    forall h2, stop clock h2 s' = (Ret h2, s').
Proof.
  intros Hrun Hres Hl.
  destruct (sum_results_spec clock n (test_cls_instances s) h new_result) as (h' & sum & Hs & H1 & H2 & H3 & H4 & _);
    [by left|done|]. rewrite <- Hres in Hs.
  exists h', (set_running false (set_run_results sum s)). unfold stop.
  erewrite xstM_bind_run by reflexivity. rewrite Hrun, Hs.
  split; [reflexivity|]. split; [done|]. cbn [results set_running set_run_results]. split_and!; try done.
Qed.

(** Two modules in one run: the sum raises, and the runner is never stopped. *)
Example stop_two_modules :
  let named n := setTestModuleKeys (Some (bs n)) (Some 0%Z) new_result in
  let s : runner unit := mk_runner ∅ ∅ true [named "A"; named "B"] new_result [] in
  exists s', stop (fun _ => 0%Z) ∅ s = (Exc (EOther Exception_ []), s') /\ running s' = true.
Proof. eexists. split; [vm_compute; reflexivity|reflexivity]. Qed.

(** ** A run *)
Module sample.
Definition device : controller_module nat :=
  mk_module (bs "vts.utils.android_device") (Has (fun _ _ => Ret (Some [1; 2]))) (Has (fun _ => Exc (EOther Exception_ [])))
    (Has (bs "AndroidDevice")).
Definition bad_device : controller_module nat :=
  mk_module (bs "other") (Has (fun _ _ => Exc (EOther AdbError []))) (Has (fun _ => Ret tt)) (Has (bs "AndroidDevice")).
Definition one_result (n : rid) : TestResult := mk_result [n] [] [n] [n] [] [] None None [].
Definition good : test_class nat :=
  mk_class [(device, PBool true)] [(device, PBool true)] (fun _ => Ret tt) (fun _ => one_result 0) (Ret tt).
Definition aborting : test_class nat :=
  mk_class [(device, PBool true)] [] (fun _ => Exc (ESignal TestAbortAll [] PNone)) (fun _ => one_result 1) (Ret tt).
Definition classes : gmap pystr (test_class nat) := <[bs "ATest" := good]> {[bs "BTest" := aborting]}.
Definition bed : config := {[bs "AndroidDevice" := PStr (bs "*")]}.
Definition items : gmap pystr (list nat -> xres unit) -> list (pystr * (list nat -> xres unit)) := map_to_list.
Definition run_list : list (pystr * option (list pystr)) :=
  [(bs "ATest", None); (bs "BTest", None); (bs "ATest", None)].

Lemma constructs_all n c : classes !! n = Some c -> constructs bed (bs "INFO") c.
Proof.
  intros Hc. assert (ctor_modules c = [(device, PBool true)]) as E.
  { unfold classes in Hc. apply lookup_insert_Some in Hc as [[_ <-]|[_ Hc]]; [done|].
    by apply lookup_singleton_Some in Hc as [_ <-]. }
  intros [reg des run inst res ev] Hs. cbn in Hs. subst reg. rewrite E.
  exists (mk_runner (<[bs "android_device" := [1; 2]]> ∅)
    (<[bs "android_device" := fun _ => Exc (EOther Exception_ [])]> des) run inst res
    (ev ++ [Created (bs "android_device") [1; 2]])).
  split; [reflexivity|done].
Qed.
End sample.

Example runs_destroy_controllers_witness :
  let s := (run sample.bed (bs "INFO") sample.items sample.classes sample.run_list new_runner).2 in
  controller_registry s = ∅ /\ length (destroyed_of (events s)) = 2.
Proof.
  intros s.
  pose proof (runs_destroy_controllers sample.bed (bs "INFO") sample.items (fun m => reflexivity _)
    [(sample.classes, sample.run_list)]) as (H1 & _ & H3).
  split; [exact H1|]. etrans; [exact (eq_sym (Permutation_length H3))|]. vm_compute. reflexivity.
Defined.

Example run_executes_classes_witness :
  exists s', run sample.bed (bs "INFO") sample.items sample.classes sample.run_list new_runner = (Ret tt, s') /\
    test_cls_instances s' = [sample.one_result 0; sample.one_result 1].
Proof.
  pose proof (run_executes_classes sample.bed (bs "INFO") sample.items sample.classes sample.run_list new_runner
    sample.constructs_all eq_refl) as H.
  assert (executed_classes sample.classes sample.run_list =
    ([sample.one_result 0; sample.one_result 1], Exc (ESignal TestAbortAll [] PNone))) as E by (vm_compute; reflexivity).
  rewrite E in H. destruct H as (r & s' & Hr & Hi & _ & _ & He). exists s'. assert (r = Ret tt) as -> by exact He. split; [exact Hr|exact Hi].
Defined.

Example stop_sums_results_witness :
  let s : runner unit := mk_runner ∅ ∅ true [sample.one_result 0; sample.one_result 1] new_result [] in
  exists h' s', stop (fun _ => 0%Z) ∅ s = (Ret h', s') /\ executed (results s') = [0; 1].
Proof.
  intros s. destruct (stop_sums_results (fun _ => 0%Z) (bs "M") ∅ s eq_refl eq_refl) as (h' & s' & H & _ & He & _).
  - repeat constructor.
  - exists h', s'. split; [exact H|exact He].
Defined.

(** A constructor that registers the devices and then raises: outside [run] the
    devices that were created are never destroyed. *)
Example constructor_leaks :
  let c := mk_class [(sample.device, PBool true); (sample.bad_device, PBool true)] [] (fun _ => Ret tt)
             (fun _ => new_result) (Ret tt) in
  let r := runTestClass sample.bed (bs "INFO") sample.items c None new_runner in
  r.1 = Exc (EOther AdbError []) /\ controller_registry r.2 !! bs "android_device" = Some [1; 2] /\
  destroyed_of (events r.2) = [].
Proof. intros c r. split_and!; vm_compute; reflexivity. Qed.
