(* ===== verification/Channel.v ===== *)
(** * The socket channel and its frames

    Host and device exchange messages over TCP as frames: the length in decimal,
    a line feed, and the bytes of the message.  A channel is what [makefile] of
    Python 2 gives for a socket: what is still to come from the peer is a list of
    events.  A call that raises loses what it had read, as Python 2 keeps it in a
    local variable. *)

From Stdlib Require Import Strings.Byte.
From S2P Require Import Prelude PyStr ListUtils PyVal Signals Shell.

(** A byte, a wait longer than the time limit, a reset, or the end of the stream. *)
Inductive event := EByte (b : Byte.byte) | EDelay | EReset | EClose.
Abbreviation incoming := (list event).
Definition bytes (s : pystr) : incoming := EByte <$> s.

Definition socket_timeout : exc_class := UserException 1.
Definition socket_error : exc_class := UserException 2.
Definition timed_out : exn := EOther socket_timeout (bs "timed out").
Definition reset : exn := EOther socket_error (bs "[Errno 104] Connection reset by peer").

Definition line_feed : Byte.byte := Byte.x0a.

(** [channel.readline()]: with nothing to come the wait is too long. *)
Fixpoint readline_from (acc : pystr) (l : incoming) : xres pystr * incoming :=
  match l with
  | [] => (Exc timed_out, [])
  | EByte b :: l =>
      if is_byte line_feed b then (Ret (acc ++ [b]), l) else readline_from (acc ++ [b]) l
  | EDelay :: l => (Exc timed_out, l)
  | EReset :: l => (Exc reset, l)
  | EClose :: _ => (Ret acc, l)
  end.
Definition readline : xstM incoming pystr := readline_from [].

(** [channel.read(n)]: up to the end of the stream when [n] is negative. *)
Fixpoint read_from (n : nat) (acc : pystr) (l : incoming) : xres pystr * incoming :=
  match n with
  | O => (Ret acc, l)
  | S n =>
      match l with
      | [] => (Exc timed_out, [])
      | EByte b :: l => read_from n (acc ++ [b]) l
      | EDelay :: l => (Exc timed_out, l)
      | EReset :: l => (Exc reset, l)
      | EClose :: _ => (Ret acc, l)
      end
  end.
Fixpoint read_rest (acc : pystr) (l : incoming) : xres pystr * incoming :=
  match l with
  | [] => (Exc timed_out, [])
  | EByte b :: l => read_rest (acc ++ [b]) l
  | EDelay :: l => (Exc timed_out, l)
  | EReset :: l => (Exc reset, l)
  | EClose :: _ => (Ret acc, l)
  end.
Definition read (n : Z) : xstM incoming pystr := fun l =>
  if (n <? 0)%Z then read_rest [] l else read_from (Z.to_nat n) [] l.

(** [str(len(message)) + "\n"], then the message. *)
Definition header (message : pystr) : pystr := str_nat (Z.of_nat (length message)).
Definition frame (message : pystr) : pystr := header message ++ [line_feed] ++ message.

(** [int(s)] *)
Definition int_of_str (s : pystr) : xres Z :=
  match py_int s with
  | Ok n => Ret n
  | Raise _ => Exc (EOther Python_ValueError (bs "invalid literal for int() with base 10: " ++ repr_str s))
  end.

(** ** Lemmas *)
Lemma readline_from_line acc s l :
  no_byte line_feed s = true ->
  readline_from acc (bytes (s ++ [line_feed]) ++ l) = (Ret (acc ++ s ++ [line_feed]), l).
Proof.
  revert acc. induction s as [|b s IH]; intros acc Hs; [done|].
  cbn [no_byte forallb] in Hs. apply andb_true_iff in Hs as [Hb Hs].
  apply negb_true_iff in Hb. cbn [bytes fmap list_fmap app readline_from]. rewrite Hb.
  rewrite (IH _ Hs). by rewrite <- app_assoc.
Qed.

(** What a wait interrupts is lost. *)
Lemma readline_from_delay acc s l :
  no_byte line_feed s = true -> readline_from acc (bytes s ++ EDelay :: l) = (Exc timed_out, l).
Proof.
  revert acc. induction s as [|b s IH]; intros acc Hs; [done|].
  cbn [no_byte forallb] in Hs. apply andb_true_iff in Hs as [Hb Hs].
  apply negb_true_iff in Hb. cbn [bytes fmap list_fmap app readline_from]. rewrite Hb. by apply IH.
Qed.

Lemma read_from_bytes acc s l : read_from (length s) acc (bytes s ++ l) = (Ret (acc ++ s), l).
Proof.
  revert acc. induction s as [|b s IH]; intros acc; cbn [length read_from bytes fmap list_fmap app].
  - by rewrite app_nil_r.
  - rewrite IH. by rewrite <- app_assoc.
Qed.

Lemma read_from_delay n acc s l :
  length s < n -> read_from n acc (bytes s ++ EDelay :: l) = (Exc timed_out, l).
Proof.
  revert n acc. induction s as [|b s IH]; intros [|n] acc Hn; cbn in Hn; try lia; [done|].
  cbn [read_from bytes fmap list_fmap app]. apply IH. lia.
Qed.

Lemma header_no_line_feed message : no_byte line_feed (header message) = true.
Proof. apply digits_no_byte; [done|lia]. Qed.

Lemma readline_frame message l :
  readline (bytes (frame message) ++ l) = (Ret (header message ++ [line_feed]), bytes message ++ l).
Proof.
  unfold readline, frame. rewrite (app_assoc (header message)). unfold bytes. rewrite fmap_app, <- app_assoc.
  by rewrite (readline_from_line [] _ _ (header_no_line_feed message)).
Qed.

Lemma read_message message l : read (Z.of_nat (length message)) (bytes message ++ l) = (Ret message, l).
Proof. unfold read. rewrite (proj2 (Z.ltb_ge _ _)) by lia. rewrite Nat2Z.id. apply (read_from_bytes []). Qed.

Lemma int_of_header message : int_of_str (header message) = Ret (Z.of_nat (length message)).
Proof. unfold int_of_str, header. by rewrite py_int_str by lia. Qed.

Lemma header_nonempty message : header message <> [].
Proof. unfold header. by destruct (str_nat_spec (Z.of_nat (length message)) ltac:(lia)) as (_ & _ & ?). Qed.

(** Stripping the line end of a header leaves the digits. *)
Lemma strip_header f message :
  f line_feed = true -> (forall b, is_digit b = true -> f b = false) ->
  strip_by f (header message ++ [line_feed]) = header message.
Proof.
  intros Hf Hd. apply (strip_spaces_around f (header message) [] [line_feed]); [done|by cbn; rewrite Hf|].
  destruct (str_nat_spec (Z.of_nat (length message)) ltac:(lia)) as (H & _ & _).
  apply forallb_forall. intros b Hb. rewrite forallb_forall in H. by rewrite (Hd b (H b Hb)).
Qed.
