(* ===== verification/TcpClient.v ===== *)
(** * The client of the device agent ([src/runners/host/tcp_client/vts_tcp_client.py])

    A [VtsTcpClient] writes a command as a frame and reads the agent's response
    as a frame.  The connection is a [Channel]; what the agent does with the
    bytes it gets is an argument ([deliver]), and so are the encodings of the
    protocol buffers.  The class [Agent] is what a client may expect of an
    agent; the remote calls are proved against it. *)

From Stdlib Require Import Strings.Byte.
From S2P Require Import Prelude PyStr ListUtils PyVal Signals Shell Channel Mirror.

Definition VtsTcpClientCreationError : exc_class := UserException 3.
Definition VtsTcpCommunicationError : exc_class := UserException 4.
Definition VtsUnsupportedTypeError : exc_class := UserException 5.

(** ** The messages of the agent *)

(** Requests to the drivers of message queues, shared memory and handles. *)
Record FmqRequestMessage := mk_fmq_request {
  fmq_operation : Z;
  fmq_data_type : pystr;
  fmq_sync : bool;
  fmq_queue_id : Z;
  fmq_queue_size : option Z;
  fmq_blocking : option bool;
  fmq_reset_pointers : option bool;
  fmq_write_data : list vsm;
  fmq_read_data_size : option Z;
  fmq_time_out_nanos : option Z;
}.
Record FmqResponseMessage := mk_fmq_response {
  fmq_read_data : list vsm;
  fmq_sizet_return_val : Z;
  fmq_new_queue_id : Z;
  fmq_success : bool;
}.
Record HidlMemoryRequestMessage := mk_mem_request {
  mem_operation : Z;
  mem_id : Z;
  mem_size : option Z;
  mem_start : option Z;
  mem_length : option Z;
  mem_write_data : option pystr;
}.
Record HidlMemoryResponseMessage := mk_mem_response {
  mem_success : bool;
  new_mem_id : Z;
  mem_size_result : Z;
  mem_read_data : pystr;
}.
(** The handle of one file: its mode, its name and the integers stored with it. *)
Record HandleDataValueMessage := mk_handle_info {
  num_fds : Z;
  num_ints : Z;
  fd_val : list (pystr * pystr);
  int_val : list Z;
}.
Record HidlHandleRequestMessage := mk_handle_request {
  handle_operation : Z;
  handle_id : Z;
  handle_info : option HandleDataValueMessage;
  handle_read_data_size : option Z;
  handle_write_data : option pystr;
}.
Record HidlHandleResponseMessage := mk_handle_response {
  handle_success : bool;
  new_handle_id : Z;
  handle_read_data : pystr;
  handle_write_data_size : Z;
}.

(** A field of AndroidSystemControlCommandMessage that is set. *)
Inductive field :=
  | paths (l : list pystr)
  | file_path (s : pystr)
  | bits (z : Z)
  | target_class (z : Z)
  | target_type (z : Z)
  | target_version_major (z : Z)
  | target_version_minor (z : Z)
  | target_package (s : pystr)
  | target_component_name (s : pystr)
  | hw_binder_service_name (s : pystr)
  | is_test_hal (b : bool)
  | service_name (s : pystr)
  | callback_port (z : Z)
  | driver_type (z : Z)
  | shell_command (l : list pystr)
  | driver_caller_uid (s : pystr)
  | arg (s : pystr)
  | fmq_request (m : FmqRequestMessage)
  | hidl_memory_request (m : HidlMemoryRequestMessage)
  | hidl_handle_request (m : HidlHandleRequestMessage).

Record command_msg := mk_command { command_type : Z; fields : list field }.

(** AndroidSystemControlResponseMessage; a submessage that the agent did not set
    reads as one with the default values. *)
Record response_msg := mk_response {
  response_code : Z;
  file_names : list pystr;
  spec : pystr;
  result : pystr;
  stdout : list pystr;
  stderr : list pystr;
  exit_code : list Z;
  fmq_response : FmqResponseMessage;
  hidl_memory_response : HidlMemoryResponseMessage;
  hidl_handle_response : HidlHandleResponseMessage;
}.
Definition empty_response : response_msg :=
  mk_response 0 [] [] [] [] [] [] (mk_fmq_response [] 0 0 false) (mk_mem_response false 0 0 [])
    (mk_handle_response false 0 [] 0).

Definition SUCCESS : Z := 1.

(** Command types. *)
Definition LIST_HALS : Z := 1.
Definition SET_HOST_INFO : Z := 2.
Definition PING : Z := 3.
Definition CHECK_DRIVER_SERVICE : Z := 101.
Definition LAUNCH_DRIVER_SERVICE : Z := 102.
Definition VTS_AGENT_COMMAND_READ_SPECIFICATION : Z := 103.
Definition LIST_APIS : Z := 201.
Definition CALL_API : Z := 202.
Definition VTS_AGENT_COMMAND_GET_ATTRIBUTE : Z := 203.
Definition VTS_AGENT_COMMAND_EXECUTE_SHELL_COMMAND : Z := 301.
Definition VTS_FMQ_COMMAND : Z := 401.
Definition VTS_HIDL_MEMORY_COMMAND : Z := 402.
Definition VTS_HIDL_HANDLE_COMMAND : Z := 403.

(** The keys of the table that [SendCommand] reads for its log line. *)
Definition COMMAND_TYPE_NAME : list Z := [1; 2; 101; 102; 103; 201; 202; 203; 301; 401; 402; 403]%Z.

Definition VTS_DRIVER_TYPE_HAL_CONVENTIONAL : Z := 1.
Definition VTS_DRIVER_TYPE_HAL_LEGACY : Z := 2.
Definition VTS_DRIVER_TYPE_HAL_HIDL : Z := 3.

Definition NO_RESPONSE_MSG : pystr :=
  bs "Framework error: TCP client did not receive response from device.".
Definition FAIL_RESPONSE_MSG : pystr :=
  bs "Framework error: TCP client received unsuccessful response code.".

(** ComponentSpecificationMessage, with the functions and the attributes of its
    interface, and FunctionSpecificationMessage. *)
Record api_spec := mk_api { api_name : pystr; api_arg : list vsm }.
Record component_msg := mk_component_msg {
  import : list pystr;
  attribute : list vsm;
  interface_attribute : list vsm;
  interface_api : list api_spec;
  component_class : Z;
  component_type : Z;
  component_type_version_major : Z;
  component_type_version_minor : Z;
  component_package : pystr;
}.
Definition mk_component (imports : list pystr) (attributes : list vsm) : component_msg :=
  mk_component_msg imports attributes [] [] 0 0 (-1) (-1) [].
Definition set_attribute (l : list vsm) (m : component_msg) : component_msg :=
  mk_component_msg (import m) l (interface_attribute m) (interface_api m) (component_class m) (component_type m)
    (component_type_version_major m) (component_type_version_minor m) (component_package m).
Record function_msg := mk_function {
  return_type : option vsm;
  return_type_hidl : list vsm;
  return_type_submodule_spec : component_msg;
  raw_coverage_data : list pystr;
}.
Definition return_type_of (m : function_msg) : vsm := default empty_vsm (return_type m).
Definition TYPE_SUBMODULE : VariableType := TYPE_OTHER 11.

(** ** Values of variable messages *)

(** HIDL_INTERFACE, HANDLE, HIDL_MEMORY, FMQ_SYNC, FMQ_UNSYNC. *)
Definition resource_type (t : VariableType) : bool :=
  match t with
  | TYPE_OTHER n => bool_decide (n ∈ [13; 14; 16; 18; 19])
  | _ => false
  end.

(** The number of a type in the protocol. *)
Definition type_number (t : VariableType) : Z :=
  match t with
  | UNKNOWN_VARIABLE_TYPE => 0 | TYPE_PREDEFINED => 1 | TYPE_SCALAR => 2 | TYPE_STRING => 3
  | TYPE_ENUM => 4 | TYPE_ARRAY => 5 | TYPE_VECTOR => 6 | TYPE_STRUCT => 7 | TYPE_UNION => 12
  | TYPE_MASK => 15 | TYPE_OTHER n => Z.of_nat n
  end.
Definition unsupported (m : vsm) : xres value :=
  Exc (EOther VtsUnsupportedTypeError (bs "unsupported type " ++ str_int (type_number (type m)))).

Definition attribute_name (index : Z) : pystr := bs "attribute" ++ str_int index.

Section data.
Context (GetPythonData : vsm -> xres value).

Fixpoint data_fields (l : list vsm) (index : Z) (result : list (pystr * value)) : xres value :=
  match l with
  | [] => Ret (VDict result)
  | x :: l =>
      v ← GetPythonData x;
      let key := match name x with [] => attribute_name index | n => n end in
      data_fields l (index + 1) (Pb2py.dict_set key v result)
  end.
Fixpoint data_items (l : list vsm) (result : list value) : xres value :=
  match l with
  | [] => Ret (VList result)
  | x :: l => v ← GetPythonData x; data_items l (result ++ [v])
  end.
End data.

Fixpoint GetPythonDataOfVariableSpecMsg (m : vsm) : xres value :=
  match type m with
  | TYPE_SCALAR =>
      match scalar_type m with [] => unsupported m | _ => of_pyres (get_scalar m) end
  | TYPE_ENUM =>
      match scalar_type m with
      | [] => of_pyres (get_scalar (set_scalar_type (bs "int32_t") m))
      | _ => of_pyres (get_scalar m)
      end
  | TYPE_STRING => Ret (VStr (string_value m).1)
  | TYPE_STRUCT => data_fields GetPythonDataOfVariableSpecMsg (struct_value m) 1 []
  | TYPE_UNION => data_fields GetPythonDataOfVariableSpecMsg (union_value m) 1 []
  | TYPE_VECTOR | TYPE_ARRAY => data_items GetPythonDataOfVariableSpecMsg (vector_value m) []
  | t => if resource_type t then Ret (VMsg m) else unsupported m
  end.

(** ** The client *)
Record client (P : Type) := mk_client {
  connection : option incoming;          (* the socket, with what it will give *)
  channel : bool;                        (* whether there is a file on it *)
  timeout : option Z;
  error : option (exn + pystr);
  peer : P;
}.
Arguments mk_client {_} _ _ _ _ _.
Arguments connection {_} _.
Arguments channel {_} _.
Arguments timeout {_} _.
Arguments error {_} _.
Arguments peer {_} _.

(** What a shell command gave: the exit code is [-1] when there was no answer. *)
Record shell_results := mk_shell { STDOUT : list pystr; STDERR : list pystr; EXIT_CODE : Z + list Z }.

(** A command is a string, or a list or tuple of them. *)
Inductive command_arg := One (s : pystr) | Many (l : list pystr).
Definition command_list (c : command_arg) : list pystr := match c with One s => [s] | Many l => l end.
(** [len(command)] *)
Definition command_len (c : command_arg) : nat := match c with One s => length s | Many l => length l end.

(** What a call of an API gives. *)
Inductive api_result :=
  | AMirror (spec : component_msg)
  | AMessage (m : function_msg)
  | AValue (v : value)
  | AValues (l : list value)
  | ACovered (r : api_result) (coverage : list pystr).

(** A header and the bytes that it announces; an empty header announces none. *)
Definition read_frame : xstM incoming pystr :=
  line ← readline;
  let header := strip_by (is_byte line_feed) line in
  length ← xlift (match header with [] => Ret 0%Z | _ => int_of_str header end);
  read length.

Section client.
Context {P : Type}.
(** Opening a connection to an address and a port with a time limit; [false] is a
    [socket.error]. *)
Context (create_connection : pystr -> Z -> option Z -> P -> bool * P).
(** The peer gets the bytes that were written: what will arrive from it, unless
    the write fails. *)
Context (deliver : pystr -> P -> xres incoming * P).
(** Setting the fields of a command and encoding it, and decoding a response. *)
Context (SerializeToString : command_msg -> xres pystr) (ParseFromString : pystr -> xres response_msg).
(** What [text_format.Merge] fills in, as far as it gets. *)
Context (MergeFunction : pystr -> function_msg) (MergeComponent : pystr -> component_msg).
Context (sleep : P -> P).
Abbreviation clientM := (xstM (client P)).

Definition set_error (e : option (exn + pystr)) : clientM unit :=
  xmodify (fun c => mk_client (connection c) (channel c) (timeout c) e (peer c)).
Definition set_connection (o : option incoming) : clientM unit :=
  xmodify (fun c => mk_client o (channel c) (timeout c) (error c) (peer c)).
Definition set_channel (b : bool) : clientM unit :=
  xmodify (fun c => mk_client (connection c) b (timeout c) (error c) (peer c)).
Definition on_peer {A} (f : P -> A * P) : clientM A := fun c =>
  let '(a, p) := f (peer c) in (Ret a, mk_client (connection c) (channel c) (timeout c) (error c) p).

Definition new_client (timeout : option Z) (p : P) : client P := mk_client None false timeout None p.

Definition Heal : clientM bool := c ← xget; mret (bool_decide (error c = None)).

(** [channel.write] and [flush] *)
Definition channel_write (s : pystr) : clientM unit := fun c =>
  let '(r, p) := deliver s (peer c) in
  match r with
  | Ret l => (Ret tt, mk_client ((fun k => k ++ l) <$> connection c) (channel c) (timeout c) (error c) p)
  | Exc e => (Exc e, mk_client (connection c) (channel c) (timeout c) (error c) p)
  end.

(** A method of the channel that reads. *)
Definition on_channel {A} (m : xstM incoming A) : clientM A := fun c =>
  match connection c with
  | Some l => if channel c then
                let '(r, l) := m l in (r, mk_client (Some l) true (timeout c) (error c) (peer c))
              else (Exc (EOther Python_AttributeError (bs "'NoneType' object has no attribute 'readline'")), c)
  | None => (Exc (EOther Python_AttributeError (bs "'NoneType' object has no attribute 'readline'")), c)
  end.

Definition SendCommand (command_type : Z) (args : list (option field)) : clientM unit :=
  c ← xget;
  if negb (channel c)
  then xlift (Exc (EOther VtsTcpCommunicationError (bs "channel is None, unable to send command.")))
  else
    _ ← xlift (if decide (command_type ∈ COMMAND_TYPE_NAME) then Ret tt
               else Exc (EOther Python_KeyError (str_int command_type)));
    message ← xlift (SerializeToString (mk_command command_type (omap id args)));
    channel_write (frame message).

(** One round of the loop: header, then as many bytes as it says. *)
Definition read_response : xstM incoming response_msg := data ← read_frame; xlift (ParseFromString data).

Fixpoint recv_rounds (n : nat) : clientM (option response_msg) :=
  match n with
  | O => mret None
  | S n =>
      r ← xattempt (on_channel read_response);
      match r with
      | Ret m => mret (Some m)
      | Exc e => if isinstance e socket_timeout then recv_rounds n else xlift (Exc e)
      end
  end.
Definition RecvResponse (retries : nat) : clientM (option response_msg) := recv_rounds (1 + retries).

(** An attribute of a response that may be [None]. *)
Definition needed (attr : pystr) (resp : option response_msg) : clientM response_msg :=
  match resp with
  | Some r => mret r
  | None => xlift (Exc (EOther Python_AttributeError
                          (bs "'NoneType' object has no attribute '" ++ attr ++ bs "'")))
  end.

(** A command and the response to it. *)
Definition call (command_type : Z) (args : list (option field)) (retries : nat) : clientM (option response_msg) :=
  _ ← SendCommand command_type args; RecvResponse retries.
Definition call_needed (command_type : Z) (args : list (option field)) : clientM response_msg :=
  resp ← call command_type args 0; needed (bs "response_code") resp.
Definition succeeded (r : response_msg) : bool := (response_code r =? SUCCESS)%Z.

(** *** Connecting *)
Fixpoint connect_from (connect : P -> bool * P) (failed : pystr) (todo : nat) : clientM unit :=
  match todo with
  | O => mret tt
  | S todo =>
      ok ← on_peer connect;
      if ok : bool then set_connection (Some [])
      else
        _ ← on_peer (fun p => (tt, sleep p));
        match todo with
        | O => xlift (Exc (EOther VtsTcpClientCreationError failed))
        | _ => connect_from connect failed todo
        end
  end.

(** A port that is [None] or 0 is refused. *)
Definition Connect (ip : pystr) (command_port : option Z) (host_port : option Z) (retry : nat)
    (limit : option Z) : clientM bool :=
  let port := default 0%Z command_port in
  if (port =? 0)%Z then mret false
  else
    c ← xget;
    _ ← connect_from (create_connection ip port (match limit with None => timeout c | l => l end))
          (bs "Couldn't connect to " ++ ip ++ bs ":" ++ str_int port) retry;
    c ← xget;
    match connection c with
    | None => xlift (Exc (EOther Python_AttributeError (bs "'NoneType' object has no attribute 'makefile'")))
    | Some _ =>
        _ ← set_channel true;
        match host_port with
        | None => mret true
        | Some p => resp ← call_needed SET_HOST_INFO [Some (callback_port p)]; mret (succeeded resp)
        end
    end.

Definition Disconnect : clientM unit :=
  c ← xget;
  match connection c with
  | None => mret tt
  | Some _ => _ ← set_channel false; set_connection None
  end.

(** *** Remote calls *)
Definition ListHals (base_paths : option (list pystr)) : clientM (option (list pystr)) :=
  resp ← call_needed LIST_HALS [paths <$> base_paths];
  mret (if succeeded resp then Some (file_names resp) else None).

Definition CheckDriverService (name : pystr) : clientM bool :=
  resp ← call_needed CHECK_DRIVER_SERVICE [Some (service_name name)];
  mret (succeeded resp).

Definition hal_driver (type : Z) : bool :=
  (type =? VTS_DRIVER_TYPE_HAL_HIDL)%Z || (type =? VTS_DRIVER_TYPE_HAL_CONVENTIONAL)%Z
  || (type =? VTS_DRIVER_TYPE_HAL_LEGACY)%Z.

(** The number of the driver, or for other types of driver whether it runs. *)
Definition LaunchDriverService (type : Z) (name : pystr) (bits_ : Z) (path : option pystr)
    (class hal_type major minor : option Z) (package component binder_name : option pystr)
    (test_hal : option bool) : clientM (Z + bool) :=
  resp ← call_needed LAUNCH_DRIVER_SERVICE
    [Some (driver_type type); Some (service_name name); Some (bits bits_); file_path <$> path;
     target_class <$> class; target_type <$> hal_type; target_version_major <$> major;
     target_version_minor <$> minor; target_package <$> package; target_component_name <$> component;
     hw_binder_service_name <$> binder_name; is_test_hal <$> test_hal];
  if hal_driver type then
    if succeeded resp then n ← xlift (int_of_str (result resp)); mret (inl n) else mret (inl (-1)%Z)
  else mret (inr (succeeded resp)).

Definition ListApis : clientM (option pystr) :=
  resp ← call_needed LIST_APIS [];
  mret (if succeeded resp then Some (spec resp) else None).

Definition python_values (l : list vsm) : xres (list value) :=
  foldr (fun m r => v ← GetPythonDataOfVariableSpecMsg m; l ← r; Ret (v :: l)) (Ret []) l.

Definition rpc_error (what : pystr) (code : Z) : exn :=
  EOther VtsTcpCommunicationError
    (bs "RPC Error, response code for " ++ what ++ bs " is " ++ str_int code).

Definition CallApi (text : pystr) (caller_uid : option pystr) : clientM api_result :=
  resp ← call_needed CALL_API [Some (arg text); driver_caller_uid <$> caller_uid];
  if succeeded resp then
    _ ← xlift (if decide (result resp = bs "error")
               then Exc (EOther VtsTcpCommunicationError (bs "API call error by the VTS driver."))
               else Ret tt);
    let m := MergeFunction (result resp) in
    if decide (type (return_type_of m) = TYPE_SUBMODULE)
    then mret (AMirror (return_type_submodule_spec m))
    else
      result_value ← match return_type m with
                     | Some _ => mret (AMessage m)
                     | None => l ← xlift (python_values (return_type_hidl m)); mret (AValues l)
                     end;
      mret (match raw_coverage_data m with [] => result_value | l => ACovered result_value l end)
  else xlift (Exc (rpc_error text (response_code resp))).

Definition GetAttribute (text : pystr) : clientM api_result :=
  resp ← call_needed VTS_AGENT_COMMAND_GET_ATTRIBUTE [Some (arg text)];
  if succeeded resp then
    _ ← xlift (if decide (result resp = bs "error")
               then Exc (EOther VtsTcpCommunicationError (bs "Get attribute request failed on target."))
               else Ret tt);
    let m := MergeFunction (result resp) in
    match type (return_type_of m) with
    | TYPE_OTHER 11 => mret (AMirror (return_type_submodule_spec m))
    | TYPE_SCALAR => v ← xpure (get_scalar (return_type_of m)); mret (AValue v)
    | _ => mret (AMessage m)
    end
  else xlift (Exc (rpc_error text (response_code resp))).

(** [__ExecuteShellCommand] *)
Definition execute_shell (command : command_arg) : clientM shell_results :=
  resp ← call VTS_AGENT_COMMAND_EXECUTE_SHELL_COMMAND [Some (shell_command (command_list command))] 2;
  match resp with
  | None => _ ← set_error (Some (inr NO_RESPONSE_MSG)); mret (mk_shell [] [NO_RESPONSE_MSG] (inl (-1)%Z))
  | Some resp =>
      if negb (succeeded resp)
      then _ ← set_error (Some (inr FAIL_RESPONSE_MSG)); mret (mk_shell [] [FAIL_RESPONSE_MSG] (inl (-1)%Z))
      else _ ← set_error None; mret (mk_shell (stdout resp) (stderr resp) (inr (exit_code resp)))
  end.

Definition ExecuteShellCommand (command : command_arg) (no_except : bool) : clientM shell_results :=
  r ← xattempt (execute_shell command);
  match r with
  | Ret res => mret res
  | Exc e =>
      if isinstance e Exception_ then
        _ ← set_error (Some (inl e));
        if negb no_except then xlift (Exc e)
        else let n := command_len command in
             mret (mk_shell (replicate n []) (replicate n (str_exn e)) (inr (replicate n (-1)%Z)))
      else xlift (Exc e)
  end.

(** The response of a driver is handed on whatever the agent's code says: the
    check only logs. *)
Definition CheckResourceCommandResponse {A} (agent_response : option response_msg) (resource_response : option A)
    : option A := resource_response.
Definition SendFmqRequest (message : FmqRequestMessage) : clientM (option FmqResponseMessage) :=
  resp ← call VTS_FMQ_COMMAND [Some (fmq_request message)] 0;
  mret (CheckResourceCommandResponse resp (fmq_response <$> resp)).
Definition SendHidlMemoryRequest (message : HidlMemoryRequestMessage) : clientM (option HidlMemoryResponseMessage) :=
  resp ← call VTS_HIDL_MEMORY_COMMAND [Some (hidl_memory_request message)] 0;
  mret (CheckResourceCommandResponse resp (hidl_memory_response <$> resp)).
Definition SendHidlHandleRequest (message : HidlHandleRequestMessage) : clientM (option HidlHandleResponseMessage) :=
  resp ← call VTS_HIDL_HANDLE_COMMAND [Some (hidl_handle_request message)] 0;
  mret (CheckResourceCommandResponse resp (hidl_handle_response <$> resp)).

Definition Ping : clientM bool :=
  resp ← call PING [] 0;
  mret (match resp with Some r => succeeded r | None => false end).

(** One specification, without its imports. *)
Definition read_one (interface_name : pystr) (class hal_type major minor : option Z) (package : option pystr)
    : clientM component_msg :=
  resp ← call VTS_AGENT_COMMAND_READ_SPECIFICATION
    [Some (service_name interface_name); target_class <$> class; target_type <$> hal_type;
     target_version_major <$> major; target_version_minor <$> minor; target_package <$> package] 2;
  resp ← needed (bs "result") resp;
  _ ← xlift (if decide (result resp = bs "error")
             then Exc (EOther VtsTcpCommunicationError (bs "API call error by the VTS driver."))
             else Ret tt);
  mret (MergeComponent (result resp)).

(** An import as package, version and interface: [package@major.minor::interface]. *)
Definition parse_import (imported_interface : pystr) : pyres (pystr * pystr * pystr * pystr) :=
  match split (bs "@") imported_interface with
  | [package; version_str] =>
      v ← py_get (split (bs "::") version_str) 0;
      match split (bs ".") v with
      | [version_major; version_minor] =>
          interface ← py_get (split (bs "::") imported_interface) 1;
          Ok (package, version_major, version_minor, interface)
      | _ => Raise ValueError
      end
  | _ => Raise ValueError
  end.

(** The class and the type that the imports are read with: [msg], which the code
    falls back to, is not defined. *)
Definition or_msg (o : option Z) : xres Z := match o with Some z => Ret z | None => Exc (EOther NameError_ []) end.

Definition SKIPPED_IMPORT : pystr := bs "android.hidl.base@1.0::types".

Fixpoint merge_imports (class hal_type : option Z) (imports : list pystr) (acc : component_msg)
    : clientM component_msg :=
  match imports with
  | [] => mret acc
  | imported_interface :: imports =>
      if decide (imported_interface = SKIPPED_IMPORT) then merge_imports class hal_type imports acc
      else
        i ← xpure (parse_import imported_interface);
        let '(package, version_major, version_minor, interface) := i in
        c ← xlift (or_msg class);
        t ← xlift (or_msg hal_type);
        major ← xpure (py_int version_major);
        minor ← xpure (py_int version_minor);
        imported ← read_one interface (Some c) (Some t) (Some major) (Some minor) (Some package);
        merge_imports class hal_type imports
          (set_attribute (attribute acc ++ attribute imported) acc)
  end.

Definition ReadSpecification (interface_name : pystr) (class hal_type major minor : option Z)
    (package : option pystr) (recursive : bool) : clientM component_msg :=
  m ← read_one interface_name class hal_type major minor package;
  if recursive then merge_imports class hal_type (import m) m else mret m.
End client.
