(* ===== verification/TcpSpec.v ===== *)
(** * The client against its agent

    [Agent] is what the client expects of the other side of the connection; from
    it follows that remote calls get their own responses, in order, and that a
    response that was given up is taken for the one to the next command. *)

From Stdlib Require Import Strings.Byte.
From S2P Require Import Prelude PyStr ListUtils PyVal Signals Shell Channel Mirror TcpClient.

(** An agent that answers every command that it can decode with one frame:
    [answer] is the abstract remote procedure. *)
Class Agent {P : Type} (deliver : pystr -> P -> xres incoming * P)
    (SerializeToString : command_msg -> xres pystr) (ParseFromString : pystr -> xres response_msg)
    (answer : command_msg -> P -> response_msg * P) : Prop := {
  agent_answers m s p :
    SerializeToString m = Ret s ->
    exists t, deliver (frame s) p = (Ret (bytes (frame t)), (answer m p).2) /\
              ParseFromString t = Ret (answer m p).1;
}.

Section spec.
Context {P : Type} (deliver : pystr -> P -> xres incoming * P).
Context (SerializeToString : command_msg -> xres pystr) (ParseFromString : pystr -> xres response_msg).
Abbreviation SendCommand := (SendCommand deliver SerializeToString).
Abbreviation RecvResponse := (RecvResponse ParseFromString).
Abbreviation call := (call deliver SerializeToString ParseFromString).

Definition with_connection (l : incoming) (c : client P) : client P :=
  mk_client (Some l) (channel c) (timeout c) (error c) (peer c).
Definition with_peer (p : P) (c : client P) : client P :=
  mk_client (connection c) (channel c) (timeout c) (error c) p.

(** ** Responses *)
Lemma strip_line_feed t : strip_by (is_byte line_feed) (header t ++ [line_feed]) = header t.
Proof. apply strip_header; [done|]. intros b Hb. apply bool_decide_eq_false. by intros ->. Qed.

Lemma header_length t (l : incoming) :
  xlift (match header t with [] => Ret 0%Z | _ => int_of_str (header t) end) l
    = (Ret (Z.of_nat (length t)), l).
Proof. unfold xlift. rewrite int_of_header. pose proof (header_nonempty t). by destruct (header t). Qed.

Lemma read_frame_frame t l : read_frame (bytes (frame t) ++ l) = (Ret t, l).
Proof.
  unfold read_frame. erewrite xstM_bind_run by apply readline_frame. rewrite strip_line_feed.
  erewrite xstM_bind_run by apply header_length. apply read_message.
Qed.

Lemma read_response_frame t l : read_response ParseFromString (bytes (frame t) ++ l) = (ParseFromString t, l).
Proof. unfold read_response. by erewrite xstM_bind_run by apply read_frame_frame. Qed.

(** One round that a wait interrupts: in the header, or in the message. *)
Inductive lost_round : incoming -> Prop :=
  | lost_header p : no_byte line_feed p = true -> lost_round (bytes p ++ [EDelay])
  | lost_message t p : length p < length t -> lost_round (bytes (header t ++ line_feed :: p) ++ [EDelay]).

Lemma read_frame_lost r l : lost_round r -> read_frame (r ++ l) = (Exc timed_out, l).
Proof.
  unfold read_frame. intros [p Hp|t p Hp]; rewrite <- app_assoc; cbn [app].
  - erewrite xstM_bind_exc by exact (readline_from_delay [] p l Hp). done.
  - change (header t ++ line_feed :: p) with (header t ++ [line_feed] ++ p). rewrite app_assoc.
    unfold bytes. rewrite fmap_app, <- app_assoc.
    erewrite xstM_bind_run by exact (readline_from_line [] _ _ (header_no_line_feed t)). cbn [app].
    rewrite strip_line_feed. erewrite xstM_bind_run by apply header_length.
    unfold read. rewrite (proj2 (Z.ltb_ge _ _)) by lia. rewrite Nat2Z.id. by apply read_from_delay.
Qed.

Lemma read_response_lost r l : lost_round r -> read_response ParseFromString (r ++ l) = (Exc timed_out, l).
Proof. intros Hr. unfold read_response. by erewrite xstM_bind_exc by by apply read_frame_lost. Qed.

Lemma on_channel_run {A} (m : xstM incoming A) c l r l' :
  channel c = true -> connection c = Some l -> m l = (r, l') ->
  on_channel m c = (r, with_connection l' c).
Proof. intros Hc Hl Hm. unfold on_channel, with_connection. rewrite Hl, Hc, Hm. done. Qed.

Lemma recv_rounds_frame n t l c m :
  channel c = true -> connection c = Some (bytes (frame t) ++ l) -> ParseFromString t = Ret m ->
  recv_rounds ParseFromString (S n) c = (Ret (Some m), with_connection l c).
Proof.
  intros Hc Hl Hm. cbn [recv_rounds].
  erewrite xstM_bind_run.
  2: { unfold xattempt. by rewrite (on_channel_run _ _ _ _ _ Hc Hl (read_response_frame t l)). }
  by rewrite Hm.
Qed.

Lemma recv_rounds_lost n r l c :
  channel c = true -> connection c = Some (r ++ l) -> lost_round r ->
  recv_rounds ParseFromString (S n) c = recv_rounds ParseFromString n (with_connection l c).
Proof.
  intros Hc Hl Hr. cbn [recv_rounds].
  erewrite xstM_bind_run.
  2: { unfold xattempt. by rewrite (on_channel_run _ _ _ _ _ Hc Hl (read_response_lost r l Hr)). }
  done.
Qed.

(** [RecvResponse] reads again after each wait that was too long: it returns
    the response when at most [retries] attempts are lost before it, wherever they
    were interrupted, and [None] when more are, leaving the rest unread. *)
Theorem RecvResponse_retries retries rounds t m l c :
  channel c = true -> Forall lost_round rounds -> ParseFromString t = Ret m ->
  connection c = Some (mjoin rounds ++ bytes (frame t) ++ l) ->
  RecvResponse retries c =
    if decide (length rounds <= retries) then (Ret (Some m), with_connection l c)
    else (Ret None, with_connection (mjoin (drop (S retries) rounds) ++ bytes (frame t) ++ l) c).
Proof.
  intros Hc Hr Hm. unfold TcpClient.RecvResponse. change (1 + retries) with (S retries).
  revert retries c Hc. induction Hr as [|r rounds Hr _ IH]; intros retries c Hc Hl.
  - rewrite decide_True by (cbn; lia). exact (recv_rounds_frame retries t l c m Hc Hl Hm).
  - cbn [mjoin list_join] in Hl. rewrite <- app_assoc in Hl.
    rewrite (recv_rounds_lost _ _ _ _ Hc Hl Hr). destruct retries as [|retries].
    + rewrite decide_False by (cbn; lia). done.
    + rewrite IH; [|done..]. cbn [length].
      destruct (decide (length rounds <= retries)).
      * by rewrite decide_True by lia.
      * by rewrite decide_False by lia.
Qed.

(** ** Commands *)
Lemma SendCommand_run command_type args s evs p l c :
  channel c = true -> connection c = Some l -> command_type ∈ COMMAND_TYPE_NAME ->
  SerializeToString (mk_command command_type (omap id args)) = Ret s ->
  deliver (frame s) (peer c) = (Ret evs, p) ->
  SendCommand command_type args c = (Ret tt, with_connection (l ++ evs) (with_peer p c)).
Proof.
  intros Hc Hl Ht Hs Hd. unfold TcpClient.SendCommand.
  erewrite xstM_bind_run by reflexivity. rewrite Hc. cbn [negb].
  erewrite xstM_bind_run by (by rewrite decide_True by done).
  erewrite xstM_bind_run by (unfold xlift; by rewrite Hs).
  unfold channel_write. rewrite Hd, Hl. unfold with_connection, with_peer. cbn. by rewrite Hc.
Qed.

End spec.

(** ** Remote calls *)
Section agent.
Context {P : Type} {deliver : pystr -> P -> xres incoming * P}.
Context {SerializeToString : command_msg -> xres pystr} {ParseFromString : pystr -> xres response_msg}.
Context {answer : command_msg -> P -> response_msg * P}.
Context `{HA : !Agent deliver SerializeToString ParseFromString answer}.
Abbreviation call := (call deliver SerializeToString ParseFromString).
Implicit Types c : client P.

(** The commands that can be sent. *)
Definition sendable (cmd : command_msg) : Prop :=
  command_type cmd ∈ COMMAND_TYPE_NAME /\ exists s, SerializeToString cmd = Ret s.

(** An open connection on which the responses [late] were given up and will still
    arrive: each as the frame of a message that decodes to it. *)
Definition lags (late : list response_msg) c : Prop :=
  channel c = true /\ exists ts, connection c = Some (mjoin ((fun t => bytes (frame t)) <$> ts)) /\
    Forall2 (fun t m => ParseFromString t = Ret m) ts late.
Definition in_step : client P -> Prop := lags [].

(** What changes in a client is what it has to read, and the peer. *)
Definition same_client c c' : Prop := timeout c = timeout c' /\ error c = error c'.

(** The response to a command is the oldest one that is still to come. *)
Lemma call_lags command_type args retries late c :
  lags late c -> sendable (mk_command command_type (omap id args)) ->
  let '(r, p) := answer (mk_command command_type (omap id args)) (peer c) in
  exists m c', call command_type args retries c = (Ret (Some m), c') /\
    head (late ++ [r]) = Some m /\ lags (tail (late ++ [r])) c' /\ peer c' = p /\ same_client c c'.
Proof.
  intros (Hc & ts & Hl & Hts) (Ht & s & Hs). cbn [TcpClient.command_type] in Ht.
  destruct (agent_answers _ s (peer c) Hs) as (t & Hd & Hp).
  destruct (answer _ (peer c)) as [r p] eqn:Ha. cbn [fst snd] in Hd, Hp.
  unfold TcpClient.call. erewrite xstM_bind_run by (by eapply SendCommand_run).
  set (c1 := with_connection _ _).
  assert (Hts' : Forall2 (fun t m => ParseFromString t = Ret m) (ts ++ [t]) (late ++ [r])).
  { apply Forall2_app; [done|]. by repeat constructor. }
  assert (Hl' : connection c1 = Some (mjoin ((fun t => bytes (frame t)) <$> ts ++ [t]))).
  { unfold c1. cbn [connection with_connection]. rewrite fmap_app, join_app. do 2 f_equal.
    symmetry. apply app_nil_r. }
  destruct (ts ++ [t]) as [|t0 ts'] eqn:Et; [by destruct ts|].
  apply Forall2_cons_inv_l in Hts' as (m & late' & Hm & Hlate & ->).
  eexists m, (with_connection (mjoin ((fun t => bytes (frame t)) <$> ts')) c1). split_and!; try done.
  - apply (recv_rounds_frame ParseFromString retries t0 _ c1 m Hc Hl' Hm).
  - split; [done|]. by exists ts'.
Qed.

(** Commands one after the other, and the agent's answers to them. *)
Fixpoint run_calls (l : list (Z * list (option field) * nat)) : xstM (client P) (list (option response_msg)) :=
  match l with
  | [] => mret []
  | (command_type, args, retries) :: l =>
      r ← call command_type args retries; rs ← run_calls l; mret (r :: rs)
  end.
Definition command_of (x : Z * list (option field) * nat) : command_msg := mk_command x.1.1 (omap id x.1.2).
Fixpoint answers (l : list command_msg) (p : P) : list response_msg * P :=
  match l with
  | [] => ([], p)
  | m :: l => let '(r, p) := answer m p in let '(rs, p) := answers l p in (r :: rs, p)
  end.

(** C3: Remote calls form a queue: each command reaches the agent in order, and the
    responses come back in that order, one for each call.  When none was given up
    before, every call gets its own response; when the client gave up [n] of them,
    each call gets the response of the call [n] before it, for ever. *)
Theorem calls_are_fifo l late c :
  lags late c -> Forall (fun x => sendable (command_of x)) l ->
  let '(rs, p) := answers (command_of <$> l) (peer c) in
  exists c', run_calls l c = (Ret (Some <$> take (length l) (late ++ rs)), c') /\
    lags (drop (length l) (late ++ rs)) c' /\ peer c' = p /\ same_client c c'.
Proof.
  revert late c. induction l as [|[[ty args] retries] l IH]; intros late c Hc Hl.
  - cbn. rewrite app_nil_r. by exists c.
  - apply Forall_cons in Hl as [Hs Hl]. change (sendable (mk_command ty (omap id args))) in Hs.
    rewrite fmap_cons. change (command_of (ty, args, retries)) with (mk_command ty (omap id args)).
    cbn [answers]. pose proof (call_lags ty args retries late c Hc Hs) as H1.
    destruct (answer _ (peer c)) as [r p]. destruct H1 as (m & c1 & Hr & Hm & Hlag & Hp & He1).
    specialize (IH _ _ Hlag Hl). rewrite Hp in IH.
    destruct (answers _ p) as [rs p'] eqn:Ha. destruct IH as (c' & Hrun & Hlag' & Hp' & He2).
    assert (tail (late ++ [r]) ++ rs = tail (late ++ r :: rs)) as Htail by by destruct late; [|cbn; rewrite <- app_assoc].
    rewrite Htail in Hrun, Hlag'.
    assert (late ++ r :: rs = m :: tail (late ++ r :: rs)) as Hhead by (destruct late; cbn in *; congruence).
    exists c'. split_and!; [|by rewrite Hhead|done|].
    + cbn [run_calls]. erewrite xstM_bind_run by exact Hr. erewrite xstM_bind_run by exact Hrun.
      by rewrite Hhead.
    + destruct He1, He2. split; congruence.
Qed.

(** ** Every operation keeps the client in step *)
Definition lag (n : nat) c : Prop := exists late, length late = n /\ lags late c.

Lemma call_keeps n command_type args retries : xkeeps (lag n) (call command_type args retries).
Proof.
  intros c (late & Hn & Hc). destruct (decide (command_type ∈ COMMAND_TYPE_NAME)) as [Ht|Ht].
  - destruct (SerializeToString (mk_command command_type (omap id args))) as [s|e] eqn:Hs.
    + pose proof (call_lags command_type args retries late c Hc) as H.
      specialize (H (conj Ht (ex_intro _ s Hs))). destruct (answer _ _) as [r p].
      destruct H as (m & c' & -> & _ & Hl & _). exists (tail (late ++ [r])). split; [|done].
      destruct late; cbn in *; [done|]. rewrite length_app. cbn. lia.
    + unfold TcpClient.call. erewrite xstM_bind_exc; [by exists late|].
      unfold SendCommand. erewrite xstM_bind_run by reflexivity. destruct Hc as [-> _]. cbn [negb].
      erewrite xstM_bind_run by (by rewrite decide_True by done).
      erewrite xstM_bind_exc; [done|]. unfold xlift. by rewrite Hs.
  - unfold TcpClient.call. erewrite xstM_bind_exc; [by exists late|].
    unfold SendCommand. erewrite xstM_bind_run by reflexivity. destruct Hc as [-> _]. cbn [negb].
    erewrite xstM_bind_exc; [done|]. unfold xlift. by rewrite decide_False by done.
Qed.

Lemma set_error_keeps n e : xkeeps (lag n) (set_error (P := P) e).
Proof. intros c (late & Hn & Hc). by exists late. Qed.
End agent.
#[export] Hint Resolve call_keeps set_error_keeps : keeps.

Section steps.
Context {P : Type} (deliver : pystr -> P -> xres incoming * P).
Context (SerializeToString : command_msg -> xres pystr) (ParseFromString : pystr -> xres response_msg).
Context (MergeFunction : pystr -> function_msg) (MergeComponent : pystr -> component_msg).

(** What a test does with a client: one constructor for each remote call. *)
Inductive operation :=
  | OListHals (base_paths : option (list pystr))
  | OCheckDriverService (name : pystr)
  | OLaunchDriverService (type : Z) (name : pystr) (bits : Z) (path : option pystr)
      (class hal_type major minor : option Z) (package component binder_name : option pystr)
      (test_hal : option bool)
  | OListApis
  | OCallApi (text : pystr) (caller_uid : option pystr)
  | OGetAttribute (text : pystr)
  | OExecuteShellCommand (command : command_arg) (no_except : bool)
  | OSendFmqRequest (message : FmqRequestMessage)
  | OSendHidlMemoryRequest (message : HidlMemoryRequestMessage)
  | OSendHidlHandleRequest (message : HidlHandleRequestMessage)
  | OPing
  | OReadSpecification (name : pystr) (class hal_type major minor : option Z) (package : option pystr)
      (recursive : bool).

(** The results are dropped: a test goes on after an exception that it catches. *)
Definition finish {A} (m : xstM (client P) A) (c : client P) : client P := (m c).2.
Lemma finish_keeps {A} (I : client P -> Prop) (m : xstM (client P) A) c : xkeeps I m -> I c -> I (finish m c).
Proof. intros Hm Hc. by apply Hm. Qed.

Definition perform (o : operation) : client P -> client P :=
  match o with
  | OListHals l => finish (ListHals deliver SerializeToString ParseFromString l)
  | OCheckDriverService s => finish (CheckDriverService deliver SerializeToString ParseFromString s)
  | OLaunchDriverService t s b p a1 a2 a3 a4 a5 a6 a7 h =>
      finish (LaunchDriverService deliver SerializeToString ParseFromString t s b p a1 a2 a3 a4 a5 a6 a7 h)
  | OListApis => finish (ListApis deliver SerializeToString ParseFromString)
  | OCallApi s u => finish (CallApi deliver SerializeToString ParseFromString MergeFunction s u)
  | OGetAttribute s => finish (GetAttribute deliver SerializeToString ParseFromString MergeFunction s)
  | OExecuteShellCommand s b => finish (ExecuteShellCommand deliver SerializeToString ParseFromString s b)
  | OSendFmqRequest m => finish (SendFmqRequest deliver SerializeToString ParseFromString m)
  | OSendHidlMemoryRequest m => finish (SendHidlMemoryRequest deliver SerializeToString ParseFromString m)
  | OSendHidlHandleRequest m => finish (SendHidlHandleRequest deliver SerializeToString ParseFromString m)
  | OPing => finish (Ping deliver SerializeToString ParseFromString)
  | OReadSpecification s a1 a2 a3 a4 a5 b =>
      finish (ReadSpecification deliver SerializeToString ParseFromString MergeComponent s a1 a2 a3 a4 a5 b)
  end.

Context {answer : command_msg -> P -> response_msg * P}.
Context `{HA : !Agent deliver SerializeToString ParseFromString answer}.

Lemma needed_keeps n attr resp : xkeeps (lag (ParseFromString := ParseFromString) n) (needed (P := P) attr resp).
Proof. destruct resp; cbn [needed]; keeps. Qed.
Hint Resolve needed_keeps : keeps.

Lemma call_needed_keeps n ty args :
  xkeeps (lag (ParseFromString := ParseFromString) n) (call_needed deliver SerializeToString ParseFromString ty args).
Proof. unfold call_needed. keeps. Qed.
Hint Resolve call_needed_keeps : keeps.

Lemma read_one_keeps n s a1 a2 a3 a4 a5 :
  xkeeps (lag (ParseFromString := ParseFromString) n)
    (read_one deliver SerializeToString ParseFromString MergeComponent s a1 a2 a3 a4 a5).
Proof. unfold read_one. keeps. Qed.
Hint Resolve read_one_keeps : keeps.

Lemma merge_imports_keeps n a1 a2 l m :
  xkeeps (lag (ParseFromString := ParseFromString) n)
    (merge_imports deliver SerializeToString ParseFromString MergeComponent a1 a2 l m).
Proof.
  revert m. induction l as [|i l IH]; intros m; cbn [merge_imports]; [keeps|].
  destruct (decide _); [apply IH|]. apply xkeeps_bind; [keeps|]. intros [[[package x] y] interface].
  keeps.
Qed.
Hint Resolve merge_imports_keeps : keeps.

Lemma perform_keeps n o c :
  lag (ParseFromString := ParseFromString) n c -> lag (ParseFromString := ParseFromString) n (perform o c).
Proof.
  intros Hc. destruct o; cbn [perform]; (eapply finish_keeps; [|exact Hc]).
  - unfold ListHals. keeps.
  - unfold CheckDriverService. keeps.
  - unfold LaunchDriverService. keeps.
  - unfold ListApis. keeps.
  - unfold CallApi. keeps.
  - unfold GetAttribute. keeps.
  - unfold ExecuteShellCommand, execute_shell. keeps.
  - unfold SendFmqRequest. keeps.
  - unfold SendHidlMemoryRequest. keeps.
  - unfold SendHidlHandleRequest. keeps.
  - unfold Ping. keeps.
  - unfold ReadSpecification. keeps.
Qed.

(** C19: No operation, whether it returns or raises, makes a client lose step with an
    agent that answers: the number of responses that are still to come is the same
    after any sequence of operations. *)
Theorem operations_keep_step n ops (c : client P) :
  lag (ParseFromString := ParseFromString) n c ->
  lag (ParseFromString := ParseFromString) n (foldl (fun c o => perform o c) c ops).
Proof.
  revert c. induction ops as [|o ops IH]; intros c Hc; [done|]. apply IH. by apply perform_keeps.
Qed.
End steps.

(** ** Two readings of a value *)

(** What both converters read: values with their scalar type, vectors of scalars
    and of structs, structs whose attributes have names. *)
Fixpoint plain (m : vsm) : bool :=
  match type m with
  | TYPE_SCALAR | TYPE_ENUM => negb (bool_decide (scalar_type m = []))
  | TYPE_STRING => true
  | TYPE_VECTOR =>
      forallb (fun x => match type x with TYPE_SCALAR | TYPE_STRUCT => plain x | _ => false end) (vector_value m)
  | TYPE_STRUCT => forallb (fun x => negb (bool_decide (name x = [])) && plain x) (struct_value m)
  | _ => false
  end.

Lemma of_pyres_bind {A B} (m : pyres A) (f : A -> pyres B) :
  of_pyres (m ≫= f) = of_pyres m ≫= fun a => of_pyres (f a).
Proof. by destruct m. Qed.

Lemma vector_agrees l acc :
  Forall (fun x => plain x = true -> GetPythonDataOfVariableSpecMsg x = of_pyres (Pb2py.Convert x)) l ->
  forallb (fun x => match type x with TYPE_SCALAR | TYPE_STRUCT => plain x | _ => false end) l = true ->
  data_items GetPythonDataOfVariableSpecMsg l acc = of_pyres (Pb2py.vector_loop Pb2py.PbStruct2PyDict l acc).
Proof.
  intros Hl. revert acc. induction Hl as [|x l Hx Hl IH]; intros acc; [done|].
  cbn [forallb data_items Pb2py.vector_loop]. intros [Hp Hps]%andb_true_iff. unfold Pb2py.Convert in Hx.
  destruct (type x) eqn:Ht; try done; rewrite of_pyres_bind, Hx by done.
  - by destruct (Pb2py.PbScalar2PyValue x); cbn; auto.
  - by destruct (Pb2py.PbStruct2PyDict x); cbn; auto.
Qed.

Lemma struct_agrees l i acc :
  Forall (fun x => plain x = true -> GetPythonDataOfVariableSpecMsg x = of_pyres (Pb2py.Convert x)) l ->
  forallb (fun x => negb (bool_decide (name x = [])) && plain x) l = true ->
  data_fields GetPythonDataOfVariableSpecMsg l i acc
    = of_pyres (Pb2py.struct_attrs Pb2py.PbVector2PyList Pb2py.PbStruct2PyDict l acc).
Proof.
  intros Hl. revert i acc. induction Hl as [|x l Hx Hl IH]; intros i acc; [done|].
  cbn [forallb data_fields Pb2py.struct_attrs]. intros [[Hn Hp]%andb_true_iff Hps]%andb_true_iff.
  apply negb_true_iff, bool_decide_eq_false in Hn. unfold Pb2py.Convert in Hx.
  destruct (name x) as [|b n]; [done|]. rewrite (Hx Hp).
  destruct (type x) eqn:Ht; try (destruct x; cbn in Ht, Hp; subst; done); rewrite of_pyres_bind.
  all: match goal with |- context [of_pyres ?r] => destruct r; cbn; [by apply IH|done] end.
Qed.

(** The client's converter and [pb2py] give the same Python value, or raise on
    the same field, for every message of the shapes that both know. *)
Theorem GetPythonData_pb2py m :
  plain m = true -> GetPythonDataOfVariableSpecMsg m = of_pyres (Pb2py.Convert m).
Proof.
  remember (vsm_depth m) as n eqn:Hn. revert m Hn. induction n as [n IH] using lt_wf_ind. intros m ->.
  assert (forall l, (forall x, x ∈ l -> vsm_depth x < vsm_depth m) ->
    Forall (fun x => plain x = true -> GetPythonDataOfVariableSpecMsg x = of_pyres (Pb2py.Convert x)) l) as Hall.
  { intros l Hl. apply Forall_forall. intros x Hx. by eapply IH; [apply Hl|]. }
  destruct m as [nm [] sv st es str vv vs stv ss uv su pt ot]; cbn [plain Mirror.type]; try done; intros Hp.
  - cbn. apply negb_true_iff, bool_decide_eq_false in Hp. by destruct st.
  - cbn. apply negb_true_iff, bool_decide_eq_false in Hp. by destruct st.
  - apply (vector_agrees vv []); [|exact Hp]. apply Hall. intros x Hx. apply vsm_depth_below. by left.
  - apply (struct_agrees stv 1 []); [|exact Hp]. apply Hall. intros x Hx. apply vsm_depth_below. right. by left.
Qed.

(** ** The remote calls *)
Section rpc.
Context {P : Type} {deliver : pystr -> P -> xres incoming * P}.
Context {SerializeToString : command_msg -> xres pystr} {ParseFromString : pystr -> xres response_msg}.
Context {answer : command_msg -> P -> response_msg * P}.
Context `{HA : !Agent deliver SerializeToString ParseFromString answer}.
Abbreviation in_step := (in_step (P := P) (ParseFromString := ParseFromString)).
Abbreviation sendable := (sendable (SerializeToString := SerializeToString)).

Lemma call_in_step command_type args retries (c : client P) :
  in_step c -> sendable (mk_command command_type (omap id args)) ->
  let '(r, p) := answer (mk_command command_type (omap id args)) (peer c) in
  exists c', call deliver SerializeToString ParseFromString command_type args retries c = (Ret (Some r), c') /\
    in_step c' /\ peer c' = p /\ same_client c c'.
Proof.
  intros Hc Hs. pose proof (call_lags command_type args retries [] c Hc Hs) as H.
  destruct (answer _ _) as [r p]. destruct H as (m & c' & Hr & [= ->] & Hl & Hp & He). by exists c'.
Qed.

(** A shell command returns what the agent gave, or the failure text and [-1]
    when the agent refuses it; afterwards [Heal] tells the two apart. *)
Theorem ExecuteShellCommand_spec command no_except (c : client P) :
  let cmd := mk_command VTS_AGENT_COMMAND_EXECUTE_SHELL_COMMAND [shell_command (command_list command)] in
  in_step c -> sendable cmd ->
  let '(r, p) := answer cmd (peer c) in
  exists c',
    ExecuteShellCommand deliver SerializeToString ParseFromString command no_except c =
      (Ret (if succeeded r then mk_shell (stdout r) (stderr r) (inr (exit_code r))
            else mk_shell [] [FAIL_RESPONSE_MSG] (inl (-1)%Z)), c') /\
    in_step c' /\ peer c' = p /\ Heal c' = (Ret (succeeded r), c').
Proof.
  intros cmd Hc Hs. pose proof (call_in_step VTS_AGENT_COMMAND_EXECUTE_SHELL_COMMAND
    [Some (shell_command (command_list command))] 2 c Hc Hs) as H.
  change (omap id [Some (shell_command (command_list command))]) with [shell_command (command_list command)] in H.
  fold cmd in H. destruct (answer cmd (peer c)) as [r p].
  destruct H as (c1 & Hr & (Hch & ts & Hl) & Hp & _).
  unfold ExecuteShellCommand, xattempt, execute_shell.
  eexists (mk_client (connection c1) (channel c1) (timeout c1)
             (if succeeded r then None else Some (inr FAIL_RESPONSE_MSG)) (peer c1)).
  split_and!; [|split; [done|by exists ts]|done|by cbn; destruct (succeeded r)].
  unfold mbind at 1, xstM_bind at 1. erewrite xstM_bind_run by exact Hr.
  cbv beta iota. destruct (succeeded r); reflexivity.
Qed.

(** [PING] has no name in the table that the log line reads. *)
Lemma Ping_raises (c : client P) :
  channel c = true -> Ping deliver SerializeToString ParseFromString c = (Exc (EOther Python_KeyError (bs "3")), c).
Proof.
  intros Hc. unfold Ping, call, mbind, xstM_bind. unfold SendCommand. erewrite xstM_bind_run by reflexivity.
  rewrite Hc. reflexivity.
Qed.
End rpc.

(** ** A concrete agent *)
Module Echo.
Definition SerializeToString (m : command_msg) : xres pystr :=
  if bool_decide (0 <= TcpClient.command_type m)%Z then Ret (str_nat (TcpClient.command_type m)) else Exc timed_out.
Definition response_of (s : pystr) : response_msg :=
  mk_response SUCCESS [s] s s [s] [] [0%Z] (fmq_response empty_response) (hidl_memory_response empty_response)
    (hidl_handle_response empty_response).
Definition ParseFromString (s : pystr) : xres response_msg := Ret (response_of s).

(** It sends back what it gets, and remembers it. *)
Definition deliver (s : pystr) (p : list pystr) : xres incoming * list pystr :=
  match read_frame (bytes s) with
  | (Ret t, _) => (Ret (bytes (frame t)), t :: p)
  | (Exc e, _) => (Exc e, p)
  end.
Definition answer (m : command_msg) (p : list pystr) : response_msg * list pystr :=
  match SerializeToString m with
  | Ret s => (response_of s, s :: p)
  | Exc _ => (empty_response, p)
  end.

#[global] Instance agent : Agent deliver SerializeToString ParseFromString answer.
Proof.
  split. intros m s p Hs. exists s. unfold deliver, answer. rewrite Hs.
  rewrite <- (app_nil_r (bytes (frame s))), read_frame_frame, app_nil_r. done.
Qed.

Definition client0 : client (list pystr) := mk_client (Some []) true None None [].
(** One response was given up. *)
Definition client1 : client (list pystr) := mk_client (Some (bytes (frame (bs "old")))) true None None [].

Lemma lags0 : lags (ParseFromString := ParseFromString) [] client0.
Proof. split; [done|]. by exists []. Qed.
Lemma lags1 : lags (ParseFromString := ParseFromString) [response_of (bs "old")] client1.
Proof. split; [done|]. exists [bs "old"]. split; [done|]. by repeat constructor. Qed.

Lemma sendable_type z fs :
  (0 <= z)%Z -> z ∈ COMMAND_TYPE_NAME -> sendable (SerializeToString := SerializeToString) (mk_command z fs).
Proof.
  intros Hz Ht. split; [done|]. exists (str_nat z). unfold SerializeToString. cbn. by rewrite bool_decide_true.
Qed.
End Echo.

Lemma RecvResponse_retries_witness :
  let lost := [bytes (bs "1") ++ [EDelay]; bytes (header (bs "ab") ++ line_feed :: bs "a") ++ [EDelay]] in
  let c := with_connection (mjoin lost ++ bytes (frame (bs "7")) ++ []) Echo.client0 in
  RecvResponse Echo.ParseFromString 2 c = (Ret (Some (Echo.response_of (bs "7"))), Echo.client0) /\
  RecvResponse Echo.ParseFromString 1 c = (Ret None, with_connection (bytes (frame (bs "7")) ++ []) Echo.client0).
Proof.
  intros lost c. assert (Forall lost_round lost) as Hl by repeat constructor.
  split.
  - exact (RecvResponse_retries Echo.ParseFromString 2 lost (bs "7") (Echo.response_of (bs "7")) [] c
             eq_refl Hl eq_refl eq_refl).
  - exact (RecvResponse_retries Echo.ParseFromString 1 lost (bs "7") (Echo.response_of (bs "7")) [] c
             eq_refl Hl eq_refl eq_refl).
Defined.

(** After a response that was given up every call gets the one before its own. *)
Lemma calls_are_fifo_witness :
  exists c', run_calls (deliver := Echo.deliver) (SerializeToString := Echo.SerializeToString)
               (ParseFromString := Echo.ParseFromString) [(LIST_APIS, [], 0); (LIST_HALS, [], 2)] Echo.client1 =
    (Ret [Some (Echo.response_of (bs "old")); Some (Echo.response_of (bs "201"))], c') /\
    peer c' = [bs "1"; bs "201"].
Proof.
  destruct (calls_are_fifo (answer := Echo.answer) [(LIST_APIS, [], 0); (LIST_HALS, [], 2)] _ _ Echo.lags1)
    as (c' & Hr & _ & Hp & _).
  - repeat constructor; vm_compute; congruence || (eexists; reflexivity) || idtac.
  - exists c'. split; [exact Hr|exact Hp].
Defined.

Lemma operations_keep_step_witness :
  exists ts, connection (foldl (fun c o => perform Echo.deliver Echo.SerializeToString Echo.ParseFromString
      (fun _ => mk_function None [] (mk_component [] []) []) (fun _ => mk_component [] []) o c) Echo.client0
      [OListApis; OPing; OListHals None]) = Some (mjoin ((fun t => bytes (frame t)) <$> ts)) /\ ts = [].
Proof.
  destruct (operations_keep_step (answer := Echo.answer) Echo.deliver Echo.SerializeToString Echo.ParseFromString
      (fun _ => mk_function None [] (mk_component [] []) []) (fun _ => mk_component [] []) 0
      [OListApis; OPing; OListHals None] Echo.client0) as (late & Hn & _ & ts & Hc & Hts).
  - exists []. split; [done|exact Echo.lags0].
  - exists ts. split; [exact Hc|]. destruct late; [|done]. by apply Forall2_nil_inv_r in Hts.
Defined.

Lemma GetPythonData_pb2py_witness :
  let m := set_type TYPE_STRUCT (add_struct_value
    (set_name (bs "a") (set_scalar_type (bs "int8_t") (set_type TYPE_SCALAR empty_vsm))) empty_vsm) in
  plain m = true /\ GetPythonDataOfVariableSpecMsg m = of_pyres (Pb2py.Convert m).
Proof. split; [reflexivity|]. by apply GetPythonData_pb2py. Defined.

Lemma ExecuteShellCommand_spec_witness :
  exists c', ExecuteShellCommand Echo.deliver Echo.SerializeToString Echo.ParseFromString (One (bs "ls")) false Echo.client0
    = (Ret (mk_shell [bs "301"] [] (inr [0%Z])), c') /\ Heal c' = (Ret true, c').
Proof.
  destruct (ExecuteShellCommand_spec (answer := Echo.answer) (One (bs "ls")) false Echo.client0 Echo.lags0)
    as (c' & Hr & _ & _ & Hh).
  - apply Echo.sendable_type; [done|]. apply (bool_decide_unpack _). vm_compute. exact I.
  - exists c'. split; [exact Hr|exact Hh].
Defined.

(** An exception is reported once for each character of a command that is a
    string. *)
Lemma string_command_lengths :
  (ExecuteShellCommand Echo.deliver Echo.SerializeToString Echo.ParseFromString (One (bs "ls")) true
     (new_client None [])).1 =
    Ret (mk_shell [[]; []] (replicate 2 (bs "channel is None, unable to send command.")) (inr [-1; -1]%Z)).
Proof. reflexivity. Qed.

(** An import is read when the class and the type of the target are given; without
    them the code refers to a name that does not exist. *)
Lemma imports_need_class :
  (ReadSpecification Echo.deliver Echo.SerializeToString Echo.ParseFromString
     (fun _ => mk_component [bs "a@1.0::IA"] []) (bs "IB") None None None None None true Echo.client0).1 =
    Exc (EOther NameError_ []).
Proof. reflexivity. Qed.

(** Only the imports of the first specification are read, not theirs. *)
Lemma imports_of_imports :
  let merge s := if decide (s = bs "103") then mk_component [bs "a@1.0::IA"] [empty_vsm] else mk_component [] [] in
  let '(r, c) := ReadSpecification Echo.deliver Echo.SerializeToString Echo.ParseFromString merge (bs "IB")
                   (Some 1%Z) (Some 1%Z) None None None true Echo.client0 in
  r = Ret (mk_component [bs "a@1.0::IA"] [empty_vsm; empty_vsm]) /\ length (peer c) = 2.
Proof. by vm_compute. Qed.
