(* ===== verification/CallbackServer.v ===== *)
(** * Callbacks from the device ([src/runners/host/tcp_server/callback_server.py])

    A test registers functions under identifiers; the device sends a frame with an
    identifier and arguments, and the handler calls the function.  The table is
    shared by all servers and may be changed by the functions themselves, so it is
    part of the state that a call changes.  The server handles one request at a
    time. *)

From Stdlib Require Import Strings.Byte.
From S2P Require Import Prelude PyStr ListUtils PyVal Signals Shell Channel Mirror TcpClient.

Definition CallbackServerError : exc_class := UserException 6.

(** AndroidSystemCallbackRequestMessage *)
Record callback_request := mk_callback { callback_id : pystr; callback_arg : list vsm }.

Inductive callback_code := CB_SUCCESS | CB_FAIL.

(** [{ id : func }] in the order of its items. *)
Abbreviation table F := (list (pystr * F)).

Section server.
Context {F : Type} `{EqDecision F} {W : Type}.
Abbreviation serverM := (xstM (table F * W)).

Definition GetCallbackId (callback_func : F) (functions : table F) : option pystr :=
  fst <$> List.find (fun kv => bool_decide (kv.2 = callback_func)) functions.

(** [max(_functions, key=int)]: the first key of those with the greatest value. *)
Fixpoint max_key (best : pystr) (value : Z) (keys : list pystr) : pyres pystr :=
  match keys with
  | [] => Ok best
  | k :: keys => v ← py_int k; if (value <? v)%Z then max_key k v keys else max_key best value keys
  end.
Definition max_by_int (keys : list pystr) : pyres pystr :=
  match keys with
  | [] => Raise ValueError
  | k :: keys => v ← py_int k; max_key k v keys
  end.

Definition RegisterCallback (callback_func : F) : serverM pystr := fun s =>
  match GetCallbackId callback_func s.1 with
  | Some (_ :: _) => (Exc (EOther CallbackServerError (bs "Function is already registered")), s)
  | _ =>
      match (match s.1 with [] => Ok 0%Z | _ => k ← max_by_int s.1.*1; n ← py_int k; Ok (n + 1)%Z end) with
      | Ok n => (Ret (str_int n), (Pb2py.dict_set (str_int n) callback_func s.1, s.2))
      | Raise e => (of_pyres (Raise e), s)
      end
  end.

(** [_functions.pop] *)
Definition dict_pop (k : pystr) (d : table F) : table F := List.filter (fun kv => negb (bool_decide (kv.1 = k))) d.

Definition UnregisterCallback (func_id : pystr) : serverM unit := fun s =>
  match assoc func_id s.1 with
  | Some _ => (Ret tt, (dict_pop func_id s.1, s.2))
  | None => (Exc (EOther CallbackServerError
                    (bs "Can't remove function ID '" ++ func_id ++ bs "', which is not registered.")), s)
  end.

Context (ParseRequest : pystr -> xres callback_request) (SerializeResponse : callback_code -> pystr).
(** What a registered function does: to the table, and to the rest of the host. *)
Context (call_function : F -> list value -> serverM unit).

(** A request, as far as it is read: [None] when the header is empty. *)
Definition read_request : xstM incoming (option callback_request) :=
  line ← readline;
  let header := strip line in
  match header with
  | [] => mret None
  | _ =>
      n ← xlift (int_of_str header);
      received_data ← read n;
      request ← xlift (ParseRequest received_data);
      mret (Some request)
  end.

(** The bytes sent back, or [None] when the request is skipped.  An exception ends
    the request without a response. *)
Definition handle (request : incoming) : serverM (option pystr) :=
  r ← xlift (read_request request).1;
  match r with
  | None => mret None
  | Some request_message =>
      s ← xget;
      match assoc (callback_id request_message) s.1 with
      | Some func =>
          args ← xpure (mapM_py Pb2py.Convert (callback_arg request_message));
          _ ← call_function func args;
          mret (Some (SerializeResponse CB_SUCCESS))
      | None => mret (Some (SerializeResponse CB_FAIL))
      end
  end.
End server.

(** ** The table *)
Lemma str_nat_inj n m : (0 <= n)%Z -> (0 <= m)%Z -> str_nat n = str_nat m -> n = m.
Proof. intros Hn Hm H. pose proof (py_int_str n Hn) as H1. rewrite H, py_int_str in H1 by done. congruence. Qed.

Lemma max_key_numbers b ns :
  (0 <= b)%Z -> Forall (fun n => 0 <= n)%Z ns ->
  exists m, max_key (str_nat b) b (str_nat <$> ns) = Ok (str_nat m) /\ (b <= m)%Z /\
    Forall (fun n => n <= m)%Z ns.
Proof.
  intros Hb Hns. revert b Hb. induction Hns as [|n ns Hn Hns IH]; intros b Hb; [by exists b|].
  cbn [fmap list_fmap max_key]. rewrite py_int_str by done. cbn [mbind pyres_bind].
  destruct (Z.ltb_spec b n); [destruct (IH n Hn) as (m & Hm & Hle & Hall)|destruct (IH b Hb) as (m & Hm & Hle & Hall)].
  all: exists m; split_and!; [done|lia|constructor; [lia|done]].
Qed.

Lemma NoDup_snoc {A} (l : list A) a : NoDup l -> a ∉ l -> NoDup (l ++ [a]).
Proof.
  intros Hl Ha. apply NoDup_app. split_and!; [done| |apply NoDup_singleton].
  intros x Hx ->%list_elem_of_singleton. done.
Qed.

Section table.
Context {F : Type} `{EqDecision F} {W : Type}.
Implicit Types t : table F.

(** Identifiers are numbers in decimal; no identifier and no function is there
    twice. *)
Definition table_ok t : Prop :=
  exists ns, t.*1 = str_nat <$> ns /\ Forall (fun n => 0 <= n)%Z ns /\ NoDup ns /\ NoDup t.*2.

Lemma assoc_elem_of {A} k (a : A) l : assoc k l = Some a -> (k, a) ∈ l.
Proof.
  induction l as [|[k' a'] l IH]; cbn [assoc]; [done|]. case_decide; [intros [= ->]; subst; left|].
  intros Ha. right. auto.
Qed.

Lemma assoc_Some {A} k (a : A) l : NoDup l.*1 -> assoc k l = Some a <-> (k, a) ∈ l.
Proof.
  intros Hl. split; [apply assoc_elem_of|]. induction l as [|[k' a'] l IH]; [by intros ?%elem_of_nil|].
  cbn [fmap list_fmap fst] in Hl. apply NoDup_cons in Hl as [Hk Hl]. cbn [assoc].
  intros [[= -> ->]|Hin]%elem_of_cons; [by rewrite decide_True|]. rewrite decide_False; [by apply IH|].
  intros ->. apply Hk. apply list_elem_of_fmap. by exists (k', a).
Qed.

Lemma table_ok_keys t : table_ok t -> NoDup t.*1.
Proof.
  intros (ns & -> & Hns & Hnd & _). apply NoDup_fmap_2_strong; [|done].
  rewrite Forall_forall in Hns. intros n m Hn Hm. by apply str_nat_inj; apply Hns.
Qed.

Lemma GetCallbackId_spec f t :
  table_ok t ->
  match GetCallbackId f t with Some k => k <> [] /\ (k, f) ∈ t | None => f ∉ t.*2 end.
Proof.
  intros (ns & Hk & Hns & _ & _). unfold GetCallbackId.
  destruct (List.find _ t) as [[k g]|] eqn:Hf; cbn [fmap option_fmap option_map fst].
  - apply find_some in Hf as [Hin Hg]. cbn in Hg. apply bool_decide_eq_true in Hg as ->.
    apply list_elem_of_In in Hin. split; [|done].
    assert (k ∈ t.*1) as Hkt by (apply list_elem_of_fmap; by exists (k, f)).
    rewrite Hk in Hkt. apply list_elem_of_fmap in Hkt as (n & -> & Hn).
    rewrite Forall_forall in Hns. by destruct (str_nat_spec n (Hns n Hn)) as (_ & _ & ?).
  - intros Hin. apply list_elem_of_fmap in Hin as ([k g] & -> & Hin).
    apply (find_none _ _ Hf) in Hin || apply list_elem_of_In, (find_none _ _ Hf) in Hin.
    cbn in Hin. by rewrite bool_decide_true in Hin.
Qed.

(** A function that is not registered gets an identifier above all others. *)
Lemma RegisterCallback_fresh f t (w : W) :
  table_ok t -> f ∉ t.*2 ->
  exists n, (0 <= n)%Z /\ RegisterCallback f (t, w) = (Ret (str_nat n), (t ++ [(str_nat n, f)], w)) /\
    (str_nat n ∉ t.*1) /\ table_ok (t ++ [(str_nat n, f)]).
Proof.
  intros Ht Hf. pose proof (GetCallbackId_spec f t Ht) as Hg. pose proof Ht as (ns & Hk & Hns & Hnd & Hff).
  unfold RegisterCallback. cbn [fst snd]. destruct (GetCallbackId f t) as [k|].
  { destruct Hg as [_ Hin]. exfalso. apply Hf, list_elem_of_fmap. by exists (k, f). }
  assert (exists n, (0 <= n)%Z /\ Forall (fun m => m < n)%Z ns /\
    (match t with [] => Ok 0%Z | _ => (k ← max_by_int t.*1; m ← py_int k; Ok (m + 1)%Z) end) = Ok n)
    as (n & Hn & Hlt & ->).
  { destruct t as [|kv t]; [exists 0%Z; destruct ns; [done|done]|]. rewrite Hk. destruct ns as [|n ns]; [done|].
    apply Forall_cons in Hns as [Hn Hns]. destruct (max_key_numbers n ns Hn Hns) as (m & Hm & Hle & Hall).
    exists (m + 1)%Z. cbn [fmap list_fmap max_by_int]. rewrite py_int_str by done. cbn [mbind pyres_bind].
    rewrite Hm. cbn [mbind pyres_bind]. rewrite py_int_str by lia. split_and!; [lia| |done].
    constructor; [lia|]. eapply Forall_impl; [exact Hall|]. cbn. lia. }
  assert (str_int n = str_nat n) as -> by (unfold str_int; by rewrite (proj2 (Z.ltb_ge n 0)) by lia).
  assert (n ∉ ns) as Hnn. { intros Hin. rewrite Forall_forall in Hlt. specialize (Hlt n Hin). lia. }
  assert (str_nat n ∉ t.*1) as Hfresh.
  { rewrite Hk. intros (m & Hm & Hin)%list_elem_of_fmap. rewrite Forall_forall in Hns.
    apply str_nat_inj in Hm; [by subst|done|by apply Hns]. }
  exists n. rewrite dict_set_fresh by done. split_and!; [done..|].
  exists (ns ++ [n]). rewrite !fmap_app, Hk. split_and!; [done| | |].
  - apply Forall_app. by repeat constructor.
  - by apply NoDup_snoc.
  - by apply NoDup_snoc.
Qed.

Lemma RegisterCallback_again f t (w : W) :
  table_ok t -> f ∈ t.*2 ->
  RegisterCallback f (t, w) = (Exc (EOther CallbackServerError (bs "Function is already registered")), (t, w)).
Proof.
  intros Ht Hf. pose proof (GetCallbackId_spec f t Ht) as Hg. unfold RegisterCallback. cbn [fst snd].
  destruct (GetCallbackId f t) as [[|b k]|]; [by destruct Hg|done|done].
Qed.

Lemma dict_pop_ok k t : table_ok t -> table_ok (dict_pop k t).
Proof.
  intros (ns & Hk & Hns & Hnd & Hff). revert ns Hk Hns Hnd. unfold dict_pop.
  assert (forall t, (List.filter (fun kv => negb (bool_decide (kv.1 = k))) t).*2 `sublist_of` t.*2) as Hsub.
  { clear. intros t. induction t as [|kv t IH]; cbn [List.filter fmap list_fmap]; [done|].
    destruct (negb _); cbn [fmap list_fmap]; [by apply sublist_skip|by apply sublist_cons]. }
  intros ns Hk Hns Hnd. exists (filter (fun n => str_nat n <> k) ns). split_and!.
  - clear -Hk. revert ns Hk. induction t as [|kv t IH]; intros [|n ns] Hk; try done.
    cbn in Hk. injection Hk as Hkv Hk. cbn [List.filter]. rewrite filter_cons. rewrite Hkv.
    destruct (decide (str_nat n <> k)) as [Hne|He].
    + rewrite bool_decide_false by done. cbn. rewrite Hkv. f_equal. by apply IH.
    + apply dec_stable in He as ->. rewrite bool_decide_true by done. cbn. by apply IH.
  - apply Forall_forall. intros n [_ Hn]%list_elem_of_filter. rewrite Forall_forall in Hns. by apply Hns.
  - by apply NoDup_filter.
  - eapply sublist_NoDup; [exact Hff|apply Hsub].
Qed.
End table.

(** ** Requests *)
Section requests.
Context {F : Type} `{EqDecision F} {W : Type}.
Implicit Types t : table F.

(** What tests and functions do to the table. *)
Inductive table_op := Register (f : F) | Unregister (k : pystr).
Definition perform_op (t : table F) (o : table_op) : table F :=
  match o with
  | Register f => (RegisterCallback f (t, tt)).2.1
  | Unregister k => (UnregisterCallback k (t, tt)).2.1
  end.
Definition after (ops : list table_op) (t : table F) : table F := foldl perform_op t ops.

Lemma Unregister_perform k t : perform_op t (Unregister k) = t \/ perform_op t (Unregister k) = dict_pop k t.
Proof. cbn. unfold UnregisterCallback. cbn. destruct (assoc k t); auto. Qed.

Lemma Register_perform f t :
  table_ok t -> perform_op t (Register f) = t \/
  exists k, (k ∉ t.*1) /\ perform_op t (Register f) = t ++ [(k, f)] /\ table_ok (t ++ [(k, f)]).
Proof.
  intros Ht. cbn. destruct (decide (f ∈ t.*2)) as [Hf|Hf].
  - left. by rewrite RegisterCallback_again.
  - right. destruct (RegisterCallback_fresh f t tt Ht Hf) as (n & _ & -> & Hn & Hok). by exists (str_nat n).
Qed.

Lemma perform_ok t o : table_ok t -> table_ok (perform_op t o).
Proof.
  intros Ht. destruct o as [f|k].
  - destruct (Register_perform f t Ht) as [->|(k & _ & -> & Hok)]; done.
  - destruct (Unregister_perform k t) as [->| ->]; [done|by apply dict_pop_ok].
Qed.

Lemma after_ok ops t : table_ok t -> table_ok (after ops t).
Proof.
  revert t. induction ops as [|o ops IH]; intros t Ht; [done|]. cbn. by apply IH, perform_ok.
Qed.

Lemma perform_lasts t o k f :
  table_ok t -> o <> Unregister k -> (k, f) ∈ t -> (k, f) ∈ perform_op t o.
Proof.
  intros Ht Ho Hin. destruct o as [g|k'].
  - destruct (Register_perform g t Ht) as [->|(k' & _ & -> & _)]; [done|]. apply elem_of_app. by left.
  - destruct (Unregister_perform k' t) as [->| ->]; [done|]. apply list_elem_of_In, filter_In. split; [by apply list_elem_of_In|].
    apply negb_true_iff, bool_decide_eq_false. cbn. congruence.
Qed.

Lemma after_lasts ops t k f :
  table_ok t -> Unregister k ∉ ops -> (k, f) ∈ t -> (k, f) ∈ after ops t.
Proof.
  revert t. induction ops as [|o ops IH]; intros t Ht Hk Hin; [done|]. cbn.
  apply not_elem_of_cons in Hk as [Hk Hops]. apply IH; [by apply perform_ok|done|by apply perform_lasts].
Qed.

Context (ParseRequest : pystr -> xres callback_request) (SerializeResponse : callback_code -> pystr).
Context (call_function : F -> list value -> xstM (table F * W) unit).
Abbreviation handle := (handle ParseRequest SerializeResponse call_function).

Lemma read_request_frame m r :
  ParseRequest m = Ret r -> read_request ParseRequest (bytes (frame m)) = (Ret (Some r), []).
Proof.
  intros Hr. unfold read_request. rewrite <- (app_nil_r (bytes (frame m))).
  erewrite xstM_bind_run by apply readline_frame. unfold strip.
  rewrite strip_header; [|done|apply digit_not_space].
  pose proof (header_nonempty m) as Hh. destruct (header m) as [|b h] eqn:Hm; [done|]. rewrite <- Hm.
  erewrite xstM_bind_run by (unfold xlift; by rewrite int_of_header).
  erewrite xstM_bind_run by apply read_message. erewrite xstM_bind_run by (unfold xlift; by rewrite Hr). done.
Qed.

(** C14: A request that carries an identifier calls the function that was registered
    under it, with the arguments converted, however many others were registered and
    removed in between; the device gets a success when the function returns. *)
Theorem callback_dispatch ops1 f t1 k ops2 (w w' : W) m a :
  RegisterCallback f (after ops1 [], w) = (Ret k, (t1, w)) ->
  Unregister k ∉ ops2 ->
  ParseRequest m = Ret (mk_callback k a) ->
  handle (bytes (frame m)) (after ops2 t1, w') =
    (args ← xpure (mapM_py Pb2py.Convert a);
     _ ← call_function f args;
     mret (Some (SerializeResponse CB_SUCCESS))) (after ops2 t1, w').
Proof.
  intros Hreg Hk Hm. assert (table_ok (F := F) []) as H0 by (exists []; repeat split; constructor).
  pose proof (after_ok ops1 [] H0) as H1. destruct (decide (f ∈ (after ops1 []).*2)) as [Hf|Hf].
  { by rewrite RegisterCallback_again in Hreg. }
  destruct (RegisterCallback_fresh f _ w H1 Hf) as (n & _ & Hrun & _ & Hok).
  rewrite Hrun in Hreg. injection Hreg as <- <-.
  assert ((str_nat n, f) ∈ after ops2 (after ops1 [] ++ [(str_nat n, f)])) as Hin.
  { apply after_lasts; [done..|]. apply elem_of_app. right. by left. }
  unfold CallbackServer.handle.
  etrans; [eapply xstM_bind_run; by rewrite (read_request_frame m _ Hm)|].
  etrans; [by eapply xstM_bind_run|]. cbn [fst callback_id callback_arg].
  apply assoc_Some in Hin; [by rewrite Hin|]. by apply table_ok_keys, after_ok.
Qed.

(** A request for an identifier that was removed, or was never given, is
    answered with a failure and calls nothing. *)
Theorem callback_unknown ops (w : W) m k a :
  k ∉ (after ops []).*1 -> ParseRequest m = Ret (mk_callback k a) ->
  handle (bytes (frame m)) (after ops [], w) = (Ret (Some (SerializeResponse CB_FAIL)), (after ops [], w)).
Proof.
  intros Hk Hm. unfold CallbackServer.handle.
  etrans; [eapply xstM_bind_run; by rewrite (read_request_frame m _ Hm)|].
  etrans; [by eapply xstM_bind_run|]. cbn [fst callback_id].
  destruct (assoc k (after ops [])) as [f|] eqn:Hf; [|done]. apply assoc_elem_of in Hf.
  exfalso. apply Hk, list_elem_of_fmap. by exists (k, f).
Qed.
End requests.

(** ** Examples: functions are numbers, and a call is remembered *)
Module Calls.
Definition ParseRequest (s : pystr) : xres callback_request := Ret (mk_callback s []).
Definition SerializeResponse (c : callback_code) : pystr :=
  match c with CB_SUCCESS => bs "ok" | CB_FAIL => bs "fail" end.
Definition call_function (f : nat) (args : list value) : xstM (table nat * list nat) unit :=
  xmodify (fun s => (s.1, f :: s.2)).
End Calls.

Lemma callback_dispatch_witness :
  let ops := [Register 7; Register 8; Unregister (bs "0")] in
  let t := after [Register 9; Unregister (bs "1")] (after ops [] ++ [(bs "2", 5)]) in
  handle Calls.ParseRequest Calls.SerializeResponse Calls.call_function (bytes (frame (bs "2"))) (t, []) =
    (Ret (Some (bs "ok")), (t, [5])).
Proof.
  intros ops t.
  etrans; [eapply (callback_dispatch (W := list nat) Calls.ParseRequest Calls.SerializeResponse Calls.call_function
             ops 5 (after ops [] ++ [(bs "2", 5)]) (bs "2") [Register 9; Unregister (bs "1")] [] [] (bs "2") [])|].
  - vm_compute. reflexivity.
  - intros Hin. repeat (apply elem_of_cons in Hin as [Hin|Hin]; [discriminate Hin|]).
    by apply elem_of_nil in Hin.
  - reflexivity.
  - vm_compute. reflexivity.
Defined.

Lemma callback_unknown_witness :
  handle Calls.ParseRequest Calls.SerializeResponse Calls.call_function (bytes (frame (bs "0")))
    (after [Register 7; Unregister (bs "0")] [], []) =
  (Ret (Some (bs "fail")), (after [Register 7; Unregister (bs "0")] [], [])).
Proof.
  apply (callback_unknown Calls.ParseRequest Calls.SerializeResponse Calls.call_function
           [Register 7; Unregister (bs "0")] [] (bs "0") (bs "0") []).
  - vm_compute. by intros ?%elem_of_nil.
  - reflexivity.
Defined.

(** The greatest identifier is given again once it is free: a device that still
    holds it reaches the other function. *)
Lemma identifier_given_again :
  after [Register 7; Unregister (bs "0"); Register 8] [] = [(bs "0", 8)].
Proof. reflexivity. Qed.
