(* ===== verification/ResourceMirror.v ===== *)
(** * Requests to the drivers of resources ([src/utils/python/mirror/resource_mirror.py])

    A message queue, a shared memory region or a handle lives in a driver on the
    device; its mirror on the host holds the identifier and turns each method into
    a request.  FmqMirror, MemoryMirror and HandleMirror have one class each,
    written against the request method of the client, which is an argument there;
    [None] is a response that did not come.  A field of a request that is out of
    range raises. *)

From Stdlib Require Import Strings.Byte.
From S2P Require Import Prelude PyStr ListUtils PyVal Signals Shell Channel Mirror TcpClient.

Definition value_out_of_range : exn := EOther Python_ValueError (bs "Value out of range").
Definition in_range (lo hi z : Z) : xres Z :=
  if ((lo <=? z) && (z <=? hi))%Z then Ret z else Exc value_out_of_range.
Definition uint64 : Z -> xres Z := in_range 0 (2 ^ 64 - 1).
Definition int64 : Z -> xres Z := in_range (- 2 ^ 63) (2 ^ 63 - 1).
Definition int32 : Z -> xres Z := in_range (- 2 ^ 31) (2 ^ 31 - 1).

Lemma in_range_Ret lo hi z : (lo <= z <= hi)%Z -> in_range lo hi z = Ret z.
Proof. intros H. unfold in_range. by rewrite (proj2 (Z.leb_le lo z)), (proj2 (Z.leb_le z hi)) by lia. Qed.

(** Requests reach a driver: [ready s p] when [s] is connected to a driver in [p]. *)
Class Sends {S P Req Resp : Type} (send : Req -> xstM S (option Resp)) (drive : Req -> P -> Resp * P)
    (ready : S -> P -> Prop) : Prop :=
  sends m s p : ready s p -> exists s', send m s = (Ret (Some (drive m p).1), s') /\ ready s' (drive m p).2.
