(* ===== verification/FmqMirror.v ===== *)
(** * The mirror of a message queue ([ResourceFmqMirror]) *)

From Stdlib Require Import Strings.Byte.
From S2P Require Import Prelude PyStr ListUtils PyVal Signals Shell Channel Mirror TcpClient ResourceMirror.

Definition FMQ_CREATE : Z := 1.
Definition FMQ_READ : Z := 2.
Definition FMQ_READ_BLOCKING : Z := 3.
Definition FMQ_WRITE : Z := 5.
Definition FMQ_WRITE_BLOCKING : Z := 6.
Definition FMQ_AVAILABLE_WRITE : Z := 8.
Definition FMQ_AVAILABLE_READ : Z := 9.
Definition FMQ_GET_QUANTUM_SIZE : Z := 10.
Definition FMQ_GET_QUANTUM_COUNT : Z := 11.
Definition FMQ_IS_VALID : Z := 12.

Record ResourceFmqMirror := mk_fmq { data_type : pystr; sync : bool; queue_id : Z }.

Definition SUPPORTED_SCALAR_TYPES : list pystr :=
  [bs "uint8_t"; bs "int8_t"; bs "uint16_t"; bs "int16_t"; bs "uint32_t"; bs "int32_t";
   bs "uint64_t"; bs "int64_t"; bs "bool_t"; bs "double_t"].

Definition set_write_data (l : list vsm) (m : FmqRequestMessage) : FmqRequestMessage :=
  mk_fmq_request (fmq_operation m) (fmq_data_type m) (fmq_sync m) (fmq_queue_id m) (fmq_queue_size m)
    (fmq_blocking m) (fmq_reset_pointers m) l (fmq_read_data_size m) (fmq_time_out_nanos m).
Definition set_read_data_size (n : Z) (m : FmqRequestMessage) : FmqRequestMessage :=
  mk_fmq_request (fmq_operation m) (fmq_data_type m) (fmq_sync m) (fmq_queue_id m) (fmq_queue_size m)
    (fmq_blocking m) (fmq_reset_pointers m) (fmq_write_data m) (Some n) (fmq_time_out_nanos m).
Definition set_time_out_nanos (n : Z) (m : FmqRequestMessage) : FmqRequestMessage :=
  mk_fmq_request (fmq_operation m) (fmq_data_type m) (fmq_sync m) (fmq_queue_id m) (fmq_queue_size m)
    (fmq_blocking m) (fmq_reset_pointers m) (fmq_write_data m) (fmq_read_data_size m) (Some n).
Definition set_creation (size : Z) (blocking reset_pointers : bool) (m : FmqRequestMessage) : FmqRequestMessage :=
  mk_fmq_request (fmq_operation m) (fmq_data_type m) (fmq_sync m) (fmq_queue_id m) (Some size)
    (Some blocking) (Some reset_pointers) (fmq_write_data m) (fmq_read_data_size m) (fmq_time_out_nanos m).

Definition createTemplateRequestMessage (self : ResourceFmqMirror) (operation queue_id : Z)
    : xres FmqRequestMessage :=
  id ← int32 queue_id;
  Ret (mk_fmq_request operation (data_type self) (sync self) id None None None [] None None).

Section mirror.
Context {S : Type} (SendFmqRequest : FmqRequestMessage -> xstM S (option FmqResponseMessage)).
Context (float_bits : bool -> scalar -> Z).
Abbreviation M := (xstM S).

(** The mirror with its identifier: [-1] when the driver gave none. *)
Definition create (self : ResourceFmqMirror) (id queue_size : Z) (blocking reset_pointers : bool)
    : M ResourceFmqMirror :=
  request_msg ← xlift (createTemplateRequestMessage self FMQ_CREATE id);
  size ← xlift (uint64 queue_size);
  fmq_response ← SendFmqRequest (set_creation size blocking reset_pointers request_msg);
  mret (mk_fmq (data_type self) (sync self)
          (match fmq_response with
           | Some r => if negb (fmq_new_queue_id r =? -1)%Z then fmq_new_queue_id r else -1
           | None => -1
           end)).

(** A value of the list that is written: [None] when the method gives up. *)
Definition write_item (self : ResourceFmqMirror) (curr_value : value) : pyres (option vsm) :=
  match curr_value with
  | VMsg m => Ok (Some m)
  | v =>
      if decide (data_type self ∈ SUPPORTED_SCALAR_TYPES) then
        m ← set_scalar float_bits (data_type self) v
              (set_scalar_type (data_type self) (set_type TYPE_SCALAR empty_vsm));
        Ok (Some m)
      else Ok None
  end.
Fixpoint prepareWriteData (self : ResourceFmqMirror) (data : list value) : pyres (option (list vsm)) :=
  match data with
  | [] => Ok (Some [])
  | v :: data =>
      o ← write_item self v;
      match o with
      | None => Ok None
      | Some m => l ← prepareWriteData self data; Ok (match l with Some l => Some (m :: l) | None => None end)
      end
  end.

Definition extractReadData (response : FmqResponseMessage) : M (list value) :=
  xlift (foldr (fun m r => v ← GetPythonDataOfVariableSpecMsg m; l ← r; Ret (v :: l)) (Ret [])
           (fmq_read_data response)).

(** The result, and the caller's list afterwards: it is emptied first. *)
Definition finish_read (request_msg : FmqRequestMessage) : M (bool * list value) :=
  fmq_response ← SendFmqRequest request_msg;
  match fmq_response with
  | Some r => if fmq_success r then data ← extractReadData r; mret (true, data) else mret (false, [])
  | None => mret (false, [])
  end.
Definition read (self : ResourceFmqMirror) (data_size : Z) : M (bool * list value) :=
  request_msg ← xlift (createTemplateRequestMessage self FMQ_READ (queue_id self));
  n ← xlift (uint64 data_size);
  finish_read (set_read_data_size n request_msg).
Definition readBlocking (self : ResourceFmqMirror) (data_size time_out_nanos : Z) : M (bool * list value) :=
  request_msg ← xlift (createTemplateRequestMessage self FMQ_READ_BLOCKING (queue_id self));
  n ← xlift (uint64 data_size);
  t ← xlift (int64 time_out_nanos);
  finish_read (set_time_out_nanos t (set_read_data_size n request_msg)).

Definition finish_write (request_msg : FmqRequestMessage) : M bool :=
  fmq_response ← SendFmqRequest request_msg;
  mret (match fmq_response with Some r => fmq_success r | None => false end).
Definition write (self : ResourceFmqMirror) (data : list value) (data_size : Z) : M bool :=
  request_msg ← xlift (createTemplateRequestMessage self FMQ_WRITE (queue_id self));
  prepare_result ← xpure (prepareWriteData self (py_slice data 0 data_size));
  match prepare_result with
  | None => mret false
  | Some l => finish_write (set_write_data l request_msg)
  end.

Definition writeBlocking (self : ResourceFmqMirror) (data : list value) (data_size time_out_nanos : Z) : M bool :=
  request_msg ← xlift (createTemplateRequestMessage self FMQ_WRITE_BLOCKING (queue_id self));
  prepare_result ← xpure (prepareWriteData self (py_slice data 0 data_size));
  match prepare_result with
  | None => mret false
  | Some l => t ← xlift (int64 time_out_nanos); finish_write (set_time_out_nanos t (set_write_data l request_msg))
  end.

Definition processUtilMethod (request_msg : FmqRequestMessage) : M (option Z) :=
  fmq_response ← SendFmqRequest request_msg;
  mret (match fmq_response with
        | Some r => if fmq_success r then Some (fmq_sizet_return_val r) else None
        | None => None
        end).
Definition util_method (self : ResourceFmqMirror) (operation : Z) : M (option Z) :=
  request_msg ← xlift (createTemplateRequestMessage self operation (queue_id self));
  processUtilMethod request_msg.
Definition availableToWrite (self : ResourceFmqMirror) : M (option Z) := util_method self FMQ_AVAILABLE_WRITE.
Definition availableToRead (self : ResourceFmqMirror) : M (option Z) := util_method self FMQ_AVAILABLE_READ.
Definition getQuantumSize (self : ResourceFmqMirror) : M (option Z) := util_method self FMQ_GET_QUANTUM_SIZE.
Definition getQuantumCount (self : ResourceFmqMirror) : M (option Z) := util_method self FMQ_GET_QUANTUM_COUNT.
Definition isValid (self : ResourceFmqMirror) : M bool :=
  request_msg ← xlift (createTemplateRequestMessage self FMQ_IS_VALID (queue_id self));
  finish_write request_msg.
End mirror.

