(* ===== verification/MemoryMirror.v ===== *)
(** * The mirror of a shared memory region ([ResourceHidlMemoryMirror]) *)

From Stdlib Require Import Strings.Byte.
From S2P Require Import Prelude PyStr ListUtils PyVal Signals Shell Channel Mirror TcpClient ResourceMirror.

Definition MEM_PROTO_ALLOCATE : Z := 1.
Definition MEM_PROTO_START_READ : Z := 2.
Definition MEM_PROTO_START_READ_RANGE : Z := 3.
Definition MEM_PROTO_READ_BYTES : Z := 4.
Definition MEM_PROTO_START_UPDATE : Z := 5.
Definition MEM_PROTO_START_UPDATE_RANGE : Z := 6.
Definition MEM_PROTO_UPDATE_BYTES : Z := 7.
Definition MEM_PROTO_COMMIT : Z := 8.
Definition MEM_PROTO_GET_SIZE : Z := 9.

(** The mirror is the identifier of its region. *)
Definition createTemplateRequestMessage (mem_id operation : Z) : xres HidlMemoryRequestMessage :=
  id ← int32 mem_id; Ret (mk_mem_request operation id None None None None).

Section mirror.
Context {S : Type} (SendHidlMemoryRequest : HidlMemoryRequestMessage -> xstM S (option HidlMemoryResponseMessage)).
Abbreviation M := (xstM S).

(** The new identifier, or the old one when the driver gave none. *)
Definition allocate (self mem_size : Z) : M Z :=
  m ← xlift (createTemplateRequestMessage self MEM_PROTO_ALLOCATE);
  size ← xlift (uint64 mem_size);
  response_msg ← SendHidlMemoryRequest (mk_mem_request (mem_operation m) (mem_id m) (Some size) None None None);
  mret (match response_msg with
        | Some r => if negb (new_mem_id r =? -1)%Z then new_mem_id r else self
        | None => self
        end).

(** What the methods that signal have in common. *)
Definition signal (m : HidlMemoryRequestMessage) : M bool :=
  response_msg ← SendHidlMemoryRequest m;
  mret (match response_msg with Some r => mem_success r | None => false end).
Definition whole (self operation : Z) : M bool :=
  m ← xlift (createTemplateRequestMessage self operation); signal m.
Definition ranged (self operation start length : Z) (write_data : option pystr) : M bool :=
  m ← xlift (createTemplateRequestMessage self operation);
  start ← xlift (uint64 start);
  length ← xlift (uint64 length);
  signal (mk_mem_request (mem_operation m) (mem_id m) None (Some start) (Some length) write_data).

Definition read (self : Z) : M bool := whole self MEM_PROTO_START_READ.
Definition readRange (self start length : Z) : M bool := ranged self MEM_PROTO_START_READ_RANGE start length None.
Definition update (self : Z) : M bool := whole self MEM_PROTO_START_UPDATE.
Definition updateRange (self start length : Z) : M bool := ranged self MEM_PROTO_START_UPDATE_RANGE start length None.
Definition updateBytes (self : Z) (data : pystr) (length start : Z) : M bool :=
  ranged self MEM_PROTO_UPDATE_BYTES start length (Some data).
Definition commit (self : Z) : M bool := whole self MEM_PROTO_COMMIT.

Definition readBytes (self length start : Z) : M (option pystr) :=
  m ← xlift (createTemplateRequestMessage self MEM_PROTO_READ_BYTES);
  start ← xlift (uint64 start);
  length ← xlift (uint64 length);
  response_msg ← SendHidlMemoryRequest
    (mk_mem_request (mem_operation m) (mem_id m) None (Some start) (Some length) None);
  mret (match response_msg with
        | Some r => if mem_success r then Some (mem_read_data r) else None
        | None => None
        end).
Definition getSize (self : Z) : M Z :=
  m ← xlift (createTemplateRequestMessage self MEM_PROTO_GET_SIZE);
  response_msg ← SendHidlMemoryRequest m;
  mret (match response_msg with
        | Some r => if mem_success r then mem_size_result r else (-1)%Z
        | None => (-1)%Z
        end).
End mirror.

