(* ===== verification/HandleMirror.v ===== *)
(** * The mirror of a handle ([ResourceHidlHandleMirror]) *)

From Stdlib Require Import Strings.Byte.
From S2P Require Import Prelude PyStr ListUtils PyVal Signals Shell Channel Mirror TcpClient ResourceMirror.

Definition HANDLE_PROTO_CREATE_FILE : Z := 1.
Definition HANDLE_PROTO_READ_FILE : Z := 2.
Definition HANDLE_PROTO_WRITE_FILE : Z := 3.
Definition HANDLE_PROTO_DELETE : Z := 4.

Definition createTemplateRequestMessage (handle_id operation : Z) : xres HidlHandleRequestMessage :=
  id ← int32 handle_id; Ret (mk_handle_request operation id None None None).

Fixpoint int32s (l : list Z) : xres (list Z) :=
  match l with [] => Ret [] | z :: l => z ← int32 z; l ← int32s l; Ret (z :: l) end.

Section mirror.
Context {S : Type} (SendHidlHandleRequest : HidlHandleRequestMessage -> xstM S (option HidlHandleResponseMessage)).
Abbreviation M := (xstM S).

Definition CleanUp (self : Z) : M unit :=
  m ← xlift (createTemplateRequestMessage self HANDLE_PROTO_DELETE);
  _ ← SendHidlHandleRequest m; mret tt.

Definition createHandleForSingleFile (self : Z) (filepath mode : pystr) (int_data : list Z) : M Z :=
  m ← xlift (createTemplateRequestMessage self HANDLE_PROTO_CREATE_FILE);
  ints ← xlift (int32s int_data);
  response_msg ← SendHidlHandleRequest
    (mk_handle_request (handle_operation m) (handle_id m)
       (Some (mk_handle_info 1 (Z.of_nat (length int_data)) [(mode, filepath)] ints)) None None);
  mret (match response_msg with
        | Some r => if negb (new_handle_id r =? -1)%Z then new_handle_id r else self
        | None => self
        end).

(** The file's index is not sent. *)
Definition readFile (self read_data_size : Z) : M (option pystr) :=
  m ← xlift (createTemplateRequestMessage self HANDLE_PROTO_READ_FILE);
  n ← xlift (uint64 read_data_size);
  response_msg ← SendHidlHandleRequest (mk_handle_request (handle_operation m) (handle_id m) None (Some n) None);
  mret (match response_msg with
        | Some r => if handle_success r then Some (handle_read_data r) else None
        | None => None
        end).
Definition writeFile (self : Z) (write_data : pystr) : M (option Z) :=
  m ← xlift (createTemplateRequestMessage self HANDLE_PROTO_WRITE_FILE);
  response_msg ← SendHidlHandleRequest (mk_handle_request (handle_operation m) (handle_id m) None None (Some write_data));
  mret (match response_msg with
        | Some r => if handle_success r then Some (handle_write_data_size r) else None
        | None => None
        end).
End mirror.
