(* ===== verification/FmqSpec.v ===== *)
(** * A message queue as its mirror shows it

    Against any driver that keeps queues ([QueueDriver]) and any way of sending requests
    to it ([Sends], of which the TCP client is one), the methods of [ResourceFmqMirror]
    are a queue of Python values: of a bounded size when it is synchronized; when it is
    not, a writer goes on in a full queue, and the reader that it overtook loses what is
    there. *)

From Stdlib Require Import Strings.Byte.
From S2P Require Import Prelude PyStr ListUtils PyVal Signals Shell Channel Mirror TcpClient TcpSpec ResourceMirror FmqMirror.

(** The items are those that the reader of the mirror has not read. *)
Record queue := mk_queue { q_type : pystr; q_sync : bool; capacity : nat; items : list vsm }.
Definition with_items (l : list vsm) (q : queue) : queue := mk_queue (q_type q) (q_sync q) (capacity q) l.

(** A write is accepted when it fits into the free space of a synchronized queue, or
    into the whole of another. *)
Definition accepts (sync : bool) (cap used n : nat) : bool := bool_decide ((if sync then used else 0) + n <= cap).
(** The reader of a queue without synchronization was overtaken by its writer. *)
Definition overtaken (sync : bool) (cap used : nat) : bool := negb sync && bool_decide (cap < used).

(** What the driver of message queues does, one request at a time. *)
Class QueueDriver {P : Type} (drive : FmqRequestMessage -> P -> FmqResponseMessage * P)
    (queues : P -> gmap Z queue) : Prop := {
  drive_create m p size :
    fmq_operation m = FMQ_CREATE -> fmq_queue_id m = (-1)%Z -> fmq_queue_size m = Some size ->
    let '(r, p') := drive m p in
    (0 <= fmq_new_queue_id r < 2 ^ 31)%Z /\
    queues p' = <[fmq_new_queue_id r := mk_queue (fmq_data_type m) (fmq_sync m) (Z.to_nat size) []]> (queues p);
  drive_write m p q :
    fmq_operation m = FMQ_WRITE -> queues p !! fmq_queue_id m = Some q -> q_type q = fmq_data_type m ->
    let '(r, p') := drive m p in
    if accepts (q_sync q) (capacity q) (length (items q)) (length (fmq_write_data m))
    then fmq_success r = true /\
         queues p' = <[fmq_queue_id m := with_items (items q ++ fmq_write_data m) q]> (queues p)
    else fmq_success r = false /\ queues p' = queues p;
  drive_read m p q n :
    fmq_operation m = FMQ_READ -> fmq_read_data_size m = Some n -> (0 <= n)%Z ->
    queues p !! fmq_queue_id m = Some q -> q_type q = fmq_data_type m ->
    let '(r, p') := drive m p in
    if overtaken (q_sync q) (capacity q) (length (items q))
    then fmq_success r = false /\ queues p' = <[fmq_queue_id m := with_items [] q]> (queues p)
    else if decide (Z.to_nat n <= length (items q))
    then fmq_success r = true /\ fmq_read_data r = take (Z.to_nat n) (items q) /\
         queues p' = <[fmq_queue_id m := with_items (drop (Z.to_nat n) (items q)) q]> (queues p)
    else fmq_success r = false /\ queues p' = queues p;
  drive_available m p q :
    fmq_operation m = FMQ_AVAILABLE_READ \/ fmq_operation m = FMQ_AVAILABLE_WRITE ->
    queues p !! fmq_queue_id m = Some q -> q_type q = fmq_data_type m ->
    overtaken (q_sync q) (capacity q) (length (items q)) = false ->
    let '(r, p') := drive m p in
    fmq_success r = true /\ queues p' = queues p /\
    fmq_sizet_return_val r = Z.of_nat (if decide (fmq_operation m = FMQ_AVAILABLE_READ) then length (items q)
                                       else capacity q - length (items q));
}.

(** A client in step with an agent that hands the request to the driver. *)
Lemma tcp_sends_fmq {P} deliver SerializeToString ParseFromString answer
    `{!Agent (P := P) deliver SerializeToString ParseFromString answer}
    (drive : FmqRequestMessage -> P -> FmqResponseMessage * P) :
  (forall m, exists s, SerializeToString (mk_command VTS_FMQ_COMMAND [fmq_request m]) = Ret s) ->
  (forall m p, let '(r, p') := answer (mk_command VTS_FMQ_COMMAND [fmq_request m]) p in
               (fmq_response r, p') = drive m p) ->
  Sends (SendFmqRequest deliver SerializeToString ParseFromString) drive
    (fun c p => in_step (ParseFromString := ParseFromString) c /\ peer c = p).
Proof.
  intros Henc Hans m c p [Hc <-]. pose proof (call_in_step VTS_FMQ_COMMAND [Some (fmq_request m)] 0 c Hc) as H.
  specialize (Hans m (peer c)). change (omap id [Some (fmq_request m)]) with [fmq_request m] in H.
  destruct (answer _ (peer c)) as [r p']. rewrite <- Hans. destruct H as (c' & Hr & Hc' & Hp & _).
  - split; [|apply Henc]. apply (bool_decide_unpack _). by vm_compute.
  - exists c'. split; [|done]. unfold SendFmqRequest. by erewrite xstM_bind_run by exact Hr.
Qed.

Section values.
Context (float_bits : bool -> scalar -> Z) (self : ResourceFmqMirror).

(** The values that a queue of the mirror's type takes as they are. *)
Definition value_fits (v : value) : bool :=
  bool_decide (data_type self ∈ SUPPORTED_SCALAR_TYPES) &&
  match assoc (data_type self) scalar_fields with Some k => scalar_fits float_bits k v | None => false end.

Definition carried (v : value) (m : vsm) : Prop :=
  write_item float_bits self v = Ok (Some m) /\ GetPythonDataOfVariableSpecMsg m = Ret v.

Lemma check_scalar_fits k v :
  scalar_fits float_bits k v = true -> exists x, check_scalar float_bits k v = Ok x /\ of_scalar x = v.
Proof.
  destruct k as [|lo hi|double], v as [| |z|bits| | | |]; cbn; try done.
  - intros _. by destruct b; eexists.
  - intros Hz. rewrite Hz. by exists (SInt z).
  - intros Hb%Z.eqb_eq. rewrite Hb. by exists (SFloat bits).
Qed.

Lemma value_carried v : value_fits v = true -> exists m, carried v m.
Proof.
  unfold value_fits. intros [Hs%bool_decide_eq_true Hk]%andb_true_iff.
  destruct (assoc (data_type self) scalar_fields) as [k|] eqn:Ha; [|done].
  destruct (check_scalar_fits k v Hk) as (x & Hx & Hv).
  assert (match v with VMsg _ => False | _ => True end) as Hm by (by destruct k, v).
  exists (set_scalar_value [(data_type self, x)]
            (set_scalar_type (data_type self) (set_type TYPE_SCALAR empty_vsm))).
  split.
  - unfold write_item. destruct v; try done; rewrite decide_True by done; unfold set_scalar; rewrite Ha; cbn [from_opt mbind pyres_bind]; by rewrite Hx.
  - assert (data_type self <> []) as Hne by (by intros He; rewrite He in Ha).
    unfold GetPythonDataOfVariableSpecMsg. cbn. destruct (data_type self) as [|b ty] eqn:Ht; [done|].
    unfold get_scalar. cbn [scalar_type set_scalar_value set_scalar_type set_type]. rewrite Ha.
    cbn [from_opt mbind pyres_bind scalar_value set_scalar_value assoc]. rewrite decide_True by done. cbn. by rewrite Hv.
Qed.

Lemma prepare_carried vs :
  Forall (fun v => value_fits v = true) vs ->
  exists ms, prepareWriteData float_bits self vs = Ok (Some ms) /\ Forall2 carried vs ms.
Proof.
  induction 1 as [|v vs Hv _ (ms & Hms & Hc)]; [by exists []|].
  destruct (value_carried v Hv) as (m & Hm). exists (m :: ms). split; [|by constructor].
  cbn [prepareWriteData]. destruct Hm as [-> _]. cbn [mbind pyres_bind]. by rewrite Hms.
Qed.

Lemma extract_carried {S} vs r (s : S) :
  Forall2 carried vs (fmq_read_data r) -> extractReadData r s = (Ret vs, s).
Proof.
  unfold extractReadData, xlift. intros H. f_equal. induction H as [|v m vs ms [_ Hm] _ IH]; [done|].
  cbn [foldr]. rewrite Hm. cbn [mbind xres_bind]. by rewrite IH.
Qed.
End values.

(** ** The queue of values *)
Inductive fmq_op :=
  | OWrite (data : list value) (data_size : Z)
  | ORead (data_size : Z)
  | OAvailableToRead
  | OAvailableToWrite.
Inductive fmq_result :=
  | RWritten (b : bool)
  | RRead (b : bool) (data : list value)
  | RNumber (n : option Z).

(** The specification: a queue [vs] with room for [cap] values.  What is not accepted is
    not written at all, and a read takes all that it asks for or nothing; a reader that
    was overtaken fails once, and starts anew with what is written then. *)
Definition fifo (sync : bool) (cap : nat) (o : fmq_op) (vs : list value) : fmq_result * list value :=
  match o with
  | OWrite data n =>
      let l := py_slice data 0 n in
      if accepts sync cap (length vs) (length l) then (RWritten true, vs ++ l) else (RWritten false, vs)
  | ORead n =>
      if overtaken sync cap (length vs) then (RRead false [], [])
      else if decide (Z.to_nat n <= length vs) then (RRead true (take (Z.to_nat n) vs), drop (Z.to_nat n) vs)
      else (RRead false [], vs)
  | OAvailableToRead => (RNumber (Some (Z.of_nat (length vs))), vs)
  | OAvailableToWrite => (RNumber (Some (Z.of_nat (cap - length vs))), vs)
  end.
Fixpoint fifo_run (sync : bool) (cap : nat) (ops : list fmq_op) (vs : list value) : list fmq_result * list value :=
  match ops with
  | [] => ([], vs)
  | o :: ops => let '(r, vs) := fifo sync cap o vs in let '(rs, vs) := fifo_run sync cap ops vs in (r :: rs, vs)
  end.

Section refinement.
Context {S P : Type} (send : FmqRequestMessage -> xstM S (option FmqResponseMessage)).
Context (drive : FmqRequestMessage -> P -> FmqResponseMessage * P) (queues : P -> gmap Z queue).
Context (ready : S -> P -> Prop) (float_bits : bool -> scalar -> Z).
Context `{HD : !QueueDriver drive queues} `{HS : !Sends send drive ready}.

Definition run_op (self : ResourceFmqMirror) (o : fmq_op) : xstM S fmq_result :=
  match o with
  | OWrite data n => b ← write send float_bits self data n; mret (RWritten b)
  | ORead n => r ← read send self n; mret (RRead r.1 r.2)
  | OAvailableToRead => n ← availableToRead send self; mret (RNumber n)
  | OAvailableToWrite => n ← availableToWrite send self; mret (RNumber n)
  end.
Fixpoint run_ops (self : ResourceFmqMirror) (ops : list fmq_op) : xstM S (list fmq_result) :=
  match ops with
  | [] => mret []
  | o :: ops => r ← run_op self o; rs ← run_ops self ops; mret (r :: rs)
  end.

(** The driver holds the queue of the mirror, with the messages of [vs] in it. *)
Definition serves (self : ResourceFmqMirror) (cap : nat) (vs : list value) (s : S) : Prop :=
  (- 2 ^ 31 <= queue_id self <= 2 ^ 31 - 1)%Z /\
  exists p ms, ready s p /\ queues p !! queue_id self = Some (mk_queue (data_type self) (sync self) cap ms) /\
    Forall2 (carried float_bits self) vs ms.

Definition op_fits (self : ResourceFmqMirror) (o : fmq_op) : Prop :=
  match o with
  | OWrite data n => Forall (fun v => value_fits float_bits self v = true) (py_slice data 0 n)
  | ORead n => (0 <= n < 2 ^ 64)%Z
  | _ => sync self = true           (* what an overtaken reader would be told is left open *)
  end.

Lemma template_run self op (s : S) :
  (- 2 ^ 31 <= queue_id self <= 2 ^ 31 - 1)%Z ->
  xlift (createTemplateRequestMessage self op (queue_id self)) s =
    (Ret (mk_fmq_request op (data_type self) (sync self) (queue_id self) None None None [] None None), s).
Proof.
  intros H. unfold createTemplateRequestMessage, int32. by rewrite in_range_Ret by lia.
Qed.

Lemma write_refines self cap vs data n s :
  serves self cap vs s -> op_fits self (OWrite data n) ->
  let '(r, vs') := fifo (sync self) cap (OWrite data n) vs in
  exists s', run_op self (OWrite data n) s = (Ret r, s') /\ serves self cap vs' s'.
Proof.
  intros (Hid & p & ms & Hr & Hq & Hms) Hf. cbn [op_fits] in Hf. cbn [fifo run_op].
  destruct (prepare_carried float_bits self _ Hf) as (l & Hl & Hcl).
  set (m := mk_fmq_request FMQ_WRITE (data_type self) (sync self) (queue_id self) None None None l None None).
  pose proof (drive_write m p _ eq_refl Hq eq_refl) as Hd. cbn [q_type q_sync capacity items fmq_write_data m fmq_queue_id with_items] in Hd.
  destruct (sends (send := send) (drive := drive) m s p Hr) as (s' & Hs & Hr').
  rewrite <- (Forall2_length _ _ _ Hms), <- (Forall2_length _ _ _ Hcl) in Hd.
  destruct (drive m p) as [resp p'] eqn:Hdr. cbn [fst snd] in Hs, Hr'.
  assert (write send float_bits self data n s = (Ret (fmq_success resp), s')) as Hw.
  { unfold write. erewrite xstM_bind_run by (by apply template_run).
    erewrite xstM_bind_run by (unfold xpure, xlift; by rewrite Hl). fold m. unfold finish_write.
    change (set_write_data l _) with m. by erewrite xstM_bind_run by exact Hs. }
  destruct (accepts _ _ _ _); destruct Hd as [Hsucc Hq'].
  - exists s'. erewrite xstM_bind_run by exact Hw. rewrite Hsucc. split; [done|]. split; [done|].
    exists p', (ms ++ l). rewrite Hq', lookup_insert_eq. split_and!; [done..|]. by apply Forall2_app.
  - exists s'. erewrite xstM_bind_run by exact Hw. rewrite Hsucc. split; [done|]. split; [done|].
    exists p', ms. by rewrite Hq'.
Qed.

Lemma read_refines self cap vs n s :
  serves self cap vs s -> op_fits self (ORead n) ->
  let '(r, vs') := fifo (sync self) cap (ORead n) vs in
  exists s', run_op self (ORead n) s = (Ret r, s') /\ serves self cap vs' s'.
Proof.
  intros (Hid & p & ms & Hr & Hq & Hms) Hf. cbn [op_fits] in Hf. cbn [fifo run_op].
  set (m := mk_fmq_request FMQ_READ (data_type self) (sync self) (queue_id self) None None None [] (Some n) None).
  pose proof (drive_read m p _ n eq_refl eq_refl (proj1 Hf) Hq eq_refl) as Hd.
  cbn [q_type q_sync capacity items m fmq_queue_id with_items] in Hd.
  destruct (sends (send := send) (drive := drive) m s p Hr) as (s' & Hs & Hr').
  rewrite <- (Forall2_length _ _ _ Hms) in Hd.
  destruct (drive m p) as [resp p'] eqn:Hdr. cbn [fst snd] in Hs, Hr'.
  assert (FmqMirror.read send self n s = (if fmq_success resp then (data ← extractReadData resp; mret (true, data)) s'
                                else (Ret (false, []), s'))) as Hw.
  { unfold FmqMirror.read. erewrite xstM_bind_run by (by apply template_run).
    erewrite xstM_bind_run.
    2: { unfold xlift, uint64. by rewrite in_range_Ret by lia. }
    unfold finish_read. change (set_read_data_size n _) with m. erewrite xstM_bind_run by exact Hs.
    cbv beta iota. destruct (fmq_success resp); reflexivity. }
  destruct (overtaken _ _ _).
  { destruct Hd as [Hsucc Hq']. rewrite Hsucc in Hw. exists s'. erewrite xstM_bind_run by exact Hw.
    split; [done|]. split; [done|]. exists p', []. rewrite Hq', lookup_insert_eq. by repeat constructor. }
  destruct (decide (Z.to_nat n <= length vs)) as [Hle|Hle].
  - destruct Hd as (Hsucc & Hdata & Hq'). rewrite Hsucc in Hw.
    assert (Forall2 (carried float_bits self) (take (Z.to_nat n) vs) (fmq_read_data resp)) as Hc.
    { rewrite Hdata. by apply Forall2_take. }
    erewrite xstM_bind_run in Hw by (by eapply extract_carried).
    exists s'. erewrite xstM_bind_run by exact Hw. split; [done|]. split; [done|].
    exists p', (drop (Z.to_nat n) ms). rewrite Hq', lookup_insert_eq. split_and!; [done..|]. by apply Forall2_drop.
  - destruct Hd as (Hsucc & Hq'). rewrite Hsucc in Hw. exists s'. erewrite xstM_bind_run by exact Hw.
    split; [done|]. split; [done|]. exists p', ms. by rewrite Hq'.
Qed.

Lemma available_refines self cap vs op s :
  serves self cap vs s -> sync self = true -> op = FMQ_AVAILABLE_READ \/ op = FMQ_AVAILABLE_WRITE ->
  exists s', util_method send self op s =
      (Ret (Some (Z.of_nat (if decide (op = FMQ_AVAILABLE_READ) then length vs else cap - length vs))), s') /\
    serves self cap vs s'.
Proof.
  intros (Hid & p & ms & Hr & Hq & Hms) Hsync Hop.
  set (m := mk_fmq_request op (data_type self) (sync self) (queue_id self) None None None [] None None).
  pose proof (drive_available m p _ Hop Hq eq_refl ltac:(cbn; by rewrite Hsync)) as Hd. cbn [capacity items m fmq_operation] in Hd.
  destruct (sends (send := send) (drive := drive) m s p Hr) as (s' & Hs & Hr').
  rewrite <- (Forall2_length _ _ _ Hms) in Hd.
  destruct (drive m p) as [resp p'] eqn:Hdr. cbn [fst snd] in Hs, Hr'. destruct Hd as (Hsucc & Hq' & Hn).
  exists s'. split.
  - unfold util_method. erewrite xstM_bind_run by (by apply template_run). fold m. unfold processUtilMethod.
    erewrite xstM_bind_run by exact Hs. cbv beta iota. by rewrite Hsucc, Hn.
  - split; [done|]. exists p', ms. by rewrite Hq'.
Qed.

(** C4: Through its mirror a message queue is a queue of Python values, for the one
    mirror that writes to it and reads from it: what a write gives is accepted as a
    whole or not at all, and reads take the values in order.  In a synchronized queue a
    write has to fit into the free space, and the counts of free and used places are
    exact; in one that is not, a write goes on over what was not read, and the reader
    that was overtaken fails and starts anew.  The values fit the type of the queue, and
    the driver and the connection are any with the laws of the classes [QueueDriver] and
    [Sends], the TCP client among them. *)
Theorem fmq_refines_fifo self cap ops vs s :
  serves self cap vs s -> Forall (op_fits self) ops ->
  let '(rs, vs') := fifo_run (sync self) cap ops vs in
  exists s', run_ops self ops s = (Ret rs, s') /\ serves self cap vs' s'.
Proof.
  intros Hs Hops. revert vs s Hs. induction Hops as [|o ops Ho _ IH]; intros vs s Hs; [by exists s|].
  assert (let '(r, vs') := fifo (sync self) cap o vs in
          exists s', run_op self o s = (Ret r, s') /\ serves self cap vs' s') as H1.
  { destruct o as [data n|n| |].
    - by apply write_refines.
    - by apply read_refines.
    - destruct (available_refines self cap vs FMQ_AVAILABLE_READ s Hs Ho ltac:(by left)) as (s' & Hr & Hs').
      exists s'. split; [|done]. cbn [run_op]. unfold availableToRead. by erewrite xstM_bind_run by exact Hr.
    - destruct (available_refines self cap vs FMQ_AVAILABLE_WRITE s Hs Ho ltac:(by right)) as (s' & Hr & Hs').
      exists s'. split; [|done]. cbn [run_op]. unfold availableToWrite. by erewrite xstM_bind_run by exact Hr. }
  cbn [fifo_run]. destruct (fifo (sync self) cap o vs) as [r vs1]. destruct H1 as (s1 & Hr & Hs1).
  specialize (IH vs1 s1 Hs1). destruct (fifo_run (sync self) cap ops vs1) as [rs vs']. destruct IH as (s' & Hrs & Hs').
  exists s'. split; [|done]. cbn [run_ops]. erewrite xstM_bind_run by exact Hr.
  by erewrite xstM_bind_run by exact Hrs.
Qed.

(** A queue that the mirror creates is empty. *)
Lemma create_serves self size blocking reset s p :
  ready s p -> (0 <= size < 2 ^ 64)%Z ->
  exists self' s', create send self (-1) size blocking reset s = (Ret self', s') /\
    (0 <= queue_id self')%Z /\ data_type self' = data_type self /\ serves self' (Z.to_nat size) [] s'.
Proof.
  intros Hr Hsz.
  set (m := mk_fmq_request FMQ_CREATE (data_type self) (sync self) (-1) (Some size) (Some blocking) (Some reset) [] None None).
  pose proof (drive_create m p size eq_refl eq_refl eq_refl) as Hd.
  destruct (sends (send := send) (drive := drive) m s p Hr) as (s' & Hs & Hr').
  destruct (drive m p) as [resp p'] eqn:Hdr. cbn [fst snd] in Hs, Hr'. destruct Hd as (Hid & Hq).
  exists (mk_fmq (data_type self) (sync self) (fmq_new_queue_id resp)), s'. split_and!; [|cbn; lia|done|].
  - unfold create. erewrite xstM_bind_run by reflexivity. erewrite xstM_bind_run.
    2: { unfold xlift, uint64. by rewrite in_range_Ret by lia. }
    change (set_creation size blocking reset _) with m. erewrite xstM_bind_run by exact Hs.
    cbv beta iota. by rewrite (proj2 (Z.eqb_neq _ _)) by lia.
  - split; [cbn; lia|]. exists p', []. rewrite Hq, lookup_insert_eq. by repeat constructor.
Qed.
End refinement.

(** ** A driver in memory *)
Module MemoryQueues.
Abbreviation store := (gmap Z queue).
Definition reply (success : bool) (data : list vsm) (n : nat) (id : Z) : FmqResponseMessage :=
  mk_fmq_response data (Z.of_nat n) id success.

Definition drive (m : FmqRequestMessage) (p : store) : FmqResponseMessage * store :=
  if decide (fmq_operation m = FMQ_CREATE) then
    (reply true [] 0 0, <[0%Z := mk_queue (fmq_data_type m) (fmq_sync m) (Z.to_nat (default 0%Z (fmq_queue_size m))) []]> p)
  else
    match p !! fmq_queue_id m with
    | None => (reply false [] 0 0, p)
    | Some q =>
        if decide (fmq_operation m = FMQ_WRITE) then
          if accepts (q_sync q) (capacity q) (length (items q)) (length (fmq_write_data m))
          then (reply true [] 0 0, <[fmq_queue_id m := with_items (items q ++ fmq_write_data m) q]> p)
          else (reply false [] 0 0, p)
        else if decide (fmq_operation m = FMQ_READ) then
          let n := Z.to_nat (default 0%Z (fmq_read_data_size m)) in
          if overtaken (q_sync q) (capacity q) (length (items q))
          then (reply false [] 0 0, <[fmq_queue_id m := with_items [] q]> p)
          else if decide (n <= length (items q))
          then (reply true (take n (items q)) 0 0, <[fmq_queue_id m := with_items (drop n (items q)) q]> p)
          else (reply false [] 0 0, p)
        else if decide (fmq_operation m = FMQ_AVAILABLE_READ) then (reply true [] (length (items q)) 0, p)
        else (reply true [] (capacity q - length (items q)) 0, p)
    end.

#[global] Instance driver : QueueDriver drive (fun p => p).
Proof.
  split; unfold drive.
  - intros m p size Hop Hid Hsize. rewrite decide_True by done. cbn. by rewrite Hsize.
  - intros m p q Hop Hq Ht. rewrite decide_False by (by rewrite Hop). rewrite Hq.
    rewrite decide_True by done. by destruct (accepts _ _ _ _).
  - intros m p q n Hop Hn Hpos Hq Ht. rewrite decide_False by (by rewrite Hop). rewrite Hq.
    rewrite decide_False by (by rewrite Hop). rewrite decide_True by done. rewrite Hn. cbn [default].
    destruct (overtaken _ _ _); [done|]. by destruct (decide (_ <= _)).
  - intros m p q Hop Hq Ht _. rewrite decide_False by (by destruct Hop as [->| ->]). rewrite Hq.
    rewrite decide_False by (by destruct Hop as [->| ->]). rewrite decide_False by (by destruct Hop as [->| ->]).
    by destruct (decide (fmq_operation m = FMQ_AVAILABLE_READ)).
Qed.

Definition send (m : FmqRequestMessage) : xstM store (option FmqResponseMessage) := fun p =>
  let '(r, p) := drive m p in (Ret (Some r), p).
#[global] Instance sending : Sends send drive (fun s p => s = p).
Proof. intros m s p ->. unfold send. destruct (drive m p) as [r p']. by exists p'. Qed.

Definition float_bits (double : bool) (x : scalar) : Z := match x with SFloat b => b | _ => 0%Z end.
Definition mirror : ResourceFmqMirror := mk_fmq (bs "int8_t") true 3.
Definition queues0 : store := {[3%Z := mk_queue (bs "int8_t") true 4 []]}.
End MemoryQueues.

Lemma fmq_refines_fifo_witness :
  let ops := [OWrite (VInt <$> [1; -2; 3]%Z) 3; OWrite [VInt 4; VInt 5] 2; ORead 2; OAvailableToRead;
              ORead 5; OWrite [VInt 6; VInt 7] 1; ORead 2] in
  exists s', run_ops MemoryQueues.send MemoryQueues.float_bits MemoryQueues.mirror ops MemoryQueues.queues0 =
    (Ret [RWritten true; RWritten false; RRead true [VInt 1; VInt (-2)]; RNumber (Some 1%Z);
          RRead false []; RWritten true; RRead true [VInt 3; VInt 6]], s').
Proof.
  intros ops.
  destruct (fmq_refines_fifo MemoryQueues.send MemoryQueues.drive (fun p => p) (fun s p => s = p)
      MemoryQueues.float_bits MemoryQueues.mirror 4 ops [] MemoryQueues.queues0) as (s' & Hr & _).
  - split; [cbn; lia|]. exists MemoryQueues.queues0, []. by repeat constructor.
  - repeat constructor; cbn; lia.
  - exists s'. exact Hr.
Defined.

(** Without synchronization a full queue takes a write, and the reader is overtaken. *)
Example unsync_overflow :
  fifo_run false 2 [OWrite [VInt 1; VInt 2] 2; OWrite [VInt 3] 1; ORead 2; OWrite [VInt 4] 1; ORead 1] [] =
    ([RWritten true; RWritten true; RRead false []; RWritten true; RRead true [VInt 4]], []).
Proof. reflexivity. Qed.

(** The agent refuses to create a queue and sends no driver response: its fields
    read as 0, and the mirror takes 0 for the identifier of its new queue. *)
Lemma create_after_failure {S} (s : S) self :
  create (fun _ => mret (Some (fmq_response empty_response))) self (-1) 4 false true s =
    (Ret (mk_fmq (data_type self) (sync self) 0), s).
Proof. reflexivity. Qed.
