(* ===== verification/MirrorTracker.v ===== *)
(** * The tracker of mirrors ([src/utils/python/mirror/mirror_tracker.py], [shell_mirror.py])

    A test reaches the device through mirrors, which the tracker creates,
    registers under names and cleans up.  Clients of the device are a parameter
    [C], with what the tracker and the mirrors do to them on a state [S] of the
    outside world; several mirrors may share one client. *)

From Stdlib Require Import Strings.Byte.
From S2P Require Import Prelude PyStr ListUtils PyVal Signals Shell Channel Mirror TcpClient.
From S2P Require Import ResourceMirror FmqMirror MemoryMirror HandleMirror.

Definition ComponentLoadingError : exc_class := UserException 7.
Definition USERError : exc_class := UserException 8.
Definition MirrorObjectError : exc_class := UserException 9.
Definition no_attribute (attr : pystr) : exn := EOther Python_AttributeError (bs "no attribute " ++ attr).
(** [error] where the module imports [errors]. *)
Definition error_not_defined : exn := EOther NameError_ (bs "global name 'error' is not defined").

Definition DEFAULT_SHELL_NAME : pystr := bs "_default".
Definition MAX_ADB_SHELL_LENGTH : nat := 950.

(** A registered mirror with its client; of the mirrors of HALs and libraries only
    the client matters here. *)
Inductive mirror (C : Type) :=
  | MFmq (c : C) (m : ResourceFmqMirror)
  | MMemory (c : C) (id : Z)
  | MHandle (c : C) (id : Z)
  | MShell (c : C) (enabled : bool)
  | MNative (c : C).
Arguments MFmq {_} _ _.
Arguments MMemory {_} _ _.
Arguments MHandle {_} _ _.
Arguments MShell {_} _ _.
Arguments MNative {_} _.

Definition client_of {C} (m : mirror C) : C :=
  match m with MFmq c _ | MMemory c _ | MHandle c _ | MShell c _ | MNative c => c end.

(** How a caller names an existing queue. *)
Inductive queue_ref (C : Type) := QName (s : pystr) | QMirror (m : mirror C) | QOther.
Arguments QName {_} _.
Arguments QMirror {_} _.
Arguments QOther {_}.

Record tracker (C : Type) := mk_tracker {
  registered_mirrors : gmap pystr (mirror C);
  callback_server : bool;
  shell_default_nohup : bool;
}.
Arguments mk_tracker {_} _ _ _.
Arguments registered_mirrors {_} _.
Arguments callback_server {_} _.
Arguments shell_default_nohup {_} _.

Section tracker.
Context {C S : Type}.
(** [VtsTcpClient()] and [Connect], with or without the callback port. *)
Context (connect : bool -> xstM S C) (Disconnect : C -> xstM S unit).
Context (SendFmqRequest : C -> FmqRequestMessage -> xstM S (option FmqResponseMessage)).
Context (SendHidlMemoryRequest : C -> HidlMemoryRequestMessage -> xstM S (option HidlMemoryResponseMessage)).
Context (SendHidlHandleRequest : C -> HidlHandleRequestMessage -> xstM S (option HidlHandleResponseMessage)).
(** Launching a shell driver; a shell command through the driver; [Heal]. *)
Context (LaunchShell : C -> pystr -> Z -> xstM S bool).
Context (ExecuteShellCommand : C -> command_arg -> bool -> xstM S shell_results) (HealClient : C -> xstM S bool).
(** [adb shell], and pulling a file whose name the pattern matches. *)
Context (adb_shell : pystr -> xstM S (pystr * pystr * Z)).
Context (is_tmp_file : pystr -> bool) (pull : pystr -> xstM S pystr).
Context (stop_server : xstM S unit).
Abbreviation trackM := (xstM (tracker C * S)).

Definition world {A} (m : xstM S A) : trackM A := fun s => let '(r, w) := m s.2 in (r, (s.1, w)).
Definition get_mirrors : trackM (gmap pystr (mirror C)) := fun s => (Ret (registered_mirrors s.1), s).
Definition set_mirrors (f : gmap pystr (mirror C) -> gmap pystr (mirror C)) : trackM unit := fun s =>
  (Ret tt, (mk_tracker (f (registered_mirrors s.1)) (callback_server s.1) (shell_default_nohup s.1), s.2)).
Definition register (name : pystr) (m : mirror C) : trackM unit := set_mirrors (insert name m).

Definition taken (name : option pystr) (l : gmap pystr (mirror C)) : bool :=
  match name with Some n => bool_decide (is_Some (l !! n)) | None => false end.
Definition client_or_new (client : option C) (callback : bool) : trackM C :=
  match client with Some c => mret c | None => world (connect callback) end.

(** ** Resources *)

(** Type, flavour and identifier of an existing queue: [None] after an error that is
    only logged. *)
Definition queue_of (m : mirror C) : xres ResourceFmqMirror :=
  match m with
  | MFmq _ q => Ret q
  | MNative _ => Exc (EOther MirrorObjectError (bs "unknown api name dataType"))
  | _ => Exc (no_attribute (bs "dataType"))
  end.
Definition find_queue (existing_queue : option (queue_ref C)) (new : ResourceFmqMirror)
    (l : gmap pystr (mirror C)) : xres (option ResourceFmqMirror) :=
  match existing_queue with
  | None => Ret (Some new)
  | Some (QName n) => match l !! n with Some m => q ← queue_of m; Ret (Some q) | None => Ret None end
  | Some (QMirror (MFmq _ q)) => Ret (Some q)
  | Some _ => Ret None
  end.

Definition InitFmq (existing_queue : option (queue_ref C)) (new_queue_name : option pystr)
    (data_type : pystr) (sync : bool) (queue_size : Z) (blocking reset_pointers : bool)
    (client : option C) : trackM (option (mirror C)) :=
  l ← get_mirrors;
  if taken new_queue_name l then mret None
  else
    c ← client_or_new client true;
    q ← xlift (find_queue existing_queue (mk_fmq data_type sync (-1)) l);
    match q with
    | None => mret None
    | Some q =>
        m ← world (create (SendFmqRequest c) (mk_fmq (FmqMirror.data_type q) (FmqMirror.sync q) (-1))
                     (queue_id q) queue_size blocking reset_pointers);
        if (queue_id m =? -1)%Z then mret None
        else
          _ ← register (default (bs "queue_id_" ++ str_int (queue_id m)) new_queue_name) (MFmq c m);
          mret (Some (MFmq c m))
    end.

Definition InitHidlMemory (mem_size : Z) (client : option C) (mem_name : option pystr)
    : trackM (option (mirror C)) :=
  l ← get_mirrors;
  if taken mem_name l then mret None
  else
    c ← client_or_new client true;
    id ← world (allocate (SendHidlMemoryRequest c) (-1) mem_size);
    if (id =? -1)%Z then mret None
    else
      _ ← register (default (bs "mem_id_" ++ str_int id) mem_name) (MMemory c id);
      mret (Some (MMemory c id)).

Definition InitHidlHandleForSingleFile (filepath mode : pystr) (ints : list Z) (client : option C)
    (handle_name : option pystr) : trackM (option (mirror C)) :=
  l ← get_mirrors;
  if taken handle_name l then mret None
  else
    c ← client_or_new client true;
    id ← world (createHandleForSingleFile (SendHidlHandleRequest c) (-1) filepath mode ints);
    if (id =? -1)%Z then mret None
    else
      _ ← register (default (bs "handle_id_" ++ str_int id) handle_name) (MHandle c id);
      mret (Some (MHandle c id)).

(** ** Versions *)

(** The version as the text of a float. *)
Definition GetTargetVersion (target_version : option pystr) (major minor : option Z)
    : xres (option Z * option Z) :=
  match minor with
  | Some _ => Ret (major, minor)
  | None =>
      match target_version with
      | Some v =>
          match split (bs ".") v with
          | [a; b] => a ← of_pyres (py_int a); b ← of_pyres (py_int b); Ret (Some a, Some b)
          | _ => Exc (EOther Python_ValueError (bs "too many values to unpack"))
          end
      | None => Exc (EOther USERError (bs "User has to provide a target version."))
      end
  end.

(** HALs and libraries: their drivers are started by what the caller passes. *)
Definition InitHidlHal (InitHalDriver : C -> option Z -> option Z -> xstM S unit) (target_type : pystr)
    (target_version : option pystr) (major minor : option Z) : trackM unit :=
  v ← xlift (GetTargetVersion target_version major minor);
  c ← world (connect true);
  _ ← world (InitHalDriver c v.1 v.2);
  register target_type (MNative c).
Definition InitSharedLib (InitLibDriver : C -> option Z -> option Z -> xstM S unit) (target_type : pystr)
    (target_version : option pystr) (major minor : option Z) (handler_name : option pystr) : trackM unit :=
  v ← xlift (GetTargetVersion target_version major minor);
  let handler_name := match handler_name with Some ((_ :: _) as n) => n | _ => target_type end in
  c ← world (connect false);
  _ ← world (InitLibDriver c v.1 v.2);
  register handler_name (MNative c).

(** ** Shells *)
Definition InvokeTerminal (instance_name : pystr) (bits : Z) : trackM unit :=
  _ ← xlift (match instance_name with [] => Exc error_not_defined | _ => Ret tt end);
  _ ← xlift (if decide (bits = 32 \/ bits = 64)%Z then Ret tt else Exc error_not_defined);
  l ← get_mirrors;
  match l !! instance_name with
  | Some _ => mret tt
  | None =>
      c ← world (connect false);
      launched ← world (LaunchShell c (bs "shell_" ++ instance_name) bits);
      if launched : bool then register instance_name (MShell c true)
      else xlift (Exc (EOther ComponentLoadingError
                         (bs "Failed to launch shell driver service " ++ instance_name)))
  end.

Definition DisableShell : trackM unit :=
  set_mirrors (fmap (fun m => match m with MShell c _ => MShell c false | m => m end)).

(** The values of an output that name a file of the device are replaced by its
    contents. *)
Fixpoint fetch_values (l : list pystr) : xstM S (list pystr) :=
  match l with
  | [] => mret []
  | val :: l =>
      v ← (if is_tmp_file val then
             data ← pull val; _ ← adb_shell (bs "rm -f " ++ val); mret data
           else mret val);
      l ← fetch_values l;
      mret (v :: l)
  end.

(** [ShellMirror.Execute] *)
Definition shell_Execute (m : mirror C) (command : command_arg) (no_except : bool) : xstM S shell_results :=
  match m with
  | MShell c false =>
      let n := command_len command in
      mret (mk_shell (replicate n []) (replicate n (bs "VTS remote shell has been disabled."))
              (inr (replicate n (-2)%Z)))
  | MShell c true =>
      result ← ExecuteShellCommand c command no_except;
      out ← fetch_values (STDOUT result);
      err ← fetch_values (STDERR result);
      mret (mk_shell out err (EXIT_CODE result))
  | MNative _ => xlift (Exc (EOther MirrorObjectError (bs "unknown api name Execute")))
  | _ => xlift (Exc (no_attribute (bs "Execute")))
  end.

Fixpoint via_adb (commands : list pystr) : xstM S (list (pystr * pystr * Z)) :=
  match commands with
  | [] => mret []
  | cmd :: commands => r ← adb_shell cmd; l ← via_adb commands; mret (r :: l)
  end.
Definition ExecuteShellCmdViaAdbShell (commands : list pystr) : trackM shell_results :=
  l ← world (via_adb commands);
  mret (mk_shell ((fun r => r.1.1) <$> l) ((fun r => r.1.2) <$> l) (inr (snd <$> l))).

(** [getattr(self, _DEFAULT_SHELL_NAME).Execute]; a name that is not registered
    gives [None]. *)
Definition default_shell_Execute (commands : list pystr) (no_except : bool) : trackM shell_results :=
  l ← get_mirrors;
  match l !! DEFAULT_SHELL_NAME with
  | Some m => world (shell_Execute m (Many commands) no_except)
  | None => xlift (Exc (no_attribute (bs "Execute")))
  end.
Definition ExecuteShellCmdViaVtsDriver (commands : list pystr) (no_except : bool) : trackM shell_results :=
  l ← get_mirrors;
  _ ← (if decide (is_Some (l !! DEFAULT_SHELL_NAME)) then mret tt else InvokeTerminal DEFAULT_SHELL_NAME 32);
  default_shell_Execute commands no_except.

Definition adb_suffices (nohup : bool) (commands : list pystr) : bool :=
  negb nohup && bool_decide (length commands <= 3)
  && forallb (fun cmd => bool_decide (length cmd <= MAX_ADB_SHELL_LENGTH)) commands.
Definition Execute (commands : command_arg) (no_except : bool) (nohup : option bool) : trackM shell_results :=
  let commands := command_list commands in
  s ← xget;
  if adb_suffices (default (shell_default_nohup (fst s)) nohup) commands
  then ExecuteShellCmdViaAdbShell commands
  else ExecuteShellCmdViaVtsDriver commands no_except.

(** ** Healing and cleaning up *)
Definition Heal_mirror (m : mirror C) : xstM S bool :=
  match m with
  | MShell c _ => HealClient c
  | MNative _ => xlift (Exc (EOther MirrorObjectError (bs "unknown api name Heal")))
  | _ => xlift (Exc (no_attribute (bs "Heal")))
  end.
Fixpoint heal_all (l : list (mirror C)) : xstM S bool :=
  match l with
  | [] => mret true
  | m :: l => b ← Heal_mirror m; bs ← heal_all l; mret (b && bs)
  end.
(** The values of the dictionary in its order. *)
Definition values (l : gmap pystr (mirror C)) : list (mirror C) := (map_to_list l).*2.
Definition Heal : trackM bool := l ← get_mirrors; world (heal_all (values l)).

(** A handle is deleted on the device; the others close their connection. *)
Definition CleanUp_mirror (m : mirror C) : xstM S unit :=
  match m with
  | MHandle c id => HandleMirror.CleanUp (SendHidlHandleRequest c) id
  | m => Disconnect (client_of m)
  end.
Fixpoint clean_all (l : list (mirror C)) : xstM S unit :=
  match l with [] => mret tt | m :: l => _ ← CleanUp_mirror m; clean_all l end.
Definition CleanUp : trackM unit :=
  l ← get_mirrors;
  _ ← world (clean_all (values l));
  _ ← set_mirrors (fun _ => ∅);
  s ← xget;
  if callback_server (fst s)
  then
    _ ← world stop_server;
    xmodify (fun s => (mk_tracker (registered_mirrors s.1) false (shell_default_nohup s.1), s.2))
  else mret tt.

Definition RemoveMirror (mirror_name : pystr) : trackM unit :=
  l ← get_mirrors;
  match l !! mirror_name with
  | None => xlift (Exc (EOther Python_KeyError (repr_str mirror_name)))
  | Some m => _ ← world (CleanUp_mirror m); set_mirrors (delete mirror_name)
  end.

Definition GetTcpClient (mirror_name : pystr) : trackM (option C) :=
  l ← get_mirrors; mret (client_of <$> l !! mirror_name).
End tracker.
