(* ===== verification/TrackerSpec.v ===== *)
(** * What the tracker keeps

    Every operation of [MirrorTracker], whatever it returns or raises, leaves only
    valid resources registered; a new queue can be used through its mirror; the
    route of shell commands; cleaning up. *)

From Stdlib Require Import Strings.Byte.
From S2P Require Import Prelude PyStr ListUtils PyVal Signals Shell Channel Mirror TcpClient.
From S2P Require Import ResourceMirror FmqMirror MemoryMirror HandleMirror FmqSpec MirrorTracker.

(** What a tracker registers on the device. *)
Inductive resource := RQueue | RMemory | RHandle.

Section invariant.
Context {C S : Type}.
Context (connect : bool -> xstM S C) (Disconnect : C -> xstM S unit).
Context (SendFmqRequest : C -> FmqRequestMessage -> xstM S (option FmqResponseMessage)).
Context (SendHidlMemoryRequest : C -> HidlMemoryRequestMessage -> xstM S (option HidlMemoryResponseMessage)).
Context (SendHidlHandleRequest : C -> HidlHandleRequestMessage -> xstM S (option HidlHandleResponseMessage)).
Context (LaunchShell : C -> pystr -> Z -> xstM S bool).
Context (ExecuteShellCommand : C -> command_arg -> bool -> xstM S shell_results) (HealClient : C -> xstM S bool).
Context (adb_shell : pystr -> xstM S (pystr * pystr * Z)).
Context (is_tmp_file : pystr -> bool) (pull : pystr -> xstM S pystr) (stop_server : xstM S unit).
Context (InitDriver : C -> option Z -> option Z -> xstM S unit).

(** The identifiers that responses gave for new resources, by kind and client; the
    state of the world with those that it has given so far. *)
Definition recorded : Type := S * list (resource * C * Z).
Definition quietly {A} (m : xstM S A) : xstM recorded A := fun s => let '(r, w) := m s.1 in (r, (w, s.2)).
Definition recording {Req Resp} (k : resource) (new_id : Resp -> Z) (send : C -> Req -> xstM S (option Resp))
    (c : C) (m : Req) : xstM recorded (option Resp) := fun s =>
  let '(r, w) := send c m s.1 in
  (r, (w, match r with Ret (Some resp) => (k, c, new_id resp) :: s.2 | _ => s.2 end)).
Abbreviation connect_r := (fun b => quietly (connect b)).
Abbreviation fmq_r := (recording RQueue fmq_new_queue_id SendFmqRequest).
Abbreviation memory_r := (recording RMemory new_mem_id SendHidlMemoryRequest).
Abbreviation handle_r := (recording RHandle new_handle_id SendHidlHandleRequest).

(** A resource that is registered has an identifier that a response gave, to a request
    of its kind on its own client, and not [-1], which stands for a failure. *)
Definition mirror_ok (given : list (resource * C * Z)) (m : mirror C) : Prop :=
  match m with
  | MFmq c q => (RQueue, c, queue_id q) ∈ given /\ queue_id q <> (-1)%Z
  | MMemory c id => (RMemory, c, id) ∈ given /\ id <> (-1)%Z
  | MHandle c id => (RHandle, c, id) ∈ given /\ id <> (-1)%Z
  | _ => True
  end.
Definition tracker_ok (s : tracker C * recorded) : Prop :=
  map_Forall (fun _ m => mirror_ok s.2.2 m) (registered_mirrors s.1).

Lemma mirror_ok_more given given' m : given ⊆ given' -> mirror_ok given m -> mirror_ok given' m.
Proof. destruct m; cbn; intros Hsub; [intros [H ?]; split; [by apply Hsub|done]..|done|done]. Qed.

(** Only more identifiers are given. *)
Definition records {A} (m : xstM recorded A) : Prop := forall s, s.2 ⊆ (m s).2.2.
Lemma records_quietly {A} (m : xstM S A) : records (quietly m).
Proof. intros [w l]. unfold quietly. cbn. by destruct (m w). Qed.
Lemma records_recording {Req Resp} k new_id (send : C -> Req -> xstM S (option Resp)) c m :
  records (recording k new_id send c m).
Proof.
  intros [w l]. unfold recording. cbn. destruct (send c m w) as [[[resp|]|e] w']; cbn; [|done..].
  by intros x Hx; right.
Qed.
Lemma records_bind {A B} (m : xstM recorded A) (f : A -> xstM recorded B) :
  records m -> (forall a, records (f a)) -> records (m ≫= f).
Proof.
  intros Hm Hf s. specialize (Hm s). unfold mbind, xstM_bind. destruct (m s) as [[a|e] s1]; [|done].
  etrans; [exact Hm|apply Hf].
Qed.
Lemma records_ret {A} (a : A) : records (mret a).
Proof. by intros [w l]. Qed.
Lemma records_lift {A} (r : xres A) : records (xlift r).
Proof. by intros [w l]. Qed.
Hint Resolve records_quietly records_recording records_ret records_lift : records.
Ltac records := repeat first
  [ solve [eauto with records]
  | apply records_bind; [|intros]
  | match goal with
    | |- records (if ?b then _ else _) => destruct b
    | |- records (match ?x with _ => _ end) => destruct x
    end ].

Lemma world_keeps {A} (m : xstM recorded A) : records m -> xkeeps tracker_ok (world (C := C) m).
Proof.
  intros Hm [t w] H n x Hx. specialize (Hm w). unfold world in *. cbn in *. destruct (m w) as [r w']. cbn in *.
  eapply mirror_ok_more; [exact Hm|by eapply H].
Qed.

Lemma set_mirrors_keeps f :
  (forall given l, map_Forall (fun _ m => mirror_ok given m) l -> map_Forall (fun _ m => mirror_ok given m) (f l)) ->
  xkeeps tracker_ok (set_mirrors (C := C) (S := recorded) f).
Proof. intros Hf [t w] H. apply Hf, H. Qed.

Lemma register_native_keeps name c : xkeeps tracker_ok (register (C := C) (S := recorded) name (MNative c)).
Proof. apply set_mirrors_keeps. intros given l Hl. by apply map_Forall_insert_2. Qed.
Lemma register_shell_keeps name c b : xkeeps tracker_ok (register (C := C) (S := recorded) name (MShell c b)).
Proof. apply set_mirrors_keeps. intros given l Hl. by apply map_Forall_insert_2. Qed.

(** What is made and then registered: the identifier of the new mirror was given. *)
Definition gives {A} (k : resource) (c : C) (id : A -> Z) (m : xstM recorded A) : Prop :=
  forall s, match m s with
            | (Ret a, s') => id a = (-1)%Z \/ (k, c, id a) ∈ s'.2
            | _ => True
            end.
Lemma register_given {A B} k c (id : A -> Z) (m : xstM recorded A) (name : A -> pystr) (x : A -> mirror C)
    (none : xstM (tracker C * recorded) B) (done_ : A -> xstM (tracker C * recorded) B) :
  records m -> gives k c id m -> xkeeps tracker_ok none -> (forall a, xkeeps tracker_ok (done_ a)) ->
  (forall given a, (k, c, id a) ∈ given -> id a <> (-1)%Z -> mirror_ok given (x a)) ->
  xkeeps tracker_ok (a ← world m; if (id a =? -1)%Z then none else _ ← register (name a) (x a); done_ a).
Proof.
  intros Hm Hg Hn Hd Hx s Hs. pose proof (world_keeps m Hm s Hs) as H1. specialize (Hg s.2).
  unfold mbind, xstM_bind. unfold world in *. destruct (m s.2) as [[a|e] w'] eqn:Em; [|exact H1]. cbn [snd fst] in *.
  destruct (Z.eqb_spec (id a) (-1)) as [Ha|Ha]; [by apply Hn|].
  unfold register, set_mirrors at 1. cbn [fst snd]. apply Hd. destruct Hg as [Hg|Hg]; [done|].
  cbn in *. apply map_Forall_insert_2; [by apply Hx|exact H1].
Qed.

Lemma get_mirrors_keeps : xkeeps tracker_ok (get_mirrors (C := C) (S := recorded)).
Proof. by intros [t w] H. Qed.

Hint Resolve world_keeps get_mirrors_keeps register_native_keeps register_shell_keeps : keeps.
Hint Extern 3 (records _) => solve [records] : keeps.

Lemma client_or_new_keeps c b : xkeeps tracker_ok (client_or_new connect_r c b).
Proof. unfold client_or_new. keeps. Qed.
Hint Resolve client_or_new_keeps : keeps.

Lemma gives_recording {Req Resp A} k new_id (send : C -> Req -> xstM S (option Resp)) c m
    (id : A -> Z) (f : option Resp -> A) :
  (forall r, id (f (Some r)) = new_id r \/ id (f (Some r)) = (-1)%Z) -> id (f None) = (-1)%Z ->
  gives k c id (r ← recording k new_id send c m; mret (f r)).
Proof.
  intros Hs Hn [w l]. unfold mbind, xstM_bind, recording. cbn [fst snd].
  destruct (send c m w) as [[[r|]|e] w']; [|by left|done]. cbn. destruct (Hs r) as [->|H]; [|by left]. right. by left.
Qed.
Lemma gives_lift {A B} k c (id : A -> Z) (e : xres B) (f : B -> xstM recorded A) :
  (forall b, gives k c id (f b)) -> gives k c id (xlift e ≫= f).
Proof. intros Hf s. destruct e as [b|e]; [apply (Hf b s)|done]. Qed.
Ltac gives := repeat (apply gives_lift; intros); apply gives_recording;
  [intros r; cbn; match goal with |- context [negb ?b] => destruct b end; [by right|by left]|done].

Lemma create_gives c self id size blocking reset :
  gives RQueue c queue_id (create (fmq_r c) self id size blocking reset).
Proof. unfold create. gives. Qed.
Lemma allocate_gives c size : gives RMemory c id (allocate (memory_r c) (-1) size).
Proof. unfold allocate. gives. Qed.
Lemma createHandle_gives c f m l : gives RHandle c id (createHandleForSingleFile (handle_r c) (-1) f m l).
Proof. unfold createHandleForSingleFile. gives. Qed.
Lemma create_records c self id size blocking reset : records (create (fmq_r c) self id size blocking reset).
Proof. unfold create. records. Qed.
Lemma allocate_records c size : records (allocate (memory_r c) (-1) size).
Proof. unfold allocate. records. Qed.
Lemma createHandle_records c f m l : records (createHandleForSingleFile (handle_r c) (-1) f m l).
Proof. unfold createHandleForSingleFile. records. Qed.

(** One constructor for each method that a test calls. *)
Inductive track_op :=
  | TInitFmq (existing : option (queue_ref C)) (name : option pystr) (data_type : pystr) (sync : bool)
      (size : Z) (blocking reset : bool) (client : option C)
  | TInitHidlMemory (size : Z) (client : option C) (name : option pystr)
  | TInitHidlHandle (filepath mode : pystr) (ints : list Z) (client : option C) (name : option pystr)
  | TInitHidlHal (target_type : pystr) (version : option pystr) (major minor : option Z)
  | TInitSharedLib (target_type : pystr) (version : option pystr) (major minor : option Z) (name : option pystr)
  | TInvokeTerminal (name : pystr) (bits : Z)
  | TDisableShell
  | TExecute (commands : command_arg) (no_except : bool) (nohup : option bool)
  | THeal
  | TRemoveMirror (name : pystr)
  | TCleanUp.

Definition track (o : track_op) (s : tracker C * recorded) : tracker C * recorded :=
  match o with
  | TInitFmq e n ty sy sz b r c => (InitFmq connect_r fmq_r e n ty sy sz b r c s).2
  | TInitHidlMemory sz c n => (InitHidlMemory connect_r memory_r sz c n s).2
  | TInitHidlHandle p m l c n => (InitHidlHandleForSingleFile connect_r handle_r p m l c n s).2
  | TInitHidlHal ty v a b => (InitHidlHal connect_r (fun c x y => quietly (InitDriver c x y)) ty v a b s).2
  | TInitSharedLib ty v a b n => (InitSharedLib connect_r (fun c x y => quietly (InitDriver c x y)) ty v a b n s).2
  | TInvokeTerminal n b => (InvokeTerminal connect_r (fun c n b => quietly (LaunchShell c n b)) n b s).2
  | TDisableShell => (DisableShell s).2
  | TExecute c b n => (Execute connect_r (fun c n b => quietly (LaunchShell c n b)) (fun c a b => quietly (ExecuteShellCommand c a b))
                         (fun c => quietly (adb_shell c)) is_tmp_file (fun f => quietly (pull f)) c b n s).2
  | THeal => (Heal (fun c => quietly (HealClient c)) s).2
  | TRemoveMirror n => (RemoveMirror (fun c => quietly (Disconnect c)) handle_r n s).2
  | TCleanUp => (CleanUp (fun c => quietly (Disconnect c)) handle_r (quietly stop_server) s).2
  end.

Abbreviation launch_r := (fun c n b => quietly (LaunchShell c n b)).
Lemma InvokeTerminal_keeps n b : xkeeps tracker_ok (InvokeTerminal connect_r launch_r n b).
Proof. unfold InvokeTerminal. keeps. Qed.
Hint Resolve InvokeTerminal_keeps : keeps.

Lemma records_fetch (run : pystr -> xstM S (pystr * pystr * Z)) l :
  records (fetch_values (fun c => quietly (run c)) is_tmp_file (fun f => quietly (pull f)) l).
Proof. induction l as [|v l IH]; cbn [fetch_values]; records. Qed.
Lemma records_via_adb l : records (via_adb (fun c => quietly (adb_shell c)) l).
Proof. induction l as [|v l IH]; cbn [via_adb]; records. Qed.
Lemma records_heal l : records (heal_all (fun c => quietly (HealClient c)) l).
Proof. induction l as [|v l IH]; cbn [heal_all]; unfold Heal_mirror; records. Qed.
Lemma records_clean_mirror m : records (CleanUp_mirror (fun c => quietly (Disconnect c)) handle_r m).
Proof. unfold CleanUp_mirror, HandleMirror.CleanUp. records. Qed.
Hint Resolve records_fetch records_via_adb records_heal records_clean_mirror : records.
Lemma records_clean l : records (clean_all (fun c => quietly (Disconnect c)) handle_r l).
Proof. induction l as [|v l IH]; cbn [clean_all]; records. Qed.
Hint Resolve records_clean : records.

(** The start of the three methods that make a resource. *)
Ltac to_client := apply xkeeps_bind; [keeps|intros ?];
  match goal with |- context [taken ?n ?l] => destruct (taken n l) end; [keeps|]; apply xkeeps_bind; [keeps|intros ?].

Lemma track_keeps o s : tracker_ok s -> tracker_ok (track o s).
Proof.
  intros Hs. destruct o; cbn [track].
  - refine ((_ : xkeeps tracker_ok _) s Hs). unfold InitFmq. to_client.
    apply xkeeps_bind; [keeps|intros [q|]; [|keeps]].
    eapply (register_given RQueue _ queue_id); [apply create_records|apply create_gives|keeps|intros; keeps|done].
  - refine ((_ : xkeeps tracker_ok _) s Hs). unfold InitHidlMemory. to_client.
    eapply (register_given RMemory _ id); [apply allocate_records|apply allocate_gives|keeps|intros; keeps|done].
  - refine ((_ : xkeeps tracker_ok _) s Hs). unfold InitHidlHandleForSingleFile. to_client.
    eapply (register_given RHandle _ id); [apply createHandle_records|apply createHandle_gives|keeps|intros; keeps|done].
  - refine ((_ : xkeeps tracker_ok _) s Hs). unfold InitHidlHal. keeps.
  - refine ((_ : xkeeps tracker_ok _) s Hs). unfold InitSharedLib. keeps.
  - refine ((_ : xkeeps tracker_ok _) s Hs). keeps.
  - refine (set_mirrors_keeps _ _ s Hs). intros given l Hl n m. rewrite lookup_fmap. intros (m' & Hm & ->)%fmap_Some.
    apply Hl in Hm. by destruct m'.
  - refine ((_ : xkeeps tracker_ok _) s Hs).
    unfold Execute, ExecuteShellCmdViaAdbShell, ExecuteShellCmdViaVtsDriver, default_shell_Execute, shell_Execute. keeps.
  - refine ((_ : xkeeps tracker_ok _) s Hs). unfold Heal. keeps.
  - refine ((_ : xkeeps tracker_ok _) s Hs). unfold RemoveMirror. keeps. apply set_mirrors_keeps.
    intros given l' Hl'. by apply map_Forall_delete.
  - refine ((_ : xkeeps tracker_ok _) s Hs). unfold CleanUp. keeps.
    apply set_mirrors_keeps. intros given l' _. apply map_Forall_empty.
Qed.

(** C9: Whatever methods a test calls, and whether they return or raise: the identifier
    of every queue, memory region and handle that the tracker has registered is one that
    a response of the device gave as new, to a request of that kind on the client of the
    mirror, and it is not -1, which stands for a failure.  (Whether an agent has made
    what it gives an identifier for is up to it: see [FmqSpec.create_after_failure].) *)
Theorem tracker_keeps_valid ops t w :
  registered_mirrors t = ∅ -> tracker_ok (foldl (fun s o => track o s) (t, (w, [])) ops).
Proof.
  intros Ht. assert (tracker_ok (t, (w, []))) as H0 by (unfold tracker_ok; cbn; rewrite Ht; apply map_Forall_empty).
  clear Ht. revert H0. generalize (t, (w, [] : list (resource * C * Z))).
  induction ops as [|o ops IH]; intros s Hs; [done|]. cbn. by apply IH, track_keeps.
Qed.
End invariant.

(** ** A queue made through the tracker *)
Section queues.
Context {C S P : Type}.
Context (connect : bool -> xstM S C).
Context (SendFmqRequest : C -> FmqRequestMessage -> xstM S (option FmqResponseMessage)).
Context (drive : FmqRequestMessage -> P -> FmqResponseMessage * P) (queues : P -> gmap Z queue).
Context (ready : C -> S -> P -> Prop) (float_bits : bool -> scalar -> Z).
Context `{HD : !QueueDriver drive queues} `{HS : !forall c, Sends (SendFmqRequest c) drive (ready c)}.

(** [InitFmq] connects a client of its own, makes an empty queue of the size and
    type that were asked for, and registers its mirror under a name that was free:
    the mirror it returns serves that queue. *)
Theorem InitFmq_new name data_type sync size blocking reset (t : tracker C) w c w1 p :
  taken name (registered_mirrors t) = false ->
  connect true w = (Ret c, w1) -> ready c w1 p -> (0 <= size < 2 ^ 64)%Z ->
  exists q w2,
    InitFmq connect SendFmqRequest None name data_type sync size blocking reset None (t, w) =
      (Ret (Some (MFmq c q)),
       (mk_tracker (<[default (bs "queue_id_" ++ str_int (queue_id q)) name := MFmq c q]> (registered_mirrors t))
          (callback_server t) (shell_default_nohup t), w2)) /\
    FmqMirror.data_type q = data_type /\
    serves queues (ready c) float_bits q (Z.to_nat size) [] w2.
Proof.
  intros Hn Hc Hr Hsz.
  destruct (create_serves (SendFmqRequest c) drive queues (ready c) float_bits (mk_fmq data_type sync (-1))
              size blocking reset w1 p Hr Hsz) as (q & w2 & Hq & Hid & Ht & Hs).
  exists q, w2. split; [|by split]. unfold InitFmq.
  etrans; [by eapply xstM_bind_run|]. cbn [fst]. rewrite Hn.
  etrans; [eapply xstM_bind_run; unfold client_or_new, world; cbn [snd]; by rewrite Hc|].
  etrans; [by eapply xstM_bind_run|]. cbn [FmqMirror.data_type FmqMirror.sync queue_id].
  etrans; [eapply xstM_bind_run; unfold world; cbn [snd]; by rewrite Hq|].
  cbv beta. rewrite (proj2 (Z.eqb_neq _ _)) by lia. done.
Qed.
End queues.

(** ** Shell commands *)
Section shell.
Context {C S : Type} (connect : bool -> xstM S C) (LaunchShell : C -> pystr -> Z -> xstM S bool).
Context (ExecuteShellCommand : C -> command_arg -> bool -> xstM S shell_results).
Context (adb_shell : pystr -> xstM S (pystr * pystr * Z)) (is_tmp_file : pystr -> bool) (pull : pystr -> xstM S pystr).
Abbreviation Execute := (Execute connect LaunchShell ExecuteShellCommand adb_shell is_tmp_file pull).

Lemma via_adb_run commands w :
  (forall cmd w, exists r w', adb_shell cmd w = (Ret r, w')) ->
  exists l w', via_adb adb_shell commands w = (Ret l, w') /\ length l = length commands.
Proof.
  intros Hadb. revert w. induction commands as [|cmd commands IH]; intros w; [by exists [], w|].
  destruct (Hadb cmd w) as (r & w1 & Hr). destruct (IH w1) as (l & w2 & Hl & Hn). exists (r :: l), w2.
  split; [|cbn; lia]. cbn [via_adb]. erewrite xstM_bind_run by exact Hr. by erewrite xstM_bind_run by exact Hl.
Qed.

(** What a driver gives back for as many commands, none of them in a file. *)
Definition plain_results (n : nat) (r : shell_results) : Prop :=
  length (STDOUT r) = n /\ length (STDERR r) = n /\
  match EXIT_CODE r with inr l => length l = n | inl _ => False end /\
  Forall (fun s => is_tmp_file s = false) (STDOUT r ++ STDERR r).

Lemma fetch_values_plain l w :
  Forall (fun s => is_tmp_file s = false) l -> fetch_values adb_shell is_tmp_file pull l w = (Ret l, w).
Proof.
  induction 1 as [|s l Hs _ IH]; [done|]. cbn [fetch_values]. rewrite Hs.
  erewrite xstM_bind_run by reflexivity. by erewrite xstM_bind_run by exact IH.
Qed.

(** A result for each of [n] commands. *)
Definition results_for (n : nat) (r : shell_results) : Prop :=
  length (STDOUT r) = n /\ length (STDERR r) = n /\
  match EXIT_CODE r with inr l => length l = n | inl _ => False end.

Lemma default_shell_run c cmds (t : tracker C) w :
  (forall w, exists r w', ExecuteShellCommand c (Many cmds) false w = (Ret r, w') /\ plain_results (length cmds) r) ->
  registered_mirrors t !! DEFAULT_SHELL_NAME = Some (MShell c true) ->
  exists r w', default_shell_Execute ExecuteShellCommand adb_shell is_tmp_file pull cmds false (t, w) = (Ret r, (t, w')) /\
    results_for (length cmds) r.
Proof.
  intros Hdrv Ht. destruct (Hdrv w) as (r & w' & Hr & Ho & He & Hx & Hp).
  apply Forall_app in Hp as [Hpo Hpe]. exists (mk_shell (STDOUT r) (STDERR r) (EXIT_CODE r)), w'.
  split; [|done]. unfold default_shell_Execute. erewrite xstM_bind_run by reflexivity. cbn [fst]. rewrite Ht.
  unfold world. cbn [snd shell_Execute]. erewrite xstM_bind_run by exact Hr.
  erewrite xstM_bind_run by by apply fetch_values_plain.
  by erewrite xstM_bind_run by by apply fetch_values_plain.
Qed.

Lemma InvokeTerminal_run name (t : tracker C) w c w1 w2 :
  name <> [] -> registered_mirrors t !! name = None ->
  connect false w = (Ret c, w1) -> LaunchShell c (bs "shell_" ++ name) 32 w1 = (Ret true, w2) ->
  InvokeTerminal connect LaunchShell name 32 (t, w) =
    (Ret tt, (mk_tracker (<[name := MShell c true]> (registered_mirrors t)) (callback_server t)
                (shell_default_nohup t), w2)).
Proof.
  intros Hn Ht Hc Hl. unfold InvokeTerminal. destruct name as [|b name]; [done|].
  etrans; [by eapply xstM_bind_run|]. etrans; [by eapply xstM_bind_run|].
  etrans; [by eapply xstM_bind_run|]. cbn [fst]. rewrite Ht.
  etrans; [eapply xstM_bind_run; unfold world; cbn [snd]; by rewrite Hc|].
  etrans; [eapply xstM_bind_run; unfold world; cbn [snd]; by rewrite Hl|]. done.
Qed.

(** Commands give one output, one error text and one exit code each, by either
    route: through adb when they are few and short, and otherwise through the
    default shell, which is started when it is not registered. *)
Theorem Execute_results commands nohup (t : tracker C) w c w1 w2 :
  (forall cmd w, exists r w', adb_shell cmd w = (Ret r, w')) ->
  (forall cmds w, exists r w', ExecuteShellCommand c (Many cmds) false w = (Ret r, w') /\
                               plain_results (length cmds) r) ->
  connect false w = (Ret c, w1) -> LaunchShell c (bs "shell_" ++ DEFAULT_SHELL_NAME) 32 w1 = (Ret true, w2) ->
  registered_mirrors t !! DEFAULT_SHELL_NAME = None \/ registered_mirrors t !! DEFAULT_SHELL_NAME = Some (MShell c true) ->
  exists r t' w', Execute commands false nohup (t, w) = (Ret r, (t', w')) /\
    results_for (length (command_list commands)) r.
Proof.
  intros Hadb Hdrv Hc Hl Hreg. unfold MirrorTracker.Execute. set (cmds := command_list commands).
  erewrite xstM_bind_run by reflexivity. cbn [fst]. destruct (adb_suffices _ cmds) eqn:Ha.
  - destruct (via_adb_run cmds w Hadb) as (l & w' & Hrun & Hn).
    unfold ExecuteShellCmdViaAdbShell. erewrite xstM_bind_run by (unfold world; cbn [snd]; by rewrite Hrun).
    eexists _, _, _. split; [reflexivity|]. unfold results_for. cbn. by rewrite !length_fmap.
  - unfold ExecuteShellCmdViaVtsDriver. erewrite xstM_bind_run by reflexivity. cbn [fst].
    destruct Hreg as [Hreg|Hreg].
    + rewrite decide_False by (rewrite Hreg; by intros [? [=]]).
      pose proof (InvokeTerminal_run DEFAULT_SHELL_NAME t w c w1 w2 ltac:(done) Hreg Hc Hl) as Hinv.
      erewrite xstM_bind_run by exact Hinv.
      destruct (default_shell_run c cmds (mk_tracker (<[DEFAULT_SHELL_NAME := MShell c true]> (registered_mirrors t))
                  (callback_server t) (shell_default_nohup t)) w2 (Hdrv cmds)) as (r & w' & Hr & Hlen);
        [apply lookup_insert_eq|]. eexists r, _, w'. split; [exact Hr|exact Hlen].
    + rewrite decide_True by (rewrite Hreg; eauto). erewrite xstM_bind_run by reflexivity.
      destruct (default_shell_run c cmds t w (Hdrv cmds) Hreg) as (r & w' & Hr & Hlen). by exists r, t, w'.
Qed.
End shell.

(** ** Concrete trackers *)
Module Clients.
(** The state of the world is the list of the clients that were closed. *)
Definition Disconnect (c : nat) : xstM (list nat) unit := xmodify (cons c).
Definition SendHidlHandleRequest (c : nat) (m : HidlHandleRequestMessage)
    : xstM (list nat) (option HidlHandleResponseMessage) := fun closed =>
  if decide (c ∈ closed)
  then (Exc (EOther VtsTcpCommunicationError (bs "channel is None, unable to send command.")), closed)
  else (Ret (Some (mk_handle_response true 7 [] 0)), closed).
Definition connect (b : bool) : xstM (list nat) nat := mret 1.
Definition SendFmqRequest (c : nat) (m : FmqRequestMessage) : xstM (list nat) (option FmqResponseMessage) :=
  mret (Some (mk_fmq_response [] 0 (if decide (fmq_operation m = FMQ_CREATE) then -1 else 3) true)).
Definition SendHidlMemoryRequest (c : nat) (m : HidlMemoryRequestMessage)
    : xstM (list nat) (option HidlMemoryResponseMessage) := mret None.
Definition LaunchShell (c : nat) (s : pystr) (bits : Z) : xstM (list nat) bool := mret true.
Definition ExecuteShellCommand (c : nat) (command : command_arg) (no_except : bool) : xstM (list nat) shell_results :=
  let n := length (command_list command) in mret (mk_shell (replicate n []) (replicate n []) (inr (replicate n 0%Z))).
Definition adb_shell (cmd : pystr) : xstM (list nat) (pystr * pystr * Z) := mret (cmd, [], 0%Z).
Definition empty_tracker : tracker nat := mk_tracker ∅ false false.
Definition with_mirrors (l : list (pystr * mirror nat)) : tracker nat := mk_tracker (list_to_map l) true false.
End Clients.

(** A handle that shares the client of a mirror cleaned before it raises: the rest
    stays registered and the callback server runs on. *)
Lemma shared_client_stops_cleaning :
  let '(r, (t, closed)) := CleanUp Clients.Disconnect Clients.SendHidlHandleRequest (mret tt)
    (Clients.with_mirrors [(bs "hal", MNative 1); (bs "handle", MHandle 1 7)], []) in
  r = Exc (EOther VtsTcpCommunicationError (bs "channel is None, unable to send command.")) /\
  closed = [1] /\ callback_server t = true /\ registered_mirrors t !! bs "handle" = Some (MHandle 1 7).
Proof. vm_compute. split_and!; reflexivity. Qed.

(** A handle with a client of its own leaves the client open. *)
Lemma handle_leaves_client_open :
  let '(r, (t, closed)) := CleanUp Clients.Disconnect Clients.SendHidlHandleRequest (mret tt)
    (Clients.with_mirrors [(bs "handle", MHandle 1 7)], []) in
  r = Ret tt /\ closed = [] /\ callback_server t = false.
Proof. vm_compute. split_and!; reflexivity. Qed.

(** Only mirrors of shells can be healed. *)
Lemma Heal_needs_shells :
  (Heal (fun _ => mret true) (Clients.with_mirrors [(bs "memory", MMemory 1 7)], ([] : list nat))).1 =
    Exc (no_attribute (bs "Heal")).
Proof. vm_compute. reflexivity. Qed.

(** The check looks at the minor version twice: a major version that is missing is
    returned as [None]. *)
Lemma major_version_missing : GetTargetVersion (Some (bs "1.0")) None (Some 0%Z) = Ret (None, Some 0%Z).
Proof. reflexivity. Qed.

(** A name that is empty, or a number of bits that is not supported, raises
    [NameError] in place of the error that was meant. *)
Lemma terminal_error_names (t : tracker nat) w :
  InvokeTerminal Clients.connect Clients.LaunchShell [] 64 (t, w) = (Exc error_not_defined, (t, w)) /\
  InvokeTerminal Clients.connect Clients.LaunchShell (bs "sh") 16 (t, w) = (Exc error_not_defined, (t, w)).
Proof. done. Qed.

Lemma tracker_keeps_valid_witness :
  tracker_ok (foldl (fun s o => track Clients.connect Clients.Disconnect Clients.SendFmqRequest
      Clients.SendHidlMemoryRequest Clients.SendHidlHandleRequest Clients.LaunchShell Clients.ExecuteShellCommand
      (fun _ => mret true) Clients.adb_shell (fun _ => false) (fun s => mret s) (mret tt) (fun _ _ _ => mret tt) o s)
    (Clients.empty_tracker, ([], []))
    [TInitHidlHandle (bs "/f") (bs "r") [1%Z] None None; TInitHidlMemory 10 None None; TInvokeTerminal (bs "sh") 64;
     TRemoveMirror (bs "handle_id_7"); TCleanUp]).
Proof.
  apply (tracker_keeps_valid Clients.connect Clients.Disconnect Clients.SendFmqRequest Clients.SendHidlMemoryRequest
           Clients.SendHidlHandleRequest Clients.LaunchShell Clients.ExecuteShellCommand (fun _ => mret true)
           Clients.adb_shell (fun _ => false) (fun s => mret s) (mret tt) (fun _ _ _ => mret tt)).
  reflexivity.
Defined.

Lemma Execute_results_witness :
  exists r t' w', Execute Clients.connect Clients.LaunchShell Clients.ExecuteShellCommand Clients.adb_shell
      (fun _ => false) (fun s => mret s) (Many [bs "a"; bs "b"; bs "c"; bs "d"]) false None
      (Clients.empty_tracker, []) = (Ret r, (t', w')) /\ results_for 4 r.
Proof.
  apply (Execute_results Clients.connect Clients.LaunchShell Clients.ExecuteShellCommand Clients.adb_shell
           (fun _ => false) (fun s => mret s) (Many [bs "a"; bs "b"; bs "c"; bs "d"]) None Clients.empty_tracker [] 1 [] []).
  - intros cmd w. by eexists _, _.
  - intros cmds w. eexists _, _. split; [reflexivity|]. unfold plain_results. cbn. rewrite !length_replicate.
    split_and!; try done. apply Forall_forall. done.
  - reflexivity.
  - reflexivity.
  - by left.
Defined.

Lemma InitFmq_new_witness :
  exists q w2, (InitFmq (C := unit) (fun _ => mret tt) (fun _ => MemoryQueues.send) None (Some (bs "q")) (bs "int8_t") true 4
      false true None (mk_tracker ∅ false false, MemoryQueues.queues0)).1 = Ret (Some (MFmq tt q)) /\
    serves (fun p => p) (fun s p => s = p) MemoryQueues.float_bits q 4 [] w2.
Proof.
  destruct (InitFmq_new (C := unit) (fun _ => mret tt) (fun _ => MemoryQueues.send) MemoryQueues.drive (fun p => p)
              (fun _ s p => s = p) MemoryQueues.float_bits (Some (bs "q")) (bs "int8_t") true 4 false true
              (mk_tracker ∅ false false) MemoryQueues.queues0 tt MemoryQueues.queues0 MemoryQueues.queues0)
    as (q & w2 & Hr & _ & Hs).
  - reflexivity.
  - reflexivity.
  - reflexivity.
  - lia.
  - exists q, w2. split; [by rewrite Hr|exact Hs].
Defined.
