(* ===== verification/NativeMirror.v ===== *)
(** * Mirrors of HALs and libraries ([src/utils/python/mirror/native_entity_mirror.py],
    [hal_mirror.py], [lib_mirror.py], [mirror_object.py])

    A mirror holds the specification of an interface: looking up a name on it gives
    a remote function, a constant, or a generator of messages.  A remote call
    converts its arguments with [Mirror.Convert], sends the call as text, and wraps
    what comes back: identifiers of resources become mirrors. *)

From Stdlib Require Import Strings.Byte.
From S2P Require Import Prelude PyStr ListUtils PyVal Signals Shell Channel Mirror TcpClient.
From S2P Require Import ResourceMirror FmqMirror MirrorTracker CallbackServer.

Definition unknown_api (text : pystr) : exn := EOther MirrorObjectError text.

(** FunctionCallMessage *)
Record call_msg := mk_call { call_class : option Z; hal_driver_id : Z; call_api : api_spec }.

Record NativeEntityMirror := mk_native {
  caller_uid : option pystr;
  driver_id : option Z;
  if_spec_msg : option component_msg;
  last_raw_code_coverage_data : option (list pystr);
}.
Definition set_coverage (l : list pystr) (m : NativeEntityMirror) : NativeEntityMirror :=
  mk_native (caller_uid m) (driver_id m) (if_spec_msg m) (Some l).
Definition set_driver (id : Z) (spec : component_msg) (m : NativeEntityMirror) : NativeEntityMirror :=
  mk_native (caller_uid m) (Some id) (Some spec) (last_raw_code_coverage_data m).
Definition SetCallerUid (uid : option pystr) (m : NativeEntityMirror) : NativeEntityMirror :=
  mk_native uid (driver_id m) (if_spec_msg m) (last_raw_code_coverage_data m).

(** ** Looking up names *)
Definition NOTIFY : pystr := bs "notifySyspropsChanged".

Definition GetApi (name : pystr) (self : NativeEntityMirror) : xres (option api_spec) :=
  if decide (name = NOTIFY) then Ret (Some (mk_api name []))
  else
    match if_spec_msg self with
    | Some m => Ret (List.find (fun api => bool_decide (TcpClient.api_name api = name)) (interface_api m))
    | None => Exc (EOther SystemExit (bs "1"))
    end.

Definition attribute_named (n : pystr) (a : vsm) : bool :=
  negb (is_const (other a)) && (bool_decide (name a = n) || endswith (bs "::" ++ n) (name a)).
Definition need_spec (self : NativeEntityMirror) (attr : pystr) : xres component_msg :=
  match if_spec_msg self with Some m => Ret m | None => Exc (no_attribute attr) end.
Definition GetAttribute (n : pystr) (self : NativeEntityMirror) : xres (option vsm) :=
  m ← need_spec self (bs "attribute");
  Ret (List.find (attribute_named n) (attribute m ++ interface_attribute m)).

Definition const_named (n : pystr) (a : vsm) : bool :=
  (is_const (other a) && bool_decide (name a = n)) || (bool_decide (type a = TYPE_ENUM) && endswith n (name a)).
(** [AttributeError] gives [None]. *)
Definition GetConstType (n : pystr) (self : NativeEntityMirror) : option vsm :=
  match if_spec_msg self with
  | Some m => List.find (const_named n) (attribute m ++ interface_attribute m)
  | None => None
  end.

(** ** Constants *)

(** [VtsEnum]: an object with an attribute for each enumerator. *)
Fixpoint VtsEnum (scalar_type : pystr) (l : list (pystr * list (pystr * scalar))) : pyres (list (pystr * value)) :=
  match l with
  | [] => Ok []
  | (enumerator, sv) :: l =>
      v ← get_scalar (set_scalar_type scalar_type (set_scalar_value sv empty_vsm));
      d ← VtsEnum scalar_type l;
      Ok ((enumerator, v) :: d)
  end.
Inductive const_value := CValue (v : value) | CEnum (l : list (pystr * value)).

Definition ConstGenerator (n : pystr) (arg_msg : vsm) : xres const_value :=
  match type arg_msg with
  | TYPE_SCALAR =>
      match get_scalar arg_msg with
      | Ok v => Ret (CValue v)
      | Raise _ => Exc (unknown_api (bs "No value found for type " ++ scalar_type arg_msg ++ bs " in " ++ n ++ bs "."))
      end
  | TYPE_STRING => Ret (CValue (VStr (string_value arg_msg).1))
  | TYPE_ENUM => l ← of_pyres (VtsEnum (enum_scalar_type arg_msg) (enumerators (other arg_msg))); Ret (CEnum l)
  | _ => Exc (unknown_api (bs "const " ++ n ++ bs " not found"))
  end.

(** ** Fuzzing a structure *)

(** What [random] chooses: an index from 0 to the number of fields, and a bit. *)
Definition fuzz_field (mask : Z) (m : vsm) : xres vsm :=
  if decide (scalar_type m = bs "uint32_t") then
    v ← of_pyres (get_scalar m);
    match v with
    | VInt z => Ret (set_scalar_value ((bs "uint32_t", SInt (Z.lxor z mask)) :: scalar_value m) m)
    | _ => Ret m
    end
  else if decide (scalar_type m = bs "int32_t") then
    v ← of_pyres (get_scalar m);
    match v with
    | VInt z =>
        z ← int32 (if (mask =? 2 ^ 31)%Z then - z + 1 else Z.lxor z mask)%Z;
        Ret (set_scalar_value ((bs "int32_t", SInt z) :: scalar_value m) m)
    | _ => Ret m
    end
  else Exc (unknown_api (bs "support " ++ scalar_type m)).

Fixpoint fuzz_at (index : nat) (mask : Z) (l : list vsm) : xres (list vsm) :=
  match l, index with
  | [], _ => Ret []
  | m :: l, O => m ← fuzz_field mask m; Ret (m :: l)
  | m :: l, S index => l ← fuzz_at index mask l; Ret (m :: l)
  end.
Definition set_struct_value (l : list vsm) (m : vsm) : vsm :=
  foldl (fun m x => add_struct_value x m)
    (mk_vsm (name m) (type m) (scalar_value m) (scalar_type m) (enum_scalar_type m) (string_value m)
       (vector_value m) (vector_size m) [] (sub_struct m) (union_value m) (sub_union m) (predefined_type m)
       (other m)) l.
Definition MessageFuzzer (self : NativeEntityMirror) (n : pystr) (index : nat) (bit : Z) (arg_msg : vsm) : xres vsm :=
  a ← GetAttribute n self;
  match a with
  | None => Exc (unknown_api (bs "fuzz arg unknown"))
  | Some _ =>
      match type arg_msg with
      | TYPE_STRUCT => l ← fuzz_at index (2 ^ bit) (struct_value arg_msg); Ret (set_struct_value l arg_msg)
      | t => Exc (unknown_api (bs "unsupported fuzz message type " ++ str_int (type_number t) ++ bs "."))
      end
  end.

Section calls.
Context (float_bits : bool -> scalar -> Z).

Definition Py2Pb (n : pystr) (py_values : value) (self : NativeEntityMirror) : xres (option vsm) :=
  a ← GetAttribute n self;
  match a with
  | None => Ret None
  | Some spec =>
      r ← of_pyres (Convert float_bits (Some spec) py_values);
      match r with
      | Some m => Ret (Some m)
      | None => Exc (unknown_api (bs "Failed to convert attribute"))
      end
  end.

(** [MessageGenerator]: the arguments are converted as one value, a tuple. *)
Definition MessageGenerator (n : pystr) (args : list value) (self : NativeEntityMirror) : xres (option vsm) :=
  match args with [] => Ret None | _ => Py2Pb n (VList args) self end.

(** What a name gives. *)
Inductive attribute_result :=
  | GRemoteCall (api : pystr)
  | GConst (c : const_value)
  | GMessage (n : pystr)
  | GFuzzer (n : pystr).

Definition FUZZ : pystr := bs "_fuzz".
Definition getattr (n : pystr) (self : NativeEntityMirror) : xres attribute_result :=
  api ← GetApi n self;
  match api with
  | Some _ => Ret (GRemoteCall n)
  | None =>
      match GetConstType n self with
      | Some arg_msg => c ← ConstGenerator n arg_msg; Ret (GConst c)
      | None =>
          let fuzz := endswith FUZZ n in
          let n := if fuzz then take (length n - 5) n else n in
          a ← GetAttribute n self;
          match a with
          | Some _ => Ret (if fuzz then GFuzzer n else GMessage n)
          | None => Exc (unknown_api (bs "unknown api name " ++ n))
          end
      end
  end.

(** ** Remote calls *)

(** The arguments that were given replace those of the specification, which keep
    theirs when [None] is given; those of either side that are left over stay or
    are dropped. *)
Fixpoint fill_args (specs : list vsm) (args : list value) : xres (list vsm) :=
  match specs, args with
  | s :: specs, v :: args =>
      m ← match v with
          | VNone => Ret s
          | v =>
              r ← of_pyres (Convert float_bits (Some s) v);
              match r with
              | Some m => Ret m
              | None => Exc (unknown_api (bs "Failed to convert arg"))
              end
          end;
      l ← fill_args specs args;
      Ret (m :: l)
  | specs, _ => Ret specs
  end.
(** Without arguments the pointers are set to 0. *)
Definition null_pointer (m : vsm) : vsm :=
  match type m with
  | TYPE_SCALAR =>
      if decide (scalar_type m = bs "pointer")
      then set_scalar_value ((bs "pointer", SInt 0) :: scalar_value m) m else m
  | _ => m
  end.
Definition call_args (api : api_spec) (args : list value) : xres api_spec :=
  match args with
  | [] => Ret (mk_api (TcpClient.api_name api) (null_pointer <$> api_arg api))
  | _ => l ← fill_args (api_arg api) args; Ret (mk_api (TcpClient.api_name api) l)
  end.

Context {S : Type} (CallApi : pystr -> option pystr -> xstM S api_result).
Context (ReadSpecification : pystr -> Z -> Z -> Z -> Z -> pystr -> bool -> xstM S component_msg).
Context (MessageToString : call_msg -> pystr).
Abbreviation M := (xstM (NativeEntityMirror * S)).

Definition on_world {A} (m : xstM S A) : M A := fun s => let '(r, w) := m s.2 in (r, (s.1, w)).
Definition self : M NativeEntityMirror := fun s => (Ret s.1, s).

(** A value that a call returned. *)
Inductive remote_value :=
  | RNone
  | RValue (v : value)
  | RHal (m : NativeEntityMirror)
  | RFmq (m : ResourceFmqMirror)
  | RMemory (mem_id : Z)
  | RHandle (handle_id : Z).

Definition GetHalMirrorForInterface (interface_name : pystr) (id : option Z) : M NativeEntityMirror :=
  s ← self;
  match if_spec_msg s with
  | None => xlift (Exc (unknown_api (bs "specification is not loaded")))
  | Some m =>
      spec ← on_world (ReadSpecification interface_name (component_class m) (TcpClient.component_type m)
                         (component_type_version_major m) (component_type_version_minor m)
                         (component_package m) true);
      mret (mk_native None (match id with Some 0%Z | None => driver_id s | _ => id end) (Some spec) None)
  end.
Definition GetHidlTypeInterface (interface_name : pystr) : M NativeEntityMirror :=
  GetHalMirrorForInterface interface_name None.

(** The last part of [a::b::c]. *)
Definition last_part (s : pystr) : pystr := default [] (last (split (bs "::") s)).

(** The type of the data in a queue. *)
Definition queue_type (t : VariableType) (scalar predefined : pystr) : option pystr :=
  match t with
  | TYPE_SCALAR => Some scalar
  | TYPE_ENUM | TYPE_STRUCT | TYPE_UNION => Some predefined
  | _ => None
  end.

Definition wrap (v : value) : M remote_value :=
  match v with
  | VMsg m =>
      match type m with
      | TYPE_OTHER 13 =>
          nested ← GetHalMirrorForInterface (last_part (predefined_type m)) (Some (hidl_interface_id (other m)));
          mret (RHal nested)
      | TYPE_OTHER (18 | 19) =>
          match fmq_value (other m) with
          | None => xlift (Exc (EOther Python_IndexError (bs "list index out of range")))
          | Some (t, scalar, predefined, id) =>
              if (id =? -1)%Z then mret RNone
              else mret (match queue_type t scalar predefined with
                         | Some ty => RFmq (mk_fmq ty (bool_decide (type m = TYPE_OTHER 18)) id)
                         | None => RNone
                         end)
          end
      | TYPE_OTHER 16 =>
          mret (if (value_mem_id (other m) =? -1)%Z then RNone else RMemory (value_mem_id (other m)))
      | TYPE_OTHER 14 =>
          mret (if (value_handle_id (other m) =? -1)%Z then RNone else RHandle (value_handle_id (other m)))
      | _ => mret (RValue v)
      end
  | v => mret (RValue v)
  end.
Fixpoint wrap_all (l : list value) : M (list remote_value) :=
  match l with
  | [] => mret []
  | v :: l => r ← wrap v; rs ← wrap_all l; mret (r :: rs)
  end.

(** What a call gives to the test: one value, a list, or the message of a HAL that
    is not a HIDL one. *)
Inductive call_result :=
  | COne (v : remote_value)
  | CMany (l : list remote_value)
  | COther (r : api_result).

Definition finish_call (results : api_result) : M call_result :=
  match results with
  | AValues l =>
      rs ← wrap_all l;
      mret (match rs with [r] => COne r | rs => CMany rs end)
  | r => mret (COther r)
  end.

Definition RemoteCall (n : pystr) (args : list value) : M call_result :=
  s ← self;
  api ← xlift (GetApi n s);
  match api with
  | None => xlift (Exc (unknown_api (bs "api unknown")))
  | Some func_msg =>
      func_msg ← xlift (call_args func_msg args);
      id ← xlift (match driver_id s with
                  | Some id => int32 id
                  | None => Exc (EOther Exception_ (bs "TypeError"))
                  end);
      let class := match if_spec_msg s with Some m => component_class m | None => 0%Z end in
      results ← on_world (CallApi
        (MessageToString (mk_call (if (class =? 0)%Z then None else Some class) id func_msg)) (caller_uid s));
      match results with
      | ACovered r coverage =>
          _ ← xmodify (fun s => (set_coverage coverage s.1, s.2));
          finish_call r
      | r => finish_call r
      end
  end.
End calls.

(** ** Calls *)
Section theorems.
Context (float_bits : bool -> scalar -> Z).

Lemma fits_not_none spec : fits float_bits spec VNone = false.
Proof.
  unfold fits. destruct (vsm_depth spec); cbn [fits_fuel]; [done|]. destruct (type spec); try done.
  by destruct (assoc (scalar_type spec) scalar_fields) as [[]|].
Qed.

(** Arguments that fit the specification, one for each, are sent as messages from
    which the driver reads the same values. *)
Lemma fill_args_carries specs args :
  Forall2 (fun s v => fits float_bits s v = true) specs args ->
  exists ms, fill_args float_bits specs args = Ret ms /\
    Forall2 (fun v m => Pb2py.Convert m = Ok v) args ms /\ name <$> ms = name <$> specs.
Proof.
  induction 1 as [|s v specs args Hv _ (ms & Hms & Hc & Hn)]; [by exists []|].
  destruct (proj2 (fits_converts float_bits (vsm_depth s)) s v (2 * vsm_depth s + 1) (le_n _) Hv)
    as (m & Hm & Ht & Hnm & Hp).
  exists (m :: ms). split_and!; [|by constructor|by rewrite !fmap_cons, Hnm, Hn].
  cbn [fill_args]. destruct v; try by rewrite fits_not_none in Hv.
  all: unfold Convert; rewrite Hm; cbn; by rewrite Hms.
Qed.

Context {S : Type} (CallApi : pystr -> option pystr -> xstM S api_result).
Context (ReadSpecification : pystr -> Z -> Z -> Z -> Z -> pystr -> bool -> xstM S component_msg).
Context (MessageToString : call_msg -> pystr).

(** The driver did not make the resource. *)
Inductive no_resource : vsm -> Prop :=
  | no_memory m : type m = TYPE_OTHER 16 -> value_mem_id (other m) = (-1)%Z -> no_resource m
  | no_handle m : type m = TYPE_OTHER 14 -> value_handle_id (other m) = (-1)%Z -> no_resource m
  | no_queue m t scalar predefined id : type m = TYPE_OTHER 18 \/ type m = TYPE_OTHER 19 ->
      fmq_value (other m) = Some (t, scalar, predefined, id) -> id = (-1)%Z \/ queue_type t scalar predefined = None ->
      no_resource m.
(** What the test gets for a value that a call of driver [driver] returned; [specs] are
    the specifications of interfaces. *)
Inductive returned (driver : Z) (specs : pystr -> component_msg) : value -> remote_value -> Prop :=
  | returned_value v : (forall m, v <> VMsg m) -> returned driver specs v (RValue v)
  | returned_message m : (forall k, type m = TYPE_OTHER k -> k ∉ [13; 14; 16; 18; 19]) -> returned driver specs (VMsg m) (RValue (VMsg m))
  | returned_interface m : type m = TYPE_OTHER 13 ->
      let id := hidl_interface_id (other m) in
      returned driver specs (VMsg m)
        (RHal (mk_native None (Some (if (id =? 0)%Z then driver else id)) (Some (specs (last_part (predefined_type m)))) None))
  | returned_memory m : type m = TYPE_OTHER 16 -> value_mem_id (other m) <> (-1)%Z ->
      returned driver specs (VMsg m) (RMemory (value_mem_id (other m)))
  | returned_handle m : type m = TYPE_OTHER 14 -> value_handle_id (other m) <> (-1)%Z ->
      returned driver specs (VMsg m) (RHandle (value_handle_id (other m)))
  | returned_queue m (sync : bool) t scalar predefined id ty : type m = TYPE_OTHER (if sync then 18 else 19) ->
      fmq_value (other m) = Some (t, scalar, predefined, id) -> id <> (-1)%Z -> queue_type t scalar predefined = Some ty ->
      returned driver specs (VMsg m) (RFmq (mk_fmq ty sync id))
  | returned_none m : no_resource m -> returned driver specs (VMsg m) RNone.
(** A message for a queue holds its value. *)
Definition whole_value (v : value) : Prop :=
  match v with VMsg m => (type m = TYPE_OTHER 18 \/ type m = TYPE_OTHER 19) -> is_Some (fmq_value (other m)) | _ => True end.

Section wrapping.
Context (spec : component_msg) (specs : pystr -> component_msg) (driver : Z).
Hypothesis Hread : forall n w, exists w', ReadSpecification n (component_class spec) (TcpClient.component_type spec)
  (component_type_version_major spec) (component_type_version_minor spec) (component_package spec) true w = (Ret (specs n), w').

Lemma wrap_interface n id (s : NativeEntityMirror) w : if_spec_msg s = Some spec -> driver_id s = Some driver ->
  exists w', GetHalMirrorForInterface ReadSpecification n (Some id) (s, w) =
    (Ret (mk_native None (Some (if (id =? 0)%Z then driver else id)) (Some (specs n)) None), (s, w')).
Proof.
  intros Hs Hd. destruct (Hread n w) as (w' & Hr). exists w'. unfold GetHalMirrorForInterface.
  erewrite xstM_bind_run by reflexivity. cbn [fst]. rewrite Hs.
  erewrite xstM_bind_run by (unfold on_world; cbn [snd]; by rewrite Hr). rewrite Hd. by destruct id.
Qed.

Lemma wrap_queue m (sync : bool) (s : NativeEntityMirror) (w : S) :
  type m = TYPE_OTHER (if sync then 18 else 19) -> is_Some (fmq_value (other m)) ->
  exists r, wrap ReadSpecification (VMsg m) (s, w) = (Ret r, (s, w)) /\ returned driver specs (VMsg m) r.
Proof.
  intros Ht [[[[t sc] pre] id] Hq].
  assert (wrap ReadSpecification (VMsg m) (s, w) = (Ret (if (id =? -1)%Z then RNone else
    match queue_type t sc pre with Some ty => RFmq (mk_fmq ty sync id) | None => RNone end), (s, w))) as ->.
  { unfold wrap. rewrite Ht. destruct sync; cbv iota; rewrite Hq; by destruct (id =? -1)%Z. }
  eexists. split; [done|]. destruct (Z.eqb_spec id (-1)) as [->|Hid];
    [apply returned_none; eapply no_queue; [destruct sync; first [by left|by right]|exact Hq|by left]|].
  destruct (queue_type t sc pre) eqn:Ety; [by eapply returned_queue|].
  apply returned_none. eapply no_queue; [destruct sync; first [by left|by right]|exact Hq|by right].
Qed.

Lemma wrap_returned v (s : NativeEntityMirror) w :
  if_spec_msg s = Some spec -> driver_id s = Some driver -> whole_value v ->
  exists r w', wrap ReadSpecification v (s, w) = (Ret r, (s, w')) /\ returned driver specs v r.
Proof.
  intros Hs Hd Hv. destruct v as [| | | | | | |m]; try (eexists _, _; split; [reflexivity|by constructor]).
  destruct (type m) eqn:Ht;
    try (eexists _, _; split; [by unfold wrap; rewrite Ht|apply returned_message; intros k Hk; congruence]).
  match type of Ht with _ = TYPE_OTHER ?k => rename k into z end.
  destruct (decide (z = 18 \/ z = 19)) as [Hz|Hz].
  { destruct (wrap_queue m (bool_decide (z = 18)) s w) as (r & Hr & Hret); [by destruct Hz as [->| ->]| |by exists r, w].
    apply Hv. rewrite Ht. destruct Hz as [->| ->]; first [by left|by right]. }
  destruct (decide (z = 13)) as [->|].
  { destruct (wrap_interface (last_part (predefined_type m)) (hidl_interface_id (other m)) s w Hs Hd) as (w' & Hr).
    eexists _, w'. split; [|by apply returned_interface]. unfold wrap. rewrite Ht. cbv iota. by erewrite xstM_bind_run by exact Hr. }
  destruct (decide (z = 16)) as [->|].
  { eexists _, w. split; [unfold wrap; by rewrite Ht|]. destruct (Z.eqb_spec (value_mem_id (other m)) (-1));
      [by apply returned_none, no_memory|by apply returned_memory]. }
  destruct (decide (z = 14)) as [->|].
  { eexists _, w. split; [unfold wrap; by rewrite Ht|]. destruct (Z.eqb_spec (value_handle_id (other m)) (-1));
      [by apply returned_none, no_handle|by apply returned_handle]. }
  exists (RValue (VMsg m)), w. split.
  - unfold wrap. rewrite Ht. do 20 (destruct z as [|z]; [first [reflexivity|exfalso; lia]|]). reflexivity.
  - apply returned_message. intros k Hk. assert (k = z) as -> by congruence. rewrite !not_elem_of_cons. split_and!; try lia. apply not_elem_of_nil.
Qed.

Lemma wrap_all_returned l (s : NativeEntityMirror) w :
  if_spec_msg s = Some spec -> driver_id s = Some driver -> Forall whole_value l ->
  exists rs w', wrap_all ReadSpecification l (s, w) = (Ret rs, (s, w')) /\ Forall2 (returned driver specs) l rs.
Proof.
  intros Hs Hd Hl. revert w. induction Hl as [|v l Hv _ IH]; intros w; [by exists [], w|].
  destruct (wrap_returned v s w Hs Hd Hv) as (r & w1 & Hr & Hret). destruct (IH w1) as (rs & w2 & Hrs & Hrets).
  exists (r :: rs), w2. split; [|by constructor]. cbn [wrap_all].
  erewrite xstM_bind_run by exact Hr. by erewrite xstM_bind_run by exact Hrs.
Qed.
End wrapping.


(** An interface that the call could not return is wrapped all the same: the value
    [None] that the code sets first is overwritten. *)
Lemma invalid_interface_is_wrapped (s : NativeEntityMirror) w spec w' m :
  if_spec_msg s = Some spec -> type m = TYPE_OTHER 13 -> hidl_interface_id (other m) = (-1)%Z ->
  (forall n, ReadSpecification n (component_class spec) (TcpClient.component_type spec)
               (component_type_version_major spec) (component_type_version_minor spec) (component_package spec) true w
             = (Ret spec, w')) ->
  wrap ReadSpecification (VMsg m) (s, w) = (Ret (RHal (mk_native None (Some (-1)%Z) (Some spec) None)), (s, w')).
Proof.
  intros Hspec Hm Hid Hread. unfold wrap. rewrite Hm, Hid.
  assert (forall n, GetHalMirrorForInterface ReadSpecification n (Some (-1)%Z) (s, w) =
                    (Ret (mk_native None (Some (-1)%Z) (Some spec) None), (s, w'))) as Hg.
  { intros n. unfold GetHalMirrorForInterface. erewrite xstM_bind_run by reflexivity. cbn [fst]. rewrite Hspec.
    by erewrite xstM_bind_run by (unfold on_world; cbn [snd]; by rewrite Hread). }
  by erewrite xstM_bind_run by apply Hg.
Qed.
End theorems.

(** The arguments reach the converter as a tuple: a structure cannot be made. *)
Lemma MessageGenerator_structs float_bits n v args self spec :
  GetAttribute n self = Ret (Some spec) -> type spec = TYPE_STRUCT ->
  MessageGenerator float_bits n (v :: args) self = Exc (EOther Exception_ []).
Proof.
  intros Hn Ht. unfold MessageGenerator, Py2Pb. rewrite Hn. cbn [mbind xres_bind].
  unfold Convert. destruct (2 * vsm_depth spec + 1) as [|[|k]] eqn:Hk.
  - lia.
  - pose proof (vsm_depth_eq spec). lia.
  - cbn [Convert_fuel]. rewrite Ht. reflexivity.
Qed.

