(* ===== verification/HalMirror.v ===== *)
(** * Loading a HAL or a library, and its callbacks ([src/utils/python/mirror/hal_mirror.py],
    [lib_mirror.py], [mirror_object.py])

    A mirror starts a driver on the device and reads the specification of what the
    driver loaded.  For a callback interface every function is registered with the
    callback server, once, and the device gets the identifiers. *)

From Stdlib Require Import Strings.Byte.
From S2P Require Import Prelude PyStr ListUtils PyVal Signals Shell Channel Mirror TcpClient.
From S2P Require Import ResourceMirror FmqMirror MirrorTracker CallbackServer NativeMirror.

Definition COMPONENT_CLASS_DICT : list (pystr * Z) :=
  [(bs "hal_conventional", 1); (bs "hal_conventional_submodule", 2); (bs "hal_legacy", 3); (bs "hal_hidl", 4);
   (bs "hal_hidl_wrapped_conventional", 5); (bs "lib_shared", 11)]%Z.
Definition COMPONENT_TYPE_DICT : list (pystr * Z) :=
  [(bs "audio", 1); (bs "camera", 2); (bs "gps", 3); (bs "gnss", 3); (bs "light", 4); (bs "wifi", 5);
   (bs "mobile", 6); (bs "bluetooth", 7); (bs "nfc", 8); (bs "vibrator", 12); (bs "thermal", 13);
   (bs "tv_input", 14); (bs "tv_cec", 15); (bs "sensors", 16); (bs "vehicle", 17); (bs "vr", 18);
   (bs "graphics_allocator", 19); (bs "graphics_mapper", 20); (bs "radio", 21); (bs "contexthub", 22);
   (bs "graphics_composer", 23); (bs "media_omx", 24); (bs "tests_msgq", 25); (bs "tests_memory", 26);
   (bs "dumpstate", 27); (bs "media_c2", 28); (bs "bionic_libm", 1001); (bs "bionic_libc", 1002);
   (bs "vndk_libcutils", 1101)]%Z.

Definition dict_get (d : list (pystr * Z)) (k : pystr) : xres Z :=
  match assoc k d with Some z => Ret z | None => Exc (EOther Python_KeyError (repr_str k)) end.
(** [s or default] *)
Definition or_default (s : option pystr) (d : pystr) : pystr := match s with Some ((_ :: _) as s) => s | _ => d end.

(** What the driver is asked to load. *)
Record target := mk_target {
  target_name : pystr;
  version_major : option Z;
  version_minor : option Z;
  package : option pystr;
}.

Section load.
Context {W : Type}.
Context (LaunchDriverService : Z -> pystr -> Z -> option pystr -> option Z -> option Z -> option Z -> option Z ->
           option pystr -> option pystr -> option pystr -> option bool -> xstM W (Z + bool)).
Context (ListApis : xstM W (option pystr)) (ListHals : option (list pystr) -> xstM W (option (list pystr))).
(** [text_format.Merge] of a specification. *)
Context (MergeSpec : pystr -> xres component_msg).
Abbreviation M := (xstM (NativeEntityMirror * W)).

Definition LaunchMirrorDriver (driver_type : Z) (class : pystr) (t : target)
    (filename component handler service hw_binder_service : option pystr) (bits : Z) (is_test_hal : option bool)
    : xstM W Z :=
  if decide (bits = 32 \/ bits = 64)%Z then
    let handler := or_default handler (target_name t) in
    let service := or_default service (bs "vts_driver_" ++ handler) in
    class_id ← xlift (dict_get COMPONENT_CLASS_DICT (lower class));
    type_id ← xlift (dict_get COMPONENT_TYPE_DICT (lower (target_name t)));
    r ← LaunchDriverService driver_type service bits filename (Some class_id) (Some type_id) (version_major t)
          (version_minor t) (package t) component hw_binder_service is_test_hal;
    match r with
    | inl id =>
        if (id =? -1)%Z
        then xlift (Exc (EOther ComponentLoadingError
               (bs "Failed to launch driver service " ++ target_name t ++ bs " from file path "
                ++ default (bs "None") filename)))
        else mret id
    | inr b => mret (Z.b2z b)
    end
  else xlift (Exc error_not_defined).

(** What both kinds of mirror do with a driver that runs. *)
Definition load_apis (name : pystr) (id : Z) : M unit :=
  found_api_spec ← on_world ListApis;
  match found_api_spec with
  | Some ((_ :: _) as text) =>
      spec ← xlift (MergeSpec text);
      xmodify (fun s => (set_driver id spec s.1, s.2))
  | _ =>
      _ ← xmodify (fun s => (mk_native (caller_uid s.1) (Some id) (if_spec_msg s.1) (last_raw_code_coverage_data s.1), s.2));
      xlift (Exc (EOther ComponentLoadingError (bs "No API found for " ++ name)))
  end.

Definition InitHalDriver (t : target) (component hw_binder_service handler : option pystr) (bits : Z)
    (is_test_hal : bool) : M unit :=
  id ← on_world (LaunchMirrorDriver VTS_DRIVER_TYPE_HAL_HIDL (bs "hal_hidl") t None component handler None
                   hw_binder_service bits (Some is_test_hal));
  load_apis (target_name t) id.

(** The file of a library: the first with the ending that was given, or the last
    that contains the type. *)
Definition find_lib (t : target) (filename : option pystr) (lib_list : list pystr) : option pystr :=
  match filename with
  | Some f => Some (default f (List.find (endswith f) lib_list))
  | None => last (List.filter (contains (target_name t)) lib_list)
  end.
Definition InitLibDriver (t : target) (filename : option pystr) (base_paths : option (list pystr))
    (handler : option pystr) (bits : Z) : M unit :=
  lib_list ← on_world (ListHals base_paths);
  match lib_list with
  | Some ((_ :: _) as lib_list) =>
      match find_lib t filename lib_list with
      | Some ((_ :: _) as f) =>
          id ← on_world (LaunchMirrorDriver VTS_DRIVER_TYPE_HAL_CONVENTIONAL (bs "lib_shared") t (Some f) None
                           handler None (Some (bs "default")) bits (Some false));
          load_apis (target_name t) id
      | _ => xlift (Exc (EOther ComponentLoadingError
                           (bs "No file found for target type " ++ target_name t ++ bs ".")))
      end
  | _ => xlift (Exc (EOther ComponentLoadingError (bs "Could not find any lib")))
  end.
End load.

(** ** Callback interfaces *)

(** The message for a callback interface: names of functions with identifiers. *)
Record callback_interface := mk_interface { interface_name : pystr; function_pointer : list (pystr * pystr) }.

Section callbacks.
Context {F : Type} `{EqDecision F} {W : Type}.
Abbreviation S := (table F * W)%type.

Definition GetCallbackFunctionID (callback_server : bool) (function_pointer : F) : xstM S pystr := fun s =>
  if callback_server then
    match GetCallbackId function_pointer s.1 with
    | Some id => (Ret id, s)
    | None => RegisterCallback function_pointer s
    end
  else (Exc (unknown_api (bs "callback server is not started.")), s).

(** The functions of the interface: those of the caller by name, and new functions
    that only log for the others. *)
Fixpoint function_pointers (callback_server : bool) (kwargs : list (pystr * F)) (apis : list (api_spec * F))
    : xstM S (list (pystr * pystr)) :=
  match apis with
  | [] => mret []
  | (api, dummy) :: apis =>
      id ← GetCallbackFunctionID callback_server (default dummy (assoc (TcpClient.api_name api) kwargs));
      l ← function_pointers callback_server kwargs apis;
      mret ((TcpClient.api_name api, id) :: l)
  end.

Context (ReadSpecification : pystr -> Z -> Z -> Z -> Z -> pystr -> bool -> xstM S component_msg).
Context (dummies : nat -> list F).
Definition GetHidlCallbackInterface (self : NativeEntityMirror) (callback_server : bool) (name : pystr)
    (kwargs : list (pystr * F)) : xstM S callback_interface :=
  msg ← xlift (need_spec self (bs "component_class"));
  specification ← ReadSpecification name (component_class msg) (TcpClient.component_type msg)
    (component_type_version_major msg) (component_type_version_minor msg) (component_package msg) false;
  let apis := interface_api specification in
  l ← function_pointers callback_server kwargs (zip apis (dummies (length apis)));
  mret (mk_interface name l).
End callbacks.

(** ** The device reaches the right function *)
Section dispatch.
Context {F : Type} `{EqDecision F} {W : Type}.
Implicit Types t : table F.

Lemma GetCallbackFunctionID_run f t (w : W) :
  table_ok t ->
  exists id t', GetCallbackFunctionID true f (t, w) = (Ret id, (t', w)) /\ table_ok t' /\
    (id, f) ∈ t' /\ t `prefix_of` t'.
Proof.
  intros Ht. pose proof (GetCallbackId_spec f t Ht) as Hg. unfold GetCallbackFunctionID. cbn [fst].
  destruct (GetCallbackId f t) as [id|].
  - exists id, t. destruct Hg as [_ Hin]. by split_and!.
  - destruct (RegisterCallback_fresh f t w Ht Hg) as (n & _ & Hr & _ & Hok). eexists _, _.
    split_and!; [exact Hr|exact Hok| |by eexists]. apply elem_of_app. right. by left.
Qed.

Lemma prefix_elem_of {A} (a : A) l k : l `prefix_of` k -> a ∈ l -> a ∈ k.
Proof. intros [x ->] H. apply elem_of_app. by left. Qed.

(** The identifiers that a callback interface gives to the device lead to the
    caller's functions: for every function of the interface the identifier is that
    of the function the caller passed under its name, functions registered before
    keep theirs, and the table stays well formed. *)
Theorem callback_interface_dispatch kwargs apis t (w : W) :
  table_ok t ->
  exists l t', function_pointers true kwargs apis (t, w) = (Ret l, (t', w)) /\ table_ok t' /\ t `prefix_of` t' /\
    l.*1 = (fun x => TcpClient.api_name x.1) <$> apis /\
    Forall2 (fun x p => assoc p.2 t' = Some (default x.2 (assoc (TcpClient.api_name x.1) kwargs))) apis l.
Proof.
  intros Ht. enough (exists l t', function_pointers true kwargs apis (t, w) = (Ret l, (t', w)) /\ table_ok t' /\
      t `prefix_of` t' /\ l.*1 = (fun x => TcpClient.api_name x.1) <$> apis /\
      Forall2 (fun x p => (p.2, default x.2 (assoc (TcpClient.api_name x.1) kwargs)) ∈ t') apis l)
    as (l & t' & Hr & Hok & Hp & Hn & Hall).
  { exists l, t'. split_and!; try done. eapply Forall2_impl; [exact Hall|]. intros x p Hin.
    apply assoc_Some; [by apply table_ok_keys|done]. }
  revert t Ht. induction apis as [|[api dummy] apis IH]; intros t Ht; [by exists [], t|].
  set (f := default dummy (assoc (TcpClient.api_name api) kwargs)).
  destruct (GetCallbackFunctionID_run f t w Ht) as (id & t1 & Hid & Ht1 & Hin & Hp1).
  destruct (IH t1 Ht1) as (l & t' & Hr & Hok & Hp & Hn & Hall).
  exists ((TcpClient.api_name api, id) :: l), t'. split_and!; [|done|by etrans|cbn; by rewrite Hn|].
  - cbn [function_pointers]. erewrite xstM_bind_run by exact Hid. by erewrite xstM_bind_run by exact Hr.
  - constructor; [|done]. by eapply prefix_elem_of.
Qed.
End dispatch.

Lemma callback_interface_dispatch_witness :
  exists l t', function_pointers true [(bs "onEvent", 5)] [(mk_api (bs "onEvent") [], 8); (mk_api (bs "onEnd") [], 9)]
      ([(bs "0", 7)], tt) = (Ret l, (t', tt)) /\
    Forall2 (fun x p => assoc p.2 t' = Some x) [5; 9] l.
Proof.
  destruct (callback_interface_dispatch (W := unit) [(bs "onEvent", 5)]
              [(mk_api (bs "onEvent") [], 8); (mk_api (bs "onEnd") [], 9)] [(bs "0", 7)] tt)
    as (l & t' & Hr & _ & _ & _ & Hall).
  - exists [0%Z]. split_and!; [reflexivity| | |]; repeat constructor; try lia; by intros ?%elem_of_nil.
  - exists l, t'. split; [exact Hr|]. inversion Hall as [|x1 p1 l1 k1 H1 Hall1]; subst.
    inversion Hall1 as [|x2 p2 l2 k2 H2 Hall2]; subst. inversion Hall2; subst. by repeat constructor.
Defined.
