(* ===== verification/WebReport.v ===== *)
(** * The report of a test module ([src/utils/python/web/web_utils.py])

    [WebFeature] builds the message that a run sends to the dashboard.  The message
    is a value of the feature's state; the case of the test that runs is a
    reference into its list of cases.  The rest client, the host name, the
    serialization of the message and the clock are arguments. *)

From Stdlib Require Import Strings.Byte.
From S2P Require Import Prelude PyStr PyPath ListUtils PyVal Signals BaseTest Mirror CoverageUtils Shell Config Channel TcpClient ResourceMirror.

Abbreviation params := (gmap pystr pyval).

(** ** Parameters of a feature ([web/feature_utils.py]) *)
Record Feature := mk_feature { enabled : bool; attrs : params }.

Definition set_enabled (b : bool) (self : Feature) : Feature := mk_feature b (attrs self).

(** The loop over the required names: it stops at the first that is missing. *)
Fixpoint set_required (names : list pystr) (user_params attributes : params) : bool * params :=
  match names with
  | [] => (true, attributes)
  | name :: names =>
      match user_params !! name with
      | None => (false, attributes)
      | Some v => set_required names user_params (<[name := v]> attributes)
      end
  end.
Definition set_optional (names : list pystr) (user_params attributes : params) : params :=
  foldl (fun a name => match user_params !! name with Some v => <[name := v]> a | None => a end) attributes names.

(** [toggle_param_name] is [None] for a feature without a switch. *)
Definition ParseParameters (toggle_param_name : option pystr) (required_param_names optional_param_names : list pystr)
    (user_params : params) (self : Feature) : Feature :=
  let toggled :=
    match toggle_param_name with
    | None => true
    | Some [] => true
    | Some name => match user_params !! name with Some v => truthy v | None => false end
    end in
  if negb toggled then mk_feature false (attrs self)
  else
    match set_required required_param_names user_params (attrs self) with
    | (false, a) => mk_feature false a
    | (true, a) => mk_feature true (set_optional optional_param_names user_params a)
    end.

Definition new_feature : Feature := mk_feature false ∅.

(** [getattr(self, name)] and [getattr(self, name, default)]. *)
Definition attribute (self : Feature) (name : pystr) : pyres pyval := from_opt AttributeError (attrs self !! name).
Definition attribute_or (self : Feature) (name : pystr) (default_value : pyval) : pyval :=
  default default_value (attrs self !! name).

Lemma set_required_spec (names : list pystr) (ps a : params) :
  let '(b, a') := set_required names ps a in
  b = forallb (fun n => bool_decide (is_Some (ps !! n))) names /\
  (b = true -> forall n, a' !! n = if decide (n ∈ names) then ps !! n else a !! n).
Proof.
  revert a. induction names as [|name names IH]; intros a; cbn [set_required forallb].
  - split; [done|]. intros _ n. rewrite decide_False by (by intros ?%elem_of_nil). done.
  - destruct (ps !! name) as [v|] eqn:Hv.
    + specialize (IH (<[name := v]> a)). destruct (set_required _ _ _) as [b a']. destruct IH as [-> IH].
      rewrite bool_decide_true by (by eexists). split; [done|]. intros Hb n. rewrite IH by done.
      destruct (decide (n ∈ names)) as [Hn|Hn]; [by rewrite decide_True by (by right)|].
      destruct (decide (n = name)) as [->|Hne].
      * by rewrite lookup_insert_eq, decide_True by left.
      * rewrite lookup_insert_ne by done. rewrite decide_False; [done|]. by intros [?|?]%elem_of_cons.
    + rewrite bool_decide_false by (by intros [? [=]]). by split.
Qed.

Lemma set_optional_spec (names : list pystr) (ps a : params) n :
  set_optional names ps a !! n =
    if decide (n ∈ names) then match ps !! n with Some v => Some v | None => a !! n end else a !! n.
Proof.
  unfold set_optional. revert a. induction names as [|name names IH]; intros a; cbn [foldl].
  { rewrite decide_False by (by intros ?%elem_of_nil). done. }
  rewrite IH. destruct (decide (n = name)) as [->|Hne].
  - rewrite (decide_True (P := name ∈ name :: names)) by left.
    destruct (ps !! name) as [v|] eqn:Hv; [rewrite lookup_insert_eq|]; by destruct (decide _).
  - assert (n ∈ name :: names <-> n ∈ names) as Hin by (rewrite elem_of_cons; naive_solver).
    destruct (ps !! name) as [v|]; [rewrite lookup_insert_ne by done|];
      destruct (decide (n ∈ names)) as [Hn|Hn]; destruct (decide (n ∈ name :: names)); tauto || done.
Qed.

(** A feature is on exactly when its switch is set to a true value and no required
    parameter is missing; its attributes are then the parameters it asks for. *)
Theorem ParseParameters_spec toggle required optional ps :
  let self := ParseParameters (Some toggle) required optional ps new_feature in
  toggle <> [] ->
  enabled self = (match ps !! toggle with Some v => truthy v | None => false end)
                 && forallb (fun n => bool_decide (is_Some (ps !! n))) required /\
  (enabled self = true -> forall n, attrs self !! n = if decide (n ∈ required ++ optional) then ps !! n else None).
Proof.
  intros self Htog. subst self. unfold ParseParameters. destruct toggle as [|c toggle]; [done|].
  destruct (match ps !! (c :: toggle) with Some v => truthy v | None => false end); [|done].
  cbn [negb andb attrs new_feature].
  pose proof (set_required_spec required ps ∅) as H. destruct (set_required required ps ∅) as [b a].
  destruct H as [Hb Ha]. destruct b; [|by split]. split; [done|]. intros _ n. cbn [attrs].
  rewrite set_optional_spec, Ha, lookup_empty by done.
  destruct (decide (n ∈ required)) as [Hr|Hr], (decide (n ∈ optional)) as [Ho|Ho];
    destruct (decide (n ∈ required ++ optional)) as [Hx|Hx]; rewrite elem_of_app in Hx; try tauto;
    by destruct (ps !! n).
Qed.

Definition IKEY_ENABLE_WEB : pystr := bs "enable_web".
Definition IKEY_DASHBOARD_POST_COMMAND : pystr := bs "dashboard_post_command".
Definition IKEY_SERVICE_JSON_PATH : pystr := bs "service_key_json_path".
Definition IKEY_BUILD : pystr := bs "build".
Definition IKEY_ANDROID_DEVICE : pystr := bs "AndroidDevice".
Definition IKEY_ABI_NAME : pystr := bs "abi_name".
Definition IKEY_ABI_BITNESS : pystr := bs "abi_bitness".
Definition RUN_AS_VTS_SELFTEST : pystr := bs "run_as_vts_self_test".
Definition IKEY_ENABLE_PROFILING : pystr := bs "enable_profiling".
Definition IKEY_BUILD_ID : pystr := bs "build_id".
Definition DEVICE_KEYS : list pystr :=
  [bs "product_type"; bs "product_variant"; bs "build_flavor"; IKEY_BUILD_ID; bs "branch"; bs "build_alias";
   bs "api_level"; bs "serial"].
Definition REQUIRED_PARAMS : list pystr :=
  [IKEY_DASHBOARD_POST_COMMAND; IKEY_SERVICE_JSON_PATH; KEY_TESTBED_NAME; IKEY_BUILD; IKEY_ANDROID_DEVICE;
   IKEY_ABI_NAME; IKEY_ABI_BITNESS].
Definition OPTIONAL_PARAMS : list pystr := [RUN_AS_VTS_SELFTEST; IKEY_ENABLE_PROFILING].

(** ** The message *)
Inductive TestCaseResult :=
  | UNKNOWN_RESULT | TEST_CASE_RESULT_PASS | TEST_CASE_RESULT_FAIL | TEST_CASE_RESULT_SKIP
  | TEST_CASE_RESULT_EXCEPTION | TEST_CASE_RESULT_TIMEOUT.
Inductive profiling_type := TYPE_TIMESTAMP | TYPE_LABELED_VECTOR | TYPE_UNLABELED_VECTOR.

Record ApiCoverageReportMessage := mk_api_coverage {
  hal_package_name : pystr; hal_version_major : Z; hal_version_minor : Z; hal_interface_name : pystr;
  hal_api : list pystr; covered_hal_api : list pystr;
}.
Record ProfilingReportMessage := mk_profiling {
  p_name : pystr; p_type : option profiling_type; regression_mode : Z;
  p_start_timestamp : option Z; p_end_timestamp : option Z;
  p_label : list pystr; p_value : list Z; x_axis : pystr; y_axis : pystr; p_options : list pystr;
}.
Record LogMessage := mk_log { url : pystr; log_name : pystr }.
Record TestCaseReportMessage := mk_case {
  case_name : pystr; case_result : TestCaseResult; case_start : Z; case_end : option Z;
  case_coverage : list coverage_message; case_api_coverage : list ApiCoverageReportMessage;
  systrace : list (list pystr);
}.
Record TestReportMessage := mk_report {
  r_test : pystr; test_type : Z; start_timestamp : Z; end_timestamp : option Z; hostname : pystr;
  device_info : list (gmap pystr pystr); build_info_id : option pystr;
  test_case : list TestCaseReportMessage; profiling : list ProfilingReportMessage;
  r_coverage : list coverage_message; r_api_coverage : list ApiCoverageReportMessage; r_log : list LogMessage;
}.

#[export] Instance TestCaseResult_eq_dec : EqDecision TestCaseResult.
Proof. solve_decision. Defined.
#[export] Instance coverage_message_eq_dec : EqDecision coverage_message.
Proof. solve_decision. Defined.
#[export] Instance api_coverage_eq_dec : EqDecision ApiCoverageReportMessage.
Proof. solve_decision. Defined.
#[export] Instance case_eq_dec : EqDecision TestCaseReportMessage.
Proof. solve_decision. Defined.

Definition set_test_cases (l : list TestCaseReportMessage) (r : TestReportMessage) : TestReportMessage :=
  mk_report (r_test r) (test_type r) (start_timestamp r) (end_timestamp r) (hostname r) (device_info r)
    (build_info_id r) l (profiling r) (r_coverage r) (r_api_coverage r) (r_log r).
Definition set_profiling (l : list ProfilingReportMessage) (r : TestReportMessage) : TestReportMessage :=
  mk_report (r_test r) (test_type r) (start_timestamp r) (end_timestamp r) (hostname r) (device_info r)
    (build_info_id r) (test_case r) l (r_coverage r) (r_api_coverage r) (r_log r).
Definition set_r_coverage (l : list coverage_message) (r : TestReportMessage) : TestReportMessage :=
  mk_report (r_test r) (test_type r) (start_timestamp r) (end_timestamp r) (hostname r) (device_info r)
    (build_info_id r) (test_case r) (profiling r) l (r_api_coverage r) (r_log r).
Definition set_r_api_coverage (l : list ApiCoverageReportMessage) (r : TestReportMessage) : TestReportMessage :=
  mk_report (r_test r) (test_type r) (start_timestamp r) (end_timestamp r) (hostname r) (device_info r)
    (build_info_id r) (test_case r) (profiling r) (r_coverage r) l (r_log r).
Definition set_r_log (l : list LogMessage) (r : TestReportMessage) : TestReportMessage :=
  mk_report (r_test r) (test_type r) (start_timestamp r) (end_timestamp r) (hostname r) (device_info r)
    (build_info_id r) (test_case r) (profiling r) (r_coverage r) (r_api_coverage r) l.
Definition set_device_info (l : list (gmap pystr pystr)) (r : TestReportMessage) : TestReportMessage :=
  mk_report (r_test r) (test_type r) (start_timestamp r) (end_timestamp r) (hostname r) l
    (build_info_id r) (test_case r) (profiling r) (r_coverage r) (r_api_coverage r) (r_log r).
Definition set_end (t : Z) (r : TestReportMessage) : TestReportMessage :=
  mk_report (r_test r) (test_type r) (start_timestamp r) (Some t) (hostname r) (device_info r)
    (build_info_id r) (test_case r) (profiling r) (r_coverage r) (r_api_coverage r) (r_log r).
Definition set_build_info (id : pystr) (r : TestReportMessage) : TestReportMessage :=
  mk_report (r_test r) (test_type r) (start_timestamp r) (end_timestamp r) (hostname r) (device_info r)
    (Some id) (test_case r) (profiling r) (r_coverage r) (r_api_coverage r) (r_log r).
Definition set_case_result (x : TestCaseResult) (c : TestCaseReportMessage) : TestCaseReportMessage :=
  mk_case (case_name c) x (case_start c) (case_end c) (case_coverage c) (case_api_coverage c) (systrace c).
Definition set_case_coverage (l : list coverage_message) (c : TestCaseReportMessage) : TestCaseReportMessage :=
  mk_case (case_name c) (case_result c) (case_start c) (case_end c) l (case_api_coverage c) (systrace c).
Definition set_case_api_coverage (l : list ApiCoverageReportMessage) (c : TestCaseReportMessage) : TestCaseReportMessage :=
  mk_case (case_name c) (case_result c) (case_start c) (case_end c) (case_coverage c) l (systrace c).
Definition set_systrace (l : list (list pystr)) (c : TestCaseReportMessage) : TestCaseReportMessage :=
  mk_case (case_name c) (case_result c) (case_start c) (case_end c) (case_coverage c) (case_api_coverage c) l.

(** ** The feature *)

(** [current]: not set yet, [None], or the position of a case in the report;
    [active]: the set of profiling points, when there is one; [clock_ticks]: how
    often the clock was read. *)
Record WebFeature := mk_web {
  feature : Feature;
  report_msg : option TestReportMessage;
  current : option (option nat);
  active : gset pystr;
  clock_ticks : nat;
}.
Definition new_web : WebFeature := mk_web new_feature None None ∅ 0.

Abbreviation M := (xstM WebFeature).
Definition attribute_error : exn := EOther Python_AttributeError [].
Definition value_error : exn := EOther Python_ValueError [].

Definition set_feature (f : Feature) (w : WebFeature) : WebFeature :=
  mk_web f (report_msg w) (current w) (active w) (clock_ticks w).
Definition set_report (r : TestReportMessage) (w : WebFeature) : WebFeature :=
  mk_web (feature w) (Some r) (current w) (active w) (clock_ticks w).
Definition set_current (c : option nat) (w : WebFeature) : WebFeature :=
  mk_web (feature w) (report_msg w) (Some c) (active w) (clock_ticks w).
Definition set_active (s : gset pystr) (w : WebFeature) : WebFeature :=
  mk_web (feature w) (report_msg w) (current w) s (clock_ticks w).
Definition tick_clock (w : WebFeature) : WebFeature :=
  mk_web (feature w) (report_msg w) (current w) (active w) (S (clock_ticks w)).

(** The bodies of the methods run when the feature is on. *)
Definition when_enabled {A} (off : A) (m : M A) : M A :=
  w ← xget; if enabled (feature w) then m else mret off.
Definition get_report : M TestReportMessage :=
  w ← xget; xlift (match report_msg w with Some r => Ret r | None => Exc attribute_error end).
Definition on_report (f : TestReportMessage -> TestReportMessage) : M unit :=
  r ← get_report; xmodify (set_report (f r)).
(** An attribute of the current case: there is none on [None]. *)
Definition on_case (f : TestCaseReportMessage -> TestCaseReportMessage) : M unit :=
  w ← xget;
  match current w with
  | Some (Some i) => on_report (fun r => set_test_cases (alter f i (test_case r)) r)
  | _ => xlift (Exc attribute_error)
  end.

Section web.
Context (clock : nat -> Z).

Definition GetTimestamp : M Z :=
  w ← xget; _ ← xmodify tick_clock; mret (clock (clock_ticks w)).

(** [name in spec] and [spec[name]] for the description of a device. *)
Definition has_item (v : pyval) (name : pystr) : pyres bool :=
  match v with
  | PDict d => Ok (existsb (fun kv => bool_decide (kv.1 = name)) d)
  | PStr s => Ok (contains name s)
  | PList l => Ok (existsb (fun x => match x with PStr s => bool_decide (s = name) | _ => false end) l)
  | _ => Raise TypeError
  end.
Fixpoint device_fields (names : list pystr) (spec : pyval) (m : gmap pystr pystr) : pyres (gmap pystr pystr) :=
  match names with
  | [] => Ok m
  | name :: names =>
      b ← has_item spec name;
      if b : bool then v ← item spec name; device_fields names spec (<[name := str_val v]> m)
      else device_fields names spec m
  end.
Fixpoint add_devices (specs : list pyval) : M unit :=
  match specs with
  | [] => mret tt
  | spec :: specs =>
      w ← xget;
      m ← xpure (device_fields DEVICE_KEYS spec ∅);
      name ← xpure (attribute (feature w) IKEY_ABI_NAME);
      bitness ← xpure (attribute (feature w) IKEY_ABI_BITNESS);
      _ ← on_report (fun r => set_device_info (device_info r ++
            [<[IKEY_ABI_BITNESS := str_val bitness]> (<[IKEY_ABI_NAME := str_val name]> m)]) r);
      add_devices specs
  end.

(** [initialize]: what the rest client says for a command and a key file. *)
Definition WebFeature_init (initialize : pyval -> pystr -> bool) (gethostname : pystr) (user_params : params) : M unit :=
  _ ← xmodify (set_feature (ParseParameters (Some IKEY_ENABLE_WEB) REQUIRED_PARAMS OPTIONAL_PARAMS user_params new_feature));
  when_enabled tt (
    w ← xget;
    post_cmd ← xpure (attribute (feature w) IKEY_DASHBOARD_POST_COMMAND);
    path ← xpure (attribute (feature w) IKEY_SERVICE_JSON_PATH);
    _ ← (if initialize post_cmd (str_val path) then mret tt else xmodify (set_feature (set_enabled false (feature w))));
    name ← xpure (attribute (feature w) KEY_TESTBED_NAME);
    let test := str_val name ++ (if truthy (attribute_or (feature w) IKEY_ENABLE_PROFILING (PBool false))
                                 then bs "Profiling" else []) in
    t ← GetTimestamp;
    _ ← xmodify (set_report (mk_report test 1 t None gethostname [] None [] [] [] [] []));
    match attribute_or (feature w) IKEY_ANDROID_DEVICE PNone with
    | PList (v :: l) => add_devices (v :: l)
    | _ => mret tt
    end).

(** ** Test cases *)
Definition AddTestReport (test_name : pystr) : M unit :=
  when_enabled tt (
    r ← get_report;
    t ← GetTimestamp;
    _ ← on_report (fun r => set_test_cases (test_case r ++ [mk_case test_name UNKNOWN_RESULT t None [] [] []]) r);
    xmodify (set_current (Some (length (test_case r))))).

(** [l.remove(x)]: the first element that is equal to [x]. *)
Fixpoint remove_first (x : TestCaseReportMessage) (l : list TestCaseReportMessage) : list TestCaseReportMessage :=
  match l with
  | [] => []
  | y :: l => if decide (y = x) then l else y :: remove_first x l
  end.
Definition remove_current : M unit :=
  w ← xget;
  match current w with
  | Some (Some i) =>
      on_report (fun r => match test_case r !! i with Some c => set_test_cases (remove_first c (test_case r)) r | None => r end)
  | Some None => xlift (Exc value_error)
  | None => xlift (Exc attribute_error)
  end.
(** [None] and [UNKNOWN_RESULT] are both false. *)
Definition SetTestResult (result : option TestCaseResult) : M unit :=
  when_enabled tt (
    match result with
    | None | Some UNKNOWN_RESULT => _ ← remove_current; xmodify (set_current None)
    | Some x => on_case (set_case_result x)
    end).

(** ** Coverage *)
Definition on_coverage (isGlobal : bool) (f : list coverage_message -> list coverage_message) : M unit :=
  if isGlobal then on_report (fun r => set_r_coverage (f (r_coverage r)) r)
  else on_case (fun c => set_case_coverage (f (case_coverage c)) c).
Definition on_api_coverage (isGlobal : bool) (f : list ApiCoverageReportMessage -> list ApiCoverageReportMessage) : M unit :=
  if isGlobal then on_report (fun r => set_r_api_coverage (f (r_api_coverage r)) r)
  else on_case (fun c => set_case_api_coverage (f (case_api_coverage c)) c).

(** The message that was added last. *)
Definition alter_last {A} (f : A -> A) (l : list A) : list A := alter f (length l - 1) l.

Fixpoint check_all (check : Z -> xres Z) (l : list Z) : xres (list Z) :=
  match l with
  | [] => Ret []
  | z :: l => z ← check z; l ← check_all check l; Ret (z :: l)
  end.

Definition AddCoverageReport (cwd : pystr) (coverage_vec : list Z) (src_file_path git_project_name git_project_path revision : pystr)
    (covered_count line_count : Z) (isGlobal : bool) : M unit :=
  when_enabled tt (
    _ ← on_coverage isGlobal (fun l => l ++ [mk_coverage 0 0 [] [] [] []]);
    n ← xlift (int32 line_count);
    _ ← on_coverage isGlobal (alter_last (fun _ => mk_coverage n 0 [] [] [] []));
    k ← xlift (int32 covered_count);
    _ ← on_coverage isGlobal (alter_last (fun _ => mk_coverage n k [] [] [] []));
    v ← xlift (check_all int64 coverage_vec);
    _ ← on_coverage isGlobal (alter_last (fun _ => mk_coverage n k v [] [] []));
    path ← xpure (relpath cwd src_file_path git_project_path);
    on_coverage isGlobal (alter_last (fun _ => mk_coverage n k v path revision git_project_name))).

(** What profiling knows of the coverage of an interface ([VTSApiCoverageData]); the
    sets as lists in their iteration order. *)
Record VTSApiCoverageData := mk_api_data {
  package_name : pystr; version_major : pystr; version_minor : pystr; interface_name : pystr;
  total_apis : list pystr; covered_apis : list pystr;
}.
Fixpoint add_api_coverage (isGlobal : bool) (api_coverage_data_vec : list VTSApiCoverageData) : M unit :=
  match api_coverage_data_vec with
  | [] => mret tt
  | d :: l =>
      _ ← on_api_coverage isGlobal (fun l => l ++ [mk_api_coverage [] 0 0 [] [] []]);
      _ ← on_api_coverage isGlobal (alter_last (fun _ => mk_api_coverage (package_name d) 0 0 [] [] []));
      z ← xpure (py_int (version_major d)); major ← xlift (int32 z);
      _ ← on_api_coverage isGlobal (alter_last (fun _ => mk_api_coverage (package_name d) major 0 [] [] []));
      z ← xpure (py_int (version_minor d)); minor ← xlift (int32 z);
      _ ← on_api_coverage isGlobal (alter_last (fun _ =>
            mk_api_coverage (package_name d) major minor (interface_name d) (total_apis d) (covered_apis d)));
      add_api_coverage isGlobal l
  end.
Definition AddApiCoverageReport (api_coverage_data_vec : list VTSApiCoverageData) (isGlobal : bool) : M unit :=
  when_enabled tt (add_api_coverage isGlobal api_coverage_data_vec).

(** ** Profiling *)
Definition on_profiling (f : ProfilingReportMessage -> ProfilingReportMessage) : M unit :=
  on_report (fun r => set_profiling (alter_last f (profiling r)) r).
(** The common beginning: a point is added to the set and to the report unless it
    is in the set; [false] when it was. *)
Definition begin_point (name : pystr) : M bool :=
  w ← xget;
  if decide (name ∈ active w) then mret false
  else
    _ ← xmodify (set_active ({[name]} ∪ active w));
    _ ← on_report (fun r => set_profiling (profiling r ++ [mk_profiling [] None 0 None None [] [] [] [] []]) r);
    mret true.

Definition AddProfilingDataTimestamp (name : pystr) (start_time end_time : Z)
    (x_axis_label y_axis_label : pystr) (mode : Z) : M unit :=
  when_enabled tt (
    b ← begin_point name;
    if b : bool then
      let msg s e x y := mk_profiling name (Some TYPE_TIMESTAMP) mode s e [] [] x y [] in
      _ ← on_profiling (fun _ => msg None None [] []);
      s ← xlift (int64 start_time);
      _ ← on_profiling (fun _ => msg (Some s) None [] []);
      e ← xlift (int64 end_time);
      on_profiling (fun _ => msg (Some s) (Some e) x_axis_label y_axis_label)
    else mret tt).

Definition AddProfilingDataVector (name : pystr) (labels : option (list pystr)) (values : list Z)
    (data_type : profiling_type) (options : list pystr) (x_axis_label y_axis_label : pystr) (mode : Z) : M unit :=
  when_enabled tt (
    b ← begin_point name;
    if b : bool then
      let msg v x y o := mk_profiling name (Some data_type) mode None None (default [] labels) v x y o in
      _ ← on_profiling (fun _ => msg [] [] [] []);
      v ← xlift (check_all int64 values);
      on_profiling (fun _ => msg v x_axis_label y_axis_label options)
    else mret tt).
Definition AddProfilingDataLabeledVector (name : pystr) (labels : list pystr) (values : list Z) (options : list pystr)
    (x_axis_label y_axis_label : pystr) (mode : Z) : M unit :=
  AddProfilingDataVector name (Some labels) values TYPE_LABELED_VECTOR options x_axis_label y_axis_label mode.
Definition AddProfilingDataUnlabeledVector (name : pystr) (values : list Z) (options : list pystr)
    (x_axis_label y_axis_label : pystr) (mode : Z) : M unit :=
  AddProfilingDataVector name None values TYPE_UNLABELED_VECTOR options x_axis_label y_axis_label mode.

(** ** Links *)
Definition AddSystraceUrl (url : pystr) : M unit :=
  when_enabled tt (on_case (fun c => set_systrace (systrace c ++ [[url]]) c)).

(** The inner loop of the code has no effect: its [continue] is its own. *)
Fixpoint add_logs (urls : list pystr) : M unit :=
  match urls with
  | [] => mret tt
  | u :: urls => _ ← on_report (fun r => set_r_log (r_log r ++ [mk_log u (basename u)]) r); add_logs urls
  end.
Definition AddLogUrls (urls : option (list pystr)) : M unit :=
  when_enabled tt (match urls with None => mret tt | Some urls => add_logs urls end).

Definition GetTestModuleKeys : M (pystr * Z) := r ← get_report; mret (r_test r, start_timestamp r).

(** ** The result *)
Fixpoint add_missing (tests : list pystr) : M unit :=
  match tests with
  | [] => mret tt
  | name :: tests =>
      t ← GetTimestamp;
      _ ← on_report (fun r => set_test_cases (test_case r ++ [mk_case name TEST_CASE_RESULT_FAIL t (Some t) [] [] []]) r);
      add_missing tests
  end.

(** [post]: the token added, the message serialized and encoded; [requested] and
    [executed] are the names of the records. *)
Definition GenerateReportMessage (post : TestReportMessage -> xres pystr) (requested executed : list pystr)
    : M (option pystr) :=
  when_enabled None (
    _ ← add_missing (drop (length executed) requested);
    t ← GetTimestamp;
    _ ← on_report (set_end t);
    w ← xget;
    build ← xpure (attribute (feature w) IKEY_BUILD);
    b ← xpure (has_item build IKEY_BUILD_ID);
    _ ← (if b : bool then id ← xpure (item build IKEY_BUILD_ID); on_report (set_build_info (str_val id)) else mret tt);
    r ← get_report;
    match test_case r with
    | [] => mret (Some [])
    | _ => message_b ← xlift (post r); mret (Some message_b)
    end).

(** ** What the runner does with a test ([base_test.py]) *)

(** The hook of each end of a test. *)
Definition hook (p : procedure) : M unit :=
  SetTestResult (match p with
                 | onFail => Some TEST_CASE_RESULT_FAIL
                 | onPass => Some TEST_CASE_RESULT_PASS
                 | onSkip => Some TEST_CASE_RESULT_SKIP
                 | onSilent => None
                 | onException => Some TEST_CASE_RESULT_EXCEPTION
                 end).
Fixpoint report_tests (tests : list (pystr * procedure)) : M unit :=
  match tests with
  | [] => mret tt
  | (name, p) :: tests => _ ← AddTestReport name; _ ← hook p; report_tests tests
  end.
End web.

(** ** Reports of a module *)
Section report.
Context (clock : nat -> Z).

(** A feature that is on, with its message. *)
Definition reporting (w : WebFeature) (r : TestReportMessage) : Prop :=
  enabled (feature w) = true /\ report_msg w = Some r.

Lemma when_enabled_run {A} off (m : M A) w r : reporting w r -> when_enabled off m w = m w.
Proof. intros [H _]. unfold when_enabled. erewrite xstM_bind_run by reflexivity. by rewrite H. Qed.

Lemma get_report_run w r : report_msg w = Some r -> get_report w = (Ret r, w).
Proof. intros H. unfold get_report. erewrite xstM_bind_run by reflexivity. by rewrite H. Qed.

Lemma on_report_run f w r : report_msg w = Some r -> on_report f w = (Ret tt, set_report (f r) w).
Proof. intros H. unfold on_report. by erewrite xstM_bind_run by (by apply get_report_run). Qed.

Lemma AddTestReport_run name w r :
  reporting w r ->
  AddTestReport clock name w =
    (Ret tt, set_current (Some (length (test_case r)))
       (set_report (set_test_cases (test_case r ++ [mk_case name UNKNOWN_RESULT (clock (clock_ticks w)) None [] [] []]) r)
          (tick_clock w))).
Proof.
  intros H. unfold AddTestReport. rewrite (when_enabled_run _ _ _ _ H). destruct H as [_ H].
  erewrite xstM_bind_run by (by apply get_report_run). erewrite xstM_bind_run by reflexivity.
  by erewrite xstM_bind_run by (by apply on_report_run).
Qed.

Lemma check_all_Ret check l : Forall (fun z => check z = Ret z) l -> check_all check l = Ret l.
Proof. induction 1 as [|z l Hz _ IH]; [done|]. cbn [check_all]. rewrite Hz. cbn. by rewrite IH. Qed.

Lemma on_coverage_global f w r :
  report_msg w = Some r -> on_coverage true f w = (Ret tt, set_report (set_r_coverage (f (r_coverage r)) r) w).
Proof. intros Hr. exact (on_report_run _ _ _ Hr). Qed.

Lemma alter_last_app {A} (f : A -> A) l x : alter_last f (l ++ [x]) = l ++ [f x].
Proof.
  unfold alter_last. rewrite length_app. cbn [length]. rewrite alter_app_r_alt by lia.
  by replace (_ - _)%nat with 0%nat by lia.
Qed.

(** What fits into its fields is added as one message. *)
Lemma AddCoverageReport_run cwd v src project path revision k n rel w r :
  reporting w r -> (- 2 ^ 31 <= n <= 2 ^ 31 - 1)%Z -> (- 2 ^ 31 <= k <= 2 ^ 31 - 1)%Z ->
  Forall (fun z => - 2 ^ 63 <= z <= 2 ^ 63 - 1)%Z v -> relpath cwd src path = Ok rel ->
  AddCoverageReport cwd v src project path revision k n true w =
    (Ret tt, set_report (set_r_coverage (r_coverage r ++ [mk_coverage n k v rel revision project]) r) w).
Proof.
  intros H Hn Hk Hv Hrel. unfold AddCoverageReport. rewrite (when_enabled_run _ _ _ _ H). destruct H as [_ Hr].
  assert (forall m m', on_coverage true (alter_last (fun _ => m'))
      (set_report (set_r_coverage (r_coverage r ++ [m]) r) w) =
      (Ret tt, set_report (set_r_coverage (r_coverage r ++ [m']) r) w)) as Hstep.
  { intros m m'. rewrite (on_coverage_global _ _ (set_r_coverage (r_coverage r ++ [m]) r)) by done.
    cbn [r_coverage set_r_coverage]. by rewrite alter_last_app. }
  erewrite xstM_bind_run by (by apply on_coverage_global).
  erewrite xstM_bind_run by (unfold xlift, int32; by rewrite in_range_Ret).
  erewrite xstM_bind_run by apply Hstep.
  erewrite xstM_bind_run by (unfold xlift, int32; by rewrite in_range_Ret).
  erewrite xstM_bind_run by apply Hstep.
  erewrite xstM_bind_run.
  2: { unfold xlift. rewrite check_all_Ret; [done|]. eapply Forall_impl; [exact Hv|].
       intros z Hz. unfold int64. by rewrite in_range_Ret. }
  erewrite xstM_bind_run by apply Hstep.
  erewrite xstM_bind_run by (unfold xpure, xlift; by rewrite Hrel). apply Hstep.
Qed.

(** The cases by name and result. *)
Definition summary (r : TestReportMessage) : list (pystr * TestCaseResult) :=
  (fun c => (case_name c, case_result c)) <$> test_case r.
Definition decided (c : TestCaseReportMessage) : Prop := case_result c <> UNKNOWN_RESULT.
Definition verdict (t : pystr * procedure) : option (pystr * TestCaseResult) :=
  match t.2 with
  | onFail => Some (t.1, TEST_CASE_RESULT_FAIL)
  | onPass => Some (t.1, TEST_CASE_RESULT_PASS)
  | onSkip => Some (t.1, TEST_CASE_RESULT_SKIP)
  | onSilent => None
  | onException => Some (t.1, TEST_CASE_RESULT_EXCEPTION)
  end.

(** What the hooks and the end of a module leave alone. *)
Definition same_head (r r' : TestReportMessage) : Prop := r_log r' = r_log r /\ start_timestamp r' = start_timestamp r.

Lemma remove_first_last x l : x ∉ l -> remove_first x (l ++ [x]) = l.
Proof.
  induction l as [|y l IH]; intros Hx; cbn [app remove_first]; [by rewrite decide_True|].
  rewrite decide_False by (intros ->; apply Hx; by left). rewrite IH; [done|]. intros ?. apply Hx. by right.
Qed.

Lemma report_test_run name p w r :
  reporting w r -> Forall decided (test_case r) ->
  exists w' r', (_ ← AddTestReport clock name; hook p) w = (Ret tt, w') /\ reporting w' r' /\
    feature w' = feature w /\ Forall decided (test_case r') /\
    summary r' = summary r ++ option_list (verdict (name, p)) /\ same_head r r'.
Proof.
  intros H Hd. rewrite (xstM_bind_run _ _ _ _ _ (AddTestReport_run name w r H)).
  set (c := mk_case name UNKNOWN_RESULT (clock (clock_ticks w)) None [] [] []).
  set (r1 := set_test_cases (test_case r ++ [c]) r). set (w1 := set_current _ _).
  assert (reporting w1 r1) as H1 by (by destruct H).
  assert (forall x, x <> UNKNOWN_RESULT ->
    exists w' r', on_case (set_case_result x) w1 = (Ret tt, w') /\ reporting w' r' /\ feature w' = feature w /\
      Forall decided (test_case r') /\ summary r' = summary r ++ [(name, x)] /\ same_head r r') as Hset.
  { intros x Hx. assert (test_case r1 = test_case r ++ [c]) as Hc by done.
    assert (alter (set_case_result x) (length (test_case r)) (test_case r1) = test_case r ++ [set_case_result x c]) as Ha.
    { rewrite Hc, alter_app_r_alt, Nat.sub_diag by done. done. }
    exists (set_report (set_test_cases (test_case r ++ [set_case_result x c]) r1) w1),
      (set_test_cases (test_case r ++ [set_case_result x c]) r1).
    split_and!; [|by destruct H1|done| | |done].
    - unfold on_case. erewrite xstM_bind_run by reflexivity. unfold w1 at 1. cbn [current set_current].
      rewrite (on_report_run _ _ _ (proj2 H1)). cbn beta. by rewrite Ha.
    - cbn. apply Forall_app. split; [done|]. by repeat constructor.
    - unfold summary. cbn. by rewrite fmap_app. }
  unfold hook, SetTestResult. rewrite (when_enabled_run _ _ _ _ H1).
  destruct p; cbn [verdict fst snd option_list]; try (by apply Hset).
  exists (set_current None (set_report (set_test_cases (test_case r) r1) w1)), (set_test_cases (test_case r) r1).
  split_and!; [|by destruct H1|done|done|unfold summary; cbn; by rewrite app_nil_r|done].
  erewrite xstM_bind_run; [reflexivity|]. unfold remove_current. erewrite xstM_bind_run by reflexivity.
  unfold w1 at 1. cbn [current set_current]. rewrite (on_report_run _ _ _ (proj2 H1)). cbn beta.
  change (test_case r1) with (test_case r ++ [c]).
  rewrite lookup_app_r, Nat.sub_diag by done. cbn [lookup list_lookup]. rewrite remove_first_last; [done|].
  intros Hc. rewrite Forall_forall in Hd. by apply (Hd c Hc).
Qed.

Lemma report_tests_run tests w r :
  reporting w r -> Forall decided (test_case r) ->
  exists w' r', report_tests clock tests w = (Ret tt, w') /\ reporting w' r' /\ feature w' = feature w /\
    summary r' = summary r ++ omap verdict tests.
Proof.
  revert w r. induction tests as [|[name p] tests IH]; intros w r H Hd; cbn [report_tests].
  { exists w, r. cbn. by rewrite app_nil_r. }
  destruct (report_test_run name p w r H Hd) as (w1 & r1 & Hr1 & H1 & Hf1 & Hd1 & Hs1 & _).
  destruct (IH w1 r1 H1 Hd1) as (w2 & r2 & Hr2 & H2 & Hf2 & Hs2).
  exists w2, r2. split_and!; [|done|congruence|].
  - apply xstM_bind_Ret in Hr1 as (u & w0 & Ha & Hb). erewrite xstM_bind_run by exact Ha.
    by erewrite xstM_bind_run by exact Hb.
  - rewrite Hs2, Hs1, <- app_assoc. f_equal. cbn. by destruct (verdict (name, p)).
Qed.

Lemma add_missing_run names w r :
  reporting w r ->
  exists w' r', add_missing clock names w = (Ret tt, w') /\ reporting w' r' /\ feature w' = feature w /\
    summary r' = summary r ++ ((fun n => (n, TEST_CASE_RESULT_FAIL)) <$> names) /\ same_head r r'.
Proof.
  revert w r. induction names as [|name names IH]; intros w r H; cbn [add_missing].
  { exists w, r. cbn. by rewrite app_nil_r. }
  erewrite xstM_bind_run by reflexivity. erewrite xstM_bind_run by (apply on_report_run; exact (proj2 H)).
  set (t := clock (clock_ticks w)).
  set (r1 := set_test_cases (test_case r ++ [mk_case name TEST_CASE_RESULT_FAIL t (Some t) [] [] []]) r).
  destruct (IH (set_report r1 (tick_clock w)) r1) as (w' & r' & Hr & H' & Hf & Hs & Hh); [by destruct H|].
  exists w', r'. split_and!; [exact Hr|done|done| |exact Hh]. rewrite Hs. unfold summary. cbn.
  by rewrite fmap_app, <- app_assoc.
Qed.

Lemma item_has d name :
  existsb (fun kv : pystr * pyval => bool_decide (kv.1 = name)) d = true -> exists v, item (PDict d) name = Ok v.
Proof.
  intros Hd. cbn [item]. destruct ((list_to_map d : params) !! name) as [v|] eqn:Hv; [by exists v|].
  apply not_elem_of_list_to_map_2 in Hv. apply existsb_exists in Hd as (kv & Hin & Heq%bool_decide_eq_true).
  destruct Hv. subst name. apply list_elem_of_fmap. exists kv. by rewrite list_elem_of_In.
Qed.

(** The message of a module: failures for what did not run, then what [post] makes of it. *)
Lemma GenerateReportMessage_run post requested executed w r build :
  reporting w r -> attrs (feature w) !! IKEY_BUILD = Some (PDict build) ->
  exists w' r', reporting w' r' /\ feature w' = feature w /\ same_head r r' /\
    summary r' = summary r ++ ((fun n => (n, TEST_CASE_RESULT_FAIL)) <$> drop (length executed) requested) /\
    GenerateReportMessage clock post requested executed w =
      (match test_case r' with
       | [] => Ret (Some [])
       | _ => message ← post r'; Ret (Some message)
       end, w').
Proof.
  intros H Hb. unfold GenerateReportMessage. rewrite (when_enabled_run _ _ _ _ H).
  destruct (add_missing_run (drop (length executed) requested) w r H) as (w2 & r2 & Hr2 & H2 & Hf2 & Hs2 & Hh2).
  set (r3 := set_end (clock (clock_ticks w2)) r2). set (w3 := set_report r3 (tick_clock w2)).
  assert (reporting w3 r3) as H3 by (by destruct H2).
  erewrite xstM_bind_run by exact Hr2. erewrite xstM_bind_run by reflexivity.
  erewrite xstM_bind_run by (apply on_report_run; exact (proj2 H2)). fold r3. fold w3.
  erewrite xstM_bind_run by reflexivity.
  assert (attribute (feature w3) IKEY_BUILD = Ok (PDict build)) as ->.
  { unfold attribute. change (feature w3) with (feature w2). by rewrite Hf2, Hb. }
  erewrite xstM_bind_run by reflexivity. erewrite xstM_bind_run by reflexivity.
  destruct (existsb _ build) eqn:Hex.
  - destruct (item_has build IKEY_BUILD_ID Hex) as (v & Hv). rewrite Hv.
    exists (set_report (set_build_info (str_val v) r3) w3), (set_build_info (str_val v) r3).
    split_and!; [by destruct H3|done|done|done|].
    erewrite xstM_bind_run.
    2: { erewrite xstM_bind_run by reflexivity. by apply on_report_run, H3. }
    erewrite xstM_bind_run by reflexivity. change (test_case (set_build_info _ r3)) with (test_case r3).
    destruct (test_case r3); [done|]. unfold mbind at 1, xstM_bind, xlift. by destruct (post _).
  - exists w3, r3. split_and!; [done|done|done|done|].
    erewrite xstM_bind_run by reflexivity. erewrite xstM_bind_run by (apply get_report_run, H3).
    destruct (test_case r3); [done|]. unfold mbind at 1, xstM_bind, xlift. by destruct (post _).
Qed.

(** The names that were executed: silenced tests are not. *)
Definition executed_names (tests : list (pystr * procedure)) : list pystr := (omap verdict tests).*1.

(** C21: When the records of a run are a beginning of those requested, its report has
    one case for each test that was not silenced, in order and under the result of
    its hook, then a failure for each one that was requested and not executed; the
    message that is sent is just this report. *)
Theorem report_lists_every_test post tests rest w r build :
  reporting w r -> test_case r = [] -> attrs (feature w) !! IKEY_BUILD = Some (PDict build) ->
  exists w' r', reporting w' r' /\
    summary r' = omap verdict tests ++ ((fun n => (n, TEST_CASE_RESULT_FAIL)) <$> rest) /\
    (_ ← report_tests clock tests; GenerateReportMessage clock post (executed_names tests ++ rest) (executed_names tests)) w =
      (match test_case r' with
       | [] => Ret (Some [])
       | _ => message ← post r'; Ret (Some message)
       end, w').
Proof.
  intros H Hnil Hb.
  destruct (report_tests_run tests w r H) as (w1 & r1 & Hr1 & H1 & Hf1 & Hs1); [by rewrite Hnil|].
  assert (summary r = []) as Hs0 by (unfold summary; by rewrite Hnil). rewrite Hs0 in Hs1. cbn [app] in Hs1.
  destruct (GenerateReportMessage_run post (executed_names tests ++ rest) (executed_names tests) w1 r1 build)
    as (w2 & r2 & H2 & _ & _ & Hs2 & Hr2); [done|by rewrite Hf1|].
  exists w2, r2. rewrite drop_app_length in Hs2. split_and!; [done|by rewrite Hs2, Hs1|].
  by erewrite xstM_bind_run by exact Hr1.
Qed.
End report.

(** A point that is new and whose values fit is added as one message. *)
Section vectors.
Definition empty_point : ProfilingReportMessage := mk_profiling [] None 0 None None [] [] [] [] [].
Lemma begin_point_run name w :
  begin_point name w =
    if decide (name ∈ active w) then (Ret false, w)
    else match report_msg w with
         | Some r => (Ret true, set_report (set_profiling (profiling r ++ [empty_point]) r) (set_active ({[name]} ∪ active w) w))
         | None => (Exc attribute_error, set_active ({[name]} ∪ active w) w)
         end.
Proof.
  unfold begin_point. erewrite xstM_bind_run by reflexivity. destruct (decide _); [done|].
  erewrite xstM_bind_run by reflexivity. destruct (report_msg w) as [r|] eqn:Hr.
  - by erewrite xstM_bind_run by (by apply on_report_run).
  - unfold on_report, get_report, mbind, xstM_bind, xget. cbn. by rewrite Hr.
Qed.

Lemma on_profiling_run f w r l p :
  report_msg w = Some r -> profiling r = l ++ [p] ->
  on_profiling f w = (Ret tt, set_report (set_profiling (l ++ [f p]) r) w).
Proof. intros Hr Hp. unfold on_profiling. rewrite (on_report_run _ _ _ Hr). by rewrite Hp, alter_last_app. Qed.

Lemma AddProfilingDataVector_run name labels vals ty opts x y mode w r :
  reporting w r -> (name ∉ active w) -> Forall (fun z => - 2 ^ 63 <= z <= 2 ^ 63 - 1)%Z vals ->
  AddProfilingDataVector name labels vals ty opts x y mode w =
    (Ret tt, set_report (set_profiling
       (profiling r ++ [mk_profiling name (Some ty) mode None None (default [] labels) vals x y opts]) r)
       (set_active ({[name]} ∪ active w) w)).
Proof.
  intros H Hn Hv. unfold AddProfilingDataVector. rewrite (when_enabled_run _ _ _ _ H). destruct H as [_ Hr].
  pose proof (begin_point_run name w) as Hb. rewrite decide_False, Hr in Hb by done.
  erewrite xstM_bind_run by exact Hb. cbv beta iota zeta.
  erewrite xstM_bind_run by (by apply on_profiling_run).
  erewrite xstM_bind_run.
  2: { unfold xlift. rewrite check_all_Ret; [done|]. eapply Forall_impl; [exact Hv|].
       intros z Hz. unfold int64. by rewrite in_range_Ret. }
  set (p0 := mk_profiling name (Some ty) mode None None (default [] labels) [] [] [] []).
  by rewrite (on_profiling_run _ _ (set_profiling (profiling r ++ [p0]) (set_profiling (profiling r ++ [empty_point]) r)) (profiling r) p0).
Qed.
End vectors.

(** ** Every reachable state *)
Inductive web_op :=
  | WAddTestReport (name : pystr)
  | WSetTestResult (x : option TestCaseResult)
  | WAddCoverageReport (vec : list Z) (src project path revision : pystr) (covered total : Z) (isGlobal : bool)
  | WAddApiCoverageReport (l : list VTSApiCoverageData) (isGlobal : bool)
  | WAddTimestamp (name : pystr) (s e : Z) (x y : pystr) (mode : Z)
  | WAddVector (name : pystr) (labels : option (list pystr)) (values : list Z) (ty : profiling_type)
      (options : list pystr) (x y : pystr) (mode : Z)
  | WAddSystraceUrl (url : pystr)
  | WAddLogUrls (urls : option (list pystr))
  | WGenerateReportMessage (requested executed : list pystr).

Section invariant.
Context (clock : nat -> Z) (cwd : pystr) (post : TestReportMessage -> xres pystr).

Definition web_run (o : web_op) (w : WebFeature) : WebFeature :=
  match o with
  | WAddTestReport name => (AddTestReport clock name w).2
  | WSetTestResult x => (SetTestResult x w).2
  | WAddCoverageReport v src project path revision k n g =>
      (AddCoverageReport cwd v src project path revision k n g w).2
  | WAddApiCoverageReport l g => (AddApiCoverageReport l g w).2
  | WAddTimestamp name s e x y mode => (AddProfilingDataTimestamp name s e x y mode w).2
  | WAddVector name labels values ty options x y mode =>
      (AddProfilingDataVector name labels values ty options x y mode w).2
  | WAddSystraceUrl u => (AddSystraceUrl u w).2
  | WAddLogUrls urls => (AddLogUrls urls w).2
  | WGenerateReportMessage requested executed => (GenerateReportMessage clock post requested executed w).2
  end.

(** The current case is a case of the report, and every profiling point was
    reported once. *)
Definition current_ok (w : WebFeature) : Prop :=
  forall i, current w = Some (Some i) -> exists r, report_msg w = Some r /\ i < length (test_case r).
Definition points_ok (w : WebFeature) : Prop :=
  forall r, report_msg w = Some r ->
    NoDup (p_name <$> profiling r) /\ forall n, n ∈ p_name <$> profiling r -> n ∈ active w.
Definition web_ok (w : WebFeature) : Prop := current_ok w /\ points_ok w.

(** Changes of the report that keep its cases, or add some, and its profiling. *)
Lemma on_report_keeps f :
  (forall r, length (test_case r) <= length (test_case (f r)) /\ profiling (f r) = profiling r) ->
  xkeeps web_ok (on_report f).
Proof.
  intros Hf w Hw. unfold on_report, get_report, mbind, xstM_bind, xget, xlift, xmodify.
  destruct (report_msg w) as [r|] eqn:Hr; [|done]. destruct (Hf r) as [Hl Hp]. destruct Hw as [Hc Hpt]. cbn. split.
  - intros i Hi. destruct (Hc i Hi) as (r' & Hr' & Hlt). assert (r' = r) as -> by congruence.
    exists (f r). split; [done|lia].
  - intros r' [= <-]. rewrite Hp. exact (Hpt r Hr).
Qed.

Lemma on_case_keeps f : xkeeps web_ok (on_case f).
Proof.
  intros w Hw. unfold on_case. erewrite xstM_bind_run by reflexivity.
  destruct (current w) as [[i|]|]; [|done..]. apply (on_report_keeps _); [|done].
  intros r. cbn. by rewrite length_alter.
Qed.

Lemma xmodify_keeps f : (forall w, web_ok w -> web_ok (f w)) -> xkeeps web_ok (xmodify f).
Proof. intros Hf w Hw. by apply Hf. Qed.

Lemma GetTimestamp_keeps : xkeeps web_ok (GetTimestamp clock).
Proof. by intros w Hw. Qed.

Lemma get_report_keeps : xkeeps web_ok get_report.
Proof. intros w Hw. unfold get_report. erewrite xstM_bind_run by reflexivity. by destruct (report_msg w). Qed.

Lemma on_coverage_keeps g f : xkeeps web_ok (on_coverage g f).
Proof. destruct g; [by apply on_report_keeps|apply on_case_keeps]. Qed.
Lemma on_api_coverage_keeps g f : xkeeps web_ok (on_api_coverage g f).
Proof. destruct g; [by apply on_report_keeps|apply on_case_keeps]. Qed.

#[local] Hint Resolve on_case_keeps GetTimestamp_keeps get_report_keeps on_coverage_keeps on_api_coverage_keeps : keeps.

Lemma when_enabled_keeps {A} (off : A) (m : M A) : xkeeps web_ok m -> xkeeps web_ok (when_enabled off m).
Proof. intros Hm. unfold when_enabled. keeps. Qed.

Lemma append_case_keeps c :
  xkeeps web_ok (on_report (fun r => set_test_cases (test_case r ++ [c]) r)).
Proof. apply on_report_keeps. intros r. cbn. rewrite length_app. split; [lia|done]. Qed.

Lemma AddTestReport_keeps name : xkeeps web_ok (AddTestReport clock name).
Proof.
  intros w Hw. unfold AddTestReport, when_enabled. erewrite xstM_bind_run by reflexivity.
  destruct (enabled (feature w)) eqn:He; [|done].
  destruct (report_msg w) as [r|] eqn:Hr.
  - pose proof (AddTestReport_run clock name w r (conj He Hr)) as H.
    unfold AddTestReport in H. rewrite (when_enabled_run _ _ _ _ (conj He Hr)) in H. rewrite H.
    destruct Hw as [_ Hpt]. split.
    + intros i [= <-]. eexists. split; [done|]. cbn. rewrite length_app. cbn. lia.
    + intros r' [= <-]. exact (Hpt r Hr).
  - unfold get_report, mbind, xstM_bind, xget, xlift. rewrite Hr. done.
Qed.

Lemma SetTestResult_keeps x : xkeeps web_ok (SetTestResult x).
Proof.
  apply when_enabled_keeps.
  assert (xkeeps web_ok (_ ← remove_current; xmodify (set_current None))) as Hn.
  { intros w Hw. unfold remove_current, on_report, get_report, mbind, xstM_bind, xget, xlift, xmodify.
    destruct (current w) as [[i|]|] eqn:Hc; [|done..]. destruct (report_msg w) as [r|] eqn:Hr; [|done].
    destruct Hw as [_ Hpt]. split; [by intros i'|]. intros r' [= <-]. cbn.
    destruct (test_case r !! i); exact (Hpt r Hr). }
  destruct x as [[]|]; auto with keeps.
Qed.

(** A point that begins is the last of the report, under a name of its own. *)
Lemma point_keeps {A} name (first : ProfilingReportMessage) (m : M A) (off : A) :
  p_name first = name ->
  (forall w, web_ok w -> forall r l x, report_msg w = Some r -> profiling r = l ++ [x] -> p_name x = name ->
     web_ok (m w).2) ->
  xkeeps web_ok (b ← begin_point name; if b : bool then _ ← on_profiling (fun _ => first); m else mret off).
Proof.
  intros Hfirst Hm w Hw. pose proof (begin_point_run name w) as Hb.
  destruct (decide (name ∈ active w)) as [Hin|Hin]; [by erewrite xstM_bind_run by exact Hb|].
  destruct Hw as [Hc Hpt]. destruct (report_msg w) as [r|] eqn:Hr.
  - erewrite xstM_bind_run by exact Hb. cbv beta iota.
    erewrite xstM_bind_run by (unfold on_profiling; by apply on_report_run).
    cbn [profiling set_profiling]. rewrite alter_last_app.
    destruct (Hpt r Hr) as [Hnd Hact]. eapply Hm; [|done|done|done]. split.
    + intros i Hi. destruct (Hc i Hi) as (r' & Hr' & Hlt). assert (r' = r) as -> by congruence. by eexists.
    + intros r' [= <-]. cbn. rewrite fmap_app. cbn. rewrite Hfirst. split.
      * apply NoDup_app. split_and!; [done| |by apply NoDup_singleton].
        intros n Hn ->%list_elem_of_singleton. by apply Hin, Hact.
      * intros n [Hn| ->%list_elem_of_singleton]%elem_of_app; [|set_solver]. apply elem_of_union_r, Hact, Hn.
  - erewrite xstM_bind_exc by exact Hb. split; [|intros r; cbn; congruence].
    intros i Hi. destruct (Hc i Hi) as (r' & Hr' & _). congruence.
Qed.

(** The last point is changed and keeps its name. *)
Lemma on_profiling_last f w r l x :
  web_ok w -> report_msg w = Some r -> profiling r = l ++ [x] -> p_name (f x) = p_name x ->
  exists w' r', on_profiling f w = (Ret tt, w') /\ web_ok w' /\ report_msg w' = Some r' /\ profiling r' = l ++ [f x].
Proof.
  intros Hw Hr Hp Hx. exists (set_report (set_profiling (l ++ [f x]) r) w), (set_profiling (l ++ [f x]) r).
  split_and!; [|destruct Hw as [Hc Hpt]; split|done|done].
  - by apply on_profiling_run.
  - intros i Hi. destruct (Hc i Hi) as (r' & Hr' & Hlt). eexists. split; [done|].
    assert (r' = r) as -> by congruence. done.
  - intros r' [= <-]. destruct (Hpt r Hr) as [Hnd Hact]. rewrite Hp, fmap_app in Hnd, Hact.
    cbn. rewrite fmap_app. cbn. cbn in Hnd, Hact. by rewrite Hx.
Qed.

Lemma bind_lift_ok {A B} (m : xres A) (f : A -> M B) w :
  web_ok w -> (forall a, web_ok (f a w).2) -> web_ok ((xlift m ≫= f) w).2.
Proof. intros Hw Hf. unfold mbind, xstM_bind, xlift. by destruct m. Qed.

Lemma AddProfilingDataTimestamp_keeps name s e x y mode :
  xkeeps web_ok (AddProfilingDataTimestamp name s e x y mode).
Proof.
  apply when_enabled_keeps, point_keeps; [done|]. intros w Hw r l p Hr Hp Hn.
  apply bind_lift_ok; [done|]. intros s'.
  edestruct (on_profiling_last (fun _ => mk_profiling name (Some TYPE_TIMESTAMP) mode (Some s') None [] [] [] [] [])
    w r l p Hw Hr Hp) as (w1 & r1 & H1 & Hw1 & Hr1 & Hp1); [done|].
  erewrite xstM_bind_run by exact H1.
  apply bind_lift_ok; [done|]. intros e'.
  edestruct (on_profiling_last (fun _ => mk_profiling name (Some TYPE_TIMESTAMP) mode (Some s') (Some e') [] [] x y [])
    w1 r1 l _ Hw1 Hr1 Hp1) as (w2 & r2 & H2 & Hw2 & _); [done|]. by rewrite H2.
Qed.

Lemma AddProfilingDataVector_keeps name labels values ty options x y mode :
  xkeeps web_ok (AddProfilingDataVector name labels values ty options x y mode).
Proof.
  apply when_enabled_keeps, point_keeps; [done|]. intros w Hw r l p Hr Hp Hn.
  apply bind_lift_ok; [done|]. intros v.
  edestruct (on_profiling_last (fun _ => mk_profiling name (Some ty) mode None None (default [] labels) v x y options)
    w r l p Hw Hr Hp) as (w1 & r1 & H1 & Hw1 & _); [done|]. by rewrite H1.
Qed.

Lemma GenerateReportMessage_keeps requested executed :
  xkeeps web_ok (GenerateReportMessage clock post requested executed).
Proof.
  apply when_enabled_keeps.
  assert (forall names, xkeeps web_ok (add_missing clock names)) as Hmissing.
  { induction names as [|n names IH]; cbn [add_missing]; [keeps|].
    apply xkeeps_bind; [keeps|]. intros t. apply xkeeps_bind; [apply append_case_keeps|by intros]. }
  apply xkeeps_bind; [apply Hmissing|]. intros _. apply xkeeps_bind; [keeps|]. intros t.
  apply xkeeps_bind; [by apply on_report_keeps|]. intros _.
  apply xkeeps_bind; [keeps|]. intros w. apply xkeeps_bind; [keeps|]. intros build.
  apply xkeeps_bind; [keeps|]. intros b. apply xkeeps_bind; [|intros _; keeps].
  destruct b; [|keeps]. apply xkeeps_bind; [keeps|]. intros id. by apply on_report_keeps.
Qed.

Lemma web_run_keeps o w : web_ok w -> web_ok (web_run o w).
Proof.
  intros Hw. destruct o; cbn [web_run].
  - by apply AddTestReport_keeps.
  - by apply SetTestResult_keeps.
  - eapply when_enabled_keeps; [|done]. keeps.
  - eapply when_enabled_keeps; [|done]. induction l as [|d l IH]; cbn [add_api_coverage]; keeps.
  - by apply AddProfilingDataTimestamp_keeps.
  - by apply AddProfilingDataVector_keeps.
  - eapply when_enabled_keeps; [|done]. keeps.
  - eapply when_enabled_keeps; [|done]. destruct urls as [urls|]; [|keeps].
    induction urls as [|u urls IH]; cbn [add_logs]; [keeps|].
    apply xkeeps_bind; [by apply on_report_keeps|by intros].
  - by apply GenerateReportMessage_keeps.
Qed.

(** Whatever is added to a report, and whatever raises on the way, the current
    case stays one of its cases and no profiling point is reported twice. *)
Theorem report_invariant ops w :
  web_ok w -> web_ok (foldl (fun w o => web_run o w) w ops).
Proof. revert w. induction ops as [|o ops IH]; intros w Hw; [done|]. by apply IH, web_run_keeps. Qed.
End invariant.

(** ** Examples *)
Module SampleWeb.
Definition build : list (pystr * pyval) := [(IKEY_BUILD_ID, PStr (bs "42"))].
Definition user_params : params :=
  list_to_map [(IKEY_ENABLE_WEB, PBool true); (IKEY_DASHBOARD_POST_COMMAND, PStr (bs "post"));
    (IKEY_SERVICE_JSON_PATH, PStr (bs "key")); (KEY_TESTBED_NAME, PStr (bs "module"));
    (IKEY_BUILD, PDict build); (IKEY_ANDROID_DEVICE, PList [PDict [(bs "serial", PStr (bs "s1"))]]);
    (IKEY_ABI_NAME, PStr (bs "arm")); (IKEY_ABI_BITNESS, PInt 64); (IKEY_ENABLE_PROFILING, PBool true)].
Definition clock (n : nat) : Z := Z.of_nat n.
Definition web : WebFeature := (WebFeature_init clock (fun _ _ => true) (bs "host") user_params new_web).2.
Definition report : TestReportMessage :=
  mk_report (bs "moduleProfiling") 1 0 None (bs "host")
    [list_to_map [(bs "serial", bs "s1"); (IKEY_ABI_NAME, bs "arm"); (IKEY_ABI_BITNESS, bs "64")]] None [] [] [] [] [].
Definition post (r : TestReportMessage) : xres pystr := Ret (r_test r).
Lemma started : reporting web report.
Proof. vm_compute. split; reflexivity. Qed.
Lemma built : attrs (feature web) !! IKEY_BUILD = Some (PDict build).
Proof. vm_compute. reflexivity. Qed.
End SampleWeb.

Lemma report_lists_every_test_witness :
  let tests := [(bs "a", onPass); (bs "gen", onSilent); (bs "b", onFail)] in
  exists w' r', reporting w' r' /\
    summary r' = [(bs "a", TEST_CASE_RESULT_PASS); (bs "b", TEST_CASE_RESULT_FAIL); (bs "c", TEST_CASE_RESULT_FAIL)].
Proof.
  intros tests.
  destruct (report_lists_every_test SampleWeb.clock SampleWeb.post tests [bs "c"] SampleWeb.web SampleWeb.report
    SampleWeb.build SampleWeb.started eq_refl SampleWeb.built) as (w' & r' & Hw & Hs & _).
  exists w', r'. split; [exact Hw|]. rewrite Hs. reflexivity.
Defined.

Lemma report_invariant_witness :
  web_ok SampleWeb.web /\
  web_ok (foldl (fun w o => web_run SampleWeb.clock [] SampleWeb.post o w) SampleWeb.web
    [WAddTestReport (bs "a"); WAddTimestamp (bs "p") (2 ^ 70) 0 [] [] 2; WAddTimestamp (bs "p") 1 2 [] [] 2;
     WSetTestResult None; WSetTestResult (Some TEST_CASE_RESULT_PASS)]).
Proof.
  assert (web_ok SampleWeb.web) as H.
  { pose proof SampleWeb.started as [_ Hr]. split.
    - intros i Hi. by vm_compute in Hi.
    - intros r Hr'. rewrite Hr in Hr'. injection Hr' as <-. split; [apply NoDup_nil_2|]. intros n Hn. exact (False_ind _ (proj1 (elem_of_nil n) Hn)). }
  split; [exact H|]. by apply report_invariant.
Defined.

(** A URL that is in the report is added again: the [continue] of the inner loop
    does not skip it. *)
Lemma AddLogUrls_duplicates w r u :
  reporting w r -> exists w' r', AddLogUrls (Some [u; u]) w = (Ret tt, w') /\ reporting w' r' /\
    r_log r' = r_log r ++ [mk_log u (basename u); mk_log u (basename u)].
Proof.
  intros H. unfold AddLogUrls. rewrite (when_enabled_run _ _ _ _ H). cbn [add_logs]. destruct H as [He Hr].
  erewrite xstM_bind_run by (by apply on_report_run). erewrite xstM_bind_run by (by apply on_report_run).
  eexists _, _. split; [done|]. split; [done|]. cbn. by rewrite <- app_assoc.
Qed.

(** Executed tests are counted, not compared: a test that ran before an earlier one
    that did not is reported twice, and the other not at all. *)
Lemma missing_by_number :
  let '(x, w') := (_ ← report_tests SampleWeb.clock [(bs "b", onPass)];
      GenerateReportMessage SampleWeb.clock SampleWeb.post [bs "a"; bs "b"] [bs "b"]) SampleWeb.web in
  x = Ret (Some (bs "moduleProfiling")) /\
  (summary <$> report_msg w') = Some [(bs "b", TEST_CASE_RESULT_PASS); (bs "b", TEST_CASE_RESULT_FAIL)].
Proof. vm_compute. split; reflexivity. Qed.

(** When a test was silenced there is no case left to set a result of. *)
Lemma result_after_silence name p w r :
  reporting w r -> Forall decided (test_case r) -> p <> onSilent ->
  exists w', (_ ← AddTestReport SampleWeb.clock name; _ ← hook onSilent; hook p) w = (Exc attribute_error, w').
Proof.
  intros H Hd Hp. destruct (report_test_run SampleWeb.clock name onSilent w r H Hd) as (w1 & r1 & Hr1 & H1 & _).
  apply xstM_bind_Ret in Hr1 as (u & w0 & Ha & Hb). erewrite xstM_bind_run by exact Ha.
  erewrite xstM_bind_run by exact Hb. exists w1.
  assert (current w1 = Some None) as Hc.
  { rewrite (AddTestReport_run _ _ _ _ H) in Ha. injection Ha as _ <-. unfold hook, SetTestResult in Hb.
    rewrite (when_enabled_run _ _ _ (set_test_cases (test_case r ++ [mk_case name UNKNOWN_RESULT
      (SampleWeb.clock (clock_ticks w)) None [] [] []]) r)) in Hb by (by destruct H).
    apply xstM_bind_Ret in Hb as (u' & w2 & _ & Hb). by injection Hb as <-. }
  unfold hook, SetTestResult. rewrite (when_enabled_run _ _ _ _ H1).
  destruct p; try done; unfold on_case; erewrite xstM_bind_run by reflexivity; by rewrite Hc.
Qed.
