(* ===== verification/SancovUtils.v ===== *)
(** * Sanitizer coverage of a device ([src/utils/python/coverage/sancov_utils.py])

    First the vectors of line counts: [_InitializeFileVectors] reads the line table that
    [readelf] prints for a binary and [_UpdateLineCounts] the locations that [addr2line]
    prints for the offsets that were covered; for each file there is a list, negative
    where a line has no code and a count elsewhere.

    Then [SancovFeature], which sets coverage up on a device, fetches the files that it
    writes, has them symbolized and adds the counts to the report of the module.  The
    device, the files of the host and the binary utilities are arguments; so is the
    iteration order of sets and dictionaries. *)

From Stdlib Require Import Strings.Byte.
From S2P Require Import Prelude PyStr PyPath CoverageReport Sancov ListUtils PyVal Signals Mirror CoverageUtils BinaryTest Shell Config Channel TcpClient ResourceMirror WebReport.

Abbreviation vectors := (gmap pystr (list Z)).
Definition colon : Byte.byte := Byte.x3a.

(** [l.extend([x] * n)] *)
Definition extended (l : list Z) (x n : Z) : list Z := l ++ replicate (Z.to_nat n) x.

(** ** [_InitializeFileVectors] *)
Definition set_executable (file : pystr) (line : Z) : xstM vectors unit :=
  file_vectors ← xget;
  let v := match file_vectors !! file with Some v => v | None => extended [] (-1) line end in
  let v := extended v (-2) (line - Z.of_nat (length v)) in
  _ ← xput (<[file := v]> file_vectors);
  v ← xpure (py_set v (line - 1) 0%Z);
  xput (<[file := v]> file_vectors).

(** One line of the table; the result is the file that the next lines are about. *)
Definition read_entry (exclude_paths : list pystr) (file : option pystr) (entry : pystr)
    : xstM vectors (option pystr) :=
  let entry_parts := split_ws entry in
  match last entry_parts with
  | None => mret file
  | Some part =>
      if bool_decide (length entry_parts < 3) && endswith [colon] part then
        let name := hd [] (split [colon] part) in
        mret (if existsb (fun path => startswith path name) exclude_paths then None else Some name)
      else
        match file, entry_parts with
        | Some name, [_; line_no_string; _] =>
            match py_int line_no_string with
            | Ok line => _ ← set_executable name line; mret file
            | Raise _ => mret file
            end
        | _, _ => mret file
        end
  end.
Fixpoint read_entries (exclude_paths : list pystr) (file : option pystr) (entries : list pystr) : xstM vectors unit :=
  match entries with
  | [] => mret tt
  | entry :: entries => file ← read_entry exclude_paths file entry; read_entries exclude_paths file entries
  end.
Definition InitializeFileVectors (exclude_paths entries : list pystr) : xstM vectors unit :=
  read_entries exclude_paths None entries.

(** ** [_UpdateLineCounts] *)

(** The file and the number of a location: [None] for one that is not known. *)
Definition location (line : pystr) : xres (option (pystr * Z)) :=
  if bool_decide (colon ∈ line) then
    let file := rsplit_head colon line in
    if bool_decide (file = bs "??") then Ret None
    else match py_int (after_last colon line) with
         | Ok line_no => Ret (Some (file, line_no))
         | Raise _ => Ret None
         end
  else Exc (EOther Python_ValueError (bs "need more than 1 value to unpack")).
Definition count_line (file : pystr) (line_no : Z) : xstM vectors unit :=
  file_vectors ← xget;
  match file_vectors !! file with
  | None => mret tt
  | Some v =>
      let v := extended v (-1) (line_no - Z.of_nat (length v)) in
      _ ← xput (<[file := v]> file_vectors);
      count ← xpure (py_get v (line_no - 1));
      v ← xpure (py_set v (line_no - 1) ((if count <? 0 then 0 else count) + 1)%Z);
      xput (<[file := v]> file_vectors)
  end.
Fixpoint UpdateLineCounts (lines : list pystr) : xstM vectors unit :=
  match lines with
  | [] => mret tt
  | line :: lines =>
      l ← xlift (location line);
      _ ← match l with None => mret tt | Some (file, line_no) => count_line file line_no end;
      UpdateLineCounts lines
  end.

(** ** What the vectors say *)

(** A line of a file, counted from 1: [None] beyond the vector. *)
Definition line_value (vs : vectors) (file : pystr) (n : Z) : option Z :=
  match vs !! file with Some v => if (0 <? n)%Z then v !! Z.to_nat (n - 1) else None | None => None end.
(** The count of a line that has code, [None] for the others. *)
Definition count_of (vs : vectors) (file : pystr) (n : Z) : option Z :=
  match line_value vs file n with Some x => if (x <? 0)%Z then None else Some x | None => None end.

Lemma lookup_extended l x n i :
  extended l x n !! i = if decide (i < length l) then l !! i
                        else if decide (Z.of_nat i < Z.of_nat (length l) + n)%Z then Some x else None.
Proof.
  unfold extended. destruct (decide (i < length l)) as [Hi|Hi]; [by apply lookup_app_l|].
  rewrite lookup_app_r by lia. destruct (decide _).
  - apply lookup_replicate. split; [done|lia].
  - apply lookup_replicate_None. lia.
Qed.

Lemma length_extended l x n : length (extended l x n) = length l + Z.to_nat n.
Proof. unfold extended. by rewrite length_app, length_replicate. Qed.

Lemma py_set_line {A} (v : list A) n x :
  (0 < n)%Z -> (n <= Z.of_nat (length v))%Z -> py_set v (n - 1) x = Ok (<[Z.to_nat (n - 1) := x]> v).
Proof.
  intros H0 H1. replace (n - 1)%Z with (Z.of_nat (Z.to_nat (n - 1))) at 1 by lia. apply py_set_nat. lia.
Qed.

Lemma py_get_line {A} (v : list A) n : (0 < n)%Z -> py_get v (n - 1) = from_opt IndexError (v !! Z.to_nat (n - 1)).
Proof. intros H. replace (n - 1)%Z with (Z.of_nat (Z.to_nat (n - 1))) at 1 by lia. apply py_get_nat. Qed.

(** A line that has code gets count 0, whatever it was; no other line changes its
    count. *)
Lemma set_executable_run vs file n :
  (0 < n)%Z ->
  exists vs', set_executable file n vs = (Ret tt, vs') /\ dom vs' = {[file]} ∪ dom vs /\
    forall f k, (0 < k)%Z -> count_of vs' f k = if decide (f = file /\ k = n) then Some 0%Z else count_of vs f k.
Proof.
  intros Hn. unfold set_executable. erewrite xstM_bind_run by reflexivity.
  set (v0 := match vs !! file with Some v => v | None => extended [] (-1) n end).
  set (v1 := extended v0 (-2) (n - Z.of_nat (length v0))).
  assert (n <= Z.of_nat (length v1))%Z as Hlen by (subst v1; rewrite length_extended; lia).
  erewrite xstM_bind_run by reflexivity. erewrite xstM_bind_run.
  2: { unfold xpure, xlift. by rewrite py_set_line. }
  eexists. split; [reflexivity|]. split; [by rewrite dom_insert_L|].
  intros f k Hk. unfold count_of, line_value. destruct (decide (f = file)) as [->|Hf].
  - rewrite lookup_insert_eq. rewrite (proj2 (Z.ltb_lt 0 k)) by done.
    destruct (decide (k = n)) as [->|Hkn].
    + rewrite decide_True by done. rewrite list_lookup_insert_eq by lia. done.
    + rewrite decide_False by naive_solver. rewrite list_lookup_insert_ne by lia.
      subst v1. rewrite lookup_extended. subst v0. destruct (vs !! file) as [v|].
      * destruct (decide _); [done|]. rewrite (lookup_ge_None_2 v) by lia. by destruct (decide _).
      * rewrite lookup_extended, length_extended. cbn [length].
        repeat (destruct (decide _); try done).
  - rewrite lookup_insert_ne by done. rewrite decide_False by naive_solver. done.
Qed.

Lemma count_line_run vs file n :
  (0 < n)%Z -> is_Some (vs !! file) ->
  exists vs', count_line file n vs = (Ret tt, vs') /\ dom vs' = dom vs /\
    forall f k, (0 < k)%Z ->
      count_of vs' f k = if decide (f = file /\ k = n) then Some (default 0 (count_of vs f k) + 1)%Z else count_of vs f k.
Proof.
  intros Hn [v Hv]. unfold count_line. erewrite xstM_bind_run by reflexivity. rewrite Hv.
  set (v1 := extended v (-1) (n - Z.of_nat (length v))).
  assert (n <= Z.of_nat (length v1))%Z as Hlen by (subst v1; rewrite length_extended; lia).
  destruct (v1 !! Z.to_nat (n - 1)) as [x|] eqn:Hx; [|apply lookup_ge_None_1 in Hx; lia].
  erewrite xstM_bind_run by reflexivity. erewrite xstM_bind_run.
  2: { unfold xpure, xlift. by rewrite py_get_line, Hx. }
  erewrite xstM_bind_run.
  2: { unfold xpure, xlift. by rewrite py_set_line. }
  eexists. split; [reflexivity|]. split.
  { rewrite dom_insert_L. assert (file ∈ dom vs) by (apply elem_of_dom; by exists v). set_solver. }
  intros f k Hk. unfold count_of, line_value. destruct (decide (f = file)) as [->|Hf].
  - rewrite lookup_insert_eq, Hv. rewrite (proj2 (Z.ltb_lt 0 k)) by done.
    destruct (decide (k = n)) as [->|Hkn].
    + rewrite decide_True by done. rewrite list_lookup_insert_eq by lia.
      subst v1. rewrite lookup_extended in Hx. destruct (decide (Z.to_nat (n - 1) < length v)) as [Hin|Hin].
      * rewrite Hx. destruct (x <? 0)%Z eqn:Hneg; cbn [default]; [done|].
        by rewrite (proj2 (Z.ltb_ge _ 0)) by lia.
      * rewrite (lookup_ge_None_2 v) by lia. destruct (decide _); [|done]. injection Hx as <-. done.
    + rewrite decide_False by naive_solver. rewrite list_lookup_insert_ne by lia.
      subst v1. rewrite lookup_extended. destruct (decide _); [done|]. rewrite (lookup_ge_None_2 v) by lia.
      by destruct (decide _).
  - rewrite lookup_insert_ne by done. by rewrite decide_False by naive_solver.
Qed.

(** ** The line table that [readelf] prints *)
Definition words (ws : list pystr) : pystr := mjoin ((fun w => w ++ bs " ") <$> ws) ++ [Byte.x0a].

(** A file, and its rows: a short name, a line and an address. *)
Abbreviation unit_table := (pystr * list (pystr * Z * pystr))%type.
Definition row_entry (row : pystr * Z * pystr) : pystr := words [row.1.1; str_nat row.1.2; row.2].
Definition table_entries (u : unit_table) : list pystr := words [u.1 ++ [colon]] :: (row_entry <$> u.2).

Definition word_ok (w : pystr) : bool := no_space w && negb (bool_decide (w = [])).
Definition table_ok (u : unit_table) : bool :=
  no_space u.1 && no_byte colon u.1 &&
  forallb (fun row => word_ok row.1.1 && word_ok row.2 && (0 <? row.1.2)%Z) u.2.

Definition excluded (exclude_paths : list pystr) (file : pystr) : bool :=
  existsb (fun path => startswith path file) exclude_paths.
(** The lines that have code, of the files that count. *)
Definition listed (exclude_paths : list pystr) (us : list unit_table) : list (pystr * Z) :=
  mjoin ((fun u : unit_table => if excluded exclude_paths u.1 then [] else (fun row => (u.1, row.1.2)) <$> u.2) <$> us).

Lemma split_words ws : forallb word_ok ws = true -> split_ws (words ws) = ws.
Proof. intros Hw. by apply split_ws_words. Qed.

Lemma no_space_nat n : (0 <= n)%Z -> word_ok (str_nat n) = true.
Proof.
  intros Hn. unfold word_ok. destruct (str_nat_spec n Hn) as (Hd & _ & Hne). apply andb_true_iff. split.
  - apply forallb_forall. intros b Hb. rewrite forallb_forall in Hd. by rewrite digit_not_space by auto.
  - by apply negb_true_iff, bool_decide_eq_false.
Qed.

Lemma read_file_entry exclude old file vs :
  no_space file = true -> no_byte colon file = true ->
  read_entry exclude old (words [file ++ [colon]]) vs =
    (Ret (if excluded exclude file then None else Some file), vs).
Proof.
  intros Hs Hc. unfold read_entry. rewrite split_words.
  2: { cbn. unfold word_ok, no_space. rewrite forallb_app. fold (no_space file). rewrite Hs. by destruct file. }
  cbn [last length]. rewrite endswith_app. cbn [bool_decide andb]. unfold split.
  change (file ++ [colon]) with (file ++ colon :: []). by rewrite split_from_byte.
Qed.

Lemma read_row_entry exclude file row vs :
  word_ok row.1.1 && word_ok row.2 && (0 <? row.1.2)%Z = true ->
  read_entry exclude file (row_entry row) vs =
    match file with
    | None => (Ret None, vs)
    | Some name => (_ ← set_executable name row.1.2; mret file) vs
    end.
Proof.
  destruct row as [[base n] addr]. cbn [fst snd].
  intros [[Hb Ha]%andb_true_iff Hn%Z.ltb_lt]%andb_true_iff.
  unfold read_entry, row_entry. cbn [fst snd]. rewrite split_words.
  2: { cbn [forallb]. by rewrite Hb, Ha, no_space_nat by lia. }
  cbn [last length]. rewrite (bool_decide_false (3 < 3)) by lia. cbn [andb].
  rewrite py_int_str by lia. by destruct file.
Qed.

(** [vs'] comes from [vs] by giving count 0 to the lines of [ls]. *)
Definition marks (ls : list (pystr * Z)) (vs vs' : vectors) : Prop :=
  dom vs' = list_to_set ls.*1 ∪ dom vs /\
  forall f k, (0 < k)%Z -> count_of vs' f k = if decide ((f, k) ∈ ls) then Some 0%Z else count_of vs f k.

Lemma marks_nil vs : marks [] vs vs.
Proof. split; [set_solver|]. intros f k _. rewrite decide_False; [done|]. apply not_elem_of_nil. Qed.

Lemma marks_app l1 l2 vs vs1 vs2 : marks l1 vs vs1 -> marks l2 vs1 vs2 -> marks (l1 ++ l2) vs vs2.
Proof.
  intros [Hd1 H1] [Hd2 H2]. split.
  - rewrite Hd2, Hd1, fmap_app, list_to_set_app_L. set_solver.
  - intros f k Hk. rewrite H2, H1 by done.
    destruct (decide ((f, k) ∈ l2)), (decide ((f, k) ∈ l1)), (decide ((f, k) ∈ l1 ++ l2)); set_solver.
Qed.

Lemma read_rows_run exclude file rows rest vs :
  forallb (fun row => word_ok row.1.1 && word_ok row.2 && (0 <? row.1.2)%Z) rows = true ->
  exists vs', read_entries exclude file ((row_entry <$> rows) ++ rest) vs = read_entries exclude file rest vs' /\
    marks (match file with None => [] | Some f => (fun row => (f, row.1.2)) <$> rows end) vs vs'.
Proof.
  revert vs. induction rows as [|row rows IH]; intros vs Hr.
  { exists vs. split; [done|]. destruct file; apply marks_nil. }
  cbn [forallb] in Hr. apply andb_true_iff in Hr as [Hrow Hr].
  rewrite fmap_cons. cbn [app read_entries]. pose proof (read_row_entry exclude file row vs Hrow) as He.
  destruct file as [f|].
  - assert (0 < row.1.2)%Z as Hn.
    { apply andb_true_iff in Hrow as [_ Hn]. by apply Z.ltb_lt. }
    destruct (set_executable_run vs f row.1.2 Hn) as (vs1 & H1 & Hd1 & Hc1).
    erewrite xstM_bind_run in He by exact H1. erewrite xstM_bind_run by exact He.
    destruct (IH vs1 Hr) as (vs' & H' & Hm'). exists vs'. split; [exact H'|].
    rewrite fmap_cons. apply (marks_app [(f, row.1.2)] _ vs vs1); [|done]. split.
    + rewrite Hd1. set_solver.
    + intros g k Hk. rewrite Hc1 by done.
      destruct (decide (g = f /\ k = row.1.2)) as [[-> ->]|Hne].
      * rewrite decide_True; [done|]. by left.
      * rewrite decide_False; [done|]. intros [= -> ->]%list_elem_of_singleton. by apply Hne.
  - erewrite xstM_bind_run by exact He. by apply IH.
Qed.

Lemma read_units_run exclude file us vs :
  forallb table_ok us = true ->
  exists vs', read_entries exclude file (mjoin (table_entries <$> us)) vs = (Ret tt, vs') /\
    marks (listed exclude us) vs vs'.
Proof.
  revert file vs. induction us as [|u us IH]; intros file vs Hu.
  { exists vs. split; [done|apply marks_nil]. }
  cbn [forallb] in Hu. apply andb_true_iff in Hu as [[[Hs Hc]%andb_true_iff Hr]%andb_true_iff Hu].
  change (mjoin (table_entries <$> u :: us))
    with (words [u.1 ++ [colon]] :: ((row_entry <$> u.2) ++ mjoin (table_entries <$> us))).
  cbn [read_entries]. erewrite xstM_bind_run by (by apply read_file_entry).
  destruct (read_rows_run exclude (if excluded exclude u.1 then None else Some u.1) u.2 (mjoin (table_entries <$> us)) vs Hr)
    as (vs1 & -> & Hm1).
  destruct (IH (if excluded exclude u.1 then None else Some u.1) vs1 Hu) as (vs' & H' & Hm').
  exists vs'. split; [exact H'|]. refine (marks_app _ (listed exclude us) vs vs1 vs' _ Hm').
  by destruct (excluded exclude u.1).
Qed.

(** ** The locations that [addr2line] prints *)
Definition hits (ls : list (option (pystr * Z))) (f : pystr) (k : Z) : nat :=
  length (filter (fun l => l = Some (f, k)) ls).

Lemma UpdateLineCounts_run lines ls vs :
  Forall2 (fun line l => location line = Ret l) lines ls ->
  (forall f k, Some (f, k) ∈ ls -> f ∈ dom vs -> (0 < k)%Z) ->
  exists vs', UpdateLineCounts lines vs = (Ret tt, vs') /\ dom vs' = dom vs /\
    forall f k, (0 < k)%Z -> count_of vs' f k =
      if decide (f ∈ dom vs /\ hits ls f k <> 0) then Some (default 0 (count_of vs f k) + Z.of_nat (hits ls f k))%Z
      else count_of vs f k.
Proof.
  intros Hl. revert vs. induction Hl as [|line l lines ls Hl _ IH]; intros vs Hpos.
  { exists vs. split_and!; [done..|]. intros f k _. rewrite decide_False; [done|]. by intros [_ []]. }
  cbn [UpdateLineCounts]. erewrite xstM_bind_run by (unfold xlift; by rewrite Hl).
  assert (exists vs1, match l with None => mret tt | Some (file, line_no) => count_line file line_no end vs = (Ret tt, vs1) /\
    dom vs1 = dom vs /\ forall f k, (0 < k)%Z -> count_of vs1 f k =
      if decide (f ∈ dom vs /\ l = Some (f, k)) then Some (default 0 (count_of vs f k) + 1)%Z else count_of vs f k)
    as (vs1 & H1 & Hd1 & Hc1).
  { destruct l as [[file n]|].
    - destruct (vs !! file) as [v|] eqn:Hv.
      + destruct (count_line_run vs file n) as (vs1 & H1 & Hd1 & Hc1); [|by exists v|].
        { apply (Hpos file); [by left|]. apply elem_of_dom. by exists v. }
        exists vs1. split_and!; [done..|]. intros f k Hk. rewrite Hc1 by done.
        destruct (decide (f = file /\ k = n)) as [[-> ->]|Hne].
        * rewrite decide_True; [done|]. split; [|done]. apply elem_of_dom. by exists v.
        * rewrite decide_False; [done|]. intros [_ [= -> ->]]. by apply Hne.
      + exists vs. split_and!; [|done|].
        * unfold count_line. erewrite xstM_bind_run by reflexivity. by rewrite Hv.
        * intros f k Hk. rewrite decide_False; [done|]. intros [Hf [= -> ->]].
          by apply elem_of_dom in Hf as [v Hv']; congruence.
    - exists vs. split_and!; [done..|]. intros f k _. rewrite decide_False; [done|]. by intros [_ [=]]. }
  erewrite xstM_bind_run by exact H1.
  destruct (IH vs1) as (vs' & H' & Hd' & Hc').
  { intros f k Hf Hd. apply (Hpos f); [by right|congruence]. }
  exists vs'. split_and!; [exact H'|congruence|]. intros f k Hk. rewrite Hc', Hc1, Hd1 by done.
  unfold hits. rewrite filter_cons. destruct (decide (l = Some (f, k))) as [Heq|Hne]; cbn [length].
  - destruct (decide (f ∈ dom vs)) as [Hf|Hf].
    + rewrite (decide_True (P := f ∈ dom vs /\ l = _)), (decide_True (P := f ∈ dom vs /\ S _ <> 0)) by done.
      destruct (decide _) as [_|Hz]; cbn [from_option id]; f_equal; [lia|].
      assert (length (filter (fun l => l = Some (f, k)) ls) = 0) as -> by (destruct (length _); [done|destruct Hz; done]). lia.
    + by rewrite !decide_False by tauto.
  - rewrite (decide_False (P := f ∈ dom vs /\ l = _)) by tauto. done.
Qed.

(** After the line table of a binary was read into the vectors and the locations
    of its covered offsets were counted, the count of a line with code is the number
    of those locations, a line that is counted but not listed adds to what it was,
    and excluded files stay out. *)
Theorem sancov_counts exclude us lines ls vs :
  forallb table_ok us = true -> Forall2 (fun line l => location line = Ret l) lines ls ->
  (forall f k, Some (f, k) ∈ ls -> (0 < k)%Z) ->
  exists vs', (_ ← InitializeFileVectors exclude (mjoin (table_entries <$> us)); UpdateLineCounts lines) vs = (Ret tt, vs') /\
    dom vs' = list_to_set (listed exclude us).*1 ∪ dom vs /\
    forall f k, (0 < k)%Z -> count_of vs' f k =
      if decide ((f, k) ∈ listed exclude us) then Some (Z.of_nat (hits ls f k))
      else if decide (f ∈ dom vs' /\ hits ls f k <> 0) then Some (default 0 (count_of vs f k) + Z.of_nat (hits ls f k))%Z
      else count_of vs f k.
Proof.
  intros Hu Hl Hpos. destruct (read_units_run exclude None us vs Hu) as (vs1 & H1 & Hd1 & Hc1).
  destruct (UpdateLineCounts_run lines ls vs1 Hl) as (vs' & H' & Hd' & Hc'); [by eauto|].
  exists vs'. split_and!; [|by rewrite Hd', Hd1|].
  { unfold InitializeFileVectors. by erewrite xstM_bind_run by exact H1. }
  intros f k Hk. rewrite Hc', Hc1, <- Hd' by done.
  destruct (decide ((f, k) ∈ listed exclude us)) as [Hin|Hin]; [|done].
  assert (f ∈ dom vs') as Hf.
  { rewrite Hd', Hd1. apply elem_of_union_l, elem_of_list_to_set, list_elem_of_fmap. by exists (f, k). }
  destruct (decide _) as [_|Hz]; cbn [from_option id]; [done|].
  destruct (hits ls f k); [done|]. by destruct Hz.
Qed.

Module SampleTable.
Definition table : list unit_table :=
  [(bs "hardware/a.cpp", [(bs "a.cpp", 3, bs "0x10"); (bs "a.cpp", 5, bs "0x18")]%Z);
   (bs "bionic/b.c", [(bs "b.c", 1, bs "0x20")]%Z)].
Definition lines : list pystr := [bs "hardware/a.cpp:5"; bs "??:0"; bs "hardware/a.cpp:?"; bs "hardware/a.cpp:5"; bs "bionic/b.c:1"].
Definition locations : list (option (pystr * Z)) :=
  [Some (bs "hardware/a.cpp", 5%Z); None; None; Some (bs "hardware/a.cpp", 5%Z); Some (bs "bionic/b.c", 1%Z)].
End SampleTable.

Lemma sancov_counts_witness :
  exists vs', (_ ← InitializeFileVectors [bs "bionic"] (mjoin (table_entries <$> SampleTable.table));
               UpdateLineCounts SampleTable.lines) ∅ = (Ret tt, vs') /\
    count_of vs' (bs "hardware/a.cpp") 5 = Some 2%Z /\ count_of vs' (bs "bionic/b.c") 1 = None.
Proof.
  destruct (sancov_counts [bs "bionic"] SampleTable.table SampleTable.lines SampleTable.locations ∅)
    as (vs' & Hr & Hd & Hc).
  - reflexivity.
  - repeat (constructor; [reflexivity|]). constructor.
  - intros f k Hin. unfold SampleTable.locations in Hin.
    repeat (apply elem_of_cons in Hin as [Hin|Hin]; [first [discriminate Hin|injection Hin as _ ->; lia]|]).
    exact (False_ind _ (proj1 (elem_of_nil _) Hin)).
  - exists vs'. split; [exact Hr|]. split; rewrite Hc by lia; [reflexivity|].
    rewrite decide_False by (refine (bool_decide_eq_false_1 _ _); reflexivity).
    rewrite decide_False; [reflexivity|]. intros [Hin _]. rewrite Hd in Hin. revert Hin.
    refine (bool_decide_eq_false_1 _ _). reflexivity.
Defined.

(** The line table of a second binary starts the counts of its lines again. *)
Lemma second_binary_resets file n vs :
  (0 < n)%Z -> exists vs', set_executable file n vs = (Ret tt, vs') /\ count_of vs' file n = Some 0%Z.
Proof.
  intros Hn. destruct (set_executable_run vs file n Hn) as (vs' & H & _ & Hc). exists vs'. split; [done|].
  rewrite Hc by done. by rewrite decide_True.
Qed.

(** [addr2line] prints a discriminator after some locations; the code splits its
    output at blanks, and the piece without a colon raises. *)
Lemma discriminator_raises vs :
  exists e, (UpdateLineCounts (split_ws (bs "a.cpp:5 (discriminator 2)")) vs).1 = Exc e.
Proof.
  change (split_ws (bs "a.cpp:5 (discriminator 2)")) with [bs "a.cpp:5"; bs "(discriminator"; bs "2)"].
  cbn [UpdateLineCounts].
  change (location (bs "a.cpp:5")) with (Ret (Some (bs "a.cpp", 5%Z)) : xres (option (pystr * Z))).
  erewrite xstM_bind_run by reflexivity. cbv beta iota.
  unfold mbind, xstM_bind. destruct (count_line (bs "a.cpp") 5 vs) as [[u|e] vs1]; [|by exists e].
  eexists. reflexivity.
Qed.

(** Line 0, which [addr2line] prints when it knows the file only, counts for the last
    line of the file. *)
Lemma line_zero_counts_last v file :
  v <> [] ->
  let n := length v - 1 in
  exists vs', count_line file 0 {[file := v]} = (Ret tt, vs') /\
    vs' !! file = Some (<[n := (Z.max 0 (nth n v 0) + 1)%Z]> v).
Proof.
  intros Hv n. subst n. unfold count_line. erewrite xstM_bind_run by reflexivity. rewrite lookup_singleton_eq.
  assert (extended v (-1) (0 - Z.of_nat (length v)) = v) as ->.
  { unfold extended. replace (Z.to_nat _) with 0 by lia. by rewrite app_nil_r. }
  erewrite xstM_bind_run by reflexivity.
  destruct (v !! (length v - 1)) as [x|] eqn:Hx.
  2: { apply lookup_ge_None_1 in Hx. destruct v; [done|]. cbn in Hx. lia. }
  assert (0 < length v) as Hpos by (destruct v; [done|cbn; lia]).
  erewrite xstM_bind_run.
  2: { unfold xpure, xlift, py_get. change (0 - 1 <? 0)%Z with true. cbv iota zeta. rewrite (proj2 (Z.ltb_ge _ 0)) by lia.
       replace (Z.to_nat _) with (length v - 1) by lia. by rewrite Hx. }
  erewrite xstM_bind_run.
  2: { unfold xpure, xlift, py_set. change (0 - 1 <? 0)%Z with true. cbv iota zeta. rewrite (proj2 (Z.ltb_ge _ 0)) by lia.
       rewrite (proj2 (Z.leb_gt (Z.of_nat (length v)) _)) by lia. cbn [orb].
       by replace (Z.to_nat _) with (length v - 1) by lia. }
  eexists. split; [reflexivity|]. rewrite lookup_insert_eq. do 2 f_equal.
  rewrite (nth_lookup_Some v _ _ x Hx). destruct (x <? 0)%Z eqn:Hneg; lia.
Qed.

(** ** The feature of a device *)
Definition IKEY_ENABLE_SANCOV : pystr := bs "enable_sancov".
Definition IKEY_SERIAL : pystr := bs "serial".
Definition IKEY_SANCOV_RESOURCES_PATH : pystr := bs "sancov_resources_path".
Definition TARGET_SANCOV_PATH : pystr := bs "/data/misc/trace".
Definition BUILD_INFO : pystr := bs "BUILD_INFO".
Definition SYMBOLS_ZIP : pystr := bs "symbols.zip".
Definition SANCOV_EXCLUDE_PATHS : list pystr :=
  [bs "bionic"; bs "external/libcxx"; bs "system/core"; bs "system/libhidl"].
Definition SEARCH_PATHS : list (pystr * option Z) :=
  [(bs "data/asan/vendor/bin", None); (bs "vendor/bin", None);
   (bs "data/asan/vendor/lib", Some 32%Z); (bs "vendor/lib", Some 32%Z);
   (bs "data/asan/vendor/lib64", Some 64%Z); (bs "vendor/lib64", Some 64%Z)].

Record SancovFeature := mk_sancov_feature {
  sf_feature : Feature;
  device_resource_dict : gmap pystr pystr;
  file_vectors : gmap pystr vectors;
  sf_exclude_paths : list pystr;
}.

(** [device.get(key)], as a string. *)
Definition get_str (device : pyval) (key : pystr) : pyres pystr :=
  match device with
  | PDict d => Ok (str_val (default PNone ((list_to_map d : params) !! key)))
  | _ => Raise AttributeError
  end.
Definition add_resource (d : gmap pystr pystr) (device : pyval) : pyres (gmap pystr pystr) :=
  serial ← get_str device IKEY_SERIAL;
  sancov_resource_path ← get_str device IKEY_SANCOV_RESOURCES_PATH;
  Ok (if bool_decide (serial = [] \/ sancov_resource_path = []) then d
      else <[serial := sancov_resource_path]> d).
Definition new_SancovFeature (user_params : params) (exclude_paths : list pystr) : pyres SancovFeature :=
  let f := ParseParameters (Some IKEY_ENABLE_SANCOV) [IKEY_ANDROID_DEVICE] [] user_params new_feature in
  if enabled f then
    android_devices ← attribute f IKEY_ANDROID_DEVICE;
    let f := match android_devices with PList _ => f | _ => set_enabled false f end in
    devices ← iterate android_devices;
    d ← foldlM_py add_resource ∅ devices;
    Ok (mk_sancov_feature f d ∅ exclude_paths)
  else Ok (mk_sancov_feature f ∅ ∅ exclude_paths).

(** [s.rsplit(c, 2)] *)
Definition rsplit2 (c : Byte.byte) (s : pystr) : list pystr :=
  if bool_decide (c ∈ s) then
    let rest := rsplit_head c s in
    if bool_decide (c ∈ rest) then [rsplit_head c rest; after_last c rest; after_last c s]
    else [rest; after_last c s]
  else [s].

(** ['{0:#x}'.format(n)] of a natural number. *)
Fixpoint hex_digits (fuel : nat) (n : Z) : pystr :=
  match fuel with
  | 0 => [hex_digit (n mod 16)]
  | S fuel => if (n <? 16)%Z then [hex_digit n] else hex_digits fuel (n / 16) ++ [hex_digit (n mod 16)]
  end.
Definition hex_str (n : Z) : pystr := bs "0x" ++ hex_digits (Z.to_nat (Z.log2 n)) n.

(** ** The feature and what it talks to *)
Record sancov_world (S : Type) := mk_sancov_world { device : S; self : SancovFeature; web : option WebFeature }.
Arguments mk_sancov_world {_} _ _ _.
Arguments device {_} _.
Arguments self {_} _.
Arguments web {_} _.

Section sancov.
Context {S : Type}.
Abbreviation M := (xstM (sancov_world S)).

(** The shell of the device, and the content of a file that is pulled. *)
Context (adb_shell adb_pull : pystr -> xstM S pystr).
(** An archive of the host: the names in it with their contents.  The line table
    of a binary, and the locations of addresses in it. *)
Context (zip_items : pystr -> xres (list (pystr * pystr))) (readelf : pystr -> list pystr)
  (addr2line : pystr -> list pystr -> pystr).
(** The projects of a build information file, in the order of its dictionary. *)
Context (repo_dict : pystr -> xres (list (pystr * pystr))) (cwd : pystr).
Context (set_order : list pystr -> list pystr) (dict_order : forall A, gmap pystr A -> list (pystr * A)).

Definition on_device {A} (m : xstM S A) : M A := fun w =>
  let '(r, d) := m (device w) in (r, mk_sancov_world d (self w) (web w)).
Definition set_self (s : SancovFeature) : M unit := xmodify (fun w => mk_sancov_world (device w) s (web w)).
Definition on_vectors {A} (serial : pystr) (m : xstM vectors A) : M A := fun w =>
  let s := self w in
  match file_vectors s !! serial with
  | None => (Exc (EOther Python_KeyError serial), w)
  | Some vs =>
      let '(r, vs) := m vs in
      (r, mk_sancov_world (device w)
            (mk_sancov_feature (sf_feature s) (device_resource_dict s) (<[serial := vs]> (file_vectors s)) (sf_exclude_paths s)) (web w))
  end.
Definition on_web {A} (default_value : A) (m : xstM WebFeature A) : M A := fun w =>
  match web w with
  | None => (Ret default_value, w)
  | Some f => let '(r, f) := m f in (r, mk_sancov_world (device w) (self w) (Some f))
  end.
Definition shell (cmd : pystr) : M pystr := on_device (adb_shell cmd).

Fixpoint for_each {A} (l : list A) (f : A -> M unit) : M unit :=
  match l with [] => mret tt | a :: l => _ ← f a; for_each l f end.

(** ** Setting up and flushing *)
Definition GETPROP_SERIAL : pystr := bs "getprop ro.serialno".

Definition quote : pystr := [Byte.x22].
Definition process_init_command (process_name hal : pystr) : pystr :=
  let dir := TARGET_SANCOV_PATH ++ bs "/" ++ hal in
  quote ++ bs "echo coverage=1 > /data/asan/system/asan.options." ++ process_name ++ bs " && echo coverage_dir=" ++ dir ++
  bs " >> /data/asan/system/asan.options." ++ process_name ++ bs " && rm -rf " ++ dir ++ bs " &&mkdir " ++ dir ++
  bs " && killall " ++ process_name ++ quote.

(** [cmd.format(arg)]; a field that is not the first argument raises. *)
Fixpoint format1 (arg cmd : pystr) : pyres pystr :=
  match cmd with
  | [] => Ok []
  | Byte.x7b :: Byte.x7b :: cmd => s ← format1 arg cmd; Ok (Byte.x7b :: s)
  | Byte.x7d :: Byte.x7d :: cmd => s ← format1 arg cmd; Ok (Byte.x7d :: s)
  | Byte.x7b :: Byte.x7d :: cmd | Byte.x7b :: Byte.x30 :: Byte.x7d :: cmd => s ← format1 arg cmd; Ok (arg ++ s)
  | Byte.x7b :: _ | Byte.x7d :: _ => Raise ValueError
  | b :: cmd => s ← format1 arg cmd; Ok (b :: s)
  end.

(** [try: m; except AdbError: log]. *)
Definition ignoring_adb_error (m : M unit) : M unit :=
  r ← xattempt m;
  match r with
  | Ret _ => mret tt
  | Exc e => if isinstance e AdbError then mret tt else xlift (Exc e)
  end.

Definition is_number (s : pystr) : bool := negb (bool_decide (s = [])) && forallb is_digit s.
Definition hal_pids (out : pystr) : pyres (list pystr) :=
  pids ← mapM_py (fun entry => py_get (split_ws entry) (-1)) (splitlines false out);
  Ok (set_order (remove_dups (strip <$> filter (fun pid => is_number pid = true) pids))).
Definition hal_processes (out : pystr) : list pystr :=
  set_order (remove_dups (strip <$>
    filter (fun name => strip name <> [] /\ endswith (bs " (deleted)") name = false) (splitlines false out))).

Definition start_process (hal process_name : pystr) : M unit :=
  ignoring_adb_error (
    cmd ← xpure (format1 process_name (process_init_command process_name hal));
    _ ← shell cmd; mret tt).
(** A HAL without a process ends the loop. *)
Fixpoint initialize_hals (hals : list pystr) : M unit :=
  match hals with
  | [] => mret tt
  | hal :: hals =>
      out ← shell (bs "lshal -itp 2> /dev/null | grep " ++ hal);
      pids ← xpure (hal_pids out);
      match pids with
      | [] => mret tt
      | _ =>
          out ← shell (bs "ps -p " ++ join_with (bs " ") pids ++ bs " -o comm=");
          match hal_processes out with
          | [] => mret tt
          | names => _ ← for_each names (start_process hal); initialize_hals hals
          end
      end
  end.
Definition InitializeDeviceCoverage (hals : list pystr) : M unit :=
  out ← shell GETPROP_SERIAL;
  w ← xget;
  match device_resource_dict (self w) !! strip out with
  | None => mret tt
  | Some _ => initialize_hals hals
  end.

Definition FlushDeviceCoverage (hals : list pystr) : M unit :=
  out ← shell GETPROP_SERIAL;
  w ← xget;
  match device_resource_dict (self w) !! strip out with
  | None => mret tt
  | Some _ => for_each hals (fun hal => _ ← shell (bs "/data/local/tmp/vts_coverage_configure flush " ++ hal); mret tt)
  end.

(** ** Fetching and counting *)
Abbreviation offsets_dict := (gmap pystr (Z * list Z)).

Fixpoint find_sancov_files (hals : list pystr) : M (list pystr) :=
  match hals with
  | [] => mret []
  | hal :: hals =>
      out ← shell (bs "find " ++ TARGET_SANCOV_PATH ++ bs "/" ++ hal ++ bs " -name " ++ quote ++ bs "*.sancov" ++ quote);
      l ← find_sancov_files hals;
      mret (splitlines false out ++ l)
  end.
Fixpoint fetch_offsets (files : list pystr) (binary_to_sancov : offsets_dict) : M offsets_dict :=
  match files with
  | [] => mret binary_to_sancov
  | file :: files =>
      content ← on_device (adb_pull file);
      match rsplit2 Byte.x2e (basename file) with
      | [binary; _; _] =>
          offsets ← xpure (ParseSancovFile content);
          fetch_offsets files (<[binary := offsets]> binary_to_sancov)
      | _ => xlift (Exc value_error)
      end
  end.

Definition symbolize (serial : pystr) (source : pystr) (offsets : list Z) : M unit :=
  w ← xget;
  _ ← on_vectors serial (InitializeFileVectors (sf_exclude_paths (self w)) (readelf source));
  on_vectors serial (UpdateLineCounts (split_ws (addr2line source (hex_str <$> offsets)))).

Definition bitness_fits (bitness : option Z) (found : Z) : bool :=
  match bitness with None => true | Some b => bool_decide (found = b) end.
(** A binary is symbolized once: its offsets are dropped. *)
Definition symbolize_name (serial : pystr) (bitness : option Z) (item : pystr * pystr) (d : offsets_dict) : M offsets_dict :=
  match d !! basename item.1 with
  | Some (found, offsets) =>
      if bitness_fits bitness found then _ ← symbolize serial item.2 offsets; mret (delete (basename item.1) d)
      else mret d
  | None => mret d
  end.
Fixpoint symbolize_names (serial : pystr) (bitness : option Z) (items : list (pystr * pystr)) (d : offsets_dict) : M offsets_dict :=
  match items with
  | [] => mret d
  | i :: items => d ← symbolize_name serial bitness i d; symbolize_names serial bitness items d
  end.
Fixpoint search_paths (serial search_root : pystr) (symbols : list (pystr * pystr)) (searched : list (pystr * option Z))
    (d : offsets_dict) : M offsets_dict :=
  match searched with
  | [] => mret d
  | (path, bitness) :: searched =>
      d ← symbolize_names serial bitness (filter (fun i => startswith (path_join2 search_root path) i.1 = true) symbols) d;
      search_paths serial search_root symbols searched d
  end.

Definition ProcessDeviceCoverage (hals : list pystr) : M unit :=
  out ← shell GETPROP_SERIAL;
  product ← shell (bs "getprop ro.build.product");
  let serial := strip out in
  w ← xget;
  match device_resource_dict (self w) !! serial with
  | None => mret tt
  | Some resource_path =>
      let s := self w in
      _ ← (if decide (is_Some (file_vectors s !! serial)) then mret tt
           else set_self (mk_sancov_feature (sf_feature s) (device_resource_dict s)
                            (<[serial := ∅]> (file_vectors s)) (sf_exclude_paths s)));
      symbols ← xlift (zip_items (path_join2 resource_path SYMBOLS_ZIP));
      files ← find_sancov_files hals;
      d ← fetch_offsets files ∅;
      _ ← for_each hals (fun hal => _ ← shell (bs "rm -rf " ++ TARGET_SANCOV_PATH ++ bs "/" ++ hal); mret tt);
      let search_root := path_join (bs "out") [bs "target"; bs "product"; strip product; bs "symbols"] in
      _ ← search_paths serial search_root symbols SEARCH_PATHS d;
      mret tt
  end.

(** ** [Upload] *)
Definition covered_lines (v : list Z) : Z := foldr Z.add 0%Z ((fun count => if 0 <? count then 1 else 0)%Z <$> v).
Definition total_lines (v : list Z) : Z := foldr Z.add 0%Z ((fun count => if 0 <=? count then 1 else 0)%Z <$> v).

Definition upload_file (rev_map : list (pystr * pystr)) (source : pystr * list Z) : xstM WebFeature unit :=
  let '(file, v) := source in
  match find_project file rev_map with
  | None => mret tt
  | Some (git_project_name, git_project_path, revision) =>
      if decide (revision = []) then mret tt
      else AddCoverageReport cwd v file git_project_name git_project_path revision (covered_lines v) (total_lines v) true
  end.
Fixpoint upload_files (rev_map : list (pystr * pystr)) (sources : list (pystr * list Z)) : xstM WebFeature unit :=
  match sources with
  | [] => mret tt
  | s :: sources => _ ← upload_file rev_map s; upload_files rev_map sources
  end.
Definition upload_device (d : pystr * pystr) : M unit :=
  rev_map ← xlift (repo_dict (path_join2 d.2 BUILD_INFO));
  w ← xget;
  vs ← xlift (match file_vectors (self w) !! d.1 with Some vs => Ret vs | None => Exc (EOther Python_KeyError d.1) end);
  on_web tt (upload_files rev_map (dict_order _ vs)).
Definition Upload : M unit :=
  w ← xget;
  match web w with
  | Some f => if enabled (feature f) then for_each (dict_order _ (device_resource_dict (self w))) upload_device else mret tt
  | None => mret tt
  end.
End sancov.

(** ** The report *)
Lemma lines_stats v : GetCoverageStats v = (total_lines v, covered_lines v).
Proof.
  unfold GetCoverageStats. rewrite GetCoverageStats_fold. unfold total_lines, covered_lines.
  induction v as [|x v IH]; [done|]. rewrite !filter_cons, !fmap_cons. cbn [foldr].
  injection IH as IHt IHc. f_equal.
  - destruct (Z.leb_spec 0 x); [rewrite decide_True by done|rewrite decide_False by lia]; cbn [length]; lia.
  - destruct (Z.ltb_spec 0 x); [rewrite decide_True by done|rewrite decide_False by lia]; cbn [length]; lia.
Qed.

(** The counts and the numbers of lines that fit into the fields of a message. *)
Definition vector_fits (v : list Z) : Prop :=
  (Z.of_nat (length v) < 2 ^ 31)%Z /\ Forall (fun z => - 2 ^ 63 <= z <= 2 ^ 63 - 1)%Z v.

Lemma vector_stats_fit v :
  vector_fits v -> (- 2 ^ 31 <= total_lines v <= 2 ^ 31 - 1)%Z /\ (- 2 ^ 31 <= covered_lines v <= 2 ^ 31 - 1)%Z.
Proof.
  intros [Hl _]. pose proof (GetCoverageStats_spec v) as (_ & Hb & Hn). rewrite lines_stats in Hb, Hn.
  cbn [fst snd] in Hb, Hn. lia.
Qed.

Lemma upload_files_run cwd rev_map sources w r ms :
  reporting w r -> Forall (fun s => vector_fits s.2) sources ->
  foldlM_py (report_source cwd rev_map) (r_coverage r) sources = Ok ms ->
  upload_files cwd rev_map sources w = (Ret tt, set_report (set_r_coverage ms r) w).
Proof.
  intros H Hf. revert w r H. induction Hf as [|[file v] sources Hv _ IH]; intros w r H Hms; cbn [upload_files].
  { injection Hms as <-. destruct w, r, H as [_ Hr]. cbn in Hr. subst. done. }
  cbn [foldlM_py] in Hms. apply pyres_bind_Ok in Hms as (ms1 & H1 & H2).
  unfold report_source in H1. unfold upload_file.
  destruct (find_project file rev_map) as [[[name path] revision]|].
  - destruct (decide (revision = [])) as [Hrev|Hrev].
    + injection H1 as <-. erewrite xstM_bind_run by reflexivity. by apply IH.
    + cbn [fst snd] in Hv. rewrite lines_stats in H1. apply pyres_bind_Ok in H1 as (rel & Hrel & [= <-]).
      destruct (vector_stats_fit v Hv) as [Ht Hc].
      erewrite xstM_bind_run by (by apply (AddCoverageReport_run cwd v file name path revision _ _ rel w r H Ht Hc (proj2 Hv) Hrel)).
      etrans; [apply (IH _ (set_r_coverage (r_coverage r ++ [mk_coverage (total_lines v) (covered_lines v) v rel revision name]) r));
        [by destruct H|exact H2]|done].
  - injection H1 as <-. erewrite xstM_bind_run by reflexivity. by apply IH.
Qed.

(** C23: Uploading the vectors of a device adds the messages to the report that the
    coverage of gcov files gives for the same vectors: the same projects and
    revisions, paths and statistics, in the same order. *)
Theorem upload_files_as_gcov cwd rev_map sources w r ms :
  reporting w r -> Forall (fun s => vector_fits s.2) sources ->
  foldlM_py (report_source cwd rev_map) (r_coverage r) sources = Ok ms ->
  upload_files cwd rev_map sources w = (Ret tt, set_report (set_r_coverage ms r) w).
Proof. apply upload_files_run. Qed.

Lemma upload_files_as_gcov_witness :
  let sources := [(bs "vendor/a/x.cc", [-1; 3; 0]%Z); (bs "other.cc", [1]%Z)] in
  exists w', upload_files (bs "/w") [(bs "vendor/a", bs "r1")] sources SampleWeb.web = (Ret tt, w') /\
    (r_coverage <$> report_msg w') = Some [mk_coverage 2 1 [-1; 3; 0] (bs "x.cc") (bs "r1") (bs "vendor/a")]%Z.
Proof.
  intros sources. eexists. split.
  - apply (upload_files_as_gcov (bs "/w") [(bs "vendor/a", bs "r1")] sources SampleWeb.web SampleWeb.report
      [mk_coverage 2 1 [-1; 3; 0] (bs "x.cc") (bs "r1") (bs "vendor/a")]%Z SampleWeb.started).
    + repeat constructor; cbn; lia.
    + vm_compute. reflexivity.
  - reflexivity.
Defined.

(** Values that are missing are turned into strings before the check that looks for
    them: a device without resources gets the path None. *)
Lemma missing_resources ps :
  exists s, new_SancovFeature (<[IKEY_ENABLE_SANCOV := PBool true]>
      (<[IKEY_ANDROID_DEVICE := PList [PDict [(IKEY_SERIAL, PStr (bs "s1"))]]]> ps)) SANCOV_EXCLUDE_PATHS = Ok s /\
    device_resource_dict s !! bs "s1" = Some (bs "None").
Proof.
  eexists. split.
  - unfold new_SancovFeature, ParseParameters. cbn [IKEY_ENABLE_SANCOV].
    change (bs "enable_sancov") with IKEY_ENABLE_SANCOV. rewrite lookup_insert_eq. cbn [truthy negb set_required].
    rewrite lookup_insert_ne by done. rewrite lookup_insert_eq. reflexivity.
  - reflexivity.
Qed.

(** The first HAL without a process ends the set-up: the HALs after it are not
    reached. *)
Lemma hal_without_process_stops {S} adb_shell set_order hal hals (w : sancov_world S) d :
  set_order [] = [] -> adb_shell (bs "lshal -itp 2> /dev/null | grep " ++ hal) (device w) = (Ret [], d) ->
  initialize_hals adb_shell set_order (hal :: hals) w = (Ret tt, mk_sancov_world d (self w) (web w)).
Proof.
  intros Ho Hs. cbn [initialize_hals]. erewrite xstM_bind_run.
  2: { unfold shell, on_device. by rewrite Hs. }
  erewrite xstM_bind_run; [|unfold xpure, xlift, hal_pids; cbn; by rewrite Ho]. done.
Qed.
