(* ===== verification/GenePool.v ===== *)
(** * Evolutionary fuzzing ([src/utils/python/fuzzer/GenePool.py] and [FuzzerUtils.py])

    A pool of test inputs evolves: inputs that reached something new are mutated
    several times, the others are mutated rarely.  What is known to be reached is
    the state of [Evolution].  The generator and the fuzzer are arguments that may
    draw random numbers; a source of random numbers is a sequence of which the
    state holds the rest. *)

From Stdlib Require Import Strings.Byte.
From S2P Require Import Prelude PyStr.

Definition REPLICATION_COUNT_IF_NEW_COVERAGE_IS_SEEN : nat := 5.
Definition REPLICATION_PARAM_IF_NO_COVERAGE_IS_SEEN : Z := 10.

(** [random.randint(a, b)]: the next number, brought into the range. *)
Definition rand := nat -> Z.
Definition randint (a b : Z) : stM rand Z := fun r =>
  if (b <? a)%Z then Raise ValueError else Ok ((a + r 0%nat mod (b - a + 1))%Z, fun n => r (S n)).

(** ** Masks ([FuzzerUtils.py]) *)
Definition mask_uint32_t : stM rand Z := shifter ← randint 0 31; mret (Z.shiftl 1 shifter).
Definition mask_int32_t : stM rand Z := mask_uint32_t.

(** A mask has one bit of 32. *)
Lemma mask_uint32_t_spec r : exists k r', (0 <= k < 32)%Z /\ mask_uint32_t r = Ok ((2 ^ k)%Z, r').
Proof.
  exists (r 0%nat mod 32)%Z, (fun n => r (S n)). split; [apply Z.mod_pos_bound; lia|].
  unfold mask_uint32_t, mbind, stM_bind, randint. cbn -[Z.shiftl Z.modulo Z.pow].
  rewrite Z.shiftl_1_l. by rewrite Z.add_0_l.
Qed.

Section evolution.
Context {Gene Entity : Type} `{Countable Entity}.

Record Evolution := mk_evolution {
  coverages_database : list Entity;
  alpha : nat;
  beta : Z;
}.
Definition new_Evolution : Evolution :=
  mk_evolution [] REPLICATION_COUNT_IF_NEW_COVERAGE_IS_SEEN REPLICATION_PARAM_IF_NO_COVERAGE_IS_SEEN.

Context (generator : stM rand Gene) (fuzzer : Gene -> stM rand Gene).

Fixpoint CreateGenePool (count : nat) : stM rand (list Gene) :=
  match count with
  | 0 => mret []
  | S count => gene ← generator; g ← fuzzer gene; genes ← CreateGenePool count; mret (g :: genes)
  end.

(** With [add]: the entities that are new, in order, one for each time they occur. *)
Definition IsNewCoverage (self : Evolution) (coverage : list Entity) (add : bool) : bool * Evolution :=
  let new := filter (fun entity => entity ∉ coverages_database self) coverage in
  (negb (bool_decide (length new = 0)),
   if add then mk_evolution (coverages_database self ++ new) (alpha self) (beta self) else self).

(** [fuzzer] applied [n] times to one gene. *)
Fixpoint replicate_gene (n : nat) (gene : Gene) : stM rand (list Gene) :=
  match n with
  | 0 => mret []
  | S n => g ← fuzzer gene; l ← replicate_gene n gene; mret (g :: l)
  end.
Definition evolve_gene (self : Evolution) (gene : Gene) (coverage : list Entity) : stM rand (list Gene * Evolution) :=
  let '(new, self) := IsNewCoverage self coverage true in
  if new then l ← replicate_gene (alpha self) gene; mret (l, self)
  else
    k ← randint 0 (beta self);
    if (k =? 1)%Z then g ← fuzzer gene; mret ([g], self) else mret ([], self).
Fixpoint evolve_covered (self : Evolution) (pool : list (Gene * list Entity)) : stM rand (list Gene * Evolution) :=
  match pool with
  | [] => mret ([], self)
  | (gene, coverage) :: pool =>
      '(l, self) ← evolve_gene self gene coverage;
      '(l', self) ← evolve_covered self pool;
      mret (l ++ l', self)
  end.
Fixpoint mutate_all (genes : list Gene) : stM rand (list Gene) :=
  match genes with
  | [] => mret []
  | gene :: genes => g ← fuzzer gene; l ← mutate_all genes; mret (g :: l)
  end.
(** [coverages] is [None] or a list; both are false when they are empty. *)
Definition Evolve (self : Evolution) (genes : list Gene) (coverages : option (list (list Entity)))
    : stM rand (list Gene * Evolution) :=
  match coverages with
  | None | Some [] => l ← mutate_all genes; mret (l, self)
  | Some coverages => evolve_covered self (zip genes coverages)
  end.

(** ** The size of a pool *)
Definition known (self : Evolution) : gset Entity := list_to_set (coverages_database self).

Lemma IsNewCoverage_known self coverage :
  let '(new, self') := IsNewCoverage self coverage true in
  known self' = known self ∪ list_to_set coverage /\ alpha self' = alpha self /\ beta self' = beta self /\
  (if new then size (known self) < size (known self') else known self' = known self).
Proof.
  unfold IsNewCoverage, known. cbn [coverages_database alpha beta].
  set (new := filter (fun entity => entity ∉ coverages_database self) coverage).
  assert (forall x, x ∈ new <-> (x ∉ coverages_database self) /\ x ∈ coverage) as Hnew.
  { intros x. unfold new. by rewrite list_elem_of_filter. }
  assert (list_to_set (coverages_database self ++ new) = list_to_set (coverages_database self) ∪ (list_to_set coverage : gset Entity)) as Hk.
  { apply set_eq. intros x. rewrite elem_of_union, !elem_of_list_to_set, elem_of_app, Hnew.
    destruct (decide (x ∈ coverages_database self)); tauto. }
  split; [done|]. split; [done|]. split; [done|].
  destruct (bool_decide (length new = 0)) eqn:Hz; cbn [negb].
  - apply bool_decide_eq_true, nil_length_inv in Hz. by rewrite Hz, app_nil_r.
  - apply bool_decide_eq_false in Hz. apply subset_size. destruct new as [|x l]; [done|].
    rewrite list_to_set_app_L. split; [set_solver|]. intros Hsub.
    destruct (Hnew x) as [[Hx _] _]; [by left|]. apply Hx.
    apply (elem_of_list_to_set (C := gset Entity)), Hsub, elem_of_union_r, elem_of_list_to_set. by left.
Qed.

Lemma replicate_gene_length n gene r l r' : replicate_gene n gene r = Ok (l, r') -> length l = n.
Proof.
  revert r l r'. induction n as [|n IH]; intros r l r'; cbn [replicate_gene]; [by intros [= <- <-]|].
  intros (g & r1 & _ & (k & r2 & Hk & [= <- <-])%stM_bind_Ok)%stM_bind_Ok. cbn. f_equal. by eapply IH.
Qed.

Lemma evolve_gene_size self gene coverage r l self' r' :
  evolve_gene self gene coverage r = Ok ((l, self'), r') ->
  alpha self' = alpha self /\ known self' = known self ∪ list_to_set coverage /\
  length l + alpha self * size (known self) <= 1 + alpha self * size (known self').
Proof.
  unfold evolve_gene. pose proof (IsNewCoverage_known self coverage) as Hk.
  destruct (IsNewCoverage self coverage true) as [new self1]. destruct Hk as (Hk & Ha & _ & Hn). destruct new.
  - intros (k & r1 & Hl%replicate_gene_length & [= <- <- <-])%stM_bind_Ok. split_and!; [done|done|].
    rewrite Hl, Ha. nia.
  - intros (z & r1 & _ & Hz)%stM_bind_Ok. destruct (z =? 1)%Z.
    + apply stM_bind_Ok in Hz as (g & r2 & _ & [= <- <- <-]). split_and!; [done|done|rewrite Hn; cbn; lia].
    + injection Hz as <- <- <-. split_and!; [done|done|rewrite Hn; cbn; lia].
Qed.

Lemma evolve_covered_size self pool r l self' r' :
  evolve_covered self pool r = Ok ((l, self'), r') ->
  alpha self' = alpha self /\ known self' = known self ∪ list_to_set (mjoin pool.*2) /\
  length l + alpha self * size (known self) <= length pool + alpha self * size (known self').
Proof.
  revert self r l self' r'. induction pool as [|[gene coverage] pool IH]; intros self r l self' r'; cbn [evolve_covered].
  { intros [= <- <- <-]. split_and!; [done|cbn; set_solver|cbn; lia]. }
  intros ([l1 self1] & r1 & H1 & ([l2 self2] & r2 & H2 & [= <- <- <-])%stM_bind_Ok)%stM_bind_Ok.
  destruct (evolve_gene_size _ _ _ _ _ _ _ H1) as (Ha1 & Hk1 & Hs1). destruct (IH _ _ _ _ _ H2) as (Ha2 & Hk2 & Hs2).
  split_and!; [congruence| |].
  - rewrite Hk2, Hk1. cbn. rewrite list_to_set_app_L. set_solver.
  - rewrite length_app. cbn [length]. rewrite Ha1 in Hs2. lia.
Qed.

Lemma mutate_all_length genes r l r' : mutate_all genes r = Ok (l, r') -> length l = length genes.
Proof.
  revert r l r'. induction genes as [|g genes IH]; intros r l r'; cbn [mutate_all]; [by intros [= <- <-]|].
  intros (x & r1 & _ & (k & r2 & Hk & [= <- <-])%stM_bind_Ok)%stM_bind_Ok. cbn. f_equal. by eapply IH.
Qed.

(** Any number of generations, with coverage from a set of entities. *)
Inductive generations (U : gset Entity) : Evolution -> list Gene -> Evolution -> list Gene -> Prop :=
  | no_generation self genes : generations U self genes self genes
  | next_generation self genes coverages r self1 genes1 r1 self2 genes2 :
      (forall cs, coverages = Some cs -> Forall (fun c => list_to_set c ⊆ U) cs) ->
      Evolve self genes coverages r = Ok ((genes1, self1), r1) ->
      generations U self1 genes1 self2 genes2 ->
      generations U self genes self2 genes2.

Lemma Evolve_size U self genes coverages r genes' self' r' :
  (forall cs, coverages = Some cs -> Forall (fun c => list_to_set c ⊆ U) cs) ->
  Evolve self genes coverages r = Ok ((genes', self'), r') ->
  alpha self' = alpha self /\ known self ⊆ known self' ⊆ known self ∪ U /\
  length genes' + alpha self * size (known self) <= length genes + alpha self * size (known self').
Proof.
  intros HU. unfold Evolve.
  assert ((l ← mutate_all genes; mret (l, self)) r = Ok ((genes', self'), r') ->
    alpha self' = alpha self /\ known self ⊆ known self' ⊆ known self ∪ U /\
    length genes' + alpha self * size (known self) <= length genes + alpha self * size (known self')) as Hall.
  { intros (l & r1 & Hl%mutate_all_length & [= <- <- <-])%stM_bind_Ok. split_and!; [done|set_solver..|lia]. }
  destruct coverages as [[|c cs]|]; [exact Hall| |exact Hall].
  intros (Ha & Hk & Hs)%evolve_covered_size. split; [done|]. split.
  - rewrite Hk. split; [set_solver|]. specialize (HU _ eq_refl). rewrite Forall_forall in HU.
    apply union_mono_l. intros x (y & Hx & Hy)%elem_of_list_to_set%list_elem_of_join.
    apply list_elem_of_fmap in Hy as ([g d] & -> & Hin). apply (HU d); [|by apply elem_of_list_to_set].
    by apply elem_of_zip_r in Hin.
  - rewrite length_zip in Hs. lia.
Qed.

(** However long a pool evolves, it does not grow beyond its first size and one
    replication of each entity that was not known: every input that is
    replicated reached something new, and the database remembers it. *)
Theorem pool_is_bounded U self genes self' genes' :
  generations U self genes self' genes' ->
  length genes' <= length genes + alpha self * size (U ∖ known self) /\ known self' ⊆ known self ∪ U.
Proof.
  intros Hg. assert (alpha self' = alpha self /\ known self ⊆ known self' ⊆ known self ∪ U /\
    length genes' + alpha self * size (known self) <= length genes + alpha self * size (known self')) as (_ & [Hm Hk] & Hs).
  { induction Hg as [|self genes cs r self1 genes1 r1 self2 genes2 HU He _ IH].
    - split_and!; [done|set_solver..|lia].
    - destruct (Evolve_size U _ _ _ _ _ _ _ HU He) as (Ha & Hk & Hs). destruct IH as (Ha2 & Hk2 & Hs2).
      split_and!; [congruence|set_solver..|]. rewrite Ha in Hs2. lia. }
  split; [|done].
  assert (size (known self') <= size (known self) + size (U ∖ known self)) as Hsize.
  { rewrite <- size_union by set_solver. apply subseteq_size.
    intros x [Hx|Hx]%Hk%elem_of_union; destruct (decide (x ∈ known self)); set_solver. }
  nia.
Qed.
End evolution.

(** Two generations of a pool whose fuzzer adds one. *)
Lemma pool_is_bounded_witness :
  let fuzzer (g : Z) : stM rand Z := mret (g + 1)%Z in
  let U : gset Z := {[1; 2]}%Z in
  let self := mk_evolution ([] : list Z) 2 10 in
  exists self' genes',
    generations fuzzer U self [10; 20]%Z self' genes' /\ genes' = [12; 12]%Z /\
    length genes' <= 2 + 2 * size (U ∖ known self).
Proof.
  intros fuzzer U self.
  assert (generations fuzzer U self [10; 20]%Z (mk_evolution [1; 2]%Z 2 10) [12; 12]%Z) as Hg.
  { eapply (next_generation _ _ _ _ (Some [[1]; [1]]%Z) (fun _ => 0%Z)); [|reflexivity|].
    - intros cs [= <-]. repeat constructor; set_solver.
    - eapply (next_generation _ _ _ _ (Some [[2]; [1; 2]]%Z) (fun _ => 0%Z)); [|reflexivity|constructor].
      intros cs [= <-]. repeat constructor; set_solver. }
  exists (mk_evolution [1; 2]%Z 2 10), [12; 12]%Z. split; [exact Hg|]. split; [reflexivity|].
  exact (proj1 (pool_is_bounded fuzzer U self [10; 20]%Z _ _ Hg)).
Defined.

(** An entity that occurs twice in one coverage is stored twice. *)
Lemma duplicates_are_stored :
  coverages_database (IsNewCoverage (new_Evolution (Entity := Z)) [7; 7]%Z true).2 = [7; 7]%Z.
Proof. reflexivity. Qed.
