(* ===== verification/Profiling.v ===== *)
(** * Profiling of HAL calls ([src/utils/python/profiling/profiling_utils.py])

    [ProfilingFeature] switches the tracing of a device on and off, reads the
    latencies out of the traces of each test, and reports them per function
    together with the functions that were called.  The lists of latencies are
    shared between the data of a test and the merged data, so they live in a store.
    The device, the host's tools and the files with HAL specifications are
    arguments; so is the iteration order of sets and dictionaries. *)

From Stdlib Require Import Strings.Byte.
From S2P Require Import Prelude PyStr PyPath PyVal ListUtils Signals BinaryTest Shell Config Channel Mirror TcpClient ResourceMirror WebReport.

Definition LOCAL_PROFILING_TRACE_PATH : pystr := bs "/tmp/vts-test-trace".
Definition TARGET_PROFILING_TRACE_PATH : pystr := bs "/data/local/tmp/".
Definition HAL_INSTRUMENTATION_LIB_PATH_32 : pystr := bs "/data/local/tmp/32/".
Definition HAL_INSTRUMENTATION_LIB_PATH_64 : pystr := bs "/data/local/tmp/64/".
Definition DEFAULT_HAL_ROOT : pystr := bs "android.hardware.".
Definition IKEY_DATA_FILE_PATH : pystr := bs "data_file_path".
Definition IKEY_PROFILING_TRACING_PATH : pystr := bs "profiling_trace_path".
Definition IKEY_TRACE_FILE_TOOL_NAME : pystr := bs "trace_file_tool_name".
Definition IKEY_SAVE_TRACE_FILE_REMOTE : pystr := bs "save_trace_file_remote".
Definition IKEY_PROFILING_ARG_VALUE : pystr := bs "profiling_arg_value".

(** ** Data *)
Abbreviation loc := nat.
Abbreviation latency_store := (list (list Z)).

Record VTSProfilingData := mk_data { values : gmap pystr loc; options : gset pystr }.
Definition new_VTSProfilingData : VTSProfilingData := mk_data ∅ ∅.

Record api_coverage := mk_coverage_data {
  ac_package_name : pystr; ac_version_major : pystr; ac_version_minor : pystr; ac_interface_name : pystr;
  ac_total_apis : gset pystr; ac_covered_apis : gset pystr;
}.

Record ProfilingFeature := mk_profiling_feature {
  pf_feature : Feature;
  pf_web : option WebFeature;
  api_coverage_data : gmap pystr api_coverage;
  profiling_data : option (list VTSProfilingData);
  host_profiling_data : option (gmap pystr Z);
  latencies : latency_store;
}.

Definition new_ProfilingFeature (user_params : params) (w : option WebFeature) : ProfilingFeature :=
  mk_profiling_feature
    (ParseParameters (Some IKEY_ENABLE_PROFILING) [IKEY_DATA_FILE_PATH]
       [IKEY_PROFILING_TRACING_PATH; IKEY_TRACE_FILE_TOOL_NAME; IKEY_SAVE_TRACE_FILE_REMOTE; IKEY_ABI_BITNESS;
        IKEY_PROFILING_ARG_VALUE] user_params new_feature) w ∅ None None [].

Definition IsEventFromBinderizedHal (event_type : Z) : bool :=
  negb (bool_decide (event_type = 8 \/ event_type = 9))%Z.

Definition set_pf_web (w : option WebFeature) (p : ProfilingFeature) : ProfilingFeature :=
  mk_profiling_feature (pf_feature p) w (api_coverage_data p) (profiling_data p) (host_profiling_data p) (latencies p).
Definition set_api_coverage (d : gmap pystr api_coverage) (p : ProfilingFeature) : ProfilingFeature :=
  mk_profiling_feature (pf_feature p) (pf_web p) d (profiling_data p) (host_profiling_data p) (latencies p).
Definition set_profiling_data (l : list VTSProfilingData) (p : ProfilingFeature) : ProfilingFeature :=
  mk_profiling_feature (pf_feature p) (pf_web p) (api_coverage_data p) (Some l) (host_profiling_data p) (latencies p).
Definition set_host_data (d : gmap pystr Z) (p : ProfilingFeature) : ProfilingFeature :=
  mk_profiling_feature (pf_feature p) (pf_web p) (api_coverage_data p) (profiling_data p) (Some d) (latencies p).
Definition set_latencies (h : latency_store) (p : ProfilingFeature) : ProfilingFeature :=
  mk_profiling_feature (pf_feature p) (pf_web p) (api_coverage_data p) (profiling_data p) (host_profiling_data p) h.

(** ** Python's strings *)

(** [s.rsplit(sep, 1)] for a separator that is found. *)
Definition rsplit1 (sep s : pystr) : pyres (pystr * pystr) :=
  match find_sub (reverse sep) (reverse s) with
  | Some i => Ok (take (length s - i - length sep) s, drop (length s - i) s)
  | None => Raise ValueError
  end.
(** [a, b = s.split(sep)] *)
Definition split2 (sep s : pystr) : pyres (pystr * pystr) :=
  match split sep s with [a; b] => Ok (a, b) | _ => Raise ValueError end.
(** [long(s)]: an L may follow the digits. *)
Definition py_long (s : pystr) : pyres Z :=
  let s := strip s in
  match last s with
  | Some (Byte.x4c | Byte.x6c) =>
      let t := take (length s - 1) s in
      match last t with Some b => if is_space b then Raise ValueError else py_int t | None => Raise ValueError end
  | _ => py_int s
  end.

Record profiling_world (S : Type) := mk_pw { outside : S; pf : ProfilingFeature }.
Arguments mk_pw {_} _ _.
Arguments outside {_} _.
Arguments pf {_} _.

Section profiling.
Context {S : Type}.
Abbreviation M := (xstM (profiling_world S)).

(** The shell of the device (the outputs of a command), a pull, and commands of the
    host: output, errors and exit code of each. *)
Context (shell_Execute : pystr -> xstM S (list pystr)) (adb_pull : pystr -> xstM S unit)
  (host_Execute : list pystr -> xstM S (list (pystr * pystr * Z))).
(** The functions of a specification file: name and whether it is inherited. *)
Context (spec_apis : pystr -> xres (list (pystr * bool))).
Context (set_order : gset pystr -> list pystr) (dict_order : forall A, gmap pystr A -> list (pystr * A)).

Definition on_outside {A} (m : xstM S A) : M A := fun w => let '(r, s) := m (outside w) in (r, mk_pw s (pf w)).
Definition modify_pf (f : ProfilingFeature -> ProfilingFeature) : M unit :=
  xmodify (fun w => mk_pw (outside w) (f (pf w))).
Definition get_pf : M ProfilingFeature := w ← xget; mret (pf w).
Definition on_pf_web (m : xstM WebFeature unit) : M unit := fun w =>
  match pf_web (pf w) with
  | None => (Exc attribute_error, w)
  | Some f => let '(r, f) := m f in (r, mk_pw (outside w) (set_pf_web (Some f) (pf w)))
  end.
Definition web_on (p : ProfilingFeature) : bool :=
  match pf_web p with Some f => enabled (feature f) | None => false end.
Definition execute (cmd : pystr) : M (list pystr) := on_outside (shell_Execute cmd).

(** ** Traces on the device *)
Definition traces : pystr := path_join2 TARGET_PROFILING_TRACE_PATH (bs "*.vts.trace").

Definition fetch_trace (host_path tool : pystr) (line : pystr) : M pystr :=
  let temp_file_name := path_join2 LOCAL_PROFILING_TRACE_PATH (basename (strip line)) in
  let trace_file_name := path_join2 host_path (basename (strip line)) in
  _ ← on_outside (adb_pull (line ++ bs " " ++ temp_file_name));
  _ ← (if decide (temp_file_name = trace_file_name) then mret tt
       else _ ← on_outside (host_Execute [tool ++ bs " cp " ++ temp_file_name ++ bs " " ++ trace_file_name]); mret tt);
  mret temp_file_name.
Fixpoint fetch_traces (host_path tool : pystr) (lines : list pystr) : M (list pystr) :=
  match lines with
  | [] => mret []
  | line :: lines =>
      if decide (line = []) then fetch_traces host_path tool lines
      else f ← fetch_trace host_path tool line; l ← fetch_traces host_path tool lines; mret (f :: l)
  end.
(** The optional arguments are empty strings when they are not given. *)
Definition GetTraceFiles (host_profiling_trace_path trace_file_tool : pystr) : M (list pystr) :=
  let host_path := match host_profiling_trace_path with [] => LOCAL_PROFILING_TRACE_PATH | p => p end in
  results ← execute (bs "ls " ++ traces);
  out ← xpure (py_get results 0);
  fetch_traces host_path trace_file_tool (split newline out).

(** The directories of the instrumentation for 32 and 64 bits. *)
Definition lib_paths (bitness : pyval) (hal_instrumentation_lib_path : option pystr) : pystr * pystr :=
  match hal_instrumentation_lib_path with
  | None => (HAL_INSTRUMENTATION_LIB_PATH_32, HAL_INSTRUMENTATION_LIB_PATH_64)
  | Some p =>
      match bitness with
      | PStr s =>
          if decide (s = bs "64") then (HAL_INSTRUMENTATION_LIB_PATH_32, p)
          else if decide (s = bs "32") then (p, HAL_INSTRUMENTATION_LIB_PATH_64)
          else (HAL_INSTRUMENTATION_LIB_PATH_32, HAL_INSTRUMENTATION_LIB_PATH_64)
      | _ => (HAL_INSTRUMENTATION_LIB_PATH_32, HAL_INSTRUMENTATION_LIB_PATH_64)
      end
  end.
Definition enable_commands (f : Feature) (hal_instrumentation_lib_path : option pystr) : list pystr :=
  let '(p32, p64) := lib_paths (attribute_or f IKEY_ABI_BITNESS PNone) hal_instrumentation_lib_path in
  [bs "rm " ++ traces;
   bs "chmod 777 " ++ TARGET_PROFILING_TRACE_PATH;
   bs "setprop hal.instrumentation.lib.path.32 " ++ p32;
   bs "setprop hal.instrumentation.lib.path.64 " ++ p64;
   if truthy (attribute_or f IKEY_PROFILING_ARG_VALUE (PBool false))
   then bs "setprop hal.instrumentation.profile.args true" else bs "setprop hal.instrumentation.profile.args false";
   bs "setprop hal.instrumentation.enable true"].
Definition empty_value : pystr := [Byte.x22; Byte.x22].
Definition disable_commands : list pystr :=
  [bs "setprop hal.instrumentation.lib.path " ++ empty_value;
   bs "setprop hal.instrumentation.profile.args " ++ empty_value;
   bs "setprop hal.instrumentation.enable false"].
Fixpoint execute_all (cmds : list pystr) : M unit :=
  match cmds with [] => mret tt | c :: cmds => _ ← execute c; execute_all cmds end.
Definition EnableVTSProfiling (hal_instrumentation_lib_path : option pystr) : M unit :=
  p ← get_pf; execute_all (enable_commands (pf_feature p) hal_instrumentation_lib_path).
Definition DisableVTSProfiling : M unit := execute_all disable_commands.

(** ** [_ParseTraceData] *)
Definition data_path (p : ProfilingFeature) : xres pystr :=
  match attrs (pf_feature p) !! IKEY_DATA_FILE_PATH with
  | Some (PStr s) => Ret s
  | _ => Exc attribute_error
  end.

Definition vts_spec_path (data_file_path package_name version interface_name : pystr) : pystr :=
  let hal_package_path := (fun b => if decide (b = Byte.x2e) then slash else b) <$> drop (length DEFAULT_HAL_ROOT) package_name in
  path_join data_file_path
    [bs "spec/hardware/interfaces"; hal_package_path; version; bs "vts"; drop 1 interface_name ++ bs ".vts"].
(** The names of the functions of an interface, those inherited left out. *)
Definition own_apis (apis : list (pystr * bool)) : gset pystr := list_to_set (fst <$> filter (fun a => a.2 = false) apis).
Definition GetTotalApis (package_name version interface_name : pystr) : M (gset pystr) :=
  if startswith DEFAULT_HAL_ROOT package_name then
    p ← get_pf;
    data_file_path ← xlift (data_path p);
    apis ← xlift (spec_apis (vts_spec_path data_file_path package_name version interface_name));
    mret (own_apis apis)
  else mret ∅.

(** A latency joins the list of its function, which is made when there is none. *)
Definition add_latency (api_name : pystr) (latency : Z) (d : VTSProfilingData) : M VTSProfilingData :=
  p ← get_pf;
  let h := latencies p in
  let fresh := (_ ← modify_pf (set_latencies (h ++ [[latency]]));
                mret (mk_data (<[api_name := length h]> (values d)) (options d))) in
  match values d !! api_name with
  | Some l =>
      match h !! l with
      | Some (x :: k) => _ ← modify_pf (set_latencies (<[l := x :: k ++ [latency]]> h)); mret d
      | _ => fresh
      end
  | None => fresh
  end.

Definition cover_api (full_interface api_name : pystr) : M unit :=
  '(package, interface_name) ← xpure (split2 (bs "::") full_interface);
  '(package_name, version) ← xpure (split2 (bs "@") package);
  p ← get_pf;
  match api_coverage_data p !! full_interface with
  | Some c =>
      modify_pf (set_api_coverage (<[full_interface :=
        mk_coverage_data (ac_package_name c) (ac_version_major c) (ac_version_minor c) (ac_interface_name c)
          (ac_total_apis c) ({[api_name]} ∪ ac_covered_apis c)]> (api_coverage_data p)))
  | None =>
      total_apis ← GetTotalApis package_name version interface_name;
      if decide (total_apis = ∅) then mret tt
      else
        '(major, minor) ← xpure (split2 (bs ".") version);
        modify_pf (set_api_coverage (<[full_interface :=
          mk_coverage_data package_name major minor interface_name total_apis
            (if decide (api_name ∈ total_apis) then {[api_name]} else ∅)]> (api_coverage_data p)))
  end.

Definition parse_latency (measure_api_coverage : bool) (line : pystr) (d : VTSProfilingData) : M VTSProfilingData :=
  '(full_api, latency) ← xpure (rsplit1 (bs ":") line);
  '(full_interface, api_name) ← xpure (rsplit1 (bs "::") full_api);
  z ← xpure (py_long latency);
  d ← add_latency api_name z d;
  _ ← (if measure_api_coverage then cover_api full_interface api_name else mret tt);
  mret d.
Definition parse_mode (line : pystr) (d : VTSProfilingData) : M VTSProfilingData :=
  '(_, mode) ← xpure (split2 (bs ":") line);
  mret (mk_data (values d) ({[bs "hidl_hal_mode=" ++ mode]} ∪ options d)).
Fixpoint parse_lines (measure_api_coverage first_line : bool) (lines : list pystr) (d : VTSProfilingData)
    : M VTSProfilingData :=
  match lines with
  | [] => mret d
  | line :: lines =>
      if decide (line = []) then parse_lines measure_api_coverage first_line lines d
      else
        d ← (if first_line then parse_mode line d else parse_latency measure_api_coverage line d);
        parse_lines measure_api_coverage false lines d
  end.
Definition trace_processor_cmd (data_file_path trace_file : pystr) : list pystr :=
  let binary := path_join data_file_path [bs "host"; bs "bin"; bs "trace_processor"] in
  let lib := path_join data_file_path [bs "host"; bs "lib64"] in
  [bs "chmod a+x " ++ binary;
   bs "LD_LIBRARY_PATH=" ++ lib ++ bs " " ++ binary ++ bs " -m profiling_trace " ++ trace_file].
Definition ParseTraceData (trace_file : pystr) (measure_api_coverage : bool) : M VTSProfilingData :=
  p ← get_pf;
  data_file_path ← xlift (data_path p);
  results ← on_outside (host_Execute (trace_processor_cmd data_file_path trace_file));
  if existsb (fun r => negb (r.2 =? 0)%Z) results then mret new_VTSProfilingData
  else
    r ← xpure (py_get results 1);
    parse_lines measure_api_coverage true (split newline r.1.1) new_VTSProfilingData.

(** ** Points of the host *)
(** [now] is the reading of the clock. *)
Definition StartHostProfiling (now : Z) (name : pystr) : M bool :=
  p ← get_pf;
  if enabled (pf_feature p) then
    let d := default ∅ (host_profiling_data p) in
    match d !! name with
    | Some _ => _ ← modify_pf (set_host_data d); mret false
    | None => _ ← modify_pf (set_host_data (<[name := now]> d)); mret true
    end
  else mret false.
(** The result [None] when the feature is off. *)
Definition StopHostProfiling (now : Z) (name : pystr) : M (option bool) :=
  p ← get_pf;
  if enabled (pf_feature p) then
    let d := default ∅ (host_profiling_data p) in
    _ ← modify_pf (set_host_data d);
    match d !! name with
    | None => mret (Some false)
    | Some start_timestamp =>
        _ ← (if web_on p
             then on_pf_web (AddProfilingDataTimestamp name start_timestamp now (bs "Latency (nano secs)") (bs "Frequency") 2)
             else mret tt);
        mret (Some true)
    end
  else mret None.

(** ** The data of test cases, and their upload *)
Definition str_or_empty (v : pyval) : pystr := match v with PStr s => s | _ => [] end.

Fixpoint parse_files (measure_api_coverage : bool) (files : list pystr) : M unit :=
  match files with
  | [] => mret tt
  | file :: files =>
      data ← ParseTraceData file measure_api_coverage;
      _ ← modify_pf (fun p => set_profiling_data (default [] (profiling_data p) ++ [data]) p);
      parse_files measure_api_coverage files
  end.
Definition ProcessTraceDataForTestCase (measure_api_coverage : bool) : M unit :=
  p ← get_pf;
  if enabled (pf_feature p) then
    _ ← modify_pf (fun p => set_profiling_data (default [] (profiling_data p)) p);
    let f := pf_feature p in
    trace_files ← (if truthy (attribute_or f IKEY_SAVE_TRACE_FILE_REMOTE (PBool false))
                   then GetTraceFiles (str_or_empty (attribute_or f IKEY_PROFILING_TRACING_PATH PNone))
                          (str_or_empty (attribute_or f IKEY_TRACE_FILE_TOOL_NAME PNone))
                   else GetTraceFiles [] []);
    parse_files measure_api_coverage trace_files
  else mret tt.

(** The first list of a function is taken over as it is, later ones are added to it:
    the list of the first data changes. *)
Definition merge_item (merged : VTSProfilingData * latency_store) (item : pystr * loc) : VTSProfilingData * latency_store :=
  let '(m, h) := merged in
  let '(api, l) := item in
  let take_over := (mk_data (<[api := l]> (values m)) (options m), h) in
  match values m !! api with
  | Some k =>
      match h !! k with
      | Some (x :: old) => (m, <[k := x :: old ++ default [] (h !! l)]> h)
      | _ => take_over
      end
  | None => take_over
  end.
Definition merge_data (merged : VTSProfilingData * latency_store) (data : VTSProfilingData) : VTSProfilingData * latency_store :=
  foldl merge_item (mk_data (values merged.1) (options data ∪ options merged.1), merged.2) (dict_order _ (values data)).

Fixpoint report_items (opts : list pystr) (h : latency_store) (items : list (pystr * loc)) : xstM WebFeature unit :=
  match items with
  | [] => mret tt
  | (api, l) :: items =>
      _ ← AddProfilingDataUnlabeledVector api (default [] (h !! l)) opts
            (bs "API processing latency (nano secs)") (bs "Frequency") 2;
      report_items opts h items
  end.
Definition api_data_of (c : api_coverage) : VTSApiCoverageData :=
  mk_api_data (ac_package_name c) (ac_version_major c) (ac_version_minor c) (ac_interface_name c)
    (set_order (ac_total_apis c)) (set_order (ac_covered_apis c)).
Definition ProcessAndUploadTraceData (upload_api_coverage : bool) : M unit :=
  p ← get_pf;
  if enabled (pf_feature p) then
    let '(merged, h) := foldl merge_data (new_VTSProfilingData, latencies p) (default [] (profiling_data p)) in
    _ ← modify_pf (set_latencies h);
    _ ← (if web_on p then on_pf_web (report_items (set_order (options merged)) h (dict_order _ (values merged))) else mret tt);
    if upload_api_coverage
    then on_pf_web (AddApiCoverageReport (api_data_of <$> (dict_order _ (api_coverage_data p)).*2) true)
    else mret tt
  else mret tt.
End profiling.

(** ** Reading a trace *)
Lemma find_sub_after c p a b :
  no_byte c a = true -> find_sub (c :: p) (a ++ (c :: p) ++ b) = Some (length a).
Proof.
  induction a as [|x a IH]; intros Ha.
  - change ([] ++ (c :: p) ++ b) with ((c :: p) ++ b). destruct ((c :: p) ++ b) eqn:He; [done|].
    cbn [find_sub]. rewrite <- He. by rewrite startswith_app.
  - cbn [no_byte forallb] in Ha. apply andb_true_iff in Ha as [Hx Ha]. cbn [app find_sub].
    assert (startswith (c :: p) (x :: a ++ c :: p ++ b) = false) as ->.
    { apply not_true_is_false. rewrite startswith_spec. intros [k [= -> _]].
      unfold is_byte in Hx. by rewrite bool_decide_eq_true_2 in Hx. }
    pose proof (IH Ha) as Hf. cbn [app] in Hf. by rewrite Hf.
Qed.

Lemma rsplit1_app c p sep a b :
  reverse sep = c :: p -> no_byte c b = true -> rsplit1 sep (a ++ sep ++ b) = Ok (a, b).
Proof.
  intros Hs Hb. unfold rsplit1. rewrite !reverse_app, Hs, <- app_assoc.
  assert (no_byte c (reverse b) = true) as Hb'.
  { apply forallb_forall. intros x Hx. unfold no_byte in Hb. rewrite forallb_forall in Hb. apply Hb.
    by rewrite <- list_elem_of_In, elem_of_reverse, list_elem_of_In in Hx. }
  rewrite find_sub_after by done. rewrite !length_app, length_reverse.
  f_equal. f_equal.
  - replace (_ - _ - _)%nat with (length a) by lia. by rewrite take_app_length.
  - rewrite app_assoc. replace (_ - _)%nat with (length (a ++ sep)) by (rewrite length_app; lia).
    by rewrite drop_app_length.
Qed.

Lemma py_long_str z : (0 <= z)%Z -> py_long (str_nat z) = Ok z.
Proof.
  intros Hz. unfold py_long. destruct (str_nat_spec z Hz) as (Hd & _ & Hne).
  assert (strip (str_nat z) = str_nat z) as ->.
  { pose proof (strip_spaces_around is_space (str_nat z) [] []) as H. cbn in H. rewrite app_nil_r in H.
    apply H; try done. apply forallb_forall. intros b Hb. rewrite forallb_forall in Hd.
    by rewrite digit_not_space by auto. }
  destruct (last (str_nat z)) as [b|] eqn:Hl; [|by apply last_None in Hl].
  assert (is_digit b = true) as Hb.
  { rewrite forallb_forall in Hd. apply Hd, list_elem_of_In. by apply last_Some_elem_of. }
  rewrite <- (py_int_str z Hz). by destruct b.
Qed.

(** The samples of a function. *)
Definition samples (h : latency_store) (d : VTSProfilingData) (api : pystr) : list Z :=
  match values d !! api with Some l => default [] (h !! l) | None => [] end.
(** Data whose lists are its own, behind the first [n] of the store. *)
Definition owns (n : nat) (h : latency_store) (d : VTSProfilingData) : Prop :=
  (forall a l, values d !! a = Some l -> n <= l /\ exists x k, h !! l = Some (x :: k)) /\
  (forall a b l, values d !! a = Some l -> values d !! b = Some l -> a = b).

Lemma owns_new n h : owns n h new_VTSProfilingData.
Proof. split; cbn; intros *; by rewrite lookup_empty. Qed.

(** A line of a trace: interface, function and latency. *)
Abbreviation sample_line := (pystr * pystr * Z)%type.
Definition render_sample (s : sample_line) : pystr := (s.1.1 ++ bs "::" ++ s.1.2) ++ bs ":" ++ str_nat s.2.
Definition sample_ok (s : sample_line) : bool := no_byte Byte.x3a s.1.2 && (0 <=? s.2)%Z.
Definition of_api (api : pystr) (l : list sample_line) : list Z :=
  snd <$> filter (fun s : sample_line => s.1.2 = api) l.

(** *** Coverage of the functions *)

(** What the name of an interface and its specification say. *)
Record interface := mk_interface { i_package : pystr; i_major : Z; i_minor : Z; i_name : pystr; i_apis : gset pystr }.
Definition interface_name_ok (data_file_path : pystr) (spec_apis : pystr -> xres (list (pystr * bool))) (full : pystr)
    (i : interface) : Prop :=
  exists package version, split2 (bs "::") full = Ok (package, i_name i) /\ split2 (bs "@") package = Ok (i_package i, version) /\
    split2 (bs ".") version = Ok (str_nat (i_major i), str_nat (i_minor i)) /\
    (0 <= i_major i <= 2 ^ 31 - 1)%Z /\ (0 <= i_minor i <= 2 ^ 31 - 1)%Z /\
    if startswith DEFAULT_HAL_ROOT (i_package i)
    then exists apis, spec_apis (vts_spec_path data_file_path (i_package i) version (i_name i)) = Ret apis /\ i_apis i = own_apis apis
    else i_apis i = ∅.

Definition fresh_coverage (i : interface) (covered : gset pystr) : api_coverage :=
  mk_coverage_data (i_package i) (str_nat (i_major i)) (str_nat (i_minor i)) (i_name i) (i_apis i) covered.

Section coverage.
Context (interfaces : pystr -> interface).

Definition cover (m : gmap pystr api_coverage) (s : sample_line) : gmap pystr api_coverage :=
  let i := interfaces s.1.1 in
  match m !! s.1.1 with
  | Some c =>
      <[s.1.1 := mk_coverage_data (ac_package_name c) (ac_version_major c) (ac_version_minor c) (ac_interface_name c)
        (ac_total_apis c) ({[s.1.2]} ∪ ac_covered_apis c)]> m
  | None =>
      if decide (i_apis i = ∅) then m
      else <[s.1.1 := fresh_coverage i (if decide (s.1.2 ∈ i_apis i) then {[s.1.2]} else ∅)]> m
  end.

(** The coverage after [ss]: of every interface that was called and has functions, those of its
    functions that were called are covered. *)
Definition covered_by (ss : list sample_line) (full : pystr) (c : api_coverage) : Prop :=
  full ∈ (fun s : sample_line => s.1.1) <$> ss /\ i_apis (interfaces full) <> ∅ /\
  c = fresh_coverage (interfaces full) (ac_covered_apis c) /\
  (forall a, a ∈ ac_covered_apis c -> (full, a) ∈ ss.*1) /\
  (forall a, (full, a) ∈ ss.*1 -> a ∈ i_apis (interfaces full) -> a ∈ ac_covered_apis c).
Definition coverage_after (ss : list sample_line) (m : gmap pystr api_coverage) : Prop :=
  forall full, match m !! full with
    | Some c => covered_by ss full c
    | None => full ∈ (fun s : sample_line => s.1.1) <$> ss -> i_apis (interfaces full) = ∅
    end.

Lemma cover_after ss m s : coverage_after ss m -> coverage_after (ss ++ [s]) (cover m s).
Proof.
  intros Hm full. specialize (Hm full) as Hf. destruct s as [[iface api] z]. unfold cover. cbn [fst snd].
  assert (forall c, covered_by ss full c -> full <> iface -> covered_by (ss ++ [(iface, api, z)]) full c) as Hother.
  { intros c (H1 & H2 & H3 & H4 & H5) Hne. split_and!; [rewrite fmap_app; set_solver|done|done| |].
    - intros a Ha. rewrite fmap_app. apply elem_of_app. left. by apply H4.
    - intros a. rewrite fmap_app, elem_of_app. intros [Ha|Ha]; [by apply H5|].
      cbn in Ha. apply list_elem_of_singleton in Ha. congruence. }
  destruct (decide (full = iface)) as [->|Hne].
  - destruct (m !! iface) as [c|] eqn:Hc.
    + rewrite lookup_insert_eq. destruct Hf as (H1 & H2 & H3 & H4 & H5). split_and!; [rewrite fmap_app; set_solver|done| | |].
      * rewrite H3. reflexivity.
      * cbn. intros a. rewrite fmap_app, elem_of_app, elem_of_union, elem_of_singleton.
        intros [->|Ha]; [right; cbn; by apply list_elem_of_singleton|left; by apply H4].
      * cbn. intros a. rewrite fmap_app, elem_of_app, elem_of_union, elem_of_singleton.
        intros [Ha|Ha] Hin; [right; by apply H5|left]. cbn in Ha. apply list_elem_of_singleton in Ha. congruence.
    + case_decide as He; [by rewrite Hc|]. rewrite lookup_insert_eq.
      split_and!; [rewrite fmap_app; cbn; set_solver|done|done| |].
      * cbn. intros a Ha. rewrite fmap_app. apply elem_of_app. right. case_decide; [|set_solver].
        apply elem_of_singleton in Ha as ->. cbn. by apply list_elem_of_singleton.
      * cbn. intros a. rewrite fmap_app, elem_of_app. intros [Ha|Ha] Hin.
        -- exfalso. apply He, Hf. apply list_elem_of_fmap in Ha as (x & Hx & Hx'). apply list_elem_of_fmap. exists x. by rewrite <- Hx.
        -- cbn in Ha. apply list_elem_of_singleton in Ha as [= ->]. rewrite decide_True by done. by apply elem_of_singleton.
  - assert (cover m (iface, api, z) !! full = m !! full) as Heq.
    { unfold cover. cbn [fst snd]. destruct (m !! iface); [by rewrite lookup_insert_ne|].
      case_decide; [done|by rewrite lookup_insert_ne]. }
    unfold cover in Heq. cbn [fst snd] in Heq. rewrite Heq. destruct (m !! full) as [c|]; [by apply Hother|].
    rewrite fmap_app, elem_of_app. intros [Hin|Hin]; [by apply Hf|]. cbn in Hin. by apply list_elem_of_singleton in Hin.
Qed.
Lemma cover_all_after ss : coverage_after ss (foldl cover ∅ ss).
Proof.
  induction ss as [|s ss IH] using rev_ind; [intros full; cbn [foldl]; rewrite lookup_empty; by intros ?%elem_of_nil|].
  rewrite foldl_app. by apply cover_after.
Qed.
End coverage.

Section parsing.
Context {S : Type} (spec_apis : pystr -> xres (list (pystr * bool))) (interfaces : pystr -> interface) (path : pystr).
Implicit Types w : profiling_world S.

(** The name of the interface of a line is well formed and its specification can be read. *)
Definition line_ok (s : sample_line) : Prop := interface_name_ok path spec_apis s.1.1 (interfaces s.1.1).
Definition data_file_path_is w : Prop := attrs (pf_feature (pf w)) !! IKEY_DATA_FILE_PATH = Some (PStr path).
(** The lists of latencies and the coverage of a state replaced. *)
Definition with_traced (h : latency_store) (m : gmap pystr api_coverage) w : profiling_world S :=
  mk_pw (outside w) (set_latencies h (set_api_coverage m (pf w))).

Lemma cover_api_run s w :
  data_file_path_is w -> line_ok s ->
  cover_api spec_apis s.1.1 s.1.2 w =
    (Ret tt, with_traced (latencies (pf w)) (cover interfaces (api_coverage_data (pf w)) s) w).
Proof.
  intros Hp (package & version & H1 & H2 & H3 & _ & _ & Hs). unfold cover_api, cover.
  rewrite H1. erewrite xstM_bind_run by reflexivity. cbv beta iota.
  rewrite H2. erewrite xstM_bind_run by reflexivity. cbv beta iota. erewrite xstM_bind_run by reflexivity.
  destruct (api_coverage_data (pf w) !! s.1.1) as [c|]; [by destruct w as [o []]|].
  assert (GetTotalApis spec_apis (i_package (interfaces s.1.1)) version (i_name (interfaces s.1.1)) w =
    (Ret (i_apis (interfaces s.1.1)), w)) as Ht.
  { unfold GetTotalApis. destruct (startswith _ _); [|by rewrite Hs]. destruct Hs as (apis & Ha & ->).
    erewrite xstM_bind_run by reflexivity. erewrite xstM_bind_run by (unfold xlift, data_path; by rewrite Hp).
    erewrite xstM_bind_run by (unfold xlift; by rewrite Ha). done. }
  erewrite xstM_bind_run by exact Ht. case_decide; [by destruct w as [o []]|].
  rewrite H3. erewrite xstM_bind_run by reflexivity. by destruct w as [o []].
Qed.

Lemma add_latency_run api z d w n :
  owns n (latencies (pf w)) d -> n <= length (latencies (pf w)) ->
  exists d' h', add_latency api z d w = (Ret d', mk_pw (outside w) (set_latencies h' (pf w))) /\
    owns n h' d' /\ take n h' = take n (latencies (pf w)) /\ length (latencies (pf w)) <= length h' /\
    options d' = options d /\
    forall a, samples h' d' a = samples (latencies (pf w)) d a ++ (if decide (a = api) then [z] else []).
Proof.
  intros [Hl Hinj] Hn. set (h := latencies (pf w)) in *.
  unfold add_latency. erewrite xstM_bind_run by reflexivity. cbv zeta. fold h. destruct (values d !! api) as [l|] eqn:Hv.
  - destruct (Hl api l Hv) as (Hnl & x & k & Hh). rewrite Hh.
    assert (l < length h) as Hlt by (by eapply lookup_lt_Some).
    exists d, (<[l := x :: k ++ [z]]> h). erewrite xstM_bind_run by reflexivity.
    split_and!; [done| |by apply take_insert_ge|by rewrite length_insert|done|].
    + split; [|done]. intros a l' Ha. split; [by eapply Hl|]. destruct (decide (l' = l)) as [->|Hne].
      * rewrite list_lookup_insert_eq by done. by eexists _, _.
      * rewrite list_lookup_insert_ne by done. by eapply Hl.
    + intros a. unfold samples. destruct (decide (a = api)) as [->|Hne].
      * rewrite Hv, list_lookup_insert_eq, Hh by done. done.
      * destruct (values d !! a) as [l'|] eqn:Ha; [|done]. rewrite app_nil_r.
        rewrite list_lookup_insert_ne; [done|]. intros <-. by apply Hne, (Hinj a api l).
  - exists (mk_data (<[api := length h]> (values d)) (options d)), (h ++ [[z]]).
    erewrite xstM_bind_run by reflexivity. split_and!; [done| |by rewrite take_app_le|rewrite length_app; lia|done|].
    + split; cbn [values].
      * intros a l [[<- <-]|[Hne Ha]]%lookup_insert_Some.
        -- split; [done|]. rewrite lookup_app_r, Nat.sub_diag by done. by eexists _, _.
        -- destruct (Hl a l Ha) as (? & x & k & Hh). split; [done|]. exists x, k. by apply lookup_app_l_Some.
      * intros a b l [[<- <-]|[Hna Ha]]%lookup_insert_Some [[Hb1 Hb2]|[Hnb Hb]]%lookup_insert_Some; subst; try done.
        -- destruct (Hl b _ Hb) as (_ & x & k & Hh%lookup_lt_Some). lia.
        -- destruct (Hl a _ Ha) as (_ & x & k & Hh%lookup_lt_Some). lia.
        -- by apply (Hinj a b l).
    + intros a. unfold samples. cbn [values]. destruct (decide (a = api)) as [->|Hne].
      * by rewrite lookup_insert_eq, Hv, lookup_app_r, Nat.sub_diag by done.
      * rewrite lookup_insert_ne by done. rewrite app_nil_r. destruct (values d !! a) as [l|] eqn:Ha; [|done].
        destruct (Hl a l Ha) as (_ & x & k & Hh). by rewrite (lookup_app_l_Some _ _ _ _ Hh), Hh.
Qed.

Lemma parse_latency_line s d w d' h' :
  sample_ok s = true -> data_file_path_is w -> line_ok s ->
  add_latency s.1.2 s.2 d w = (Ret d', mk_pw (outside w) (set_latencies h' (pf w))) ->
  parse_latency spec_apis true (render_sample s) d w =
    (Ret d', with_traced h' (cover interfaces (api_coverage_data (pf w)) s) w).
Proof.
  intros Hok Hp Hl Hadd. pose proof (cover_api_run s (mk_pw (outside w) (set_latencies h' (pf w))) Hp Hl) as Hc. revert Hok Hadd Hc.
  destruct s as [[full api] z]. unfold sample_ok, render_sample. cbn [fst snd]. intros [Ha Hz%Z.leb_le]%andb_true_iff Hadd Hc.
  unfold parse_latency. rewrite (rsplit1_app Byte.x3a []); [|done|by apply digits_no_byte].
  erewrite xstM_bind_run by reflexivity. cbv beta iota.
  rewrite (rsplit1_app Byte.x3a [Byte.x3a]) by done. erewrite xstM_bind_run by reflexivity. cbv beta iota.
  rewrite py_long_str by done. erewrite xstM_bind_run by reflexivity.
  erewrite xstM_bind_run by exact Hadd. by erewrite xstM_bind_run by exact Hc.
Qed.

Lemma parse_lines_run ss d w n :
  forallb sample_ok ss = true -> data_file_path_is w -> Forall line_ok ss ->
  owns n (latencies (pf w)) d -> n <= length (latencies (pf w)) ->
  exists d' h', parse_lines spec_apis true false (render_sample <$> ss) d w =
      (Ret d', with_traced h' (foldl (cover interfaces) (api_coverage_data (pf w)) ss) w) /\
    owns n h' d' /\ take n h' = take n (latencies (pf w)) /\ length (latencies (pf w)) <= length h' /\
    options d' = options d /\ forall a, samples h' d' a = samples (latencies (pf w)) d a ++ of_api a ss.
Proof.
  revert d w. induction ss as [|s ss IH]; intros d w Hok Hp Hl Ho Hn.
  { exists d, (latencies (pf w)). split_and!; try done; [by destruct w as [s []]|]. intros a. by rewrite app_nil_r. }
  cbn [forallb] in Hok. apply andb_true_iff in Hok as [Hs Hok]. inv Hl as [|? ? Hls Hl']. rewrite fmap_cons. cbn [parse_lines].
  rewrite decide_False.
  2: { unfold render_sample. intros [He _]%app_nil. apply app_nil in He as [_ He]. discriminate He. }
  destruct (add_latency_run s.1.2 s.2 d w n Ho Hn) as (d1 & h1 & Hr1 & Ho1 & Ht1 & Hlen1 & Hopt1 & Hs1).
  pose proof (parse_latency_line s d w d1 h1 Hs Hp Hls Hr1) as Hr1'.
  erewrite xstM_bind_run by exact Hr1'.
  destruct (IH d1 (with_traced h1 (cover interfaces (api_coverage_data (pf w)) s) w) Hok Hp Hl' Ho1)
    as (d2 & h2 & Hr2 & Ho2 & Ht2 & Hlen2 & Hopt2 & Hs2).
  { cbn. lia. }
  exists d2, h2. cbn in Ht2, Hlen2, Hs2. split_and!; [exact Hr2|done|congruence|lia|congruence|].
  intros a. rewrite Hs2, Hs1, <- app_assoc. f_equal. unfold of_api. rewrite filter_cons.
  destruct (decide (a = s.1.2)) as [->|Hne]; [by rewrite decide_True|by rewrite decide_False by congruence].
Qed.

(** The data of a trace: the mode of the HAL, and for each function its latencies in
    the order of the trace; what the store held before is unchanged. *)
Lemma ParseTraceData_run host_Execute file mode ss w s out e :
  data_file_path_is w -> Forall line_ok ss ->
  host_Execute (trace_processor_cmd path file) (outside w) = (Ret [(out.1, e, 0%Z); (out.2, e, 0%Z)], s) ->
  split newline out.2 = ((bs "mode:" ++ mode) :: (render_sample <$> ss)) ++ [[]] ->
  no_byte Byte.x3a mode = true -> forallb sample_ok ss = true ->
  exists d h, ParseTraceData host_Execute spec_apis file true w =
      (Ret d, with_traced h (foldl (cover interfaces) (api_coverage_data (pf w)) ss) (mk_pw s (pf w))) /\
    owns (length (latencies (pf w))) h d /\ take (length (latencies (pf w))) h = latencies (pf w) /\
    options d = {[bs "hidl_hal_mode=" ++ mode]} /\ forall a, samples h d a = of_api a ss.
Proof.
  intros Hp Hl He Hs Hm Hok. unfold ParseTraceData. erewrite xstM_bind_run by reflexivity.
  erewrite xstM_bind_run by (unfold xlift, data_path; by rewrite Hp).
  erewrite xstM_bind_run by (unfold on_outside; by rewrite He). cbn [existsb snd Z.eqb negb orb].
  erewrite xstM_bind_run by reflexivity. cbn [fst snd]. rewrite Hs. cbn [app parse_lines].
  rewrite decide_False by done. erewrite xstM_bind_run.
  2: { unfold parse_mode, split2. unfold split. change (bs ":") with [Byte.x3a].
       change (bs "mode:" ++ mode) with (bs "mode" ++ Byte.x3a :: mode).
       rewrite split_from_byte, split_from_no_byte by done. reflexivity. }
  set (d0 := mk_data _ _). set (w1 := mk_pw s (pf w)).
  assert (forall l d (w : profiling_world S), parse_lines spec_apis true false (l ++ [[]]) d w = parse_lines spec_apis true false l d w) as Hend.
  { induction l as [|x l IH]; intros d w0; [done|]. cbn [app parse_lines]. destruct (decide (x = [])); [apply IH|].
    unfold mbind, xstM_bind. destruct (parse_latency _ _ _ _ _) as [[d'|err] w']; [apply IH|done]. }
  rewrite Hend.
  destruct (parse_lines_run ss d0 w1 (length (latencies (pf w))) Hok) as (d & h & Hr & Ho & Ht & _ & Hopt & Hsm); [done..| | |].
  - apply owns_new.
  - done.
  - exists d, h. split_and!; [exact Hr|done|by rewrite Ht, take_ge|by rewrite Hopt; cbn; rewrite union_empty_r_L|].
    intros a. rewrite Hsm. unfold samples. cbn. by rewrite lookup_empty.
Qed.
End parsing.

(** ** Merging *)
Section merge.
Context (h0 : latency_store).

Definition item_samples (api : pystr) (items : list (pystr * loc)) : list Z :=
  mjoin ((fun i : pystr * loc => default [] (h0 !! i.2)) <$> filter (fun i : pystr * loc => i.1 = api) items).

Record merged_ok (items : list (pystr * loc)) (m : VTSProfilingData) (h : latency_store) : Prop := {
  merged_samples api : samples h m api = item_samples api items;
  merged_apis api : is_Some (values m !! api) <-> api ∈ items.*1;
  merged_locs api k : values m !! api = Some k -> (api, k) ∈ items /\ exists x l, h !! k = Some (x :: l);
  merged_rest l : (l ∉ items.*2) -> h !! l = h0 !! l;
}.

Lemma item_samples_app api items i :
  item_samples api (items ++ [i]) = item_samples api items ++ (if decide (i.1 = api) then default [] (h0 !! i.2) else []).
Proof.
  unfold item_samples. rewrite filter_app, fmap_app, filter_cons, join_app. f_equal.
  destruct (decide (i.1 = api)); cbn; [by rewrite app_nil_r|done].
Qed.

Lemma merge_item_ok items m h api l :
  NoDup (items ++ [(api, l)]).*2 -> (exists x k, h0 !! l = Some (x :: k)) -> merged_ok items m h ->
  merged_ok (items ++ [(api, l)]) (merge_item (m, h) (api, l)).1 (merge_item (m, h) (api, l)).2.
Proof.
  intros Hnd (y & k2 & Hl) [Hs Ha Hk Hr].
  rewrite fmap_app in Hnd. apply NoDup_app in Hnd as (Hnd & Hfresh & _).
  assert (l ∉ items.*2) as Hlf by (intros Hin; apply (Hfresh l Hin); by left).
  assert (h !! l = Some (y :: k2)) as Hhl by (rewrite Hr; done).
  assert (forall a b k, values m !! a = Some k -> values m !! b = Some k -> a = b) as Hinj.
  { intros a b k [Hina _]%Hk [Hinb _]%Hk. apply list_elem_of_lookup in Hina as [i Hi], Hinb as [j Hj].
    assert (i = j) as ->; [|congruence].
    eapply (NoDup_lookup items.*2); [done|rewrite list_lookup_fmap, Hi; done|rewrite list_lookup_fmap, Hj; done]. }
  unfold merge_item. destruct (values m !! api) as [k|] eqn:Hv.
  - destruct (Hk api k Hv) as (Hin & x & old & Hhk). rewrite Hhk, Hhl. cbn [default from_option id fst snd].
    assert (k < length h) as Hlt by (by eapply lookup_lt_Some).
    split.
    + intros a. rewrite item_samples_app. cbn [fst snd]. rewrite Hl, <- Hs. unfold samples.
      destruct (decide (api = a)) as [<-|Hne].
      * rewrite Hv, list_lookup_insert_eq, Hhk by done. done.
      * rewrite app_nil_r. destruct (values m !! a) as [k'|] eqn:Hva; [|done].
        rewrite list_lookup_insert_ne; [done|]. intros <-. by apply Hne, (Hinj api a k).
    + intros a. rewrite Ha, fmap_app, elem_of_app. split; [by left|].
      intros [?| ->%list_elem_of_singleton]; [done|]. apply Ha. by exists k.
    + intros a k' Hva. destruct (Hk a k' Hva) as (Hin' & x' & l' & Hhk'). split; [apply elem_of_app; by left|].
      destruct (decide (k' = k)) as [->|Hne]; [rewrite list_lookup_insert_eq by done|rewrite list_lookup_insert_ne by done]; by eexists _, _.
    + intros l' Hl'. rewrite list_lookup_insert_ne.
      * apply Hr. intros Hin'. apply Hl'. rewrite fmap_app. apply elem_of_app. by left.
      * intros ->. apply Hl'. rewrite fmap_app. apply elem_of_app. left. apply list_elem_of_fmap. by exists (api, l').
  - cbn [fst snd]. split; cbn [values].
    + intros a. rewrite item_samples_app. cbn [fst snd]. rewrite Hl, <- Hs. unfold samples. cbn [values].
      destruct (decide (api = a)) as [<-|Hne]; [by rewrite lookup_insert_eq, Hhl, Hv|].
      by rewrite lookup_insert_ne, app_nil_r.
    + intros a. rewrite fmap_app, elem_of_app, <- Ha, lookup_insert_is_Some. cbn [fmap list_fmap].
      rewrite list_elem_of_singleton. destruct (decide (api = a)); naive_solver.
    + intros a k [[<- <-]|[Hne Hva]]%lookup_insert_Some.
      * split; [apply elem_of_app; right; by left|by eexists _, _].
      * destruct (Hk a k Hva) as (Hin' & x' & l' & Hhk'). split; [apply elem_of_app; by left|by eexists _, _].
    + intros l' Hl'. apply Hr. intros Hin'. apply Hl'. rewrite fmap_app. apply elem_of_app. by left.
Qed.

Lemma merge_items_ok items :
  NoDup items.*2 -> Forall (fun i : pystr * loc => exists x k, h0 !! i.2 = Some (x :: k)) items ->
  let r := foldl merge_item (new_VTSProfilingData, h0) items in merged_ok items r.1 r.2.
Proof.
  induction items as [|[api l] items IH] using rev_ind; intros Hnd Hv.
  - cbn. split; cbn.
    + intros api. unfold samples. cbn. by rewrite lookup_empty.
    + intros api. rewrite lookup_empty. split; [by intros []|by intros ?%elem_of_nil].
    + intros api k. by rewrite lookup_empty.
    + done.
  - apply Forall_app in Hv as [Hv Hl]. inv Hl. cbv zeta. rewrite foldl_app. cbn [foldl].
    destruct (foldl merge_item (new_VTSProfilingData, h0) items) as [m h] eqn:He.
    apply merge_item_ok; [done|done|]. cbn [fst snd] in IH. apply IH; [|done].
    rewrite fmap_app in Hnd. by apply NoDup_app in Hnd as (Hnd & _).
Qed.
End merge.

(** ** From traces to the report *)

(** The data of several tests, each with a part of the store of its own. *)
Definition within (n m : nat) (h : latency_store) (d : VTSProfilingData) : Prop := owns n h d /\
  forall a l, values d !! a = Some l -> l < m.
Fixpoint separate (n m : nat) (h : latency_store) (ds : list VTSProfilingData) : Prop :=
  match ds with
  | [] => n <= m
  | d :: ds => exists k, n <= k /\ within n k h d /\ separate k m h ds
  end.

Lemma owns_within n h d : owns n h d -> within n (length h) h d.
Proof. intros Ho. split; [done|]. intros a l Hv. destruct Ho as [Hl _]. destruct (Hl a l Hv) as (_ & x & k & Hh). by eapply lookup_lt_Some. Qed.

Lemma separate_app n m k h ds d : separate n m h ds -> m <= k -> within m k h d -> separate n k h (ds ++ [d]).
Proof.
  revert n. induction ds as [|d' ds IH]; intros n Hs Hmk Hw; cbn [app separate] in *.
  - exists k. split; [lia|]. split; [|done]. destruct Hw as [[Hl Hi] Hlt]. split; [|done]. split; [|done].
    intros a l Hv. destruct (Hl a l Hv). split; [lia|done].
  - destruct Hs as (j & Hj & Hw' & Hs). exists j. split_and!; [done|done|by apply IH].
Qed.

(** A store that agrees on the part in use gives the same samples. *)
Lemma within_ext n m h h' d : within n m h d -> take m h' = take m h -> within n m h' d /\ forall a, samples h' d a = samples h d a.
Proof.
  intros [[Hl Hi] Hlt] Ht.
  assert (forall l, l < m -> h' !! l = h !! l) as Heq.
  { intros l Hm. rewrite <- (lookup_take_lt h' m l), <- (lookup_take_lt h m l) by done. by rewrite Ht. }
  split.
  - split; [|done]. split; [|done]. intros a l Hv. rewrite Heq by eauto. by apply (Hl a).
  - intros a. unfold samples. destruct (values d !! a) as [l|] eqn:Hv; [|done]. by rewrite Heq by eauto.
Qed.

Lemma take_le {A} (m k : nat) (h h' : list A) : k <= m -> take m h' = take m h -> take k h' = take k h.
Proof.
  intros Hk Ht. replace k with (k `min` m) by lia. by rewrite <- !take_take, Ht.
Qed.

Lemma separate_le n m h ds : separate n m h ds -> n <= m.
Proof. revert n. induction ds as [|d ds IH]; intros n; cbn; [done|]. intros (k & Hk & _ & Hs%IH). lia. Qed.

Lemma separate_ext n m h h' ds (tr : list (list sample_line)) :
  separate n m h ds -> take m h' = take m h -> Forall2 (fun d ss => forall a, samples h d a = of_api a ss) ds tr ->
  separate n m h' ds /\ Forall2 (fun d ss => forall a, samples h' d a = of_api a ss) ds tr.
Proof.
  intros Hs Ht Htr. revert n Hs. induction Htr as [|d ss ds tr Hd _ IH]; intros n; cbn [separate]; [by split|].
  intros (k & Hk & Hw & Hs). pose proof (separate_le _ _ _ _ Hs) as Hkm.
  destruct (within_ext n k h h' d Hw) as [Hw' Hsm]; [by eapply take_le|].
  destruct (IH k Hs) as [Hs' Htr']. split; [by exists k|]. constructor; [|done]. intros a. by rewrite Hsm.
Qed.

Section report.
Context {S : Type} (host_Execute : list pystr -> xstM S (list (pystr * pystr * Z))).
Context (spec_apis : pystr -> xres (list (pystr * bool))) (interfaces : pystr -> interface).
Context (set_order : gset pystr -> list pystr) (dict_order : forall A, gmap pystr A -> list (pystr * A)).
Context (dict_order_items : forall A (m : gmap pystr A), dict_order A m ≡ₚ map_to_list m).

(** A trace file: its mode and its lines, as the trace processor prints them. *)
Record trace := mk_trace { t_mode : pystr; t_samples : list sample_line }.
Definition trace_ok (s : S) (path : pystr) (file : pystr) (t : trace) : Prop :=
  no_byte Byte.x3a (t_mode t) = true /\ forallb sample_ok (t_samples t) = true /\
  Forall (fun x : sample_line => x.2 <= 2 ^ 63 - 1)%Z (t_samples t) /\
  Forall (line_ok spec_apis interfaces path) (t_samples t) /\
  exists out e, host_Execute (trace_processor_cmd path file) s = (Ret [(out.1, e, 0%Z); (out.2, e, 0%Z)], s) /\
    split newline out.2 = ((bs "mode:" ++ t_mode t) :: (render_sample <$> t_samples t)) ++ [[]].

(** The state after the traces [tr]: data for each of them, in the same order, with the latencies of
    its lines, and the coverage of their functions. *)
Record traced (path : pystr) (tr : list trace) (w : profiling_world S) : Prop := {
  traced_path : data_file_path_is path w;
  traced_apart : separate 0 (length (latencies (pf w))) (latencies (pf w)) (default [] (profiling_data (pf w)));
  traced_samples : Forall2 (fun d ss => forall a, samples (latencies (pf w)) d a = of_api a ss)
    (default [] (profiling_data (pf w))) (t_samples <$> tr);
  traced_coverage : api_coverage_data (pf w) = foldl (cover interfaces) ∅ (mjoin (t_samples <$> tr));
}.

Lemma parse_files_run path files ts (w : profiling_world S) tr0 :
  traced path tr0 w -> Forall2 (trace_ok (outside w) path) files ts ->
  exists w', parse_files host_Execute spec_apis true files w = (Ret tt, w') /\ traced path (tr0 ++ ts) w' /\
    outside w' = outside w /\ pf_feature (pf w') = pf_feature (pf w) /\ pf_web (pf w') = pf_web (pf w).
Proof.
  revert ts w tr0. induction files as [|file files IH]; intros ts w tr0 Htr Hok.
  { apply Forall2_nil_inv_l in Hok as ->. exists w. rewrite app_nil_r. by split_and!. }
  apply Forall2_cons_inv_l in Hok as (t & ts' & Ht & Hts & ->).
  destruct Ht as (Hm & Hs & _ & Hl & out & e & He & Hout). destruct Htr as [Hp Hsep Hsm0 Hcov].
  destruct (ParseTraceData_run spec_apis interfaces path host_Execute file (t_mode t) (t_samples t) w (outside w) out e Hp Hl He Hout Hm Hs)
    as (d & h & Hr & Ho & Htk & _ & Hsm).
  set (ds0 := default [] (profiling_data (pf w))) in *.
  set (w0 := with_traced h (foldl (cover interfaces) (api_coverage_data (pf w)) (t_samples t)) (mk_pw (outside w) (pf w))) in Hr.
  set (w1 := mk_pw (outside w0) (set_profiling_data (ds0 ++ [d]) (pf w0))).
  assert (length (latencies (pf w)) <= length h) as Hlen.
  { rewrite <- Htk at 1. rewrite length_take. lia. }
  destruct (separate_ext 0 (length (latencies (pf w))) (latencies (pf w)) h ds0 (t_samples <$> tr0) Hsep) as [Hsep' Htr']; [|done|].
  { by rewrite Htk, take_ge. }
  destruct (IH ts' w1 (tr0 ++ [t])) as (w' & Hr' & Htr2 & Ho2 & Hf2 & Hw2).
  - split; cbn.
    + exact Hp.
    + eapply separate_app; [exact Hsep'|done|]. by apply owns_within.
    + rewrite fmap_app. apply Forall2_app; [done|]. by repeat constructor.
    + rewrite Hcov, fmap_app, join_app, foldl_app. cbn. by rewrite app_nil_r.
  - done.
  - exists w'. split; [|].
    + cbn [parse_files]. erewrite xstM_bind_run by exact Hr. erewrite xstM_bind_run by reflexivity. exact Hr'.
    + rewrite <- app_assoc in Htr2. by split_and!.
Qed.

(** *** The merged data *)
Definition all_items (ds : list VTSProfilingData) : list (pystr * loc) :=
  mjoin ((fun d => dict_order _ (values d)) <$> ds).

Lemma merge_item_options m o h i :
  merge_item (mk_data (values m) o, h) i =
    (mk_data (values (merge_item (m, h) i).1) o, (merge_item (m, h) i).2) /\ options (merge_item (m, h) i).1 = options m.
Proof.
  destruct i as [api l]. unfold merge_item. cbn [values options].
  destruct (values m !! api) as [k|]; [|done]. by destruct (h !! k) as [[|]|].
Qed.

Lemma merge_items_options items m o h :
  foldl merge_item (mk_data (values m) o, h) items =
    (mk_data (values (foldl merge_item (m, h) items).1) o, (foldl merge_item (m, h) items).2).
Proof.
  revert m h. induction items as [|i items IH]; intros m h; [done|]. cbn [foldl].
  destruct (merge_item_options m o h i) as [-> _]. destruct (merge_item (m, h) i) as [m1 h1]. apply IH.
Qed.

Lemma merge_datas ds m h :
  exists o, foldl (merge_data dict_order) (m, h) ds =
    (mk_data (values (foldl merge_item (m, h) (all_items ds)).1) o, (foldl merge_item (m, h) (all_items ds)).2).
Proof.
  revert m h. induction ds as [|d ds IH]; intros m h; [by exists (options m); destruct m|].
  change (all_items (d :: ds)) with (dict_order _ (values d) ++ all_items ds). cbn [foldl]. rewrite foldl_app.
  unfold merge_data at 2. rewrite merge_items_options. cbn [fst snd].
  destruct (foldl merge_item (m, h) (dict_order loc (values d))) as [m1 h1] eqn:He. cbn [fst snd].
  destruct (IH (mk_data (values m1) (options d ∪ options m)) h1) as (o & Ho). exists o. rewrite Ho.
  by rewrite merge_items_options.
Qed.

Lemma filter_key {A} (m : gmap pystr A) a :
  filter (fun i : pystr * A => i.1 = a) (dict_order A m) = match m !! a with Some v => [(a, v)] | None => [] end.
Proof.
  assert (filter (fun i : pystr * A => i.1 = a) (dict_order A m) ≡ₚ match m !! a with Some v => [(a, v)] | None => [] end) as Hp.
  { apply NoDup_Permutation.
    - apply NoDup_filter. rewrite dict_order_items. apply NoDup_map_to_list.
    - destruct (m !! a); [apply NoDup_singleton|apply NoDup_nil_2].
    - intros [b v]. rewrite list_elem_of_filter. cbn [fst]. rewrite dict_order_items, elem_of_map_to_list.
      destruct (m !! a) as [v'|] eqn:Hv.
      + rewrite list_elem_of_singleton. naive_solver.
      + rewrite elem_of_nil. naive_solver. }
  destruct (m !! a) as [v|]; [by apply Permutation_singleton_r in Hp|by apply Permutation_nil_r in Hp].
Qed.

Lemma of_api_app a l k : of_api a (l ++ k) = of_api a l ++ of_api a k.
Proof. unfold of_api. by rewrite filter_app, fmap_app. Qed.

Lemma item_samples_all h a ds tr :
  Forall2 (fun d ss => forall a, samples h d a = of_api a ss) ds tr ->
  item_samples h a (all_items ds) = of_api a (mjoin tr).
Proof.
  induction 1 as [|d ss ds tr Hd _ IH]; [done|].
  change (all_items (d :: ds)) with (dict_order _ (values d) ++ all_items ds).
  change (mjoin (ss :: tr)) with (ss ++ mjoin tr). rewrite of_api_app, <- IH, <- Hd.
  unfold item_samples. rewrite filter_app, fmap_app, join_app. f_equal. rewrite filter_key. unfold samples.
  destruct (values d !! a); cbn; [by rewrite app_nil_r|done].
Qed.

Lemma separate_items n m h ds :
  separate n m h ds ->
  NoDup (all_items ds).*2 /\ Forall (fun i : pystr * loc => exists x k, h !! i.2 = Some (x :: k)) (all_items ds) /\
  Forall (fun i : pystr * loc => n <= i.2) (all_items ds).
Proof.
  revert n. induction ds as [|d ds IH]; intros n.
  { intros _. split; [apply NoDup_nil_2|by split]. }
  intros (k & Hk & [[Hl Hinj] Hlt] & Hs). destruct (IH k Hs) as (Hnd & Hv & Hge).
  change (all_items (d :: ds)) with (dict_order _ (values d) ++ all_items ds).
  assert (forall i, i ∈ dict_order loc (values d) -> values d !! i.1 = Some i.2) as Hin.
  { intros [a l] Hi. rewrite dict_order_items in Hi. by apply elem_of_map_to_list in Hi. }
  split; [|split].
  - rewrite fmap_app. apply NoDup_app. split_and!; [| |exact Hnd].
    + apply NoDup_fmap_2_strong; [|rewrite dict_order_items; apply NoDup_map_to_list].
      intros [a l] [b l'] Ha%Hin Hb%Hin. cbn in *. intros <-. f_equal. by apply (Hinj a b l).
    + intros l ([a l1] & -> & Ha%Hin)%list_elem_of_fmap ([b l2] & Heq & Hb)%list_elem_of_fmap.
      cbn in *. subst. rewrite Forall_forall in Hge. specialize (Hge _ Hb). specialize (Hlt _ _ Ha). cbn in Hge. lia.
  - apply Forall_app. split; [|exact Hv]. apply Forall_forall. intros [a l] Ha%Hin. by apply (Hl a).
  - apply Forall_app. split; [|eapply Forall_impl; [exact Hge|intros i Hi; cbn in *; lia]].
    apply Forall_forall. intros [a l] Ha%Hin. by apply (Hl a).
Qed.

Lemma report_items_run opts h items f r :
  reporting f r -> NoDup items.*1 -> (forall a, a ∈ items.*1 -> a ∉ active f) ->
  Forall (fun i : pystr * loc => Forall (fun z => - 2 ^ 63 <= z <= 2 ^ 63 - 1)%Z (default [] (h !! i.2))) items ->
  exists f' r', report_items opts h items f = (Ret tt, f') /\ reporting f' r' /\ r_api_coverage r' = r_api_coverage r /\
    profiling r' = profiling r ++ ((fun i : pystr * loc =>
      mk_profiling i.1 (Some TYPE_UNLABELED_VECTOR) 2 None None [] (default [] (h !! i.2))
        (bs "API processing latency (nano secs)") (bs "Frequency") opts) <$> items).
Proof.
  intros H Hnd Hact Hf. revert f r H Hact. induction Hf as [|[a l] items Hz _ IH]; intros f r H Hact.
  { exists f, r. cbn. by rewrite app_nil_r. }
  cbn [fmap list_fmap fst] in Hnd. apply NoDup_cons in Hnd as [Ha Hnd].
  cbn [report_items]. unfold AddProfilingDataUnlabeledVector.
  erewrite xstM_bind_run by (apply (AddProfilingDataVector_run _ _ _ _ _ _ _ _ _ _ H); [apply Hact; by left|exact Hz]).
  set (r1 := set_profiling _ r). destruct (IH Hnd (set_report r1 (set_active ({[a]} ∪ active f) f)) r1)
    as (f' & r' & Hr & H' & Hcov & Hp); [by destruct H| |].
  - intros b Hb. cbn. intros [->%elem_of_singleton|Hin]%elem_of_union; [done|]. apply (Hact b); [by right|done].
  - exists f', r'. split_and!; [exact Hr|done|by rewrite Hcov|]. rewrite Hp. cbn. by rewrite <- app_assoc.
Qed.

Lemma of_api_bounds a (l : list sample_line) :
  forallb sample_ok l = true -> Forall (fun x : sample_line => x.2 <= 2 ^ 63 - 1)%Z l ->
  Forall (fun z => - 2 ^ 63 <= z <= 2 ^ 63 - 1)%Z (of_api a l).
Proof.
  intros Hok Hle. apply Forall_fmap, Forall_forall. intros x [_ Hx]%list_elem_of_filter.
  rewrite Forall_forall in Hle. specialize (Hle x Hx). rewrite forallb_forall in Hok.
  apply list_elem_of_In in Hx. specialize (Hok x Hx). unfold sample_ok in Hok.
  apply andb_true_iff in Hok as [_ Hz%Z.leb_le]. cbn. lia.
Qed.

(** The message about an interface. *)
Definition coverage_msg (i : interface) (covered : gset pystr) : ApiCoverageReportMessage :=
  mk_api_coverage (i_package i) (i_major i) (i_minor i) (i_name i) (set_order (i_apis i)) (set_order covered).

Lemma add_api_coverage_run l f r :
  reporting f r ->
  Forall (fun x : interface * gset pystr => (0 <= i_major x.1 <= 2 ^ 31 - 1)%Z /\ (0 <= i_minor x.1 <= 2 ^ 31 - 1)%Z) l ->
  AddApiCoverageReport (api_data_of set_order <$> (uncurry fresh_coverage <$> l)) true f =
    (Ret tt, set_report (set_r_api_coverage (r_api_coverage r ++ (uncurry coverage_msg <$> l)) r) f).
Proof.
  intros H Hl. unfold AddApiCoverageReport. rewrite (when_enabled_run _ _ _ _ H). destruct H as [_ H].
  revert f r H. induction Hl as [|[i covered] l [H1 H2] _ IH]; intros f r H.
  { cbn. rewrite app_nil_r. destruct f, r. cbn in *. by subst. }
  cbn [fmap list_fmap uncurry add_api_coverage]. cbn [fst] in H1, H2.
  assert (forall g w r, report_msg w = Some r ->
    on_api_coverage true g w = (Ret tt, set_report (set_r_api_coverage (g (r_api_coverage r)) r) w)) as Hstep.
  { intros g w0 r0 H0. exact (on_report_run _ _ _ H0). }
  assert (forall z : Z, (0 <= z <= 2 ^ 31 - 1)%Z -> int32 z = Ret z) as H32.
  { intros z Hz. unfold int32. by rewrite in_range_Ret by lia. }
  erewrite xstM_bind_run by (by apply Hstep). erewrite xstM_bind_run by (by apply Hstep). cbn [version_major version_minor api_data_of ac_version_major ac_version_minor fresh_coverage].
  rewrite !py_int_str by lia. erewrite xstM_bind_run by reflexivity. rewrite H32 by done. erewrite xstM_bind_run by reflexivity.
  erewrite xstM_bind_run by (by apply Hstep). erewrite xstM_bind_run by reflexivity. rewrite H32 by done. erewrite xstM_bind_run by reflexivity.
  erewrite xstM_bind_run by (by apply Hstep). cbn [r_api_coverage set_r_api_coverage]. rewrite !alter_last_app.
  erewrite IH by reflexivity. cbn [r_api_coverage set_r_api_coverage]. by rewrite <- app_assoc.
Qed.

(** *** The tests of a class *)
Context (shell_Execute : pystr -> xstM S (list pystr)) (adb_pull : pystr -> xstM S unit).

(** A test of a HAL from the host: its set-up, what it does to the device, its end. *)
Definition profiled_test (test : xstM S unit) : xstM (profiling_world S) unit :=
  _ ← EnableVTSProfiling shell_Execute None;
  _ ← on_outside test;
  _ ← ProcessTraceDataForTestCase shell_Execute adb_pull host_Execute spec_apis true;
  DisableVTSProfiling shell_Execute.
Fixpoint profiled_tests (tests : list (xstM S unit)) : xstM (profiling_world S) unit :=
  match tests with [] => mret tt | test :: tests => _ ← profiled_test test; profiled_tests tests end.
Definition profiled_class (tests : list (xstM S unit)) : xstM (profiling_world S) unit :=
  _ ← profiled_tests tests;
  ProcessAndUploadTraceData set_order dict_order true.

(** The commands run one after the other. *)
Fixpoint executes (cmds : list pystr) (s s' : S) : Prop :=
  match cmds with
  | [] => s' = s
  | c :: cmds => exists out s1, shell_Execute c s = (Ret out, s1) /\ executes cmds s1 s'
  end.
Definition local_file (line : pystr) : pystr := path_join2 LOCAL_PROFILING_TRACE_PATH (basename (strip line)).
Fixpoint pulled (lines : list pystr) (s s' : S) : Prop :=
  match lines with
  | [] => s' = s
  | line :: lines => exists s1, adb_pull (line ++ bs " " ++ local_file line) s = (Ret tt, s1) /\ pulled lines s1 s'
  end.
(** A test ends normally with the traces [ts] on the device: they are listed and can be pulled, and the
    trace processor of the host can print what was pulled. *)
Definition leaves (f : Feature) (path : pystr) (test : xstM S unit) (ts : list trace) (s s' : S) : Prop :=
  exists s1 s2 s3 s4 lines out, executes (enable_commands f None) s s1 /\ test s1 = (Ret tt, s2) /\
    shell_Execute (bs "ls " ++ traces) s2 = (Ret [out], s3) /\ split newline out = lines ++ [[]] /\ Forall (fun l => l <> []) lines /\
    pulled lines s3 s4 /\ Forall2 (trace_ok s4 path) (local_file <$> lines) ts /\ executes disable_commands s4 s'.
Fixpoint all_leave (f : Feature) (path : pystr) (tests : list (xstM S unit * list trace)) (s s' : S) : Prop :=
  match tests with
  | [] => s' = s
  | (test, ts) :: tests => exists s1, leaves f path test ts s s1 /\ all_leave f path tests s1 s'
  end.

Lemma execute_all_run cmds (w : profiling_world S) s' :
  executes cmds (outside w) s' -> execute_all shell_Execute cmds w = (Ret tt, mk_pw s' (pf w)).
Proof.
  revert w. induction cmds as [|c cmds IH]; intros w; [intros ->; by destruct w|].
  intros (out & s1 & Hc & Hr). cbn [execute_all]. erewrite xstM_bind_run by (unfold execute, on_outside; by rewrite Hc).
  exact (IH (mk_pw s1 (pf w)) Hr).
Qed.

Lemma fetch_traces_run lines (w : profiling_world S) s' :
  Forall (fun l => l <> []) lines -> pulled lines (outside w) s' ->
  fetch_traces adb_pull host_Execute LOCAL_PROFILING_TRACE_PATH [] (lines ++ [[]]) w =
    (Ret (local_file <$> lines), mk_pw s' (pf w)).
Proof.
  intros Hne. revert w. induction Hne as [|l lines Hl _ IH]; intros w; [intros ->; by destruct w|].
  intros (s1 & Hp & Hr). cbn [app fetch_traces]. rewrite decide_False by done.
  erewrite xstM_bind_run.
  2: { unfold fetch_trace. cbv zeta. erewrite xstM_bind_run by (unfold on_outside, local_file in *; by rewrite Hp).
       rewrite decide_True by done. by erewrite xstM_bind_run by reflexivity. }
  by erewrite xstM_bind_run by (exact (IH (mk_pw s1 (pf w)) Hr)).
Qed.

Lemma profiled_test_run path test ts tr0 (w : profiling_world S) s' :
  let f := pf_feature (pf w) in
  enabled f = true -> truthy (attribute_or f IKEY_SAVE_TRACE_FILE_REMOTE (PBool false)) = false ->
  traced path tr0 w -> leaves f path test ts (outside w) s' ->
  exists w', profiled_test test w = (Ret tt, w') /\ traced path (tr0 ++ ts) w' /\ outside w' = s' /\
    pf_feature (pf w') = f /\ pf_web (pf w') = pf_web (pf w).
Proof.
  intros f Hen Hrem Htr (s1 & s2 & s3 & s4 & lines & out & H1 & H2 & H3 & Hs & Hne & H4 & Hok & H5).
  unfold profiled_test, EnableVTSProfiling. erewrite xstM_bind_run.
  2: { erewrite xstM_bind_run by reflexivity. fold f. by apply execute_all_run. }
  erewrite xstM_bind_run by (unfold on_outside; cbn [outside]; by rewrite H2). cbn [pf].
  set (w0 := mk_pw s4 (set_profiling_data (default [] (profiling_data (pf w))) (pf w))).
  destruct (parse_files_run path (local_file <$> lines) ts w0 tr0) as (w1 & Hr & Htr1 & Ho & Hf & Hw); [|exact Hok|].
  { destruct Htr. by split. }
  exists (mk_pw s' (pf w1)). erewrite xstM_bind_run.
  2: { unfold ProcessTraceDataForTestCase. erewrite xstM_bind_run by reflexivity. cbn [pf]. fold f. rewrite Hen.
       erewrite xstM_bind_run by reflexivity. rewrite Hrem. erewrite xstM_bind_run.
       2: { unfold GetTraceFiles. erewrite xstM_bind_run by (unfold execute, on_outside; cbn [outside]; by rewrite H3).
            erewrite xstM_bind_run by reflexivity. rewrite Hs. by apply fetch_traces_run. }
       exact Hr. }
  split; [|by destruct Htr1; split_and!].
  unfold DisableVTSProfiling. apply execute_all_run. by rewrite Ho.
Qed.

Lemma profiled_tests_run path tests tr0 (w : profiling_world S) s' :
  let f := pf_feature (pf w) in
  enabled f = true -> truthy (attribute_or f IKEY_SAVE_TRACE_FILE_REMOTE (PBool false)) = false ->
  traced path tr0 w -> all_leave f path tests (outside w) s' ->
  exists w', profiled_tests tests.*1 w = (Ret tt, w') /\ traced path (tr0 ++ mjoin tests.*2) w' /\
    pf_feature (pf w') = f /\ pf_web (pf w') = pf_web (pf w).
Proof.
  intros f Hen Hrem. revert tr0 w f Hen Hrem. induction tests as [|[test ts] tests IH]; intros tr0 w f Hen Hrem Htr.
  { intros _. exists w. cbn. rewrite app_nil_r. by split_and!. }
  intros (s1 & H1 & H2). destruct (profiled_test_run path test ts tr0 w s1 Hen Hrem Htr H1) as (w1 & Hr & Htr1 & Ho & Hf & Hw).
  subst s1. fold f in Hf. destruct (IH (tr0 ++ ts) w1) as (w2 & Hr2 & Htr2 & Hf2 & Hw2); [by rewrite Hf..|done|by rewrite Hf|].
  exists w2. cbn [fmap list_fmap fst profiled_tests]. erewrite xstM_bind_run by exact Hr.
  split; [exact Hr2|]. rewrite <- app_assoc in Htr2. split_and!; [exact Htr2|by rewrite Hf2, Hf|by rewrite Hw2, Hw].
Qed.

(** The merged latencies of the traces [tr]. *)
Lemma merged_latencies path tr (w : profiling_world S) m h' :
  traced path tr w ->
  foldl (merge_data dict_order) (new_VTSProfilingData, latencies (pf w)) (default [] (profiling_data (pf w))) = (m, h') ->
  let calls := mjoin (t_samples <$> tr) in
  (forall a l, (a, l) ∈ dict_order loc (values m) -> default [] (h' !! l) = of_api a calls) /\
  (forall a, a ∈ (dict_order loc (values m)).*1 <-> of_api a calls <> []).
Proof.
  intros [_ Hsep Htr _] He calls. set (h := latencies (pf w)) in *. set (ds := default [] (profiling_data (pf w))) in *.
  destruct (separate_items _ _ _ _ Hsep) as (Hnd & Hv & _).
  pose proof (merge_items_ok h (all_items ds) Hnd Hv) as Hm. cbv zeta in Hm.
  destruct (merge_datas ds new_VTSProfilingData h) as (o & Ho). rewrite He in Ho.
  destruct (foldl merge_item (new_VTSProfilingData, h) (all_items ds)) as [m0 h0] eqn:He0. cbn [fst snd] in Hm, Ho.
  injection Ho as -> ->. destruct Hm as [Hs Ha Hk _]. cbn [values].
  assert (forall a, samples h0 m0 a = of_api a calls) as Hsm by (intros a; rewrite Hs; by apply item_samples_all).
  assert (forall a l, (a, l) ∈ dict_order loc (values m0) <-> values m0 !! a = Some l) as Hin.
  { intros a l. by rewrite dict_order_items, elem_of_map_to_list. }
  split.
  - intros a l Hi%Hin. rewrite <- Hsm. unfold samples. by rewrite Hi.
  - intros a. rewrite <- Hsm. unfold samples. split.
    + intros ([b l] & -> & Hi%Hin)%list_elem_of_fmap. cbn [fst]. rewrite Hi. destruct (Hk b l Hi) as (_ & x & k & ->). done.
    + intros Hne. destruct (values m0 !! a) as [l|] eqn:Hv'; [|done]. apply list_elem_of_fmap. exists (a, l).
      split; [done|]. by apply Hin.
Qed.

Lemma all_leave_ok f path tests s s' :
  all_leave f path tests s s' ->
  let calls := mjoin (t_samples <$> mjoin tests.*2) in
  forallb sample_ok calls = true /\ Forall (fun x : sample_line => x.2 <= 2 ^ 63 - 1)%Z calls /\
  Forall (line_ok spec_apis interfaces path) calls.
Proof.
  revert s. induction tests as [|[test ts] tests IH]; intros s; [intros _; split; [done|by split]|].
  intros (s1 & (? & ? & ? & s4 & lines & ? & _ & _ & _ & _ & _ & _ & Hok & _) & Hrest). apply IH in Hrest as (H1 & H2 & H3). cbv zeta.
  change (mjoin ((test, ts) :: tests).*2) with (ts ++ mjoin tests.*2). rewrite fmap_app, join_app, forallb_app, H1.
  assert (forallb sample_ok (mjoin (t_samples <$> ts)) = true /\ Forall (fun x : sample_line => x.2 <= 2 ^ 63 - 1)%Z (mjoin (t_samples <$> ts)) /\
    Forall (line_ok spec_apis interfaces path) (mjoin (t_samples <$> ts))) as (-> & Hb & Hc).
  { clear -Hok. induction Hok as [|file t files ts (_ & Ha & Hb & Hc & _) _ (IH1 & IH2 & IH3)]; [done|].
    change (mjoin (t_samples <$> t :: ts)) with (t_samples t ++ mjoin (t_samples <$> ts)).
    rewrite forallb_app, Ha, IH1. split; [done|]. split; by apply Forall_app. }
  split; [done|]. split; by apply Forall_app.
Qed.

Lemma coverage_entries m calls :
  coverage_after interfaces calls m -> let l := dict_order api_coverage m in
  NoDup l.*1 /\ Forall (fun p : pystr * api_coverage => covered_by interfaces calls p.1 p.2) l /\
  l.*2 = uncurry fresh_coverage <$> ((fun p : pystr * api_coverage => (interfaces p.1, ac_covered_apis p.2)) <$> l) /\
  forall full, full ∈ l.*1 <-> full ∈ (fun s : sample_line => s.1.1) <$> calls /\ i_apis (interfaces full) <> ∅.
Proof.
  intros Hm l.
  assert (Forall (fun p : pystr * api_coverage => covered_by interfaces calls p.1 p.2) l) as Hall.
  { apply Forall_forall. intros [full c] Hin. unfold l in Hin. rewrite dict_order_items in Hin.
    apply elem_of_map_to_list in Hin. specialize (Hm full). by rewrite Hin in Hm. }
  split_and!; [|done| |].
  - unfold l. rewrite dict_order_items. apply NoDup_fst_map_to_list.
  - rewrite <- list_fmap_compose. apply list_fmap_ext. intros k [full c] Hk. cbn.
    rewrite Forall_forall in Hall. by destruct (Hall _ (list_elem_of_lookup_2 _ _ _ Hk)) as (_ & _ & ? & _).
  - intros full. split.
    + intros ([full' c] & -> & Hin)%list_elem_of_fmap. rewrite Forall_forall in Hall. destruct (Hall _ Hin) as (H1 & H2 & _). by split.
    + intros [H1 H2]. specialize (Hm full). destruct (m !! full) as [c|] eqn:Hc; [|by destruct H2; apply Hm].
      apply list_elem_of_fmap. exists (full, c). split; [done|]. unfold l. rewrite dict_order_items. by apply elem_of_map_to_list.
Qed.

(** C20: A class of HAL tests is run from the host with profiling on: each test is set up by enabling the
    profiling, and afterwards its traces are fetched and parsed and the profiling is disabled; at the end
    the data is uploaded, with the coverage of the functions (the defaults of both). When the tests end normally and the device, the pulls, the
    trace processor of the host and the specification files of the interfaces serve every command, the traces are well-formed with latencies of
    64 bits, traces are not stored remotely, and web reporting is on for a report to which no point was added before, then
    the report gets one vector for each function that was called, with its latencies in the order of the tests, of
    their traces and of the lines; and one message for each interface that was called and has functions, with
    its name, version and functions, and as covered only functions that were called, among them all of the
    interface's that were. *)
Theorem latencies_are_reported path tests (w : profiling_world S) s' f r :
  let feature := pf_feature (pf w) in
  enabled feature = true -> attrs feature !! IKEY_DATA_FILE_PATH = Some (PStr path) ->
  truthy (attribute_or feature IKEY_SAVE_TRACE_FILE_REMOTE (PBool false)) = false ->
  pf_web (pf w) = Some f -> reporting f r -> active f = ∅ ->
  latencies (pf w) = [] -> profiling_data (pf w) = None -> api_coverage_data (pf w) = ∅ ->
  all_leave feature path tests (outside w) s' ->
  let calls := mjoin (t_samples <$> mjoin tests.*2) in
  exists w' f' r' apis opts covered,
    profiled_class tests.*1 w = (Ret tt, w') /\ pf_web (pf w') = Some f' /\ reporting f' r' /\
    NoDup apis /\ (forall a, a ∈ apis <-> of_api a calls <> []) /\
    profiling r' = profiling r ++ ((fun a => mk_profiling a (Some TYPE_UNLABELED_VECTOR) 2 None None []
      (of_api a calls) (bs "API processing latency (nano secs)") (bs "Frequency") opts) <$> apis) /\
    NoDup covered.*1 /\ Forall (fun p : pystr * api_coverage => covered_by interfaces calls p.1 p.2) covered /\
    (forall full, full ∈ covered.*1 <-> full ∈ (fun s : sample_line => s.1.1) <$> calls /\ i_apis (interfaces full) <> ∅) /\
    r_api_coverage r' = r_api_coverage r ++
      ((fun p : pystr * api_coverage => coverage_msg (interfaces p.1) (ac_covered_apis p.2)) <$> covered).
Proof.
  intros feature Hen Hp Hrem Hweb Hrep Hact Hlat Hdata Hcov Hall calls.
  destruct (profiled_tests_run path tests [] w s' Hen Hrem) as (w1 & Hr1 & Htr & Hf1 & Hw1); [|done|].
  { split; [done|rewrite Hlat, Hdata; cbn; lia|by rewrite Hdata; constructor|by rewrite Hcov]. }
  destruct (all_leave_ok _ _ _ _ _ Hall) as (Hok & H63 & Hlines). fold calls in Hok, H63, Hlines. cbn [app] in Htr.
  destruct (foldl (merge_data dict_order) (new_VTSProfilingData, latencies (pf w1)) (default [] (profiling_data (pf w1)))) as [m h'] eqn:He.
  destruct (merged_latencies path (mjoin tests.*2) w1 m h' Htr He) as [Hin Hapis]. fold calls in Hin, Hapis.
  destruct (report_items_run (set_order (options m)) h' (dict_order loc (values m)) f r Hrep) as (f' & r' & Hrr & Hrep' & Hac & Hprof).
  { rewrite dict_order_items. apply NoDup_fst_map_to_list. }
  { rewrite Hact. set_solver. }
  { apply Forall_forall. intros [a l] Hi. cbn. rewrite (Hin a l Hi). by apply of_api_bounds. }
  pose proof (cover_all_after interfaces calls) as Hca. destruct Htr as [_ _ _ Hc1]. fold calls in Hc1. rewrite <- Hc1 in Hca.
  destruct (coverage_entries _ _ Hca) as (Hcn & Hcf & Hceq & Hcin).
  set (covered := dict_order api_coverage (api_coverage_data (pf w1))) in *.
  set (r2 := set_r_api_coverage (r_api_coverage r' ++
    ((fun p : pystr * api_coverage => coverage_msg (interfaces p.1) (ac_covered_apis p.2)) <$> covered)) r').
  assert (AddApiCoverageReport (api_data_of set_order <$> covered.*2) true f' = (Ret tt, set_report r2 f')) as Hadd.
  { rewrite Hceq. rewrite (add_api_coverage_run _ _ _ Hrep'); [|].
    - unfold r2. by rewrite <- list_fmap_compose.
    - apply Forall_fmap, Forall_forall. intros [full c] Hc. rewrite Forall_forall in Hcf. destruct (Hcf _ Hc) as ((x & Hx & Hxin)%list_elem_of_fmap & _).
      rewrite Forall_forall in Hlines. destruct (Hlines x Hxin) as (? & ? & _ & _ & _ & ? & ? & _). cbn in *. by subst. }
  exists (mk_pw (outside w1) (set_pf_web (Some (set_report r2 f')) (set_pf_web (Some f') (set_latencies h' (pf w1))))), (set_report r2 f'), r2, (dict_order loc (values m)).*1, (set_order (options m)), covered.
  split; [|split; [reflexivity|split; [by destruct Hrep'|split; [rewrite dict_order_items; apply NoDup_fst_map_to_list|split; [exact Hapis|
    split; [|split; [exact Hcn|split; [exact Hcf|split; [exact Hcin|by rewrite <- Hac]]]]]]]]].
  - unfold profiled_class. erewrite xstM_bind_run by exact Hr1. unfold ProcessAndUploadTraceData. erewrite xstM_bind_run by reflexivity.
    rewrite Hf1. fold feature. rewrite Hen, He. erewrite xstM_bind_run by reflexivity. unfold web_on. rewrite Hw1, Hweb, (proj1 Hrep).
    erewrite xstM_bind_run.
    2: { unfold on_pf_web. cbn [pf_web pf set_latencies]. rewrite Hw1, Hweb, Hrr. reflexivity. }
    unfold on_pf_web. cbn [pf pf_web set_pf_web]. fold covered. by rewrite Hadd.
  - change (profiling r2) with (profiling r'). rewrite Hprof. f_equal. rewrite <- list_fmap_compose.
    apply list_fmap_ext. intros j [a l] Hi. cbn. by rewrite (Hin a l) by (by eapply list_elem_of_lookup_2).
Qed.
End report.

Module SampleProfiling.
Definition path : pystr := bs "data".
Definition feature : Feature := mk_feature true {[IKEY_DATA_FILE_PATH := PStr path]}.
(** The state of the outside: how many tests were run. *)
Definition start : profiling_world nat :=
  mk_pw 0 (mk_profiling_feature feature (Some SampleWeb.web) ∅ None None []).
Definition IA : pystr := bs "android.hardware.a@1.0::IA".
Definition samples1 : list sample_line := [(IA, bs "f", 5%Z); (bs "b@1.0::IB", bs "g", 7%Z); (IA, bs "f", 6%Z)].
Definition samples2 : list sample_line := [(IA, bs "f", 8%Z); (IA, bs "unknown", 9%Z)].
Definition output (l : list sample_line) : pystr :=
  mjoin ((fun x => x ++ newline) <$> (bs "mode:binder" :: (render_sample <$> l))).
Definition file (n : nat) : pystr := TARGET_PROFILING_TRACE_PATH ++ (if decide (n = 1) then bs "one.vts.trace" else bs "two.vts.trace").
Definition test : xstM nat unit := xmodify Datatypes.S.
Definition tests : list (xstM nat unit * list trace) :=
  [(test, [mk_trace (bs "binder") samples1]); (test, [mk_trace (bs "binder") samples2])].
Definition shell_Execute (cmd : pystr) : xstM nat (list pystr) :=
  n ← xget; mret [if decide (cmd = bs "ls " ++ traces) then file n ++ newline else []].
Definition adb_pull (args : pystr) : xstM nat unit := mret tt.
Definition host_Execute (cmds : list pystr) : xstM nat (list (pystr * pystr * Z)) :=
  mret [([], [], 0%Z);
    (if decide (cmds = trace_processor_cmd path (local_file (file 1))) then output samples1 else output samples2, [], 0%Z)].
Definition functions : list (pystr * bool) := [(bs "f", false); (bs "g", false); (bs "ping", true)].
Definition spec_apis (file : pystr) : xres (list (pystr * bool)) := Ret functions.
Definition interfaces (full : pystr) : interface :=
  if decide (full = IA) then mk_interface (bs "android.hardware.a") 1 0 (bs "IA") (own_apis functions)
  else mk_interface (bs "b") 1 0 (bs "IB") ∅.

Lemma executes_any cmds n : forallb (fun c => negb (bool_decide (c = bs "ls " ++ traces))) cmds = true -> executes shell_Execute cmds n n.
Proof.
  induction cmds as [|c cmds IH]; [done|]. cbn [forallb]. intros [Hc Hr]%andb_true_iff. exists [[]], n. split; [|by apply IH].
  unfold shell_Execute. erewrite xstM_bind_run by reflexivity. case_decide; [|done]. by rewrite bool_decide_eq_true_2 in Hc.
Qed.
Lemma leaves_traces n ss :
  split newline (file (Datatypes.S n) ++ newline) = [file (Datatypes.S n); []] ->
  trace_ok host_Execute spec_apis interfaces (Datatypes.S n) path (local_file (file (Datatypes.S n))) (mk_trace (bs "binder") ss) ->
  leaves host_Execute spec_apis interfaces shell_Execute adb_pull feature path test [mk_trace (bs "binder") ss] n (Datatypes.S n).
Proof.
  intros Hs Ht. exists n, (Datatypes.S n), (Datatypes.S n), (Datatypes.S n), [file (Datatypes.S n)], (file (Datatypes.S n) ++ newline).
  split; [by apply executes_any|]. split; [done|]. split; [unfold shell_Execute; erewrite xstM_bind_run by reflexivity; by rewrite decide_True|]. split; [done|].
  split; [by constructor|]. split; [by eexists|].
  split; [by apply Forall2_cons; split|]. by apply executes_any.
Qed.
Lemma known_IA : interface_name_ok path spec_apis IA (interfaces IA).
Proof.
  unfold interfaces. rewrite decide_True by done. exists (bs "android.hardware.a@1.0"), (bs "1.0").
  split_and!; [vm_compute; reflexivity..|cbn; lia|cbn; lia|cbn; lia|cbn; lia|].
  assert (startswith DEFAULT_HAL_ROOT (bs "android.hardware.a") = true) as E by (vm_compute; reflexivity).
  cbn [i_package]. rewrite E. by exists functions.
Qed.
Lemma known_IB : interface_name_ok path spec_apis (bs "b@1.0::IB") (interfaces (bs "b@1.0::IB")).
Proof. exists (bs "b@1.0"), (bs "1.0"). split_and!; vm_compute; (reflexivity || congruence). Qed.
Lemma runs : all_leave host_Execute spec_apis interfaces shell_Execute adb_pull feature path tests 0 2.
Proof.
  exists 1. split; [|exists 2; split; [|done]]; (apply leaves_traces; [vm_compute; reflexivity|]);
    (split; [reflexivity|]); (split; [reflexivity|]); (split; [repeat constructor; cbn; lia|]);
    (split; [repeat constructor; (exact known_IA || exact known_IB)|]).
  - exists ([], output samples1), []. split; vm_compute; reflexivity.
  - exists ([], output samples2), []. split; vm_compute; reflexivity.
Qed.
Definition run : xres unit * profiling_world nat :=
  profiled_class host_Execute spec_apis elements (fun A (m : gmap pystr A) => map_to_list m) shell_Execute adb_pull tests.*1 start.
End SampleProfiling.

Lemma latencies_are_reported_witness :
  let calls := SampleProfiling.samples1 ++ SampleProfiling.samples2 in
  exists w' f' r' apis covered,
    SampleProfiling.run = (Ret tt, w') /\ pf_web (pf w') = Some f' /\ reporting f' r' /\
    (forall a, a ∈ apis <-> of_api a calls <> []) /\ p_value <$> profiling r' = (fun a => of_api a calls) <$> apis /\
    (forall full, full ∈ covered.*1 <-> full ∈ (fun s : sample_line => s.1.1) <$> calls /\ i_apis (SampleProfiling.interfaces full) <> ∅) /\
    r_api_coverage r' = (fun p : pystr * api_coverage =>
      coverage_msg elements (SampleProfiling.interfaces p.1) (ac_covered_apis p.2)) <$> covered.
Proof.
  destruct (latencies_are_reported SampleProfiling.host_Execute SampleProfiling.spec_apis SampleProfiling.interfaces elements
    (fun A (m : gmap pystr A) => map_to_list m) (fun A m => Permutation_refl _) SampleProfiling.shell_Execute SampleProfiling.adb_pull
    SampleProfiling.path SampleProfiling.tests SampleProfiling.start 2 SampleWeb.web SampleWeb.report)
    as (w' & f' & r' & apis & opts & covered & Hr & Hw & Hrep & _ & Ha & Hp & _ & _ & Hc & Hm).
  1-3: reflexivity.
  - reflexivity.
  - exact SampleWeb.started.
  - reflexivity.
  - reflexivity.
  - reflexivity.
  - reflexivity.
  - exact SampleProfiling.runs.
  - exists w', f', r', apis, covered. split; [exact Hr|]. split; [exact Hw|]. split; [exact Hrep|]. split; [exact Ha|].
    split; [|split; [exact Hc|exact Hm]]. rewrite Hp. change (profiling SampleWeb.report) with (@nil ProfilingReportMessage). cbn [app].
    rewrite <- list_fmap_compose. reflexivity.
Defined.

(** ** What goes wrong *)

(** Merging writes to the list of the first test: a second upload takes the later
    samples twice. *)
Lemma second_upload_duplicates :
  let d1 := mk_data {[bs "f" := 0]} ∅ in
  let d2 := mk_data {[bs "f" := 1]} ∅ in
  let upload h := foldl (merge_data (fun A (m : gmap pystr A) => map_to_list m)) (new_VTSProfilingData, h) [d1; d2] in
  let h1 := (upload [[5%Z]; [6%Z]]).2 in
  samples h1 (upload [[5%Z]; [6%Z]]).1 (bs "f") = [5; 6]%Z /\
  samples (upload h1).2 (upload h1).1 (bs "f") = [5; 6; 6]%Z.
Proof. vm_compute. split; reflexivity. Qed.

(** A point of the host is started once; [with_points] holds the points that started. *)
Definition with_points {S : Type} (d : gmap pystr Z) (w : profiling_world S) : profiling_world S :=
  mk_pw (outside w) (set_host_data d (pf w)).

Lemma StartHostProfiling_run {S : Type} now name (w : profiling_world S) :
  enabled (pf_feature (pf w)) = true ->
  let d := default ∅ (host_profiling_data (pf w)) in
  StartHostProfiling now name w =
    match d !! name with
    | Some _ => (Ret false, with_points d w)
    | None => (Ret true, with_points (<[name := now]> d) w)
    end.
Proof.
  intros He d. unfold StartHostProfiling. erewrite xstM_bind_run by reflexivity. rewrite He. fold d.
  by destruct (d !! name).
Qed.

Lemma StopHostProfiling_run {S : Type} now name start (w : profiling_world S) :
  enabled (pf_feature (pf w)) = true -> pf_web (pf w) = None ->
  let d := default ∅ (host_profiling_data (pf w)) in
  d !! name = Some start -> StopHostProfiling now name w = (Ret (Some true), with_points d w).
Proof.
  intros He Hw d Hd. unfold StopHostProfiling. erewrite xstM_bind_run by reflexivity. rewrite He. fold d.
  cbv beta iota zeta. erewrite xstM_bind_run by reflexivity. rewrite Hd. unfold web_on. rewrite Hw.
  by erewrite xstM_bind_run by reflexivity.
Qed.

(** A point that was stopped stays active: it cannot be started again. *)
Lemma stopped_point_is_active {S : Type} t1 t2 t3 name (w : profiling_world S) :
  enabled (pf_feature (pf w)) = true -> pf_web (pf w) = None -> host_profiling_data (pf w) = None ->
  ((_ ← StartHostProfiling t1 name; _ ← StopHostProfiling t2 name; StartHostProfiling t3 name) w).1 = Ret false.
Proof.
  intros Hen Hw Hh. set (w1 := with_points {[name := t1]} w).
  erewrite xstM_bind_run with (s' := w1) (a := true).
  2: { rewrite StartHostProfiling_run by done. by rewrite Hh. }
  erewrite xstM_bind_run with (s' := w1) (a := Some true).
  2: { rewrite (StopHostProfiling_run _ _ t1) by (try done; apply lookup_singleton_eq). done. }
  rewrite StartHostProfiling_run by done. subst w1. cbn. by rewrite lookup_singleton_eq.
Qed.

(** A function that the interface does not have counts as covered, unless it is the
    first of its interface. *)
Lemma unknown_api_covered {S} spec_apis iface api c (w : profiling_world S) :
  split2 (bs "::") (bs "a@1.0::IA") = Ok (bs "a@1.0", bs "IA") -> iface = bs "a@1.0::IA" ->
  api_coverage_data (pf w) !! iface = Some c ->
  exists w' c', cover_api spec_apis iface api w = (Ret tt, w') /\ api_coverage_data (pf w') !! iface = Some c' /\
    api ∈ ac_covered_apis c' /\ ac_total_apis c' = ac_total_apis c.
Proof.
  intros Hs -> Hc. unfold cover_api. rewrite Hs. erewrite xstM_bind_run by reflexivity. cbv beta iota.
  erewrite xstM_bind_run by reflexivity. cbv beta iota. erewrite xstM_bind_run by reflexivity.
  rewrite Hc. eexists _, _. split; [reflexivity|]. cbn [pf api_coverage_data set_api_coverage].
  rewrite lookup_insert_eq. split; [done|]. cbn. split; [|done]. apply elem_of_union_l, elem_of_singleton_2. done.
Qed.

(** Without a web feature an upload of the coverage of functions raises. *)
Lemma upload_needs_web {S} set_order dict_order (w : profiling_world S) :
  enabled (pf_feature (pf w)) = true -> pf_web (pf w) = None ->
  (ProcessAndUploadTraceData set_order dict_order true w).1 = Exc attribute_error.
Proof.
  intros Hen Hw. unfold ProcessAndUploadTraceData. erewrite xstM_bind_run by reflexivity. rewrite Hen.
  destruct (foldl _ _ _) as [m h]. erewrite xstM_bind_run by reflexivity. unfold web_on. rewrite Hw.
  erewrite xstM_bind_run by reflexivity. unfold on_pf_web. cbn [pf pf_web set_latencies]. by rewrite Hw.
Qed.

(** The properties that hold the directories are set with a suffix and reset without
    it: they keep their values. *)
Lemma directories_stay :
  forall f, ([bs "setprop hal.instrumentation.lib.path.32 " ++ HAL_INSTRUMENTATION_LIB_PATH_32;
              bs "setprop hal.instrumentation.lib.path.64 " ++ HAL_INSTRUMENTATION_LIB_PATH_64] ⊆ enable_commands f None) /\
    forallb (fun c => negb (startswith (bs "setprop hal.instrumentation.lib.path.") c)) disable_commands = true.
Proof.
  intros f. split; [|reflexivity]. unfold enable_commands, lib_paths.
  intros x [->|[->| []%elem_of_nil]%elem_of_cons]%elem_of_cons; [right; right; left|right; right; right; left].
Qed.
