(* ===== verification/PathTree.v ===== *)
(** * Paths of a tree

    Absolute paths with plain components are their own normal form; [relpath]
    between two of them drops the part that they share, and joins are injective.
    Shared by the components that place files relative to a directory. *)

From Stdlib Require Import Strings.Byte.
From S2P Require Import Prelude PyStr PyPath PyVal ListUtils BinaryTest Config.

(** A component of a path that [normpath] leaves alone. *)
Definition plain (c : pystr) : bool := no_byte slash c && negb (bool_decide (c = [] \/ c = dot \/ c = dotdot)).
Definition abs_path (comps : list pystr) : pystr := sep ++ sep_join comps.

Lemma sep_join_with comps : sep_join comps = join_with sep comps.
Proof. induction comps as [|x [|y l] IH]; [done..|]. by change (x ++ sep ++ sep_join (y :: l) = x ++ sep ++ join_with sep (y :: l)); rewrite IH. Qed.

Lemma plain_spec c : plain c = true <-> no_byte slash c = true /\ c <> [] /\ c <> dot /\ c <> dotdot.
Proof. unfold plain. rewrite andb_true_iff, negb_true_iff, bool_decide_eq_false. tauto. Qed.

Lemma split_abs_path comps : comps <> [] -> forallb plain comps = true -> split sep (abs_path comps) = [] :: comps.
Proof.
  intros Hne Hp. unfold split. change (split_from sep (abs_path comps) [] 0) with (split_from [slash] ([] ++ slash :: sep_join comps) [] 0).
  rewrite split_from_byte by done. cbn [app].
  f_equal. change (split_from [slash] (sep_join comps) [] 0) with (split sep (sep_join comps)). rewrite sep_join_with. apply split_join; [done|].
  rewrite forallb_forall in *. intros c Hc. by apply plain_spec, Hp.
Qed.

Lemma norm_plain new comps : forallb plain comps = true -> foldl (norm_step true) new comps = new ++ comps.
Proof.
  revert new. induction comps as [|c comps IH]; intros new Hp; [by rewrite app_nil_r|].
  cbn [forallb] in Hp. apply andb_true_iff in Hp as [(_ & H1 & H2 & H3)%plain_spec Hp]. cbn [foldl].
  rewrite IH by done. unfold norm_step. rewrite bool_decide_eq_false_2 by tauto.
  rewrite (bool_decide_eq_true_2 (c <> dotdot)) by done. cbn [orb]. by rewrite <- app_assoc.
Qed.

Lemma initial_slashes_abs comps : comps <> [] -> forallb plain comps = true -> initial_slashes (abs_path comps) = 1.
Proof.
  intros Hne Hp. destruct comps as [|c comps]; [done|]. cbn [forallb] in Hp.
  apply andb_true_iff in Hp as [(Hs & Hc & _)%plain_spec _]. destruct c as [|b c]; [done|].
  unfold initial_slashes, abs_path. rewrite startswith_app.
  assert (exists k, sep_join ((b :: c) :: comps) = b :: k) as [k ->] by (destruct comps; by eexists).
  assert (b <> slash) as Hb.
  { intros ->. unfold no_byte, is_byte in Hs. cbn [forallb] in Hs. by rewrite bool_decide_eq_true_2 in Hs. }
  assert (startswith (sep ++ sep) (sep ++ b :: k) = false) as ->; [|done].
  apply not_true_is_false. rewrite startswith_spec. intros [k' [= E]]. done.
Qed.

Lemma filter_all {A} (P : A -> Prop) `{forall x, Decision (P x)} (l : list A) : Forall P l -> filter P l = l.
Proof. induction 1 as [|x l Hx _ IH]; [done|]. by rewrite filter_cons_True, IH. Qed.

Lemma components_abs cwd comps :
  comps <> [] -> forallb plain comps = true -> components (abspath cwd (abs_path comps)) = comps.
Proof.
  intros Hne Hp. unfold abspath. unfold abs_path at 1. rewrite startswith_app. unfold normpath.
  destruct (abs_path comps) as [|b s] eqn:E; [done|]. rewrite <- E, initial_slashes_abs, split_abs_path by done.
  rewrite bool_decide_eq_true_2 by done. cbn [foldl]. rewrite norm_plain by done. cbn [app].
  change (norm_step true [] [] ++ comps) with comps.
  change (replicate 1 slash ++ sep_join comps) with (abs_path comps). rewrite E, <- E.
  unfold components. rewrite split_abs_path by done. rewrite filter_cons_False by (intros H; by apply H).
  apply filter_all. rewrite forallb_forall in Hp. apply Forall_forall. intros c Hc.
  apply list_elem_of_In, Hp, plain_spec in Hc. tauto.
Qed.

Lemma common_prefix_app l k : common_prefix l (l ++ k) = length l.
Proof. induction l as [|x l IH]; [by destruct k|]. cbn. by rewrite decide_True, IH. Qed.

(** A chain of joins with components is one path. *)
Lemma plain_no_slash c : plain c = true -> slash ∉ c /\ c <> [] /\ endswith sep c = false /\ startswith sep c = false.
Proof.
  intros (Hs & Hne & _)%plain_spec. assert (slash ∉ c) as Hc.
  { intros Hin%list_elem_of_In. unfold no_byte in Hs. rewrite forallb_forall in Hs. apply Hs in Hin.
    unfold is_byte in Hin. by rewrite bool_decide_eq_true_2 in Hin. }
  split; [done|]. split; [done|]. split; [by apply (endswith_sep_app [])|by apply startswith_sep_no].
Qed.

Lemma path_join_plain a l :
  a <> [] -> endswith sep a = false -> forallb plain l = true -> path_join a l = mjoin (a :: ((fun c => sep ++ c) <$> l)).
Proof.
  revert a. induction l as [|c l IH]; intros a Ha He Hl; cbn; [by rewrite app_nil_r|].
  cbn [forallb] in Hl. apply andb_true_iff in Hl as [(Hc & Hne & _ & Hs)%plain_no_slash Hl].
  unfold path_join in *. cbn [foldl]. rewrite path_join2_sep by done. rewrite IH; [|by destruct a|by rewrite app_assoc; apply endswith_sep_app|done].
  cbn. by rewrite <- !app_assoc.
Qed.

Lemma sep_join_mjoin c l : sep_join (c :: l) = mjoin (c :: ((fun c => sep ++ c) <$> l)).
Proof.
  revert c. induction l as [|d l IH]; intros c; [cbn; by rewrite app_nil_r|].
  change (sep_join (c :: d :: l)) with (c ++ sep ++ sep_join (d :: l)). rewrite IH. cbn. done.
Qed.

Lemma path_join_rel l : forallb plain l = true -> path_join [] l = sep_join l.
Proof.
  destruct l as [|c l]; [done|]. cbn [forallb]. intros [Hc Hl]%andb_true_iff.
  destruct (plain_no_slash c Hc) as (Hs & Hne & He & Hst). rewrite sep_join_mjoin, <- path_join_plain by done.
  unfold path_join. cbn [foldl]. unfold path_join2 at 2. by rewrite Hst.
Qed.

(** The path from a directory to one below it. *)
Definition below (sub : list pystr) : list pystr := match sub with [] => [dot] | _ => sub end.

Lemma relpath_below cwd root sub :
  root <> [] -> forallb plain root = true -> forallb plain sub = true ->
  relpath cwd (abs_path (root ++ sub)) (abs_path root) = Ok (sep_join (below sub)).
Proof.
  intros Hne Hr Hs. unfold relpath.
  assert (forallb plain (root ++ sub) = true) as Hrs by (by rewrite forallb_app, Hr, Hs).
  assert (root ++ sub <> []) as Hrn by (by destruct root).
  rewrite !components_abs by done. rewrite common_prefix_app, Nat.sub_diag, drop_app_length. cbn [replicate app].
  unfold abs_path at 1. cbn [sep app]. destruct sub as [|c sub]; [done|]. by rewrite path_join_rel.
Qed.

Lemma path_join2_inj a x y : startswith sep x = false -> startswith sep y = false -> path_join2 a x = path_join2 a y -> x = y.
Proof.
  intros Hx Hy. unfold path_join2. rewrite Hx, Hy. destruct (_ || _); [apply app_inv_head|].
  by intros ?%app_inv_head%app_inv_head.
Qed.

Lemma path_join2_no_sep a b : startswith sep a = false -> startswith sep b = false -> startswith sep (path_join2 a b) = false.
Proof.
  intros Ha Hb. unfold path_join2. rewrite Hb. destruct a as [|c a]; [done|].
  destruct (_ || _); apply not_true_is_false; rewrite startswith_spec; intros [k [= -> _]];
    apply not_true_iff_false in Ha; apply Ha; by apply (startswith_app sep).
Qed.

(** The name of a file in a directory below another gives both back. *)
Lemma below_inj sub sub' : forallb plain sub = true -> forallb plain sub' = true -> below sub = below sub' -> sub = sub'.
Proof.
  intros H1 H2. destruct sub as [|c l], sub' as [|c' l']; cbn [below]; intros E; try done.
  - injection E as <- <-. by vm_compute in H2.
  - injection E as -> ->. by vm_compute in H1.
Qed.

Lemma sep_join_inj l k :
  l <> [] -> k <> [] -> forallb (no_byte slash) l = true -> forallb (no_byte slash) k = true -> sep_join l = sep_join k -> l = k.
Proof.
  rewrite !sep_join_with. intros Hl Hk Hpl Hpk E.
  apply (f_equal (split [slash])) in E. by rewrite !split_join in E.
Qed.

Lemma below_no_byte sub : forallb plain sub = true -> forallb (no_byte slash) (below sub) = true.
Proof.
  intros Hs. destruct sub as [|c l]; [done|]. cbn [below]. rewrite forallb_forall in *. intros x Hx. by apply plain_spec, Hs.
Qed.

Lemma sep_join_snoc l c : l <> [] -> sep_join (l ++ [c]) = sep_join l ++ sep ++ c.
Proof.
  destruct l as [|x l]; [done|]. intros _. change ((x :: l) ++ [c]) with (x :: (l ++ [c])).
  rewrite !sep_join_mjoin, fmap_app. cbn. by rewrite join_app, <- app_assoc; cbn; rewrite app_nil_r.
Qed.
