(* ===== verification/ReportFiles.v ===== *)
(** * Saving report files ([src/utils/python/reporting/report_file_utils.py])

    [ReportFileUtil] copies the files of a directory to a local destination or to a
    bucket, and gives the URLs they get there.  The host with its files is an
    instance of the class [Host], and what is proved uses the laws of the class
    alone; the bucket is that of Corpus. *)

From Stdlib Require Import Strings.Byte.
From S2P Require Import Prelude PyStr PyPath PyVal ListUtils Signals BinaryTest Shell Config Channel Mirror TcpClient Corpus PathTree.

(** [shutil.Error], which is not an [IOError]. *)
Definition shutil_Error : exc_class := UserException 17.

(** [os.path.dirname] *)
Definition is_slash (b : Byte.byte) : bool := bool_decide (b = slash).
Definition dirname (path : pystr) : pystr :=
  let head := take (length path - length (basename path)) path in
  if forallb is_slash head then head else rstrip_by is_slash head.

Lemma dirname_app a b : slash ∉ b -> forallb is_slash a = false -> dirname (a ++ sep ++ b) = rstrip_by is_slash a.
Proof.
  intros Hb Ha. unfold dirname, basename. cbn [sep app]. rewrite after_last_app by done.
  rewrite length_app. cbn [length]. replace (_ - _) with (length (a ++ [slash])) by (rewrite length_app; cbn; lia).
  change (a ++ slash :: b) with (a ++ [slash] ++ b). rewrite app_assoc, take_app_length.
  rewrite forallb_app, Ha. cbn [andb]. by apply rstrip_by_all.
Qed.

(** ** The host *)
Class Host (W : Type) := {
  file_of : W -> pystr -> option pystr;
  is_dir : W -> pystr -> bool;
  makedirs : pystr -> xstM W unit;
  copy : pystr -> pystr -> xstM W unit;
  write_file : pystr -> pystr -> xstM W unit;          (* name, contents *)
  mkdtemp : xstM W pystr;
  rmtree : pystr -> xstM W unit;
  (** [os.walk]: directories with the files in them. *)
  walk : W -> pystr -> list (pystr * list pystr);
  (** The date of the clock. *)
  today : W -> pystr;
}.
Definition path_exists {W} `{Host W} (w : W) (p : pystr) : bool :=
  bool_decide (is_Some (file_of w p)) || is_dir w p.

(** [p] is [q] or a directory above it. *)
Definition above (p q : pystr) : Prop := p = q \/ exists k, q = p ++ sep ++ k.

Class HostLaws (W : Type) `{Host W} : Prop := {
  (** A missing directory is made when no file is in the way; the files stay. *)
  makedirs_ok p w :
    path_exists w p = false -> (forall q, above q p -> file_of w q = None) ->
    exists w', makedirs p w = (Ret tt, w') /\ is_dir w' p = true /\ (forall q, file_of w' q = file_of w q) /\
      (forall q, is_dir w' q = true <-> is_dir w q = true \/ above q p) /\ today w' = today w;
  (** A file is copied to a name that is not a directory, in one that is. *)
  copy_ok s d c w :
    file_of w s = Some c -> s <> d -> is_dir w d = false -> is_dir w (dirname d) = true ->
    exists w', copy s d w = (Ret tt, w') /\ (forall q, file_of w' q = if decide (q = d) then Some c else file_of w q) /\
      (forall q, is_dir w' q = is_dir w q) /\ today w' = today w;
  copy_missing s d w : file_of w s = None -> exists t w', copy s d w = (Exc (EOther Python_IOError t), w');
  copy_same s w c : file_of w s = Some c -> is_dir w s = false -> exists t w', copy s s w = (Exc (EOther shutil_Error t), w');
  copy_into s d w :
    is_dir w d = true -> is_dir w (path_join2 d (basename s)) = false -> copy s d w = copy s (path_join2 d (basename s)) w;
  write_ok p c w :
    is_dir w p = false -> is_dir w (dirname p) = true ->
    exists w', write_file p c w = (Ret tt, w') /\ (forall q, file_of w' q = if decide (q = p) then Some c else file_of w q) /\
      (forall q, is_dir w' q = is_dir w q) /\ today w' = today w;
  (** A walk meets every file below the directory once. *)
  walk_files w d f :
    f ∈ mjoin ((fun e => path_join2 e.1 <$> e.2) <$> walk w d) <->
      is_Some (file_of w f) /\ startswith (d ++ sep) f = true /\ path_join2 (dirname f) (basename f) = f;
  walk_NoDup w d : NoDup (mjoin ((fun e => path_join2 e.1 <$> e.2) <$> walk w d));
  (** A temporary directory is new, and is removed with what is in it. *)
  mkdtemp_ok w :
    exists t w', mkdtemp w = (Ret t, w') /\ (forall p, above t p -> file_of w p = None /\ is_dir w p = false) /\
      t <> [] /\ endswith sep t = false /\ forallb is_slash t = false /\
      (forall q, file_of w' q = file_of w q) /\ (forall q, is_dir w' q = is_dir w q || bool_decide (q = t)) /\ today w' = today w;
  rmtree_ok t w :
    is_dir w t = true -> exists w', rmtree t w = (Ret tt, w') /\ today w' = today w /\
      (forall q, ~ above t q -> file_of w' q = file_of w q /\ is_dir w' q = is_dir w q) /\
      (forall q, above t q -> file_of w' q = None /\ is_dir w' q = false);
}.

(** ** The operations *)
Record ReportFileUtil := mk_report_file_util {
  flatten_source_dir : bool;
  use_destination_date_dir : bool;
  source_dir : option pystr;
  destination_dir : option pystr;
  url_prefix : option pystr;
  use_gcs : bool;
  gcs_available : bool;
}.

(** [available]: whether the key of the bucket opens it. *)
Definition new_ReportFileUtil (flatten date : bool) (src dest prefix gcs_key_path : option pystr)
    (available : pystr -> option pystr -> bool) : ReportFileUtil :=
  match gcs_key_path with
  | None => mk_report_file_util flatten date src dest prefix false false
  | Some key => mk_report_file_util flatten date src dest prefix true (available key dest)
  end.

(** [if s:] and [s or t] of a string or [None]. *)
Definition given (s : option pystr) : option pystr := match s with Some (c :: s) => Some (c :: s) | _ => None end.

Record report_world (W B : Type) := mk_rw { host : W; bucket : B }.
Arguments mk_rw {_ _} _ _.
Arguments host {_ _} _.
Arguments bucket {_ _} _.

Section report.
Context {W B : Type} `{Host W, Bucket B} (cwd : pystr) (u : ReportFileUtil).
Abbreviation M := (xstM (report_world W B)).

Definition on_host {A} (m : xstM W A) : M A := fun w => let '(r, h) := m (host w) in (r, mk_rw h (bucket w)).

(** The relative path of the destination. *)
Definition relative (day src_path : pystr) (root_dir new_file_name file_name_prefix : option pystr) : xres pystr :=
  let dir_path := dirname src_path in
  let relative_path := default (basename src_path) (given new_file_name) in
  let relative_path := default [] (given file_name_prefix) ++ relative_path in
  relative_path ← match given root_dir with
                  | Some root =>
                      if flatten_source_dir u then Ret relative_path
                      else match relpath cwd dir_path root with
                           | Ok d => Ret (path_join2 d relative_path)
                           | Raise _ => Exc (EOther Python_ValueError (bs "no path specified"))
                           end
                  | None => Ret relative_path
                  end;
  mret (if use_destination_date_dir u then path_join2 day relative_path else relative_path).

Definition dest_of (rel : pystr) : xres pystr :=
  if use_gcs u then Ret rel
  else match destination_dir u with
       | Some d => Ret (path_join2 d rel)
       | None => Exc (EOther Python_AttributeError (bs "'NoneType' object has no attribute 'endswith'"))
       end.
Definition url_of (dest rel : pystr) : pystr := match url_prefix u with Some p => p ++ rel | None => dest end.

Definition ConvertReportPath (src_path : pystr) (root_dir new_file_name file_name_prefix : option pystr) : M (pystr * pystr) :=
  w ← xget;
  rel ← xlift (relative (today (host w)) src_path root_dir new_file_name file_name_prefix);
  dest_path ← xlift (dest_of rel);
  mret (dest_path, url_of dest_path rel).

Definition PushReportFile (src_path dest_path : pystr) : M unit :=
  let parent_dir := dirname dest_path in
  w ← xget;
  _ ← (if path_exists (host w) parent_dir then mret tt
       else xexcept Python_OSError (on_host (makedirs parent_dir)) (mret tt));
  on_host (copy src_path dest_path).

(** The upload reads the file first. *)
Definition upload_to_bucket (src_path dest_path : pystr) : M unit :=
  w ← xget;
  match file_of (host w) src_path with
  | Some content => xmodify (fun w => mk_rw (host w) (UploadFile (gcs_available u) content dest_path (bucket w)))
  | None => xlift (Exc (EOther Python_IOError src_path))
  end.
Definition PushReportFileGcs (src_path dest_path : pystr) : M unit :=
  if gcs_available u then
    temp_dir ← on_host mkdtemp;
    _ ← on_host (copy src_path temp_dir);
    xfinally (xexcept Python_IOError (upload_to_bucket (path_join2 temp_dir (basename src_path)) dest_path) (mret tt))
      (xexcept Python_OSError (on_host (rmtree temp_dir)) (mret tt))
  else mret tt.
Definition push (src_path dest_path : pystr) : M unit :=
  if use_gcs u then PushReportFileGcs src_path dest_path else PushReportFile src_path dest_path.

Definition SaveReport (src_path : pystr) (new_file_name file_name_prefix : option pystr) : M (option pystr) :=
  xexcept Python_IOError
    ('(dest_path, url) ← ConvertReportPath src_path None new_file_name file_name_prefix;
     _ ← push src_path dest_path;
     mret (Some url))
    (mret None).

Definition save_file (root_dir file_name_prefix : option pystr) (file_path_filters : pystr -> bool) (dryrun : bool)
    (src_path : pystr) : M (option pystr) :=
  '(dest_path, url) ← ConvertReportPath src_path root_dir None file_name_prefix;
  if file_path_filters src_path then
    _ ← (if dryrun then mret tt else push src_path dest_path);
    mret (Some url)
  else mret None.
Fixpoint save_files (root_dir file_name_prefix : option pystr) (file_path_filters : pystr -> bool) (dryrun : bool)
    (files : list pystr) : M (list pystr) :=
  match files with
  | [] => mret []
  | src_path :: files =>
      url ← save_file root_dir file_name_prefix file_path_filters dryrun src_path;
      urls ← save_files root_dir file_name_prefix file_path_filters dryrun files;
      mret (option_list url ++ urls)
  end.

(** The files below a directory, in the order of the walk, which is taken before
    anything is saved: the destination is not below the source. *)
Definition walked (d : pystr * list pystr) : list pystr := path_join2 d.1 <$> d.2.
Definition SaveReportsFromDirectory (src_dir file_name_prefix : option pystr) (file_path_filters : pystr -> bool)
    (dryrun : bool) : M (option (list pystr)) :=
  let src_dir := match given src_dir with Some d => Some d | None => source_dir u end in
  xexcept Python_IOError
    (w ← xget;
     match src_dir with
     | None => xlift (Exc (EOther Python_TypeError (bs "coercing to Unicode: need string or buffer, NoneType found")))
     | Some d => urls ← save_files src_dir file_name_prefix file_path_filters dryrun (mjoin (walked <$> walk (host w) d)); mret (Some urls)
     end)
    (mret None).
End report.

Lemma rstrip_no_sep t : t <> [] -> endswith sep t = false -> rstrip_by is_slash t = t.
Proof.
  intros Hne He. destruct t as [|b t _] using rev_ind; [done|]. apply rstrip_by_snoc.
  unfold is_slash. apply bool_decide_eq_false_2. intros ->.
  rewrite (proj2 (endswith_spec _ _)) in He; [done|by eexists].
Qed.

(** ** One file *)
Section push.
Context {W B : Type} `{HostLaws W, BucketLaws B} (cwd : pystr) (u : ReportFileUtil).
Implicit Types (w : report_world W B) (s d q c : pystr).

Lemma on_host_run {A} (m : xstM W A) w a h : m (host w) = (Ret a, h) -> on_host m w = (Ret a, mk_rw h (bucket w)).
Proof. unfold on_host. by intros ->. Qed.

(** The directory of [d] is there or can be made, and [d] can be written. *)
Definition room (h : W) d : Prop := is_dir h d = false /\ forall q, above q (dirname d) -> file_of h q = None.

Lemma above_refl q : above q q.
Proof. by left. Qed.

Lemma PushReportFile_ok s d c w :
  file_of (host w) s = Some c -> s <> d -> room (host w) d -> ~ above d (dirname d) ->
  exists h', PushReportFile s d w = (Ret tt, mk_rw h' (bucket w)) /\
    (forall q, file_of h' q = if decide (q = d) then Some c else file_of (host w) q) /\
    (forall q, is_dir h' q = true -> is_dir (host w) q = true \/ above q (dirname d)) /\ today h' = today (host w).
Proof.
  intros Hs Hne [Hd Hup] Hself. unfold PushReportFile. erewrite xstM_bind_run by reflexivity. cbv beta zeta.
  unfold path_exists. rewrite (Hup _ (above_refl _)), bool_decide_eq_false_2 by (by intros [? [=]]). cbn [orb].
  destruct (is_dir (host w) (dirname d)) eqn:Hp.
  - destruct (copy_ok s d c (host w)) as (h' & Hc & Hf & Hdir & Ht); try done.
    exists h'. erewrite xstM_bind_run by reflexivity. rewrite (on_host_run _ _ _ _ Hc). split; [done|].
    split; [done|]. split; [|done]. intros q Hq. left. by rewrite <- Hdir.
  - destruct (makedirs_ok (dirname d) (host w)) as (h1 & Hm & Hm1 & Hm2 & Hm3 & Hm4); [|done|].
    { unfold path_exists. rewrite (Hup _ (above_refl _)), Hp. by rewrite bool_decide_eq_false_2 by (by intros [? [=]]). }
    destruct (copy_ok s d c h1) as (h' & Hc & Hf & Hdir & Ht); [by rewrite Hm2|done| |done|].
    { apply not_true_is_false. rewrite Hm3, Hd. by intros [[=]|?]. }
    exists h'. erewrite xstM_bind_run.
    2: { apply xexcept_run, on_host_run, Hm. }
    erewrite on_host_run by exact Hc. split; [done|]. split.
    { intros q. by rewrite Hf, Hm2. }
    split; [|congruence]. intros q. rewrite Hdir. apply Hm3.
Qed.

Lemma above_join t p : p <> [] -> startswith sep p = false -> t <> [] -> endswith sep t = false -> above t (path_join2 t p).
Proof. intros Hp Hs Ht He. rewrite path_join2_sep by done. right. by eexists. Qed.

Lemma PushReportFileGcs_ok s d c w :
  gcs_available u = true -> file_of (host w) s = Some c ->
  exists h', PushReportFileGcs u s d w = (Ret tt, mk_rw h' (upload (bucket w) d c)) /\
    (forall q, file_of h' q = file_of (host w) q) /\ (forall q, is_dir h' q = is_dir (host w) q) /\
    today h' = today (host w).
Proof.
  intros Ha Hs. unfold PushReportFileGcs. rewrite Ha.
  destruct (mkdtemp_ok (host w)) as (t & h1 & Ht & Hfresh & Hne & He & Hsl & Hf1 & Hd1 & Ht1).
  erewrite xstM_bind_run by (by apply on_host_run, Ht).
  set (t' := path_join2 t (basename s)).
  assert (slash ∉ basename s) as Hb by apply after_last_fresh.
  assert (t' = t ++ sep ++ basename s) as Et by (apply path_join2_sep; [done|done|by apply startswith_sep_no]).
  assert (above t t') as Hin by (right; by eexists).
  assert (t' <> t) as Htt.
  { rewrite Et. intros E. apply (f_equal length) in E. rewrite !length_app in E. cbn in E. lia. }
  assert (is_dir h1 t' = false) as Hdt.
  { rewrite Hd1, (proj2 (Hfresh _ Hin)). by rewrite bool_decide_eq_false_2. }
  destruct (copy_ok s t' c h1) as (h2 & Hc & Hf2 & Hd2 & Ht2); [by rewrite Hf1| |done| |].
  { intros E. rewrite E, (proj1 (Hfresh _ Hin)) in Hs. done. }
  { rewrite Et, dirname_app, Hd1 by done.
    rewrite bool_decide_eq_true_2; [by rewrite orb_true_r|].
    by apply rstrip_no_sep. }
  erewrite xstM_bind_run.
  2: { apply on_host_run. cbn [host]. rewrite copy_into; [exact Hc| |exact Hdt].
       rewrite Hd1. rewrite bool_decide_eq_true_2 by done. by rewrite orb_true_r. }
  destruct (rmtree_ok t h2) as (h3 & Hr & Ht3 & Hout & Hins).
  { rewrite Hd2, Hd1. rewrite bool_decide_eq_true_2 by done. by rewrite orb_true_r. }
  exists h3. split.
  - unfold xfinally. rewrite (xexcept_run _ _ _ _ tt (mk_rw h2 (upload (bucket w) d c))).
    2: { unfold upload_to_bucket. erewrite xstM_bind_run by reflexivity. cbn [host bucket]. fold t'. rewrite Hf2.
         rewrite decide_True by done. unfold UploadFile. by rewrite Ha. }
    rewrite (xexcept_run _ _ _ _ tt (mk_rw h3 (upload (bucket w) d c))); [done|].
    by apply (on_host_run _ (mk_rw h2 _)).
  - assert (forall q, above t q \/ ~ above t q) as Hdec.
    { intros q. destruct (decide (q = t)) as [->|Hq]; [left; by left|].
      destruct (startswith (t ++ sep) q) eqn:E.
      - left. apply startswith_spec in E as [k ->]. right. exists k. by rewrite <- app_assoc.
      - right. intros [?|[k ->]]; [done|]. apply not_true_iff_false in E. apply E, startswith_spec.
        exists k. by rewrite <- app_assoc. }
    split; [|split; [|congruence]].
    + intros q. destruct (Hdec q) as [Hq|Hq].
      * by rewrite (proj1 (Hins _ Hq)), (proj1 (Hfresh _ Hq)).
      * rewrite (proj1 (Hout _ Hq)), Hf2, Hf1. rewrite decide_False; [done|]. intros E. by rewrite E in Hq.
    + intros q. destruct (Hdec q) as [Hq|Hq].
      * by rewrite (proj2 (Hins _ Hq)), (proj2 (Hfresh _ Hq)).
      * rewrite (proj2 (Hout _ Hq)), Hd2, Hd1. rewrite bool_decide_eq_false_2; [by rewrite orb_false_r|].
        intros ->. apply Hq, above_refl.
Qed.
End push.

(** ** The files of a directory *)

(** A file to save: its path, its relative path at the destination, its
    destination, what is in it. *)
Record item := mk_item { i_src : pystr; i_rel : pystr; i_dest : pystr; i_content : pystr }.
Definition stored (kept : list item) : gmap pystr pystr := list_to_map ((fun i => (i_dest i, i_content i)) <$> kept).

Lemma stored_cons i kept : stored (i :: kept) = <[i_dest i := i_content i]> (stored kept).
Proof. done. Qed.

Lemma stored_fresh d kept : d ∉ i_dest <$> kept -> stored kept !! d = None.
Proof.
  intros Hd. apply not_elem_of_list_to_map_1. rewrite <- list_fmap_compose. exact Hd.
Qed.

Section directory.
Context {W B : Type} `{HostLaws W, BucketLaws B} (cwd : pystr) (u : ReportFileUtil).
Context (root prefix : option pystr) (passes : pystr -> bool).
Implicit Types (w : report_world W B) (items kept : list item).

Definition placed (h : W) (i : item) : Prop :=
  relative cwd u (today h) (i_src i) root None prefix = Ret (i_rel i) /\ dest_of u (i_rel i) = Ret (i_dest i) /\
  file_of h (i_src i) = Some (i_content i).
Definition kept_of items : list item := filter (fun i => passes (i_src i) = true) items.
Definition i_url (i : item) : pystr := url_of u (i_dest i) (i_rel i).

(** Destinations that do not get into each other's way, nor into that of a source. *)
Definition free (srcs : list pystr) (h : W) kept : Prop :=
  (forall d, d ∈ i_dest <$> kept -> room h d /\ forall q, above q (dirname d) -> q ∉ i_dest <$> kept) /\
  (forall s, s ∈ srcs -> s ∉ i_dest <$> kept).

Definition saved kept w w' : Prop :=
  if use_gcs u then
    blobs (bucket w') = stored kept ∪ blobs (bucket w) /\ forall q, file_of (host w') q = file_of (host w) q
  else
    bucket w' = bucket w /\
    forall q, file_of (host w') q = match stored kept !! q with Some c => Some c | None => file_of (host w) q end.

Lemma saved_nil w : saved [] w w.
Proof. unfold saved. destruct (use_gcs u); [|done]. split; [|done]. unfold stored. cbn. by rewrite (left_id_L ∅ (∪)). Qed.

Lemma convert_placed w i :
  placed (host w) i ->
  ConvertReportPath cwd u (i_src i) root None prefix w = (Ret (i_dest i, i_url i), w).
Proof.
  intros (Hr & Hd & _). unfold ConvertReportPath. erewrite xstM_bind_run by reflexivity. rewrite Hr.
  erewrite xstM_bind_run by reflexivity. rewrite Hd. by erewrite xstM_bind_run by reflexivity.
Qed.

Lemma save_files_step (dry : bool) i files w w1 urls w2 :
  placed (host w) i ->
  (if passes (i_src i) then (if dry then (mret tt : xstM (report_world W B) unit) else push u (i_src i) (i_dest i)) w
   else (Ret tt, w)) = (Ret tt, w1) ->
  save_files cwd u root prefix passes dry files w1 = (Ret urls, w2) ->
  save_files cwd u root prefix passes dry (i_src i :: files) w =
    (Ret ((if passes (i_src i) then [i_url i] else []) ++ urls), w2).
Proof.
  intros Hp Hw Hrest. cbn [save_files].
  assert (save_file cwd u root prefix passes dry (i_src i) w =
          (Ret (if passes (i_src i) then Some (i_url i) else None), w1)) as E.
  { unfold save_file. erewrite xstM_bind_run by (by apply convert_placed). cbv beta iota.
    destruct (passes (i_src i)); [|by injection Hw as ->]. by erewrite xstM_bind_run by exact Hw. }
  erewrite xstM_bind_run by exact E. cbv beta. erewrite xstM_bind_run by exact Hrest.
  by destruct (passes (i_src i)).
Qed.

Lemma kept_cons i items :
  kept_of (i :: items) = if passes (i_src i) then i :: kept_of items else kept_of items.
Proof.
  unfold kept_of. rewrite filter_cons. destruct (passes (i_src i)); [by rewrite decide_True|by rewrite decide_False].
Qed.

Lemma dry_run items w :
  Forall (placed (host w)) items ->
  save_files cwd u root prefix passes true (i_src <$> items) w = (Ret (i_url <$> kept_of items), w).
Proof.
  induction items as [|i items IH]; intros Hall; [done|]. apply Forall_cons in Hall as [Hp Hall].
  rewrite fmap_cons. rewrite (save_files_step true i _ w w (i_url <$> kept_of items) w); [|done| |by apply IH].
  - rewrite kept_cons. by destruct (passes (i_src i)).
  - by destruct (passes (i_src i)).
Qed.

(** What one upload leaves for the files after it. *)
Lemma push_saved i srcs kept w :
  (if use_gcs u then gcs_available u = true else free (i_src i :: srcs) (host w) (i :: kept)) ->
  placed (host w) i -> i_dest i ∉ i_dest <$> kept ->
  exists w1, push u (i_src i) (i_dest i) w = (Ret tt, w1) /\
    today (host w1) = today (host w) /\
    (forall s, s ∈ srcs -> file_of (host w1) s = file_of (host w) s) /\
    (if use_gcs u then gcs_available u = true else free srcs (host w1) kept) /\
    forall w2, saved kept w1 w2 -> saved (i :: kept) w w2.
Proof.
  intros Hfree (_ & _ & Hc) Hnew. unfold push, saved. destruct (use_gcs u).
  - destruct (PushReportFileGcs_ok u (i_src i) (i_dest i) (i_content i) w) as (h' & Hpush & Hf & Hd & Ht); [done|done|].
    eexists. split; [exact Hpush|]. cbn [host bucket]. split; [done|]. split; [by intros|]. split; [done|].
    intros w2 [Hb Hf2]. rewrite Hb, blobs_upload, stored_cons. split; [|intros q; by rewrite Hf2].
    rewrite <- insert_union_l. symmetry. apply insert_union_r. by apply stored_fresh.
  - destruct Hfree as [Hroom Hsrc].
    destruct (Hroom (i_dest i)) as [Hr Hup]; [by left|].
    destruct (PushReportFile_ok (i_src i) (i_dest i) (i_content i) w) as (h' & Hpush & Hf & Hd & Ht); [done| |done| |].
    { intros E. apply (Hsrc (i_src i)); [by left|]. rewrite E. by left. }
    { intros Ha. apply (Hup _ Ha). by left. }
    eexists. split; [exact Hpush|]. cbn [host bucket]. split; [done|]. split; [|split].
    + intros s Hs. rewrite Hf, decide_False; [done|]. intros ->. apply (Hsrc (i_dest i)); [by right|by left].
    + split.
      * intros d Hdk. destruct (Hroom d) as [[Hnd Hnf] Hupd]; [by right|]. split.
        -- split.
           ++ apply not_true_is_false. intros [Hdir|Ha]%Hd; [by rewrite Hnd in Hdir|]. apply (Hup _ Ha). by right.
           ++ intros q Hq. rewrite Hf, decide_False; [by apply Hnf|]. intros ->. apply (Hupd _ Hq). by left.
        -- intros q Hq Hin. apply (Hupd _ Hq). by right.
      * intros s Hs Hin. apply (Hsrc s); by right.
    + intros w2 [-> Hf2]. split; [done|]. intros q. rewrite Hf2, Hf, stored_cons.
      destruct (decide (q = i_dest i)) as [->|Hq]; [by rewrite stored_fresh, lookup_insert_eq|].
      by rewrite lookup_insert_ne.
Qed.

Lemma real_run items w :
  Forall (placed (host w)) items -> NoDup (i_dest <$> kept_of items) ->
  (if use_gcs u then gcs_available u = true else free (i_src <$> items) (host w) (kept_of items)) ->
  exists w', save_files cwd u root prefix passes false (i_src <$> items) w = (Ret (i_url <$> kept_of items), w') /\
    today (host w') = today (host w) /\ saved (kept_of items) w w'.
Proof.
  revert w. induction items as [|i items IH]; intros w Hall Hnd Hfree.
  { eexists. split; [reflexivity|]. split; [done|]. apply saved_nil. }
  apply Forall_cons in Hall as [Hp Hall]. rewrite kept_cons in *. rewrite fmap_cons in *.
  destruct (passes (i_src i)) eqn:Hpass.
  - rewrite fmap_cons in Hnd. apply NoDup_cons in Hnd as [Hnew Hnd].
    destruct (push_saved i (i_src <$> items) (kept_of items) w) as (w1 & Hpush & Ht & Hf & Hfree' & Hsaved); [done..|].
    destruct (IH w1) as (w2 & Hrest & Ht2 & Hs2); [|done|done|].
    { apply Forall_forall. intros j Hj. rewrite Forall_forall in Hall. destruct (Hall j Hj) as (Hr & Hd & Hc).
      split; [by rewrite Ht|]. split; [done|]. rewrite Hf; [done|]. by apply list_elem_of_fmap_2. }
    exists w2. split; [|split; [congruence|by apply Hsaved]].
    erewrite save_files_step; [|done|rewrite Hpass; exact Hpush|exact Hrest]. by rewrite Hpass.
  - destruct (IH w) as (w2 & Hrest & Ht2 & Hs2); [done|done| |].
    { destruct (use_gcs u); [done|]. destruct Hfree as [Hr Hx]. split; [done|]. intros s Hs. apply Hx. by right. }
    exists w2. split; [|done]. erewrite save_files_step; [|done|by rewrite Hpass|exact Hrest]. by rewrite Hpass.
Qed.
End directory.


(** ** A host in memory *)
Module MemoryHost.
Record mem := mk_mem { files : gmap pystr pystr; dirs : gset pystr; date : pystr }.

Definition aboveb (p q : pystr) : bool := bool_decide (q = p) || startswith (p ++ sep) q.
Lemma aboveb_spec p q : aboveb p q = true <-> above p q.
Proof.
  unfold aboveb. rewrite orb_true_iff, bool_decide_eq_true, startswith_spec. unfold above.
  split; intros [->|[k ->]]; (by left) || (right; exists k; by rewrite <- app_assoc).
Qed.

(** The directories above a path, and the path. *)
Definition ups (p : pystr) : list pystr := filter (fun q => aboveb q p = true) ((fun i => take i p) <$> seq 0 (S (length p))).
Lemma elem_of_ups q p : q ∈ ups p <-> above q p.
Proof.
  unfold ups. rewrite list_elem_of_filter, aboveb_spec. split; [by intros [? _]|]. intros Hq. split; [done|].
  assert (exists k, p = q ++ k) as [k ->] by (destruct Hq as [->|[k ->]]; [exists []; by rewrite app_nil_r|by eexists]).
  apply list_elem_of_fmap. exists (length q). split; [by rewrite take_app_length|].
  apply elem_of_seq. rewrite length_app. lia.
Qed.

Definition io_error (s : pystr) : exn := EOther Python_IOError s.
Definition copy_file (s d : pystr) : xstM mem unit := fun m =>
  match files m !! s with
  | None => (Exc (io_error s), m)
  | Some c =>
      if decide (s = d) then (Exc (EOther shutil_Error s), m)
      else if decide (d ∈ dirs m) then (Exc (io_error d), m)
      else if decide (dirname d ∈ dirs m) then (Ret tt, mk_mem (<[d := c]> (files m)) (dirs m) (date m))
      else (Exc (io_error d), m)
  end.
Definition longest (m : mem) : nat :=
  foldr (fun p n => length p + n) 0 ((fst <$> map_to_list (files m)) ++ elements (dirs m)).
Definition temp_name (m : mem) : pystr := bs "/tmp/" ++ replicate (S (longest m)) Byte.x78.

#[export] Instance mem_host : Host mem := {
  file_of m p := files m !! p;
  is_dir m p := bool_decide (p ∈ dirs m);
  makedirs p := fun m =>
    if decide (is_Some (files m !! p) \/ p ∈ dirs m) then (Exc (EOther Python_OSError p), m)
    else if decide (Forall (fun q => files m !! q = None) (ups p))
    then (Ret tt, mk_mem (files m) (dirs m ∪ list_to_set (ups p)) (date m))
    else (Exc (EOther Python_OSError p), m);
  copy s d := fun m =>
    let t := path_join2 d (basename s) in
    if decide (d ∈ dirs m /\ t ∉ dirs m) then copy_file s t m else copy_file s d m;
  write_file p c := fun m =>
    if decide (p ∈ dirs m) then (Exc (io_error p), m)
    else if decide (dirname p ∈ dirs m) then (Ret tt, mk_mem (<[p := c]> (files m)) (dirs m) (date m))
    else (Exc (io_error p), m);
  mkdtemp := fun m => (Ret (temp_name m), mk_mem (files m) ({[temp_name m]} ∪ dirs m) (date m));
  rmtree t := fun m =>
    if decide (t ∈ dirs m) then
      (Ret tt, mk_mem (filter (fun kv => aboveb t kv.1 = false) (files m)) (filter (fun p => aboveb t p = false) (dirs m)) (date m))
    else (Exc (EOther Python_OSError t), m);
  walk m d := (fun p => (dirname p, [basename p])) <$>
    filter (fun p => startswith (d ++ sep) p = true /\ path_join2 (dirname p) (basename p) = p) (fst <$> map_to_list (files m));
  today := date;
}.

Lemma longest_file m p : is_Some (files m !! p) \/ p ∈ dirs m -> length p <= longest m.
Proof.
  intros Hp. unfold longest.
  assert (p ∈ (fst <$> map_to_list (files m)) ++ elements (dirs m)) as Hin.
  { apply elem_of_app. destruct Hp as [[c Hc]|Hd]; [left|right; by apply elem_of_elements].
    apply list_elem_of_fmap. exists (p, c). split; [done|]. by apply elem_of_map_to_list. }
  clear Hp. induction Hin; cbn [foldr]; lia.
Qed.

Lemma temp_name_fresh m p : above (temp_name m) p -> files m !! p = None /\ p ∉ dirs m.
Proof.
  intros Ha. assert (longest m < length p) as Hl.
  { assert (longest m < length (temp_name m)) as Ht by (unfold temp_name; rewrite length_app, length_replicate; lia).
    destruct Ha as [<-|[k ->]]; [done|]. rewrite length_app. lia. }
  split.
  - apply eq_None_not_Some. intros Hs. pose proof (longest_file m p (or_introl Hs)). lia.
  - intros Hs. pose proof (longest_file m p (or_intror Hs)). lia.
Qed.

Lemma temp_name_last m : exists k, temp_name m = k ++ [Byte.x78].
Proof. exists (bs "/tmp/" ++ replicate (longest m) Byte.x78). unfold temp_name. by rewrite replicate_S_end, app_assoc. Qed.

Lemma mem_walk m d :
  mjoin ((fun e : pystr * list pystr => path_join2 e.1 <$> e.2) <$> walk m d) =
    filter (fun p => startswith (d ++ sep) p = true /\ path_join2 (dirname p) (basename p) = p) (fst <$> map_to_list (files m)).
Proof.
  cbn. generalize (fst <$> map_to_list (files m)). intros l. induction l as [|p l IH]; [done|].
  rewrite filter_cons. destruct (decide (startswith (d ++ sep) p = true /\ path_join2 (dirname p) (basename p) = p)) as [[_ E]|_]; [|done].
  rewrite !fmap_cons. change (path_join2 (dirname p) (basename p) :: mjoin ((fun e : pystr * list pystr => path_join2 e.1 <$> e.2) <$>
    ((fun p => (dirname p, [basename p])) <$> filter (fun p => startswith (d ++ sep) p = true /\ path_join2 (dirname p) (basename p) = p) l)) =
    p :: filter (fun p => startswith (d ++ sep) p = true /\ path_join2 (dirname p) (basename p) = p) l). by rewrite IH, E.
Qed.

#[export] Instance mem_host_laws : HostLaws mem.
Proof.
  constructor; cbn -[ups temp_name walk].
  - intros p m Hp Hup. unfold path_exists in Hp. cbn in Hp. apply orb_false_iff in Hp as [Hf%bool_decide_eq_false Hd%bool_decide_eq_false].
    rewrite decide_False by tauto. rewrite decide_True.
    2: { apply Forall_forall. intros q Hq%elem_of_ups. by apply Hup. }
    eexists. split; [done|]. cbn -[ups]. split; [|split; [done|split; [|done]]].
    + apply bool_decide_eq_true_2, elem_of_union_r, elem_of_list_to_set, elem_of_ups. by left.
    + intros q. rewrite !bool_decide_eq_true, elem_of_union, elem_of_list_to_set. by rewrite elem_of_ups.
  - intros s d c m Hs Hne Hd%bool_decide_eq_false Hp%bool_decide_eq_true. rewrite decide_False by tauto.
    unfold copy_file. rewrite Hs, !decide_False, decide_True by done. eexists. split; [done|]. split; [|done].
    intros q. cbn. case_decide as E; [subst; by rewrite lookup_insert_eq|by rewrite lookup_insert_ne].
  - intros s d m Hs. unfold copy_file. rewrite Hs. case_decide; by do 2 eexists.
  - intros s m c Hs Hd%bool_decide_eq_false. rewrite decide_False by tauto. unfold copy_file.
    rewrite Hs, decide_True by done. by do 2 eexists.
  - intros s d m Hd%bool_decide_eq_true Ht%bool_decide_eq_false. rewrite decide_True by done.
    rewrite decide_False by tauto. done.
  - intros p c m Hd%bool_decide_eq_false Hp%bool_decide_eq_true. rewrite decide_False, decide_True by done.
    eexists. split; [done|]. split; [|done].
    intros q. cbn. case_decide as E; [subst; by rewrite lookup_insert_eq|by rewrite lookup_insert_ne].
  - intros m d f. rewrite mem_walk, list_elem_of_filter. split.
    + intros [Hf (kv & -> & Hkv)%list_elem_of_fmap]. split; [|done]. destruct kv as [k v].
      exists v. by apply elem_of_map_to_list.
    + intros [[v Hv] Hf]. split; [done|]. apply list_elem_of_fmap. exists (f, v). split; [done|]. by apply elem_of_map_to_list.
  - intros m d. rewrite mem_walk. apply NoDup_filter, NoDup_fst_map_to_list.
  - intros m. eexists _, _. split; [done|]. cbn -[temp_name endswith]. split; [|split; [done|split; [|split; [done|split; [done|split; [|done]]]]]].
    + intros p Hp. rewrite bool_decide_eq_false. by apply temp_name_fresh.
    + destruct (temp_name_last m) as [k ->]. apply endswith_sep_app; [done|]. by intros ?%list_elem_of_singleton.
    + intros q. destruct (decide (q = temp_name m)) as [->|Hq].
      * rewrite (bool_decide_eq_true_2 (temp_name m = temp_name m)), orb_true_r by done.
        apply bool_decide_eq_true_2. by apply elem_of_union_l, elem_of_singleton_2.
      * rewrite (bool_decide_eq_false_2 (q = _)), orb_false_r by done. apply bool_decide_ext. set_solver.
  - intros t m Ht%bool_decide_eq_true. rewrite decide_True by done. eexists. split; [done|]. cbn. split; [done|].
    assert (forall q, above t q <-> aboveb t q = true) as Ha by (intros q; by rewrite aboveb_spec).
    split; intros q Hq.
    + rewrite Ha, not_true_iff_false in Hq. split.
      * destruct (files m !! q) eqn:E; [by apply map_lookup_filter_Some_2|by apply map_lookup_filter_None_2; left].
      * apply bool_decide_ext. rewrite elem_of_filter. tauto.
    + apply Ha in Hq. split.
      * apply map_lookup_filter_None_2. right. intros c _ E. cbn in E. congruence.
      * apply bool_decide_eq_false_2. rewrite elem_of_filter. intros [E _]. congruence.
Qed.
End MemoryHost.

(** ** Destinations that keep the tree *)

(** A file below a root: the directories on the way, and its name. *)
Definition entry : Type := list pystr * pystr.
Definition entry_ok (e : entry) : Prop := forallb plain e.1 = true /\ no_byte slash e.2 = true /\ e.2 <> [].
Definition entry_path (root : list pystr) (e : entry) : pystr := abs_path (root ++ e.1) ++ sep ++ e.2.

Lemma no_byte_notin c s : no_byte c s = true -> c ∉ s.
Proof.
  unfold no_byte. rewrite forallb_forall. intros Hs Hc%list_elem_of_In%Hs. unfold is_byte in Hc.
  by rewrite bool_decide_eq_true_2 in Hc.
Qed.

Lemma abs_path_ends comps :
  comps <> [] -> forallb plain comps = true -> endswith sep (abs_path comps) = false /\ forallb is_slash (abs_path comps) = false.
Proof.
  intros Hne Hp. destruct comps as [|c comps _] using rev_ind; [done|].
  rewrite forallb_app in Hp. apply andb_true_iff in Hp as [Hp Hc]. cbn in Hc. rewrite andb_true_r in Hc.
  destruct (plain_no_slash c Hc) as (Hs & Hcn & _ & _).
  assert (exists k, abs_path (comps ++ [c]) = k ++ c) as [k ->].
  { unfold abs_path. destruct comps as [|d comps]; [by eexists|]. rewrite sep_join_snoc by done. eexists. by rewrite !app_assoc. }
  split; [by apply endswith_sep_app|]. rewrite forallb_app. apply andb_false_iff. right.
  destruct c as [|b c]; [done|]. cbn [forallb]. unfold is_slash at 1. rewrite bool_decide_eq_false_2; [done|].
  intros ->. apply Hs. by left.
Qed.

Lemma entry_path_parts root e :
  root <> [] -> forallb plain root = true -> entry_ok e ->
  dirname (entry_path root e) = abs_path (root ++ e.1) /\ basename (entry_path root e) = e.2.
Proof.
  intros Hne Hr (Hs & Hn & _). apply no_byte_notin in Hn.
  destruct (abs_path_ends (root ++ e.1)) as [He Hsl]; [by destruct root|by rewrite forallb_app, Hr, Hs|].
  unfold entry_path. split.
  - rewrite dirname_app by done. by apply rstrip_no_sep; [|done].
  - unfold basename. by apply after_last_app.
Qed.

Section tree.
Context (cwd : pystr) (u : ReportFileUtil) (root : list pystr) (prefix day : pystr).
Context (Hne : root <> []) (Hroot : forallb plain root = true) (Hprefix : no_byte slash prefix = true).
Context (Hflat : flatten_source_dir u = false).

(** The path that a file keeps: [./name] for one in the root itself. *)
Definition kept_path (e : entry) : pystr := sep_join (below e.1 ++ [prefix ++ e.2]).

Lemma kept_path_no_sep e : entry_ok e -> startswith sep (kept_path e) = false.
Proof.
  intros (Hs & _ & _). unfold kept_path.
  assert (forall c l, plain c = true \/ c = dot -> startswith sep (sep_join (c :: l)) = false) as Hx.
  { intros c l Hc.
    assert (c <> [] /\ slash ∉ c) as [Hcn Hcs].
    { destruct Hc as [(?&?&_)%plain_no_slash| ->]; [done|]. split; [done|]. by intros ?%list_elem_of_singleton. }
    destruct c as [|b c]; [done|].
    assert (exists k, sep_join ((b :: c) :: l) = b :: k) as [k ->] by (destruct l; by eexists).
    apply not_true_is_false. rewrite startswith_spec. intros [k' [= -> _]]. apply Hcs. by left. }
  destruct (e.1) as [|c l]; cbn [below app]; apply Hx; [by right|left].
  cbn [forallb] in Hs. by apply andb_true_iff in Hs as [? _].
Qed.

Lemma relative_kept e :
  entry_ok e ->
  relative cwd u day (entry_path root e) (Some (abs_path root)) None (Some prefix) =
    Ret (if use_destination_date_dir u then path_join2 day (kept_path e) else kept_path e).
Proof.
  intros He. destruct (entry_path_parts root e Hne Hroot He) as [Ed Eb]. destruct He as (Hs & Hn & _).
  unfold relative. rewrite Ed, Eb, Hflat.
  assert (default [] (given (Some prefix)) = prefix) as -> by (by destruct prefix).
  change (given (Some (abs_path root))) with (Some (abs_path root)). cbn [given default from_option id]. cbv zeta.
  rewrite relpath_below by done. cbn [mbind xres_bind mret xres_ret].
  assert (path_join2 (sep_join (below e.1)) (prefix ++ e.2) = kept_path e) as ->; [|done].
  unfold kept_path. rewrite sep_join_snoc by (by destruct (e.1)).
  assert (slash ∉ prefix ++ e.2) as Hpn.
  { apply no_byte_notin. by rewrite no_byte_app, Hprefix, Hn. }
  apply path_join2_sep; [| |by apply startswith_sep_no].
  - destruct (e.1) as [|[|b c] [|d l]]; try done. all: cbn; by vm_compute in Hs.
  - destruct (e.1) as [|c l]; [done|]. destruct (abs_path_ends (c :: l)) as [H _]; [done|done|].
    cbn [below]. apply not_true_is_false. intros [k E]%endswith_spec. apply not_true_iff_false in H. apply H.
    apply endswith_spec. unfold abs_path. rewrite E. exists (sep ++ k). by rewrite app_assoc.
Qed.

Lemma kept_path_inj e e' : entry_ok e -> entry_ok e' -> kept_path e = kept_path e' -> e = e'.
Proof.
  intros (Hs & Hn & _) (Hs' & Hn' & _) E. destruct e as [s n], e' as [s' n']. cbn [fst snd] in *.
  unfold kept_path in E. cbn [fst snd] in E.
  apply sep_join_inj in E.
  - apply app_inj_tail in E as [E1 ->%app_inv_head]. by rewrite (below_inj s s').
  - by intros [_ ?]%app_nil.
  - by intros [_ ?]%app_nil.
  - rewrite forallb_app, below_no_byte by done. cbn. by rewrite no_byte_app, Hprefix, Hn.
  - rewrite forallb_app, below_no_byte by done. cbn. by rewrite no_byte_app, Hprefix, Hn'.
Qed.

(** Files below a root that are not flattened have destinations, and different
    files different ones, in every directory and with a date and a prefix or
    without. *)
Theorem destinations_distinct es :
  Forall entry_ok es -> NoDup es -> (use_gcs u = true \/ is_Some (destination_dir u)) -> startswith sep day = false ->
  exists ds,
    Forall2 (fun e d => (relative cwd u day (entry_path root e) (Some (abs_path root)) None (Some prefix) ≫= dest_of u) = Ret d) es ds /\
    NoDup ds.
Proof.
  intros Hok Hnd Hdest Hday.
  set (rel e := if use_destination_date_dir u then path_join2 day (kept_path e) else kept_path e).
  assert (forall r, exists d, dest_of u r = Ret d) as Hd.
  { intros r. unfold dest_of. destruct (use_gcs u); [by eexists|]. destruct Hdest as [[=]|[d ->]]. by eexists. }
  set (dst e := match dest_of u (rel e) with Ret d => d | Exc _ => [] end).
  exists (dst <$> es). split.
  - apply Forall2_fmap_r, Forall_Forall2_diag. eapply Forall_impl; [exact Hok|]. intros e He. cbn beta.
    rewrite relative_kept by done. change (dest_of u (rel e) = Ret (dst e)). unfold dst. destruct (Hd (rel e)) as [d Ed]. by rewrite !Ed.
  - apply NoDup_fmap_2_strong; [|done]. rewrite Forall_forall in Hok. intros e e' He He' E.
    apply kept_path_inj; [by apply Hok..|]. unfold dst, dest_of in E.
    pose proof (kept_path_no_sep e (Hok _ He)) as Hp. pose proof (kept_path_no_sep e' (Hok _ He')) as Hp'.
    assert (rel e = rel e') as Er.
    { assert (forall e, startswith sep (kept_path e) = false -> startswith sep (rel e) = false) as Hrel.
      { intros x Hx. unfold rel. destruct (use_destination_date_dir u); [|done]. by apply path_join2_no_sep. }
      destruct (use_gcs u); [done|]. destruct Hdest as [[=]|[d Hdd]]. rewrite Hdd in E.
      apply path_join2_inj in E; [done| |]; by apply Hrel. }
    unfold rel in Er. destruct (use_destination_date_dir u); [|done]. by apply path_join2_inj in Er.
Qed.
End tree.

(** ** Examples *)
Import MemoryHost.

Module SampleReports.
Definition m : mem :=
  mk_mem {[bs "/logs/a.txt" := bs "A"; bs "/logs/sub/a.txt" := bs "B"; bs "/logs/report_proto.msg" := bs "C"]}
    {[bs "/logs"; bs "/logs/sub"; bs "/out"]} (bs "2019-01-02").
Definition start : report_world mem (gmap pystr pystr) := mk_rw m ∅.
Definition util : ReportFileUtil := mk_report_file_util false true None (Some (bs "/out")) None false false.
Definition keep (p : pystr) : bool := negb (endswith (bs "_proto.msg") p).
Definition item_of (p : pystr) : item :=
  let rel := match relative [] util (bs "2019-01-02") p (Some (bs "/logs")) None (Some (bs "p_")) with Ret r => r | Exc _ => [] end in
  mk_item p rel (path_join2 (bs "/out") rel) (default [] (files m !! p)).
Definition items : list item := item_of <$> (fst <$> map_to_list (files m)).

Lemma free_mem srcs h kept :
  Forall (fun d => d ∉ dirs h /\ Forall (fun q => files h !! q = None /\ q ∉ i_dest <$> kept) (ups (dirname d))) (i_dest <$> kept) ->
  Forall (fun s => s ∉ i_dest <$> kept) srcs -> free srcs h kept.
Proof.
  rewrite !Forall_forall. intros Hd Hs. split; [|done]. intros d Hin. destruct (Hd d Hin) as [Hnd Hup].
  rewrite Forall_forall in Hup. split; [split|].
  - by apply bool_decide_eq_false_2.
  - intros q Hq%elem_of_ups. by apply Hup.
  - intros q Hq%elem_of_ups. by apply Hup.
Qed.
End SampleReports.


Example destinations_distinct_witness :
  let root := [bs "logs"] in
  let es := [([], bs "a.txt"); ([bs "sub"], bs "a.txt"); ([bs "sub"; bs "x"], bs "a.txt")] in
  exists ds, Forall2 (fun e d => (relative [] SampleReports.util (bs "2019-01-02") (entry_path root e) (Some (abs_path root)) None (Some (bs "p_"))
                                    ≫= dest_of SampleReports.util) = Ret d) es ds /\ NoDup ds.
Proof.
  intros root es. apply (destinations_distinct [] SampleReports.util root (bs "p_") (bs "2019-01-02")).
  - done.
  - reflexivity.
  - reflexivity.
  - reflexivity.
  - repeat constructor; discriminate.
  - apply (bool_decide_unpack _). vm_compute. exact I.
  - right. by eexists.
  - reflexivity.
Defined.

(** ** What goes wrong *)

(** A bucket that is not available takes nothing, and the URL is returned all the same. *)
Lemma unavailable_bucket_reports_url {W B} `{Host W, Bucket B} cwd u src (w : report_world W B) :
  use_gcs u = true -> gcs_available u = false -> use_destination_date_dir u = false ->
  SaveReport cwd u src None None w = (Ret (Some (url_of u (basename src) (basename src))), w).
Proof.
  intros Hg Ha Hd. unfold SaveReport. apply xexcept_run.
  assert (ConvertReportPath cwd u src None None None w = (Ret (basename src, url_of u (basename src) (basename src)), w)) as E.
  { unfold ConvertReportPath. erewrite xstM_bind_run by reflexivity. unfold relative. cbn [given default from_option].
    rewrite Hd. cbn. unfold dest_of. by rewrite Hg. }
  erewrite xstM_bind_run by exact E. cbv beta iota. erewrite xstM_bind_run; [done|]. unfold push. rewrite Hg.
  unfold PushReportFileGcs. by rewrite Ha.
Qed.

(** A report that is in its place already raises: [shutil.Error] is no [IOError]. *)
Example saved_in_place_raises :
  let u := mk_report_file_util true false None (Some (bs "/logs")) None false false in
  (SaveReport [] u (bs "/logs/a.txt") None None SampleReports.start).1 = Exc (EOther shutil_Error (bs "/logs/a.txt")).
Proof. vm_compute. reflexivity. Qed.

(** The temporary directory of an upload stays when the file cannot be copied. *)
Example temporary_directory_stays :
  let u := mk_report_file_util true false None (Some (bs "bucket")) None true true in
  let '(r, w) := SaveReport [] u (bs "/logs/none") None None SampleReports.start in
  r = Ret None /\ size (dirs (host w)) = 4.
Proof. vm_compute. split; reflexivity. Qed.
