(* ===== verification/LogUploading.v ===== *)
(** * Uploading logs ([src/utils/python/reporting/log_uploading_utils.py])

    [LogUploadingFeature] saves the logs of a run with ReportFiles and adds their
    URLs to the report of WebReport.  The end of a test class ([base_test.py]) calls
    it twice: without uploading before the message of the report is made, then for
    the upload. *)

From Stdlib Require Import Strings.Byte.
From S2P Require Import Prelude PyStr PyPath PyVal ListUtils Signals BaseTest BinaryTest Shell Config Channel Mirror TcpClient Corpus PathTree WebReport ReportFiles.

Definition IKEY_ENABLE_LOG_UPLOADING : pystr := bs "enable_log_uploading".
Definition IKEY_LOG_UPLOADING_PATH : pystr := bs "log_uploading_path".
Definition IKEY_LOG_UPLOADING_USE_DATE_DIRECTORY : pystr := bs "log_uploading_use_date_directory".
Definition IKEY_LOG_UPLOADING_URL_PREFIX : pystr := bs "log_uploading_url_prefix".
Definition IKEY_LOG_UPLOADING_GCS_BUCKET_NAME : pystr := bs "log_uploading_gcs_bucket_name".
Definition REPORT_MESSAGE_FILE_NAME : pystr := bs "report_proto.msg".

Record LogUploadingFeature := mk_log_uploading {
  lu_feature : Feature;
  report_file_util_gcs : option ReportFileUtil;
  report_file_util : option ReportFileUtil;
}.

(** [NotNoneStr] *)
Definition NotNoneStr (v : pyval) : option pystr := match v with PNone => None | v => Some (str_val v) end.
Definition present (f : Feature) (name : pystr) : bool := bool_decide (is_Some (attrs f !! name)).

Definition use_date (f : Feature) : bool := truthy (attribute_or f IKEY_LOG_UPLOADING_USE_DATE_DIRECTORY (PBool true)).

Definition gcs_util (available : pystr -> option pystr -> bool) (f : Feature) : pyres (option ReportFileUtil) :=
  if present f IKEY_LOG_UPLOADING_GCS_BUCKET_NAME && present f IKEY_SERVICE_JSON_PATH then
    match attribute_or f IKEY_LOG_UPLOADING_GCS_BUCKET_NAME PNone with
    | PStr gcs_bucket_name =>
        let gcs_url_prefix := bs "https://storage.cloud.google.com/" ++ gcs_bucket_name ++ sep in
        mret (Some (new_ReportFileUtil true (use_date f) None (Some gcs_bucket_name) (Some gcs_url_prefix)
                      (NotNoneStr (attribute_or f IKEY_SERVICE_JSON_PATH PNone)) available))
    | _ => Raise TypeError
    end
  else mret None.
Definition local_util (f : Feature) : option ReportFileUtil :=
  if present f IKEY_LOG_UPLOADING_PATH then
    Some (new_ReportFileUtil true (use_date f) None (NotNoneStr (attribute_or f IKEY_LOG_UPLOADING_PATH PNone))
            (NotNoneStr (attribute_or f IKEY_LOG_UPLOADING_URL_PREFIX PNone)) None (fun _ _ => false))
  else None.

Definition new_LogUploadingFeature (available : pystr -> option pystr -> bool) (user_params : params) : pyres LogUploadingFeature :=
  let f := ParseParameters (Some IKEY_ENABLE_LOG_UPLOADING) [IKEY_ANDROID_DEVICE]
             [KEY_TESTBED_NAME; IKEY_LOG_UPLOADING_USE_DATE_DIRECTORY; IKEY_LOG_UPLOADING_PATH; IKEY_LOG_UPLOADING_URL_PREFIX;
              IKEY_LOG_UPLOADING_GCS_BUCKET_NAME; IKEY_SERVICE_JSON_PATH] user_params new_feature in
  if enabled f then
    g ← gcs_util available f;
    mret (mk_log_uploading f g (local_util f))
  else mret (mk_log_uploading f None None).

Record log_world (W B : Type) := mk_lw { rw : report_world W B; lweb : option WebFeature }.
Arguments mk_lw {_ _} _ _.
Arguments rw {_ _} _.
Arguments lweb {_ _} _.

Section logs.
Context {W B : Type} `{Host W, Bucket B} (cwd log_path : pystr) (f : LogUploadingFeature).
Abbreviation M := (xstM (log_world W B)).

Definition on_rw {A} (m : xstM (report_world W B) A) : M A := fun w => let '(r, x) := m (rw w) in (r, mk_lw x (lweb w)).
Definition none_attribute (attr : pystr) : exn :=
  EOther Python_AttributeError (bs "'NoneType' object has no attribute '" ++ attr ++ bs "'").
Definition on_lweb {A} (m : xstM WebFeature A) : M A := fun w =>
  match lweb w with
  | None => (Exc (none_attribute []), w)
  | Some x => let '(r, x) := m x in (r, mk_lw (rw w) (Some x))
  end.
Definition lweb_on (w : log_world W B) : bool := match lweb w with Some x => enabled (feature x) | None => false end.

Definition path_filter (path : pystr) : bool := negb (endswith (bs "_proto.msg") path).
Definition log_prefix (prefix : option pystr) : M pystr :=
  match given prefix with
  | Some p => mret p
  | None =>
      r ← on_lweb get_report;
      mret (str_val (attribute_or (lu_feature f) KEY_TESTBED_NAME (PStr [])) ++ bs "_" ++ str_int (start_timestamp r) ++ bs "_")
  end.
Definition upload_with (prefix : pystr) (dryrun : bool) (u : option ReportFileUtil) : M unit :=
  match u with
  | None => mret tt
  | Some u =>
      urls ← on_rw (SaveReportsFromDirectory cwd u (Some log_path) (Some prefix) path_filter dryrun);
      match urls with
      | None => mret tt
      | Some urls => w ← xget; if lweb_on w then on_lweb (AddLogUrls (Some urls)) else mret tt
      end
  end.
Definition UploadLogs (prefix : option pystr) (dryrun : bool) : M unit :=
  if enabled (lu_feature f) then
    prefix ← log_prefix prefix;
    _ ← upload_with prefix dryrun (report_file_util_gcs f);
    upload_with prefix dryrun (report_file_util f)
  else mret tt.

(** The end of a test class, from the report on; the time limit is left out. *)
Definition upload_results (clock : nat -> Z) (post : TestReportMessage -> xres pystr) (class_errors : bool)
    (requested executed : list pystr) : M unit :=
  w ← xget;
  message_b ← (if lweb_on w then
                 _ ← (if class_errors
                      then _ ← on_lweb (AddTestReport clock (bs "setup_class"));
                           on_lweb (SetTestResult (Some TEST_CASE_RESULT_FAIL))
                      else mret tt);
                 _ ← UploadLogs None true;
                 on_lweb (GenerateReportMessage clock post requested executed)
               else mret (Some []));
  let report_proto_path := path_join2 log_path REPORT_MESSAGE_FILE_NAME in
  _ ← on_rw (on_host (write_file report_proto_path (default [] message_b)));
  if enabled (lu_feature f) then UploadLogs None false else mret tt.
End logs.

(** ** The URLs of a message *)
Definition log_of (u : pystr) : LogMessage := mk_log u (basename u).

Lemma AddLogUrls_run urls w r :
  reporting w r ->
  exists w' r', AddLogUrls (Some urls) w = (Ret tt, w') /\ reporting w' r' /\ feature w' = feature w /\
    start_timestamp r' = start_timestamp r /\ r_log r' = r_log r ++ (log_of <$> urls).
Proof.
  intros H. unfold AddLogUrls. rewrite (when_enabled_run _ _ _ _ H). revert w r H.
  induction urls as [|u urls IH]; intros w r H; cbn [add_logs].
  { exists w, r. by rewrite app_nil_r. }
  erewrite xstM_bind_run by (apply on_report_run; exact (proj2 H)).
  destruct (IH (set_report (set_r_log (r_log r ++ [log_of u]) r) w) (set_r_log (r_log r ++ [log_of u]) r))
    as (w' & r' & Hr & H' & Hf & Ht & Hl); [by destruct H|].
  exists w', r'. split_and!; [exact Hr|done|done|done|]. rewrite Hl. cbn. by rewrite <- app_assoc.
Qed.

(** ** The logs of a run *)
Section upload.
Context {W B : Type} `{HostLaws W, BucketLaws B} (cwd log_path : pystr) (f : LogUploadingFeature) (u : ReportFileUtil).
Context (Hon : enabled (lu_feature f) = true) (Hgcs : report_file_util_gcs f = None) (Hutil : report_file_util f = Some u).
Context (Hflat : flatten_source_dir u = true) (Hlocal : use_gcs u = false) (Hdest : is_Some (destination_dir u)).
Context (Hpath : log_path <> []).
Implicit Types (h : W) (w : log_world W B).

Definition log_item (prefix : pystr) h (src : pystr) : item :=
  let rel := prefix ++ basename src in
  let rel := if use_destination_date_dir u then path_join2 (today h) rel else rel in
  mk_item src rel (path_join2 (default [] (destination_dir u)) rel) (default [] (file_of h src)).
Definition logs_of h : list pystr := mjoin (walked <$> walk h log_path).
Definition uploaded (prefix : pystr) h : list item := log_item prefix h <$> filter (fun p => path_filter p = true) (logs_of h).

Lemma kept_logs prefix h : kept_of path_filter (log_item prefix h <$> logs_of h) = uploaded prefix h.
Proof.
  unfold kept_of, uploaded. generalize (logs_of h). intros l. induction l as [|p l IH]; [done|].
  rewrite fmap_cons, !filter_cons. cbn [i_src log_item]. destruct (decide _); [rewrite fmap_cons|]; by rewrite IH.
Qed.

Lemma logs_placed prefix h : Forall (placed cwd u (Some log_path) (Some prefix) h) (log_item prefix h <$> logs_of h).
Proof.
  apply Forall_fmap, Forall_forall. intros p Hp. apply (walk_files h log_path p) in Hp as ([c Hc] & _).
  unfold compose, placed, log_item. cbn [i_src i_rel i_dest i_content]. split; [|split].
  - unfold relative. rewrite Hflat. change (given None) with (@None pystr).
    assert (default [] (given (Some prefix)) = prefix) as -> by (by destruct prefix).
    destruct log_path as [|b l]; [done|]. cbn [given]. cbn. by destruct (use_destination_date_dir u).
  - unfold dest_of. rewrite Hlocal. by destruct Hdest as [d ->].
  - by rewrite Hc.
Qed.

Lemma src_log_items prefix h : i_src <$> (log_item prefix h <$> logs_of h) = logs_of h.
Proof. rewrite <- list_fmap_compose. by rewrite list_fmap_id. Qed.

(** One upload, with the URLs added to the report. *)
Definition prefix_of (r : TestReportMessage) : pystr :=
  str_val (attribute_or (lu_feature f) KEY_TESTBED_NAME (PStr [])) ++ bs "_" ++ str_int (start_timestamp r) ++ bs "_".

Lemma UploadLogs_run (dry : bool) w web r :
  lweb w = Some web -> reporting web r ->
  let kept := uploaded (prefix_of r) (host (rw w)) in
  (dry = false -> NoDup (i_dest <$> kept) /\ free (logs_of (host (rw w))) (host (rw w)) kept) ->
  exists web' r' x', UploadLogs cwd log_path f None dry w = (Ret tt, mk_lw x' (Some web')) /\
    reporting web' r' /\ feature web' = feature web /\ start_timestamp r' = start_timestamp r /\
    r_log r' = r_log r ++ (log_of <$> (i_url u <$> kept)) /\
    (if dry then x' = rw w else saved u kept (rw w) x').
Proof.
  intros Hweb Hrep kept Hok. unfold UploadLogs. rewrite Hon, Hgcs, Hutil.
  erewrite xstM_bind_run with (a := prefix_of r) (s' := w).
  2: { unfold log_prefix. cbn [given]. erewrite xstM_bind_run; [done|]. unfold on_lweb. rewrite Hweb.
       rewrite (get_report_run _ _ (proj2 Hrep)). by destruct w, Hweb. }
  erewrite xstM_bind_run by reflexivity. unfold upload_with.
  assert (exists x', SaveReportsFromDirectory cwd u (Some log_path) (Some (prefix_of r)) path_filter dry (rw w) =
            (Ret (Some (i_url u <$> kept)), x') /\ if dry then x' = rw w else saved u kept (rw w) x') as (x' & Hsave & Hx).
  { unfold SaveReportsFromDirectory. assert (given (Some log_path) = Some log_path) as -> by (by destruct log_path). cbv zeta.
    assert (mjoin (walked <$> walk (host (rw w)) log_path) = i_src <$> (log_item (prefix_of r) (host (rw w)) <$> logs_of (host (rw w)))) as Esrc.
    { by rewrite src_log_items. }
    pose proof (logs_placed (prefix_of r) (host (rw w))) as Hpl.
    destruct dry.
    - exists (rw w). split; [|done]. apply xexcept_run. erewrite xstM_bind_run by reflexivity. cbv beta iota. rewrite Esrc.
      erewrite xstM_bind_run by (apply dry_run; exact Hpl). by rewrite kept_logs.
    - destruct (Hok eq_refl) as [Hnd Hfree].
      destruct (real_run cwd u (Some log_path) (Some (prefix_of r)) path_filter (log_item (prefix_of r) (host (rw w)) <$> logs_of (host (rw w))) (rw w))
        as (x' & Hrun & _ & Hs); [done|by rewrite kept_logs|by rewrite Hlocal, kept_logs, src_log_items|].
      rewrite kept_logs in *. exists x'. split; [|done]. apply xexcept_run. erewrite xstM_bind_run by reflexivity.
      cbv beta iota. rewrite Esrc. by erewrite xstM_bind_run by exact Hrun. }
  destruct (AddLogUrls_run (i_url u <$> kept) web r Hrep) as (web' & r' & Hadd & Hrep' & Hf & Ht & Hl).
  exists web', r', x'. split; [|done].
  erewrite xstM_bind_run with (s' := mk_lw x' (Some web)).
  2: { unfold on_rw. rewrite Hsave. by rewrite Hweb. }
  cbv beta iota. erewrite xstM_bind_run by reflexivity. unfold lweb_on. cbn [lweb]. rewrite (proj1 Hrep).
  unfold on_lweb. cbn [lweb]. by rewrite Hadd.
Qed.

(** A new message of the report changes no file that is uploaded. *)
Lemma uploaded_again prefix h h' msg c :
  path_filter msg = false -> today h' = today h ->
  (forall q, file_of h' q = if decide (q = msg) then Some c else file_of h q) ->
  uploaded prefix h' ≡ₚ uploaded prefix h.
Proof.
  intros Hmsg Hday Hf. unfold uploaded.
  assert (forall p, path_filter p = true -> file_of h' p = file_of h p) as Hsame.
  { intros p Hp. rewrite Hf, decide_False; [done|]. intros ->. congruence. }
  transitivity (log_item prefix h' <$> filter (fun p => path_filter p = true) (logs_of h)).
  - apply fmap_Permutation, NoDup_Permutation; [by apply NoDup_filter, walk_NoDup..|].
    intros p. rewrite !list_elem_of_filter. unfold logs_of.
    pose proof (walk_files h log_path p) as W1. pose proof (walk_files h' log_path p) as W2.
    split; intros [Hp Hin]; (split; [done|]).
    + apply W1. apply W2 in Hin. by rewrite <- Hsame.
    + apply W2. apply W1 in Hin. by rewrite Hsame.
  - apply reflexive_eq, list_fmap_ext. intros i p Hp%list_elem_of_lookup_2.
    apply list_elem_of_filter in Hp as [Hp _]. unfold log_item. by rewrite Hday, Hsame.
Qed.

Lemma stored_lookup kept i : NoDup (i_dest <$> kept) -> i ∈ kept -> stored kept !! i_dest i = Some (i_content i).
Proof.
  intros Hnd Hi. unfold stored. apply elem_of_list_to_map_1.
  - by rewrite <- list_fmap_compose.
  - apply list_elem_of_fmap. by exists i.
Qed.

Lemma free_perm srcs h h' kept kept' msg c :
  kept' ≡ₚ kept -> free (msg :: srcs) h kept -> (forall d, d ∈ i_dest <$> kept -> ~ above msg (dirname d)) ->
  (forall q, file_of h' q = if decide (q = msg) then Some c else file_of h q) -> (forall q, is_dir h' q = is_dir h q) ->
  free (msg :: srcs) h' kept'.
Proof.
  intros Hp [Hroom Hsrc] Hmsg Hf Hd.
  assert (forall d, d ∈ i_dest <$> kept' <-> d ∈ i_dest <$> kept) as Hk by (intros d; by rewrite Hp).
  split.
  - intros d Hin%Hk. destruct (Hroom d Hin) as [[Hnd Hup] Hno]. split; [split|].
    + by rewrite Hd.
    + intros q Hq. rewrite Hf, decide_False; [by apply Hup|]. intros ->. by apply (Hmsg d).
    + intros q Hq ?%Hk. by apply (Hno q).
  - intros s Hs ?%Hk. by apply (Hsrc s).
Qed.
End upload.


(** ** Examples *)
Import MemoryHost.
Module SampleLogs.
Definition m : mem :=
  mk_mem {[bs "/logs/a.txt" := bs "A"; bs "/logs/sub/b.txt" := bs "B"]}
    {[bs "/logs"; bs "/logs/sub"; bs "/out"]} (bs "2019-01-02").
Definition user_params : params :=
  list_to_map [(IKEY_ENABLE_LOG_UPLOADING, PBool true); (IKEY_ANDROID_DEVICE, PList []);
    (IKEY_LOG_UPLOADING_PATH, PStr (bs "/out")); (IKEY_LOG_UPLOADING_URL_PREFIX, PStr (bs "http://h/"))].
Definition feature : LogUploadingFeature :=
  match new_LogUploadingFeature (fun _ _ => false) user_params with
  | Ok f => f
  | Raise _ => mk_log_uploading new_feature None None
  end.
Definition util : ReportFileUtil := default (mk_report_file_util false false None None None false false) (report_file_util feature).
Definition start : log_world mem (gmap pystr pystr) := mk_lw (mk_rw m ∅) (Some SampleWeb.web).
Definition kept : list item := uploaded (bs "/logs") util (prefix_of feature SampleWeb.report) m.
End SampleLogs.


(** ** What goes wrong *)

(** Logs are uploaded with a prefix that needs the report: without a report nothing is
    uploaded, and the call raises. *)
Lemma upload_needs_report {W B} `{Host W, Bucket B} cwd log_path f (dry : bool) (w : log_world W B) web :
  enabled (lu_feature f) = true -> lweb w = Some web -> report_msg web = None ->
  (UploadLogs cwd log_path f None dry w).1 = Exc attribute_error.
Proof.
  intros Hon Hw Hr. unfold UploadLogs. rewrite Hon. unfold mbind, xstM_bind, log_prefix. cbn [given].
  unfold mbind, xstM_bind, on_lweb. rewrite Hw. unfold get_report, mbind, xstM_bind, xget. by rewrite Hr.
Qed.
