(* ===== verification/Adb.v ===== *)
(** * The debug bridge ([src/utils/python/controllers/adb.py])

    [AdbProxy] turns method calls into commands of the host's shell.  The command of
    a device shell is put between double quotes: the theorems say how the host's
    shell reads it.  Running a command, binding a port and the random numbers are
    arguments. *)

From Stdlib Require Import Strings.Byte.
From S2P Require Import Prelude PyStr PyVal ListUtils Signals BinaryTest Shell Channel VtsSpec.

Definition DEFAULT_ADB_TIMEOUT : Z := 300.
Definition DEFAULT_ADB_LONG_TIMEOUT : Z := 600.
Definition DEFAULT_ADB_SHORT_TIMEOUT : Z := 30.

Definition quote : Byte.byte := Byte.x22.
Definition backslash : Byte.byte := Byte.x5c.
Definition dollar : Byte.byte := Byte.x24.
Definition backquote : Byte.byte := Byte.x60.
Definition newline : Byte.byte := Byte.x0a.

(** ** Commands *)
Definition adb_str (serial : pystr) : pystr := match serial with [] => bs "adb" | _ => bs "adb -s " ++ serial end.

(** [cmd.replace(quote, backslash + quote)] *)
Definition escape_quotes (cmd : pystr) : pystr := mjoin ((fun b => if decide (b = quote) then [backslash; quote] else [b]) <$> cmd).
Definition quote_wrap_shell_command (cmd : pystr) : pystr := [quote] ++ escape_quotes cmd ++ [quote].

Definition adb_command (serial name : pystr) (args : list pystr) : pystr :=
  let clean_name := replace_byte Byte.x5f Byte.x2d name in
  let arg_str := join_with (bs " ") args in
  let arg_str := if bool_decide (clean_name = bs "shell") then quote_wrap_shell_command arg_str else arg_str in
  join_with (bs " ") [adb_str serial; clean_name; arg_str].
Definition call_timeout (name : pystr) (timeout : option Z) : Z :=
  match timeout with
  | Some t => t
  | None => if bool_decide (replace_byte Byte.x5f Byte.x2d name = bs "shell") then DEFAULT_ADB_TIMEOUT else DEFAULT_ADB_LONG_TIMEOUT
  end.

Definition adb_error (cmd stdout stderr : pystr) (ret_code : Z) : exn :=
  EOther AdbError (bs "Error executing adb cmd '" ++ cmd ++ bs "'. ret: " ++ str_int ret_code ++
                   bs ", stdout: " ++ stdout ++ bs ", stderr: " ++ stderr).

Section adb.
Context {S : Type} (ExecuteOneShellCommand : pystr -> Z -> xstM S (pystr * pystr * Z)).

(** [_exec_cmd] without exceptions, and with them. *)
Definition exec_cmd_no_except (cmd : pystr) (timeout : Z) : xstM S (pystr * pystr * Z) := ExecuteOneShellCommand cmd timeout.
Definition exec_cmd (cmd : pystr) (timeout : Z) : xstM S pystr :=
  '(out, err, ret) ← ExecuteOneShellCommand cmd timeout;
  if (ret =? 0)%Z then mret out else xlift (Exc (adb_error cmd out err ret)).

(** [adb.<name>(...)] *)
Definition adb_call (serial name : pystr) (args : list pystr) (timeout : option Z) : xstM S pystr :=
  exec_cmd (adb_command serial name args) (call_timeout name timeout).
Definition adb_call_no_except (serial name : pystr) (args : list pystr) (timeout : option Z) : xstM S (pystr * pystr * Z) :=
  exec_cmd_no_except (adb_command serial name args) (call_timeout name timeout).

Definition tcp_pair (a b : Z) : pystr := bs "tcp:" ++ str_int a ++ bs " tcp:" ++ str_int b.
Definition tcp_forward (serial : pystr) (host_port device_port : Z) : xstM S unit :=
  _ ← adb_call serial (bs "forward") [tcp_pair host_port device_port] None; mret tt.
Definition reverse_tcp_forward (serial : pystr) (device_port host_port : Z) : xstM S unit :=
  _ ← adb_call serial (bs "reverse") [tcp_pair device_port host_port] None; mret tt.

(** ** Ports of the host *)

(** The ports of a listing: lines with two addresses. *)
Fixpoint parse_ports (lines : list pystr) : pyres (list Z) :=
  match lines with
  | [] => Ok []
  | line :: lines =>
      match split (bs " tcp:") line with
      | [_; port; _] => p ← py_int port; ps ← parse_ports lines; Ok (p :: ps)
      | _ => parse_ports lines
      end
  end.
Definition list_occupied_adb_ports : xstM S (list Z) :=
  out ← adb_call [] (bs "forward") [bs "--list"] None;
  xlift (match parse_ports (split [newline] (strip out)) with
         | Ok l => Ret l
         | Raise _ => Exc (EOther Python_ValueError (bs "invalid literal for int() with base 10"))
         end).

Context (bindable : Z -> S -> bool) (randint : Z -> Z -> xstM S Z).
Definition is_port_available (port : Z) : xstM S bool :=
  used ← list_occupied_adb_ports;
  if bool_decide (port ∈ used) then mret false else w ← xget; mret (bindable port w).

(** [None]: the fuel of the loop is used up. *)
Fixpoint get_available_host_port (fuel : nat) : xstM S (option Z) :=
  match fuel with
  | 0 => mret None
  | Datatypes.S fuel =>
      port ← randint 1024 9900;
      b ← is_port_available port;
      if b : bool then mret (Some port) else get_available_host_port fuel
  end.
End adb.

(** ** How a shell reads a command *)

(** The rest of a string in double quotes, as POSIX has it: a backslash escapes a
    dollar sign, a backquote, a quote, a backslash and a newline, and stands for
    itself before other characters.  [None] when the string does not end, or when
    an expansion starts in it. *)
Fixpoint dq_read (s : pystr) : option (pystr * pystr) :=
  match s with
  | [] => None
  | b :: s =>
      if decide (b = quote) then Some ([], s)
      else if decide (b = dollar \/ b = backquote) then None
      else if decide (b = backslash) then
        match s with
        | [] => None
        | c :: s' =>
            if decide (c = newline) then dq_read s'
            else if decide (c = dollar \/ c = backquote \/ c = quote \/ c = backslash)
            then prod_map (cons c) id <$> dq_read s'
            else prod_map (cons b) id <$> dq_read s
        end
      else prod_map (cons b) id <$> dq_read s
  end.

(** Characters that mean the same in double quotes. *)
Definition verbatim (cmd : pystr) : Prop := forall b, b ∈ cmd -> b <> backslash /\ b <> dollar /\ b <> backquote.

Lemma dq_read_escaped cmd rest : verbatim cmd -> dq_read (escape_quotes cmd ++ quote :: rest) = Some (cmd, rest).
Proof.
  induction cmd as [|b cmd IH]; intros Hv; [cbn; by rewrite decide_True|].
  assert (verbatim cmd) as Hv' by (intros c Hc; apply Hv; by right).
  specialize (IH Hv'). destruct (Hv b) as (H1 & H2 & H3); [by left|].
  unfold escape_quotes in *. rewrite fmap_cons. destruct (decide (b = quote)) as [->|Hb].
  - change (dq_read (backslash :: quote :: (mjoin ((fun b => if decide (b = quote) then [backslash; quote] else [b]) <$> cmd) ++ quote :: rest))
            = Some (quote :: cmd, rest)).
    cbn [dq_read]. rewrite (decide_False (P := backslash = quote)), (decide_False (P := backslash = dollar \/ backslash = backquote)),
      (decide_True (P := backslash = backslash)), (decide_False (P := quote = newline)) by (done || (by intros [?|?])).
    rewrite decide_True by tauto. by rewrite IH.
  - change (dq_read (b :: (mjoin ((fun b => if decide (b = quote) then [backslash; quote] else [b]) <$> cmd) ++ quote :: rest))
            = Some (b :: cmd, rest)).
    cbn [dq_read]. rewrite decide_False by done. rewrite decide_False by tauto. rewrite decide_False by done. by rewrite IH.
Qed.

Lemma shell_command serial cmd :
  adb_command serial (bs "shell") [cmd] = adb_str serial ++ bs " shell " ++ quote :: escape_quotes cmd ++ [quote].
Proof.
  unfold adb_command. rewrite bool_decide_eq_true_2 by (vm_compute; reflexivity). cbn [join_with].
  replace (replace_byte Byte.x5f Byte.x2d (bs "shell")) with (bs "shell") by (vm_compute; reflexivity). done.
Qed.

(** C36: The host's shell reads the command of a device shell back as it was given,
    quotes included, when it holds no backslash, dollar sign or backquote. *)
Theorem shell_command_roundtrip serial cmd :
  verbatim cmd ->
  exists s, adb_command serial (bs "shell") [cmd] = adb_str serial ++ bs " shell " ++ quote :: s /\ dq_read s = Some (cmd, []).
Proof.
  intros Hv. exists (escape_quotes cmd ++ [quote]). split; [apply shell_command|]. by apply dq_read_escaped.
Qed.

Example shell_command_roundtrip_witness :
  let cmd := bs "setprop a " ++ quote :: bs "b c" ++ [quote] in
  exists s, adb_command (bs "X") (bs "shell") [cmd] = adb_str (bs "X") ++ bs " shell " ++ quote :: s /\ dq_read s = Some (cmd, []).
Proof.
  intros cmd. apply shell_command_roundtrip.
  assert (Forall (fun b => b <> backslash /\ b <> dollar /\ b <> backquote) cmd) as H.
  { apply (bool_decide_unpack _). vm_compute. exact I. }
  rewrite Forall_forall in H. exact H.
Defined.

(** A quote after a backslash ends the string: the backslash is doubled, not escaped. *)
Example backslash_ends_the_string :
  let cmd := bs "echo " ++ backslash :: quote :: bs "x" in
  exists s, adb_command [] (bs "shell") [cmd] = bs "adb shell " ++ quote :: s /\
    dq_read s = Some (bs "echo " ++ [backslash], bs "x" ++ [quote]).
Proof. eexists. split; vm_compute; reflexivity. Qed.

(** A caller that quotes a command itself hands the device one word: the shell of the
    device reads the whole command as the name of a program. *)
Lemma quoted_twice serial cmd :
  verbatim cmd -> (quote ∉ cmd) ->
  exists s, adb_command serial (bs "shell") [quote :: cmd ++ [quote]] = adb_str serial ++ bs " shell " ++ quote :: s /\
    dq_read s = Some (quote :: cmd ++ [quote], []) /\ dq_read (cmd ++ [quote]) = Some (cmd, []).
Proof.
  intros Hv Hq. exists (escape_quotes (quote :: cmd ++ [quote]) ++ [quote]). split; [apply shell_command|]. split.
  - apply dq_read_escaped. intros b [->|[Hb|[->|[]%elem_of_nil]%elem_of_cons]%elem_of_app]%elem_of_cons; [done|by apply Hv|done].
  - assert (escape_quotes cmd = cmd) as E.
    { clear Hv. induction cmd as [|b cmd IH]; [done|]. apply not_elem_of_cons in Hq as [Hb Hq].
      change ((if decide (b = quote) then [backslash; quote] else [b]) ++ escape_quotes cmd = b :: cmd).
      rewrite decide_False by congruence. by rewrite IH. }
    pose proof (dq_read_escaped cmd [] Hv) as H. by rewrite E in H.
Qed.

(** ** The listing of forwards *)

(** A forward as adb lists it: the device, an address of the host and one of the device,
    each a port or something else, such as a socket of the file system. *)
Inductive address := Tcp (port : Z) | Other (name : pystr).
Record forward := mk_forward { fwd_serial : pystr; local : address; remote : address }.
Definition show_address (a : address) : pystr := match a with Tcp p => bs "tcp:" ++ str_nat p | Other n => n end.
Definition show_forward (f : forward) : pystr := fwd_serial f ++ bs " " ++ show_address (local f) ++ bs " " ++ show_address (remote f).
Definition listing (fs : list forward) : pystr := mjoin ((fun f => show_forward f ++ [newline]) <$> fs).

Definition word (s : pystr) : bool := negb (bool_decide (s = [])) && no_space s.
Definition proper_address (a : address) : bool :=
  match a with Tcp p => (0 <=? p)%Z | Other n => word n && negb (startswith (bs "tcp:") n) end.
Definition proper_forward (f : forward) : bool := word (fwd_serial f) && proper_address (local f) && proper_address (remote f).

(** The ports of the host that lead to a port of a device. *)
Definition forwarded_ports (fs : list forward) : list Z :=
  omap (fun f => match local f, remote f with Tcp p, Tcp _ => Some p | _, _ => None end) fs.

Lemma split_lines_last c ls x :
  forallb (no_byte c) ls = true -> no_byte c x = true -> split [c] (mjoin ((fun l => l ++ [c]) <$> ls) ++ x) = ls ++ [x].
Proof.
  intros Hls Hx. unfold split. induction ls as [|l ls IH]; [by rewrite split_from_no_byte|].
  apply andb_true_iff in Hls as [Hl Hls]. csimpl. rewrite <- !app_assoc. cbn [app]. rewrite split_from_byte by done. cbn [app].
  f_equal. by apply IH.
Qed.

(** White space occurs at neither end. *)
Definition trimmed (s : pystr) : Prop := exists b m e, is_space b = false /\ is_space e = false /\ (s = [b] /\ b = e \/ s = b :: m ++ [e]).
Lemma strip_line_end s c : trimmed s -> is_space c = true -> strip (s ++ [c]) = s.
Proof.
  intros (b & m & e & Hb & He & [[-> ->]| ->]) Hc; unfold strip, strip_by; cbn [app]; rewrite lstrip_by_id by done.
  - change [e; c] with ([e] ++ [c]). rewrite rstrip_by_all by (cbn; by rewrite Hc). exact (rstrip_by_snoc is_space e [] He).
  - change (b :: (m ++ [e]) ++ [c]) with (((b :: m) ++ [e]) ++ [c]). rewrite rstrip_by_all by (cbn; by rewrite Hc).
    by rewrite rstrip_by_snoc.
Qed.
Lemma trimmed_app s m t : s <> [] -> t <> [] -> no_space s = true -> no_space t = true -> trimmed (s ++ m ++ t).
Proof.
  intros Hs Ht Ns Nt. destruct s as [|b s]; [done|]. destruct t as [|e t _] using rev_ind; [done|].
  unfold no_space in *. rewrite forallb_app in Nt. cbn [forallb] in *. apply andb_true_iff in Ns as [Hb _]. apply andb_true_iff in Nt as [_ [He _]%andb_true_iff].
  rewrite negb_true_iff in Hb, He. exists b, (s ++ m ++ t), e. split; [done|]. split; [done|]. right. cbn. by rewrite <- !app_assoc.
Qed.

Lemma no_space_str_nat p : (0 <= p)%Z -> no_space (str_nat p) = true /\ str_nat p <> [].
Proof.
  intros Hp. destruct (str_nat_spec p Hp) as (Hd & _ & Hne). split; [|done]. apply forallb_forall. intros b Hb.
  rewrite forallb_forall in Hd. by rewrite digit_not_space by auto.
Qed.
Lemma show_address_word a : proper_address a = true -> show_address a <> [] /\ no_space (show_address a) = true.
Proof.
  destruct a as [p|n]; cbn [proper_address show_address]; [|unfold word; intros [[Hn Hs]%andb_true_iff _]%andb_true_iff].
  - intros Hp%Z.leb_le. destruct (no_space_str_nat p Hp) as [Hs _]. split; [done|]. unfold no_space in *. by rewrite forallb_app, Hs.
  - split; [|done]. apply negb_true_iff, bool_decide_eq_false in Hn. done.
Qed.
Lemma no_space_no_byte c s : is_space c = true -> no_space s = true -> no_byte c s = true.
Proof.
  intros Hc. unfold no_space, no_byte, is_byte. rewrite !forallb_forall. intros Hs b Hb. specialize (Hs b Hb).
  rewrite negb_true_iff in *. apply bool_decide_eq_false. by intros ->; rewrite Hc in Hs.
Qed.

(** *** Reading a line *)
Abbreviation tcp_sep := (bs " tcp:").
Lemma split_word w rest acc : no_space w = true -> split_from tcp_sep (w ++ rest) acc 0 = split_from tcp_sep rest (acc ++ w) 0.
Proof.
  revert acc. induction w as [|b w IH]; intros acc Hw; [by rewrite app_nil_r|]. unfold no_space in *. cbn [forallb] in Hw. apply andb_true_iff in Hw as [Hb Hw].
  cbn [app split_from]. assert (startswith tcp_sep (b :: w ++ rest) = false) as ->.
  { apply not_true_is_false. rewrite startswith_spec. intros [k [= -> _]]. done. }
  rewrite IH by done. by rewrite <- app_assoc.
Qed.
Lemma split_address a rest acc : proper_address a = true -> no_space (take 1 rest) = false \/ rest = [] ->
  split_from tcp_sep (bs " " ++ show_address a ++ rest) acc 0 =
    match a with
    | Tcp p => acc :: split_from tcp_sep rest (str_nat p) 0
    | Other n => split_from tcp_sep rest (acc ++ bs " " ++ n) 0
    end.
Proof.
  intros Ha Hrest. destruct a as [p|n]; cbn [show_address].
  - cbn in Ha. apply Z.leb_le in Ha. destruct (no_space_str_nat p Ha) as [Hs _].
    change (bs " " ++ (bs "tcp:" ++ str_nat p) ++ rest) with (tcp_sep ++ str_nat p ++ rest).
    change (split_from tcp_sep (tcp_sep ++ str_nat p ++ rest) acc 0) with
      (if startswith tcp_sep (tcp_sep ++ str_nat p ++ rest) then acc :: split_from tcp_sep (str_nat p ++ rest) [] 0
       else split_from tcp_sep (bs "tcp:" ++ str_nat p ++ rest) (acc ++ bs " ") 0).
    by rewrite startswith_app, split_word.
  - cbn [proper_address] in Ha. apply andb_true_iff in Ha as [[_ Hs]%andb_true_iff Hn]. apply negb_true_iff in Hn.
    assert (startswith tcp_sep (bs " " ++ n ++ rest) = false) as Hf.
    { apply not_true_is_false. rewrite startswith_spec. intros [k Hk]. injection Hk as Hk. change (n ++ rest = bs "tcp:" ++ k) in Hk. apply not_true_iff_false in Hn. apply Hn, startswith_spec.
      destruct (decide (4 <= length n)) as [Hl|Hl].
      - exists (drop 4 n). apply (f_equal (take 4)) in Hk. rewrite take_app_le in Hk by done. rewrite <- (take_drop 4 n) at 1. rewrite Hk. reflexivity.
      - exfalso. destruct Hrest as [Hsp| ->]; [|rewrite app_nil_r in Hk; subst n; cbn in Hl; lia].
        destruct rest as [|b rest]; [done|]. cbn in Hsp. rewrite andb_true_r, negb_false_iff in Hsp.
        assert ((bs "tcp:" ++ k) !! length n = Some b) as Hb by (rewrite <- Hk; by rewrite list_lookup_middle).
        destruct n as [|? [|? [|? [|]]]]; cbn in Hb, Hl; try (injection Hb as <-; done). lia. }
    change (split_from tcp_sep (bs " " ++ n ++ rest) acc 0) with
      (if startswith tcp_sep (bs " " ++ n ++ rest) then acc :: split_from tcp_sep (n ++ rest) [] 4
       else split_from tcp_sep (n ++ rest) (acc ++ bs " ") 0).
    rewrite Hf, split_word by done. by rewrite <- app_assoc.
Qed.

Lemma parse_forward f lines : proper_forward f = true ->
  parse_ports (show_forward f :: lines) =
    match local f, remote f with Tcp p, Tcp _ => ps ← parse_ports lines; Ok (p :: ps) | _, _ => parse_ports lines end.
Proof.
  intros [[[_ Hs]%andb_true_iff Hl]%andb_true_iff Hr]%andb_true_iff. cbn [parse_ports]. unfold show_forward, split.
  rewrite split_word by done. cbn [app]. rewrite split_address by (done || by left).
  pose proof (split_address (remote f) [] ) as Hlast. rewrite app_nil_r in Hlast.
  destruct (local f) as [p|n]; rewrite Hlast by (done || by right); destruct (remote f) as [q|m]; cbn [split_from]; try done.
  cbn in Hl. apply Z.leb_le in Hl. pose proof (py_int_padded p [] [] Hl eq_refl eq_refl) as Hp. rewrite app_nil_r in Hp. cbn [app] in Hp. by rewrite Hp.
Qed.

(** The listing is read as the ports that lead to a port of a device; other forwards are
    not seen. *)
Lemma parse_listing fs : forallb proper_forward fs = true -> parse_ports (split [newline] (strip (listing fs))) = Ok (forwarded_ports fs).
Proof.
  intros Hfs. assert (forall f, proper_forward f = true -> trimmed (show_forward f) /\ no_byte newline (show_forward f) = true) as Hline.
  { intros f [[[Hne Hs]%andb_true_iff Hl]%andb_true_iff Hr]%andb_true_iff. apply negb_true_iff, bool_decide_eq_false in Hne.
    destruct (show_address_word _ Hl) as [_ Nl], (show_address_word _ Hr) as [Er Nr]. split.
    - pose proof (trimmed_app (fwd_serial f) (bs " " ++ show_address (local f) ++ bs " ") (show_address (remote f)) Hne Er Hs Nr) as Ht.
      by rewrite <- !app_assoc in Ht.
    - unfold show_forward. rewrite !no_byte_app. by rewrite (no_space_no_byte newline _ eq_refl Hs), (no_space_no_byte newline _ eq_refl Nl), (no_space_no_byte newline _ eq_refl Nr). }
  destruct fs as [|f0 fs0 _] using rev_ind; [reflexivity|].
  rewrite forallb_app in Hfs. apply andb_true_iff in Hfs as [Hinit [H0 _]%andb_true_iff].
  assert (split [newline] (strip (listing (fs0 ++ [f0]))) = show_forward <$> (fs0 ++ [f0])) as ->.
  { assert (listing (fs0 ++ [f0]) = (mjoin ((fun l => l ++ [newline]) <$> (show_forward <$> fs0)) ++ show_forward f0) ++ [newline]) as ->.
    { unfold listing. rewrite fmap_app, join_app, <- list_fmap_compose. cbn. by rewrite app_nil_r, app_assoc. }
    rewrite strip_line_end, split_lines_last, fmap_app; [done| |by apply Hline| |done].
    - apply forallb_forall. intros s Hs%list_elem_of_In. apply list_elem_of_fmap in Hs as (f & -> & Hf%list_elem_of_In).
      apply Hline. rewrite forallb_forall in Hinit. auto.
    - destruct fs0 as [|f1 fs1]; [by apply Hline|]. apply andb_true_iff in Hinit as [H1 _].
      destruct (Hline f1 H1) as [(b & m & e & Hb & _ & E1) _], (Hline f0 H0) as [(b' & m' & e' & _ & He' & E0) _].
      exists b. assert (exists u, show_forward f1 = b :: u) as [u Hu] by (destruct E1 as [[-> ->]| ->]; by eexists).
      assert (exists v, show_forward f0 = v ++ [e']) as [v Hv] by (destruct E0 as [[-> ->]| ->]; [by exists []|by exists (b' :: m')]).
      csimpl. rewrite Hu, Hv. eexists _, e'. split; [done|]. split; [done|]. right. cbn [app]. rewrite !app_assoc. reflexivity. }
  assert (forallb proper_forward (fs0 ++ [f0]) = true) as Hall by (rewrite forallb_app, Hinit; cbn; by rewrite H0).
  clear Hinit H0. induction (fs0 ++ [f0]) as [|f fs IH]; [done|]. apply andb_true_iff in Hall as [Hf Hall]. rewrite fmap_cons, parse_forward, (IH Hall) by done.
  unfold forwarded_ports. cbn [omap list_omap]. by destruct (local f), (remote f).
Qed.

(** ** The search for a port *)
Section ports.
Context {S : Type} (ExecuteOneShellCommand : pystr -> Z -> xstM S (pystr * pystr * Z)).
Context (bindable : Z -> S -> bool) (randint : Z -> Z -> xstM S Z).
(** The random numbers that a state gives, and its forwards, which adb lists. *)
Context (draw : S -> Z) (next : S -> S) (table : S -> list forward).
Context (Hdraw : forall w, randint 1024 9900 w = (Ret (draw w), next w)).
Context (Hproper : forall w, forallb proper_forward (table w) = true).
Context (Hlist : forall w, ExecuteOneShellCommand (bs "adb forward --list") DEFAULT_ADB_LONG_TIMEOUT w = (Ret (listing (table w), [], 0%Z), w)).

Lemma list_occupied_run w : list_occupied_adb_ports ExecuteOneShellCommand w = (Ret (forwarded_ports (table w)), w).
Proof using Hproper Hlist.
  unfold list_occupied_adb_ports, adb_call, exec_cmd.
  replace (adb_command [] (bs "forward") [bs "--list"]) with (bs "adb forward --list") by (vm_compute; reflexivity).
  replace (call_timeout (bs "forward") None) with DEFAULT_ADB_LONG_TIMEOUT by (vm_compute; reflexivity).
  unfold mbind at 1 2, xstM_bind. rewrite Hlist. cbn. by rewrite parse_listing by apply Hproper.
Qed.

(** The [k]-th number drawn from [w], and whether it is a port to be had. *)
Definition nth_draw (w : S) (k : nat) : Z := draw (Nat.iter k next w).
Definition available (w : S) (k : nat) : bool :=
  let w' := Nat.iter (k + 1) next w in
  negb (bool_decide (nth_draw w k ∈ forwarded_ports (table w'))) && bindable (nth_draw w k) w'.

Lemma iter_next k w : Nat.iter k next (next w) = next (Nat.iter k next w).
Proof. induction k as [|k IH]; [done|]. rewrite !Nat.iter_succ. by rewrite IH. Qed.

Lemma available_next w k : available (next w) k = available w (k + 1).
Proof.
  unfold available, nth_draw. rewrite !iter_next. replace (k + 1) with (Datatypes.S k) by lia.
  by replace (Datatypes.S k + 1) with (Datatypes.S (Datatypes.S k)) by lia.
Qed.

Lemma is_port_available_run port w :
  is_port_available ExecuteOneShellCommand bindable port w = (Ret (negb (bool_decide (port ∈ forwarded_ports (table w))) && bindable port w), w).
Proof using Hproper Hlist.
  unfold is_port_available. erewrite xstM_bind_run by apply list_occupied_run. destruct (bool_decide (port ∈ _)); [done|].
  by erewrite xstM_bind_run by reflexivity.
Qed.

Lemma get_port_S fuel :
  get_available_host_port ExecuteOneShellCommand bindable randint (Datatypes.S fuel) =
    (port ← randint 1024%Z 9900%Z;
     b ← is_port_available ExecuteOneShellCommand bindable port;
     if b : bool then mret (Some port) else get_available_host_port ExecuteOneShellCommand bindable randint fuel).
Proof. done. Qed.

(** C37: The search for a port ends with the first number drawn that can be bound and that
    no forward in the table of adb leads from to a port of a device, as soon as there is
    one.  The table is what adb lists when it is asked, serials and addresses are words,
    and listing does not fail; forwards to anything but a port are not looked at. *)
Theorem port_is_found k w :
  available w k = true ->
  exists j, j <= k /\ available w j = true /\ (forall i, i < j -> available w i = false) /\
    get_available_host_port ExecuteOneShellCommand bindable randint (Datatypes.S k) w =
      (Ret (Some (nth_draw w j)), Nat.iter (j + 1) next w).
Proof.
  revert w. induction k as [|k IH]; intros w Hk; rewrite get_port_S.
  - exists 0. split; [lia|]. split; [done|]. split; [lia|]. erewrite xstM_bind_run by apply Hdraw.
    erewrite xstM_bind_run by apply is_port_available_run. change (_ && _) with (available w 0). by rewrite Hk.
  - destruct (available w 0) eqn:H0.
    + exists 0. split; [lia|]. split; [done|]. split; [lia|]. erewrite xstM_bind_run by apply Hdraw.
      erewrite xstM_bind_run by apply is_port_available_run. change (negb _ && _) with (available w 0). by rewrite H0.
    + destruct (IH (next w)) as (j & Hj & Ha & Hi & Hr).
      { rewrite available_next. by replace (k + 1) with (Datatypes.S k) by lia. }
      exists (j + 1). split; [lia|]. rewrite available_next in Ha. split; [done|]. split.
      * intros [|i] Hlt; [done|]. replace (Datatypes.S i) with (i + 1) by lia. rewrite <- available_next. apply Hi. lia.
      * erewrite xstM_bind_run by apply Hdraw. erewrite xstM_bind_run by apply is_port_available_run.
        change (negb _ && _) with (available w 0). rewrite H0, Hr. unfold nth_draw.
        rewrite !iter_next. replace (j + 1) with (Datatypes.S j) by lia.
        by replace (Datatypes.S j + 1) with (Datatypes.S (Datatypes.S j)) by lia.
Qed.
End ports.

(** Two ports lead to ports of a device, and a third cannot be bound; the last one leads to
    a socket, which is not looked at. *)
Module SamplePorts.
Definition table (_ : nat) : list forward :=
  [mk_forward (bs "X") (Tcp 5000) (Tcp 1); mk_forward (bs "Y") (Tcp 8000) (Other (bs "localabstract:a")); mk_forward (bs "X") (Tcp 6000) (Tcp 2)].
Definition run (c : pystr) (_ : Z) : xstM nat (pystr * pystr * Z) := w ← xget; mret (listing (table w), [], 0%Z).
Definition draw (n : nat) : Z := nth n [5000; 7000; 6000; 8000]%Z 0%Z.
Definition bindable (p : Z) (_ : nat) : bool := negb (p =? 7000)%Z.
Definition randint (_ _ : Z) : xstM nat Z := fun n => (Ret (draw n), S n).
End SamplePorts.
Example port_is_found_witness :
  exists w, get_available_host_port SamplePorts.run SamplePorts.bindable SamplePorts.randint 4 0 = (Ret (Some 8000%Z), w).
Proof.
  destruct (port_is_found SamplePorts.run SamplePorts.bindable SamplePorts.randint SamplePorts.draw S SamplePorts.table
    (fun w => eq_refl) (fun w => ltac:(vm_compute; reflexivity)) (fun w => eq_refl) 3 0) as (j & Hj & Ha & Hi & Hr).
  - vm_compute. reflexivity.
  - exists (Nat.iter (j + 1) S 0). etransitivity; [exact Hr|]. clear Hr.
    destruct j as [|[|[|[|j]]]]; [by vm_compute in Ha..|reflexivity|lia].
Defined.

(** A port that leads to a socket of a device does not count as occupied. *)
Example forward_to_socket_unseen : (forwarded_ports (SamplePorts.table 0) = [5000; 6000]%Z) /\
  (list_occupied_adb_ports SamplePorts.run 0).1 = Ret [5000; 6000]%Z.
Proof. split; vm_compute; reflexivity. Qed.
