(* ===== verification/DeviceOps.v ===== *)
(** * What a test class asks of its devices ([src/runners/host/base_test.py])

    The interface between test classes and devices: a device is a number, and the
    operations that the base class uses change a state that all devices share.  The
    laws are what healing relies on.  AndroidDevice implements the interface and proves
    the laws; ClassSetup uses them. *)

From S2P Require Import Prelude PyStr PyVal Signals Shell.

Class DeviceOps (W : Type) := {
  dev_serial : nat -> W -> pystr;
  dev_fatal_error : nat -> W -> bool;
  dev_logcat_on : nat -> W -> bool;
  dev_stop : nat -> bool -> xstM W unit;
  (** [None]: the fuel of the waiting loop is used up. *)
  dev_start : nat -> xstM W (option bool);
  dev_waitForProcessStop : nat -> list pystr -> xstM W (option bool);
  dev_waitForBootCompletion : nat -> Z -> xstM W (option bool);
  dev_rootAdb : nat -> xstM W unit;
  dev_stopServices : nat -> xstM W unit;
  dev_startServices : nat -> xstM W unit;
  dev_Heal : nat -> xstM W bool;
  dev_diagnose : nat -> xstM W unit;
  dev_bugreport : nat -> pystr -> xstM W unit;
  (** The logs of one buffer into a file. *)
  dev_logcat : nat -> pystr -> pystr -> xstM W unit;
  (** The host: seconds, its own diagnosis, the list of adb, [file_util.Mkdir]. *)
  host_time : W -> Z;
  host_diagnose : xstM W unit;
  host_adb_devices : xstM W (list pystr);
  host_Mkdir : pystr -> xstM W bool;
}.

(** What leaves the services of all devices alone. *)
Inductive quiet {W} `{DeviceOps W} : forall A, xstM W A -> Prop :=
  | quiet_wait d t : quiet _ (dev_waitForBootCompletion d t)
  | quiet_root d : quiet _ (dev_rootAdb d)
  | quiet_heal d : quiet _ (dev_Heal d)
  | quiet_diagnose d : quiet _ (dev_diagnose d)
  | quiet_host : quiet _ host_diagnose
  | quiet_list : quiet _ host_adb_devices.

(** [serves]: the services of a device run; [managed]: there is such a device, and its
    agent is in use. *)
Class DeviceLaws (W : Type) `{DeviceOps W} := {
  serves : nat -> W -> Prop;
  managed : nat -> W -> Prop;
  serves_quiet d A (m : xstM W A) : quiet A m -> xkeeps (serves d) m;
  managed_quiet d A (m : xstM W A) : quiet A m -> xkeeps (managed d) m;
  serial_quiet d s A (m : xstM W A) : quiet A m -> xkeeps (fun w => dev_serial d w = s) m;
  managed_restart d d' : xkeeps (managed d) (dev_stopServices d') /\ xkeeps (managed d) (dev_startServices d');
  serial_restart d d' s :
    xkeeps (fun w => dev_serial d w = s) (dev_stopServices d') /\ xkeeps (fun w => dev_serial d w = s) (dev_startServices d');
  serves_other d d' : d <> d' -> xkeeps (serves d) (dev_stopServices d') /\ xkeeps (serves d) (dev_startServices d');
  serves_started d w w1 w2 :
    managed d w -> dev_stopServices d w = (Ret tt, w1) -> dev_startServices d w1 = (Ret tt, w2) -> serves d w2;
}.
