(* ===== verification/AndroidDevice.v ===== *)
(** * Android devices ([src/utils/python/controllers/android_device.py])

    An [AndroidDevice] runs commands on a device through Adb, keeps the processes of
    a log collector and of an agent, and the trackers of mirrors (MirrorTracker)
    that talk to the agent.  The module creates devices for a test run and starts
    their services together.  What runs on the host and on the device is a state of
    a type of its own, with these operations as arguments; messages for the log and
    timing events are left out. *)

From Stdlib Require Import Strings.Byte.
From S2P Require Import Prelude PyStr PyPath PyVal ListUtils Signals BinaryTest Shell.
From S2P Require Import Config Channel Mirror TcpClient ResourceMirror MirrorTracker VtsSpec DeviceChecks Adb DeviceOps.

Definition ANDROID_PRODUCT_TYPE_UNKNOWN : pystr := bs "unknown".
Definition DEFAULT_AGENT_BASE_DIR : pystr := bs "/data/local/tmp".
Definition LLKD : pystr := bs "llkd-1".
Definition FASTBOOT_VAR_HAS_VBMETA : pystr := bs "has-slot:vbmeta".
Definition SYSPROP_DEV_BOOTCOMPLETE : pystr := bs "dev.bootcomplete".
Definition SYSPROP_SYS_BOOT_COMPLETED : pystr := bs "sys.boot_completed".
Definition SYSPROP_VTS_NATIVE_SERVER : pystr := bs "vts.native_server.on".
Definition WAIT_TIMEOUT_SEC : Z := 120.
Definition BOOT_TIMEOUT_SEC : Z := 900.
Definition MAX_FILENAME_LEN : Z := 255.

(** [AndroidDeviceError] and [utils.VTSUtilsError]. *)
Definition AndroidDeviceError : exc_class := UserException 18.
Definition VTSUtilsError : exc_class := UserException 19.
Definition DoesNotExistError : exc_class := UserException 20.

(** ** The object *)
Record AndroidDevice (C P : Type) := mk_ad {
  serial : pystr;
  product_type : pystr;
  device_command_port : option Z;
  device_callback_port : Z;
  log_path : pystr;
  adb_logcat_process : option P;
  adb_logcat_file_path : option pystr;
  vts_agent_process : option P;
  host_command_port : option Z;
  host_callback_port : Z;
  hal : option (tracker C);
  lib : option (tracker C);
  shell : option (tracker C);
  resource : option (tracker C);
  shell_default_nohup : bool;
  fatal_error : bool;
  enable_vts_agent : option bool;
  config : gmap pystr pyval;              (* attributes of [loadConfig] *)
}.
Arguments mk_ad {_ _}.
Arguments serial {_ _} _.
Arguments product_type {_ _} _.
Arguments device_command_port {_ _} _.
Arguments device_callback_port {_ _} _.
Arguments log_path {_ _} _.
Arguments adb_logcat_process {_ _} _.
Arguments adb_logcat_file_path {_ _} _.
Arguments vts_agent_process {_ _} _.
Arguments host_command_port {_ _} _.
Arguments host_callback_port {_ _} _.
Arguments hal {_ _} _.
Arguments lib {_ _} _.
Arguments shell {_ _} _.
Arguments resource {_ _} _.
Arguments shell_default_nohup {_ _} _.
Arguments fatal_error {_ _} _.
Arguments enable_vts_agent {_ _} _.
Arguments config {_ _} _.

Section setters.
Context {C P : Type}.
Implicit Types (d : AndroidDevice C P).
Definition set_logcat (p : option P) (path : option pystr) d : AndroidDevice C P :=
  mk_ad (serial d) (product_type d) (device_command_port d) (device_callback_port d) (log_path d) p path (vts_agent_process d)
    (host_command_port d) (host_callback_port d) (hal d) (lib d) (shell d) (resource d) (shell_default_nohup d) (fatal_error d)
    (enable_vts_agent d) (config d).
Definition set_agent (p : option P) d : AndroidDevice C P :=
  mk_ad (serial d) (product_type d) (device_command_port d) (device_callback_port d) (log_path d) (adb_logcat_process d)
    (adb_logcat_file_path d) p (host_command_port d) (host_callback_port d) (hal d) (lib d) (shell d) (resource d)
    (shell_default_nohup d) (fatal_error d) (enable_vts_agent d) (config d).
Definition set_device_port (p : option Z) d : AndroidDevice C P :=
  mk_ad (serial d) (product_type d) p (device_callback_port d) (log_path d) (adb_logcat_process d) (adb_logcat_file_path d)
    (vts_agent_process d) (host_command_port d) (host_callback_port d) (hal d) (lib d) (shell d) (resource d)
    (shell_default_nohup d) (fatal_error d) (enable_vts_agent d) (config d).
Definition set_host_port (p : option Z) d : AndroidDevice C P :=
  mk_ad (serial d) (product_type d) (device_command_port d) (device_callback_port d) (log_path d) (adb_logcat_process d)
    (adb_logcat_file_path d) (vts_agent_process d) p (host_callback_port d) (hal d) (lib d) (shell d) (resource d)
    (shell_default_nohup d) (fatal_error d) (enable_vts_agent d) (config d).
Definition set_callback_port (p : Z) d : AndroidDevice C P :=
  mk_ad (serial d) (product_type d) (device_command_port d) (device_callback_port d) (log_path d) (adb_logcat_process d)
    (adb_logcat_file_path d) (vts_agent_process d) (host_command_port d) p (hal d) (lib d) (shell d) (resource d)
    (shell_default_nohup d) (fatal_error d) (enable_vts_agent d) (config d).
Definition set_trackers (h l s r : option (tracker C)) d : AndroidDevice C P :=
  mk_ad (serial d) (product_type d) (device_command_port d) (device_callback_port d) (log_path d) (adb_logcat_process d)
    (adb_logcat_file_path d) (vts_agent_process d) (host_command_port d) (host_callback_port d) h l s r
    (shell_default_nohup d) (fatal_error d) (enable_vts_agent d) (config d).
Definition set_nohup (b : bool) d : AndroidDevice C P :=
  mk_ad (serial d) (product_type d) (device_command_port d) (device_callback_port d) (log_path d) (adb_logcat_process d)
    (adb_logcat_file_path d) (vts_agent_process d) (host_command_port d) (host_callback_port d) (hal d) (lib d)
    ((fun t => mk_tracker (registered_mirrors t) (callback_server t) b) <$> shell d) (resource d) b (fatal_error d)
    (enable_vts_agent d) (config d).
Definition set_fatal (b : bool) d : AndroidDevice C P :=
  mk_ad (serial d) (product_type d) (device_command_port d) (device_callback_port d) (log_path d) (adb_logcat_process d)
    (adb_logcat_file_path d) (vts_agent_process d) (host_command_port d) (host_callback_port d) (hal d) (lib d) (shell d) (resource d)
    (shell_default_nohup d) b (enable_vts_agent d) (config d).
Definition set_enable_agent (b : option bool) d : AndroidDevice C P :=
  mk_ad (serial d) (product_type d) (device_command_port d) (device_callback_port d) (log_path d) (adb_logcat_process d)
    (adb_logcat_file_path d) (vts_agent_process d) (host_command_port d) (host_callback_port d) (hal d) (lib d) (shell d) (resource d)
    (shell_default_nohup d) (fatal_error d) b (config d).
Definition set_config (c : gmap pystr pyval) d : AndroidDevice C P :=
  mk_ad (serial d) (product_type d) (device_command_port d) (device_callback_port d) (log_path d) (adb_logcat_process d)
    (adb_logcat_file_path d) (vts_agent_process d) (host_command_port d) (host_callback_port d) (hal d) (lib d) (shell d) (resource d)
    (shell_default_nohup d) (fatal_error d) (enable_vts_agent d) c.
End setters.

Definition new_device {C P} (base_log_path serial product_type : pystr) (device_callback_port : Z) (nohup : bool) : AndroidDevice C P :=
  mk_ad serial product_type None device_callback_port (path_join2 base_log_path (bs "AndroidDevice" ++ serial)) None None None None 0
    None None None None nohup false None ∅.

Definition ad_error (text : pystr) : exn := EOther AndroidDeviceError text.

(** ** Choosing a device *)
Definition filter_devices {A} (func : A -> bool) (ads : list A) : list A := filter (fun a => func a = true) ads.
(** [same]: the device has the attribute, with the value that is asked for. *)
Definition get_device_filter {A V} (same : A -> pystr -> V -> bool) (kwargs : list (pystr * V)) (a : A) : bool :=
  forallb (fun kv => same a kv.1 kv.2) kwargs.
Definition get_device {A V} (same : A -> pystr -> V -> bool) (ads : list A) (kwargs : list (pystr * V)) : xres A :=
  match filter_devices (get_device_filter same kwargs) ads with
  | [a] => Ret a
  | [] => Exc (ad_error (bs "Could not find a target device that matches condition."))
  | _ => Exc (ad_error (bs "More than one device matched."))
  end.

Lemma bool_decide_same (P1 P2 : Prop) `{Decision P1, Decision P2} : bool_decide P1 = bool_decide P2 -> P1 <-> P2.
Proof.
  destruct (bool_decide_reflect P1), (bool_decide_reflect P2); tauto || done.
Qed.

Record dev_world (S C P : Type) := mk_dw { out : S; ad : AndroidDevice C P }.
Arguments mk_dw {_ _ _} _ _.
Arguments out {_ _ _} _.
Arguments ad {_ _ _} _.

Section device.
Context {S C P : Type}.
(** Commands with a time limit; [Popen(...).communicate()] for fastboot. *)
Context (ExecuteOneShellCommand : pystr -> Z -> xstM S (pystr * pystr * Z)) (popen : pystr -> xstM S (pystr * pystr)).
(** The clock in seconds, and [sleep(1)]. *)
Context (time : S -> Z) (sleep_one : xstM S unit).
(** Processes of the host: started by a shell; their exit code when they have ended;
    a signal to their group. *)
Context (start_process : pystr -> xstM S P) (poll : P -> S -> option Z) (kill_group : P -> xstM S unit).
Context (create_dir : pystr -> xstM S unit) (read_log : pystr -> xstM S unit).
(** The lines of a compressed file of the device that was pulled. *)
Context (pull_lines : pystr -> xstM S (list pystr)).
(** [adb.get_available_host_port], when its loop ends; what the trackers need. *)
Context (available_host_port : xstM S Z) (start_callback_server : Z -> xstM S bool).
Context (Disconnect : C -> xstM S unit) (HealClient : C -> xstM S bool)
  (SendHidlHandleRequest : C -> HidlHandleRequestMessage -> xstM S (option HidlHandleResponseMessage)) (stop_server : xstM S unit).
(** The attributes of the class, methods and properties. *)
Context (class_attribute : pystr -> bool).
Abbreviation M := (xstM (dev_world S C P)).

Definition on_out {A} (m : xstM S A) : M A := fun w => let '(r, s) := m (out w) in (r, mk_dw s (ad w)).
Definition set_ad (f : AndroidDevice C P -> AndroidDevice C P) : M unit := xmodify (fun w => mk_dw (out w) (f (ad w))).
Definition get_ad : M (AndroidDevice C P) := w ← xget; mret (ad w).

Definition adb_shell_timeout (cmd : pystr) (timeout : option Z) : M pystr :=
  d ← get_ad; on_out (adb_call ExecuteOneShellCommand (serial d) (bs "shell") [cmd] timeout).
Definition adb_shell (cmd : pystr) : M pystr := adb_shell_timeout cmd None.
Definition adb_do (name : pystr) (args : list pystr) (timeout : option Z) : M pystr :=
  d ← get_ad; on_out (adb_call ExecuteOneShellCommand (serial d) name args timeout).

(** [fastboot.<name>(...)]: what is written to the error output comes first. *)
Definition fastboot_call (serial name : pystr) (args : list pystr) : xstM S pystr :=
  let fastboot_str := match serial with [] => bs "fastboot" | _ => bs "fastboot -s " ++ serial end in
  '(o, err) ← popen (join_with (bs " ") [fastboot_str; replace_byte Byte.x5f Byte.x2d name; join_with (bs " ") args]);
  mret (if bool_decide (err = []) then o else err).

(** ** Lists of devices *)
Definition parse_device_list (device_list_str key : pystr) : list pystr :=
  omap (fun line => match split [Byte.x09] (strip line) with
                    | [s; k] => if bool_decide (k = key) then Some s else None
                    | _ => None
                    end) (split [newline] (strip device_list_str)).
Definition list_adb_devices : xstM S (list pystr) :=
  o ← adb_call ExecuteOneShellCommand [] (bs "devices") [] None; mret (parse_device_list o (bs "device")).
Definition list_fastboot_devices : xstM S (list pystr) :=
  o ← fastboot_call [] (bs "devices") []; mret (parse_device_list o (bs "fastboot")).

(** ** Properties *)
Definition getProp_timeout (name : option pystr) (timeout : Z) : M (option pystr) :=
  match name with
  | None => mret None
  | Some name => o ← adb_shell_timeout (bs "getprop " ++ name) (Some timeout); mret (Some (strip o))
  end.
Definition prop (name : pystr) : M pystr :=
  o ← getProp_timeout (Some name) DEFAULT_ADB_SHORT_TIMEOUT; mret (default [] o).

Definition single_quote : Byte.byte := Byte.x27.
Definition setProp (name : option pystr) (value : pyval) : M unit :=
  match name, value with
  | None, _ | _, PNone => mret tt
  | Some name, value =>
      let value := str_val value in
      if bool_decide (single_quote ∈ value) || bool_decide (quote ∈ value) then mret tt
      else _ ← adb_shell (bs "setprop " ++ name ++ bs " " ++ quote :: value ++ [quote]); mret tt
  end.

Definition isBootloaderMode : M bool :=
  d ← get_ad; l ← on_out list_fastboot_devices; mret (bool_decide (serial d ∈ l)).
Definition isAdbRoot : M bool := o ← adb_shell (bs "id -un"); mret (bool_decide (strip o = bs "root")).
Definition verityEnabled : M bool :=
  xexcept AdbError (v ← prop (bs "partition.system.verified"); mret (negb (bool_decide (v = [])))) (mret false).
Definition hasVbmetaSlot : M bool :=
  b ← isBootloaderMode;
  _ ← (if b : bool then mret [] else adb_do (bs "reboot_bootloader") [] None);
  d ← get_ad;
  o ← on_out (fastboot_call (serial d) (bs "getvar") [FASTBOOT_VAR_HAS_VBMETA]);
  mret (contains (FASTBOOT_VAR_HAS_VBMETA ++ bs ": yes") (strip o)).
(** [None] in the mode of the boot loader when its answer has one word. *)
Definition model : M (option pystr) :=
  b ← isBootloaderMode;
  if b : bool then
    d ← get_ad;
    o ← on_out (fastboot_call (serial d) (bs "getvar") [bs "product"]);
    mret (match split [newline] (strip o) with
          | line :: _ => match split (bs " ") line with _ :: t :: _ => Some (lower t) | _ => None end
          | [] => None
          end)
  else
    m ← prop (bs "ro.build.product");
    if bool_decide (lower m = bs "sprout") then mret (Some (lower m))
    else n ← prop (bs "ro.product.name"); mret (Some (lower n)).
Definition first_api_level : M pystr := prop (bs "ro.product.first_api_level").
Definition sdk_version : M pystr := prop (bs "ro.build.version.sdk").
(** The second property is read when the first is 0. *)
Definition AndroidDevice_getLaunchApiLevel (strict : bool) : M Z :=
  level_str ← first_api_level;
  match py_int level_str with
  | Ok 0%Z => sdk ← sdk_version; xlift (getLaunchApiLevel strict (Some level_str) (Some sdk))
  | _ => xlift (getLaunchApiLevel strict (Some level_str) None)
  end.

(** [re.match] of three numbers with dots between them. *)
Fixpoint take_digits (s : pystr) : pystr * pystr :=
  match s with b :: s' => if is_digit b then let '(ds, r) := take_digits s' in (b :: ds, r) else ([], s) | [] => ([], []) end.
Definition number_at (s : pystr) : option (Z * pystr) :=
  match take_digits s with ([], _) => None | (ds, r) => Some (digits_value ds, r) end.
Definition after_dot (s : pystr) : option pystr := match s with Byte.x2e :: s => Some s | _ => None end.
Definition match_version (s : pystr) : option (Z * Z * Z) :=
  '(a, s) ← number_at s; s ← after_dot s; '(b, s) ← number_at s; s ← after_dot s; '(c, _) ← number_at s; Some (a, b, c).
Definition kernel_version : M (Z * Z * Z) :=
  o ← adb_shell (bs "uname -r");
  let o := strip o in
  match match_version o with
  | Some v => mret v
  | None => _ ← xlift (fail (PStr (bs "Failed to detect kernel version of device. out:%s")) (PStr o)); mret (0, 0, 0)%Z
  end.

Definition vndk_version : M pystr := prop (bs "ro.vndk.version").
Definition vndk_lite : M bool := v ← prop (bs "ro.vndk.lite"); mret (bool_decide (lower v = bs "true")).
Definition cpu_abi : M pystr :=
  o ← prop (bs "ro.product.cpu.abi"); mret (if bool_decide (o = []) then bs "unknown" else lower o).
Definition getCpuAbiList (bitness : pyval) : M (list pystr) :=
  o ← prop (bs "ro.product.cpu.abilist" ++ str_val bitness);
  mret (if bool_decide (o = []) then [] else split (bs ",") (lower o)).
Definition is64Bit : M bool := o ← adb_shell (bs "uname -m"); mret (contains (bs "64") o).

(** Bytes of memory; -1 for an answer that cannot be read. *)
Definition memory_of (o : pystr) : Z :=
  match split (bs " ") (strip (default [] (last (split (bs ":") o)))) with
  | [value; unit] =>
      match py_int value with
      | Raise _ => -1
      | Ok value =>
          let unit := lower unit in
          if bool_decide (unit = bs "kb") then value * 1024
          else if bool_decide (unit = bs "mb") then value * (1024 * 1024)
          else if bool_decide (unit = bs "b") then value else -1
      end
  | _ => -1
  end%Z.
Definition total_memory : M Z := o ← adb_shell (bs "cat /proc/meminfo | grep MemTotal"); mret (memory_of o).
Definition libPaths : M (list pystr) :=
  let paths_32 := [bs "/system/lib"; bs "/vendor/lib"] in
  b ← is64Bit; mret (if b : bool then [bs "/system/lib64"; bs "/vendor/lib64"] ++ paths_32 else paths_32).
Definition isAdbLogcatOn : M bool := d ← get_ad; mret (bool_decide (is_Some (adb_logcat_process d))).
Definition mac_address : M pystr :=
  xexcept AdbError (o ← adb_shell (bs "cat /sys/class/net/wlan0/address"); mret (strip o)) (mret (bs "unknown")).
Definition sim_state : M pystr := prop (bs "gsm.sim.state").
Definition sim_operator : M pystr := prop (bs "gsm.operator.alpha").

(** [Some []]: not set; [None]: the configuration cannot be read. *)
Definition config_of (config_name : pystr) (lines : list pystr) : pystr :=
  let line_prefix := config_name ++ bs "=" in
  match filter (fun line => startswith line_prefix (strip line) = true) lines with
  | line :: _ => drop (length line_prefix) (strip line)
  | [] => []
  end.
Definition getKernelConfig (config_name : pystr) : M (option pystr) :=
  xexcept AdbError
    (xexcept Python_IOError (lines ← on_out (pull_lines (bs "/proc/config.gz")); mret (Some (config_of config_name lines))) (mret None))
    (mret None).
Definition getBinderBitness : M (option Z) :=
  v ← getKernelConfig (bs "CONFIG_ANDROID_BINDER_IPC_32BIT");
  mret (match v with None => None | Some [] => Some 64%Z | Some _ => Some 32%Z end).

(** ** Waiting for the framework *)
Definition isBootCompleted : M bool :=
  xexcept AdbError
    (a ← prop SYSPROP_SYS_BOOT_COMPLETED;
     if bool_decide (a = bs "1") then b ← prop SYSPROP_DEV_BOOTCOMPLETE; mret (bool_decide (b = bs "1")) else mret false)
    (mret false).
Definition hasBooted : M bool := isBootCompleted.

(** [while not done(): if time() - start >= timeout: return False; sleep(1)], then
    True; [None] when the fuel is used up. *)
Fixpoint wait_until (done : M bool) (start timeout : Z) (fuel : nat) : M (option bool) :=
  match fuel with
  | 0 => mret None
  | Datatypes.S fuel =>
      b ← done;
      if b : bool then mret (Some true)
      else
        w ← xget;
        if (timeout <=? time (out w) - start)%Z then mret (Some false)
        else _ ← on_out sleep_one; wait_until done start timeout fuel
  end.

Definition waitForBootCompletion (fuel : nat) (timeout : Z) : M (option bool) :=
  w ← xget;
  let start := time (out w) in
  ok ← xexcept AdbError (_ ← adb_do (bs "wait_for_device") [] (Some timeout); mret true) (mret false);
  if ok : bool then wait_until isBootCompleted start timeout fuel else mret (Some false).

Definition isFrameworkRunning (check_boot_completion : bool) : M bool :=
  b ← (if check_boot_completion then isBootCompleted else mret true);
  if b : bool then
    d ← get_ad;
    '(o, _, _) ← on_out (adb_call_no_except ExecuteOneShellCommand (serial d) (bs "shell") [bs "ps -g system | grep system_server"] None);
    mret (contains (bs "system_server") o)
  else mret false.

Definition waitForFrameworkStartComplete (fuel : nat) (timeout_secs : Z) : M (option bool) :=
  w ← xget;
  let start := time (out w) in
  b ← waitForBootCompletion fuel timeout_secs;
  match b with
  | Some true => wait_until (isFrameworkRunning false) start timeout_secs fuel
  | r => mret r
  end.
Definition startFramework (fuel : nat) (wait_for_completion : bool) (timeout : Z) : M (option bool) :=
  _ ← adb_shell (bs "start");
  if wait_for_completion then waitForFrameworkStartComplete fuel timeout else mret (Some true).
Definition startNativeServer : M unit := setProp (Some SYSPROP_VTS_NATIVE_SERVER) (PStr (bs "0")).
Definition stopNativeServer : M unit := setProp (Some SYSPROP_VTS_NATIVE_SERVER) (PStr (bs "1")).
Definition start (fuel : nat) (start_native_server : bool) : M (option bool) :=
  _ ← (if start_native_server then startNativeServer else mret tt);
  startFramework fuel true WAIT_TIMEOUT_SEC.
Definition stopFramework : M unit :=
  _ ← adb_shell (bs "stop"); setProp (Some SYSPROP_SYS_BOOT_COMPLETED) (PInt 0).
Definition stop (stop_native_server : bool) : M unit :=
  _ ← stopFramework; if stop_native_server then stopNativeServer else mret tt.

(** [self.adb.shell.Execute]: the attribute [shell] of a proxy is a function. *)
Definition isProcessRunning (process_name : pystr) : M bool :=
  xlift (Exc (EOther Python_AttributeError (bs "'function' object has no attribute 'Execute'"))).
Fixpoint waitForProcessStop (process_names : list pystr) (timeout_secs : Z) (fuel : nat) : M (option bool) :=
  match process_names with
  | [] => mret (Some true)
  | process_name :: process_names =>
      w ← xget;
      b ← wait_until (b ← isProcessRunning process_name; mret (negb b)) (time (out w)) timeout_secs fuel;
      match b with
      | Some true => waitForProcessStop process_names timeout_secs fuel
      | r => mret r
      end
  end.

(** ** Processes of the host ([runners/host/utils.py]) *)
Definition vts_utils_error : exn := EOther VTSUtilsError (bs "Process has terminated.").
Definition assert_subprocess_running (p : P) : M unit :=
  w ← xget; match poll p (out w) with None => mret tt | Some _ => xlift (Exc vts_utils_error) end.
Definition start_standing_subprocess (cmd : pystr) (check_health : bool) : M P :=
  p ← on_out (start_process cmd);
  _ ← (if check_health then _ ← on_out sleep_one; assert_subprocess_running p else mret tt);
  mret p.
Definition stop_standing_subprocess (p : P) : M unit := _ ← assert_subprocess_running p; on_out (kill_group p).

(** ** The log of the device *)
Definition str_option (o : option pystr) : pystr := default (bs "None") o.

Definition startAdbLogcat : M unit :=
  d ← get_ad;
  match adb_logcat_process d with
  | Some _ => xlift (Exc (ad_error (bs "Android device " ++ serial d ++ bs " already has an adb logcat thread going on.")))
  | None =>
      m ← model;
      let f_name := bs "adblog_" ++ str_option m ++ bs "_" ++ serial d ++ bs ".txt" in
      _ ← on_out (create_dir (log_path d));
      let logcat_file_path := path_join2 (log_path d) f_name in
      let extra_params := match config d !! bs "adb_logcat_param" with Some v => str_val v | None => bs "-b all" end in
      let cmd := bs "adb -s " ++ serial d ++ bs " logcat -v threadtime " ++ extra_params ++ bs " >> " ++ logcat_file_path in
      p ← start_standing_subprocess cmd false;
      set_ad (set_logcat (Some p) (Some logcat_file_path))
  end.
Definition stopAdbLogcat : M unit :=
  d ← get_ad;
  match adb_logcat_process d with
  | None => xlift (Exc (ad_error (bs "Android device " ++ serial d ++ bs " does not have an ongoing adb logcat collection.")))
  | Some p =>
      _ ← xexcept VTSUtilsError (stop_standing_subprocess p) (mret tt);
      set_ad (fun d => set_logcat None (adb_logcat_file_path d) d)
  end.

Definition replace_spaces (s : pystr) : pystr := mjoin ((fun b => if decide (b = Byte.x20) then [backslash; b] else [b]) <$> s).
Definition bug_report_name (test_name begin_time serial : pystr) : pystr :=
  let base_name := bs "," ++ begin_time ++ bs "," ++ serial ++ bs ".txt" in
  let test_name_len := (MAX_FILENAME_LEN - Z.of_nat (length base_name))%Z in
  py_slice test_name 0 test_name_len ++ base_name.
Definition takeBugReport (test_name begin_time : pystr) : M unit :=
  d ← get_ad;
  let br_path := path_join2 (log_path d) (bs "BugReports") in
  _ ← on_out (create_dir br_path);
  let full_out_path := path_join2 br_path (replace_spaces (bug_report_name test_name begin_time (serial d))) in
  _ ← adb_do (bs "bugreport") [bs " > " ++ full_out_path] None; mret tt.

(** ** The agent *)
Definition llkd (verb : pystr) : M unit :=
  d ← get_ad;
  if fatal_error d then mret tt
  else xexcept AdbError (_ ← adb_shell (verb ++ bs " " ++ LLKD); mret tt) (mret tt).
Definition StartLLKD : M unit := llkd (bs "start").
Definition StopLLKD : M unit := llkd (bs "stop").

Definition cleanup_commands : list pystr :=
  [bs "rm -f /data/local/tmp/vts_driver_*"; bs "rm -f /data/local/tmp/vts_agent_callback*"; bs "pgrep 'vts_*' | xargs kill"].
Definition cleanup_command : pystr := quote :: join_with (bs " ; ") cleanup_commands ++ [quote].

Definition path_of (bitness name : pystr) : pystr := DEFAULT_AGENT_BASE_DIR ++ bs "/" ++ bitness ++ bs "/" ++ name ++ bitness.
Definition agent_command (serial bitness log severity : pystr) : pystr :=
  let file_names := [bs "vts_hal_agent"; bs "vts_hal_driver"; bs "vts_shell_driver"] in
  let chmod_cmd := join_with (bs " ") ((fun n => bs "chmod 755 " ++ path_of bitness n ++ bs ";") <$> file_names) in
  let b32 := bs "32" in let b64 := bs "64" in
  bs "adb -s " ++ serial ++ bs " shell " ++ quote :: chmod_cmd ++ bs " LD_LIBRARY_PATH=" ++ DEFAULT_AGENT_BASE_DIR ++ bs "/" ++ bitness ++
  bs " " ++ path_of bitness (bs "vts_hal_agent") ++
  bs " --hal_driver_path_32=" ++ path_of b32 (bs "vts_hal_driver") ++ bs " --hal_driver_path_64=" ++ path_of b64 (bs "vts_hal_driver") ++
  bs " --spec_dir=" ++ DEFAULT_AGENT_BASE_DIR ++ bs "/spec" ++
  bs " --shell_driver_path_32=" ++ path_of b32 (bs "vts_shell_driver") ++ bs " --shell_driver_path_64=" ++ path_of b64 (bs "vts_shell_driver") ++
  bs " -l " ++ severity ++ quote :: bs " >> " ++ log ++ bs " 2>&1".

(** One bitness after the other, until an agent runs. *)
Fixpoint try_agents (bits' : list pystr) : M unit :=
  match bits' with
  | [] => mret tt
  | bitness :: bits' =>
      d ← get_ad;
      let log := path_join2 (log_path d) (bs "vts_agent_" ++ bitness ++ bs "_" ++ serial d ++ bs ".log") in
      let severity := match config d !! bs "log_severity" with Some v => str_val v | None => bs "INFO" end in
      r ← xattempt (p ← start_standing_subprocess (agent_command (serial d) bitness log severity) true; set_ad (set_agent (Some p)));
      match r with
      | Ret _ => mret tt
      | Exc e =>
          if isinstance e VTSUtilsError then
            _ ← on_out (read_log log);
            if bool_decide (bitness = bs "32") then xlift (Exc e) else try_agents bits'
          else xlift (Exc e)
      end
  end.
Definition startVtsAgent : M unit :=
  d ← get_ad;
  match vts_agent_process d with
  | Some _ => xlift (Exc (ad_error (bs "HAL agent is already running on " ++ serial d ++ bs ".")))
  | None =>
      _ ← StopLLKD;
      _ ← xexcept AdbError (_ ← adb_shell cleanup_command; mret tt) (mret tt);
      b ← is64Bit;
      try_agents (if b : bool then [bs "64"; bs "32"] else [bs "32"])
  end.
Definition stopVtsAgent : M unit :=
  d ← get_ad;
  match vts_agent_process d with
  | None => mret tt
  | Some p => _ ← xexcept VTSUtilsError (stop_standing_subprocess p) (mret tt); set_ad (set_agent None)
  end.

(** ** Services *)
Definition use_agent (d : AndroidDevice C P) : bool := default true (enable_vts_agent d).
(** [MirrorTracker(...)]: with a port for callbacks its server must get that port. *)
Definition new_tracker (callback_port : option Z) : M (tracker C) :=
  match callback_port with
  | None => mret (mk_tracker ∅ false false)
  | Some port =>
      ok ← on_out (start_callback_server port);
      if ok : bool then mret (mk_tracker ∅ true false)
      else xlift (Exc (EOther ComponentLoadingError (bs "Failed to start a callback TcpServer at port " ++ str_int port)))
  end.
Definition startServices : M unit :=
  _ ← set_ad (fun d => set_enable_agent (Some (use_agent d)) d);
  _ ← startAdbLogcat;
  d ← get_ad;
  if use_agent d then
    _ ← startVtsAgent;
    o ← adb_shell (bs "cat /data/local/tmp/vts_tcp_server_port");
    port ← xpure (py_int o);
    _ ← set_ad (set_device_port (Some port));
    d ← get_ad;
    _ ← match host_command_port d with
        | Some (Zpos _ | Zneg _) => mret tt
        | _ => p ← on_out available_host_port; set_ad (set_host_port (Some p))
        end;
    d ← get_ad;
    _ ← on_out (tcp_forward ExecuteOneShellCommand (serial d) (default 0%Z (host_command_port d)) port);
    h ← new_tracker (Some (host_callback_port d));
    _ ← set_ad (fun d => set_trackers (Some h) (lib d) (shell d) (resource d) d);
    set_ad (fun d => set_trackers (hal d) (Some (mk_tracker ∅ false false))
                       (Some (mk_tracker ∅ false (shell_default_nohup d))) (Some (mk_tracker ∅ false false)) d)
  else mret tt.

Definition on_hal (m : xstM (tracker C * S) unit) : M unit := fun w =>
  match hal (ad w) with
  | None => (Ret tt, w)
  | Some t =>
      let '(r, (t, s)) := m (t, out w) in
      (r, mk_dw s (set_trackers (Some t) (lib (ad w)) (shell (ad w)) (resource (ad w)) (ad w)))
  end.
Definition stopServices : M unit :=
  d ← get_ad;
  _ ← match adb_logcat_process d with Some _ => stopAdbLogcat | None => mret tt end;
  d ← get_ad;
  _ ← (if use_agent d then stopVtsAgent else mret tt);
  on_hal (CleanUp Disconnect SendHidlHandleRequest stop_server).
Definition cleanUp : M unit :=
  _ ← stopServices;
  _ ← StartLLKD;
  d ← get_ad;
  match host_command_port d with
  | Some ((Zpos _ | Zneg _) as port) =>
      _ ← adb_do (bs "forward") [bs "--remove tcp:" ++ str_int port] (Some DEFAULT_ADB_SHORT_TIMEOUT);
      set_ad (set_host_port None)
  | _ => mret tt
  end.

Definition rootAdb : M unit :=
  b ← isAdbRoot;
  if b : bool then mret tt
  else xexcept AdbError (_ ← adb_do (bs "root") [] None; _ ← adb_do (bs "wait_for_device") [] None; mret tt) (mret tt).

(** The result of waiting is not looked at. *)
Definition reboot (fuel : nat) (restart_services : bool) : M unit :=
  b ← isBootloaderMode;
  d ← get_ad;
  if b : bool then _ ← on_out (fastboot_call (serial d) (bs "reboot") []); mret tt
  else
    let has_adb_log := bool_decide (is_Some (adb_logcat_process d)) in
    let has_vts_agent := bool_decide (is_Some (vts_agent_process d)) in
    _ ← (if restart_services then
           _ ← (if has_adb_log then stopAdbLogcat else mret tt);
           (if has_vts_agent then stopVtsAgent else mret tt)
         else mret tt);
    _ ← adb_do (bs "reboot") [] None;
    _ ← waitForBootCompletion fuel BOOT_TIMEOUT_SEC;
    _ ← rootAdb;
    if restart_services then
      _ ← (if has_adb_log then startAdbLogcat else mret tt);
      (if has_vts_agent then startVtsAgent else mret tt)
    else mret tt.

Definition heal_shell : M bool := fun w =>
  match shell (ad w) with
  | None => (Ret true, w)
  | Some t =>
      let '(r, (t, s)) := MirrorTracker.Heal HealClient (t, out w) in
      (r, mk_dw s (set_trackers (hal (ad w)) (lib (ad w)) (Some t) (resource (ad w)) (ad w)))
  end.
Definition Heal : M bool :=
  res ← heal_shell;
  r ← xattempt (prop (bs "ro.build.version.sdk"));
  match r with
  | Ret _ => _ ← set_ad (set_fatal false); mret res
  | Exc e =>
      if isinstance e AdbError then
        l ← on_out list_adb_devices;
        d ← get_ad;
        let broken := _ ← set_ad (set_fatal true); mret false in
        if bool_decide (serial d ∈ l) then broken
        else b ← isBootloaderMode; if b : bool then mret true else broken
      else xlift (Exc e)
  end.

(** ** Other commands *)

(** The second word of a line of [ps] as a number: [None] when it cannot be read. *)
Definition pid_of (package_name o : pystr) : option Z :=
  if contains package_name o then
    match py_get (split_ws o) 1 with Ok w => match py_int w with Ok pid => Some pid | Raise _ => None end | Raise _ => None end
  else None.
Fixpoint find_pid (package_name : pystr) (cmds : list pystr) : M (option Z) :=
  match cmds with
  | [] => mret None
  | cmd :: cmds =>
      r ← xattempt (adb_shell (cmd ++ bs " | grep " ++ quote :: bs "S " ++ package_name ++ [quote]));
      match r with
      | Ret o => match pid_of package_name o with Some pid => mret (Some pid) | None => find_pid package_name cmds end
      | Exc e => if isinstance e Exception_ then find_pid package_name cmds else xlift (Exc e)
      end
  end.
Definition getPackagePid (package_name : pystr) : M (option Z) := find_pid package_name [bs "ps -A"; bs "ps"].
Definition getVintfXml (use_lshal : bool) : M (option pystr) :=
  if use_lshal then
    xexcept AdbError (o ← adb_shell (quote :: bs "lshal --init-vintf 2> /dev/null" ++ [quote]); mret (Some o)) (mret None)
  else mret None.

(** Attributes of the configuration: one that exists is an error. *)
Definition instance_attributes : list pystr :=
  bs <$> ["serial"; "device_command_port"; "device_callback_port"; "log"; "log_path"; "adb_logcat_process"; "adb_logcat_file_path";
          "vts_agent_process"; "adb"; "fastboot"; "host_command_port"; "host_callback_port"; "hal"; "lib"; "shell"; "fatal_error";
          "_product_type"; "_shell_default_nohup"]%string.
Definition has_attribute (k : pystr) (d : AndroidDevice C P) : bool :=
  bool_decide (k ∈ instance_attributes) || class_attribute k || bool_decide (is_Some (config d !! k)) ||
  (bool_decide (k = bs "enable_vts_agent") && bool_decide (is_Some (enable_vts_agent d))).
Fixpoint loadConfig (items : list (pystr * pyval)) : M unit :=
  match items with
  | [] => mret tt
  | (k, v) :: items =>
      d ← get_ad;
      if has_attribute k d
      then xlift (Exc (ad_error (bs "Attempting to set existing attribute " ++ k ++ bs " on " ++ serial d)))
      else
        _ ← set_ad (if bool_decide (k = bs "enable_vts_agent") then set_enable_agent (Some (truthy v)) else set_config (<[k := v]> (config d)));
        loadConfig items
  end.

(** The constructor: the values of the record, then root and the port for callbacks. *)
Definition initialize (device_callback_port : Z) : M unit :=
  b ← isBootloaderMode;
  _ ← (if b : bool then mret tt else rootAdb);
  p ← on_out available_host_port;
  _ ← set_ad (set_callback_port p);
  d ← get_ad;
  if (0 <=? device_callback_port)%Z then on_out (reverse_tcp_forward ExecuteOneShellCommand (serial d) device_callback_port p) else mret tt.

(** ** The module: devices of a run

    A device is a reference into the list of all devices; failing constructors leave
    nothing behind. *)
Abbreviation DM := (xstM (S * list (AndroidDevice C P))).
Definition on_device {A} (i : nat) (m : M A) : DM A := fun w =>
  match w.2 !! i with
  | None => (Exc (EOther Python_IndexError (bs "list index out of range")), w)
  | Some d => let '(r, dw) := m (mk_dw (w.1) d) in (r, (out dw, <[i := ad dw]> (w.2)))
  end.
Definition on_host {A} (m : xstM S A) : DM A := fun w => let '(r, s) := m (w.1) in (r, (s, w.2)).

(** [destroy]: whatever a device raises, the next is cleaned up. *)
Fixpoint destroy (ads : list nat) : DM unit :=
  match ads with
  | [] => mret tt
  | i :: ads => _ ← xattempt (on_device i cleanUp); destroy ads
  end.
Fixpoint start_services (running_ads ads : list nat) : DM unit :=
  match ads with
  | [] => mret tt
  | i :: ads =>
      let running_ads := running_ads ++ [i] in
      r ← xattempt (on_device i startServices);
      match r with
      | Ret _ => start_services running_ads ads
      | Exc e => _ ← destroy running_ads; xlift (Exc e)
      end
  end.
Definition startServicesOnAds (ads : list nat) : DM unit := start_services [] ads.

Context (base_log_path : pystr).
Definition construct (serial product_type : pystr) : DM nat := fun w =>
  let '(r, dw) := initialize 5010 (mk_dw (w.1) (new_device base_log_path serial product_type 5010 false)) in
  match r with
  | Ret _ => (Ret (length w.2), (out dw, w.2 ++ [ad dw]))
  | Exc e => (Exc e, (out dw, w.2))
  end.
Fixpoint get_instances (serials : list pystr) : DM (list nat) :=
  match serials with
  | [] => mret []
  | s :: serials => i ← construct s ANDROID_PRODUCT_TYPE_UNKNOWN; l ← get_instances serials; mret (i :: l)
  end.
(** [c.pop(k)] *)
Definition pop (k : pystr) (c : list (pystr * pyval)) : option (pyval * list (pystr * pyval)) :=
  match filter (fun kv => kv.1 = k) c with
  | kv :: _ => Some (kv.2, filter (fun kv => kv.1 <> k) c)
  | [] => None
  end.
Definition get_instance_with_config (c : pyval) : DM nat :=
  match c with
  | PDict c =>
      match pop (bs "serial") c with
      | None => xlift (Exc (ad_error (bs "Required value serial is missing in AndroidDevice config " ++ str_val (PDict c) ++ bs ".")))
      | Some (serial, c) =>
          let '(product_type, c) := default (PStr ANDROID_PRODUCT_TYPE_UNKNOWN, c) (pop (bs "product_type") c) in
          i ← construct (str_val serial) (str_val product_type);
          _ ← on_device i (loadConfig c);
          mret i
      end
  | _ => xlift (Exc (EOther Python_AttributeError (bs "no attribute 'pop'")))
  end.
Fixpoint get_instances_with_configs (configs : list pyval) : DM (list nat) :=
  match configs with
  | [] => mret []
  | c :: configs => i ← get_instance_with_config c; l ← get_instances_with_configs configs; mret (i :: l)
  end.
Definition get_all_instances (include_fastboot : bool) : DM (list nat) :=
  l ← on_host list_adb_devices;
  k ← (if include_fastboot then on_host list_fastboot_devices else mret []);
  get_instances (l ++ k).

(** The name of the error for a device that is not attached is not defined. *)
Fixpoint check_attached (start_services : bool) (connected_ads : list pystr) (ads : list nat) : DM unit :=
  match ads with
  | [] => mret tt
  | i :: ads =>
      attached ← on_device i (_ ← set_ad (set_enable_agent (Some start_services)); d ← get_ad; mret (bool_decide (serial d ∈ connected_ads)));
      if attached : bool then check_attached start_services connected_ads ads
      else xlift (Exc (EOther NameError_ (bs "global name 'DoesNotExistError' is not defined")))
  end.
Definition instances_of (configs : pyval) : DM (list nat) :=
  if negb (truthy configs) then xlift (Exc (ad_error (bs "Configuration is empty, abort!")))
  else
    match configs with
    | PStr s =>
        if bool_decide (s = bs "*") then get_all_instances false
        else xlift (Exc (ad_error (bs "Configuration should be a list, abort!")))
    | PList ((PStr _ :: _) as l) => get_instances (str_val <$> l)
    | PList l => get_instances_with_configs l
    | _ => xlift (Exc (ad_error (bs "Configuration should be a list, abort!")))
    end.
Definition create (configs : pyval) (start_services : bool) : DM (list nat) :=
  ads ← instances_of configs;
  connected_ads ← on_host list_adb_devices;
  _ ← check_attached start_services connected_ads ads;
  _ ← (if start_services then startServicesOnAds ads else mret tt);
  mret ads.

(** ** Waiting ends *)
Section waiting.

(** The clock does not go back, and sleeping moves it on. *)
Definition not_before (t : Z) (w : dev_world S C P) : Prop := (t <= time (out w))%Z.
Context (Hrun : forall c l s, (time s <= time (ExecuteOneShellCommand c l s).2)%Z).
Context (Hsleep : forall s, exists s', sleep_one s = (Ret tt, s') /\ (time s + 1 <= time s')%Z).

Lemma shell_not_before t cmd l : xkeeps (not_before t) (adb_shell_timeout cmd l).
Proof.
  intros w Hw. unfold adb_shell_timeout, get_ad. erewrite xstM_bind_run by reflexivity.
  unfold on_out, adb_call, exec_cmd, mbind, xstM_bind. cbn [out ad].
  pose proof (Hrun (adb_command (serial (ad w)) (bs "shell") [cmd]) (call_timeout (bs "shell") l) (out w)) as H.
  unfold not_before in *. destruct (ExecuteOneShellCommand _ _ _) as [[[[o e] r]|e] s]; cbn in *; [|lia].
  destruct (r =? 0)%Z; cbn; lia.
Qed.

Lemma boot_not_before t : xkeeps (not_before t) isBootCompleted.
Proof.
  unfold isBootCompleted, prop, getProp_timeout. pose proof (shell_not_before t). keeps.
Qed.

(** The loop ends when the test succeeds, when it raises, or at the first failure after
    the time is over. *)
Lemma wait_until_spec done start timeout fuel w :
  (forall t, xkeeps (not_before t) done) ->
  Z.to_nat (timeout - (time (out w) - start)) < fuel ->
  match wait_until done start timeout fuel w with
  | (Ret (Some true), w') => exists w0, done w0 = (Ret true, w')
  | (Ret (Some false), w') => exists w0, done w0 = (Ret false, w') /\ (timeout <= time (out w') - start)%Z
  | (Ret None, _) => False
  | (Exc e, w') => exists w0, done w0 = (Exc e, w')
  end.
Proof.
  intros Hmono. revert w. induction fuel as [|fuel IH]; intros w Hf; [lia|]. cbn [wait_until].
  destruct (done w) as [[b|e] w1] eqn:Hd.
  2: { erewrite xstM_bind_exc by exact Hd. by exists w. }
  erewrite xstM_bind_run by exact Hd. destruct b; [by exists w|].
  erewrite xstM_bind_run by reflexivity. destruct (Z.leb_spec timeout (time (out w1) - start)); [by exists w|].
  destruct (Hsleep (out w1)) as (s' & Hs & Hlater).
  erewrite xstM_bind_run by (unfold on_out; by rewrite Hs).
  pose proof (Hmono (time (out w)) w (Z.le_refl _)) as Hm. rewrite Hd in Hm. unfold not_before in Hm. cbn [snd] in Hm.
  apply IH. cbn [out]. lia.
Qed.

Lemma xexcept_escapes {A} c (m h : M A) w e w' :
  (forall w, exists a w', h w = (Ret a, w')) -> xexcept c m h w = (Exc e, w') -> isinstance e c = false.
Proof.
  intros Hh. unfold xexcept, mbind, xstM_bind, xattempt. destruct (m w) as [[a|e1] w1]; [done|].
  destruct (isinstance e1 c) eqn:He; [|by intros [= <- <-]]. destruct (Hh w1) as (a & w2 & ->). done.
Qed.

(** C35: Waiting for the device to boot ends: with an answer that is true only when the
    device says that it has booted, and false only when it does not within the time
    or cannot be reached. *)
Theorem boot_wait_ends fuel timeout w :
  Z.to_nat timeout < fuel ->
  match waitForBootCompletion fuel timeout w with
  | (Ret (Some true), w') => exists w0, isBootCompleted w0 = (Ret true, w')
  | (Ret (Some false), w') =>
      (exists e, (adb_do (bs "wait_for_device") [] (Some timeout) w).1 = Exc e /\ isinstance e AdbError = true) \/
      exists w0, isBootCompleted w0 = (Ret false, w') /\ (timeout <= time (out w') - time (out w))%Z
  | (Ret None, _) => False
  | (Exc e, _) => isinstance e AdbError = false
  end.
Proof.
  intros Hf. unfold waitForBootCompletion. erewrite xstM_bind_run by reflexivity. cbv zeta.
  assert (forall t, xkeeps (not_before t) (adb_do (bs "wait_for_device") [] (Some timeout))) as Hwait.
  { intros t w1 Hw1. unfold adb_do, get_ad. erewrite xstM_bind_run by reflexivity.
    unfold on_out, adb_call, exec_cmd, mbind, xstM_bind.
    pose proof (Hrun (adb_command (serial (ad w1)) (bs "wait_for_device") []) (call_timeout (bs "wait_for_device") (Some timeout)) (out w1)) as H.
    unfold not_before in *. destruct (ExecuteOneShellCommand _ _ _) as [[[[o e] r]|e] s]; cbn in *; [|lia].
    destruct (r =? 0)%Z; cbn; lia. }
  specialize (Hwait (time (out w)) w (Z.le_refl _)). unfold not_before in Hwait.
  destruct (adb_do (bs "wait_for_device") [] (Some timeout) w) as [[o|e] w1] eqn:Hd.
  - erewrite xstM_bind_run.
    2: { apply xexcept_run. by erewrite xstM_bind_run by exact Hd. }
    cbv beta iota. cbn [snd] in Hwait.
    pose proof (wait_until_spec isBootCompleted (time (out w)) timeout fuel w1 boot_not_before ltac:(lia)) as H.
    destruct (wait_until _ _ _ _ _) as [[[[|]|]|e] w']; [done|by right|done|].
    destruct H as [w0 H0]. apply (xexcept_escapes _ _ _ _ _ _) in H0; [done|]. intros w2. by eexists _, _.
  - destruct (isinstance e AdbError) eqn:He.
    + erewrite xstM_bind_run.
      2: { erewrite xexcept_caught; [reflexivity| |exact He]. unfold mbind, xstM_bind. by rewrite Hd. }
      left. by exists e.
    + erewrite xstM_bind_exc; [exact He|]. unfold xexcept. erewrite xstM_bind_run.
      2: { unfold xattempt, mbind, xstM_bind. by rewrite Hd. }
      cbn. by rewrite He.
Qed.
End waiting.

#[local] Set Default Proof Using "Type".

(** ** Services *)

(** Signals do not raise: errors of the system are logged. *)
Context (Hkill : forall p s, exists s', kill_group p s = (Ret tt, s')).

Definition idle (d : AndroidDevice C P) : Prop := adb_logcat_process d = None /\ vts_agent_process d = None.
Definition running (d : AndroidDevice C P) : Prop := is_Some (adb_logcat_process d) /\ is_Some (vts_agent_process d).

Lemma stop_standing_run p w : exists s, xexcept VTSUtilsError (stop_standing_subprocess p) (mret tt) w = (Ret tt, mk_dw s (ad w)).
Proof using Hkill.
  unfold stop_standing_subprocess, assert_subprocess_running.
  destruct (poll p (out w)) as [code|] eqn:Hp.
  - exists (out w). erewrite xexcept_caught; [by destruct w| |].
    + unfold mbind, xstM_bind, xget. rewrite Hp. reflexivity.
    + reflexivity.
  - destruct (Hkill p (out w)) as [s Hs]. exists s. apply xexcept_run.
    unfold mbind, xstM_bind, xget. rewrite Hp. cbn. unfold on_out. by rewrite Hs.
Qed.

Lemma stopAdbLogcat_run p w :
  adb_logcat_process (ad w) = Some p ->
  exists s, stopAdbLogcat w = (Ret tt, mk_dw s (set_logcat None (adb_logcat_file_path (ad w)) (ad w))).
Proof using Hkill.
  intros Hp. unfold stopAdbLogcat, get_ad. erewrite xstM_bind_run by reflexivity. rewrite Hp.
  destruct (stop_standing_run p w) as [s Hs]. exists s. by erewrite xstM_bind_run by exact Hs.
Qed.

Lemma stopVtsAgent_run w : exists s, stopVtsAgent w = (Ret tt, mk_dw s (set_agent None (ad w))).
Proof using Hkill.
  unfold stopVtsAgent, get_ad. erewrite xstM_bind_run by reflexivity.
  destruct (vts_agent_process (ad w)) as [p|] eqn:Hp.
  - destruct (stop_standing_run p w) as [s Hs]. exists s. by erewrite xstM_bind_run by exact Hs.
  - exists (out w). destruct w as [s d]. destruct d. cbn in *. by subst.
Qed.

(** What comes after the processes were stopped changes neither them nor the switch. *)
Definition same_services (d d' : AndroidDevice C P) : Prop :=
  adb_logcat_process d' = adb_logcat_process d /\ vts_agent_process d' = vts_agent_process d /\ enable_vts_agent d' = enable_vts_agent d.
Definition as_in (d : AndroidDevice C P) (w : dev_world S C P) : Prop := same_services d (ad w).

Lemma on_out_keeps {A} d (m : xstM S A) : xkeeps (as_in d) (on_out m).
Proof. intros w Hw. unfold on_out. by destruct (m (out w)). Qed.
Lemma set_ad_keeps d f : (forall d', same_services d' (f d')) -> xkeeps (as_in d) (set_ad f).
Proof. intros Hf [s d'] Hw. unfold as_in in *. cbn in *. destruct (Hf d') as (H1 & H2 & H3), Hw as (W1 & W2 & W3). split_and!; congruence. Qed.
Lemma get_ad_keeps d : xkeeps (as_in d) get_ad.
Proof. by intros w Hw. Qed.
Lemma shell_keeps d cmd l : xkeeps (as_in d) (adb_shell_timeout cmd l).
Proof. unfold adb_shell_timeout. apply xkeeps_bind; [apply get_ad_keeps|]. intros. apply on_out_keeps. Qed.
Lemma adb_do_keeps d name args l : xkeeps (as_in d) (adb_do name args l).
Proof. unfold adb_do. apply xkeeps_bind; [apply get_ad_keeps|]. intros. apply on_out_keeps. Qed.
Lemma on_hal_keeps d m : xkeeps (as_in d) (on_hal m).
Proof. intros w Hw. unfold on_hal. destruct (hal (ad w)); [|done]. by destruct (m _) as [r [t' s']]. Qed.

Ltac services := repeat first
  [ apply on_out_keeps | apply get_ad_keeps | apply shell_keeps | apply adb_do_keeps | apply on_hal_keeps
  | apply set_ad_keeps; done | progress keeps ].

Lemma llkd_keeps d verb : xkeeps (as_in d) (llkd verb).
Proof. unfold llkd. services. Qed.

Lemma stopServices_run w :
  use_agent (ad w) = true ->
  exists s, stopServices w =
    on_hal (CleanUp Disconnect SendHidlHandleRequest stop_server)
      (mk_dw s (set_agent None (set_logcat None (adb_logcat_file_path (ad w)) (ad w)))).
Proof using Hkill.
  intros Hu. unfold stopServices, get_ad. erewrite xstM_bind_run by reflexivity.
  assert (exists s, match adb_logcat_process (ad w) with Some _ => stopAdbLogcat | None => mret tt end w =
            (Ret tt, mk_dw s (set_logcat None (adb_logcat_file_path (ad w)) (ad w)))) as [s1 H1].
  { destruct (adb_logcat_process (ad w)) as [p|] eqn:Hp; [by apply (stopAdbLogcat_run p)|].
    exists (out w). destruct w as [s d], d. cbn in *. by subst. }
  destruct (stopVtsAgent_run (mk_dw s1 (set_logcat None (adb_logcat_file_path (ad w)) (ad w)))) as [s2 H2].
  exists s2. erewrite xstM_bind_run by exact H1. erewrite xstM_bind_run by reflexivity. cbn [ad].
  change (use_agent (set_logcat None _ (ad w))) with (use_agent (ad w)). rewrite Hu.
  by erewrite xstM_bind_run by exact H2.
Qed.

(** Whatever is raised on the way, a device that was cleaned up runs no service. *)
Lemma cleanUp_idle w : use_agent (ad w) = true -> idle (ad (cleanUp w).2) /\ enable_vts_agent (ad (cleanUp w).2) = enable_vts_agent (ad w).
Proof using Hkill.
  intros Hu. destruct (stopServices_run w Hu) as [s Hs]. set (w2 := mk_dw s _) in Hs.
  assert (as_in (ad w2) (cleanUp w).2) as (H1 & H2 & H3); [|by split; [split|]].
  unfold cleanUp. match goal with |- as_in _ (((stopServices ≫= ?k) w).2) =>
    assert (xkeeps (as_in (ad w2)) (on_hal (CleanUp Disconnect SendHidlHandleRequest stop_server) ≫= k)) as Hk;
    [|replace ((stopServices ≫= k) w) with ((on_hal (CleanUp Disconnect SendHidlHandleRequest stop_server) ≫= k) w2)
        by (unfold mbind, xstM_bind; by rewrite Hs); by apply Hk]
  end.
  unfold StartLLKD. apply xkeeps_bind; [apply on_hal_keeps|]. intros ?. apply xkeeps_bind; [apply llkd_keeps|]. intros. services.
Qed.

(** What a computation leaves when it returns, and when it raises. *)
Definition triple {A} (Pre : dev_world S C P -> Prop) (m : M A) (Post : A -> dev_world S C P -> Prop) (Bad : dev_world S C P -> Prop) : Prop :=
  forall w, Pre w -> match m w with (Ret a, w') => Post a w' | (Exc _, w') => Bad w' end.

Lemma triple_bind {A B} Pre (m : M A) (f : A -> M B) Mid Post Bad :
  triple Pre m Mid Bad -> (forall a, triple (Mid a) (f a) Post Bad) -> triple Pre (m ≫= f) Post Bad.
Proof.
  intros Hm Hf w Hw. specialize (Hm w Hw). unfold mbind, xstM_bind. destruct (m w) as [[a|e] w1]; [by apply Hf|done].
Qed.

Lemma triple_keeps {A} P0 (m : M A) (Bad : dev_world S C P -> Prop) :
  xkeeps P0 m -> (forall w, P0 w -> Bad w) -> triple P0 m (fun _ => P0) Bad.
Proof. intros Hm HB w Hw. specialize (Hm w Hw). destruct (m w) as [[a|e] w']; cbn in *; [done|by apply HB]. Qed.

(** The switch of the agent, and which processes run. *)
Definition services (en : option bool) (l a : bool) (w : dev_world S C P) : Prop :=
  enable_vts_agent (ad w) = en /\ bool_decide (is_Some (adb_logcat_process (ad w))) = l /\
  bool_decide (is_Some (vts_agent_process (ad w))) = a.
Definition switch (en : option bool) (w : dev_world S C P) : Prop := enable_vts_agent (ad w) = en.

Lemma services_switch en l a w : services en l a w -> switch en w.
Proof. by intros []. Qed.

Lemma as_in_services {A} (m : M A) en l a : (forall d, xkeeps (as_in d) m) -> xkeeps (services en l a) m.
Proof.
  intros Hm w (He & Hl & Ha). destruct (Hm (ad w) w) as (H1 & H2 & H3); [by split_and!|].
  unfold services. rewrite H1, H2, H3. by split_and!.
Qed.

Lemma as_in_triple {A} (m : M A) en l a : (forall d, xkeeps (as_in d) m) -> triple (services en l a) m (fun _ => services en l a) (switch en).
Proof. intros Hm. apply triple_keeps; [by apply as_in_services|apply services_switch]. Qed.

Lemma list_fastboot_keeps d : xkeeps (as_in d) isBootloaderMode.
Proof. unfold isBootloaderMode. services. Qed.
Lemma prop_keeps d name : xkeeps (as_in d) (prop name).
Proof. unfold prop, getProp_timeout. services. Qed.
Lemma model_keeps d : xkeeps (as_in d) model.
Proof.
  unfold model. apply xkeeps_bind; [apply list_fastboot_keeps|]. intros [|].
  - services.
  - apply xkeeps_bind; [apply prop_keeps|]. intros m. destruct (bool_decide _); [services|].
    apply xkeeps_bind; [apply prop_keeps|]. intros. services.
Qed.

Lemma start_standing_keeps d cmd b : xkeeps (as_in d) (start_standing_subprocess cmd b).
Proof. unfold start_standing_subprocess, assert_subprocess_running. services. Qed.

Lemma startAdbLogcat_triple en a : triple (services en false a) startAdbLogcat (fun _ => services en true a) (switch en).
Proof.
  intros w Hw. unfold startAdbLogcat, get_ad. erewrite xstM_bind_run by reflexivity.
  destruct (adb_logcat_process (ad w)) eqn:Hp; [by apply (services_switch en false a)|].
  revert w Hp Hw. intros w _. generalize (ad w) as d0. intros d0. revert w.
  apply triple_bind with (Mid := fun _ => services en false a); [apply as_in_triple; apply model_keeps|]. intros m.
  apply triple_bind with (Mid := fun _ => services en false a); [apply as_in_triple; intros; apply on_out_keeps|]. intros _.
  apply triple_bind with (Mid := fun _ => services en false a); [apply as_in_triple; intros; apply start_standing_keeps|].
  intros p w (He & _ & Ha). by split_and!.
Qed.

Lemma try_agents_triple en l bits' :
  last bits' = Some (bs "32") -> triple (services en l false) (try_agents bits') (fun _ => services en l true) (switch en).
Proof.
  induction bits' as [|b bs' IH]; [done|]. intros Hlast w Hw. cbn [try_agents]. unfold get_ad. erewrite xstM_bind_run by reflexivity.
  set (m := start_standing_subprocess _ _).
  assert (triple (services en l false) (p ← m; set_ad (set_agent (Some p))) (fun _ => services en l true) (services en l false)) as Hm.
  { apply triple_bind with (Mid := fun _ => services en l false).
    - apply triple_keeps; [|done]. apply as_in_services. intros. apply start_standing_keeps.
    - intros p w1 (He & Hl & _). by split_and!. }
  specialize (Hm w Hw). unfold mbind at 1, xstM_bind, xattempt. destruct ((p ← m; set_ad (set_agent (Some p))) w) as [[u|e] w1].
  { exact Hm. }
  destruct (isinstance e VTSUtilsError); [|by apply (services_switch en l false)].
  destruct (bool_decide (b = bs "32")) eqn:Eb.
  - revert w1 Hm. apply triple_bind with (Mid := fun _ => services en l false); [apply as_in_triple; intros; apply on_out_keeps|].
    intros _ w1 Hw1. by apply (services_switch en l false).
  - revert w1 Hm. apply triple_bind with (Mid := fun _ => services en l false); [apply as_in_triple; intros; apply on_out_keeps|].
    intros _. apply IH. destruct bs' as [|b' bs']; [|done]. injection Hlast as ->. by apply bool_decide_eq_false in Eb.
Qed.

Lemma startVtsAgent_triple en l : triple (services en l false) startVtsAgent (fun _ => services en l true) (switch en).
Proof.
  intros w Hw. unfold startVtsAgent, get_ad. erewrite xstM_bind_run by reflexivity.
  destruct (vts_agent_process (ad w)) eqn:Hp; [by apply (services_switch en l false)|]. revert w Hp Hw. intros w _. revert w.
  apply triple_bind with (Mid := fun _ => services en l false); [apply as_in_triple; intros; apply llkd_keeps|]. intros _.
  apply triple_bind with (Mid := fun _ => services en l false); [apply as_in_triple; intros; services|]. intros _.
  apply triple_bind with (Mid := fun _ => services en l false); [apply as_in_triple; intros; unfold is64Bit; services|].
  intros [|]; by apply try_agents_triple.
Qed.

(** A device that starts runs both processes, or raises and keeps its switch. *)
Lemma startServices_triple :
  triple (services (Some true) false false) startServices (fun _ => services (Some true) true true) (switch (Some true)).
Proof.
  unfold startServices.
  apply triple_bind with (Mid := fun _ => services (Some true) false false).
  { intros w (He & Hl & Ha). split_and!; [|done|done]. cbn. unfold use_agent. by rewrite He. }
  intros _. apply triple_bind with (Mid := fun _ => services (Some true) true false); [apply startAdbLogcat_triple|]. intros _.
  intros w Hw. unfold get_ad at 1. erewrite xstM_bind_run by reflexivity.
  assert (use_agent (ad w) = true) as -> by (unfold use_agent; by rewrite (proj1 Hw)). revert w Hw.
  apply triple_bind with (Mid := fun _ => services (Some true) true true); [apply startVtsAgent_triple|]. intros _.
  apply as_in_triple. intros d. unfold new_tracker, tcp_forward. services.
Qed.

(** A device of the list of which [Q] holds. *)
Definition holds (Q : AndroidDevice C P -> Prop) (w : S * list (AndroidDevice C P)) (i : nat) : Prop := exists d, w.2 !! i = Some d /\ Q d.
Definition agent_on (d : AndroidDevice C P) : Prop := enable_vts_agent d = Some true.

Lemma on_device_run {A} i (m : M A) w d :
  w.2 !! i = Some d -> on_device i m w = ((m (mk_dw w.1 d)).1, (out (m (mk_dw w.1 d)).2, <[i := ad (m (mk_dw w.1 d)).2]> w.2)).
Proof. intros Hd. unfold on_device. rewrite Hd. by destruct (m _). Qed.

Lemma holds_insert Q s l i d : is_Some (l !! i) -> Q d -> holds Q (s, <[i := d]> l) i.
Proof. intros Hi HQ. exists d. split; [|done]. cbn. apply list_lookup_insert_eq. by apply lookup_lt_is_Some. Qed.

Lemma holds_other Q s s' l i j d : i <> j -> holds Q (s', <[i := d]> l) j <-> holds Q (s, l) j.
Proof. intros Hne. unfold holds. cbn. by rewrite list_lookup_insert_ne. Qed.

Lemma destroy_idle ads w :
  (forall i, i ∈ ads -> holds agent_on w i) ->
  exists w', destroy ads w = (Ret tt, w') /\ (forall i, i ∈ ads -> holds idle w' i) /\ (forall j, (j ∉ ads) -> w'.2 !! j = w.2 !! j).
Proof using Hkill.
  revert w. induction ads as [|i ads IH]; intros w Hall; cbn [destroy].
  { exists w. split; [done|]. split; [by intros i Hi%elem_of_nil|done]. }
  destruct (Hall i) as (d & Hd & Hon); [by left|].
  destruct (cleanUp_idle (mk_dw w.1 d)) as [Hidle Hon']; [unfold use_agent; cbn; by rewrite Hon|].
  set (dw := (cleanUp (mk_dw w.1 d)).2) in *. set (w1 := (out dw, <[i := ad dw]> w.2)).
  assert (is_Some (w.2 !! i)) as Hsome by (by eexists).
  destruct (IH w1) as (w' & Hr & Hi & Ho).
  { intros k Hk. destruct (decide (i = k)) as [<-|Hne].
    - apply holds_insert; [done|]. unfold agent_on. by rewrite Hon'.
    - apply (holds_other _ w.1); [done|]. destruct w. apply Hall. by right. }
  exists w'. split; [|split].
  - erewrite xstM_bind_run; [exact Hr|]. unfold xattempt. by rewrite (on_device_run _ _ _ _ Hd).
  - intros k Hk. destruct (decide (k ∈ ads)) as [Hin|Hout]; [by apply Hi|].
    apply elem_of_cons in Hk as [->|]; [|done]. destruct (holds_insert idle (out dw) w.2 i (ad dw) Hsome Hidle) as (d' & Hd' & Hi').
    exists d'. by rewrite Ho.
  - intros k [Hne Hk]%not_elem_of_cons. rewrite Ho by done. cbn. by rewrite list_lookup_insert_ne.
Qed.

Definition ready (d : AndroidDevice C P) : Prop := agent_on d /\ idle d.
Definition up (d : AndroidDevice C P) : Prop := agent_on d /\ running d.

Lemma start_services_all ads running_ads w :
  NoDup (running_ads ++ ads) -> (forall i, i ∈ ads -> holds ready w i) -> (forall i, i ∈ running_ads -> holds up w i) ->
  match start_services running_ads ads w with
  | (Ret _, w') => forall i, i ∈ running_ads ++ ads -> holds up w' i
  | (Exc _, w') => forall i, i ∈ running_ads ++ ads -> holds idle w' i
  end.
Proof using Hkill.
  revert running_ads w. induction ads as [|i ads IH]; intros rs w Hnd Hready Hup; cbn [start_services].
  { rewrite app_nil_r. exact Hup. }
  destruct (Hready i) as (d & Hd & Hon & Hl & Ha); [by left|].
  pose proof (startServices_triple (mk_dw w.1 d)) as Ht. unfold services at 1 in Ht. cbn [ad] in Ht. rewrite Hl, Ha in Ht.
  specialize (Ht (conj Hon (conj eq_refl eq_refl))).
  pose proof (on_device_run i startServices w d Hd) as Hrun'.
  destruct (startServices (mk_dw w.1 d)) as [r dw]. cbn [fst snd] in Hrun'.
  set (w1 := (out dw, <[i := ad dw]> w.2)) in *.
  assert (is_Some (w.2 !! i)) as Hsome by (by eexists).
  assert (forall k, k ∈ rs ++ ads -> i <> k) as Hne.
  { intros k Hk ->. rewrite <- Permutation_middle in Hnd. by apply NoDup_cons in Hnd as [? _]. }
  assert (forall Q k, k ∈ rs ++ ads -> holds Q w k -> holds Q w1 k) as Hkeep.
  { intros Q k Hk Hh. apply (holds_other Q w.1); [by apply Hne|]. by destruct w. }
  erewrite xstM_bind_run by (unfold xattempt; by rewrite Hrun'). cbv beta iota.
  destruct r as [u|e].
  - destruct Ht as (He & Hll & Haa). apply bool_decide_eq_true in Hll, Haa.
    assert (rs ++ i :: ads = (rs ++ [i]) ++ ads) as -> by (by rewrite <- app_assoc).
    apply IH; [by rewrite <- app_assoc| |].
    + intros k Hk. apply Hkeep; [apply elem_of_app; by right|]. apply Hready. by right.
    + intros k [Hk|Hk%list_elem_of_singleton]%elem_of_app.
      * apply Hkeep; [apply elem_of_app; by left|]. by apply Hup.
      * subst k. by apply holds_insert.
  - destruct (destroy_idle (rs ++ [i]) w1) as (w' & Hr & Hi & Ho).
    { intros k [Hk|Hk%list_elem_of_singleton]%elem_of_app.
      - apply Hkeep; [apply elem_of_app; by left|]. destruct (Hup k Hk) as (d' & Hd' & ? & _). by exists d'.
      - subst k. by apply holds_insert. }
    erewrite xstM_bind_run by exact Hr. cbn. intros k Hk.
    destruct (decide (k ∈ rs ++ [i])) as [Hin|Hout]; [by apply Hi|].
    assert (k ∈ ads) as Hka.
    { apply elem_of_app in Hk as [Hk|[->|Hk]%elem_of_cons]; [..|done]; exfalso; apply Hout, elem_of_app; [by left|right; by left]. }
    destruct (Hkeep idle k) as (d' & Hd' & Hid); [apply elem_of_app; by right| |exists d'; by rewrite Ho].
    destruct (Hready k) as (d'' & ? & _ & ?); [by right|]. by exists d''.
Qed.

(** The processes that the devices of a run have after their services were started: all, or none. *)
Lemma start_all_or_none ads w :
  NoDup ads -> (forall i, i ∈ ads -> holds ready w i) ->
  match startServicesOnAds ads w with
  | (Ret _, w') => forall i, i ∈ ads -> holds up w' i
  | (Exc _, w') => forall i, i ∈ ads -> holds idle w' i
  end.
Proof using Hkill.
  intros Hnd Hready. apply (start_services_all ads [] w); [done|done|]. by intros i Hi%elem_of_nil.
Qed.

(** ** Reboots *)
Lemma wait_until_keeps d done start timeout fuel : (xkeeps (as_in d) done) -> xkeeps (as_in d) (wait_until done start timeout fuel).
Proof.
  intros Hd. induction fuel as [|fuel IH]; cbn [wait_until]; [services|]. apply xkeeps_bind; [done|]. intros [|]; [services|].
  apply xkeeps_bind; [services|]. intros w. destruct (_ <=? _)%Z; [services|]. apply xkeeps_bind; [apply on_out_keeps|]. by intros.
Qed.

Lemma boot_keeps d fuel timeout : xkeeps (as_in d) (waitForBootCompletion fuel timeout).
Proof.
  unfold waitForBootCompletion. apply xkeeps_bind; [services|]. intros w. apply xkeeps_bind; [services|].
  intros [|]; [|services]. apply wait_until_keeps. unfold isBootCompleted, prop, getProp_timeout. services.
Qed.

Lemma rootAdb_keeps d : xkeeps (as_in d) rootAdb.
Proof. unfold rootAdb, isAdbRoot. services. Qed.

Lemma stopAdbLogcat_triple en a : triple (services en true a) stopAdbLogcat (fun _ => services en false a) (switch en).
Proof using Hkill.
  intros w (He & Hl & Ha). apply bool_decide_eq_true in Hl as [p Hp]. destruct (stopAdbLogcat_run p w Hp) as [s ->]. by split_and!.
Qed.

Lemma stopVtsAgent_triple en l a : triple (services en l a) stopVtsAgent (fun _ => services en l false) (switch en).
Proof using Hkill. intros w (He & Hl & Ha). destruct (stopVtsAgent_run w) as [s ->]. by split_and!. Qed.

Lemma ret_triple en l a (u : unit) : triple (services en l a) (mret u) (fun _ => services en l a) (switch en).
Proof. by intros w Hw. Qed.

(** A reboot that returns has as many services as before. *)
Lemma reboot_same_services fuel (restart_services : bool) w w' :
  reboot fuel restart_services w = (Ret tt, w') ->
  enable_vts_agent (ad w') = enable_vts_agent (ad w) /\
  (is_Some (adb_logcat_process (ad w')) <-> is_Some (adb_logcat_process (ad w))) /\
  (is_Some (vts_agent_process (ad w')) <-> is_Some (vts_agent_process (ad w))).
Proof using Hkill.
  set (en := enable_vts_agent (ad w)). set (l := bool_decide (is_Some (adb_logcat_process (ad w)))).
  set (a := bool_decide (is_Some (vts_agent_process (ad w)))).
  assert (triple (services en l a) (reboot fuel restart_services) (fun _ => services en l a) (switch en)) as Ht.
  { unfold reboot. apply triple_bind with (Mid := fun _ => services en l a); [apply as_in_triple, list_fastboot_keeps|]. intros b.
    intros w0 Hw0. unfold get_ad. erewrite xstM_bind_run by reflexivity. destruct b.
    { revert w0 Hw0. intros w0. generalize (ad w0). intros d0. revert w0.
      apply as_in_triple. intros. services. }
    pose proof (proj1 (proj2 Hw0)) as El. pose proof (proj2 (proj2 Hw0)) as Ea. cbv zeta. rewrite El, Ea. clear El Ea. revert w0 Hw0.
    set (l' := if restart_services then false else l). set (a' := if restart_services then false else a).
    apply triple_bind with (Mid := fun _ => services en l' a').
    { subst l' a'. destruct restart_services; [|apply ret_triple].
      apply triple_bind with (Mid := fun _ => services en false a).
      - destruct l; [apply stopAdbLogcat_triple|apply ret_triple].
      - intros _. destruct a; [apply stopVtsAgent_triple|apply ret_triple]. }
    intros _. apply triple_bind with (Mid := fun _ => services en l' a'); [apply as_in_triple; intros; apply adb_do_keeps|]. intros _.
    apply triple_bind with (Mid := fun _ => services en l' a'); [apply as_in_triple; intros; apply boot_keeps|]. intros _.
    apply triple_bind with (Mid := fun _ => services en l' a'); [apply as_in_triple; intros; apply rootAdb_keeps|]. intros _.
    subst l' a'. destruct restart_services; [|apply ret_triple].
    apply triple_bind with (Mid := fun _ => services en l false).
    - destruct l; [apply startAdbLogcat_triple|apply ret_triple].
    - intros _. destruct a; [apply startVtsAgent_triple|apply ret_triple]. }
  intros Hr. specialize (Ht w). rewrite Hr in Ht. destruct Ht as (He & Hl & Ha); [by split_and!|]. split; [done|].
  split; [exact (bool_decide_same _ _ Hl)|exact (bool_decide_same _ _ Ha)].
Qed.

(** ** Processes *)
Section processes.

(** The processes that were started, and the groups that were sent the signal that ends
    them, as far as the world knows. *)
Context (started signalled : S -> list P).
(** A process that [poll] says is over, or that was sent the signal. *)
Definition ended (p : P) (s : S) : Prop := is_Some (poll p s) \/ p ∈ signalled s.
(** Nothing was started, and nothing that had ended came back. *)
Definition settled (s s' : S) : Prop := started s' = started s /\ forall p, ended p s -> ended p s'.
Definition quiet_out {A} (m : xstM S A) : Prop := forall s0, xkeeps (settled s0) m.

(** Only [start_process] starts processes, each a new one; [kill_group] sends its signal
    and does not raise; sleeping does not raise. *)
Class ProcessLaws : Prop := {
  commands_quiet c t : quiet_out (ExecuteOneShellCommand c t);
  popen_quiet c : quiet_out (popen c);
  sleep_quiet s : exists s', sleep_one s = (Ret tt, s') /\ settled s s';
  create_dir_quiet d : quiet_out (create_dir d);
  read_log_quiet f : quiet_out (read_log f);
  host_port_quiet : quiet_out available_host_port;
  callback_server_quiet port : quiet_out (start_callback_server port);
  Disconnect_quiet c : quiet_out (Disconnect c);
  handle_request_quiet c m : quiet_out (SendHidlHandleRequest c m);
  stop_server_quiet : quiet_out stop_server;
  start_process_new c s :
    match start_process c s with
    | (Ret p, s') => started s' = p :: started s /\ (p ∉ started s) /\ forall q, ended q s -> ended q s'
    | (Exc _, s') => settled s s'
    end;
  kill_group_signals p s : exists s', kill_group p s = (Ret tt, s') /\ settled s s' /\ p ∈ signalled s';
}.
Context `{PL : ProcessLaws}.

Lemma settled_refl s : settled s s.
Proof. done. Qed.
Lemma settled_trans s1 s2 s3 : settled s1 s2 -> settled s2 s3 -> settled s1 s3.
Proof. intros [H1 H2] [H3 H4]. split; [congruence|auto]. Qed.

(** *** Computations that leave processes and handles alone *)
Definition same_handles (d d' : AndroidDevice C P) : Prop :=
  adb_logcat_process d' = adb_logcat_process d /\ vts_agent_process d' = vts_agent_process d.
Definition calm (w0 w : dev_world S C P) : Prop := same_handles (ad w0) (ad w) /\ settled (out w0) (out w).
Lemma calm_refl w : calm w w.
Proof. by split. Qed.

Lemma calm_out {A} w0 (m : xstM S A) : quiet_out m -> xkeeps (calm w0) (on_out m).
Proof.
  intros Hm w [Hh Hs]. unfold on_out. specialize (Hm (out w0) (out w) Hs). destruct (m (out w)). by split.
Qed.
Lemma calm_set w0 f : (forall d, same_handles d (f d)) -> xkeeps (calm w0) (set_ad f).
Proof. intros Hf [s d] [[H1 H2] Hs]. destruct (Hf d) as [F1 F2]. split; [|done]. split; cbn in *; congruence. Qed.
Lemma calm_get w0 : xkeeps (calm w0) get_ad.
Proof. by intros w Hw. Qed.

Lemma quiet_ret {A} (a : A) : quiet_out (mret a).
Proof. intros s0. apply xkeeps_ret. Qed.
Lemma quiet_bind {A B} (m : xstM S A) (f : A -> xstM S B) : quiet_out m -> (forall a, quiet_out (f a)) -> quiet_out (m ≫= f).
Proof. intros Hm Hf s0. apply xkeeps_bind; [apply Hm|]. intros a. apply Hf. Qed.
Lemma quiet_lift {A} (r : xres A) : quiet_out (xlift (S := S) r).
Proof. intros s0. apply xkeeps_lift. Qed.
Lemma quiet_adb sn name args t : quiet_out (adb_call ExecuteOneShellCommand sn name args t).
Proof using PL.
  unfold adb_call, exec_cmd. apply quiet_bind; [apply commands_quiet|]. intros [[o e] r].
  destruct (r =? 0)%Z; [apply quiet_ret|apply quiet_lift].
Qed.
Lemma quiet_fastboot sn name args : quiet_out (fastboot_call sn name args).
Proof using PL. unfold fastboot_call. apply quiet_bind; [apply popen_quiet|]. intros [o e]. apply quiet_ret. Qed.
Lemma quiet_fastboot_devices : quiet_out list_fastboot_devices.
Proof using PL. unfold list_fastboot_devices. apply quiet_bind; [apply quiet_fastboot|]. intros. apply quiet_ret. Qed.
Lemma quiet_forward sn a b : quiet_out (tcp_forward ExecuteOneShellCommand sn a b).
Proof using PL. unfold tcp_forward. apply quiet_bind; [apply quiet_adb|]. intros. apply quiet_ret. Qed.
Lemma quiet_sleep : quiet_out sleep_one.
Proof using PL. intros s0 s Hs. destruct (sleep_quiet s) as (s' & -> & H'). by eapply settled_trans. Qed.

Ltac quiets := first
  [ apply quiet_adb | apply quiet_fastboot | apply quiet_fastboot_devices | apply quiet_forward | apply quiet_sleep | apply create_dir_quiet
  | apply read_log_quiet | apply host_port_quiet | apply callback_server_quiet ].
Ltac calms := repeat first
  [ apply calm_get | apply calm_out; quiets | apply calm_set; done | progress keeps ].

Lemma calm_shell w0 cmd t : xkeeps (calm w0) (adb_shell_timeout cmd t).
Proof using PL. unfold adb_shell_timeout. calms. Qed.
Lemma calm_adb w0 name args t : xkeeps (calm w0) (adb_do name args t).
Proof using PL. unfold adb_do. calms. Qed.
Hint Resolve calm_shell calm_adb : keeps.
Lemma calm_bootloader w0 : xkeeps (calm w0) isBootloaderMode.
Proof using PL. unfold isBootloaderMode. calms. Qed.
Lemma calm_prop w0 name : xkeeps (calm w0) (prop name).
Proof using PL. unfold prop, getProp_timeout. calms. Qed.
Hint Resolve calm_bootloader calm_prop : keeps.
Lemma calm_llkd w0 verb : xkeeps (calm w0) (llkd verb).
Proof using PL. unfold llkd, adb_shell. calms. Qed.
Lemma calm_model w0 : xkeeps (calm w0) model.
Proof using PL. unfold model. calms. Qed.
Lemma calm_wait w0 fuel t : xkeeps (calm w0) (waitForBootCompletion fuel t).
Proof using PL.
  unfold waitForBootCompletion. calms. generalize (time (out a)). intros start0.
  induction fuel as [|fuel IH]; cbn [wait_until]; [calms|]. unfold isBootCompleted at 1, getProp_timeout. calms.
Qed.
Lemma calm_root w0 : xkeeps (calm w0) rootAdb.
Proof using PL. unfold rootAdb, isAdbRoot, adb_shell. calms. Qed.
Lemma calm_is64Bit w0 : xkeeps (calm w0) is64Bit.
Proof using PL. unfold is64Bit, adb_shell. calms. Qed.
Lemma calm_new_tracker w0 port : xkeeps (calm w0) (new_tracker port).
Proof using PL. unfold new_tracker. calms. Qed.
Hint Resolve calm_llkd calm_model calm_wait calm_root calm_is64Bit calm_new_tracker : keeps.

Lemma quiet_clean_all l : quiet_out (clean_all Disconnect SendHidlHandleRequest l).
Proof using PL.
  induction l as [|m l IH]; cbn [clean_all]; [apply quiet_ret|]. apply quiet_bind; [|done].
  assert (forall c, quiet_out (Disconnect c)) as Hd by (intros; apply Disconnect_quiet).
  destruct m; cbn [CleanUp_mirror]; try apply Hd.
  unfold HandleMirror.CleanUp. apply quiet_bind; [apply quiet_lift|]. intros m.
  apply quiet_bind; [apply handle_request_quiet|]. intros. apply quiet_ret.
Qed.
Lemma calm_hal w0 : xkeeps (calm w0) (on_hal (CleanUp Disconnect SendHidlHandleRequest stop_server)).
Proof using PL.
  intros w [Hh Hs]. unfold on_hal. destruct (hal (ad w)) as [t|]; [|by split].
  assert (xkeeps (fun x : tracker C * S => settled (out w0) x.2) (CleanUp Disconnect SendHidlHandleRequest stop_server)) as Hc.
  { assert (forall A (m : xstM S A), quiet_out m -> xkeeps (fun x : tracker C * S => settled (out w0) x.2) (world m)) as Hw.
    { intros A m Hm [t' s'] Hs'. unfold world. specialize (Hm (out w0) s' Hs'). cbn [snd]. destruct (m s'). exact Hm. }
    unfold CleanUp. apply xkeeps_bind; [by intros x Hx|]. intros l. apply xkeeps_bind; [apply Hw, quiet_clean_all|].
    intros _. apply xkeeps_bind; [by intros x Hx|]. intros _. apply xkeeps_bind; [by intros x Hx|]. intros x.
    destruct (callback_server _); [|apply xkeeps_ret]. apply xkeeps_bind; [apply Hw, stop_server_quiet|]. by intros _ y Hy. }
  specialize (Hc (t, out w) Hs). destruct (CleanUp _ _ _ (t, out w)) as [r [t' s']]. by split.
Qed.

(** *** Starting a process *)
Definition later (s s' : S) : Prop := (forall p, ended p s -> ended p s') /\ forall p, p ∈ started s -> p ∈ started s'.
(** A process was started that is in nobody's hands yet. *)
Definition born (p : P) (w w' : dev_world S C P) : Prop :=
  ad w' = ad w /\ later (out w) (out w') /\ (p ∉ started (out w)) /\ forall q, q ∈ started (out w') <-> q = p \/ q ∈ started (out w).
(** What was started, if anything, is over. *)
Definition gone (w w' : dev_world S C P) : Prop :=
  ad w' = ad w /\ later (out w) (out w') /\ forall q, q ∈ started (out w') -> q ∈ started (out w) \/ ended q (out w').

Lemma settled_later s s' : settled s s' -> later s s'.
Proof. intros [Hs He]. split; [done|]. by rewrite Hs. Qed.

Lemma start_process_cases cmd b w :
  match start_standing_subprocess cmd b w with
  | (Ret p, w') => born p w w'
  | (Exc _, w') => gone w w'
  end.
Proof using PL.
  unfold start_standing_subprocess, on_out, mbind, xstM_bind.
  pose proof (start_process_new cmd (out w)) as Hn. destruct (start_process cmd (out w)) as [[p|e] s1].
  2: { destruct Hn as [Hs He]. split; [done|]. cbn. split; [by apply settled_later|]. rewrite Hs. by left. }
  destruct Hn as (Hs & Hf & He).
  assert (forall s2, settled s1 s2 -> born p w (mk_dw s2 (ad w))) as Hborn.
  { intros s2 [S1 S2]. split; [done|]. cbn. split; [split; [auto|rewrite S1, Hs; by right]|]. split; [done|].
    intros q. rewrite S1, Hs. apply elem_of_cons. }
  destruct b; [|by apply Hborn]. destruct (sleep_quiet s1) as (s2 & Hsl & Hs2).
  cbn [out ad]. rewrite Hsl. unfold assert_subprocess_running, xget, mbind, xstM_bind. cbn.
  destruct (poll p s2) as [code|] eqn:Hp; [|by apply Hborn]. destruct (Hborn s2 Hs2) as (_ & Hl & _ & Hst). split; [done|]. split; [done|].
  intros q [->|Hq]%Hst; [right; left; by exists code|by left].
Qed.

(** What every start keeps: nothing depends on more than which processes there are. *)
Class Steady (Q : dev_world S C P -> Prop) : Prop := {
  steady_calm w w' : calm w w' -> Q w -> Q w';
  steady_gone w w' : gone w w' -> Q w -> Q w';
  steady_log p path w w' : Q w -> born p w w' -> adb_logcat_process (ad w) = None -> Q (mk_dw (out w') (set_logcat (Some p) path (ad w')));
  steady_agent p w w' : Q w -> born p w w' -> vts_agent_process (ad w) = None -> Q (mk_dw (out w') (set_agent (Some p) (ad w')));
}.

Section steady.
Context (Q : dev_world S C P -> Prop) `{HQ : Steady Q}.
(** [Q], and the handles are as those of [d] *)
Definition steady_at (d : AndroidDevice C P) (w : dev_world S C P) : Prop := Q w /\ same_handles d (ad w).

Lemma calm_steady {A} (m : M A) d : (forall w0, xkeeps (calm w0) m) -> xkeeps (steady_at d) m.
Proof using HQ.
  intros Hm w [Hw [E1 E2]]. pose proof (Hm w w (calm_refl w)) as Hc. split; [by eapply steady_calm|].
  destruct Hc as [[H1 H2] _]. split; congruence.
Qed.
Lemma calm_steady0 {A} (m : M A) : (forall w0, xkeeps (calm w0) m) -> xkeeps Q m.
Proof using HQ. intros Hm w Hw. eapply steady_calm; [|exact Hw]. apply Hm, calm_refl. Qed.

Lemma start_then (set : P -> AndroidDevice C P -> AndroidDevice C P) cmd b w :
  Q w -> (forall p w', born p w w' -> Q (mk_dw (out w') (set p (ad w')))) ->
  match (p ← start_standing_subprocess cmd b; set_ad (set p)) w with
  | (Ret _, w') => Q w'
  | (Exc _, w') => Q w' /\ ad w' = ad w
  end.
Proof using HQ PL.
  intros Hw Hset. unfold mbind, xstM_bind. pose proof (start_process_cases cmd b w) as Hc.
  destruct (start_standing_subprocess cmd b w) as [[p|e] w']; cbn [fst snd]; [by apply Hset|].
  split; [by eapply steady_gone|apply Hc].
Qed.
Lemma bind_steady {A B} (m : M A) (f : A -> M B) d :
  (forall w0, xkeeps (calm w0) m) -> (forall a w, steady_at d w -> Q (f a w).2) -> forall w, steady_at d w -> Q ((m ≫= f) w).2.
Proof using HQ.
  intros Hm Hf w Hw. pose proof (calm_steady m d Hm w Hw) as H. unfold mbind, xstM_bind.
  destruct (m w) as [[a|e] w']; [by apply Hf|]. apply H.
Qed.

Lemma startAdbLogcat_steady : xkeeps Q startAdbLogcat.
Proof using HQ PL.
  intros w Hw. unfold startAdbLogcat, get_ad. erewrite xstM_bind_run by reflexivity.
  destruct (adb_logcat_process (ad w)) eqn:Hp; [done|]. assert (steady_at (ad w) w) as Hat by by split.
  revert Hp Hat. generalize (ad w). clear Hw. intros d Hp. revert w.
  apply bind_steady; [eauto with keeps|]. intros m. apply bind_steady; [intros; calms|]. intros _ w [Hw [Hd _]]. cbv zeta.
  match goal with |- Q (((start_standing_subprocess ?c ?b) ≫= ?k) w).2 =>
    pose proof (start_then (fun p => set_logcat (Some p) (Some (path_join2 (log_path d) (bs "adblog_" ++ str_option m ++ bs "_" ++ serial d ++ bs ".txt")))) c b w Hw) as Hs
  end.
  match type of Hs with _ -> match ?x with _ => _ end => change (Q x.2); destruct x as [[u|e] w'] end; cbn [snd]; apply Hs;
    intros p w1 Hb; (apply (steady_log p _ w); [done..|congruence]).
Qed.

Lemma try_agents_steady d l : vts_agent_process d = None -> forall w, steady_at d w -> Q (try_agents l w).2.
Proof using HQ PL.
  intros Hd. induction l as [|b l IH]; intros w [Hw [E1 E2]]; [done|]. cbn [try_agents]. unfold get_ad. erewrite xstM_bind_run by reflexivity.
  match goal with |- context [start_standing_subprocess ?c ?k] => pose proof (start_then (fun p => set_agent (Some p)) c k w Hw) as Hs end.
  unfold mbind at 1, xstM_bind at 1, xattempt.
  cbv beta in Hs. match type of Hs with _ -> match ?x with _ => _ end => destruct x as [[u|e] w'] end.
  - apply Hs. intros p w1 Hb. apply (steady_agent p w); [done..|congruence].
  - destruct Hs as [Hs Had]; [intros p w1 Hb; apply (steady_agent p w); [done..|congruence]|].
    destruct (isinstance e VTSUtilsError); [|done].
    apply (bind_steady _ _ d); [intros; calms| |by split; [|split; rewrite Had]].
    intros _ w2 Hw2. destruct (bool_decide _); [apply Hw2|by apply IH].
Qed.

Lemma startVtsAgent_steady : xkeeps Q startVtsAgent.
Proof using HQ PL.
  intros w Hw. unfold startVtsAgent, get_ad. erewrite xstM_bind_run by reflexivity.
  destruct (vts_agent_process (ad w)) eqn:Hp; [done|]. assert (steady_at (ad w) w) as Hat by by split.
  revert Hp Hat. generalize (ad w). clear Hw. intros d Hp. revert w.
  unfold StopLLKD, adb_shell.
  apply bind_steady; [eauto with keeps|]. intros _. apply bind_steady; [intros; calms|]. intros _.
  apply bind_steady; [eauto with keeps|]. intros b. by apply try_agents_steady.
Qed.

Lemma startServices_steady : xkeeps Q startServices.
Proof using HQ PL.
  unfold startServices. apply xkeeps_bind; [apply calm_steady0; intros; calms|]. intros _.
  apply xkeeps_bind; [apply startAdbLogcat_steady|]. intros _. apply xkeeps_bind; [apply calm_steady0; intros; calms|]. intros d.
  destruct (use_agent d); [|apply xkeeps_ret]. apply xkeeps_bind; [apply startVtsAgent_steady|]. intros _.
  apply calm_steady0. intros w0. unfold adb_shell. calms.
Qed.
End steady.

(** *** Stopping a process *)
Definition hold (d : AndroidDevice C P) (p : P) : Prop := adb_logcat_process d = Some p \/ vts_agent_process d = Some p.

Lemma stop_standing_ends p w :
  exists s, xexcept VTSUtilsError (stop_standing_subprocess p) (mret tt) w = (Ret tt, mk_dw s (ad w)) /\ settled (out w) s /\ ended p s.
Proof using PL.
  unfold stop_standing_subprocess, assert_subprocess_running.
  destruct (poll p (out w)) as [code|] eqn:Hp.
  - exists (out w). split; [|split; [done|left; by exists code]]. erewrite xexcept_caught; [by destruct w| |].
    + unfold mbind, xstM_bind, xget. rewrite Hp. reflexivity.
    + reflexivity.
  - destruct (kill_group_signals p (out w)) as (s & Hs & H1 & H2). exists s. split; [|split; [done|by right]].
    apply xexcept_run. unfold mbind, xstM_bind, xget. rewrite Hp. cbn. unfold on_out. by rewrite Hs.
Qed.

Lemma stopAdbLogcat_ends w :
  exists s, (if bool_decide (is_Some (adb_logcat_process (ad w))) then stopAdbLogcat else mret tt) w =
      (Ret tt, mk_dw s (set_logcat None (adb_logcat_file_path (ad w)) (ad w))) /\
    settled (out w) s /\ forall p, adb_logcat_process (ad w) = Some p -> ended p s.
Proof using PL.
  destruct (adb_logcat_process (ad w)) as [p|] eqn:Hp.
  - rewrite bool_decide_true by by eexists. unfold stopAdbLogcat, get_ad. erewrite xstM_bind_run by reflexivity. rewrite Hp.
    destruct (stop_standing_ends p w) as (s & Hs & H1 & H2). exists s. split; [by erewrite xstM_bind_run by exact Hs|].
    split; [done|]. by intros q [= <-].
  - rewrite bool_decide_false by by intros []. exists (out w). split; [|done]. destruct w as [s d], d. cbn in *. by subst.
Qed.

Lemma stopVtsAgent_ends w :
  exists s, stopVtsAgent w = (Ret tt, mk_dw s (set_agent None (ad w))) /\ settled (out w) s /\
    forall p, vts_agent_process (ad w) = Some p -> ended p s.
Proof using PL.
  unfold stopVtsAgent, get_ad. erewrite xstM_bind_run by reflexivity. destruct (vts_agent_process (ad w)) as [p|] eqn:Hp.
  - destruct (stop_standing_ends p w) as (s & Hs & H1 & H2). exists s. split; [by erewrite xstM_bind_run by exact Hs|].
    split; [done|]. by intros q [= <-].
  - exists (out w). split; [|done]. destruct w as [s d], d. cbn in *. by subst.
Qed.

(** *** Every process that was started is over, or in the hands of a device *)
Definition accounted_for (others : P -> Prop) (w : dev_world S C P) : Prop := forall p,
  (p ∈ started (out w) -> ended p (out w) \/ hold (ad w) p \/ others p) /\
  (hold (ad w) p \/ others p -> p ∈ started (out w)).

#[export] Instance accounted_steady others : Steady (accounted_for others).
Proof.
  assert (forall d d', same_handles d d' -> forall p, hold d' p <-> hold d p) as Hsame.
  { intros d d' [H1 H2] p. unfold hold. by rewrite H1, H2. }
  split.
  - intros w w' [Hh [Hs He]] Hw p. specialize (Hw p). rewrite Hs, (Hsame _ _ Hh). clear - Hw He. naive_solver.
  - intros w w' (Hd & [He Hs] & Hn) Hw p. specialize (Hw p). rewrite Hd. specialize (Hn p). clear - Hw He Hs Hn. naive_solver.
  - intros p path w w' Hw (Hd & [He Hs] & Hf & Hst) Hnone q. specialize (Hw q). cbn [out ad]. rewrite Hst, Hd. unfold hold in *.
    cbn. rewrite Hnone in Hw. clear - Hw He Hs. naive_solver.
  - intros p w w' Hw (Hd & [He Hs] & Hf & Hst) Hnone q. specialize (Hw q). cbn [out ad]. rewrite Hst, Hd. unfold hold in *.
    cbn. rewrite Hnone in Hw. clear - Hw He Hs. naive_solver.
Qed.

Lemma accounted_drop others w s d :
  accounted_for others w -> settled (out w) s -> (forall p, hold (ad w) p -> hold d p \/ ended p s) -> (forall p, hold d p -> hold (ad w) p) ->
  accounted_for others (mk_dw s d).
Proof. intros Hw [Hs He] Hd Hd' p. specialize (Hw p). cbn [out ad]. rewrite Hs. specialize (Hd p). specialize (Hd' p). clear - Hw He Hd Hd'. naive_solver. Qed.

Lemma stopServices_accounted others : xkeeps (accounted_for others) stopServices.
Proof using PL.
  intros w Hw. unfold stopServices, get_ad. erewrite xstM_bind_run by reflexivity.
  destruct (stopAdbLogcat_ends w) as (s & Hs & Hset & Hend). set (w1 := mk_dw s _) in Hs.
  assert (match adb_logcat_process (ad w) with Some _ => stopAdbLogcat | None => mret tt end w = (Ret tt, w1)) as Hs'.
  { rewrite <- Hs. by destruct (adb_logcat_process (ad w)). }
  assert (accounted_for others w1) as H1.
  { apply (accounted_drop _ w); [done..| |]; intros p; unfold hold; cbn; clear - Hend; naive_solver. }
  erewrite xstM_bind_run by exact Hs'. erewrite xstM_bind_run by reflexivity. clearbody w1. clear - H1 PL.
  set (m := if use_agent (ad w1) then stopVtsAgent else mret tt).
  assert (exists w2, m w1 = (Ret tt, w2) /\ accounted_for others w2) as (w2 & Hm & H2).
  { subst m. destruct (use_agent (ad w1)); [|by exists w1]. destruct (stopVtsAgent_ends w1) as (s & -> & Hset & Hend).
    eexists. split; [done|]. apply (accounted_drop _ w1); [done..| |]; intros p; unfold hold; cbn; clear - Hend; naive_solver. }
  erewrite xstM_bind_run by exact Hm. revert H2. generalize w2. apply (calm_steady0 (accounted_for others)). apply calm_hal.
Qed.

Lemma cleanUp_accounted others : xkeeps (accounted_for others) cleanUp.
Proof using PL.
  unfold cleanUp. apply xkeeps_bind; [apply stopServices_accounted|]. intros _. unfold StartLLKD.
  apply (calm_steady0 (accounted_for others)). intros w0. calms.
Qed.

Definition accounted (w : S * list (AndroidDevice C P)) : Prop := forall p,
  (p ∈ started w.1 -> ended p w.1 \/ exists i, holds (fun d => hold d p) w i) /\
  ((exists i, holds (fun d => hold d p) w i) -> p ∈ started w.1).

Lemma on_device_accounted {A} i (m : M A) : (forall others, xkeeps (accounted_for others) m) -> xkeeps accounted (on_device i m).
Proof.
  intros Hm [s l] Hw. unfold on_device. cbn [fst snd]. destruct (l !! i) as [d|] eqn:Hd; [|done].
  set (others p := exists j, j <> i /\ holds (fun d => hold d p) (s, l) j).
  assert (forall s' d' p, (exists j, holds (fun d => hold d p) (s', <[i := d']> l) j) <-> hold d' p \/ others p) as Hsplit.
  { intros s' d' p. split.
    - intros (j & Hj). destruct (decide (i = j)) as [<-|Hne].
      + left. destruct Hj as (d0 & Hd0 & Hh). cbn in Hd0. rewrite list_lookup_insert_eq in Hd0 by by eapply lookup_lt_Some. by injection Hd0 as ->.
      + right. exists j. split; [done|]. by apply (holds_other _ s s' l i j d').
    - intros [Hh|(j & Hne & Hj)]; [exists i; by apply holds_insert|exists j; by apply (holds_other _ s)]. }
  assert (accounted_for others (mk_dw s d)) as Hd0.
  { intros p. specialize (Hw p). specialize (Hsplit s d p). rewrite list_insert_id in Hsplit by done. cbn [fst] in Hw.
    rewrite Hsplit in Hw. exact Hw. }
  specialize (Hm others (mk_dw s d) Hd0). destruct (m (mk_dw s d)) as [x [s' d']]. cbn [snd out ad] in *.
  intros p. specialize (Hm p). cbn [fst]. rewrite Hsplit. exact Hm.
Qed.

Lemma destroy_accounted ads : xkeeps accounted (destroy ads).
Proof using PL.
  induction ads as [|i ads IH]; cbn [destroy]; [apply xkeeps_ret|]. apply xkeeps_bind; [|done].
  apply xkeeps_attempt, on_device_accounted, cleanUp_accounted.
Qed.
Lemma start_services_accounted ads running_ads : xkeeps accounted (start_services running_ads ads).
Proof using PL.
  revert running_ads. induction ads as [|i ads IH]; intros rs; cbn [start_services]; [apply xkeeps_ret|].
  apply xkeeps_bind; [|intros [u|e]; [apply IH|apply xkeeps_bind; [apply destroy_accounted|intros _; apply xkeeps_lift]]].
  apply xkeeps_attempt, on_device_accounted. intros o. by apply (startServices_steady (accounted_for o)).
Qed.

(** C33: The services of the devices of a run start together. Provided the devices are
    distinct, have their agent switched on and hold no process, and every process that was
    started before is over or in the hands of one device: when all start, each of them has
    its two processes and every process is over or in the hands of a device; when one
    raises, none holds a process, and every process that was started, on the way too, has
    ended or was sent the signal that ends it, unless another device holds it. Commands
    start no processes, a new process is a new one, and signals are sent without an error. *)
Theorem services_start_together ads w :
  NoDup ads -> (forall i, i ∈ ads -> holds ready w i) -> accounted w ->
  match startServicesOnAds ads w with
  | (Ret _, w') => (forall i, i ∈ ads -> holds up w' i) /\ accounted w'
  | (Exc _, w') =>
      (forall i, i ∈ ads -> holds idle w' i) /\
      forall p, p ∈ started w'.1 -> ended p w'.1 \/ exists i, (i ∉ ads) /\ holds (fun d => hold d p) w' i
  end.
Proof using PL Hkill.
  intros Hnd Hready Hacc. pose proof (start_all_or_none ads w Hnd Hready) as H.
  pose proof (start_services_accounted ads [] w Hacc) as Ha. unfold startServicesOnAds in *.
  destruct (start_services [] ads w) as [[u|e] w']; cbn [snd] in Ha; [done|]. split; [done|].
  intros p Hp. apply Ha in Hp as [He|(i & Hi)]; [by left|right]. exists i. split; [|done]. intros Hin.
  destruct (H i Hin) as (d & Hd & Hl & Hv), Hi as (d' & Hd' & Hh). rewrite Hd in Hd'. injection Hd' as <-. destruct Hh; congruence.
Qed.

(** *** The processes after a reboot *)
(** What was in hand is over, and what is in hand is new. *)
Definition renewed (w0 w : dev_world S C P) : Prop :=
  (forall p, hold (ad w0) p -> ended p (out w)) /\ (forall p, p ∈ started (out w0) -> p ∈ started (out w)) /\
  forall p, hold (ad w) p -> p ∈ started (out w) /\ (p ∉ started (out w0)).

#[export] Instance renewed_steady w0 : Steady (renewed w0).
Proof.
  assert (forall p w w' d', renewed w0 w -> born p w w' -> (forall q, hold d' q -> q = p \/ hold (ad w) q) -> renewed w0 (mk_dw (out w') d')) as Hnew.
  { intros p w w' d' (H1 & H2 & H3) (Hd & [He Hs] & Hf & Hst) Hd'. split_and!; cbn [out ad].
    - clear - H1 He. auto.
    - clear - H2 Hs. auto.
    - intros q [->|Hq]%Hd'; [|by split; [apply Hs|]; apply H3]. split; [apply Hst; by left|]. intros Hin. by apply Hf, H2. }
  split.
  - intros w w' [[E1 E2] [Hs He]] (H1 & H2 & H3). unfold renewed, hold in *. rewrite E1, E2, Hs. clear - H1 H2 H3 He. auto 10.
  - intros w w' (Hd & [He Hs] & _) (H1 & H2 & H3). unfold renewed. rewrite Hd. clear - H1 H2 H3 He Hs.
    split_and!; auto. intros p Hp. split; [apply Hs|]; by apply H3.
  - intros p path w w' Hw Hb Hnone. apply (Hnew p w); [done..|]. destruct Hb as (Hd & _). rewrite Hd. intros q [[= ->]|Hq]; [by left|right; by right].
  - intros p w w' Hw Hb Hnone. apply (Hnew p w); [done..|]. destruct Hb as (Hd & _). rewrite Hd. intros q [Hq|[= ->]]; [right; by left|by left].
Qed.

Lemma reboot_stops w0 w : calm w0 w ->
  exists w1, (_ ← (if bool_decide (is_Some (adb_logcat_process (ad w))) then stopAdbLogcat else mret tt);
              (if bool_decide (is_Some (vts_agent_process (ad w))) then stopVtsAgent else mret tt)) w = (Ret tt, w1) /\ renewed w0 w1.
Proof using PL.
  intros [[E1 E2] [Hs He]]. destruct (stopAdbLogcat_ends w) as (s1 & R1 & [S1 T1] & N1). set (w1 := mk_dw s1 _) in R1.
  destruct (stopVtsAgent_ends w1) as (s2 & R2 & [S2 T2] & N2). change (out w1) with s1 in *.
  assert ((if bool_decide (is_Some (vts_agent_process (ad w))) then stopVtsAgent else mret tt) w1 = (Ret tt, mk_dw s2 (set_agent None (ad w1))) \/
    vts_agent_process (ad w) = None) as Hcase.
  { destruct (vts_agent_process (ad w)); [left; by rewrite bool_decide_true by by eexists|by right]. }
  destruct Hcase as [Hrun|Hnone].
  - eexists. split; [erewrite xstM_bind_run by exact R1; exact Hrun|]. split_and!; cbn [out ad].
    + intros p [Hp|Hp]; [apply T2, N1; congruence|]. apply N2. cbn. congruence.
    + rewrite S2, S1, Hs. done.
    + by intros p [].
  - exists w1. split; [erewrite xstM_bind_run by exact R1; rewrite Hnone; by rewrite bool_decide_false by by intros []|]. split_and!; cbn [out ad].
    + intros p [Hp|Hp]; [apply N1; congruence|congruence].
    + change (out w1) with s1. rewrite S1, Hs. done.
    + intros p [Hp|Hp]; [done|]. cbn in Hp. congruence.
Qed.

(** C34: A reboot that returns brings back the services that the device had. If it was to
    restart them and the device was not in its bootloader, every process that the device
    held has ended or was sent the signal that ends it, and every process that it holds
    afterwards was started on the way; otherwise it holds the very processes that it held,
    and nothing was started. Commands start no processes, and signals are sent without an
    error. *)
Theorem reboot_restores_services fuel (restart_services bootloader : bool) w w' :
  (isBootloaderMode w).1 = Ret bootloader -> reboot fuel restart_services w = (Ret tt, w') ->
  (is_Some (adb_logcat_process (ad w')) <-> is_Some (adb_logcat_process (ad w))) /\
  (is_Some (vts_agent_process (ad w')) <-> is_Some (vts_agent_process (ad w))) /\
  if restart_services && negb bootloader
  then forall p, (hold (ad w) p -> ended p (out w')) /\ (hold (ad w') p -> p ∈ started (out w') /\ (p ∉ started (out w)))
  else same_handles (ad w) (ad w') /\ started (out w') = started (out w).
Proof using PL Hkill.
  intros Hb Hr. destruct (reboot_same_services fuel restart_services w w' Hr) as (_ & Hl & Ha). split; [done|]. split; [done|].
  unfold reboot in Hr. pose proof (calm_bootloader w w (calm_refl w)) as Hcalm. unfold mbind at 1, xstM_bind at 1 in Hr.
  destruct (isBootloaderMode w) as [x w1]. cbn [fst snd] in *. subst x. unfold get_ad at 1 in Hr. erewrite xstM_bind_run in Hr by reflexivity.
  assert (forall w2, calm w w2 -> same_handles (ad w) (ad w2) /\ started (out w2) = started (out w)) as Hend by (by intros w2 [? [? _]]).
  destruct bootloader; cbv zeta in Hr.
  { rewrite andb_false_r. apply Hend. match type of Hr with ?m _ = _ => assert (xkeeps (calm w) m) as Hk by calms end.
    specialize (Hk w1 Hcalm). by rewrite Hr in Hk. }
  destruct restart_services; cbn [andb negb].
  - destruct (reboot_stops w w1 Hcalm) as (w2 & Hs & Hren). erewrite xstM_bind_run in Hr by exact Hs.
    match type of Hr with ?m _ = _ => assert (xkeeps (renewed w) m) as Hk end; [|specialize (Hk w2 Hren); rewrite Hr in Hk; cbn in Hk; clear - Hk; destruct Hk as (? & _ & ?); auto].
    clear Hr Hs. apply xkeeps_bind; [apply (calm_steady0 (renewed w)); intros; apply calm_adb|]. intros _.
    apply xkeeps_bind; [apply (calm_steady0 (renewed w)); intros; apply calm_wait|]. intros _.
    apply xkeeps_bind; [apply (calm_steady0 (renewed w)); intros; apply calm_root|]. intros _.
    apply xkeeps_bind; [case_bool_decide; [by apply (startAdbLogcat_steady (renewed w))|apply xkeeps_ret]|]. intros _.
    case_bool_decide; [by apply (startVtsAgent_steady (renewed w))|apply xkeeps_ret].
  - apply Hend. match type of Hr with ?m _ = _ => assert (xkeeps (calm w) m) as Hk by calms end.
    specialize (Hk w1 Hcalm). by rewrite Hr in Hk.
Qed.
End processes.

(** ** Facts that every operation keeps *)

(** Of the serial number, and of a switch that is on. *)
Record stable (Q : AndroidDevice C P -> Prop) : Prop := {
  stable_logcat p l d : Q d -> Q (set_logcat p l d);
  stable_agent p d : Q d -> Q (set_agent p d);
  stable_device_port p d : Q d -> Q (set_device_port p d);
  stable_host_port p d : Q d -> Q (set_host_port p d);
  stable_trackers h l s r d : Q d -> Q (set_trackers h l s r d);
  stable_fatal b d : Q d -> Q (set_fatal b d);
  stable_switch d : Q d -> Q (set_enable_agent (Some (use_agent d)) d);
}.
Lemma stable_serial s : stable (fun d => serial d = s).
Proof. by split. Qed.
Lemma stable_agent_on : stable agent_on.
Proof. split; try done. intros d Hd. unfold agent_on, use_agent. by rewrite Hd. Qed.

Definition of_ad (Q : AndroidDevice C P -> Prop) (w : dev_world S C P) : Prop := Q (ad w).
Section stable.
Context (Q : AndroidDevice C P -> Prop) (HQ : stable Q).

Lemma of_ad_out {A} (m : xstM S A) : xkeeps (of_ad Q) (on_out m).
Proof. intros w Hw. unfold on_out. by destruct (m (out w)). Qed.
Lemma of_ad_set f : (forall d, Q d -> Q (f d)) -> xkeeps (of_ad Q) (set_ad f).
Proof. intros Hf w Hw. by apply Hf. Qed.
Lemma of_ad_get : xkeeps (of_ad Q) get_ad.
Proof. by intros w Hw. Qed.
Lemma of_ad_hal m : xkeeps (of_ad Q) (on_hal m).
Proof using HQ. intros w Hw. unfold on_hal. destruct (hal (ad w)); [|done]. destruct (m _) as [r [t' s']]. by apply (stable_trackers _ HQ). Qed.
Lemma of_ad_shell : xkeeps (of_ad Q) heal_shell.
Proof using HQ. intros w Hw. unfold heal_shell. destruct (shell (ad w)); [|done]. destruct (MirrorTracker.Heal _ _) as [r [t' s']]. by apply (stable_trackers _ HQ). Qed.

Hint Resolve of_ad_out of_ad_get of_ad_hal of_ad_shell : keeps.
Ltac stays := repeat first
  [ progress keeps
  | apply of_ad_set; intros;
    first [ by apply (stable_logcat _ HQ) | by apply (stable_agent _ HQ) | by apply (stable_device_port _ HQ) | by apply (stable_host_port _ HQ)
          | by apply (stable_trackers _ HQ) | by apply (stable_fatal _ HQ) | by apply (stable_switch _ HQ) ] ].

Lemma of_ad_adb_shell cmd l : xkeeps (of_ad Q) (adb_shell_timeout cmd l).
Proof. unfold adb_shell_timeout. stays. Qed.
Lemma of_ad_adb_do name args l : xkeeps (of_ad Q) (adb_do name args l).
Proof. unfold adb_do. stays. Qed.
Hint Resolve of_ad_adb_shell of_ad_adb_do : keeps.
Lemma of_ad_prop name : xkeeps (of_ad Q) (prop name).
Proof. unfold prop, getProp_timeout. stays. Qed.
Lemma of_ad_bootloader : xkeeps (of_ad Q) isBootloaderMode.
Proof. unfold isBootloaderMode. stays. Qed.
Hint Resolve of_ad_prop of_ad_bootloader : keeps.
Lemma of_ad_stop_process p : xkeeps (of_ad Q) (stop_standing_subprocess p).
Proof. unfold stop_standing_subprocess, assert_subprocess_running. stays. Qed.
Lemma of_ad_start_process c b : xkeeps (of_ad Q) (start_standing_subprocess c b).
Proof. unfold start_standing_subprocess, assert_subprocess_running. stays. Qed.
Hint Resolve of_ad_stop_process of_ad_start_process : keeps.

Lemma of_ad_stopServices : xkeeps (of_ad Q) stopServices.
Proof using HQ. unfold stopServices, stopAdbLogcat, stopVtsAgent. stays. Qed.
Lemma of_ad_try_agents l : xkeeps (of_ad Q) (try_agents l).
Proof using HQ. induction l as [|b l IH]; cbn [try_agents]; stays. Qed.
Hint Resolve of_ad_try_agents : keeps.
Lemma of_ad_startServices : xkeeps (of_ad Q) startServices.
Proof using HQ.
  unfold startServices. apply xkeeps_bind; [intros w Hw; by apply (stable_switch _ HQ)|]. intros _.
  unfold startAdbLogcat, model, startVtsAgent, llkd, StopLLKD, llkd, is64Bit, adb_shell, new_tracker, tcp_forward. stays.
Qed.
Lemma of_ad_wait fuel t : xkeeps (of_ad Q) (waitForBootCompletion fuel t).
Proof.
  unfold waitForBootCompletion. stays.
  generalize (time (out a)). intros start0. induction fuel as [|fuel IH]; cbn [wait_until]; [stays|].
  unfold isBootCompleted at 1. stays.
Qed.
Lemma of_ad_root : xkeeps (of_ad Q) rootAdb.
Proof. unfold rootAdb, isAdbRoot, adb_shell. stays. Qed.
Lemma of_ad_Heal : xkeeps (of_ad Q) Heal.
Proof using HQ. unfold Heal. stays. Qed.
End stable.

(** ** What goes wrong *)

(** Waiting in vain is no error of a reboot, although the documentation says so. *)
Lemma reboot_ignores_timeout fuel w w1 w2 w3 o :
  isBootloaderMode w = (Ret false, w1) -> adb_do (bs "reboot") [] None w1 = (Ret o, w2) ->
  waitForBootCompletion fuel BOOT_TIMEOUT_SEC w2 = (Ret (Some false), w3) ->
  reboot fuel false w = rootAdb w3.
Proof.
  intros H1 H2 H3. unfold reboot. erewrite xstM_bind_run by exact H1. unfold get_ad. erewrite xstM_bind_run by reflexivity.
  cbv zeta. erewrite xstM_bind_run by reflexivity. erewrite xstM_bind_run by exact H2. erewrite xstM_bind_run by exact H3.
  unfold mbind, xstM_bind. by destruct (rootAdb w3) as [[[]|e] w4].
Qed.

(** Whether a process runs cannot be asked: the call raises. *)
Lemma process_checks_raise name names timeout fuel w :
  exists e, (waitForProcessStop (name :: names) timeout (Datatypes.S fuel) w).1 = Exc e /\ exc_type e = Python_AttributeError.
Proof. eexists. split; [reflexivity|]. reflexivity. Qed.

(** A device that is not attached: the error that is meant is not defined. *)
Lemma unattached_device_error en connected i ads (w : S * list (AndroidDevice C P)) d :
  w.2 !! i = Some d -> (serial d ∉ connected) ->
  exists e, (check_attached en connected (i :: ads) w).1 = Exc e /\ exc_type e = NameError_.
Proof.
  intros Hd Hs. cbn [check_attached].
  assert ((_ ← set_ad (set_enable_agent (Some en)); d ← get_ad; mret (bool_decide (serial d ∈ connected))) (mk_dw w.1 d) =
          (Ret false, mk_dw w.1 (set_enable_agent (Some en) d))) as E.
  { erewrite xstM_bind_run by reflexivity. unfold get_ad. erewrite xstM_bind_run by reflexivity. cbn [ad].
    change (serial (set_enable_agent (Some en) d)) with (serial d). by rewrite bool_decide_eq_false_2. }
  eexists. split.
  - erewrite xstM_bind_run by (rewrite (on_device_run _ _ _ _ Hd), E; reflexivity). reflexivity.
  - reflexivity.
Qed.
(** ** The devices of a test class *)
Context (fuel_of_waits : nat) (DiagnoseHost : xstM S unit) (Mkdir : pystr -> xstM S bool).

Definition DiagnoseDevice : M unit :=
  d ← get_ad;
  _ ← on_out (adb_call_no_except ExecuteOneShellCommand (serial d) (bs "shell") [bs "ps aux | grep vts"] (Some DEFAULT_ADB_SHORT_TIMEOUT));
  _ ← on_out (adb_call_no_except ExecuteOneShellCommand (serial d) (bs "shell") [bs "cat /proc/meminfo"] (Some DEFAULT_ADB_SHORT_TIMEOUT));
  mret tt.

#[export] Instance android_devices : DeviceOps (S * list (AndroidDevice C P)) := {
  dev_serial d w := match w.2 !! d with Some a => serial a | None => [] end;
  dev_fatal_error d w := match w.2 !! d with Some a => fatal_error a | None => false end;
  dev_logcat_on d w := match w.2 !! d with Some a => bool_decide (is_Some (adb_logcat_process a)) | None => false end;
  dev_stop d b := on_device d (stop b);
  dev_start d := on_device d (start fuel_of_waits true);
  dev_waitForProcessStop d names := on_device d (waitForProcessStop names WAIT_TIMEOUT_SEC fuel_of_waits);
  dev_waitForBootCompletion d t := on_device d (waitForBootCompletion fuel_of_waits t);
  dev_rootAdb d := on_device d rootAdb;
  dev_stopServices d := on_device d stopServices;
  dev_startServices d := on_device d startServices;
  dev_Heal d := on_device d Heal;
  dev_diagnose d := on_device d DiagnoseDevice;
  dev_bugreport d path := on_device d (_ ← adb_do (bs "bugreport") [path] None; mret tt);
  dev_logcat d buffer path := on_device d (_ ← adb_do (bs "logcat") [bs "-b"; buffer; bs "-d"; bs ">"; path] None; mret tt);
  host_time w := time w.1;
  host_diagnose := on_host DiagnoseHost;
  host_adb_devices := on_host list_adb_devices;
  host_Mkdir path := on_host (Mkdir path);
}.

Lemma on_device_keeps {A} Q i j (m : M A) : xkeeps (of_ad Q) m -> xkeeps (fun w => holds Q w i) (on_device j m).
Proof.
  intros Hm [s l] Hw. destruct (l !! j) as [d|] eqn:Hj; [|unfold on_device; cbn; by rewrite Hj].
  rewrite (on_device_run j m (s, l) d Hj). cbn [snd fst]. destruct (decide (j = i)) as [->|Hne].
  - apply holds_insert; [by eexists|]. apply Hm. destruct Hw as (d' & Hd' & HQ). cbn in Hd'. by simplify_eq.
  - by apply (holds_other _ s).
Qed.
Lemma on_device_others {A} Q i j (m : M A) : i <> j -> xkeeps (fun w => holds Q w i) (on_device j m).
Proof.
  intros Hne [s l] Hw. destruct (l !! j) as [d|] eqn:Hj; [|unfold on_device; cbn; by rewrite Hj].
  rewrite (on_device_run j m (s, l) d Hj). by apply (holds_other _ s).
Qed.
Lemma on_host_keeps {A} Q i (m : xstM S A) : xkeeps (fun w => holds Q w i) (on_host m).
Proof. intros w Hw. unfold on_host. by destruct (m _). Qed.

Lemma of_ad_diagnose Q : xkeeps (of_ad Q) DiagnoseDevice.
Proof. intros w Hw. revert w Hw. unfold DiagnoseDevice. pose proof (fun A (m : xstM S A) => of_ad_out Q m). pose proof (of_ad_get Q). keeps. Qed.

(** What keeps the processes of any device keeps that they run. *)
Lemma as_in_running {A} (m : M A) : (forall d, xkeeps (as_in d) m) -> xkeeps (of_ad running) m.
Proof.
  intros Hm w [Hl Ha]. destruct (Hm (ad w) w) as (H1 & H2 & _); [by split_and!|]. unfold of_ad, running. by rewrite H1, H2.
Qed.
Lemma Heal_keeps d : xkeeps (as_in d) Heal.
Proof.
  unfold Heal. apply xkeeps_bind.
  { intros w Hw. unfold heal_shell. destruct (shell (ad w)); [|done]. by destruct (MirrorTracker.Heal _ _) as [r [t' s']]. }
  intros res. apply xkeeps_bind; [apply xkeeps_attempt, prop_keeps|]. intros [|e]; [services|].
  pose proof (list_fastboot_keeps d). services.
Qed.

Lemma quiet_device Q (HQ : stable Q \/ Q = running) i A (m : xstM _ A) : quiet A m -> xkeeps (fun w => holds Q w i) m.
Proof.
  intros Hq. destruct Hq; cbn [dev_waitForBootCompletion dev_rootAdb dev_Heal dev_diagnose host_diagnose host_adb_devices android_devices];
    try apply on_host_keeps; apply on_device_keeps; destruct HQ as [HQ| ->].
  - by apply of_ad_wait.
  - apply as_in_running. intros. apply boot_keeps.
  - by apply of_ad_root.
  - apply as_in_running. intros. apply rootAdb_keeps.
  - by apply of_ad_Heal.
  - apply as_in_running. intros. apply Heal_keeps.
  - apply of_ad_diagnose.
  - apply of_ad_diagnose.
Qed.

Lemma on_device_serial {A} i j s (m : M A) :
  (forall s, xkeeps (of_ad (fun d => serial d = s)) m) -> xkeeps (fun w => dev_serial i w = s) (on_device j m).
Proof.
  intros Hm w Hw. destruct (w.2 !! j) as [d|] eqn:Hj; [|unfold on_device; by rewrite Hj].
  rewrite (on_device_run j m w d Hj). cbn [dev_serial android_devices snd] in *. destruct (decide (j = i)) as [->|Hne].
  - rewrite list_lookup_insert_eq by by apply lookup_lt_is_Some. rewrite Hj in Hw. by apply (Hm s).
  - by rewrite list_lookup_insert_ne.
Qed.
Lemma on_host_serial {A} i s (m : xstM S A) : xkeeps (fun w => dev_serial i w = s) (on_host m).
Proof. intros w Hw. unfold on_host. by destruct (m _). Qed.

#[export] Instance android_laws : DeviceLaws (S * list (AndroidDevice C P)).
Proof using Hkill.
  refine {| serves d w := holds running w d; managed d w := holds agent_on w d |}.
  - intros d A m Hq. apply quiet_device; [by right|done].
  - intros d A m Hq. apply quiet_device; [left; apply stable_agent_on|done].
  - intros d s A m Hq. destruct Hq; cbn [dev_waitForBootCompletion dev_rootAdb dev_Heal dev_diagnose host_diagnose host_adb_devices android_devices];
      try apply on_host_serial; apply on_device_serial; intros s'.
    + by apply of_ad_wait.
    + by apply of_ad_root.
    + apply of_ad_Heal, stable_serial.
    + apply of_ad_diagnose.
  - intros d d'. split; apply on_device_keeps; [apply of_ad_stopServices|apply of_ad_startServices]; apply stable_agent_on.
  - intros d d' s. split; apply on_device_serial; intros; [apply of_ad_stopServices|apply of_ad_startServices]; apply stable_serial.
  - intros d d' Hne. split; by apply on_device_others.
  - cbn [dev_stopServices dev_startServices android_devices]. intros d w w1 w2 (a & Ha & Hon) H1 H2.
    rewrite (on_device_run d _ w a Ha) in H1.
    destruct (stopServices_run (mk_dw w.1 a)) as [s Hs]; [unfold use_agent; cbn; by rewrite Hon|]. rewrite Hs in H1. cbn [ad] in H1.
    set (a1 := set_agent None (set_logcat None (adb_logcat_file_path a) a)) in *.
    pose proof (on_hal_keeps a1 (CleanUp Disconnect SendHidlHandleRequest stop_server) (mk_dw s a1)) as Hk.
    destruct (on_hal _ (mk_dw s a1)) as [r wa]. cbn [fst snd] in H1, Hk. injection H1 as _ <-.
    destruct Hk as (K1 & K2 & K3); [by split_and!|].
    assert ((out wa, <[d := ad wa]> w.2).2 !! d = Some (ad wa)) as Hl by (cbn; apply list_lookup_insert_eq; by apply lookup_lt_is_Some).
    rewrite (on_device_run d _ _ _ Hl) in H2. cbn [fst] in H2.
    pose proof (startServices_triple (mk_dw (out wa) (ad wa))) as Ht.
    destruct (startServices (mk_dw (out wa) (ad wa))) as [r2 wb]. cbn [fst snd] in H2. injection H2 as -> <-.
    destruct Ht as (_ & Hl2 & Ha2); [split_and!; cbn [ad]; by rewrite ?K1, ?K2, ?K3|].
    apply bool_decide_eq_true in Hl2, Ha2. exists (ad wb). split; [|done].
    cbn. rewrite list_insert_insert_eq. apply list_lookup_insert_eq. by apply lookup_lt_is_Some.
Qed.
End device.

(** ** Choosing a device *)
Lemma forallb_false {A} (f : A -> bool) l : forallb f l = false <-> exists x, x ∈ l /\ f x = false.
Proof.
  induction l as [|y l IH]; cbn [forallb]; [split; [done|by intros (x & Hx%elem_of_nil & _)]|].
  rewrite andb_false_iff, IH. split.
  - intros [Hy|(x & Hx & Hf)]; [by exists y; split; [left|]|by exists x; split; [right|]].
  - intros (x & [->|Hx]%elem_of_cons & Hf); [by left|right; by exists x].
Qed.

Lemma filter_false {A} (f : A -> bool) l : filter (fun x => f x = true) l = [] <-> forall x, x ∈ l -> f x = false.
Proof.
  induction l as [|y l IH]; [split; [by intros _ x Hx%elem_of_nil|done]|]. rewrite filter_cons. destruct (f y) eqn:Hy.
  - rewrite decide_True by done. split; [done|]. intros H. by rewrite (H y ltac:(by left)) in Hy.
  - rewrite decide_False by congruence. rewrite IH. split; [|intros H x Hx; apply H; by right].
    intros H x [->|Hx]%elem_of_cons; [done|by apply H].
Qed.

Lemma filter_one {A} (f : A -> bool) l a :
  filter (fun x => f x = true) l = [a] <->
  exists l1 l2, l = l1 ++ a :: l2 /\ f a = true /\ forall b, b ∈ l1 ++ l2 -> f b = false.
Proof.
  induction l as [|y l IH]; [split; [done|by intros ([|] & ? & ? & _)]|]. rewrite filter_cons. destruct (f y) eqn:Hy.
  - rewrite decide_True by done. split.
    + intros [= -> H]. exists [], l. split; [done|]. split; [done|]. by apply filter_false.
    + intros ([|z l1] & l2 & [= -> ->] & Ha & Hb).
      * f_equal. by apply filter_false.
      * rewrite (Hb z) in Hy; [done|by left].
  - rewrite decide_False by congruence. rewrite IH. split.
    + intros (l1 & l2 & -> & Ha & Hb). exists (y :: l1), l2. split; [done|]. split; [done|].
      intros b [->|Hin]%elem_of_cons; [done|by apply Hb].
    + intros ([|z l1] & l2 & [= -> ->] & Ha & Hb); [congruence|]. exists l1, l2. split; [done|]. split; [done|].
      intros b Hin. apply Hb. by right.
Qed.

(** A device is chosen exactly when one and only one of the list has all the
    attributes that are asked for. *)
Theorem get_device_unique {A V} (same : A -> pystr -> V -> bool) ads kwargs a :
  get_device same ads kwargs = Ret a <->
  exists l1 l2, ads = l1 ++ a :: l2 /\ (forall k v, (k, v) ∈ kwargs -> same a k v = true) /\
    forall b, b ∈ l1 ++ l2 -> exists k v, (k, v) ∈ kwargs /\ same b k v = false.
Proof.
  assert (get_device same ads kwargs = Ret a <-> filter (fun b => get_device_filter same kwargs b = true) ads = [a]) as ->.
  { unfold get_device, filter_devices. destruct (filter _ _) as [|b [|c l]]; split; congruence. }
  rewrite filter_one. unfold get_device_filter.
  split; intros (l1 & l2 & -> & Ha & Hb); exists l1, l2; (split; [done|]); split.
  - intros k v Hkv. rewrite forallb_forall in Ha. apply (Ha (k, v)). by apply list_elem_of_In.
  - intros b Hin. specialize (Hb b Hin). apply forallb_false in Hb as ([k v] & Hkv & Hs). by exists k, v.
  - apply forallb_forall. intros [k v] Hkv%list_elem_of_In. by apply Ha.
  - intros b Hin. destruct (Hb b Hin) as (k & v & Hkv & Hs). apply forallb_false. by exists (k, v).
Qed.

(** The name of a bug report fits when what comes after the name of the test does. *)
Lemma bug_report_name_bounded test_name begin_time serial :
  length begin_time + length serial + 6 <= 255 -> (Z.of_nat (length (bug_report_name test_name begin_time serial)) <= MAX_FILENAME_LEN)%Z.
Proof.
  intros Hl. unfold bug_report_name. set (base := bs "," ++ _).
  assert (length base = length begin_time + length serial + 6) as Hb.
  { unfold base. rewrite !length_app. change (length (bs ",")) with 1. change (length (bs ".txt")) with 4. lia. }
  rewrite length_app. unfold py_slice. rewrite length_take. unfold py_clamp, MAX_FILENAME_LEN.
  repeat case_match; rewrite ?Z.ltb_lt, ?Z.ltb_ge in *; lia.
Qed.

(** ** Examples *)

(** A host whose state is its clock: devices boot at 3, the port of the second has no
    server for callbacks. *)
Module SampleDevices.
Definition run (c : pystr) (_ : Z) (s : Z) : xres (pystr * pystr * Z) * Z :=
  (Ret (if contains (bs "boot_completed") c || contains (bs "bootcomplete") c then (if (3 <=? s)%Z then bs "1" else bs "0")
        else if contains (bs "vts_tcp_server_port") c then bs "5001" else [], [], 0%Z), s).
Definition popen (_ : pystr) : xstM Z (pystr * pystr) := mret ([], []).
Definition sleep_one : xstM Z unit := fun s => (Ret tt, (s + 1)%Z).
Definition start_process (_ : pystr) : xstM Z nat := mret 1.
Definition poll (_ : nat) (_ : Z) : option Z := None.
Definition quiet {A} (_ : A) : xstM Z unit := mret tt.
Definition server (p : Z) : xstM Z bool := mret (p =? 7000)%Z.
Definition device (port : Z) : AndroidDevice unit nat :=
  set_callback_port port (set_enable_agent (Some true) (new_device (bs "/logs/") (bs "X") (bs "unknown") 5010 false)).
Abbreviation start := (startServicesOnAds run popen sleep_one start_process poll quiet quiet quiet (mret 6000%Z) server (quiet (A := unit))
  (fun (_ : unit) (_ : HidlHandleRequestMessage) => mret None) (mret tt) [0; 1]).
Lemma sleeps s : exists s', sleep_one s = (Ret tt, s') /\ (id s + 1 <= id s')%Z.
Proof. by exists (s + 1)%Z. Qed.
End SampleDevices.

(** The device boots while it is waited for. *)
Example boot_wait_ends_witness :
  exists w', waitForBootCompletion SampleDevices.run id SampleDevices.sleep_one 11 10 (mk_dw 0%Z (SampleDevices.device 7000)) = (Ret (Some true), w') /\
    (exists w0, isBootCompleted SampleDevices.run w0 = (Ret true, w')) /\ out w' = 3%Z.
Proof.
  pose proof (boot_wait_ends SampleDevices.run id SampleDevices.sleep_one (fun c l s => Z.le_refl _) SampleDevices.sleeps 11 10
    (mk_dw 0%Z (SampleDevices.device 7000)) ltac:(cbn; lia)) as H.
  match type of H with match ?x with _ => _ end =>
    assert (x = (Ret (Some true), mk_dw 3%Z (SampleDevices.device 7000))) as E by (vm_compute; reflexivity); rewrite E in H
  end.
  eexists. split; [exact E|]. split; [exact H|reflexivity].
Defined.

(** A model number chooses the second of three devices. *)
Example get_device_unique_witness :
  get_device (fun (d : list (pystr * pystr)) k v => existsb (fun kv => bool_decide (kv = (k, v))) d)
    [[(bs "model", bs "a")]; [(bs "model", bs "b"); (bs "label", bs "x")]; [(bs "label", bs "x")]]
    [(bs "model", bs "b"); (bs "label", bs "x")] = Ret [(bs "model", bs "b"); (bs "label", bs "x")].
Proof.
  apply get_device_unique. exists [[(bs "model", bs "a")]], [[(bs "label", bs "x")]]. split; [reflexivity|]. split.
  - intros k v [[= -> ->]|[[= -> ->]|H%elem_of_nil]%elem_of_cons]%elem_of_cons; [vm_compute; reflexivity..|done].
  - intros b [->|[->|H%elem_of_nil]%elem_of_cons]%elem_of_cons; [..|done]; exists (bs "model"), (bs "b");
      (split; [by left|vm_compute; reflexivity]).
Defined.

(** A host that remembers the processes it started and those that it sent the signal. *)
Module SampleProcesses.
Record host := mk_host { clock : Z; pids : list nat; terminated : list nat }.
Definition on_clock {A} (m : xstM Z A) : xstM host A := fun s => let '(r, t) := m (clock s) in (r, mk_host t (pids s) (terminated s)).
Definition run (c : pystr) (t : Z) : xstM host (pystr * pystr * Z) := on_clock (SampleDevices.run c t).
Definition popen (_ : pystr) : xstM host (pystr * pystr) := mret ([], []).
Definition sleep_one : xstM host unit := on_clock SampleDevices.sleep_one.
Definition start_process (_ : pystr) : xstM host nat := fun s =>
  let p := S (list_max (pids s)) in (Ret p, mk_host (clock s) (p :: pids s) (terminated s)).
Definition poll (p : nat) (s : host) : option Z := if bool_decide (p ∈ terminated s) then Some (-15)%Z else None.
Definition kill_group (p : nat) : xstM host unit := fun s => (Ret tt, mk_host (clock s) (pids s) (p :: terminated s)).
Definition quiet {A} (_ : A) : xstM host unit := mret tt.
Definition server (p : Z) : xstM host bool := mret (p =? 7000)%Z.
Definition request (_ : unit) (_ : HidlHandleRequestMessage) : xstM host (option HidlHandleResponseMessage) := mret None.
Lemma kills p s : exists s', kill_group p s = (Ret tt, s').
Proof. by eexists. Qed.

Lemma on_clock_quiet {A} (m : xstM Z A) : quiet_out poll pids terminated (on_clock m).
Proof. intros s0 s Hs. unfold on_clock. by destruct (m (clock s)). Qed.

#[global] Instance laws : ProcessLaws run popen sleep_one start_process poll kill_group quiet quiet (mret 6000%Z) server (quiet (A := unit)) request (mret tt) pids terminated.
Proof.
  assert (forall A (a : A), quiet_out poll pids terminated (mret a)) as Hret by (intros A a; apply quiet_ret).
  split; try (intros; apply on_clock_quiet); try (intros; apply Hret).
  - intros s. eexists. split; [reflexivity|]. by split.
  - intros c s. cbn. split; [done|]. split; [|done]. intros Hin%list_elem_of_In.
    pose proof (proj1 (list_max_le (pids s) (list_max (pids s))) (le_n _)) as Hmax. rewrite List.Forall_forall in Hmax.
    specialize (Hmax _ Hin). lia.
  - intros p s. eexists. split; [reflexivity|]. split; [|by left]. split; [done|]. intros q [[c Hq]|Hq]; [left|right; by right].
    unfold poll in *. cbn. case_bool_decide as Hq'; [|done]. rewrite bool_decide_true by by right. by eexists.
Qed.
Abbreviation start := (startServicesOnAds run popen sleep_one start_process poll kill_group quiet quiet (mret 6000%Z) server (quiet (A := unit)) request (mret tt) [0; 1]).
End SampleProcesses.

(** The second device fails when its agent runs: four processes were started, and all
    were sent the signal. *)
Example services_start_together_witness :
  let w := (SampleProcesses.mk_host 0 [] [], [SampleDevices.device 7000; SampleDevices.device 7001]) in
  let w' := (SampleProcesses.start w).2 in
  (exists e, (SampleProcesses.start w).1 = Exc e /\ exc_type e = ComponentLoadingError) /\
  SampleProcesses.pids w'.1 = [4; 3; 2; 1] /\
  forall p, p ∈ SampleProcesses.pids w'.1 -> ended SampleProcesses.poll SampleProcesses.terminated p w'.1 \/
    exists i, (i ∉ [0; 1]) /\ holds (fun d => hold d p) w' i.
Proof.
  intros w w'.
  pose proof (services_start_together SampleProcesses.run SampleProcesses.popen SampleProcesses.sleep_one SampleProcesses.start_process
    SampleProcesses.poll SampleProcesses.kill_group SampleProcesses.quiet SampleProcesses.quiet (mret 6000%Z) SampleProcesses.server
    (SampleProcesses.quiet (A := unit)) SampleProcesses.request (mret tt) SampleProcesses.kills SampleProcesses.pids SampleProcesses.terminated [0; 1] w) as H.
  assert (exists e, (SampleProcesses.start w).1 = Exc e /\ exc_type e = ComponentLoadingError) as (e & He & Hc).
  { eexists. split; vm_compute; reflexivity. }
  split; [exact (ex_intro _ e (conj He Hc))|]. split; [vm_compute; reflexivity|]. subst w'. revert H He. generalize (SampleProcesses.start w) as x.
  intros [r w'] H He. cbn [fst snd] in *. rewrite He in H. apply H.
  - apply (bool_decide_unpack _). vm_compute. exact I.
  - intros i [->|[->|Hi%elem_of_nil]%elem_of_cons]%elem_of_cons; [..|done]; (eexists; split; [reflexivity|]); repeat split.
  - intros p. split; [by intros Hp%elem_of_nil|]. intros (i & d & Hd & Hh).
    destruct i as [|[|]]; [..|done]; injection Hd as <-; destruct Hh; discriminate.
Defined.

(** The agent that ran is sent the signal, and another one runs after the reboot. *)
Example reboot_restores_services_witness :
  let w := mk_dw (SampleProcesses.mk_host 0 [2; 1] []) (set_agent (Some 2) (SampleDevices.device 7000)) in
  exists w', reboot SampleProcesses.run SampleProcesses.popen SampleProcesses.clock SampleProcesses.sleep_one SampleProcesses.start_process
    SampleProcesses.poll SampleProcesses.kill_group SampleProcesses.quiet SampleProcesses.quiet 901 true w = (Ret tt, w') /\
    vts_agent_process (ad w') = Some 3 /\
    forall p, (hold (ad w) p -> ended SampleProcesses.poll SampleProcesses.terminated p (out w')) /\
      (hold (ad w') p -> p ∈ SampleProcesses.pids (out w') /\ (p ∉ SampleProcesses.pids (out w))).
Proof.
  intros w. eexists. split; [vm_compute; reflexivity|]. split; [reflexivity|].
  eapply (fun B H => proj2 (proj2 (reboot_restores_services SampleProcesses.run SampleProcesses.popen SampleProcesses.clock SampleProcesses.sleep_one
    SampleProcesses.start_process SampleProcesses.poll SampleProcesses.kill_group SampleProcesses.quiet SampleProcesses.quiet (mret 6000%Z) SampleProcesses.server
    (SampleProcesses.quiet (A := unit)) SampleProcesses.request (mret tt) SampleProcesses.kills SampleProcesses.pids SampleProcesses.terminated 901 true false
    w _ B H))); vm_compute; reflexivity.
Defined.
