(* ===== verification/UserParams.v ===== *)
(** * Parameters of a test class ([src/runners/host/base_test.py])

    A test class is given the parameters of its configuration: a dictionary of
    values of any type.  Its constructor reads them one by one, with defaults, and
    makes the filter that selects the tests; this file has the readers, that part
    of the constructor, and the settings under which BaseTest executes a test. *)

From Stdlib Require Import Strings.Byte.
From S2P Require Import Prelude PyStr ListUtils FilterUtils PyVal Signals Shell Config Records BaseTest.

Definition KEY_TEST_SUITE : pystr := bs "test_suite".
Definition KEY_TEST_TIMEOUT : pystr := bs "test_timeout".
Definition KEY_INCLUDE_FILTER : pystr := bs "include_filter".
Definition KEY_EXCLUDE_FILTER : pystr := bs "exclude_filter".
Definition KEY_EXCLUDE_OVER_INCLUDE : pystr := bs "exclude_over_include".
Definition IKEY_MAX_RETRY_COUNT : pystr := bs "max_retry_count".
Definition IKEY_ABI_NAME : pystr := bs "abi_name".
Definition IKEY_ABI_BITNESS : pystr := bs "abi_bitness".
Definition IKEY_RUN_32BIT_ON_64BIT_ABI : pystr := bs "run_32bit_on_64bit_abi".
Definition IKEY_SKIP_ON_32BIT_ABI : pystr := bs "skip_on_32bit_abi".
Definition IKEY_SKIP_ON_64BIT_ABI : pystr := bs "skip_on_64bit_abi".
Definition IKEY_BUG_REPORT_ON_FAILURE : pystr := bs "BUG_REPORT_ON_FAILURE".
Definition IKEY_LOGCAT_ON_FAILURE : pystr := bs "LOGCAT_ON_FAILURE".
Definition IKEY_USER_CONFIG_STR : pystr := bs "CONFIG_STR".
Definition IKEY_USER_CONFIG_INT : pystr := bs "CONFIG_INT".
Definition IKEY_USER_CONFIG_BOOL : pystr := bs "CONFIG_BOOL".
Definition IKEY_COLLECT_TESTS_ONLY : pystr := bs "collect_tests_only".
Definition RUN_AS_VTS_SELFTEST : pystr := bs "run_as_vts_self_test".
Definition RUN_AS_COMPLIANCE_TEST : pystr := bs "run_as_compliance_test".
Definition DEFAULT_TEST_TIMEOUT_SECS : Z := 60 * 3.

(** ** [k in v] and [v[k]] for a string [k] *)
Definition dict_get (k : pystr) (d : list (pystr * pyval)) : option pyval :=
  snd <$> head (filter (fun kv => kv.1 = k) d).

Definition type_error (text : pystr) : exn := EOther Python_TypeError text.
Definition is_str (k : pystr) (v : pyval) : bool := match v with PyVal.PStr s => bool_decide (s = k) | _ => false end.
Definition py_contains (k : pystr) (v : pyval) : xres bool :=
  match v with
  | PDict d => Ret (bool_decide (is_Some (dict_get k d)))
  | PyVal.PList l => Ret (existsb (is_str k) l)
  | PyVal.PStr s => Ret (contains k s)
  | _ => Exc (type_error (bs "argument is not iterable"))
  end.
Definition py_getitem (v : pyval) (k : pystr) : xres pyval :=
  match v with
  | PDict d => match dict_get k d with Some x => Ret x | None => Exc (EOther Python_KeyError (repr_str k)) end
  | _ => Exc (type_error (bs "indices must be integers"))
  end.

Section params.
Context (user_params : pyval).

(** ** [getUserParam] *)

(** One name, or a list of names for dictionaries inside each other. *)
Definition param_name : Type := pystr + list pystr.
Definition no_name (p : param_name) : bool := match p with inl [] | inr [] => true | _ => false end.
Definition names_of (p : param_name) : list pystr := match p with inl s => [s] | inr l => l end.

Definition ToStr (to_str : bool) (return_value : pyval) : pyval :=
  match return_value with PNone => PNone | v => if to_str then PyVal.PStr (str_val v) else v end.

(** [None]: a name is missing. *)
Fixpoint follow_names (names : list pystr) (curr_obj : pyval) : xres (option pyval) :=
  match names with
  | [] => Ret (Some curr_obj)
  | param :: names =>
      b ← py_contains param curr_obj;
      if b : bool then v ← py_getitem curr_obj param; follow_names names v else Ret None
  end.

Definition missing_error (p : param_name) : exn :=
  EOther BaseTestError (bs "Missing user param '" ++ str_val (PyVal.PList (PyVal.PStr <$> names_of p)) ++ bs "' in test configuration." ++ [Byte.x0a] ++
                        bs "User params: " ++ str_val user_params).
Definition getUserParam (p : param_name) (error_if_not_found : bool) (default_value : pyval) (to_str : bool) : xres pyval :=
  if no_name p then
    if error_if_not_found then Exc (EOther BaseTestError (bs "empty param_name provided")) else Ret (ToStr to_str default_value)
  else
    r ← follow_names (names_of p) user_params;
    match r with
    | None => if error_if_not_found then Exc (missing_error p) else Ret (ToStr to_str default_value)
    | Some v => Ret (ToStr to_str v)
    end.
(** [self.getUserParam(name, default_value=d)] *)
Definition param (name : pystr) (default_value : pyval) : xres pyval := getUserParam (inl name) false default_value false.

(** ** [getUserParams]: parameters as attributes *)
Fixpoint set_required_params (names : list pystr) : xstM (gmap pystr pyval) unit :=
  match names with
  | [] => mret tt
  | name :: names =>
      b ← xlift (py_contains name user_params);
      if b : bool then v ← xlift (py_getitem user_params name); _ ← xmodify (fun a => <[name := v]> a); set_required_params names
      else xlift (Exc (EOther BaseTestError (bs "Missing required user param '" ++ name ++ bs "' in test configuration.")))
  end.
Fixpoint set_optional_params (names : list pystr) : xstM (gmap pystr pyval) unit :=
  match names with
  | [] => mret tt
  | name :: names =>
      b ← xlift (py_contains name user_params);
      _ ← (if b : bool then v ← xlift (py_getitem user_params name); xmodify (fun a => <[name := v]> a) else mret tt);
      set_optional_params names
  end.
Definition getUserParams (req_param_names opt_param_names : list pystr) (kwargs : list (pystr * pyval)) : xstM (gmap pystr pyval) unit :=
  _ ← xmodify (fun a => foldl (fun a kv => <[kv.1 := kv.2]> a) a kwargs);
  _ ← set_required_params req_param_names;
  set_optional_params opt_param_names.
Definition unpack_userparams := getUserParams.

(** ** [_getUserConfig]: an entry of one of three dictionaries *)
Definition getUserConfig (config_type key : pystr) (default_value : pyval) (error_if_not_found to_str : bool) : xres pyval :=
  dic ← getUserParam (inl config_type) false PNone false;
  found ← match dic with PNone => Ret false | _ => py_contains key dic end;
  if found : bool then
    v ← py_getitem dic key; Ret (if to_str then PyVal.PStr (str_val v) else v)
  else if error_if_not_found then
    Exc (EOther BaseTestError (bs "Config key " ++ key ++ bs " not found in user config type " ++ config_type ++ bs "." ++ [Byte.x0a] ++
                              bs "User params: " ++ str_val user_params))
  else Ret default_value.
Definition getUserConfigStr (key : pystr) (default_value : pyval) (error_if_not_found : bool) : xres pyval :=
  getUserConfig IKEY_USER_CONFIG_STR key default_value error_if_not_found true.
Definition getUserConfigInt (key : pystr) (default_value : pyval) (error_if_not_found to_str : bool) : xres pyval :=
  getUserConfig IKEY_USER_CONFIG_INT key default_value error_if_not_found to_str.
Definition getUserConfigBool (key : pystr) (default_value : pyval) (error_if_not_found to_str : bool) : xres pyval :=
  getUserConfig IKEY_USER_CONFIG_BOOL key default_value error_if_not_found to_str.

(** ** The constructor *)

(** What [for x in v] goes through; [None] has its own case in the code. *)
Definition items_of (v : pyval) : xres (option (list pyval)) :=
  match v with
  | PNone => Ret None
  | PyVal.PList l => Ret (Some l)
  | PyVal.PStr s => Ret (Some ((fun b => PyVal.PStr [b]) <$> s))
  | PDict d => Ret (Some ((fun kv => PyVal.PStr kv.1) <$> d))
  | _ => Exc (type_error (bs "object is not iterable"))
  end.
Definition filter_items (v : pyval) : xres (option (list pystr)) :=
  items ← items_of v;
  of_pyres (ExpandItemDelimiters (ItemsToStr str_val items) (bs ",") false false true).

(** Integer division of milliseconds. *)
Definition timeout_of (timeout_milli : pyval) : xres Z :=
  match timeout_milli with
  | PInt z => Ret (if 0 <? z then z / 1000 else DEFAULT_TEST_TIMEOUT_SECS)%Z
  | PBool b => Ret (if b then 0 else DEFAULT_TEST_TIMEOUT_SECS)%Z
  | PNone => Ret DEFAULT_TEST_TIMEOUT_SECS
  | _ => Exc (type_error (bs "unsupported operand type(s) for /"))
  end.

Record TestParams := mk_tp {
  tp_timeout : Z;
  tp_include_filter : list pystr;
  tp_exclude_filter : list pystr;
  tp_module_name : pyval;
  tp_filter : Filter;
  tp_abi_name : pyval;
  tp_abi_bitness : pyval;
  tp_skip_on_32bit_abi : pyval;
  tp_skip_on_64bit_abi : pyval;
  tp_run_32bit_on_64bit_abi : pyval;
  tp_max_retry_count : pyval;
  tp_collect_tests_only : pyval;
  tp_run_as_vts_self_test : pyval;
  tp_run_as_compliance_test : pyval;
  tp_bug_report_on_failure : pyval;
  tp_logcat_on_failure : pyval;
}.

Definition module_of (v : pyval) : option pystr := if truthy v then Some (str_val v) else None.
Definition over_of (v : pyval) : option bool := match v with PNone => None | v => Some (truthy v) end.

Section regex.
Context (re_compile : pystr -> option (pystr -> option nat)).

(** The two lists are new objects; a list that is [None] cannot be gone through. *)
Definition updateTestFilter (h : heap) (include_filter exclude_filter test_module_name : pyval) :
    xres (heap * (list pystr * list pystr * Filter)) :=
  inc ← filter_items include_filter;
  exc ← filter_items exclude_filter;
  over ← param KEY_EXCLUDE_OVER_INCLUDE PNone;
  match inc, exc with
  | Some inc, Some exc =>
      let l := fresh (dom h) in
      let h := <[l := inc]> h in
      let k := fresh (dom h) in
      let h := <[k := exc]> h in
      Ret (h, (inc, exc, new_Filter re_compile h l k true (over_of over) true true (module_of test_module_name) true))
  | _, _ => Exc (type_error (bs "'NoneType' object is not iterable"))
  end.

Definition new_test (class_name : pystr) (h : heap) : xres (heap * TestParams) :=
  timeout ← param KEY_TEST_TIMEOUT (PInt 0);
  timeout ← timeout_of timeout;
  inc ← getUserParam (inr [KEY_TEST_SUITE; KEY_INCLUDE_FILTER]) false (PyVal.PList []) false;
  exc ← getUserParam (inr [KEY_TEST_SUITE; KEY_EXCLUDE_FILTER]) false (PyVal.PList []) false;
  module ← param KEY_TESTBED_NAME (PyVal.PStr class_name);
  '(h, (inc, exc, f)) ← updateTestFilter h inc exc module;
  abi_name ← param IKEY_ABI_NAME PNone;
  abi_bitness ← param IKEY_ABI_BITNESS PNone;
  skip32 ← param IKEY_SKIP_ON_32BIT_ABI (PBool false);
  skip64 ← param IKEY_SKIP_ON_64BIT_ABI (PBool false);
  run32 ← param IKEY_RUN_32BIT_ON_64BIT_ABI (PBool false);
  retries ← param IKEY_MAX_RETRY_COUNT (PInt 0);
  collect ← param IKEY_COLLECT_TESTS_ONLY (PBool false);
  selftest ← param RUN_AS_VTS_SELFTEST (PBool false);
  compliance ← param RUN_AS_COMPLIANCE_TEST (PBool false);
  bug_report ← param IKEY_BUG_REPORT_ON_FAILURE (PBool false);
  logcat ← param IKEY_LOGCAT_ON_FAILURE (PBool true);
  Ret (h, mk_tp timeout inc exc module f abi_name abi_bitness skip32 skip64 run32 retries collect selftest compliance bug_report logcat).
End regex.
End params.

(** ** The settings of BaseTest *)

(** A bitness that is no text, a name that is none or a number of retries below zero
    are outside of what BaseTest models. *)
Definition text_or_none (v : pyval) : option (option pystr) :=
  match v with PNone => Some None | PyVal.PStr s => Some (Some s) | _ => None end.
Definition text_of (v : pyval) : option pystr := match v with PyVal.PStr s => Some s | _ => None end.
Definition count_of (v : pyval) : option nat :=
  match v with PInt z => if (z <? 0)%Z then None else Some (Z.to_nat z) | PBool b => Some (if b then 1 else 0) | _ => None end.
Definition config_of (tp : TestParams) : option config :=
  name ← text_of (tp_module_name tp);
  bitness ← text_or_none (tp_abi_bitness tp);
  retries ← count_of (tp_max_retry_count tp);
  Some (mk_config name (tp_filter tp) bitness (truthy (tp_skip_on_32bit_abi tp)) (truthy (tp_skip_on_64bit_abi tp))
          (truthy (tp_run_32bit_on_64bit_abi tp)) (truthy (tp_collect_tests_only tp)) (truthy (tp_bug_report_on_failure tp))
          (truthy (tp_logcat_on_failure tp)) retries).

(** ** Readers *)

(** A value that the names lead to, through dictionaries. *)
Inductive reaches : pyval -> list pystr -> pyval -> Prop :=
  | reaches_here v : reaches v [] v
  | reaches_item d k x ks v : dict_get k d = Some x -> reaches x ks v -> reaches (PDict d) (k :: ks) v.

(** The names end in a dictionary without the next one (or in a list or a text that
    does not have it). *)
Inductive misses : pyval -> list pystr -> Prop :=
  | misses_here v k ks : py_contains k v = Ret false -> misses v (k :: ks)
  | misses_below d k x ks : dict_get k d = Some x -> misses x ks -> misses (PDict d) (k :: ks).

Lemma follow_names_spec names v :
  match follow_names names v with
  | Ret (Some x) => reaches v names x
  | Ret None => misses v names
  | Exc e => exc_type e = Python_TypeError /\ ~ (exists x, reaches v names x) /\ ~ misses v names
  end.
Proof.
  revert v. induction names as [|k names IH]; intros v; [constructor|].
  assert (forall e, exc_type e = Python_TypeError -> py_contains k v <> Ret false -> (forall d, v <> PDict d) ->
    exc_type e = Python_TypeError /\ ~ (exists x, reaches v (k :: names) x) /\ ~ misses v (k :: names)) as Hbad.
  { intros e He Hc Hd. split; [done|]. split; [|inversion 1; by subst; naive_solver].
    intros [x Hx]. inversion Hx; subst. by eapply Hd. }
  destruct v as [|b|z|s|l|d|t]; cbn [follow_names py_contains mbind xres_bind]; try (by apply (Hbad (type_error _))).
  - destruct (contains k s) eqn:Hc; cbn [mbind xres_bind py_getitem]; [|constructor; cbn [py_contains]; by rewrite Hc]. apply (Hbad (type_error _)); [done|cbn [py_contains]; by rewrite Hc|done].
  - destruct (existsb (is_str k) l) eqn:Hc; cbn [mbind xres_bind py_getitem]; [|constructor; cbn [py_contains]; by rewrite Hc]. apply (Hbad (type_error _)); [done|cbn [py_contains]; by rewrite Hc|done].
  - destruct (dict_get k d) as [x|] eqn:Hx.
    + rewrite bool_decide_true by eauto. cbn. rewrite Hx. cbn. specialize (IH x).
      destruct (follow_names names x) as [[y|]|e]; [by econstructor|by econstructor|].
      destruct IH as (He & Hr & Hm). split_and!; [done| |].
      * intros [y Hy]. inversion Hy; simplify_eq. eauto.
      * intros Hm'. inversion Hm' as [? ? ? Hc|]; simplify_eq; [|done]. cbn in Hc. rewrite Hx in Hc. by rewrite bool_decide_true in Hc by eauto.
    + rewrite bool_decide_false by (by intros [? [=]]). constructor. cbn. rewrite Hx. by rewrite bool_decide_false by (by intros [? [=]]).
Qed.

Lemma reaches_not_misses v names x : reaches v names x -> ~ misses v names.
Proof.
  induction 1 as [|d k x ks v Hx _ IH]; [by inversion 1|]. inversion 1 as [? ? ? Hc|]; simplify_eq; [|done].
  cbn in Hc. rewrite Hx, bool_decide_true in Hc by eauto. done.
Qed.

Lemma reaches_unique v names x y : reaches v names x -> reaches v names y -> x = y.
Proof. intros Hx. revert y. induction Hx; intros y Hy; inversion Hy; simplify_eq; eauto. Qed.

(** A parameter is the value that its names lead to, if there is one; the default when
    a name is missing, unless that is to be an error; and when the names lead through
    something that is no dictionary the call raises TypeError, whatever was asked for. *)
Theorem getUserParam_spec user_params names error_if_not_found default_value to_str :
  names <> [] ->
  let r := getUserParam user_params (inr names) error_if_not_found default_value to_str in
  (forall v, reaches user_params names v -> r = Ret (ToStr to_str v)) /\
  (misses user_params names ->
   if error_if_not_found then exists e, r = Exc e /\ exc_type e = BaseTestError else r = Ret (ToStr to_str default_value)) /\
  (~ misses user_params names -> (forall v, ~ reaches user_params names v) -> exists e, r = Exc e /\ exc_type e = Python_TypeError).
Proof.
  intros Hne r. subst r. unfold getUserParam. assert (no_name (inr names) = false) as -> by by destruct names.
  cbn [names_of]. pose proof (follow_names_spec names user_params) as H.
  destruct (follow_names names user_params) as [[x|]|e]; cbn [mbind xres_bind].
  - split_and!; [|by intros []%(reaches_not_misses _ _ _ H)|by intros _ []%(fun f => f x)]. intros v Hv. by rewrite (reaches_unique _ _ _ _ H Hv).
  - split_and!; [by intros v Hv; destruct (reaches_not_misses _ _ _ Hv)| |by intros []]. destruct error_if_not_found; [by eexists|done].
  - destruct H as (He & Hr & Hm). split_and!; [|done|by eexists]. intros v Hv. destruct Hr. by exists v.
Qed.

(** ** The tests that a filter selects *)
Definition comma : Byte.byte := Byte.x2c.
(** A name that can stand in a list with commas between. *)
Definition listed_name (p : pystr) : Prop := plain_pattern p /\ no_byte comma p = true /\ p <> [].
Definition comma_list (names : list pystr) : pyval := PyVal.PStr (join_with [comma] names).

Lemma ItemsToStr_map (l : list pyval) : ItemsToStr str_val (Some l) = Some (str_val <$> l).
Proof. by destruct l. Qed.

Lemma filter_items_groups groups :
  Forall (fun g => g <> [] /\ Forall listed_name g) groups ->
  filter_items (PyVal.PList (comma_list <$> groups)) = Ret (Some (mjoin groups)).
Proof.
  intros Hg. unfold filter_items. cbn [items_of mbind xres_bind]. rewrite ItemsToStr_map. unfold ExpandItemDelimiters.
  erewrite (mapM_py_map (split_item (bs ",")) (split [comma])) by done. cbn [mbind pyres_bind of_pyres]. do 2 f_equal.
  rewrite <- !list_fmap_compose.
  assert ((split [comma] ∘ str_val ∘ comma_list) <$> groups = groups) as E.
  { rewrite <- (list_fmap_id groups) at 2. apply list_fmap_ext. intros i g Hi.
    pose proof (proj1 (Forall_lookup _ _) Hg i g Hi) as [Hne Hl]. cbn. apply split_join; [done|].
    apply forallb_forall. intros p Hp%list_elem_of_In. by destruct (proj1 (Forall_forall _ _) Hl p Hp) as (_ & ? & _). }
  change (fmap (split [comma] ∘ (str_val ∘ comma_list)) groups) with (fmap (split [comma] ∘ str_val ∘ comma_list) groups).
  rewrite E. unfold fmap. rewrite list_fmap_id. apply filter_all_id. apply Forall_forall.
  intros p Hp. apply list_elem_of_join in Hp as (g & Hp & Hin). 
  destruct (proj1 (Forall_forall _ _) Hg g Hin) as [_ Hl]. by destruct (proj1 (Forall_forall _ _) Hl p Hp) as (_ & _ & ?).
Qed.

Section selected.
Context (re_compile : pystr -> option (pystr -> option nat)).

(** The name of a test or, with the module in front, its full name is in the list, with
    or without a bitness. *)
Definition selected (names : list pystr) (n : pystr) : Prop := exists p, p ∈ names /\ n ∈ expand_item p.

Lemma rules_match_plain f names n :
  enable_regex f = true -> expand_bitness f = true -> Forall plain_pattern names ->
  rules_match re_compile f names n = true <-> selected names n.
Proof.
  intros Hrx Hex Hpl. unfold rules_match, selected. rewrite Hrx, Hex, existsb_exists. rewrite Forall_forall in Hpl.
  setoid_rewrite <- list_elem_of_In. unfold pattern_matches, plain_matches, exact_name.
  split; intros (p & Hp & H); exists p; (split; [done|]); destruct (Hpl p Hp) as (H1 & H2 & _); rewrite H1, H2 in *; cbn [andb] in *;
    by apply bool_decide_eq_true in H || by apply bool_decide_eq_true.
Qed.

Lemma plain_include_rules names : Forall plain_pattern names -> filter (fun p => negative_item p = false) names = names.
Proof. intros H. apply filter_all_id. eapply Forall_impl; [exact H|]. by intros p (_ & _ & ?). Qed.

Lemma plain_no_negative names : Forall plain_pattern names -> filter (fun p => negative_item p = true) names = [].
Proof.
  induction 1 as [|p names (_ & _ & Hp) _ IH]; [done|]. rewrite filter_cons, IH, decide_False; [done|]. by rewrite Hp.
Qed.

Lemma plain_filter_selects h include exclude over module names n :
  include <> exclude -> h !! include = Some names -> h !! exclude = Some [] -> names <> [] -> Forall plain_pattern names ->
  exists b, Filter_Filter re_compile (new_Filter re_compile h include exclude true over true true module true) n = Ok b /\
    (b = true <-> selected names n \/ exists m, module = Some m /\ m <> [] /\ selected names (module_name_pattern m n)).
Proof.
  intros _ Hi He Hne Hpl. set (f := new_Filter _ _ _ _ _ _ _ _ _ _).
  destruct (new_Filter_fields re_compile h include exclude true over true true module true) as
    (Fi & Fe & Frx & Fex & Fneg & _ & Fpre & Fm). fold f in Fi, Fe, Frx, Fex, Fneg, Fpre, Fm.
  exists (filter_decision re_compile h f n). split; [by apply filter_decides, new_Filter_ok|].
  unfold filter_decision, include_rules, exclude_rules. rewrite Frx, Fneg, Fi, Fe, Hi, He. cbn [default id app].
  rewrite plain_include_rules, plain_no_negative by done. cbn [fmap list_fmap].
  assert (existsb (pattern_counts re_compile true) names = true) as ->.
  { destruct Hpl as [|p names (Hp & _) _]; [done|]. cbn [existsb]. unfold pattern_counts. by rewrite Hp. }
  assert (rules_list re_compile f [] n = false) as ->.
  { unfold rules_list, rules_match. cbn [existsb orb]. destruct (module_name f) as [[|]|]; by rewrite ?andb_false_r. }
  rewrite andb_false_r, andb_true_r. unfold rules_list. rewrite Fm, Fpre. cbn [andb].
  rewrite orb_true_iff, rules_match_plain by done.
  destruct module as [[|c m]|].
  - split; [by intros [?|[=]]; left|intros [?|(m & [= <-] & ? & _)]; [by left|done]].
  - rewrite rules_match_plain by done. split; [intros [?|?]; [by left|right; by exists (c :: m)]|].
    intros [?|(m' & [= <-] & _ & ?)]; [by left|by right].
  - split; [by intros [?|[=]]; left|intros [?|(m & [=] & _)]; by left].
Qed.

(** The include filter of the parameters, names with commas between them, selects just
    the tests that it names, by their own or by their full names and for both
    bitnesses: the test filter of the class that is constructed lets those pass. *)
Theorem include_filter_selects user_params class_name h groups h' tp cfg name w :
  groups <> [] -> Forall (fun g => g <> [] /\ Forall listed_name g) groups ->
  getUserParam user_params (inr [KEY_TEST_SUITE; KEY_INCLUDE_FILTER]) false (PyVal.PList []) false = Ret (PyVal.PList (comma_list <$> groups)) ->
  getUserParam user_params (inr [KEY_TEST_SUITE; KEY_EXCLUDE_FILTER]) false (PyVal.PList []) false = Ret (PyVal.PList []) ->
  new_test user_params re_compile class_name h = Ret (h', tp) -> config_of tp = Some cfg ->
  reason_to_skip_all_tests w = None ->
  filterOneTestThroughTestFilter re_compile cfg name w = (Ret tt, w) <->
    selected (mjoin groups) name \/ (cfg_module_name cfg <> [] /\ selected (mjoin groups) (module_name_pattern (cfg_module_name cfg) name)).
Proof.
  intros Hne Hg Hi He Hnew Hcfg Hw. unfold new_test in Hnew. 
  destruct (param _ KEY_TEST_TIMEOUT _) as [t|]; [|done]. cbn [mbind xres_bind] in Hnew.
  destruct (timeout_of t) as [tz|]; [|done]. cbn [mbind xres_bind] in Hnew. rewrite Hi in Hnew. cbn [mbind xres_bind] in Hnew.
  rewrite He in Hnew. cbn [mbind xres_bind] in Hnew.
  destruct (param _ KEY_TESTBED_NAME _) as [module|]; [|done]. cbn [mbind xres_bind] in Hnew.
  unfold updateTestFilter in Hnew. rewrite (filter_items_groups groups Hg) in Hnew. cbn [mbind xres_bind] in Hnew.
  change (filter_items (PyVal.PList [])) with (Ret (Some [] : option (list pystr))) in Hnew. cbn [mbind xres_bind] in Hnew.
  destruct (param _ KEY_EXCLUDE_OVER_INCLUDE _) as [over|]; [|done]. cbn [mbind xres_bind] in Hnew.
  repeat match goal with H : (_ ← param ?u ?k ?d; _) = Ret _ |- _ => destruct (param u k d) as [?|]; [|done]; cbn [mbind xres_bind] in H end.
  injection Hnew as <- <-. unfold config_of in Hcfg. cbn [tp_module_name] in Hcfg.
  destruct module as [| | |m| | |]; try done. cbn [text_of mbind option_bind] in Hcfg.
  destruct (text_or_none _) as [bitness|]; [|done]. cbn [mbind option_bind] in Hcfg.
  destruct (count_of _) as [retries|]; [|done]. cbn [mbind option_bind] in Hcfg. injection Hcfg as <-.
  unfold filterOneTestThroughTestFilter. cbn [test_filter tp_filter cfg_module_name]. unfold run_filter, apply_filter.
  set (l := fresh (dom h)). set (k := fresh _).
  assert (l <> k) as Hlk. { pose proof (is_fresh (dom (<[l := mjoin groups]> h))) as Hf. fold k in Hf. intros <-. set_solver. }
  assert (mjoin groups <> []) as Hm.
  { destruct Hg as [|g groups [Hgn _] _]; [done|]. cbn [mjoin list_join]. by intros [? _]%app_nil. }
  destruct (plain_filter_selects (<[k := []]> (<[l := mjoin groups]> h)) l k (over_of over) (module_of (PyVal.PStr m)) (mjoin groups) name)
    as (b & Hb & Hiff); [done|etrans; [by apply lookup_insert_ne|apply lookup_insert_eq]|apply lookup_insert_eq|done| |].
  { apply Forall_forall. intros p (g & Hp & Hin)%list_elem_of_join. 
    destruct (proj1 (Forall_forall _ _) Hg g Hin) as [_ Hl]. by destruct (proj1 (Forall_forall _ _) Hl p Hp) as (? & _). }
  rewrite Hb. unfold mbind, M_bind, lift, get_world. cbn [xres_bind].
  trans (b = true).
  - destruct b; cbn [negb]; [rewrite Hw; by split|]. by split.
  - rewrite Hiff. unfold module_of. cbn [truthy str_val]. case_bool_decide as Hm0; cbn [negb].
    + split; [intros [?|(? & [=] & _)]; by left|intros [?|[? _]]; [by left|done]].
    + split; [intros [?|(? & [= <-] & ? & ?)]; [by left|by right]|intros [?|[? ?]]; [by left|right; by exists m]].
Qed.
End selected.

(** ** What goes wrong *)

Lemma contains_get k d x : dict_get k d = Some x -> py_contains k (PDict d) = Ret true /\ py_getitem (PDict d) k = Ret x.
Proof. intros Hx. unfold py_contains, py_getitem. rewrite Hx. by rewrite bool_decide_true by eauto. Qed.

Lemma param_found k d x e v s : k <> [] -> dict_get k d = Some x -> getUserParam (PDict d) (inl k) e v s = Ret (ToStr s x).
Proof.
  intros Hk Hx. destruct (contains_get k d x Hx) as [Hc Hg]. unfold getUserParam. destruct k as [|c k]; [done|].
  cbn [no_name names_of follow_names]. rewrite Hc. cbn [mbind xres_bind]. by rewrite Hg.
Qed.

(** A configured value that is none comes back as a text, although only other values
    are documented to be converted. *)
Lemma none_as_text key default_value e d :
  getUserConfigStr (PDict [(IKEY_USER_CONFIG_STR, PDict ((key, PNone) :: d))]) key default_value e = Ret (PyVal.PStr (bs "None")).
Proof.
  unfold getUserConfigStr, getUserConfig. rewrite (param_found _ _ (PDict ((key, PNone) :: d))) by done.
  assert (dict_get key ((key, PNone) :: d) = Some PNone) as E.
  { unfold dict_get. by rewrite filter_cons, decide_True by done. }
  destruct (contains_get _ _ _ E) as [Hc Hg]. cbn [mbind xres_bind ToStr]. rewrite Hc. cbn [mbind xres_bind]. by rewrite Hg.
Qed.

(** The key that lets the exclude filter win is listed with those of the test suite; it
    is read from outside of it, and has no effect inside. *)
Lemma over_in_suite_ignored d d' v :
  dict_get KEY_TEST_SUITE d = None -> dict_get KEY_EXCLUDE_OVER_INCLUDE d = None ->
  param (PDict ((KEY_TEST_SUITE, PDict ((KEY_EXCLUDE_OVER_INCLUDE, v) :: d')) :: d)) KEY_EXCLUDE_OVER_INCLUDE PNone = Ret PNone.
Proof.
  intros _ Hd. unfold param, getUserParam. cbn [no_name names_of follow_names].
  assert (dict_get KEY_EXCLUDE_OVER_INCLUDE ((KEY_TEST_SUITE, PDict ((KEY_EXCLUDE_OVER_INCLUDE, v) :: d')) :: d) = None) as E.
  { unfold dict_get in *. by rewrite filter_cons, decide_False by done. }
  unfold py_contains. rewrite E. by rewrite bool_decide_false by (by intros [? [=]]).
Qed.

(** ** Witnesses *)
Definition sample_params : pyval :=
  PDict [(KEY_TEST_SUITE, PDict [(KEY_INCLUDE_FILTER, PyVal.PList [PyVal.PStr (bs "testA,testB"); PyVal.PStr (bs "Mod.testC")]);
                                 (KEY_EXCLUDE_FILTER, PyVal.PList [])]);
         (KEY_TESTBED_NAME, PyVal.PStr (bs "Mod")); (KEY_TEST_TIMEOUT, PInt 60000)].
Definition no_regex (_ : pystr) : option (pystr -> option nat) := None.
Definition sample_world : world := mk_world ∅ new_result None true None None initial_heap 0.

Example getUserParam_spec_witness :
  getUserParam sample_params (inr [KEY_TEST_SUITE; KEY_EXCLUDE_FILTER]) true PNone false = Ret (PyVal.PList []) /\
  getUserParam sample_params (inr [bs "missing"]) false (PInt 5) true = Ret (PyVal.PStr (bs "5")) /\
  exists e, getUserParam sample_params (inr [KEY_TEST_TIMEOUT; bs "ms"]) false PNone false = Exc e /\ exc_type e = Python_TypeError.
Proof.
  split_and!.
  - pose proof (getUserParam_spec sample_params [KEY_TEST_SUITE; KEY_EXCLUDE_FILTER] true PNone false ltac:(done)) as H. cbv zeta in H. destruct H as (H1 & H2 & H3).
    apply (H1 (PyVal.PList [])). do 2 (econstructor; [vm_compute; reflexivity|]). constructor.
  - pose proof (getUserParam_spec sample_params [bs "missing"] false (PInt 5) true ltac:(done)) as H. cbv zeta in H. destruct H as (H1 & H2 & H3). apply H2, misses_here. reflexivity.
  - pose proof (getUserParam_spec sample_params [KEY_TEST_TIMEOUT; bs "ms"] false PNone false ltac:(done)) as H. cbv zeta in H. destruct H as (H1 & H2 & H3). apply H3.
    + intros H. inversion H as [? ? ? Hc|? ? x ? Hx Hm]; [vm_compute in Hc; discriminate|].
      vm_compute in Hx. injection Hx as <-. inversion Hm as [? ? ? Hc|]. vm_compute in Hc. discriminate.
    + intros v H. inversion H as [|? ? x ? ? Hx Hm]. vm_compute in Hx. injection Hx as <-. inversion Hm.
Defined.

Definition sample_test : xres (heap * TestParams) := new_test sample_params no_regex (bs "SampleTest") initial_heap.
Example include_filter_selects_witness :
  exists cfg, (exists h tp, sample_test = Ret (h, tp) /\ config_of tp = Some cfg) /\ cfg_module_name cfg = bs "Mod" /\
    filterOneTestThroughTestFilter no_regex cfg (bs "testC_32bit") sample_world = (Ret tt, sample_world) /\
    filterOneTestThroughTestFilter no_regex cfg (bs "testD") sample_world <> (Ret tt, sample_world).
Proof.
  destruct sample_test as [[h tp]|] eqn:Ht; [|vm_compute in Ht; discriminate].
  destruct (config_of tp) as [cfg|] eqn:Hc; [|vm_compute in Ht; injection Ht as <- <-; vm_compute in Hc; discriminate].
  assert (cfg_module_name cfg = bs "Mod") as Hm.
  { vm_compute in Ht. injection Ht as <- <-. vm_compute in Hc. by injection Hc as <-. }
  set (groups := [[bs "testA"; bs "testB"]; [bs "Mod.testC"]]).
  assert (Forall (fun g => g <> [] /\ Forall listed_name g) groups) as Hg.
  { repeat (constructor || done). }
  pose proof (fun n => include_filter_selects no_regex sample_params (bs "SampleTest") initial_heap groups h tp cfg n sample_world
    ltac:(done) Hg ltac:(reflexivity) ltac:(reflexivity) Ht Hc ltac:(done)) as H.
  exists cfg. split_and!; [by exists h, tp|done| |].
  - apply H. right. rewrite Hm. split; [done|]. exists (bs "Mod.testC"). split; [vm_compute; by repeat constructor|].
    vm_compute. by repeat constructor.
  - rewrite H, Hm. intros [(p & Hp & Hn)|[_ (p & Hp & Hn)]]; apply list_elem_of_In in Hp, Hn; vm_compute in Hp;
      (destruct Hp as [<-|[<-|[<-|[]]]]; vm_compute in Hn; destruct Hn as [[=]|[[=]|[[=]|[]]]]).
Defined.
