(* ===== verification/Timeouts.v ===== *)
(** * Time limits ([src/utils/python/common/timeout_utils.py], the timers of
      [src/runners/host/base_test.py])

    A process has one alarm.  A test class sets it for all of its tests; a decorated
    function sets it for itself and clears it at its end.  Python code is a program of
    statements that take time: the alarm can interrupt them with an exception.  Hosts
    without alarms use a thread that interrupts the main thread; that machine is a step
    relation at the end. *)

From S2P Require Import Prelude PyStr PyVal Signals.

(** [timeout_utils.TimeoutError], which is not the [utils.TimeoutError] that BaseTest
    tells apart. *)
Definition TimeoutUtilsError : exc_class := UserException 22.

(** ** Programs and the clock *)
Local Unset Elimination Schemes.
Inductive prog :=
  | Return (v : pyval)
  | Throw (e : exn)
  | Work (seconds : Z) (k : prog)
  | Alarm (a : option (Z * exn)) (k : prog)           (* signal.signal and signal.alarm *)
  | Try (body : prog) (k : xres pyval -> prog).
Local Set Elimination Schemes.

Record clock := mk_clock { now : Z; alarm : option (Z * exn) }.

(** The exception of the handler is raised inside the statement that is running. *)
Fixpoint run (p : prog) (c : clock) : xres pyval * clock :=
  match p with
  | Return v => (Ret v, c)
  | Throw e => (Exc e, c)
  | Work d k =>
      match alarm c with
      | Some (t, e) => if (t <=? now c + d)%Z then (Exc e, mk_clock (Z.max (now c) t) None) else run k (mk_clock (now c + d) (alarm c))
      | None => run k (mk_clock (now c + d) None)
      end
  | Alarm None k => run k (mk_clock (now c) None)
  | Alarm (Some (s, e)) k => run k (mk_clock (now c) (Some ((now c + s)%Z, e)))
  | Try body k => let '(r, c) := run body c in run (k r) c
  end.

Definition done_with (r : xres pyval) : prog := match r with Ret v => Return v | Exc e => Throw e end.
(** [signal.alarm(0)] clears the alarm. *)
Definition set_alarm (seconds : Z) (e : exn) : option (Z * exn) := if (seconds =? 0)%Z then None else Some (seconds, e).

(** ** The decorator *)
Definition timeout_error (message : pystr) : exn := EOther TimeoutUtilsError message.
Definition timeout (seconds : Z) (message : pystr) (no_exception : bool) (func : prog) : prog :=
  let guarded :=
    Try (Try func (fun r =>
           match r with
           | Exc e => if isinstance e TimeoutUtilsError then if no_exception then Return PNone else Throw e else Throw e
           | Ret v => Return v
           end))
        (fun r => Alarm None (done_with r)) in
  if (0 <? seconds)%Z then Alarm (Some (seconds, timeout_error message)) guarded else guarded.

(** ** The time limit of a test class *)
Definition TIMEOUT_SECS_LOG_UPLOADING : Z := 60.
Definition TIMEOUT_SECS_TEARDOWN_CLASS : Z := 120.

(** [utils._timeout_handler] *)
Definition timeout_handler : exn := EOther TimeoutError [].
(** [int(t)] for a time in milliseconds. *)
Definition int_seconds (milliseconds : Z) : Z := Z.quot milliseconds 1000.
Definition resetTimeout (milliseconds : Z) (k : prog) : prog := Alarm (set_alarm (int_seconds milliseconds) timeout_handler) k.
Definition cancelTimeout (k : prog) : prog := Alarm None k.

(** What is left of the time of a class that started at [start]; one second when it is
    used up. *)
Definition class_timeout (timeout now start : Z) : Z :=
  let t := (timeout - now + start)%Z in if (t <? 0)%Z then 1000%Z else t.

(** [_exec_func]: only [TestAbortAll] goes through. *)
Definition exec_guarded (func : prog) : prog :=
  Try func (fun r => match r with
                     | Ret v => Return v
                     | Exc e => if isinstance e (SignalClass TestAbortAll) then Throw e else Return (PBool false)
                     end).

(** [_tearDownClass]: the script, the report, the upload of logs. *)
Definition tear_down_class (script report : prog) (upload : option prog) : prog :=
  cancelTimeout
    (Try (timeout TIMEOUT_SECS_TEARDOWN_CLASS (bs "tearDownClass method timed out.") true (exec_guarded script)) (fun r =>
       match r with
       | Exc e => Throw e
       | Ret _ =>
           Try report (fun r =>
             match r with
             | Exc e => Throw e
             | Ret _ =>
                 match upload with
                 | None => Return PNone
                 | Some upload => timeout TIMEOUT_SECS_LOG_UPLOADING (bs "_tearDownClass method in base_test timed out.") true upload
                 end
             end)
       end)).

(** ** Programs that leave the alarm alone *)
Inductive instant : prog -> Prop :=
  | instant_return v : instant (Return v)
  | instant_throw e : instant (Throw e).

(** Statements, and handlers that do nothing of length. *)
Inductive prompt : prog -> Prop :=
  | prompt_return v : prompt (Return v)
  | prompt_throw e : prompt (Throw e)
  | prompt_work d k : (0 <= d)%Z -> prompt k -> prompt (Work d k)
  | prompt_try body k : prompt body -> (forall r, instant (k r)) -> prompt (Try body k).

Lemma run_instant p c : instant p -> (run p c).2 = c.
Proof. by destruct 1. Qed.

Lemma prompt_free p c : prompt p -> alarm c = None -> alarm (run p c).2 = None /\ (now c <= now (run p c).2)%Z.
Proof.
  intros Hp. revert c. induction Hp as [v|e|d k Hd Hk IH|body k Hb IH Hk]; intros c Hc; cbn [run snd]; [done|done| |].
  - rewrite Hc. specialize (IH (mk_clock (now c + d) None) eq_refl) as [IH1 IH2]. cbn [now] in IH2. split; [done|lia].
  - specialize (IH c Hc). destruct (run body c) as [r c1]. by rewrite run_instant by done.
Qed.

(** Under an alarm the program is over at the alarm at the latest. *)
Lemma prompt_guarded p c t e :
  prompt p -> alarm c = Some (t, e) -> (now c <= t)%Z ->
  let c' := (run p c).2 in
  (now c <= now c' <= t)%Z /\ (alarm c' = Some (t, e) \/ alarm c' = None /\ now c' = t).
Proof.
  intros Hp. revert c. induction Hp as [v|e'|d k Hd Hk IH|body k Hb IH Hk]; intros c Hc Ht; cbn [run snd].
  - split; [lia|by left].
  - split; [lia|by left].
  - rewrite Hc. destruct (Z.leb_spec t (now c + d)); cbn [snd now alarm].
    + split; [lia|right; split; [done|lia]].
    + specialize (IH (mk_clock (now c + d) (Some (t, e))) eq_refl). cbn [now] in IH. destruct IH as [IH1 IH2]; [lia|]. split; [lia|done].
  - specialize (IH c Hc Ht). destruct (run body c) as [r c1]. by rewrite run_instant by done.
Qed.

(** The decorator around a program that is prompt: its time, and no alarm afterwards. *)
Lemma timeout_within s m ne func c :
  prompt func -> (0 < s)%Z ->
  let c' := (run (timeout s m ne func) c).2 in alarm c' = None /\ (now c <= now c' <= now c + s)%Z.
Proof.
  intros Hp Hs. unfold timeout. rewrite (proj2 (Z.ltb_lt 0 s)) by done. cbn [run].
  destruct (prompt_guarded func (mk_clock (now c) (Some ((now c + s)%Z, timeout_error m))) _ _ Hp eq_refl) as [Hn Ha]; [cbn; lia|].
  destruct (run func _) as [[v|e] c1]; cbn [snd now alarm] in *.
  - cbn. split; [done|lia].
  - destruct (isinstance e TimeoutUtilsError); [destruct ne|]; cbn; (split; [done|lia]).
Qed.

Lemma prompt_exec_guarded p : prompt p -> prompt (exec_guarded p).
Proof.
  intros Hp. constructor; [done|]. intros [v|e]; [constructor|]. destruct (isinstance _ _); constructor.
Qed.

(** A function with a time limit is over within it, and what it gives is its own result
    when it had the time, and otherwise None or the error of the time limit, as asked
    for; the alarm is clear afterwards. *)
Theorem timeout_keeps_limit s m no_exception ds v c :
  (0 < s)%Z -> Forall (fun d => (0 <= d)%Z) ds ->
  let total := foldr Z.add 0%Z ds in
  run (timeout s m no_exception (foldr Work (Return v) ds)) c =
    if (total <? s)%Z then (Ret v, mk_clock (now c + total) None)
    else (if no_exception then Ret PNone else Exc (timeout_error m), mk_clock (now c + s) None).
Proof.
  intros Hs Hds total. subst total. unfold timeout. rewrite (proj2 (Z.ltb_lt 0 s)) by done. cbn [run].
  assert (forall c0 t e, alarm c0 = Some (t, e) -> (now c0 < t)%Z ->
    run (foldr Work (Return v) ds) c0 =
      if (now c0 + foldr Z.add 0%Z ds <? t)%Z then (Ret v, mk_clock (now c0 + foldr Z.add 0%Z ds) (Some (t, e)))
      else (Exc e, mk_clock t None)) as H.
  { clear Hs. induction Hds as [|d ds Hd Hds IH]; intros c0 t e Hc Ht; cbn [foldr run].
    - rewrite Z.add_0_r, (proj2 (Z.ltb_lt _ _)), <- Hc by done. by destruct c0.
    - rewrite Hc. destruct (Z.leb_spec t (now c0 + d)).
      + rewrite (proj2 (Z.ltb_ge _ _)); [by rewrite Z.max_r by lia|].
        assert (0 <= foldr Z.add 0%Z ds)%Z; [|lia]. clear -Hds. induction Hds; cbn; lia.
      + rewrite (IH (mk_clock (now c0 + d) (Some (t, e))) t e eq_refl) by (cbn; lia). cbn [now]. by rewrite Z.add_assoc. }
  rewrite (H _ (now c + s)%Z (timeout_error m)) by (cbn; lia || done). cbn [now].
  assert ((now c + foldr Z.add 0%Z ds <? now c + s) = (foldr Z.add 0%Z ds <? s))%Z as ->.
  { apply eq_true_iff_eq. rewrite !Z.ltb_lt. lia. }
  destruct (_ <? _)%Z; [done|]. by destruct no_exception.
Qed.


(** *** What goes wrong *)

(** A function with a limit inside of another clears the alarm at its end: what comes
    after it has no limit. *)
Lemma inner_limit_clears s m ne s' m' ne' d v v' c :
  (0 < d < s')%Z -> (0 < s)%Z ->
  forall wait, (0 <= wait)%Z ->
  run (timeout s m ne (Try (timeout s' m' ne' (Work d (Return v'))) (fun _ => Work wait (Return v)))) c =
    (Ret v, mk_clock (now c + d + wait) None).
Proof.
  intros Hd Hs wait Hw. unfold timeout at 1. rewrite (proj2 (Z.ltb_lt 0 s)) by done. cbn [run].
  pose proof (timeout_keeps_limit s' m' ne' [d] v' (mk_clock (now c) (Some ((now c + s)%Z, timeout_error m)))) as H. cbn [foldr] in H.
  rewrite H; [|lia|repeat constructor; lia]. cbn [now]. rewrite Z.add_0_r. rewrite (proj2 (Z.ltb_lt d s')) by lia. cbn. done.
Qed.

(** A limit of zero seconds is no limit, and clears that of the class. *)
Lemma zero_limit_clears m ne v c : run (timeout 0 m ne (Return v)) c = (Ret v, mk_clock (now c) None).
Proof. reflexivity. Qed.

(** When the time of the class is over inside of a function that [_exec_func] guards, as
    tearDown is, the error is swallowed and the rest of the class has no limit. *)
Lemma guarded_swallows_limit d v c t :
  alarm c = Some (t, timeout_handler) -> (now c <= t <= now c + d)%Z ->
  run (exec_guarded (Work d (Return v))) c = (Ret (PBool false), mk_clock t None).
Proof.
  intros Hc Ht. unfold exec_guarded. cbn [run]. rewrite Hc, (proj2 (Z.leb_le _ _)) by lia. cbn. by rewrite Z.max_r by lia.
Qed.

(** With less than a second left no alarm is set. *)
Lemma less_than_a_second ms k c : (0 < ms < 1000)%Z -> run (resetTimeout ms k) c = run k (mk_clock (now c) None).
Proof. intros H. unfold resetTimeout, int_seconds. rewrite Z.quot_small by lia. reflexivity. Qed.

(** ** Timers of threads, where there is no alarm *)
Inductive thread := Waiting | Running | Cancelled | Ended.
#[export] Instance thread_eq_dec : EqDecision thread.
Proof. solve_decision. Defined.

(** The flag under the lock, how often the process was told to stop, the timers that
    were started, the last of them, and whether the main thread is between the check
    and the cancellation in [cancelTimeout]. *)
Record timers := mk_timers { interrupted : bool; stops : nat; threads : list thread; timer : option nat; checked : bool }.
Definition no_timers : timers := mk_timers false 0 [] None false.

Definition end_thread (i : nat) (s : timers) : list thread := <[i := Ended]> (threads s).
Definition cancel (s : timers) : list thread :=
  match timer s with
  | Some i => match threads s !! i with Some Waiting => <[i := Cancelled]> (threads s) | _ => threads s end
  | None => threads s
  end.

Inductive step : timers -> timers -> Prop :=
  | step_fire i s : threads s !! i = Some Waiting ->
      step s (mk_timers (interrupted s) (stops s) (<[i := Running]> (threads s)) (timer s) (checked s))
  | step_interrupt i s : threads s !! i = Some Running -> interrupted s = false ->
      step s (mk_timers true (S (stops s)) (end_thread i s) (timer s) (checked s))
  | step_interrupt_again i s : threads s !! i = Some Running -> interrupted s = true ->
      step s (mk_timers true (stops s) (end_thread i s) (timer s) (checked s))
  | step_check s : interrupted s = false -> checked s = false ->
      step s (mk_timers false (stops s) (threads s) (timer s) true)
  | step_cancel s : checked s = true ->
      step s (mk_timers (interrupted s) (stops s) (cancel s) (timer s) false)
  | step_start s : checked s = false ->
      step s (mk_timers (interrupted s) (stops s) (threads s ++ [Waiting]) (Some (length (threads s))) false).

(** However timers, interrupts and cancellations interleave, the process is told to stop
    at most once, just when the flag is set, and a timer that was cancelled while it
    waited never interrupts. *)
Theorem stopped_at_most_once s s' :
  rtc step no_timers s -> rtc step s s' ->
  stops s <= 1 /\ (interrupted s = true <-> stops s = 1) /\
  forall i, threads s !! i = Some Cancelled -> threads s' !! i = Some Cancelled.
Proof.
  intros Hs Hs'.
  assert ((if interrupted s then 1 else 0) = stops s) as Hinv.
  { apply (rtc_ind_r (R := step) (fun s => (if interrupted s then 1 else 0) = stops s) no_timers); [done| |done].
    clear. intros s1 s2 _ Hst IH. inversion Hst; subst; cbn [interrupted stops]; try done.
    - match goal with H : interrupted s1 = false |- _ => rewrite H in IH end. by rewrite <- IH.
    - match goal with H : interrupted s1 = true |- _ => by rewrite H in IH end.
    - match goal with H : interrupted s1 = false |- _ => by rewrite H in IH end. }
  split; [by destruct (interrupted s); lia|]. split; [destruct (interrupted s); split; congruence|].
  intros i Hi. revert Hi. clear Hs Hinv. induction Hs' as [|s1 s2 s3 Hst _ IH]; intros Hi; [done|]. apply IH. clear IH.
  assert (forall j x, threads s1 !! j = Some Waiting \/ threads s1 !! j = Some Running -> <[j := x]> (threads s1) !! i = Some Cancelled) as Hother.
  { intros j x Hj. rewrite list_lookup_insert_ne; [done|]. intros ->. rewrite Hi in Hj. destruct Hj; discriminate. }
  inversion Hst; subst; cbn [threads]; unfold end_thread, cancel; auto.
  - destruct (timer s1) as [j|]; [|done]. destruct (threads s1 !! j) as [[]|] eqn:Hj; auto.
  - by apply lookup_app_l_Some.
Qed.

(** A timer that has just gone off interrupts although the cancellation returned. *)
Example cancelled_too_late :
  exists s, rtc step no_timers s /\ stops s = 1 /\ checked s = false /\ threads s = [Ended].
Proof.
  eexists. split.
  - eapply rtc_l; [by apply step_start|]. eapply rtc_l; [by apply (step_fire 0)|]. eapply rtc_l; [by apply step_check|].
    eapply rtc_l; [by apply step_cancel|]. eapply rtc_l; [by apply (step_interrupt 0)|]. apply rtc_refl.
  - done.
Qed.

(** ** Witnesses *)
Example timeout_keeps_limit_witness :
  run (timeout 3 (bs "slow") true (Work 1 (Work 5 (Return (PInt 7))))) (mk_clock 10 None) = (Ret PNone, mk_clock 13 None) /\
  run (timeout 3 (bs "slow") true (Work 1 (Return (PInt 7)))) (mk_clock 10 None) = (Ret (PInt 7), mk_clock 11 None).
Proof.
  split.
  - apply (timeout_keeps_limit 3 (bs "slow") true [1; 5]%Z (PInt 7) (mk_clock 10 None)); [lia|repeat constructor; lia].
  - apply (timeout_keeps_limit 3 (bs "slow") true [1]%Z (PInt 7) (mk_clock 10 None)); [lia|repeat constructor; lia].
Defined.


Example stopped_at_most_once_witness :
  exists s, rtc step no_timers s /\ threads s = [Cancelled] /\ stops s <= 1.
Proof.
  assert (rtc step no_timers (mk_timers false 0 [Cancelled] (Some 0) false)) as H.
  { eapply rtc_l; [by apply step_start|]. eapply rtc_l; [by apply step_check|]. eapply rtc_l; [by apply step_cancel|]. apply rtc_refl. }
  eexists. split; [exact H|]. split; [done|]. apply (stopped_at_most_once _ _ H (rtc_refl _ _)).
Defined.
