(* ===== verification/HostCommands.v ===== *)
(** * Commands of the host ([src/utils/python/common/cmd_utils.py]) and helpers of
      [src/runners/host/utils.py]

    A command runs in a shell that exits, and its output ends when the last process that
    holds it is gone: by themselves or on a signal, after some time or never.  The time a
    call takes is part of its result; a call that never returns has none.  Helpers: names of models, zones, files and calls in a pool of threads. *)

From Stdlib Require Import Strings.Byte.
From S2P Require Import Prelude PyStr PyPath PyVal ListUtils Signals.

Definition EXIT_CODE_TIMEOUT_ON_LINUX : Z := -15.
Definition EXIT_CODE_TIMEOUT_ON_WINDOWS : Z := -1073741510.

(** What a command does, by itself and on a signal to its group: when its shell exits and
    with which code, and when its output ends and what it is. *)
Record process := mk_process {
  own_exit : option Z;
  own_close : option Z;
  own_output : pystr * pystr;
  own_code : Z;
  signal_exit : option Z;
  signal_close : option Z;
  signal_output : pystr * pystr;
  signal_code : Z;
}.
Definition by_then (own : option Z) (t : Z) : bool := match own with Some o => (o <=? t)%Z | None => false end.
(** [proc.poll() is not None] at time [t], without a signal *)
Definition has_exited (p : process) (t : Z) : bool := by_then (own_exit p) t.
(** The first of what happens by itself and what a signal at [t] makes happen. *)
Definition first_of (own signalled : option Z) (t : Z) : option Z :=
  match own, signalled with
  | Some o, Some d => Some (Z.min o (t + d))
  | Some o, None => Some o
  | None, Some d => Some (t + d)%Z
  | None, None => None
  end.
Definition is_own (own signalled : option Z) (t : Z) : bool := bool_decide (is_Some own /\ first_of own signalled t = own).
(** [proc.communicate()] returns when the output has ended and the shell has exited. *)
Definition both (exit close : option Z) : option Z := e ← exit; c ← close; Some (Z.max e c).

Section host.
Context (is_on_windows : bool).

Definition timeout_code : Z := if is_on_windows then EXIT_CODE_TIMEOUT_ON_WINDOWS else EXIT_CODE_TIMEOUT_ON_LINUX.

(** The result, the time that it took, and whether the callback was called; [reaped]: the
    thread that waits has seen the end of a signalled process before its code is
    looked at.  A shell that has exited is not signalled, and its code is known. *)
Definition ExecuteOneShellCommandWithTimeout (p : process) (timeout : Z) (callback reaped : bool) :
    option ((pystr * pystr * Z) * Z * bool) :=
  if has_exited p timeout then
    t ← both (own_exit p) (own_close p);
    Some ((own_output p, own_code p), t, callback && (own_code p =? timeout_code)%Z)
  else
    t ← both (first_of (own_exit p) (signal_exit p) timeout) (first_of (own_close p) (signal_close p) timeout);
    let code := if is_own (own_exit p) (signal_exit p) timeout then own_code p else signal_code p in
    let output := if is_own (own_close p) (signal_close p) timeout then own_output p else signal_output p in
    Some ((output, code), t, callback && reaped && (code =? timeout_code)%Z).

Definition ExecuteOneShellCommand (p : process) (timeout : option Z) (callback reaped : bool) :
    option ((pystr * pystr * Z) * Z * bool) :=
  match timeout with
  | None => t ← both (own_exit p) (own_close p); Some ((own_output p, own_code p), t, false)
  | Some t => ExecuteOneShellCommandWithTimeout p t callback reaped
  end.

(** One process after the other; [zip] of no results cannot be unpacked. *)
Fixpoint run_all (ps : list process) : option (list (pystr * pystr * Z) * Z) :=
  match ps with
  | [] => Some ([], 0%Z)
  | p :: ps => '(r, t, _) ← ExecuteOneShellCommand p None false false; '(rs, ts) ← run_all ps; Some (r :: rs, (t + ts)%Z)
  end.
Definition ExecuteShellCommand (ps : list process) : option (xres (list pystr * list pystr * list Z)) :=
  '(rs, _) ← run_all ps;
  Some (match rs with
        | [] => Exc (EOther Python_ValueError (bs "need more than 0 values to unpack"))
        | _ => Ret (((fun r => r.1.1) <$> rs), ((fun r => r.1.2) <$> rs), (snd <$> rs))
        end).
Definition RunCommand (p : process) : option Z := '(r, _, _) ← ExecuteOneShellCommand p None false false; Some (snd r).

(** [utils.exe_cmd]: an error is what writes to the error output. *)
Definition exe_cmd (p : process) : option (xres pystr) :=
  '(r, _, _) ← ExecuteOneShellCommand p None false false;
  Some (if bool_decide (r.1.2 = []) then Ret r.1.1 else Exc (EOther Python_OSError r.1.2)).

Lemma has_exited_spec p t : has_exited p t = true <-> exists e, own_exit p = Some e /\ (e <= t)%Z.
Proof.
  unfold has_exited, by_then. destruct (own_exit p) as [e|]; [|split; [done|by intros (? & ? & _)]].
  rewrite Z.leb_le. split; [by exists e|by intros (? & [= <-] & ?)].
Qed.
Lemma first_of_none own s t : first_of own s t = None <-> own = None /\ s = None.
Proof. destruct own, s; cbn; naive_solver. Qed.
Lemma first_of_bounded own d t : exists x, first_of own (Some d) t = Some x /\ (x <= t + d)%Z.
Proof. destruct own; cbn; eexists; (split; [reflexivity|]); lia. Qed.
Lemma both_none e c : both e c = None <-> e = None \/ c = None.
Proof. destruct e, c; cbn; naive_solver. Qed.

(** A process is its own master exactly when it is done before it obeys. *)
Lemma is_own_spec own d t : is_own own (Some d) t = by_then own (t + d).
Proof.
  unfold is_own, by_then. destruct own as [o|]; cbn [first_of]; [|apply bool_decide_eq_false_2; by intros [[] _]].
  destruct (Z.leb_spec o (t + d)).
  - apply bool_decide_eq_true_2. split; [by eexists|]. f_equal. lia.
  - apply bool_decide_eq_false_2. intros [_ [= H']]. lia.
Qed.

(** C39: When a command with a time limit returns.  One whose shell has exited by the limit
    is not signalled: the call returns its own output and code when its output ends, and
    never if another process holds the output forever.  One whose shell still runs is
    signalled: the call never returns if the shell neither exits nor obeys, or the output
    neither ends nor is let go on the signal; if the shell obeys within [d] and the output
    is let go within [d'], it returns within the limit and the longer of both, with the
    code, and with the output, of the command exactly when that came before the signal was
    obeyed. *)
Theorem command_returns p timeout callback reaped :
  let call := ExecuteOneShellCommand p (Some timeout) callback reaped in
  ((exists e, own_exit p = Some e /\ (e <= timeout)%Z) ->
    (own_close p = None -> call = None) /\
    forall c, own_close p = Some c -> exists t b, call = Some ((own_output p, own_code p), t, b) /\ (c <= t <= Z.max timeout c)%Z) /\
  ((forall e, own_exit p = Some e -> (timeout < e)%Z) ->
    (call = None <-> (own_exit p = None /\ signal_exit p = None) \/ (own_close p = None /\ signal_close p = None)) /\
    forall d d', signal_exit p = Some d -> signal_close p = Some d' ->
      exists output code t b, call = Some ((output, code), t, b) /\ (t <= timeout + Z.max d d')%Z /\
        (code = if by_then (own_exit p) (timeout + d) then own_code p else signal_code p) /\
        (output = if by_then (own_close p) (timeout + d') then own_output p else signal_output p)).
Proof.
  cbn [ExecuteOneShellCommand]. unfold ExecuteOneShellCommandWithTimeout. split.
  - intros (e & He & Hle). rewrite (proj2 (has_exited_spec p timeout)) by by exists e. rewrite He. split; [by intros ->|].
    intros c ->. do 2 eexists. split; [reflexivity|]. lia.
  - intros Hrun. assert (has_exited p timeout = false) as ->.
    { apply not_true_iff_false. rewrite has_exited_spec. intros (e & He & Hle). specialize (Hrun e He). lia. }
    split.
    + rewrite <- !(first_of_none _ _ timeout), <- both_none. by destruct (both _ _).
    + intros d d' -> ->. destruct (first_of_bounded (own_exit p) d timeout) as (x & Hx & Hxd).
      destruct (first_of_bounded (own_close p) d' timeout) as (y & Hy & Hyd). rewrite Hx, Hy. cbn [both mbind option_bind].
      do 4 eexists. split; [reflexivity|]. split; [lia|]. by rewrite !is_own_spec.
Qed.

(** A process that does not obey keeps the caller, whatever the limit; so does one that
    outlives its shell, which is not even signalled. *)
Lemma stubborn_process p timeout callback reaped :
  own_exit p = None -> signal_exit p = None -> ExecuteOneShellCommand p (Some timeout) callback reaped = None.
Proof. intros Ho Hs. cbn. unfold ExecuteOneShellCommandWithTimeout, has_exited, by_then. by rewrite Ho, Hs. Qed.
Lemma held_output_hangs p timeout callback reaped :
  own_exit p = Some 0%Z -> own_close p = None -> (0 <= timeout)%Z -> ExecuteOneShellCommand p (Some timeout) callback reaped = None.
Proof.
  intros He Hc Ht. cbn. unfold ExecuteOneShellCommandWithTimeout. rewrite (proj2 (has_exited_spec p timeout)) by by exists 0%Z. by rewrite He, Hc.
Qed.

(** The code after a timeout is the one the command chose: a shell that exits with 0 on
    the signal gives 0. *)
Lemma timeout_code_is_not_certain p timeout :
  own_exit p = None -> own_close p = None -> signal_exit p = Some 0%Z -> signal_close p = Some 0%Z -> signal_code p = 0%Z ->
  exists o t, ExecuteOneShellCommand p (Some timeout) false false = Some ((o, 0%Z), t, false).
Proof.
  intros E1 E2 E3 E4 E5. cbn. unfold ExecuteOneShellCommandWithTimeout, has_exited, by_then. rewrite E1, E2, E3, E4, E5.
  do 2 eexists. reflexivity.
Qed.

(** The callback for a timeout looks at the code before the process is waited for, and
    also runs for a process that was killed by others in time. *)
Lemma callback_missed p timeout :
  own_exit p = None -> signal_exit p = Some 0%Z -> signal_close p = Some 0%Z ->
  exists r t, ExecuteOneShellCommand p (Some timeout) true false = Some (r, t, false).
Proof.
  intros Ho Hs Hc. cbn. unfold ExecuteOneShellCommandWithTimeout, has_exited, by_then. rewrite Ho, Hs, Hc.
  destruct (own_close p); do 2 eexists; reflexivity.
Qed.
Lemma callback_without_timeout p timeout :
  own_exit p = Some 0%Z -> own_close p = Some 0%Z -> own_code p = timeout_code -> (0 <= timeout)%Z ->
  ExecuteOneShellCommand p (Some timeout) true false = Some ((own_output p, own_code p), 0%Z, true).
Proof.
  intros Ho Hc Hr Ht. cbn. unfold ExecuteOneShellCommandWithTimeout.
  rewrite (proj2 (has_exited_spec p timeout)) by by exists 0%Z. rewrite Ho, Hc, Hr. cbn. by rewrite Z.eqb_refl.
Qed.

Lemma run_all_spec ps rs t : run_all ps = Some (rs, t) -> rs = (fun p => (own_output p, own_code p)) <$> ps.
Proof.
  revert rs t. induction ps as [|p ps IH]; intros rs t; cbn [run_all]; [by intros [= <- _]|].
  unfold ExecuteOneShellCommand. destruct (both _ _) as [o|]; [|done]. cbn [mbind option_bind].
  destruct (run_all ps) as [[rs' t']|]; [|done]. cbn. intros [= <- _]. by rewrite (IH rs' t' eq_refl).
Qed.

(** No commands are an error. *)
Lemma no_commands : exists e, ExecuteShellCommand [] = Some (Exc e) /\ exc_type e = Python_ValueError.
Proof. by eexists. Qed.
End host.

(** ** Names of models and zones *)
Definition models : list pystr := bs <$> ["sprout"; "occam"; "hammerhead"; "bullhead"; "razor"; "razorg"; "shamu"; "angler"; "volantis"; "volantisg";
  "mantaray"; "fugu"; "ryu"]%string.
Definition manufacture_name_to_model : list (pystr * pystr) :=
  (fun kv => (bs kv.1, bs kv.2)) <$> [("flo", "razor"); ("flo_lte", "razorg"); ("flounder", "volantis"); ("flounder_lte", "volantisg"); ("dragon", "ryu")]%string.
Definition assoc {A} (k : pystr) (l : list (pystr * A)) : option A := snd <$> head (filter (fun kv => kv.1 = k) l).

Definition known_model (t : pystr) : option pystr :=
  if bool_decide (t ∈ models) then Some t else assoc t manufacture_name_to_model.
(** [re.split("_|-", s)] *)
Definition is_joint (b : Byte.byte) : bool := bool_decide (b = Byte.x5f) || bool_decide (b = Byte.x2d).
Fixpoint split_joints (s acc : pystr) : list pystr :=
  match s with [] => [acc] | b :: s => if is_joint b then acc :: split_joints s [] else split_joints s (acc ++ [b]) end.
Fixpoint first_known (ts : list pystr) : option pystr :=
  match ts with [] => None | t :: ts => match known_model t with Some m => Some m | None => first_known ts end end.
Definition trim_model_name (model : pystr) : option pystr :=
  match known_model model with Some m => Some m | None => first_known (split_joints model []) end.

Definition GMT_to_olson : list (pystr * pystr) :=
  (fun kv => (bs kv.1, bs kv.2)) <$>
  [("GMT-9", "America/Anchorage"); ("GMT-8", "US/Pacific"); ("GMT-7", "US/Mountain"); ("GMT-6", "US/Central"); ("GMT-5", "US/Eastern");
   ("GMT-4", "America/Barbados"); ("GMT-3", "America/Buenos_Aires"); ("GMT-2", "Atlantic/South_Georgia"); ("GMT-1", "Atlantic/Azores");
   ("GMT+0", "Africa/Casablanca"); ("GMT+1", "Europe/Amsterdam"); ("GMT+2", "Europe/Athens"); ("GMT+3", "Europe/Moscow"); ("GMT+4", "Asia/Baku");
   ("GMT+5", "Asia/Oral"); ("GMT+6", "Asia/Almaty"); ("GMT+7", "Asia/Bangkok"); ("GMT+8", "Asia/Hong_Kong"); ("GMT+9", "Asia/Tokyo");
   ("GMT+10", "Pacific/Guam"); ("GMT+11", "Pacific/Noumea"); ("GMT+12", "Pacific/Fiji"); ("GMT+13", "Pacific/Tongatapu");
   ("GMT-11", "Pacific/Midway"); ("GMT-10", "Pacific/Honolulu")]%string.
(** [time.timezone]: seconds west of Greenwich; integer division rounds down. *)
Definition get_timezone_olson_id (timezone : Z) : xres pystr :=
  let tzoffset := (timezone / 3600)%Z in
  let gmt := if (tzoffset <=? 0)%Z then bs "GMT+" ++ str_int (- tzoffset) else bs "GMT-" ++ str_int tzoffset in
  match assoc gmt GMT_to_olson with Some z => Ret z | None => Exc (EOther Python_KeyError (repr_str gmt)) end.

(** ** Searching *)
Definition find_field {K V C} `{EqDecision K} (item_list : list (list (K * V))) (cond : C) (comparator : list (K * V) -> C -> bool) (target_field : K) : option V :=
  let has item := bool_decide (is_Some (head (filter (fun kv => kv.1 = target_field) item))) in
  match filter (fun item => comparator item cond && has item = true) item_list with
  | item :: _ => snd <$> head (filter (fun kv => kv.1 = target_field) item)
  | [] => None
  end.
(** [os.walk] gives directories with the names of their files. *)
Definition iterate_files (walk : list (pystr * list pystr)) : list (pystr * pystr) := mjoin ((fun d => (fun f => (d.1, f)) <$> d.2) <$> walk).
Definition find_files (walks : list (list (pystr * list pystr))) (splitext : pystr -> pystr * pystr) (file_predicate : pystr -> pystr -> bool) :
    list (pystr * pystr * pystr) :=
  mjoin ((fun walk =>
    omap (fun df : pystr * pystr => let '(name, ext) := splitext df.2 in if file_predicate name ext then Some (df.1, name, ext) else None)
      (iterate_files walk)) <$> walks).

(** ** Calls in a pool of threads *)

(** [order]: the indices of the calls, as they end. *)
Definition concurrent_exec {A B} (func : A -> xres B) (param_list : list A) (order : list nat) : list (xres B) :=
  omap (fun i => func <$> param_list !! i) order.

(** The calls give one result each, exceptions included, and in the order in which they
    end. *)
Theorem concurrent_exec_spec {A B} (func : A -> xres B) param_list order :
  order ≡ₚ seq 0 (length param_list) ->
  concurrent_exec func param_list order ≡ₚ func <$> param_list /\
  forall k i, order !! k = Some i -> concurrent_exec func param_list order !! k = func <$> param_list !! i.
Proof.
  intros Ho. unfold concurrent_exec. split.
  - rewrite Ho. clear Ho order.
    assert (forall pre l : list A, omap (fun i => func <$> (pre ++ l) !! i) (seq (length pre) (length l)) = func <$> l) as H.
    { intros pre l. revert pre. induction l as [|a l IH]; intros pre; [done|]. cbn [seq length omap list_omap].
      rewrite list_lookup_middle by done. cbn [fmap option_fmap option_map].
      specialize (IH (pre ++ [a])). rewrite length_app in IH. cbn [length] in IH. rewrite Nat.add_1_r in IH. rewrite <- app_assoc in IH.
      change (func a :: omap (fun i => func <$> (pre ++ a :: l) !! i) (seq (S (length pre)) (length l)) = func a :: (func <$> l)).
      f_equal. exact IH. }
    by rewrite <- (H [] param_list).
  - assert (forall i, i ∈ order -> i < length param_list) as Hlt.
    { intros i Hi. rewrite Ho in Hi. apply elem_of_seq in Hi. lia. }
    clear Ho. induction order as [|j order IH]; intros k i Hk; [done|]. cbn [omap list_omap].
    destruct (lookup_lt_is_Some_2 param_list j) as [a Ha]; [apply Hlt; by left|]. rewrite Ha. cbn [fmap option_fmap option_map].
    destruct k as [|k]; cbn [lookup list_lookup] in *; [injection Hk as <-; by rewrite Ha|].
    apply IH; [|done]. intros. apply Hlt. by right.
Qed.

(** The results are not in the order of the calls. *)
Example results_out_of_order : concurrent_exec (fun x : Z => Ret (x * 2)%Z) [1; 2]%Z [1; 0] = [Ret 4; Ret 2]%Z.
Proof. reflexivity. Qed.

(** A trimmed name is a known one, known names stay as they are, and a known model is
    found between its prefixes and postfixes. *)
Theorem trim_model_name_spec model :
  (forall m, trim_model_name model = Some m -> m ∈ models) /\
  (model ∈ models -> trim_model_name model = Some model) /\
  (forall m pre post, m ∈ models -> known_model model = None -> split_joints model [] = pre ++ m :: post ->
     Forall (fun t => known_model t = None) pre -> trim_model_name model = Some m).
Proof.
  assert (forall t m, known_model t = Some m -> m ∈ models) as Hk.
  { intros t m. unfold known_model. case_bool_decide as Ht; [by intros [= <-]|]. unfold assoc.
    destruct (head (filter _ _)) as [[k v]|] eqn:Hh; [|done]. cbn. intros [= <-].
    destruct (filter (fun kv => kv.1 = t) manufacture_name_to_model) as [|kv l] eqn:Hf; [done|]. injection Hh as ->.
    assert ((k, v) ∈ manufacture_name_to_model) as Hin.
    { assert ((k, v) ∈ filter (fun kv => kv.1 = t) manufacture_name_to_model) as H; [rewrite Hf; left|]. by apply list_elem_of_filter in H as [_ H]. }
    apply list_elem_of_In in Hin. vm_compute in Hin. apply list_elem_of_In.
    repeat (destruct Hin as [[= <- <-]|Hin]; [vm_compute; tauto|]). destruct Hin. }
  assert (forall t, t ∈ models -> known_model t = Some t) as Hid by (intros t Ht; unfold known_model; by rewrite bool_decide_true).
  split_and!.
  - intros m. unfold trim_model_name. destruct (known_model model) as [m'|] eqn:E; [intros [= <-]; by eapply Hk|].
    induction (split_joints model []) as [|t ts IH]; [done|]. cbn [first_known].
    destruct (known_model t) as [m'|] eqn:Et; [intros [= <-]; by eapply Hk|done].
  - intros Hm. unfold trim_model_name. by rewrite (Hid model Hm).
  - intros m pre post Hm E Hs Hpre. unfold trim_model_name. rewrite E, Hs. clear Hs.
    induction Hpre as [|t pre Ht _ IH]; cbn [app first_known]; [by rewrite (Hid m Hm)|]. by rewrite Ht.
Qed.

(** A shell that runs for ever and obeys after two seconds, its output after three. *)
Example command_returns_witness :
  let p := mk_process None None ([], []) 0 (Some 2%Z) (Some 3%Z) ([], bs "bye") (-15) in
  exists output code t b, ExecuteOneShellCommand false p (Some 5%Z) false true = Some ((output, code), t, b) /\ (t <= 5 + 3)%Z /\ code = (-15)%Z.
Proof.
  intros p. destruct (command_returns false p 5 false true) as [_ H]. destruct (H ltac:(done)) as [_ H2].
  destruct (H2 2 3 eq_refl eq_refl)%Z as (o & c & t & b & Hr & Ht & Hc & _). exists o, c, t, b. split; [exact Hr|]. split; [exact Ht|exact Hc].
Defined.

Example concurrent_exec_spec_witness :
  concurrent_exec (fun x : Z => Ret (x * 2)%Z) [1; 2]%Z [1; 0] ≡ₚ [Ret 2; Ret 4]%Z.
Proof. apply (concurrent_exec_spec (fun x : Z => Ret (x * 2)%Z) [1; 2]%Z [1; 0]). cbn. apply perm_swap. Defined.

Example trim_model_name_spec_witness : trim_model_name (bs "m_shamu-x") = Some (bs "shamu").
Proof.
  apply (trim_model_name_spec (bs "m_shamu-x")) with (pre := [bs "m"]) (post := [bs "x"]); [|reflexivity..|by repeat constructor].
  apply list_elem_of_In. vm_compute. tauto.
Defined.
