(* ===== verification/ClassSetup.v ===== *)
(** * Test classes and their devices ([src/runners/host/base_test.py])

    What the base class of all tests does with devices: setting up a class, which
    checks preconditions and stops or starts the framework; healing; dumping logs and
    bug reports of a test that failed; and the choice of the test functions.  Devices
    are an interface, that of DeviceOps, and the theorems are proved against its laws. *)

From Stdlib Require Import Strings.Byte.
From S2P Require Import Prelude PyStr PyPath PyVal Signals BinaryTest Shell MirrorTracker DeviceOps.

Definition IKEY_DISABLE_FRAMEWORK : pystr := bs "DISABLE_FRAMEWORK".
Definition IKEY_BINARY_TEST_DISABLE_FRAMEWORK : pystr := bs "binary_test_disable_framework".
Definition IKEY_STOP_NATIVE_SERVERS : pystr := bs "STOP_NATIVE_SERVERS".
Definition IKEY_BINARY_TEST_STOP_NATIVE_SERVERS : pystr := bs "binary_test_stop_native_servers".
Definition IKEY_NATIVE_SERVER_PROCESS_NAME : pystr := bs "native_server_process_name".
Definition BUG_REPORT_FILE_PREFIX : pystr := bs "bugreport_".
Definition BUG_REPORT_FILE_EXTENSION : pystr := bs ".zip".
Definition LOGCAT_FILE_PREFIX : pystr := bs "logcat_".
Definition LOGCAT_FILE_EXTENSION : pystr := bs ".txt".
Definition LOGCAT_BUFFERS : list pystr := bs <$> ["radio"; "events"; "main"; "system"; "crash"]%string.

Section class.
Context {W : Type} `{DeviceOps W}.
Context (devices : list nat).           (* self.android_devices *)

Fixpoint for_each {A} (l : list A) (f : A -> xstM W unit) : xstM W unit :=
  match l with [] => mret tt | a :: l => _ ← f a; for_each l f end.
Definition ignore {A} (m : xstM W A) : xstM W unit := _ ← m; mret tt.

(** ** [_setUpClass] *)
Context (param : pystr -> pyval -> xres pyval).       (* self.getUserParam(name, default_value=d) *)
Context (skipAllTests : pystr -> xstM W unit) (resetTimeout : xstM W unit).
Context (meets_first_api_level : xstM W bool) (has_feature : nat -> xstM W bool).
Context (setUpClass : xstM W pyval).                  (* of the test script *)

(** [a or b] *)
Definition or_else (a b : xres pyval) : xres pyval := v ← a; if truthy v then Ret v else b.
Definition strings_of (v : pyval) : xres (list pystr) :=
  match v with
  | PList l => Ret (str_val <$> l)
  | PStr s => Ret ((fun b => [b]) <$> s)
  | v => if truthy v then Exc (EOther Python_TypeError (bs "object is not iterable")) else Ret []
  end.

Fixpoint check_features (l : list nat) : xstM W unit :=
  match l with
  | [] => mret tt
  | d :: l => b ← has_feature d; _ ← (if b : bool then mret tt else skipAllTests (bs "Precondition feature check fail.")); check_features l
  end.
Definition switch_framework : xstM W unit :=
  disable ← xlift (or_else (param IKEY_DISABLE_FRAMEWORK (PBool false)) (param IKEY_BINARY_TEST_DISABLE_FRAMEWORK (PBool false)));
  if truthy disable then
    stop_native_server ← xlift (or_else (param IKEY_STOP_NATIVE_SERVERS (PBool false)) (param IKEY_BINARY_TEST_STOP_NATIVE_SERVERS (PBool false)));
    for_each devices (fun d => dev_stop d (truthy stop_native_server))
  else for_each devices (fun d => ignore (dev_start d)).
Definition setUpClass_ : xstM W pyval :=
  _ ← resetTimeout;
  ok ← meets_first_api_level;
  _ ← (if ok : bool then mret tt else skipAllTests (bs "The device's first API level doesn't meet the precondition."));
  _ ← check_features devices;
  _ ← switch_framework;
  names ← xlift (param IKEY_NATIVE_SERVER_PROCESS_NAME (PList []));
  names ← xlift (strings_of names);
  _ ← for_each devices (fun d => ignore (dev_waitForProcessStop d names));
  setUpClass.

(** ** [Heal] *)

(** [Some false]: a device did not come back. *)
Fixpoint recover (available_devices : list pystr) (start timeout : Z) (l : list nat) : xstM W (option bool) :=
  match l with
  | [] => mret (Some true)
  | d :: l =>
      w ← xget;
      if bool_decide (dev_serial d w ∈ available_devices) then _ ← dev_diagnose d; recover available_devices start timeout l
      else
        let left := (timeout - host_time w + start)%Z in
        back ← (if (left <? 0)%Z then mret (Some false) else dev_waitForBootCompletion d left);
        match back with
        | Some true =>
            _ ← dev_rootAdb d; _ ← dev_stopServices d; _ ← dev_startServices d; _ ← host_diagnose;
            recover available_devices start timeout l
        | b => mret b
        end
  end.
(** [all(map(...))]: a list is made first, of what every device says. *)
Fixpoint heal_all (l : list nat) : xstM W bool :=
  match l with [] => mret true | d :: l => b ← dev_Heal d; c ← heal_all l; mret (b && c) end.
Definition Heal (passive : bool) (timeout : Z) : xstM W (option bool) :=
  w ← xget;
  ok ← (if passive then mret (Some true)
        else available_devices ← host_adb_devices; _ ← host_diagnose; recover available_devices (host_time w) timeout devices);
  match ok with
  | Some true => b ← heal_all devices; mret (Some b)
  | b => mret b
  end.

(** ** Logs of a test that failed *)

(** [re.sub('[^\w\-_\. ]', '_', s)] *)
Definition keeps_char (b : Byte.byte) : bool :=
  let z := byteZ b in
  ((48 <=? z) && (z <=? 57) || (65 <=? z) && (z <=? 90) || (97 <=? z) && (z <=? 122) ||
   (z =? 95) || (z =? 45) || (z =? 46) || (z =? 32))%Z.
Definition clean_prefix (prefix : pystr) : pystr :=
  match prefix with [] => [] | _ => ((fun b => if keeps_char b then b else Byte.x5f) <$> prefix) ++ bs "_" end.

Context (log_path : pystr).
Definition bug_report_file (prefix serial : pystr) : pystr :=
  BUG_REPORT_FILE_PREFIX ++ clean_prefix prefix ++ bs "_" ++ serial ++ BUG_REPORT_FILE_EXTENSION.
Definition DumpBugReport (prefix : pystr) : xstM W unit :=
  let parent_dir := path_join2 log_path (bs "bugreport") in
  made ← host_Mkdir parent_dir;
  if negb made then mret tt
  else
    for_each devices (fun d =>
      w ← xget;
      if dev_fatal_error d w then mret tt else dev_bugreport d (path_join2 parent_dir (bug_report_file prefix (dev_serial d w)))).

Definition logcat_file (prefix buffer serial : pystr) : pystr :=
  LOGCAT_FILE_PREFIX ++ clean_prefix prefix ++ bs "_" ++ buffer ++ bs "_" ++ serial ++ LOGCAT_FILE_EXTENSION.
Definition DumpLogcat (prefix : pystr) : xstM W unit :=
  let parent_dir := path_join2 log_path (bs "logcat") in
  made ← host_Mkdir parent_dir;
  if negb made then mret tt
  else
    for_each devices (fun d =>
      w ← xget;
      if negb (dev_logcat_on d w) || dev_fatal_error d w then mret tt
      else for_each LOGCAT_BUFFERS (fun buffer => w ← xget; dev_logcat d buffer (path_join2 parent_dir (logcat_file prefix buffer (dev_serial d w))))).

(** ** Test functions *)

(** [dir(self)]: the attributes in order, and whether they can be called. *)
Context (dir : list (pystr * bool)).
Definition STR_TEST : pystr := bs "test".
Definition STR_GENERATE : pystr := bs "generate".
Definition test_like (name : pystr) : bool := startswith STR_TEST name || startswith STR_GENERATE name.
Definition get_all_test_names : list pystr := (filter (fun a => test_like a.1 && a.2 = true) dir).*1.
Fixpoint get_test_funcs (test_names : list pystr) : xres (list pystr) :=
  match test_names with
  | [] => Ret []
  | n :: ns =>
      if negb (bool_decide (n ∈ dir.*1)) then get_test_funcs ns
      else if test_like n then l ← get_test_funcs ns; Ret (n :: l)
      else Exc (EOther USERError (bs "Test case name " ++ n ++ bs " does not follow naming convention test*, abort."))
  end.
Definition getTests (tests test_names : list pystr) : xres (list pystr) :=
  get_test_funcs (match test_names with [] => match tests with [] => get_all_test_names | _ => tests end | _ => test_names end).

(** ** Healing *)
Section healing.
Context `{!DeviceLaws W}.

Lemma quiet_keeps A (m : xstM W A) d s : quiet A m ->
  xkeeps (fun w => managed d w /\ dev_serial d w = s) m /\ xkeeps (serves d) m.
Proof.
  intros Hq. split; [|by apply serves_quiet]. intros w [Hm Hs]. split; [by apply managed_quiet|by apply (serial_quiet d s _ _ Hq)].
Qed.

Lemma quiet_run A (m : xstM W A) w r w' : quiet A m -> m w = (r, w') ->
  forall d, (managed d w -> managed d w') /\ (serves d w -> serves d w') /\ dev_serial d w' = dev_serial d w.
Proof.
  intros Hq Hm d. pose proof (managed_quiet d _ _ Hq w) as H1. pose proof (serves_quiet d _ _ Hq w) as H2.
  pose proof (serial_quiet d (dev_serial d w) _ _ Hq w eq_refl) as H3. rewrite Hm in *. done.
Qed.

(** A restart, of which the facts on all devices are kept but for the services of its own. *)
Lemma restart_run d w w1 w2 :
  dev_stopServices d w = (Ret tt, w1) -> dev_startServices d w1 = (Ret tt, w2) ->
  (managed d w -> serves d w2) /\
  forall k, (managed k w -> managed k w2) /\ (k <> d -> serves k w -> serves k w2) /\ dev_serial k w2 = dev_serial k w.
Proof.
  intros H1 H2. split; [intros Hm; by eapply serves_started|]. intros k.
  destruct (managed_restart k d) as [M1 M2]. destruct (serial_restart k d (dev_serial k w)) as [S1 S2].
  specialize (S1 w eq_refl). rewrite H1 in S1. specialize (S2 w1 S1). rewrite H2 in S2. split_and!; [| |done].
  - intros Hm. specialize (M1 w Hm). rewrite H1 in M1. specialize (M2 w1 M1). by rewrite H2 in M2.
  - intros Hne Hs. destruct (serves_other k d Hne) as [O1 O2]. specialize (O1 w Hs). rewrite H1 in O1. specialize (O2 w1 O1). by rewrite H2 in O2.
Qed.

Lemma recover_serves available start timeout l w w' :
  NoDup l -> (forall d, d ∈ l -> managed d w) -> recover available start timeout l w = (Ret (Some true), w') ->
  (forall d, dev_serial d w' = dev_serial d w) /\
  forall d, (d ∈ l -> (dev_serial d w ∉ available) -> serves d w') /\ ((d ∉ l) -> serves d w -> serves d w').
Proof.
  revert w. induction l as [|d l IH]; intros w Hnd Hman; cbn [recover].
  { intros [= <-]. split; [done|]. intros d. split; [by intros ?%elem_of_nil|done]. }
  apply NoDup_cons in Hnd as [Hd Hnd]. intros Hrun. apply xstM_bind_Ret in Hrun as (? & ? & [= <- <-] & Hrun).
  destruct (bool_decide (dev_serial d w ∈ available)) eqn:Hav; [apply bool_decide_eq_true in Hav|apply bool_decide_eq_false in Hav].
  - apply xstM_bind_Ret in Hrun as ([] & w1 & H1 & Hrun). pose proof (quiet_run _ _ _ _ _ (quiet_diagnose d) H1) as Q1.
    destruct (IH w1 Hnd) as [Hser Hsv]; [intros k Hk; apply Q1, Hman; by right|done|].
    split; [intros k; by rewrite Hser, (proj2 (proj2 (Q1 k)))|]. intros k. destruct (Q1 k) as (_ & Q2 & Q3), (Hsv k) as [I1 I2]. split.
    + intros [->|Hk]%elem_of_cons Hna; [done|]. apply I1; [done|by rewrite Q3].
    + intros [Hne Hk]%not_elem_of_cons Hs. auto.
  - cbv zeta in Hrun. apply xstM_bind_Ret in Hrun as (back & w1 & Hback & Hrun). destruct back as [[|]|]; [|discriminate Hrun|discriminate Hrun].
    assert (forall k, (managed k w -> managed k w1) /\ (serves k w -> serves k w1) /\ dev_serial k w1 = dev_serial k w) as Q1.
    { destruct (_ <? 0)%Z; [discriminate Hback|]. by apply (quiet_run _ _ _ _ _ (quiet_wait d _) Hback). }
    apply xstM_bind_Ret in Hrun as ([] & w2 & H2 & Hrun). pose proof (quiet_run _ _ _ _ _ (quiet_root d) H2) as Q2.
    apply xstM_bind_Ret in Hrun as ([] & w3 & H3 & Hrun). apply xstM_bind_Ret in Hrun as ([] & w4 & H4 & Hrun).
    destruct (restart_run d w2 w3 w4 H3 H4) as [R1 R2].
    apply xstM_bind_Ret in Hrun as ([] & w5 & H5 & Hrun). pose proof (quiet_run _ _ _ _ _ quiet_host H5) as Q5.
    assert (forall k, managed k w -> managed k w5) as Hm5.
    { intros k Hk. apply Q5, R2, Q2, Q1, Hk. }
    assert (forall k, dev_serial k w5 = dev_serial k w) as Hs5.
    { intros k. by rewrite (proj2 (proj2 (Q5 k))), (proj2 (proj2 (R2 k))), (proj2 (proj2 (Q2 k))), (proj2 (proj2 (Q1 k))). }
    destruct (IH w5 Hnd) as [Hser Hsv]; [intros k Hk; apply Hm5, Hman; by right|done|].
    split; [intros k; by rewrite Hser|]. intros k. destruct (Hsv k) as [I1 I2]. split.
    + intros Hk Hna. destruct (decide (k ∈ l)) as [Hin|Hout]; [apply I1; [done|by rewrite Hs5]|].
      apply elem_of_cons in Hk as [->|Hk]; [|done]. apply I2; [done|]. apply Q5, R1, Q2, Q1, Hman. by left.
    + intros [Hne Hk]%not_elem_of_cons Hs. apply I2; [done|]. apply Q5, R2; [done|]. by apply Q2, Q1.
Qed.

Lemma heal_all_run l w w' :
  heal_all l w = (Ret true, w') ->
  (forall d, d ∈ l -> exists w0 w1, dev_Heal d w0 = (Ret true, w1)) /\ forall d, serves d w -> serves d w'.
Proof.
  revert w. induction l as [|d l IH]; intros w; cbn [heal_all]; [intros [= <-]; split; [by intros ? ?%elem_of_nil|done]|].
  intros Hrun. apply xstM_bind_Ret in Hrun as (b & w1 & H1 & Hrun). apply xstM_bind_Ret in Hrun as (c & w2 & H2 & Hrun).
  injection Hrun as Hbc <-. apply andb_true_iff in Hbc as [-> ->]. destruct (IH w1 H2) as [I1 I2]. split.
  - intros k [->|Hk]%elem_of_cons; [by exists w, w1|by apply I1].
  - intros k Hk. apply I2. by apply (quiet_run _ _ _ _ _ (quiet_heal d) H1).
Qed.

(** C38: After a class was healed every device has reported that it is well, and the services
    of every device that was away are running again. *)
Theorem healed_devices_serve timeout available w w1 w' :
  host_adb_devices w = (Ret available, w1) -> NoDup devices -> (forall d, d ∈ devices -> managed d w) ->
  Heal false timeout w = (Ret (Some true), w') ->
  forall d, d ∈ devices ->
    (exists w2 w3, dev_Heal d w2 = (Ret true, w3)) /\ ((dev_serial d w ∉ available) -> serves d w').
Proof.
  intros Hl Hnd Hman Hrun. unfold Heal in Hrun. apply xstM_bind_Ret in Hrun as (? & ? & [= <- <-] & Hrun).
  apply xstM_bind_Ret in Hrun as (ok & w4 & Hrec & Hrun).
  apply xstM_bind_Ret in Hrec as (? & ? & Hl' & Hrec). rewrite Hl in Hl'. injection Hl' as <- <-.
  apply xstM_bind_Ret in Hrec as ([] & w2 & H2 & Hrec).
  pose proof (quiet_run _ _ _ _ _ quiet_list Hl) as Q1. pose proof (quiet_run _ _ _ _ _ quiet_host H2) as Q2.
  destruct ok as [[|]|]; [|discriminate Hrun|discriminate Hrun]. apply xstM_bind_Ret in Hrun as (b & w5 & Hh & Hrun). injection Hrun as -> <-.
  destruct (recover_serves available (host_time w) timeout devices w2 w4 Hnd) as [_ Hsv]; [intros d Hd; by apply Q2, Q1, Hman|exact Hrec|].
  destruct (heal_all_run devices w4 w5 Hh) as [Hok Hk]. intros d Hd. split; [by apply Hok|]. intros Hna. apply Hk, (proj1 (Hsv d)); [done|].
  by rewrite (proj2 (proj2 (Q2 d))), (proj2 (proj2 (Q1 d))).
Qed.
End healing.

(** A passive check is documented to send no command; it asks every device to heal. *)
Lemma passive_check_heals timeout w : Heal true timeout w = (b ← heal_all devices; mret (Some b)) w.
Proof. reflexivity. Qed.

(** ** The framework *)
Section framework.

(** [framework d w]: the Android framework of the device runs. *)
Context (framework : nat -> W -> bool).
Context (stop_law : forall d b w w', dev_stop d b w = (Ret tt, w') ->
  framework d w' = false /\ forall k, k <> d -> framework k w' = framework k w).
Context (start_law : forall d w r w', dev_start d w = (Ret r, w') ->
  (r = Some true -> framework d w' = true) /\ forall k, k <> d -> framework k w' = framework k w).
Context (wait_law : forall d names k b, xkeeps (fun w => framework k w = b) (dev_waitForProcessStop d names)).

Lemma stop_all_run b l w w' :
  for_each l (fun d => dev_stop d b) w = (Ret tt, w') -> forall d, (d ∈ l \/ framework d w = false) -> framework d w' = false.
Proof using stop_law.
  revert w. induction l as [|d l IH]; intros w; cbn [for_each].
  { intros [= <-] d [Hd|Hd]; [by apply elem_of_nil in Hd|done]. }
  intros Hrun. apply xstM_bind_Ret in Hrun as ([] & w1 & H1 & Hrun). destruct (stop_law d b w w1 H1) as [Hs Ho].
  intros k Hk. apply (IH w1 Hrun). destruct (decide (k = d)) as [->|Hne]; [by right|]. rewrite Ho by done.
  destruct Hk as [Hk|Hk]; [apply elem_of_cons in Hk as [Hk|Hk]; [done|by left]|by right].
Qed.

Lemma wait_all_keeps l names k b : xkeeps (fun w => framework k w = b) (for_each l (fun d => ignore (dev_waitForProcessStop d names))).
Proof using wait_law.
  induction l as [|d l IH]; cbn [for_each]; [by intros w Hw|]. unfold ignore. pose proof (wait_law d names k b). keeps.
Qed.

(** When the framework is to be disabled it runs on no device while the set up of the
    test script runs. *)
Theorem framework_is_stopped disable w v w' :
  or_else (param IKEY_DISABLE_FRAMEWORK (PBool false)) (param IKEY_BINARY_TEST_DISABLE_FRAMEWORK (PBool false)) = Ret disable ->
  truthy disable = true -> setUpClass_ w = (Ret v, w') ->
  exists w0, setUpClass w0 = (Ret v, w') /\ forall d, d ∈ devices -> framework d w0 = false.
Proof using stop_law wait_law.
  intros Hd Ht Hrun. unfold setUpClass_ in Hrun.
  apply xstM_bind_Ret in Hrun as ([] & w1 & _ & Hrun). apply xstM_bind_Ret in Hrun as (ok & w2 & _ & Hrun).
  apply xstM_bind_Ret in Hrun as ([] & w3 & _ & Hrun). apply xstM_bind_Ret in Hrun as ([] & w4 & _ & Hrun).
  apply xstM_bind_Ret in Hrun as ([] & w5 & Hsw & Hrun). unfold switch_framework in Hsw. rewrite Hd in Hsw.
  apply xstM_bind_Ret in Hsw as (? & ? & [= <- <-] & Hsw). rewrite Ht in Hsw.
  apply xstM_bind_Ret in Hsw as (sn & w6 & Hsn & Hsw). unfold xlift in Hsn. injection Hsn as _ <-.
  apply xstM_bind_Ret in Hrun as (n1 & w7 & Hn1 & Hrun). unfold xlift in Hn1. injection Hn1 as _ <-.
  apply xstM_bind_Ret in Hrun as (n2 & w8 & Hn2 & Hrun). unfold xlift in Hn2. injection Hn2 as _ <-.
  apply xstM_bind_Ret in Hrun as ([] & w9 & Hw & Hrun). exists w9. split; [done|]. intros d Hin.
  pose proof (wait_all_keeps devices n2 d false w5) as Hk. rewrite Hw in Hk. apply Hk.
  by apply (stop_all_run _ _ _ _ Hsw); left.
Qed.
End framework.

(** ** Names of files *)
Lemma clean_prefix_plain p b : b ∈ clean_prefix p -> keeps_char b = true.
Proof.
  destruct p as [|c p]; [by intros ?%elem_of_nil|]. unfold clean_prefix. rewrite elem_of_app. intros [Hb|Hb].
  - apply list_elem_of_fmap in Hb as (a & -> & _). by destruct (keeps_char a) eqn:E.
  - apply list_elem_of_singleton in Hb as ->. done.
Qed.
End class.

(** The logs of a test that failed go to a file of their own for each device and buffer,
    in the directory for logs, whatever characters the name of the test has. *)
Theorem logcat_files_distinct prefix buffer buffer' serial serial' :
  buffer ∈ LOGCAT_BUFFERS -> buffer' ∈ LOGCAT_BUFFERS ->
  (logcat_file prefix buffer serial = logcat_file prefix buffer' serial' -> buffer = buffer' /\ serial = serial') /\
  ((Byte.x2f ∉ serial) -> (Byte.x2f ∉ logcat_file prefix buffer serial)).
Proof.
  intros Hb Hb'. split.
  - unfold logcat_file. intros E. do 3 apply app_inv_head in E.
    rewrite !app_assoc in E. apply app_inv_tail in E.
    assert (forall b, b ∈ LOGCAT_BUFFERS -> b ∈ [bs "radio"; bs "events"; bs "main"; bs "system"; bs "crash"]) as Hl by done.
    apply Hl in Hb, Hb'. rewrite !elem_of_cons in Hb, Hb'.
    destruct Hb as [->|[->|[->|[->|[->|[]%elem_of_nil]]]]], Hb' as [->|[->|[->|[->|[->|[]%elem_of_nil]]]]]; vm_compute in E; try discriminate;
      split; try done; by injection E.
  - intros Hs. unfold logcat_file. rewrite !not_elem_of_app. split_and!.
    + refine (proj1 (bool_decide_eq_false _) _). by vm_compute.
    + intros Hx. by apply clean_prefix_plain in Hx.
    + refine (proj1 (bool_decide_eq_false _) _). by vm_compute.
    + refine (proj1 (bool_decide_eq_false _) _). apply list_elem_of_In in Hb. vm_compute in Hb.
      by destruct Hb as [<-|[<-|[<-|[<-|[<-|[]]]]]]; vm_compute.
    + refine (proj1 (bool_decide_eq_false _) _). by vm_compute.
    + done.
    + refine (proj1 (bool_decide_eq_false _) _). by vm_compute.
Qed.

(** Tests whose names differ in special characters only overwrite each other's logs. *)
Example logs_overwritten buffer serial : logcat_file (bs "Mod/a:b") buffer serial = logcat_file (bs "Mod/a/b") buffer serial.
Proof. reflexivity. Qed.

(** With no names asked for, all functions that are named like tests run. *)
Lemma getTests_default dir : getTests dir [] [] = Ret (get_all_test_names dir).
Proof.
  unfold getTests. assert (forall l, (forall n, n ∈ l -> n ∈ dir.*1 /\ test_like n = true) -> get_test_funcs dir l = Ret l) as H.
  { induction l as [|n l IH]; intros Hl; [done|]. cbn [get_test_funcs]. destruct (Hl n) as [Hn Ht]; [by left|].
    rewrite bool_decide_true, Ht, IH by (done || intros; apply Hl; by right). done. }
  apply H. intros n Hn. unfold get_all_test_names in Hn. apply list_elem_of_fmap in Hn as ([a b] & -> & Hin).
  apply list_elem_of_filter in Hin as [Hc Hin]. split; [by apply list_elem_of_fmap; exists (a, b)|]. cbn in *. by apply andb_true_iff in Hc as [? _].
Qed.

(** ** Devices in memory *)
Module MemoryDevices.
(** Whether services and framework run, and the clock. *)
Record mem := mk_mem { serving : list bool; framework_up : list bool; seconds : Z }.
Definition op {A} (a : A) (f : mem -> mem) : xstM mem A := fun w => (Ret a, f w).
Definition set_serving (b : bool) (d : nat) (w : mem) : mem := mk_mem (<[d := b]> (serving w)) (framework_up w) (seconds w).
Definition set_framework (b : bool) (d : nat) (w : mem) : mem := mk_mem (serving w) (<[d := b]> (framework_up w)) (seconds w).
Definition name (d : nat) : pystr := bs "d" ++ str_nat (Z.of_nat d).

#[export] Instance memory_devices : DeviceOps mem := {
  dev_serial d _ := name d;
  dev_fatal_error _ _ := false;
  dev_logcat_on _ _ := true;
  dev_stop d _ := op tt (set_framework false d);
  dev_start d := op (Some true) (set_framework true d);
  dev_waitForProcessStop _ _ := op (Some true) id;
  dev_waitForBootCompletion _ _ := op (Some true) (fun w => mk_mem (serving w) (framework_up w) (seconds w + 1));
  dev_rootAdb _ := op tt id;
  dev_stopServices d := op tt (set_serving false d);
  dev_startServices d := op tt (set_serving true d);
  dev_Heal _ := op true id;
  dev_diagnose _ := op tt id;
  dev_bugreport _ _ := op tt id;
  dev_logcat _ _ _ := op tt id;
  host_time w := seconds w;
  host_diagnose := op tt id;
  host_adb_devices := op [name 1] id;
  host_Mkdir _ := op true id;
}.
Definition serves_in (d : nat) (w : mem) : Prop := serving w !! d = Some true.
Definition managed_in (d : nat) (w : mem) : Prop := is_Some (serving w !! d).

#[export] Instance memory_laws : DeviceLaws mem.
Proof.
  refine {| serves := serves_in; managed := managed_in |}.
  - intros d A m Hq w Hw. by destruct Hq.
  - intros d A m Hq w Hw. by destruct Hq.
  - intros d s A m Hq w Hw. by destruct Hq.
  - intros d d'. split; intros w [x Hx]; cbn; unfold managed_in; cbn;
      (destruct (decide (d' = d)) as [->|]; [rewrite list_lookup_insert_eq by (by eapply lookup_lt_Some)|rewrite list_lookup_insert_ne by done]; by eexists).
  - intros d d' s. split; intros w Hw; exact Hw.
  - intros d d' Hne. split; intros w Hw; unfold serves_in in *; cbn; by rewrite list_lookup_insert_ne.
  - intros d w w1 w2 [x Hx] [= <-] [= <-]. unfold serves_in. cbn. rewrite list_insert_insert_eq. apply list_lookup_insert_eq. by eapply lookup_lt_Some.
Defined.
Definition w0 : mem := mk_mem [false; false] [true; true] 0.
End MemoryDevices.
Import MemoryDevices.

Example healed_devices_serve_witness :
  exists w', Heal (W := mem) [0; 1] false 900 w0 = (Ret (Some true), w') /\ serves 0 w' /\ serving w' = [true; false].
Proof.
  eexists. split; [reflexivity|]. split; [|reflexivity].
  refine (proj2 (healed_devices_serve (W := mem) [0; 1] 900 [name 1] w0 w0 _ eq_refl _ _ _ 0 _) _).
  - repeat constructor; set_solver.
  - intros d Hd. apply list_elem_of_In in Hd. destruct Hd as [<-|[<-|[]]]; by eexists.
  - reflexivity.
  - by left.
  - refine (proj1 (bool_decide_eq_false _) _). by vm_compute.
Defined.

Example framework_is_stopped_witness :
  let params (n : pystr) (d : pyval) : xres pyval := Ret (if bool_decide (n = IKEY_DISABLE_FRAMEWORK) then PBool true else d) in
  exists w1, (op PNone id : xstM mem pyval) w1 = (Ret PNone, w1) /\ framework_up w1 = [false; false] /\
    forall d, d ∈ [0; 1] -> default true (framework_up w1 !! d) = false.
Proof.
  intros params.
  destruct (framework_is_stopped (W := mem) [0; 1] params (fun _ => op tt id) (op tt id) (op true id) (fun _ => op true id) (op PNone id)
    (fun d w => default false (framework_up w !! d))) with (disable := PBool true) (w := w0) (v := PNone) (w' := mk_mem [false; false] [false; false] 0)
    as (w1 & H1 & H2); try reflexivity.
  - intros d b w w' [= <-]. cbn. split.
    + destruct (decide (d < length (framework_up w))) as [Hl|Hl]; [by rewrite list_lookup_insert_eq|].
      rewrite list_insert_ge, lookup_ge_None_2 by lia. done.
    + intros k Hk. by rewrite list_lookup_insert_ne.
  - by intros d names k b w Hw.
  - exists w1. injection H1 as ->. split; [reflexivity|]. split; [reflexivity|]. intros d Hd. specialize (H2 d Hd).
    apply list_elem_of_In in Hd. by destruct Hd as [<-|[<-|[]]].
Defined.

Example logcat_files_distinct_witness :
  logcat_file (bs "Mod/test") (bs "main") (bs "S1") = logcat_file (bs "Mod/test") (bs "main") (bs "S1") /\
  (Byte.x2f ∉ logcat_file (bs "Mod/test") (bs "main") (bs "S1")).
Proof.
  split; [reflexivity|]. apply (logcat_files_distinct (bs "Mod/test") (bs "main") (bs "main") (bs "S1") (bs "S1")).
  - apply list_elem_of_In. vm_compute. tauto.
  - apply list_elem_of_In. vm_compute. tauto.
  - refine (proj1 (bool_decide_eq_false _) _). by vm_compute.
Defined.
