(* ===== verification/CoverageFeature.v ===== *)
(** * Coverage of a device ([src/utils/python/coverage/coverage_utils.py])

    [CoverageFeature] sets a device up, fetches the counters files that it writes and
    hands them to the processing of CoverageUtils, whose messages go to the report of
    WebReport or to a file.  The device and the files of the host are an interface;
    the iteration order of sets and dictionaries is an argument. *)

From Stdlib Require Import Strings.Byte.
From S2P Require Import Prelude PyStr PyPath PyVal ListUtils Signals BinaryTest Shell Config Archive CovGraph Gcno Gcda CoverageReport CoverageUtils PathTree WebReport SancovUtils UserParams.

Definition LOCAL_COVERAGE_PATH : pystr := bs "/tmp/vts-test-coverage".
Definition TARGET_COVERAGE_PATH : pystr := bs "/data/misc/trace/".
Definition BUILD_INFO : pystr := bs "BUILD_INFO".
Definition GCOV_ZIP : pystr := bs "gcov.zip".
Definition CLEAN_TRACE_COMMAND : pystr := bs "rm -rf /data/misc/trace/*".
Definition FLUSH_COMMAND : pystr :=
  bs "GCOV_PREFIX_OVERRIDE=true GCOV_PREFIX=/data/local/tmp/flusher /data/local/tmp/vts_coverage_configure flush".
Definition SP_COVERAGE_PATH : pystr := bs "self".
Definition IKEY_ENABLE_COVERAGE : pystr := bs "enable_coverage".
Definition IKEY_MODULES : pystr := bs "modules".
Definition IKEY_OUTPUT_COVERAGE_REPORT : pystr := bs "output_coverage_report".
Definition IKEY_GLOBAL_COVERAGE : pystr := bs "global_coverage".
Definition IKEY_EXCLUDE_COVERAGE_PATH : pystr := bs "exclude_coverage_path".
Definition IKEY_COVERAGE_REPORT_PATH : pystr := bs "coverage_report_path".
Definition IKEY_GCOV_RESOURCES_PATH : pystr := bs "gcov_resources_path".
Definition KEY_GIT_PROJECT : pystr := bs "git_project".
Definition KEY_MODULE_NAME : pystr := bs "module_name".
Definition KEY_NAME : pystr := bs "name".
Definition KEY_PATH : pystr := bs "path".

(** ** The device and the host *)
Class CoverageHost (S : Type) := {
  dut_shell : pystr -> xstM S pystr;                 (* dut.adb.shell *)
  dut_rootAdb : xstM S unit;
  dut_pull : pystr -> xstM S unit;                   (* dut.adb.pull *)
  host_shell : pystr -> xstM S (pystr * Z);          (* a command of the host: output and exit code *)
  host_open : pystr -> xstM S pystr;                 (* open(path, "rb").read() *)
  host_write : pystr -> pystr -> xstM S unit;
  host_listdir : pystr -> xstM S (list pystr);
  host_remove : pystr -> xstM S unit;
  host_exists : pystr -> S -> bool;
  host_rmtree : pystr -> xstM S unit;
  host_makedirs : pystr -> xstM S unit;
  host_micros : xstM S Z;                            (* int(time.time() * 1000000) *)
}.

Record CoverageFeature := mk_cf {
  cf_feature : Feature;
  cf_resources : gmap pystr pystr;                   (* _device_resource_dict *)
  cf_hal_names : option (list pystr);
  local_coverage_path : pystr;
  coverage_report_dir : pyval;
  coverage_report_file_prefix : pystr;
  global_coverage : pyval;
}.
Definition set_cf_feature (f : Feature) (s : CoverageFeature) : CoverageFeature :=
  mk_cf f (cf_resources s) (cf_hal_names s) (local_coverage_path s) (coverage_report_dir s) (coverage_report_file_prefix s) (global_coverage s).
Definition SetHalNames (names : list pystr) (s : CoverageFeature) : CoverageFeature :=
  mk_cf (cf_feature s) (cf_resources s) (Some names) (local_coverage_path s) (coverage_report_dir s) (coverage_report_file_prefix s) (global_coverage s).
Definition SetCoverageReportFilePrefix (prefix : pystr) (s : CoverageFeature) : CoverageFeature :=
  mk_cf (cf_feature s) (cf_resources s) (cf_hal_names s) (local_coverage_path s) (coverage_report_dir s) prefix (global_coverage s).
Definition SetCoverageReportDirectory (dir : pystr) (s : CoverageFeature) : CoverageFeature :=
  mk_cf (cf_feature s) (cf_resources s) (cf_hal_names s) (local_coverage_path s) (PStr dir) (coverage_report_file_prefix s) (global_coverage s).

Record cov_world (S : Type) := mk_cov { outside : S; feat : CoverageFeature; cov_web : option WebFeature }.
Arguments mk_cov {_} _ _ _.
Arguments outside {_} _.
Arguments feat {_} _.
Arguments cov_web {_} _.

(** [if not serial ... if not coverage_resource_path] come before the conversion. *)
Definition add_resource (d : gmap pystr pystr) (device : pyval) : pyres (gmap pystr pystr) :=
  match device with
  | PDict entries =>
      let serial := default PNone (dict_get IKEY_SERIAL entries) in
      let coverage_resource_path := default PNone (dict_get IKEY_GCOV_RESOURCES_PATH entries) in
      Ok (if truthy serial && truthy coverage_resource_path
          then <[str_val serial := str_val coverage_resource_path]> d else d)
  | _ => Raise AttributeError
  end.

(** ** What [exclude_coverage_path] may be

    The list is changed in place, and grows by the default paths. *)
Definition as_text (v : pyval) : option pystr := match v with PStr s => Some s | _ => None end.
Definition gets_slash (path : pystr) : bool := negb (bool_decide (basename path = [])) && negb (contains (bs ".") (basename path)).
Definition Python_RuntimeError : exc_class := UserException 23.
Definition runtime_error : exn := EOther Python_RuntimeError (bs "dictionary changed size during iteration").
Definition exclude_list (v : pyval) : xres (list pystr) :=
  match v with
  | PList l => match mapM as_text l with Some l => Ret l | None => Exc attribute_error end
  | PStr s => if existsb (fun b => gets_slash [b]) s then Exc (type_error (bs "'str' object does not support item assignment")) else Exc attribute_error
  | PDict d => if existsb gets_slash d.*1 then Exc runtime_error else Exc attribute_error
  | _ => Exc (type_error (bs "object is not iterable"))
  end.

(** [MODULE_NAME], [GIT_PROJECT] and the project's [NAME] and [PATH] of one entry of
    [modules]; the marks are looked for with [in]. *)
Definition module_entry (module : pyval) : xres module_config :=
  has_name ← py_contains KEY_MODULE_NAME module;
  has_project ← (if has_name : bool then py_contains KEY_GIT_PROJECT module else Ret false);
  if has_project : bool then
    project ← py_getitem module KEY_GIT_PROJECT;
    has_path ← py_contains KEY_PATH project;
    has_pname ← (if has_path : bool then py_contains KEY_NAME project else Ret false);
    if has_pname : bool then
      name ← py_getitem module KEY_MODULE_NAME;
      git_project ← py_getitem project KEY_NAME;
      git_project_path ← py_getitem project KEY_PATH;
      Ret (mk_module (Some (str_val name)) (Some (Some (str_val git_project), Some (str_val git_project_path))))
    else Ret (mk_module None None)
  else Ret (mk_module None None).

Section feature.
Context {S : Type} `{CoverageHost S}.
Context (set_order : list pystr -> list pystr) (dict_order : gmap pystr pystr -> list (pystr * pystr)).
Abbreviation M := (xstM (cov_world S)).

Definition new_CoverageFeature (user_params : params) : xstM S CoverageFeature :=
  let f := ParseParameters (Some IKEY_ENABLE_COVERAGE) [IKEY_ANDROID_DEVICE]
             [IKEY_MODULES; IKEY_OUTPUT_COVERAGE_REPORT; IKEY_GLOBAL_COVERAGE; IKEY_EXCLUDE_COVERAGE_PATH; IKEY_COVERAGE_REPORT_PATH]
             user_params new_feature in
  t ← host_micros;
  let path := path_join2 LOCAL_COVERAGE_PATH (str_int t) in
  w ← xget;
  _ ← (if host_exists path w then host_rmtree path else mret tt);
  _ ← host_makedirs path;
  let dir := attribute_or f IKEY_COVERAGE_REPORT_PATH PNone in
  let global := attribute_or f IKEY_GLOBAL_COVERAGE (PBool true) in
  if enabled f then
    android_devices ← xpure (attribute f IKEY_ANDROID_DEVICE);
    let f := match android_devices with PList _ => f | _ => set_enabled false f end in
    devices ← xpure (iterate android_devices);
    d ← xpure (foldlM_py add_resource ∅ devices);
    mret (mk_cf f d None path dir [] global)
  else mret (mk_cf f ∅ None path dir [] global).

(** ** Commands *)

(** [dut]: whether a device object is given; without one, adb of the host is run. *)
Definition ExecuteOneAdbShellCommand (dut : bool) (serial : option pystr) (cmd : pystr) : xstM S (option pystr) :=
  if dut then
    r ← xattempt (dut_shell cmd);
    match r with
    | Ret out => mret (Some out)
    | Exc e => if isinstance e AdbError then mret None else xlift (Exc e)
    end
  else
    r ← host_shell (bs "adb -s " ++ default (bs "None") serial ++ bs " shell " ++ cmd);
    mret (if (snd r =? 0)%Z then Some (fst r) else None).

(** [path_suffix] is joined to a path that is not used. *)
Definition ClearTargetGcov (dut : bool) (serial : option pystr) : xstM S unit :=
  _ ← ExecuteOneAdbShellCommand dut serial CLEAN_TRACE_COMMAND; mret tt.

Definition lshal_command (hal_names : list pystr) : pystr :=
  bs "lshal -itp 2> /dev/null | grep -E " ++ quote ++ join_with (bs "|") hal_names ++ quote.
(** Without a device [None] has no [rootAdb]. *)
Definition GetHalPids (dut : bool) (hal_names : list pystr) : xstM S (list pystr) :=
  r ← xattempt (if dut then _ ← dut_rootAdb; dut_shell (lshal_command hal_names) else xlift (Exc attribute_error));
  entries ← match r with
            | Ret out => mret out
            | Exc e => if isinstance e AdbError then mret [] else xlift (Exc e)
            end;
  xpure (hal_pids set_order entries).

Fixpoint for_each {A} (l : list A) (f : A -> xstM S unit) : xstM S unit :=
  match l with [] => mret tt | a :: l => _ ← f a; for_each l f end.

(** [if self._hal_names] *)
Definition hals_of (s : CoverageFeature) : list pystr := default [] (cf_hal_names s).

Definition InitializeDeviceCoverage (self : CoverageFeature) (dut : bool) (serial : option pystr) : xstM S unit :=
  _ ← ExecuteOneAdbShellCommand dut serial (bs "setenforce 0");
  _ ← ExecuteOneAdbShellCommand dut serial FLUSH_COMMAND;
  _ ← ClearTargetGcov dut serial;
  match hals_of self with
  | [] => mret tt
  | hal_names =>
      pids ← GetHalPids dut hal_names;
      for_each pids (fun pid => _ ← ExecuteOneAdbShellCommand dut serial (bs "kill -9 " ++ pid); mret tt)
  end.

(** ** Fetching the counters *)
Definition find_command (path : pystr) : pystr := bs "find " ++ path ++ bs " -name " ++ quote ++ bs "*.gcda" ++ quote.

(** The paths that the command gives, for the process of each HAL. *)
Fixpoint find_in (pids : list pystr) : xstM S (list pystr) :=
  match pids with
  | [] => mret []
  | pid :: pids =>
      r ← xattempt (dut_shell (find_command (path_join2 TARGET_COVERAGE_PATH pid)));
      l ← match r with
          | Ret files => mret (split newline files)
          | Exc e => if isinstance e AdbError then mret [] else xlift (Exc e)
          end;
      ls ← find_in pids;
      mret (l ++ ls)
  end.
Definition find_gcdas (self : CoverageFeature) (dut : bool) (serial : option pystr) : xstM S (list pystr) :=
  match hals_of self with
  | [] =>
      result ← ExecuteOneAdbShellCommand dut serial (find_command TARGET_COVERAGE_PATH);
      mret (match result with None | Some [] => [] | Some files => split newline files end)
  | hal_names =>
      pids ← GetHalPids dut hal_names;
      find_in (set_order (remove_dups (pids ++ [SP_COVERAGE_PATH])))
  end.

(** A pull of the host that fails is logged; what is read then was there before. *)
Definition pull_gcda (dut : bool) (serial : option pystr) (gcda file_name : pystr) : xstM S unit :=
  if dut then dut_pull (gcda ++ bs " " ++ file_name)
  else
    _ ← host_shell (bs "adb -s " ++ default (bs "None") serial ++ bs " pull " ++ gcda ++ bs " " ++ file_name ++ bs " ");
    mret tt.
Definition local_name (self : CoverageFeature) (gcda : pystr) : pystr := path_join2 (local_coverage_path self) (basename (strip gcda)).
Fixpoint fetch_gcdas (self : CoverageFeature) (dut : bool) (serial : option pystr) (gcda_files : list pystr) (gcda_dict : gmap pystr pystr) :
    xstM S (gmap pystr pystr) :=
  match gcda_files with
  | [] => mret gcda_dict
  | [] :: gcda_files => fetch_gcdas self dut serial gcda_files gcda_dict
  | gcda :: gcda_files =>
      _ ← pull_gcda dut serial gcda (local_name self gcda);
      gcda_content ← host_open (local_name self gcda);
      fetch_gcdas self dut serial gcda_files (<[strip gcda := gcda_content]> gcda_dict)
  end.
Definition GetGcdaDict (self : CoverageFeature) (dut : bool) (serial : option pystr) : xstM S (gmap pystr pystr) :=
  _ ← ExecuteOneAdbShellCommand dut serial FLUSH_COMMAND;
  gcda_files ← find_gcdas self dut serial;
  gcda_dict ← fetch_gcdas self dut serial (set_order (remove_dups gcda_files)) ∅;
  _ ← ClearTargetGcov dut serial;
  mret gcda_dict.

(** ** Processing *)

(** The members of a zip file and the projects of a build information file. *)
Context (zip_items : pystr -> xres (list (pystr * pystr))) (repo_dict : pystr -> xres (list (pystr * pystr))).
(** What CoverageUtils takes as arguments. *)
Context (archive_items : gmap pystr pystr -> list (pystr * pystr)) (function_items : FileSummary -> list (Z * FunctionSummary))
  (coverage_items : gmap pystr (list Z) -> list (pystr * list Z)) (parser_after_error : GCNOParser -> GCNOParser)
  (summary_after_error : FileSummary -> pystr -> FileSummary) (fuel : nat) (cwd : pystr)
  (show_messages : list coverage_message -> pystr).

Definition outside_ {A} (m : xstM S A) : M A := fun w => let '(r, s) := m (outside w) in (r, mk_cov s (feat w) (cov_web w)).
Definition set_feat (s : CoverageFeature) : M unit := xmodify (fun w => mk_cov (outside w) s (cov_web w)).
Definition web_on (w : cov_world S) : bool := match cov_web w with Some f => enabled (feature f) | None => false end.
Definition on_web (m : xstM WebFeature unit) : M unit := fun w =>
  match cov_web w with
  | Some f => let '(r, f) := m f in (r, mk_cov (outside w) (feat w) (Some f))
  | None => (Ret tt, w)
  end.

(** [self.web.report_msg.coverage], or that of the current test. *)
Definition reported (isGlobal : bool) (f : WebFeature) : xres (list coverage_message) :=
  match report_msg f with
  | None => Exc attribute_error
  | Some r =>
      if isGlobal then Ret (r_coverage r)
      else match current f with
           | Some (Some i) => match test_case r !! i with Some c => Ret (case_coverage c) | None => Exc attribute_error end
           | _ => Exc attribute_error
           end
  end.
Definition report_file_name (prefix : pystr) (micros : Z) : pystr :=
  bs "coverage_report_" ++ (match prefix with [] => str_int micros | _ => prefix end) ++ bs ".txt".
Definition OutputCoverageReport (isGlobal : bool) (coverage_report_msg : option (list coverage_message)) : M unit :=
  t ← outside_ host_micros;
  w ← xget;
  let name := report_file_name (coverage_report_file_prefix (feat w)) t in
  file ← (if truthy (coverage_report_dir (feat w)) then
            match coverage_report_dir (feat w) with
            | PStr dir => _ ← (if host_exists dir (outside w) then mret tt else outside_ (host_makedirs dir)); mret (path_join2 dir name)
            | _ => xlift (Exc (type_error (bs "coercing to Unicode: need string or buffer")))
            end
          else mret (path_join2 (local_coverage_path (feat w)) name));
  msg ← (match cov_web w with
         | Some f => if enabled (feature f) then l ← xlift (reported isGlobal f); mret (Some l) else mret coverage_report_msg
         | None => mret coverage_report_msg
         end);
  match msg with None => mret tt | Some l => outside_ (host_write file (show_messages l)) end.

(** One source file, when there is a report. *)
Definition report_web (revision_dict : list (pystr * pystr)) (isGlobal : bool) (source : pystr * list Z) : xstM WebFeature unit :=
  let '(src_file_path, coverage_vec) := source in
  match find_project src_file_path revision_dict with
  | None => mret tt
  | Some (git_project_name, git_project_path, revision) =>
      if decide (revision = []) then mret tt
      else
        let '(total_count, covered_count) := GetCoverageStats coverage_vec in
        AddCoverageReport cwd coverage_vec src_file_path git_project_name git_project_path revision covered_count total_count isGlobal
  end.
Fixpoint report_all (revision_dict : list (pystr * pystr)) (isGlobal : bool) (sources : list (pystr * list Z)) : xstM WebFeature unit :=
  match sources with
  | [] => mret tt
  | s :: sources => _ ← report_web revision_dict isGlobal s; report_all revision_dict isGlobal sources
  end.

(** The list of paths to leave out; the attribute is the list that is changed. *)
Definition take_excludes : M (list pystr) :=
  w ← xget;
  match attrs (cf_feature (feat w)) !! IKEY_EXCLUDE_COVERAGE_PATH with
  | None => mret []
  | Some v =>
      l ← xlift (exclude_list v);
      let f := cf_feature (feat w) in
      _ ← set_feat (set_cf_feature (mk_feature (enabled f) (<[IKEY_EXCLUDE_COVERAGE_PATH := PList (PStr <$> exclude_paths_of l)]> (attrs f))) (feat w));
      mret l
  end.
Definition AutoProcess_ (cov_zip revision_dict gcda_dict : list (pystr * pystr)) (isGlobal : bool) : M unit :=
  _ ← xpure (GetChecksumGcnoDict archive_items fuel cov_zip);
  w ← xget;
  let output_coverage_report := attribute_or (cf_feature (feat w)) IKEY_OUTPUT_COVERAGE_REPORT (PBool false) in
  exclude_coverage_path ← take_excludes;
  coverage_dict ← xpure (coverage_of archive_items function_items parser_after_error summary_after_error fuel cov_zip gcda_dict exclude_coverage_path);
  messages ← (if web_on w then _ ← on_web (report_all revision_dict isGlobal (coverage_items coverage_dict)); mret []
              else xpure (foldlM_py (report_source cwd revision_dict) [] (coverage_items coverage_dict)));
  if truthy output_coverage_report then OutputCoverageReport isGlobal (Some messages) else mret tt.

Fixpoint manual_modules (cov_zip revision_dict gcda_dict : list (pystr * pystr)) (modules : list pyval) : M unit :=
  match modules with
  | [] => mret tt
  | m :: modules =>
      c ← xlift (module_entry m);
      _ ← xpure (manual_module archive_items fuel cov_zip revision_dict gcda_dict c);
      manual_modules cov_zip revision_dict gcda_dict modules
  end.
Definition ManualProcess_ (cov_zip revision_dict gcda_dict : list (pystr * pystr)) (isGlobal : bool) : M unit :=
  w ← xget;
  let output_coverage_report := attribute_or (cf_feature (feat w)) IKEY_OUTPUT_COVERAGE_REPORT (PBool true) in
  modules ← xpure (iterate (attribute_or (cf_feature (feat w)) IKEY_MODULES PNone));
  _ ← manual_modules cov_zip revision_dict gcda_dict modules;
  if truthy output_coverage_report then OutputCoverageReport isGlobal None else mret tt.

Definition remove_counters (self : CoverageFeature) : xstM S unit :=
  items ← host_listdir (local_coverage_path self);
  for_each items (fun item => if endswith GCDA_SUFFIX item then host_remove (path_join2 (local_coverage_path self) item) else mret tt).

Definition serial_of (dut : bool) (serial : option pystr) : xstM S pystr :=
  match serial with
  | Some s => mret s
  | None => if dut then out ← dut_shell GETPROP_SERIAL; mret (strip out) else mret (bs "default")
  end.
(** The serial number that was asked for is what the commands get. *)
Definition SetCoverageData (dut : bool) (serial : option pystr) (isGlobal : bool) : M unit :=
  w ← xget;
  if negb (enabled (cf_feature (feat w))) then mret tt
  else
    serial ← outside_ (serial_of dut serial);
    match cf_resources (feat w) !! serial with
    | None | Some [] => mret tt
    | Some resource_path =>
        gcda_dict ← outside_ (GetGcdaDict (feat w) dut (Some serial));
        cov_zip ← xlift (zip_items (path_join2 resource_path GCOV_ZIP));
        revision_dict ← xlift (repo_dict (path_join2 resource_path BUILD_INFO));
        _ ← (if decide (attrs (cf_feature (feat w)) !! IKEY_MODULES = None)
             then AutoProcess_ cov_zip revision_dict (dict_order gcda_dict) isGlobal
             else ManualProcess_ cov_zip revision_dict (dict_order gcda_dict) isGlobal);
        outside_ (remove_counters (feat w))
    end.
End feature.

(** ** What the theorems use of the device and the host *)
(** The path of a counters file, as the command [find] gives it. *)
Definition counters_path (p : pystr) : Prop := no_space p = true /\ endswith GCDA_SUFFIX p = true.
Definition lines_of (l : list pystr) : pystr := mjoin ((fun p => p ++ newline) <$> l).

Class CoverageLaws (S : Type) `{CoverageHost S} := {
  counters : S -> gmap pystr pystr;      (* of the device *)
  files : S -> gmap pystr pystr;         (* of the host *)
  (** The processes write their counters. *)
  flush_law s : exists out s', dut_shell FLUSH_COMMAND s = (Ret out, s') /\ files s' = files s /\
    (forall p, is_Some (counters s' !! p) -> counters_path p);
  find_law s : (forall p, is_Some (counters s !! p) -> counters_path p) ->
    exists l s', dut_shell (find_command TARGET_COVERAGE_PATH) s = (Ret (lines_of l), s') /\
    NoDup l /\ (forall p, p ∈ l <-> is_Some (counters s !! p)) /\ counters s' = counters s /\ files s' = files s;
  pull_law s p c f : counters s !! p = Some c -> no_space p = true -> no_space f = true ->
    exists s', dut_pull (p ++ bs " " ++ f) s = (Ret tt, s') /\ counters s' = counters s /\ files s' = <[f := c]> (files s);
  open_law s f c : files s !! f = Some c ->
    exists s', host_open f s = (Ret c, s') /\ counters s' = counters s /\ files s' = files s;
  clean_law s : exists out s', dut_shell CLEAN_TRACE_COMMAND s = (Ret out, s') /\ counters s' = ∅ /\ files s' = files s;
  (** For a directory that has files only. *)
  listdir_law s d : exists l s', host_listdir d s = (Ret l, s') /\ NoDup l /\ counters s' = counters s /\ files s' = files s /\
    (forall n, n ∈ l <-> n <> [] /\ (slash ∉ n) /\ is_Some (files s !! path_join2 d n));
  remove_law s f : is_Some (files s !! f) ->
    exists s', host_remove f s = (Ret tt, s') /\ counters s' = counters s /\ files s' = delete f (files s);
}.

Lemma bare_strip p : no_space p = true -> strip p = p.
Proof. intros Hp. pose proof (strip_no_space p [] [] Hp eq_refl eq_refl) as E. by rewrite app_nil_r in E. Qed.

Lemma bare_no_newline p : no_space p = true -> no_byte Byte.x0a p = true.
Proof.
  unfold no_space, no_byte. rewrite !forallb_forall. intros H b Hb. specialize (H b Hb). unfold is_byte.
  case_bool_decide as E; [|done]. subst. discriminate H.
Qed.

Lemma after_last_sub c p b : b ∈ after_last c p -> b ∈ p.
Proof.
  induction p as [|a p IH]; [done|]. cbn. case_bool_decide; [right; by apply IH|]. case_decide; [by right|done].
Qed.

Lemma bare_basename p : no_space p = true -> no_space (basename p) = true.
Proof.
  unfold no_space. rewrite !forallb_forall. intros Hp b Hb. apply Hp, list_elem_of_In, (after_last_sub slash). by apply list_elem_of_In.
Qed.

Lemma after_last_end c s t : c ∉ t -> after_last c (s ++ t) = after_last c s ++ t.
Proof.
  intros Ht. induction s as [|b s IH]; cbn; [by apply after_last_none|].
  destruct (decide (c ∈ s)) as [Hs|Hs].
  - rewrite !bool_decide_true; [done|done|apply elem_of_app; by left].
  - rewrite !bool_decide_false; [by case_decide|done|]. by intros [?|?]%elem_of_app.
Qed.

Lemma gcda_basename p : endswith GCDA_SUFFIX p = true -> endswith GCDA_SUFFIX (basename p) = true /\ basename p <> [].
Proof.
  intros [k ->]%endswith_spec. unfold basename. rewrite after_last_end by (refine (proj1 (bool_decide_eq_false _) _); by vm_compute).
  split; [apply endswith_app|]. by destruct (after_last slash k).
Qed.

(** ** Fetching *)
Section fetching.
Context {S : Type} `{CoverageLaws S}.
Context (set_order : list pystr -> list pystr) (set_order_perm : forall l, set_order l ≡ₚ l).
Context (self : CoverageFeature) (local_plain : no_space (local_coverage_path self) = true).

(** A counters file in the directory of the host. *)
Definition is_counters (n : pystr) : Prop := (slash ∉ n) /\ n <> [] /\ endswith GCDA_SUFFIX n = true.
Definition fetched (f : pystr) : Prop := exists n, is_counters n /\ f = path_join2 (local_coverage_path self) n.

Lemma no_slash_start n : slash ∉ n -> startswith sep n = false.
Proof. intros Hn. destruct n as [|b n]; [done|]. apply not_true_is_false. rewrite startswith_spec. intros [k [= -> _]]. apply Hn. by left. Qed.

Lemma fetched_gcda f : fetched f -> endswith GCDA_SUFFIX f = true.
Proof.
  intros (n & (Hs & _ & [k ->]%endswith_spec) & ->). unfold path_join2. rewrite no_slash_start by done.
  destruct (_ || _); rewrite !app_assoc; apply endswith_app.
Qed.

Lemma local_name_fetched p : counters_path p -> fetched (local_name self p) /\ no_space (local_name self p) = true.
Proof using local_plain.
  intros [Hb Hg]. unfold local_name. rewrite bare_strip by done. destruct (gcda_basename p Hg) as [Hg' Hne]. split.
  - exists (basename p). split; [|done]. split_and!; [apply after_last_fresh|done|done].
  - unfold path_join2. rewrite no_slash_start by apply after_last_fresh.
    pose proof (bare_basename p Hb) as Hb'. unfold no_space in *. destruct (_ || _); rewrite !forallb_app, local_plain, Hb'; done.
Qed.

Lemma fetch_run serial l d s :
  (forall p, p ∈ l -> p = [] \/ is_Some (counters s !! p) /\ counters_path p) ->
  exists d' s', fetch_gcdas self true serial l d s = (Ret d', s') /\ counters s' = counters s /\
    (forall k, d' !! k = if decide (k ∈ l /\ k <> []) then counters s !! k else d !! k) /\
    (forall f, ~ fetched f -> files s' !! f = files s !! f).
Proof using local_plain.
  revert d s. induction l as [|p l IH]; intros d s Hl; cbn [fetch_gcdas].
  { exists d, s. split_and!; done. }
  assert (Hl' : forall q, q ∈ l -> q = [] \/ is_Some (counters s !! q) /\ counters_path q) by (intros q Hq; apply Hl; by right).
  destruct p as [|b p].
  { destruct (IH d s Hl') as (d' & s' & -> & Hc & Hd & Hf). exists d', s'. split_and!; try done. intros k. rewrite Hd.
    apply decide_ext. rewrite elem_of_cons. naive_solver. }
  destruct (Hl (b :: p)) as [|[[c Hc] Hp]]; [by left|done|]. set (q := b :: p) in *.
  destruct (local_name_fetched q Hp) as [Hf Hs].
  destruct (pull_law s q c (local_name self q) Hc (proj1 Hp) Hs) as (s1 & H1 & Hc1 & Hf1).
  unfold pull_gcda. erewrite xstM_bind_run by exact H1.
  destruct (open_law s1 (local_name self q) c) as (s2 & H2 & Hc2 & Hf2); [by rewrite Hf1, lookup_insert_eq|].
  erewrite xstM_bind_run by exact H2. rewrite bare_strip by apply Hp.
  destruct (IH (<[q := c]> d) s2) as (d' & s' & -> & Hc3 & Hd & Hf3); [by rewrite Hc2, Hc1|].
  exists d', s'. split_and!; try done; [by rewrite Hc3, Hc2| |].
  - intros k. rewrite Hd, Hc2, Hc1. destruct (decide (k = q)) as [->|Hne].
    + rewrite lookup_insert_eq, (decide_True (P := q ∈ q :: l /\ _)) by (split; [by left|done]). rewrite <- Hc. by destruct (decide _).
    + rewrite lookup_insert_ne by done. apply decide_ext. rewrite elem_of_cons. naive_solver.
  - intros f Hnf. rewrite Hf3, Hf2, Hf1 by done. rewrite lookup_insert_ne; [done|]. by intros <-.
Qed.

(** Every counters file of the device arrives under its path, and none stays there. *)
Lemma gcda_dict_run serial s :
  hals_of self = [] ->
  exists out s1 d s', dut_shell FLUSH_COMMAND s = (Ret out, s1) /\
    GetGcdaDict set_order self true serial s = (Ret d, s') /\ d = counters s1 /\ counters s' = ∅ /\
    (forall f, ~ fetched f -> files s' !! f = files s !! f).
Proof using local_plain set_order_perm.
  intros Hh. destruct (flush_law s) as (out & s1 & H1 & Hf1 & Hp).
  assert (forall cmd o t t', dut_shell cmd t = (Ret o, t') -> ExecuteOneAdbShellCommand true serial cmd t = (Ret (Some o), t')) as Hex.
  { intros cmd o t t' Ht. unfold ExecuteOneAdbShellCommand. erewrite xstM_bind_run by (unfold xattempt; by rewrite Ht). done. }
  destruct (find_law s1 Hp) as (l & s2 & H2 & Hnd & Hl & Hc2 & Hf2).
  assert (forallb (no_byte Byte.x0a) l = true) as Hnl.
  { apply forallb_forall. intros p Hp'. apply bare_no_newline. apply list_elem_of_In, Hl in Hp'. by apply Hp in Hp' as [? _]. }
  set (found := match lines_of l with [] => [] | fs => split newline fs end).
  assert (forall p, p ∈ found -> p = [] \/ p ∈ l) as Hfound.
  { unfold found, lines_of. intros p. destruct (mjoin _) as [|b m] eqn:E; [by intros ?%elem_of_nil|]. rewrite <- E, split_lines by done.
    rewrite elem_of_app, list_elem_of_singleton. tauto. }
  assert (forall p, p ∈ l -> p ∈ found) as Hfound'.
  { unfold found, lines_of. intros p Hin. destruct (mjoin _) as [|b m] eqn:E.
    - exfalso. destruct l as [|q l]; [by apply elem_of_nil in Hin|]. cbn in E. by destruct q.
    - rewrite <- E, split_lines by done. apply elem_of_app. by left. }
  destruct (fetch_run serial (set_order (remove_dups found)) ∅ s2) as (d & s3 & H3 & Hc3 & Hd & Hf3).
  { intros p. rewrite (set_order_perm _). rewrite elem_of_remove_dups. intros [->|Hin]%Hfound; [by left|right].
    apply Hl in Hin. rewrite Hc2. split; [done|by apply Hp]. }
  destruct (clean_law s3) as (o4 & s4 & H4 & Hc4 & Hf4).
  exists out, s1, d, s4. split_and!; [done| | |done|].
  - unfold GetGcdaDict. erewrite xstM_bind_run by (by apply Hex).
    assert (find_gcdas set_order self true serial s1 = (Ret found, s2)) as Hfind.
    { unfold find_gcdas. rewrite Hh. erewrite xstM_bind_run by (by apply Hex). unfold found. by destruct (lines_of l). }
    erewrite xstM_bind_run by exact Hfind.
    erewrite xstM_bind_run by exact H3. erewrite xstM_bind_run; [reflexivity|].
    unfold ClearTargetGcov. by erewrite xstM_bind_run by (by apply Hex).
  - apply map_eq. intros k. rewrite Hd, Hc2, lookup_empty.
    destruct (decide _) as [_|Hn]; [done|]. rewrite (set_order_perm _), elem_of_remove_dups in Hn. destruct (counters s1 !! k) as [c|] eqn:E; [|done]. exfalso. apply Hn.
    split; [apply Hfound', Hl; by rewrite E|]. intros ->. destruct (Hp [] ltac:(by eexists)) as [_ Hg]. done.
  - intros f Hnf. rewrite Hf4, Hf3, Hf2, Hf1 by done. done.
Qed.
End fetching.

(** ** Cleaning up *)
Section cleaning.
Context {S : Type} `{CoverageLaws S}.
Context (self : CoverageFeature).
Abbreviation local := (path_join2 (local_coverage_path self)).

Lemma local_inj n n' : (slash ∉ n) -> (slash ∉ n') -> local n = local n' -> n = n'.
Proof. intros Hn Hn'. apply path_join2_inj; by apply no_slash_start. Qed.

Lemma remove_all_run l s :
  NoDup l -> (forall n, n ∈ l -> (slash ∉ n) /\ is_Some (files s !! local n)) ->
  exists s', for_each l (fun item => if endswith GCDA_SUFFIX item then host_remove (local item) else mret tt) s = (Ret tt, s') /\
    counters s' = counters s /\
    (forall n, n ∈ l -> endswith GCDA_SUFFIX n = true -> files s' !! local n = None) /\
    (forall f, (forall n, n ∈ l -> endswith GCDA_SUFFIX n = true -> f <> local n) -> files s' !! f = files s !! f).
Proof.
  revert s. induction l as [|n l IH]; intros s Hnd Hl; cbn [for_each].
  { exists s. split_and!; try done. by intros n ?%elem_of_nil. }
  apply NoDup_cons in Hnd as [Hn Hnd]. destruct (Hl n) as [Hs Hf]; [by left|].
  assert (forall m, m ∈ l -> local m <> local n) as Hne.
  { intros m Hm E%local_inj; [by subst|by apply Hl; right|done]. }
  destruct (endswith GCDA_SUFFIX n) eqn:Hg.
  - destruct (remove_law s (local n) Hf) as (s1 & H1 & Hc1 & Hf1). erewrite xstM_bind_run by exact H1.
    destruct (IH s1 Hnd) as (s' & -> & Hc & Hgone & Hkept).
    { intros m Hm. rewrite Hf1, lookup_delete_ne by (intros E; by apply (Hne m Hm)). apply Hl. by right. }
    exists s'. split_and!; [done|by rewrite Hc| |].
    + intros m [->|Hm]%elem_of_cons Hgm; [|by apply Hgone]. rewrite Hkept; [by rewrite Hf1, lookup_delete_eq|].
      intros k Hk _ E. by apply (Hne k Hk).
    + intros f Hf'. rewrite Hkept by (intros k Hk; apply Hf'; by right). rewrite Hf1, lookup_delete_ne; [done|].
      intros E. by apply (Hf' n ltac:(by left) Hg).
  - destruct (IH s Hnd) as (s' & H1 & Hc & Hgone & Hkept); [intros m Hm; apply Hl; by right|].
    exists s'. split_and!; [exact H1|done| |].
    + intros m [->|Hm]%elem_of_cons Hgm; [congruence|by apply Hgone].
    + intros f Hf'. apply Hkept. intros k Hk. apply Hf'. by right.
Qed.

Lemma remove_counters_run s :
  exists s', remove_counters self s = (Ret tt, s') /\ counters s' = counters s /\
    (forall f, fetched self f -> files s' !! f = None) /\ (forall f, ~ fetched self f -> files s' !! f = files s !! f).
Proof.
  destruct (listdir_law s (local_coverage_path self)) as (l & s1 & H1 & Hnd & Hc1 & Hf1 & Hl).
  destruct (remove_all_run l s1 Hnd) as (s' & H2 & Hc2 & Hgone & Hkept).
  { intros n Hn. rewrite Hf1. apply Hl in Hn. tauto. }
  exists s'. split_and!; [unfold remove_counters; by erewrite xstM_bind_run by exact H1|by rewrite Hc2| |].
  - intros f (n & (Hs & Hne & Hg) & ->). destruct (decide (n ∈ l)) as [Hn|Hn]; [by apply Hgone|].
    rewrite Hkept, Hf1. { destruct (files s !! local n) eqn:E; [|done]. exfalso. apply Hn, Hl. by split_and!. }
    intros m Hm _ E%local_inj; [by subst|done|]. apply Hl in Hm. tauto.
  - intros f Hf. rewrite Hkept; [by rewrite Hf1|]. intros n Hn Hg ->. apply Hf. exists n. split; [|done].
    apply Hl in Hn. split_and!; tauto || done.
Qed.
End cleaning.

(** ** The report *)
Lemma report_source_app cwd revisions ms source ms' :
  report_source cwd revisions [] source = Ok ms' -> report_source cwd revisions ms source = Ok (ms ++ ms').
Proof.
  destruct source as [src vec]. unfold report_source. destruct (find_project src revisions) as [[[name path] rev]|].
  - case_decide; [intros [= <-]; by rewrite app_nil_r|]. destruct (GetCoverageStats vec). intros (rel & Hrel & [= <-])%pyres_bind_Ok.
    rewrite Hrel. done.
  - intros [= <-]. by rewrite app_nil_r.
Qed.

Lemma report_sources_split cwd revisions sources ms ms' :
  foldlM_py (report_source cwd revisions) ms sources = Ok ms' ->
  exists new, ms' = ms ++ new /\ forall ms0, foldlM_py (report_source cwd revisions) ms0 sources = Ok (ms0 ++ new).
Proof.
  revert ms. induction sources as [|s sources IH]; intros ms; cbn [foldlM_py].
  { intros [= <-]. exists []. rewrite app_nil_r. split; [done|]. intros. by rewrite app_nil_r. }
  intros (ms1 & H1 & H2)%pyres_bind_Ok. destruct (IH _ H2) as (new & -> & Hnew).
  assert (exists m, report_source cwd revisions [] s = Ok m) as [m Hm].
  { revert H1. destruct s as [src vec]. unfold report_source. destruct (find_project src revisions) as [[[name path] rev]|]; [|by eexists].
    case_decide; [by eexists|]. destruct (GetCoverageStats vec). intros (rel & Hrel & _)%pyres_bind_Ok. rewrite Hrel. by eexists. }
  rewrite (report_source_app _ _ ms _ _ Hm) in H1. injection H1 as <-. exists (m ++ new). split; [by rewrite app_assoc|].
  intros ms0. rewrite (report_source_app _ _ ms0 _ _ Hm). cbn [mbind pyres_bind]. rewrite Hnew. by rewrite app_assoc.
Qed.

Lemma report_all_run cwd rev_map sources w r new :
  reporting w r -> Forall (fun s => vector_fits s.2) sources ->
  foldlM_py (report_source cwd rev_map) [] sources = Ok new ->
  report_all cwd rev_map true sources w = (Ret tt, set_report (set_r_coverage (r_coverage r ++ new) r) w).
Proof.
  intros H Hf Hms. rewrite <- (upload_files_run cwd rev_map sources w r (r_coverage r ++ new) H Hf).
  - clear H Hms. revert w. induction Hf as [|[file v] sources Hv Hf IH]; intros w; [done|]. cbn [report_all upload_files].
    assert (report_web cwd rev_map true (file, v) = upload_file cwd rev_map (file, v)) as ->.
    { unfold report_web, upload_file. destruct (find_project file rev_map) as [[[name path] rev]|]; [|done]. by rewrite lines_stats. }
    destruct (upload_file cwd rev_map (file, v) w) as [[[]|e] w'] eqn:E; [|by rewrite !(xstM_bind_exc _ _ _ _ _ E)].
    rewrite !(xstM_bind_run _ _ _ _ _ E). apply IH.
  - destruct (report_sources_split _ _ _ _ _ Hms) as (n & Hn & Hall). cbn in Hn. subst n. apply Hall.
Qed.

Section reaching.
Context {S : Type} `{CoverageLaws S}.
Context (set_order : list pystr -> list pystr) (set_order_perm : forall l, set_order l ≡ₚ l)
  (dict_order : gmap pystr pystr -> list (pystr * pystr))
  (zip_items repo_dict : pystr -> xres (list (pystr * pystr)))
  (archive_items : gmap pystr pystr -> list (pystr * pystr)) (function_items : FileSummary -> list (Z * FunctionSummary))
  (coverage_items : gmap pystr (list Z) -> list (pystr * list Z)) (parser_after_error : GCNOParser -> GCNOParser)
  (summary_after_error : FileSummary -> pystr -> FileSummary) (fuel : nat) (cwd : pystr)
  (show_messages : list coverage_message -> pystr).

Lemma outside_run {A} (m : xstM S A) (w : cov_world S) a s' :
  m (outside w) = (Ret a, s') -> outside_ m w = (Ret a, mk_cov s' (feat w) (cov_web w)).
Proof. intros Hm. unfold outside_. by rewrite Hm. Qed.

(** The paths are taken, and the feature keeps what the rest of the run looks at. *)
Lemma take_excludes_run ex (w : cov_world S) :
  attrs (cf_feature (feat w)) !! IKEY_EXCLUDE_COVERAGE_PATH = (fun l => PList (PStr <$> l)) <$> ex ->
  exists f', take_excludes w = (Ret (default [] ex), mk_cov (outside w) f' (cov_web w)).
Proof.
  intros He. unfold take_excludes. erewrite xstM_bind_run by reflexivity. rewrite He. destruct ex as [l|]; cbn [fmap option_fmap option_map default].
  - erewrite xstM_bind_run. 2: { unfold xlift, exclude_list. rewrite (proj2 (mapM_Some _ _ l)); [reflexivity|].
      clear. induction l as [|x l IH]; [constructor|]. cbn. by constructor. }
    eexists. reflexivity.
  - exists (feat w). by destruct w.
Qed.

(** C40: With coverage on for a device with its serial number, no names of HALs, no attribute
    'modules', no report of the coverage to a file, and web reporting on, and where the resources can be read, the flush succeeds
    and so does the processing of the counters ([failed_pull_reads_stale] and [ManualProcess_sample] show other
    cases), what [SetCoverageData] adds to the report of the module are the
    messages that the processing computes from the counters files that the device had
    after the flush, all of them with their contents; no counters stay on the device,
    and of the files of the host only the fetched ones are touched, and removed. *)
Theorem counters_reach_report w serial resource_path cov_zip revisions f r out s1 ex d ms :
  no_space (local_coverage_path (feat w)) = true -> hals_of (feat w) = [] ->
  enabled (cf_feature (feat w)) = true -> attrs (cf_feature (feat w)) !! IKEY_MODULES = None ->
  truthy (attribute_or (cf_feature (feat w)) IKEY_OUTPUT_COVERAGE_REPORT (PBool false)) = false ->
  attrs (cf_feature (feat w)) !! IKEY_EXCLUDE_COVERAGE_PATH = (fun l => PList (PStr <$> l)) <$> ex ->
  cf_resources (feat w) !! serial = Some resource_path -> resource_path <> [] ->
  zip_items (path_join2 resource_path GCOV_ZIP) = Ret cov_zip -> repo_dict (path_join2 resource_path BUILD_INFO) = Ret revisions ->
  cov_web w = Some f -> reporting f r ->
  dut_shell FLUSH_COMMAND (outside w) = (Ret out, s1) ->
  coverage_of archive_items function_items parser_after_error summary_after_error fuel cov_zip
    (dict_order (counters s1)) (default [] ex) = Ok d ->
  Forall (fun s => vector_fits s.2) (coverage_items d) ->
  foldlM_py (report_source cwd revisions) [] (coverage_items d) = Ok ms ->
  exists w', SetCoverageData set_order dict_order zip_items repo_dict archive_items function_items coverage_items parser_after_error
      summary_after_error fuel cwd show_messages true (Some serial) true w = (Ret tt, w') /\
    cov_web w' = Some (set_report (set_r_coverage (r_coverage r ++ ms) r) f) /\
    counters (outside w') = ∅ /\
    (forall p, fetched (feat w) p -> files (outside w') !! p = None) /\
    (forall p, ~ fetched (feat w) p -> files (outside w') !! p = files (outside w) !! p).
Proof using set_order_perm.
  intros Hplain Hh Hon Hmod Hout Hex Hres Hne Hzip Hrepo Hweb Hr Hflush Hcov Hfit Hms.
  destruct (gcda_dict_run set_order set_order_perm (feat w) Hplain (Some serial) (outside w) Hh)
    as (out' & s1' & dict & s2 & Hflush' & Hget & -> & Hc2 & Hf2).
  rewrite Hflush in Hflush'. injection Hflush' as <- <-.
  assert (exists st, GetChecksumGcnoDict archive_items fuel cov_zip = Ok st) as [st Hst].
  { revert Hcov. unfold coverage_of. destruct (GetChecksumGcnoDict archive_items fuel cov_zip); [by eexists|done]. }
  destruct (take_excludes_run ex (mk_cov s2 (feat w) (cov_web w)) Hex) as [f' Htake].
  destruct (remove_counters_run (feat w) s2) as (s3 & H3 & Hc3 & Hgone & Hkept).
  exists (mk_cov s3 f' (Some (set_report (set_r_coverage (r_coverage r ++ ms) r) f))). split_and!; [|done|cbn; by rewrite Hc3|done|].
  2: { intros p Hp. cbn. rewrite Hkept by done. by apply Hf2. }
  unfold SetCoverageData. erewrite xstM_bind_run by reflexivity. rewrite Hon. cbn [negb].
  erewrite xstM_bind_run by reflexivity. rewrite Hres. destruct resource_path as [|b path]; [done|].
  erewrite xstM_bind_run by (by apply outside_run). erewrite xstM_bind_run by (unfold xlift; by rewrite Hzip).
  erewrite xstM_bind_run by (unfold xlift; by rewrite Hrepo). rewrite decide_True by done.
  assert (AutoProcess_ archive_items function_items coverage_items parser_after_error summary_after_error fuel cwd show_messages
      cov_zip revisions (dict_order (counters s1)) true (mk_cov s2 (feat w) (cov_web w)) =
    (Ret tt, mk_cov s2 f' (Some (set_report (set_r_coverage (r_coverage r ++ ms) r) f)))) as Hauto.
  { unfold AutoProcess_. erewrite xstM_bind_run by (unfold xpure, xlift; by rewrite Hst). erewrite xstM_bind_run by reflexivity.
    cbn [feat]. rewrite Hout. erewrite xstM_bind_run by exact Htake.
    erewrite xstM_bind_run by (unfold xpure, xlift; by rewrite Hcov).
    assert (web_on (mk_cov s2 (feat w) (cov_web w)) = true) as -> by (unfold web_on; cbn; rewrite Hweb; apply Hr).
    erewrite xstM_bind_run; [reflexivity|].
    erewrite xstM_bind_run; [reflexivity|]. unfold on_web. cbn [cov_web outside feat]. rewrite Hweb.
    by rewrite (report_all_run cwd revisions (coverage_items d) f r ms Hr Hfit Hms). }
  erewrite xstM_bind_run by exact Hauto. by apply outside_run.
Qed.
End reaching.

(** ** A device and a host in memory *)
Module MemoryCoverage.
(** Counters that processes hold, counters on the device, files of the host. *)
Record mem := mk_mem { pending : gmap pystr pystr; on_device : gmap pystr pystr; on_host : gmap pystr pystr }.
Definition is_path (p : pystr) : bool := no_space p && endswith GCDA_SUFFIX p.
Definition flushed (m : mem) : mem :=
  mk_mem ∅ (filter (fun kv => is_path kv.1 = true) (pending m ∪ on_device m)) (on_host m).
Definition io_error : exn := EOther Python_IOError [].
Definition mem_shell (cmd : pystr) : xstM mem pystr := fun m =>
  if decide (cmd = FLUSH_COMMAND) then (Ret [], flushed m)
  else if decide (cmd = find_command TARGET_COVERAGE_PATH) then (Ret (lines_of (map_to_list (on_device m)).*1), m)
  else if decide (cmd = CLEAN_TRACE_COMMAND) then (Ret [], mk_mem (pending m) ∅ (on_host m))
  else (Exc (EOther AdbError cmd), m).
Definition mem_pull (args : pystr) : xstM mem unit := fun m =>
  match split (bs " ") args with
  | [p; f] =>
      match on_device m !! p with
      | Some c => (Ret tt, mk_mem (pending m) (on_device m) (<[f := c]> (on_host m)))
      | None => (Exc (EOther AdbError args), m)
      end
  | _ => (Exc (EOther AdbError args), m)
  end.
Definition names_in (d : pystr) (m : mem) : list pystr :=
  remove_dups (filter (fun n => n <> [] /\ is_Some (on_host m !! path_join2 d n)) (basename <$> (map_to_list (on_host m)).*1)).

#[export] Instance memory_coverage : CoverageHost mem := {
  dut_shell := mem_shell;
  dut_rootAdb := fun m => (Ret tt, m);
  dut_pull := mem_pull;
  host_shell cmd := fun m => (Ret ([], 1%Z), m);
  host_open f := fun m => (match on_host m !! f with Some c => Ret c | None => Exc io_error end, m);
  host_write f c := fun m => (Ret tt, mk_mem (pending m) (on_device m) (<[f := c]> (on_host m)));
  host_listdir d := fun m => (Ret (names_in d m), m);
  host_remove f := fun m => (Ret tt, mk_mem (pending m) (on_device m) (delete f (on_host m)));
  host_exists _ _ := false;
  host_rmtree _ := fun m => (Ret tt, m);
  host_makedirs _ := fun m => (Ret tt, m);
  host_micros := fun m => (Ret 7%Z, m);
}.

Lemma basename_join d n : (slash ∉ n) -> basename (path_join2 d n) = n.
Proof.
  intros Hn. unfold path_join2. rewrite no_slash_start by done. unfold basename.
  destruct (bool_decide (d = []) || endswith sep d) eqn:E.
  - destruct (orb_prop _ _ E) as [->%bool_decide_eq_true|[k ->]%endswith_spec]; [by apply after_last_none|].
    rewrite <- app_assoc. by apply after_last_app.
  - by apply after_last_app.
Qed.

Lemma mem_find m : mem_shell (find_command TARGET_COVERAGE_PATH) m = (Ret (lines_of (map_to_list (on_device m)).*1), m).
Proof. reflexivity. Qed.

Lemma split_pull p f : no_space p = true -> no_space f = true -> split (bs " ") (p ++ bs " " ++ f) = [p; f].
Proof.
  intros Hp Hf. apply (split_join Byte.x20 [p; f]); [done|]. cbn [forallb].
  assert (forall q, no_space q = true -> no_byte Byte.x20 q = true) as H.
  { intros q. unfold no_space, no_byte. rewrite !forallb_forall. intros Hq b Hb. specialize (Hq b Hb). unfold is_byte.
    case_bool_decide; [by subst|done]. }
  by rewrite (H p Hp), (H f Hf).
Qed.

#[export] Instance memory_coverage_laws : CoverageLaws mem.
Proof.
  refine {| counters := on_device; files := on_host |}.
  - intros s. eexists _, (flushed s). split_and!; [reflexivity|done|]. intros p [c Hc]. cbn in Hc.
    apply map_lookup_filter_Some in Hc as [_ Hp]. by apply andb_true_iff in Hp.
  - intros s _. eexists _, s. split_and!; [apply mem_find|apply NoDup_fst_map_to_list| |done|done].
    intros p. rewrite list_elem_of_fmap. split.
    + intros ([q c] & -> & Hin%elem_of_map_to_list). by exists c.
    + intros [c Hc]. exists (p, c). split; [done|]. by apply elem_of_map_to_list.
  - intros s p c f Hc Hp Hf. change (dut_pull (p ++ bs " " ++ f) s) with (mem_pull (p ++ bs " " ++ f) s). unfold mem_pull.
    rewrite split_pull, Hc by done. by eexists.
  - intros s f c Hc. exists s. cbn. by rewrite Hc.
  - intros s. by eexists _, _.
  - intros s d. exists (names_in d s), s. split_and!; [done|apply NoDup_remove_dups|done|done|]. intros n. unfold names_in.
    rewrite elem_of_remove_dups, list_elem_of_filter, list_elem_of_fmap. split.
    + intros [[Hne Hf] (f & -> & _)]. split_and!; [done|apply after_last_fresh|done].
    + intros (Hne & Hs & [c Hc]). split; [by split; [|eexists]|]. exists (path_join2 d n). rewrite basename_join by done. split; [done|].
      apply list_elem_of_fmap. exists (path_join2 d n, c). split; [done|]. by apply elem_of_map_to_list.
  - intros s f _. by eexists.
Defined.

Definition feature0 : CoverageFeature :=
  mk_cf (mk_feature true ∅) {[bs "s1" := bs "/res"]} None (bs "/tmp/vts-test-coverage/7") PNone [] (PBool true).
Definition host0 : mem := mk_mem {[Sample.path := Sample.gcda sample_entry]} ∅ {[bs "/tmp/keep" := []]}.
Definition world0 : cov_world mem := mk_cov host0 feature0 (Some SampleWeb.web).
Definition revisions0 : list (pystr * pystr) := [(bs "x", bs "r0"); (bs "vendor/a", bs "r1")].
Definition vector0 : list Z := (replicate 9 (-1) ++ [7; 7; 3; -1; 7])%Z.
End MemoryCoverage.
Import MemoryCoverage.

Example counters_reach_report_witness :
  let m := mk_coverage 4 4 vector0 (bs "../a.cc") (bs "r1") (bs "vendor/a") in
  exists w', SetCoverageData (S := mem) id map_to_list (fun _ => Ret Sample.cov_zip) (fun _ => Ret revisions0)
      map_to_list map_to_list map_to_list id (fun fs _ => fs) 10 (bs "/w") (fun _ => []) true (Some (bs "s1")) true world0 = (Ret tt, w') /\
    (r_coverage <$> (cov_web w' ≫= report_msg)) = Some [m] /\ files (outside w') !! bs "/tmp/keep" = Some [].
Proof.
  intros m.
  destruct (counters_reach_report (S := mem) id (fun l => reflexivity l) map_to_list (fun _ => Ret Sample.cov_zip)
    (fun _ => Ret revisions0) map_to_list map_to_list map_to_list id (fun fs _ => fs) 10 (bs "/w") (fun _ => [])
    world0 (bs "s1") (bs "/res") Sample.cov_zip revisions0 SampleWeb.web SampleWeb.report []
    (flushed host0) None {[bs "a.cc" := vector0]} [m])
    as (w' & H1 & H2 & _ & _ & H5); try reflexivity.
  - done.
  - exact SampleWeb.started.
  - assert (map_to_list ({[bs "a.cc" := vector0]} : gmap pystr (list Z)) = [(bs "a.cc", vector0)]) as -> by reflexivity.
    constructor; [|constructor]. split; [done|]. cbn [snd]. repeat (constructor; [lia|]). constructor.
  - exists w'. split; [exact H1|]. split; [by rewrite H2|]. rewrite H5; [reflexivity|].
    intros Hf%fetched_gcda. discriminate Hf.
Defined.

(** ** What goes wrong, and what does not *)

(** Devices that are not in a list are gone through after the feature was switched off. *)
Example devices_not_in_a_list :
  exists e, (new_CoverageFeature (S := mem) {[IKEY_ENABLE_COVERAGE := PBool true; IKEY_ANDROID_DEVICE := PBool true]} host0).1 = Exc e.
Proof. eexists. vm_compute. reflexivity. Qed.

(** A pull without a device object that fails is not noticed: what another counters file
    of the same name left is taken for the content. *)
Lemma failed_pull_reads_stale {S} `{CoverageLaws S} self serial gcda s s1 o c :
  gcda <> [] -> host_shell (bs "adb -s " ++ default (bs "None") serial ++ bs " pull " ++ gcda ++ bs " " ++ local_name self gcda ++ bs " ") s = (Ret (o, 1%Z), s1) ->
  files s1 !! local_name self gcda = Some c ->
  exists s', fetch_gcdas self false serial [gcda] ∅ s = (Ret {[strip gcda := c]}, s').
Proof.
  intros Hne Hp Hc. destruct gcda as [|b gcda]; [done|]. destruct (open_law s1 _ c Hc) as (s2 & H2 & _). exists s2. cbn [fetch_gcdas].
  erewrite xstM_bind_run by (unfold pull_gcda; by erewrite xstM_bind_run by exact Hp). by erewrite xstM_bind_run by exact H2.
Qed.

(** The list of excluded paths grows with every test, by the default paths ... *)
Lemma excludes_grow l : length (exclude_paths_of l) = length l + length DEFAULT_EXCLUDE_PATHS.
Proof. unfold exclude_paths_of. by rewrite length_app, length_fmap. Qed.

Lemma exclude_entry_idem p : exclude_entry (exclude_entry p) = exclude_entry p.
Proof.
  unfold exclude_entry. destruct (negb (bool_decide (basename p = [])) && negb (contains (bs ".") (basename p))) eqn:E.
  - assert (basename (if endswith sep p then p else p ++ sep) = []) as Hb.
    { destruct (endswith sep p) eqn:Hs.
      - apply endswith_spec in Hs as [k ->]. by apply after_last_app, not_elem_of_nil.
      - by apply after_last_app, not_elem_of_nil. }
    rewrite Hb. done.
  - by rewrite E.
Qed.

Lemma exclude_entry_prefix p f : startswith (exclude_entry p) f = true -> startswith p f = true.
Proof.
  unfold exclude_entry. destruct (_ && _); [|done]. destruct (endswith sep p); [done|]. rewrite !startswith_spec. intros [k ->].
  exists (sep ++ k). by rewrite app_assoc.
Qed.

(** ... and still every test of a class leaves out the same files as the first: taking
    the list again, as it is after the first test, skips a source file just when the
    list that the configuration gave does. *)
Theorem excludes_stable l file :
  is_skipped (exclude_paths_of (exclude_paths_of l)) file = is_skipped (exclude_paths_of l) file.
Proof.
  unfold is_skipped. f_equal. unfold exclude_paths_of. rewrite fmap_app, <- list_fmap_compose, !existsb_app.
  assert (existsb (fun path => startswith path file) (exclude_entry ∘ exclude_entry <$> l) =
          existsb (fun path => startswith path file) (exclude_entry <$> l)) as ->.
  { f_equal. apply list_fmap_ext. intros i p _. apply exclude_entry_idem. }
  set (e := existsb (fun path => startswith path file)). destruct (e (exclude_entry <$> l)); [done|].
  destruct (e DEFAULT_EXCLUDE_PATHS) eqn:Hd; [by rewrite orb_true_r|]. rewrite !orb_false_r, orb_false_l. apply not_true_is_false. intros Ht.
  rewrite <- not_true_iff_false in Hd. apply Hd. unfold e in *. rewrite existsb_exists in Ht. rewrite existsb_exists.
  destruct Ht as (q & (p & -> & Hp)%list_elem_of_In%list_elem_of_fmap & Hq). exists p.
  split; [by apply list_elem_of_In|by apply exclude_entry_prefix].
Qed.
