(* ===== verification/MsgqDriver.v ===== *)
(** * Message queues with several readers, as a device keeps them

    What the tests of message queues rely on: rings of messages that a writer and
    readers of the host and a service of the device share.  A synchronized ring has one
    read position and takes only what fits; an unsynchronized one never blocks its
    writer, each reader has its own position, and a reader that was overtaken loses
    what was written and starts anew at the end.  [drive] answers the requests of the
    mirrors (FmqMirror), the service has its own operations.  The file has no code of
    its own to model: it is the behaviour that the doc comments of the tests name.  The
    relation [sim] transfers what runs on it to any device that behaves so. *)

From Stdlib Require Import Strings.Byte.
From S2P Require Import Prelude PyStr ListUtils PyVal Signals Shell Channel Mirror TcpClient ResourceMirror FmqMirror.

(** ** One computation follows another *)
Section sim.
Context {S T : Type} (R : S -> T -> Prop).

Definition sim {A} (m : xstM S A) (m' : xstM T A) : Prop :=
  forall s t, R s t -> exists s', m s = ((m' t).1, s') /\ R s' (m' t).2.

Lemma sim_ret {A} (a : A) : sim (mret a) (mret a).
Proof. intros s t H. by exists s. Qed.

Lemma sim_lift {A} (r : xres A) : sim (xlift r) (xlift r).
Proof. intros s t H. by exists s. Qed.

Lemma sim_bind {A B} (m : xstM S A) (m' : xstM T A) (f : A -> xstM S B) (f' : A -> xstM T B) :
  sim m m' -> (forall a, sim (f a) (f' a)) -> sim (m ≫= f) (m' ≫= f').
Proof.
  intros Hm Hf s t H. destruct (Hm s t H) as (s1 & E & H1). unfold mbind, xstM_bind. rewrite E.
  destruct (m' t) as [[a|e] t1]; cbn [fst snd] in *; [by apply Hf|by exists s1].
Qed.

Lemma sim_run {A} (m : xstM S A) (m' : xstM T A) s t a t' :
  sim m m' -> R s t -> m' t = (Ret a, t') -> exists s', m s = (Ret a, s') /\ R s' t'.
Proof. intros Hm H E. destruct (Hm s t H) as (s' & Hs & H'). rewrite E in *. by exists s'. Qed.
End sim.

Create HintDb sims.
#[export] Hint Resolve sim_ret sim_lift : sims.
#[export] Hint Unfold xpure : sims.
Ltac simulate := repeat first
  [ solve [eauto with sims]
  | apply sim_bind; [|intros]
  | match goal with
    | |- sim _ (if ?b then _ else _) _ => destruct b eqn:?
    | |- sim _ (match ?x with _ => _ end) _ => destruct x eqn:?
    end ].

(** ** Rings *)
Record ring := mk_ring {
  r_type : pystr; r_sync : bool; r_blocking : bool; r_capacity : nat;
  r_written : list vsm;                  (* all that was ever written *)
  r_position : nat;                      (* of the readers of a synchronized ring *)
}.

(** A handle of the host: its ring, and its own position in an unsynchronized one.  The
    service has at most a handle of each kind; reads that it was asked for wait. *)
Record device := mk_device {
  rings : list ring;
  handles : list (nat * nat);
  server_sync : option nat;
  server_unsync : option (nat * nat);
  waiting : list nat;
}.
Definition no_queues : device := mk_device [] [] None None [].

Definition set_ring (i : nat) (r : ring) (d : device) : device :=
  mk_device (<[i := r]> (rings d)) (handles d) (server_sync d) (server_unsync d) (waiting d).
Definition set_position (h p : nat) (d : device) : device :=
  mk_device (rings d) (alter (fun x => (x.1, p)) h (handles d)) (server_sync d) (server_unsync d) (waiting d).
Definition set_server_position (p : nat) (d : device) : device :=
  mk_device (rings d) (handles d) (server_sync d) ((fun x => (x.1, p)) <$> server_unsync d) (waiting d).
Definition set_waiting (l : list nat) (d : device) : device :=
  mk_device (rings d) (handles d) (server_sync d) (server_unsync d) l.
Definition add_ring (r : ring) (d : device) : device :=
  mk_device (rings d ++ [r]) (handles d) (server_sync d) (server_unsync d) (waiting d).
Definition add_handle (i : nat) (d : device) : device :=
  mk_device (rings d) (handles d ++ [(i, 0)]) (server_sync d) (server_unsync d) (waiting d).

Definition advance (n : nat) (r : ring) : ring :=
  mk_ring (r_type r) (r_sync r) (r_blocking r) (r_capacity r) (r_written r) (r_position r + n).
Definition append (l : list vsm) (r : ring) : ring :=
  mk_ring (r_type r) (r_sync r) (r_blocking r) (r_capacity r) (r_written r ++ l) (r_position r).
Definition restart (r : ring) : ring := mk_ring (r_type r) (r_sync r) (r_blocking r) (r_capacity r) [] 0.

(** Where a reader stands, and what is there for it. *)
Definition position (r : ring) (own : nat) : nat := if r_sync r then r_position r else own.
Definition unread (r : ring) (own : nat) : nat := length (r_written r) - position r own.

Definition write_ring (l : list vsm) (r : ring) : option ring :=
  if decide ((if r_sync r then unread r 0 else 0) + length l <= r_capacity r) then Some (append l r) else None.
(** The messages, when there are enough, and the position of the reader afterwards. *)
Definition read_ring (n own : nat) (r : ring) : option (list vsm) * nat :=
  let p := position r own in
  if decide (r_capacity r < unread r own) then (None, length (r_written r))
  else if decide (n <= unread r own) then (Some (take n (drop p (r_written r))), p + n)
  else (None, p).

(** ** The service *)
Definition uint16 : pystr := bs "uint16_t".
Definition message (z : Z) : vsm := set_scalar_value [(uint16, SInt z)] (set_scalar_type uint16 (set_type TYPE_SCALAR empty_vsm)).
Definition number (m : vsm) : option Z := match assoc uint16 (scalar_value m) with Some (SInt z) => Some z | _ => None end.
Definition sequential (n : nat) : list Z := seqZ 0 (Z.of_nat n).
Definition is_sequential (l : list vsm) : bool := bool_decide (number <$> l = Some <$> sequential (length l)).

(** Reads that wait are served as soon as there is enough for the first. *)
Fixpoint settle (fuel : nat) (d : device) : device :=
  match fuel, waiting d, server_sync d with
  | S fuel, n :: l, Some i =>
      match rings d !! i with
      | Some r => if decide (n <= unread r 0) then settle fuel (set_waiting l (set_ring i (advance n r) d)) else d
      | None => d
      end
  | _, _, _ => d
  end.
Definition settled (d : device) : device := settle (length (waiting d)) d.

Definition op {A} (f : device -> A * device) : xstM device A := fun d => let '(a, d) := f d in (Ret a, d).
Definition spec_requestWriteFmqSync (n : nat) : xstM device bool := op (fun d =>
  match server_sync d with
  | Some i => match rings d !! i with
              | Some r => match write_ring (message <$> sequential n) r with Some r => (true, settled (set_ring i r d)) | None => (false, d) end
              | None => (false, d) end
  | None => (false, d)
  end).
Definition spec_requestReadFmqSync (n : nat) : xstM device bool := op (fun d =>
  match server_sync d with
  | Some i => match rings d !! i with
              | Some r => match read_ring n 0 r with (Some l, _) => (is_sequential l, set_ring i (advance n r) d) | (None, _) => (false, d) end
              | None => (false, d) end
  | None => (false, d)
  end).
Definition spec_requestWriteFmqUnsync (n : nat) : xstM device bool := op (fun d =>
  match server_unsync d with
  | Some (i, _) => match rings d !! i with
                   | Some r => match write_ring (message <$> sequential n) r with Some r => (true, set_ring i r d) | None => (false, d) end
                   | None => (false, d) end
  | None => (false, d)
  end).
Definition spec_requestReadFmqUnsync (n : nat) : xstM device bool := op (fun d =>
  match server_unsync d with
  | Some (i, own) => match rings d !! i with
                     | Some r => let '(o, p) := read_ring n own r in
                                 (match o with Some l => is_sequential l | None => false end, set_server_position p d)
                     | None => (false, d) end
  | None => (false, d)
  end).
Definition spec_requestBlockingRead (n : nat) : xstM device unit := op (fun d => (tt, settled (set_waiting (waiting d ++ [n]) d))).

(** The queue of a message for the host: the service takes part in it. *)
Definition spec_configureFmqSyncReadWrite (id : Z) : xstM device bool := op (fun d =>
  match handles d !! Z.to_nat id with
  | Some (i, _) => (true, mk_device (rings d) (handles d) (Some i) (server_unsync d) [])
  | None => (false, d)
  end).
(** A new unsynchronized queue of the service, and a handle for the host. *)
Definition spec_getFmqUnsyncWrite (capacity : nat) : xstM device (bool * option ResourceFmqMirror) := op (fun d =>
  let i := length (rings d) in
  let h := length (handles d) in
  let d := add_handle i (add_ring (mk_ring uint16 false false capacity [] 0) d) in
  ((true, Some (mk_fmq uint16 false (Z.of_nat h))), mk_device (rings d) (handles d) (server_sync d) (Some (i, 0)) (waiting d))).

(** ** The driver *)
Definition reply (success : bool) (data : list vsm) (n id : Z) : FmqResponseMessage := mk_fmq_response data n id success.
Definition failed : FmqResponseMessage := reply false [] 0 (-1).

Definition drive_create (m : FmqRequestMessage) (d : device) : FmqResponseMessage * device :=
  let h := Z.of_nat (length (handles d)) in
  if decide (fmq_queue_id m = -1)%Z then
    let i := length (rings d) in
    let r := mk_ring (fmq_data_type m) (fmq_sync m) (default false (fmq_blocking m)) (Z.to_nat (default 0%Z (fmq_queue_size m))) [] 0 in
    (reply true [] 0 h, add_handle i (add_ring r d))
  else
    match handles d !! Z.to_nat (fmq_queue_id m) with
    | Some (i, _) =>
        match rings d !! i with
        | Some r => (reply true [] 0 h, add_handle i (if default false (fmq_reset_pointers m) then set_ring i (restart r) d else d))
        | None => (failed, d)
        end
    | None => (failed, d)
    end.

(** A blocking operation on a ring that has not the means for it fails; the others do not
    have to wait, as the reads of the service are served first. *)
Definition may_block (blocking : bool) (r : ring) : bool := negb blocking || r_sync r && r_blocking r.
Definition drive_queue (m : FmqRequestMessage) (h i own : nat) (r : ring) (d : device) : FmqResponseMessage * device :=
  let o := fmq_operation m in
  if decide (o = FMQ_WRITE \/ o = FMQ_WRITE_BLOCKING) then
    if may_block (bool_decide (o = FMQ_WRITE_BLOCKING)) r then
      match write_ring (fmq_write_data m) r with
      | Some r => (reply true [] 0 0, settled (set_ring i r d))
      | None => (failed, d)
      end
    else (failed, d)
  else if decide (o = FMQ_READ \/ o = FMQ_READ_BLOCKING) then
    if may_block (bool_decide (o = FMQ_READ_BLOCKING)) r then
      let n := Z.to_nat (default 0%Z (fmq_read_data_size m)) in
      let '(l, p) := read_ring n own r in
      let d := if r_sync r then match l with Some _ => set_ring i (advance n r) d | None => d end else set_position h p d in
      match l with Some l => (reply true l 0 0, d) | None => (failed, d) end
    else (failed, d)
  else if decide (o = FMQ_AVAILABLE_READ) then (reply true [] (Z.of_nat (unread r own)) 0, d)
  else if decide (o = FMQ_AVAILABLE_WRITE) then (reply true [] (Z.of_nat (r_capacity r - unread r own)) 0, d)
  else if decide (o = FMQ_GET_QUANTUM_COUNT) then (reply true [] (Z.of_nat (r_capacity r)) 0, d)
  else if decide (o = FMQ_IS_VALID) then (reply true [] 0 0, d)
  else (failed, d).
Definition drive (m : FmqRequestMessage) (d : device) : FmqResponseMessage * device :=
  if decide (fmq_operation m = FMQ_CREATE) then drive_create m d
  else
    match handles d !! Z.to_nat (fmq_queue_id m) with
    | Some (i, own) => match rings d !! i with Some r => drive_queue m (Z.to_nat (fmq_queue_id m)) i own r d | None => (failed, d) end
    | None => (failed, d)
    end.
Definition send_device (m : FmqRequestMessage) : xstM device (option FmqResponseMessage) := op (fun d => let '(r, d) := drive m d in (Some r, d)).

(** ** The methods of a mirror follow those against the device *)
Section mirror.
Context {S : Type} (R : S -> device -> Prop) (send : FmqRequestMessage -> xstM S (option FmqResponseMessage)).
Context `{!Sends send drive R} (float_bits : bool -> scalar -> Z).

Lemma sim_send m : sim R (send m) (send_device m).
Proof using Sends0.
  intros s d H. destruct (sends (send := send) (drive := drive) m s d H) as (s' & E & H').
  exists s'. unfold send_device, op. destruct (drive m d) as [r d']. done.
Qed.
#[local] Hint Resolve sim_send : sims.

Lemma sim_create self id size blocking reset :
  sim R (create send self id size blocking reset) (create send_device self id size blocking reset).
Proof using Sends0. unfold create. simulate. Qed.

Lemma sim_write self data n : sim R (write send float_bits self data n) (write send_device float_bits self data n).
Proof using Sends0. unfold write, finish_write. simulate. Qed.

Lemma sim_writeBlocking self data n t :
  sim R (writeBlocking send float_bits self data n t) (writeBlocking send_device float_bits self data n t).
Proof using Sends0. unfold writeBlocking, finish_write. simulate. Qed.

Lemma sim_read self n : sim R (FmqMirror.read send self n) (FmqMirror.read send_device self n).
Proof using Sends0. unfold FmqMirror.read, finish_read, extractReadData. simulate. Qed.

Lemma sim_util self o : sim R (util_method send self o) (util_method send_device self o).
Proof using Sends0. unfold util_method, processUtilMethod. simulate. Qed.
End mirror.
