(* ===== verification/MsgqTests.v ===== *)
(** * The tests of message queues ([src/testcases/host/fmq_hidl_test/VtsHalTestsMsgqV1_0HostTest.py])

    The class is a client of the mirrors of message queues (FmqMirror) and of a service
    that shares the queues with them.  The tests are programs over both; the theorem at
    the end runs the class against any device that keeps queues as MsgqDriver says. *)

From Stdlib Require Import Strings.Byte.
From S2P Require Import Prelude PyStr ListUtils PyVal Signals Shell Channel Mirror TcpClient ResourceMirror FmqMirror MsgqDriver.

Definition MAX_NUM_MSG : Z := 1024.
Definition MAX_RETRY : nat := 3.
Definition SERVICE_NAME : pystr := bs "android.hardware.tests.msgq@1.0-service-test".
Definition COMMAND_32 : pystr :=
  bs "TREBLE_TESTING_OVERRIDE=true /data/nativetest/" ++ SERVICE_NAME ++ bs "/" ++ SERVICE_NAME ++ bs " &".
Definition COMMAND_64 : pystr :=
  bs "TREBLE_TESTING_OVERRIDE=true /data/nativetest64/" ++ SERVICE_NAME ++ bs "/" ++ SERVICE_NAME ++ bs " &".
Definition CHECK_COMMAND : pystr := bs "lshal --types=b | grep " ++ [Byte.x22] ++ bs "android.hardware.tests.msgq@1.0" ++ [Byte.x22].

Definition generateSequentialData (data_size : Z) : list value := VInt <$> seqZ 0 data_size.

(** The calls of the service, through the mirror of its HAL. *)
Class MsgqService (S : Type) := {
  requestBlockingReadDefaultEventFlagBits : Z -> xstM S unit;
  requestWriteFmqSync : Z -> xstM S bool;
  requestReadFmqSync : Z -> xstM S bool;
  requestWriteFmqUnsync : Z -> xstM S bool;
  requestReadFmqUnsync : Z -> xstM S bool;
  configureFmqSyncReadWrite : vsm -> xstM S bool;
  getFmqUnsyncWrite : bool -> xstM S (bool * option ResourceFmqMirror);
}.

(** The attributes that [setUp] sets. *)
Record clients := mk_clients { sync_client : ResourceFmqMirror; unsync_client1 : ResourceFmqMirror; unsync_client2 : ResourceFmqMirror }.

Section tests.
Context {S : Type} (send : FmqRequestMessage -> xstM S (option FmqResponseMessage)) `{MsgqService S}.
Context (float_bits : bool -> scalar -> Z).
Abbreviation M := (xstM S).

(** ** Setting the class up *)
Section class.
Context (execute : pystr -> M pystr) (sleep : M unit) (setUpClass_ : M unit) (InitHidlHal : Z -> M unit).

Fixpoint wait_for_service (check : pystr) (retries : nat) : M bool :=
  match retries with
  | 0 => mret false
  | Datatypes.S retries =>
      stdout ← execute check;
      if bool_decide (stdout <> []) then mret true else _ ← sleep; wait_for_service check retries
  end.
(** [Some false] is returned, [None] at the end of the method. *)
Definition setUpClass (abi_bitness : pystr) : M (option bool) :=
  bits ← xpure (py_int abi_bitness);
  _ ← execute (if (bits =? 64)%Z then COMMAND_64 else COMMAND_32);
  start_hal_success ← wait_for_service CHECK_COMMAND MAX_RETRY;
  if negb start_hal_success then mret (Some false)
  else _ ← setUpClass_; _ ← InitHidlHal bits; mret None.
End class.

(** ** Assertions *)
Definition assertTrue_ (b : bool) (msg : pystr) : M unit := xlift (assertTrue b (PStr msg) PNone).
Definition assertFalse_ (b : bool) (msg : pystr) : M unit := xlift (assertFalse b (PStr msg) PNone).
(** On counts, [None] for a call that failed, and on the numbers of two lists. *)
Definition differ : pystr := bs "the values differ".
Definition assertEqual_ (a b : option Z) : M unit := xlift (if decide (a = b) then Ret tt else fail (PStr differ) PNone).
Definition numbers (l : list value) : list (option Z) := (fun v => match v with VInt z => Some z | _ => None end) <$> l.
Definition assertEqualData (a b : list value) : M unit :=
  xlift (if decide (numbers a = numbers b) then Ret tt else fail (PStr differ) PNone).
Definition attribute_error : exn := EOther Python_AttributeError [].

(** ** Setting a test up *)

(** What the tracker gives for a queue without a name (MirrorTracker.InitFmq). *)
Definition init_queue (existing_queue : option ResourceFmqMirror) (data_type : pystr) (sync : bool) (queue_size : Z) (blocking : bool) :
    M (option ResourceFmqMirror) :=
  let q := default (mk_fmq data_type sync (-1)) existing_queue in
  m ← create send (mk_fmq (FmqMirror.data_type q) (FmqMirror.sync q) (-1)) (queue_id q) queue_size blocking true;
  mret (if (queue_id m =? -1)%Z then None else Some m).
(** [client.queueId]: [None] has no such attribute. *)
Definition has_queue (c : option ResourceFmqMirror) : M ResourceFmqMirror :=
  match c with
  | None => xlift (Exc attribute_error)
  | Some c => _ ← xlift (assertNotEqual (queue_id c) (-1) PNone PNone); mret c
  end.
Definition fmq_message (id : Z) : vsm :=
  mk_vsm [] (TYPE_OTHER 18) [] [] [] ([], 0%Z) [] 0 [] [] [] [] []
    (mk_other false [] 0 (Some (TYPE_SCALAR, bs "uint16_t", [], id)) (-1) (-1)).
Definition setUp : M clients :=
  c ← init_queue None (bs "uint16_t") true MAX_NUM_MSG true;
  sync_client ← has_queue c;
  sync_init_result ← configureFmqSyncReadWrite (fmq_message (queue_id sync_client));
  _ ← assertTrue_ sync_init_result (bs "Hal should configure a synchronized queue without error.");
  r ← getFmqUnsyncWrite true;
  _ ← assertTrue_ (fst r) (bs "Hal should configure an unsynchronized queue without error.");
  _ ← xlift (match snd r with None => fail (PStr (bs "None == None")) PNone | Some _ => Ret tt end);
  unsync_client1 ← has_queue (snd r);
  c ← init_queue (Some unsync_client1) (bs "uint16_t") true 0 false;
  unsync_client2 ← has_queue c;
  mret (mk_clients sync_client unsync_client1 unsync_client2).

(** ** Calls of the clients *)
Definition write_ok (c : ResourceFmqMirror) (data : list value) (n : Z) (msg : pystr) : M unit :=
  b ← write send float_bits c data n; assertTrue_ b msg.
Definition write_fails (c : ResourceFmqMirror) (data : list value) (n : Z) (msg : pystr) : M unit :=
  b ← write send float_bits c data n; assertFalse_ b msg.
Definition writeBlocking_ok (c : ResourceFmqMirror) (data : list value) (n time_out_nanos : Z) (msg : pystr) : M unit :=
  b ← writeBlocking send float_bits c data n time_out_nanos; assertTrue_ b msg.
Definition read_ok (c : ResourceFmqMirror) (n : Z) (msg : pystr) : M (list value) :=
  r ← FmqMirror.read send c n; _ ← assertTrue_ (fst r) msg; mret (snd r).
Definition read_fails (c : ResourceFmqMirror) (n : Z) (msg : pystr) : M unit :=
  r ← FmqMirror.read send c n; assertFalse_ (fst r) msg.
Definition available_is (o : Z) (c : ResourceFmqMirror) (n : Z) : M unit :=
  a ← util_method send c o; assertEqual_ a (Some n).
Definition service_ok (m : M bool) (msg : pystr) : M unit := b ← m; assertTrue_ b msg.
Definition service_fails (m : M bool) (msg : pystr) : M unit := b ← m; assertFalse_ b msg.

(** [chunk_num] reads, one after the other. *)
Fixpoint read_chunks (c : ResourceFmqMirror) (chunk_size : Z) (chunk_num : nat) : M (list value) :=
  match chunk_num with
  | 0 => mret []
  | Datatypes.S chunk_num =>
      read_data ← read_ok c chunk_size (bs "Client should read successfully.");
      total ← read_chunks c chunk_size chunk_num;
      mret (read_data ++ total)
  end.
(** The writes from chunk [i] on. *)
Fixpoint write_chunks (c : ResourceFmqMirror) (write_data : list value) (chunk_size i : Z) (chunk_num : nat) : M unit :=
  match chunk_num with
  | 0 => mret tt
  | Datatypes.S chunk_num =>
      let curr_write_data := py_slice write_data (i * chunk_size) ((i + 1) * chunk_size) in
      _ ← write_ok c curr_write_data chunk_size (bs "Client should write successfully.");
      write_chunks c write_data chunk_size (i + 1) chunk_num
  end.

(** ** The tests *)
Definition testSyncQueueBlockingReadWriteSuccess (c : clients) : M unit :=
  _ ← requestBlockingReadDefaultEventFlagBits MAX_NUM_MSG;
  let write_data := generateSequentialData MAX_NUM_MSG in
  _ ← writeBlocking_ok (sync_client c) write_data MAX_NUM_MSG 0 (bs "Client should write successfully.");
  _ ← writeBlocking_ok (sync_client c) write_data MAX_NUM_MSG 5000000000 (bs "Client should write successfully if server blocking read is successful.");
  requestBlockingReadDefaultEventFlagBits MAX_NUM_MSG.

Definition testSyncQueueSmallInputReaderTest1 (c : clients) : M unit :=
  let data_len := 16%Z in
  _ ← service_ok (requestWriteFmqSync data_len) (bs "Server should write successfully.");
  read_data ← read_ok (sync_client c) data_len (bs "Client should read successfully.");
  assertEqualData read_data (generateSequentialData data_len).

Definition testSyncQueueSmallInputWriterTest1 (c : clients) : M unit :=
  let data_len := 16%Z in
  let write_data := generateSequentialData data_len in
  _ ← write_ok (sync_client c) write_data data_len (bs "Server should write successfully.");
  service_ok (requestReadFmqSync data_len) (bs "Client should read successfully.").

Definition testSyncQueueReadWhenEmpty (c : clients) : M unit :=
  _ ← available_is FMQ_AVAILABLE_READ (sync_client c) 0;
  read_fails (sync_client c) 2 (bs "Client should fail to read because queue is empty.").

Definition testSyncQueueWriteWhenFull (c : clients) : M unit :=
  let write_data := generateSequentialData MAX_NUM_MSG in
  _ ← write_ok (sync_client c) write_data MAX_NUM_MSG (bs "Client should write successfully.");
  _ ← available_is FMQ_AVAILABLE_WRITE (sync_client c) 0;
  _ ← write_fails (sync_client c) [VInt 1] 1 (bs "Client should fail to write because queue is full.");
  service_ok (requestReadFmqSync MAX_NUM_MSG) (bs "Server should read successfully").

Definition testSyncQueueLargeInputTest1 (c : clients) : M unit :=
  _ ← service_ok (requestWriteFmqSync MAX_NUM_MSG) (bs "Server should write successfully.");
  let write_data := generateSequentialData MAX_NUM_MSG in
  _ ← available_is FMQ_AVAILABLE_READ (sync_client c) MAX_NUM_MSG;
  r ← FmqMirror.read send (sync_client c) MAX_NUM_MSG;
  assertEqualData write_data (snd r).

Definition testSyncQueueLargeInputTest2 (c : clients) : M unit :=
  _ ← available_is FMQ_AVAILABLE_READ (sync_client c) 0;
  _ ← service_fails (requestWriteFmqSync (MAX_NUM_MSG * 2)) (bs "Server should fail because it writes more than queue capacity.");
  _ ← available_is FMQ_AVAILABLE_READ (sync_client c) 0;
  read_fails (sync_client c) 1 (bs "Client should fail to read because queue is empty.").

Definition testSyncQueueLargeInputTest3 (c : clients) : M unit :=
  let write_data := generateSequentialData MAX_NUM_MSG in
  _ ← write_ok (sync_client c) write_data MAX_NUM_MSG (bs "Client should write successfully.");
  _ ← available_is FMQ_AVAILABLE_WRITE (sync_client c) 0;
  _ ← write_fails (sync_client c) [VInt 1] 1 (bs "Client should fail to write because queue is full.");
  service_ok (requestReadFmqSync MAX_NUM_MSG) (bs "Server should read successfully.").

Definition testSyncQueueClientMultipleRead (c : clients) : M unit :=
  let chunk_size := 100%Z in
  let chunk_num := 5 in
  let num_messages := (Z.of_nat chunk_num * chunk_size)%Z in
  let write_data := generateSequentialData num_messages in
  _ ← available_is FMQ_AVAILABLE_READ (sync_client c) 0;
  _ ← service_ok (requestWriteFmqSync num_messages) (bs "Server should write successfully.");
  total_read_data ← read_chunks (sync_client c) chunk_size chunk_num;
  assertEqualData write_data total_read_data.

Definition testSyncQueueClientMultipleWrite (c : clients) : M unit :=
  let chunk_size := 100%Z in
  let chunk_num := 5 in
  let num_messages := (Z.of_nat chunk_num * chunk_size)%Z in
  let write_data := generateSequentialData num_messages in
  _ ← available_is FMQ_AVAILABLE_WRITE (sync_client c) MAX_NUM_MSG;
  _ ← write_chunks (sync_client c) write_data chunk_size 0 chunk_num;
  service_ok (requestReadFmqSync num_messages) (bs "Server should read successfully.").

Definition testSyncQueueReadWriteWrapAround (c : clients) : M unit :=
  let num_messages := (MAX_NUM_MSG / 2)%Z in
  let write_data := generateSequentialData MAX_NUM_MSG in
  _ ← write_ok (sync_client c) write_data num_messages (bs "Client should write successfully.");
  _ ← service_ok (requestReadFmqSync num_messages) (bs "Server should read successfully.");
  _ ← write_ok (sync_client c) write_data MAX_NUM_MSG (bs "Client should write successfully.");
  service_ok (requestReadFmqSync MAX_NUM_MSG) (bs "Server should read successfully.").

Definition testUnsyncQueueSmallInputReaderTest1 (c : clients) : M unit :=
  let data_len := 16%Z in
  _ ← service_ok (requestWriteFmqUnsync data_len) (bs "Server should write successfully.");
  read_data ← read_ok (unsync_client1 c) data_len (bs "Client should read successfully.");
  assertEqualData read_data (generateSequentialData 16).

Definition testUnsyncQueueSmallInputWriterTest1 (c : clients) : M unit :=
  let data_len := 16%Z in
  let write_data := generateSequentialData 16 in
  _ ← write_ok (unsync_client1 c) write_data data_len (bs "Server should write successfully.");
  service_ok (requestReadFmqUnsync data_len) (bs "Client should read successfully.").

Definition testUnsyncQueueReadWhenEmpty (c : clients) : M unit :=
  _ ← available_is FMQ_AVAILABLE_READ (unsync_client1 c) 0;
  read_fails (unsync_client1 c) 2 (bs "Client should fail to read because queue is empty.").

Definition testUnsyncQueueWriteWhenFull (c : clients) : M unit :=
  let write_data := generateSequentialData MAX_NUM_MSG in
  _ ← write_ok (unsync_client1 c) write_data MAX_NUM_MSG (bs "Client should write successfully.");
  _ ← available_is FMQ_AVAILABLE_WRITE (unsync_client1 c) 0;
  _ ← write_ok (unsync_client1 c) [VInt 1] 1 (bs "Client should write successfully even if queue is full for unsynchronized queue.");
  service_fails (requestReadFmqUnsync MAX_NUM_MSG) (bs "Server should fail to read because queue overflows.").

Definition testUnsyncQueueLargeInputTest1 (c : clients) : M unit :=
  _ ← service_ok (requestWriteFmqUnsync MAX_NUM_MSG) (bs "Server should write successfully.");
  let write_data := generateSequentialData MAX_NUM_MSG in
  _ ← available_is FMQ_AVAILABLE_READ (unsync_client1 c) MAX_NUM_MSG;
  read_data ← read_ok (unsync_client1 c) MAX_NUM_MSG (bs "Client should read successfully.");
  assertEqualData write_data read_data.

Definition testUnsyncQueueLargeInputTest2 (c : clients) : M unit :=
  _ ← available_is FMQ_AVAILABLE_READ (unsync_client1 c) 0;
  _ ← service_fails (requestWriteFmqUnsync (MAX_NUM_MSG + 1)) (bs "Server should fail because it writes more than queue capacity.");
  _ ← available_is FMQ_AVAILABLE_READ (unsync_client1 c) 0;
  read_fails (unsync_client1 c) 1 (bs "Client should fail to read because queue is empty.").

Definition testUnsyncQueueLargeInputTest3 (c : clients) : M unit :=
  let write_data := generateSequentialData MAX_NUM_MSG in
  _ ← write_ok (unsync_client1 c) write_data MAX_NUM_MSG (bs "Client should write successfully.");
  _ ← available_is FMQ_AVAILABLE_WRITE (unsync_client1 c) 0;
  _ ← write_ok (unsync_client1 c) [VInt 1] 1 (bs "Client should write successfully even if queue is full for unsynchronized queue.");
  _ ← service_fails (requestReadFmqUnsync MAX_NUM_MSG) (bs "Server should fail to read because queue overflows.");
  _ ← write_ok (unsync_client1 c) write_data MAX_NUM_MSG (bs "Client should write successfully.");
  service_ok (requestReadFmqUnsync MAX_NUM_MSG) (bs "Server should read successfully.").

Definition testUnsyncQueueClientMultipleRead (c : clients) : M unit :=
  let chunk_size := 100%Z in
  let chunk_num := 5 in
  let num_messages := (Z.of_nat chunk_num * chunk_size)%Z in
  let write_data := generateSequentialData num_messages in
  _ ← available_is FMQ_AVAILABLE_READ (unsync_client1 c) 0;
  _ ← service_ok (requestWriteFmqUnsync num_messages) (bs "Server should write successfully.");
  total_read_data ← read_chunks (unsync_client1 c) chunk_size chunk_num;
  assertEqualData write_data total_read_data.

Definition testUnsyncQueueClientMultipleWrite (c : clients) : M unit :=
  let chunk_size := 100%Z in
  let chunk_num := 5 in
  let num_messages := (Z.of_nat chunk_num * chunk_size)%Z in
  let write_data := generateSequentialData num_messages in
  _ ← available_is FMQ_AVAILABLE_WRITE (unsync_client1 c) MAX_NUM_MSG;
  _ ← write_chunks (unsync_client1 c) write_data chunk_size 0 chunk_num;
  service_ok (requestReadFmqUnsync num_messages) (bs "Server should read successfully.").

Definition testUnsyncQueueReadWriteWrapAround (c : clients) : M unit :=
  let num_messages := (MAX_NUM_MSG / 2)%Z in
  let write_data := generateSequentialData MAX_NUM_MSG in
  _ ← write_ok (unsync_client1 c) write_data num_messages (bs "Client should write successfully.");
  _ ← service_ok (requestReadFmqUnsync num_messages) (bs "Server should read successfully.");
  _ ← write_ok (unsync_client1 c) write_data MAX_NUM_MSG (bs "Client should write successfully.");
  service_ok (requestReadFmqUnsync MAX_NUM_MSG) (bs "Server should read successfully.").

Definition testUnsyncQueueSmallInputMultipleReaderTest (c : clients) : M unit :=
  let data_len := 16%Z in
  _ ← service_ok (requestWriteFmqUnsync data_len) (bs "Server should write successfully.");
  let write_data := generateSequentialData data_len in
  read_data1 ← read_ok (unsync_client1 c) data_len (bs "Client 1 should read successfully.");
  _ ← assertEqualData write_data read_data1;
  read_data2 ← read_ok (unsync_client2 c) data_len (bs "Client 2 should read successfully.");
  assertEqualData write_data read_data2.

Definition testUnsyncQueueOverflowNotificationTest (c : clients) : M unit :=
  _ ← service_ok (requestWriteFmqUnsync MAX_NUM_MSG) (bs "Server should write successfully.");
  _ ← service_ok (requestWriteFmqUnsync MAX_NUM_MSG) (bs "Server should write successfully even if queue overflows.");
  _ ← read_fails (unsync_client1 c) MAX_NUM_MSG (bs "Client 1 should fail to read because queue overflows.");
  _ ← read_fails (unsync_client2 c) MAX_NUM_MSG (bs "Client 2 should fail to read because queue overflows.");
  _ ← service_ok (requestWriteFmqUnsync MAX_NUM_MSG) (bs "Server should write successfully.");
  _ ← read_ok (unsync_client1 c) MAX_NUM_MSG (bs "Client 1 should read successfully.");
  _ ← read_ok (unsync_client2 c) MAX_NUM_MSG (bs "Client 2 should read successfully.");
  mret tt.

(** The tests in the order in which a class runs them. *)
Definition tests : list (pystr * (clients -> M unit)) :=
  [(bs "testSyncQueueBlockingReadWriteSuccess", testSyncQueueBlockingReadWriteSuccess);
   (bs "testSyncQueueClientMultipleRead", testSyncQueueClientMultipleRead);
   (bs "testSyncQueueClientMultipleWrite", testSyncQueueClientMultipleWrite);
   (bs "testSyncQueueLargeInputTest1", testSyncQueueLargeInputTest1);
   (bs "testSyncQueueLargeInputTest2", testSyncQueueLargeInputTest2);
   (bs "testSyncQueueLargeInputTest3", testSyncQueueLargeInputTest3);
   (bs "testSyncQueueReadWhenEmpty", testSyncQueueReadWhenEmpty);
   (bs "testSyncQueueReadWriteWrapAround", testSyncQueueReadWriteWrapAround);
   (bs "testSyncQueueSmallInputReaderTest1", testSyncQueueSmallInputReaderTest1);
   (bs "testSyncQueueSmallInputWriterTest1", testSyncQueueSmallInputWriterTest1);
   (bs "testSyncQueueWriteWhenFull", testSyncQueueWriteWhenFull);
   (bs "testUnsyncQueueClientMultipleRead", testUnsyncQueueClientMultipleRead);
   (bs "testUnsyncQueueClientMultipleWrite", testUnsyncQueueClientMultipleWrite);
   (bs "testUnsyncQueueLargeInputTest1", testUnsyncQueueLargeInputTest1);
   (bs "testUnsyncQueueLargeInputTest2", testUnsyncQueueLargeInputTest2);
   (bs "testUnsyncQueueLargeInputTest3", testUnsyncQueueLargeInputTest3);
   (bs "testUnsyncQueueOverflowNotificationTest", testUnsyncQueueOverflowNotificationTest);
   (bs "testUnsyncQueueReadWhenEmpty", testUnsyncQueueReadWhenEmpty);
   (bs "testUnsyncQueueReadWriteWrapAround", testUnsyncQueueReadWriteWrapAround);
   (bs "testUnsyncQueueSmallInputMultipleReaderTest", testUnsyncQueueSmallInputMultipleReaderTest);
   (bs "testUnsyncQueueSmallInputReaderTest1", testUnsyncQueueSmallInputReaderTest1);
   (bs "testUnsyncQueueSmallInputWriterTest1", testUnsyncQueueSmallInputWriterTest1);
   (bs "testUnsyncQueueWriteWhenFull", testUnsyncQueueWriteWhenFull)].
Definition run_test (t : clients -> M unit) : M unit := c ← setUp; t c.
Fixpoint run_class (l : list (pystr * (clients -> M unit))) : M unit :=
  match l with [] => mret tt | t :: l => _ ← run_test t.2; run_class l end.
End tests.

Create HintDb msgq.

(** ** The service of the device *)
#[export] Instance device_service : MsgqService device := {
  requestBlockingReadDefaultEventFlagBits n := spec_requestBlockingRead (Z.to_nat n);
  requestWriteFmqSync n := spec_requestWriteFmqSync (Z.to_nat n);
  requestReadFmqSync n := spec_requestReadFmqSync (Z.to_nat n);
  requestWriteFmqUnsync n := spec_requestWriteFmqUnsync (Z.to_nat n);
  requestReadFmqUnsync n := spec_requestReadFmqUnsync (Z.to_nat n);
  configureFmqSyncReadWrite m :=
    match fmq_value (other m) with Some (_, _, _, id) => spec_configureFmqSyncReadWrite id | None => mret false end;
  getFmqUnsyncWrite _ := spec_getFmqUnsyncWrite (Z.to_nat MAX_NUM_MSG);
}.

(** A world whose requests and calls reach a device that behaves as MsgqDriver says. *)
Class MsgqDevice {S : Type} (send : FmqRequestMessage -> xstM S (option FmqResponseMessage)) `{MsgqService S}
    (R : S -> device -> Prop) : Prop := {
  device_sends :: Sends send drive R;
  sim_requestBlockingRead n : sim R (requestBlockingReadDefaultEventFlagBits n) (requestBlockingReadDefaultEventFlagBits n);
  sim_requestWriteFmqSync n : sim R (requestWriteFmqSync n) (requestWriteFmqSync n);
  sim_requestReadFmqSync n : sim R (requestReadFmqSync n) (requestReadFmqSync n);
  sim_requestWriteFmqUnsync n : sim R (requestWriteFmqUnsync n) (requestWriteFmqUnsync n);
  sim_requestReadFmqUnsync n : sim R (requestReadFmqUnsync n) (requestReadFmqUnsync n);
  sim_configure m : sim R (configureFmqSyncReadWrite m) (configureFmqSyncReadWrite m);
  sim_getFmqUnsyncWrite b : sim R (getFmqUnsyncWrite b) (getFmqUnsyncWrite b);
}.
#[export] Hint Extern 0 (Sends _ _ _) => typeclasses eauto : sims.
#[export] Hint Resolve sim_send sim_requestBlockingRead sim_requestWriteFmqSync sim_requestReadFmqSync sim_requestWriteFmqUnsync
  sim_requestReadFmqUnsync sim_configure sim_getFmqUnsyncWrite sim_create sim_write sim_writeBlocking sim_read sim_util : sims.

Section passing.
Context {S : Type} (send : FmqRequestMessage -> xstM S (option FmqResponseMessage)) `{MsgqService S}
  (R : S -> device -> Prop) `{!MsgqDevice send R} (float_bits : bool -> scalar -> Z).

Lemma sim_setUp : sim R (setUp send) (setUp send_device).
Proof using MsgqDevice0.
  unfold setUp, init_queue, assertTrue_. simulate; unfold has_queue; simulate.
Qed.

Lemma sim_write_ok c data n msg : sim R (write_ok send float_bits c data n msg) (write_ok send_device float_bits c data n msg).
Proof using MsgqDevice0. unfold write_ok, assertTrue_. simulate. Qed.
Lemma sim_write_fails c data n msg : sim R (write_fails send float_bits c data n msg) (write_fails send_device float_bits c data n msg).
Proof using MsgqDevice0. unfold write_fails, assertFalse_. simulate. Qed.
Lemma sim_writeBlocking_ok c data n t msg :
  sim R (writeBlocking_ok send float_bits c data n t msg) (writeBlocking_ok send_device float_bits c data n t msg).
Proof using MsgqDevice0. unfold writeBlocking_ok, assertTrue_. simulate. Qed.
Lemma sim_read_ok c n msg : sim R (read_ok send c n msg) (read_ok send_device c n msg).
Proof using MsgqDevice0. unfold read_ok, assertTrue_. simulate. Qed.
Lemma sim_read_fails c n msg : sim R (read_fails send c n msg) (read_fails send_device c n msg).
Proof using MsgqDevice0. unfold read_fails, assertFalse_. simulate. Qed.
Lemma sim_available_is o c n : sim R (available_is send o c n) (available_is send_device o c n).
Proof using MsgqDevice0. unfold available_is, assertEqual_. simulate. Qed.
Lemma sim_service_ok (m : xstM S bool) m' msg : sim R m m' -> sim R (service_ok m msg) (service_ok m' msg).
Proof. intros Hm. unfold service_ok, assertTrue_. simulate. Qed.
Lemma sim_service_fails (m : xstM S bool) m' msg : sim R m m' -> sim R (service_fails m msg) (service_fails m' msg).
Proof. intros Hm. unfold service_fails, assertFalse_. simulate. Qed.
#[local] Hint Resolve sim_setUp sim_write_ok sim_write_fails sim_writeBlocking_ok sim_read_ok sim_read_fails sim_available_is
  sim_service_ok sim_service_fails : sims.

Lemma sim_read_chunks c n k : sim R (read_chunks send c n k) (read_chunks send_device c n k).
Proof using MsgqDevice0. induction k as [|k IH]; cbn [read_chunks]; simulate. Qed.
Lemma sim_write_chunks c data n i k : sim R (write_chunks send float_bits c data n i k) (write_chunks send_device float_bits c data n i k).
Proof using MsgqDevice0. revert i. induction k as [|k IH]; intros i; cbn [write_chunks]; simulate. Qed.
#[local] Hint Resolve sim_read_chunks sim_write_chunks : sims.
#[local] Hint Unfold assertEqualData testSyncQueueBlockingReadWriteSuccess testSyncQueueSmallInputReaderTest1 testSyncQueueSmallInputWriterTest1 testSyncQueueReadWhenEmpty testSyncQueueWriteWhenFull testSyncQueueLargeInputTest1 testSyncQueueLargeInputTest2 testSyncQueueLargeInputTest3 testSyncQueueClientMultipleRead testSyncQueueClientMultipleWrite testSyncQueueReadWriteWrapAround testUnsyncQueueSmallInputReaderTest1 testUnsyncQueueSmallInputWriterTest1 testUnsyncQueueReadWhenEmpty testUnsyncQueueWriteWhenFull testUnsyncQueueLargeInputTest1 testUnsyncQueueLargeInputTest2 testUnsyncQueueLargeInputTest3 testUnsyncQueueClientMultipleRead testUnsyncQueueClientMultipleWrite testUnsyncQueueReadWriteWrapAround testUnsyncQueueSmallInputMultipleReaderTest testUnsyncQueueOverflowNotificationTest : msgq.

Lemma sim_tests : Forall2 (fun t t' => forall c, sim R (t.2 c) (t'.2 c)) (tests send float_bits) (tests send_device float_bits).
Proof using MsgqDevice0. unfold tests. repeat (constructor; [intros c; cbn [snd]; autounfold with msgq; cbv zeta; simulate|]). constructor. Qed.

Lemma sim_class l l' : Forall2 (fun t t' => forall c, sim R (t.2 c) (t'.2 c)) l l' -> sim R (run_class send l) (run_class send_device l').
Proof using MsgqDevice0.
  induction 1 as [|t t' l l' Ht _ IH]; cbn [run_class]; [apply sim_ret|]. apply sim_bind; [|intros; exact IH].
  unfold run_test. apply sim_bind; [apply sim_setUp|exact Ht].
Qed.
End passing.

(** On the device itself every test passes, one after the other. *)
Lemma device_passes float_bits : (run_class send_device (tests send_device float_bits) no_queues).1 = Ret tt.
Proof. vm_compute. reflexivity. Qed.

(** Against any driver and service that keep queues as documented, over any connection,
    all tests of the class pass, in the order in which they run and each after its own
    set up: the mirrors of message queues neither lose, reorder nor invent messages on
    a synchronized ring or on one with several readers that overflows. *)
Theorem msgq_class_passes {S} (send : FmqRequestMessage -> xstM S (option FmqResponseMessage)) `{MsgqService S}
    (R : S -> device -> Prop) `{!MsgqDevice send R} float_bits s :
  R s no_queues ->
  exists s' d', run_class send (tests send float_bits) s = (Ret tt, s') /\ R s' d'.
Proof.
  intros HR. destruct (sim_class send R _ _ (sim_tests send R float_bits) s no_queues HR) as (s' & Hs & H').
  exists s'. eexists. split; [|exact H']. exact (eq_trans Hs (f_equal (fun r => (r, s')) (device_passes float_bits))).
Qed.

#[export] Instance device_itself : MsgqDevice send_device (=).
Proof.
  split; try (intros; intros s t <-; eexists; split; [apply surjective_pairing|done]).
  intros m s d <-. unfold send_device, op. destruct (drive m s) as [r d']. by exists d'.
Qed.

Example msgq_class_passes_witness :
  exists s', run_class send_device (tests send_device (fun _ _ => 0%Z)) no_queues = (Ret tt, s').
Proof. destruct (msgq_class_passes send_device (=) (fun _ _ => 0%Z) no_queues eq_refl) as (s' & _ & Hs & _). exists s'. exact Hs. Defined.

(** A queue that cannot be made is [None], so that the assertions on its identifier never
    fail: the attribute error comes first. *)
Lemma missing_queue {S} (s : S) : has_queue None s = (Exc attribute_error, s).
Proof. reflexivity. Qed.

(** The service is looked for three times. *)
Lemma wait_in_vain {S} (execute : pystr -> xstM S pystr) sleep check k s :
  (forall s, execute check s = (Ret [], s)) -> (forall s, sleep s = (Ret tt, s)) -> wait_for_service execute sleep check k s = (Ret false, s).
Proof.
  intros H1 H2. induction k as [|k IH]; cbn [wait_for_service]; [done|]. erewrite xstM_bind_run by apply H1. cbn [bool_decide].
  rewrite bool_decide_false by congruence. erewrite xstM_bind_run by apply H2. apply IH.
Qed.

Lemma service_missing {S} (execute : pystr -> xstM S pystr) sleep setUp_ init s s1 :
  execute COMMAND_64 s = (Ret [], s1) -> (forall s, execute CHECK_COMMAND s = (Ret [], s)) -> (forall s, sleep s = (Ret tt, s)) ->
  setUpClass execute sleep setUp_ init (bs "64") s = (Ret (Some false), s1).
Proof.
  intros H1 H2 H3. unfold setUpClass. erewrite xstM_bind_run by reflexivity. erewrite xstM_bind_run by exact H1.
  by erewrite xstM_bind_run by by apply wait_in_vain.
Qed.
