(* ===== verification/Logger.v ===== *)
(** * Time stamps and the root logger ([src/runners/host/logger.py], [utils.py])

    A stamp is a date and time in digits.  The stamps of log lines have no year: they
    are compared field by field as text.  Dates are those of [datetime]: fields, with
    addition of a number of seconds by the calendar; the time zone of the host is a
    function from epoch seconds to an offset.

    A run logs to the terminal and to one file for each of three levels.  The state is
    the root logger of the process: its handlers, of which those for files hold an open
    stream; an operation that raises leaves the handlers that it attached.  The file
    system is an abstract state, changed by the calls that the functions make. *)

From S2P Require Import Prelude PyStr PySort PyPath ListUtils PyVal Signals BinaryTest Shell VtsSpec Config ReportFiles.

(** ** [datetime] *)
Record datetime := mk_dt { year : Z; month : Z; day : Z; hour : Z; minute : Z; second : Z; microsecond : Z }.

Definition is_leap (y : Z) : bool := (y mod 4 =? 0)%Z && (negb (y mod 100 =? 0)%Z || (y mod 400 =? 0)%Z).
Definition days_in_month (y m : Z) : Z :=
  if (m =? 2)%Z then (if is_leap y then 29 else 28)
  else if (m =? 4)%Z || (m =? 6)%Z || (m =? 9)%Z || (m =? 11)%Z then 30 else 31.

Definition date : Type := Z * Z * Z.
Definition next_day (x : date) : date :=
  let '(y, m, d) := x in
  if (d <? days_in_month y m)%Z then (y, m, (d + 1)%Z)
  else if (m <? 12)%Z then (y, (m + 1)%Z, 1%Z) else ((y + 1)%Z, 1%Z, 1%Z).
Definition prev_day (x : date) : date :=
  let '(y, m, d) := x in
  if (1 <? d)%Z then (y, m, (d - 1)%Z)
  else if (1 <? m)%Z then (y, (m - 1)%Z, days_in_month y (m - 1)) else ((y - 1)%Z, 12%Z, 31%Z).
Definition shift_days (n : Z) (x : date) : date :=
  if (0 <=? n)%Z then Nat.iter (Z.to_nat n) next_day x else Nat.iter (Z.to_nat (- n)) prev_day x.

(** [t + datetime.timedelta(seconds=delta)]. *)
Definition shifted (t : datetime) (delta : Z) : datetime :=
  let total := (hour t * 3600 + minute t * 60 + second t + delta)%Z in
  let '(y, m, d) := shift_days (total / 86400) (year t, month t, day t) in
  let r := (total mod 86400)%Z in
  mk_dt y m d (r / 3600) (r / 60 mod 60) (r mod 60) (microsecond t).
Definition in_range (t : datetime) : bool := ((1 <=? year t) && (year t <=? 9999))%Z.
Definition add_seconds (t : datetime) (delta : Z) : pyres datetime :=
  if in_range (shifted t delta) then Ok (shifted t delta) else Raise OverflowError.

(** [datetime.fromtimestamp] of whole seconds. *)
Definition epoch : datetime := mk_dt 1970 1 1 0 0 0 0.
Definition fromtimestamp (utc_offset : Z -> Z) (s : Z) : pyres datetime :=
  let t := shifted epoch (s + utc_offset s) in if in_range t then Ok t else Raise ValueError.

(** ** Formatting *)
Fixpoint fixed (w : nat) (n : Z) : pystr :=
  match w with O => [] | S w => fixed w (n / 10) ++ [digit (n mod 10)] end.

(** The directives that the code uses; another one is copied. *)
Definition directive (c : Byte.byte) (t : datetime) : pystr :=
  match c with
  | Byte.x59 => fixed 4 (year t)          (* Y *)
  | Byte.x6d => fixed 2 (month t)         (* m *)
  | Byte.x64 => fixed 2 (day t)           (* d *)
  | Byte.x48 => fixed 2 (hour t)          (* H *)
  | Byte.x4d => fixed 2 (minute t)        (* M *)
  | Byte.x53 => fixed 2 (second t)        (* S *)
  | Byte.x66 => fixed 6 (microsecond t)   (* f *)
  | _ => [Byte.x25; c]
  end.
Fixpoint expand (fmt : pystr) (t : datetime) : pystr :=
  match fmt with
  | [] => []
  | Byte.x25 :: c :: fmt => directive c t ++ expand fmt t
  | c :: fmt => c :: expand fmt t
  end.
(** In Python 2, years before 1900 are refused. *)
Definition strftime (t : datetime) (fmt : pystr) : pyres pystr :=
  if (year t <? 1900)%Z then Raise ValueError else Ok (expand fmt t).
Definition drop_last_3 (s : pystr) : pystr := py_slice s 0 (-3).

(** ** The operations of logger.py *)
Definition log_line_time_format : pystr := bs "%m-%d %H:%M:%S".
Definition log_line_timestamp_len : nat := 18.

Definition split2 (sep t : pystr) : pyres (pystr * pystr) :=
  match split sep t with [a; b] => Ok (a, b) | _ => Raise ValueError end.
Definition _parse_logline_timestamp (t : pystr) : pyres (list pystr) :=
  '(date, time) ← split2 (bs " ") t;
  '(month, day) ← split2 (bs "-") date;
  match split (bs ":") time with
  | [h; m; s] => '(s, ms) ← split2 (bs ".") s; Ok [month; day; h; m; s; ms]
  | _ => Raise ValueError
  end.

(** ["\d\d-\d\d \d\d:\d\d:\d\d.\d\d\d"]: the dot is any byte but a newline. *)
Inductive cclass := Digit | Exactly (b : Byte.byte) | AnyChar.
Definition in_class (c : cclass) (b : Byte.byte) : bool :=
  match c with Digit => is_digit b | Exactly c => bool_decide (b = c) | AnyChar => negb (bool_decide (b = Byte.x0a)) end.
Definition logline_timestamp_re : list cclass :=
  [Digit; Digit; Exactly Byte.x2d; Digit; Digit; Exactly Byte.x20; Digit; Digit; Exactly Byte.x3a; Digit; Digit;
   Exactly Byte.x3a; Digit; Digit; AnyChar; Digit; Digit; Digit].
Fixpoint re_match (re : list cclass) (s : pystr) : bool :=
  match re, s with [], _ => true | c :: re, b :: s => in_class c b && re_match re s | _, _ => false end.
Definition isValidLogLineTimestamp (timestamp : pystr) : bool :=
  bool_decide (length timestamp = log_line_timestamp_len) && re_match logline_timestamp_re timestamp.

Definition str_ltb (a b : pystr) : bool := negb (bytes_leb b a).
Fixpoint compare_fields (l k : list pystr) : Z :=
  match l, k with
  | u1 :: l, u2 :: k => if str_ltb u1 u2 then -1 else if str_ltb u2 u1 then 1 else compare_fields l k
  | _, _ => 0
  end.
Definition logLineTimestampComparator (t1 t2 : pystr) : pyres Z :=
  dt1 ← _parse_logline_timestamp t1; dt2 ← _parse_logline_timestamp t2; Ok (compare_fields dt1 dt2).

(** [if delta]: no difference for no seconds. *)
Definition _get_timestamp (now : datetime) (time_format : pystr) (delta : option Z) : pyres pystr :=
  t ← match delta with Some d => if (d =? 0)%Z then Ok now else add_seconds now d | None => Ok now end;
  s ← strftime t time_format; Ok (drop_last_3 s).
Definition getLogLineTimestamp (now : datetime) (delta : option Z) : pyres pystr := _get_timestamp now (bs "%m-%d %H:%M:%S.%f") delta.
Definition getLogFileTimestamp (now : datetime) (delta : option Z) : pyres pystr := _get_timestamp now (bs "%m-%d-%Y_%H-%M-%S-%f") delta.
Definition epochToLogLineTimestamp (utc_offset : Z -> Z) (epoch_time : Z) : pyres pystr :=
  d ← fromtimestamp utc_offset (epoch_time / 1000); s ← strftime d (bs "%m-%d %H:%M:%S.%f"); Ok (drop_last_3 s).

Definition normalizeLogLineTimestamp (log_line_timestamp : pystr) : pystr :=
  let norm_tp := replace_byte Byte.x20 Byte.x5f log_line_timestamp in replace_byte Byte.x3a Byte.x2d norm_tp.

(** ** Times of utils.py *)
(** [int(round(time.time() * 1000))], for a time in microseconds: halves go away from zero. *)
Definition get_current_epoch_time (now_us : Z) : Z := (Z.sgn now_us * ((Z.abs now_us + 500) / 1000))%Z.
Definition human_format : pystr := bs "%m-%d-%Y %H:%M:%S ".
Definition get_current_human_time (now : datetime) : pyres pystr := strftime now human_format.
Definition epoch_to_human_time (utc_offset : Z -> Z) (epoch_time : pyval) : pyres (option pystr) :=
  let stamp n :=
    match (d ← fromtimestamp utc_offset (n / 1000); strftime d human_format) with
    | Ok s => Ok (Some s)
    | Raise ValueError => Ok None
    | Raise e => Raise e
    end in
  match epoch_time with
  | PInt n => stamp n
  | PBool b => stamp (if b then 1%Z else 0%Z)
  | _ => Ok None
  end.

(** ** Numbers of a fixed width *)
Lemma length_fixed w n : length (fixed w n) = w.
Proof. revert n. induction w as [|w IH]; intros n; cbn [fixed]; [done|]. rewrite length_app, IH. cbn. lia. Qed.

Lemma fixed_digits w n : forallb is_digit (fixed w n) = true.
Proof.
  revert n. induction w as [|w IH]; intros n; cbn [fixed]; [done|].
  rewrite forallb_app, IH. cbn [forallb]. by rewrite is_digit_digit by (apply Z.mod_pos_bound; lia).
Qed.

Lemma fixed_no_byte c w n : is_digit c = false -> no_byte c (fixed w n) = true.
Proof.
  intros Hc. pose proof (fixed_digits w n) as H. revert H. unfold no_byte, is_byte.
  induction (fixed w n) as [|b l IH]; [done|]. cbn [forallb]. intros [Hb Hl]%andb_true_iff.
  rewrite IH by done. rewrite bool_decide_eq_false_2 by congruence. done.
Qed.

Lemma bytes_leb_snoc a b p q : length a = length b ->
  bytes_leb (a ++ [p]) (b ++ [q]) = if bool_decide (a = b) then (byteZ p <=? byteZ q)%Z else bytes_leb a b.
Proof.
  revert b. induction a as [|x a IH]; intros [|y b]; try discriminate.
  - intros _. cbn. destruct (Z.eqb_spec (byteZ p) (byteZ q)) as [E|E]; symmetry; [apply Z.leb_le; lia|].
    destruct (Z.ltb_spec (byteZ p) (byteZ q)); [apply Z.leb_le|apply Z.leb_gt]; lia.
  - cbn [length app bytes_leb]. intros [=Hl]. rewrite IH by done.
    destruct (Z.eqb_spec (byteZ x) (byteZ y)) as [E%byteZ_inj|E].
    + subst y. by rewrite (bool_decide_ext (x :: a = x :: b) (a = b)) by (split; [by intros [=]|congruence]).
    + by rewrite (bool_decide_eq_false_2 (x :: a = y :: b)) by congruence.
Qed.

Lemma bytes_leb_refl a : bytes_leb a a = true.
Proof. induction a as [|x a IH]; [done|]. cbn [bytes_leb]. by rewrite Z.eqb_refl. Qed.

(** Texts of one width are ordered like their numbers. *)
Lemma fixed_leb w a b : (0 <= a < 10 ^ Z.of_nat w)%Z -> (0 <= b < 10 ^ Z.of_nat w)%Z -> bytes_leb (fixed w a) (fixed w b) = (a <=? b)%Z.
Proof.
  revert a b. induction w as [|w IH]; intros a b.
  { change (10 ^ Z.of_nat 0)%Z with 1%Z. intros ??. assert (a = b) as -> by lia. rewrite Z.leb_refl. by rewrite bytes_leb_refl. }
  rewrite Nat2Z.inj_succ, Z.pow_succ_r by lia. intros Ha Hb. cbn [fixed].
  assert (0 <= a / 10 < 10 ^ Z.of_nat w)%Z as Ha' by (split; [apply Z.div_pos; lia|apply Z.div_lt_upper_bound; lia]).
  assert (0 <= b / 10 < 10 ^ Z.of_nat w)%Z as Hb' by (split; [apply Z.div_pos; lia|apply Z.div_lt_upper_bound; lia]).
  rewrite bytes_leb_snoc by by rewrite !length_fixed.
  pose proof (IH _ _ Ha' Hb') as E. pose proof (IH _ _ Hb' Ha') as E'.
  pose proof (Z.mod_pos_bound a 10 ltac:(lia)). pose proof (Z.mod_pos_bound b 10 ltac:(lia)).
  pose proof (Z.div_mod a 10 ltac:(lia)). pose proof (Z.div_mod b 10 ltac:(lia)).
  case_bool_decide as He.
  - rewrite He, bytes_leb_refl in E. rewrite He, bytes_leb_refl in E'.
    symmetry in E, E'. apply Z.leb_le in E, E'. rewrite !byteZ_digit by lia.
    destruct (Z.leb_spec a b); [apply Z.leb_le|apply Z.leb_gt]; lia.
  - rewrite E. assert (a / 10 <> b / 10)%Z by congruence.
    destruct (Z.leb_spec a b); [apply Z.leb_le|apply Z.leb_gt]; lia.
Qed.

Lemma fixed_ltb w a b : (0 <= a < 10 ^ Z.of_nat w)%Z -> (0 <= b < 10 ^ Z.of_nat w)%Z -> str_ltb (fixed w a) (fixed w b) = (a <? b)%Z.
Proof. intros. unfold str_ltb. rewrite fixed_leb by done. by rewrite Z.ltb_antisym. Qed.

(** ** The stamp of a log line *)
Definition log_stamp (t : datetime) : pystr :=
  join_with (bs " ")
    [join_with (bs "-") [fixed 2 (month t); fixed 2 (day t)];
     join_with (bs ":") [fixed 2 (hour t); fixed 2 (minute t); join_with (bs ".") [fixed 2 (second t); fixed 3 (microsecond t / 1000)]]].
Definition stamp_fields (t : datetime) : list Z := [month t; day t; hour t; minute t; second t; (microsecond t / 1000)%Z].
Definition stamp_texts (t : datetime) : list pystr :=
  [fixed 2 (month t); fixed 2 (day t); fixed 2 (hour t); fixed 2 (minute t); fixed 2 (second t); fixed 3 (microsecond t / 1000)].

Record valid_datetime (t : datetime) : Prop := mk_valid {
  valid_month : (1 <= month t <= 12)%Z;
  valid_day : (1 <= day t <= days_in_month (year t) (month t))%Z;
  valid_hour : (0 <= hour t < 24)%Z;
  valid_minute : (0 <= minute t < 60)%Z;
  valid_second : (0 <= second t < 60)%Z;
  valid_microsecond : (0 <= microsecond t < 1000000)%Z
}.

Lemma days_in_month_bounds y m : (28 <= days_in_month y m <= 31)%Z.
Proof. unfold days_in_month. repeat case_match; lia. Qed.

Lemma drop_last_3_app l k : length k = 3 -> drop_last_3 (l ++ k) = l.
Proof.
  intros Hk. unfold drop_last_3, py_slice. rewrite length_app, Hk.
  assert (py_clamp (Z.of_nat (length l + 3)) (-3) = Z.of_nat (length l)) as -> by (unfold py_clamp; cbn [Z.ltb Z.compare]; lia).
  assert (py_clamp (Z.of_nat (length l + 3)) 0 = 0%Z) as -> by (unfold py_clamp; cbn [Z.ltb Z.compare]; lia).
  rewrite Z.sub_0_r, Nat2Z.id. exact (take_app_length l _).
Qed.

Lemma stamp_text t : drop_last_3 (expand (bs "%m-%d %H:%M:%S.%f") t) = log_stamp t.
Proof.
  transitivity (drop_last_3 (log_stamp t ++ [digit (microsecond t / 10 / 10 mod 10); digit (microsecond t / 10 mod 10); digit (microsecond t mod 10)])).
  { f_equal. unfold log_stamp. cbn -[Z.div Z.modulo]. rewrite !Z.div_div by lia. done. }
  by apply drop_last_3_app.
Qed.

Ltac no_separator := cbn [forallb join_with]; rewrite ?no_byte_app, ?fixed_no_byte by done; reflexivity.
Lemma split2_join c x y : no_byte c x = true -> no_byte c y = true -> split2 [c] (join_with [c] [x; y]) = Ok (x, y).
Proof. intros Hx Hy. unfold split2. rewrite split_join; [done|done|]. cbn [forallb]. by rewrite Hx, Hy. Qed.

Lemma parse_stamp t : _parse_logline_timestamp (log_stamp t) = Ok (stamp_texts t).
Proof.
  unfold _parse_logline_timestamp, log_stamp.
  rewrite (split2_join Byte.x20) by no_separator. cbn [mbind pyres_bind].
  rewrite (split2_join Byte.x2d) by no_separator. cbn [mbind pyres_bind].
  rewrite (split_join Byte.x3a) by (done || no_separator).
  rewrite (split2_join Byte.x2e) by no_separator. done.
Qed.

Lemma stamp_is_valid t : isValidLogLineTimestamp (log_stamp t) = true.
Proof.
  unfold isValidLogLineTimestamp, log_stamp. rewrite bool_decide_eq_true_2 by reflexivity.
  cbn -[is_digit Z.div Z.modulo digit]. by rewrite !is_digit_digit by (apply Z.mod_pos_bound; lia).
Qed.

(** ** Dates in order *)
Definition valid_date (x : date) : Prop := let '(y, m, d) := x in (1 <= m <= 12)%Z /\ (1 <= d <= days_in_month y m)%Z.
Definition day_rank (x : date) : Z := let '(y, m, d) := x in ((y * 12 + m) * 31 + d)%Z.

Lemma next_day_later x : valid_date x -> valid_date (next_day x) /\ (day_rank x + 1 <= day_rank (next_day x))%Z.
Proof.
  destruct x as [[y m] d]. unfold valid_date, next_day, day_rank. intros [Hm Hd]. pose proof (days_in_month_bounds y m).
  destruct (Z.ltb_spec d (days_in_month y m)); [lia|]. destruct (Z.ltb_spec m 12).
  - pose proof (days_in_month_bounds y (m + 1)). lia.
  - pose proof (days_in_month_bounds (y + 1) 1). lia.
Qed.

Lemma prev_day_earlier x : valid_date x -> valid_date (prev_day x) /\ (day_rank (prev_day x) <= day_rank x - 1)%Z.
Proof.
  destruct x as [[y m] d]. unfold valid_date, prev_day, day_rank. intros [Hm Hd]. pose proof (days_in_month_bounds y m).
  destruct (Z.ltb_spec 1 d); [lia|]. destruct (Z.ltb_spec 1 m).
  - pose proof (days_in_month_bounds y (m - 1)). lia.
  - change (days_in_month (y - 1) 12) with 31%Z. lia.
Qed.

(** The two steps undo each other. *)
Lemma prev_next_day x : valid_date x -> prev_day (next_day x) = x.
Proof.
  destruct x as [[y m] d]. unfold valid_date, next_day. intros [Hm Hd].
  destruct (Z.ltb_spec d (days_in_month y m)).
  - cbn [prev_day]. rewrite (proj2 (Z.ltb_lt _ _)) by lia. do 2 f_equal. lia.
  - destruct (Z.ltb_spec m 12); cbn [prev_day].
    + rewrite (proj2 (Z.ltb_ge 1 1)), (proj2 (Z.ltb_lt 1 (m + 1))) by lia. replace (m + 1 - 1)%Z with m by lia. do 2 f_equal. lia.
    + cbn. assert (m = 12)%Z as -> by lia. change (days_in_month y 12) with 31%Z in *. do 2 f_equal; lia.
Qed.

Lemma iter_next_day k x : valid_date x -> valid_date (Nat.iter k next_day x) /\ (day_rank x + Z.of_nat k <= day_rank (Nat.iter k next_day x))%Z.
Proof.
  intros Hx. induction k as [|k [Hv Hr]]; [change (Nat.iter 0 _ x) with x; split; [done|lia]|].
  pose proof (next_day_later _ Hv) as [? ?]. change (Nat.iter (S k) next_day x) with (next_day (Nat.iter k next_day x)). split; [done|lia].
Qed.

Lemma iter_prev_day k x : valid_date x -> valid_date (Nat.iter k prev_day x) /\ (day_rank (Nat.iter k prev_day x) <= day_rank x - Z.of_nat k)%Z.
Proof.
  intros Hx. induction k as [|k [Hv Hr]]; [change (Nat.iter 0 _ x) with x; split; [done|lia]|].
  pose proof (prev_day_earlier _ Hv) as [? ?]. change (Nat.iter (S k) prev_day x) with (prev_day (Nat.iter k prev_day x)). split; [done|lia].
Qed.

Lemma shift_days_rank n x : valid_date x ->
  valid_date (shift_days n x) /\ ((0 <= n)%Z -> (day_rank x + n <= day_rank (shift_days n x))%Z) /\
  ((n <= 0)%Z -> (day_rank (shift_days n x) <= day_rank x + n)%Z).
Proof.
  intros Hx. unfold shift_days. destruct (Z.leb_spec 0 n) as [Hn|Hn].
  - pose proof (iter_next_day (Z.to_nat n) x Hx) as [? ?]. split_and!; [done|lia|].
    intros. assert (n = 0)%Z as -> by lia. change (Nat.iter (Z.to_nat 0) next_day x) with x. lia.
  - pose proof (iter_prev_day (Z.to_nat (- n)) x Hx) as [? ?]. split_and!; [done|lia|lia].
Qed.

(** Seconds in order: every month is given 31 days. *)
Definition second_rank (t : datetime) : Z := (day_rank (year t, month t, day t) * 86400 + hour t * 3600 + minute t * 60 + second t)%Z.

Lemma shifted_valid t delta : valid_datetime t -> valid_datetime (shifted t delta).
Proof.
  intros [Hm Hd Hh Hmi Hs Hus]. unfold shifted.
  set (total := (hour t * 3600 + minute t * 60 + second t + delta)%Z).
  pose proof (shift_days_rank (total / 86400) (year t, month t, day t) ltac:(split; done)) as [Hv _].
  destruct (shift_days _ _) as [[y m] d]. destruct Hv as [? ?].
  pose proof (Z.mod_pos_bound total 86400 ltac:(lia)) as Hr. set (r := (total mod 86400)%Z) in *.
  pose proof (Z.mod_pos_bound r 60 ltac:(lia)). pose proof (Z.mod_pos_bound (r / 60) 60 ltac:(lia)).
  split; cbn; try lia. split; [apply Z.div_pos; lia|apply Z.div_lt_upper_bound; lia].
Qed.

(** Later by [delta], or earlier by more. *)
Lemma shifted_rank t delta : valid_datetime t ->
  ((0 <= delta)%Z -> (second_rank t + delta <= second_rank (shifted t delta))%Z) /\
  ((delta <= 0)%Z -> (second_rank (shifted t delta) <= second_rank t + delta)%Z).
Proof.
  intros [Hm Hd Hh Hmi Hs Hus]. unfold shifted, second_rank.
  set (total := (hour t * 3600 + minute t * 60 + second t + delta)%Z).
  pose proof (shift_days_rank (total / 86400) (year t, month t, day t) ltac:(split; done)) as [_ Hk].
  destruct (shift_days _ _) as [[y m] d]. destruct Hk as [Hlo Hhi]. cbn [year month day hour minute second].
  pose proof (Z.div_mod total 86400 ltac:(lia)) as Ht. pose proof (Z.mod_pos_bound total 86400 ltac:(lia)) as Hr.
  set (r := (total mod 86400)%Z) in *. set (q := (total / 86400)%Z) in *.
  assert (r / 3600 * 3600 + r / 60 mod 60 * 60 + r mod 60 = r)%Z as E.
  { pose proof (Z.div_mod r 60 ltac:(lia)). pose proof (Z.div_mod (r / 60) 60 ltac:(lia)) as E2.
    rewrite Z.div_div in E2 by lia. change (60 * 60)%Z with 3600%Z in E2. lia. }
  assert (0 <= delta -> 0 <= q)%Z by lia. assert (delta <= 0 -> q <= 0)%Z by lia. split; intros; lia.
Qed.

(** ** The comparator *)
Fixpoint lex_cmp (l k : list Z) : Z :=
  match l, k with
  | a :: l, b :: k => if (a <? b)%Z then -1 else if (b <? a)%Z then 1 else lex_cmp l k
  | _, _ => 0
  end.

(** Milliseconds in order, within a year. *)
Definition stamp_rank (t : datetime) : Z := (second_rank t * 1000 + microsecond t / 1000)%Z.

Lemma compare_stamps a b : valid_datetime a -> valid_datetime b ->
  compare_fields (stamp_texts a) (stamp_texts b) = lex_cmp (stamp_fields a) (stamp_fields b).
Proof.
  intros [Am Ad Ah Ami As Aus] [Bm Bd Bh Bmi Bs Bus].
  pose proof (days_in_month_bounds (year a) (month a)). pose proof (days_in_month_bounds (year b) (month b)).
  assert (forall x, 0 <= x < 1000000 -> 0 <= x / 1000 < 1000)%Z as Hus.
  { intros. split; [apply Z.div_pos; lia|apply Z.div_lt_upper_bound; lia]. }
  pose proof (Hus _ Aus). pose proof (Hus _ Bus).
  unfold stamp_texts, stamp_fields. cbn [compare_fields lex_cmp].
  rewrite !fixed_ltb by (first [change (10 ^ Z.of_nat 2)%Z with 100%Z|change (10 ^ Z.of_nat 3)%Z with 1000%Z]; lia). done.
Qed.

Lemma lex_rank a b : valid_datetime a -> valid_datetime b -> year a = year b ->
  lex_cmp (stamp_fields a) (stamp_fields b) = Z.sgn (stamp_rank a - stamp_rank b).
Proof.
  intros [Am Ad Ah Ami As Aus] [Bm Bd Bh Bmi Bs Bus] Hy.
  pose proof (days_in_month_bounds (year a) (month a)). pose proof (days_in_month_bounds (year b) (month b)).
  assert (forall x, 0 <= x < 1000000 -> 0 <= x / 1000 < 1000)%Z as Hus.
  { intros. split; [apply Z.div_pos; lia|apply Z.div_lt_upper_bound; lia]. }
  pose proof (Hus _ Aus). pose proof (Hus _ Bus).
  unfold stamp_rank, second_rank, day_rank, stamp_fields. cbn [lex_cmp]. rewrite Hy.
  repeat match goal with |- context [(?x <? ?y)%Z] => destruct (Z.ltb_spec x y); try lia end.
Qed.

Lemma comparator_spec a b : valid_datetime a -> valid_datetime b -> year a = year b ->
  logLineTimestampComparator (log_stamp a) (log_stamp b) = Ok (Z.sgn (stamp_rank a - stamp_rank b)).
Proof.
  intros. unfold logLineTimestampComparator. rewrite !parse_stamp. cbn [mbind pyres_bind].
  by rewrite compare_stamps, lex_rank.
Qed.

(** A stamp that is returned is the text of the time that is meant. *)
Lemma getLogLineTimestamp_Ok now delta s :
  getLogLineTimestamp now delta = Ok s ->
  exists t, s = log_stamp t /\ t = match delta with Some d => if (d =? 0)%Z then now else shifted now d | None => now end /\ (1900 <= year t)%Z.
Proof.
  unfold getLogLineTimestamp, _get_timestamp, strftime, add_seconds. intros Hs.
  assert (forall t, (s0 ← (if (year t <? 1900)%Z then Raise ValueError else Ok (expand (bs "%m-%d %H:%M:%S.%f") t)); Ok (drop_last_3 s0)) = Ok s ->
    s = log_stamp t /\ (1900 <= year t)%Z) as Hstamp.
  { intros t. destruct (Z.ltb_spec (year t) 1900); [done|]. cbn [mbind pyres_bind]. rewrite stamp_text. by intros [= <-]. }
  destruct delta as [d|]; [destruct (d =? 0)%Z; [|destruct (in_range _); [|done]]|]; cbn [mbind pyres_bind] in Hs; apply Hstamp in Hs as [? ?]; eauto.
Qed.

(** The comparator tells which of two stamps is the later one: a stamp that is
    taken [delta] seconds from now, before or after, compares as [delta] says, as long
    as both are in one year. *)
Theorem stamps_follow_time now delta s1 s2 :
  valid_datetime now -> year (shifted now delta) = year now ->
  getLogLineTimestamp now None = Ok s1 -> getLogLineTimestamp now (Some delta) = Ok s2 ->
  logLineTimestampComparator s2 s1 = Ok (Z.sgn delta).
Proof.
  intros Hv Hy (t1 & -> & -> & _)%getLogLineTimestamp_Ok (t2 & -> & -> & _)%getLogLineTimestamp_Ok.
  destruct (Z.eqb_spec delta 0) as [->|Hd].
  - rewrite comparator_spec by done. f_equal. cbn. lia.
  - pose proof (shifted_valid now delta Hv). pose proof (shifted_rank now delta Hv) as [Hlo Hhi].
    rewrite comparator_spec by done. f_equal. unfold stamp_rank.
    assert (microsecond (shifted now delta) = microsecond now) as -> by (unfold shifted; by destruct (shift_days _ _) as [[??]?]).
    destruct (Z.lt_ge_cases delta 0); [rewrite !Z.sgn_neg by lia|rewrite !Z.sgn_pos by lia]; done.
Qed.

Lemma stamps_follow_time_witness : logLineTimestampComparator (bs "02-29 00:00:29.456") (bs "02-28 23:59:59.456") = Ok 1%Z.
Proof.
  apply (stamps_follow_time (mk_dt 2020 2 28 23 59 59 456789) 30); [split; vm_compute; by split| | |]; vm_compute; reflexivity.
Defined.

(** The stamps have no year: after New Year, later stamps compare as earlier. *)
Example comparator_across_years :
  getLogLineTimestamp (mk_dt 2019 12 31 23 59 59 0) (Some 1%Z) = Ok (bs "01-01 00:00:00.000") /\
  logLineTimestampComparator (bs "01-01 00:00:00.000") (bs "12-31 23:59:59.000") = Ok (-1)%Z.
Proof. split; vm_compute; reflexivity. Qed.

(** The dot of the pattern stands for any character: a stamp is called valid that the
    comparator cannot take apart. *)
Example valid_without_dot :
  isValidLogLineTimestamp (bs "01-01 00:00:00,000") = true /\
  logLineTimestampComparator (bs "01-01 00:00:00,000") (bs "01-01 00:00:00.000") = Raise ValueError.
Proof. split; vm_compute; reflexivity. Qed.

(** Every stamp is valid, and is parsed to its six fields. *)
Lemma returned_stamp_is_valid now delta s : getLogLineTimestamp now delta = Ok s ->
  isValidLogLineTimestamp s = true /\ exists l, _parse_logline_timestamp s = Ok l /\ length l = 6.
Proof.
  intros (t & -> & _ & _)%getLogLineTimestamp_Ok. split; [apply stamp_is_valid|]. eexists. split; [apply parse_stamp|done].
Qed.

(** ** Epoch times *)
Lemma epoch_stamp off n s : epochToLogLineTimestamp off n = Ok s -> s = log_stamp (shifted epoch (n / 1000 + off (n / 1000)%Z)).
Proof.
  unfold epochToLogLineTimestamp, fromtimestamp, strftime. destruct (in_range _); [|done]. cbn [mbind pyres_bind].
  destruct (_ <? 1900)%Z; [done|]. cbn [mbind pyres_bind]. rewrite stamp_text. by intros [= <-].
Qed.

(** The division drops the milliseconds, which the stamp then shows as zeros: times in
    one second have one stamp. *)
Lemma epoch_stamp_drops_millis off n m : (0 <= m < 1000)%Z ->
  epochToLogLineTimestamp off (n * 1000 + m) = epochToLogLineTimestamp off (n * 1000).
Proof.
  intros Hm. unfold epochToLogLineTimestamp. rewrite Z.div_mul by lia. by rewrite Z.div_add_l, (Z.div_small m), Z.add_0_r by lia.
Qed.
Example epoch_millis_lost : epochToLogLineTimestamp (fun _ => 0%Z) 1546300800987 = Ok (bs "01-01 00:00:00.000").
Proof. vm_compute. reflexivity. Qed.

(** The text for people agrees, and what is not an integer has none. *)
Example human_time : epoch_to_human_time (fun _ => 0%Z) (PInt 1546300800987) = Ok (Some (bs "01-01-2019 00:00:00 ")).
Proof. vm_compute. reflexivity. Qed.
Lemma human_time_not_int off s : epoch_to_human_time off (PStr s) = Ok None /\ epoch_to_human_time off PNone = Ok None.
Proof. done. Qed.

(** Times before 1900 give None as well, since [strftime] raises ValueError for them. *)
Lemma human_time_total off n : (exists r, epoch_to_human_time off (PInt n) = Ok r).
Proof.
  unfold epoch_to_human_time, fromtimestamp, strftime. destruct (in_range _); cbn [mbind pyres_bind]; [|by eexists].
  destruct (_ <? 1900)%Z; by eexists.
Qed.

(** ** Stamps in names of files *)
Lemma replace_byte_app a b l k : replace_byte a b (l ++ k) = replace_byte a b l ++ replace_byte a b k.
Proof. apply fmap_app. Qed.
Lemma replace_byte_none a b l : no_byte a l = true -> replace_byte a b l = l.
Proof.
  unfold replace_byte, no_byte, is_byte. induction l as [|c l IH]; [done|]. cbn [forallb fmap list_fmap].
  intros [Hc Hl]%andb_true_iff. rewrite IH by done. destruct (decide (c = a)); [|done]. subst. by rewrite bool_decide_eq_true_2 in Hc.
Qed.

Definition normal_stamp (t : datetime) : pystr :=
  fixed 2 (month t) ++ bs "-" ++ fixed 2 (day t) ++ bs "_" ++ fixed 2 (hour t) ++ bs "-" ++ fixed 2 (minute t) ++ bs "-" ++
  fixed 2 (second t) ++ bs "." ++ fixed 3 (microsecond t / 1000).
Lemma normalize_stamp t : normalizeLogLineTimestamp (log_stamp t) = normal_stamp t.
Proof.
  unfold normalizeLogLineTimestamp, log_stamp, normal_stamp. cbn [join_with]. rewrite !replace_byte_app.
  rewrite !(replace_byte_none _ _ (fixed _ _)) by by rewrite fixed_no_byte. rewrite <- !app_assoc. done.
Qed.

Lemma fixed_inj w a b : (0 <= a < 10 ^ Z.of_nat w)%Z -> (0 <= b < 10 ^ Z.of_nat w)%Z -> fixed w a = fixed w b -> a = b.
Proof.
  intros Ha Hb E. pose proof (fixed_leb w a b Ha Hb) as H1. pose proof (fixed_leb w b a Hb Ha) as H2.
  rewrite E, bytes_leb_refl in H1. rewrite E, bytes_leb_refl in H2. symmetry in H1, H2. apply Z.leb_le in H1, H2. lia.
Qed.

(** No two stamps get one name, and a name is one part of a path. *)
Lemma normalize_injective a b : normalizeLogLineTimestamp (log_stamp a) = normalizeLogLineTimestamp (log_stamp b) -> log_stamp a = log_stamp b.
Proof.
  rewrite !normalize_stamp. unfold normal_stamp, log_stamp. cbn [join_with].
  intros E. do 10 (apply app_inj_1 in E as [? E]; [|by rewrite ?length_fixed]). congruence.
Qed.
Lemma normalize_clean a : no_byte Byte.x2f (normalizeLogLineTimestamp (log_stamp a)) && no_byte Byte.x20 (normalizeLogLineTimestamp (log_stamp a)) &&
  no_byte Byte.x3a (normalizeLogLineTimestamp (log_stamp a)) = true.
Proof. rewrite !normalize_stamp. unfold normal_stamp. rewrite !no_byte_app, !fixed_no_byte by done. done. Qed.

(** ** Records and their text *)
Inductive log_level := DEBUG | INFO | WARNING | ERROR | CRITICAL.
#[export] Instance log_level_eq_dec : EqDecision log_level.
Proof. solve_decision. Defined.
Definition levelno (l : log_level) : Z := match l with DEBUG => 10 | INFO => 20 | WARNING => 30 | ERROR => 40 | CRITICAL => 50 end.
Definition levelname (l : log_level) : pystr :=
  match l with DEBUG => bs "DEBUG" | INFO => bs "INFO" | WARNING => bs "WARNING" | ERROR => bs "ERROR" | CRITICAL => bs "CRITICAL" end.

Record log_record := mk_log_record { created : datetime; level : log_level; message : pystr }.

Definition log_line_format : pystr := bs "%(asctime)s.%(msecs).03d %(levelname)s %(message)s".
Definition log_severity_map (name : pystr) : option log_level :=
  if decide (name = bs "ERROR") then Some ERROR
  else if decide (name = bs "WARNING") then Some WARNING
  else if decide (name = bs "INFO") then Some INFO
  else if decide (name = bs "DEBUG") then Some DEBUG
  else None.
Definition upper (s : pystr) : pystr :=
  (fun b => if ((97 <=? byteZ b) && (byteZ b <=? 122))%Z then Zbyte (byteZ b - 32) else b) <$> s.
Definition severity_level (log_severity : pystr) : log_level := default INFO (log_severity_map log_severity).

(** The fields of a record that the formats name, with their conversions. *)
Definition fields (datefmt : pystr) (r : log_record) : list (pystr * pystr) :=
  [(bs "(asctime)s", expand datefmt (created r)); (bs "(msecs).03d", fixed 3 (microsecond (created r) / 1000));
   (bs "(levelname)s", levelname (level r)); (bs "(message)s", message r)].
Fixpoint find_field (fs : list (pystr * pystr)) (s : pystr) : option (pystr * pystr) :=
  match fs with [] => None | f :: fs => if startswith f.1 s then Some f else find_field fs s end.

(** [fmt % record.__dict__], for the texts [fs] of the fields.  [other] is what Python
    makes of the rest of the format from a percent sign on, when no field above follows
    the sign. *)
Section format.
Context (other : pystr -> pyres pystr) (fs : list (pystr * pystr)).
Fixpoint percent_format (skip : nat) (fmt : pystr) : pyres pystr :=
  match fmt with
  | [] => Ok []
  | b :: rest =>
      match skip with
      | S k => percent_format k rest
      | O =>
          if decide (b = Byte.x25) then
            match find_field fs rest with
            | Some (f, v) => s ← percent_format (length f) rest; Ok (v ++ s)
            | None =>
                if startswith [Byte.x25] rest then s ← percent_format 1 rest; Ok (Byte.x25 :: s)
                else other fmt
            end
          else s ← percent_format 0 rest; Ok (b :: s)
      end
  end.
End format.

(** ** Handlers *)
Inductive sink := Stdout | File (stream : nat) (path : pystr).
Record handler := mk_handler { hsink : sink; hlevel : log_level; hformat : pystr }.
Definition is_file (h : handler) : option nat := match hsink h with File n _ => Some n | Stdout => None end.

(** The streams that are open, and the number of the next one. *)
Record root_logger := mk_root {
  handlers : list handler; streams : list nat; next_stream : nat;
  log_level_ : option log_level; propagate : bool; log_path : option pystr
}.

Section logger.
Context {S : Type} (other : log_record -> pystr -> pyres pystr).
Context (cwd : pystr) (expanduser : pystr -> pystr) (now : datetime).
(** [os.path.exists], [os.makedirs], [open(path, 'a')], [os.path.islink], [os.remove],
    [os.symlink], and whether the system has symbolic links. *)
Context (path_exists : pystr -> xstM S bool) (makedirs open_append : pystr -> xstM S unit).
Context (islink : pystr -> xstM S bool) (remove : pystr -> xstM S unit) (symlink : pystr -> pystr -> xstM S unit).
Context (isSymlinkSupported : bool).

Abbreviation M := (xstM (root_logger * S)).
Definition on_files {A} (m : xstM S A) : M A := fun w => let '(r, s) := m w.2 in (r, (w.1, s)).
Definition on_root (f : root_logger -> root_logger) : M unit := fun w => (Ret tt, (f w.1, w.2)).

(** [utils.abs_path] and [utils.create_dir] *)
Definition abs_path (path : pystr) : pystr := abspath cwd (expanduser path).
Definition create_dir (path : pystr) : M unit :=
  let full_path := abs_path path in
  e ← on_files (path_exists full_path);
  if (e : bool) then mret tt else on_files (makedirs full_path).

Definition addHandler (h : handler) (g : root_logger) : root_logger :=
  mk_root (handlers g ++ [h]) (streams g) (next_stream g) (log_level_ g) (propagate g) (log_path g).

(** A file handler opens its file at once. *)
Definition FileHandler (path : pystr) : M sink :=
  _ ← on_files (open_append (abspath cwd path));
  w ← xget;
  let n := next_stream w.1 in
  _ ← on_root (fun g => mk_root (handlers g) (streams g ++ [n]) (Datatypes.S n) (log_level_ g) (propagate g) (log_path g));
  mret (File n (abspath cwd path)).

(** [h.close()] of a file handler, and [removeHandler]. *)
Definition close_stream (n : nat) (g : root_logger) : root_logger :=
  mk_root (handlers g) (filter (fun k => k <> n) (streams g)) (next_stream g) (log_level_ g) (propagate g) (log_path g).
Fixpoint remove_sink (k : sink) (l : list handler) : list handler :=
  match l with
  | [] => []
  | h :: l =>
      match k, hsink h with
      | Stdout, Stdout => l
      | File n _, File m _ => if decide (n = m) then l else h :: remove_sink k l
      | _, _ => h :: remove_sink k l
      end
  end.
Definition removeHandler (h : handler) (g : root_logger) : root_logger :=
  mk_root (remove_sink (hsink h) (handlers g)) (streams g) (next_stream g) (log_level_ g) (propagate g) (log_path g).
Definition kill_handler (g : root_logger) (h : handler) : root_logger :=
  removeHandler h (match is_file h with Some n => close_stream n g | None => g end).
Definition killTestLogger (g : root_logger) : root_logger := foldl kill_handler g (handlers g).

(** ** Setting up *)
Definition getLogFileName (filename : option pystr) : M pystr :=
  match filename with Some f => mret f | None => xpure (getLogFileTimestamp now None) end.
Definition addLogFile (log_path : pystr) (filename : option pystr) (log_severity : pystr) : M (pystr * sink) :=
  filename ← getLogFileName filename;
  k ← FileHandler (path_join2 log_path filename);
  _ ← on_root (addHandler (mk_handler k (severity_level log_severity) log_line_format));
  mret (path_join2 log_path filename, k).

Definition level_filename (filename level : pystr) : pystr :=
  let idx := length (rsplit_head Byte.x2e filename) in
  take idx filename ++ bs "_" ++ level ++ drop idx filename.
Definition default_log_levels : list pystr := [bs "ERROR"; bs "INFO"; bs "DEBUG"].

Definition terminal_format (prefix : option pystr) : pystr :=
  match prefix with Some (b :: p) => bs "[" ++ (b :: p) ++ bs "] " ++ log_line_format | _ => log_line_format end.

Fixpoint add_log_files (log_path filename : pystr) (levels : list pystr) : M unit :=
  match levels with
  | [] => mret tt
  | level :: levels =>
      _ ← addLogFile log_path (Some (level_filename filename level)) level;
      add_log_files log_path filename levels
  end.

Definition _initiateTestLogger (log_path : pystr) (prefix filename : option pystr) (log_severity : pystr) : M unit :=
  _ ← on_root killTestLogger;
  _ ← on_root (fun g => mk_root (handlers g) (streams g) (next_stream g) (Some DEBUG) false (Logger.log_path g));
  _ ← on_root (addHandler (mk_handler Stdout (severity_level log_severity) (terminal_format prefix)));
  filename ← match filename with
             | Some f => mret f
             | None => f ← xpure (getLogFileTimestamp now None); _ ← create_dir log_path; mret f
             end;
  _ ← add_log_files log_path filename default_log_levels;
  on_root (fun g => mk_root (handlers g) (streams g) (next_stream g) (log_level_ g) (propagate g) (Some log_path)).

Definition createLatestLogAlias (actual_path : pystr) : M unit :=
  let link_path := path_join2 (dirname actual_path) (bs "latest") in
  l ← on_files (islink link_path);
  _ ← if (l : bool) then on_files (remove link_path) else mret tt;
  on_files (symlink actual_path link_path).

Definition setupTestLogger (log_path : pystr) (prefix filename : option pystr) (log_severity : pystr) (create_symlink : bool) : M pystr :=
  filename ← getLogFileName filename;
  _ ← create_dir log_path;
  _ ← _initiateTestLogger log_path prefix (Some filename) log_severity;
  _ ← if create_symlink && isSymlinkSupported then createLatestLogAlias log_path else mret tt;
  mret (path_join2 log_path filename).

(** ** Logging *)
Definition enabled (threshold : log_level) (r : log_record) : bool := (levelno threshold <=? levelno (level r))%Z.
(** [Logger.handle]: each handler that lets the record through writes one line; a
    record that it cannot format is dropped by this handler ([Handler.handleError]). *)
Definition emit (h : handler) (r : log_record) : list (sink * pystr) :=
  if enabled (hlevel h) r then
    match percent_format (other r) (fields log_line_time_format r) 0 (hformat h) with Ok s => [(hsink h, s)] | Raise _ => [] end
  else [].
Definition log (g : root_logger) (r : log_record) : list (sink * pystr) :=
  if enabled (default WARNING (log_level_ g)) r then mjoin ((fun h => emit h r) <$> handlers g) else [].

(** ** The log of a run ([TestRunner.__init__]) *)
Definition run_details : pystr := bs "test_run_details.txt".
Definition run_id (testbed_name start_time : pystr) : pystr := testbed_name ++ bs "@" ++ start_time.
Definition run_log_path (key_log_path testbed_name start_time : pystr) : pystr :=
  abspath cwd (path_join key_log_path [testbed_name; start_time]).
Definition run_severity (key_log_severity : option pystr) : pystr := upper (default (bs "INFO") key_log_severity).
Definition start_run_log (key_log_path testbed_name : pystr) (key_log_severity : option pystr) : M (pystr * pystr) :=
  start_time ← xpure (getLogFileTimestamp now None);
  let l_path := run_log_path key_log_path testbed_name start_time in
  _ ← setupTestLogger l_path (Some testbed_name) (Some run_details) (run_severity key_log_severity) true;
  mret (run_id testbed_name start_time, l_path).
End logger.

(** ** [LoggerProxy] *)
(** A property that raises AttributeError is looked up again with [__getattr__], which
    answers every name with a function. *)
Inductive proxy_attribute := Path (p : pystr) | LogCall (name : pystr).
Definition LoggerProxy_log_path (log : option root_logger) : proxy_attribute :=
  match log with
  | Some g => match log_path g with Some p => Path p | None => LogCall (bs "log_path") end
  | None => Path (bs "/tmp/logs")
  end.

(** ** Lines *)
Definition line (r : log_record) : pystr := log_stamp (created r) ++ bs " " ++ levelname (level r) ++ bs " " ++ message r.

Section lines.
Context (other : pystr -> pyres pystr).

Lemma percent_format_text fs t fmt : no_byte Byte.x25 t = true ->
  percent_format other fs 0 (t ++ fmt) = (s ← percent_format other fs 0 fmt; Ok (t ++ s)).
Proof.
  unfold no_byte, is_byte. induction t as [|b t IH]; cbn [forallb app].
  - intros _. by destruct (percent_format other fs 0 fmt).
  - intros [Hb Ht]%andb_true_iff. cbn [percent_format]. destruct (decide (b = Byte.x25)) as [->|]; [by rewrite bool_decide_eq_true_2 in Hb|].
    rewrite IH by done. by destruct (percent_format other fs 0 fmt).
Qed.

Lemma format_fields t ms l m :
  percent_format other [(bs "(asctime)s", t); (bs "(msecs).03d", ms); (bs "(levelname)s", l); (bs "(message)s", m)] 0 log_line_format =
  Ok (t ++ bs "." ++ ms ++ bs " " ++ l ++ bs " " ++ m).
Proof. rewrite <- (app_nil_r m) at 2. vm_compute. reflexivity. Qed.

Lemma asctime_text r : expand log_line_time_format r ++ bs "." ++ fixed 3 (microsecond r / 1000) = log_stamp r.
Proof. unfold log_stamp. cbn [join_with]. rewrite <- !app_assoc. reflexivity. Qed.

Lemma format_line r : percent_format other (fields log_line_time_format r) 0 log_line_format = Ok (line r).
Proof. unfold line, fields. rewrite format_fields, <- asctime_text. by rewrite <- !app_assoc. Qed.

Definition prefix_text (prefix : option pystr) : pystr :=
  match prefix with Some (b :: p) => bs "[" ++ (b :: p) ++ bs "] " | _ => [] end.

Lemma format_terminal prefix r : no_byte Byte.x25 (default [] prefix) = true ->
  percent_format other (fields log_line_time_format r) 0 (terminal_format prefix) = Ok (prefix_text prefix ++ line r).
Proof.
  destruct prefix as [[|b p]|]; cbn [default terminal_format prefix_text]; intros Hp; [apply format_line| |apply format_line].
  replace (bs "[" ++ (b :: p) ++ bs "] " ++ log_line_format) with ((bs "[" ++ (b :: p) ++ bs "] ") ++ log_line_format) by by rewrite <- !app_assoc.
  change (no_byte Byte.x25 (b :: p) = true) in Hp.
  rewrite percent_format_text by (by rewrite !no_byte_app, Hp). by rewrite format_line.
Qed.
End lines.

(** A line starts with a valid stamp, which is that of its record. *)
Lemma line_stamp r : take log_line_timestamp_len (line r) = log_stamp (created r).
Proof. unfold line. change log_line_timestamp_len with (length (log_stamp (created r))). apply take_app_length. Qed.

(** The names of test beds have no percent sign. *)
Lemma testbed_name_plain name : forallb valid_filename_char name = true -> no_byte Byte.x25 name = true.
Proof.
  unfold no_byte, is_byte. induction name as [|b l IH]; [done|]. cbn [forallb]. intros [Hb Hl]%andb_true_iff.
  rewrite IH by done. destruct (bool_decide_reflect (b = Byte.x25)) as [->|]; done.
Qed.

(** A file of a level takes the records of this level and above. *)
Definition lets_through (r : log_record) (x : sink * log_level) : Prop := (levelno x.2 <= levelno (level r))%Z.
#[export] Instance lets_through_dec r x : Decision (lets_through r x).
Proof. unfold lets_through. apply _. Defined.

(** ** The streams of the handlers *)
Definition file_streams (l : list handler) : list nat := omap is_file l.
Record streams_ok (g : root_logger) : Prop := mk_streams_ok {
  streams_of_handlers : streams g = file_streams (handlers g);
  streams_distinct : NoDup (streams g);
  streams_old : forall n, n ∈ streams g -> n < next_stream g
}.

Lemma remove_own_sink h l : remove_sink (hsink h) (h :: l) = l.
Proof. cbn [remove_sink]. destruct (hsink h); [done|]. by rewrite decide_True. Qed.

(** Killing leaves no handler and no open file. *)
Lemma kill_all g : streams_ok g ->
  killTestLogger g = mk_root [] [] (next_stream g) (log_level_ g) (propagate g) (log_path g).
Proof.
  intros [Hs Hd _]. unfold killTestLogger. remember (handlers g) as l eqn:Hl. revert g Hs Hd Hl.
  induction l as [|h l IH]; intros g Hs Hd Hl; cbn [foldl].
  - destruct g; cbn in *. by subst.
  - rewrite IH; clear IH.
    + unfold kill_handler. by destruct (is_file h).
    + unfold kill_handler. unfold file_streams in *. cbn [omap list_omap] in Hs. destruct (is_file h) as [n|]; cbn; [|done].
      rewrite Hs in *. apply NoDup_cons in Hd as [Hn Hd]. rewrite filter_cons_False by naive_solver.
      apply filter_all_id, Forall_forall. intros x Hx ->. by apply Hn.
    + unfold kill_handler. destruct (is_file h); cbn; [by apply NoDup_filter|done].
    + unfold kill_handler. destruct (is_file h); cbn; rewrite <- Hl; by rewrite remove_own_sink.
Qed.

Section setup.
Context {S : Type} (other : log_record -> pystr -> pyres pystr).
Context (cwd : pystr) (expanduser : pystr -> pystr) (now : datetime).
Context (path_exists : pystr -> xstM S bool) (makedirs open_append : pystr -> xstM S unit).
Context (islink : pystr -> xstM S bool) (remove : pystr -> xstM S unit) (symlink : pystr -> pystr -> xstM S unit).
Context (isSymlinkSupported : bool).
Abbreviation M := (xstM (root_logger * S)).
Abbreviation setup := (setupTestLogger cwd expanduser now path_exists makedirs open_append islink remove symlink isSymlinkSupported).
Abbreviation add_file := (addLogFile cwd now open_append).

(** ** The calls that a process makes *)
Inductive log_op :=
  | Setup (log_path : pystr) (prefix filename : option pystr) (log_severity : pystr) (create_symlink : bool)
  | AddFile (log_path : pystr) (filename : option pystr) (log_severity : pystr)
  | Kill.
Definition run_op (o : log_op) : M unit :=
  match o with
  | Setup p prefix f sev link => _ ← setup p prefix f sev link; mret tt
  | AddFile p f sev => _ ← add_file p f sev; mret tt
  | Kill => on_root killTestLogger
  end.
(** The root logger of a new process; an exception leaves what was done. *)
Definition fresh_root : root_logger := mk_root [] [] 0 None true None.
Definition after (ops : list log_op) (s : S) : root_logger * S := foldl (fun w o => (run_op o w).2) (fresh_root, s) ops.

Abbreviation inv := (fun w : root_logger * S => streams_ok w.1).

Lemma on_files_keeps {A} (m : xstM S A) : xkeeps inv (on_files m).
Proof. intros [g s] H. unfold on_files. cbn [fst snd]. by destruct (m s). Qed.
#[local] Hint Resolve on_files_keeps : keeps.

Lemma on_root_keeps f : (forall g, streams_ok g -> streams_ok (f g)) -> xkeeps inv (on_root (S := S) f).
Proof. intros Hf w H. by apply Hf. Qed.

Lemma kill_keeps g : streams_ok g -> streams_ok (killTestLogger g).
Proof. intros H. rewrite kill_all by done. split; [done|constructor|by intros n ?%elem_of_nil]. Qed.

Lemma add_stdout_keeps l f g : streams_ok g -> streams_ok (addHandler (mk_handler Stdout l f) g).
Proof.
  intros [Hs Hd Ho]. split; [|done|done]. cbn [streams handlers addHandler]. unfold file_streams in *.
  rewrite omap_app, Hs. cbn. by rewrite app_nil_r.
Qed.

(** An attempt to add a file: it opens and is the last handler, or nothing changes. *)
Lemma addLogFile_run log_path f sev w :
  let path := path_join2 log_path f in
  let '(r, s) := open_append (abspath cwd path) w.2 in
  add_file log_path (Some f) sev w =
  match r with
  | Ret _ =>
      let g := w.1 in
      let k := File (next_stream g) (abspath cwd path) in
      (Ret (path, k), (mk_root (handlers g ++ [mk_handler k (severity_level sev) log_line_format]) (streams g ++ [next_stream g])
         (Datatypes.S (next_stream g)) (log_level_ g) (propagate g) (Logger.log_path g), s))
  | Exc e => (Exc e, (w.1, s))
  end.
Proof.
  destruct w as [g s]. cbn [fst snd]. destruct (open_append _ s) as [r s'] eqn:E.
  unfold addLogFile, getLogFileName, FileHandler, on_files, on_root, xget, mbind, xstM_bind, mret, xstM_ret. cbn [fst snd].
  rewrite E. by destruct r.
Qed.

Lemma new_stream_ok g k lvl f : streams_ok g -> is_file (mk_handler k lvl f) = Some (next_stream g) ->
  streams_ok (mk_root (handlers g ++ [mk_handler k lvl f]) (streams g ++ [next_stream g]) (Datatypes.S (next_stream g)) (log_level_ g) (propagate g) (log_path g)).
Proof.
  intros [Hs Hd Ho] Hk. split; cbn [streams handlers next_stream].
  - unfold file_streams in *. rewrite omap_app, Hs. cbn [omap list_omap]. by rewrite Hk.
  - apply NoDup_app. split_and!; [done| |apply NoDup_singleton]. intros n Hn ->%list_elem_of_singleton. apply Ho in Hn. lia.
  - intros n [Hn|Hn]%elem_of_app; [apply Ho in Hn; lia|apply list_elem_of_singleton in Hn; lia].
Qed.

Lemma add_file_keeps log_path f sev : xkeeps inv (add_file log_path f sev).
Proof.
  assert (forall f, xkeeps inv (add_file log_path (Some f) sev)) as Hsome.
  { intros f' w Hw. pose proof (addLogFile_run log_path f' sev w) as E. cbn zeta in E.
    destruct (open_append _ _) as [[[]|e] s]; rewrite E; [|done]. cbn [fst snd]. by apply new_stream_ok. }
  destruct f as [f|]; [apply Hsome|]. unfold addLogFile. cbn [getLogFileName].
  destruct (getLogFileTimestamp now None) as [f|e]; [apply (Hsome f)|by intros w Hw].
Qed.
#[local] Hint Resolve add_file_keeps : keeps.

Fixpoint file_handlers (log_path filename : pystr) (n : nat) (levels : list pystr) : list handler :=
  match levels with
  | [] => []
  | level :: levels =>
      mk_handler (File n (abspath cwd (path_join2 log_path (level_filename filename level)))) (severity_level level) log_line_format
      :: file_handlers log_path filename (Datatypes.S n) levels
  end.

Lemma on_files_root {A} (m : xstM S A) w r w' : on_files m w = (r, w') -> w'.1 = w.1.
Proof. unfold on_files. destruct (m w.2). by intros [= <- <-]. Qed.

Lemma create_dir_root p w r w' : create_dir cwd expanduser path_exists makedirs p w = (r, w') -> w'.1 = w.1.
Proof.
  unfold create_dir, mbind, xstM_bind. destruct (on_files _ w) as [[b|e] w1] eqn:E; [|intros [= <- <-]; by apply on_files_root in E].
  apply on_files_root in E as <-. destruct b; [by intros [= <- <-]|apply on_files_root].
Qed.

Lemma alias_root p w r w' : createLatestLogAlias islink remove symlink p w = (r, w') -> w'.1 = w.1.
Proof.
  unfold createLatestLogAlias, mbind, xstM_bind. destruct (on_files _ w) as [[b|e] w1] eqn:E; [|intros [= <- <-]; by apply on_files_root in E].
  apply on_files_root in E as <-. destruct b.
  - destruct (on_files (remove _) w1) as [[?|?] w2] eqn:E2; [|intros [= <- <-]; by apply on_files_root in E2].
    apply on_files_root in E2 as <-. apply on_files_root.
  - apply on_files_root.
Qed.

Lemma add_log_files_run log_path f levels : forall w w',
  add_log_files cwd now open_append log_path f levels w = (Ret tt, w') ->
  w'.1 = mk_root (handlers w.1 ++ file_handlers log_path f (next_stream w.1) levels)
           (streams w.1 ++ seq (next_stream w.1) (length levels)) (next_stream w.1 + length levels)
           (log_level_ w.1) (propagate w.1) (Logger.log_path w.1).
Proof.
  induction levels as [|l levels IH]; intros w w'; cbn [add_log_files file_handlers length seq].
  - intros [= <-]. rewrite !app_nil_r, Nat.add_0_r. by destruct w as [[] ?].
  - intros (k & w1 & H1 & H2)%xstM_bind_Ret. pose proof (addLogFile_run log_path (level_filename f l) l w) as E. cbn zeta in E.
    rewrite H1 in E. destruct (open_append _ _) as [[[]|e] s]; [|done]. injection E as -> ->.
    rewrite (IH _ _ H2). cbn [fst handlers streams next_stream log_level_ propagate Logger.log_path].
    rewrite <- !app_assoc. cbn [app]. f_equal. lia.
Qed.

(** What a set-up leaves, whatever was there before. *)
Definition set_up (log_path : pystr) (prefix : option pystr) (filename sev : pystr) (n : nat) : root_logger :=
  mk_root (mk_handler Stdout (severity_level sev) (terminal_format prefix) :: file_handlers log_path filename n default_log_levels)
    (seq n 3) (n + 3) (Some DEBUG) false (Some log_path).

Lemma setup_run log_path prefix filename sev link w r w' :
  streams_ok w.1 -> setup log_path prefix filename sev link w = (Ret r, w') ->
  exists f, r = path_join2 log_path f /\ match filename with Some f' => f = f' | None => getLogFileTimestamp now None = Ok f end /\
    w'.1 = set_up log_path prefix f sev (next_stream w.1).
Proof.
  intros Hw. unfold setupTestLogger. intros (f & w1 & H1 & (u2 & w2 & H2 & (u3 & w3 & H3 & (u4 & w4 & H4 & H5)%xstM_bind_Ret)%xstM_bind_Ret)%xstM_bind_Ret)%xstM_bind_Ret.
  injection H5 as <- <-. exists f. split; [done|].
  assert (w1 = w /\ match filename with Some f' => f = f' | None => getLogFileTimestamp now None = Ok f end) as [-> Hf].
  { destruct filename; unfold getLogFileName, mret, xstM_ret in H1; [by inversion H1|]. unfold xpure, xlift in H1.
    destruct (getLogFileTimestamp now None) in *; unfold of_pyres in H1; by inversion H1. }
  split; [done|].
  assert (w4.1 = w3.1) as -> by (destruct (link && isSymlinkSupported); [by apply alias_root in H4|by injection H4 as _ <-]).
  apply create_dir_root in H2. clear H1 H4 u4 w4.
  unfold _initiateTestLogger in H3. apply xstM_bind_Ret in H3 as (? & wa & [= _ <-] & H3). apply xstM_bind_Ret in H3 as (? & wb & [= _ <-] & H3).
  apply xstM_bind_Ret in H3 as (? & wc & [= _ <-] & H3). apply xstM_bind_Ret in H3 as (? & wd & [= <- <-] & H3).
  apply xstM_bind_Ret in H3 as ([] & we & H3 & [= _ <-]). apply add_log_files_run in H3. cbn [fst snd] in H3 |- *.
  rewrite H3, H2, kill_all by done. cbn -[file_handlers terminal_format severity_level seq]. unfold set_up. done.
Qed.

Lemma set_up_ok p prefix f sev n : streams_ok (set_up p prefix f sev n).
Proof.
  split; [done|apply NoDup_seq|]. cbn [set_up streams next_stream]. intros k Hk%elem_of_seq. lia.
Qed.

Lemma setup_keeps log_path prefix filename sev link : xkeeps inv (setup log_path prefix filename sev link).
Proof.
  unfold setupTestLogger, getLogFileName, create_dir, _initiateTestLogger, createLatestLogAlias.
  assert (forall f levels, xkeeps inv (add_log_files cwd now open_append log_path f levels)) as Hfiles.
  { intros f levels. induction levels; cbn [add_log_files]; keeps. }
  assert (forall f, (forall g, streams_ok g -> streams_ok (f g)) -> xkeeps inv (on_root (S := S) f)) as Hroot by apply on_root_keeps.
  pose proof kill_keeps. pose proof add_stdout_keeps.
  keeps; apply Hroot; try done; intros g Hg; try (by destruct Hg); auto.
Qed.

#[local] Hint Resolve setup_keeps : keeps.

Lemma run_op_keeps o : xkeeps inv (run_op o).
Proof. destruct o; cbn [run_op]; keeps. by apply on_root_keeps, kill_keeps. Qed.

Lemma after_streams_ok ops s : streams_ok (after ops s).1.
Proof.
  unfold after. assert (streams_ok (fresh_root, s).1) as H by (split; [done|constructor|by intros n ?%elem_of_nil]). revert H.
  generalize (fresh_root, s). induction ops as [|o ops IH]; intros w Hw; [done|]. cbn [foldl]. by apply IH, run_op_keeps.
Qed.

(** ** Where a record goes *)
Definition log_files (log_path f : pystr) (n : nat) : list (sink * log_level) :=
  [(File n (abspath cwd (path_join2 log_path (level_filename f (bs "ERROR")))), ERROR);
   (File (n + 1) (abspath cwd (path_join2 log_path (level_filename f (bs "INFO")))), INFO);
   (File (n + 2) (abspath cwd (path_join2 log_path (level_filename f (bs "DEBUG")))), DEBUG)].

Lemma log_set_up p prefix f sev n r : no_byte Byte.x25 (default [] prefix) = true ->
  log other (set_up p prefix f sev n) r =
  (if enabled (severity_level sev) r then [(Stdout, prefix_text prefix ++ line r)] else []) ++
  ((fun x => (x.1, line r)) <$> filter (lets_through r) (log_files p f n)).
Proof.
  intros Hp. unfold log, set_up. cbn [log_level_ default handlers].
  assert (enabled (id DEBUG) r = true) as -> by by destruct r as [? [] ?].
  cbn [fmap list_fmap mjoin list_join file_handlers default_log_levels]. f_equal.
  - unfold emit. cbn [hlevel hformat hsink]. by rewrite format_terminal.
  - unfold emit. cbn [hlevel hformat hsink]. rewrite format_line.
    replace (Datatypes.S (Datatypes.S n)) with (n + 2) by lia. replace (Datatypes.S n) with (n + 1) by lia.
    unfold lets_through, log_files, enabled. by destruct r as [? [] ?].
Qed.

(** C26: whatever a process did with its loggers before, and whether it succeeded,
    after a set-up with a prefix that has no percent sign (a prefix is a part of the format of
    the terminal, [prefix_with_percent]) the open files are just the three of this set-up; a record is
    written once to the terminal, when the severity lets it, and once to each file of
    its own level or a lower one, as a line of its time, level and message. *)
Theorem records_reach_their_files ops s log_path prefix filename sev link p w :
  no_byte Byte.x25 (default [] prefix) = true ->
  setup log_path prefix (Some filename) sev link (after ops s) = (Ret p, w) ->
  p = path_join2 log_path filename /\
  exists n, streams w.1 = [n; n + 1; n + 2] /\
  forall r, log other w.1 r =
    (if enabled (severity_level sev) r then [(Stdout, prefix_text prefix ++ line r)] else []) ++
    ((fun x => (x.1, line r)) <$> filter (lets_through r) (log_files log_path filename n)).
Proof.
  intros Hp (f & -> & <- & ->)%setup_run; [|apply after_streams_ok]. split; [done|].
  exists (next_stream (after ops s).1). split; [cbn [set_up streams seq]; f_equal; [f_equal; [lia|f_equal; lia]]|].
  intros r. by apply log_set_up.
Qed.
End setup.

(** ** The names of the files *)
(** The three files of a set-up are three. *)
Lemma level_filename_inj f l k : level_filename f l = level_filename f k -> l = k.
Proof. unfold level_filename. intros E%(inj (app _))%(inj (app _)). by apply app_inv_tail in E. Qed.

Lemma level_paths_distinct p f l k : path_join2 p (level_filename f l) = path_join2 p (level_filename f k) -> l = k.
Proof.
  intros E. apply (level_filename_inj f). revert E. unfold path_join2.
  assert (startswith sep (level_filename f l) = startswith sep (level_filename f k)) as ->.
  { unfold level_filename. by destruct (take _ f). }
  destruct (startswith sep _); [done|]. destruct (_ || _); [by intros ?%(inj (app _))|by intros ?%(inj (app _))%(inj (app _))].
Qed.

(** Only the part before the last dot is extended. *)
Example details_file : level_filename run_details (bs "ERROR") = bs "test_run_details_ERROR.txt".
Proof. reflexivity. Qed.

(** ** A process with a few directories *)
Section example.
Definition dirs_exist (p : pystr) : xstM (list pystr) bool := fun s => (Ret (bool_decide (p ∈ s)), s).
Definition dirs_make (p : pystr) : xstM (list pystr) unit := xmodify (cons p).
Definition dirs_open (p : pystr) : xstM (list pystr) unit := fun s =>
  if decide (dirname p ∈ s) then (Ret tt, s) else (Exc (EOther Python_OSError p), s).
Definition dirs_quiet (p : pystr) : xstM (list pystr) unit := mret tt.
Definition dirs_link (p : pystr) : xstM (list pystr) bool := mret false.
Definition at_noon : datetime := mk_dt 2019 7 1 12 0 0 250000.
Definition raising (r : log_record) (fmt : pystr) : pyres pystr := Raise ValueError.
Definition home (p : pystr) : pystr := match p with Byte.x7e :: p => bs "/home/me" ++ p | _ => p end.

Definition example_setup (p : pystr) (prefix : option pystr) :=
  setupTestLogger (bs "/work") home at_noon dirs_exist dirs_make dirs_open dirs_link dirs_quiet (fun a b => mret tt) true
    p prefix (Some (bs "log.txt")) (bs "WARNING") true.
Definition example_run (p : pystr) : list log_op := [AddFile (bs "/nowhere") None (bs "INFO"); Setup p None None (bs "DEBUG") true].
Definition example_after (p : pystr) :=
  after (bs "/work") home at_noon dirs_exist dirs_make dirs_open dirs_link dirs_quiet (fun a b => mret tt) true (example_run p) [].

Lemma records_reach_their_files_witness : exists n,
  forall r, log raising (example_setup (bs "/tmp/run2") (Some (bs "bed")) (example_after (bs "/tmp/run1"))).2.1 r =
    (if enabled WARNING r then [(Stdout, bs "[bed] " ++ line r)] else []) ++
    ((fun x => (x.1, line r)) <$> filter (lets_through r) (log_files (bs "/work") (bs "/tmp/run2") (bs "log.txt") n)).
Proof.
  destruct (records_reach_their_files raising (bs "/work") home at_noon dirs_exist dirs_make dirs_open dirs_link dirs_quiet (fun a b => mret tt) true
    (example_run (bs "/tmp/run1")) [] (bs "/tmp/run2") (Some (bs "bed")) (bs "log.txt") (bs "WARNING") true
    (bs "/tmp/run2/log.txt") (example_setup (bs "/tmp/run2") (Some (bs "bed")) (example_after (bs "/tmp/run1"))).2) as (_ & n & _ & H).
  - reflexivity.
  - vm_compute. reflexivity.
  - exists n. exact H.
Defined.

(** The severity WARNING names no file: a warning goes to the files of INFO and DEBUG. *)
Example warning_files :
  (fun x => x.1) <$> log raising (set_up (bs "/work") (bs "/tmp/run") None (bs "log.txt") (bs "ERROR") 0) (mk_log_record at_noon WARNING (bs "late")) =
  [File 1 (bs "/tmp/run/log_INFO.txt"); File 2 (bs "/tmp/run/log_DEBUG.txt")].
Proof. vm_compute. reflexivity. Qed.

(** A prefix with a percent sign is part of the format: the terminal shows nothing. *)
Example prefix_with_percent :
  (fun x => x.1) <$> log raising (set_up (bs "/work") (bs "/tmp/run") (Some (bs "50%")) (bs "log.txt") (bs "DEBUG") 0) (mk_log_record at_noon ERROR (bs "late")) =
  [File 0 (bs "/tmp/run/log_ERROR.txt"); File 1 (bs "/tmp/run/log_INFO.txt"); File 2 (bs "/tmp/run/log_DEBUG.txt")].
Proof. vm_compute. reflexivity. Qed.

(** A tilde is expanded for the directory and not for the files: set-up raises, and
    leaves the terminal as the only handler. *)
Example tilde_is_not_expanded :
  let w := example_setup (bs "~/logs") None (example_after (bs "/tmp/run1")) in
  w.1 = Exc (EOther Python_OSError (bs "/work/~/logs/log_ERROR.txt")) /\ length (handlers w.2.1) = 1 /\ streams w.2.1 = [].
Proof. vm_compute. split_and!; reflexivity. Qed.

(** A proxy of a logger without a path gives a function in place of one. *)
Example proxy_without_path : LoggerProxy_log_path (Some fresh_root) = LogCall (bs "log_path").
Proof. reflexivity. Qed.
End example.

(** ** Runs *)
(** Two runs of a test bed in different milliseconds have different names. *)
Lemma file_stamp t s : getLogFileTimestamp t None = Ok s ->
  s = fixed 2 (month t) ++ bs "-" ++ fixed 2 (day t) ++ bs "-" ++ fixed 4 (year t) ++ bs "_" ++ fixed 2 (hour t) ++ bs "-" ++
      fixed 2 (minute t) ++ bs "-" ++ fixed 2 (second t) ++ bs "-" ++ fixed 3 (microsecond t / 1000).
Proof.
  unfold getLogFileTimestamp, _get_timestamp, strftime. cbn [mbind pyres_bind]. destruct (year t <? 1900)%Z; [done|].
  cbn [mbind pyres_bind]. intros [= <-].
  match goal with |- drop_last_3 ?a = ?b =>
    assert (a = b ++ [digit (microsecond t / 10 / 10 mod 10); digit (microsecond t / 10 mod 10); digit (microsecond t mod 10)]) as -> end.
  { cbn -[Z.div Z.modulo]. rewrite !Z.div_div by lia. reflexivity. }
  apply drop_last_3_app. reflexivity.
Qed.

Lemma file_stamps_distinct a b s : valid_datetime a -> valid_datetime b -> (year a < 10000)%Z -> (year b < 10000)%Z ->
  getLogFileTimestamp a None = Ok s -> getLogFileTimestamp b None = Ok s -> year a = year b /\ stamp_fields a = stamp_fields b.
Proof.
  intros [Am Ad Ah Ami As Aus] [Bm Bd Bh Bmi Bs Bus] Ya Yb Ha Hb.
  assert (forall t, getLogFileTimestamp t None = Ok s -> 1900 <= year t)%Z as Hyear.
  { intros t. unfold getLogFileTimestamp, _get_timestamp, strftime. cbn [mbind pyres_bind]. destruct (Z.ltb_spec (year t) 1900); [done|lia]. }
  pose proof (Hyear _ Ha). pose proof (Hyear _ Hb). apply file_stamp in Ha as ->. apply file_stamp in Hb as E. clear Hyear.
  pose proof (days_in_month_bounds (year a) (month a)). pose proof (days_in_month_bounds (year b) (month b)).
  assert (forall x, 0 <= x < 1000000 -> 0 <= x / 1000 < 1000)%Z as Hus.
  { intros. split; [apply Z.div_pos; lia|apply Z.div_lt_upper_bound; lia]. }
  pose proof (Hus _ Aus). pose proof (Hus _ Bus).
  do 12 (apply app_inj_1 in E as [? E]; [|by rewrite ?length_fixed]).
  repeat match goal with H : fixed _ _ = fixed _ _ |- _ =>
    apply fixed_inj in H; [|change (10 ^ Z.of_nat 2)%Z with 100%Z; change (10 ^ Z.of_nat 3)%Z with 1000%Z; change (10 ^ Z.of_nat 4)%Z with 10000%Z; lia ..] end.
  unfold stamp_fields. split; [done|congruence].
Qed.

(** The names of two runs are equal only when the test beds and the times are. *)
Lemma run_ids_distinct n m a b s t : valid_datetime a -> valid_datetime b -> (year a < 10000)%Z -> (year b < 10000)%Z ->
  getLogFileTimestamp a None = Ok s -> getLogFileTimestamp b None = Ok t -> run_id n s = run_id m t ->
  n = m /\ year a = year b /\ stamp_fields a = stamp_fields b.
Proof.
  intros Va Vb Ya Yb Ha Hb E. unfold run_id in E.
  assert (length s = length t) as Hl.
  { rewrite (file_stamp _ _ Ha), (file_stamp _ _ Hb), !length_app, !length_fixed. done. }
  rewrite !app_assoc in E. apply app_inj_2 in E as [E ->]; [|done]. apply app_inv_tail in E as ->.
  split; [done|]. by eapply file_stamps_distinct.
Qed.
