(* ===== verification/MemoryTests.v ===== *)
(** * The tests of shared memory ([src/testcases/codelab/hidl_memory_test/VtsCodelabHidlMemoryTest.py])

    The class is a client of the mirror of a memory region (MemoryMirror) and of a
    service that gets the region from the host.  [drive_memory] is the device that the
    tests have in mind: regions of bytes, and objects that stand for a region, several
    of them perhaps for one.  The theorem at the end runs the tests, in any order,
    against any device that behaves so, for any random data. *)

From Stdlib Require Import Strings.Byte.
From S2P Require Import Prelude PyStr ListUtils PyVal Signals Shell Channel Mirror TcpClient ResourceMirror MemoryMirror FmqMirror MsgqDriver MsgqTests.

Definition MEM_SIZE : Z := 1024.
Definition MEM_SERVICE_NAME : pystr := bs "hidl_test_servers".
Definition MEM_COMMAND_32 : pystr := bs "/data/nativetest/" ++ MEM_SERVICE_NAME ++ bs "/" ++ MEM_SERVICE_NAME ++ bs " &".
Definition MEM_COMMAND_64 : pystr := bs "/data/nativetest64/" ++ MEM_SERVICE_NAME ++ bs "/" ++ MEM_SERVICE_NAME ++ bs " &".
Definition MEM_CHECK_COMMAND : pystr := bs "lshal --types=b | grep " ++ [Byte.x22] ++ bs "android.hardware.tests.memory@1.0" ++ [Byte.x22].

(** The calls of the service; the object that comes back is an identifier. *)
Class MemoryService (S : Type) := {
  fillMemory : vsm -> Z -> xstM S unit;
  haveSomeMemory : vsm -> xstM S (option Z);
}.

Definition prepareHidlMemoryArgument (mem_id : Z) : vsm :=
  mk_vsm [] (TYPE_OTHER 16) [] [] [] ([], 0%Z) [] 0 [] [] [] [] [] (mk_other false [] 0 None mem_id (-1)).

(** [str(bytearray(l))], [random.randint(0, 100)], and [ord] of each character. *)
Fixpoint bytearray_str (l : list Z) : xres pystr :=
  match l with
  | [] => Ret []
  | z :: l => if ((0 <=? z) && (z <? 256))%Z then s ← bytearray_str l; Ret (Zbyte z :: s) else Exc (EOther Python_ValueError [])
  end.
Definition randint_0_100 (raw : Z) : Z := (raw mod 101)%Z.
Definition ords (s : pystr) : list Z := byteZ <$> s.

Section tests.
Context {S : Type} (send : HidlMemoryRequestMessage -> xstM S (option HidlMemoryResponseMessage)) `{MemoryService S}.
(** The number that is drawn for an iteration and an index. *)
Context (random : nat -> nat -> Z).
Abbreviation M := (xstM S).

(** ** Setting the class up *)
(** What the tracker gives for a region without a name (MirrorTracker.InitHidlMemory). *)
Definition init_memory (mem_size : Z) : M (option Z) :=
  id ← allocate send (-1) mem_size; mret (if (id =? -1)%Z then None else Some id).
(** What is returned, and the object that is kept. *)
Definition memory_setUpClass (execute : pystr -> M pystr) (sleep : M unit) (setUpClass_ : M unit) (InitHidlHal : Z -> M unit) (abi_bitness : pystr) :
    M (option bool * option Z) :=
  bits ← xpure (py_int abi_bitness);
  _ ← execute (if (bits =? 64)%Z then MEM_COMMAND_64 else MEM_COMMAND_32);
  start_hal_success ← wait_for_service execute sleep MEM_CHECK_COMMAND MAX_RETRY;
  if negb start_hal_success then mret (Some false, None)
  else
    _ ← InitHidlHal bits;
    mem_obj ← init_memory MEM_SIZE;
    _ ← setUpClass_;
    mret (None, mem_obj).

(** ** Assertions and calls *)
Definition mem_obj (o : option Z) : M Z := match o with Some id => mret id | None => xlift (Exc attribute_error) end.
Definition equal_ {A} `{EqDecision A} (a b : A) : M unit := xlift (if decide (a = b) then Ret tt else fail (PStr differ) PNone).
Definition do (m : M bool) : M unit := _ ← m; mret tt.
(** [list(s)] of what was read: [None] is no sequence. *)
Definition read_list (s : option pystr) : M pystr := match s with Some s => mret s | None => xlift (Exc (EOther Python_TypeError [])) end.

(** ** The tests *)
Definition testGetSize (o : option Z) : M unit :=
  m ← mem_obj o; n ← getSize send m; equal_ MEM_SIZE n.

Definition testSimpleWriteRead (o : option Z) : M unit :=
  m ← mem_obj o;
  let write_data := bs "abcdef" in
  let n := Z.of_nat (length write_data) in
  _ ← do (update send m);
  _ ← do (updateBytes send m write_data n 0);
  _ ← do (commit send m);
  _ ← do (MemoryMirror.read send m);
  read_data ← readBytes send m n 0;
  equal_ (Some write_data) read_data.

(** One iteration: ten random numbers at an offset. *)
Definition write_read_at (i : nat) (m : Z) : M unit :=
  let write_data := (fun j => randint_0_100 (random i j)) <$> seq 0 10 in
  write_data_str ← xlift (bytearray_str write_data);
  let n := Z.of_nat (length write_data_str) in
  let start := (Z.of_nat i * 5)%Z in
  _ ← do (updateRange send m start n);
  _ ← do (updateBytes send m write_data_str n start);
  _ ← do (commit send m);
  _ ← do (readRange send m start n);
  s ← readBytes send m n start;
  read_data ← read_list s;
  equal_ write_data (ords read_data).
Fixpoint iterations (l : list nat) (m : Z) : M unit :=
  match l with [] => mret tt | i :: l => _ ← write_read_at i m; iterations l m end.
Definition testLargeWriteRead (o : option Z) : M unit := m ← mem_obj o; iterations (seq 0 5) m.

Definition testWriteTwoRegionsInOneBuffer (o : option Z) : M unit :=
  m ← mem_obj o;
  let write_data1 := bs "abcdef" in
  let write_data2 := bs "ghijklmno" in
  let n1 := Z.of_nat (length write_data1) in
  let n2 := Z.of_nat (length write_data2) in
  let half := (MEM_SIZE / 2)%Z in
  _ ← do (updateRange send m 0 n1);
  _ ← do (updateRange send m half n2);
  _ ← do (updateBytes send m write_data2 n2 half);
  _ ← do (commit send m);
  _ ← do (MemoryMirror.read send m);
  read_data2 ← readBytes send m n2 half;
  _ ← do (commit send m);
  _ ← equal_ read_data2 (Some write_data2);
  _ ← do (updateBytes send m write_data1 n1 0);
  _ ← do (commit send m);
  _ ← do (MemoryMirror.read send m);
  read_data1 ← readBytes send m n1 0;
  _ ← do (commit send m);
  equal_ (Some write_data1) read_data1.

(** [read], [readBytes] of the whole region, [commit]. *)
Definition read_all (m : Z) : M (option pystr) :=
  _ ← do (MemoryMirror.read send m); s ← readBytes send m MEM_SIZE 0; _ ← do (commit send m); mret s.

Definition testSharedMemory (o : option Z) : M unit :=
  m ← mem_obj o;
  _ ← do (update send m);
  _ ← do (updateBytes send m (replicate (Z.to_nat MEM_SIZE) Byte.x00) MEM_SIZE 0);
  _ ← do (commit send m);
  let var_msg := prepareHidlMemoryArgument m in
  _ ← fillMemory var_msg 42;
  s ← read_all m;
  read_data ← read_list s;
  equal_ (ords read_data) (replicate (Z.to_nat MEM_SIZE) 42%Z).

Definition testSameMemoryDifferentId (o : option Z) : M unit :=
  m ← mem_obj o;
  let var_msg := prepareHidlMemoryArgument m in
  c ← haveSomeMemory var_msg;
  _ ← xlift (match c with None => fail (PStr (bs "None == None")) PNone | Some _ => Ret tt end);
  memory_client2 ← mem_obj c;
  _ ← xlift (assertNotEqual memory_client2 (-1) PNone PNone);
  _ ← xlift (assertNotEqual memory_client2 m PNone PNone);
  _ ← fillMemory var_msg 50;
  s1 ← read_all m;
  s2 ← read_all memory_client2;
  read_data1 ← read_list s1;
  read_data2 ← read_list s2;
  _ ← equal_ (ords read_data1) (replicate (Z.to_nat MEM_SIZE) 50%Z);
  equal_ (ords read_data2) (replicate (Z.to_nat MEM_SIZE) 50%Z).

Definition memory_tests : list (option Z -> M unit) :=
  [testGetSize; testLargeWriteRead; testSameMemoryDifferentId; testSharedMemory; testSimpleWriteRead; testWriteTwoRegionsInOneBuffer].
Fixpoint run_tests (l : list (option Z -> M unit)) (o : option Z) : M unit :=
  match l with [] => mret tt | t :: l => _ ← t o; run_tests l o end.
End tests.

(** ** The device *)
Record memory := mk_memory { regions : list pystr; objects : list nat }.
Definition no_memory : memory := mk_memory [] [].
Definition region (d : memory) (id : Z) : option (nat * pystr) :=
  if decide (id < 0)%Z then None else i ← objects d !! Z.to_nat id; r ← regions d !! i; Some (i, r).
Arguments region : simpl never.
Definition splice (start : nat) (data r : pystr) : pystr := take start r ++ data ++ drop (start + length data) r.

Definition mem_failed : HidlMemoryResponseMessage := mk_mem_response false (-1) 0 [].
Definition mem_ok (size : Z) (data : pystr) : HidlMemoryResponseMessage := mk_mem_response true (-1) size data.
Definition fits (start n : Z) (r : pystr) : bool := ((0 <=? start) && (0 <=? n) && (start + n <=? Z.of_nat (length r)))%Z.

Definition drive_region (m : HidlMemoryRequestMessage) (i : nat) (r : pystr) (d : memory) : HidlMemoryResponseMessage * memory :=
  let o := mem_operation m in
  let start := default 0%Z (mem_start m) in
  let n := default 0%Z (mem_length m) in
  if decide (o = MEM_PROTO_GET_SIZE) then (mem_ok (Z.of_nat (length r)) [], d)
  else if decide (o = MEM_PROTO_START_READ \/ o = MEM_PROTO_START_UPDATE \/ o = MEM_PROTO_COMMIT) then (mem_ok 0 [], d)
  else if fits start n r then
    if decide (o = MEM_PROTO_START_READ_RANGE \/ o = MEM_PROTO_START_UPDATE_RANGE) then (mem_ok 0 [], d)
    else if decide (o = MEM_PROTO_READ_BYTES) then (mem_ok 0 (take (Z.to_nat n) (drop (Z.to_nat start) r)), d)
    else if decide (o = MEM_PROTO_UPDATE_BYTES) then
      (mem_ok 0 [], mk_memory (<[i := splice (Z.to_nat start) (take (Z.to_nat n) (default [] (mem_write_data m))) r]> (regions d)) (objects d))
    else (mem_failed, d)
  else (mem_failed, d).
Definition drive_memory (m : HidlMemoryRequestMessage) (d : memory) : HidlMemoryResponseMessage * memory :=
  if decide (mem_operation m = MEM_PROTO_ALLOCATE) then
    (mk_mem_response true (Z.of_nat (length (objects d))) 0 [],
     mk_memory (regions d ++ [replicate (Z.to_nat (default 0%Z (mem_size m))) Byte.x00]) (objects d ++ [length (regions d)]))
  else match region d (mem_id m) with Some (i, r) => drive_region m i r d | None => (mem_failed, d) end.
Definition send_memory (m : HidlMemoryRequestMessage) : xstM memory (option HidlMemoryResponseMessage) :=
  fun d => let '(r, d) := drive_memory m d in (Ret (Some r), d).

(** The service fills the region of its argument, and gives a new object for it. *)
#[export] Instance memory_service : MemoryService memory := {
  fillMemory m z := fun d =>
    match region d (value_mem_id (other m)) with
    | Some (i, r) => (Ret tt, mk_memory (<[i := replicate (length r) (Zbyte z)]> (regions d)) (objects d))
    | None => (Ret tt, d)
    end;
  haveSomeMemory m := fun d =>
    match region d (value_mem_id (other m)) with
    | Some (i, r) => (Ret (Some (Z.of_nat (length (objects d)))), mk_memory (regions d) (objects d ++ [i]))
    | None => (Ret None, d)
    end;
}.

(** A world whose requests and calls reach a device that behaves so. *)
Class MemoryDevice {S : Type} (send : HidlMemoryRequestMessage -> xstM S (option HidlMemoryResponseMessage)) `{MemoryService S}
    (R : S -> memory -> Prop) : Prop := {
  memory_sends :: Sends send drive_memory R;
  sim_fillMemory m z : sim R (fillMemory m z) (fillMemory m z);
  sim_haveSomeMemory m : sim R (haveSomeMemory m) (haveSomeMemory m);
}.

#[export] Instance memory_itself : MemoryDevice send_memory (=).
Proof.
  split; try (intros; intros s t <-; eexists; split; [apply surjective_pairing|done]).
  intros m s d <-. unfold send_memory. destruct (drive_memory m s) as [r d']. by exists d'.
Qed.

(** ** The methods of the mirror and the tests follow those against the device *)
Section follow.
Context {S : Type} (send : HidlMemoryRequestMessage -> xstM S (option HidlMemoryResponseMessage)) `{MemoryService S}
  (R : S -> memory -> Prop) `{!MemoryDevice send R} (random : nat -> nat -> Z).

Lemma sim_send_memory m : sim R (send m) (send_memory m).
Proof using MemoryDevice0.
  intros s d HR. destruct (sends (send := send) (drive := drive_memory) m s d HR) as (s' & E & H').
  exists s'. unfold send_memory. destruct (drive_memory m d) as [r d']. done.
Qed.
#[local] Hint Resolve sim_send_memory sim_fillMemory sim_haveSomeMemory : sims.

Lemma sim_allocate id n : sim R (allocate send id n) (allocate send_memory id n).
Proof using MemoryDevice0. unfold allocate. simulate. Qed.
Lemma sim_whole id o : sim R (whole send id o) (whole send_memory id o).
Proof using MemoryDevice0. unfold whole, signal. simulate. Qed.
Lemma sim_ranged id o start n data : sim R (ranged send id o start n data) (ranged send_memory id o start n data).
Proof using MemoryDevice0. unfold ranged, signal. simulate. Qed.
Lemma sim_readBytes id n start : sim R (readBytes send id n start) (readBytes send_memory id n start).
Proof using MemoryDevice0. unfold readBytes. simulate. Qed.
Lemma sim_getSize id : sim R (getSize send id) (getSize send_memory id).
Proof using MemoryDevice0. unfold getSize. simulate. Qed.
#[local] Hint Resolve sim_allocate sim_whole sim_ranged sim_readBytes sim_getSize : sims.
#[local] Hint Unfold MemoryMirror.read readRange update updateRange updateBytes commit : sims.

Lemma sim_init_memory n : sim R (init_memory send n) (init_memory send_memory n).
Proof using MemoryDevice0. unfold init_memory. simulate. Qed.

Lemma sim_do (m : xstM S bool) m' : sim R m m' -> sim R (do m) (do m').
Proof. intros Hm. unfold do. simulate. Qed.
Lemma sim_write_read_at i m : sim R (write_read_at send random i m) (write_read_at send_memory random i m).
Proof using MemoryDevice0.
  unfold write_read_at, equal_, read_list. cbv zeta. simulate; apply sim_do; simulate.
Qed.
#[local] Hint Resolve sim_do sim_write_read_at : sims.

Lemma sim_iterations l m : sim R (iterations send random l m) (iterations send_memory random l m).
Proof using MemoryDevice0. induction l as [|i l IH]; cbn [iterations]; simulate. Qed.
#[local] Hint Resolve sim_iterations : sims.

Lemma sim_memory_tests o : Forall2 (fun t t' => sim R (t o) (t' o)) (memory_tests send random) (memory_tests send_memory random).
Proof using MemoryDevice0.
  unfold memory_tests, testGetSize, testLargeWriteRead, testSameMemoryDifferentId, testSharedMemory, testSimpleWriteRead, testWriteTwoRegionsInOneBuffer, mem_obj, equal_, read_all, read_list.
  repeat (constructor; [cbv zeta; simulate|]). constructor.
Qed.
End follow.

(** ** Outcomes on the device *)
Definition ends {A} (m : xstM memory A) (d : memory) (Q : A -> memory -> Prop) : Prop := exists a d', m d = (Ret a, d') /\ Q a d'.

Lemma ends_bind {A B} (m : xstM memory A) (f : A -> xstM memory B) d Q Q' :
  ends m d Q' -> (forall a d', Q' a d' -> ends (f a) d' Q) -> ends (m ≫= f) d Q.
Proof.
  intros (a & d1 & Hm & H1) Hf. destruct (Hf a d1 H1) as (b & d2 & Hb & H2). exists b, d2.
  split; [|done]. by rewrite (xstM_bind_run m f d a d1 Hm).
Qed.
Lemma ends_ret {A} (a : A) d (Q : A -> memory -> Prop) : Q a d -> ends (mret a) d Q.
Proof. intros H. by exists a, d. Qed.
Lemma ends_do (m : xstM memory bool) d (Q : unit -> memory -> Prop) : ends m d (fun _ => Q tt) -> ends (do m) d Q.
Proof. intros (a & d' & Hm & HQ). exists tt, d'. split; [|done]. unfold do. by rewrite (xstM_bind_run _ _ _ _ _ Hm). Qed.
Lemma ends_equal {A} `{EqDecision A} (a b : A) d (Q : unit -> memory -> Prop) : a = b -> Q tt d -> ends (equal_ a b) d Q.
Proof. intros -> HQ. exists tt, d. split; [|done]. unfold equal_. by rewrite decide_True. Qed.

(** The object [id] stands for the region with index [i], which holds [r]. *)
Definition stands (d : memory) (id : Z) (i : nat) (r : pystr) : Prop := region d id = Some (i, r) /\ (0 <= id < 2 ^ 31)%Z.
(** Room for [k] more objects. *)
Definition room (k : nat) (d : memory) : Prop := (Z.of_nat (length (objects d) + k) < 2 ^ 31)%Z.

Lemma stands_id d id i r : stands d id i r -> int32 id = Ret id.
Proof. intros [_ Hid]. apply in_range_Ret. lia. Qed.

Lemma region_set d id i r r' : region d id = Some (i, r) -> region (mk_memory (<[i := r']> (regions d)) (objects d)) id = Some (i, r').
Proof.
  unfold region. destruct (decide (id < 0)%Z); [done|]. cbn [regions objects]. intros (j & Ho & H)%bind_Some.
  apply bind_Some in H as (r0 & Hr & [= -> ->]). rewrite Ho. cbn [mbind option_bind].
  rewrite list_lookup_insert_eq by by eapply lookup_lt_Some. done.
Qed.

Lemma region_more d id i r j : region d id = Some (i, r) -> region (mk_memory (regions d) (objects d ++ [j])) id = Some (i, r).
Proof.
  unfold region. destruct (decide (id < 0)%Z); [done|]. cbn [regions objects]. intros (k & Ho & H)%bind_Some.
  by rewrite (lookup_app_l_Some _ _ _ _ Ho).
Qed.

Lemma region_new d id i r : region d id = Some (i, r) ->
  region (mk_memory (regions d) (objects d ++ [i])) (Z.of_nat (length (objects d))) = Some (i, r).
Proof.
  unfold region. intros H. rewrite decide_False by lia. destruct (decide (id < 0)%Z); [done|]. apply bind_Some in H as (j & Ho & H).
  apply bind_Some in H as (r0 & Hr & [= -> ->]). cbn [regions objects]. rewrite Nat2Z.id, list_lookup_middle by done. cbn. by rewrite Hr.
Qed.

Ltac answer := unfold mbind, xstM_bind, xlift, mret, xstM_ret; cbn.

Section device.
Context (d : memory) (id : Z) (i : nat) (r : pystr) (Hr : stands d id i r).

Lemma ends_whole o : o = MEM_PROTO_START_READ \/ o = MEM_PROTO_START_UPDATE \/ o = MEM_PROTO_COMMIT ->
  ends (whole send_memory id o) d (fun _ d' => d' = d).
Proof using Hr.
  intros Ho. exists true, d. split; [|done]. unfold whole, MemoryMirror.createTemplateRequestMessage. rewrite (stands_id _ _ _ _ Hr).
  unfold signal, send_memory, drive_memory. destruct Ho as [->|[->| ->]]; answer; by rewrite (proj1 Hr).
Qed.

Lemma in_uint64 z : (0 <= z <= Z.of_nat (length r))%Z -> (Z.of_nat (length r) < 2 ^ 20)%Z -> uint64 z = Ret z.
Proof using. intros. apply in_range_Ret. lia. Qed.

Lemma fits_bounds start n : fits start n r = true -> (0 <= start <= Z.of_nat (length r) /\ 0 <= n <= Z.of_nat (length r) /\ start + n <= Z.of_nat (length r))%Z.
Proof using. unfold fits. intros [[?%Z.leb_le ?%Z.leb_le]%andb_true_iff ?%Z.leb_le]%andb_true_iff. lia. Qed.

Context (Hsmall : (Z.of_nat (length r) < 2 ^ 20)%Z).

Lemma ends_range o start n : o = MEM_PROTO_START_READ_RANGE \/ o = MEM_PROTO_START_UPDATE_RANGE -> fits start n r = true ->
  ends (ranged send_memory id o start n None) d (fun _ d' => d' = d).
Proof using Hr Hsmall.
  intros Ho Hfit. pose proof (fits_bounds _ _ Hfit). exists true, d. split; [|done]. unfold ranged, MemoryMirror.createTemplateRequestMessage.
  rewrite (stands_id _ _ _ _ Hr), !in_uint64 by (done || lia). unfold signal, send_memory, drive_memory.
  destruct Ho as [->| ->]; answer; rewrite (proj1 Hr); unfold drive_region; cbn; by rewrite Hfit.
Qed.

Lemma ends_updateBytes data n start : n = Z.of_nat (length data) -> fits start n r = true ->
  ends (updateBytes send_memory id data n start) d (fun _ d' =>
    objects d' = objects d /\ forall id', stands d id' i r -> stands d' id' i (splice (Z.to_nat start) data r)).
Proof using Hr Hsmall.
  intros -> Hfit. pose proof (fits_bounds _ _ Hfit). eexists true, _. split.
  - unfold updateBytes, ranged, MemoryMirror.createTemplateRequestMessage.
    rewrite (stands_id _ _ _ _ Hr), !in_uint64 by (done || lia). unfold signal, send_memory, drive_memory. answer.
    rewrite (proj1 Hr). unfold drive_region. cbn. rewrite Hfit, Nat2Z.id. change (Datatypes.id data) with data. rewrite (take_ge data) by done. reflexivity.
  - cbn [objects]. split; [done|]. intros id' [Hi Hid]. split; [|done]. by eapply region_set.
Qed.

Lemma ends_readBytes n start : fits start n r = true ->
  ends (readBytes send_memory id n start) d (fun s d' => s = Some (take (Z.to_nat n) (drop (Z.to_nat start) r)) /\ d' = d).
Proof using Hr Hsmall.
  intros Hfit. pose proof (fits_bounds _ _ Hfit). eexists _, d. split; [|done]. unfold readBytes, MemoryMirror.createTemplateRequestMessage.
  rewrite (stands_id _ _ _ _ Hr), !in_uint64 by (done || lia). unfold send_memory, drive_memory. answer.
  rewrite (proj1 Hr). unfold drive_region. cbn. by rewrite Hfit.
Qed.

Lemma ends_getSize : ends (getSize send_memory id) d (fun n d' => n = Z.of_nat (length r) /\ d' = d).
Proof using Hr.
  eexists _, d. split; [|done]. unfold getSize, MemoryMirror.createTemplateRequestMessage. rewrite (stands_id _ _ _ _ Hr).
  unfold send_memory, drive_memory. answer. by rewrite (proj1 Hr).
Qed.

Lemma ends_fill z : ends (fillMemory (prepareHidlMemoryArgument id) z) d (fun _ d' =>
  objects d' = objects d /\ forall id', stands d id' i r -> stands d' id' i (replicate (length r) (Zbyte z))).
Proof using Hr.
  eexists tt, _. cbn. rewrite (proj1 Hr). split; [done|]. cbn [objects]. split; [done|]. intros id' [Hi Hid]. split; [|done]. by eapply region_set.
Qed.

Lemma ends_have : room 1 d -> ends (haveSomeMemory (prepareHidlMemoryArgument id)) d (fun c d' =>
  exists c', c = Some c' /\ c' <> (-1)%Z /\ c' <> id /\ length (objects d') = length (objects d) + 1 /\ stands d' c' i r /\ stands d' id i r).
Proof using Hr.
  intros Hroom. eexists _, _. cbn. rewrite (proj1 Hr). split; [done|]. exists (Z.of_nat (length (objects d))).
  destruct Hr as [Hreg Hid]. unfold room in Hroom. split_and!; [done|lia| |cbn [objects]; by rewrite length_app| |split; [by apply region_more|done]].
  - intros <-. unfold region in Hreg. rewrite decide_False in Hreg by lia. apply bind_Some in Hreg as (j & Hj & _).
    apply lookup_lt_Some in Hj. lia.
  - split; [by eapply region_new|lia].
Qed.
End device.

(** ** Bytes that are written are read *)
Lemma length_splice start data r : start + length data <= length r -> length (splice start data r) = length r.
Proof. intros. unfold splice. rewrite !length_app, length_take, length_drop. lia. Qed.
Lemma read_splice start data r : start + length data <= length r -> take (length data) (drop start (splice start data r)) = data.
Proof.
  intros. unfold splice. rewrite drop_app_length' by (rewrite length_take; lia). apply take_app_length.
Qed.

Lemma bytearray_str_spec l : Forall (fun z => 0 <= z < 256)%Z l -> exists s, bytearray_str l = Ret s /\ length s = length l /\ ords s = l.
Proof.
  induction 1 as [|z l Hz _ (s & E & Hl & Ho)]; [by exists []|]. cbn [bytearray_str].
  rewrite (proj2 (Z.leb_le 0 z)), (proj2 (Z.ltb_lt z 256)) by lia. cbn [andb]. rewrite E. eexists. split; [done|].
  cbn [length ords fmap list_fmap]. rewrite Hl. split; [done|]. f_equal; [|exact Ho]. rewrite byteZ_Zbyte. apply Z.mod_small. lia.
Qed.

(** ** Each test on the device *)
(** The object of the class, and room for [k] more. *)
Definition kept (k : nat) (d : memory) (id : Z) : Prop :=
  exists i r, stands d id i r /\ Z.of_nat (length r) = MEM_SIZE /\ room k d.

Lemma room_objects k d d' : objects d' = objects d -> room k d -> room k d'.
Proof. unfold room. by intros ->. Qed.
Lemma room_less k d : room (S k) d -> room k d.
Proof. unfold room. lia. Qed.

Lemma ends_equal_keep {A} `{EqDecision A} (a b : A) d : a = b -> ends (equal_ a b) d (fun _ d' => d' = d).
Proof. intros. by apply ends_equal. Qed.
Lemma ends_do_keep m d : ends m d (fun _ d' => d' = d) -> ends (do m) d (fun _ d' => d' = d).
Proof. intros (a & d' & Hm & ->). apply ends_do. by exists a, d. Qed.
Lemma ends_start {A B} (a : A) (f : A -> xstM memory B) d Q : ends (f a) d Q -> ends (mret a ≫= f) d Q.
Proof. done. Qed.
Ltac start_test := unfold mem_obj; apply ends_start.

Section each.
Context (random : nat -> nat -> Z) (id : Z).

Definition passes (t : option Z -> xstM memory unit) : Prop :=
  forall k d, kept (S k) d id -> ends (t (Some id)) d (fun _ d' => kept k d' id).

Lemma size_small r : Z.of_nat (length r) = MEM_SIZE -> (Z.of_nat (length (r : pystr)) < 2 ^ 20)%Z.
Proof. intros ->. done. Qed.
#[local] Hint Resolve size_small : core.

Lemma fits_size start n r : Z.of_nat (length r) = MEM_SIZE -> (0 <= start)%Z -> (0 <= n)%Z -> (start + n <= MEM_SIZE)%Z -> fits start n r = true.
Proof. intros Hl ???. unfold fits. rewrite Hl. by rewrite !(proj2 (Z.leb_le _ _)) by lia. Qed.

Lemma size_splice start data r : Z.of_nat (length r) = MEM_SIZE -> (0 <= start)%Z -> (start + Z.of_nat (length data) <= MEM_SIZE)%Z ->
  Z.of_nat (length (splice (Z.to_nat start) data r)) = MEM_SIZE /\
  take (Z.to_nat (Z.of_nat (length data))) (drop (Z.to_nat start) (splice (Z.to_nat start) data r)) = data.
Proof. intros. rewrite Nat2Z.id, read_splice by lia. rewrite length_splice by lia. done. Qed.

(** A write in place: the region keeps its size and holds the bytes. *)
Definition written (d : memory) (i : nat) (r : pystr) (start n : Z) (data : pystr) (d' : memory) : Prop :=
  objects d' = objects d /\ exists r', Z.of_nat (length r') = MEM_SIZE /\ (forall id', stands d id' i r -> stands d' id' i r') /\
    take (Z.to_nat n) (drop (Z.to_nat start) r') = data.
Lemma ends_write d i r data n start :
  stands d id i r -> Z.of_nat (length r) = MEM_SIZE -> n = Z.of_nat (length data) -> (0 <= start)%Z -> (start + n <= MEM_SIZE)%Z ->
  ends (do (updateBytes send_memory id data n start)) d (fun _ => written d i r start n data).
Proof.
  intros Hr Hl -> Hs Hn. apply ends_do.
  destruct (ends_updateBytes d id i r Hr (size_small r Hl) data _ start eq_refl ltac:(apply fits_size; lia)) as (b & d' & Hrun & Ho & Hst).
  exists b, d'. split; [done|]. pose proof (size_splice start data r Hl Hs Hn) as [? ?]. split; [done|]. by eexists.
Qed.
(** Statements that change nothing, and those that change the region. *)
Ltac same := eapply ends_bind; [try apply ends_do_keep; (eapply ends_whole || eapply ends_range || eapply ends_getSize); eauto; by apply fits_size|];
  cbv beta; first [intros _ ? -> | intros ? ? [-> ->]].
Ltac write_bytes := eapply ends_bind; [eapply ends_write; eauto; done|]; cbv beta; intros _ ? (? & ? & ? & ? & ?).
Ltac read_bytes := eapply ends_bind; [eapply ends_readBytes; eauto; by apply fits_size|]; cbv beta; intros ? ? [-> ->].

Lemma getSize_passes : passes (testGetSize send_memory).
Proof.
  intros k d (i & r & Hr & Hl & Hk). unfold testGetSize. start_test. same. apply ends_equal; [done|].
  exists i, r. split_and!; [done..|by apply room_less].
Qed.

Lemma simple_passes : passes (testSimpleWriteRead send_memory).
Proof.
  intros k d (i & r & Hr & Hl & Hk). unfold testSimpleWriteRead. start_test. unfold update, commit, MemoryMirror.read. same.
  write_bytes. same. same. read_bytes.
  apply ends_equal; [congruence|]. eexists i, _. split_and!; [eauto|done|]. by eapply room_objects, room_less.
Qed.

(** What was there before does not matter. *)
Lemma iteration_passes i k d : i < 5 -> kept k d id -> ends (write_read_at send_memory random i id) d (fun _ d' => kept k d' id).
Proof.
  intros Hi (j & r & Hr & Hl & Hk). unfold write_read_at.
  set (l := (fun j => randint_0_100 (random i j)) <$> seq 0 10).
  assert (Forall (fun z => 0 <= z < 256)%Z l) as Hb.
  { apply Forall_fmap, Forall_true. intros x. cbn. unfold randint_0_100. pose proof (Z.mod_pos_bound (random i x) 101). lia. }
  destruct (bytearray_str_spec l Hb) as (s & Es & Hs & Ho). change (length l) with 10 in Hs. cbv zeta. rewrite Es. apply ends_start.
  unfold updateRange, commit, readRange. rewrite Hs. change (Z.of_nat 10) with 10%Z.
  assert (0 <= Z.of_nat i * 5)%Z by lia. assert (Z.of_nat i * 5 + 10 <= MEM_SIZE)%Z by (change MEM_SIZE with 1024%Z; lia).
  eapply ends_bind; [apply ends_do_keep; eapply (ends_range _ _ _ r); eauto; by apply fits_size|]. cbv beta. intros _ ? ->.
  eapply ends_bind; [eapply ends_write; eauto; by rewrite Hs|]. cbv beta. intros _ d' (? & r' & ? & Hst & Hrd).
  same. eapply ends_bind; [apply ends_do_keep; eapply (ends_range _ _ _ r'); eauto; by apply fits_size|]. cbv beta. intros _ ? ->.
  eapply ends_bind; [eapply ends_readBytes; eauto; by apply fits_size|]. cbv beta. intros ? ? [-> ->].
  rewrite Hrd. apply ends_start. apply ends_equal; [done|]. eexists j, r'. split_and!; [eauto|done|]. by eapply room_objects.
Qed.

Lemma large_passes : passes (testLargeWriteRead send_memory random).
Proof.
  intros k d Hd. unfold testLargeWriteRead. start_test.
  assert (kept k d id) as H by (destruct Hd as (i & r & ? & ? & ?); exists i, r; split_and!; [done..|by apply room_less]).
  clear Hd. revert d H. assert (Forall (fun i => i < 5) (seq 0 5)) as Hl by (repeat constructor; lia). revert Hl.
  generalize (seq 0 5). induction l as [|i l IH]; intros Hl d Hd; cbn [iterations]; [by apply ends_ret|].
  apply Forall_cons in Hl as [Hi Hl]. eapply ends_bind; [by apply (iteration_passes i k)|]. cbv beta. intros _ d' Hd'. by apply IH.
Qed.

Lemma two_regions_passes : passes (testWriteTwoRegionsInOneBuffer send_memory).
Proof.
  intros k d (i & r & Hr & Hl & Hk). unfold testWriteTwoRegionsInOneBuffer. start_test. unfold updateRange, commit, MemoryMirror.read. cbv zeta.
  same. same. write_bytes. same. same. read_bytes. same.
  eapply ends_bind; [apply ends_equal_keep; congruence|]. cbv beta. intros _ ? ->.
  write_bytes. same. same. read_bytes. same. apply ends_equal; [congruence|].
  eexists i, _. split_and!; [eauto|done|]. eapply room_objects; [|by apply room_less]. congruence.
Qed.

Lemma ends_read_all x d i r : stands d x i r -> Z.of_nat (length r) = MEM_SIZE -> ends (read_all send_memory x) d (fun s d' => s = Some r /\ d' = d).
Proof.
  intros Hr Hl. unfold read_all, MemoryMirror.read, commit. same. read_bytes. same. apply ends_ret. split; [|done].
  rewrite take_ge; [done|]. rewrite length_drop. lia.
Qed.

Lemma ords_replicate n z : (0 <= z < 256)%Z -> ords (replicate n (Zbyte z)) = replicate n z.
Proof. intros Hz. unfold ords. rewrite fmap_replicate, byteZ_Zbyte, Z.mod_small by done. done. Qed.

Lemma shared_passes : passes (testSharedMemory send_memory).
Proof.
  intros k d (i & r & Hr & Hl & Hk). unfold testSharedMemory. start_test. unfold update, commit. cbv zeta.
  same. eapply ends_bind; [eapply ends_write; eauto; done|]. cbv beta. intros _ d' (? & r' & Hl' & Hst & _). same.
  eapply ends_bind; [by apply (ends_fill d' id i r'), Hst|]. cbv beta. intros _ d2 (? & Hst2).
  eapply ends_bind; [apply (ends_read_all id d2 i (replicate (length r') (Zbyte 42))); [by apply Hst2, Hst|by rewrite length_replicate]|].
  cbv beta. intros ? ? [-> ->]. apply ends_start.
  apply ends_equal; [rewrite ords_replicate by done; f_equal; lia|].
  exists i, (replicate (length r') (Zbyte 42)). rewrite length_replicate. split_and!; [by apply Hst2, Hst|done|].
  eapply room_objects; [|by apply room_less]. congruence.
Qed.

Lemma same_memory_passes : passes (testSameMemoryDifferentId send_memory).
Proof.
  intros k d (i & r & Hr & Hl & Hk). unfold testSameMemoryDifferentId. start_test. cbv zeta.
  eapply ends_bind; [apply (ends_have d id i r Hr); unfold room in *; lia|]. cbv beta.
  intros ? d1 (c & -> & Hc1 & Hc2 & Ho & Hc & Hid). apply ends_start. apply ends_start.
  assert (forall a b : Z, a <> b -> assertNotEqual a b PNone PNone = Ret tt) as Hne by (intros; unfold assertNotEqual; by rewrite (proj2 (Z.eqb_neq a b))).
  rewrite !Hne by done. do 2 apply ends_start.
  eapply ends_bind; [by apply (ends_fill d1 id i r)|]. cbv beta. intros _ d2 (Ho2 & Hst).
  assert (Z.of_nat (length (replicate (length r) (Zbyte 50))) = MEM_SIZE) as Hl2 by by rewrite length_replicate.
  eapply ends_bind; [apply (ends_read_all id d2 i _ (Hst id Hid) Hl2)|]. cbv beta. intros ? ? [-> ->].
  eapply ends_bind; [apply (ends_read_all c d2 i _ (Hst c Hc) Hl2)|]. cbv beta. intros ? ? [-> ->].
  do 2 apply ends_start. assert (ords (replicate (length r) (Zbyte 50)) = replicate (Z.to_nat MEM_SIZE) 50%Z) as Hords.
  { rewrite ords_replicate by done. f_equal. lia. }
  eapply ends_bind; [by apply ends_equal_keep|]. cbv beta. intros _ ? ->. apply ends_equal; [done|].
  exists i, (replicate (length r) (Zbyte 50)). split_and!; [by apply Hst|done|]. unfold room in *. rewrite Ho2. lia.
Qed.

Lemma all_pass : Forall passes (memory_tests send_memory random).
Proof.
  repeat (constructor; [first [apply getSize_passes|apply large_passes|apply same_memory_passes|apply shared_passes|apply simple_passes|apply two_regions_passes]|]).
  constructor.
Qed.
End each.

(** A region of the wanted size is made on a device with room. *)
Lemma ends_init_memory k d : room (S k) d -> exists id, ends (init_memory send_memory MEM_SIZE) d (fun o d' => o = Some id /\ kept k d' id).
Proof.
  intros Hk. exists (Z.of_nat (length (objects d))). unfold ends, init_memory, allocate, MemoryMirror.createTemplateRequestMessage.
  change (uint64 MEM_SIZE) with (Ret MEM_SIZE). change (int32 (-1)) with (Ret (-1)%Z). unfold send_memory, drive_memory, mbind, xstM_bind, xlift, mret, xstM_ret.
  cbn -[Z.eqb Z.of_nat]. rewrite decide_True by done.
  assert ((Z.of_nat (length (objects d)) =? -1)%Z = false) as E by (apply Z.eqb_neq; lia). cbn -[Z.eqb Z.of_nat]. rewrite E. cbn -[Z.eqb Z.of_nat]. rewrite E.
  eexists _, _. split; [reflexivity|]. split; [done|].
  exists (length (regions d)), (replicate (Z.to_nat MEM_SIZE) Byte.x00). unfold room in *. split_and!.
  - split; [|lia]. unfold region. rewrite decide_False by lia. cbn [regions objects]. rewrite Nat2Z.id, list_lookup_middle by done.
    cbn. by rewrite list_lookup_middle.
  - by rewrite length_replicate.
  - cbn [objects]. rewrite length_app. cbn. lia.
Qed.

(** ** The class *)
Section class.
Context {S : Type} (send : HidlMemoryRequestMessage -> xstM S (option HidlMemoryResponseMessage)) `{MemoryService S}
  (R : S -> memory -> Prop) `{!MemoryDevice send R} (random : nat -> nat -> Z).

Definition passes_here (id : Z) (t : option Z -> xstM S unit) : Prop :=
  forall k s d, R s d -> kept (Datatypes.S k) d id -> exists s' d', t (Some id) s = (Ret tt, s') /\ R s' d' /\ kept k d' id.

Lemma each_passes id : Forall (passes_here id) (memory_tests send random).
Proof using MemoryDevice0.
  pose proof (sim_memory_tests send R random (Some id)) as Hsim. pose proof (all_pass random id) as Hall. revert Hall.
  induction Hsim as [|t t' l l' Ht _ IH]; intros Hall; [constructor|]. apply Forall_cons in Hall as [Hp Hall]. constructor; [|by apply IH].
  intros k s d HR Hd. destruct (Hp k d Hd) as ([] & d' & Hrun & Hk). destruct (sim_run R _ _ s d tt d' Ht HR Hrun) as (s' & Hs & HR'). by exists s', d'.
Qed.

Lemma run_tests_pass id l : Forall (passes_here id) l -> forall s d, R s d -> kept (length l) d id ->
  exists s' d', run_tests l (Some id) s = (Ret tt, s') /\ R s' d'.
Proof.
  induction 1 as [|t l Ht _ IH]; intros s d HR Hd; cbn [run_tests length] in *; [by exists s, d|].
  destruct (Ht _ s d HR Hd) as (s1 & d1 & E1 & HR1 & Hd1). destruct (IH s1 d1 HR1 Hd1) as (s2 & d2 & E2 & HR2).
  exists s2, d2. by rewrite (xstM_bind_run _ _ _ _ _ E1).
Qed.
End class.

(** On any device that keeps memory as described, over any connection and for any
    random numbers, a region is made, and all tests of the class pass with it in any
    order: what is written through the mirror of a region is what is read, at every
    offset, by every object for the region and by the service. *)
Theorem memory_class_passes {S} (send : HidlMemoryRequestMessage -> xstM S (option HidlMemoryResponseMessage)) `{MemoryService S}
    (R : S -> memory -> Prop) `{!MemoryDevice send R} random l s d :
  R s d -> (Z.of_nat (length (objects d)) < 2 ^ 30)%Z -> l ≡ₚ memory_tests send random ->
  exists s1 o s2 d2, init_memory send MEM_SIZE s = (Ret o, s1) /\ run_tests l o s1 = (Ret tt, s2) /\ R s2 d2.
Proof.
  intros HR Hd Hl. assert (room 7 d) as Hroom by (unfold room; lia).
  destruct (ends_init_memory 6 d Hroom) as (id & o & d1 & Hinit & -> & Hk).
  destruct (sim_run R _ _ s d _ d1 (sim_init_memory send R MEM_SIZE) HR Hinit) as (s1 & Hs1 & HR1).
  assert (length l = 6) as Hn by by rewrite Hl.
  destruct (run_tests_pass R id l) with (s := s1) (d := d1) as (s2 & d2 & Hs2 & HR2); [|done|by rewrite Hn|].
  - rewrite Hl. apply each_passes. exact MemoryDevice0.
  - by exists s1, (Some id), s2, d2.
Qed.

Example memory_class_passes_witness : exists s1 o s2,
  init_memory send_memory MEM_SIZE no_memory = (Ret o, s1) /\ run_tests (reverse (memory_tests send_memory (fun i j => Z.of_nat (i * 37 + j)))) o s1 = (Ret tt, s2).
Proof.
  destruct (memory_class_passes send_memory (=) (fun i j => Z.of_nat (i * 37 + j)) (reverse (memory_tests send_memory (fun i j => Z.of_nat (i * 37 + j)))) no_memory no_memory)
    as (s1 & o & s2 & d2 & H1 & H2 & _); [reflexivity|reflexivity|apply reverse_Permutation|]. exists s1, o, s2. split; assumption.
Defined.

(** Without an object every test fails, and the service is looked for three times. *)
Lemma no_object {S} (send : HidlMemoryRequestMessage -> xstM S (option HidlMemoryResponseMessage)) s : testGetSize send None s = (Exc attribute_error, s).
Proof. reflexivity. Qed.
Lemma memory_service_missing {S} send (execute : pystr -> xstM S pystr) sleep setUp_ init s s1 :
  execute MEM_COMMAND_32 s = (Ret [], s1) -> (forall s, execute MEM_CHECK_COMMAND s = (Ret [], s)) -> (forall s, sleep s = (Ret tt, s)) ->
  memory_setUpClass send execute sleep setUp_ init (bs "32") s = (Ret (Some false, None), s1).
Proof.
  intros H1 H2 H3. unfold memory_setUpClass. erewrite xstM_bind_run by reflexivity. erewrite xstM_bind_run by exact H1.
  by erewrite xstM_bind_run by by apply wait_in_vain.
Qed.
