(* ===== verification/HandleTests.v ===== *)
(** * The tests of handles ([src/testcases/codelab/hidl_handle_test/VtsCodelabHidlHandleTest.py])

    A writer and a reader of one file on the device, each a handle that the tracker
    (MirrorTracker) opens before a test and closes after it.  [drive_handle] is a device
    with files and open handles; the theorem at the end runs the tests against any
    device that behaves so, and finds every handle closed.  Setting the class up
    changes the permissions of the device; what that does is at the end of the file. *)

From Stdlib Require Import Strings.Byte.
From S2P Require Import Prelude PyStr ListUtils PyVal Signals Shell Channel Mirror TcpClient ResourceMirror FmqMirror HandleMirror MirrorTracker CallbackServer.
From S2P Require Import MsgqDriver MsgqTests MemoryTests.

Definition TEST_DIR_PATH : pystr := bs "/data/local/tmp/vts_codelab_tmp/".
Definition TEST_FILE_PATH : pystr := TEST_DIR_PATH ++ bs "test.txt".
Definition DUMPSTATE_SERVICE_NAME : pystr := bs "android.hardware.dumpstate@1.0::IDumpstateDevice/default".
Definition START_COMMAND : pystr := bs "setprop ctl.interface_start " ++ DUMPSTATE_SERVICE_NAME.
Definition DUMPSTATE_CHECK_COMMAND : pystr := bs "lshal --types=b | grep " ++ [Byte.x22] ++ DUMPSTATE_SERVICE_NAME ++ [Byte.x22].

Definition handle_argument (handle_id : Z) : vsm :=
  mk_vsm [] (TYPE_OTHER 14) [] [] [] ([], 0%Z) [] 0 [] [] [] [] [] (mk_other false [] 0 None (-1) handle_id).

Section tests.
Context {C S : Type} (client : C) (connect : bool -> xstM S C) (Disconnect : C -> xstM S unit).
Context (SendHidlHandleRequest : C -> HidlHandleRequestMessage -> xstM S (option HidlHandleResponseMessage)).
Context (stop_server : xstM S unit) (Exists : pystr -> xstM S bool) (dumpstateBoard : vsm -> xstM S unit).
Abbreviation M := (xstM (tracker C * S)).

(** ** Each test: two handles, which are closed afterwards *)
Definition init_handle (path mode : pystr) : M (option (mirror C)) :=
  InitHidlHandleForSingleFile connect SendHidlHandleRequest path mode [] (Some client) None.
(** [h.handleId], and the calls of a handle. *)
Definition handle_of (m : option (mirror C)) : M Z :=
  match m with Some (MHandle _ id) => mret id | _ => xlift (Exc attribute_error) end.
Definition not_none (m : option (mirror C)) (msg : pystr) : M unit :=
  xlift (assertTrue (bool_decide (is_Some m)) (PStr msg) PNone).
(** The writer and the reader. *)
Definition handle_setUp : M (Z * Z) :=
  writer ← init_handle TEST_FILE_PATH (bs "w+");
  reader ← init_handle TEST_FILE_PATH (bs "r");
  _ ← not_none writer (bs "Writer should be initialized successfully.");
  _ ← not_none reader (bs "Reader should be initialized successfully.");
  w ← handle_of writer;
  _ ← xlift (assertNotEqual w (-1) PNone PNone);
  r ← handle_of reader;
  _ ← xlift (assertNotEqual r (-1) PNone PNone);
  mret (w, r).
Definition handle_tearDown : M unit := MirrorTracker.CleanUp Disconnect SendHidlHandleRequest stop_server.

Definition send : HidlHandleRequestMessage -> xstM S (option HidlHandleResponseMessage) := SendHidlHandleRequest client.
Definition handle_write (id : Z) (data : pystr) : M (option Z) := world (writeFile send id data).
Definition handle_read (id n : Z) : M (option pystr) := world (readFile send id n).
Definition equals {A} `{EqDecision A} (a b : A) : M unit := xlift (if decide (a = b) then Ret tt else fail (PStr differ) PNone).

Definition testInvalidWrite (h : Z * Z) : M unit :=
  read_data ← handle_write h.2 (bs "abc");
  xlift (assertTrue (bool_decide (read_data = None)) (PStr (bs "Reader should fail.")) PNone).

Definition missing_file : pystr := TEST_DIR_PATH ++ bs "abc.txt".
Definition testOpenNonexistingFile (h : Z * Z) : M unit :=
  e ← world (Exists missing_file);
  if (e : bool) then mret tt
  else
    failed_reader ← init_handle missing_file (bs "r");
    xlift (assertTrue (bool_decide (failed_reader = None)) (PStr (bs "Open a non-existing file with 'r' flag should fail.")) PNone).

(** A write of the writer, which the reader then reads. *)
Definition write_then_read (h : Z * Z) (write_data : pystr) : M unit :=
  let n := Z.of_nat (length write_data) in
  k ← handle_write h.1 write_data;
  _ ← equals (Some n) k;
  read_data ← handle_read h.2 n;
  equals (Some write_data) read_data.
Definition testSimpleReadWrite (h : Z * Z) : M unit := write_then_read h (bs "Hello World!").
Fixpoint repeat_write (n : nat) (h : Z * Z) (write_data : pystr) : M unit :=
  match n with 0 => mret tt | Datatypes.S n => _ ← write_then_read h write_data; repeat_write n h write_data end.
Definition testLargeReadWrite (h : Z * Z) : M unit := repeat_write 10 h (bs "Android VTS").

Definition testHidlHandleArgument (h : Z * Z) : M unit :=
  _ ← world (dumpstateBoard (handle_argument h.1));
  debug_msg ← handle_read h.2 1000;
  xlift (if decide (debug_msg = Some []) then fail (PStr (bs " == ")) PNone else Ret tt).

Definition handle_tests : list (Z * Z -> M unit) :=
  [testHidlHandleArgument; testInvalidWrite; testLargeReadWrite; testOpenNonexistingFile; testSimpleReadWrite].

(** A test with its set up and its tear down, which runs in any case. *)
Definition run_handle_test (t : Z * Z -> M unit) : M unit := xfinally (h ← handle_setUp; t h) handle_tearDown.
Fixpoint run_handle_tests (l : list (Z * Z -> M unit)) : M unit :=
  match l with [] => mret tt | t :: l => _ ← run_handle_test t; run_handle_tests l end.
End tests.

(** ** The device *)
Record handle := mk_open { h_path : pystr; h_writable : bool; h_pos : nat }.
Record device_files := mk_device_files { d_files : gmap pystr pystr; d_open : gmap Z handle; d_next : Z }.

Definition handle_failed : HidlHandleResponseMessage := mk_handle_response false (-1) [] 0.
Definition opened (path : pystr) (w : bool) (files : gmap pystr pystr) (d : device_files) : device_files :=
  mk_device_files files (<[d_next d := mk_open path w 0]> (d_open d)) (d_next d + 1).
Definition created (d : device_files) : HidlHandleResponseMessage := mk_handle_response true (d_next d) [] 0.
Definition open_file (path mode : pystr) (d : device_files) : HidlHandleResponseMessage * device_files :=
  if decide (mode = bs "w+") then (created d, opened path true (<[path := []]> (d_files d)) d)
  else if decide (mode = bs "r") then match d_files d !! path with Some _ => (created d, opened path false (d_files d) d) | None => (handle_failed, d) end
  else (handle_failed, d).
(** Bytes replace those at the position; a gap before it is zeros. *)
Definition write_at (pos : nat) (data old : pystr) : pystr := take pos (old ++ replicate (pos - length old) Byte.x00) ++ data ++ drop (pos + length data) old.
Definition content (h : handle) (d : device_files) : pystr := default [] (d_files d !! h_path h).
Definition seek_to (id : Z) (h : handle) (pos : nat) (d : device_files) : device_files :=
  mk_device_files (d_files d) (<[id := mk_open (h_path h) (h_writable h) pos]> (d_open d)) (d_next d).
Definition write_handle (id : Z) (h : handle) (data : pystr) (d : device_files) : device_files :=
  seek_to id h (h_pos h + length data) (mk_device_files (<[h_path h := write_at (h_pos h) data (content h d)]> (d_files d)) (d_open d) (d_next d)).

Definition drive_handle (m : HidlHandleRequestMessage) (d : device_files) : HidlHandleResponseMessage * device_files :=
  let id := handle_id m in
  if decide (handle_operation m = HANDLE_PROTO_CREATE_FILE) then
    match fd_val <$> handle_info m with Some [(mode, path)] => open_file path mode d | _ => (handle_failed, d) end
  else match d_open d !! id with
  | None => (handle_failed, d)
  | Some h =>
      if decide (handle_operation m = HANDLE_PROTO_READ_FILE) then
        let data := take (Z.to_nat (default 0%Z (handle_read_data_size m))) (drop (h_pos h) (content h d)) in
        (mk_handle_response true (-1) data 0, seek_to id h (h_pos h + length data) d)
      else if decide (handle_operation m = HANDLE_PROTO_WRITE_FILE) then
        if h_writable h then
          let data := default [] (handle_write_data m) in
          (mk_handle_response true (-1) [] (Z.of_nat (length data)), write_handle id h data d)
        else (handle_failed, d)
      else if decide (handle_operation m = HANDLE_PROTO_DELETE) then
        (mk_handle_response true (-1) [] 0, mk_device_files (d_files d) (delete id (d_open d)) (d_next d))
      else (handle_failed, d)
  end.

(** A world whose requests reach such a device.  The service writes some text through
    the handle of its argument. *)
Class HandleDevice {S : Type} (send : HidlHandleRequestMessage -> xstM S (option HidlHandleResponseMessage))
    (Exists : pystr -> xstM S bool) (dumpstateBoard : vsm -> xstM S unit) (R : S -> device_files -> Prop) : Prop := {
  handle_sends :: Sends send drive_handle R;
  exists_looks p s d : R s d -> exists s', Exists p s = (Ret (bool_decide (is_Some (d_files d !! p))), s') /\ R s' d;
  dumpstate_writes id h s d : R s d -> d_open d !! id = Some h -> h_writable h = true ->
    exists s' text, dumpstateBoard (handle_argument id) s = (Ret tt, s') /\ text <> [] /\ R s' (write_handle id h text d);
}.

(** ** Outcomes *)
Section outcomes.
Context {C S : Type} (client : C) (connect : bool -> xstM S C) (Disconnect : C -> xstM S unit).
Context (SendHidlHandleRequest : C -> HidlHandleRequestMessage -> xstM S (option HidlHandleResponseMessage)).
Context (stop_server : xstM S unit) (Exists : pystr -> xstM S bool) (dumpstateBoard : vsm -> xstM S unit).
Context (R : S -> device_files -> Prop) `{!HandleDevice (SendHidlHandleRequest client) Exists dumpstateBoard R}.
Abbreviation M := (xstM (tracker C * S)).
Abbreviation request := (send client SendHidlHandleRequest).

(** From a tracker and a device, [m] returns and leaves a result with [Q]. *)
Definition leads {A} (m : M A) (t : tracker C) (d : device_files) (Q : A -> tracker C -> device_files -> Prop) : Prop :=
  forall s, R s d -> exists a t' s' d', m (t, s) = (Ret a, (t', s')) /\ R s' d' /\ Q a t' d'.

Lemma leads_bind {A B} (m : M A) (f : A -> M B) t d Q' Q :
  leads m t d Q' -> (forall a t' d', Q' a t' d' -> leads (f a) t' d' Q) -> leads (m ≫= f) t d Q.
Proof.
  intros Hm Hf s HR. destruct (Hm s HR) as (a & t1 & s1 & d1 & E & HR1 & HQ). destruct (Hf a t1 d1 HQ s1 HR1) as (b & t2 & s2 & d2 & E2 & HR2 & HQ2).
  exists b, t2, s2, d2. by rewrite (xstM_bind_run _ _ _ _ _ E).
Qed.
Lemma leads_ret {A} (a : A) t d Q : Q a t d -> leads (mret a) t d Q.
Proof. intros HQ s HR. by exists a, t, s, d. Qed.
(** Statements that only compute. *)
Lemma leads_step {A B} (a : A) (f : A -> M B) t d Q : leads (f a) t d Q -> leads (mret a ≫= f) t d Q.
Proof. done. Qed.
Lemma leads_end {A} (m : M A) t d Q' (Q : A -> tracker C -> device_files -> Prop) :
  leads m t d Q' -> (forall a t' d', Q' a t' d' -> Q a t' d') -> leads m t d Q.
Proof. intros Hm HQ s HR. destruct (Hm s HR) as (a & t' & s' & d' & ? & ? & ?). exists a, t', s', d'. auto. Qed.

Lemma leads_request {A} (m : xstM S A) t d (a : A) d' :
  (forall s, R s d -> exists s', m s = (Ret a, s') /\ R s' d') -> leads (world m) t d (fun b t' d2 => b = a /\ t' = t /\ d2 = d').
Proof.
  intros Hm s HR. destruct (Hm s HR) as (s' & E & HR'). exists a, t, s', d'. split; [|done]. unfold world. cbn [fst snd]. by rewrite E.
Qed.

Lemma request_run m s d : R s d -> exists s', request m s = (Ret (Some (drive_handle m d).1), s') /\ R s' (drive_handle m d).2.
Proof using HandleDevice0. intros HR. by apply (sends (send := SendHidlHandleRequest client) (drive := drive_handle)). Qed.

Definition id_ok (id : Z) : Prop := (0 <= id < 2 ^ 31)%Z.
Lemma template_ok id o : id_ok id -> HandleMirror.createTemplateRequestMessage id o = Ret (mk_handle_request o id None None None).
Proof. intros [? ?]. unfold HandleMirror.createTemplateRequestMessage, int32. by rewrite in_range_Ret by lia. Qed.
(** What the device answers to a request of an open handle. *)
Ltac answered m Ho :=
  apply leads_request; intros s HR; destruct (request_run m s _ HR) as (s' & E & HR');
  unfold drive_handle in E, HR'; cbn -[write_handle seek_to open_file] in E, HR'; try rewrite Ho in E, HR'; exists s'.
Ltac called E := unfold writeFile, readFile, HandleMirror.CleanUp, mbind, xstM_bind, xlift; rewrite ?template_ok by done; cbn [handle_operation handle_id]; by rewrite E.

Lemma leads_write id h data t d : id_ok id -> d_open d !! id = Some h -> h_writable h = true ->
  leads (handle_write client SendHidlHandleRequest id data) t d (fun k t' d' => k = Some (Z.of_nat (length data)) /\ t' = t /\ d' = write_handle id h data d).
Proof using HandleDevice0.
  intros Hid Ho Hw. answered (mk_handle_request HANDLE_PROTO_WRITE_FILE id None None (Some data)) Ho.
  rewrite Hw in E, HR'. split; [called E|done].
Qed.

Lemma leads_refused id h data t d : id_ok id -> d_open d !! id = Some h -> h_writable h = false ->
  leads (handle_write client SendHidlHandleRequest id data) t d (fun k t' d' => k = None /\ t' = t /\ d' = d).
Proof using HandleDevice0.
  intros Hid Ho Hw. answered (mk_handle_request HANDLE_PROTO_WRITE_FILE id None None (Some data)) Ho.
  rewrite Hw in E, HR'. split; [called E|done].
Qed.

Definition next_bytes (n : Z) (h : handle) (d : device_files) : pystr := take (Z.to_nat n) (drop (h_pos h) (content h d)).
Lemma leads_read id h n t d : id_ok id -> d_open d !! id = Some h -> (0 <= n < 2 ^ 31)%Z ->
  leads (handle_read client SendHidlHandleRequest id n) t d (fun s t' d' =>
    s = Some (next_bytes n h d) /\ t' = t /\ d' = seek_to id h (h_pos h + length (next_bytes n h d)) d).
Proof using HandleDevice0.
  intros Hid Ho Hn. answered (mk_handle_request HANDLE_PROTO_READ_FILE id None (Some n) None) Ho.
  split; [|done]. assert (uint64 n = Ret n) as Hu by (apply in_range_Ret; lia).
  unfold readFile, mbind, xstM_bind, xlift. rewrite template_ok, Hu by done. cbn [handle_operation handle_id]. by rewrite E.
Qed.

Lemma leads_delete id h t d : id_ok id -> d_open d !! id = Some h ->
  leads (world (HandleMirror.CleanUp (SendHidlHandleRequest client) id)) t d (fun _ t' d' =>
    t' = t /\ d' = mk_device_files (d_files d) (delete id (d_open d)) (d_next d)).
Proof using HandleDevice0.
  intros Hid Ho. eapply leads_end.
  - answered (mk_handle_request HANDLE_PROTO_DELETE id None None None) Ho. split; [|exact HR'].
    unfold request in E. called E.
  - by intros a t' d' (_ & -> & ->).
Qed.

(** ** Opening *)
Definition handle_name (id : Z) : pystr := bs "handle_id_" ++ str_int id.
Definition registered (id : Z) (t : tracker C) : tracker C :=
  mk_tracker (<[handle_name id := MHandle client id]> (registered_mirrors t)) (callback_server t) (shell_default_nohup t).

Lemma leads_open path mode t d : id_ok (d_next d) ->
  leads (init_handle client connect SendHidlHandleRequest path mode) t d (fun m t' d' =>
    d' = (open_file path mode d).2 /\
    if handle_success (open_file path mode d).1 then m = Some (MHandle client (d_next d)) /\ t' = registered (d_next d) t
    else m = None /\ t' = t).
Proof using HandleDevice0.
  intros Hid s HR.
  destruct (request_run (mk_handle_request HANDLE_PROTO_CREATE_FILE (-1) (Some (mk_handle_info 1 (Z.of_nat 0) [(mode, path)] [])) None None) s d HR) as (s' & E & HR').
  change (drive_handle _ d) with (open_file path mode d) in E, HR'.
  unfold init_handle, InitHidlHandleForSingleFile, get_mirrors, client_or_new, world, createHandleForSingleFile, mbind, xstM_bind, xlift, mret, xstM_ret.
  cbn -[open_file request Z.of_nat]. change (HandleMirror.createTemplateRequestMessage (-1) HANDLE_PROTO_CREATE_FILE) with (Ret (mk_handle_request HANDLE_PROTO_CREATE_FILE (-1) None None None)).
  cbn -[open_file request Z.of_nat]. unfold send in E. rewrite E.
  assert (negb (d_next d =? -1)%Z = true) as Hn by (apply negb_true_iff, Z.eqb_neq; destruct Hid; lia).
  assert ((d_next d =? -1)%Z = false) as Hn' by (apply Z.eqb_neq; destruct Hid; lia).
  unfold open_file in *. destruct (decide (mode = _)); [|destruct (decide (mode = _)); [destruct (d_files d !! path)|]];
    cbn -[Z.eqb handle_name] in *; rewrite ?Hn, ?Hn'; eexists _, _, s', _; (split; [reflexivity|]; split; [exact HR'|]; split; [reflexivity|]; split; reflexivity).
Qed.

(** ** Set up and tear down *)
Abbreviation setUp_ := (handle_setUp client connect SendHidlHandleRequest).
Abbreviation tearDown_ := (handle_tearDown Disconnect SendHidlHandleRequest stop_server).

(** Nothing is registered or open, and there is room for [k] more handles. *)
Definition idle (k : nat) (t : tracker C) (d : device_files) : Prop :=
  registered_mirrors t = ∅ /\ callback_server t = false /\ d_open d = ∅ /\ (0 <= d_next d /\ d_next d + Z.of_nat k < 2 ^ 31)%Z.
(** A writer and a reader of the test file, and nothing else. *)
Definition in_test (k : nat) (w r : Z) (hw hr : handle) (t : tracker C) (d : device_files) : Prop :=
  registered_mirrors t = <[handle_name r := MHandle client r]> (<[handle_name w := MHandle client w]> ∅) /\ callback_server t = false /\
  d_open d = <[r := hr]> (<[w := hw]> ∅) /\ id_ok w /\ id_ok r /\ w <> r /\
  h_path hw = TEST_FILE_PATH /\ h_path hr = TEST_FILE_PATH /\ h_writable hw = true /\ h_writable hr = false /\
  (0 <= d_next d /\ d_next d + Z.of_nat k < 2 ^ 31)%Z.

Lemma handle_name_inj n m : id_ok n -> id_ok m -> handle_name n = handle_name m -> n = m.
Proof.
  intros [Hn _] [Hm _] E%(inj (app _)). unfold str_int in E. rewrite !(proj2 (Z.ltb_ge _ 0)) in E by lia. by apply str_nat_inj.
Qed.

Lemma leads_setUp k t d : idle (2 + k) t d -> leads setUp_ t d (fun h t' d' =>
  in_test k h.1 h.2 (mk_open TEST_FILE_PATH true 0) (mk_open TEST_FILE_PATH false 0) t' d' /\ d_files d' !! TEST_FILE_PATH = Some []).
Proof using HandleDevice0.
  intros (Ht & Hc & Ho & Hn & Hk). unfold handle_setUp. set (n := d_next d) in *.
  assert (id_ok n) as Hid by (split; lia). assert (id_ok (n + 1)) as Hid1 by (split; lia).
  eapply leads_bind; [by apply leads_open|]. cbv beta. intros m1 t1 d1 [-> H1].
  change (open_file _ _ d) with (created d, opened TEST_FILE_PATH true (<[TEST_FILE_PATH := []]> (d_files d)) d) in H1 |- *. destruct H1 as [-> ->].
  cbn [snd]. set (d1 := opened _ _ _ _). change (n + 1)%Z with (d_next d1) in Hid1. assert (d_files d1 !! TEST_FILE_PATH = Some []) as Hf by by apply lookup_insert_eq.
  eapply leads_bind; [by apply leads_open|]. cbv beta. intros m2 t2 d2 [-> H2].
  assert (open_file TEST_FILE_PATH (bs "r") d1 = (created d1, opened TEST_FILE_PATH false (d_files d1) d1)) as E.
  { unfold open_file. rewrite decide_False by done. rewrite decide_True by done. by rewrite Hf. }
  rewrite E in H2 |- *. destruct H2 as [-> ->].
  assert (forall a, id_ok a -> assertNotEqual a (-1) PNone PNone = Ret tt) as Hne.
  { intros a [? ?]. unfold assertNotEqual. by rewrite (proj2 (Z.eqb_neq a (-1))) by lia. }
  fold n. unfold not_none, handle_of. do 3 apply leads_step. rewrite Hne by done. do 2 apply leads_step. change (d_next d1) with (n + 1)%Z. rewrite Hne by done. apply leads_step, leads_ret. cbn [fst snd]. split.
  - unfold in_test, registered. cbn. rewrite Ht, Ho. fold n. split_and!; try done; lia.
  - exact Hf.
Qed.

(** Every handle of the list is deleted. *)
Fixpoint delete_all (l : list Z) (o : gmap Z handle) : gmap Z handle := match l with [] => o | id :: l => delete_all l (delete id o) end.
Lemma leads_clean_all l t : NoDup l -> forall d, Forall (fun id => id_ok id /\ is_Some (d_open d !! id)) l ->
  leads (world (clean_all Disconnect SendHidlHandleRequest (MHandle client <$> l))) t d (fun _ t' d' =>
    t' = t /\ d' = mk_device_files (d_files d) (delete_all l (d_open d)) (d_next d)).
Proof using HandleDevice0.
  induction 1 as [|id l Hid _ IH]; intros d Hl s HR; cbn [clean_all fmap list_fmap].
  - exists tt, t, s, d. split; [done|]. split; [done|]. split; [done|]. by destruct d.
  - apply Forall_cons in Hl as [[Hok [h Hh]] Hl]. destruct (leads_delete id h t d Hok Hh s HR) as ([] & t1 & s1 & d1 & E1 & HR1 & -> & ->).
    set (d1 := mk_device_files (d_files d) (delete id (d_open d)) (d_next d)) in *.
    assert (Forall (fun id => id_ok id /\ is_Some (d_open d1 !! id)) l) as Hl1.
    { rewrite Forall_forall in Hl |- *. intros x Hx. destruct (Hl x Hx) as [? ?]. split; [done|]. cbn. rewrite lookup_delete_ne; [done|congruence]. }
    destruct (IH d1 Hl1 s1 HR1) as ([] & t2 & s2 & d2 & E2 & HR2 & -> & ->). exists tt, t, s2. eexists. split; [|split; [exact HR2|done]].
    unfold world in *. cbn [fst snd] in *. unfold mbind, xstM_bind. cbn [CleanUp_mirror].
    destruct (HandleMirror.CleanUp _ id s) as [r1 s1'] eqn:F. injection E1 as -> ->.
    by destruct (clean_all _ _ _ s1) as [r2 s2'].
Qed.

Lemma leads_tearDown k w r hw hr t d : in_test k w r hw hr t d -> leads tearDown_ t d (fun _ t' d' => idle k t' d').
Proof using HandleDevice0.
  intros (Ht & Hc & Ho & Hw & Hr & Hne & _ & _ & _ & _ & Hn).
  assert (exists l, l ≡ₚ [r; w] /\ values (registered_mirrors t) = MHandle client <$> l) as (l & Hl & Hv).
  { unfold values. rewrite Ht. assert (handle_name w <> handle_name r) as Hnn by (intros ?%handle_name_inj; done).
    assert ((map_to_list (<[handle_name r := MHandle client r]> (<[handle_name w := MHandle client w]> (∅ : gmap pystr (mirror C))))).*2 ≡ₚ map (MHandle client) [r; w]) as HP.
    { rewrite map_to_list_insert by by rewrite lookup_insert_ne, lookup_empty. rewrite map_to_list_insert by apply lookup_empty.
      by rewrite map_to_list_empty. }
    apply Permutation_map_inv in HP as (l & E & P).
    exists l. by split. }
  assert (NoDup l) as Hnd by (rewrite Hl; apply NoDup_cons; split; [by intros ?%list_elem_of_singleton|apply NoDup_singleton]).
  assert (Forall (fun id => id_ok id /\ is_Some (d_open d !! id)) l) as Hall.
  { rewrite Hl, Ho. repeat constructor; try apply Hw; try apply Hr; [by rewrite lookup_insert_eq|by rewrite lookup_insert_ne, lookup_insert_eq]. }
  assert (delete_all l (d_open d) = ∅) as Hempty.
  { rewrite Ho. symmetry in Hl. apply Permutation_length_2_inv in Hl as [-> | ->]; cbn [delete_all]; apply map_eq; intros x; rewrite lookup_empty.
    - destruct (decide (x = w)) as [->|]; [by rewrite lookup_delete_eq|rewrite lookup_delete_ne by done].
      destruct (decide (x = r)) as [->|]; [by rewrite lookup_delete_eq|rewrite lookup_delete_ne, !lookup_insert_ne by done; done].
    - destruct (decide (x = r)) as [->|]; [by rewrite lookup_delete_eq|rewrite lookup_delete_ne by done].
      destruct (decide (x = w)) as [->|]; [by rewrite lookup_delete_eq|rewrite lookup_delete_ne, !lookup_insert_ne by done; done]. }
  intros s HR. destruct (leads_clean_all l t Hnd d Hall s HR) as ([] & t1 & s1 & d1 & E & HR1 & -> & ->). rewrite <- Hv in E.
  exists tt, (mk_tracker ∅ (callback_server t) (shell_default_nohup t)), s1. eexists. split; [|split; [exact HR1|]].
  - unfold handle_tearDown, MirrorTracker.CleanUp, get_mirrors, mbind, xstM_bind. cbn [fst snd]. rewrite E. cbn [set_mirrors fst snd xget]. by rewrite Hc.
  - unfold idle. cbn [registered_mirrors callback_server d_open d_next]. rewrite Hempty. done.
Qed.

(** ** The tests *)
(** Both handles are at the end of the file. *)
Definition at_end (hw hr : handle) (d : device_files) : Prop := h_pos hw = length (content hw d) /\ h_pos hr = length (content hw d).
Definition in_sync (k : nat) (w r : Z) (t : tracker C) (d : device_files) : Prop := exists hw hr, in_test k w r hw hr t d /\ at_end hw hr d.
Definition still (k : nat) (w r : Z) (t : tracker C) (d : device_files) : Prop := exists hw hr, in_test k w r hw hr t d.

Lemma write_at_end data old : write_at (length old) data old = old ++ data.
Proof.
  unfold write_at. rewrite Nat.sub_diag. cbn [replicate]. rewrite app_nil_r, take_ge by done. rewrite drop_ge by lia. by rewrite app_nil_r.
Qed.

Lemma after_write k w r hw hr t d data : in_test k w r hw hr t d -> h_pos hw = length (content hw d) ->
  let d' := write_handle w hw data d in
  let hw' := mk_open (h_path hw) (h_writable hw) (h_pos hw + length data) in
  in_test k w r hw' hr t d' /\ content hw' d' = content hw d ++ data /\ content hr d' = content hw d ++ data /\ h_pos hw' = length (content hw' d').
Proof using.
  intros (Ht & Hc & Ho & Hw & Hr & Hne & Pw & Pr & Ww & Wr & Hn) Hpos. cbn zeta.
  assert (forall h, h_path h = TEST_FILE_PATH -> content h (write_handle w hw data d) = content hw d ++ data) as Hcont.
  { intros h Hh. unfold content at 1. cbn [write_handle seek_to d_files]. rewrite Hh, <- Pw, lookup_insert_eq. cbn [default from_option].
    rewrite Hpos. apply write_at_end. }
  split_and!.
  - unfold in_test. cbn [write_handle seek_to d_open d_next h_path h_writable]. split_and!; try done; [|apply Hn..].
    rewrite Ho, insert_insert_ne, insert_insert_eq by done. done.
  - by apply Hcont.
  - by apply Hcont.
  - rewrite Hcont by done. cbn [h_pos]. rewrite length_app. lia.
Qed.

Lemma after_read k w r hw hr t d p : in_test k w r hw hr t d -> in_test k w r hw (mk_open (h_path hr) (h_writable hr) p) t (seek_to r hr p d).
Proof using.
  intros (Ht & Hc & Ho & Hw & Hr & Hne & Pw & Pr & Ww & Wr & Hn). unfold in_test. cbn [seek_to d_open d_next h_path h_writable].
  split_and!; try done; [|apply Hn..]. by rewrite Ho, insert_insert_eq.
Qed.

Lemma open_writer k w r hw hr t d : in_test k w r hw hr t d -> d_open d !! w = Some hw.
Proof using. intros (_ & _ & Ho & _ & _ & Hne & _). by rewrite Ho, lookup_insert_ne, lookup_insert_eq. Qed.
Lemma open_reader k w r hw hr t d : in_test k w r hw hr t d -> d_open d !! r = Some hr.
Proof using. intros (_ & _ & Ho & _). by rewrite Ho, lookup_insert_eq. Qed.

Lemma leads_equals {A} `{EqDecision A} (a b : A) t d : a = b -> leads (equals a b) t d (fun _ t' d' => t' = t /\ d' = d).
Proof using. intros -> s HR. exists tt, t, s, d. unfold equals. by rewrite decide_True. Qed.

Lemma leads_write_then_read k w r t d data : in_sync k w r t d -> (Z.of_nat (length data) < 2 ^ 31)%Z ->
  leads (write_then_read client SendHidlHandleRequest (w, r) data) t d (fun _ t' d' => in_sync k w r t' d').
Proof using HandleDevice0.
  intros (hw & hr & Hin & Hpw & Hpr) Hlen. pose proof Hin as (_ & _ & _ & Hw & Hr & _ & _ & _ & Ww & _). unfold write_then_read. cbn [fst snd].
  eapply leads_bind; [by apply (leads_write w hw), Ww; [|eapply open_writer]|]. cbv beta. intros k1 t1 d1 (-> & -> & ->).
  eapply leads_bind; [by apply leads_equals|]. cbv beta. intros _ ? ? [-> ->].
  destruct (after_write k w r hw hr t d data Hin Hpw) as (Hin1 & Hcw & Hcr & Hp1).
  eapply leads_bind; [apply (leads_read r hr); [done|by eapply open_reader|lia]|]. cbv beta. intros s1 t1 d1 (-> & -> & ->).
  assert (next_bytes (Z.of_nat (length data)) hr (write_handle w hw data d) = data) as ->.
  { unfold next_bytes. rewrite Hcr, Hpr, drop_app_length, Nat2Z.id. by apply take_ge. }
  eapply leads_end; [by apply leads_equals|]. cbv beta. intros _ ? ? [-> ->].
  eexists _, _. split; [by apply after_read|]. unfold at_end. cbn [h_pos] in *.
  change (content _ (seek_to _ _ _ ?d)) with (content (mk_open (h_path hw) (h_writable hw) (h_pos hw + length data)) d).
  rewrite Hcw, length_app in *. lia.
Qed.

Definition handle_passes (t : Z * Z -> M unit) : Prop :=
  forall k w r tr d, in_sync k w r tr d -> leads (t (w, r)) tr d (fun _ t' d' => still k w r t' d').

Lemma sync_still k w r t d : in_sync k w r t d -> still k w r t d.
Proof using. intros (hw & hr & H & _). by exists hw, hr. Qed.

Lemma simple_handle_passes : handle_passes (testSimpleReadWrite client SendHidlHandleRequest).
Proof using HandleDevice0.
  intros k w r t d H. eapply leads_end; [by eapply leads_write_then_read|]. cbv beta. intros _ ? ?. apply sync_still.
Qed.

Lemma large_handle_passes : handle_passes (testLargeReadWrite client SendHidlHandleRequest).
Proof using HandleDevice0.
  intros k w r t d H. unfold testLargeReadWrite. revert t d H. generalize 10. induction n as [|n IH]; intros t d H; cbn [repeat_write].
  - apply leads_ret. by apply sync_still.
  - eapply leads_bind; [by eapply leads_write_then_read|]. cbv beta. intros _ t1 d1 H1. by apply IH.
Qed.

Lemma invalid_write_passes : handle_passes (testInvalidWrite client SendHidlHandleRequest).
Proof using HandleDevice0.
  intros k w r t d (hw & hr & H & _). pose proof H as (_ & _ & _ & _ & Hr & _ & _ & _ & _ & Wr & _). unfold testInvalidWrite. cbn [snd].
  eapply leads_bind; [apply (leads_refused r hr); [done|by eapply open_reader|done]|]. cbv beta. intros ? ? ? (-> & -> & ->).
  apply leads_ret. by exists hw, hr.
Qed.

Lemma missing_passes : handle_passes (testOpenNonexistingFile client connect SendHidlHandleRequest Exists).
Proof using HandleDevice0.
  intros k w r t d (hw & hr & H & _). pose proof H as (_ & _ & _ & _ & _ & _ & _ & _ & _ & _ & Hn). unfold testOpenNonexistingFile.
  eapply leads_bind; [apply leads_request; intros s HR; by apply exists_looks|]. cbv beta. intros ? ? ? (-> & -> & ->).
  case_bool_decide as He; [apply leads_ret; by exists hw, hr|].
  eapply leads_bind; [apply leads_open; split; lia|]. cbv beta. intros m t1 d1 [-> Hm].
  assert (open_file missing_file (bs "r") d = (handle_failed, d)) as E.
  { unfold open_file. rewrite decide_False, decide_True by done. destruct (d_files d !! missing_file) eqn:F; [|done]. destruct He. by eexists. }
  rewrite E in Hm |- *. destruct Hm as [-> ->]. apply leads_ret. by exists hw, hr.
Qed.

Lemma argument_passes : handle_passes (testHidlHandleArgument client SendHidlHandleRequest dumpstateBoard).
Proof using HandleDevice0.
  intros k w r t d (hw & hr & H & Hpw & Hpr). pose proof H as (_ & _ & _ & _ & Hr & _ & _ & _ & Ww & _). unfold testHidlHandleArgument. cbn [fst snd].
  intros s HR. destruct (dumpstate_writes (HandleDevice := HandleDevice0) w hw s d HR (open_writer _ _ _ _ _ _ _ H) Ww) as (s1 & text & E & Hne & HR1).
  destruct (after_write k w r hw hr t d text H Hpw) as (Hin1 & _ & Hcr & _).
  assert (next_bytes 1000 hr (write_handle w hw text d) = take 1000 text) as Hnext.
  { unfold next_bytes. by rewrite Hcr, Hpr, drop_app_length. }
  destruct (leads_read r hr 1000 t (write_handle w hw text d) Hr (open_reader _ _ _ _ _ _ _ Hin1) ltac:(lia) s1 HR1) as (a & t2 & s2 & d2 & E2 & HR2 & -> & -> & ->).
  exists tt, t, s2. eexists. split; [|split; [exact HR2|]].
  - rewrite (xstM_bind_run _ _ _ tt (t, s1)) by (unfold world; cbn [fst snd]; by rewrite E). rewrite (xstM_bind_run _ _ _ _ _ E2).
    rewrite Hnext. destruct text as [|b text]; [done|]. by rewrite decide_False by done.
  - eexists _, _. by apply after_read.
Qed.

Lemma handle_tests_pass : Forall handle_passes (handle_tests client connect SendHidlHandleRequest Exists dumpstateBoard).
Proof using HandleDevice0.
  repeat (constructor; [first [apply argument_passes|apply invalid_write_passes|apply large_handle_passes|apply missing_passes|apply simple_handle_passes]|]).
  constructor.
Qed.

Lemma run_handle_test_run t k tr d : handle_passes t -> idle (2 + k) tr d ->
  leads (run_handle_test client connect Disconnect SendHidlHandleRequest stop_server t) tr d (fun _ t' d' => idle k t' d').
Proof using HandleDevice0.
  intros Ht Hi s HR. destruct (leads_setUp k tr d Hi s HR) as ([w r] & t1 & s1 & d1 & E1 & HR1 & Hin & Hf). cbn [fst snd] in Hin.
  assert (in_sync k w r t1 d1) as Hsync by (eexists _, _; split; [exact Hin|]; unfold at_end, content; cbn [h_pos h_path]; by rewrite Hf).
  destruct (Ht k w r t1 d1 Hsync s1 HR1) as ([] & t2 & s2 & d2 & E2 & HR2 & hw & hr & Hin2).
  destruct (leads_tearDown k w r hw hr t2 d2 Hin2 s2 HR2) as ([] & t3 & s3 & d3 & E3 & HR3 & Hi3).
  exists tt, t3, s3, d3. split; [|done]. unfold run_handle_test, xfinally. rewrite (xstM_bind_run _ _ _ _ _ E1), E2, E3. done.
Qed.

Lemma run_handle_tests_run l : Forall handle_passes l -> forall tr d, idle (2 * length l) tr d ->
  leads (run_handle_tests client connect Disconnect SendHidlHandleRequest stop_server l) tr d (fun _ t' d' => idle 0 t' d').
Proof using HandleDevice0.
  induction 1 as [|t l Ht _ IH]; intros tr d Hi; cbn [run_handle_tests length] in *; [by apply leads_ret|].
  eapply leads_bind; [apply (run_handle_test_run t (2 * length l)); [done|]|].
  - by replace (2 + 2 * length l) with (2 * Datatypes.S (length l)) by lia.
  - cbv beta. intros _ t1 d1 H1. by apply IH.
Qed.
End outcomes.

(** C30: on any device with files and handles as described, over any connection, all
    tests of the class pass, in any order and however often; and when they are through,
    no handle is open on the device and none is registered on the host. *)
Theorem handle_class_passes {C S} (client : C) connect Disconnect SendHidlHandleRequest stop_server Exists dumpstateBoard
    (R : S -> device_files -> Prop) `{!HandleDevice (SendHidlHandleRequest client) Exists dumpstateBoard R} l t s d :
  R s d -> (forall x, x ∈ l -> x ∈ handle_tests client connect SendHidlHandleRequest Exists dumpstateBoard) ->
  idle (2 * length l) t d ->
  exists t' s' d', run_handle_tests client connect Disconnect SendHidlHandleRequest stop_server l (t, s) = (Ret tt, (t', s')) /\
    R s' d' /\ d_open d' = ∅ /\ registered_mirrors t' = ∅.
Proof.
  intros HR Hl Hi. assert (Forall (handle_passes client R) l) as Hall.
  { apply Forall_forall. intros x Hx%Hl. revert x Hx. apply Forall_forall. apply handle_tests_pass. exact HandleDevice0. }
  destruct (run_handle_tests_run client connect Disconnect SendHidlHandleRequest stop_server Exists dumpstateBoard R l Hall t d Hi s HR)
    as ([] & t' & s' & d' & E & HR' & Hm & _ & Ho & _). by exists t', s', d'.
Qed.

(** ** A device in memory *)
Module HandleSample.
Definition send_file (c : nat) (m : HidlHandleRequestMessage) : xstM device_files (option HidlHandleResponseMessage) :=
  fun d => (Ret (Some (drive_handle m d).1), (drive_handle m d).2).
Definition file_exists (p : pystr) : xstM device_files bool := fun d => (Ret (bool_decide (is_Some (d_files d !! p))), d).
Definition dump (m : vsm) : xstM device_files unit := fun d =>
  let id := value_handle_id (other m) in
  match d_open d !! id with
  | Some h => if h_writable h then (Ret tt, write_handle id h (bs "== dumpstate") d) else (Ret tt, d)
  | None => (Ret tt, d)
  end.
#[global] Instance sample_device c : HandleDevice (send_file c) file_exists dump (=).
Proof.
  split.
  - intros m s p ->. by eexists.
  - intros p s d ->. by eexists.
  - intros id h s d -> Ho Hw. eexists _, (bs "== dumpstate"). split; [|done]. unfold dump. cbn. by rewrite Ho, Hw.
Qed.
Definition new_connection (b : bool) : xstM device_files nat := mret 1.
Definition nothing {A} (a : A) : xstM device_files unit := mret tt.
Definition all_tests : list (Z * Z -> xstM (tracker nat * device_files) unit) := handle_tests 1 new_connection send_file file_exists dump.
Definition start : tracker nat * device_files := (mk_tracker ∅ false false, mk_device_files ∅ ∅ 0).
Definition run_all (l : list (Z * Z -> xstM (tracker nat * device_files) unit)) : xres unit * (tracker nat * device_files) :=
  run_handle_tests 1 new_connection nothing send_file (mret tt) l start.
End HandleSample.

Example handle_class_passes_witness :
  (HandleSample.run_all (HandleSample.all_tests ++ HandleSample.all_tests)).1 = Ret tt.
Proof.
  destruct (handle_class_passes 1 HandleSample.new_connection HandleSample.nothing HandleSample.send_file (mret tt) HandleSample.file_exists HandleSample.dump (=)
    (HandleSample.all_tests ++ HandleSample.all_tests) HandleSample.start.1 HandleSample.start.2 HandleSample.start.2) as (t & s & d & E & _).
  - reflexivity.
  - intros x [H|H]%elem_of_app; exact H.
  - vm_compute. repeat split; discriminate.
  - exact (f_equal fst E).
Defined.

(** A read that fails gives [None], which is not the empty text that the test of the
    service refuses: it passes. *)
Lemma failed_read_accepted {C S} (client : C) send dumpstateBoard (t : tracker C) (s s1 s2 : S) w r :
  dumpstateBoard (handle_argument w) s = (Ret tt, s1) -> readFile (send client) r 1000 s1 = (Ret None, s2) ->
  testHidlHandleArgument client send dumpstateBoard (w, r) (t, s) = (Ret tt, (t, s2)).
Proof.
  intros H1 H2. unfold testHidlHandleArgument. cbn [fst snd].
  rewrite (xstM_bind_run _ _ _ tt (t, s1)) by (unfold world; cbn [fst snd]; by rewrite H1).
  rewrite (xstM_bind_run _ _ _ None (t, s2)) by (unfold handle_read, world; cbn [fst snd]; unfold HandleTests.send; by rewrite H2). done.
Qed.

(** ** Setting the class up and tearing it down *)
(** The attributes of the object, as far as they were set. *)
Record handle_attributes := mk_attributes { a_permission : option pystr; a_created : option bool }.
Section class.
Context {S : Type} (execute : pystr -> xstM S pystr) (sleep : xstM S unit) (InitHidlHal : pystr -> xstM S unit) (Exists : pystr -> xstM S bool).
Abbreviation M := (xstM (handle_attributes * S)).
Definition on_shell {A} (m : xstM S A) : M A := fun w => let '(r, s) := m w.2 in (r, (w.1, s)).
Definition set_permission (p : pystr) : M unit := xmodify (fun w => (mk_attributes (Some p) (a_created w.1), w.2)).
Definition set_created (b : bool) : M unit := xmodify (fun w => (mk_attributes (a_permission w.1) (Some b), w.2)).
Definition enforcing : pystr := bs "Enforcing".

Definition handle_setUpClass (abi_bitness : pystr) : M (option bool) :=
  _ ← on_shell (execute START_COMMAND);
  start_hal_success ← on_shell (wait_for_service execute sleep DUMPSTATE_CHECK_COMMAND MAX_RETRY);
  if negb start_hal_success then mret (Some false)
  else
    _ ← on_shell (InitHidlHal abi_bitness);
    out ← on_shell (execute (bs "getenforce"));
    _ ← set_permission (strip out);
    _ ← if decide (strip out = enforcing) then _ ← on_shell (execute (bs "setenforce permissive")); mret tt else mret tt;
    _ ← set_created false;
    e ← on_shell (Exists TEST_DIR_PATH);
    if (e : bool) then mret None
    else
      _ ← on_shell (execute (bs "mkdir " ++ TEST_DIR_PATH));
      e ← on_shell (Exists TEST_DIR_PATH);
      if negb e then mret (Some false)
      else _ ← set_created true; mret None.

Definition attribute {A} (o : option A) : M A := match o with Some a => mret a | None => xlift (Exc attribute_error) end.
Definition handle_tearDownClass : M unit :=
  w ← xget;
  created ← attribute (a_created (fst w));
  _ ← if (created : bool) then _ ← on_shell (execute (bs "rm -rf " ++ TEST_DIR_PATH)); mret tt else mret tt;
  permission ← attribute (a_permission (fst w));
  if decide (permission = enforcing) then _ ← on_shell (execute (bs "setenforce enforcing")); mret tt else mret tt.

(** What the test class needs of a device: whether SELinux is enforcing and whether the
    directory is there. *)
Record shell_device := mk_shell_device { sel : bool; dir : bool }.
Definition effect (cmd : pystr) (x : shell_device) : shell_device :=
  if decide (cmd = bs "setenforce permissive") then mk_shell_device false (dir x)
  else if decide (cmd = bs "setenforce enforcing") then mk_shell_device true (dir x)
  else if decide (cmd = bs "mkdir " ++ TEST_DIR_PATH) then mk_shell_device (sel x) true
  else if decide (cmd = bs "rm -rf " ++ TEST_DIR_PATH) then mk_shell_device (sel x) false
  else x.
Definition answer_to (cmd : pystr) (x : shell_device) (out : pystr) : Prop :=
  cmd = bs "getenforce" -> out = (if sel x then bs "Enforcing" else bs "Permissive") ++ [Byte.x0a].
Class ShellDevice (view : S -> shell_device) : Prop := {
  execute_effect cmd s : exists out s', execute cmd s = (Ret out, s') /\ view s' = effect cmd (view s) /\ answer_to cmd (view s) out;
  sleep_keeps s : exists s', sleep s = (Ret tt, s') /\ view s' = view s;
  hal_keeps bits s : exists s', InitHidlHal bits s = (Ret tt, s') /\ view s' = view s;
  exists_dir s : exists s', Exists TEST_DIR_PATH s = (Ret (dir (view s)), s') /\ view s' = view s;
}.
Context (view : S -> shell_device) `{!ShellDevice view}.

Lemma wait_keeps k s : exists b s', wait_for_service execute sleep DUMPSTATE_CHECK_COMMAND k s = (Ret b, s') /\ view s' = view s.
Proof using ShellDevice0.
  revert s. induction k as [|k IH]; intros s; cbn [wait_for_service]; [by exists false, s|].
  destruct (execute_effect DUMPSTATE_CHECK_COMMAND s) as (out & s1 & E & Hv & _). rewrite (xstM_bind_run _ _ _ _ _ E).
  destruct (bool_decide (out <> [])); [by exists true, s1|]. destruct (sleep_keeps s1) as (s2 & E2 & Hv2). rewrite (xstM_bind_run _ _ _ _ _ E2).
  destruct (IH s2) as (b & s3 & E3 & Hv3). exists b, s3. split; [done|]. rewrite Hv3, Hv2. exact Hv.
Qed.

(** One statement on the shell. *)
Lemma on_shell_bind {A B} (m : xstM S A) (f : A -> M B) a s r s' : m s = (Ret r, s') -> (on_shell m ≫= f) (a, s) = f r (a, s').
Proof using. intros E. apply xstM_bind_run. unfold on_shell. cbn [fst snd]. by rewrite E. Qed.

Lemma getenforce_text x out : answer_to (bs "getenforce") x out -> strip out = (if sel x then enforcing else bs "Permissive").
Proof using. intros H. rewrite (H eq_refl). by destruct (sel x). Qed.

(** What a set up that does not fail leaves: what was found, and the device opened up. *)
Lemma setUpClass_run bits a s a' s' : handle_setUpClass bits (a, s) = (Ret None, (a', s')) ->
  a' = mk_attributes (Some (if sel (view s) then enforcing else bs "Permissive")) (Some (negb (dir (view s)))) /\
  view s' = mk_shell_device false true.
Proof using ShellDevice0.
  unfold handle_setUpClass. destruct (execute_effect START_COMMAND s) as (o0 & s0 & E0 & V0 & _). rewrite (on_shell_bind _ _ _ _ _ _ E0).
  change (effect START_COMMAND (view s)) with (view s) in V0.
  destruct (wait_keeps MAX_RETRY s0) as (b & s1 & E1 & V1). rewrite (on_shell_bind _ _ _ _ _ _ E1). destruct b; cbn [negb]; [|done].
  destruct (hal_keeps bits s1) as (s2 & E2 & V2). rewrite (on_shell_bind _ _ _ _ _ _ E2).
  destruct (execute_effect (bs "getenforce") s2) as (o3 & s3 & E3 & V3 & A3). rewrite (on_shell_bind _ _ _ _ _ _ E3).
  change (effect (bs "getenforce") (view s2)) with (view s2) in V3. apply getenforce_text in A3. rewrite A3. clear A3.
  assert (view s3 = view s) as Hv by congruence. assert (view s2 = view s) as -> by congruence.
  set (p := if sel (view s) then enforcing else bs "Permissive").
  assert (exists s4, (if decide (p = enforcing) then _ ← on_shell (execute (bs "setenforce permissive")); mret tt else mret tt)
      (mk_attributes (Some p) (a_created a), s3) = (Ret tt, (mk_attributes (Some p) (a_created a), s4)) /\ view s4 = mk_shell_device false (dir (view s))) as (s4 & E4 & V4).
  { subst p. destruct (sel (view s)) eqn:Hs.
    - rewrite decide_True by done. destruct (execute_effect (bs "setenforce permissive") s3) as (o & s4 & E & V & _). exists s4.
      rewrite (on_shell_bind _ _ _ _ _ _ E). split; [done|]. by rewrite V, Hv.
    - rewrite decide_False by done. exists s3. split; [done|]. rewrite Hv. destruct (view s) as [x y]. cbn in *. by subst x. }
  unfold set_permission, set_created. rewrite (xstM_bind_run _ _ _ tt (mk_attributes (Some p) (a_created a), s3)) by done.
  rewrite (xstM_bind_run _ _ _ _ _ E4), (xstM_bind_run _ _ _ tt (mk_attributes (Some p) (Some false), s4)) by done.
  destruct (exists_dir s4) as (s5 & E5 & V5). rewrite (on_shell_bind _ _ _ _ _ _ E5), V4. cbn [dir]. destruct (dir (view s)) eqn:Hd.
  - intros [= <- <-]. split; [done|]. congruence.
  - destruct (execute_effect (bs "mkdir " ++ TEST_DIR_PATH) s5) as (o6 & s6 & E6 & V6 & _). rewrite (on_shell_bind _ _ _ _ _ _ E6).
    destruct (exists_dir s6) as (s7 & E7 & V7). rewrite (on_shell_bind _ _ _ _ _ _ E7). destruct (dir (view s6)); cbn [negb]; [|done].
    intros [= <- <-]. split; [done|]. rewrite V7, V6, V5, V4. done.
Qed.

(** A set up that succeeds and the tear down after it leave SELinux and the directory as
    they were found, when the tests between them do not touch them. *)
Theorem class_restores_device bits a s a' s' s2 : handle_setUpClass bits (a, s) = (Ret None, (a', s')) -> view s2 = view s' ->
  exists s3, handle_tearDownClass (a', s2) = (Ret tt, (a', s3)) /\ view s3 = view s.
Proof using ShellDevice0.
  intros (-> & Hv)%setUpClass_run Hs2. rewrite Hv in Hs2. unfold handle_tearDownClass.
  set (p := if sel (view s) then enforcing else bs "Permissive"). set (a1 := mk_attributes _ _).
  rewrite (xstM_bind_run _ _ _ (a1, s2) (a1, s2)) by done. cbn [fst a_created a_permission a1 attribute].
  rewrite (xstM_bind_run _ _ _ (negb (dir (view s))) (a1, s2)) by done.
  assert (exists s3, (if negb (dir (view s)) then _ ← on_shell (execute (bs "rm -rf " ++ TEST_DIR_PATH)); mret tt else mret tt) (a1, s2) = (Ret tt, (a1, s3)) /\
    view s3 = mk_shell_device false (dir (view s))) as (s3 & E3 & V3).
  { destruct (dir (view s)); cbn [negb]; [by exists s2|]. destruct (execute_effect (bs "rm -rf " ++ TEST_DIR_PATH) s2) as (o & s3 & E & V & _).
    exists s3. rewrite (on_shell_bind _ _ _ _ _ _ E). split; [done|]. by rewrite V, Hs2. }
  rewrite (xstM_bind_run _ _ _ _ _ E3), (xstM_bind_run _ _ _ p (a1, s3)) by done. subst p. destruct (view s) as [[] y] eqn:Hvs; cbn [sel dir] in *.
  - rewrite decide_True by done. destruct (execute_effect (bs "setenforce enforcing") s3) as (o & s4 & E & V & _). exists s4.
    rewrite (on_shell_bind _ _ _ _ _ _ E). split; [done|]. by rewrite V, V3.
  - rewrite decide_False by done. by exists s3.
Qed.
End class.

(** The device itself. *)
Definition plain_execute (cmd : pystr) : xstM shell_device pystr := fun x =>
  (Ret (if decide (cmd = bs "getenforce") then (if sel x then bs "Enforcing" else bs "Permissive") ++ [Byte.x0a] else bs "running"), effect cmd x).
Definition plain_exists (p : pystr) : xstM shell_device bool := fun x => (Ret (dir x), x).
#[export] Instance plain_device : ShellDevice plain_execute (mret tt) (fun _ => mret tt) plain_exists Datatypes.id.
Proof.
  split; [|by eexists..]. intros cmd x. eexists _, _. split; [done|]. split; [done|]. intros ->. by rewrite decide_True.
Qed.

Example class_restores_device_witness :
  let up := handle_setUpClass plain_execute (mret tt) (fun _ => mret tt) plain_exists (bs "64") (mk_attributes None None, mk_shell_device true false) in
  exists x, handle_tearDownClass plain_execute up.2 = (Ret tt, (up.2.1, x)) /\ x = mk_shell_device true false.
Proof.
  destruct (class_restores_device plain_execute (mret tt) (fun _ => mret tt) plain_exists Datatypes.id (bs "64") (mk_attributes None None) (mk_shell_device true false)
    (mk_attributes (Some enforcing) (Some true)) (mk_shell_device false true) (mk_shell_device false true)) as (x & E & Hx).
  - vm_compute. reflexivity.
  - reflexivity.
  - exists x. split; [exact E|exact Hx].
Defined.

(** ** A set up that is run again *)
(** A device on which the directory cannot be made the first time. *)
Definition flaky : Type := shell_device * bool.
Definition flaky_execute (cmd : pystr) : xstM flaky pystr := fun w =>
  if decide (cmd = DUMPSTATE_CHECK_COMMAND) then (Ret (bs "running"), w)
  else if decide (cmd = bs "getenforce") then (Ret (if sel w.1 then enforcing else bs "Permissive"), w)
  else if decide (cmd = bs "mkdir " ++ TEST_DIR_PATH) then if w.2 then (Ret [], (effect cmd w.1, true)) else (Ret [], (w.1, true))
  else (Ret [], (effect cmd w.1, w.2)).
Definition flaky_exists (p : pystr) : xstM flaky bool := fun w => (Ret (dir w.1), w).

(** The framework sets a class up again when it failed; the second time the permission
    is found as the first left it, so that SELinux is not enforced again at the end. *)
Example second_setup_forgets_permission :
  let up := handle_setUpClass flaky_execute (mret tt) (fun _ => mret tt) flaky_exists (bs "64") in
  let w0 := (mk_attributes None None, (mk_shell_device true false, false)) in
  (up w0).1 = Ret (Some false) /\ (up (up w0).2).1 = Ret None /\
  (handle_tearDownClass flaky_execute (up (up w0).2).2).1 = Ret tt /\
  sel (handle_tearDownClass flaky_execute (up (up w0).2).2).2.2.1 = false.
Proof. vm_compute. split_and!; reflexivity. Qed.

(** When the service does not start, the attributes that the tear down reads were never
    set. *)
Lemma teardown_without_setup {S} (execute : pystr -> xstM S pystr) s :
  (handle_tearDownClass execute (mk_attributes None None, s)).1 = Exc attribute_error.
Proof. reflexivity. Qed.
