(* ===== verification/BinaryRun.v ===== *)
(** * Running binaries ([src/testcases/template/binary_test/binary_test.py],
      [gtest_binary_test/gtest_binary_test.py])

    The parts of the two classes that act on a device: pushing files, creating the
    cases, running them, the batch mode of gtest, and cleaning up.  BinaryTest has the
    settings, sources, cases and reports that they are made of.  The shell of the device
    is the class [CleaningShell], whose law says what the commands of the clean-up do. *)

From Stdlib Require Import Strings.Byte.
From S2P Require Import Prelude PyStr PySort PyPath PyVal ListUtils Signals Shell BinaryTest Config.

(** ** The parameters of a class, and the settings that come of them *)
Record binary_params := mk_binary_params {
  binary_test_source : list pystr;
  binary_test_working_directory : option (list pystr);
  binary_test_envp : option (list pystr);
  binary_test_args : option (list pystr);
  precondition_file_path_prefix : option (list pystr);
  binary_test_ld_library_path : option (list pystr);
  binary_test_profiling_library_path : option (list pystr);
}.
Definition load_settings (p : binary_params) : pyres (settings * option (gmap pystr (list pystr))) :=
  wd ← set_working_directory (default [] (binary_test_working_directory p));
  let envp := set_envp (default [] (binary_test_envp p)) in
  let args := set_envp (default [] (binary_test_args p)) in
  prefixes ← match precondition_file_path_prefix p with
             | Some tokens => d ← set_file_path_prefix tokens; Ok (Some d)
             | None => Ok None
             end;
  ld ← set_ld_library_path (default [] (binary_test_ld_library_path p));
  profiling ← set_profiling_library_path (default [] (binary_test_profiling_library_path p));
  Ok (mk_settings wd envp args ld profiling, prefixes).
Definition with_coverage (cfg : settings) : settings :=
  mk_settings (working_directory cfg) (add_coverage_env (envp cfg)) (args cfg) (ld_library_path cfg) (profiling_library_path cfg).

(** A class that is set up; a reason when all tests are skipped. *)
Record binary_class := mk_class { cfg : settings; testcases : list BinaryTestCase; tags : gset pystr; skip_all : option pystr }.

Section run.
Context {S : Type}.
(** [shell.Execute] of a list, with and without exceptions ([None]: a result that counts
    as false); [adb.push]. *)
Context (Execute : list pystr -> xstM S (option command_results)) (Execute_no_except : list pystr -> xstM S (option command_results)).
Context (push : pystr -> xstM S unit).
(** The host: whether a path exists or is a directory.  The order of a set. *)
Context (data_file_path class_name : pystr) (exists_ isdir : pystr -> bool).
Context (set_order : list pystr -> list pystr) (source_order : list source -> list source).
(** Features: enabled or not, and what they do. *)
Context (global_coverage profiling : bool) (InitializeDeviceCoverage SetCoverageData : xstM S unit).
Context (EnableVTSProfiling : option pystr -> xstM S unit) (DisableVTSProfiling ProcessTraceData ProcessAndUpload : xstM S unit).
Context (sysprop_met : xstM S bool) (abi_bitness : option pystr).
(** The methods that gtest classes override. *)
Context (CreateCase : settings -> pystr -> pystr -> xstM S (list BinaryTestCase)).
Context {V : Type} (commands : BinaryTestCase -> list pystr) (verify : BinaryTestCase -> option command_results -> xstM S V).
Abbreviation M := (xstM S).

Definition when_ (b : bool) (m : M unit) : M unit := if b then m else mret tt.
Definition parse (cfg : settings) : pystr -> pyres (option source) := ParseTestSource cfg data_file_path class_name exists_.

(** ** Creating the cases *)
Fixpoint push_all (l : list (pystr * pystr)) : M unit :=
  match l with
  | [] => mret tt
  | (src, dst) :: l => _ ← push (src ++ bs " " ++ dst); _ ← Execute [bs "ls " ++ dst]; push_all l
  end.
Fixpoint create_all (cfg : settings) (l : list source) : M (list BinaryTestCase) :=
  match l with
  | [] => mret []
  | (_, dst, None) :: l => create_all cfg l
  | (_, dst, Some tag) :: l => cases ← CreateCase cfg dst tag; rest ← create_all cfg l; mret (cases ++ rest)
  end.
Definition CreateTestCases (cfg : settings) (tokens : list pystr) : M (gset pystr * list BinaryTestCase) :=
  source_list ← xpure (valid_sources cfg data_file_path class_name exists_ abi_bitness tokens);
  _ ← push_all (pushes isdir source_list);
  cases ← create_all cfg source_list;
  mret (tags_of source_list, cases).

(** [cmd_results[EXIT_CODE]]: no results have no items. *)
Definition exit_codes (r : option command_results) : M (list Z) :=
  match r with Some r => mret (EXIT_CODE r) | None => xlift (Exc (EOther Python_TypeError [])) end.
Definition binary_setUpClass (p : binary_params) : M binary_class :=
  c ← xpure (load_settings p);
  _ ← when_ global_coverage InitializeDeviceCoverage;
  let cfg := if global_coverage then with_coverage (fst c) else fst c in
  met ← sysprop_met;
  r ← CreateTestCases cfg (binary_test_source p);
  results ← Execute (set_order (remove_dups ((fun c => bs "chmod 755 " ++ case_path c) <$> snd r)));
  _ ← exit_codes results;
  mret (mk_class cfg (snd r) (fst r) (if (met : bool) then None else Some (bs "precondition sysprop not met"))).

(** ** Running a case *)
Definition RunTestCase (c : BinaryTestCase) : M V :=
  _ ← when_ profiling (EnableVTSProfiling (case_profiling_library_path c));
  command_results ← Execute (commands c);
  verdict ← verify c command_results;
  _ ← when_ profiling ProcessTraceData;
  _ ← when_ profiling DisableVTSProfiling;
  mret verdict.

(** ** Cleaning up *)
Definition pushed_paths (sources : list source) : list pystr :=
  omap (fun s : source => let '(src, dst, _) := s in if decide (src <> [] /\ dst <> []) then Some dst else None) sources.
Definition longer_first (a b : pystr) : bool := length b <=? length a.
Definition cleanup_dirs (paths : list pystr) (base : pystr) : list pystr :=
  py_sort longer_first (set_order (remove_dups ((dirname <$> paths) ++ [base]))).
Definition clean_up (cfg : settings) (tokens : list pystr) : M unit :=
  sources ← xpure (mapM_py (parse cfg) tokens);
  let paths := pushed_paths (source_order (remove_dups (omap id (sources : list (option source))))) in
  _ ← Execute_no_except ((fun dst => bs "rm -rf " ++ dst) <$> paths);
  base ← xpure (r ← parse cfg []; from_opt TypeError ((fun s : source => s.1.2) <$> r));
  _ ← Execute_no_except ((fun d => bs "rmdir " ++ d) <$> cleanup_dirs paths base);
  mret tt.
Definition binary_tearDownClass (c : binary_class) (tokens : list pystr) : M unit :=
  let skipped := bool_decide (is_Some (skip_all c)) in
  _ ← when_ (global_coverage && negb skipped) SetCoverageData;
  _ ← when_ profiling DisableVTSProfiling;
  _ ← clean_up (cfg c) tokens;
  when_ (negb skipped && profiling) ProcessAndUpload.
End run.

(** ** Plain binaries *)
Definition binary_commands (c : BinaryTestCase) : list pystr := [GetRunCommand c].
Definition BinaryVerify {S} (c : BinaryTestCase) (r : option command_results) : xstM S unit :=
  match r with
  | None => xlift (fail (PStr (bs "Empty command response.")) PNone)
  | Some r => xlift (assertFalse (existsb (fun c => negb (c =? 0)%Z) (EXIT_CODE r)) (PStr (bs "Test failed")) PNone)
  end.

(** ** Gtests *)
(** A report: suites with their names, and cases with their attributes and what is in
    them. *)
Record xml_child := mk_child { ch_tag : pystr; ch_attrib : list (pystr * pystr) }.
Record xml_case := mk_xml_case { xc_name : pystr; xc_attrib : list (pystr * pystr); xc_children : list xml_child }.
Record xml_suite := mk_xml_suite { xs_name : pystr; xs_cases : list xml_case }.
Definition white_list : list pystr := [bs "properties"].
(** A case of a report, with what is wrong with it. *)
Record batch_result := mk_batch { b_case : BinaryTestCase; b_failure : option pystr }.

Section gtest.
(** [str] of a dictionary. *)
Context (dict_str : list (pystr * pystr) -> pystr).
Definition get_attr (k : pystr) (l : list (pystr * pystr)) : option pystr := snd <$> List.find (fun kv => bool_decide (kv.1 = k)) l.
Definition is_empty_opt (o : option pystr) : bool := match o with None | Some [] => true | _ => false end.
Definition last_failure (children : list xml_child) : option pystr :=
  foldl (fun m c => if decide (ch_tag c = bs "failure") then get_attr (bs "message") (ch_attrib c) else m) None children.
Definition failure_message (t : xml_case) : option pystr :=
  let m := last_failure (xc_children t) in
  let rest := filter (fun c => ch_tag c ∉ white_list) (xc_children t) in
  if negb (bool_decide (rest = [])) && is_empty_opt m then
    Some (bs "Error: " ++ dict_str (xc_attrib t) ++ newline ++
          mjoin ((fun c => ch_tag c ++ bs ": " ++ dict_str (ch_attrib c) ++ newline) <$> rest))
  else m.
(** [_ParseBatchResults]: the results that it adds. *)
Definition ParseBatchResults (original : BinaryTestCase) (root : list xml_suite) : list batch_result :=
  mjoin ((fun s => (fun t =>
    mk_batch (new_BinaryTestCase (xs_name s) (xc_name t) [] (tag original) None None None [] [] [] (name_appendix original)) (failure_message t))
    <$> xs_cases s) <$> root).
(** [VerifyTestResult] in the batch mode. *)
Definition BatchVerify (fromstring : pystr -> option (list xml_suite)) (c : BinaryTestCase) (r : option command_results) : xres (list batch_result) :=
  match r with
  | None => _ ← fail (PStr (bs "Empty command response.")) PNone; Ret []
  | Some r =>
      _ ← assert_length 2 (STDOUT r) (bs "Abnormal command result length");
      _ ← assert_length 2 (STDERR r) (bs "Abnormal command result length");
      _ ← assert_length 2 (EXIT_CODE r) (bs "Abnormal command result length");
      root ← ParseResultXmlString fromstring (nth 1 (STDOUT r) None);
      Ret (ParseBatchResults c root)
  end.
Definition VerifyBatchResult (r : batch_result) : xres unit :=
  assertFalse (negb (is_empty_opt (b_failure r))) (PStr (default [] (b_failure r))) PNone.
End gtest.

Section gtest_run.
Context {S : Type} (RunTestCase_ : BinaryTestCase -> xstM S (list batch_result)).
(** [runGeneratedTests] of a function over settings: BaseTest has what it does. *)
Context (run_cases : list BinaryTestCase -> xstM S unit) (run_results : list batch_result -> xstM S unit).
Fixpoint run_batches (l : list BinaryTestCase) : xstM S unit :=
  match l with [] => mret tt | c :: l => results ← RunTestCase_ c; _ ← run_results results; run_batches l end.
Definition generateAllTests (batch_mode skip_all : bool) (testcases : list BinaryTestCase) : xstM S unit :=
  if batch_mode && negb skip_all then run_batches testcases else run_cases testcases.
(** [setUpClass]: no batches when tests are only collected. *)
Definition gtest_batch_mode (batch_mode collect_tests_only : bool) : bool := batch_mode && negb collect_tests_only.
End gtest_run.

(** Listing a binary on the device. *)
Section gtest_create.
Context {S : Type} (Execute : list pystr -> xstM S (option command_results)).
Definition GtestCreateCase (cfg : settings) (path tag : pystr) : xstM S (list BinaryTestCase) :=
  r ← Execute (list_command cfg path tag);
  match r with
  | None => xlift (Exc (EOther Python_TypeError []))
  | Some r =>
      match STDOUT r !! 1 with
      | Some (Some stdout) => xlift (GtestCreateTestCase cfg (EXIT_CODE r) stdout path tag)
      | Some None => _ ← xlift (GtestCreateTestCase cfg (EXIT_CODE r) [] path tag); xlift (Exc (EOther Python_AttributeError []))
      | None => _ ← xlift (GtestCreateTestCase cfg (EXIT_CODE r) [] path tag); xlift (Exc (EOther Python_IndexError []))
      end
  end.
End gtest_create.

(** ** What the commands of the clean-up do *)
Definition strictly_below (p q : pystr) : Prop := exists r, r <> [] /\ q = p ++ sep ++ r.
Definition below (p q : pystr) : Prop := q = p \/ strictly_below p q.
Definition strictly_belowb (p q : pystr) : bool := startswith (p ++ sep) q && negb (bool_decide (q = p ++ sep)).

Lemma strictly_belowb_spec p q : strictly_belowb p q = true <-> strictly_below p q.
Proof.
  unfold strictly_belowb, strictly_below. rewrite andb_true_iff, startswith_spec, negb_true_iff. split.
  - intros [[k ->] Hne]. exists k. split; [|by rewrite app_assoc]. intros ->. rewrite app_nil_r in Hne. by rewrite bool_decide_eq_true_2 in Hne.
  - intros (k & Hk & ->). split; [exists k; by rewrite app_assoc|]. apply bool_decide_eq_false. rewrite app_assoc. intros E.
    apply (f_equal length) in E. rewrite length_app in E. destruct k; [done|]. cbn [length] in E. lia.
Qed.
#[export] Instance strictly_below_dec p q : Decision (strictly_below p q).
Proof. refine (cast_if (decide (strictly_belowb p q = true))); by rewrite <- strictly_belowb_spec. Defined.
#[export] Instance below_dec p q : Decision (below p q).
Proof. unfold below. apply _. Defined.

(** A slash at the end of a directory does not count. *)
Definition trim (d : pystr) : pystr := if endswith sep d then take (length d - 1) d else d.
Definition rm_tree (p : pystr) (v : gset pystr) : gset pystr := filter (fun q => ~ below p q) v.
Definition remove_dir (d : pystr) (v : gset pystr) : gset pystr :=
  if decide (set_Exists (strictly_below (trim d)) v) then v else v ∖ {[trim d]}.
Definition shell_effect (cmd : pystr) (v : gset pystr) : gset pystr :=
  if startswith (bs "rm -rf ") cmd then rm_tree (drop 7 cmd) v
  else if startswith (bs "rmdir ") cmd then remove_dir (drop 6 cmd) v
  else v.
(** Paths that a shell takes as they are. *)
Definition plain_char (b : Byte.byte) : bool := Config.valid_filename_char b || bool_decide (b = slash).
Definition plain_path (p : pystr) : bool := negb (bool_decide (p = [])) && forallb plain_char p && negb (contains (sep ++ sep) p).
Definition plain_command (cmd : pystr) : Prop := exists p, plain_path p = true /\ (cmd = bs "rm -rf " ++ p \/ cmd = bs "rmdir " ++ p).

(** A shell on a device whose paths are [view]. *)
Class CleaningShell {S : Type} (Execute_no_except : list pystr -> xstM S (option command_results)) (view : S -> gset pystr) : Prop :=
  cleaning cmds s : Forall plain_command cmds ->
    exists r s', Execute_no_except cmds s = (Ret r, s') /\ view s' = foldl (fun v c => shell_effect c v) (view s) cmds.

Lemma elem_rm_tree p q v : q ∈ rm_tree p v <-> q ∈ v /\ ~ below p q.
Proof. unfold rm_tree. rewrite elem_of_filter. tauto. Qed.

Lemma rm_all paths q : forall v, q ∈ foldl (fun v c => shell_effect c v) v ((fun dst => bs "rm -rf " ++ dst) <$> paths) <->
  q ∈ v /\ forall p, p ∈ paths -> ~ below p q.
Proof.
  induction paths as [|p paths IH]; intros v; cbn [fmap list_fmap foldl].
  - split; [|by intros [? _]]. intros H. split; [done|]. by intros p ?%elem_of_nil.
  - rewrite IH. change (shell_effect (bs "rm -rf " ++ p) v) with (rm_tree p v). rewrite elem_rm_tree. setoid_rewrite elem_of_cons. naive_solver.
Qed.

Lemma elem_remove_dir d q v : q ∈ remove_dir d v -> q ∈ v.
Proof. unfold remove_dir. destruct (decide _); set_solver. Qed.
Lemma remove_dir_keeps d q v : q ∈ v -> q <> trim d -> q ∈ remove_dir d v.
Proof. unfold remove_dir. destruct (decide _); set_solver. Qed.
Lemma remove_dir_left d v : trim d ∈ remove_dir d v -> exists q, q ∈ v /\ strictly_below (trim d) q.
Proof. unfold remove_dir. destruct (decide (set_Exists _ _)) as [H|H]; [intros _; by destruct H as (q & ? & ?); exists q|set_solver]. Qed.

Definition rmdirs (dirs : list pystr) (v : gset pystr) : gset pystr := foldl (fun v c => shell_effect c v) v ((fun d => bs "rmdir " ++ d) <$> dirs).
Lemma rmdirs_cons d dirs v : rmdirs (d :: dirs) v = rmdirs dirs (remove_dir d v).
Proof. reflexivity. Qed.
Lemma rmdirs_sub dirs q : forall v, q ∈ rmdirs dirs v -> q ∈ v.
Proof. induction dirs as [|d dirs IH]; intros v; [done|]. rewrite rmdirs_cons. by intros ?%IH%elem_remove_dir. Qed.
Lemma rmdirs_keeps dirs q : forall v, q ∈ v -> (forall d, d ∈ dirs -> q <> trim d) -> q ∈ rmdirs dirs v.
Proof.
  induction dirs as [|d dirs IH]; intros v Hq Hd; [done|]. rewrite rmdirs_cons. setoid_rewrite elem_of_cons in Hd.
  apply IH; [|auto]. apply remove_dir_keeps; auto.
Qed.

Lemma length_trim d : length (trim d) <= length d <= Datatypes.S (length (trim d)).
Proof. unfold trim. destruct (endswith sep d); [|lia]. rewrite length_take. lia. Qed.
Lemma length_strictly_below p q : strictly_below p q -> Datatypes.S (Datatypes.S (length p)) <= length q.
Proof. intros (r & Hr & ->). rewrite !length_app. destruct r; [done|]. cbn. lia. Qed.

(** Longer paths go first, so that no directory is left that became empty. *)
Lemma rmdirs_no_empty dirs : sorted longer_first dirs -> forall v d, d ∈ dirs -> trim d ∈ rmdirs dirs v ->
  exists q, q ∈ rmdirs dirs v /\ strictly_below (trim d) q.
Proof.
  induction 1 as [|d0 dirs Hs IH Hall]; intros v d; [by intros ?%elem_of_nil|]. rewrite rmdirs_cons. intros [->|Hd]%elem_of_cons Hin; [|by apply IH].
  destruct (remove_dir_left d0 v) as (q & Hq & Hb); [by eapply rmdirs_sub|].
  exists q. split; [|done]. pose proof (length_strictly_below _ _ Hb) as Hl. pose proof (length_trim d0).
  apply rmdirs_keeps.
  - apply remove_dir_keeps; [done|]. intros E. rewrite E in Hl. lia.
  - intros d' Hd' ->. rewrite Forall_forall in Hall. apply Hall in Hd'. unfold longer_first in Hd'. apply Nat.leb_le in Hd'.
    pose proof (length_trim d'). lia.
Qed.

Lemma longer_first_sorted l : sorted longer_first (py_sort longer_first l).
Proof.
  apply py_sort_sorted; unfold longer_first; intros; [destruct (Nat.leb_spec (length b) (length a)); [by left|right; apply Nat.leb_le; lia]|].
  rewrite Nat.leb_le in *. lia.
Qed.

Section clean.
Context {S : Type} (Execute_no_except : list pystr -> xstM S (option command_results)) (view : S -> gset pystr) `{!CleaningShell Execute_no_except view}.
Context (data_file_path class_name : pystr) (exists_ isdir : pystr -> bool).
Context (set_order : list pystr -> list pystr) (source_order : list source -> list source).
Context (set_order_perm : forall l, set_order l ≡ₚ l) (source_order_perm : forall l, source_order l ≡ₚ l).
Abbreviation parse_ := (ParseTestSource).
Abbreviation clean_up_ := (clean_up Execute_no_except data_file_path class_name exists_ set_order source_order).

(** The paths and directories that a clean-up is about. *)
Definition all_paths (sources : list (option source)) : list pystr := pushed_paths (source_order (remove_dups (omap id sources))).

Lemma elem_all_paths sources dst : dst ∈ all_paths sources <->
  exists src tag, Some (src, dst, tag) ∈ sources /\ src <> [] /\ dst <> [].
Proof using source_order_perm.
  unfold all_paths, pushed_paths. rewrite list_elem_of_omap. split.
  - intros ([[src d] tag] & Hin & E). destruct (decide _) as [[? ?]|]; [|done]. injection E as ->. exists src, tag. split; [|done].
    rewrite source_order_perm, elem_of_remove_dups, list_elem_of_omap in Hin. destruct Hin as (x & Hx & E). unfold id in E. by subst x.
  - intros (src & tag & Hin & Hs & Hd). exists (src, dst, tag). split; [|by rewrite decide_True].
    rewrite source_order_perm, elem_of_remove_dups, list_elem_of_omap. by exists (Some (src, dst, tag)).
Qed.

(** The paths are plain: then the shell does what it is told. *)
Lemma clean_up_run cfg tokens sources base s :
  mapM_py (parse data_file_path class_name exists_ cfg) tokens = Ok sources ->
  parse data_file_path class_name exists_ cfg [] = Ok (Some base) ->
  let paths := all_paths sources in
  let dirs := cleanup_dirs set_order paths base.1.2 in
  Forall (fun p => plain_path p = true) (paths ++ dirs) ->
  exists s', clean_up_ cfg tokens s = (Ret tt, s') /\
    view s' = rmdirs dirs (foldl (fun v c => shell_effect c v) (view s) ((fun dst => bs "rm -rf " ++ dst) <$> paths)).
Proof using CleaningShell0.
  intros Hs Hb paths dirs [Hp Hd]%Forall_app. unfold clean_up. rewrite Hs, Hb. cbn [xpure of_pyres mbind pyres_bind fmap option_fmap option_map from_opt].
  fold paths. rewrite (xstM_bind_run _ _ s sources s) by done. change (pushed_paths _) with paths. clearbody paths.
  assert (Forall plain_command ((fun dst => bs "rm -rf " ++ dst) <$> paths)) as H1 by (apply Forall_fmap; eapply Forall_impl; [exact Hp|]; intros p ?; exists p; auto).
  destruct (cleaning _ s H1) as (r & s1 & E1 & V1). rewrite (xstM_bind_run _ _ _ _ _ E1).
  rewrite (xstM_bind_run _ _ s1 base.1.2 s1) by done. fold dirs.
  assert (Forall plain_command ((fun d => bs "rmdir " ++ d) <$> dirs)) as H2 by (apply Forall_fmap; eapply Forall_impl; [exact Hd|]; intros p ?; exists p; auto).
  destruct (cleaning _ s1 H2) as (r2 & s2 & E2 & V2). rewrite (xstM_bind_run _ _ _ _ _ E2). exists s2. split; [done|]. by rewrite V2, V1.
Qed.

(** C18: when the configuration of the binaries can be parsed and its destinations and
    directories are plain paths (no character that is special to a shell), the clean-up of a class leaves
    nothing at or below a destination that was pushed to, and none of the directories for the binaries is
    left empty; it creates no path, and it keeps every path that is not at or below the
    destination of a configured source, pushed or not ([unpushed_is_removed]), and is not one
    of those directories. *)
Theorem clean_up_removes_what_was_pushed cfg tokens sources base abi s :
  mapM_py (parse data_file_path class_name exists_ cfg) tokens = Ok sources ->
  parse data_file_path class_name exists_ cfg [] = Ok (Some base) ->
  let paths := all_paths sources in
  let dirs := cleanup_dirs set_order paths base.1.2 in
  Forall (fun p => plain_path p = true) (paths ++ dirs) ->
  exists s', clean_up_ cfg tokens s = (Ret tt, s') /\
    (forall valid src dst q, valid_sources cfg data_file_path class_name exists_ abi tokens = Ok valid ->
      (src, dst) ∈ pushes isdir valid -> dst <> [] -> below dst q -> q ∉ view s') /\
    (forall d, d ∈ dirs -> trim d ∈ view s' -> exists q, q ∈ view s' /\ strictly_below (trim d) q) /\
    (forall q, q ∈ view s' -> q ∈ view s) /\
    (forall q, q ∈ view s -> (forall p, p ∈ paths -> ~ below p q) -> (forall d, d ∈ dirs -> q <> trim d) -> q ∈ view s').
Proof using CleaningShell0 source_order_perm.
  intros Hs Hb paths dirs Hplain. destruct (clean_up_run cfg tokens sources base s Hs Hb Hplain) as (s' & E & V). fold paths dirs in V.
  exists s'. split; [done|]. rewrite V. split_and!.
  - intros valid src dst q Hv Hin Hne Hbel Hq%rmdirs_sub%rm_all. destruct Hq as [_ Hq]. apply (Hq dst); [|done]. clear Hq.
    unfold valid_sources in Hv. unfold parse in Hs. rewrite Hs in Hv. cbn [mbind pyres_bind] in Hv. injection Hv as <-.
    unfold pushes in Hin. apply list_elem_of_omap in Hin as ([[src0 dst0] tag] & Hin & E0). destruct src0 as [|b src0]; [done|]. injection E0 as _ ->.
    apply list_elem_of_omap in Hin as (x & Hx & E0). unfold id in E0. subst x. apply list_elem_of_filter in Hx as [_ Hx]. apply elem_all_paths. by exists (b :: src0), tag.
  - intros d Hd Hin. apply rmdirs_no_empty; [apply longer_first_sorted|done|done].
  - by intros q [? _]%rmdirs_sub%rm_all.
  - intros q Hq Hp Hd. apply rmdirs_keeps; [|done]. by apply rm_all.
Qed.
End clean.

(** ** A device in memory *)
Module DeviceSample.
Definition execute (cmds : list pystr) : xstM (gset pystr) (option command_results) := fun v =>
  (Ret (Some (mk_results ((fun _ => Some []) <$> cmds) ((fun _ => Some []) <$> cmds) ((fun _ => 0%Z) <$> cmds))), foldl (fun v c => shell_effect c v) v cmds).
#[global] Instance sample_shell : CleaningShell execute (fun v => v).
Proof. intros cmds s _. by eexists _, _. Qed.
Definition no_settings : settings := mk_settings ∅ ∅ ∅ ∅ ∅.
Definition tokens : list pystr := [bs "_32bit::DATA/app/foo"; bs "_64bit::DATA/app/foo"].
Definition in_32 : pystr := bs "/data/local/tmp/vts_binary_test_FooTest/_32bit/foo".
Definition in_64 : pystr := bs "/data/local/tmp/vts_binary_test_FooTest/_64bit/foo".
Definition files : gset pystr :=
  list_to_set [in_32; in_64; bs "/data/local/tmp/vts_binary_test_FooTest/_64bit"; bs "/data/local/tmp/vts_binary_test_FooTest/_32bit";
    bs "/data/local/tmp/vts_binary_test_FooTest"; bs "/data/local/tmp"; bs "/data/local/tmp/keep"].
Definition parsed : list (option source) := [Some (bs "/host/DATA/app/foo", in_32, Some (bs "_32bit")); Some (bs "/host/DATA/app/foo", in_64, Some (bs "_64bit"))].
Definition base : source := ([], bs "/data/local/tmp/vts_binary_test_FooTest/", Some []).
Definition cleaned : xres unit * gset pystr :=
  clean_up execute (bs "/host") (bs "FooTest") (fun _ => true) (fun l => l) (fun l => l) no_settings tokens files.
End DeviceSample.

Example clean_up_removes_what_was_pushed_witness : exists v, DeviceSample.cleaned = (Ret tt, v) /\ (DeviceSample.in_64 ∉ v) /\ bs "/data/local/tmp/keep" ∈ v.
Proof.
  destruct (clean_up_removes_what_was_pushed DeviceSample.execute (fun v => v) (bs "/host") (bs "FooTest") (fun _ => true) (fun _ => false) (fun l => l) (fun l => l)
    (fun l => reflexivity l) DeviceSample.no_settings DeviceSample.tokens DeviceSample.parsed DeviceSample.base (Some (bs "64")) DeviceSample.files)
    as (v & E & Hgone & _ & _ & Hkept).
  - vm_compute. reflexivity.
  - vm_compute. reflexivity.
  - vm_compute. repeat constructor.
  - exists v. split; [exact E|]. split.
    + apply (Hgone [(bs "/host/DATA/app/foo", DeviceSample.in_64, Some (bs "_64bit"))] (bs "/host/DATA/app/foo") DeviceSample.in_64 DeviceSample.in_64);
        [vm_compute; reflexivity|apply list_elem_of_here|discriminate|left; reflexivity].
    + apply Hkept; [apply elem_of_list_to_set, list_elem_of_In; vm_compute; tauto| |].
      * intros p Hp. apply list_elem_of_In in Hp. vm_compute in Hp. destruct Hp as [<-|[<-|[]]]; intros Hb; apply (bool_decide_pack _) in Hb; vm_compute in Hb; contradiction.
      * intros d Hd. apply list_elem_of_In in Hd. vm_compute in Hd. destruct Hd as [<-|[<-|[<-|[]]]]; vm_compute; discriminate.
Defined.

(** On a 64-bit run the binary for 32 bits is not pushed; what is at its destination on
    the device is removed all the same. *)
Example unpushed_is_removed :
  valid_sources DeviceSample.no_settings (bs "/host") (bs "FooTest") (fun _ => true) (Some (bs "64")) DeviceSample.tokens =
    Ok [(bs "/host/DATA/app/foo", DeviceSample.in_64, Some (bs "_64bit"))] /\
  bool_decide (DeviceSample.in_32 ∈ DeviceSample.cleaned.2) = false.
Proof. split; vm_compute; reflexivity. Qed.

(** ** Failures on the way *)
(** Coverage that cannot be collected keeps the pushed files on the device. *)
Lemma coverage_error_skips_clean_up {S} execute data_file_path class_name exists_ set_order source_order profiling set_coverage disable upload c tokens (s s' : S) e :
  set_coverage s = (Exc e, s') -> skip_all c = None ->
  binary_tearDownClass execute data_file_path class_name exists_ set_order source_order true profiling set_coverage disable upload c tokens s = (Exc e, s').
Proof.
  intros H Hs. unfold binary_tearDownClass. rewrite Hs. cbn [andb negb]. rewrite bool_decide_eq_false_2 by (intros [? [=]]). by apply xstM_bind_exc.
Qed.

(** A test that fails leaves profiling on. *)
Lemma failure_keeps_profiling {S V} execute enable disable trace commands (verify : BinaryTestCase -> option command_results -> xstM S V) c (s s1 s2 s3 : S) r e :
  enable (case_profiling_library_path c) s = (Ret tt, s1) -> execute (commands c) s1 = (Ret r, s2) -> verify c r s2 = (Exc e, s3) ->
  RunTestCase execute true enable disable trace commands verify c s = (Exc e, s3).
Proof.
  intros H1 H2 H3. unfold RunTestCase. cbn [when_]. rewrite (xstM_bind_run _ _ _ _ _ H1), (xstM_bind_run _ _ _ _ _ H2). by apply xstM_bind_exc.
Qed.

(** A plain binary passes when there are results and every exit code is zero. *)
Lemma BinaryVerify_passes {S} c r (s : S) :
  BinaryVerify c (Some r) s = (Ret tt, s) <-> Forall (fun z => z = 0%Z) (EXIT_CODE r).
Proof.
  unfold BinaryVerify, xlift, assertFalse. induction (EXIT_CODE r) as [|z l IH]; cbn [existsb]; [by split; [constructor|]|].
  destruct (Z.eqb_spec z 0) as [->|Hz]; cbn [negb orb].
  - rewrite IH. split; [by constructor|by intros [_ ?]%Forall_cons].
  - split; [done|]. by intros [? _]%Forall_cons.
Qed.

(** ** Batches of gtests *)
Lemma failure_tag_listed : bs "failure" ∉ white_list.
Proof. unfold white_list. by intros ?%list_elem_of_singleton. Qed.

Lemma last_failure_some children m : last_failure children = Some m -> exists c, c ∈ children /\ ch_tag c = bs "failure".
Proof.
  unfold last_failure. assert (forall o, foldl (fun m c => if decide (ch_tag c = bs "failure") then get_attr (bs "message") (ch_attrib c) else m) o children = Some m ->
    o = Some m \/ exists c, c ∈ children /\ ch_tag c = bs "failure") as H; [|by intros [?|?]%H].
  induction children as [|c children IH]; intros o; cbn [foldl]; [by left|]. intros [E|(x & ? & ?)]%IH.
  - destruct (decide _) as [Hc|]; [|by left]. right. exists c. split; [apply list_elem_of_here|done].
  - right. exists x. split; [by apply list_elem_of_further|done].
Qed.

(** A case of a report fails exactly when there is something other than properties in
    it, whatever the order and the messages of its failures. *)
Theorem batch_verdict dict_str t c :
  VerifyBatchResult (mk_batch c (failure_message dict_str t)) = Ret tt <-> Forall (fun x => ch_tag x ∈ white_list) (xc_children t).
Proof.
  unfold VerifyBatchResult, assertFalse. cbn [b_failure]. rewrite Forall_forall. unfold failure_message.
  set (rest := filter _ _). destruct (bool_decide_reflect (rest = [])) as [Hr|Hr]; cbn [negb andb].
  - assert (forall x, x ∈ xc_children t -> ch_tag x ∈ white_list) as Hall.
    { intros x Hx. destruct (decide (ch_tag x ∈ white_list)) as [|Hn]; [done|]. exfalso. assert (x ∈ rest) as H by by apply list_elem_of_filter.
      rewrite Hr in H. by apply elem_of_nil in H. }
    assert (last_failure (xc_children t) = None) as ->; [|done].
    destruct (last_failure (xc_children t)) eqn:E; [|done]. apply last_failure_some in E as (x & Hx & Ht). apply Hall in Hx. rewrite Ht in Hx.
    by apply failure_tag_listed in Hx.
  - split.
    + destruct (is_empty_opt (last_failure _)) eqn:E; [done|]. by rewrite E.
    + intros Hall. destruct Hr. destruct rest as [|x l] eqn:E; [done|]. assert (x ∈ rest) as Hx by (rewrite E; apply list_elem_of_here).
      subst rest. apply list_elem_of_filter in Hx as [Hn Hx]. by apply Hall in Hx.
Qed.

(** Each case of each suite has one result, in the order of the report. *)
Lemma ParseBatchResults_cases dict_str c root :
  (fun r => full_name (b_case r)) <$> ParseBatchResults dict_str c root =
  mjoin ((fun s => (fun t => match strip (xs_name s) with [] => strip (xc_name t) | n => n ++ bs "." ++ strip (xc_name t) end) <$> xs_cases s) <$> root).
Proof.
  unfold ParseBatchResults. induction root as [|s root IH]; [done|]. cbn [fmap list_fmap mjoin list_join]. rewrite fmap_app. f_equal; [|exact IH].
  rewrite <- list_fmap_compose. apply list_fmap_ext. intros i t _. unfold full_name, new_BinaryTestCase, compose. cbn -[strip]. by destruct (strip (xs_name s)).
Qed.

(** A batch that cannot be run, or whose report is broken, ends the whole run. *)
Lemma broken_batch_ends_run {S} run (run_results : list batch_result -> xstM S unit) c l s s' e :
  run c s = (Exc e, s') -> run_batches run run_results (c :: l) s = (Exc e, s').
Proof. intros H. cbn [run_batches]. by apply xstM_bind_exc. Qed.

(** Cases are not collected in batches. *)
Lemma collecting_has_no_batches {S} run cases results l batch (s : S) : generateAllTests run cases results (gtest_batch_mode batch true) false l s = cases l s.
Proof. unfold gtest_batch_mode, generateAllTests. by rewrite andb_false_r. Qed.
