(* ===== verification/ParamTest.v ===== *)
(** * Tests with parameters ([src/testcases/template/param_test/param_test.py],
      [hal_hidl_host_test/hal_hidl_host_test.py])

    A class with parameters runs its tests once for each of them, with RunTests; a test
    of a HAL from the host has the combinations of the instances of its services
    (HalServices) as parameters.  What a test does may depend on the parameter, and so
    may the set up of the class. *)

From Stdlib Require Import Strings.Byte.
From S2P Require Import Prelude PyStr PyPath PyVal ListUtils FilterUtils Signals Records Shell BinaryTest BaseTest RunTests HalServices.

(** ** The run ([param_test.py]) *)
(** A function of the class, by the parameter: a test, or a trigger of generated tests. *)
Inductive test_func (P : Type) :=
  | Test (s : P -> nat -> script)
  | Trigger (settings : P -> list (pystr * (nat -> script))) (ends : P -> nat -> xres unit).
Arguments Test {P} s.
Arguments Trigger {P} settings ends.

Section param.
Context {P : Type}.
Context (re_compile : pystr -> option (pystr -> option nat)) (clock : nat -> Z) (cfg : config).
Context (cls : P -> class_script) (getParamTag : P -> xres pystr).
Abbreviation tests := (list (pystr * test_func P)).

Definition at_param (p : P) (t : pystr * test_func P) : test_item :=
  match t.2 with
  | Test s => ITest t.1 (s p)
  | Trigger settings ends => IGenerate t.1 (settings p) (ends p)
  end.
(** [tests[idx] = (param_test_name, test_func)] *)
Definition retag (p : P) (t : pystr * test_func P) : xres (pystr * test_func P) :=
  tag ← getParamTag p; Ret (t.1 ++ tag, t.2).

Definition set_requested (names : list pystr) : M unit :=
  _ ← modify_results (fun res =>
    mk_result [] (failed res) (executed res) (passed res) (skipped res) (error res)
      (test_module_name res) (test_module_timestamp res) (class_errors res));
  forM_ names (request cfg).

(** The names are changed in the list that the next parameter starts from. *)
Fixpoint run_params (params : list P) (ts : tests) : M unit :=
  match params with
  | [] => mret tt
  | param :: params =>
      ts ← lift (mapM (retag param) ts);
      _ ← (if run_as_vts_self_test (cls param) then mret tt else set_requested (fst <$> (ts : tests)));
      _ ← runTestsWithRetry re_compile clock cfg (cls param) (at_param param <$> (ts : tests));
      run_params params ts
  end.

(** ** Every parameter is tested *)
Definition tag_of (p : P) : pystr := match getParamTag p with Ret t => t | Exc _ => [] end.
Abbreviation plain_tests := (list (pystr * (P -> nat -> script))).
Definition as_tests (ts : plain_tests) : tests := (fun t => (t.1, Test t.2)) <$> ts.

(** What a run should execute: the tests under every parameter, with the tags of all
    parameters so far in their names. *)
Definition tested (params : list P) (ts : plain_tests) : list (pystr * script) :=
  mjoin (imap (fun i p => (fun t => (t.1 ++ mjoin (tag_of <$> take (S i) params), t.2 p 0)) <$> ts) params).

Definition block (pre : pystr) (p : P) (ts : plain_tests) : list (pystr * (nat -> script)) :=
  (fun t => (t.1 ++ pre ++ tag_of p, t.2 p)) <$> ts.
Fixpoint tested_from (pre : pystr) (params : list P) (ts : plain_tests) : list (pystr * script) :=
  match params with
  | [] => []
  | p :: params => first_scripts (block pre p ts) ++ tested_from (pre ++ tag_of p) params ts
  end.

Lemma tested_from_spec params ts : forall pre,
  tested_from pre params ts =
  mjoin (imap (fun i p => (fun t => (t.1 ++ pre ++ mjoin (tag_of <$> take (S i) params), t.2 p 0)) <$> ts) params).
Proof.
  induction params as [|p params IH]; intros pre; [done|]. cbn [tested_from]. rewrite imap_cons. cbn [mjoin list_join]. f_equal.
  - unfold first_scripts, block. rewrite <- list_fmap_compose. apply list_fmap_ext. intros i t _. cbn. by rewrite !app_nil_r.
  - rewrite IH. apply (f_equal mjoin), imap_ext. intros i q _. cbn. apply list_fmap_ext. intros j t _. by rewrite <- !app_assoc.
Qed.

Lemma split_at_byte c a b x y : no_byte c a = true -> no_byte c b = true -> a ++ c :: x = b ++ c :: y -> a = b /\ x = y.
Proof.
  assert (forall z l, no_byte z (z :: l) = false) as Hc by (intros z l; cbn; unfold is_byte; by rewrite bool_decide_eq_true_2).
  revert b. induction a as [|d a IH]; intros [|e b] Ha Hb E; inversion E as [E1]; subst.
  - done.
  - by rewrite Hc in Hb.
  - by rewrite Hc in Ha.
  - cbn [no_byte forallb] in Ha, Hb. apply andb_true_iff in Ha as [_ Ha], Hb as [_ Hb]. by destruct (IH b) as [-> ->].
Qed.

(** A name has no parenthesis, and a tag starts with one. *)
Definition plain_name (n : pystr) : Prop := no_byte Byte.x28 n = true.
Definition tagged (p : P) : Prop := exists t, getParamTag p = Ret (Byte.x28 :: t).

Lemma tag_of_tagged p : tagged p -> exists t, tag_of p = Byte.x28 :: t.
Proof. intros [t E]. exists t. unfold tag_of. by rewrite E. Qed.

Lemma elem_tested_from ts params : forall pre x, x ∈ tested_from pre params ts -> Forall tagged params ->
  exists t k, t ∈ ts /\ x.1 = t.1 ++ pre ++ Byte.x28 :: k.
Proof.
  induction params as [|p params IH]; intros pre x Hx Ht; [by apply elem_of_nil in Hx|]. cbn [tested_from] in Hx.
  apply Forall_cons in Ht as [Hp Ht]. destruct (tag_of_tagged p Hp) as [k Hk].
  apply elem_of_app in Hx as [Hx|Hx].
  - apply list_elem_of_fmap in Hx as (u & -> & Hu). apply list_elem_of_fmap in Hu as (t & -> & Hin). exists t, k. cbn. by rewrite Hk.
  - destruct (IH _ _ Hx Ht) as (t & k' & Hin & ->). exists t, (k ++ Byte.x28 :: k'). rewrite Hk, <- !app_assoc. done.
Qed.

Definition opens (pre : pystr) : Prop := pre = [] \/ exists t, pre = Byte.x28 :: t.
Lemma opens_app pre p : opens pre -> tagged p -> exists t, pre ++ tag_of p = Byte.x28 :: t.
Proof. intros [->|[t ->]] [k Hk]%tag_of_tagged; rewrite Hk; [by exists k|by exists (t ++ Byte.x28 :: k)]. Qed.

(** The parameters so far tell the names apart, and so no test is filed under the name
    of another. *)
Lemma tested_NoDup ts params : forall pre, opens pre -> NoDup (ts.*1) -> Forall plain_name (ts.*1) -> Forall tagged params ->
  NoDup ((tested_from pre params ts).*1).
Proof.
  induction params as [|p params IH]; intros pre Ho Hnd Hn Ht; [constructor|]. cbn [tested_from]. rewrite fmap_app.
  pose proof Ht as [Hp Htl]%Forall_cons. destruct (opens_app pre p Ho Hp) as [j Hj].
  apply NoDup_app. split_and!; [| |apply IH; [right; by exists j|done..]].
  - unfold first_scripts, block. rewrite <- !list_fmap_compose.
    match goal with |- NoDup ?l => assert (l = (fun n => n ++ pre ++ tag_of p) <$> ts.*1) as -> by by rewrite <- list_fmap_compose end.
    apply NoDup_fmap_2; [|done]. intros a b E. by apply app_inv_tail in E.
  - intros n (x & -> & Hx)%list_elem_of_fmap (y & E & Hy)%list_elem_of_fmap.
    apply list_elem_of_fmap in Hx as (u & -> & Hu). apply list_elem_of_fmap in Hu as (t & -> & Hin).
    destruct (elem_tested_from _ _ _ _ Hy Htl) as (t' & k & Hin' & E'). rewrite E', Hj in E. cbn [fst app] in E.
    rewrite Forall_forall in Hn. apply split_at_byte in E as [_ E]; [|apply Hn, list_elem_of_fmap_2; done..].
    apply (f_equal length) in E. rewrite length_app in E. cbn in E. lia.
Qed.

Lemma retag_all p pre (ts : plain_tests) : tagged p ->
  mapM (retag p) ((fun t => (t.1 ++ pre, Test t.2)) <$> ts) = Ret ((fun t => (t.1 ++ pre ++ tag_of p, Test t.2)) <$> ts).
Proof.
  intros [k Hk]. assert (tag_of p = Byte.x28 :: k) as Ht by (unfold tag_of; by rewrite Hk).
  induction ts as [|t ts IH]; [done|]. cbn [fmap list_fmap mapM]. rewrite IH. unfold retag. rewrite Hk, Ht. cbn. by rewrite <- app_assoc.
Qed.

Lemma at_block p pre (ts : plain_tests) :
  at_param p <$> ((fun t => (t.1 ++ pre ++ tag_of p, Test t.2)) <$> ts) = items (block pre p ts).
Proof. unfold items, block. by rewrite <- !list_fmap_compose. Qed.

Abbreviation inv := (run_inv re_compile cfg).
Abbreviation plain := (fun t : pystr * script => plain_test re_compile cfg t.1 t.2).

Lemma inv_final_true w before after : inv w before after -> inv (set_final true w) before after.
Proof. intros []. split; simpl; eauto. Qed.

Lemma set_requested_run names before after w :
  inv (set_final true w) before [] -> (forall n, n ∈ names -> exists t, t ∈ after /\ t.1 = n) ->
  exists w', set_requested names w = (Ret tt, w') /\ inv (set_final true w') before after.
Proof.
  intros [Hex _ Herr Hretry Hreason Hf] Hn. unfold set_requested, modify_results, modify, mbind at 1, M_bind at 1.
  apply (request_all re_compile clock cfg names before after); [|exact Hn]. split; try done. by intros r ?%elem_of_nil.
Qed.

Lemma run_params_run ts params : forall pre before w,
  max_retry_count cfg = 0 -> Forall (fun p => class_ok (cls p)) params -> Forall tagged params ->
  NoDup ((before ++ tested_from pre params ts).*1) -> Forall plain (tested_from pre params ts) ->
  inv (set_final true w) before [] ->
  exists w', run_params params ((fun t => (t.1 ++ pre, Test t.2)) <$> ts) w = (Ret tt, w') /\
    inv (set_final true w') (before ++ tested_from pre params ts) [].
Proof.
  induction params as [|p params IH]; intros pre before w Hmax Hok Ht Hnd Hpl Hinv.
  { exists w. cbn [tested_from]. by rewrite app_nil_r. }
  apply Forall_cons in Ht as [Hp Ht], Hok as [Hok1 Hok]. cbn [tested_from] in *. rewrite app_assoc in Hnd. apply Forall_app in Hpl as [Hpl1 Hpl].
  cbn [run_params]. unfold mbind, M_bind, lift. rewrite retag_all by done. rewrite (ok_self _ Hok1), at_block.
  destruct (set_requested_run (((fun t => (t.1 ++ pre ++ tag_of p, Test t.2)) <$> ts).*1) before (first_scripts (block pre p ts)) w Hinv) as (w1 & E1 & H1).
  { rewrite <- list_fmap_compose. intros n (t & -> & Hin)%list_elem_of_fmap. exists (t.1 ++ pre ++ tag_of p, t.2 p 0). split; [|done].
    unfold first_scripts, block. rewrite <- list_fmap_compose. apply list_elem_of_fmap. by exists t. }
  rewrite E1. destruct (runTestsWithRetry_run re_compile clock cfg (cls p) before (block pre p ts) w1) as (w2 & E2 & H2); [done..| |done|done|].
  { rewrite fmap_app in Hnd. by apply NoDup_app in Hnd as [? _]. }
  rewrite E2. destruct (IH (pre ++ tag_of p) (before ++ first_scripts (block pre p ts)) w2) as (w3 & E3 & H3); [done..|by apply inv_final_true|].
  exists w3. split; [exact E3|]. by rewrite <- app_assoc in H3.
Qed.

(** With no retries, well-behaved tests and classes that set up: every test is executed
    once for every parameter, in order, and filed under its name with the tags of the
    parameters so far; nothing remains requested. *)
Theorem every_parameter_is_tested params ts w :
  max_retry_count cfg = 0 -> Forall (fun p => class_ok (cls p)) params -> Forall tagged params ->
  NoDup (ts.*1) -> Forall plain_name (ts.*1) -> Forall plain (tested params ts) ->
  results w = new_result -> test_filter_retry w = None -> reason_to_skip_all_tests w = None ->
  exists w', run_params params (as_tests ts) w = (Ret tt, w') /\
    Forall2 (records_test re_compile cfg w') (reported_tests re_compile cfg (tested params ts)) (executed (results w')) /\
    requested (results w') = [] /\ class_errors (results w') = [].
Proof.
  intros Hmax Hok Ht Hnd Hn Hpl Hres Hretry Hreason.
  assert (tested params ts = tested_from [] params ts) as E by (by rewrite tested_from_spec).
  rewrite E in *. destruct (run_params_run ts params [] [] w) as (w' & E' & [Hx Hr He _ _ _]); [done..| |done| |].
  - apply tested_NoDup; [by left|done..].
  - split; simpl; rewrite ?Hres; try done. by intros r ?%elem_of_nil.
  - exists w'. split.
    + unfold as_tests. rewrite <- E'. f_equal. apply list_fmap_ext. intros i t _. by rewrite app_nil_r.
    + split; [|split; [|done]].
      * eapply Forall2_impl; [exact Hx|]. done.
      * simpl in Hr. destruct (requested (results w')) as [|r l]; [done|]. destruct (Hr r) as (_ & t & []%elem_of_nil & _). by left.
Qed.
End param.

(** ** Tests of HALs from the host ([hal_hidl_host_test.py]) *)
Definition instance_names (param : list pystr) : xres (list pystr) :=
  mapM (fun instance => of_pyres (py_get (split sep instance) 1)) param.
Definition HostParamTag (param : list pystr) : xres pystr :=
  names ← instance_names param; Ret (bs "(" ++ join_with (bs ",") names ++ bs ")").

(** [getHalServiceName] *)
Fixpoint service_name_in (cur_param : list pystr) (hal_service : pystr) : xres pystr :=
  match cur_param with
  | [] => Ret (bs "default")
  | instance :: cur_param =>
      match split sep instance with
      | [service; name] => if bool_decide (service = hal_service) then Ret name else service_name_in cur_param hal_service
      | _ => Exc (EOther Python_ValueError (bs "unpack"))
      end
  end.

(** [initParams]: the combinations of the instances of the services, or the reason to
    skip the tests.  [TEST_HAL_SERVICES] is a set: the orders of its iteration and of
    [pop] are given. *)
Section init.
Context (execute : pystr -> command_results) (loads : pystr -> pyres testability) (abi_bitness : pystr) (run_as_compliance_test : bool).
Definition host_combinations (iteration pops : list pystr) : xres (list (list pystr) * option pystr) :=
  found ← find_instances execute loads abi_bitness run_as_compliance_test iteration ∅;
  match found with
  | inr reason => Ret ([], Some reason)
  | inl service_instances => Ret (full_combinations service_instances pops, None)
  end.
End init.

(** The hooks of the class. *)
Section hooks.
Context {S : Type} (CanRunHidlHalTest : xstM S bool).
Context (coverage_enabled global_coverage profiling_enabled : bool).
Context (InitializeDeviceCoverage SetCoverageData EnableVTSProfiling DisableVTSProfiling ProcessTraceDataForTestCase ProcessAndUploadTraceData : xstM S unit).
Context (SetHalNames : list pystr -> xstM S unit) (SetCoverageReportFilePrefix : pystr -> xstM S unit).
Definition when (b : bool) (m : xstM S unit) : xstM S unit := if b then m else mret tt.
(** A reason to skip all tests. *)
Definition host_setUpClass (services : list pystr) (test_module_name abi_bitness : pystr) : xstM S (option pystr) :=
  can ← CanRunHidlHalTest;
  if negb (can : bool) then mret (Some (bs "precondition check for hidl hal tests didn't pass"))
  else
    _ ← when (coverage_enabled && global_coverage)
      (_ ← InitializeDeviceCoverage;
       when (negb (bool_decide (services = [])))
         (_ ← SetHalNames services; SetCoverageReportFilePrefix (test_module_name ++ abi_bitness)));
    _ ← when profiling_enabled EnableVTSProfiling;
    mret None.
Definition host_tearDownClass (skip_all : bool) : xstM S unit :=
  if skip_all then mret tt
  else
    _ ← when (coverage_enabled && global_coverage) SetCoverageData;
    when profiling_enabled ProcessAndUploadTraceData.
Definition host_setUp : xstM S unit := when profiling_enabled EnableVTSProfiling.
Definition host_tearDown : xstM S unit := when profiling_enabled (_ ← ProcessTraceDataForTestCase; DisableVTSProfiling).
End hooks.

(** *** Tags and names *)
Lemma split_from_ne c l acc k : split_from c l acc k <> [].
Proof.
  revert acc k. induction l as [|b l IH]; intros acc k; [done|]. cbn [split_from]. destruct k as [|k]; [|apply IH].
  by destruct (startswith _ _).
Qed.
Lemma split_instance s n : no_byte slash s = true ->
  exists first rest, split sep (instance_of s n) = s :: first :: rest /\ (no_byte slash n = true -> first = n /\ rest = []).
Proof.
  intros Hs. unfold split, instance_of, sep. cbn [app]. rewrite (split_from_byte slash) by done. cbn [app].
  destruct (split_from [slash] n [] 0) as [|first rest] eqn:E; [by apply split_from_ne in E|].
  exists first, rest. split; [done|]. intros Hn. rewrite split_from_no_byte in E by done. by injection E as <- <-.
Qed.

Section names.
Context (m : instance_map).

Lemma HostParamTag_tagged c l : Forall2 (chosen m) c l -> Forall (fun s => no_byte slash s = true) l -> tagged HostParamTag c.
Proof.
  intros Hc Hl. assert (exists names, instance_names c = Ret names) as [names E].
  { induction Hc as [|i s c l (n & _ & ->) _ IH]; [by exists []|]. apply Forall_cons in Hl as [Hs Hl]. destruct (IH Hl) as [names E].
    destruct (split_instance s n Hs) as (first & rest & Es & _). exists (first :: names).
    unfold instance_names in *. cbn [mapM]. rewrite Es. cbn [py_get of_pyres mbind xres_bind]. by rewrite E. }
  unfold tagged, HostParamTag. rewrite E. by eexists.
Qed.

(** Where no name has a slash, the tags are the ones that tests on the target have
    ([appendix_of]). *)
Lemma instance_name_plain s n : no_byte slash s = true -> default (instance_of s n) (instance_name (instance_of s n)) = n.
Proof.
  intros Hs. assert (instance_name (instance_of s n) = Some n) as ->; [|done].
  unfold instance_of, sep. induction s as [|b s IH]; cbn [app instance_name]; [by rewrite decide_True|].
  cbn [no_byte forallb] in Hs. apply andb_true_iff in Hs as [Hb Hs]. rewrite decide_False; [by apply IH|].
  intros ->. unfold is_byte in Hb. by rewrite bool_decide_eq_true_2 in Hb.
Qed.
Theorem host_tag_is_appendix c l :
  Forall2 (chosen m) c l -> Forall (fun s => no_byte slash s = true) l ->
  (forall s n, s ∈ l -> n ∈ names_of m s -> no_byte slash n = true) -> HostParamTag c = Ret (appendix_of c).
Proof.
  intros Hc Hl Hn. unfold HostParamTag, appendix_of.
  assert (instance_names c = Ret ((fun i => default i (instance_name i)) <$> c)) as ->; [|done].
  induction Hc as [|i s c l (n & Hin & ->) _ IH]; [done|]. apply Forall_cons in Hl as [Hs Hl].
  destruct (split_instance s n Hs) as (first & rest & Es & Ef). destruct Ef as [-> ->]; [apply (Hn s); [by left|done]|].
  unfold instance_names in *. cbn [mapM fmap list_fmap]. rewrite instance_name_plain by done. rewrite Es. cbn [py_get of_pyres mbind xres_bind].
  rewrite IH; [done|done|]. intros s' n' Hs' Hn'. apply (Hn s'); [by right|done].
Qed.

(** A test finds the name of every service that it is run with, and of no other. *)
Theorem service_name_found c l s :
  Forall2 (chosen m) c l -> NoDup l -> Forall (fun s => no_byte slash s = true) l ->
  (forall s n, s ∈ l -> n ∈ names_of m s -> no_byte slash n = true) ->
  if decide (s ∈ l) then exists n, n ∈ names_of m s /\ instance_of s n ∈ c /\ service_name_in c s = Ret n
  else service_name_in c s = Ret (bs "default").
Proof.
  intros Hc. induction Hc as [|i s' c l (n & Hin & ->) _ IH]; intros Hnd Hl Hn; [by rewrite decide_False by apply not_elem_of_nil|].
  apply NoDup_cons in Hnd as [Hni Hnd]. apply Forall_cons in Hl as [Hs Hl].
  assert (forall s n, s ∈ l -> n ∈ names_of m s -> no_byte slash n = true) as Hn' by (intros ? ? ?; apply Hn; by right).
  destruct (split_instance s' n Hs) as (first & rest & Es & Ef). destruct Ef as [-> ->]; [apply (Hn s'); [by left|done]|].
  specialize (IH Hnd Hl Hn'). cbn [service_name_in]. rewrite Es. destruct (decide (s' = s)) as [->|Hne].
  - rewrite bool_decide_eq_true_2 by done. rewrite decide_True by by left. exists n. split; [done|]. split; [by left|done].
  - rewrite bool_decide_eq_false_2 by done. destruct (decide (s ∈ l)) as [Hsl|Hsl].
    + rewrite decide_True by by right. destruct IH as (n' & ? & ? & ?). exists n'. split; [done|]. split; [by right|done].
    + rewrite decide_False; [done|]. by intros [->|?]%elem_of_cons.
Qed.
End names.

(** ** From the device to the results *)
Section host_run.
Context (re_compile : pystr -> option (pystr -> option nat)) (clock : nat -> Z) (cfg : config) (cls : list pystr -> class_script).
Context (execute : pystr -> command_results) (loads : pystr -> pyres testability) (abi : pystr) (compliance : bool).

End host_run.

(** ** A light with two instances *)
Module HostSample.
Definition light : pystr := bs "android.hardware.light@2.0::ILight".
Definition execute (_ : pystr) : command_results := mk_results [Some []] [None] [0%Z].
Definition loads (_ : pystr) : pyres testability := Ok (mk_testability (bs "True") [bs "default"; bs "slot2"]).
(** The test fails on the second instance. *)
Definition outcome (param : list pystr) : xres pyval :=
  match service_name_in param light with
  | Ret n => if decide (n = bs "default") then Ret PNone else Exc (ESignal TestFailure (bs "no") PNone)
  | Exc e => Exc e
  end.
Definition tests : list (pystr * (list pystr -> nat -> script)) := [(bs "testOn", fun param _ => quiet (outcome param))].
Definition combinations : list (list pystr) := full_combinations {[light := [bs "default"; bs "slot2"]]} [light].
Definition with_retries (n : nat) : config :=
  mk_config (bs "M") (default_Filter sample_compile initial_heap) (Some (bs "64")) false false false false false true n.
Definition heals (b : bool) : class_script := mk_class (fun _ _ => Ret PNone) (fun _ _ => None) (fun _ => Ret tt) (fun _ => b) false.
Definition run_ (n : nat) (b : list pystr -> bool) (outcome : list pystr -> xres pyval) : xres unit * world :=
  run_params sample_compile Z.of_nat (with_retries n) (fun p => heals (b p)) HostParamTag combinations
    (as_tests [(bs "testOn", fun param _ => quiet (outcome param))]) sample_world.
Definition report (w : world) : list (pystr * option test_result) :=
  (fun r => (Records.test_name (rec (w_store w) r), result (rec (w_store w) r))) <$> executed (results w).
Definition left_over (w : world) : list pystr := (fun r => Records.test_name (rec (w_store w) r)) <$> requested (results w).
End HostSample.


(** The tag of the first instance stays in the name of the second. *)
Example tags_accumulate :
  HostSample.report (HostSample.run_ 0 (fun _ => true) HostSample.outcome).2 =
    [(bs "testOn(default)", Some PASS); (bs "testOn(default)(slot2)", Some FAIL)].
Proof. vm_compute. reflexivity. Qed.

(** After a retry under one parameter its filter stays: the first attempt of the next
    parameter runs nothing, and when the device does not heal before the second, its
    tests are not run at all. *)
Definition fails_on_default (param : list pystr) : xres pyval :=
  match HostSample.outcome param with Ret _ => Exc (ESignal TestFailure (bs "no") PNone) | Exc _ => Ret PNone end.
Example filter_of_retry_stays :
  let heals param := is_ret (HostSample.outcome param) in
  let w := (HostSample.run_ 1 heals fails_on_default).2 in
  HostSample.report w = [(bs "testOn(default)", Some FAIL)] /\ HostSample.left_over w = [bs "testOn(default)(slot2)"].
Proof. vm_compute. by split. Qed.

(** No parameters: a HAL that is not there leaves a result without any record, not one
    that says that it was skipped. *)
Example nothing_recorded_without_parameters loads w :
  loads = (fun _ : pystr => Ok (mk_testability (bs "False") [])) ->
  exists reason, host_combinations HostSample.execute loads (bs "64") false [HostSample.light] [HostSample.light] = Ret ([], Some reason) /\
  run_params sample_compile Z.of_nat sample_config (fun _ => sample_class) HostParamTag [] (as_tests HostSample.tests) w = (Ret tt, w).
Proof. intros ->. eexists. split; reflexivity. Qed.

(** Names with a slash: two instances with one tag, and a test that cannot find out
    which it is given. *)
Example names_with_slash :
  let camera := bs "android.hardware.camera.provider@2.4::ICameraProvider" in
  let m : instance_map := {[camera := [bs "legacy/0"; bs "legacy/1"]]} in
  HostParamTag <$> full_combinations m [camera] = [Ret (bs "(legacy)"); Ret (bs "(legacy)")] /\
  (fun c => service_name_in c camera) <$> full_combinations m [camera] =
    [Exc (EOther Python_ValueError (bs "unpack")); Exc (EOther Python_ValueError (bs "unpack"))] /\
  appendix_of <$> full_combinations m [camera] = [bs "(legacy/0)"; bs "(legacy/1)"].
Proof. vm_compute. repeat split. Qed.

Lemma host_tag_is_appendix_witness :
  HostParamTag [instance_of HostSample.light (bs "slot2")] = Ret (bs "(slot2)").
Proof.
  apply (host_tag_is_appendix {[HostSample.light := [bs "slot2"]]} [instance_of HostSample.light (bs "slot2")] [HostSample.light]).
  - repeat constructor. exists (bs "slot2"). split; [|reflexivity]. apply list_elem_of_here.
  - repeat constructor.
  - intros s n Hs Hn. apply list_elem_of_singleton in Hs as ->. apply list_elem_of_singleton in Hn as ->. reflexivity.
Defined.
Lemma service_name_found_witness : service_name_in [instance_of HostSample.light (bs "slot2")] (bs "other") = Ret (bs "default").
Proof.
  apply (service_name_found {[HostSample.light := [bs "slot2"]]} [instance_of HostSample.light (bs "slot2")] [HostSample.light] (bs "other")).
  - repeat constructor. exists (bs "slot2"). split; [|reflexivity]. apply list_elem_of_here.
  - apply NoDup_singleton.
  - repeat constructor.
  - intros s n Hs Hn. apply list_elem_of_singleton in Hs as ->. apply list_elem_of_singleton in Hn as ->. reflexivity.
Defined.
