(* ===== verification/HalGtest.v ===== *)
(** * HAL tests on the target ([src/testcases/template/hal_hidl_gtest/hal_hidl_gtest.py])

    The class around HidlCreateTestCase of HalServices: it sets up like a class of
    gtests, switches the scaling of CPUs off with CpuScaling, checks its preconditions,
    and switches the scaling on again at its end.  What it inherits, the preconditions
    and the coverage of HALs are arguments; the device is an instance of [Sysfs]. *)

From Stdlib Require Import Strings.Byte.
From S2P Require Import Prelude PyStr FilterUtils Records BaseTest RunTests PyVal Signals Shell ListUtils CpuScaling BinaryTest BinaryRun HalServices.

(** ** The class *)
(** [_cpu_freq] is absent or a controller; [_target_hals] may not be set. *)
Record hal_class := mk_hal_class {
  cpu_freq : option (option cpu_config);
  testcases_ : list BinaryTestCase;
  initial_test_case_cnt : nat;
  target_hals_ : option (list pystr);
  expansions : list (list pystr);
  skip_all_ : option pystr;
  timer : option (Z * Z);
}.
Definition fresh_class : hal_class := mk_hal_class None [] 0 None [] None None.
Definition set_cpu (c : option (option cpu_config)) (h : hal_class) : hal_class :=
  mk_hal_class c (testcases_ h) (initial_test_case_cnt h) (target_hals_ h) (expansions h) (skip_all_ h) (timer h).
Definition set_testcases (l : list BinaryTestCase) (h : hal_class) : hal_class :=
  mk_hal_class (cpu_freq h) l (initial_test_case_cnt h) (target_hals_ h) (expansions h) (skip_all_ h) (timer h).
Definition set_count (n : nat) (h : hal_class) : hal_class :=
  mk_hal_class (cpu_freq h) (testcases_ h) n (target_hals_ h) (expansions h) (skip_all_ h) (timer h).
Definition set_hals (l : option (list pystr)) (h : hal_class) : hal_class :=
  mk_hal_class (cpu_freq h) (testcases_ h) (initial_test_case_cnt h) l (expansions h) (skip_all_ h) (timer h).
Definition expand (l : list pystr) (h : hal_class) : hal_class :=
  mk_hal_class (cpu_freq h) (testcases_ h) (initial_test_case_cnt h) (target_hals_ h) (expansions h ++ [l]) (skip_all_ h) (timer h).
Definition set_skip (r : option pystr) (h : hal_class) : hal_class :=
  mk_hal_class (cpu_freq h) (testcases_ h) (initial_test_case_cnt h) (target_hals_ h) (expansions h) r (timer h).
Definition set_timer (t : option (Z * Z)) (h : hal_class) : hal_class :=
  mk_hal_class (cpu_freq h) (testcases_ h) (initial_test_case_cnt h) (target_hals_ h) (expansions h) (skip_all_ h) t.

(** What [CreateTestCase] notes. *)
Definition note (r : created) (h : hal_class) : hal_class :=
  let h := match target_hals r with Some l => set_hals (Some l) h | None => h end in
  let h := match appendix_list r with Some l => expand l h | None => h end in
  match skip_reason r with Some reason => set_skip (Some reason) h | None => h end.

Section hal.
Context {D : Type} (execute : list pystr -> D -> command_results * D) (sleep : Z -> D -> D).
Context (query : D -> pystr -> command_results) (loads : pystr -> pyres testability).
Abbreviation St := (hal_class * D)%type.
Abbreviation M := (xstM St).
(** What the classes above define; the first gets the method that makes the cases of a
    binary. *)
Context (super_setUpClass : (settings -> pystr -> pystr -> M (list BinaryTestCase)) -> M binary_class).
Context (super_CreateTestCase : settings -> pystr -> pystr -> M (list BinaryTestCase)).
Context (super_setUp super_tearDown super_tearDownClass : xstM D unit) (CanRunHidlHalTest : xstM D bool).
Context (abi_bitness : pystr) (run_as_compliance_test : bool) (timeout : Z).
Context (skip_if_thermal_throttling disable_cpu_frequency_scaling passthrough_opt sancov_enabled coverage_enabled : bool).
Context (sancov_Initialize sancov_Process coverage_Initialize : list pystr -> xstM D unit).

Definition on_device {A} (m : xstM D A) : M A := fun s => let '(r, d) := m s.2 in (r, (s.1, d)).
Definition upd (f : hal_class -> hal_class) : M unit := fun s => (Ret tt, (f s.1, s.2)).
Definition get_class : M hal_class := fun s => (Ret s.1, s).
(** A call of the controller. *)
Definition on_cpu {A} (m : xstM (option cpu_config * D) A) : M A := fun s =>
  match cpu_freq s.1 with
  | Some c => let '(r, (c, d)) := m (c, s.2) in (r, (set_cpu (Some c) s.1, d))
  | None => (Exc (EOther Python_AttributeError []), s)
  end.
Definition if_ (b : bool) (m : M unit) : M unit := if b then m else mret tt.
Definition is_set {A} (o : option A) : bool := match o with Some _ => true | None => false end.
Definition truthy {A} (l : list A) : bool := match l with [] => false | _ => true end.

(** *** Creating the cases *)
Definition HalCreateTestCase (cfg : settings) (path tag : pystr) : M (list BinaryTestCase) :=
  initial_test_cases ← super_CreateTestCase cfg path tag;
  _ ← upd (fun h => set_count (initial_test_case_cnt h + length initial_test_cases) h);
  s ← xget;
  r ← xlift (HidlCreateTestCase (query s.2) loads abi_bitness run_as_compliance_test initial_test_cases);
  _ ← upd (note r);
  mret (cases r).

(** *** Setting up and tearing down *)
Definition reset_timer : M unit :=
  h ← get_class;
  let n := Z.of_nat (length (testcases_ h)) in
  let initial := Z.of_nat (initial_test_case_cnt h) in
  if_ (negb (is_set (skip_all_ h)) && negb (initial =? 0)%Z && (initial <? n)%Z)
    (upd (set_timer (Some (timeout * n, initial)%Z))).
Definition initialize_coverage : M unit :=
  h ← get_class;
  let hals := default [] (target_hals_ h) in
  _ ← if_ (sancov_enabled && truthy hals) (on_device (sancov_Initialize hals));
  if_ (coverage_enabled && truthy hals) (on_device (coverage_Initialize hals)).
Definition hal_setUpClass : M unit :=
  _ ← upd (set_count 0);
  c ← super_setUpClass HalCreateTestCase;
  _ ← upd (fun h =>
    set_skip (match skip_all_ h with Some r => Some r | None => skip_all c end)
      (set_testcases (if passthrough_opt then (EnablePassthroughMode (testcases c)).1 else testcases c) h));
  _ ← upd (fun h => set_hals (Some (default [] (target_hals_ h))) h);
  h ← get_class;
  _ ← (if is_set (skip_all_ h) then upd (set_cpu None)
       else
         _ ← upd (set_cpu (Some None));
         if_ disable_cpu_frequency_scaling (on_cpu (DisableCpuScaling execute)));
  _ ← if_ (negb (is_set (skip_all_ h)))
        (ret ← on_device CanRunHidlHalTest;
         if_ (negb ret) (upd (set_skip (Some (bs "HIDL HAL precondition check failed.")))));
  _ ← reset_timer;
  initialize_coverage.

Definition hal_setUp : M unit :=
  _ ← on_device super_setUp;
  h ← get_class;
  if_ (skip_if_thermal_throttling && is_set (cpu_freq h)) (on_cpu (SkipIfThermalThrottling execute sleep 30)).
Definition hal_tearDown : M unit :=
  h ← get_class;
  _ ← if_ (skip_if_thermal_throttling && is_set (cpu_freq h)) (on_cpu (SkipIfThermalThrottling execute sleep 0));
  on_device super_tearDown.
Definition hal_tearDownClass : M unit :=
  h ← get_class;
  _ ← if_ (negb (is_set (skip_all_ h)) && is_set (cpu_freq h) && disable_cpu_frequency_scaling) (on_cpu (EnableCpuScaling execute));
  _ ← (if sancov_enabled then
         match target_hals_ h with
         | None => xlift (Exc (EOther Python_AttributeError []))
         | Some hals => if_ (truthy hals) (on_device (sancov_Process hals))
         end
       else mret tt);
  on_device super_tearDownClass.

(** The tests of the class, with the hooks around each; what raises is reported. *)
Fixpoint hal_tests (tests : list (xstM D unit)) : M unit :=
  match tests with
  | [] => mret tt
  | t :: tests => _ ← xattempt (_ ← hal_setUp; on_device t); _ ← xattempt hal_tearDown; hal_tests tests
  end.

(** ** What is noted of a binary *)
(** The cases of a binary whose services all have instances: as [HidlCreateTestCase_spec]
    says, and the class notes the services of this binary in place of those before. *)
Lemma HalCreateTestCase_run cfg path tag s initial h d services names mode stderr codes :
  super_CreateTestCase cfg path tag s = (Ret initial, (h, d)) ->
  initial <> [] -> services <> [] -> forallb (no_byte Byte.x0a) services = true -> (0 <= mode)%Z ->
  mode <> NAME_MATCH -> mode <> NO_COMBINATION ->
  (forall first rest, initial = first :: rest ->
     query d (list_services_command first) = mk_results [Some (render_services services mode)] stderr (0%Z :: codes)) ->
  registered (query d) loads abi_bitness run_as_compliance_test services names ->
  exists new h', HalCreateTestCase cfg path tag s = (Ret new, (h', d)) /\
    initial_test_case_cnt h' = initial_test_case_cnt h + length initial /\
    length new = foldr Nat.mul 1 ((fun s => length (names s)) <$> reverse services) * length initial /\
    target_hals_ h' = Some services /\ skip_all_ h' = skip_all_ h /\ cpu_freq h' = cpu_freq h.
Proof.
  intros E Hi Hs Hnl Hmode Hm1 Hm2 Hex Hreg.
  destruct (HidlCreateTestCase_spec (query d) loads abi_bitness run_as_compliance_test initial services names mode stderr codes)
    as (r & Er & Hskip & Hhals & _ & Hlen & Happ); [done..|].
  exists (cases r), (note r (set_count (initial_test_case_cnt h + length initial) h)). split.
  - unfold HalCreateTestCase. rewrite (xstM_bind_run _ _ _ _ _ E). erewrite xstM_bind_run by reflexivity.
    erewrite xstM_bind_run by reflexivity. cbn [fst snd]. unfold xlift. rewrite Er. by erewrite xstM_bind_run by reflexivity.
  - unfold note. rewrite Hskip, Hhals. by destruct (appendix_list r).
Qed.

(** ** The governors of the CPUs *)
Context (n : nat) (n_pos : 0 < n) `{!Sysfs execute n}.
Abbreviation gov := (governor (n := n)).

(** The scaling is off, by a controller that knows the governors before. *)
Definition active (saved : list pystr) (s : St) : Prop :=
  skip_all_ s.1 = None /\ exists c, cpu_freq s.1 = Some (Some c) /\ armed n saved c.
Definition skipped (s : St) : Prop := is_set (skip_all_ s.1) = true.

Lemma keeps_if P b (m : M unit) : xkeeps P m -> xkeeps P (if_ b m).
Proof. intros Hm. destruct b; [done|apply xkeeps_ret]. Qed.
Lemma keeps_device P {A} (m : xstM D A) : (forall h d d', P (h, d) -> P (h, d')) -> xkeeps P (on_device m).
Proof. intros HP [h d] Hs. unfold on_device. cbn [fst snd]. destruct (m d) as [r d']. by eapply HP. Qed.
Lemma keeps_active_device saved {A} (m : xstM D A) : xkeeps (active saved) (on_device m).
Proof. by apply keeps_device. Qed.
Lemma keeps_skipped_device {A} (m : xstM D A) : xkeeps skipped (on_device m).
Proof. by apply keeps_device. Qed.
Lemma keeps_active_class saved : xkeeps (active saved) get_class.
Proof. by intros s Hs. Qed.
Lemma keeps_skipped_class : xkeeps skipped get_class.
Proof. by intros s Hs. Qed.
Lemma keeps_active_throttling saved delay : xkeeps (active saved) (on_cpu (SkipIfThermalThrottling execute sleep delay)).
Proof.
  intros [h d] (Hskip & c & Hc & Ha). unfold on_cpu. cbn [fst snd] in *. rewrite Hc.
  pose proof (keeps_armed_Skip execute sleep n saved delay (Some c, d) (ex_intro _ c (conj eq_refl Ha))) as (c' & E & Ha').
  destruct (SkipIfThermalThrottling execute sleep delay (Some c, d)) as [r [c1 d1]]. cbn [fst snd] in E. subst c1.
  split; [done|]. by exists c'.
Qed.
Lemma keeps_active_timer saved : xkeeps (active saved) reset_timer.
Proof. apply xkeeps_bind; [apply keeps_active_class|]. intros h. apply keeps_if. by intros [h' d] Hs. Qed.
Lemma keeps_skipped_timer : xkeeps skipped reset_timer.
Proof. apply xkeeps_bind; [apply keeps_skipped_class|]. intros h. apply keeps_if. by intros [h' d] Hs. Qed.

Lemma keeps_active_setUp saved : xkeeps (active saved) hal_setUp.
Proof.
  apply xkeeps_bind; [apply keeps_active_device|]. intros _. apply xkeeps_bind; [apply keeps_active_class|]. intros h.
  apply keeps_if, keeps_active_throttling.
Qed.
Lemma keeps_active_tearDown saved : xkeeps (active saved) hal_tearDown.
Proof.
  apply xkeeps_bind; [apply keeps_active_class|]. intros h. apply xkeeps_bind; [apply keeps_if, keeps_active_throttling|].
  intros _. apply keeps_active_device.
Qed.
Lemma keeps_active_tests saved tests : xkeeps (active saved) (hal_tests tests).
Proof.
  induction tests as [|t tests IH]; [apply xkeeps_ret|]. cbn [hal_tests].
  apply xkeeps_bind; [apply xkeeps_attempt, xkeeps_bind; [apply keeps_active_setUp|intros _; apply keeps_active_device]|]. intros _.
  apply xkeeps_bind; [apply xkeeps_attempt, keeps_active_tearDown|]. intros _. exact IH.
Qed.

Definition keeps_governors {A} (m : xstM D A) : Prop := forall d i, gov (m d).2 i = gov d i.

Lemma keeps_active_after saved : xkeeps (active saved) initialize_coverage.
Proof.
  apply xkeeps_bind; [apply keeps_active_class|]. intros h. apply xkeeps_bind; [apply keeps_if, keeps_active_device|].
  intros _. apply keeps_if, keeps_active_device.
Qed.
Lemma keeps_skipped_after : xkeeps skipped initialize_coverage.
Proof.
  apply xkeeps_bind; [apply keeps_skipped_class|]. intros h. apply xkeeps_bind; [apply keeps_if, keeps_skipped_device|].
  intros _. apply keeps_if, keeps_skipped_device.
Qed.

(** What the class inherits sets up leaves the governors, and the CPUs online. *)
Context (super_keeps : forall s i, gov (super_setUpClass HalCreateTestCase s).2.2 i = gov s.2 i).
Context (super_online : forall s, all_online (n := n) s.2 = true -> all_online (n := n) (super_setUpClass HalCreateTestCase s).2.2 = true).

Lemma setUp_active s s1 :
  disable_cpu_frequency_scaling = true -> tidy_governors execute n s.2 -> all_online (n := n) s.2 = true ->
  hal_setUpClass s = (Ret tt, s1) -> skip_all_ s1.1 = None -> active (governors_of execute n s.2) s1.
Proof using super_keeps super_online n_pos.
  intros Hdis Htidy Hon Hrun Hnone. unfold hal_setUpClass in Hrun. rewrite Hdis in Hrun.
  apply xstM_bind_Ret in Hrun as (u & s0 & [= <- <-] & Hrun). apply xstM_bind_Ret in Hrun as (c & [h2 d2] & E2 & Hrun).
  pose proof (super_keeps (set_count 0 s.1, s.2)) as Hkeep. rewrite E2 in Hkeep. cbn [fst snd] in Hkeep.
  pose proof (super_online (set_count 0 s.1, s.2) Hon) as Hon2. rewrite E2 in Hon2. cbn [fst snd] in Hon2.
  apply xstM_bind_Ret in Hrun as (u & s3 & [= <- <-] & Hrun). apply xstM_bind_Ret in Hrun as (u & s4 & [= <- <-] & Hrun).
  apply xstM_bind_Ret in Hrun as (h & s5 & [= <- <-] & Hrun). cbn [fst snd] in Hrun.
  match type of Hrun with context [set_hals ?l ?h] => set (h5 := set_hals l h) in * end.
  destruct (is_set (skip_all_ h5)) eqn:Hsk; cbn [negb if_] in Hrun.
  - exfalso. assert (skipped s1) as Hs; [|unfold skipped in Hs; by rewrite Hnone in Hs].
    apply xstM_bind_Ret in Hrun as (u & s6 & [= <- <-] & Hrun). apply xstM_bind_Ret in Hrun as (u & s7 & [= <- <-] & Hrun).
    apply xstM_bind_Ret in Hrun as (? & s8 & E8 & Hrun).
    pose proof (keeps_skipped_timer (set_cpu None h5, d2) Hsk) as H8. cbn [fst snd] in E8. rewrite E8 in H8. cbn [snd] in H8.
    pose proof (keeps_skipped_after s8 H8) as H9. by rewrite Hrun in H9.
  - apply xstM_bind_Ret in Hrun as (? & s6 & E6 & Hrun).
    assert (active (governors_of execute n s.2) s6) as H6.
    { erewrite xstM_bind_run in E6 by reflexivity. unfold on_cpu in E6. cbn [fst snd set_cpu cpu_freq] in E6.
      destruct (Disable_run execute n n_pos d2) as (c1 & d1 & E & Ha & _).
      { intros i. rewrite Hkeep. apply Htidy. }
      { exact Hon2. }
      rewrite E in E6. injection E6 as <- <-. split; [change (skip_all_ h5 = None); by destruct (skip_all_ h5)|]. exists c1. split; [done|].
      assert (governors_of execute n d2 = governors_of execute n s.2) as <-; [|done].
      unfold governors_of. apply list_fmap_ext. intros _ i _. apply Hkeep. }
    apply xstM_bind_Ret in Hrun as (? & s7 & E7 & Hrun).
    apply xstM_bind_Ret in E7 as (can & s7' & E7' & E7).
    pose proof (keeps_active_device _ CanRunHidlHalTest _ H6) as H7'. rewrite E7' in H7'. cbn [snd] in H7'.
    apply xstM_bind_Ret in Hrun as (? & s8 & E8 & Hrun).
    destruct can; cbn [negb if_] in E7; injection E7 as <- <-.
    + pose proof (keeps_active_timer _ _ H7') as H8. rewrite E8 in H8. cbn [snd] in H8. pose proof (keeps_active_after _ _ H8) as H9. by rewrite Hrun in H9.
    + exfalso. assert (skipped s1) as Hs; [|unfold skipped in Hs; by rewrite Hnone in Hs].
      assert (skipped s8) as H8. { pose proof (keeps_skipped_timer (set_skip (Some (bs "HIDL HAL precondition check failed.")) s7'.1, s7'.2) eq_refl) as H8. by rewrite E8 in H8. }
      pose proof (keeps_skipped_after s8 H8) as H9. by rewrite Hrun in H9.
Qed.

(** C24: when the scaling is to be switched off and the class is set up and not skipped,
    then whatever its tests do to the device and however they end, tearing it down gives
    every CPU the governor again that it had before this set-up, provided that all CPUs
    are online at the set-up and when it is torn down (only then can their governors be
    read and written), and that what the class inherits leaves the governors alone. *)
Theorem class_restores_governors tests s s1 :
  disable_cpu_frequency_scaling = true -> tidy_governors execute n s.2 ->
  all_online (n := n) s.2 = true -> all_online (n := n) (hal_tests tests s1).2.2 = true ->
  keeps_governors super_tearDownClass -> (forall hals, keeps_governors (sancov_Process hals)) ->
  hal_setUpClass s = (Ret tt, s1) -> skip_all_ s1.1 = None ->
  forall i, i < n -> gov (hal_tearDownClass (hal_tests tests s1).2).2.2 (Z.of_nat i) = gov s.2 (Z.of_nat i).
Proof using super_keeps super_online n_pos.
  intros Hdis Htidy Hon Hon2 Hdown Hcov Hrun Hnone i Hi.
  pose proof (keeps_active_tests _ tests _ (setUp_active s s1 Hdis Htidy Hon Hrun Hnone)) as Hact.
  destruct ((hal_tests tests s1).2) as [h2 d2]. destruct Hact as (Hskip & c & Hc & Ha). cbn [fst] in *.
  unfold hal_tearDownClass. erewrite xstM_bind_run by reflexivity. cbn [fst]. rewrite Hskip, Hc, Hdis. cbn [is_set negb andb if_].
  destruct (Enable_run execute n n_pos c s.2 d2 Ha Hon2) as (c' & d3 & E & _ & Hg).
  erewrite xstM_bind_run; [|unfold on_cpu; cbn [fst snd]; rewrite Hc, E; reflexivity].
  assert (forall h d j, gov (on_device super_tearDownClass (h, d)).2.2 j = gov d j) as Hsuper.
  { intros h d j. unfold on_device. cbn [fst snd]. specialize (Hdown d j). by destruct (super_tearDownClass d). }
  rewrite <- (Hg i Hi). destruct sancov_enabled; [|erewrite xstM_bind_run by reflexivity; apply Hsuper].
  destruct (target_hals_ h2) as [hals|]; [|reflexivity]. destruct (truthy hals); cbn [if_]; [|erewrite xstM_bind_run by reflexivity; apply Hsuper].
  specialize (Hcov hals d3 (Z.of_nat i)). unfold mbind, xstM_bind. unfold on_device at 1. cbn [fst snd].
  destruct (sancov_Process hals d3) as [[u|e] d4]; cbn [fst snd] in *; [by rewrite Hsuper|done].
Qed.
End hal.

(** ** A device of two CPUs *)
Module HalSample.
(** The precondition is not met, or cannot be checked at the first time. *)
Inductive precondition := Met | Unmet | Interrupted.
#[export] Instance precondition_eq_dec : EqDecision precondition.
Proof. solve_decision. Defined.
Definition D : Type := TwoCpus.state * precondition.
Definition execute (cmds : list pystr) (d : D) : command_results * D :=
  let '(r, g) := TwoCpus.execute cmds d.1 in (r, (g, d.2)).
#[export] Instance sysfs : Sysfs execute 2.
Proof.
  refine {| governor := fun d => TwoCpus.governor d.1; online := fun _ _ => true |}.
  - intros [g p]. by exists [None].
  - intros [g p]. exists [None; None], [0; 0]%Z. by split.
  - intros [g p] modes Hm. destruct (CpuScaling.sysfs_write (execute := TwoCpus.execute) g modes Hm) as (outs & errs & codes & g' & E & Ho & Hc & Hg).
    exists outs, errs, codes, (g', p). unfold execute. cbn [fst snd]. rewrite E. by split_and!.
Defined.
Definition no_settings : settings := mk_settings ∅ ∅ ∅ ∅ ∅.
Definition super_setUpClass (_ : settings -> pystr -> pystr -> xstM (hal_class * D) (list BinaryTestCase)) : xstM (hal_class * D) binary_class :=
  mret (mk_class no_settings [] ∅ None).
Definition CanRun : xstM D bool := fun d =>
  match d.2 with Met => (Ret true, d) | Unmet => (Ret false, d) | Interrupted => (Exc (EOther Python_IOError []), (d.1, Met)) end.
Definition setUpClass (s : hal_class * D) : xres unit * (hal_class * D) :=
  hal_setUpClass execute (fun _ _ => mk_results [] [] []) (fun _ => Raise ValueError) super_setUpClass (fun _ _ _ => mret []) CanRun (bs "64") false 60
    true false false false (fun _ => mret tt) (fun _ => mret tt) s.
Definition tearDownClass (s : hal_class * D) : xres unit * (hal_class * D) :=
  hal_tearDownClass execute (mret tt) true false (fun _ => mret tt) s.
Definition governors : TwoCpus.state := (bs "schedutil", bs "ondemand").
Definition run_tests (tests : list (xstM D unit)) (s : hal_class * D) : xres unit * (hal_class * D) :=
  hal_tests execute (fun _ d => d) (mret tt) (mret tt) false tests s.
End HalSample.
#[local] Existing Instance HalSample.sysfs.

(** A test that sets the governor of a CPU itself. *)
Lemma class_restores_governors_witness :
  let test : xstM HalSample.D unit := fun d => (Exc (ESignal TestFailure [] PNone), ((bs "powersave", d.1.2), d.2)) in
  let s1 := (HalSample.setUpClass (fresh_class, (HalSample.governors, HalSample.Met))).2 in
  TwoCpus.governor (HalSample.tearDownClass (HalSample.run_tests [test] s1).2).2.2.1 1 = bs "ondemand".
Proof.
  intros test s1.
  apply (class_restores_governors HalSample.execute (fun _ d => d) (fun _ _ => mk_results [] [] []) (fun _ => Raise ValueError) HalSample.super_setUpClass
    (fun _ _ _ => mret []) (mret tt) (mret tt) (mret tt) HalSample.CanRun (bs "64") false 60 false true false false false (fun _ => mret tt) (fun _ => mret tt) (fun _ => mret tt)
    2 ltac:(lia) ltac:(reflexivity) ltac:(reflexivity) [test] (fresh_class, (HalSample.governors, HalSample.Met)) s1 eq_refl) with (i := 1).
  - intros i. cbn. unfold TwoCpus.governor. by destruct (i =? 0)%Z.
  - reflexivity.
  - reflexivity.
  - by intros d i.
  - by intros hals d i.
  - vm_compute. reflexivity.
  - vm_compute. reflexivity.
  - lia.
Defined.

(** A precondition that is not met is found after the scaling was switched off, and a
    class that is skipped does not switch it on again. *)
Example unmet_precondition_keeps_performance :
  let s1 := (HalSample.setUpClass (fresh_class, (HalSample.governors, HalSample.Unmet))).2 in
  skip_all_ s1.1 = Some (bs "HIDL HAL precondition check failed.") /\
  (HalSample.tearDownClass s1).2.2.1 = (bs "performance", bs "performance").
Proof. vm_compute. by split. Qed.

(** A set up that fails after that and is run again makes a controller that takes
    "performance" for the governors to restore. *)
Example second_setup_forgets_governors :
  let '(r, s1) := HalSample.setUpClass (fresh_class, (HalSample.governors, HalSample.Interrupted)) in
  let '(r', s2) := HalSample.setUpClass s1 in
  r = Exc (EOther Python_IOError []) /\ r' = Ret tt /\ skip_all_ s2.1 = None /\
  (HalSample.tearDownClass s2).2.2.1 = (bs "performance", bs "performance").
Proof. vm_compute. by repeat split. Qed.

(** Throttling that is found after a test does not skip it: what tearDown raises is
    dropped. *)
Example throttling_after_test_is_dropped :
  let s := mk_script true true (Ret PNone) (Ret PNone) (skipIf true (PStr (bs "Thermal throttling")) PNone) (fun _ => Ret tt) (Ret tt) (Ret tt) in
  let w := (execOneTest sample_compile Z.of_nat sample_config (bs "testOn") s sample_world).2 in
  (fun r => result (rec (w_store w) r)) <$> executed (results w) = [Some PASS].
Proof. vm_compute. reflexivity. Qed.
