(* ===== verification/HalReplay.v ===== *)
(** * Replaying traces of HALs ([src/testcases/template/hal_hidl_replay_test/hal_hidl_replay_test.py])

    A trace is pushed to the device and replayed there, once for each combination of the
    instances of the services that it names (HalServices); the traces are removed at the
    end.  The device is an instance of the class [TraceDevice], whose laws say what
    pushing and removing do to its files. *)

From Stdlib Require Import Strings.Byte.
From S2P Require Import Prelude PyStr PyPath PyVal Signals Shell ListUtils BinaryTest BinaryRun HalServices.

Definition DEVICE_TMP_DIR : pystr := bs "/data/local/tmp".
Definition DEVICE_VTS_SPEC_FILE_PATH : pystr := bs "/data/local/tmp/spec".
Definition DEVICE_VTS_TRACE_FILE_PATH : pystr := bs "/data/local/tmp/vts_replay_trace".

(** ** The state of the class *)
Record replay_class := mk_replay {
  replay_testcases : list BinaryTestCase;
  test_hal_services : gset pystr;
  replay_expansions : list (list pystr);
  replay_skip : option pystr;
}.
Definition add_services (l : list pystr) (c : replay_class) : replay_class :=
  mk_replay (replay_testcases c) (list_to_set l ∪ test_hal_services c) (replay_expansions c) (replay_skip c).
Definition add_cases (l : list BinaryTestCase) (c : replay_class) : replay_class :=
  mk_replay (replay_testcases c ++ l) (test_hal_services c) (replay_expansions c) (replay_skip c).
Definition add_expansion (l : list pystr) (c : replay_class) : replay_class :=
  mk_replay (replay_testcases c) (test_hal_services c) (replay_expansions c ++ [l]) (replay_skip c).
Definition skip_replay (msg : pystr) (c : replay_class) : replay_class :=
  mk_replay (replay_testcases c) (test_hal_services c) (replay_expansions c) (Some msg).

Definition set_test_name (n : pystr) (c : BinaryTestCase) : BinaryTestCase :=
  mk_case (test_suite c) (strip n) (case_path c) (tag c) (case_working_directory c) (case_ld_library_path c)
    (case_profiling_library_path c) (case_cmd c) (case_envp c) (case_args c) (name_appendix c).

(** The services that the replayer lists. *)
Definition listed_services (stdout : pystr) : list pystr :=
  omap (fun line => if startswith HAL_SERVICE line then Some (drop (length HAL_SERVICE) line) else None) (split newline stdout).

Section replay.
Context {D : Type} (Execute : pystr -> xstM D command_results) (push : pystr -> pystr -> xstM D unit).
Context (query : D -> pystr -> command_results) (loads : pystr -> pyres testability).
Context (cfg : settings) (data_file_path abi_bitness : pystr) (run_as_compliance_test : bool).
Abbreviation St := (replay_class * D)%type.
Abbreviation M := (xstM St).
Definition dev {A} (m : xstM D A) : M A := fun s => let '(r, d) := m s.2 in (r, (s.1, d)).
Definition upd_class (f : replay_class -> replay_class) : M unit := fun s => (Ret tt, (f s.1, s.2)).

Definition replayer_binary_path : pystr := path_join DEVICE_TMP_DIR [abi_bitness; bs "vts_hal_replayer" ++ abi_bitness].
Definition custom_ld_library_path : pystr := path_join DEVICE_TMP_DIR [abi_bitness].
Definition target_of (trace_path : pystr) : pystr := path_join DEVICE_VTS_TRACE_FILE_PATH [basename trace_path].

(** *** The instances of the services of a trace *)
(** The services with instances up to one that has none, or is not testable. *)
Fixpoint find_services (d : D) (services : list pystr) (found : list pystr) (service_instances : instance_map)
    : xres (list pystr * (instance_map + pystr)) :=
  match services with
  | [] => Ret (found, inl service_instances)
  | service :: services =>
      r ← GetHalServiceName (query d) loads service abi_bitness run_as_compliance_test;
      let '(testable, service_names) := r in
      if negb testable then Ret (found, inr (bs "Hal: " ++ service ++ bs " is not testable, skip all tests."))
      else
        match service_names with
        | [] => Ret (found, inr (bs "No service name found for: " ++ service ++ bs ", skip all tests."))
        | _ => find_services d services (found ++ [service]) (<[service := service_names]> service_instances)
        end
  end.
Definition list_command (trace_path : pystr) : pystr :=
  bs "LD_LIBRARY_PATH=" ++ custom_ld_library_path ++ bs ":$LD_LIBRARY_PATH " ++ replayer_binary_path ++ bs " --list_service " ++ trace_path.
Definition GetServiceInstanceCombinations (trace_path : pystr) : M (list (list pystr)) :=
  _ ← dev (Execute (bs "chmod 755 " ++ replayer_binary_path));
  results ← dev (Execute (list_command trace_path));
  code ← xpure (py_get (EXIT_CODE results) 0);
  _ ← xpure (py_get (STDOUT results) 0); _ ← xpure (py_get (STDERR results) 0);
  _ ← xlift (assertFalse (negb (code =? 0)%Z) (PStr (bs "Failed to list test cases.")) PNone);
  stdout ← xpure (py_get (STDOUT results) 0 ≫= from_opt AttributeError);
  let registered_services := listed_services stdout in
  s ← xget;
  r ← xlift (find_services s.2 registered_services [] ∅);
  _ ← upd_class (add_services r.1);
  match r.2 with
  | inr reason => _ ← upd_class (skip_replay reason); mret []
  | inl service_instances => mret (GetServiceInstancesCombinations registered_services service_instances FULL_PERMUTATION)
  end.

(** *** The cases *)
Definition CreateReplayTestCase (trace_file_name target_trace_path : pystr) : BinaryTestCase :=
  let c := CreateTestCase cfg replayer_binary_path [] in
  let c := set_envp_of (case_envp c ++ bs "LD_LIBRARY_PATH=" ++ custom_ld_library_path ++ bs ":$LD_LIBRARY_PATH") c in
  let c := set_args (case_args c ++ bs " --spec_dir_path=" ++ DEVICE_VTS_SPEC_FILE_PATH) c in
  let c := set_args (case_args c ++ bs " " ++ target_trace_path) c in
  set_test_name (bs "replay_test_" ++ trace_file_name) c.
Definition cases_of (trace_path : pystr) (combinations : list (list pystr)) : list BinaryTestCase :=
  let c := CreateReplayTestCase (basename trace_path) (target_of trace_path) in
  match combinations with
  | [] => [c]
  | _ => (fun comb => with_instances comb c) <$> combinations
  end.
Definition push_trace (trace_path : pystr) : M unit :=
  dev (push (path_join data_file_path [bs "hal-hidl-trace"; trace_path]) (target_of trace_path)).
Definition create_for (trace_path : pystr) : M unit :=
  _ ← push_trace trace_path;
  combinations ← GetServiceInstanceCombinations (target_of trace_path);
  _ ← upd_class (add_cases (cases_of trace_path combinations));
  match combinations with [] => mret tt | _ => upd_class (add_expansion (appendix_of <$> combinations)) end.
Fixpoint ReplayCreateTestCases (trace_paths : list pystr) : M unit :=
  match trace_paths with
  | [] => mret tt
  | trace_path :: trace_paths => _ ← create_for trace_path; ReplayCreateTestCases trace_paths
  end.

(** *** The class *)
Context (super_setUpClass : M unit -> M (option pystr)) (super_tearDownClass : xstM D unit).
Context (timeout : Z) (resetTimeout : Z -> Z -> xstM D unit).
Context (coverage_enabled global_coverage : bool) (SetHalNames : gset pystr -> xstM D unit).
Context (SetCoverageReportFilePrefix : pystr -> xstM D unit) (InitializeDeviceCoverage SetCoverageData : xstM D unit).
Definition when_class (b : bool) (m : M unit) : M unit := if b then m else mret tt.
Definition replay_setUpClass (trace_paths : list pystr) : M unit :=
  r ← super_setUpClass (ReplayCreateTestCases trace_paths);
  _ ← (match r with Some reason => upd_class (skip_replay reason) | None => mret tt end);
  s ← xget;
  if bool_decide (is_Some (replay_skip s.1)) then mret tt
  else
    let n := length (replay_testcases s.1) in
    let traces := length trace_paths in
    _ ← when_class (negb (traces =? 0)%nat && (traces <? n)%nat) (dev (resetTimeout (timeout * Z.of_nat n)%Z (Z.of_nat traces)));
    when_class coverage_enabled (dev (SetHalNames (test_hal_services s.1))).
Fixpoint remove_traces (trace_paths : list pystr) : M unit :=
  match trace_paths with
  | [] => mret tt
  | trace_path :: trace_paths =>
      _ ← dev (Execute (bs "rm -f " ++ path_join DEVICE_TMP_DIR [bs "vts_replay_trace"; basename trace_path]));
      remove_traces trace_paths
  end.
Definition replay_tearDownClass (trace_paths : list pystr) : M unit :=
  s ← xget;
  _ ← when_class (negb (bool_decide (is_Some (replay_skip s.1)))) (remove_traces trace_paths);
  dev super_tearDownClass.
Definition underscored (name : pystr) : pystr := (fun b => if decide (b = slash) then Byte.x5f else b) <$> name.
Definition replay_setUp (super_setUp : xstM D unit) (test_name : pystr) : M unit :=
  _ ← dev super_setUp;
  when_class (coverage_enabled && negb global_coverage)
    (_ ← dev (SetCoverageReportFilePrefix (underscored test_name)); dev InitializeDeviceCoverage).
Definition replay_tearDown (super_tearDown : xstM D unit) : M unit :=
  _ ← when_class (coverage_enabled && negb global_coverage) (dev SetCoverageData);
  dev super_tearDown.
End replay.

(** [VerifyTestResult]: a dictionary of results has three lists. *)
Definition ReplayVerify (command_results : option command_results) : xres unit :=
  match command_results with
  | None => fail (PStr (bs "Empty command response.")) PNone
  | Some r => if existsb (fun c => negb (c =? 0)%Z) (EXIT_CODE r) then fail (PStr (bs "Test failed with the following results")) PNone else Ret tt
  end.

(** ** Devices *)
(** What the replayer lists for a trace. *)
Definition render_listing (services : list pystr) : pystr := mjoin ((fun s => HAL_SERVICE ++ s ++ newline) <$> services).

Definition listed_line (line : pystr) : option pystr := if startswith HAL_SERVICE line then Some (drop (length HAL_SERVICE) line) else None.
Lemma listed_line_service x : listed_line (HAL_SERVICE ++ x) = Some x.
Proof. unfold listed_line. by rewrite startswith_app, drop_app_length. Qed.

Lemma listed_render services : forallb (no_byte Byte.x0a) services = true -> listed_services (render_listing services) = services.
Proof.
  intros Hs. assert (render_listing services = mjoin ((fun l => l ++ newline) <$> ((fun s => HAL_SERVICE ++ s) <$> services))) as ->.
  { unfold render_listing. by rewrite <- list_fmap_compose. }
  unfold listed_services. fold listed_line. rewrite split_lines.
  - rewrite omap_app. change (omap listed_line [[]]) with (@nil pystr). rewrite app_nil_r. clear Hs.
    induction services as [|x l IH]; [done|]. rewrite fmap_cons. cbn [omap list_omap]. rewrite listed_line_service. f_equal. exact IH.
  - rewrite forallb_forall in *. intros l (x & -> & Hin)%list_elem_of_In%list_elem_of_fmap. rewrite no_byte_app. apply andb_true_iff.
    split; [reflexivity|]. by apply Hs, list_elem_of_In.
Qed.

(** A device: its files with where they came from, the services that the trace of a file
    names, and the instances that it has of them. *)
Class TraceDevice {D : Type} (Execute : pystr -> xstM D command_results) (push : pystr -> pystr -> xstM D unit)
    (query : D -> pystr -> command_results) (loads : pystr -> pyres testability) (abi_bitness : pystr) (compliance : bool) := {
  files : D -> gmap pystr pystr;
  services_of : pystr -> list pystr;
  names : pystr -> list pystr;
  device_push src dst d : exists d', push src dst d = (Ret tt, d') /\ files d' = <[dst := src]> (files d);
  device_remove p d : plain_path p = true -> exists r d', Execute (bs "rm -f " ++ p) d = (Ret r, d') /\ files d' = delete p (files d);
  device_chmod p d : exists r, Execute (bs "chmod 755 " ++ p) d = (Ret r, d);
  device_list t src d : plain_path t = true -> files d !! t = Some src -> exists err errs codes,
    Execute (list_command abi_bitness t) d = (Ret (mk_results [Some (render_listing (services_of src))] (err :: errs) (0%Z :: codes)), d);
  device_services src : forallb (no_byte Byte.x0a) (services_of src) = true;
  device_names src s d : s ∈ services_of src -> GetHalServiceName (query d) loads s abi_bitness compliance = Ret (true, names s) /\ names s <> [];
}.

Section device.
Context {D : Type} (Execute : pystr -> xstM D command_results) (push : pystr -> pystr -> xstM D unit).
Context (query : D -> pystr -> command_results) (loads : pystr -> pyres testability).
Context (cfg : settings) (data_file_path abi_bitness : pystr) (compliance : bool).
Context `{!TraceDevice Execute push query loads abi_bitness compliance}.
Abbreviation creates := (ReplayCreateTestCases Execute push query loads cfg data_file_path abi_bitness compliance).

Definition host_path (trace_path : pystr) : pystr := path_join data_file_path [bs "hal-hidl-trace"; trace_path].

Lemma dev_run {A} (m : xstM D A) h d a d' : m d = (Ret a, d') -> dev m (h, d) = (Ret a, (h, d')).
Proof. unfold dev. cbn [fst snd]. by intros ->. Qed.

Lemma find_services_run d src services found acc :
  (forall s, s ∈ services -> s ∈ services_of src) ->
  exists m, find_services query loads abi_bitness compliance d services found acc = Ret (found ++ services, inl m) /\
    (forall s, s ∈ services -> m !! s = Some (names s)) /\ (forall s, s ∉ services -> m !! s = acc !! s).
Proof.
  revert found acc. induction services as [|s l IH]; intros found acc Hr.
  { exists acc. rewrite app_nil_r. split; [done|]. split; [by intros s ?%elem_of_nil|done]. }
  destruct (device_names src s d) as [Hs Hne]; [apply Hr; by left|]. cbn [find_services]. rewrite Hs. cbn [mbind xres_bind negb].
  destruct (names s) as [|n ns] eqn:E; [done|]. rewrite <- E in *.
  destruct (IH (found ++ [s]) (<[s := names s]> acc)) as (m & -> & Hm & Hm'); [by intros s' ?; apply Hr; right|].
  exists m. split; [by rewrite <- app_assoc|]. split.
  - intros s' [->|Hs']%elem_of_cons; [|by apply Hm].
    destruct (decide (s ∈ l)) as [Hin|Hin]; [by apply Hm|]. by rewrite Hm', lookup_insert_eq by done.
  - intros s' [Hne' Hni]%not_elem_of_cons. by rewrite Hm', lookup_insert_ne by done.
Qed.

(** What the cases of a trace are: one for each choice of an instance of every service
    that it names. *)
Definition replays (src trace_path : pystr) (c : BinaryTestCase) : Prop :=
  let base := CreateReplayTestCase cfg abi_bitness (basename trace_path) (target_of trace_path) in
  match services_of src with
  | [] => c = base
  | services => exists comb, c = with_instances comb base /\
      Forall2 (fun i s => exists n, n ∈ names s /\ i = instance_of s n) comb (reverse services)
  end.

Lemma combinations_spec services m :
  (forall s, s ∈ services -> m !! s = Some (names s) /\ names s <> []) ->
  (GetServiceInstancesCombinations services m FULL_PERMUTATION = [] <-> services = []) /\
  forall comb, comb ∈ GetServiceInstancesCombinations services m FULL_PERMUTATION <->
    comb <> [] /\ Forall2 (fun i s => exists n, n ∈ names s /\ i = instance_of s n) comb (reverse services).
Proof.
  intros Hm. change (GetServiceInstancesCombinations services m FULL_PERMUTATION) with (full_combinations m (reverse services)).
  assert (filter (available m) (reverse services) = reverse services) as Hav.
  { apply filter_all_id, Forall_forall. intros s Hin. rewrite elem_of_reverse in Hin. unfold available, names_of. destruct (Hm s Hin) as [-> ?]. done. }
  split.
  - rewrite full_nil, Hav. split; [|by intros ->]. intros E. by rewrite <- (reverse_involutive services), E.
  - intros comb. rewrite full_elem, Hav. f_equiv. apply Forall2_iff_elem. intros i s Hin. rewrite elem_of_reverse in Hin. unfold chosen, names_of.
    by destruct (Hm s Hin) as [-> _].
Qed.

Lemma cases_of_spec trace src m :
  (forall s, s ∈ services_of src -> m !! s = Some (names s) /\ names s <> []) ->
  forall c, c ∈ cases_of cfg abi_bitness trace (GetServiceInstancesCombinations (services_of src) m FULL_PERMUTATION) <-> replays src trace c.
Proof.
  intros Hm c. destruct (combinations_spec _ m Hm) as [Hnil Helem]. unfold cases_of, replays.
  destruct (services_of src) as [|s0 l] eqn:E.
  - rewrite (proj2 Hnil eq_refl). apply list_elem_of_singleton.
  - rewrite <- E in *. destruct (GetServiceInstancesCombinations (services_of src) m FULL_PERMUTATION) as [|c0 cs] eqn:Ec.
    + rewrite (proj1 Hnil eq_refl) in E. done.
    + rewrite <- Ec in *. rewrite list_elem_of_fmap. split.
      * intros (comb & -> & [_ Hin]%Helem). by exists comb.
      * intros (comb & -> & Hin). exists comb. split; [done|]. apply Helem. split; [|done]. intros ->.
        apply Forall2_nil_inv_l in Hin. rewrite <- (reverse_involutive (services_of src)), Hin in E. done.
Qed.

Lemma combinations_run trace src h d :
  plain_path (target_of trace) = true -> files d !! target_of trace = Some src ->
  exists m, GetServiceInstanceCombinations Execute query loads abi_bitness compliance (target_of trace) (h, d) =
      (Ret (GetServiceInstancesCombinations (services_of src) m FULL_PERMUTATION), (add_services (services_of src) h, d)) /\
    forall s, s ∈ services_of src -> m !! s = Some (names s) /\ names s <> [].
Proof using TraceDevice0.
  intros Hp Hf. destruct (device_chmod (replayer_binary_path abi_bitness) d) as [r1 E1]. destruct (device_list _ src d Hp Hf) as (err & errs & codes & E2).
  destruct (find_services_run d src (services_of src) [] ∅ (fun s H => H)) as (m & Em & Hm & _). exists m. split.
  - unfold GetServiceInstanceCombinations. rewrite (xstM_bind_run _ _ _ _ _ (dev_run _ h d _ _ E1)).
    rewrite (xstM_bind_run _ _ _ _ _ (dev_run _ h d _ _ E2)). cbn [EXIT_CODE STDOUT STDERR].
    do 4 (erewrite xstM_bind_run by reflexivity). erewrite xstM_bind_run by reflexivity. cbn [from_opt].
    rewrite listed_render by apply device_services. erewrite xstM_bind_run by reflexivity. cbn [snd].
    erewrite xstM_bind_run by (unfold xlift; rewrite Em; reflexivity). by erewrite xstM_bind_run by reflexivity.
  - intros s Hs. split; [by apply Hm|]. by apply (device_names src s d).
Qed.

Lemma create_for_run trace h d : plain_path (target_of trace) = true ->
  exists h' d' new, create_for Execute push query loads cfg data_file_path abi_bitness compliance trace (h, d) = (Ret tt, (h', d')) /\
    files d' = <[target_of trace := host_path trace]> (files d) /\
    replay_testcases h' = replay_testcases h ++ new /\ replay_skip h' = replay_skip h /\ forall c, c ∈ new <-> replays (host_path trace) trace c.
Proof using TraceDevice0.
  intros Hp. destruct (device_push (host_path trace) (target_of trace) d) as (d' & E & Hf).
  destruct (combinations_run trace (host_path trace) h d' Hp) as (m & Ec & Hm); [rewrite Hf; apply lookup_insert_eq|].
  pose proof (cases_of_spec trace _ m Hm) as Hc. unfold create_for.
  rewrite (xstM_bind_run _ _ _ _ _ (dev_run _ h d _ _ E : push_trace push data_file_path trace (h, d) = (Ret tt, (h, d')))).
  rewrite (xstM_bind_run _ _ _ _ _ Ec). erewrite xstM_bind_run by reflexivity.
  destruct (GetServiceInstancesCombinations _ _ _) as [|comb combs].
  - eexists _, d', _. split; [reflexivity|]. by split_and!.
  - eexists _, d', _. split; [reflexivity|]. by split_and!.
Qed.

(** Every trace is replayed once for each choice of an instance of every service that it
    names, and for nothing else; when no two traces have one name, every one of them
    is on the device then, and nothing else of the device has changed. *)
Theorem every_trace_is_replayed traces h d :
  Forall (fun t => plain_path (target_of t) = true) traces ->
  exists h' d' new, creates traces (h, d) = (Ret tt, (h', d')) /\
    replay_testcases h' = replay_testcases h ++ new /\ replay_skip h' = replay_skip h /\
    (forall c, c ∈ new <-> exists t, t ∈ traces /\ replays (host_path t) t c) /\
    (NoDup (target_of <$> traces) -> forall t, t ∈ traces -> files d' !! target_of t = Some (host_path t)) /\
    forall p, p ∉ target_of <$> traces -> files d' !! p = files d !! p.
Proof using TraceDevice0.
  intros Hp. revert h d. induction Hp as [|t traces Ht Hp IH]; intros h d.
  { exists h, d, []. split; [done|]. rewrite app_nil_r. split_and!; [done|done| |by intros _ t ?%elem_of_nil|done].
    intros c. split; [by intros ?%elem_of_nil|by intros (t & ?%elem_of_nil & _)]. }
  destruct (create_for_run t h d Ht) as (h1 & d1 & new1 & E1 & Hf & Hc1 & Hs1 & Hn1).
  destruct (IH h1 d1) as (h2 & d2 & new2 & E2 & Hc2 & Hs2 & Hn2 & Hin & Hother).
  exists h2, d2, (new1 ++ new2). split; [cbn [ReplayCreateTestCases]; by rewrite (xstM_bind_run _ _ _ _ _ E1)|].
  split_and!; [by rewrite Hc2, Hc1, <- app_assoc|by rewrite Hs2| | |].
  - intros c. rewrite elem_of_app, Hn1, Hn2. setoid_rewrite elem_of_cons. naive_solver.
  - intros [Hni Hnd]%NoDup_cons t' [->|Hin']%elem_of_cons; [|by apply Hin]. rewrite Hother by done. rewrite Hf. apply lookup_insert_eq.
  - intros p [Hne Hni]%not_elem_of_cons. rewrite Hother by done. rewrite Hf. by rewrite lookup_insert_ne.
Qed.

(** *** The end of the class *)
Lemma removed_target trace : path_join DEVICE_TMP_DIR [bs "vts_replay_trace"; basename trace] = target_of trace.
Proof.
  unfold target_of. assert (startswith sep (basename trace) = false) as Hn.
  { apply not_true_is_false. intros [k E]%startswith_spec. apply (after_last_fresh slash trace). fold basename. rewrite E. by left. }
  unfold path_join. cbn [foldl]. change (path_join2 DEVICE_TMP_DIR (bs "vts_replay_trace")) with DEVICE_VTS_TRACE_FILE_PATH. done.
Qed.

Lemma remove_traces_run traces h : Forall (fun t => plain_path (target_of t) = true) traces -> forall d,
  exists d', remove_traces Execute traces (h, d) = (Ret tt, (h, d')) /\
    forall p, files d' !! p = if decide (p ∈ target_of <$> traces) then None else files d !! p.
Proof using TraceDevice0.
  induction 1 as [|t traces Ht Hp IH]; intros d; [by exists d|]. cbn [remove_traces]. rewrite removed_target.
  destruct (device_remove _ d Ht) as (r & d1 & E & Hf). rewrite (xstM_bind_run _ _ _ _ _ (dev_run _ h d _ _ E)).
  destruct (IH d1) as (d' & E' & Hf'). exists d'. split; [done|]. intros p. rewrite Hf', Hf. cbn [fmap list_fmap].
  destruct (decide (p = target_of t)) as [->|Hne].
  - rewrite (decide_True (P := target_of t ∈ target_of t :: _)) by by left. case_decide; [done|]. apply lookup_delete_eq.
  - rewrite lookup_delete_ne by done. do 2 case_decide; [done| |by exfalso; set_solver|done]. exfalso. set_solver.
Qed.

(** A class that was not skipped leaves none of its traces on the device, and changes
    nothing else. *)
Theorem traces_are_removed traces h d super_tearDownClass :
  replay_skip h = None -> Forall (fun t => plain_path (target_of t) = true) traces ->
  (forall d, files (super_tearDownClass d).2 = files d) ->
  forall p, files (replay_tearDownClass Execute super_tearDownClass traces (h, d)).2.2 !! p =
    if decide (p ∈ target_of <$> traces) then None else files d !! p.
Proof using TraceDevice0.
  intros Hs Hp Hsuper p. unfold replay_tearDownClass. erewrite xstM_bind_run by reflexivity. cbn [fst]. rewrite Hs.
  rewrite bool_decide_eq_false_2 by by intros [? [=]]. cbn [negb when_class].
  destruct (remove_traces_run traces h Hp d) as (d' & E & Hf). rewrite (xstM_bind_run _ _ _ _ _ E). unfold dev. cbn [fst snd].
  specialize (Hsuper d'). destruct (super_tearDownClass d') as [r d'']. cbn [fst snd] in *. by rewrite Hsuper.
Qed.
Lemma skipped_keeps_traces traces h d super_tearDownClass reason :
  replay_skip h = Some reason -> (replay_tearDownClass Execute super_tearDownClass traces (h, d)).2.2 = (super_tearDownClass d).2.
Proof.
  intros Hs. unfold replay_tearDownClass. erewrite xstM_bind_run by reflexivity. cbn [fst]. rewrite Hs.
  rewrite bool_decide_eq_true_2 by by eexists. cbn [negb when_class]. erewrite xstM_bind_run by reflexivity. unfold dev. cbn [fst snd]. by destruct (super_tearDownClass d).
Qed.
End device.

(** ** A device in memory *)
Module TraceSample.
Abbreviation D := (gmap pystr pystr).
Definition abi : pystr := bs "64".
Definition light : pystr := bs "android.hardware.light@2.0::ILight".
Definition Execute (cmd : pystr) : xstM D command_results := fun d =>
  if startswith (bs "rm -f ") cmd then (Ret (mk_results [] [] [0%Z]), delete (drop 6 cmd) d)
  else if startswith (list_command abi []) cmd then
    match d !! drop (length (list_command abi [])) cmd with
    | Some _ => (Ret (mk_results [Some (render_listing [light])] [None] [0%Z]), d)
    | None => (Ret (mk_results [None] [None] [1%Z]), d)
    end
  else (Ret (mk_results [] [] [0%Z]), d).
Definition push (src dst : pystr) : xstM D unit := fun d => (Ret tt, <[dst := src]> d).
Definition query (_ : D) (_ : pystr) : command_results := mk_results [Some []] [None] [0%Z].
Definition loads (_ : pystr) : pyres testability := Ok (mk_testability (bs "True") [bs "default"; bs "slot2"]).
Lemma list_command_app t : list_command abi t = list_command abi [] ++ t.
Proof. unfold list_command. by rewrite <- !app_assoc. Qed.
#[export] Instance device : TraceDevice Execute push query loads abi false.
Proof.
  refine {| files := fun d : D => d; services_of := fun _ => [light]; names := fun _ => [bs "default"; bs "slot2"] |}.
  - intros src dst d. by exists (<[dst := src]> d).
  - intros p d _. unfold Execute. rewrite startswith_app. change 6 with (length (bs "rm -f ")). rewrite drop_app_length. by eexists _, _.
  - intros p d. eexists. reflexivity.
  - intros t src d _ Hf. exists None, [], []. change (d !! t = Some src) in Hf. unfold Execute.
    assert (startswith (bs "rm -f ") (list_command abi t) = false) as -> by reflexivity.
    rewrite (list_command_app t), startswith_app, drop_app_length, Hf. reflexivity.
  - reflexivity.
  - intros src s d _. split; [reflexivity|discriminate].
Defined.
Definition no_settings : settings := mk_settings ∅ ∅ ∅ ∅ ∅.
Definition created (cfg : settings) (traces : list pystr) : xres unit * (replay_class * D) :=
  ReplayCreateTestCases Execute push query loads cfg (bs "/host") abi false traces (mk_replay [] ∅ [] None, ∅).
End TraceSample.
#[local] Existing Instance TraceSample.device.

Example every_trace_is_replayed_witness :
  exists h' d', TraceSample.created TraceSample.no_settings [bs "light/a.trace"] = (Ret tt, (h', d')) /\
    d' !! bs "/data/local/tmp/vts_replay_trace/a.trace" = Some (bs "/host/hal-hidl-trace/light/a.trace").
Proof.
  destruct (every_trace_is_replayed TraceSample.Execute TraceSample.push TraceSample.query TraceSample.loads TraceSample.no_settings (bs "/host") TraceSample.abi false
    [bs "light/a.trace"] (mk_replay [] ∅ [] None) ∅) as (h' & d' & new & E & _ & _ & _ & Hf & _).
  - repeat constructor.
  - exists h', d'. split; [exact E|]. apply (Hf (NoDup_singleton _) (bs "light/a.trace")). apply list_elem_of_here.
Defined.
Example traces_are_removed_witness :
  let d : TraceSample.D := {[bs "/data/local/tmp/vts_replay_trace/a.trace" := bs "x"]} in
  (replay_tearDownClass TraceSample.Execute (fun d => (Ret tt, d)) [bs "light/a.trace"] (mk_replay [] ∅ [] None, d)).2.2 !! bs "/data/local/tmp/vts_replay_trace/a.trace" = None.
Proof.
  intros d. pose proof (traces_are_removed TraceSample.Execute TraceSample.push TraceSample.query TraceSample.loads TraceSample.abi false [bs "light/a.trace"]
    (mk_replay [] ∅ [] None) d (fun d => (Ret tt, d)) eq_refl ltac:(repeat constructor) (fun _ => eq_refl) (bs "/data/local/tmp/vts_replay_trace/a.trace")) as H.
  exact H.
Defined.

(** Two traces of one name: the second takes the place of the first on the device, and
    the cases of both replay it. *)
Example one_name_one_trace :
  let '(r, (h, d)) := TraceSample.created TraceSample.no_settings [bs "light/a.trace"; bs "lamp/a.trace"] in
  r = Ret tt /\ GetRunCommand <$> take 2 (replay_testcases h) = GetRunCommand <$> drop 2 (replay_testcases h) /\
  d !! bs "/data/local/tmp/vts_replay_trace/a.trace" = Some (bs "/host/hal-hidl-trace/lamp/a.trace").
Proof. vm_compute. by repeat split. Qed.

(** The environment of the class runs into the library path. *)
Example environment_is_glued :
  case_envp (CreateReplayTestCase (mk_settings ∅ {[[] := bs "FOO=1"]} ∅ ∅ ∅) TraceSample.abi (bs "a") (bs "/a")) =
    bs "FOO=1LD_LIBRARY_PATH=/data/local/tmp/64:$LD_LIBRARY_PATH".
Proof. vm_compute. reflexivity. Qed.
