(* ===== verification/FirmwareTests.v ===== *)
(** * Checks of firmware images ([src/testcases/host/verify_boot_header], [verify_dtbo], [verify_acpio])

    The tests around the checks of BootImages: the partition is searched for on the device
    (DeviceChecks), its image pulled to the host and unpacked there, and the overlays are
    pushed back.  What the device has under its paths, the tool that unpacks images, the
    program that verifies overlays and the hash are arguments. *)

From Stdlib Require Import Strings.Byte.
From S2P Require Import Prelude PyStr PyPath PyVal Signals BinaryTest Shell ListUtils VtsSpec DeviceChecks BootImages.

Definition PROPERTY_SLOT_SUFFIX : pystr := bs "ro.boot.slot_suffix".
Definition boot_block_dev_path : pystr := bs "/dev/block/platform".
Definition dtbo_block_dev_path : pystr := bs "/dev/block/platform".
Definition acpio_block_dev_path : pystr := bs "/dev/block".
Definition SSDT_PATH : pystr := bs "/sys/firmware/acpi/tables".
Definition DEVICE_TEMP_DIR : pystr := bs "/data/local/tmp/".
Definition FDT_PATH : pystr := bs "/sys/firmware/fdt".

(** The files of the host, and those in the directory of the test on the device. *)
Record fw_state := mk_fw { host_files : gmap pystr pystr; device_dir : gmap pystr pystr }.
Abbreviation M := (xstM fw_state).
Definition AdbError : exc_class := UserException 20.
Definition adb_error : exn := EOther AdbError [].
Definition IOError_ : exn := EOther Python_IOError [].

Section tests.
(** [shell.Execute], what the paths of the device hold, the property of the slot. *)
Context (execute : pystr -> command_results) (contents : pystr -> option pystr) (slot_suffix : pystr).
Context (temp_dir : pystr).

Definition in_temp (name : pystr) : pystr := path_join temp_dir [name].
Definition adb_pull (src dst : pystr) : M unit := fun s =>
  match contents src with
  | Some c => (Ret tt, mk_fw (<[dst := c]> (host_files s)) (device_dir s))
  | None => (Exc adb_error, s)
  end.
Definition host_open (path : pystr) : M pystr := fun s =>
  match host_files s !! path with Some c => (Ret c, s) | None => (Exc IOError_, s) end.

(** The first file of a name, or the failure of the test. *)
Definition find_image (path name : pystr) (msg : string) : M pystr :=
  found ← xlift (of_fres (FindFiles execute path name (Some (bs "-type l"))));
  match found with
  | p :: _ => mret p
  | [] => _ ← xlift (fail (PStr (bs msg)) PNone); mret []
  end.

(** ** Boot and recovery images *)
Section boot.
Context (decompress : pystr -> pyres pystr) (launch_api_level : Z).
(** [setUp]: on x86 another path, and a reason to skip. *)
Definition boot_setUp (cpu_abi acpio_idx : pystr) : xres pystr :=
  if contains (bs "x86") cpu_abi then
    let acpio_idx_string := filter (fun b => b <> Byte.x0a) acpio_idx in
    _ ← skipIf (bool_decide (length acpio_idx_string = 0)) (PStr (bs "Skipping test for x86 NON-ACPI ABI")) PNone;
    Ret (bs "/dev/block")
  else Ret boot_block_dev_path.
Definition check_image (image_path name : pystr) (is_recovery : bool) : M unit :=
  let host_path := in_temp name in
  _ ← adb_pull image_path host_path;
  s ← xget;
  xlift (CheckImageHeader decompress launch_api_level (host_files s !! host_path) is_recovery).
Definition testBootImageHeader (block_dev_path : pystr) : M unit :=
  boot_path ← find_image block_dev_path (bs "boot" ++ slot_suffix) "Unable to find path to boot image on device.";
  check_image boot_path (bs "boot.img") false.
Definition testRecoveryImageHeader (block_dev_path : pystr) : M unit :=
  _ ← xlift (skipIf (negb (bool_decide (slot_suffix = []))) (PStr (bs "A/B devices do not have a separate recovery partition")) PNone);
  recovery_path ← find_image block_dev_path (bs "recovery") "Unable to find path to recovery image on device.";
  check_image recovery_path (bs "recovery.img") true.

(** Finding and pulling an image. *)
Definition pulled (path name : pystr) (image : pystr) : Prop :=
  exists p rest, FindFiles execute path name (Some (bs "-type l")) = FOk (p :: rest) /\ contents p = Some image.

Lemma find_image_run path name msg s :
  (exists p rest, FindFiles execute path name (Some (bs "-type l")) = FOk (p :: rest) /\ find_image path name msg s = (Ret p, s)) \/
  ((forall p rest, FindFiles execute path name (Some (bs "-type l")) <> FOk (p :: rest)) /\ exists e, find_image path name msg s = (Exc e, s)).
Proof.
  unfold find_image. destruct (FindFiles _ _ _ _) as [[|p rest]|e t] eqn:E.
  - right. split; [done|]. eexists. erewrite xstM_bind_run by reflexivity. reflexivity.
  - left. exists p, rest. split; [done|]. by erewrite xstM_bind_run by reflexivity.
  - right. split; [done|]. eexists. erewrite xstM_bind_exc by reflexivity. reflexivity.
Qed.

Lemma image_test path name msg file is_recovery s :
  ((p ← find_image path name msg; check_image p file is_recovery) s).1 = Ret tt <->
  exists image, pulled path name image /\ CheckImageHeader decompress launch_api_level (Some image) is_recovery = Ret tt.
Proof.
  destruct (find_image_run path name msg s) as [(p & rest & Ef & E)|[Hf [e E]]].
  - rewrite (xstM_bind_run _ _ _ _ _ E). unfold check_image, adb_pull, pulled. rewrite Ef. destruct (contents p) as [c|] eqn:Ec.
    + erewrite xstM_bind_run by reflexivity. erewrite xstM_bind_run by reflexivity. cbn [host_files]. rewrite lookup_insert_eq. unfold xlift. cbn [fst]. split.
      * intros H. exists c. split; [by exists p, rest|done].
      * intros (image & (p' & rest' & [= <- <-] & Hc) & Hgood). rewrite Ec in Hc. injection Hc as <-; exact Hgood.
    + erewrite xstM_bind_exc by reflexivity. split; [done|]. intros (image & (p' & rest' & [= <- <-] & Hc) & _). by rewrite Ec in Hc.
  - rewrite (xstM_bind_exc _ _ _ _ _ E). split; [done|]. intros (image & (p & rest & Ef & _) & _). by apply Hf in Ef.
Qed.

(** A boot image passes exactly when there is a partition of the slot and the layout of
    its image is good; the recovery image when there are no slots, and it is good as
    such. *)
Theorem boot_image_test block_dev_path s :
  (forall image, pulled block_dev_path (bs "boot" ++ slot_suffix) image -> 1660 <= length image) ->
  (testBootImageHeader block_dev_path s).1 = Ret tt <->
  exists image, pulled block_dev_path (bs "boot" ++ slot_suffix) image /\ good_image decompress launch_api_level image false.
Proof.
  intros Hlen. unfold testBootImageHeader. rewrite image_test. split; intros (image & Hp & H); exists image; (split; [done|]);
    by apply (CheckImageHeader_layout decompress launch_api_level image (Hlen _ Hp)).
Qed.
Theorem recovery_image_test block_dev_path s :
  (forall image, pulled block_dev_path (bs "recovery") image -> 1660 <= length image) ->
  (testRecoveryImageHeader block_dev_path s).1 = Ret tt <->
  slot_suffix = [] /\ exists image, pulled block_dev_path (bs "recovery") image /\ good_image decompress launch_api_level image true.
Proof.
  intros Hlen. unfold testRecoveryImageHeader. destruct slot_suffix as [|b l].
  - erewrite xstM_bind_run by reflexivity. rewrite image_test. split.
    + intros (image & Hp & H). split; [done|]. exists image. split; [done|]. by apply (CheckImageHeader_layout decompress launch_api_level image (Hlen _ Hp)).
    + intros [_ (image & Hp & H)]. exists image. split; [done|]. by apply (CheckImageHeader_layout decompress launch_api_level image (Hlen _ Hp)).
  - erewrite xstM_bind_exc by reflexivity. split; [done|]. by intros [[=] _].
Qed.
End boot.

(** ** Device tree overlays *)
Section dtbo.
(** [mkdtboimg.py dump]: the entries of an image, or none for an invalid image;
    [zlib.decompress]. *)
Context (dump : pystr -> option (list pystr)) (decompress : pystr -> pyres pystr).
(** The commands of the device, and the verdict of [ufdt_verify_overlay]. *)
Context (code_of : pystr -> Z) (verify_overlay : gmap pystr pystr -> list pystr -> Z).

Definition dumped (prefix : pystr) (entries : list pystr) (m : gmap pystr pystr) : gmap pystr pystr :=
  foldr (fun (kv : nat * pystr) m => <[prefix ++ bs "." ++ str_int (Z.of_nat kv.1) := kv.2]> m) m (imap pair entries).
(** [subprocess.check_call]: any exception fails the test. *)
Definition run_dump (image_path prefix : pystr) (msg : string) : M unit := fun s =>
  match host_files s !! image_path ≫= dump with
  | Some entries => (Ret tt, mk_fw (dumped prefix entries (host_files s)) (device_dir s))
  | None => (_ ← fail (PStr (bs msg)) PNone; Ret tt, s)
  end.
Definition on_host_files {A} (m : xstM (gmap pystr pystr) A) : M A := fun s =>
  let '(r, fs) := m (host_files s) in (r, mk_fw fs (device_dir s)).

Definition dtbo_setUp (cpu_abi : pystr) : xres unit := skipIf (contains (bs "x86") cpu_abi) (PStr (bs "Skipping test for x86 ABI")) PNone.
Definition testCheckDTBOPartition : M unit :=
  dtbo_path ← find_image dtbo_block_dev_path (bs "dtbo" ++ slot_suffix) "Unable to find path to dtbo image on device.";
  let host_dtbo_image := in_temp (bs "dtbo") in
  _ ← adb_pull dtbo_path host_dtbo_image;
  let unpacked_dtbo_path := in_temp (bs "dumped_dtbo") in
  _ ← run_dump host_dtbo_image unpacked_dtbo_path "Invalid DTBO Image";
  image ← host_open host_dtbo_image;
  on_host_files (DecompressDTEntries decompress image unpacked_dtbo_path).

Definition device_path (abi_bitness : pystr) : pystr := path_join DEVICE_TEMP_DIR [abi_bitness].
Definition overlay_file (idx : pystr) : pystr := bs "dumped_dtbo." ++ rstrip_by is_space idx.
(** [adb.push] to a directory. *)
Definition adb_push (path : pystr) : M unit := fun s =>
  match host_files s !! path with
  | Some c => (Ret tt, mk_fw (host_files s) (<[basename path := c]> (device_dir s)))
  | None => (Exc adb_error, s)
  end.
Fixpoint push_overlays (idxs : list pystr) : M (list pystr) :=
  match idxs with
  | [] => mret []
  | idx :: idxs =>
      _ ← adb_push (in_temp (overlay_file idx));
      rest ← push_overlays idxs; mret (overlay_file idx :: rest)
  end.
Definition testVerifyOverlay (abi_bitness overlay_idx_string fdt : pystr) : M unit :=
  _ ← xlift (assertNotEqual (Z.of_nat (length overlay_idx_string)) 0 (PStr (bs "Kernel command line missing androidboot.dtbo_idx")) PNone);
  overlay_arg ← push_overlays (split (bs ",") overlay_idx_string);
  _ ← ((fun s => (Ret tt, mk_fw (host_files s) (<[bs "final_dt" := fdt]> (device_dir s)))) : M unit);
  _ ← xlift (assertEqual (code_of (bs "chmod 755 " ++ path_join (device_path abi_bitness) [bs "ufdt_verify_overlay"])) 0 (PStr (bs "Unable to chmod")) PNone);
  s ← xget;
  xlift (assertEqual (verify_overlay (device_dir s) overlay_arg) 0 (PStr (bs "Incorrect Overlay Application")) PNone).

Definition with_overlays (fs m : gmap pystr pystr) (idxs : list pystr) : gmap pystr pystr :=
  foldl (fun m idx => match fs !! in_temp (overlay_file idx) with Some c => <[overlay_file idx := c]> m | None => m end) m idxs.
(** The directory of the device when overlays are verified. *)
Definition overlay_dir (idxs : list pystr) (fdt : pystr) (s : fw_state) : gmap pystr pystr :=
  <[bs "final_dt" := fdt]> (with_overlays (host_files s) (device_dir s) idxs).

Lemma basename_in_temp name : no_byte slash name = true -> basename (in_temp name) = name.
Proof.
  intros Hn. assert (slash ∉ name) as Hs.
  { intros Hin. unfold no_byte in Hn. rewrite forallb_forall in Hn. specialize (Hn slash (proj1 (list_elem_of_In _ _) Hin)).
    unfold is_byte in Hn. by rewrite bool_decide_eq_true_2 in Hn. }
  unfold in_temp, path_join. cbn [foldl]. unfold path_join2. destruct (startswith sep name) eqn:E; [by apply after_last_none|].
  destruct (bool_decide (temp_dir = []) || endswith sep temp_dir) eqn:E2; [|by apply after_last_app].
  destruct (bool_decide_reflect (temp_dir = [])) as [->|]; [by apply after_last_none|]. cbn [orb] in E2.
  apply endswith_spec in E2 as [k ->]. unfold sep. rewrite <- app_assoc. by apply after_last_app.
Qed.

Lemma adb_push_run name c s : no_byte slash name = true -> host_files s !! in_temp name = Some c ->
  adb_push (in_temp name) s = (Ret tt, mk_fw (host_files s) (<[name := c]> (device_dir s))).
Proof. intros Hn E. unfold adb_push. by rewrite E, basename_in_temp. Qed.

Lemma push_overlays_run idxs : Forall (fun idx => no_byte slash (overlay_file idx) = true) idxs -> forall s,
  if decide (Forall (fun idx => is_Some (host_files s !! in_temp (overlay_file idx))) idxs)
  then push_overlays idxs s = (Ret (overlay_file <$> idxs), mk_fw (host_files s)
    (with_overlays (host_files s) (device_dir s) idxs))
  else exists e s', push_overlays idxs s = (Exc e, s').
Proof.
  induction 1 as [|idx idxs Hn _ IH]; intros s; [rewrite decide_True by done; by destruct s|].
  cbn [push_overlays]. destruct (host_files s !! in_temp (overlay_file idx)) as [c|] eqn:E.
  - specialize (IH (mk_fw (host_files s) (<[overlay_file idx := c]> (device_dir s)))). cbn [host_files device_dir] in IH.
    destruct (decide (Forall _ (idx :: idxs))) as [Hf|Hf].
    + apply Forall_cons in Hf as [_ Hf]. rewrite decide_True in IH by done.
      rewrite (xstM_bind_run _ _ _ _ _ (adb_push_run _ _ _ Hn E)). erewrite xstM_bind_run by exact IH. unfold with_overlays. cbn [foldl fmap list_fmap]. by rewrite E.
    + rewrite decide_False in IH; [|intros Hf'; apply Hf; constructor; [by eexists|done]]. destruct IH as (e & s' & IH).
      exists e, s'. rewrite (xstM_bind_run _ _ _ _ _ (adb_push_run _ _ _ Hn E)). by erewrite xstM_bind_exc by exact IH.
  - rewrite decide_False by by intros [[? ?] _]%Forall_cons; simplify_eq. eexists _, _. erewrite xstM_bind_exc; [done|]. unfold adb_push. by rewrite E.
Qed.

Lemma overlay_dir_lookup idxs fdt s idx :
  Forall (fun idx => is_Some (host_files s !! in_temp (overlay_file idx))) idxs -> idx ∈ idxs ->
  overlay_dir idxs fdt s !! overlay_file idx = host_files s !! in_temp (overlay_file idx) /\ overlay_dir idxs fdt s !! bs "final_dt" = Some fdt.
Proof.
  intros Hf Hin. split; [|apply lookup_insert_eq]. unfold overlay_dir. rewrite lookup_insert_ne by discriminate.
  assert (forall m : gmap pystr pystr, idx ∈ idxs \/ m !! overlay_file idx = host_files s !! in_temp (overlay_file idx) ->
    with_overlays (host_files s) m idxs !! overlay_file idx
      = host_files s !! in_temp (overlay_file idx)) as H; [|by apply H; left].
  clear Hin. induction Hf as [|x idxs [c Hc] Hf IH]; intros m Hm; [destruct Hm as [Hm|Hm]; [by apply elem_of_nil in Hm|done]|].
  unfold with_overlays. cbn [foldl]. rewrite Hc. apply IH. destruct Hm as [[->|Hin]%elem_of_cons|Hm]; [right; by rewrite lookup_insert_eq|by left|right].
  destruct (decide (overlay_file x = overlay_file idx)) as [E|Hne]; [by rewrite E, lookup_insert_eq, <- Hc, E|by rewrite lookup_insert_ne].
Qed.

(** The overlay test passes exactly when the kernel names overlays, each of them was
    unpacked, and the verifier accepts them, in order, from a directory that has the tree
    of the kernel and every overlay as it was unpacked. *)
Theorem overlay_test abi_bitness overlay_idx_string fdt s :
  Forall (fun idx => no_byte slash (overlay_file idx) = true) (split (bs ",") overlay_idx_string) ->
  let idxs := split (bs ",") overlay_idx_string in
  (testVerifyOverlay abi_bitness overlay_idx_string fdt s).1 = Ret tt <->
  overlay_idx_string <> [] /\ Forall (fun idx => is_Some (host_files s !! in_temp (overlay_file idx))) idxs /\
  code_of (bs "chmod 755 " ++ path_join (device_path abi_bitness) [bs "ufdt_verify_overlay"]) = 0%Z /\
  verify_overlay (overlay_dir idxs fdt s) (overlay_file <$> idxs) = 0%Z.
Proof.
  intros Hn idxs. unfold testVerifyOverlay. destruct (decide (overlay_idx_string = [])) as [->|Hne].
  { erewrite xstM_bind_exc by reflexivity. split; [done|]. by intros [? _]. }
  assert (assertNotEqual (Z.of_nat (length overlay_idx_string)) 0 (PStr (bs "Kernel command line missing androidboot.dtbo_idx")) PNone = Ret tt) as E0.
  { apply assertNotEqual_passes. destruct overlay_idx_string; [done|cbn; lia]. }
  erewrite xstM_bind_run by (unfold xlift; rewrite E0; reflexivity). pose proof (push_overlays_run idxs Hn s) as Hp.
  destruct (decide (Forall _ idxs)) as [Hf|Hf].
  - erewrite xstM_bind_run by exact Hp. erewrite xstM_bind_run by reflexivity.
    unfold mbind, xstM_bind, xlift, xget. cbn [fst snd host_files device_dir].
    destruct (assertEqual (code_of _) _ _ _) as [u|e] eqn:E1.
    + pose proof (proj1 (assertEqual_passes _ _ _ _) (ltac:(rewrite E1; by destruct u))) as Hc. cbn [fst snd host_files device_dir].
      fold (overlay_dir idxs fdt s). rewrite assertEqual_passes. split.
      * intros Hv. by split_and!.
      * by intros (_ & _ & _ & Hv).
    + split; [done|]. intros (_ & _ & Hc & _). apply (proj2 (assertEqual_passes _ _ (PStr (bs "Unable to chmod")) PNone)) in Hc. congruence.
  - destruct Hp as (e & s' & Hp). erewrite xstM_bind_exc by exact Hp. split; [done|]. by intros (_ & ? & _).
Qed.

Lemma in_temp_prefix : exists pre, forall name, startswith sep name = false -> in_temp name = pre ++ name.
Proof.
  unfold in_temp, path_join. cbn [foldl]. unfold path_join2. destruct (bool_decide (temp_dir = []) || endswith sep temp_dir).
  - exists temp_dir. by intros name ->.
  - exists (temp_dir ++ sep). intros name ->. by rewrite <- app_assoc.
Qed.

Lemma dumped_other prefix entries m path : (forall n, path <> prefix ++ bs "." ++ n) -> dumped prefix entries m !! path = m !! path.
Proof.
  intros Hp. unfold dumped. induction (imap pair entries) as [|kv l IH]; [done|]. cbn [foldr]. rewrite lookup_insert_ne; [done|].
  intros E. exact (Hp _ (eq_sym E)).
Qed.

(** The partition test passes exactly when the image of the slot unpacks and its
    entries decompress (DecompressDTEntries_spec says when they do). *)
Theorem partition_test s :
  let prefix := in_temp (bs "dumped_dtbo") in
  (testCheckDTBOPartition s).1 = Ret tt <->
  exists image entries fs', pulled dtbo_block_dev_path (bs "dtbo" ++ slot_suffix) image /\ dump image = Some entries /\
    DecompressDTEntries decompress image prefix (dumped prefix entries (<[in_temp (bs "dtbo") := image]> (host_files s))) = (Ret tt, fs').
Proof.
  intros prefix. unfold testCheckDTBOPartition.
  destruct (find_image_run dtbo_block_dev_path (bs "dtbo" ++ slot_suffix) "Unable to find path to dtbo image on device." s) as [(p & rest & Ef & E)|[Hf [e E]]].
  2:{ rewrite (xstM_bind_exc _ _ _ _ _ E). split; [done|]. intros (? & ? & ? & (p & rest & Ef & _) & _). by apply Hf in Ef. }
  rewrite (xstM_bind_run _ _ _ _ _ E). destruct (contents p) as [image|] eqn:Ec.
  2:{ erewrite xstM_bind_exc by (unfold adb_pull; rewrite Ec; reflexivity). split; [done|]. intros (? & ? & ? & (p' & rest' & E' & Hc) & _). rewrite Ef in E'. injection E' as <- <-. congruence. }
  erewrite xstM_bind_run by (unfold adb_pull; rewrite Ec; reflexivity).
  assert (forall i, pulled dtbo_block_dev_path (bs "dtbo" ++ slot_suffix) i -> i = image) as Hu.
  { intros i (p' & rest' & E' & Hc). rewrite Ef in E'. injection E' as <- <-. congruence. }
  destruct (dump image) as [entries|] eqn:Ed.
  2:{ erewrite xstM_bind_exc by (unfold run_dump; cbn [host_files]; rewrite lookup_insert_eq; cbn; rewrite Ed; reflexivity). split; [done|].
      intros (i & entries & ? & ->%Hu & Hd & _). congruence. }
  erewrite xstM_bind_run by (unfold run_dump; cbn [host_files]; rewrite lookup_insert_eq; cbn; rewrite Ed; reflexivity). cbn [device_dir].
  erewrite xstM_bind_run; [|unfold host_open; cbn [host_files]; rewrite dumped_other; [by rewrite lookup_insert_eq|]].
  2:{ intros n. destruct in_temp_prefix as [pre Hpre]. rewrite !Hpre by done. rewrite <- app_assoc. intros H%app_inv_head. discriminate. }
  unfold on_host_files. cbn [host_files device_dir]. fold prefix.
  destruct (DecompressDTEntries _ _ _ _) as [r fs'] eqn:Er. cbn [fst]. split.
  - intros ->. exists image, entries, fs'. split_and!; [by exists p, rest|done|done].
  - intros (i & entries' & fs'' & ->%Hu & Hd & Er'). rewrite Ed in Hd. injection Hd as <-. by pose proof (eq_trans (eq_sym Er) Er') as [= ->].
Qed.
End dtbo.

(** ** ACPI tables *)
Section acpio.
Context (dump : pystr -> option (list pystr)) (getSha1 : pystr -> pystr).
(** [setUp]: the indices of the command line of the kernel. *)
Definition acpio_setUp (cpu_abi cmdline_idx : pystr) : xres pystr :=
  _ ← skipIf (negb (contains (bs "x86") cpu_abi)) (PStr (bs "Skipping test for NON-x86 ABI")) PNone;
  let acpio_idx_string := filter (fun b => b <> Byte.x0a) cmdline_idx in
  _ ← assertTrue (negb (bool_decide (acpio_idx_string = []))) (PStr (bs "Skipping test for x86 NON-ACPI ABI")) PNone;
  Ret acpio_idx_string.
Fixpoint overlay_hashes (idxs : list pystr) : M (list pystr) :=
  match idxs with
  | [] => mret []
  | idx :: idxs =>
      c ← host_open (in_temp (bs "SSDT.dump." ++ rstrip_by is_space idx));
      rest ← overlay_hashes idxs; mret (getSha1 c :: rest)
  end.
Fixpoint table_hashes (paths : list pystr) : M (list pystr) :=
  match paths with
  | [] => mret []
  | p :: paths =>
      _ ← adb_pull p (in_temp (bs "SSDT"));
      c ← host_open (in_temp (bs "SSDT"));
      rest ← table_hashes paths; mret (getSha1 c :: rest)
  end.
Definition testAcpioPartition (acpio_idx_string : pystr) : M unit :=
  acpio_path ← find_image acpio_block_dev_path (bs "acpio" ++ slot_suffix) "Unable to find path to acpio image on device.";
  let host_acpio_image := in_temp (bs "acpio") in
  _ ← adb_pull acpio_path host_acpio_image;
  _ ← run_dump dump host_acpio_image (in_temp (bs "SSDT.dump")) "Invalid ACPIO Image";
  _ ← xlift (assertTrue (negb (bool_decide (acpio_idx_string = []))) (PStr (bs "Kernel command line missing androidboot.acpio_idx")) PNone);
  temp_SSDT_dump_hashes ← overlay_hashes (split (bs ",") acpio_idx_string);
  SSDT_path ← xlift (of_fres (FindFiles execute SSDT_PATH (bs "SSDT*") None));
  current_SSDT_hashes ← table_hashes SSDT_path;
  _ ← xlift (assertTrue (negb (bool_decide (current_SSDT_hashes = []))) (PStr (bs "No get current SSDT hash.")) PNone);
  xlift (assertTrue (existsb (fun h => bool_decide (h ∈ current_SSDT_hashes)) temp_SSDT_dump_hashes) (PStr (bs "Hash is not the same.")) PNone).

(** What the test hashes. *)
Definition unpacked_overlay (fs : gmap pystr pystr) (idx : pystr) : option pystr := fs !! in_temp (bs "SSDT.dump." ++ rstrip_by is_space idx).

Lemma overlay_hashes_run idxs s :
  if decide (Forall (fun idx => is_Some (unpacked_overlay (host_files s) idx)) idxs)
  then overlay_hashes idxs s = (Ret (omap (fun idx => getSha1 <$> unpacked_overlay (host_files s) idx) idxs), s)
  else exists e, overlay_hashes idxs s = (Exc e, s).
Proof.
  induction idxs as [|idx idxs IH]; [by rewrite decide_True|]. cbn [overlay_hashes].
  destruct (unpacked_overlay (host_files s) idx) as [c|] eqn:E.
  - assert (host_open (in_temp (bs "SSDT.dump." ++ rstrip_by is_space idx)) s = (Ret c, s)) as Eo by (unfold host_open; unfold unpacked_overlay in E; by rewrite E).
    rewrite (xstM_bind_run _ _ _ _ _ Eo). destruct (decide (Forall _ (idx :: idxs))) as [Hf|Hf].
    + apply Forall_cons in Hf as [_ Hf]. rewrite decide_True in IH by done.
      erewrite xstM_bind_run by exact IH. cbn [omap list_omap]. by rewrite E.
    + rewrite decide_False in IH; [|intros Hf'; apply Hf; constructor; [by exists c|done]]. destruct IH as [e IH]. exists e.
      by erewrite xstM_bind_exc by exact IH.
  - rewrite decide_False; [eexists; erewrite xstM_bind_exc; [done|unfold host_open; unfold unpacked_overlay in E; by rewrite E]|].
    intros [[c Hc] _]%Forall_cons. congruence.
Qed.

Lemma table_hashes_run paths s :
  if decide (Forall (fun p => is_Some (contents p)) paths)
  then exists s', table_hashes paths s = (Ret (omap (fun p => getSha1 <$> contents p) paths), s')
  else exists e s', table_hashes paths s = (Exc e, s').
Proof.
  revert s. induction paths as [|p paths IH]; intros s; [rewrite decide_True by done; by exists s|]. cbn [table_hashes].
  destruct (contents p) as [c|] eqn:E.
  - assert (forall s, adb_pull p (in_temp (bs "SSDT")) s = (Ret tt, mk_fw (<[in_temp (bs "SSDT") := c]> (host_files s)) (device_dir s))) as Ep by (intros; unfold adb_pull; by rewrite E).
    assert (forall s', host_open (in_temp (bs "SSDT")) (mk_fw (<[in_temp (bs "SSDT") := c]> (host_files s)) s') = (Ret c, mk_fw (<[in_temp (bs "SSDT") := c]> (host_files s)) s')) as Eh
      by (intros; unfold host_open; cbn [host_files]; by rewrite lookup_insert_eq).
    specialize (IH (mk_fw (<[in_temp (bs "SSDT") := c]> (host_files s)) (device_dir s))).
    rewrite (xstM_bind_run _ _ _ _ _ (Ep s)), (xstM_bind_run _ _ _ _ _ (Eh _)).
    destruct (decide (Forall _ (p :: paths))) as [Hf|Hf].
    + apply Forall_cons in Hf as [_ Hf]. rewrite decide_True in IH by done. destruct IH as [s' IH]. exists s'.
      erewrite xstM_bind_run by exact IH. cbn [omap list_omap]. by rewrite E.
    + rewrite decide_False in IH; [|intros Hf'; apply Hf; constructor; [by exists c|done]]. destruct IH as (e & s' & IH). exists e, s'.
      by erewrite xstM_bind_exc by exact IH.
  - rewrite decide_False; [eexists _, _; erewrite xstM_bind_exc; [done|unfold adb_pull; by rewrite E]|]. intros [[c Hc] _]%Forall_cons. congruence.
Qed.

(** The test of ACPI tables passes exactly when the partition is there and unpacks to an
    overlay for every index of the kernel, the tables of the device can be read, and
    some overlay is one of the tables. *)
Theorem acpio_test acpio_idx_string s :
  (testAcpioPartition acpio_idx_string s).1 = Ret tt <->
  exists image entries paths, pulled acpio_block_dev_path (bs "acpio" ++ slot_suffix) image /\ dump image = Some entries /\
    acpio_idx_string <> [] /\ FindFiles execute SSDT_PATH (bs "SSDT*") None = FOk paths /\
    let idxs := split (bs ",") acpio_idx_string in
    let fs := dumped (in_temp (bs "SSDT.dump")) entries (<[in_temp (bs "acpio") := image]> (host_files s)) in
    Forall (fun idx => is_Some (unpacked_overlay fs idx)) idxs /\ Forall (fun p => is_Some (contents p)) paths /\
    exists idx p overlay table, idx ∈ idxs /\ p ∈ paths /\ unpacked_overlay fs idx = Some overlay /\ contents p = Some table /\ getSha1 overlay = getSha1 table.
Proof.
  unfold testAcpioPartition. destruct (find_image_run acpio_block_dev_path (bs "acpio" ++ slot_suffix) "Unable to find path to acpio image on device." s) as [(p & rest & Ef & E)|[Hf [e E]]].
  2:{ rewrite (xstM_bind_exc _ _ _ _ _ E). split; [done|]. intros (? & ? & ? & (p & rest & Ef & _) & _). by apply Hf in Ef. }
  rewrite (xstM_bind_run _ _ _ _ _ E). destruct (contents p) as [image|] eqn:Ec.
  2:{ erewrite xstM_bind_exc by (unfold adb_pull; rewrite Ec; reflexivity). split; [done|]. intros (? & ? & ? & (p' & rest' & E' & Hc) & _). rewrite Ef in E'. injection E' as <- <-. congruence. }
  assert (pulled acpio_block_dev_path (bs "acpio" ++ slot_suffix) image) as Hpull by by exists p, rest.
  assert (forall i, pulled acpio_block_dev_path (bs "acpio" ++ slot_suffix) i -> i = image) as Hu.
  { intros i (p' & rest' & E' & Hc). rewrite Ef in E'. injection E' as <- <-. congruence. }
  erewrite xstM_bind_run by (unfold adb_pull; rewrite Ec; reflexivity).
  destruct (dump image) as [entries|] eqn:Ed.
  2:{ erewrite xstM_bind_exc by (unfold run_dump; cbn [host_files]; rewrite lookup_insert_eq; cbn; rewrite Ed; reflexivity). split; [done|].
      intros (i & entries & ? & ->%Hu & Hd & _). congruence. }
  erewrite xstM_bind_run by (unfold run_dump; cbn [host_files]; rewrite lookup_insert_eq; cbn; rewrite Ed; reflexivity). cbn [device_dir].
  destruct (decide (acpio_idx_string = [])) as [->|Hne].
  { erewrite xstM_bind_exc by reflexivity. split; [done|]. intros (? & ? & ? & _ & _ & ? & _). done. }
  erewrite xstM_bind_run by (unfold xlift; rewrite bool_decide_eq_false_2 by done; reflexivity).
  set (fs := dumped _ _ _). set (idxs := split _ _). pose proof (overlay_hashes_run idxs (mk_fw fs (device_dir s))) as Ho. cbn [host_files] in Ho.
  destruct (decide (Forall _ idxs)) as [Hidx|Hidx].
  2:{ destruct Ho as [e Ho]. erewrite xstM_bind_exc by exact Ho. split; [done|]. intros (i & entries' & ? & ->%Hu & Hd & _ & _ & H & _).
      rewrite Ed in Hd. injection Hd as <-. by destruct Hidx. }
  erewrite xstM_bind_run by exact Ho. destruct (FindFiles execute SSDT_PATH _ _) as [paths|er t] eqn:Ep.
  2:{ erewrite xstM_bind_exc by reflexivity. split; [done|]. by intros (? & ? & ? & _ & _ & _ & ? & _). }
  erewrite xstM_bind_run by reflexivity. pose proof (table_hashes_run paths (mk_fw fs (device_dir s))) as Ht.
  destruct (decide (Forall _ paths)) as [Hpaths|Hpaths].
  2:{ destruct Ht as (e & s' & Ht). erewrite xstM_bind_exc by exact Ht. split; [done|]. intros (? & ? & paths' & _ & _ & _ & [= <-] & _ & H & _). by destruct Hpaths. }
  destruct Ht as [s' Ht]. erewrite xstM_bind_run by exact Ht.
  destruct (decide (omap (fun p => getSha1 <$> contents p) paths = [])) as [Hnil|Hn].
  { rewrite Hnil. erewrite xstM_bind_exc by reflexivity. split; [done|]. intros (? & ? & paths' & _ & _ & _ & [= <-] & _ & _ & idx & q & o & table & _ & Hq & _ & Hc & _).
    assert (getSha1 table ∈ omap (fun p => getSha1 <$> contents p) paths) as Hin by (apply list_elem_of_omap; exists q; by rewrite Hc). rewrite Hnil in Hin. by apply elem_of_nil in Hin. }
  erewrite xstM_bind_run by (unfold xlift; rewrite bool_decide_eq_false_2 by done; reflexivity).
  unfold xlift. cbn [fst]. rewrite assertTrue_passes, existsb_exists. split.
  - intros (h & Hh & Hc%bool_decide_eq_true). apply list_elem_of_In, list_elem_of_omap in Hh as (idx & Hidxin & Eh). apply list_elem_of_omap in Hc as (q & Hq & Eq).
    destruct (unpacked_overlay fs idx) as [o|] eqn:Eo; [|done]. destruct (contents q) as [table|] eqn:Et; [|done]. injection Eh as <-. injection Eq as Eq.
    exists image, entries, paths. split_and!; try done. exists idx, q, o, table. done.
  - intros (i & entries' & paths' & ->%Hu & Hd & _ & [= <-] & _ & _ & idx & q & o & table & Hidxin & Hq & Eo & Et & Eh).
    rewrite Ed in Hd. injection Hd as <-. change (unpacked_overlay fs idx = Some o) in Eo. exists (getSha1 o). split; [apply list_elem_of_In, list_elem_of_omap; exists idx; by rewrite Eo|].
    apply bool_decide_eq_true, list_elem_of_omap. exists q. rewrite Et, Eh. done.
Qed.
End acpio.
End tests.

(** ** A device in memory *)
Module FirmwareSample.
Definition find_output (cmd : pystr) : pystr :=
  if contains (bs "SSDT") cmd then bs "/sys/firmware/acpi/tables/SSDT1" else bs "/dev/block/by-name/image".
Definition execute (cmd : pystr) : command_results := mk_results [Some (find_output cmd ++ newline)] [None] [0%Z].
Definition contents (path : pystr) : option pystr :=
  if decide (path = bs "/dev/block/by-name/image") then Some (bs "image") else if decide (path = bs "/sys/firmware/acpi/tables/SSDT1") then Some (bs "table") else None.
Definition dump (_ : pystr) : option (list pystr) := Some [bs "table"; bs "stale"].
Definition verify (dir : gmap pystr pystr) (args : list pystr) : Z :=
  if decide (mapM (fun n => dir !! n) (bs "final_dt" :: args) = Some [bs "tree"; bs "stale"; bs "table"]) then 0 else 1.
Definition empty : fw_state := mk_fw ∅ ∅.
Definition unpacked : fw_state := mk_fw (dumped (bs "/tmp/dumped_dtbo") [bs "table"; bs "stale"] ∅) ∅.
End FirmwareSample.

Example overlay_test_witness :
  (testVerifyOverlay (bs "/tmp") (fun _ => 0%Z) FirmwareSample.verify (bs "64") (bs "1,0" ++ newline) (bs "tree") FirmwareSample.unpacked).1 = Ret tt.
Proof.
  apply (overlay_test (bs "/tmp") (fun _ => 0%Z) FirmwareSample.verify (bs "64") (bs "1,0" ++ newline) (bs "tree") FirmwareSample.unpacked).
  - repeat constructor.
  - split_and!; [discriminate|repeat constructor; vm_compute; eexists; reflexivity|reflexivity|vm_compute; reflexivity].
Defined.

(** The overlays are those that the test of the partition unpacked: alone, the test
    fails. *)
Example overlays_need_the_partition_test :
  (testVerifyOverlay (bs "/tmp") (fun _ => 0%Z) FirmwareSample.verify (bs "64") (bs "1,0") (bs "tree") FirmwareSample.empty).1 = Exc adb_error.
Proof. vm_compute. reflexivity. Qed.

(** Of two overlays one is not among the tables: the other is enough. *)
Example one_overlay_is_enough :
  (testAcpioPartition FirmwareSample.execute FirmwareSample.contents (bs "_a") (bs "/tmp") FirmwareSample.dump (fun b => b) (bs "0,1") FirmwareSample.empty).1 = Ret tt.
Proof. vm_compute. reflexivity. Qed.

(** What is meant to skip the test on x86 without ACPI fails it. *)
Example no_acpi_is_a_failure : exists d, acpio_setUp (bs "x86_64") newline = Exc (ESignal TestFailure d PNone).
Proof. eexists. vm_compute. reflexivity. Qed.
