(* ===== verification/LlvmFuzzer.v ===== *)
(** * Fuzzers on the target ([src/testcases/template/llvmfuzzer_test/],
      [host_binary_test/host_binary_test.py])

    A fuzzer is pushed with a corpus, run with the flags of its configuration, and judged
    by its exit code and by whether the device still answers.  The commands of the device
    are an argument, and so is the order in which a dictionary gives its items. *)

From Stdlib Require Import Strings.Byte.
From S2P Require Import Prelude PyStr PyPath PyVal Signals BinaryTest Shell ListUtils CallbackServer.

(** ** The configuration ([llvmfuzzer_test_config.py]) *)
Definition FUZZER_TEST_PASS : Z := 0.
Definition FUZZER_TEST_FAIL : Z := 77.
Definition FUZZER_TEST_DIR : pystr := bs "/data/local/tmp/llvmfuzzer_test".
Definition FUZZER_SPEC_DIR : pystr := bs "/data/local/tmp/spec".
Definition FUZZER_SRC_DIR : pystr := bs "DATA/bin".
Definition FUZZER_TEST_CRASH_REPORT : pystr := FUZZER_TEST_DIR ++ bs "/crash_report".
Definition FUZZER_PARAMS : gmap pystr pystr :=
  <[bs "max_len" := bs "100"]> (<[bs "max_total_time" := bs "60"]> {[bs "exact_artifact_path" := FUZZER_TEST_CRASH_REPORT]}).

(** The configuration of a fuzzer, with its values as text. *)
Record fuzzer_config := mk_fuzzer_config {
  vts_spec_files : list pystr;
  vts_exec_size : option pystr;
  llvmfuzzer_params : gmap pystr pystr;
  corpus : list pystr;
}.
Definition no_config : fuzzer_config := mk_fuzzer_config [] None ∅ [].

(** ** Flags *)
Section flags.
Context (dict_items : gmap pystr pystr -> list (pystr * pystr)).
Definition SerializeVTSFuzzerParams (c : fuzzer_config) : pystr :=
  bs "--vts_spec_files=" ++ [Byte.x22] ++ join_with (bs ":") ((fun x => path_join FUZZER_SPEC_DIR [x]) <$> vts_spec_files c) ++ [Byte.x22] ++
  bs " --vts_exec_size=" ++ default (bs "{}") (vts_exec_size c).
Definition SerializeLLVMFuzzerParams (params : gmap pystr pystr) : pystr :=
  join_with (bs " ") ((fun kv => bs "-" ++ kv.1 ++ bs "=" ++ kv.2) <$> dict_items params).
Definition merged_params (c : fuzzer_config) : gmap pystr pystr := llvmfuzzer_params c ∪ FUZZER_PARAMS.
Definition CreateFuzzerFlags (c : fuzzer_config) : pystr :=
  SerializeVTSFuzzerParams c ++ bs " -- " ++ SerializeLLVMFuzzerParams (merged_params c).
End flags.

(** ** Reports of crashes *)
Definition remove_chars : list Byte.byte := [Byte.x0d; Byte.x09; Byte.x0a; Byte.x20].
(** Two characters at a time, each pair behind a backslash and an x. *)
Fixpoint pairs (fuel : nat) (output : pystr) : pystr :=
  match fuel with
  | O => []
  | S fuel => match output with [] => [] | _ => [Byte.x5c; Byte.x78] ++ take 2 output ++ pairs fuel (drop 2 output) end
  end.
Definition crash_report (output : pystr) : pystr :=
  let output := filter (fun b => b ∉ remove_chars) output in pairs (length output) output.

(** ** Running *)
Section run.
Context {D : Type}.
(** [adb.shell]: the exit code and the output; [adb.push], and the state of the device. *)
Context (shell : pystr -> D -> (Z * pystr) * D) (push : pystr -> xstM D unit).
Context (hasBooted : xstM D bool) (waitForBootCompletion : xstM D unit) (debug : pystr -> xstM D unit).
Context (dict_items : gmap pystr pystr -> list (pystr * pystr)).
Context (data_file_path : pystr) (fuzzer_configs : gmap pystr fuzzer_config).
Abbreviation M := (xstM D).
Definition AdbError : exc_class := UserException 20.

Definition try_shell (cmd : pystr) : M (Z * pystr) := fun d => let '(r, d) := shell cmd d in (Ret r, d).
Definition adb_shell (cmd : pystr) : M pystr :=
  r ← try_shell cmd;
  if ((r : Z * pystr).1 =? 0)%Z then mret r.2 else xlift (Exc (EOther AdbError r.2)).

Definition PushFiles (testcase : pystr) : M unit :=
  push (path_join data_file_path [FUZZER_SRC_DIR; testcase] ++ bs " " ++ FUZZER_TEST_DIR).
(** [replace("x", "\x")] *)
Definition escape_x (s : pystr) : pystr := mjoin ((fun b => if decide (b = Byte.x78) then [Byte.x5c; b] else [b]) <$> s).
Definition corpus_dir_of (fuzzer : pystr) : pystr := path_join FUZZER_TEST_DIR [fuzzer ++ bs "_corpus"].
Definition corpus_command (corpus_dir : pystr) (idx : nat) (entry : pystr) : pystr :=
  [Byte.x22] ++ bs "echo -ne '" ++ escape_x entry ++ bs "' > " ++ path_join corpus_dir [bs "input" ++ str_int (Z.of_nat idx)] ++ [Byte.x22].
Fixpoint write_corpus (corpus_dir : pystr) (idx : nat) (entries : list pystr) : M unit :=
  match entries with
  | [] => mret tt
  | entry :: entries => _ ← adb_shell (corpus_command corpus_dir idx entry); write_corpus corpus_dir (S idx) entries
  end.
Definition CreateCorpus (fuzzer : pystr) (c : fuzzer_config) : M pystr :=
  _ ← adb_shell (bs "mkdir " ++ corpus_dir_of fuzzer ++ bs " -p");
  _ ← write_corpus (corpus_dir_of fuzzer) 0 (corpus c);
  mret (corpus_dir_of fuzzer).

Definition LogCrashReport (fuzzer : pystr) : M unit :=
  output ← adb_shell (bs "xxd -p " ++ FUZZER_TEST_CRASH_REPORT);
  debug (bs "FUZZER_TEST_CRASH_REPORT for " ++ fuzzer ++ bs ": " ++ [Byte.x22] ++ crash_report output ++ [Byte.x22]).
Definition failed (msg : pystr) : M unit := xlift (fail (PStr msg) PNone).
Definition AssertTestResult (fuzzer : pystr) (exit_code : Z) : M unit :=
  booted ← hasBooted;
  _ ← (if negb (booted : bool) then _ ← waitForBootCompletion; failed (fuzzer ++ bs " left the device in unresponsive state.") else mret tt);
  if (exit_code =? FUZZER_TEST_FAIL)%Z then _ ← LogCrashReport fuzzer; failed (fuzzer ++ bs " failed normally.")
  else if negb (exit_code =? FUZZER_TEST_PASS)%Z then failed (fuzzer ++ bs " failed abnormally.")
  else mret tt.

Definition fuzz_command (fuzzer corpus_dir test_flags : pystr) : pystr :=
  [Byte.x27] ++ bs "cd " ++ FUZZER_TEST_DIR ++ bs " && " ++ bs "LD_LIBRARY_PATH=/data/local/tmp/64:/data/local/tmp/32:$LD_LIBRARY_PATH" ++ bs " " ++
  (bs "./" ++ fuzzer) ++ bs " " ++ corpus_dir ++ bs " " ++ test_flags ++ bs " > /dev/null" ++ [Byte.x27].
Definition RunTestcase (fuzzer : pystr) : M unit :=
  _ ← PushFiles fuzzer;
  let c := default no_config (fuzzer_configs !! fuzzer) in
  corpus_dir ← CreateCorpus fuzzer c;
  _ ← adb_shell (bs "chmod -R 755 " ++ path_join FUZZER_TEST_DIR [fuzzer]);
  result ← try_shell (fuzz_command fuzzer corpus_dir (CreateFuzzerFlags dict_items c));
  AssertTestResult fuzzer (result : Z * pystr).1.

(** The class: the fuzzers to run and their names. *)
Definition fuzzer_setUpClass : M (list pystr) :=
  _ ← adb_shell (bs "mkdir " ++ FUZZER_TEST_DIR ++ bs " -p"); mret ((map_to_list fuzzer_configs).*1).
Definition fuzzer_tearDownClass : M unit := _ ← adb_shell (bs "rm -rf " ++ FUZZER_TEST_DIR); mret tt.
Definition fuzzer_name (x : pystr) : pystr := List.last (split (bs "/") x) [].
End run.

(** ** Binaries of the host ([host_binary_test.py]) *)
Section host.
Context (ExecuteShellCommand : pystr -> list Z).
Fixpoint run_host_binaries (top : pystr) (sources : list pystr) : xres unit :=
  match sources with
  | [] => Ret tt
  | source :: sources =>
      _ ← assertFalse (existsb (fun c => negb (c =? 0)%Z) (ExecuteShellCommand (path_join top [source]))) (PStr (bs "Test failed with the following results")) PNone;
      run_host_binaries top sources
  end.
Definition testHostBinary (android_build_top : pystr) (sources : list pystr) : xres unit :=
  _ ← assertTrue (negb (bool_decide (android_build_top = []))) (PStr (bs "$ANDROID_BUILD_TOP is not set. Please run lunch <build target>")) PNone;
  run_host_binaries android_build_top sources.
End host.

(** ** What a report of a crash says *)
Definition hex2 (b : Byte.byte) : pystr := [hex_digit (byteZ b / 16); hex_digit (byteZ b mod 16)].
(** The output of [xxd -p]: two digits for each byte, in lines. *)
Definition hexdump (content output : pystr) : Prop := filter (fun b => b ∉ remove_chars) output = mjoin (hex2 <$> content).

Lemma pairs_hex content fuel : 2 * length content <= fuel -> pairs fuel (mjoin (hex2 <$> content)) = mjoin ((fun b => [Byte.x5c; Byte.x78] ++ hex2 b) <$> content).
Proof.
  revert fuel. induction content as [|b content IH]; intros fuel Hf; [by destruct fuel|]. destruct fuel as [|fuel]; [cbn in Hf; lia|].
  cbn [fmap list_fmap mjoin list_join hex2 app pairs take drop]. do 4 f_equal. apply IH. cbn [length] in Hf. lia.
Qed.
Lemma length_hex content : length (mjoin (hex2 <$> content)) = 2 * length content.
Proof. induction content as [|b content IH]; [done|]. change (mjoin (hex2 <$> b :: content)) with (hex2 b ++ mjoin (hex2 <$> content)). rewrite length_app, IH. cbn. lia. Qed.

(** Every byte of the report of the fuzzer is in the log, in order, escaped; two crashes
    with one text had one content. *)
Theorem crash_report_spec content output :
  hexdump content output -> crash_report output = mjoin ((fun b => [Byte.x5c; Byte.x78] ++ hex2 b) <$> content).
Proof. unfold crash_report, hexdump. intros ->. apply pairs_hex. by rewrite length_hex. Qed.

Definition digit_value (c : Byte.byte) : Z := if (byteZ c <? 58)%Z then byteZ c - 48 else byteZ c - 87.
Definition unhex2 (l : pystr) : Byte.byte := match l with [h; l] => Zbyte (16 * digit_value h + digit_value l) | _ => Byte.x00 end.
Lemma unhex2_hex2 b : unhex2 (hex2 b) = b.
Proof. by destruct b. Qed.
Lemma hex2_inj a b : hex2 a = hex2 b -> a = b.
Proof. intros H. by rewrite <- (unhex2_hex2 a), H, unhex2_hex2. Qed.
Theorem crash_report_inj c1 o1 c2 o2 : hexdump c1 o1 -> hexdump c2 o2 -> crash_report o1 = crash_report o2 -> c1 = c2.
Proof.
  intros H1 H2. rewrite (crash_report_spec c1 o1 H1), (crash_report_spec c2 o2 H2). clear. revert c2.
  induction c1 as [|b c1 IH]; intros [|b2 c2]; cbn [fmap list_fmap mjoin list_join app]; try done.
  intros E. injection E as E. assert (hex2 b = hex2 b2) as Hb by (unfold hex2; congruence). apply hex2_inj in Hb as ->. f_equal. apply IH.
  by repeat (apply (f_equal (drop 1)) in E; cbn [drop] in E).
Qed.

(** ** Verdicts *)
Section verdict.
Context {D : Type} (shell : pystr -> D -> (Z * pystr) * D) (push : pystr -> xstM D unit).
Context (hasBooted : xstM D bool) (waitForBootCompletion : xstM D unit) (debug : pystr -> xstM D unit).
Context (dict_items : gmap pystr pystr -> list (pystr * pystr)) (data_file_path : pystr) (fuzzer_configs : gmap pystr fuzzer_config).
Abbreviation judge := (AssertTestResult shell hasBooted waitForBootCompletion debug).
Abbreviation run := (RunTestcase shell push hasBooted waitForBootCompletion debug dict_items data_file_path fuzzer_configs).

Lemma failed_never msg (s : D) s' : failed msg s <> (Ret tt, s').
Proof. done. Qed.
Lemma judge_passes fuzzer code s s' : judge fuzzer code s = (Ret tt, s') <-> hasBooted s = (Ret true, s') /\ code = FUZZER_TEST_PASS.
Proof.
  unfold AssertTestResult. rewrite xstM_bind_Ret. split.
  - intros (booted & s1 & Hb & H). destruct booted; cbn [negb] in H.
    + erewrite xstM_bind_run in H by reflexivity. destruct (Z.eqb_spec code FUZZER_TEST_FAIL) as [->|].
      * apply xstM_bind_Ret in H as (? & s2 & _ & H). done.
      * destruct (Z.eqb_spec code FUZZER_TEST_PASS) as [->|]; cbn [negb] in H; [|done]. by injection H as <-.
    + apply xstM_bind_Ret in H as (? & s2 & H & _). apply xstM_bind_Ret in H as (? & s3 & _ & H). done.
  - intros [Hb ->]. exists true, s'. split; [done|reflexivity].
Qed.

(** A fuzzer passes exactly when it was pushed with its corpus and made executable, it
    ended with the code for passing, and the device answers afterwards; in particular
    not when the device was lost, whatever the exit code. *)
Theorem fuzzer_passes fuzzer d d' :
  let c := default no_config (fuzzer_configs !! fuzzer) in
  run fuzzer d = (Ret tt, d') <->
  exists d1 corpus_dir d2 out d3 text d4,
    PushFiles push data_file_path fuzzer d = (Ret tt, d1) /\ CreateCorpus shell fuzzer c d1 = (Ret corpus_dir, d2) /\
    adb_shell shell (bs "chmod -R 755 " ++ path_join FUZZER_TEST_DIR [fuzzer]) d2 = (Ret out, d3) /\
    shell (fuzz_command fuzzer corpus_dir (CreateFuzzerFlags dict_items c)) d3 = ((FUZZER_TEST_PASS, text), d4) /\
    hasBooted d4 = (Ret true, d').
Proof.
  intros c. unfold RunTestcase. fold c. rewrite xstM_bind_Ret. split.
  - intros ([] & d1 & E1 & H). apply xstM_bind_Ret in H as (dir & d2 & E2 & H). apply xstM_bind_Ret in H as (out & d3 & E3 & H).
    apply xstM_bind_Ret in H as ([code text] & d4 & E4 & H). apply judge_passes in H as [Hb Hc]. cbn [fst] in Hc. subst code.
    exists d1, dir, d2, out, d3, text, d4. split_and!; try done. unfold try_shell in E4. destruct (shell _ d3) as [r d5]. by injection E4 as -> ->.
  - intros (d1 & dir & d2 & out & d3 & text & d4 & E1 & E2 & E3 & E4 & E5). exists tt, d1. split; [done|].
    rewrite (xstM_bind_run _ _ _ _ _ E2), (xstM_bind_run _ _ _ _ _ E3). erewrite xstM_bind_run by (unfold try_shell; rewrite E4; reflexivity).
    by apply judge_passes.
Qed.

(** Every entry of a corpus has a file of its own. *)
Lemma corpus_files_distinct (dir : pystr) (i j : nat) :
  path_join dir [bs "input" ++ str_int (Z.of_nat i)] = path_join dir [bs "input" ++ str_int (Z.of_nat j)] -> i = j.
Proof.
  unfold path_join. cbn [foldl]. unfold path_join2.
  assert (forall n, startswith sep (bs "input" ++ n) = false) as Hs by reflexivity. rewrite !Hs.
  intros H. assert (bs "input" ++ str_int (Z.of_nat i) = bs "input" ++ str_int (Z.of_nat j)) as E.
  { destruct (_ || _); [by apply app_inv_head in H|]. by do 2 apply app_inv_head in H. }
  apply app_inv_head in E. unfold str_int in E. rewrite !(proj2 (Z.ltb_ge _ 0)) in E by lia. apply str_nat_inj in E; lia.
Qed.
End verdict.

(** ** A device that runs one fuzzer *)
Module FuzzSample.
(** Whether it has booted, and its log. *)
Definition D : Type := bool * list pystr.
Definition shell (code : Z) (cmd : pystr) (d : D) : (Z * pystr) * D :=
  if contains (bs "/dev/null") cmd then ((code, []), (negb (code =? 1)%Z, d.2))
  else if contains (bs "xxd") cmd then ((0%Z, bs "00ff" ++ newline), d) else ((0%Z, []), d).
Definition run (code : Z) (fuzzer : pystr) : xres unit * D :=
  RunTestcase (shell code) (fun src d => (Ret tt, (d.1, d.2 ++ [src]))) (fun d => (Ret d.1, d)) (fun d => (Ret tt, (true, d.2))) (fun msg d => (Ret tt, (d.1, d.2 ++ [msg])))
    map_to_list (bs "/host") ∅ fuzzer (true, []).
End FuzzSample.

Lemma fuzzer_passes_witness : FuzzSample.run 0 (bs "f") = (Ret tt, (true, [bs "/host/DATA/bin/f /data/local/tmp/llvmfuzzer_test"])).
Proof.
  apply (fuzzer_passes (FuzzSample.shell 0)). do 7 eexists. split_and!; reflexivity.
Defined.

(** The three ways to fail; a crash is in the log. *)
Example fuzzer_fails :
  (FuzzSample.run 77 (bs "f")).1 = Exc (ESignal TestFailure (bs "f failed normally.") PNone) /\
  List.last (FuzzSample.run 77 (bs "f")).2.2 [] = bs "FUZZER_TEST_CRASH_REPORT for f: " ++ [Byte.x22] ++ bs "\x00\xff" ++ [Byte.x22] /\
  (FuzzSample.run 2 (bs "f")).1 = Exc (ESignal TestFailure (bs "f failed abnormally.") PNone) /\
  (FuzzSample.run 1 (bs "f")).1 = Exc (ESignal TestFailure (bs "f left the device in unresponsive state.") PNone).
Proof. vm_compute. by repeat split. Qed.

(** A fuzzer in a directory is pushed without it and run with it; the name of its test
    is that of the file alone. *)
Example directory_is_lost :
  (FuzzSample.run 0 (bs "a/f")).2.2 = [bs "/host/DATA/bin/a/f /data/local/tmp/llvmfuzzer_test"] /\
  startswith ([Byte.x27] ++ bs "cd /data/local/tmp/llvmfuzzer_test && LD_LIBRARY_PATH=/data/local/tmp/64:/data/local/tmp/32:$LD_LIBRARY_PATH ./a/f ")
    (fuzz_command (bs "a/f") (bs "d") (bs "-x")) = true /\
  fuzzer_name (bs "a/f") = fuzzer_name (bs "b/f").
Proof. vm_compute. by repeat split. Qed.

(** Without parameters of its own a fuzzer gets an empty dictionary for a number. *)
Example no_exec_size : SerializeVTSFuzzerParams no_config = bs "--vts_spec_files=" ++ [Byte.x22; Byte.x22] ++ bs " --vts_exec_size={}".
Proof. vm_compute. reflexivity. Qed.
