(* ===== verification/MoblyTest.v ===== *)
(** * Modules of another runner ([src/testcases/template/mobly/mobly_test.py])

    The class writes a configuration, lets the other runner execute its module, and puts
    the documents that it leaves into the results (Records).  The other runner, its files
    and the parser of documents are arguments. *)

From Stdlib Require Import Strings.Byte.
From S2P Require Import Prelude PyStr PyVal Records Signals BinaryTest Shell ListUtils.

Definition LIST_TEST_OUTPUT_START : pystr := bs "==========> ".
Definition LIST_TEST_OUTPUT_END : pystr := bs " <==========".
Definition TEMP_DIR_NAME : pystr := bs "temp".
Definition CONFIG_FILE_NAME : pystr := bs "test_config.yaml".
Definition MOBLY_RESULT_JSON_FILE_NAME : pystr := bs "test_run_summary.json".
Definition MOBLY_RESULT_YAML_FILE_NAME : pystr := bs "test_summary.yaml".
Definition DEVICES_REQUIRED : Z := 2.
Definition RESULT_TYPE_RECORD : pystr := bs "Record".

(** [MOBLY_CONFIG_TEXT.format(...)] *)
Definition config_text (module_name serial1 serial2 log_path : pystr) : pystr :=
  bs "TestBeds:" ++ newline ++ bs "  - Name: " ++ module_name ++ newline ++ bs "    Controllers:" ++ newline ++ bs "        AndroidDevice:" ++ newline ++
  bs "          - serial: " ++ serial1 ++ newline ++ bs "          - serial: " ++ serial2 ++ newline ++ newline ++
  bs "MoblyParams:" ++ newline ++ bs "    LogPath: " ++ log_path ++ newline.

(** ** Listing the tests *)
Definition listed (output : list pystr) : list pystr :=
  filter (fun line => negb (startswith LIST_TEST_OUTPUT_START line) && endswith LIST_TEST_OUTPUT_END line = true) output.

(** ** Documents *)
(** The fields of a document, each of which may be missing. *)
Record document := mk_document {
  doc_type : option pystr;
  doc_name : option pystr;
  doc_class : option pystr;
  doc_begin_time : option Z;
  doc_end_time : option Z;
  doc_result : option pystr;
  doc_uid : option pystr;
  doc_extras : pyval;
  doc_details : option pystr;
  doc_extra_errors : gmap pystr pystr;
}.
(** A text that is none of the four results is kept as none. *)
Definition result_of (text : option pystr) : option test_result :=
  text ≫= fun t => List.find (fun r => bool_decide (result_str r = t)) [PASS; FAIL; SKIP; ERROR].
Definition record_of (doc : document) : TestResultRecord :=
  mk_record (opt_text (doc_name doc)) (doc_class doc) (doc_begin_time doc) (doc_end_time doc) (doc_uid doc) (result_of (doc_result doc))
    (doc_extras doc) (doc_details doc) (doc_extra_errors doc) ∅.

Abbreviation state := (store * TestResult)%type.
Definition HandleRecord (doc : document) (s : state) : state :=
  let r := fresh (dom s.1) in
  let h := <[r := record_of doc]> s.1 in (h, addRecord h r s.2).
Definition handle (doc : document) (s : state) : state :=
  match doc_type doc with
  | None => s
  | Some type => if bool_decide (type = RESULT_TYPE_RECORD) then HandleRecord doc s else s
  end.
(** [ParseYamlResults]: the documents up to one that cannot be parsed; the error is
    printed. *)
Definition ParseYamlResults (docs : list document) (s : state) : state := foldl (fun s doc => handle doc s) s docs.
(** [ParseJsonResults] opens a name that is not defined. *)
Definition NameError : exc_class := UserException 30.
Definition ParseJsonResults (s : state) : xres state := Exc (EOther NameError (bs "global name 'path' is not defined")).

Definition GetMoblyResults (FindFile : pystr -> option (list document)) (json_found : bool) (s : state) : xres state :=
  match FindFile MOBLY_RESULT_YAML_FILE_NAME with
  | Some docs => Ret (ParseYamlResults docs s)
  | None => if json_found then ParseJsonResults s else _ ← fail (PStr (bs "Mobly test result file not found.")) PNone; Ret s
  end.

(** ** Running *)
(** The paths of the logs of both modules, which the other runner changes. *)
Record log_paths := mk_paths { logger_path : pystr; logging_path : pystr }.
Definition RunMoblyModule (main : xstM log_paths unit) : xstM log_paths unit :=
  s ← xget; xfinally main (xput s).
Definition mobly_setUpClass (devices : list pystr) : xres unit :=
  assertEqual (Z.of_nat (length devices)) DEVICES_REQUIRED (PStr (bs "Exactly 2 devices are required for this test.")) PNone.
Definition GetTestModuleNames (configs : list (option (list pystr))) : list pystr := foldl (fun x y => x ++ default [] y) [] configs.

(** ** What the results say *)
Definition is_record (doc : document) : bool := bool_decide (doc_type doc = Some RESULT_TYPE_RECORD).
Definition doc_fullname (doc : document) : pystr := fullname (record_of doc).
Record well_kept (s : state) : Prop := {
  kept_alloc : Forall (fun r => r ∈ dom s.1) (executed s.2);
  kept_names : NoDup ((fun r => fullname (rec s.1 r)) <$> executed s.2);
}.

Lemma handle_other doc s : is_record doc = false -> handle doc s = s.
Proof.
  unfold is_record, handle. intros H%bool_decide_eq_false. destruct (doc_type doc) as [t|]; [|done].
  rewrite bool_decide_eq_false_2; [done|]. by intros ->.
Qed.
Lemma handle_record doc s : is_record doc = true -> handle doc s = HandleRecord doc s.
Proof. unfold is_record, handle. intros ->%bool_decide_eq_true. by rewrite bool_decide_eq_true_2. Qed.

(** What is filed takes the place of what has its name. *)
Lemma HandleRecord_spec doc s : well_kept s ->
  let s' := HandleRecord doc s in let r := fresh (dom s.1) in
  well_kept s' /\ rec s'.1 r = record_of doc /\
  (forall x, x ∈ executed s'.2 <-> x = r \/ (x ∈ executed s.2 /\ fullname (rec s.1 x) <> doc_fullname doc)) /\
  (forall x, x ∈ dom s.1 -> rec s'.1 x = rec s.1 x).
Proof.
  intros [Ha Hn] s' r. assert (forall x, x ∈ dom s.1 -> x <> r) as Hfr by (intros x Hx ->; by apply (is_fresh (dom s.1))).
  assert (forall x, x ∈ dom s.1 -> rec s'.1 x = rec s.1 x) as Hother.
  { intros x Hx. unfold rec, s', HandleRecord. cbn [fst]. by rewrite lookup_insert_ne by (apply not_eq_sym, Hfr, Hx). }
  assert (rec s'.1 r = record_of doc) as Hr by (unfold rec, s', HandleRecord; cbn [fst]; by rewrite lookup_insert_eq).
  assert (executed s'.2 = filter (fun x => same s'.1 x r = false) (executed s.2) ++ [r]) as He.
  { unfold s', HandleRecord. cbn [fst snd]. by rewrite addRecord_lists. }
  rewrite Forall_forall in Ha.
  assert (forall x, x ∈ executed s.2 -> same s'.1 x r = false <-> fullname (rec s.1 x) <> doc_fullname doc) as Hsame.
  { intros x Hx. rewrite <- not_true_iff_false, same_eq, Hr, (Hother x (Ha x Hx)). done. }
  split_and!; [|done| |done].
  - split; rewrite He.
    + apply Forall_app. split; [|constructor; [|constructor]].
      * apply Forall_forall. intros x [_ Hx]%list_elem_of_filter. unfold s', HandleRecord. cbn [fst]. rewrite dom_insert. apply elem_of_union. right. by apply Ha.
      * unfold s', HandleRecord. cbn [fst]. rewrite dom_insert. by apply elem_of_union_l, elem_of_singleton.
    + rewrite fmap_app. apply NoDup_app. split_and!; [| |apply NoDup_singleton].
      * assert ((fun x => fullname (rec s'.1 x)) <$> filter (fun x => same s'.1 x r = false) (executed s.2) =
          (fun x => fullname (rec s.1 x)) <$> filter (fun x => same s'.1 x r = false) (executed s.2)) as ->.
        { apply list_fmap_ext. intros i x Hx%list_elem_of_lookup_2. apply list_elem_of_filter in Hx as [_ Hx]. by rewrite (Hother x (Ha x Hx)). }
        eapply sublist_NoDup; [exact Hn|]. apply fmap_sublist, sublist_filter.
      * intros n (x & -> & Hx)%list_elem_of_fmap Hin%list_elem_of_singleton. apply list_elem_of_filter in Hx as [Hs Hx].
        apply Hsame in Hs; [|done]. rewrite (Hother x (Ha x Hx)), Hr in Hin. done.
  - intros x. rewrite He, elem_of_app, list_elem_of_filter, list_elem_of_singleton. split.
    + intros [[Hs Hx]| -> ]; [right|by left]. split; [done|]. by apply Hsame.
    + intros [->|[Hx Hne]]; [by right|left]. split; [by apply Hsame|done].
Qed.

(** The results have one record for every name of a record that the documents report,
    the last one of that name, with the fields of its document. *)
Theorem every_record_is_filed docs s : well_kept s ->
  let s' := ParseYamlResults docs s in
  well_kept s' /\
  forall l1 doc l2, docs = l1 ++ doc :: l2 -> is_record doc = true ->
    Forall (fun d => is_record d = true -> doc_fullname d <> doc_fullname doc) l2 ->
    exists r, r ∈ executed s'.2 /\ rec s'.1 r = record_of doc.
Proof.
  unfold ParseYamlResults. induction docs as [|d docs IH] using rev_ind; intros Hs.
  { split; [done|]. by intros [|] doc l2. }
  destruct (IH Hs) as [Hk Hl]. rewrite foldl_app. cbn [foldl]. set (s1 := foldl _ s docs) in *.
  destruct (is_record d) eqn:Ed; [|rewrite handle_other by done; split; [done|]].
  - rewrite handle_record by done. destruct (HandleRecord_spec d s1 Hk) as (Hk' & Hr & Hex & Hother). split; [done|].
    intros l1 doc l2 E Hdoc Hl2. destruct l2 as [|d2 l2 _] using rev_ind.
    + apply app_inj_tail in E as [-> ->]. eexists. split; [apply Hex; by left|done].
    + change (docs ++ [d] = l1 ++ (doc :: l2) ++ [d2]) in E. rewrite app_assoc in E. apply app_inj_tail in E as [-> ->]. apply Forall_app in Hl2 as [Hl2 [Hd2 _]%Forall_cons].
      destruct (Hl l1 doc l2 eq_refl Hdoc Hl2) as (r & Hin & Hrec). exists r.
      pose proof (kept_alloc _ Hk) as Ha. rewrite Forall_forall in Ha. rewrite Hother by by apply Ha. split; [|done].
      apply Hex. right. split; [done|]. rewrite Hrec. intros Eq. by apply (Hd2 Ed).
  - intros l1 doc l2 E Hdoc Hl2. destruct l2 as [|d2 l2 _] using rev_ind.
    + apply app_inj_tail in E as [-> ->]. congruence.
    + change (docs ++ [d] = l1 ++ (doc :: l2) ++ [d2]) in E. rewrite app_assoc in E. apply app_inj_tail in E as [-> ->]. apply Forall_app in Hl2 as [Hl2 _].
      by apply (Hl l1 doc l2).
Qed.

Definition sample_document (name : string) (verdict : string) : document :=
  mk_document (Some RESULT_TYPE_RECORD) (Some (bs name)) (Some (bs "T")) (Some 1%Z) (Some 2%Z) (Some (bs verdict)) None PNone None ∅.
Example every_record_is_filed_witness :
  exists r, let s' := ParseYamlResults [sample_document "test_a" "FAIL"; sample_document "test_a" "PASS"] (∅, new_result) in
    r ∈ executed s'.2 /\ result (rec s'.1 r) = Some PASS.
Proof.
  destruct (every_record_is_filed [sample_document "test_a" "FAIL"; sample_document "test_a" "PASS"] (∅, new_result)) as [_ H].
  - split; constructor.
  - destruct (H [sample_document "test_a" "FAIL"] (sample_document "test_a" "PASS") [] eq_refl eq_refl ltac:(constructor)) as (r & Hin & Hr).
    exists r. split; [exact Hin|]. by rewrite Hr.
Defined.

(** Wherever the other runner leaves its log, both modules have their paths again. *)
Lemma log_paths_restored main s : (RunMoblyModule main s).2 = s.
Proof. unfold RunMoblyModule. erewrite xstM_bind_run by reflexivity. unfold xfinally. by destruct (main s) as [r s1]. Qed.

(** A line between the headers has no mark at its end, and a header has one at its
    start: nothing is listed, and nothing requested. *)
Lemma nothing_is_listed output :
  Forall (fun line => startswith LIST_TEST_OUTPUT_START line = endswith LIST_TEST_OUTPUT_END line) output -> listed output = [].
Proof.
  induction 1 as [|line output H _ IH]; [done|]. unfold listed in *. rewrite filter_cons, IH, H. by destruct (endswith _ _).
Qed.
Example listing : listed [bs "==========> LightTest <=========="; bs "test_on"; bs "test_off"] = [].
Proof. apply nothing_is_listed. by repeat constructor. Qed.

(** A summary in JSON is never read. *)
Example json_is_not_read : exists t, GetMoblyResults (fun _ => None) true (∅, new_result) = Exc (EOther NameError t).
Proof. by eexists. Qed.
